(* ===== verification/_CoqProject ===== *)
-Q . S2P
Prelude.v
Lzw.v
LzwRoundtrip.v
UdcCache.v
GpioKeys.v
RsEcc.v
NandSpl.v
Fstype.v
Mininit.v
Dma.v
Irq.v
NandEcc.v
NandCtrl.v
NandPlanes.v
Nandfix.v
I2c.v
Cpufreq.v
SplClock.v
ItemList.v
UdcDriver.v
UdcRequests.v
UdcShutdown.v
UdcControl.v
MmcDriver.v
MmcRequests.v
MmcSystem.v
MmcCard.v
MmcProbe.v
MmcRuns.v
I2sFill.v
I2sCodec.v
I2sDriver.v
I2sQueues.v
I2sSystem.v
I2sPlay.v
I2sSound.v
I2sRecord.v
I2sStart.v
I2sDemo.v
