(* ===== verification/Prelude.v ===== *)
(** * Verification of the Dingoo A320 software (dingoo-linux)

    The repository holds the software of a handheld console with a JZ4740
    (MIPS) processor: a boot loader on NAND flash, U-Boot 1.1.6 and Linux
    2.6.24.3 with the drivers of this machine, a first process that mounts the
    root file system, and a few tools.  Linux and U-Boot themselves come from
    elsewhere; this development is about the code written for this machine and
    the generic functions that code calls directly.

    ** The parts and how they interact

    The ROM loads the second-stage loader, which sets up clocks and memory
    ([SplClock]) and then ([NandSpl]) reads an image
    page by page, skipping bad blocks and repairing pages with the
    Reed-Solomon engine of the memory controller ([RsEcc]), and unpacks its
    pictures with an LZW decoder ([Lzw]); [Nandfix] is the tool that prepares
    page dumps for it.  The kernel drives the same flash with Hamming code or
    Reed-Solomon code and, on this chip, two planes at once ([NandEcc],
    [NandCtrl], [NandPlanes]); over USB, whose controller driver is [UdcDriver],
    the flash is seen through a sector cache ([UdcCache]).  Memory cards have a
    host driver of their own ([MmcDriver]), which moves data over DMA channels and
    sets the card's clock.  The sound driver ([I2sDriver]) copies samples between
    programs and fragments of memory that two DMA channels move to and from the
    codec on the chip ([I2sCodec]).  Below the drivers are interrupts ([Irq]), DMA channels ([Dma])
    and clocks ([Cpufreq], which builds on what [SplClock] left in the registers);
    beside them the buttons ([GpioKeys]) and the I2C bus ([I2c]).  Finally the
    kernel starts mininit ([Mininit], with the file system detection of
    [Fstype]), and the user sees the menu program, whose lists of items are
    [ItemList].

    ** Files

    - [Prelude] (this file): C integers, bounded arrays, bit streams, the
      tactics and hint databases ([dingoo], [zbits]) and lemmas all files share.
    - [Lzw]: [lzw_decode] of hwinit/lzw.c with its table of nodes whose links are
      reversed while a string is output.  [LzwRoundtrip]: a compressor for the
      format.
    - [UdcCache]: drivers/mtd/udc_cache.c, the whole file.  The translation layer
      below is a binary: class [MtdBlk] states what it promises.
    - [GpioKeys]: drivers/input/keyboard/jz_gpio_keys.c and the key events of
      drivers/input/input.c.
    - [RsEcc]: the correction functions of nand_spl/board/a320/nand_boot_jz4740.c
      and drivers/mtd/nand/jz4740_nand.c; the engine is the class [RsEngine] with
      the laws of a code that corrects four symbols ([RsEngineLaws]), and an
      instance.
    - [NandSpl]: the loader functions of nand_boot_jz4740.c over the class of a
      NAND bus.
    - [Fstype], [Mininit]: mininit/fstype.c, init.c and loop.c.  The kernel is any
      function from the history of system calls to an answer.
    - [Dma]: arch/mips/jz4740/dma.c and the inline functions of dma.h.
    - [Irq]: arch/mips/jz4740/irq.c.
    - [NandEcc]: drivers/mtd/nand/nand_ecc.c and [jzsoc_nand_hm_correct_data].
    - [NandCtrl]: chip select and command cycles of jz4740_nand.c and
      nand_base.c.
    - [NandPlanes]: the two-plane functions of jz4740_nand.c over the class
      [PlaneChip] of a chip with two or four planes with its laws, and a simulated
      chip as instance; and [nand_read_page_hwecc_rs] of nand_base.c.
    - [Nandfix]: nandfix/nandfix.c, between the readers of [NandPlanes] and
      [NandSpl].
    - [I2c]: drivers/i2c/busses/i2c-jz47xx.c; the device on the bus is any
      function of what happened on it.
    - [Cpufreq]: arch/mips/jz4740/cpufreq.c with the clock functions of clock.h
      and the table functions of drivers/cpufreq/freq_table.c.
    - [SplClock]: [pll_init] and [sdram_init] of u-boot-1.1.6,
      nand_spl/board/a320/jz4740.c, over the registers of [Cpufreq] and for any
      board parameters.
    - [ItemList]: gp2xmb/src/itemlist.c, linked cells in a heap; what is freed
      besides the cells, the icons and extra data of the callers, is recorded.
    - [UdcDriver]: drivers/usb/gadget/jz4740_udc.c, in a state monad; every
      register access is an event of a log, what registers hold is any function
      of the log, and the gadget driver is any function that makes calls from
      within its callbacks.  [UdcRequests]: an abstract ledger of requests that
      every entry point refines.  [UdcShutdown]: the end of a gadget driver.
      [UdcControl]: control reads as the host sees them.
    - [MmcDriver]: drivers/mmc/host/jz_mmc.c with [mmc_start_request] and
      [mmc_request_done] of drivers/mmc/core/core.c, in a state monad with an
      event log, over the channels of [Dma] and the clock registers of [Cpufreq].
      [MmcRequests]: a logic of total runs and what each function does to a
      request.  [MmcSystem]: all entry points as steps of one system.
      [MmcCard]: responses and clock.  [MmcProbe]: set-up and removal.
      [MmcRuns]: concrete runs.
    - [I2sFill]: the conversions between a program's samples and the words of the
      FIFO, and the settings of rate, size and channels, of sound/oss/jz_i2s.c.
      [I2sCodec]: sound/oss/jzcodec.c, the whole file, and the mixer commands.
      [I2sDriver]: the rest of jz_i2s.c, its buffer queues, both DMA interrupts and
      all file operations, as processes that an interrupt can come between at any
      point: a run takes a schedule that says where interrupts come, and a process
      sleeps when its semaphore is not up.  The page allocator is the class
      [allocator].
      [I2sQueues]: the queues under every operation.  [I2sSystem]: the invariant of
      the whole driver and rules for runs.  [I2sPlay], [I2sSound]: playing.
      [I2sRecord]: recording.  [I2sStart]: allocation at start.  [I2sDemo]: concrete
      runs.

    Operations keep the names of the C functions.  State is a record that is
    passed on; [None] is behaviour that C leaves undefined (an access outside of
    an array, a division by zero), so a theorem that gives [Some] also shows that
    it does not happen.  Registers are integers with the width written out
    where it matters ([u8], [u16], [u32], [shl32]).

    ** What the theorems show

    - LZW: the decoder with its pointer reversal computes the textbook
      decoder's result on every input that fits its table (C1), all of its loops
      end on every input (C2), and it inverts the compressor on every byte string
      up to 16 MB (C3).
    - USB cache: any sequence of requests behaves as on a plain disk (C4) and
      after a flush everything is on the medium (C5), as long as the layer below
      does not fail.
    - Buttons: the keys held pressed are those of the buttons at the last poll of
      their kind, slider released or held (C6); the power slider's timing (C7); which key combinations are system requests.
    - Menu: the linked lists refine a stack of lists, and free what goes with the
      items that leave (C8).
    - Boot loader: correction flips exactly the symbol named (C11); the image
      is loaded from the good blocks, corrected (C12), and the selected one is
      started ([nand_boot] in [NandSpl]).  Fix-up tool: what Linux reads from a page,
      the boot loader reads from the fixed one (C15); [Nandfix] also has the whole
      run.
    - mininit: the file system name (C16), the split of the command line within
      its array (C17), and that init is only executed after all steps before it, with
      the program, root and arguments of the command line that was read (C19);
      [Mininit] also has the mount attempts.
    - DMA: the channel table refines an allocator (C20, for channel numbers other
      than the one just past the table and modes with an existing transfer unit); [Dma] also shows that
      set-up programs the transfer asked for.
    - Interrupts: each handler call changes exactly its bits (C22); dispatch hands
      every pending source to [do_IRQ], lowest first, and loses none (C25).
    - NAND in the kernel: the Hamming code corrects one and detects two wrong
      bits (C26), both correction functions correct the same (C27, with other return
      values), two-plane reads correct errors (C29), writes read back (C30); without an id, the command cycles, erase
      of one block pair, and that page numbers map one to one.
    - I2C: a write at the start of a page and within a block makes a serial memory
      hold the buffer (C34); whatever the
      device does, reads and writes end as described.
    - Memory cards: whatever hardware and core do, every request is answered
      exactly once and the driver never touches an answered one (C36); commands
      are retried after a failure, as often as allowed and no more (C9); data
      requests start each transfer once per attempt of their command and report all
      or nothing (C24); the card's clock is the
      fastest allowed (C32).  Responses are the bits read, and a successful probe
      leaves the state that these theorems start from.
    - USB controller: a control read delivers exactly the request's bytes (C23,
      which also has the one case in which the request is not given back);
      requests are neither lost nor given back twice, whatever hardware and
      gadget driver do (C37); unregistering a gadget driver whose callbacks only
      queue gives all of them back (C38).
    - Clocks: the boot loader's memory timing for any parameters (C33); safety of
      memory from the boot loader on (C10); memory timing and refresh are safe at
      every write of any sequence of frequency changes from any boot settings that
      meet [boot_points] (C39); [Cpufreq] also shows that the requested operating
      point is selected.
    - Sound: whatever the schedule of interrupts, the samples written reach the
      codec once each and in order (C13), everything accepted is played by the next
      64 ends of transfers and a writer that sleeps is woken by the next (C18);
      what is read is what the codec recorded, in order (C21).  Conversion stays
      within a fragment except for 8-bit mono, where it never does, and for early
      silence in 16-bit stereo before a rate is set (C14), and at full volume
      recording inverts it up to marks in long silences (C31); the room that a query
      reports is there (C28); rate, size and channels stay within their types (C40);
      after start and any settings, whose return codes are given, the driver is
      ready to play and to record (C35).  C13, C18 and C28 are for the formats in
      which C14 stays inside: not 8-bit mono, and for 16-bit stereo with a rate set
      ([rate_set]); and for calls of whole samples that fit the temporary buffer,
      C21 for reads of whole fragments that do.  Examples in [I2sDemo] show what
      happens otherwise.

    ** Bounds and fuel

    Loops that do not follow their data have fuel: the LZW main loop
    [4 * length + 1] (a code takes nine bits at least; C2), its walks one more than
    the number of the code (running out is the result [OutOfFuel] for each of the three
    loops, which C2 excludes), the cache scans one more than the 256 entries, the loader's
    copy loop any number above the pages and blocks it passes (C12), counting
    bits of a byte 8 rounds, of a word 32.  In each case a theorem shows that the
    result is reached.  The polling loops of [I2c] end at the driver's limit.
    The walks of [ItemList] take one step per cell of the heap at most (C8).  In
    [UdcDriver] the fuel bounds the requests that one [nuke] ends, the packets of
    one interrupt without DMA, and the depth of completions within completions;
    C37 holds for any, C38 for more than the number of queued requests, C23 for
    1.  In [MmcDriver] the retries of a request bound its recursion (C36 shows that
    they are enough), and waits run as many rounds as their counter allows, by
    recursion on the binary number of rounds.  In [I2sDriver] the loops of a read
    and a write have as much fuel as there are fragments and bytes to move, which C21
    and C13 show to suffice, and the order of a page block is found within 32 doublings; schedules
    of interrupts are lists of any length.

    ** Not modelled

    Generic Linux and U-Boot code beyond the functions named; one-time register
    settings (hwinit, platform code, device registration), whose effect is the
    hardware's; delays and unbounded waits for hardware, which change no state;
    locks: the USB driver takes one around its entry points, which are single steps
    here, the sound driver around each queue operation, after which an interrupt can
    come; the memory card driver takes none, and its entry points are single steps
    because of the interrupt mask (see [MmcDriver]); the CHANGE_PLL and
    CONFIG_MTD_NAND_DMA code and the PIO functions and power management of
    jz_mmc.c, and the DLV codec and power management of jz_i2s.c, which no
    configuration of this machine compiles.  The display driver and platform code
    set registers once and register devices.  Of the touch screen and battery
    converter the configuration compiles one conversion that waits for one
    register.  The rest of the menu program draws through a library and reads its
    configuration through another. *)

From stdpp Require Export base numbers list gmap option fin_maps.
From Stdlib Require Export ZArith Lia Bool.

#[global] Open Scope Z_scope.

(** ** C integers

    All code modelled here is compiled for the o32 MIPS ABI: [int], [unsigned
    int] and [unsigned long] are 32 bits wide. *)

(** Truncation to an unsigned 32-bit value. *)
Definition u32 (x : Z) : Z := x mod 2 ^ 32.

(** Truncation to [unsigned short] and to [unsigned char]. *)
Definition u16 (x : Z) : Z := x mod 2 ^ 16.
Definition u8 (x : Z) : Z := x mod 2 ^ 8.

(** Conversion to a signed 32-bit [int]. *)
Definition s32 (x : Z) : Z := (x + 2 ^ 31) mod 2 ^ 32 - 2 ^ 31.

(** Left shift of an unsigned 32-bit value. *)
Definition shl32 (x n : Z) : Z := u32 (Z.shiftl x n).

(** ** Bounded memory

    Arrays are lists; reading or writing outside of one has no defined
    result. *)
Definition rd {A} (l : list A) (i : Z) : option A :=
  if 0 <=? i then l !! Z.to_nat i else None.

(** [l[i] = x], undefined out of range. *)
Definition wr {A} (l : list A) (i : Z) (x : A) : option (list A) :=
  if (0 <=? i) && (i <? Z.of_nat (length l)) then Some (<[Z.to_nat i := x]> l) else None.

(** ** Little-endian bit streams

    The number whose base-[2^b] digits, least significant first, are [ws]. *)
Fixpoint le_join (b : Z) (ws : list Z) : Z :=
  match ws with
  | [] => 0
  | w :: ws' => Z.lor w (Z.shiftl (le_join b ws') b)
  end.

(** [b]-bit digits. *)
Definition digit (b w : Z) : Prop := 0 <= w < 2 ^ b.

(** ** Tactics and hint databases *)

Create HintDb dingoo discriminated.
Create Rewrite HintDb zbits.

(** Boolean comparisons to propositions and back, then [lia]. *)
Ltac bool_lia :=
  repeat match goal with
  | H : (_ && _) = true |- _ => apply andb_prop in H; destruct H
  | H : (_ <=? _) = true |- _ => apply Z.leb_le in H
  | H : (_ <=? _) = false |- _ => apply Z.leb_gt in H
  | H : (_ <? _) = true |- _ => apply Z.ltb_lt in H
  | H : (_ <? _) = false |- _ => apply Z.ltb_ge in H
  | H : (_ =? _) = true |- _ => apply Z.eqb_eq in H
  | H : (_ =? _) = false |- _ => apply Z.eqb_neq in H
  | |- (_ && _) = true => apply andb_true_intro; split
  | |- (_ <=? _) = true => apply Z.leb_le
  | |- (_ <=? _) = false => apply Z.leb_gt
  | |- (_ <? _) = true => apply Z.ltb_lt
  | |- (_ <? _) = false => apply Z.ltb_ge
  | |- (_ =? _) = true => apply Z.eqb_eq
  | |- (_ =? _) = false => apply Z.eqb_neq
  end; try lia.

(** Case analysis on a comparison, with the resulting inequality. *)
Ltac zcases :=
  repeat match goal with
  | |- context [?a <=? ?b] => destruct (Z.leb_spec a b); try lia
  | |- context [?a <? ?b] => destruct (Z.ltb_spec a b); try lia
  | |- context [?a =? ?b] => destruct (Z.eqb_spec a b); try lia
  end.

(** ** Generic lemmas *)

Lemma testbit_high (b n w : Z) : digit b w -> b <= n -> Z.testbit w n = false.
Proof.
  intros [? Hw] Hn. destruct (Z.eq_dec w 0) as [->|]; [apply Z.bits_0|].
  apply Z.bits_above_log2; [lia|].
  apply Z.log2_lt_pow2; [lia|]. eapply Z.lt_le_trans; [exact Hw|].
  apply Z.pow_le_mono_r; lia.
Qed.

Lemma le_join_testbit_cons b w ws n :
  0 <= b -> digit b w -> 0 <= n ->
  Z.testbit (le_join b (w :: ws)) n =
    if n <? b then Z.testbit w n else Z.testbit (le_join b ws) (n - b).
Proof.
  intros Hb Hw Hn. simpl. rewrite Z.lor_spec.
  destruct (Z.ltb_spec n b).
  - rewrite Z.shiftl_spec_low by lia. apply orb_false_r.
  - rewrite (testbit_high b) by done. rewrite Z.shiftl_spec by lia. done.
Qed.

(** Bit [j] of digit [i] is bit [b*i+j] of the number. *)
Lemma le_join_testbit b ws i j :
  0 < b -> Forall (digit b) ws -> 0 <= i -> 0 <= j < b ->
  Z.testbit (le_join b ws) (b * i + j) =
    match rd ws i with Some w => Z.testbit w j | None => false end.
Proof.
  intros Hb Hws Hi Hj. unfold rd. rewrite (proj2 (Z.leb_le 0 i)) by done.
  remember (Z.to_nat i) as k eqn:Hk. revert i Hi Hk.
  revert k. induction Hws as [|w ws Hw Hws IH]; intros k i Hi Hk.
  { simpl. apply Z.bits_0. }
  rewrite le_join_testbit_cons by (done || nia).
  destruct k as [|k]; simpl.
  - assert (i = 0) as -> by lia. rewrite (proj2 (Z.ltb_lt _ _)) by lia.
    f_equal. lia.
  - rewrite (proj2 (Z.ltb_ge _ _)) by nia.
    rewrite <- (IH k (i - 1)) by lia. f_equal; lia.
Qed.

Lemma le_join_nonneg b ws : 0 <= b -> Forall (digit b) ws -> 0 <= le_join b ws.
Proof.
  intros Hb. induction 1 as [|w ws [] Hws IH]; simpl; [lia|].
  apply Z.lor_nonneg. split; [lia|]. apply Z.shiftl_nonneg. done.
Qed.

Lemma rd_Some {A} (l : list A) i x :
  rd l i = Some x <-> 0 <= i /\ l !! Z.to_nat i = Some x.
Proof. unfold rd. destruct (Z.leb_spec 0 i); naive_solver lia. Qed.

Lemma rd_lt {A} (l : list A) i :
  0 <= i < Z.of_nat (length l) -> exists x, rd l i = Some x.
Proof.
  intros Hi. destruct (lookup_lt_is_Some_2 l (Z.to_nat i)) as [x Hx]; [lia|].
  exists x. apply rd_Some. split; [lia|done].
Qed.

Lemma rd_ge {A} (l : list A) i : Z.of_nat (length l) <= i -> rd l i = None.
Proof.
  intros Hi. unfold rd. destruct (Z.leb_spec 0 i); [|done].
  apply lookup_ge_None. lia.
Qed.

Lemma rd_Some_lt {A} (l : list A) i x :
  rd l i = Some x -> 0 <= i < Z.of_nat (length l).
Proof. intros [? ?%lookup_lt_Some]%rd_Some. lia. Qed.

Lemma default_last_cons {A} (d a : A) l : default d (last (a :: l)) = default a (last l).
Proof. rewrite last_cons. by destruct (last l). Qed.

Lemma rd_None_ge {A} (l : list A) i : 0 <= i -> rd l i = None -> Z.of_nat (length l) <= i.
Proof.
  intros Hi Hn. destruct (Z.le_gt_cases (Z.of_nat (length l)) i); [done|].
  destruct (rd_lt l i) as [x Hx]; [lia|congruence].
Qed.

(** The least width that tells [n + 1] codes apart, from the one for [n]. *)
Lemma log2_up_succ n :
  1 < n -> Z.log2_up (n + 1) =
    if 2 ^ Z.log2_up n <? n + 1 then Z.log2_up n + 1 else Z.log2_up n.
Proof.
  intros Hn. pose proof (Z.log2_up_spec n Hn) as [Hlo Hhi].
  assert (0 < Z.log2_up n) by (apply Z.log2_up_pos; lia).
  destruct (Z.ltb_spec (2 ^ Z.log2_up n) (n + 1)) as [Hlt|Hge];
    apply Z.log2_up_unique; [lia| |lia|].
  - rewrite Z.pow_add_r by lia. replace (Z.pred (Z.log2_up n + 1)) with (Z.log2_up n) by lia.
    lia.
  - lia.
Qed.

(** Testing a single-bit mask is testing the bit. *)
Lemma land_pow2_testbit x i : 0 <= i -> negb (Z.land x (2 ^ i) =? 0) = Z.testbit x i.
Proof.
  intros Hi. destruct (Z.testbit x i) eqn:Hb.
  - apply negb_true_iff, Z.eqb_neq. intros Hz.
    assert (Z.testbit (Z.land x (2 ^ i)) i = true) as Ht
      by (rewrite Z.land_spec, Hb, Z.pow2_bits_true by lia; done).
    rewrite Hz, Z.bits_0 in Ht. done.
  - apply negb_false_iff, Z.eqb_eq. apply Z.bits_inj'. intros n Hn.
    rewrite Z.land_spec, Z.bits_0, Z.pow2_bits_eqb by lia.
    destruct (Z.eqb_spec i n) as [->|]; [by rewrite Hb|by rewrite andb_false_r].
Qed.

Lemma shl32_pow2 i : 0 <= i -> i + 1 < 32 -> shl32 (2 ^ i) 1 = 2 ^ (i + 1).
Proof.
  intros Hi Hlt. unfold shl32, u32. rewrite Z.shiftl_mul_pow2 by lia.
  rewrite <- Z.pow_add_r by lia. apply Z.mod_small. split; [lia|].
  apply Z.pow_lt_mono_r; lia.
Qed.

Lemma wr_Some {A} (l : list A) i x :
  0 <= i < Z.of_nat (length l) -> wr l i x = Some (<[Z.to_nat i := x]> l).
Proof.
  intros Hi. unfold wr. by rewrite (proj2 (Z.leb_le _ _)), (proj2 (Z.ltb_lt _ _)) by lia.
Qed.

Lemma digit_land_255 x : digit 8 (Z.land x 255).
Proof. unfold digit. change 255 with (Z.ones 8). rewrite Z.land_ones by lia. by apply Z.mod_pos_bound. Qed.

Lemma le_join_inj b l1 l2 :
  0 < b -> length l1 = length l2 -> Forall (digit b) l1 -> Forall (digit b) l2 ->
  le_join b l1 = le_join b l2 -> l1 = l2.
Proof.
  intros Hb Hlen H1 H2 Heq. apply list_eq. intros i.
  destruct (l1 !! i) as [x|] eqn:Hx.
  2: { apply lookup_ge_None in Hx. symmetry. apply lookup_ge_None. lia. }
  destruct (lookup_lt_is_Some_2 l2 i) as [y Hy]; [apply lookup_lt_Some in Hx; lia|].
  rewrite Hy. f_equal. apply Z.bits_inj'. intros n Hn.
  destruct (Z.lt_ge_cases n b).
  - pose proof (le_join_testbit b l1 (Z.of_nat i) n Hb H1) as E1.
    pose proof (le_join_testbit b l2 (Z.of_nat i) n Hb H2) as E2.
    rewrite (proj2 (rd_Some l1 _ x)) in E1 by (split; [lia|]; by rewrite Nat2Z.id).
    rewrite (proj2 (rd_Some l2 _ y)) in E2 by (split; [lia|]; by rewrite Nat2Z.id).
    rewrite <- E1, <- E2, Heq by lia. done.
  - assert (digit b x) by (by eapply Forall_lookup_1; [exact H1|]).
    assert (digit b y) by (by eapply Forall_lookup_1; [exact H2|]).
    by rewrite !(testbit_high b).
Qed.

Lemma rd_insert {A} (l : list A) i k (x : A) :
  0 <= i < Z.of_nat (length l) -> 0 <= k ->
  rd (<[Z.to_nat i := x]> l) k = if k =? i then Some x else rd l k.
Proof.
  intros Hi Hk. unfold rd. rewrite (proj2 (Z.leb_le 0 k)) by done.
  destruct (Z.eqb_spec k i) as [->|Hne].
  - rewrite list_lookup_insert_eq by lia. done.
  - rewrite list_lookup_insert_ne by lia. done.
Qed.

(** Bit [n] of a byte cut out of [m] at bit [8 * k]. *)
Lemma byte_testbit m k j :
  0 <= k -> 0 <= j < 8 -> Z.testbit (Z.land (Z.shiftr m (8 * k)) 255) j = Z.testbit m (8 * k + j).
Proof.
  intros Hk Hj. change 255 with (Z.ones 8).
  rewrite Z.land_spec, Z.ones_spec_low, andb_true_r, Z.shiftr_spec by lia. f_equal. lia.
Qed.

Lemma rd_lookup {A} (l : list A) i : 0 <= i -> rd l i = l !! Z.to_nat i.
Proof. intros Hi. unfold rd. by rewrite (proj2 (Z.leb_le 0 i)). Qed.

Lemma wr_length {A} (l l' : list A) i x : wr l i x = Some l' -> length l' = length l.
Proof. unfold wr. destruct (_ && _); [|done]. intros [= <-]. apply length_insert. Qed.

Lemma rd_wr {A} (l l' : list A) i k x :
  wr l i x = Some l' -> 0 <= k -> rd l' k = if k =? i then Some x else rd l k.
Proof.
  unfold wr. destruct (_ && _) eqn:Hi; [|done]. intros [= <-] Hk. apply rd_insert; bool_lia.
Qed.

Lemma wr_None {A} (l : list A) i x : wr l i x = None -> i < 0 \/ Z.of_nat (length l) <= i.
Proof. unfold wr. destruct (Z.leb_spec 0 i), (Z.ltb_spec i (Z.of_nat (length l))); try done; lia. Qed.

(** A number without bits from [b] up is a [b]-bit digit. *)
Lemma digit_of_bits b x : 0 <= b -> 0 <= x -> (forall n, b <= n -> Z.testbit x n = false) -> digit b x.
Proof.
  intros Hb Hx Hbits. split; [done|]. destruct (Z.eq_dec x 0) as [->|]; [lia|].
  apply Z.log2_lt_pow2; [lia|]. destruct (Z.lt_ge_cases (Z.log2 x) b) as [|Hge]; [done|].
  apply Hbits in Hge. by rewrite Z.bit_log2 in Hge by lia.
Qed.

Lemma digit_lor b x y : 0 <= b -> digit b x -> digit b y -> digit b (Z.lor x y).
Proof.
  intros Hb Hx Hy. apply digit_of_bits; [done|apply Z.lor_nonneg; split; [apply Hx|apply Hy]|].
  intros n Hn. by rewrite Z.lor_spec, !(testbit_high b).
Qed.

Lemma digit_lxor b x y : 0 <= b -> digit b x -> digit b y -> digit b (Z.lxor x y).
Proof.
  intros Hb Hx Hy. apply digit_of_bits; [done|apply Z.lxor_nonneg; destruct Hx, Hy; lia|].
  intros n Hn. by rewrite Z.lxor_spec, !(testbit_high b).
Qed.

Lemma digit_land b x y : 0 <= b -> digit b x -> digit b (Z.land x y).
Proof.
  intros Hb Hx. apply digit_of_bits; [done|apply Z.land_nonneg; left; apply Hx|].
  intros n Hn. by rewrite Z.land_spec, (testbit_high b).
Qed.

Lemma digit_ldiff b x y : 0 <= b -> digit b x -> digit b (Z.ldiff x y).
Proof.
  intros Hb Hx. apply digit_of_bits; [done|apply Z.ldiff_nonneg; left; apply Hx|].
  intros n Hn. by rewrite Z.ldiff_spec, (testbit_high b).
Qed.

#[export] Hint Resolve rd_Some_lt digit_lxor digit_lor digit_land digit_ldiff digit_land_255 : dingoo.
#[export] Hint Rewrite Z.land_spec Z.lor_spec Z.lxor_spec Z.ldiff_spec Z.bits_0 : zbits.
