(* ===== verification/Lzw.v ===== *)
(** * LZW decoder of the boot logo (hwinit/lzw.c)

    [lzw_decode] is shared by hwinit and by the NAND boot loader.  It decodes
    a little-endian bit stream of variable-width codes with a node table that
    holds only one symbol and one parent link per code: a code is output by
    reversing the parent links up to the head of the chain, then walking the
    reversed links forward while restoring them.

    The first part translates the function statement by statement; the second
    part defines the textbook decoder over a dictionary of strings; the third
    part proves that the first implements the second. *)

From S2P Require Import Prelude.

(** ** The code *)

Record lzw_node := LzwNode { symbol : Z; parent : Z; son : Z }.

(** Local variables of [lzw_decode] that live across iterations of its main
    loop.  [node] overlays the initial contents of the memory at [temp], [s]
    is the index of the word [*s] in the source, [out] the bytes stored so
    far from [dst] on, so that [d - dst] is its length.  The function is not told
    how large [dst] is: the caller provides room for the decoded image, which is
    also shorter than [2 ^ 31] bytes, so that the result fits an [int]. *)
Record lzw_state := LzwState {
  node : gmap Z lzw_node;
  s_idx : Z;
  out : list Z;
  fixn : Z;
  count : Z;
  bits : Z;
  bitpos : Z }.

Inductive lzw_result :=
  | Returned (ret : Z) (bytes : list Z)
  | Undefined          (** a read past the end of [src] *)
  | PastTable          (** an access outside of the node table *)
  | OutOfFuel.         (** one of the three loops does not end *)

(** How a walk along the links of the table ends. *)
Inductive lzw_walk (A : Type) :=
  | Walked (a : A)
  | Outside
  | Endless.
#[global] Arguments Walked {A} a.
#[global] Arguments Outside {A}.
#[global] Arguments Endless {A}.

Section Decoder.

(** [mem0] is what the memory at [temp] holds before the call, seen as an
    array of nodes, and [cap] is the number of nodes that fit in it. *)
Context (mem0 : Z -> lzw_node) (cap : Z).

Definition nd (m : gmap Z lzw_node) (i : Z) : lzw_node := default (mem0 i) (m !! i).

Definition in_cap (i : Z) : bool := (0 <=? i) && (i <? cap).

(** [node[i].parent = p] and [node[i].symbol = v]. *)
Definition set_parent (m : gmap Z lzw_node) (i p : Z) : gmap Z lzw_node :=
  <[i := LzwNode (symbol (nd m i)) p (son (nd m i))]> m.
Definition set_symbol (m : gmap Z lzw_node) (i v : Z) : gmap Z lzw_node :=
  <[i := LzwNode v (parent (nd m i)) (son (nd m i))]> m.

(** [for (i = 0; i < count; i++) { node[i].symbol = i; node[i].parent = -1; }] *)
Fixpoint init_nodes (n : nat) (i : Z) (m : gmap Z lzw_node) : gmap Z lzw_node :=
  match n with
  | O => m
  | S n' => init_nodes n' (i + 1) (set_parent (set_symbol m i (u8 i)) i (-1))
  end.

(** [for (i = -1, j = c;; i = j, j = k) { ... if (k < 0) break; }]
    returns the table with [j] and [k] as the loop leaves them. *)
Fixpoint walk_back (fuel : nat) (m : gmap Z lzw_node) (i j : Z)
  : lzw_walk (gmap Z lzw_node * Z * Z) :=
  match fuel with
  | O => Endless
  | S fuel' =>
      if in_cap j then
        let k := parent (nd m j) in
        let m' := set_parent m j i in
        if k <? 0 then Walked (m', j, k) else walk_back fuel' m' j k
      else Outside
  end.

(** [for (;; k = j, j = i) { *d++ = node[j].symbol; ... if (i < 0) break; }] *)
Fixpoint walk_forward (fuel : nat) (m : gmap Z lzw_node) (k j : Z)
  : lzw_walk (gmap Z lzw_node * list Z) :=
  match fuel with
  | O => Endless
  | S fuel' =>
      if in_cap j then
        let c := symbol (nd m j) in
        let i := parent (nd m j) in
        let m' := set_parent m j k in
        if i <? 0 then Walked (m', [c])
        else match walk_forward fuel' m' j i with
             | Walked (m'', cs) => Walked (m'', c :: cs)
             | w => w
             end
      else Outside
  end.

(** Extraction of the next code: the code, the new [s] and the new [bitpos]. *)
Definition next_code (src : list Z) (st : lzw_state) : option (Z * Z * Z) :=
  match rd src (s_idx st) with
  | None => None
  | Some w =>
      let c := Z.shiftr w (bitpos st) in
      let bp := bitpos st + bits st in
      let mask := Z.shiftl 1 (bits st) - 1 in
      if 32 <=? bp then
        let bp' := bp - 32 in
        match rd src (s_idx st + 1) with
        | None => None
        | Some w' =>
            Some (Z.land (Z.lor c (shl32 w' (bits st - bp'))) mask,
                  s_idx st + 1, bp')
        end
      else Some (Z.land c mask, s_idx st, bp)
  end.

Inductive lzw_step_result :=
  | Continue (st : lzw_state)
  | Stop (r : lzw_result).

(** One iteration of the main loop. *)
Definition lzw_step (src : list Z) (st : lzw_state) : lzw_step_result :=
  match next_code src st with
  | None => Stop Undefined
  | Some (c, s', bp') =>
      if count st <=? c then Stop (Returned (-1) (out st))
      else if c =? 256 then Stop (Returned (Z.of_nat (length (out st))) (out st))
      else
        match walk_back (S (Z.to_nat c)) (node st) (-1) c with
        | Endless => Stop OutOfFuel
        | Outside => Stop PastTable
        | Walked (m1, j, k) =>
            let m2 := if 0 <=? fixn st
                      then set_symbol m1 (fixn st) (symbol (nd m1 j)) else m1 in
            match walk_forward (S (Z.to_nat c)) m2 k j with
            | Endless => Stop OutOfFuel
            | Outside => Stop PastTable
            | Walked (m3, cs) =>
                if in_cap (count st) then
                  let count' := count st + 1 in
                  Continue {| node := set_parent m3 (count st) c;
                              s_idx := s';
                              out := out st ++ cs;
                              fixn := count st;
                              count := count';
                              bits := if Z.shiftl 1 (bits st) <? count'
                                      then bits st + 1 else bits st;
                              bitpos := bp' |}
                else Stop PastTable
            end
        end
  end.

Fixpoint lzw_loop (fuel : nat) (src : list Z) (st : lzw_state) : lzw_result :=
  match fuel with
  | O => OutOfFuel
  | S fuel' =>
      match lzw_step src st with
      | Stop r => r
      | Continue st' => lzw_loop fuel' src st'
      end
  end.

Definition lzw_init : lzw_state :=
  {| node := init_nodes 257 0 ∅; s_idx := 0; out := []; fixn := -1;
     count := 257; bits := 9; bitpos := 0 |}.

(** Every iteration consumes at least 9 bits, so [4 * length src + 1]
    iterations are enough, and the links of a code go down, so that [c + 1] steps
    are enough for a walk (see [lzw_decode_terminates]). *)
Definition lzw_decode (src : list Z) : lzw_result :=
  if cap <? 257 then PastTable else lzw_loop (4 * length src + 1) src lzw_init.

End Decoder.

(** ** The textbook decoder

    The dictionary maps a code to the string it stands for; the entry of code
    256, the end marker, is never used.  [prev] is the string of the previous
    code, which the next one extends into a new entry.  The stream is one
    number, read [width] bits at a time. *)

Record ref_state := RefState {
  dict : list (list Z);
  prev : option (list Z);
  rpos : Z;
  rout : list Z }.

Definition ref_count (st : ref_state) : Z :=
  Z.of_nat (length (dict st)) + (match prev st with Some _ => 1 | None => 0 end).

(** The string of a code: its entry, or, for the entry under construction,
    the previous string extended with its own first symbol. *)
Definition ref_string (st : ref_state) (c : Z) : list Z :=
  match dict st !! Z.to_nat c with
  | Some str => str
  | None => match prev st with Some p => p ++ take 1 p | None => [] end
  end.

Definition code_at (src : list Z) (pos width : Z) : Z :=
  Z.land (Z.shiftr (le_join 32 src) pos) (Z.ones width).

(** The width of a code is the least one that can tell all the current codes
    apart.  A code that ends with the last word is not readable: the
    implementation fetches the following word in that case. *)
Definition ref_step (src : list Z) (st : ref_state) : ref_state + lzw_result :=
  let width := Z.log2_up (ref_count st) in
  if 32 * Z.of_nat (length src) <=? rpos st + width then inr Undefined
  else
    let c := code_at src (rpos st) width in
    if ref_count st <=? c then inr (Returned (-1) (rout st))
    else if c =? 256 then
      inr (Returned (Z.of_nat (length (rout st))) (rout st))
    else
      let str := ref_string st c in
      inl {| dict := match prev st with
                     | None => dict st
                     | Some p => dict st ++ [p ++ take 1 str]
                     end;
             prev := Some str;
             rpos := rpos st + width;
             rout := rout st ++ str |}.

Fixpoint ref_loop (fuel : nat) (src : list Z) (st : ref_state) : lzw_result :=
  match fuel with
  | O => OutOfFuel
  | S fuel' =>
      match ref_step src st with
      | inr r => r
      | inl st' => ref_loop fuel' src st'
      end
  end.

Definition ref_init : ref_state :=
  {| dict := ((fun i => [Z.of_nat i]) <$> seq 0 256) ++ [[]];
     prev := None; rpos := 0; rout := [] |}.

Definition ref_decode (src : list Z) : lzw_result :=
  ref_loop (4 * length src + 1) src ref_init.

(** ** Pointer reversal *)

Section Reversal.
Context (mem0 : Z -> lzw_node) (cap : Z).

Abbreviation nd := (nd mem0).
Abbreviation set_parent := (set_parent mem0).
Abbreviation set_symbol := (set_symbol mem0).

(** Two tables with the same contents. *)
Definition same_table (m m' : gmap Z lzw_node) : Prop := forall i, nd m i = nd m' i.

#[local] Infix "=t" := same_table (at level 70).

#[export] Instance same_table_equiv : Equivalence same_table.
Proof. split; unfold same_table; [done|by intros ? ? H i; rewrite H|]. intros m1 m2 m3 H1 H2 i. by rewrite H1. Qed.

Lemma nd_set_parent m i p j :
  nd (set_parent m i p) j =
    if decide (i = j) then LzwNode (symbol (nd m i)) p (son (nd m i)) else nd m j.
Proof.
  unfold Lzw.nd, Lzw.set_parent. rewrite lookup_insert. by case_decide.
Qed.

Lemma nd_set_symbol m i v j :
  nd (set_symbol m i v) j =
    if decide (i = j) then LzwNode v (parent (nd m i)) (son (nd m i)) else nd m j.
Proof.
  unfold Lzw.nd, Lzw.set_symbol. rewrite lookup_insert. by case_decide.
Qed.

#[export] Instance set_parent_proper :
  Proper (same_table ==> eq ==> eq ==> same_table) set_parent.
Proof.
  intros m m' Hm i ? <- p ? <- j. rewrite !nd_set_parent, !(Hm _). done.
Qed.

#[export] Instance set_symbol_proper :
  Proper (same_table ==> eq ==> eq ==> same_table) set_symbol.
Proof.
  intros m m' Hm i ? <- p ? <- j. rewrite !nd_set_symbol, !(Hm _). done.
Qed.

(** [chain m j l]: [l] is the list of nodes from [j] to its head. *)
Inductive chain (m : gmap Z lzw_node) : Z -> list Z -> Prop :=
  | chain_head j : 0 <= j -> parent (nd m j) = -1 -> chain m j [j]
  | chain_link j l : 0 <= parent (nd m j) < j -> chain m (parent (nd m j)) l ->
      chain m j (j :: l).

(** The code [j] stands for the string [str]. *)
Definition spells (m : gmap Z lzw_node) (j : Z) (str : list Z) : Prop :=
  exists l, chain m j l /\ (fun x => symbol (nd m x)) <$> reverse l = str.

Lemma chain_bound m j l : chain m j l -> 0 <= j /\ Forall (fun x => 0 <= x <= j) l.
Proof.
  induction 1 as [j Hj|j l Hp Hl [IHj IHl]]; [split; [lia|repeat constructor; lia]|].
  split; [lia|]. constructor; [lia|].
  eapply Forall_impl; [exact IHl|]. simpl. lia.
Qed.

Lemma chain_tail_bound m j l x :
  chain m j (j :: l) -> x ∈ l -> 0 <= x < j.
Proof.
  inversion 1 as [|? ? Hp Hl]; subst; intros Hx; [set_solver|].
  apply chain_bound in Hl as [_ Hl]. rewrite Forall_forall in Hl.
  specialize (Hl _ Hx). simpl in Hl. lia.
Qed.

Lemma chain_head_eq m j l : chain m j l -> exists l', l = j :: l'.
Proof. inversion 1; eauto. Qed.

Lemma chain_NoDup m j l : chain m j l -> NoDup l.
Proof.
  induction 1 as [|j l Hp Hl IH]; [apply NoDup_singleton|].
  constructor; [|done]. intros Hj.
  assert (0 <= j < j); [|lia]. eapply (chain_tail_bound m j l); [|done].
  by constructor.
Qed.

Lemma chain_length m j l : chain m j l -> Z.of_nat (length l) <= j + 1.
Proof. induction 1; simpl length; lia. Qed.

(** A chain depends only on the parents of its nodes. *)
Lemma chain_ext m m' j l :
  (forall x, x ∈ l -> parent (nd m' x) = parent (nd m x)) -> chain m j l -> chain m' j l.
Proof.
  intros Heq. induction 1 as [j Hj Hp|j l Hp Hl IH].
  - constructor; [done|]. rewrite Heq by set_solver. done.
  - assert (parent (nd m' j) = parent (nd m j)) as E by (apply Heq; set_solver).
    constructor; rewrite E; [done|]. apply IH. set_solver.
Qed.

(** The table after the backward walk over [l], coming from [i]. *)
Fixpoint rev_links (m : gmap Z lzw_node) (i : Z) (l : list Z) : gmap Z lzw_node :=
  match l with
  | [] => m
  | a :: l' => rev_links (set_parent m a i) a l'
  end.

#[export] Instance rev_links_proper :
  Proper (same_table ==> eq ==> eq ==> same_table) rev_links.
Proof.
  intros m m' Hm i ? <- l ? <-. revert m m' Hm i.
  induction l as [|a l IH]; intros m m' Hm i; simpl; [done|].
  apply IH. by rewrite Hm.
Qed.

Lemma rev_links_app m k l1 l2 :
  rev_links m k (l1 ++ l2) = rev_links (rev_links m k l1) (default k (last l1)) l2.
Proof.
  revert m k. induction l1 as [|a l1 IH]; intros m k; simpl; [done|].
  rewrite IH. f_equal. by rewrite default_last_cons.
Qed.

Lemma nd_rev_links_other m k l x : x ∉ l -> nd (rev_links m k l) x = nd m x.
Proof.
  revert m k. induction l as [|a l IH]; intros m k Hx; simpl; [done|].
  rewrite IH by set_solver. rewrite nd_set_parent, decide_False by set_solver. done.
Qed.

(** Reversing links changes neither symbols nor sons. *)
Lemma rev_links_frame m k l x :
  symbol (nd (rev_links m k l) x) = symbol (nd m x) /\
  son (nd (rev_links m k l) x) = son (nd m x).
Proof.
  revert m k. induction l as [|a l IH]; intros m k; simpl; [done|].
  destruct (IH (set_parent m a k) a) as [-> ->].
  rewrite nd_set_parent. case_decide; by subst.
Qed.

(** The nodes of [l] are linked in order by their parents, the last one to [e]. *)
Fixpoint linked (m : gmap Z lzw_node) (e : Z) (l : list Z) : Prop :=
  match l with
  | [] => True
  | a :: r => parent (nd m a) = default e (head r) /\ linked m e r
  end.

Lemma linked_snoc m e a l :
  linked m a l -> parent (nd m a) = e -> linked m e (l ++ [a]).
Proof.
  intros Hl Ha. induction l as [|b l IH]; simpl in *; [done|].
  destruct Hl as [Hb Hl]. split; [|by apply IH].
  rewrite Hb. by destruct l.
Qed.

Lemma linked_ext m m' e l :
  (forall x, x ∈ l -> parent (nd m' x) = parent (nd m x)) -> linked m e l -> linked m' e l.
Proof.
  intros Heq. induction l as [|a l IH]; simpl; [done|].
  intros [Ha Hl]. split; [rewrite Heq by set_solver; done|].
  apply IH; [set_solver|done].
Qed.

Lemma chain_linked m j l : chain m j l -> linked m (-1) l.
Proof.
  induction 1 as [j Hj Hp|j l Hp Hl IH]; simpl; [done|]. split; [|done].
  by apply chain_head_eq in Hl as [l' ->].
Qed.

Lemma rev_links_linked m i l :
  NoDup l -> linked (rev_links m i l) i (reverse l).
Proof.
  intros Hl. revert m i. induction Hl as [|a l Ha Hl IH]; intros m i; simpl; [done|].
  rewrite reverse_cons. apply linked_snoc; [apply IH|].
  rewrite nd_rev_links_other by done. rewrite nd_set_parent, decide_True; done.
Qed.

(** Walking back restores the links that walking forth reversed. *)
Lemma rev_links_involutive m i l :
  NoDup l -> linked m (-1) l -> same_table (rev_links (rev_links m i l) (-1) (reverse l)) m.
Proof.
  intros Hnd. revert m i. induction Hnd as [|a l Ha Hl IH]; intros m i Hlink; simpl; [done|].
  destruct Hlink as [Hpa Hlink].
  rewrite reverse_cons, rev_links_app. simpl.
  rewrite IH.
  - rewrite last_reverse, <- Hpa. intros x.
    rewrite !nd_set_parent. repeat case_decide; subst; simpl; try done.
    by destruct (nd m x).
  - eapply linked_ext; [|exact Hlink]. intros x Hx.
    rewrite nd_set_parent, decide_False by set_solver. done.
Qed.

Lemma walk_back_spec l : forall m i j fuel,
  chain m j l -> Forall (fun x => in_cap cap x = true) l -> (length l <= fuel)%nat ->
  walk_back mem0 cap fuel m i j = Walked (rev_links m i l, default j (last l), -1).
Proof.
  induction l as [|a l IH]; intros m i j fuel Hch Hcap Hfuel; [inversion Hch|].
  pose proof (chain_NoDup _ _ _ Hch) as Hnd. inversion Hnd as [|? ? Hal _]; subst.
  inversion Hcap as [|? ? Hja Hcap']; subst.
  destruct fuel as [|fuel]; simpl in Hfuel; [lia|]. simpl.
  inversion Hch as [? Hj Hp|? ? Hp Hl]; subst; rewrite Hja.
  - rewrite Hp. done.
  - rewrite (proj2 (Z.ltb_ge _ _)) by lia.
    rewrite (IH _ _ _ fuel); [|..|lia]; [|eapply chain_ext; [|exact Hl]|done].
    + rewrite default_last_cons. destruct (chain_head_eq _ _ _ Hl) as [l' ->].
      by rewrite !default_last_cons.
    + intros x Hx. rewrite nd_set_parent, decide_False by set_solver. done.
Qed.

Lemma walk_forward_spec l : forall m k j fuel,
  NoDup (j :: l) -> linked m (-1) (j :: l) ->
  Forall (fun x => in_cap cap x = true) (j :: l) -> (length l < fuel)%nat ->
  walk_forward mem0 cap fuel m k j =
    Walked (rev_links m k (j :: l), (fun x => symbol (nd m x)) <$> (j :: l)).
Proof.
  induction l as [|a l IH]; intros m k j fuel Hnd Hlink Hcap Hfuel;
    (destruct fuel as [|fuel]; [simpl in Hfuel; lia|]);
    inversion Hcap as [|? ? Hj Hcap']; subst; destruct Hlink as [Hp Hlink].
  - simpl in *. rewrite Hj, Hp. done.
  - inversion Hnd as [|? ? Hjl Hnd']; subst. simpl length in Hfuel.
    assert (in_cap cap a = true) as Ha by (by inversion Hcap').
    cbn [walk_forward]. rewrite Hj, Hp. simpl default.
    rewrite (proj2 (Z.ltb_ge _ _)) by (unfold in_cap in Ha; bool_lia).
    rewrite (IH _ _ _ fuel Hnd'); [|..|done|lia].
    + do 2 f_equal. rewrite !fmap_cons. f_equal. f_equal.
      * rewrite nd_set_parent. case_decide; by subst.
      * apply list_fmap_ext. intros _ x _.
        rewrite nd_set_parent. case_decide; by subst.
    + eapply linked_ext; [|exact Hlink]. intros x Hx.
      rewrite nd_set_parent, decide_False by set_solver. done.
Qed.

(** ** One code *)

(** The table once the symbol of the pending node [f] is known. *)
Definition patch (m : gmap Z lzw_node) (f v : Z) : gmap Z lzw_node :=
  if 0 <=? f then set_symbol m f v else m.

#[export] Instance patch_proper : Proper (same_table ==> eq ==> eq ==> same_table) patch.
Proof. intros m m' Hm f ? <- v ? <-. unfold patch. destruct (0 <=? f); by rewrite Hm. Qed.

Lemma patch_parent m f v x : parent (nd (patch m f v) x) = parent (nd m x).
Proof.
  unfold patch. destruct (0 <=? f); [|done].
  rewrite nd_set_symbol. case_decide; by subst.
Qed.

Lemma patch_other m f v x : x <> f -> nd (patch m f v) x = nd m x.
Proof.
  intros Hx. unfold patch. destruct (0 <=? f); [|done].
  rewrite nd_set_symbol, decide_False by done. done.
Qed.

Lemma rev_links_patch m k l f v :
  same_table (patch (rev_links m k l) f v) (rev_links (patch m f v) k l).
Proof.
  unfold patch. destruct (0 <=? f); [|done].
  revert m k. induction l as [|a l IH]; intros m k; simpl; [done|].
  rewrite IH. apply rev_links_proper; [|done|done]. intros x.
  rewrite nd_set_parent, !nd_set_symbol, !nd_set_parent.
  repeat case_decide; subst; simpl; try done; congruence.
Qed.

(** The two walks output the symbols of the chain, head first, and leave the
    table as it was but for the pending symbol. *)
Lemma emit_spec m f c l h v :
  chain m c l -> last l = Some h -> Forall (fun x => in_cap cap x = true) l ->
  let M := patch m f v in
  exists m3,
    walk_forward mem0 cap (S (Z.to_nat c)) (patch (rev_links m (-1) l) f v) (-1) h =
      Walked (m3, (fun x => symbol (nd M x)) <$> reverse l) /\ same_table m3 M.
Proof.
  intros Hch Hh Hcap M.
  pose proof (chain_NoDup _ _ _ Hch) as Hnd. pose proof (chain_length _ _ _ Hch) as Hlen.
  pose proof (rev_links_patch m (-1) l f v) as Hm2. fold M in Hm2.
  set (m2 := patch (rev_links m (-1) l) f v) in *.
  destruct (reverse l) as [|h' r] eqn:Hr.
  { apply (f_equal length) in Hr. rewrite length_reverse in Hr.
    apply chain_head_eq in Hch as [? ->]. done. }
  assert (h' = h) as ->.
  { rewrite <- head_reverse, Hr in Hh. by injection Hh. }
  exists (rev_links m2 (-1) (h :: r)). split.
  - rewrite (walk_forward_spec r).
    + do 2 f_equal. apply list_fmap_ext. intros _ x _. rewrite (Hm2 x).
      apply (rev_links_frame M (-1) l x).
    + rewrite <- Hr. by rewrite reverse_Permutation.
    + eapply linked_ext; [intros x _; by rewrite (Hm2 x)|].
      rewrite <- Hr. by apply rev_links_linked.
    + rewrite <- Hr. by apply Forall_reverse.
    + apply (f_equal length) in Hr. rewrite length_reverse in Hr. simpl in Hr. lia.
  - rewrite Hm2, <- Hr. apply rev_links_involutive; [done|].
    eapply linked_ext; [intros x _; apply patch_parent|]. by eapply chain_linked.
Qed.

Lemma spells_ext m m' j str :
  (forall x, 0 <= x <= j -> nd m' x = nd m x) -> spells m j str -> spells m' j str.
Proof.
  intros Heq (l & Hl & Hstr). pose proof (chain_bound _ _ _ Hl) as [_ Hb].
  rewrite Forall_forall in Hb.
  exists l. split.
  - eapply chain_ext; [|done]. intros x Hx. rewrite Heq; [done|by apply Hb].
  - rewrite <- Hstr. apply list_fmap_ext. intros i x Hx. rewrite Heq; [done|].
    apply Hb. rewrite <- elem_of_reverse. by eapply list_elem_of_lookup_2.
Qed.

Lemma spells_head m j str :
  spells m j str -> exists l h, chain m j l /\ last l = Some h /\
    (fun x => symbol (nd m x)) <$> reverse l = str /\ take 1 str = [symbol (nd m h)].
Proof.
  intros (l & Hl & <-). destruct (last l) as [h|] eqn:Hh.
  - exists l, h. split_and!; [done|done|done|].
    rewrite <- head_reverse in Hh. destruct (reverse l); simplify_eq/=. done.
  - apply last_None in Hh as ->. inversion Hl.
Qed.

(** A pending node above a chain is not part of it. *)
Lemma patch_symbols m f v j l :
  chain m j l -> j < f \/ f < 0 ->
  (fun x => symbol (nd (patch m f v) x)) <$> reverse l =
  (fun x => symbol (nd m x)) <$> reverse l.
Proof.
  intros [_ Hb]%chain_bound Hf. rewrite Forall_forall in Hb.
  apply list_fmap_ext. intros i x Hx%list_elem_of_lookup_2.
  rewrite elem_of_reverse in Hx. specialize (Hb _ Hx). simpl in Hb.
  rewrite patch_other by lia. done.
Qed.

(** ** Simulation *)

(** The table represents the dictionary of the textbook decoder. *)
Record simulates (st : lzw_state) (r : ref_state) : Prop := {
  sim_count : count st = ref_count r;
  sim_dict_len : (257 <= length (dict r))%nat;
  sim_dict : forall i str, dict r !! i = Some str -> i <> 256%nat ->
    spells (node st) (Z.of_nat i) str;
  sim_prev : match prev r with
    | None => fixn st = -1
    | Some p => fixn st = Z.of_nat (length (dict r)) /\
        0 <= parent (nd (node st) (fixn st)) < fixn st /\
        spells (node st) (parent (nd (node st) (fixn st))) p
    end;
  sim_bits : bits st = Z.log2_up (count st);
  sim_bitpos : 0 <= bitpos st < 32;
  sim_s : 0 <= s_idx st;
  sim_pos : rpos r = 32 * s_idx st + bitpos st;
  sim_out : rout r = out st }.

(** The chain of a valid code, and what the patched table spells for it. *)
Lemma simulates_code st r c :
  simulates st r -> 0 <= c < ref_count r -> c <> 256 ->
  exists l h, chain (node st) c l /\ last l = Some h /\
    (fun x => symbol (nd (patch (node st) (fixn st) (symbol (nd (node st) h))) x))
      <$> reverse l = ref_string r c /\
    take 1 (ref_string r c) = [symbol (nd (node st) h)].
Proof.
  intros Hsim Hc H256. destruct Hsim as [_ Hlen Hdict Hprev _ _ _ _ _].
  unfold ref_count in Hc. unfold ref_string.
  destruct (dict r !! Z.to_nat c) as [str|] eqn:Hstr.
  - pose proof (Hdict _ _ Hstr) as Hsp. rewrite Z2Nat.id in Hsp by lia.
    destruct (spells_head _ _ _ (Hsp ltac:(lia))) as (l & h & Hl & Hh & Hs & Ht).
    exists l, h. split_and!; [done|done| |done]. rewrite <- Hs.
    eapply patch_symbols; [done|]. apply lookup_lt_Some in Hstr.
    destruct (prev r); destruct_and?; lia.
  - apply lookup_ge_None in Hstr. destruct (prev r) as [p|]; [|lia].
    destruct Hprev as (Hfix & Hpar & Hsp).
    destruct (spells_head _ _ _ Hsp) as (l & h & Hl & Hh & Hs & Ht).
    assert (c = fixn st) as -> by lia.
    exists (fixn st :: l), h. split_and!.
    + by constructor.
    + rewrite last_cons, Hh. done.
    + rewrite reverse_cons, fmap_app. simpl. f_equal.
      * rewrite <- Hs. eapply patch_symbols; [done|lia].
      * rewrite Ht. unfold patch. rewrite (proj2 (Z.leb_le _ _)) by lia.
        by rewrite nd_set_symbol, decide_True.
    + destruct p; [done|]. done.
Qed.

(** The patched table spells the extended dictionary. *)
Lemma simulates_patched st r c v :
  simulates st r -> take 1 (ref_string r c) = [v] ->
  forall i str,
    match prev r with
    | None => dict r
    | Some p => dict r ++ [p ++ take 1 (ref_string r c)]
    end !! i = Some str -> i <> 256%nat ->
  spells (patch (node st) (fixn st) v) (Z.of_nat i) str.
Proof.
  intros Hsim Hv i str Hi H256. destruct Hsim as [_ Hlen Hdict Hprev _ _ _ _ _].
  assert (dict r !! i = Some str -> spells (patch (node st) (fixn st) v) (Z.of_nat i) str) as Hold.
  { intros Hstr. eapply spells_ext; [|by eapply Hdict].
    intros x Hx. apply patch_other. apply lookup_lt_Some in Hstr.
    destruct (prev r); destruct_and?; lia. }
  destruct (prev r) as [p|]; [|by apply Hold].
  apply lookup_app_Some in Hi as [Hi|[Hge Hi]]; [by apply Hold|].
  destruct (i - length (dict r))%nat as [|?] eqn:E; [|done]. simplify_eq/=.
  assert (i = length (dict r)) as -> by lia.
  destruct Hprev as (Hfix & Hpar & l & Hl & Hs). rewrite <- Hfix.
  exists (fixn st :: l). split.
  - constructor; rewrite ?patch_parent; [done|].
    eapply chain_ext; [|exact Hl]. intros x _. apply patch_parent.
  - rewrite reverse_cons, fmap_app, Hv. simpl. f_equal.
    + rewrite <- Hs. eapply patch_symbols; [done|lia].
    + unfold patch. rewrite (proj2 (Z.leb_le _ _)) by lia.
      by rewrite nd_set_symbol, decide_True.
Qed.

End Reversal.

(** ** The bit stream *)

Lemma code_at_bits src pos w n :
  0 <= w -> 0 <= n -> 0 <= pos ->
  Z.testbit (code_at src pos w) n = (n <? w) && Z.testbit (le_join 32 src) (pos + n).
Proof.
  intros. unfold code_at. rewrite Z.land_spec, Z.shiftr_spec, Z.testbit_ones by lia.
  rewrite (proj2 (Z.leb_le 0 n)) by lia. rewrite andb_comm, andb_true_l.
  do 2 f_equal. lia.
Qed.

Lemma code_at_range src pos w : 0 <= w -> 0 <= code_at src pos w < 2 ^ w.
Proof.
  intros. unfold code_at. rewrite Z.land_ones by lia.
  apply Z.mod_pos_bound, Z.pow_pos_nonneg; lia.
Qed.

Lemma shl32_testbit x k n :
  0 <= k -> 0 <= n -> Z.testbit (shl32 x k) n = (n <? 32) && Z.testbit x (n - k).
Proof.
  intros. unfold shl32, u32. rewrite <- Z.land_ones, Z.land_spec, Z.testbit_ones by lia.
  rewrite Z.shiftl_spec by lia. rewrite (proj2 (Z.leb_le 0 n)) by lia.
  rewrite andb_true_l. apply andb_comm.
Qed.

Lemma stream_word src i w j :
  Forall (digit 32) src -> rd src i = Some w -> 0 <= j < 32 ->
  Z.testbit (le_join 32 src) (32 * i + j) = Z.testbit w j.
Proof.
  intros Hsrc Hw Hj. pose proof (rd_Some_lt _ _ _ Hw).
  rewrite le_join_testbit, Hw by (done || lia). done.
Qed.

(** A code within one word, and a code that continues in the next one. *)
Lemma code_one_word src i bp w b :
  Forall (digit 32) src -> rd src i = Some w -> 0 <= bp -> 0 <= b -> bp + b <= 32 ->
  Z.land (Z.shiftr w bp) (Z.ones b) = code_at src (32 * i + bp) b.
Proof.
  intros Hsrc Hw Hbp Hb Hlt. pose proof (rd_Some_lt _ _ _ Hw).
  apply Z.bits_inj'. intros n Hn.
  rewrite code_at_bits, Z.land_spec, Z.testbit_ones by lia.
  rewrite (proj2 (Z.leb_le 0 n)), andb_true_l, andb_comm by lia.
  destruct (Z.ltb_spec n b); [|done]. f_equal. rewrite Z.shiftr_spec by lia.
  replace (32 * i + bp + n) with (32 * i + (n + bp)) by lia.
  symmetry. apply stream_word; [done|done|lia].
Qed.

Lemma code_two_words src i bp w w' b :
  Forall (digit 32) src -> rd src i = Some w -> rd src (i + 1) = Some w' ->
  0 <= bp < 32 -> 0 <= b <= 32 -> 32 <= bp + b ->
  Z.land (Z.lor (Z.shiftr w bp) (shl32 w' (32 - bp))) (Z.ones b) =
    code_at src (32 * i + bp) b.
Proof.
  intros Hsrc Hw Hw' Hbp Hb Hge. pose proof (rd_Some_lt _ _ _ Hw).
  assert (digit 32 w) as Hd.
  { apply rd_Some in Hw as [_ Hw]. eapply Forall_lookup_1 in Hw; done. }
  apply Z.bits_inj'. intros n Hn.
  rewrite code_at_bits, Z.land_spec, Z.lor_spec, Z.testbit_ones by lia.
  rewrite (proj2 (Z.leb_le 0 n)), andb_true_l, andb_comm by lia.
  destruct (Z.ltb_spec n b); [|done]. f_equal.
  rewrite Z.shiftr_spec, shl32_testbit by lia.
  rewrite (proj2 (Z.ltb_lt n 32)), andb_true_l by lia.
  destruct (Z.ltb_spec n (32 - bp)).
  - rewrite (Z.testbit_neg_r w') by lia. rewrite orb_false_r.
    replace (32 * i + bp + n) with (32 * i + (n + bp)) by lia.
    symmetry. apply stream_word; [done|done|lia].
  - rewrite (testbit_high 32 _ w) by (done || lia). rewrite orb_false_l.
    replace (32 * i + bp + n) with (32 * (i + 1) + (n - (32 - bp))) by lia.
    symmetry. apply stream_word; [done|done|lia].
Qed.

(** The word-wise extraction reads the bits of the stream in order. *)
Lemma next_code_spec src st :
  Forall (digit 32) src -> 0 <= bitpos st < 32 -> 0 <= s_idx st -> 0 < bits st <= 32 ->
  let pos := 32 * s_idx st + bitpos st in
  next_code src st =
    if 32 * Z.of_nat (length src) <=? pos + bits st then None
    else Some (code_at src pos (bits st),
               (pos + bits st) / 32, (pos + bits st) mod 32).
Proof.
  intros Hsrc Hbp Hs Hb pos. subst pos. unfold next_code.
  assert (Z.shiftl 1 (bits st) - 1 = Z.ones (bits st)) as ->
    by (unfold Z.ones; rewrite <- Z.sub_1_r; done).
  destruct (rd src (s_idx st)) as [w|] eqn:Hw.
  2:{ rewrite (proj2 (Z.leb_le _ _)); [done|]. apply rd_None_ge in Hw; lia. }
  pose proof (rd_Some_lt _ _ _ Hw) as Hlt.
  destruct (Z.leb_spec 32 (bitpos st + bits st)) as [Hbig|Hsmall].
  - destruct (rd src (s_idx st + 1)) as [w'|] eqn:Hw'.
    + pose proof (rd_Some_lt _ _ _ Hw'). rewrite (proj2 (Z.leb_gt _ _)) by lia.
      f_equal. f_equal; [f_equal|].
      * rewrite <- (code_two_words src _ _ w w') by (done || lia).
        do 3 f_equal. lia.
      * apply (Z.div_unique _ 32 _ (bitpos st + bits st - 32)); lia.
      * apply (Z.mod_unique _ 32 (s_idx st + 1)); lia.
    + rewrite (proj2 (Z.leb_le _ _)); [done|]. apply rd_None_ge in Hw'; lia.
  - rewrite (proj2 (Z.leb_gt _ _)) by lia. f_equal. f_equal; [f_equal|].
    + apply code_one_word; done || lia.
    + apply (Z.div_unique _ 32 _ (bitpos st + bits st)); lia.
    + apply (Z.mod_unique _ 32 (s_idx st)); lia.
Qed.

(** ** The implementation and the textbook decoder take the same steps *)

Section Refinement.
Context (mem0 : Z -> lzw_node) (cap : Z) (src : list Z).
Context (Hsrc : Forall (digit 32) src).

Definition step_agrees (a : lzw_step_result) (b : ref_state + lzw_result) : Prop :=
  match a, b with
  | Stop r, inr r' => r = r'
  | Continue st, inl r => simulates mem0 st r
  | _, _ => False
  end.

Lemma simulates_count_bits st r :
  simulates mem0 st r -> count st <= 2 ^ 32 -> 257 <= count st /\ 0 < bits st <= 32.
Proof.
  intros Hsim Hc. pose proof (sim_count _ _ _ Hsim). pose proof (sim_dict_len _ _ _ Hsim).
  unfold ref_count in *. assert (257 <= count st) by (destruct (prev r); lia).
  rewrite (sim_bits _ _ _ Hsim). split; [done|]. split; [apply Z.log2_up_pos; lia|].
  apply Z.log2_up_le_pow2; lia.
Qed.

Lemma simulates_ref_count_next st r p str :
  simulates mem0 st r ->
  ref_count {| dict := match prev r with
                       | None => dict r
                       | Some q => dict r ++ [q ++ take 1 str] end;
               prev := Some str; rpos := p; rout := rout r ++ str |} = ref_count r + 1.
Proof.
  intros _. unfold ref_count. simpl. destruct (prev r); rewrite ?length_app; simpl; lia.
Qed.

(** Entering the new node keeps what the table spells below it. *)
Lemma simulates_next st r c v m3 s' bp' pos' :
  simulates mem0 st r -> 257 <= count st -> 0 <= c < count st -> c <> 256 ->
  take 1 (ref_string r c) = [v] ->
  same_table mem0 m3 (patch mem0 (node st) (fixn st) v) ->
  0 <= bp' < 32 -> 0 <= s' -> pos' = 32 * s' + bp' ->
  simulates mem0
    {| node := set_parent mem0 m3 (count st) c; s_idx := s';
       out := out st ++ ref_string r c; fixn := count st; count := count st + 1;
       bits := if Z.shiftl 1 (bits st) <? count st + 1 then bits st + 1 else bits st;
       bitpos := bp' |}
    {| dict := match prev r with
               | None => dict r
               | Some p => dict r ++ [p ++ take 1 (ref_string r c)] end;
       prev := Some (ref_string r c); rpos := pos'; rout := out st ++ ref_string r c |}.
Proof.
  intros Hsim Hc257 Hc H256 Ht Hm3 Hbp Hs Hpos.
  pose proof (simulates_patched mem0 st r c v Hsim Ht) as Hnew.
  pose proof (simulates_ref_count_next st r pos' (ref_string r c) Hsim) as Hrc.
  pose proof Hsim as [Hcnt Hlen _ Hprev Hbits _ _ _ Hout].
  set (d' := match prev r with None => _ | Some _ => _ end) in *.
  assert (Z.of_nat (length d') = count st) as Hd'.
  { rewrite Hcnt. unfold ref_count in Hrc at 1. simpl in Hrc. lia. }
  assert (forall j str, 0 <= j < count st -> spells mem0 (patch mem0 (node st) (fixn st) v) j str ->
    spells mem0 (set_parent mem0 m3 (count st) c) j str) as Hkeep.
  { intros j str Hj. apply spells_ext. intros x Hx.
    rewrite nd_set_parent, decide_False by lia. apply Hm3. }
  split; simpl.
  - rewrite Hcnt. symmetry. exact Hrc.
  - lia.
  - intros i str Hi Hne. apply Hkeep; [apply lookup_lt_Some in Hi; lia|]. by apply Hnew.
  - rewrite nd_set_parent, decide_True by done. simpl.
    split_and!; [done|lia|lia|]. apply Hkeep; [lia|].
    replace c with (Z.of_nat (Z.to_nat c)) at 1 by lia.
    destruct (simulates_code mem0 st r c Hsim) as (l & h & Hl & Hh & Hstr & Ht'); [lia|done|].
    rewrite Ht in Ht'. injection Ht' as ->.
    exists l. split; [|done]. rewrite Z2Nat.id by lia.
    eapply chain_ext; [|exact Hl]. intros x _. apply patch_parent.
  - rewrite log2_up_succ by lia. rewrite <- Hbits, Z.shiftl_1_l. done.
  - done.
  - done.
  - done.
  - done.
Qed.

(** A table that is too small is noticed, and nothing else goes wrong. *)
Lemma simulates_step st r :
  simulates mem0 st r -> count st <= 2 ^ 32 ->
  step_agrees (lzw_step mem0 cap src st) (ref_step src r) \/
  lzw_step mem0 cap src st = Stop PastTable /\ cap <= count st.
Proof.
  intros Hsim Hmax. destruct (simulates_count_bits _ _ Hsim Hmax) as [Hc Hb].
  pose proof Hsim as [Hcnt Hlen _ Hprev Hbits Hbp Hs Hpos Hout].
  unfold lzw_step, ref_step.
  rewrite next_code_spec by done. rewrite <- Hcnt, <- Hbits, Hpos, Hout.
  set (pos := 32 * s_idx st + bitpos st) in *.
  destruct (Z.leb_spec (32 * Z.of_nat (length src)) (pos + bits st)); [by left|].
  pose proof (code_at_range src pos (bits st) ltac:(lia)) as Hcr.
  set (c := code_at src pos (bits st)) in *.
  destruct (Z.leb_spec (count st) c); [by left|].
  destruct (Z.eqb_spec c 256); [by left|].
  destruct (simulates_code mem0 st r c Hsim) as (l & h & Hl & Hh & Hstr & Ht); [lia|done|].
  destruct (Z.ltb_spec c cap) as [Hcc|Hcc].
  2:{ right. cbn [walk_back]. unfold in_cap. rewrite (proj2 (Z.ltb_ge _ _) Hcc), andb_false_r. split; [done|lia]. }
  assert (Forall (fun x => in_cap cap x = true) l) as Hlc.
  { apply chain_bound in Hl as [_ Hl]. eapply Forall_impl; [exact Hl|].
    simpl. intros x Hx. unfold in_cap. bool_lia. }
  rewrite (walk_back_spec mem0 cap l); [|done|done|].
  2:{ apply chain_length in Hl. lia. }
  rewrite Hh. simpl default.
  rewrite (proj1 (rev_links_frame mem0 (node st) (-1) l h)).
  destruct (emit_spec mem0 cap (node st) (fixn st) c l h (symbol (nd mem0 (node st) h)) Hl Hh Hlc)
    as (m3 & Hwf & Hm3).
  unfold patch at 1 in Hwf. rewrite Hwf, Hstr.
  destruct (Z.ltb_spec (count st) cap) as [Hcap|Hcap].
  2:{ right. unfold in_cap at 1. rewrite (proj2 (Z.ltb_ge _ _) Hcap), andb_false_r. split; [done|lia]. }
  assert (in_cap cap (count st) = true) as -> by (unfold in_cap; bool_lia).
  left. simpl. apply simulates_next with (v := symbol (nd mem0 (node st) h));
    try done; try lia.
  - apply Z.mod_pos_bound. lia.
  - apply Z.div_pos; lia.
  - rewrite <- Z_div_mod_eq_full. done.
Qed.

Lemma lzw_step_count st st' :
  lzw_step mem0 cap src st = Continue st' -> count st' = count st + 1.
Proof. unfold lzw_step. intros Hst. by repeat case_match; simplify_eq/=. Qed.

Lemma loop_refines fuel : forall st r,
  simulates mem0 st r -> count st + Z.of_nat fuel <= 2 ^ 32 ->
  lzw_loop mem0 cap fuel src st = ref_loop fuel src r \/
  lzw_loop mem0 cap fuel src st = PastTable /\ cap < count st + Z.of_nat fuel.
Proof.
  induction fuel as [|fuel IH]; intros st r Hsim Hmax; [by left|].
  cbn [lzw_loop ref_loop].
  destruct (simulates_step st r Hsim ltac:(lia)) as [Hstep|[-> Hc]]; [|right; split; [done|lia]].
  destruct (lzw_step mem0 cap src st) as [st'|res] eqn:Hst;
    destruct (ref_step src r) as [r'|res'] eqn:Hr; simpl in Hstep; try done; [|by left; f_equal].
  apply lzw_step_count in Hst.
  destruct (IH st' r' Hstep ltac:(lia)) as [?|[? ?]]; [by left|right; split; [done|lia]].
Qed.

End Refinement.

(** ** Initial table *)

Lemma nd_init_nodes mem0 n : forall i m x,
  nd mem0 (init_nodes mem0 n i m) x =
    if decide (i <= x < i + Z.of_nat n) then LzwNode (u8 x) (-1) (son (nd mem0 m x))
    else nd mem0 m x.
Proof.
  induction n as [|n IH]; intros i m x; simpl init_nodes.
  { rewrite decide_False by lia. done. }
  rewrite IH, !nd_set_parent, !nd_set_symbol.
  repeat case_decide; subst; simpl; try done; lia.
Qed.

Lemma simulates_init mem0 : simulates mem0 (lzw_init mem0) ref_init.
Proof.
  split; cbn [count prev dict fixn bits bitpos s_idx rpos out rout lzw_init ref_init node];
    try (vm_compute; done); try lia.
  intros i str Hi H256.
  assert (i < 256)%nat as Hlt.
  { apply lookup_lt_Some in Hi as Hl.
    rewrite length_app, length_fmap, length_seq in Hl. simpl in Hl. lia. }
  rewrite lookup_app_l, list_lookup_fmap, lookup_seq_lt in Hi by (rewrite ?length_fmap, ?length_seq; lia).
  injection Hi as <-. exists [Z.of_nat i]. split.
  - constructor; [lia|]. by rewrite nd_init_nodes, decide_True by lia.
  - change ([symbol (nd mem0 (init_nodes mem0 257 0 ∅) (Z.of_nat i))] = [Z.of_nat i]).
    rewrite nd_init_nodes, decide_True by lia. cbn [symbol].
    unfold u8. rewrite Z.mod_small by lia. done.
Qed.

(** ** Termination of the textbook decoder *)

Lemma ref_step_progress src r r' :
  (257 <= length (dict r))%nat -> ref_step src r = inl r' ->
  (257 <= length (dict r'))%nat /\ rpos r + 9 <= rpos r' /\
  rpos r' < 32 * Z.of_nat (length src).
Proof.
  intros Hlen. unfold ref_step.
  assert (9 <= Z.log2_up (ref_count r)).
  { change 9 with (Z.log2_up 257). apply Z.log2_up_le_mono. unfold ref_count.
    destruct (prev r); lia. }
  zcases; try done. intros [= <-]. simpl. split; [|lia].
  destruct (prev r); rewrite ?length_app; simpl; lia.
Qed.

Lemma ref_loop_terminates src fuel : forall r,
  (257 <= length (dict r))%nat -> 32 * Z.of_nat (length src) < rpos r + 9 * Z.of_nat fuel ->
  rpos r < 32 * Z.of_nat (length src) \/ (0 < fuel)%nat ->
  ref_loop fuel src r <> OutOfFuel.
Proof.
  induction fuel as [|fuel IH]; intros r Hlen Hpos Hf; [lia|]. simpl.
  destruct (ref_step src r) as [r'|res] eqn:Hr.
  - apply ref_step_progress in Hr as (? & ? & ?); [|done]. apply IH; [done|lia|lia].
  - unfold ref_step in Hr. intros ->.
    destruct (_ <=? _) in Hr; [done|]. destruct (_ <=? _) in Hr; [done|].
    destruct (_ =? _) in Hr; done.
Qed.

(** ** Theorems *)

(** What a caller guarantees: the source is made of 32-bit words and is small
    enough for the machine, and the table at [temp] can hold one node per code. *)
Definition lzw_pre (cap : Z) (src : list Z) : Prop :=
  Forall (digit 32) src /\ 258 + 4 * Z.of_nat (length src) <= cap /\
  Z.of_nat (length src) <= 2 ^ 28.

Lemma lzw_decode_cases mem0 cap src :
  Forall (digit 32) src -> Z.of_nat (length src) <= 2 ^ 28 ->
  lzw_decode mem0 cap src = ref_decode src \/
  lzw_decode mem0 cap src = PastTable /\ cap < 258 + 4 * Z.of_nat (length src).
Proof.
  intros Hsrc Hmax. unfold lzw_decode. destruct (Z.ltb_spec cap 257); [right; split; [done|lia]|].
  destruct (loop_refines mem0 cap src Hsrc (4 * length src + 1) (lzw_init mem0) ref_init
    (simulates_init mem0) ltac:(simpl count; lia)) as [?|[? Hc]]; [by left|].
  right. split; [done|]. simpl count in Hc. lia.
Qed.

Lemma lzw_decode_eq_ref mem0 cap src :
  lzw_pre cap src -> lzw_decode mem0 cap src = ref_decode src.
Proof. intros (Hsrc & Hcap & Hmax). destruct (lzw_decode_cases mem0 cap src Hsrc Hmax) as [?|[_ ?]]; [done|lia]. Qed.

Lemma ref_loop_results src fuel : forall r,
  match ref_loop fuel src r with
  | Returned v bytes => v = -1 \/ v = Z.of_nat (length bytes)
  | PastTable => False
  | _ => True
  end.
Proof.
  induction fuel as [|fuel IH]; intros r; [done|]. simpl.
  destruct (ref_step src r) as [r'|res] eqn:Hr; [apply IH|]. unfold ref_step in Hr.
  repeat case_match; simplify_eq; auto.
Qed.

(** C1. The in-place decoder computes what the textbook LZW decoder computes,
    on every input that the table has room for and whatever its memory holds (the
    room behind [dst] is not modelled): the same bytes and
    return value when it meets the end marker, the same error value on a code
    that is not yet in the table. *)
Theorem lzw_decode_refines mem0 cap src :
  lzw_pre cap src -> lzw_decode mem0 cap src = ref_decode src.
Proof. apply lzw_decode_eq_ref. Qed.

(** C2. The decoder terminates: whatever the input and the room for the table
    are, each of its three loops ends, the walks along the links included.  It
    returns -1 or the number of bytes stored, or it reads past the end of its
    input, or it leaves a table that has fewer than 258 nodes and four more per
    word of the input. *)
Theorem lzw_decode_terminates mem0 cap src :
  Forall (digit 32) src -> Z.of_nat (length src) <= 2 ^ 28 ->
  match lzw_decode mem0 cap src with
  | Returned v bytes => v = -1 \/ v = Z.of_nat (length bytes)
  | Undefined => True
  | PastTable => cap < 258 + 4 * Z.of_nat (length src)
  | OutOfFuel => False
  end.
Proof.
  intros Hsrc Hmax. destruct (lzw_decode_cases mem0 cap src Hsrc Hmax) as [->|[-> Hc]]; [|done].
  pose proof (ref_loop_results src (4 * length src + 1) ref_init) as Hres.
  pose proof (ref_loop_terminates src (4 * length src + 1) ref_init) as Hterm.
  unfold ref_decode in *. destruct (ref_loop _ _ _); try done.
  apply Hterm; [vm_compute; lia|cbn [rpos ref_init]; lia|lia|done].
Qed.

(** The codes of "aaa", one of them under construction, then the end marker. *)
Definition lzw_sample : list Z := [131584 + 97 + 256 * 2 ^ 18; 0].

Lemma lzw_decode_refines_witness :
  lzw_pre 400 lzw_sample /\
  lzw_decode (fun _ => LzwNode 7 7 7) 400 lzw_sample = ref_decode lzw_sample.
Proof.
  assert (lzw_pre 400 lzw_sample) as H.
  { split_and!; [repeat constructor; vm_compute; congruence|vm_compute; congruence..]. }
  split; [exact H|]. apply (lzw_decode_refines (fun _ => LzwNode 7 7 7) 400 lzw_sample H).
Defined.

Lemma lzw_decode_terminates_witness :
  match lzw_decode (fun _ => LzwNode 7 7 7) 258 lzw_sample with
  | Returned v bytes => v = -1 \/ v = Z.of_nat (length bytes)
  | Undefined => True
  | PastTable => 258 < 258 + 4 * Z.of_nat (length lzw_sample)
  | OutOfFuel => False
  end.
Proof.
  apply (lzw_decode_terminates (fun _ => LzwNode 7 7 7) 258 lzw_sample);
    [repeat constructor; vm_compute; congruence|vm_compute; congruence].
Defined.

Example lzw_sample_decodes :
  lzw_decode (fun _ => LzwNode 7 7 7) 400 lzw_sample = Returned 3 [97; 97; 97].
Proof. vm_compute. reflexivity. Qed.

(** The same input with too small a table: it has room for one new code. *)
Example lzw_small_table :
  lzw_decode (fun _ => LzwNode 7 7 7) 258 lzw_sample = PastTable.
Proof. vm_compute. reflexivity. Qed.
