(* ===== verification/LzwRoundtrip.v ===== *)
(** * LZW compression round trip

    The repository ships compressed images and the decoder, not the tool that
    made them.  This file defines the greedy LZW compressor for the format
    [lzw_decode] expects and proves that [lzw_decode] recovers every byte
    string from its compressed form. *)

From S2P Require Import Prelude Lzw.

(** ** Compressor *)

Definition code_of (E : list (list Z)) (w : list Z) : option Z :=
  (fun p => Z.of_nat p.1) <$> list_find (fun x => x = w) E.

(** [E] is the dictionary and [w] the longest match so far. *)
Fixpoint enc (E : list (list Z)) (w : list Z) (bs : list Z) : list Z :=
  match bs with
  | [] => [default 0 (code_of E w)]
  | b :: bs' =>
      match code_of E (w ++ [b]) with
      | Some _ => enc E (w ++ [b]) bs'
      | None => default 0 (code_of E w) :: enc (E ++ [w ++ [b]]) [b] bs'
      end
  end.

Definition lzw_codes (bs : list Z) : list Z :=
  match bs with
  | [] => [256]
  | b :: bs' => enc (dict ref_init) [b] bs' ++ [256]
  end.

(** The [k]-th code is written in [width k] bits. *)
Definition width (k : nat) : Z := Z.log2_up (257 + Z.of_nat k).

Fixpoint pack (k : nat) (cs : list Z) : Z :=
  match cs with
  | [] => 0
  | c :: cs' => Z.lor c (Z.shiftl (pack (S k) cs') (width k))
  end.

Fixpoint packed_bits (k : nat) (cs : list Z) : Z :=
  match cs with
  | [] => 0
  | _ :: cs' => width k + packed_bits (S k) cs'
  end.

Fixpoint to_words (n : nat) (x : Z) : list Z :=
  match n with
  | O => []
  | S n' => x mod 2 ^ 32 :: to_words n' (x / 2 ^ 32)
  end.

(** The stream is padded so that a word follows the end marker. *)
Definition lzw_compress (bs : list Z) : list Z :=
  let cs := lzw_codes bs in
  to_words (Z.to_nat (packed_bits 0 cs / 32 + 1)) (pack 0 cs).

(** ** Words *)

Lemma to_words_length n x : length (to_words n x) = n.
Proof. revert x. induction n; simpl; auto. Qed.

Lemma to_words_digit n x : Forall (digit 32) (to_words n x).
Proof.
  revert x. induction n as [|n IH]; intros x; simpl; constructor; [|done].
  apply Z.mod_pos_bound. lia.
Qed.

Lemma le_join_to_words n x :
  0 <= x < 2 ^ (32 * Z.of_nat n) -> le_join 32 (to_words n x) = x.
Proof.
  revert x. induction n as [|n IH]; intros x Hx.
  { simpl in *. lia. }
  cbn [to_words le_join]. rewrite IH.
  - rewrite <- (Z.shiftr_div_pow2 x 32), <- Z.land_ones by lia.
    apply Z.bits_inj'. intros i Hi.
    rewrite Z.lor_spec, Z.land_spec, Z.testbit_ones by lia.
    rewrite (proj2 (Z.leb_le 0 i)), andb_true_l by lia.
    destruct (Z.ltb_spec i 32).
    + rewrite Z.shiftl_spec_low by lia. by rewrite andb_true_r, orb_false_r.
    + rewrite Z.shiftl_spec, Z.shiftr_spec by lia.
      rewrite andb_false_r, orb_false_l. f_equal. lia.
  - split; [apply Z.div_pos; lia|]. apply Z.div_lt_upper_bound; [lia|].
    rewrite <- Z.pow_add_r by lia. replace (32 + 32 * Z.of_nat n) with (32 * Z.of_nat (S n)) by lia.
    lia.
Qed.

(** ** Packed codes *)

Lemma width_range k : 257 + Z.of_nat k <= 2 ^ 32 -> 9 <= width k <= 32.
Proof.
  intros Hk. unfold width. split.
  - change 9 with (Z.log2_up 257). apply Z.log2_up_le_mono. lia.
  - apply Z.log2_up_le_pow2; lia.
Qed.

Lemma width_nonneg k : 0 <= width k.
Proof. apply Z.log2_up_nonneg. Qed.

(** Every code fits its width. *)
Fixpoint codes_fit (k : nat) (cs : list Z) : Prop :=
  match cs with
  | [] => True
  | c :: cs' => 0 <= c < 257 + Z.of_nat k /\ codes_fit (S k) cs'
  end.

Lemma code_fits_width k c : 0 <= c < 257 + Z.of_nat k -> digit (width k) c.
Proof.
  intros Hc. split; [lia|]. unfold width.
  pose proof (Z.log2_up_spec (257 + Z.of_nat k)). lia.
Qed.

Lemma pack_nonneg k cs : codes_fit k cs -> 0 <= pack k cs.
Proof.
  revert k. induction cs as [|c cs IH]; intros k; simpl; [lia|]. intros [Hc Hcs].
  apply Z.lor_nonneg. split; [lia|]. apply Z.shiftl_nonneg. by apply IH.
Qed.

Lemma pack_head k c cs :
  codes_fit k (c :: cs) -> Z.land (pack k (c :: cs)) (Z.ones (width k)) = c.
Proof.
  intros [Hc Hcs]. apply code_fits_width in Hc. pose proof (width_nonneg k).
  apply Z.bits_inj'. intros n Hn. cbn [pack].
  rewrite Z.land_spec, Z.lor_spec, Z.testbit_ones by lia.
  rewrite (proj2 (Z.leb_le 0 n)), andb_true_l by lia.
  destruct (Z.ltb_spec n (width k)).
  - rewrite Z.shiftl_spec_low by lia. by rewrite orb_false_r, andb_true_r.
  - rewrite andb_false_r. symmetry. by eapply testbit_high.
Qed.

Lemma pack_tail k c cs :
  codes_fit k (c :: cs) -> Z.shiftr (pack k (c :: cs)) (width k) = pack (S k) cs.
Proof.
  intros [Hc Hcs]. apply code_fits_width in Hc. pose proof (width_nonneg k).
  cbn [pack]. rewrite Z.shiftr_lor, Z.shiftr_shiftl_l by lia.
  rewrite Z.sub_diag, Z.shiftl_0_r.
  rewrite (Z.shiftr_div_pow2 c), Z.div_small by (done || lia). apply Z.lor_0_l.
Qed.

Lemma packed_bits_nonneg k cs : 0 <= packed_bits k cs.
Proof. revert k. induction cs; intros k; simpl; [lia|]. specialize (IHcs (S k)). pose proof (width_nonneg k). lia. Qed.

Lemma pack_bound k cs : codes_fit k cs -> pack k cs < 2 ^ packed_bits k cs.
Proof.
  revert k. induction cs as [|c cs IH]; intros k; [simpl; lia|]. intros Hfit.
  pose proof Hfit as [Hc Hcs]. pose proof (pack_nonneg _ _ Hfit).
  pose proof (IH _ Hcs) as Hlt. pose proof (pack_tail _ _ _ Hfit) as Ht.
  pose proof (width_nonneg k). pose proof (packed_bits_nonneg (S k) cs).
  cbn [packed_bits]. rewrite Z.pow_add_r by lia.
  rewrite Z.shiftr_div_pow2 in Ht by lia.
  assert (pack k (c :: cs) / 2 ^ width k < 2 ^ packed_bits (S k) cs) as Hd by lia.
  assert (0 < 2 ^ width k) by (apply Z.pow_pos_nonneg; lia).
  pose proof (Z.div_mod (pack k (c :: cs)) (2 ^ width k) ltac:(lia)).
  pose proof (Z.mod_pos_bound (pack k (c :: cs)) (2 ^ width k) ltac:(lia)). nia.
Qed.

(** ** Decoding a packed stream *)

Section Stream.
Context (src : list Z).

(** The codes [cs] are what is left of the stream at the reader's position. *)
Record at_codes (r : ref_state) (k : nat) (cs : list Z) : Prop := {
  ac_pos : 0 <= rpos r;
  ac_count : ref_count r = 257 + Z.of_nat k;
  ac_bits : Z.shiftr (le_join 32 src) (rpos r) = pack k cs;
  ac_fit : codes_fit k cs;
  ac_room : rpos r + packed_bits k cs < 32 * Z.of_nat (length src) }.

(** The decoder's state once [str] is output. *)
Definition ref_next (r : ref_state) (k : nat) (str : list Z) : ref_state :=
  {| dict := match prev r with
             | None => dict r
             | Some p => dict r ++ [p ++ take 1 str] end;
     prev := Some str; rpos := rpos r + width k; rout := rout r ++ str |}.

Lemma ref_step_code r k c cs :
  at_codes r k (c :: cs) ->
  ref_step src r =
    if c =? 256 then inr (Returned (Z.of_nat (length (rout r))) (rout r))
    else inl (ref_next r k (ref_string r c)).
Proof.
  intros [Hpos Hcnt Hbits Hfit Hroom]. unfold ref_step. rewrite Hcnt. fold (width k).
  cbn [packed_bits] in Hroom. pose proof (packed_bits_nonneg (S k) cs).
  rewrite (proj2 (Z.leb_gt _ _)) by lia.
  unfold code_at. rewrite Hbits, pack_head by done.
  destruct Hfit as [Hc _]. rewrite (proj2 (Z.leb_gt _ _)) by lia. done.
Qed.

Lemma at_codes_next r k c cs str :
  at_codes r k (c :: cs) -> at_codes (ref_next r k str) (S k) cs.
Proof.
  intros [Hpos Hcnt Hbits Hfit Hroom]. cbn [packed_bits] in Hroom.
  pose proof (width_nonneg k).
  split; cbn [rpos ref_next].
  - lia.
  - unfold ref_count in *. cbn [dict prev ref_next].
    destruct (prev r); rewrite ?length_app; simpl in *; lia.
  - rewrite <- Z.shiftr_shiftr, Hbits by lia. by apply pack_tail.
  - apply Hfit.
  - lia.
Qed.

(** Decoder and encoder dictionaries: the encoder is one entry ahead, and
    that entry ends with the first symbol of the match in progress. *)
Definition enc_dict (r : ref_state) (w : list Z) : list (list Z) :=
  match prev r with
  | None => dict r
  | Some p => dict r ++ [p ++ take 1 w]
  end.

Definition dict_ok (E : list (list Z)) : Prop :=
  E !! 256%nat = Some [] /\ forall b, digit 8 b -> [b] ∈ E.

Lemma dict_ok_app E x : dict_ok E -> dict_ok (E ++ [x]).
Proof. intros [H1 H2]. split; [by apply lookup_app_l_Some|set_solver]. Qed.

Lemma code_of_Some E w i : code_of E w = Some i -> 0 <= i /\ E !! Z.to_nat i = Some w.
Proof.
  unfold code_of. intros (p & Hp & ->)%fmap_Some. destruct p as [n x].
  apply list_find_Some in Hp as (Hn & -> & _). simpl. rewrite Nat2Z.id. split; [lia|done].
Qed.

Lemma code_of_elem E w : w ∈ E -> exists i, code_of E w = Some i.
Proof.
  intros Hw. unfold code_of. destruct (list_find _ E) as [p|] eqn:Hp; [by eexists|].
  apply list_find_None in Hp. rewrite Forall_forall in Hp. by destruct (Hp w Hw).
Qed.

Lemma code_not_end E w i : dict_ok E -> w <> [] -> code_of E w = Some i -> i <> 256.
Proof.
  intros [H256 _] Hw Hi ->. apply code_of_Some in Hi as [_ Hi].
  change (Z.to_nat 256) with 256%nat in Hi. congruence.
Qed.

(** The decoder translates the code of the match back to the match. *)
Lemma ref_string_code r w i :
  w <> [] -> prev r <> Some [] -> code_of (enc_dict r w) w = Some i ->
  ref_string r i = w /\ i < ref_count r.
Proof.
  intros Hw Hp Hi. apply code_of_Some in Hi as [Hi0 Hi].
  unfold enc_dict in Hi. unfold ref_string, ref_count.
  destruct (prev r) as [p|].
  - pose proof (lookup_lt_Some _ _ _ Hi) as Hlt. rewrite length_app in Hlt. simpl in Hlt.
    split; [|lia]. destruct (dict r !! Z.to_nat i) as [x|] eqn:E.
    + apply (lookup_app_l_Some _ [p ++ take 1 w]) in E. congruence.
    + rewrite lookup_app_r in Hi by (by apply lookup_ge_None).
      apply list_lookup_singleton_Some in Hi as [_ Hi].
      destruct p as [|b p]; [done|]. destruct w as [|b' w]; [done|].
      simpl in Hi. by injection Hi as -> <-.
  - apply lookup_lt_Some in Hi as Hlt. rewrite Hi. split; [done|lia].
Qed.

Lemma enc_dict_next r k w b :
  enc_dict (ref_next r k w) [b] = enc_dict r w ++ [w ++ [b]].
Proof. unfold enc_dict. simpl. by destruct (prev r). Qed.

Lemma enc_decodes bs : forall r k w fuel,
  w <> [] -> prev r <> Some [] -> Forall (digit 8) bs ->
  dict_ok (enc_dict r w) -> w ∈ enc_dict r w ->
  let cs := enc (enc_dict r w) w bs ++ [256] in
  at_codes r k cs -> (length cs <= fuel)%nat ->
  ref_loop fuel src r =
    Returned (Z.of_nat (length (rout r ++ w ++ bs))) (rout r ++ w ++ bs).
Proof.
  induction bs as [|b bs IH]; intros r k w fuel Hw Hp Hbs Hok Hin cs Hat Hfuel; subst cs.
  - destruct (code_of_elem _ _ Hin) as [i Hi]. cbn [enc] in *. rewrite Hi in *. simpl default in *.
    destruct (ref_string_code r w i Hw Hp Hi) as [Hstr _].
    pose proof (code_not_end _ _ _ Hok Hw Hi) as Hne.
    destruct fuel as [|[|fuel]]; [simpl in Hfuel; lia..|]. cbn [ref_loop].
    rewrite (ref_step_code _ _ _ _ Hat), (proj2 (Z.eqb_neq _ _)), Hstr by done.
    rewrite (ref_step_code _ _ _ _ (at_codes_next _ _ _ _ w Hat)). simpl. by rewrite app_nil_r.
  - inversion Hbs as [|? ? Hb Hbs']; subst. cbn [enc] in *.
    destruct (code_of (enc_dict r w) (w ++ [b])) as [j|] eqn:Hj.
    + assert (enc_dict r (w ++ [b]) = enc_dict r w) as Heq.
      { unfold enc_dict. destruct w; [done|]. done. }
      specialize (IH r k (w ++ [b]) fuel). rewrite Heq in IH.
      rewrite IH; try done; [by rewrite <- !app_assoc|by destruct w|].
      apply code_of_Some in Hj as [_ Hj]. by eapply list_elem_of_lookup_2.
    + destruct (code_of_elem _ _ Hin) as [i Hi]. rewrite Hi in *. simpl default in *.
      destruct (ref_string_code r w i Hw Hp Hi) as [Hstr _].
      pose proof (code_not_end _ _ _ Hok Hw Hi) as Hne.
      destruct fuel as [|fuel]; [simpl in Hfuel; lia|]. cbn [ref_loop].
      rewrite (ref_step_code _ _ _ _ Hat), (proj2 (Z.eqb_neq _ _)), Hstr by done.
      rewrite (IH _ (S k) [b]).
      * simpl. by rewrite <- !app_assoc.
      * done.
      * simpl. congruence.
      * done.
      * rewrite enc_dict_next. by apply dict_ok_app.
      * rewrite enc_dict_next. destruct Hok as [_ Hsing]. specialize (Hsing b Hb). set_solver.
      * rewrite enc_dict_next. eapply at_codes_next. exact Hat.
      * rewrite enc_dict_next. simpl in Hfuel. lia.
Qed.

End Stream.

(** ** The compressed stream *)

Lemma enc_codes_fit bs : forall E w k,
  length E = (257 + k)%nat -> w ∈ E -> (forall b, digit 8 b -> [b] ∈ E) -> Forall (digit 8) bs ->
  codes_fit k (enc E w bs ++ [256]).
Proof.
  assert (forall E w k, length E = (257 + k)%nat -> w ∈ E ->
    0 <= default 0 (code_of E w) < 257 + Z.of_nat k) as Hcode.
  { intros E w k HE Hw. destruct (code_of_elem _ _ Hw) as [i Hi]. rewrite Hi. simpl.
    apply code_of_Some in Hi as [? Hi%lookup_lt_Some]. lia. }
  induction bs as [|b bs IH]; intros E w k HE Hw Hsing Hbs; cbn [enc].
  - simpl. split; [by apply Hcode|]. split; [lia|done].
  - inversion Hbs as [|? ? Hb Hbs']; subst.
    destruct (code_of E (w ++ [b])) as [j|] eqn:Hj.
    + apply IH; try done. apply code_of_Some in Hj as [_ Hj]. by eapply list_elem_of_lookup_2.
    + simpl. split; [by apply Hcode|]. apply IH; try done.
      * rewrite length_app. simpl. lia.
      * specialize (Hsing b Hb). set_solver.
      * intros b' Hb'. specialize (Hsing b' Hb'). set_solver.
Qed.

Lemma enc_length bs : forall E w, (length (enc E w bs) <= length bs + 1)%nat.
Proof.
  induction bs as [|b bs IH]; intros E w; cbn [enc]; [done|].
  destruct (code_of E (w ++ [b])); simpl; [specialize (IH E (w ++ [b]))|specialize (IH (E ++ [w ++ [b]]) [b])]; lia.
Qed.

Lemma init_dict_ok : dict_ok (dict ref_init).
Proof.
  split; [done|]. intros b [? ?]. apply elem_of_app. left.
  apply list_elem_of_fmap. exists (Z.to_nat b). split; [f_equal; lia|].
  apply elem_of_seq. lia.
Qed.

Lemma lzw_codes_fit bs : Forall (digit 8) bs -> codes_fit 0 (lzw_codes bs).
Proof.
  intros Hbs. destruct Hbs as [|b bs Hb Hbs]; [simpl; lia|].
  destruct init_dict_ok as [_ Hsing]. apply enc_codes_fit; try done. by apply Hsing.
Qed.

Lemma lzw_codes_length bs : (length (lzw_codes bs) <= length bs + 1)%nat.
Proof.
  destruct bs as [|b bs]; [done|]. cbn [lzw_codes]. rewrite length_app.
  pose proof (enc_length bs (dict ref_init) [b]). cbn [length]. lia.
Qed.

Lemma packed_bits_bounds cs : forall k,
  257 + Z.of_nat k + Z.of_nat (length cs) <= 2 ^ 32 ->
  9 * Z.of_nat (length cs) <= packed_bits k cs <= 32 * Z.of_nat (length cs).
Proof.
  induction cs as [|c cs IH]; intros k Hk; [simpl; lia|].
  cbn [packed_bits length]. simpl length in Hk.
  pose proof (width_range k ltac:(lia)). specialize (IH (S k) ltac:(lia)). lia.
Qed.

Lemma lzw_compress_length bs :
  Z.of_nat (length bs) <= 2 ^ 24 ->
  9 * Z.of_nat (length (lzw_codes bs)) < 32 * Z.of_nat (length (lzw_compress bs)) /\
  packed_bits 0 (lzw_codes bs) < 32 * Z.of_nat (length (lzw_compress bs)) /\
  Z.of_nat (length (lzw_compress bs)) <= Z.of_nat (length bs) + 2.
Proof.
  intros Hbs. pose proof (lzw_codes_length bs). unfold lzw_compress. rewrite to_words_length.
  pose proof (packed_bits_bounds (lzw_codes bs) 0 ltac:(lia)) as Hpb.
  pose proof (Z.div_mod (packed_bits 0 (lzw_codes bs)) 32 ltac:(lia)).
  pose proof (Z.mod_pos_bound (packed_bits 0 (lzw_codes bs)) 32 ltac:(lia)).
  rewrite Z2Nat.id by (apply Z.add_nonneg_nonneg; [apply Z.div_pos|]; lia). lia.
Qed.

Lemma lzw_compress_stream bs :
  Forall (digit 8) bs -> Z.of_nat (length bs) <= 2 ^ 24 ->
  le_join 32 (lzw_compress bs) = pack 0 (lzw_codes bs).
Proof.
  intros Hbs Hlen. pose proof (lzw_codes_fit bs Hbs) as Hfit.
  pose proof (lzw_compress_length bs Hlen) as (_ & Hroom & _).
  unfold lzw_compress in *. rewrite to_words_length in Hroom.
  apply le_join_to_words. split; [by apply pack_nonneg|].
  eapply Z.lt_trans; [by apply pack_bound|]. apply Z.pow_lt_mono_r; lia.
Qed.

Lemma ref_decode_compress bs :
  Forall (digit 8) bs -> Z.of_nat (length bs) <= 2 ^ 24 ->
  ref_decode (lzw_compress bs) = Returned (Z.of_nat (length bs)) bs.
Proof.
  intros Hbs Hlen. pose proof (lzw_compress_length bs Hlen) as (Hl1 & Hl2 & Hl3).
  assert (at_codes (lzw_compress bs) ref_init 0 (lzw_codes bs)) as Hat.
  { split; cbn [rpos ref_init]; [lia|done| |by apply lzw_codes_fit|lia].
    rewrite Z.shiftr_0_r. by apply lzw_compress_stream. }
  unfold ref_decode. destruct bs as [|b bs].
  - rewrite Nat.add_1_r. cbn [ref_loop]. by rewrite (ref_step_code _ _ _ _ _ Hat).
  - pose proof init_dict_ok as Hok. inversion Hbs as [|? ? Hb Hbs']; subst.
    rewrite (enc_decodes _ bs ref_init 0 [b]); try done.
    + apply Hok, Hb.
    + cbn [lzw_codes enc_dict prev ref_init] in *. lia.
Qed.

(** C3. Decompression inverts compression: for every byte string of up to 2^24
    bytes and a table with room for 266 nodes and four per byte, the decoder
    applied to the greedy LZW encoding of the string returns its length and
    stores exactly the string. *)
Theorem lzw_roundtrip mem0 cap bs :
  Forall (digit 8) bs -> Z.of_nat (length bs) <= 2 ^ 24 ->
  266 + 4 * Z.of_nat (length bs) <= cap ->
  lzw_decode mem0 cap (lzw_compress bs) = Returned (Z.of_nat (length bs)) bs.
Proof.
  intros Hbs Hlen Hcap. rewrite lzw_decode_eq_ref; [by apply ref_decode_compress|].
  pose proof (lzw_compress_length bs Hlen) as (_ & _ & Hl).
  split_and!; [apply to_words_digit|lia|lia].
Qed.

(** "banana" repeated: the code under construction is used (KwKwK). *)
Lemma lzw_roundtrip_witness :
  let bs := [98; 97; 110; 97; 110; 97; 110; 97; 110; 97] in
  lzw_decode (fun _ => LzwNode 0 0 0) 306 (lzw_compress bs) = Returned 10 bs.
Proof.
  apply (lzw_roundtrip (fun _ => LzwNode 0 0 0) 306 [98; 97; 110; 97; 110; 97; 110; 97; 110; 97]).
  - repeat constructor; unfold digit; lia.
  - simpl. lia.
  - simpl. lia.
Defined.
