(* ===== verification/UdcCache.v ===== *)
(** * Sector cache of the USB mass-storage gadget (drivers/mtd/udc_cache.c)

    The cache sits between the USB gadget driver and the NAND translation
    layer.  It keeps 256 sectors, each free, recently written or read
    ([PREWRITE_CACHE]) or used again ([OFTEN_USE_CACHE]), writes dirty sectors
    back in ascending order when it is full or flushed, and bypasses itself
    for requests of more than 8 sectors.

    The translation layer is only shipped as an object file: it is the class
    [MtdBlk] below, whose laws say that a sector reads as it was last written. *)

From S2P Require Import Prelude.

#[local] Arguments Z.eqb : simpl never.
#[local] Arguments Z.ltb : simpl never.
#[local] Arguments Z.leb : simpl never.
#[local] Arguments Z.add : simpl never.
#[local] Arguments Z.of_nat : simpl never.

(** ** The translation layer underneath *)

(** [content] is the logical contents of the device. *)
Class MtdBlk (F sector : Type) := {
  udc_mtdblock_readsect : F -> Z -> Z * sector * F;
  udc_mtdblock_writesect : F -> Z -> sector -> Z * F;
  udc_flush_cache : F -> F;
  content : F -> Z -> sector }.

Class MtdBlkLaws (F sector : Type) `{MtdBlk F sector} := {
  readsect_data f s : (udc_mtdblock_readsect f s).1.2 = content f s;
  readsect_frame f s x : content (udc_mtdblock_readsect f s).2 x = content f x;
  writesect_content f s d x :
    content (udc_mtdblock_writesect f s d).2 x = if decide (x = s) then d else content f x;
  flush_frame f x : content (udc_flush_cache f) x = content f x }.

(** ** Data *)

Definition CACHE_MAX_NUM : Z := 256.
Definition FREE_CACHE : Z := 0.
Definition PREWRITE_CACHE : Z := 2.
Definition OFTEN_USE_CACHE : Z := 3.
Definition SECTOR_SHIFT : Z := 9.

Section Cache.
Context {F sector : Type} `{MtdBlk F sector}.

(** [aBlockData] points to a slot of [__aBlockData] that belongs to the entry
    for good, so the entry holds the sector itself. *)
Record SSFDC__LB_CACHE := LbCache {
  CacheState : Z;
  UseCount : Z;
  CacheChange : Z;
  BlockId : Z;
  aBlockData : sector }.

Record udc_state := UdcState {
  ssfdc_cache : list SSFDC__LB_CACHE;
  Cur_CacheCount : Z;
  FlushDataState : Z;
  flash : F }.

Definition with_cache (st : udc_state) c := UdcState c (Cur_CacheCount st) (FlushDataState st) (flash st).
Definition with_cur (st : udc_state) n := UdcState (ssfdc_cache st) n (FlushDataState st) (flash st).
Definition with_flash (st : udc_state) f := UdcState (ssfdc_cache st) (Cur_CacheCount st) (FlushDataState st) f.
Definition with_dirty_flag (st : udc_state) n := UdcState (ssfdc_cache st) (Cur_CacheCount st) n (flash st).

(** [CacheChange = 0; CacheState = FREE_CACHE; UseCount = 0] *)
Definition release (e : SSFDC__LB_CACHE) : SSFDC__LB_CACHE :=
  LbCache FREE_CACHE 0 0 (BlockId e) (aBlockData e).

Definition is_free (e : SSFDC__LB_CACHE) : bool := CacheState e =? FREE_CACHE.

(** [_NAND_LB_Write(pCache)] *)
Definition _NAND_LB_Write (f : F) (e : SSFDC__LB_CACHE) : F :=
  (udc_mtdblock_writesect f (BlockId e) (aBlockData e)).2.

(** Write back if changed, then free: the flash and the entry. *)
Definition evict (f : F) (e : SSFDC__LB_CACHE) : F * SSFDC__LB_CACHE :=
  (if CacheChange e =? 0 then f else _NAND_LB_Write f e, release e).

(** ** Operations *)

Definition _NAND_LB_InitCache (st : udc_state) : udc_state :=
  UdcState (release <$> ssfdc_cache st) 0 (FlushDataState st) (flash st).

(** [p] is the index of [pCacheInfo], [cur] the value of [Cur_CacheCount]:
    the index found, if any, and the final [Cur_CacheCount]. *)
Fixpoint get_free_loop (fuel : nat) (c : list SSFDC__LB_CACHE) (p cur ret : Z)
  : option (option Z * Z) :=
  match fuel with
  | O => None
  | S fuel' =>
      if CACHE_MAX_NUM <=? ret then Some (None, cur)
      else
        let '(p, cur) := if CACHE_MAX_NUM <=? p then (0, 0) else (p, cur) in
        e ← rd c p;
        if is_free e then Some (Some p, cur)
        else get_free_loop fuel' c (p + 1) (u16 (cur + 1)) (ret + 1)
  end.

Definition _NAND_LB_GetFreeCache (st : udc_state) : option (option Z * udc_state) :=
  '(r, cur) ← get_free_loop 257 (ssfdc_cache st) (Cur_CacheCount st) (Cur_CacheCount st) 0;
  Some (r, with_cur st cur).

Definition in_range (lo hi : Z) (e : SSFDC__LB_CACHE) : bool :=
  negb (is_free e) && (lo <=? BlockId e) && (BlockId e <? hi).

Definition _NAND_LB_CloseCACHES (st : udc_state) (sectorstart sectorend : Z) : udc_state :=
  with_cache st
    ((fun e => if in_range sectorstart sectorend e then release e else e) <$> ssfdc_cache st).

Fixpoint flush_loop (lo hi : Z) (f : F) (c : list SSFDC__LB_CACHE) : F * list SSFDC__LB_CACHE :=
  match c with
  | [] => (f, [])
  | e :: c' =>
      let '(f1, e1) := if in_range lo hi e then evict f e else (f, e) in
      let '(f2, c2) := flush_loop lo hi f1 c' in
      (f2, e1 :: c2)
  end.

Definition _NAND_LB_FLUSHCACHES (st : udc_state) (sectorstart sectorend : Z) : udc_state :=
  let '(f, c) := flush_loop sectorstart sectorend (flash st) (ssfdc_cache st) in
  with_flash (with_cache st c) f.

Definition Get_NAND_CacheFreeCount (st : udc_state) : Z :=
  Z.of_nat (length (filter (fun e => is_free e = true) (ssfdc_cache st))).

(** The inner scan of [_NAND_LB_PreWiteToNand] from index [i] on: the final
    values of [sector], [pCache] (as an index) and [flag]. *)
Fixpoint scan_lowest (update i : Z) (c : list SSFDC__LB_CACHE) (sec pc flag : Z) : Z * Z * Z :=
  match c with
  | [] => (sec, pc, flag)
  | e :: c' =>
      if CacheState e =? update then
        if BlockId e <? sec then scan_lowest update (i + 1) c' (BlockId e) i flag
        else scan_lowest update (i + 1) c' sec pc flag
      else scan_lowest update (i + 1) c' sec pc (flag + 1)
  end.

(** [pc] is the index of [pCache]; the loop frees one entry per turn, so 257
    turns are enough. *)
Fixpoint prewrite_loop (fuel : nat) (update : Z) (st : udc_state) (pc cnt : Z)
  : option (udc_state * Z) :=
  match fuel with
  | O => None
  | S fuel' =>
      let '(_, pc', flag) := scan_lowest update 0 (ssfdc_cache st) (u32 (-1)) pc 0 in
      if flag <? CACHE_MAX_NUM then
        e ← rd (ssfdc_cache st) pc';
        let '(f, e') := evict (flash st) e in
        c ← wr (ssfdc_cache st) pc' e';
        prewrite_loop fuel' update (with_flash (with_cache st c) f) pc' (u16 (cnt + 1))
      else Some (st, cnt)
  end.

Definition _NAND_LB_PreWiteToNand (st : udc_state) (cnt update : Z) : option (udc_state * Z) :=
  prewrite_loop 257 update st 0 cnt.

Definition _NAND_LB_FreeCache (st : udc_state) (update : Z) : option (Z * udc_state) :=
  '(st1, freecount) ← _NAND_LB_PreWiteToNand st 0 PREWRITE_CACHE;
  let totalfree := freecount in
  '(st2, totalfree, update) ←
    (if freecount =? 0 then
       '(st2, n) ← _NAND_LB_PreWiteToNand st1 0 OFTEN_USE_CACHE;
       Some (st2, u16 (totalfree + n), 0)
     else Some (st1, totalfree, update));
  if update =? 0 then Some (totalfree, st2)
  else if Get_NAND_CacheFreeCount st2 <? CACHE_MAX_NUM * 1 / 4 then
    '(st3, n) ← _NAND_LB_PreWiteToNand st2 0 OFTEN_USE_CACHE;
    Some (u16 (totalfree + n), st3)
  else Some (totalfree, st2).

(** The scan of [_NAND_LB_OftenToNand] from index [p], with [pWriteCache] at [w]. *)
Fixpoint least_used (fuel : nat) (c : list SSFDC__LB_CACHE) (p w : Z) : option Z :=
  match fuel with
  | O => None
  | S fuel' =>
      e ← rd c p;
      we ← rd c w;
      let w' := if CacheState e =? OFTEN_USE_CACHE then
                  if negb (CacheState we =? OFTEN_USE_CACHE) then p
                  else if UseCount e <? UseCount we then p else w
                else w in
      if CACHE_MAX_NUM <=? p + 1 then Some w' else least_used fuel' c (p + 1) w'
  end.

(** Recursive in the source; each call frees an entry or stops. *)
Fixpoint _NAND_LB_OftenToNand (fuel : nat) (st : udc_state) (pc cnt update : Z)
  : option (udc_state * Z) :=
  match fuel with
  | O => None
  | S fuel' =>
      w ← least_used 256 (ssfdc_cache st) pc pc;
      e ← rd (ssfdc_cache st) w;
      if CacheState e =? OFTEN_USE_CACHE then
        let '(f, e') := evict (flash st) e in
        c ← wr (ssfdc_cache st) w e';
        let st' := with_flash (with_cache st c) f in
        let update' := if update =? u32 (-1) then update else u32 (update - 1) in
        if update' =? 0 then Some (st', u16 (cnt + 1))
        else _NAND_LB_OftenToNand fuel' st' pc (u16 (cnt + 1)) update'
      else Some (st, cnt)
  end.

(** A hit: [UseCount++] saturating, and [CacheState = OFTEN_USE_CACHE]. *)
Definition touch (e : SSFDC__LB_CACHE) : SSFDC__LB_CACHE :=
  let n := u16 (UseCount e + 1) in
  LbCache OFTEN_USE_CACHE (if n =? 0 then u16 (-1) else n)
          (CacheChange e) (BlockId e) (aBlockData e).

(** The downward scan of [_NAND_LB_GetFromCache]: [n] turns are left, [p] is
    the index of [pCache] and [use] that of [pUseCache]. *)
Fixpoint get_loop (n : nat) (c : list SSFDC__LB_CACHE) (Sector p : Z) (use : option Z)
  : option (list SSFDC__LB_CACHE * option Z) :=
  match n with
  | O => Some (c, use)
  | S n' =>
      e ← rd c p;
      '(c, use) ←
        (if negb (is_free e) && (Sector =? BlockId e) then
           c ← wr c p (touch e); Some (c, Some p)
         else Some (c, use));
      let p := p - 1 in
      let p := if p <? 0 then CACHE_MAX_NUM - 1 else p in
      get_loop n' c Sector p use
  end.

(** The sector copied to [pBuffer] on a hit (return value 0), [None] on a miss
    (return value -1). *)
Definition _NAND_LB_GetFromCache (st : udc_state) (Sector : Z)
  : option (option sector * udc_state) :=
  let p := if CACHE_MAX_NUM <=? Cur_CacheCount st then 0 else Cur_CacheCount st in
  '(c, use) ← get_loop 256 (ssfdc_cache st) Sector p None;
  match use with
  | Some i => e ← rd c i; Some (Some (aBlockData e), with_cache st c)
  | None => Some (None, with_cache st c)
  end.

Definition _NAND_LB_ClearCache (st : udc_state) : option udc_state :=
  '(st1, n) ← _NAND_LB_PreWiteToNand st 0 PREWRITE_CACHE;
  '(st2, _) ← _NAND_LB_PreWiteToNand st1 n OFTEN_USE_CACHE;
  Some st2.

Definition _NAND_LB_CopyToCache (st : udc_state) (Sector : Z) (pBuffer : sector) (rw : Z)
  : option udc_state :=
  '(p, st1) ← _NAND_LB_GetFreeCache st;
  '(i, st2) ←
    match p with
    | Some i => Some (i, st1)
    | None =>
        '(_, st') ← _NAND_LB_FreeCache st1 rw;
        '(p', st'') ← _NAND_LB_GetFreeCache st';
        i ← p';                         (* a null pointer is undefined *)
        Some (i, st'')
    end;
  c ← wr (ssfdc_cache st2) i (LbCache PREWRITE_CACHE 0 rw Sector pBuffer);
  Some (with_cache st2 c).

Fixpoint update_loop (fuel : nat) (c : list SSFDC__LB_CACHE) (Sector : Z) (d : sector) (i ret : Z)
  : option (option (list SSFDC__LB_CACHE)) :=
  match fuel with
  | O => None
  | S fuel' =>
      if CACHE_MAX_NUM <=? ret then Some None
      else
        e ← rd c i;
        if negb (is_free e) && (BlockId e =? Sector) then
          c' ← wr c i (LbCache OFTEN_USE_CACHE (u16 (UseCount e + 1)) 1 (BlockId e) d);
          Some (Some c')
        else
          let i := i - 1 in
          let i := if i <? 0 then CACHE_MAX_NUM - 1 else i in
          update_loop fuel' c Sector d i (ret + 1)
  end.

(** [true] for return value 0, [false] for -1. *)
Definition _NAND_LB_UpdateInCache (st : udc_state) (Sector : Z) (pBuffer : sector)
  : option (bool * udc_state) :=
  let i := if CACHE_MAX_NUM <? Cur_CacheCount st then 0 else Cur_CacheCount st in
  r ← update_loop 257 (ssfdc_cache st) Sector pBuffer i 0;
  match r with
  | Some c => Some (true, with_cache st c)
  | None => Some (false, st)
  end.

Fixpoint multiread_loop (fuel : nat) (f : F) (i end_ : Z) : list sector * F :=
  match fuel with
  | O => ([], f)
  | S fuel' =>
      if i <? end_ then
        let '(_, d, f1) := udc_mtdblock_readsect f i in
        let '(ds, f2) := multiread_loop fuel' f1 (i + 1) end_ in
        (d :: ds, f2)
      else ([], f)
  end.

(** The sectors stored from [pBuffer] on.  [i] and [end] are signed. *)
Definition NAND_LB_MultiRead (st : udc_state) (Sector SectorCount : Z)
  : list sector * udc_state :=
  let end_ := s32 (Sector + SectorCount) in
  let st1 := _NAND_LB_FLUSHCACHES st Sector (u32 end_) in
  let i := s32 Sector in
  let '(ds, f) := multiread_loop (Z.to_nat (end_ - i)) (flash st1) i end_ in
  (ds, with_flash st1 f).

Definition NAND_LB_Read (st : udc_state) (Sector : Z) : option (sector * udc_state) :=
  '(r, st1) ← _NAND_LB_GetFromCache st Sector;
  match r with
  | Some d => Some (d, st1)
  | None =>
      let '(_, d, f) := udc_mtdblock_readsect (flash st1) Sector in
      st2 ← _NAND_LB_CopyToCache (with_flash st1 f) Sector d 0;
      Some (d, st2)
  end.

Fixpoint multiwrite_loop (f : F) (i : Z) (ds : list sector) : F :=
  match ds with
  | [] => f
  | d :: ds' => multiwrite_loop (udc_mtdblock_writesect f i d).2 (i + 1) ds'
  end.

(** The buffer holds [SectorCount] sectors, and the loop writes one per turn. *)
Definition NAND_LB_MultiWrite (st : udc_state) (Sector : Z) (pBuffer : list sector) : udc_state :=
  let st1 := _NAND_LB_CloseCACHES st Sector (u32 (Sector + Z.of_nat (length pBuffer))) in
  with_flash st1 (multiwrite_loop (flash st1) Sector pBuffer).

Definition NAND_LB_Write (st : udc_state) (Sector : Z) (pBuffer : sector) : option udc_state :=
  '(hit, st1) ← _NAND_LB_UpdateInCache st Sector pBuffer;
  if hit : bool then Some st1 else _NAND_LB_CopyToCache st1 Sector pBuffer 1.

Definition NAND_LB_Init (st : udc_state) : udc_state := _NAND_LB_InitCache st.
Definition NAND_LB_FLASHCACHE (st : udc_state) : option udc_state := _NAND_LB_ClearCache st.
Definition NAND_MTD_FLASHCACHE (st : udc_state) : udc_state :=
  with_flash st (udc_flush_cache (flash st)).

Fixpoint read_loop (n : nat) (st : udc_state) (block : Z) : option (list sector * udc_state) :=
  match n with
  | O => Some ([], st)
  | S n' =>
      '(d, st1) ← NAND_LB_Read st block;
      '(ds, st2) ← read_loop n' st1 (u32 (block + 1));
      Some (d :: ds, st2)
  end.

(** The sectors stored in [buf]; the return value is always [len]. *)
Definition udc_read (st : udc_state) (offset len : Z) : option (list sector * udc_state) :=
  let block := u32 (Z.shiftr offset SECTOR_SHIFT) in
  let sector := Z.shiftr len SECTOR_SHIFT in
  if sector <=? 8 then read_loop (Z.to_nat sector) st block
  else Some (NAND_LB_MultiRead st block sector).

Fixpoint write_loop (st : udc_state) (block : Z) (ds : list sector) : option udc_state :=
  match ds with
  | [] => Some st
  | d :: ds' =>
      st1 ← NAND_LB_Write st block d;
      write_loop (with_dirty_flag st1 1) (u32 (block + 1)) ds'
  end.

(** [buf] holds the [len >> SECTOR_SHIFT] sectors to write. *)
Definition udc_write (st : udc_state) (offset : Z) (buf : list sector) : option udc_state :=
  let block := u32 (Z.shiftr offset SECTOR_SHIFT) in
  if Z.of_nat (length buf) <=? 8 then write_loop st block buf
  else Some (NAND_LB_MultiWrite st block buf).

(** ** Logical contents and consistency *)

Definition hit (s : Z) (e : SSFDC__LB_CACHE) : bool := negb (is_free e) && (BlockId e =? s).

(** What a reader of sector [s] must get: the cached copy if there is one. *)
Definition view (c : list SSFDC__LB_CACHE) (f : F) (s : Z) : sector :=
  match list_find (fun e => hit s e = true) c with
  | Some (_, e) => aBlockData e
  | None => content f s
  end.

Record consistent (c : list SSFDC__LB_CACHE) (f : F) : Prop := {
  con_state : forall i e, c !! i = Some e ->
    CacheState e = FREE_CACHE \/ CacheState e = PREWRITE_CACHE \/ CacheState e = OFTEN_USE_CACHE;
  con_block : forall i e, c !! i = Some e -> is_free e = false -> 0 <= BlockId e < 2 ^ 32 - 1;
  con_uniq : forall i j e e', c !! i = Some e -> c !! j = Some e' ->
    is_free e = false -> is_free e' = false -> BlockId e = BlockId e' -> i = j;
  con_clean : forall i e, c !! i = Some e -> is_free e = false -> CacheChange e = 0 ->
    aBlockData e = content f (BlockId e) }.

Record cache_ok (st : udc_state) : Prop := {
  ok_len : length (ssfdc_cache st) = 256%nat;
  ok_cur : 0 <= Cur_CacheCount st < 256;
  ok_con : consistent (ssfdc_cache st) (flash st) }.

Definition st_view (st : udc_state) (s : Z) : sector := view (ssfdc_cache st) (flash st) s.

Lemma hit_true s e : hit s e = true <-> is_free e = false /\ BlockId e = s.
Proof.
  unfold hit. rewrite andb_true_iff, negb_true_iff, Z.eqb_eq. done.
Qed.

Section Laws.
Context `{!MtdBlkLaws F sector}.

Lemma view_hit c f i e s :
  consistent c f -> c !! i = Some e -> hit s e = true -> view c f s = aBlockData e.
Proof.
  intros Hc Hi Hh. unfold view.
  destruct (list_find _ c) as [[j e']|] eqn:Hf.
  - apply list_find_Some in Hf as (Hj & Hh' & _).
    apply hit_true in Hh as [? Hb], Hh' as [? Hb'].
    assert (i = j) as -> by (eapply con_uniq; eauto; congruence). congruence.
  - apply list_find_None in Hf. eapply Forall_lookup_1 in Hf; [|exact Hi]. done.
Qed.

Lemma view_miss c f s :
  (forall i e, c !! i = Some e -> hit s e = false) -> view c f s = content f s.
Proof.
  intros Hmiss. unfold view. destruct (list_find _ c) as [[j e']|] eqn:Hf; [|done].
  apply list_find_Some in Hf as (Hj & Hh & _). apply Hmiss in Hj. congruence.
Qed.

(** A sector is cached at one index or at none. *)
Lemma hit_dec (c : list SSFDC__LB_CACHE) s :
  (exists i e, c !! i = Some e /\ hit s e = true) \/
  (forall i e, c !! i = Some e -> hit s e = false).
Proof.
  destruct (list_find (fun e => hit s e = true) c) as [[j e]|] eqn:Hf.
  - apply list_find_Some in Hf as (? & ? & _). eauto.
  - right. intros i e Hi. apply list_find_None in Hf.
    eapply Forall_lookup_1 in Hf; [|exact Hi]. by destruct (hit s e).
Qed.

Lemma release_free e : is_free (release e) = true.
Proof. done. Qed.

(** Overwriting entry [i]: lookups in the new cache. *)
Lemma insert_cases (c : list SSFDC__LB_CACHE) i e' j e :
  <[i := e']> c !! j = Some e -> (j = i /\ e = e') \/ (j <> i /\ c !! j = Some e).
Proof.
  intros Hj. destruct (decide (i = j)) as [->|Hne].
  - left. split; [done|]. apply lookup_lt_Some in Hj as Hlt. rewrite length_insert in Hlt.
    rewrite list_lookup_insert_eq in Hj by done. congruence.
  - right. rewrite list_lookup_insert_ne in Hj by done. split; [congruence|done].
Qed.

Lemma evict_content f e s :
  content (evict f e).1 s =
    if decide (s = BlockId e /\ CacheChange e <> 0) then aBlockData e else content f s.
Proof.
  unfold evict. simpl. destruct (Z.eqb_spec (CacheChange e) 0).
  - rewrite decide_False by naive_solver. done.
  - unfold _NAND_LB_Write. rewrite writesect_content.
    repeat case_decide; naive_solver.
Qed.

(** Eviction of an entry in use keeps the cache consistent and every sector's
    logical contents. *)
Lemma evict_ok c f i e :
  consistent c f -> c !! i = Some e -> is_free e = false ->
  consistent (<[i := release e]> c) (evict f e).1 /\
  forall s, view (<[i := release e]> c) (evict f e).1 s = view c f s.
Proof.
  intros Hc Hi He.
  assert (consistent (<[i := release e]> c) (evict f e).1) as Hc'.
  { split.
    - intros j x [[-> ->]|[_ Hj]]%insert_cases; [left; done|by eapply con_state].
    - intros j x [[-> ->]|[_ Hj]]%insert_cases Hx; [done|by eapply con_block].
    - intros j k x y [[-> ->]|[_ Hj]]%insert_cases [[-> ->]|[_ Hk]]%insert_cases Hx Hy;
        try done. by eapply con_uniq.
    - intros j x [[-> ->]|[Hne Hj]]%insert_cases Hx Hch; [done|].
      rewrite evict_content, decide_False; [by eapply con_clean|].
      intros [Hb _]. apply Hne. by eapply con_uniq. }
  split; [done|]. intros s. destruct (hit_dec (<[i := release e]> c) s) as [(j & x & Hj & Hh)|Hmiss].
  - rewrite (view_hit _ _ j x) by done.
    apply insert_cases in Hj as [[-> ->]|[_ Hj]]; [done|].
    by rewrite (view_hit _ _ j x).
  - rewrite view_miss by done. rewrite evict_content.
    destruct (Z.eq_dec (BlockId e) s) as [Heq|Hne].
    + rewrite (view_hit c f i e) by (try done; by apply hit_true).
      case_decide as Hd; [done|]. subst s. symmetry. eapply con_clean; eauto.
      destruct (Z.eq_dec (CacheChange e) 0); naive_solver.
    + rewrite decide_False by naive_solver. rewrite view_miss; [done|].
      intros j x Hj. destruct (decide (j = i)) as [->|Hji].
      * assert (x = e) as -> by congruence. unfold hit. rewrite He. simpl. bool_lia.
      * apply (Hmiss j). by rewrite list_lookup_insert_ne.
Qed.

(** Setting entry [i], free or already holding [s], to hold [d] for [s]. *)
Lemma fill_ok c f i e0 e s :
  consistent c f -> c !! i = Some e0 ->
  (forall j x, c !! j = Some x -> hit s x = true -> j = i) ->
  is_free e0 = true \/ hit s e0 = true ->
  hit s e = true -> 0 <= s < 2 ^ 32 - 1 ->
  CacheState e = PREWRITE_CACHE \/ CacheState e = OFTEN_USE_CACHE ->
  CacheChange e <> 0 \/ aBlockData e = content f s ->
  consistent (<[i := e]> c) f /\
  forall x, view (<[i := e]> c) f x = if decide (x = s) then aBlockData e else view c f x.
Proof.
  intros Hc Hi Honly Hold Hh Hs Hst Hch. pose proof (proj1 (hit_true _ _) Hh) as [Hnf Hb].
  assert (consistent (<[i := e]> c) f) as Hc'.
  { split.
    - intros j x [[-> ->]|[_ Hj]]%insert_cases; [tauto|by eapply con_state].
    - intros j x [[-> ->]|[_ Hj]]%insert_cases Hx; [lia|by eapply con_block].
    - intros j k x y [[-> ->]|[Hji Hj]]%insert_cases [[-> ->]|[Hki Hk]]%insert_cases Hx Hy Hxy;
        [done| | |by eapply con_uniq].
      + symmetry. eapply Honly; [exact Hk|]. apply hit_true. split; [done|congruence].
      + eapply Honly; [exact Hj|]. apply hit_true. split; [done|congruence].
    - intros j x [[-> ->]|[Hne Hj]]%insert_cases Hx Hx0; [|by eapply con_clean].
      rewrite Hb. by destruct Hch. }
  split; [done|]. intros x. assert (i < length c)%nat as Hlt by (by eapply lookup_lt_Some).
  case_decide as Hx.
  - subst x. eapply view_hit; [done|by apply list_lookup_insert_eq|done].
  - destruct (hit_dec c x) as [(j & y & Hj & Hy)|Hmiss].
    + rewrite (view_hit c f j y) by done.
      assert (j <> i) as Hji.
      { intros ->. assert (y = e0) as -> by congruence.
        apply hit_true in Hy as [? ?]. destruct Hold as [?|Ho]; [congruence|].
        apply hit_true in Ho as [_ ?]. congruence. }
      apply (view_hit _ _ j y); [done| |done]. by rewrite list_lookup_insert_ne.
    + rewrite !view_miss; [done|done|].
      intros j y [[-> ->]|[_ Hj]]%insert_cases; [|by eapply Hmiss].
      unfold hit. rewrite Hb, Hnf. simpl. bool_lia.
Qed.

(** *** Write-back of all entries in one state *)

(** The cache after every entry in state [u] has been released. *)
Definition drain (u : Z) (c : list SSFDC__LB_CACHE) : list SSFDC__LB_CACHE :=
  (fun e => if CacheState e =? u then release e else e) <$> c.

(** How many entries are in state [u]. *)
Fixpoint tally (u : Z) (c : list SSFDC__LB_CACHE) : Z :=
  match c with
  | [] => 0
  | e :: c' => (if CacheState e =? u then 1 else 0) + tally u c'
  end.

Lemma tally_bounds u c : 0 <= tally u c <= Z.of_nat (length c).
Proof. induction c as [|e c IH]; simpl; [lia|]. zcases. Qed.

Lemma tally_zero u c : tally u c = 0 -> drain u c = c.
Proof.
  induction c as [|e c IH]; simpl; [done|]. pose proof (tally_bounds u c).
  destruct (Z.eqb_spec (CacheState e) u); [lia|]. intros Hz.
  unfold drain in *. f_equal. apply IH. lia.
Qed.

Lemma tally_release u c i e :
  u <> FREE_CACHE -> c !! i = Some e -> CacheState e = u ->
  tally u (<[i := release e]> c) = tally u c - 1.
Proof.
  intros Hu. revert i. induction c as [|x c IH]; intros [|i] Hi He; simplify_eq/=.
  - rewrite Z.eqb_refl, (proj2 (Z.eqb_neq _ _)) by done. lia.
  - rewrite (IH i) by done. lia.
Qed.

Lemma drain_release u c i e :
  u <> FREE_CACHE -> c !! i = Some e -> CacheState e = u ->
  drain u (<[i := release e]> c) = drain u c.
Proof.
  intros Hu Hi He. unfold drain. rewrite list_fmap_insert. simpl.
  rewrite (proj2 (Z.eqb_neq _ _)) by done. apply list_insert_id.
  rewrite list_lookup_fmap, Hi. simpl. by rewrite He, Z.eqb_refl.
Qed.

Lemma scan_lowest_flag u c i sec pc flag :
  (scan_lowest u i c sec pc flag).2 = flag + (Z.of_nat (length c) - tally u c).
Proof.
  revert i sec pc flag. induction c as [|e c IH]; intros i sec pc flag; simpl; [lia|].
  repeat case_match; rewrite IH; lia.
Qed.

(** The scan moves to an entry in state [u] below [sec], if there is one. *)
Lemma scan_lowest_none u c i sec pc flag :
  (forall k e, c !! k = Some e -> CacheState e = u -> sec <= BlockId e) ->
  (scan_lowest u i c sec pc flag).1.2 = pc.
Proof.
  revert i flag. induction c as [|e c IH]; intros i flag Hall; simpl; [done|].
  pose proof (Hall 0%nat e eq_refl) as He.
  assert (forall k y, c !! k = Some y -> CacheState y = u -> sec <= BlockId y) as Hc
    by (intros k y Hk; by apply (Hall (S k))).
  destruct (Z.eqb_spec (CacheState e) u) as [Hu|]; [|by apply IH].
  rewrite (proj2 (Z.ltb_ge _ _)) by auto. by apply IH.
Qed.

Lemma scan_lowest_pc u c i sec pc flag :
  (forall k e, c !! k = Some e -> CacheState e = u -> sec <= BlockId e) \/
  exists k e, (scan_lowest u i c sec pc flag).1.2 = i + Z.of_nat k /\
              c !! k = Some e /\ CacheState e = u.
Proof.
  revert i sec pc flag. induction c as [|e c IH]; intros i sec pc flag.
  { left. intros k e Hk. done. }
  assert (forall sec pc flag,
    CacheState e <> u \/ sec <= BlockId e ->
    (forall k x, (e :: c) !! k = Some x -> CacheState x = u -> sec <= BlockId x) \/
    exists k x, (scan_lowest u (i + 1) c sec pc flag).1.2 = i + Z.of_nat k /\
                (e :: c) !! k = Some x /\ CacheState x = u) as Hskip.
  { clear sec pc flag. intros sec pc flag He.
    destruct (IH (i + 1) sec pc flag) as [Hall|(k & x & Hk & Hx & Hu)].
    - left. intros [|k] x Hx Hu; [simplify_eq/=; naive_solver|by eapply Hall].
    - right. exists (S k), x. rewrite Hk. split; [lia|done]. }
  simpl. destruct (Z.eqb_spec (CacheState e) u) as [He|He]; [|by apply Hskip; left].
  destruct (Z.ltb_spec (BlockId e) sec) as [Hlt|Hge]; [|by apply Hskip; right].
  right. destruct (Hskip (BlockId e) i flag) as [Hall|?]; [right; lia| |done].
  exists 0%nat, e. split; [|done]. rewrite scan_lowest_none; [lia|].
  intros k x Hk. by apply (Hall (S k)).
Qed.


(** [st'] differs from [st] by a cache and a flash that hold the same logical
    contents. *)
Record same_disk (st st' : udc_state) : Prop := {
  sd_len : length (ssfdc_cache st') = length (ssfdc_cache st);
  sd_con : consistent (ssfdc_cache st') (flash st');
  sd_view : forall s, st_view st' s = st_view st s;
  sd_flag : FlushDataState st' = FlushDataState st }.

Lemma same_disk_refl st : consistent (ssfdc_cache st) (flash st) -> same_disk st st.
Proof. by split. Qed.

Lemma same_disk_trans st1 st2 st3 : same_disk st1 st2 -> same_disk st2 st3 -> same_disk st1 st3.
Proof.
  intros [] []. split; [congruence|done| |congruence]. intros s. congruence.
Qed.

Lemma prewrite_loop_spec u fuel st pc cnt :
  u = PREWRITE_CACHE \/ u = OFTEN_USE_CACHE ->
  length (ssfdc_cache st) = 256%nat -> consistent (ssfdc_cache st) (flash st) ->
  tally u (ssfdc_cache st) < Z.of_nat fuel -> 0 <= cnt < 2 ^ 16 ->
  exists f', let st' := with_flash (with_cache st (drain u (ssfdc_cache st))) f' in
    prewrite_loop fuel u st pc cnt = Some (st', u16 (cnt + tally u (ssfdc_cache st))) /\
    same_disk st st'.
Proof.
  intros Hu. assert (u <> FREE_CACHE) as Hu0 by (destruct Hu as [-> | ->]; done).
  revert st pc cnt. induction fuel as [|fuel IH]; intros st pc cnt Hlen Hcon Hfuel Hcnt.
  { pose proof (tally_bounds u (ssfdc_cache st)). lia. }
  set (c := ssfdc_cache st) in *. simpl. fold c.
  pose proof (scan_lowest_flag u c 0 (u32 (-1)) pc 0) as Hflag.
  pose proof (scan_lowest_pc u c 0 (u32 (-1)) pc 0) as Hpc.
  destruct (scan_lowest u 0 c (u32 (-1)) pc 0) as [[sec pc'] flag]. simpl in Hflag, Hpc.
  rewrite Hlen in Hflag. pose proof (tally_bounds u c). unfold CACHE_MAX_NUM.
  destruct (Z.ltb_spec flag 256) as [Hlt|Hge].
  - destruct Hpc as [Hall|(k & e & -> & Hk & He)].
    { exfalso. cut (tally u c = 0); [lia|]. clear -Hall Hcon Hu0.
      assert (forall k e, c !! k = Some e -> CacheState e <> u) as Hno.
      { intros k e Hk He. pose proof (Hall k e Hk He) as Hb. change (u32 (-1)) with (2 ^ 32 - 1) in Hb.
        cut (0 <= BlockId e < 2 ^ 32 - 1); [lia|]. eapply con_block; [done..|].
        unfold is_free. bool_lia. }
      clear -Hno. induction c as [|x c IH]; simpl; [done|].
      rewrite IH by (intros k; apply (Hno (S k))).
      rewrite (proj2 (Z.eqb_neq _ _)); [done|]. by apply (Hno 0%nat). }
    assert (k < 256)%nat as Hk256 by (rewrite <- Hlen; by eapply lookup_lt_Some).
    assert (is_free e = false) as Hnf by (unfold is_free; bool_lia).
    assert (rd c (0 + Z.of_nat k) = Some e) as ->
      by (apply rd_Some; split; [lia|]; by rewrite Z.add_0_l, Nat2Z.id).
    simpl. unfold wr. rewrite Hlen, Z.add_0_l, Nat2Z.id.
    rewrite (proj2 (Z.leb_le _ _)), (proj2 (Z.ltb_lt _ _)) by lia. simpl.
    destruct (evict_ok c (flash st) k e) as [Hcon' Hview']; [done..|].
    set (f1 := (if CacheChange e =? 0 then flash st else _NAND_LB_Write (flash st) e)).
    change (evict (flash st) e).1 with f1 in *.
    set (st1 := with_flash (with_cache st (<[k:=release e]> c)) f1).
    destruct (IH st1 (Z.of_nat k) (u16 (cnt + 1))) as (f' & Hrun & Hsd).
    + simpl. by rewrite length_insert.
    + done.
    + simpl. rewrite tally_release by done. lia.
    + apply Z.mod_pos_bound. done.
    + exists f'. simpl in Hrun. rewrite Hrun, drain_release, tally_release by done.
      simpl in Hsd. rewrite drain_release in Hsd by done. split.
      * do 2 f_equal. unfold u16. rewrite Zplus_mod_idemp_l. f_equal. lia.
      * eapply same_disk_trans; [|exact Hsd]. split; simpl; [by rewrite length_insert|done| |done].
        intros s. apply Hview'.
  - exists (flash st). assert (tally u c = 0) as Ht by lia. rewrite tally_zero, Ht by done.
    unfold u16. rewrite Z.add_0_r, Z.mod_small by done. destruct st; simpl in *. split; [done|].
    by apply same_disk_refl.
Qed.

(** *** Circular scans *)

Lemma wrap_up p : 0 <= p <= 256 -> (if CACHE_MAX_NUM <=? p then 0 else p) = p mod 256.
Proof.
  intros Hp. unfold CACHE_MAX_NUM. destruct (Z.leb_spec 256 p).
  - by assert (p = 256) as -> by lia.
  - by rewrite Z.mod_small by lia.
Qed.

Lemma wrap_down p : 0 <= p < 256 ->
  (if p - 1 <? 0 then CACHE_MAX_NUM - 1 else p - 1) = (p - 1) mod 256.
Proof.
  intros Hp. unfold CACHE_MAX_NUM. destruct (Z.ltb_spec (p - 1) 0).
  - by assert (p = 0) as -> by lia.
  - by rewrite Z.mod_small by lia.
Qed.

(** The search returns the entry it leaves [Cur_CacheCount] at, or has seen
    every index from [p] on in use. *)
Lemma get_free_loop_spec fuel c p ret :
  length c = 256%nat -> 0 <= p <= 256 -> 0 <= ret <= 256 -> 256 - ret < Z.of_nat fuel ->
  exists r cur, get_free_loop fuel c p p ret = Some (r, cur) /\ 0 <= cur <= 256 /\
    match r with
    | Some i => i = cur /\ i < 256 /\ exists e, c !! Z.to_nat i = Some e /\ is_free e = true
    | None => forall k e, 0 <= k < 256 - ret -> c !! Z.to_nat ((p + k) mod 256) = Some e ->
                is_free e = false
    end.
Proof.
  intros Hlen. revert p ret. induction fuel as [|fuel IH]; intros p ret Hp Hret Hfuel; [lia|].
  simpl. destruct (Z.leb_spec CACHE_MAX_NUM ret) as [Hge|Hlt]; unfold CACHE_MAX_NUM in *.
  { exists None, p. split; [done|]. split; [lia|]. intros k e Hk. lia. }
  replace (if 256 <=? p then (0, 0) else (p, p)) with (p mod 256, p mod 256)
    by (rewrite <- wrap_up by done; unfold CACHE_MAX_NUM; by destruct (256 <=? p)).
  pose proof (Z.mod_pos_bound p 256 ltac:(lia)) as Hq. set (q := p mod 256) in *.
  destruct (lookup_lt_is_Some_2 c (Z.to_nat q)) as [e He]; [lia|].
  rewrite (proj2 (rd_Some c q e)) by (split; [lia|done]). simpl.
  destruct (is_free e) eqn:Hf.
  { exists (Some q), q. split; [done|]. split; [lia|]. split; [done|]. split; [lia|]. eauto. }
  assert (u16 (q + 1) = q + 1) as -> by (apply Z.mod_small; lia).
  destruct (IH (q + 1) (ret + 1)) as (r & cur & -> & Hcur & Hr); [lia..|].
  exists r, cur. split; [done|]. split; [done|]. destruct r as [i|]; [done|].
  intros k x Hk Hx. destruct (Z.eq_dec k 0) as [->|Hk0].
  { rewrite Z.add_0_r in Hx. fold q in Hx. congruence. }
  apply (Hr (k - 1)); [lia|]. rewrite <- Hx. do 2 f_equal.
  unfold q. rewrite <- (Zplus_mod_idemp_l p k). f_equal. lia.
Qed.

(** Every index is [256] or fewer steps ahead of [p]. *)
Lemma steps_ahead p i : 0 <= i < 256 -> (p + (i - p) mod 256) mod 256 = i.
Proof.
  intros Hi. rewrite Zplus_mod_idemp_r. replace (p + (i - p)) with i by lia.
  by apply Z.mod_small.
Qed.

Lemma steps_behind p i : 0 <= i < 256 -> (p - (p - i) mod 256) mod 256 = i.
Proof.
  intros Hi. rewrite Zminus_mod_idemp_r. replace (p - (p - i)) with i by lia.
  by apply Z.mod_small.
Qed.

Lemma get_free_spec st :
  length (ssfdc_cache st) = 256%nat -> 0 <= Cur_CacheCount st <= 256 ->
  exists r cur, _NAND_LB_GetFreeCache st = Some (r, with_cur st cur) /\ 0 <= cur <= 256 /\
    match r with
    | Some i => i = cur /\ i < 256 /\
        exists e, ssfdc_cache st !! Z.to_nat i = Some e /\ is_free e = true
    | None => forall i e, ssfdc_cache st !! i = Some e -> is_free e = false
    end.
Proof.
  intros Hlen Hcur. unfold _NAND_LB_GetFreeCache.
  destruct (get_free_loop_spec 257 (ssfdc_cache st) (Cur_CacheCount st) 0)
    as (r & cur & -> & Hb & Hr); [done|lia|lia|lia|].
  exists r, cur. split; [done|]. split; [done|]. destruct r as [i|]; [done|].
  intros i e Hi. apply lookup_lt_Some in Hi as Hlt. set (p := Cur_CacheCount st) in *.
  apply (Hr ((Z.of_nat i - p) mod 256)).
  - pose proof (Z.mod_pos_bound (Z.of_nat i - p) 256). lia.
  - rewrite steps_ahead by lia. by rewrite Nat2Z.id.
Qed.

(** The downward scans pass over entries that do not hold the sector. *)
Lemma get_loop_skip c s use k n p :
  length c = 256%nat -> 0 <= p < 256 ->
  (forall j e, 0 <= j < Z.of_nat k -> c !! Z.to_nat ((p - j) mod 256) = Some e -> hit s e = false) ->
  get_loop (k + n) c s p use = get_loop n c s ((p - Z.of_nat k) mod 256) use.
Proof.
  intros Hlen. revert p. induction k as [|k IH]; intros p Hp Hmiss; simpl.
  { rewrite Z.mod_small by lia. f_equal. lia. }
  destruct (lookup_lt_is_Some_2 c (Z.to_nat p)) as [e He]; [lia|].
  rewrite (proj2 (rd_Some c p e)) by (split; [lia|done]). simpl.
  pose proof (Hmiss 0 e ltac:(lia)) as H0. rewrite Z.sub_0_r, Z.mod_small in H0 by lia.
  specialize (H0 He). unfold hit in H0. rewrite Z.eqb_sym, H0. simpl. rewrite wrap_down by done.
  rewrite IH.
  - f_equal. rewrite Zminus_mod_idemp_l. f_equal. lia.
  - by apply Z.mod_pos_bound.
  - intros j x Hj Hx. apply (Hmiss (j + 1) x); [lia|]. rewrite <- Hx. do 2 f_equal.
    rewrite Zminus_mod_idemp_l. f_equal. lia.
Qed.

Lemma update_loop_skip c s d k fuel p ret :
  length c = 256%nat -> 0 <= p < 256 -> 0 <= ret -> ret + Z.of_nat k <= 256 ->
  (forall j e, 0 <= j < Z.of_nat k -> c !! Z.to_nat ((p - j) mod 256) = Some e -> hit s e = false) ->
  update_loop (k + fuel) c s d p ret =
    update_loop fuel c s d ((p - Z.of_nat k) mod 256) (ret + Z.of_nat k).
Proof.
  intros Hlen. revert p ret. induction k as [|k IH]; intros p ret Hp Hret Hk Hmiss; simpl.
  { rewrite Z.mod_small by lia. f_equal; lia. }
  rewrite (proj2 (Z.leb_gt _ _)) by (unfold CACHE_MAX_NUM; lia).
  destruct (lookup_lt_is_Some_2 c (Z.to_nat p)) as [e He]; [lia|].
  rewrite (proj2 (rd_Some c p e)) by (split; [lia|done]). simpl.
  pose proof (Hmiss 0 e ltac:(lia)) as H0. rewrite Z.sub_0_r, Z.mod_small in H0 by lia.
  specialize (H0 He). unfold hit in H0. rewrite H0. rewrite wrap_down by done.
  rewrite IH.
  - f_equal; [|lia]. rewrite Zminus_mod_idemp_l. f_equal. lia.
  - by apply Z.mod_pos_bound.
  - lia.
  - lia.
  - intros j x Hj Hx. apply (Hmiss (j + 1) x); [lia|]. rewrite <- Hx. do 2 f_equal.
    rewrite Zminus_mod_idemp_l. f_equal. lia.
Qed.

(** [wr] at a valid index. *)
Lemma wr_nat (c : list SSFDC__LB_CACHE) i e :
  (i < length c)%nat -> wr c (Z.of_nat i) e = Some (<[i := e]> c).
Proof.
  intros Hi. unfold wr. rewrite (proj2 (Z.leb_le _ _)), (proj2 (Z.ltb_lt _ _)) by lia.
  simpl. by rewrite Nat2Z.id.
Qed.

(** Positions other than [i] do not hold the sector that [i] holds. *)
Lemma other_miss c f s i e j x :
  consistent c f -> c !! i = Some e -> hit s e = true ->
  c !! j = Some x -> j <> i -> hit s x = false.
Proof.
  intros Hc Hi He Hj Hne. destruct (hit s x) eqn:Hx; [|done].
  apply hit_true in He as [? ?], Hx as [? ?]. exfalso. apply Hne. eapply con_uniq; eauto. congruence.
Qed.

(** Nor does any position met before [i] on the way down from [p]. *)
Lemma miss_before c f s i e p j x :
  consistent c f -> c !! i = Some e -> hit s e = true ->
  0 <= j < (p - Z.of_nat i) mod 256 -> c !! Z.to_nat ((p - j) mod 256) = Some x ->
  hit s x = false.
Proof.
  intros Hc Hi He Hj Hx. eapply (other_miss c f s i e); [done..|]. intros <-.
  rewrite Z2Nat.id in Hj by (apply Z.mod_pos_bound; lia).
  rewrite Zminus_mod_idemp_r in Hj. replace (p - (p - j)) with j in Hj by lia.
  pose proof (Z.mod_le j 256). lia.
Qed.

Lemma with_cache_id st : with_cache st (ssfdc_cache st) = st.
Proof. by destruct st. Qed.

Definition cached (st : udc_state) (s : Z) : Prop :=
  exists i e, ssfdc_cache st !! i = Some e /\ hit s e = true.

Lemma get_miss st s :
  cache_ok st -> (forall i e, ssfdc_cache st !! i = Some e -> hit s e = false) ->
  _NAND_LB_GetFromCache st s = Some (None, st).
Proof.
  intros [Hlen Hcur Hcon] Hmiss. unfold _NAND_LB_GetFromCache.
  rewrite wrap_up, Z.mod_small by lia.
  pose proof (get_loop_skip (ssfdc_cache st) s None 256 0 (Cur_CacheCount st) Hlen ltac:(lia)) as Hs.
  change (256 + 0)%nat with 256%nat in Hs.
  rewrite Hs by (intros; by eapply Hmiss). cbn -[get_loop]. cbn [get_loop].
  simpl. by rewrite with_cache_id.
Qed.

Lemma get_hit st s i e :
  cache_ok st -> ssfdc_cache st !! i = Some e -> hit s e = true ->
  _NAND_LB_GetFromCache st s =
    Some (Some (aBlockData e), with_cache st (<[i := touch e]> (ssfdc_cache st))).
Proof.
  intros [Hlen Hcur Hcon] Hi He. unfold _NAND_LB_GetFromCache.
  rewrite wrap_up, Z.mod_small by lia.
  set (c := ssfdc_cache st) in *. set (p := Cur_CacheCount st) in *.
  assert (i < 256)%nat as Hi256 by (rewrite <- Hlen; by eapply lookup_lt_Some).
  pose proof (Z.mod_pos_bound (p - Z.of_nat i) 256 ltac:(lia)) as Hk.
  set (k := (p - Z.of_nat i) mod 256) in *.
  pose proof (get_loop_skip c s None (Z.to_nat k) (S (Z.to_nat (255 - k))) p Hlen ltac:(lia)) as Hs.
  rewrite Z2Nat.id in Hs by lia.
  replace (Z.to_nat k + S (Z.to_nat (255 - k)))%nat with 256%nat in Hs by lia.
  rewrite Hs; clear Hs.
  2: { intros j x Hj Hx. by eapply (miss_before c _ s i e p j x). }
  unfold k. rewrite steps_behind by lia. fold k. cbn [get_loop].
  rewrite (proj2 (rd_Some c (Z.of_nat i) e)) by (split; [lia|]; by rewrite Nat2Z.id). simpl.
  unfold hit in He. rewrite Z.eqb_sym, He. rewrite wr_nat by lia. simpl. rewrite wrap_down by lia.
  pose proof (get_loop_skip (<[i := touch e]> c) s (Some (Z.of_nat i)) (Z.to_nat (255 - k)) 0
    ((Z.of_nat i - 1) mod 256)) as Hs.
  rewrite Nat.add_0_r in Hs. rewrite Hs; clear Hs.
  - cbn [get_loop]. simpl. unfold rd. rewrite (proj2 (Z.leb_le _ _)), Nat2Z.id by lia.
    rewrite list_lookup_insert_eq by lia. done.
  - by rewrite length_insert.
  - by apply Z.mod_pos_bound.
  - intros j x Hj Hx. apply insert_cases in Hx as [[Heq _]|[Hne Hx]].
    + exfalso. rewrite Zminus_mod_idemp_l in Heq.
      pose proof (Z.mod_pos_bound (Z.of_nat i - 1 - j) 256).
      assert (Z.of_nat i = (Z.of_nat i - 1 - j) mod 256) as Hii by lia.
      destruct (Z.leb_spec 0 (Z.of_nat i - 1 - j)).
      * rewrite Z.mod_small in Hii; lia.
      * rewrite <- (Z.mod_add _ 1), Z.mod_small in Hii by lia. lia.
    + by eapply (other_miss c _ s i e).
Qed.

Lemma update_miss st s d :
  cache_ok st -> (forall i e, ssfdc_cache st !! i = Some e -> hit s e = false) ->
  _NAND_LB_UpdateInCache st s d = Some (false, st).
Proof.
  intros [Hlen Hcur Hcon] Hmiss. unfold _NAND_LB_UpdateInCache.
  rewrite (proj2 (Z.ltb_ge _ _)) by (unfold CACHE_MAX_NUM; lia).
  pose proof (update_loop_skip (ssfdc_cache st) s d 256 1 (Cur_CacheCount st) 0 Hlen ltac:(lia)) as Hs.
  change (256 + 1)%nat with 257%nat in Hs. rewrite Hs by (lia || (intros; by eapply Hmiss)).
  done.
Qed.

Lemma update_hit st s d i e :
  cache_ok st -> ssfdc_cache st !! i = Some e -> hit s e = true ->
  _NAND_LB_UpdateInCache st s d =
    Some (true, with_cache st
      (<[i := LbCache OFTEN_USE_CACHE (u16 (UseCount e + 1)) 1 (BlockId e) d]> (ssfdc_cache st))).
Proof.
  intros [Hlen Hcur Hcon] Hi He. unfold _NAND_LB_UpdateInCache.
  rewrite (proj2 (Z.ltb_ge _ _)) by (unfold CACHE_MAX_NUM; lia).
  set (c := ssfdc_cache st) in *. set (p := Cur_CacheCount st) in *.
  assert (i < 256)%nat as Hi256 by (rewrite <- Hlen; by eapply lookup_lt_Some).
  pose proof (Z.mod_pos_bound (p - Z.of_nat i) 256 ltac:(lia)) as Hk.
  set (k := (p - Z.of_nat i) mod 256) in *.
  pose proof (update_loop_skip c s d (Z.to_nat k) (S (Z.to_nat (256 - k))) p 0 Hlen ltac:(lia)) as Hs.
  rewrite Z2Nat.id in Hs by lia.
  replace (Z.to_nat k + S (Z.to_nat (256 - k)))%nat with 257%nat in Hs by lia.
  rewrite Hs; clear Hs; [| lia | lia |].
  2: { intros j x Hj Hx. by eapply (miss_before c _ s i e p j x). }
  unfold k. rewrite steps_behind by lia. fold k. cbn [update_loop].
  rewrite (proj2 (Z.leb_gt _ _)) by (unfold CACHE_MAX_NUM; lia).
  rewrite (proj2 (rd_Some c (Z.of_nat i) e)) by (split; [lia|]; by rewrite Nat2Z.id). simpl.
  unfold hit in He. rewrite He. rewrite wr_nat by lia. done.
Qed.

(** *** Making room *)

Lemma drain_lookup u c j e :
  drain u c !! j = Some e ->
  exists x, c !! j = Some x /\ e = if CacheState x =? u then release x else x.
Proof. unfold drain. rewrite list_lookup_fmap. intros (x & ? & ?)%fmap_Some. eauto. Qed.

Lemma drain_lookup_Some u c j x :
  c !! j = Some x -> drain u c !! j = Some (if CacheState x =? u then release x else x).
Proof. unfold drain. intros Hj. by rewrite list_lookup_fmap, Hj. Qed.

Lemma tally_pos u c : tally u c <> 0 -> exists j e, c !! j = Some e /\ CacheState e = u.
Proof.
  induction c as [|x c IH]; simpl; [done|]. destruct (Z.eqb_spec (CacheState x) u).
  - intros _. by exists 0%nat, x.
  - intros Ht. destruct IH as (j & e & ? & ?); [lia|]. by exists (S j), e.
Qed.

Lemma drain_has_free u c j e :
  c !! j = Some e -> is_free e = true \/ CacheState e = u ->
  exists e', drain u c !! j = Some e' /\ is_free e' = true.
Proof.
  intros Hj He. rewrite (drain_lookup_Some u c j e) by done. eexists. split; [done|].
  destruct (Z.eqb_spec (CacheState e) u); [done|]. by destruct He.
Qed.

(** A write-back from [st] to [st']: same contents, only releases. *)
Record written_back (st st' : udc_state) : Prop := {
  wb_disk : same_disk st st';
  wb_cur : Cur_CacheCount st' = Cur_CacheCount st;
  wb_only : forall j e, ssfdc_cache st' !! j = Some e ->
    is_free e = true \/ ssfdc_cache st !! j = Some e }.

Lemma written_back_trans st1 st2 st3 :
  written_back st1 st2 -> written_back st2 st3 -> written_back st1 st3.
Proof.
  intros [H1 ? Ho1] [H2 ? Ho2]. split; [by eapply same_disk_trans|congruence|].
  intros j e Hj. destruct (Ho2 j e Hj); eauto.
Qed.

Lemma PreWite_spec u st cnt :
  u = PREWRITE_CACHE \/ u = OFTEN_USE_CACHE ->
  length (ssfdc_cache st) = 256%nat -> consistent (ssfdc_cache st) (flash st) ->
  0 <= cnt < 2 ^ 16 ->
  exists st', _NAND_LB_PreWiteToNand st cnt u = Some (st', u16 (cnt + tally u (ssfdc_cache st))) /\
    ssfdc_cache st' = drain u (ssfdc_cache st) /\ written_back st st'.
Proof.
  intros Hu Hlen Hcon Hcnt. unfold _NAND_LB_PreWiteToNand.
  pose proof (tally_bounds u (ssfdc_cache st)).
  destruct (prewrite_loop_spec u 257 st 0 cnt) as (f' & -> & Hsd); [done|done|done|lia|done|].
  eexists. split; [done|]. split; [done|]. split; [done|done|].
  simpl. intros j e (x & Hx & ->)%drain_lookup. case_match; auto.
Qed.

Lemma u16_tally u c : length c = 256%nat -> u16 (0 + tally u c) = tally u c.
Proof. intros. pose proof (tally_bounds u c). apply Z.mod_small. lia. Qed.

Lemma FreeCache_spec st rw :
  length (ssfdc_cache st) = 256%nat -> consistent (ssfdc_cache st) (flash st) ->
  (forall i e, ssfdc_cache st !! i = Some e -> is_free e = false) ->
  exists n st', _NAND_LB_FreeCache st rw = Some (n, st') /\ written_back st st' /\
    exists i e, ssfdc_cache st' !! i = Some e /\ is_free e = true.
Proof.
  intros Hlen Hcon Hfull. unfold _NAND_LB_FreeCache.
  destruct (PreWite_spec PREWRITE_CACHE st 0) as (st1 & -> & Hc1 & Hw1); [auto|done|done|done|].
  rewrite u16_tally by done. simpl.
  assert (length (ssfdc_cache st1) = 256%nat) as Hlen1 by (rewrite Hc1; unfold drain; by rewrite length_fmap).
  destruct (PreWite_spec OFTEN_USE_CACHE st1 0) as (st2 & Hrun2 & Hc2 & Hw2);
    [auto|done|apply Hw1|done|]. rewrite u16_tally in Hrun2 by done.
  destruct (Z.eqb_spec (tally PREWRITE_CACHE (ssfdc_cache st)) 0) as [Ht|Ht]; simpl.
  - rewrite Hrun2. do 2 eexists. split; [done|].
    split; [by eapply written_back_trans|].
    destruct (lookup_lt_is_Some_2 (ssfdc_cache st) 0) as [e He]; [lia|].
    rewrite Hc2, Hc1, (tally_zero _ _ Ht).
    exists 0%nat. eapply drain_has_free; [done|]. right.
    destruct (con_state _ _ Hcon _ _ He) as [Hs|[Hs|Hs]]; [|exfalso|done].
    + specialize (Hfull _ _ He). unfold is_free in Hfull. bool_lia.
    + assert (drain PREWRITE_CACHE (ssfdc_cache st) !! 0%nat = Some (release e)) as Hd.
      { rewrite (drain_lookup_Some _ _ _ _ He), Hs. done. }
      rewrite (tally_zero _ _ Ht) in Hd. specialize (Hfull _ _ Hd). done.
  - destruct (tally_pos _ _ Ht) as (j & e & Hj & He).
    destruct (drain_has_free PREWRITE_CACHE (ssfdc_cache st) j e) as (e1 & Hj1 & He1); [done|auto|].
    rewrite <- Hc1 in Hj1.
    destruct (drain_has_free OFTEN_USE_CACHE (ssfdc_cache st1) j e1) as (e2 & Hj2 & He2); [done|auto|].
    rewrite <- Hc2 in Hj2.
    destruct (Z.eqb_spec rw 0); [by eauto 10|]. case_match; [|by eauto 10].
    rewrite Hrun2. simpl. do 2 eexists. split; [done|].
    split; [by eapply written_back_trans|]. eauto.
Qed.

(** *** One sector *)

(** Sector numbers the cache can hold: all but [(unsigned)-1]. *)
Definition sector_ok (s : Z) : Prop := 0 <= s < 2 ^ 32 - 1.

(** [st'] is a good state whose contents are those of [st] with [d] at [s]. *)
Record stored (st st' : udc_state) (s : Z) (d : sector) : Prop := {
  sto_ok : cache_ok st';
  sto_view : forall x, st_view st' x = if decide (x = s) then d else st_view st x }.

Lemma CopyToCache_spec st s d rw :
  cache_ok st -> sector_ok s -> (forall i e, ssfdc_cache st !! i = Some e -> hit s e = false) ->
  rw <> 0 \/ d = content (flash st) s ->
  exists st', _NAND_LB_CopyToCache st s d rw = Some st' /\ stored st st' s d.
Proof.
  intros [Hlen Hcur Hcon] Hs Hmiss Hd. unfold _NAND_LB_CopyToCache.
  destruct (get_free_spec st) as (r & cur & -> & Hcur1 & Hr); [done|lia|]. simpl.
  assert (exists i st2 e, (match r with
    | Some i => Some (i, with_cur st cur)
    | None => '(_, st') ← _NAND_LB_FreeCache (with_cur st cur) rw;
              '(p', st'') ← _NAND_LB_GetFreeCache st'; i ← p'; Some (i, st'')
    end) = Some (i, st2) /\ 0 <= i < 256 /\ Cur_CacheCount st2 = i /\ same_disk st st2 /\
    (forall j x, ssfdc_cache st2 !! j = Some x -> hit s x = false) /\
    (rw <> 0 \/ d = content (flash st2) s) /\
    ssfdc_cache st2 !! Z.to_nat i = Some e /\ is_free e = true)
    as (i & st2 & e & -> & Hi & Hcur2 & [Hl2 Hc2 Hv2 _] & Hm2 & Hd2 & He & Hf).
  { destruct r as [i|].
    - destruct Hr as (<- & Hi & e & He & Hf). exists i, (with_cur st i), e.
      split; [done|]. split; [lia|]. split; [done|]. split; [by split|]. done.
    - destruct (FreeCache_spec (with_cur st cur) rw) as (n & st' & -> & [Hsd Hcu Ho] & i0 & e0 & Hi0 & He0);
        [done|done|done|]. simpl in *.
      assert (forall j x, ssfdc_cache st' !! j = Some x -> hit s x = false) as Hm'.
      { intros j x Hj. destruct (Ho j x Hj) as [Hx|Hx]; [|by eapply Hmiss]. unfold hit. by rewrite Hx. }
      destruct (get_free_spec st') as (r & cur' & -> & Hcur' & Hr'); [by rewrite (sd_len _ _ Hsd)|lia|].
      simpl. destruct r as [i|].
      2: { specialize (Hr' _ _ Hi0). congruence. }
      destruct Hr' as (<- & Hi & e & He & Hf). exists i, (with_cur st' i), e. simpl.
      split; [done|]. split; [lia|]. split; [done|]. split; [by destruct Hsd; split|].
      split; [done|]. split; [|done]. destruct Hd as [?|Hd]; [by left|right].
      pose proof (sd_view _ _ Hsd s) as Hv. unfold st_view in Hv. simpl in Hv.
      rewrite !view_miss in Hv by done. congruence. }
  simpl. rewrite <- (Z2Nat.id i), wr_nat by lia. simpl. eexists. split; [done|].
  destruct (fill_ok (ssfdc_cache st2) (flash st2) (Z.to_nat i) e (LbCache PREWRITE_CACHE 0 rw s d) s)
    as [Hcon' Hview']; try done; [| by left | by unfold hit; simpl; rewrite Z.eqb_refl | by left |].
  { intros j x Hj Hx. rewrite (Hm2 j x Hj) in Hx. done. }
  split; [split; simpl; [by rewrite length_insert, Hl2|lia|done]|].
  intros x. unfold st_view at 1. simpl. rewrite Hview'. simpl. case_decide; [done|]. apply Hv2.
Qed.

Lemma touch_ok st s i e :
  cache_ok st -> ssfdc_cache st !! i = Some e -> hit s e = true ->
  stored st (with_cache st (<[i := touch e]> (ssfdc_cache st))) s (aBlockData e).
Proof.
  intros [Hlen Hcur Hcon] Hi He. pose proof (proj1 (hit_true _ _) He) as [Hf Hb].
  destruct (fill_ok (ssfdc_cache st) (flash st) i e (touch e) s) as [Hcon' Hview'];
    [done|done| |by right|by unfold hit; simpl; rewrite Hb, Z.eqb_refl| |by right| |].
  - intros j x Hj Hx. destruct (decide (j = i)); [done|].
    rewrite (other_miss (ssfdc_cache st) (flash st) s i e j x) in Hx by done. done.
  - rewrite <- Hb. by eapply con_block.
  - simpl. destruct (Z.eq_dec (CacheChange e) 0) as [H0|]; [right|by left].
    rewrite <- Hb. by eapply con_clean.
  - split; [split; simpl; [by rewrite length_insert|done|done]|done].
Qed.

Lemma NAND_LB_Read_spec st s :
  cache_ok st -> sector_ok s ->
  exists st', NAND_LB_Read st s = Some (st_view st s, st') /\ stored st st' s (st_view st s).
Proof.
  intros Hok Hs. unfold NAND_LB_Read.
  destruct (hit_dec (ssfdc_cache st) s) as [(i & e & Hi & He)|Hmiss].
  - rewrite (get_hit st s i e) by done. simpl. unfold st_view.
    rewrite (view_hit _ _ i e) by (done || apply Hok). eexists. split; [done|]. by apply touch_ok.
  - rewrite get_miss by done. simpl. unfold st_view at 1. rewrite view_miss by done.
    pose proof (readsect_data (flash st) s) as Hdata.
    pose proof (readsect_frame (flash st) s) as Hframe.
    destruct (udc_mtdblock_readsect (flash st) s) as [[rc d] f]. simpl in *. subst d.
    assert (forall x, view (ssfdc_cache st) f x = st_view st x) as Hv.
    { intros x. unfold st_view, view. by case_match. }
    destruct (CopyToCache_spec (with_flash st f) s (content (flash st) s) 0) as (st' & -> & [Hok' Hv']);
      [|done|done|by right|].
    { destruct Hok as [? ? [? ? ? Hcl]]. split; [done|done|]. split; try done. simpl.
      intros. rewrite Hframe. eauto. }
    simpl. eexists. split; [done|]. split; [done|]. intros x. rewrite Hv'. case_decide; [|by apply Hv].
    unfold st_view. by rewrite view_miss.
Qed.

Lemma NAND_LB_Write_spec st s d :
  cache_ok st -> sector_ok s ->
  exists st', NAND_LB_Write st s d = Some st' /\ stored st st' s d.
Proof.
  intros Hok Hs. unfold NAND_LB_Write.
  destruct (hit_dec (ssfdc_cache st) s) as [(i & e & Hi & He)|Hmiss].
  - rewrite (update_hit st s d i e) by done. simpl. eexists. split; [done|].
    pose proof (proj1 (hit_true _ _) He) as [Hf Hb]. destruct Hok as [Hlen Hcur Hcon].
    set (e' := LbCache OFTEN_USE_CACHE (u16 (UseCount e + 1)) 1 (BlockId e) d).
    destruct (fill_ok (ssfdc_cache st) (flash st) i e e' s) as [Hcon' Hview'];
      [done|done| |by right|by unfold hit; simpl; rewrite Hb, Z.eqb_refl|done|by right|by left|].
    + intros j x Hj Hx. destruct (decide (j = i)); [done|].
      rewrite (other_miss (ssfdc_cache st) (flash st) s i e j x) in Hx by done. done.
    + split; [split; simpl; [by rewrite length_insert|done|done]|done].
  - rewrite update_miss by done. simpl. apply CopyToCache_spec; [done|done|done|by left].
Qed.

(** *** Sector ranges *)

(** Entries of sectors in [lo, hi) released, the others kept. *)
Definition close_range (lo hi : Z) (c : list SSFDC__LB_CACHE) : list SSFDC__LB_CACHE :=
  (fun e => if in_range lo hi e then release e else e) <$> c.

Lemma flush_loop_spec lo hi pre c f :
  consistent (pre ++ c) f ->
  exists f', flush_loop lo hi f c = (f', close_range lo hi c) /\
    consistent (pre ++ close_range lo hi c) f' /\
    forall s, view (pre ++ close_range lo hi c) f' s = view (pre ++ c) f s.
Proof.
  revert pre f. induction c as [|e c IH]; intros pre f Hcon; simpl; [by exists f|].
  destruct (in_range lo hi e) eqn:Hr.
  - assert (is_free e = false) as Hf.
    { unfold in_range in Hr. by destruct (is_free e). }
    destruct (evict_ok (pre ++ e :: c) f (length pre) e) as [Hcon1 Hv1];
      [done|by apply list_lookup_middle|done|].
    assert (<[length pre := release e]> (pre ++ e :: c) = (pre ++ [release e]) ++ c) as Heq.
    { rewrite insert_app_r_alt, Nat.sub_diag by lia. simpl. by rewrite <- app_assoc. }
    rewrite Heq in Hcon1, Hv1.
    destruct (IH (pre ++ [release e]) (evict f e).1 Hcon1) as (f' & Hrun & Hc' & Hv').
    exists f'. unfold evict. simpl in *. rewrite Hrun. rewrite <- app_assoc in Hc', Hv'. simpl in *.
    split; [done|]. split; [done|]. intros s. by rewrite Hv', Hv1.
  - destruct (IH (pre ++ [e]) f) as (f' & Hrun & Hc' & Hv'); [by rewrite <- app_assoc|].
    exists f'. rewrite Hrun. rewrite <- !app_assoc in Hc'. split; [done|]. split; [done|].
    intros s. specialize (Hv' s). by rewrite <- !app_assoc in Hv'.
Qed.

Lemma FLUSHCACHES_spec st lo hi :
  cache_ok st -> cache_ok (_NAND_LB_FLUSHCACHES st lo hi) /\
  same_disk st (_NAND_LB_FLUSHCACHES st lo hi) /\
  ssfdc_cache (_NAND_LB_FLUSHCACHES st lo hi) = close_range lo hi (ssfdc_cache st).
Proof.
  intros [Hlen Hcur Hcon]. unfold _NAND_LB_FLUSHCACHES.
  destruct (flush_loop_spec lo hi [] (ssfdc_cache st) (flash st)) as (f' & -> & Hc' & Hv'); [done|].
  assert (length (close_range lo hi (ssfdc_cache st)) = 256%nat) as Hl
    by (unfold close_range; by rewrite length_fmap).
  split; [by split|]. split; [|done]. split; simpl; [congruence|done|done|done].
Qed.

Lemma close_range_lookup lo hi c j e :
  close_range lo hi c !! j = Some e -> is_free e = true \/ (c !! j = Some e /\ in_range lo hi e = false).
Proof.
  unfold close_range. rewrite list_lookup_fmap. intros (x & Hx & ->)%fmap_Some.
  destruct (in_range lo hi x) eqn:Hr; [by left|by right].
Qed.

Lemma hit_in_range lo hi s e : hit s e = true -> in_range lo hi e = (lo <=? s) && (s <? hi).
Proof. intros [Hf <-]%hit_true. unfold in_range. by rewrite Hf. Qed.

Lemma close_range_hit lo hi (c : list SSFDC__LB_CACHE) j e s :
  close_range lo hi c !! j = Some e -> hit s e = true ->
  c !! j = Some e /\ (lo <=? s) && (s <? hi) = false.
Proof.
  intros [Hf|[Hj Hr]]%close_range_lookup Hh.
  - apply hit_true in Hh as [? _]. congruence.
  - by rewrite <- (hit_in_range lo hi s e) by done.
Qed.

(** After the entries of a range are released, only the flash decides about
    that range. *)
Lemma close_range_ok lo hi c f f' :
  consistent c f ->
  (forall s, (lo <=? s) && (s <? hi) = false -> content f' s = content f s) ->
  consistent (close_range lo hi c) f' /\
  forall s, view (close_range lo hi c) f' s =
    if (lo <=? s) && (s <? hi) then content f' s else view c f s.
Proof.
  intros Hcon Hf'.
  assert (consistent (close_range lo hi c) f') as Hcon'.
  { split.
    - intros j e [Hf|[Hj _]]%close_range_lookup; [left; unfold is_free in Hf; bool_lia|].
      by eapply con_state.
    - intros j e [Hf|[Hj _]]%close_range_lookup Hnf; [congruence|by eapply con_block].
    - intros j k e e' [?|[Hj _]]%close_range_lookup [?|[Hk _]]%close_range_lookup He He' Hb;
        [congruence..|by eapply con_uniq].
    - intros j e [?|[Hj Hr]]%close_range_lookup Hnf Hz; [congruence|].
      rewrite Hf'; [by eapply con_clean|].
      rewrite <- (hit_in_range lo hi (BlockId e) e); [done|by apply hit_true]. }
  split; [done|]. intros s.
  destruct (hit_dec (close_range lo hi c) s) as [(j & e & Hj & He)|Hmiss].
  - rewrite (view_hit _ _ j e) by done. destruct (close_range_hit _ _ _ _ _ _ Hj He) as [Hcj ->].
    by rewrite (view_hit _ _ j e).
  - rewrite view_miss by done. destruct ((lo <=? s) && (s <? hi)) eqn:Hr; [done|].
    rewrite Hf' by done. rewrite view_miss; [done|]. intros j e Hj.
    destruct (hit s e) eqn:Hh; [|done]. rewrite <- (Hmiss j e); [done|].
    unfold close_range. rewrite list_lookup_fmap, Hj. simpl.
    by rewrite (hit_in_range lo hi s e), Hr.
Qed.

Lemma multiwrite_content f i ds s :
  content (multiwrite_loop f i ds) s =
    if (i <=? s) && (s <? i + Z.of_nat (length ds))
    then default (content f s) (ds !! Z.to_nat (s - i)) else content f s.
Proof.
  revert f i. induction ds as [|d ds IH]; intros f i; simpl.
  { zcases; simpl; done. }
  rewrite IH, writesect_content.
  destruct (Z.eq_dec s i) as [->|Hne].
  - rewrite decide_True by done. rewrite (proj2 (Z.leb_gt (i + 1) i)) by lia.
    rewrite (proj2 (Z.leb_le i i)) by lia. simpl.
    rewrite Z.sub_diag, (proj2 (Z.ltb_lt i _)) by lia. done.
  - rewrite decide_False by done.
    replace (Z.to_nat (s - i)) with (if i <? s then S (Z.to_nat (s - (i + 1))) else Z.to_nat (s - i))
      by zcases.
    destruct (Z.ltb_spec i s).
    + rewrite (proj2 (Z.leb_le (i + 1) s)), (proj2 (Z.leb_le i s)) by lia. simpl.
      replace (i + 1 + Z.of_nat (length ds)) with (i + Z.of_nat (S (length ds))) by lia. done.
    + rewrite (proj2 (Z.leb_gt (i + 1) s)), (proj2 (Z.leb_gt i s)) by lia. done.
Qed.

Lemma multiread_spec f i n :
  exists f', multiread_loop n f i (i + Z.of_nat n) = ((fun k => content f (i + Z.of_nat k)) <$> seq 0 n, f') /\
    forall s, content f' s = content f s.
Proof.
  revert f i. induction n as [|n IH]; intros f i; simpl; [by exists f|].
  rewrite (proj2 (Z.ltb_lt _ _)) by lia.
  pose proof (readsect_data f i) as Hdata. pose proof (readsect_frame f i) as Hframe.
  destruct (udc_mtdblock_readsect f i) as [[rc d] f1]. simpl in *. subst d.
  destruct (IH f1 (i + 1)) as (f2 & Hrun & Hf2).
  replace (i + Z.of_nat (S n)) with (i + 1 + Z.of_nat n) by lia. rewrite Hrun.
  exists f2. split; [|intros; by rewrite Hf2, Hframe].
  rewrite Z.add_0_r. do 2 f_equal. rewrite <- (fmap_S_seq 0 n), <- list_fmap_compose.
  apply list_fmap_ext. intros k x Hk. simpl. rewrite Hframe. f_equal. lia.
Qed.

(** *** The flat disk that the cache implements *)

(** Requests of the gadget driver: [udc_read], [udc_write] and the two flushes. *)
Inductive request :=
  | ReqRead (offset len : Z)
  | ReqWrite (offset : Z) (buf : list sector)
  | ReqFlushCache
  | ReqFlushMtd.

(** The driver's answer to a request: the sectors read, and the new state. *)
Definition serve (r : request) (st : udc_state) : option (list sector * udc_state) :=
  match r with
  | ReqRead offset len => udc_read st offset len
  | ReqWrite offset buf => st' ← udc_write st offset buf; Some ([], st')
  | ReqFlushCache => st' ← NAND_LB_FLASHCACHE st; Some ([], st')
  | ReqFlushMtd => Some ([], NAND_MTD_FLASHCACHE st)
  end.

Fixpoint serve_all (rs : list request) (st : udc_state) : option (list (list sector) * udc_state) :=
  match rs with
  | [] => Some ([], st)
  | r :: rs' =>
      '(o, st1) ← serve r st;
      '(os, st2) ← serve_all rs' st1;
      Some (o :: os, st2)
  end.

(** A disk is a function from sector numbers to contents. *)
Definition disk_write (dk : Z -> sector) (b : Z) (buf : list sector) (s : Z) : sector :=
  if (b <=? s) && (s <? b + Z.of_nat (length buf))
  then default (dk s) (buf !! Z.to_nat (s - b)) else dk s.

Definition disk_step (r : request) (dk : Z -> sector) : list sector * (Z -> sector) :=
  match r with
  | ReqRead offset len =>
      ((fun k => dk (offset / 512 + Z.of_nat k)) <$> seq 0 (Z.to_nat (len / 512)), dk)
  | ReqWrite offset buf => ([], disk_write dk (offset / 512) buf)
  | ReqFlushCache | ReqFlushMtd => ([], dk)
  end.

Fixpoint disk_run (rs : list request) (dk : Z -> sector) : list (list sector) * (Z -> sector) :=
  match rs with
  | [] => ([], dk)
  | r :: rs' =>
      let '(o, dk1) := disk_step r dk in
      let '(os, dk2) := disk_run rs' dk1 in
      (o :: os, dk2)
  end.

(** Requests to sectors below [2^31]. *)
Definition request_ok (r : request) : Prop :=
  match r with
  | ReqRead offset len => 0 <= offset /\ 0 <= len /\ offset / 512 + len / 512 < 2 ^ 31
  | ReqWrite offset buf => 0 <= offset /\ offset / 512 + Z.of_nat (length buf) < 2 ^ 31
  | _ => True
  end.

(** The state is well formed and holds the disk [dk]. *)
Definition holds (st : udc_state) (dk : Z -> sector) : Prop :=
  cache_ok st /\ forall s, st_view st s = dk s.

Lemma read_loop_spec n st b dk :
  holds st dk -> 0 <= b -> b + Z.of_nat n < 2 ^ 31 ->
  exists st', read_loop n st b = Some ((fun k => dk (b + Z.of_nat k)) <$> seq 0 n, st') /\ holds st' dk.
Proof.
  revert st b. induction n as [|n IH]; intros st b [Hok Hv] Hb Hn; simpl; [by exists st|].
  destruct (NAND_LB_Read_spec st b) as (st1 & -> & [Hok1 Hv1]); [done|unfold sector_ok; lia|]. simpl.
  unfold u32. rewrite Z.mod_small by lia.
  destruct (IH st1 (b + 1)) as (st2 & -> & Hh2); [|lia|lia|].
  { split; [done|]. intros s. rewrite Hv1. case_decide; subst; apply Hv. }
  simpl. exists st2. split; [|done]. rewrite Z.add_0_r, Hv. do 3 f_equal.
  rewrite <- (fmap_S_seq 0 n), <- list_fmap_compose. apply list_fmap_ext.
  intros k x Hk. simpl. f_equal. lia.
Qed.

Lemma disk_write_cons dk b d ds s :
  disk_write (fun x => if decide (x = b) then d else dk x) (b + 1) ds s = disk_write dk b (d :: ds) s.
Proof.
  unfold disk_write. simpl. destruct (Z.eq_dec s b) as [->|Hne].
  - rewrite decide_True by done. rewrite (proj2 (Z.leb_gt (b + 1) b)), (proj2 (Z.leb_le b b)) by lia.
    simpl. rewrite Z.sub_diag, (proj2 (Z.ltb_lt b _)) by lia. done.
  - rewrite decide_False by done. destruct (Z.ltb_spec b s).
    + rewrite (proj2 (Z.leb_le (b + 1) s)), (proj2 (Z.leb_le b s)) by lia. simpl.
      replace (Z.to_nat (s - b)) with (S (Z.to_nat (s - (b + 1)))) by lia.
      replace (b + 1 + Z.of_nat (length ds)) with (b + Z.of_nat (S (length ds))) by lia. done.
    + rewrite (proj2 (Z.leb_gt (b + 1) s)), (proj2 (Z.leb_gt b s)) by lia. done.
Qed.

Lemma write_loop_spec ds st b dk :
  holds st dk -> 0 <= b -> b + Z.of_nat (length ds) < 2 ^ 31 ->
  exists st', write_loop st b ds = Some st' /\ holds st' (disk_write dk b ds).
Proof.
  revert st b dk. induction ds as [|d ds IH]; intros st b dk [Hok Hv] Hb Hn; simpl in *.
  { exists st. split; [done|]. split; [done|]. intros s. rewrite Hv. unfold disk_write. simpl.
    by repeat case_match. }
  destruct (NAND_LB_Write_spec st b d) as (st1 & -> & [[] Hv1]); [done|unfold sector_ok; lia|]. simpl.
  unfold u32. rewrite Z.mod_small by lia.
  destruct (IH (with_dirty_flag st1 1) (b + 1) (fun x => if decide (x = b) then d else dk x))
    as (st2 & -> & [Hok2 Hv2]); [|lia|lia|].
  { split; [done|]. intros s. unfold st_view. simpl. fold (st_view st1 s). rewrite Hv1.
    case_decide; [done|]. apply Hv. }
  exists st2. split; [done|]. split; [done|]. intros s. rewrite Hv2. apply disk_write_cons.
Qed.

Lemma MultiRead_spec st b n dk :
  holds st dk -> 0 <= b -> b + Z.of_nat n < 2 ^ 31 ->
  exists st', NAND_LB_MultiRead st b (Z.of_nat n) = ((fun k => dk (b + Z.of_nat k)) <$> seq 0 n, st') /\
    holds st' dk.
Proof.
  intros [Hok Hv] Hb Hn. unfold NAND_LB_MultiRead.
  assert (forall x, 0 <= x < 2 ^ 31 -> s32 x = x) as Hs by (intros; unfold s32; rewrite Z.mod_small; lia).
  rewrite !Hs by lia. assert (u32 (b + Z.of_nat n) = b + Z.of_nat n) as -> by (apply Z.mod_small; lia).
  destruct (FLUSHCACHES_spec st b (b + Z.of_nat n) Hok) as (Hok1 & [_ _ Hv1 _] & Hc1).
  set (st1 := _NAND_LB_FLUSHCACHES st b (b + Z.of_nat n)) in *.
  replace (Z.to_nat (b + Z.of_nat n - b)) with n by lia.
  destruct (multiread_spec (flash st1) b n) as (f' & -> & Hf').
  eexists. split.
  - f_equal. apply list_fmap_ext. intros i k Hk%lookup_seq. simpl.
    rewrite <- Hv, <- Hv1. unfold st_view. rewrite view_miss; [done|].
    intros j e Hj. destruct (hit (b + Z.of_nat k) e) eqn:He; [|done]. rewrite Hc1 in Hj.
    destruct (close_range_hit _ _ _ _ _ _ Hj He) as [_ Hr]. apply andb_false_iff in Hr as [Hr|Hr]; bool_lia.
  - destruct Hok1 as [? ? [? ? ? Hcl]]. split; [split; [done|done|split; try done]|].
    + simpl. intros. rewrite Hf'. eauto.
    + intros s. rewrite <- Hv, <- Hv1. unfold st_view, view. simpl. by case_match.
Qed.

Lemma MultiWrite_spec st b ds dk :
  holds st dk -> 0 <= b -> b + Z.of_nat (length ds) < 2 ^ 31 ->
  holds (NAND_LB_MultiWrite st b ds) (disk_write dk b ds).
Proof.
  intros [[Hlen Hcur Hcon] Hv] Hb Hn. unfold NAND_LB_MultiWrite.
  assert (u32 (b + Z.of_nat (length ds)) = b + Z.of_nat (length ds)) as -> by (apply Z.mod_small; lia).
  set (hi := b + Z.of_nat (length ds)).
  destruct (close_range_ok b hi (ssfdc_cache st) (flash st) (multiwrite_loop (flash st) b ds))
    as [Hcon' Hv']; [done| |].
  { intros s Hs. rewrite multiwrite_content. fold hi. by rewrite Hs. }
  split; [split; [|done|done]|].
  - simpl. by rewrite length_fmap.
  - intros s. unfold st_view. simpl. unfold close_range in Hv'. rewrite Hv'.
    unfold disk_write. fold hi. rewrite multiwrite_content. fold hi.
    destruct ((b <=? s) && (s <? hi)) eqn:Hr; [|apply Hv].
    destruct (ds !! Z.to_nat (s - b)) eqn:Hl; [done|]. exfalso.
    apply lookup_ge_None in Hl. bool_lia.
Qed.

Lemma drain_both_free c f i e :
  consistent c f -> drain OFTEN_USE_CACHE (drain PREWRITE_CACHE c) !! i = Some e -> is_free e = true.
Proof.
  intros Hcon (x & (y & Hy & ->)%drain_lookup & ->)%drain_lookup.
  pose proof (con_state c f Hcon i y Hy) as Hs.
  destruct (Z.eqb_spec (CacheState y) PREWRITE_CACHE) as [Hp|Hp]; [done|].
  destruct (Z.eqb_spec (CacheState y) OFTEN_USE_CACHE) as [Ho|Ho]; [done|].
  unfold is_free. bool_lia.
Qed.

Lemma FLASHCACHE_spec st dk :
  holds st dk -> exists st', NAND_LB_FLASHCACHE st = Some st' /\ holds st' dk /\
    forall i e, ssfdc_cache st' !! i = Some e -> is_free e = true.
Proof.
  intros [[Hlen Hcur Hcon] Hv]. unfold NAND_LB_FLASHCACHE, _NAND_LB_ClearCache.
  destruct (PreWite_spec PREWRITE_CACHE st 0) as (st1 & -> & Hc1 & [Hd1 Hu1 _]); [auto|done|done|done|].
  rewrite u16_tally by done. simpl. pose proof (tally_bounds PREWRITE_CACHE (ssfdc_cache st)).
  destruct (PreWite_spec OFTEN_USE_CACHE st1 (tally PREWRITE_CACHE (ssfdc_cache st)))
    as (st2 & -> & Hc2 & [Hd2 Hu2 _]); [auto|by rewrite (sd_len _ _ Hd1)|apply Hd1|lia|].
  simpl. exists st2. split; [done|]. pose proof (same_disk_trans _ _ _ Hd1 Hd2) as [Hl Hc Hw _].
  split; [split; [split|]|].
  - congruence.
  - congruence.
  - done.
  - intros s. by rewrite Hw.
  - intros i e Hi. rewrite Hc2, Hc1 in Hi. exact (drain_both_free _ _ _ _ Hcon Hi).
Qed.

Lemma serve_spec r st dk :
  holds st dk -> request_ok r ->
  exists st', serve r st = Some ((disk_step r dk).1, st') /\ holds st' (disk_step r dk).2.
Proof.
  intros Hh Hr. destruct r as [offset len|offset buf| |]; simpl in *.
  - destruct Hr as (Ho & Hl & Hb). unfold udc_read, SECTOR_SHIFT. rewrite !Z.shiftr_div_pow2 by lia.
    change (2 ^ 9) with 512. pose proof (Z.div_pos offset 512 Ho ltac:(lia)).
    pose proof (Z.div_pos len 512 Hl ltac:(lia)).
    assert (u32 (offset / 512) = offset / 512) as -> by (apply Z.mod_small; lia).
    case_match; [by apply read_loop_spec; lia || done|].
    destruct (MultiRead_spec st (offset / 512) (Z.to_nat (len / 512)) dk) as (st' & Hrun & Hh');
      [done|lia|lia|]. rewrite Z2Nat.id in Hrun by lia. rewrite Hrun. eauto.
  - destruct Hr as (Ho & Hb). unfold udc_write, SECTOR_SHIFT. rewrite !Z.shiftr_div_pow2 by lia.
    change (2 ^ 9) with 512. pose proof (Z.div_pos offset 512 Ho ltac:(lia)).
    assert (u32 (offset / 512) = offset / 512) as -> by (apply Z.mod_small; lia).
    case_match.
    + destruct (write_loop_spec buf st (offset / 512) dk) as (st' & -> & Hh'); [done|lia|lia|].
      simpl. eauto.
    + simpl. eexists. split; [done|]. apply MultiWrite_spec; [done|lia|lia].
  - destruct (FLASHCACHE_spec st dk Hh) as (st' & -> & Hh' & _). simpl. eauto.
  - eexists. split; [done|]. destruct Hh as [[Hlen Hcur [? ? ? Hcl]] Hv].
    split; [split; [done|done|split; try done]|]; simpl.
    + intros. rewrite flush_frame. eauto.
    + intros s. rewrite <- Hv. unfold st_view, view. simpl. case_match; [done|apply flush_frame].
Qed.

Lemma serve_all_spec rs st dk :
  holds st dk -> Forall request_ok rs ->
  exists st', serve_all rs st = Some ((disk_run rs dk).1, st') /\ holds st' (disk_run rs dk).2.
Proof.
  revert st dk. induction rs as [|r rs IH]; intros st dk Hh Hrs; simpl; [by exists st|].
  apply Forall_cons in Hrs as [Hr Hrs].
  destruct (serve_spec r st dk Hh Hr) as (st1 & -> & Hh1). simpl.
  destruct (disk_step r dk) as [o dk1]. simpl in *.
  destruct (IH st1 dk1 Hh1 Hrs) as (st2 & -> & Hh2). simpl.
  destruct (disk_run rs dk1) as [os dk2]. by exists st2.
Qed.

Lemma Init_spec st :
  length (ssfdc_cache st) = 256%nat -> holds (NAND_LB_Init st) (content (flash st)).
Proof.
  intros Hlen. unfold NAND_LB_Init, _NAND_LB_InitCache.
  assert (forall i e, (release <$> ssfdc_cache st) !! i = Some e -> is_free e = true) as Hf.
  { intros i e. rewrite list_lookup_fmap. by intros (x & _ & ->)%fmap_Some. }
  split; [split; simpl; [by rewrite length_fmap|lia|split]|].
  - intros i e Hi%Hf. left. unfold is_free in Hi. bool_lia.
  - intros i e Hi%Hf Hn. congruence.
  - intros i j e e' Hi%Hf Hj Hn. congruence.
  - intros i e Hi%Hf Hn. congruence.
  - intros s. unfold st_view. simpl. apply view_miss. intros i e Hi%Hf. unfold hit. by rewrite Hi.
Qed.

(** C4: the cache is transparent.  After [NAND_LB_Init], whatever the cache
    memory held before, every sequence of reads, writes and flushes runs to the
    end without leaving an array or following a null entry, and returns exactly
    the sectors that a flat disk with the device's contents would return.  Sector
    reads and writes of the layer underneath do not fail. *)
Theorem udc_refines_disk (st : udc_state) (rs : list request) :
  length (ssfdc_cache st) = 256%nat -> Forall request_ok rs ->
  exists st', serve_all rs (NAND_LB_Init st) = Some ((disk_run rs (content (flash st))).1, st') /\
    cache_ok st' /\ forall s, st_view st' s = (disk_run rs (content (flash st))).2 s.
Proof.
  intros Hlen Hrs. exact (serve_all_spec rs _ _ (Init_spec st Hlen) Hrs).
Qed.

(** C5: nothing is lost on removal.  After any sequence of requests,
    [NAND_LB_FLASHCACHE] succeeds, leaves every entry free, and the translation
    layer underneath holds exactly the disk the requests produced. *)
Theorem udc_flush_durable (st : udc_state) (rs : list request) :
  length (ssfdc_cache st) = 256%nat -> Forall request_ok rs ->
  exists out st1 st2, serve_all rs (NAND_LB_Init st) = Some (out, st1) /\
    NAND_LB_FLASHCACHE st1 = Some st2 /\
    Forall (fun e => is_free e = true) (ssfdc_cache st2) /\
    forall s, content (flash st2) s = (disk_run rs (content (flash st))).2 s.
Proof.
  intros Hlen Hrs. destruct (serve_all_spec rs _ _ (Init_spec st Hlen) Hrs) as (st1 & Hrun & Hh).
  destruct (FLASHCACHE_spec st1 _ Hh) as (st2 & Hfl & [Hok2 Hv2] & Hfree).
  do 3 eexists. split; [exact Hrun|]. split; [exact Hfl|].
  split; [by apply Forall_lookup_2|].
  intros s. rewrite <- Hv2. unfold st_view. rewrite view_miss; [done|].
  intros i e Hi%Hfree. unfold hit. by rewrite Hi.
Qed.

End Laws.
End Cache.

Arguments udc_state F sector : clear implicits.
Arguments request sector : clear implicits.

(** ** A translation layer with the laws *)

Module SimFlash.

(** Sectors are numbers; a sector never written reads as 0. *)
Abbreviation medium := (gmap Z Z).

#[global] Instance medium_blk : MtdBlk medium Z := {|
  udc_mtdblock_readsect f s := (512, default 0 (f !! s), f);
  udc_mtdblock_writesect f s d := (512, <[s := d]> f);
  udc_flush_cache f := f;
  content f s := default 0 (f !! s) |}.

#[global] Instance medium_laws : MtdBlkLaws medium Z.
Proof.
  split; try done. intros f s d x. simpl. case_decide as Hx.
  - subst. by rewrite lookup_insert_eq.
  - by rewrite lookup_insert_ne.
Qed.

Definition start : udc_state medium Z :=
  UdcState (replicate 256 (LbCache 3 7 1 5 42)) 99 0 ({[ 10 := 1; 11 := 2 ]}).

(** 300 single-sector writes overflow the cache; the reads cover a cached, an
    evicted and an untouched sector, and a range that bypasses the cache. *)
Definition workload : list (request Z) :=
  ((fun k => ReqWrite (512 * Z.of_nat k) [1000 + Z.of_nat k]) <$> seq 12 300) ++
  [ReqRead (512 * 10) (512 * 4); ReqRead (512 * 300) 512; ReqWrite (512 * 305) (replicate 12 7);
   ReqRead (512 * 304) (512 * 10); ReqFlushMtd; ReqFlushCache].

Lemma workload_ok : Forall request_ok workload.
Proof.
  apply Forall_app. split.
  - apply Forall_fmap, Forall_lookup_2. intros i k [-> Hi]%lookup_seq. simpl.
    rewrite Z.mul_comm, Z.div_mul by lia. lia.
  - repeat (apply Forall_cons; split; [vm_compute; intuition congruence|]). done.
Qed.

End SimFlash.

Lemma udc_refines_disk_witness :
  exists st', serve_all SimFlash.workload (NAND_LB_Init SimFlash.start) =
    Some ((disk_run SimFlash.workload (content (flash SimFlash.start))).1, st') /\ cache_ok st' /\
    forall s, st_view st' s = (disk_run SimFlash.workload (content (flash SimFlash.start))).2 s.
Proof.
  apply (udc_refines_disk SimFlash.start SimFlash.workload); [reflexivity|exact SimFlash.workload_ok].
Defined.

Lemma udc_flush_durable_witness :
  exists out st1 st2, serve_all SimFlash.workload (NAND_LB_Init SimFlash.start) = Some (out, st1) /\
    NAND_LB_FLASHCACHE st1 = Some st2 /\ Forall (fun e => is_free e = true) (ssfdc_cache st2) /\
    forall s, content (flash st2) s =
      (disk_run SimFlash.workload (content (flash SimFlash.start))).2 s.
Proof.
  apply (udc_flush_durable SimFlash.start SimFlash.workload); [reflexivity|exact SimFlash.workload_ok].
Defined.

(** The last answers of that workload, by evaluation of the model. *)
Example udc_workload_answers :
  (fun r => drop 300 r.1) <$> serve_all SimFlash.workload (NAND_LB_Init SimFlash.start) =
  Some [[1; 2; 1012; 1013]; [1300]; []; [1304; 7; 7; 7; 7; 7; 7; 7; 7; 7]; []; []].
Proof. vm_compute. reflexivity. Qed.
