(* ===== verification/GpioKeys.v ===== *)
(** * Buttons and power slider (drivers/input/keyboard/jz_gpio_keys.c)

    The driver polls twelve buttons and the power slider every 20 ms.  With the
    slider released a button reports its normal key code, with the slider held
    its special one; with slider and START held a newly pressed button sends a
    system request.  Holding the slider alone reports KEY_POWER after two
    seconds and reboots after five.

    The reports go to the input core, whose key-event branch
    (drivers/input/input.c, [input_handle_event]) is modelled as well: it drops
    codes that the driver has not declared and reports that change nothing. *)

From S2P Require Import Prelude.

#[local] Arguments Z.eqb : simpl never.
#[local] Arguments Z.testbit : simpl never.
#[local] Arguments Z.lxor : simpl never.
#[local] Arguments Z.land : simpl never.
#[local] Arguments Z.add : simpl never.
#[local] Arguments Z.of_nat : simpl never.

(** ** Tables *)

Definition SCAN_INTERVAL : Z := 20.
Definition POWER_COUNT : Z := 2000 / SCAN_INTERVAL.
Definition REBOOT_COUNT : Z := 5000 / SCAN_INTERVAL.

Definition KEY_POWER : Z := 116.

Record button := Button { gpio : Z; actlow : bool; ncode : Z; scode : Z; sysrq : Z }.

(** The A320 table; characters are their codes, absent fields are 0. *)
Definition jz_button : list button :=
  [ Button 102 true 103 115 115;    (* up: KEY_UP, KEY_VOLUMEUP, 's' *)
    Button 123 true 108 114 117;    (* down: KEY_DOWN, KEY_VOLUMEDOWN, 'u' *)
    Button 101 true 105 224 101;    (* left: KEY_LEFT, KEY_BRIGHTNESSDOWN, 'e' *)
    Button 114 true 106 225 105;    (* right: KEY_RIGHT, KEY_BRIGHTNESSUP, 'i' *)
    Button 96 true 29 0 0;          (* A: KEY_LEFTCTRL *)
    Button 97 true 56 0 0;          (* B: KEY_LEFTALT *)
    Button 115 true 57 0 0;         (* X: KEY_SPACE *)
    Button 98 true 42 0 0;          (* Y: KEY_LEFTSHIFT *)
    Button 110 true 15 174 0;       (* left shoulder: KEY_TAB, KEY_EXIT *)
    Button 111 true 14 0 0;         (* right shoulder: KEY_BACKSPACE *)
    Button 81 true 28 0 0;          (* START: KEY_ENTER *)
    Button 113 true 1 139 98 ].     (* SELECT: KEY_ESC, KEY_MENU, 'b' *)

Definition GPIO_POWER : Z := 125.
Definition SYSRQ_ALT : Z := 10.

(** [keycode] is the table handed to the input core. *)
Record jz_kbd := Kbd {
  keycode : list Z;
  normal_state : Z;
  special_state : Z;
  sysrq_state : Z;
  kbd_actlow : Z;
  power_state : Z;
  power_count : Z }.

(** What a poll asks of the rest of the kernel, in order. *)
Inductive event :=
  | input_report_key (code : Z) (value : bool)
  | handle_sysrq (c : Z)
  | input_sync.

#[global] Instance button_eq_dec : EqDecision button.
Proof. solve_decision. Defined.

#[global] Instance event_eq_dec : EqDecision event.
Proof. solve_decision. Defined.

(** Pin levels at the time of a poll. *)
Definition pins := Z -> bool.

(** ** jz_kbd_poll *)

(** Raw key states: bit [i] is the level of button [i]. *)
Fixpoint scan (p : pins) (bs : list button) (m s : Z) : Z :=
  match bs with
  | [] => s
  | b :: bs' => scan p bs' (shl32 m 1) (if p (gpio b) then Z.lor s m else s)
  end.

(** Reports for the buttons whose bit is set in [x], with their state in [s]. *)
Fixpoint key_events (code : button -> Z) (bs : list button) (m x s : Z) : list event :=
  match bs with
  | [] => []
  | b :: bs' =>
      (if negb (Z.land x m =? 0) && negb (code b =? 0)
       then [input_report_key (code b) (negb (Z.land s m =? 0))] else [])
      ++ key_events code bs' (shl32 m 1) x s
  end.

(** System requests for the buttons that are set in [x] and in [s]. *)
Fixpoint sysrq_events (bs : list button) (m x s : Z) : list event :=
  match bs with
  | [] => []
  | b :: bs' =>
      (if negb (Z.land (Z.land x s) m =? 0) && negb (sysrq b =? 0)
       then [handle_sysrq (sysrq b)] else [])
      ++ sysrq_events bs' (shl32 m 1) x s
  end.

(** Power slider held: the counter after the poll, the events, and how often
    [sync] is incremented. *)
Definition power_step (kbd : jz_kbd) : Z * list event * Z :=
  if power_state kbd =? 0 then (1, [], 0)
  else if 0 <? power_count kbd then
    let key := if power_count kbd =? POWER_COUNT
               then [input_report_key KEY_POWER true; input_report_key KEY_POWER false] else [] in
    let reboot := if power_count kbd =? REBOOT_COUNT
                  then [handle_sysrq 115; handle_sysrq 117; handle_sysrq 98] else [] in
    (u32 (power_count kbd + 1), key ++ reboot, if power_count kbd =? POWER_COUNT then 1 else 0)
  else (power_count kbd, [], 0).

Definition with_sync (sync : Z) (evs : list event) : list event :=
  evs ++ (if negb (sync =? 0) then [input_sync] else []).

Definition count {A} (l : list A) : Z := Z.of_nat (length l).

Definition jz_kbd_poll (p : pins) (kbd : jz_kbd) : jz_kbd * list event :=
  let s := Z.lxor (scan p jz_button 1 0) (kbd_actlow kbd) in
  let power := if p GPIO_POWER then 0 else 1 in
  if negb (power =? 0) then
    if negb (Z.land s (shl32 1 SYSRQ_ALT) =? 0) then
      let x := Z.lxor s (sysrq_state kbd) in
      (Kbd (keycode kbd) (normal_state kbd) (special_state kbd) s (kbd_actlow kbd)
           (power_state kbd) 0,
       sysrq_events jz_button 1 x s)
    else
      let x := Z.lxor s (special_state kbd) in
      let keys := key_events scode jz_button 1 x s in
      let '(cnt, pevs, psync) := power_step kbd in
      (Kbd (keycode kbd) (normal_state kbd) s (sysrq_state kbd) (kbd_actlow kbd)
           power (if negb (s =? 0) then 0 else cnt),
       with_sync (count keys + psync) (keys ++ pevs))
  else
    let x := Z.lxor s (normal_state kbd) in
    let keys := key_events ncode jz_button 1 x s in
    (Kbd (keycode kbd) s (special_state kbd) (sysrq_state kbd) (kbd_actlow kbd) power 0,
     with_sync (count keys) keys).

(** ** The input core *)

Record input_dev := InputDev { keybit : gset Z; key : gset Z }.

(** [input_handle_event] for [EV_KEY] with a value of 0 or 1: the device, and
    whether the event is passed to the handlers. *)
Definition input_handle_key (d : input_dev) (code : Z) (value : bool) : input_dev * bool :=
  if decide (code ∈ keybit d) then
    if negb (Bool.eqb (bool_decide (code ∈ key d)) value) then
      (InputDev (keybit d) (if bool_decide (code ∈ key d) then key d ∖ {[code]} else {[code]} ∪ key d), true)
    else (d, false)
  else (d, false).

(** The key events that reach the handlers. *)
Fixpoint deliver (d : input_dev) (evs : list event) : input_dev * list (Z * bool) :=
  match evs with
  | [] => (d, [])
  | input_report_key c v :: evs' =>
      let '(d1, passed) := input_handle_key d c v in
      let '(d2, out) := deliver d1 evs' in
      (d2, if passed then (c, v) :: out else out)
  | _ :: evs' => deliver d evs'
  end.

(** ** jz_kbd_init *)

(** The preparation loop: active-low mask, key code table and [keybit]. *)
Fixpoint init_loop (bs : list button) (i : Z) (mask : Z) (codes : list Z) (bits : gset Z)
  : Z * list Z * gset Z :=
  match bs with
  | [] => (mask, codes, bits)
  | b :: bs' =>
      let mask := if actlow b then Z.lor mask (shl32 1 i) else mask in
      let '(codes, bits) := if negb (ncode b =? 0)
                            then (codes ++ [ncode b], {[ncode b]} ∪ bits) else (codes, bits) in
      let '(codes, bits) := if negb (scode b =? 0)
                            then (codes ++ [scode b], {[scode b]} ∪ bits) else (codes, bits) in
      init_loop bs' (i + 1) mask codes bits
  end.

Definition ENOMEM : Z := 12.

(** [alloc] says whether [input_allocate_polled_device] succeeds, [reg] is the
    result of [input_register_polled_device].  The static [jz_kbd] starts
    zeroed; a failure leaves no device. *)
Definition jz_kbd_init (alloc : bool) (reg : Z) : Z * option (jz_kbd * input_dev) :=
  if negb alloc then (- ENOMEM, None)
  else
    let '(mask, codes, bits) := init_loop jz_button 0 0 [] ∅ in
    if negb (reg =? 0) then (reg, None)
    else (0, Some (Kbd codes 0 0 0 mask 0 0, InputDev bits ∅)).

(** One poll, with its reports handed to the input core. *)
Definition poll_deliver (p : pins) (st : jz_kbd * input_dev) : jz_kbd * input_dev :=
  let '(kbd, evs) := jz_kbd_poll p st.1 in (kbd, (deliver st.2 evs).1).

(** A history of polls, most recent last. *)
Definition poll_all (ps : list pins) (st : jz_kbd * input_dev) : jz_kbd * input_dev :=
  foldl (fun st p => poll_deliver p st) st ps.

Definition kbd0 : jz_kbd * input_dev :=
  default (Kbd [] 0 0 0 0 0 0, InputDev ∅ ∅) (jz_kbd_init true 0).2.

(** ** Bits and buttons *)

Lemma shl32_one i : 0 <= i < 32 -> shl32 1 i = 2 ^ i.
Proof.
  intros Hi. unfold shl32, u32. rewrite Z.shiftl_1_l. apply Z.mod_small.
  split; [lia|]. apply Z.pow_lt_mono_r; lia.
Qed.

(** The reports, by bit number instead of mask. *)
Fixpoint key_reports (code : button -> Z) (bs : list button) (i x s : Z) : list event :=
  match bs with
  | [] => []
  | b :: bs' =>
      (if Z.testbit x i && negb (code b =? 0)
       then [input_report_key (code b) (Z.testbit s i)] else [])
      ++ key_reports code bs' (i + 1) x s
  end.

Lemma key_events_reports code bs i x s :
  0 <= i -> i + Z.of_nat (length bs) < 32 ->
  key_events code bs (2 ^ i) x s = key_reports code bs i x s.
Proof.
  revert i. induction bs as [|b bs IH]; intros i Hi Hlen; simpl in *; [done|].
  rewrite !land_pow2_testbit, shl32_pow2, IH by lia. done.
Qed.

Lemma scan_testbit p bs i s n :
  0 <= i -> i + Z.of_nat (length bs) < 32 -> 0 <= n ->
  Z.testbit (scan p bs (2 ^ i) s) n =
    Z.testbit s n || match bs !! Z.to_nat (n - i) with
                     | Some b => (i <=? n) && p (gpio b) | None => false end.
Proof.
  revert i s. induction bs as [|b bs IH]; intros i s Hi Hlen Hn; simpl in *.
  { by rewrite orb_false_r. }
  rewrite shl32_pow2, IH by lia.
  assert (Z.testbit (if p (gpio b) then Z.lor s (2 ^ i) else s) n =
          Z.testbit s n || ((i =? n) && p (gpio b))) as ->.
  { destruct (p (gpio b)); [|by rewrite andb_false_r, orb_false_r].
    by rewrite Z.lor_spec, Z.pow2_bits_eqb, andb_true_r by lia. }
  destruct (Z.eqb_spec i n) as [->|Hne]; [|rewrite orb_false_r].
  - rewrite Z.sub_diag. rewrite Z.leb_refl. simpl.
    replace (n + 1 <=? n) with false by (symmetry; bool_lia). simpl.
    destruct (bs !! _); by rewrite !orb_false_r.
  - destruct (Z.leb_spec i n).
    + replace (Z.to_nat (n - i)) with (S (Z.to_nat (n - (i + 1)))) by lia. simpl.
      replace (i + 1 <=? n) with true by (symmetry; bool_lia). done.
    + replace (Z.to_nat (n - i)) with 0%nat by lia.
      replace (i + 1 <=? n) with false by (symmetry; bool_lia). simpl.
      by destruct (bs !! _).
Qed.

(** A button is pressed when its pin is at its active level. *)
Definition pressed (p : pins) (b : button) : bool := xorb (p (gpio b)) (actlow b).

(** The active-low mask that [jz_kbd_init] computes. *)
Definition actlow_mask : Z := 4095.

(** The button state of a poll. *)
Definition buttons (p : pins) : Z := Z.lxor (scan p jz_button 1 0) actlow_mask.

Lemma buttons_testbit p j b :
  jz_button !! j = Some b -> Z.testbit (buttons p) (Z.of_nat j) = pressed p b.
Proof.
  intros Hj. unfold buttons. rewrite Z.lxor_spec.
  pose proof (lookup_lt_Some _ _ _ Hj) as Hlt. change (length jz_button) with 12%nat in Hlt.
  change 1 with (2 ^ 0). rewrite scan_testbit by (simpl; lia).
  rewrite Z.bits_0, Z.sub_0_r, Nat2Z.id, Hj. simpl.
  replace (0 <=? Z.of_nat j) with true by (symmetry; bool_lia). simpl. unfold pressed. f_equal.
  do 12 (destruct j as [|j]; [by simplify_eq/=|]). lia.
Qed.

Lemma buttons_zero p : buttons p = 0 <-> forall b, b ∈ jz_button -> pressed p b = false.
Proof.
  split.
  - intros Hz b [j Hj]%list_elem_of_lookup. rewrite <- (buttons_testbit p j b Hj), Hz. apply Z.bits_0.
  - intros Hall. apply Z.bits_inj'. intros n Hn. rewrite Z.bits_0.
    destruct (jz_button !! Z.to_nat n) as [b|] eqn:Hb.
    + rewrite <- (Z2Nat.id n), (buttons_testbit p _ b Hb) by done.
      apply Hall. by eapply list_elem_of_lookup_2.
    + unfold buttons. rewrite Z.lxor_spec. change 1 with (2 ^ 0).
      rewrite scan_testbit by (simpl; lia). rewrite Z.bits_0, Z.sub_0_r, Hb. simpl.
      apply lookup_ge_None in Hb. change (length jz_button) with 12%nat in Hb.
      unfold actlow_mask. change 4095 with (Z.ones 12). apply Z.ones_spec_high. lia.
Qed.

(** ** The input core's view of the keys *)

Lemma handle_key_in d c v x :
  c ∈ keybit d ->
  keybit (input_handle_key d c v).1 = keybit d /\
  (x ∈ key (input_handle_key d c v).1 <-> if decide (x = c) then v = true else x ∈ key d).
Proof.
  intros Hc. unfold input_handle_key. rewrite decide_True by done.
  destruct (bool_decide_reflect (c ∈ key d)), v; simpl; split; try done;
    case_decide; subst; set_solver.
Qed.

Lemma handle_key_out d c v : c ∉ keybit d -> input_handle_key d c v = (d, false).
Proof. intros Hc. unfold input_handle_key. by rewrite decide_False. Qed.

Lemma deliver_app d a b : (deliver d (a ++ b)).1 = (deliver (deliver d a).1 b).1.
Proof.
  revert d. induction a as [|[c v|c|] a IH]; intros d; simpl; try done.
  destruct (input_handle_key d c v) as [d1 passed]. specialize (IH d1).
  destruct (deliver d1 (a ++ b)), (deliver d1 a). done.
Qed.

Lemma deliver_report d c v : (deliver d [input_report_key c v]).1 = (input_handle_key d c v).1.
Proof. simpl. by destruct (input_handle_key d c v). Qed.

(** Every nonzero code of the table is declared. *)
Definition declared (code : button -> Z) (bs : list button) (d : input_dev) : Prop :=
  forall b, b ∈ bs -> code b <> 0 -> code b ∈ keybit d.

(** The first button's report, then the rest. *)
Lemma deliver_reports_cons code b bs i x s d :
  exists d1, (deliver d (key_reports code (b :: bs) i x s)).1 =
             (deliver d1 (key_reports code bs (i + 1) x s)).1 /\
    (declared code (b :: bs) d -> keybit d1 = keybit d /\ declared code bs d1 /\
     forall c, c ∈ key d1 <-> if decide (c = code b /\ code b <> 0 /\ Z.testbit x i = true)
                              then Z.testbit s i = true else c ∈ key d).
Proof.
  simpl. destruct (Z.testbit x i && negb (code b =? 0)) eqn:Hg.
  - exists (deliver d [input_report_key (code b) (Z.testbit s i)]).1. split; [by rewrite deliver_app|].
    intros Hd. bool_lia. apply negb_true_iff, Z.eqb_neq in H0.
    assert (code b ∈ keybit d) as Hb by (apply Hd; [by left|done]).
    rewrite deliver_report. split; [by apply (handle_key_in d _ _ 0)|]. split.
    + intros y Hy Hn. rewrite (proj1 (handle_key_in d (code b) (Z.testbit s i) 0 Hb)).
      apply Hd; [by right|done].
    + intros c. rewrite (proj2 (handle_key_in d (code b) (Z.testbit s i) c Hb)).
      repeat case_decide; naive_solver.
  - exists d. split; [done|]. intros Hd. split; [done|]. split; [intros y Hy; apply Hd; by right|].
    intros c. rewrite decide_False; [done|]. intros (-> & Hn & Ht). rewrite Ht in Hg. simpl in Hg.
    apply negb_false_iff, Z.eqb_eq in Hg. done.
Qed.

Lemma deliver_reports_keybit code bs i x s d :
  declared code bs d -> keybit (deliver d (key_reports code bs i x s)).1 = keybit d.
Proof.
  revert i d. induction bs as [|b bs IH]; intros i d Hd; [done|].
  destruct (deliver_reports_cons code b bs i x s d) as (d1 & -> & H1).
  destruct (H1 Hd) as (Hb & Hd1 & _). by rewrite IH.
Qed.

Lemma deliver_reports_other code bs i x s d c :
  declared code bs d -> (forall b, b ∈ bs -> code b <> 0 -> code b <> c) ->
  c ∈ key (deliver d (key_reports code bs i x s)).1 <-> c ∈ key d.
Proof.
  revert i d. induction bs as [|b bs IH]; intros i d Hd Hc; [done|].
  destruct (deliver_reports_cons code b bs i x s d) as (d1 & -> & H1). destruct (H1 Hd) as (_ & Hd1 & Hk).
  rewrite IH; [|done|intros y Hy; apply Hc; by right]. rewrite Hk, decide_False; [done|].
  intros (-> & Hn & _). apply (Hc b); [by left|done..].
Qed.

Lemma deliver_reports_own code bs i x s d j b :
  declared code bs d -> bs !! j = Some b -> code b <> 0 ->
  (forall k b', bs !! k = Some b' -> code b' = code b -> k = j) ->
  code b ∈ key (deliver d (key_reports code bs i x s)).1 <->
    if Z.testbit x (i + Z.of_nat j) then Z.testbit s (i + Z.of_nat j) = true else code b ∈ key d.
Proof.
  revert i d j. induction bs as [|b0 bs IH]; intros i d j Hd Hj Hn Hu; [done|].
  destruct (deliver_reports_cons code b0 bs i x s d) as (d1 & -> & H1). destruct (H1 Hd) as (_ & Hd1 & Hk).
  destruct j as [|j]; simpl in Hj.
  - simplify_eq. rewrite deliver_reports_other; [|done|].
    + rewrite Hk, Z.add_0_r. destruct (Z.testbit x i) eqn:Hx.
      * by rewrite decide_True.
      * rewrite decide_False by (intros (_ & _ & ?); congruence). done.
    + intros y [k Hy]%list_elem_of_lookup _ Heq. specialize (Hu (S k) y Hy Heq). done.
  - rewrite (IH (i + 1) d1 j); [|done|done|done|].
    + replace (i + 1 + Z.of_nat j) with (i + Z.of_nat (S j)) by lia.
      specialize (Hk (code b)). rewrite decide_False in Hk; [by case_match|]. intros (Heq & _).
      specialize (Hu 0%nat b0 eq_refl (eq_sym Heq)). done.
    + intros k b' Hk' Heq. specialize (Hu (S k) b' Hk' Heq). lia.
Qed.

(** ** Facts of the A320 table *)

(** Distinct buttons have distinct codes, normal and special ones are disjoint. *)
Lemma ncode_inj j k b b' :
  jz_button !! j = Some b -> jz_button !! k = Some b' -> ncode b' = ncode b -> k = j.
Proof.
  intros Hj Hk Heq. assert (NoDup (ncode <$> jz_button)) as Hnd by (vm_compute; by apply (bool_decide_unpack _)).
  eapply (NoDup_lookup _ _ _ (ncode b) Hnd); rewrite list_lookup_fmap.
  - rewrite Hk. simpl. congruence.
  - by rewrite Hj.
Qed.

Lemma scode_inj j k b b' :
  jz_button !! j = Some b -> scode b <> 0 ->
  jz_button !! k = Some b' -> scode b' = scode b -> k = j.
Proof.
  intros Hj Hn Hk Heq.
  assert (Forall (fun x => Forall (fun y => scode x.2 = 0 \/ scode x.2 <> scode y.2 \/ x.1 = y.1)
    (zip (seq 0 12) jz_button)) (zip (seq 0 12) jz_button)) as Hall by (by apply (bool_decide_unpack _)).
  assert (forall i y, jz_button !! i = Some y -> (i, y) ∈ zip (seq 0 12) jz_button) as Hz.
  { intros i y Hi. apply list_elem_of_lookup. exists i. apply lookup_zip_with_Some.
    exists i, y. split; [done|]. split; [|done]. apply lookup_seq.
    apply lookup_lt_Some in Hi. simpl in Hi. lia. }
  rewrite Forall_forall in Hall. specialize (Hall _ (Hz _ _ Hk)).
  rewrite Forall_forall in Hall. specialize (Hall _ (Hz _ _ Hj)). simpl in Hall.
  destruct Hall as [?|[?|?]]; congruence.
Qed.

Lemma table_facts :
  Forall (fun b => ncode b <> 0 /\ ncode b <> KEY_POWER /\ scode b <> KEY_POWER /\
    ncode b ∈ keybit kbd0.2 /\ (scode b <> 0 -> scode b ∈ keybit kbd0.2) /\
    Forall (fun b' => ncode b <> scode b') jz_button) jz_button.
Proof. apply (bool_decide_unpack _). vm_compute. done. Qed.

Lemma table_length : Z.of_nat (length jz_button) = 12.
Proof. reflexivity. Qed.

(** START, the button at index [SYSRQ_ALT]. *)
Definition START : button := Button 81 true 28 0 0.

Lemma START_lookup : jz_button !! Z.to_nat SYSRQ_ALT = Some START.
Proof. reflexivity. Qed.

Lemma START_testbit p : Z.testbit (buttons p) SYSRQ_ALT = pressed p START.
Proof. by rewrite <- (buttons_testbit p _ START START_lookup). Qed.

Lemma KEY_POWER_undeclared : KEY_POWER ∉ keybit kbd0.2.
Proof. apply (bool_decide_unpack _). vm_compute. done. Qed.

(** ** The invariant of the driver and the input core *)

#[local] Opaque jz_button.


(** The keys the input core holds pressed are exactly the normal codes of the
    buttons in [normal_state] and the special codes of those in [special_state]. *)
Record tracks (st : jz_kbd * input_dev) : Prop := {
  tr_mask : kbd_actlow st.1 = actlow_mask;
  tr_keybit : keybit st.2 = keybit kbd0.2;
  tr_normal : forall j b, jz_button !! j = Some b ->
    ncode b ∈ key st.2 <-> Z.testbit (normal_state st.1) (Z.of_nat j) = true;
  tr_special : forall j b, jz_button !! j = Some b -> scode b <> 0 ->
    scode b ∈ key st.2 <-> Z.testbit (special_state st.1) (Z.of_nat j) = true;
  tr_only : forall c, c ∈ key st.2 ->
    exists b, b ∈ jz_button /\ c <> 0 /\ (c = ncode b \/ c = scode b) }.

Lemma tracks_init : tracks kbd0.
Proof.
  split; [done|done| | |].
  - intros j b _. rewrite Z.bits_0. split; [|done]. change (key kbd0.2) with (∅ : gset Z). set_solver.
  - intros j b _ _. rewrite Z.bits_0. split; [|done]. change (key kbd0.2) with (∅ : gset Z). set_solver.
  - intros c. change (key kbd0.2) with (∅ : gset Z). set_solver.
Qed.

(** Events without key reports for declared codes leave the device alone. *)
Definition inert (d : input_dev) (e : event) : Prop :=
  match e with input_report_key c _ => c ∉ keybit d | _ => True end.

Lemma deliver_inert d evs : Forall (inert d) evs -> (deliver d evs).1 = d.
Proof.
  induction 1 as [|[c v|c|] evs He Hevs IH]; simpl in *; try done.
  rewrite handle_key_out by done. by destruct (deliver d evs).
Qed.

Lemma sysrq_events_inert d bs m x s : Forall (inert d) (sysrq_events bs m x s).
Proof.
  revert m. induction bs as [|b bs IH]; intros m; simpl; [done|].
  apply Forall_app. split; [|done]. case_match; [|done]. by constructor.
Qed.

Lemma power_step_inert d kbd : KEY_POWER ∉ keybit d -> Forall (inert d) (power_step kbd).1.2.
Proof.
  intros Hp. unfold power_step. repeat case_match; simpl; repeat constructor; done.
Qed.

Lemma deliver_with_sync d n evs : (deliver d (with_sync n evs)).1 = (deliver d evs).1.
Proof. unfold with_sync. rewrite deliver_app. by case_match. Qed.

Lemma table_lookup j b : jz_button !! j = Some b ->
  ncode b <> 0 /\ ncode b <> KEY_POWER /\ scode b <> KEY_POWER /\
    ncode b ∈ keybit kbd0.2 /\ (scode b <> 0 -> scode b ∈ keybit kbd0.2) /\
    forall b', b' ∈ jz_button -> ncode b <> scode b'.
Proof.
  intros Hj. pose proof table_facts as Ht. eapply Forall_lookup_1 in Ht; [|exact Hj].
  destruct Ht as (? & ? & ? & ? & ? & Hf). rewrite Forall_forall in Hf. done.
Qed.

Lemma declared_ncode d : keybit d = keybit kbd0.2 -> declared ncode jz_button d.
Proof. intros Hk b [j Hj]%list_elem_of_lookup _. rewrite Hk. by apply (table_lookup j). Qed.

Lemma declared_scode d : keybit d = keybit kbd0.2 -> declared scode jz_button d.
Proof. intros Hk b [j Hj]%list_elem_of_lookup Hn. rewrite Hk. by apply (table_lookup j). Qed.

(** Reporting the changes from [old] to [s] makes the codes agree with [s]. *)
Lemma report_changes code s old d j b :
  declared code jz_button d -> jz_button !! j = Some b -> code b <> 0 ->
  (forall k b', jz_button !! k = Some b' -> code b' = code b -> k = j) ->
  (code b ∈ key d <-> Z.testbit old (Z.of_nat j) = true) ->
  code b ∈ key (deliver d (key_events code jz_button 1 (Z.lxor s old) s)).1 <->
    Z.testbit s (Z.of_nat j) = true.
Proof.
  intros Hd Hj Hn Hu Hold. change 1 with (2 ^ 0). rewrite key_events_reports by (pose proof table_length; lia).
  rewrite (deliver_reports_own code jz_button 0 _ s d j b) by done.
  rewrite Z.add_0_l, Z.lxor_spec.
  destruct (Z.testbit s (Z.of_nat j)), (Z.testbit old (Z.of_nat j)); simpl; done.
Qed.

Lemma report_other code s old d c :
  declared code jz_button d -> (forall b, b ∈ jz_button -> code b <> 0 -> code b <> c) ->
  c ∈ key (deliver d (key_events code jz_button 1 (Z.lxor s old) s)).1 <-> c ∈ key d.
Proof.
  intros Hd Hc. change 1 with (2 ^ 0). rewrite key_events_reports by (pose proof table_length; lia).
  by apply deliver_reports_other.
Qed.

Lemma report_keybit code s old d :
  declared code jz_button d ->
  keybit (deliver d (key_events code jz_button 1 (Z.lxor s old) s)).1 = keybit d.
Proof.
  intros Hd. change 1 with (2 ^ 0). rewrite key_events_reports by (pose proof table_length; lia).
  by apply deliver_reports_keybit.
Qed.

Lemma alt_testbit s : negb (Z.land s (shl32 1 SYSRQ_ALT) =? 0) = Z.testbit s SYSRQ_ALT.
Proof. rewrite shl32_one by (unfold SYSRQ_ALT; lia). by apply land_pow2_testbit. Qed.

(** A code that the reports for [code] leave alone stays declared by the table. *)
Lemma report_only code s old d c :
  declared code jz_button d ->
  c ∈ key (deliver d (key_events code jz_button 1 (Z.lxor s old) s)).1 ->
  c ∈ key d \/ exists b, b ∈ jz_button /\ code b <> 0 /\ c = code b.
Proof.
  intros Hd Hc.
  destruct (decide (Exists (fun b => code b <> 0 /\ c = code b) jz_button)) as [He|Hne].
  - right. apply Exists_exists in He as (b & ? & ? & ?). eauto.
  - left. apply (report_other code s old d c) in Hc; [done|done|].
    intros b Hb Hn <-. apply Hne, Exists_exists. eauto.
Qed.

Lemma tracks_poll p st : tracks st -> tracks (poll_deliver p st).
Proof.
  intros [Hm Hk Hn Hs Ho]. destruct st as [kbd d]. simpl in *.
  pose proof (declared_ncode d Hk) as Hdn. pose proof (declared_scode d Hk) as Hds.
  unfold poll_deliver, jz_kbd_poll. simpl. rewrite Hm. fold (buttons p). set (s := buttons p).
  destruct (p GPIO_POWER); simpl.
  - rewrite deliver_with_sync. split; simpl; [done|by rewrite report_keybit| | |].
    + intros j b Hj. pose proof (table_lookup j b Hj) as (H0 & _).
      apply report_changes; [done|done|done| |by apply Hn].
      intros k b' Hk'. by eapply ncode_inj.
    + intros j b Hj Hn0. rewrite report_other; [by apply Hs|done|].
      intros b' [k Hb']%list_elem_of_lookup _. apply (table_lookup k b' Hb').
      by eapply list_elem_of_lookup_2.
    + intros c [?|(b & ? & ? & ->)]%report_only; eauto.
  - rewrite alt_testbit. destruct (Z.testbit s SYSRQ_ALT).
    + simpl. rewrite deliver_inert by apply sysrq_events_inert. by split.
    + pose proof (power_step_inert (deliver d (key_events scode jz_button 1 (Z.lxor s (special_state kbd)) s)).1 kbd)
        as Hpow.
      destruct (power_step kbd) as [[cnt pevs] psync]. simpl in *.
      rewrite deliver_with_sync, deliver_app, deliver_inert.
      2: { apply Hpow. rewrite report_keybit, Hk by done. exact KEY_POWER_undeclared. }
      split; simpl; [done|by rewrite report_keybit| | |].
      * intros j b Hj. rewrite report_other; [by apply Hn|done|].
        intros b' Hb' _ Heq. by apply (table_lookup j b Hj) in Hb'.
      * intros j b Hj Hn0. apply report_changes; [done|done|done| |by apply Hs].
        intros k b' Hk'. by eapply scode_inj.
      * intros c [?|(b & ? & ? & ->)]%report_only; eauto.
Qed.

Lemma tracks_all ps st : tracks st -> tracks (poll_all ps st).
Proof.
  revert st. induction ps as [|p ps IH]; intros st Hst; simpl; [done|].
  apply IH. by apply tracks_poll.
Qed.

Lemma poll_all_snoc ps p st : poll_all (ps ++ [p]) st = poll_deliver p (poll_all ps st).
Proof. unfold poll_all. by rewrite foldl_app. Qed.

Lemma poll_normal p st :
  kbd_actlow st.1 = actlow_mask -> p GPIO_POWER = true ->
  normal_state (poll_deliver p st).1 = buttons p.
Proof. intros Hm Hp. unfold poll_deliver, jz_kbd_poll. rewrite Hp, Hm. done. Qed.

Lemma poll_special p st :
  kbd_actlow st.1 = actlow_mask -> p GPIO_POWER = false -> Z.testbit (buttons p) SYSRQ_ALT = false ->
  special_state (poll_deliver p st).1 = buttons p.
Proof.
  intros Hm Hp Ha. unfold poll_deliver, jz_kbd_poll. rewrite Hp, Hm. fold (buttons p).
  rewrite alt_testbit, Ha. simpl. by destruct (power_step st.1) as [[? ?] ?].
Qed.

(** The slider is held. *)
Definition slider (p : pins) : bool := negb (p GPIO_POWER).

(** The polls that look at the normal keys, and those that look at the special
    ones; with slider and START a poll looks at system requests only. *)
Definition normal_poll (p : pins) : bool := p GPIO_POWER.
Definition special_poll (p : pins) : bool := slider p && negb (pressed p START).

(** The button was pressed at the last poll of a kind. *)
Definition seen (kind : pins -> bool) (ps : list pins) (b : button) : bool :=
  match last (List.filter kind ps) with Some p => pressed p b | None => false end.

Lemma seen_snoc kind ps p b :
  seen kind (ps ++ [p]) b = if kind p then pressed p b else seen kind ps b.
Proof.
  unfold seen. rewrite List.filter_app. simpl. destruct (kind p); [by rewrite last_snoc|by rewrite app_nil_r].
Qed.

Lemma poll_other p st :
  kbd_actlow st.1 = actlow_mask ->
  (p GPIO_POWER = false -> normal_state (poll_deliver p st).1 = normal_state st.1) /\
  (special_poll p = false -> special_state (poll_deliver p st).1 = special_state st.1).
Proof.
  intros Hm. unfold poll_deliver, jz_kbd_poll, special_poll, slider. rewrite Hm. fold (buttons p).
  rewrite alt_testbit, <- START_testbit. destruct (p GPIO_POWER); [done|].
  destruct (Z.testbit (buttons p) SYSRQ_ALT); [done|]. simpl. by destruct (power_step st.1) as [[? ?] ?].
Qed.

(** What the driver remembers is what it has seen. *)
Lemma states_seen ps j b :
  jz_button !! j = Some b ->
  Z.testbit (normal_state (poll_all ps kbd0).1) (Z.of_nat j) = seen normal_poll ps b /\
  Z.testbit (special_state (poll_all ps kbd0).1) (Z.of_nat j) = seen special_poll ps b.
Proof.
  intros Hj. induction ps as [|p ps [IH1 IH2]] using rev_ind; [by rewrite !Z.bits_0|].
  rewrite poll_all_snoc, !seen_snoc. pose proof (tr_mask _ (tracks_all ps kbd0 tracks_init)) as Hm.
  destruct (poll_other p _ Hm) as [Hn Hs]. unfold normal_poll at 1. split.
  - destruct (p GPIO_POWER) eqn:Hp; [|by rewrite Hn].
    by rewrite poll_normal, (buttons_testbit p j b).
  - destruct (special_poll p) eqn:Hp; [|by rewrite Hs].
    apply andb_prop in Hp as [Hp Ha]. rewrite negb_true_iff, <- START_testbit in Ha.
    unfold slider in Hp. rewrite negb_true_iff in Hp.
    by rewrite poll_special, (buttons_testbit p j b).
Qed.

(** C6: after any history of polls since [jz_kbd_init] the input core holds
    exactly these keys pressed: the normal keys of the buttons that were pressed
    at the last poll with the slider released, and the special keys of those that
    were pressed at the last poll with the slider held and START not.  At a poll
    of either kind this is what is pressed at that moment; the keys of the other
    kind keep the state of an earlier poll. *)
Theorem kbd_tracks_buttons (ps : list pins) (c : Z) :
  c ∈ key (poll_all ps kbd0).2 <->
  exists b, b ∈ jz_button /\
    (c = ncode b /\ seen normal_poll ps b = true \/
     c = scode b /\ scode b <> 0 /\ seen special_poll ps b = true).
Proof.
  pose proof (tracks_all ps kbd0 tracks_init) as Ht. split.
  - intros Hc. destruct (tr_only _ Ht c Hc) as (b & Hb & H0 & Hcode). exists b. split; [done|].
    apply list_elem_of_lookup in Hb as [j Hj]. destruct (states_seen ps j b Hj) as [<- <-].
    destruct Hcode as [->| ->]; [left|right]; split_and!; try done.
    + by apply (tr_normal _ Ht j b Hj).
    + by apply (tr_special _ Ht j b Hj).
  - intros (b & [j Hj]%list_elem_of_lookup & Hc). destruct (states_seen ps j b Hj) as [Hn Hs].
    destruct Hc as [[-> H]|(-> & H0 & H)].
    + apply (tr_normal _ Ht j b Hj). by rewrite Hn.
    + apply (tr_special _ Ht j b Hj H0). by rewrite Hs.
Qed.

(** ** The power slider *)

(** The events of each poll of a history. *)
Fixpoint poll_trace (ps : list pins) (kbd : jz_kbd) : list (list event) :=
  match ps with
  | [] => []
  | p :: ps' => let '(kbd', evs) := jz_kbd_poll p kbd in evs :: poll_trace ps' kbd'
  end.

(** The slider is held and every button is released. *)
Definition slider_only (p : pins) : Prop :=
  slider p = true /\ forall b, b ∈ jz_button -> pressed p b = false.

(** What the poll does that finds the slider held for the [k]-th time again. *)
Definition power_events (k : Z) : list event :=
  if k =? 100 then [input_report_key KEY_POWER true; input_report_key KEY_POWER false; input_sync]
  else if k =? 250 then [handle_sysrq 115; handle_sysrq 117; handle_sysrq 98]
  else [].

Lemma no_changes code bs i s :
  0 <= i -> i + Z.of_nat (length bs) < 32 -> key_events code bs (2 ^ i) (Z.lxor s s) s = [].
Proof.
  intros Hi Hlen. rewrite key_events_reports, Z.lxor_nilpotent by done.
  clear Hlen Hi. revert i. induction bs as [|b bs IH]; intros i; simpl; [done|].
  by rewrite Z.bits_0, IH.
Qed.

Lemma slider_only_buttons p : slider_only p -> p GPIO_POWER = false /\ buttons p = 0.
Proof.
  intros [Hs Hb%buttons_zero]. split; [|done]. unfold slider in Hs. by destruct (p GPIO_POWER).
Qed.

(** The special keys left pressed are released. *)
Definition late_releases (qs : list pins) : list event :=
  let keys := (fun b => input_report_key (scode b) false) <$>
    List.filter (fun b => seen special_poll qs b && negb (scode b =? 0)) jz_button in
  with_sync (count keys) keys.

Lemma releases_only code x f : forall bs i,
  (forall k b, bs !! k = Some b -> Z.testbit x (i + Z.of_nat k) = f b) ->
  key_reports code bs i x 0 =
    (fun b => input_report_key (code b) false) <$> List.filter (fun b => f b && negb (code b =? 0)) bs.
Proof.
  induction bs as [|b bs IH]; intros i Hx; [done|]. simpl.
  rewrite IH by (intros k b' Hk; rewrite <- (Hx (S k) b' Hk); f_equal; lia).
  pose proof (Hx 0%nat b eq_refl) as Hb. rewrite Z.add_0_r in Hb. rewrite Hb, Z.bits_0. by case_match.
Qed.

Lemma slider_only_poll p kbd :
  slider_only p -> kbd_actlow kbd = actlow_mask ->
  jz_kbd_poll p kbd =
    (Kbd (keycode kbd) (normal_state kbd) 0 (sysrq_state kbd) actlow_mask 1 (power_step kbd).1.1,
     let keys := key_events scode jz_button 1 (special_state kbd) 0 in
     with_sync (count keys + (power_step kbd).2) (keys ++ (power_step kbd).1.2)).
Proof.
  intros [Hp Hb]%slider_only_buttons Hm. unfold jz_kbd_poll. rewrite Hp, Hm.
  fold (buttons p). rewrite Hb. rewrite alt_testbit, Z.bits_0, Z.lxor_0_l. simpl.
  by destruct (power_step kbd) as [[cnt evs] n].
Qed.

Lemma no_keys kbd : special_state kbd = 0 -> key_events scode jz_button 1 (special_state kbd) 0 = [].
Proof.
  intros ->. change 1 with (2 ^ 0). change 0 with (Z.lxor 0 0) at 2.
  apply no_changes; pose proof table_length; lia.
Qed.

Lemma power_step_counting kbd k :
  power_state kbd = 1 -> power_count kbd = k -> 0 < k < 2 ^ 32 - 1 ->
  (power_step kbd).1.1 = k + 1 /\ with_sync (power_step kbd).2 (power_step kbd).1.2 = power_events k.
Proof.
  intros Hs <- Hk. unfold power_step, power_events. rewrite Hs.
  rewrite (proj2 (Z.ltb_lt _ _)) by lia. simpl.
  change POWER_COUNT with 100. change REBOOT_COUNT with 250.
  split; [apply Z.mod_small; lia|].
  destruct (Z.eqb_spec (power_count kbd) 100) as [->|]; [done|].
  by destruct (Z.eqb_spec (power_count kbd) 250).
Qed.

Lemma power_trace_counting ps kbd k :
  Forall slider_only ps -> kbd_actlow kbd = actlow_mask -> special_state kbd = 0 ->
  power_state kbd = 1 -> power_count kbd = k -> 0 < k -> k + Z.of_nat (length ps) < 2 ^ 32 ->
  poll_trace ps kbd = power_events <$> seqZ k (Z.of_nat (length ps)).
Proof.
  revert kbd k. induction ps as [|p ps IH]; intros kbd k Hps Hm Hs Hst Hc Hk Hlen; [done|].
  apply Forall_cons in Hps as [Hp Hps]. simpl length in *.
  destruct (power_step_counting kbd k Hst Hc) as [Hcnt Hev]; [lia|].
  cbn [poll_trace]. rewrite slider_only_poll, no_keys by done. cbn [app count length]. rewrite Z.add_0_l, Hcnt, Hev.
  rewrite seqZ_cons by lia. simpl. f_equal.
  replace (Z.pred (Z.of_nat (S (length ps)))) with (Z.of_nat (length ps)) by lia.
  by apply IH; simpl; try lia.
Qed.

(** C7: the slider's timing.  When, after any history of polls, the slider is
    moved from its rest position and then held with no button pressed, the first
    poll reports that the special keys still pressed from the last time are
    released, the 101st (two seconds after the first) sends KEY_POWER pressed and
    released, the 251st (five seconds) asks to sync, remount read-only and reboot,
    in that order, and no other poll sends anything. *)
Theorem power_slider_timing (qs : list pins) (q p : pins) (ps : list pins) :
  slider q = false -> Forall slider_only (p :: ps) -> Z.of_nat (length (p :: ps)) < 2 ^ 32 ->
  poll_trace (p :: ps) (poll_all (qs ++ [q]) kbd0).1 =
    late_releases qs :: (power_events <$> seqZ 1 (Z.of_nat (length ps))).
Proof.
  intros Hq [Hp Hps]%Forall_cons Hlen. unfold slider in Hq. rewrite negb_false_iff in Hq.
  pose proof (tr_mask _ (tracks_all (qs ++ [q]) kbd0 tracks_init)) as Hm.
  assert (power_state (poll_all (qs ++ [q]) kbd0).1 = 0) as Hst.
  { rewrite poll_all_snoc. unfold poll_deliver, jz_kbd_poll. by rewrite Hq. }
  cbn [poll_trace]. rewrite slider_only_poll by done. unfold power_step. rewrite Hst. simpl. f_equal.
  - unfold late_releases. change 1 with (2 ^ 0). rewrite key_events_reports by (pose proof table_length; lia).
    rewrite (releases_only scode _ (seen special_poll qs)).
    + by rewrite app_nil_r, Z.add_0_r.
    + intros k b Hk. rewrite Z.add_0_l, (proj2 (states_seen _ k b Hk)), seen_snoc.
      unfold special_poll at 1, slider. by rewrite Hq.
  - simpl length in Hlen. by apply power_trace_counting; simpl; try lia.
Qed.

(** No KEY_POWER and no timed reboot among the events. *)
Definition no_power (e : event) : Prop :=
  match e with input_report_key c _ => c <> KEY_POWER | _ => True end.

Lemma key_events_no_power code bs m x s :
  (forall b, b ∈ bs -> code b <> KEY_POWER) -> Forall no_power (key_events code bs m x s).
Proof.
  revert m. induction bs as [|b bs IH]; intros m Hc; [done|]. cbn [key_events].
  apply Forall_app. split; [|apply IH; intros y Hy; apply Hc; by right].
  case_match; [|done]. constructor; [|done]. apply Hc. by left.
Qed.

Lemma sysrq_events_no_power bs m x s : Forall no_power (sysrq_events bs m x s).
Proof.
  revert m. induction bs as [|b bs IH]; intros m; [done|]. cbn [sysrq_events].
  apply Forall_app. split; [|done]. case_match; [|done]. by constructor.
Qed.

Lemma scode_no_power b : b ∈ jz_button -> scode b <> KEY_POWER.
Proof. intros [j Hj]%list_elem_of_lookup. by apply (table_lookup j b). Qed.

Lemma with_sync_no_power n evs : Forall no_power evs -> Forall no_power (with_sync n evs).
Proof. intros He. apply Forall_app. split; [done|]. case_match; [|done]. by constructor. Qed.

(** With the counter stopped and the slider known to be held, it stays so. *)
Lemma stopped_poll p kbd :
  slider p = true -> power_state kbd = 1 -> power_count kbd = 0 ->
  power_state (jz_kbd_poll p kbd).1 = 1 /\ power_count (jz_kbd_poll p kbd).1 = 0 /\
  Forall no_power (jz_kbd_poll p kbd).2.
Proof.
  intros Hp Hs Hc. unfold jz_kbd_poll. unfold slider in Hp. destruct (p GPIO_POWER); [done|].
  simpl. case_match; [split; [done|]; split; [done|apply sysrq_events_no_power]|].
  unfold power_step. rewrite Hs, Hc. simpl. split; [done|]. split; [by case_match|].
  apply with_sync_no_power, Forall_app. split; [|done].
  apply key_events_no_power, scode_no_power.
Qed.

(** Pressing any button but START while the slider is held cancels the
    power function: no KEY_POWER is sent until the slider is released. *)
Theorem button_cancels_power (p : pins) (ps : list pins) (kbd : jz_kbd) (b : button) :
  kbd_actlow kbd = actlow_mask -> power_count kbd <> POWER_COUNT ->
  slider p = true -> b ∈ jz_button -> pressed p b = true -> pressed p START = false ->
  Forall (fun q => slider q = true) ps ->
  Forall (Forall no_power) (poll_trace (p :: ps) kbd).
Proof.
  intros Hm Hc Hp [j Hj]%list_elem_of_lookup Hb Ha Hps.
  rewrite <- START_testbit in Ha.
  assert (buttons p <> 0) as Hnz.
  { rewrite buttons_zero. intros Hall. rewrite Hall in Hb; [done|]. by eapply list_elem_of_lookup_2. }
  cbn [poll_trace]. destruct (jz_kbd_poll p kbd) as [kbd' evs] eqn:Hpoll.
  assert (power_state kbd' = 1 /\ power_count kbd' = 0 /\ Forall no_power evs) as (Hs' & Hc' & Hevs).
  { revert Hpoll. unfold jz_kbd_poll. unfold slider in Hp. destruct (p GPIO_POWER); [done|].
    rewrite Hm. fold (buttons p). rewrite alt_testbit, Ha. simpl.
    rewrite (proj2 (Z.eqb_neq _ _)) by done. simpl.
    assert (Forall no_power (power_step kbd).1.2) as Hps1.
    { unfold power_step. rewrite (proj2 (Z.eqb_neq _ _) Hc). repeat case_match; simpl; repeat constructor. }
    destruct (power_step kbd) as [[cnt pevs] n]. simpl in *. intros [= <- <-].
    split; [done|]. split; [done|]. apply with_sync_no_power, Forall_app.
    split; [|done]. apply key_events_no_power, scode_no_power. }
  constructor; [done|]. clear -Hs' Hc' Hps. revert kbd' Hs' Hc'.
  induction Hps as [|q ps Hq Hps IH]; intros kbd Hs Hc; [constructor|]. cbn [poll_trace].
  destruct (stopped_poll q kbd Hq Hs Hc) as (Hs' & Hc' & He).
  destruct (jz_kbd_poll q kbd) as [kbd' evs]. constructor; [done|]. by apply IH.
Qed.

(** ** System requests *)

Lemma sysrq_events_spec bs i x s c :
  0 <= i -> i + Z.of_nat (length bs) < 32 ->
  handle_sysrq c ∈ sysrq_events bs (2 ^ i) x s <->
  exists j b, bs !! j = Some b /\ sysrq b = c /\ c <> 0 /\
    Z.testbit x (i + Z.of_nat j) = true /\ Z.testbit s (i + Z.of_nat j) = true.
Proof.
  revert i. induction bs as [|b bs IH]; intros i Hi Hlen; cbn [sysrq_events].
  { split; [by intros ?%elem_of_nil|]. intros (j & b & Hj & _). done. }
  simpl in Hlen. rewrite land_pow2_testbit, Z.land_spec, shl32_pow2, elem_of_app, IH by lia. split.
  - intros [He|(j & b' & Hj & Hc & Hn & Hx & Hs)].
    + destruct (Z.testbit x i && Z.testbit s i && negb (sysrq b =? 0)) eqn:Hg; [|by apply elem_of_nil in He].
      apply list_elem_of_singleton in He. simplify_eq. bool_lia. apply negb_true_iff, Z.eqb_neq in H0.
      exists 0%nat, b. rewrite Z.add_0_r. done.
    + exists (S j), b'. replace (i + Z.of_nat (S j)) with (i + 1 + Z.of_nat j) by lia. done.
  - intros ([|j] & b' & Hj & Hc & Hn & Hx & Hs); simpl in Hj.
    + simplify_eq. rewrite Z.add_0_r in Hx, Hs. left. rewrite Hx, Hs.
      rewrite (proj2 (Z.eqb_neq _ _)) by done. simpl. by left.
    + right. exists j, b'. replace (i + 1 + Z.of_nat j) with (i + Z.of_nat (S j)) by lia. done.
Qed.

Lemma key_events_no_sysrq code bs m x s c : handle_sysrq c ∉ key_events code bs m x s.
Proof.
  revert m. induction bs as [|b bs IH]; intros m; cbn [key_events]; [by intros ?%elem_of_nil|].
  intros [He|He]%elem_of_app; [|by apply IH in He].
  case_match; [by apply list_elem_of_singleton in He|by apply elem_of_nil in He].
Qed.

Lemma with_sync_sysrq n evs c : handle_sysrq c ∈ with_sync n evs <-> handle_sysrq c ∈ evs.
Proof.
  unfold with_sync. rewrite elem_of_app. split; [|by left].
  intros [He|He]; [done|]. case_match; [by apply list_elem_of_singleton in He|by apply elem_of_nil in He].
Qed.

(** A poll sends system request [c] exactly if the slider is held and
    either START is held and a button with that request is pressed now and was
    not at the last such poll, or START is not held and the counter reaches the
    reboot time, for the requests 's', 'u' and 'b'. *)
Theorem sysrq_iff (p : pins) (kbd : jz_kbd) (c : Z) :
  kbd_actlow kbd = actlow_mask -> 0 <= power_count kbd ->
  handle_sysrq c ∈ (jz_kbd_poll p kbd).2 <->
  slider p = true /\
  ((pressed p START = true /\ exists j b, jz_button !! j = Some b /\ sysrq b = c /\ c <> 0 /\
      pressed p b = true /\ Z.testbit (sysrq_state kbd) (Z.of_nat j) = false) \/
   (pressed p START = false /\ power_state kbd <> 0 /\ power_count kbd = 250 /\
      c ∈ [115; 117; 98])).
Proof.
  intros Hm Hc. unfold jz_kbd_poll, slider. rewrite Hm. fold (buttons p).
  rewrite <- START_testbit.
  destruct (p GPIO_POWER); simpl.
  { rewrite with_sync_sysrq. split; [by intros ?%key_events_no_sysrq|naive_solver]. }
  rewrite alt_testbit. destruct (Z.testbit (buttons p) SYSRQ_ALT) eqn:Ha; simpl.
  - change 1 with (2 ^ 0). rewrite sysrq_events_spec by (pose proof table_length; lia). split.
    + intros (j & b & Hj & Hb & Hn & Hx & Hs). split; [done|]. left. split; [done|].
      exists j, b. rewrite Z.add_0_l in *. rewrite Z.lxor_spec, Hs in Hx.
      rewrite (buttons_testbit p j b Hj) in Hs. by destruct (Z.testbit (sysrq_state kbd) _).
    + intros [_ [(_ & j & b & Hj & Hb & Hn & Hp & Hs)|(? & _)]]; [|done].
      exists j, b. rewrite Z.add_0_l, Z.lxor_spec, (buttons_testbit p j b Hj), Hp, Hs. done.
  - assert (handle_sysrq c ∈ (power_step kbd).1.2 <->
      power_state kbd <> 0 /\ power_count kbd = 250 /\ c ∈ [115; 117; 98]) as Hpow.
    { unfold power_step. change POWER_COUNT with 100. change REBOOT_COUNT with 250.
      destruct (Z.eqb_spec (power_state kbd) 0); [simpl; split; [by intros ?%elem_of_nil|naive_solver]|].
      destruct (Z.ltb_spec 0 (power_count kbd)); simpl.
      2: { split; [by intros ?%elem_of_nil|]. intros (_ & ? & _). lia. }
      destruct (Z.eqb_spec (power_count kbd) 250) as [->|]; simpl.
      - rewrite !elem_of_cons, !elem_of_nil. naive_solver.
      - rewrite app_nil_r. case_match; rewrite ?elem_of_cons, ?elem_of_nil; naive_solver. }
    destruct (power_step kbd) as [[cnt pevs] n]. simpl in *.
    rewrite with_sync_sysrq, elem_of_app, Hpow. pose proof key_events_no_sysrq. naive_solver.
Qed.

(** ** KEY_POWER and the input core *)

Lemma handle_keybit d c v : keybit (input_handle_key d c v).1 = keybit d.
Proof. unfold input_handle_key. by repeat case_match. Qed.

Lemma deliver_undeclared d evs c v : c ∉ keybit d -> (c, v) ∉ (deliver d evs).2.
Proof.
  revert d. induction evs as [|[c' v'|c'|] evs IH]; intros d Hc; simpl;
    [by intros ?%elem_of_nil| |by apply IH|by apply IH].
  pose proof (handle_keybit d c' v') as Hk.
  destruct (input_handle_key d c' v') as [d1 passed] eqn:Hh. simpl in Hk.
  assert (passed = true -> c' ∈ keybit d) as Hp.
  { intros ->. unfold input_handle_key in Hh. by destruct (decide (c' ∈ keybit d)). }
  specialize (IH d1). rewrite Hk in IH. destruct (deliver d1 evs) as [d2 out]. simpl in *.
  destruct passed; [|by apply IH]. intros [Heq|Hin]%elem_of_cons; [|by apply IH].
  simplify_eq. by apply Hc, Hp.
Qed.

(** [jz_kbd_init] does not declare KEY_POWER, so although the driver
    reports it, the input core never passes it on: over any history of polls no
    handler sees KEY_POWER. *)
Theorem power_key_undelivered (ps : list pins) (p : pins) (v : bool) :
  let st := poll_all ps kbd0 in
  (KEY_POWER, v) ∉ (deliver st.2 (jz_kbd_poll p st.1).2).2.
Proof.
  intros st. apply deliver_undeclared. unfold st. rewrite (tr_keybit _ (tracks_all ps kbd0 tracks_init)).
  exact KEY_POWER_undeclared.
Qed.

(** ** Concrete polls *)

#[local] Transparent jz_button.

(** Every pin high: slider and buttons released; [low l] has the pins in [l] low. *)
Definition low (l : list Z) : pins := fun g => negb (existsb (Z.eqb g) l).

(** A normal key left pressed, and a button pressed with the slider held. *)
Example keys_pressed :
  key (poll_all [low [102]; low [125]; low [102; 96]] kbd0).2 = {[103; 29]}.
Proof. vm_compute. reflexivity. Qed.

Lemma low_slider_only : slider_only (low [125]).
Proof.
  split; [reflexivity|]. apply Forall_forall. apply (bool_decide_unpack _). vm_compute. exact I.
Qed.

(** The slider is held with a button, START and both; the special key of the
    button is released when the slider is next held. *)
Lemma power_slider_timing_witness :
  let trace := poll_trace (replicate 260 (low [125]))
    (poll_all ([low [125; 113]; low [125; 81]] ++ [low []]) kbd0).1 in
  trace = late_releases [low [125; 113]; low [125; 81]] :: (power_events <$> seqZ 1 259) /\
  trace !! 0%nat = Some [input_report_key 139 false; input_sync] /\
  trace !! 100%nat = Some [input_report_key KEY_POWER true; input_report_key KEY_POWER false; input_sync].
Proof.
  intros trace. assert (trace = late_releases [low [125; 113]; low [125; 81]] :: (power_events <$> seqZ 1 259)) as Heq.
  { apply (power_slider_timing [low [125; 113]; low [125; 81]] (low []) (low [125]) (replicate 259 (low [125])));
      [reflexivity| |reflexivity].
    apply (Forall_replicate slider_only 260), low_slider_only. }
  split; [exact Heq|]. rewrite Heq. split; reflexivity.
Defined.

Lemma button_cancels_power_witness :
  Forall (Forall no_power) (poll_trace (low [125; 96] :: replicate 300 (low [125])) kbd0.1).
Proof.
  apply (button_cancels_power (low [125; 96]) (replicate 300 (low [125])) kbd0.1 (Button 96 true 29 0 0));
    try reflexivity.
  - vm_compute. discriminate.
  - apply (bool_decide_unpack _). vm_compute. exact I.
  - apply Forall_replicate. reflexivity.
Defined.

Lemma sysrq_iff_witness : handle_sysrq 98 ∈ (jz_kbd_poll (low [125; 81; 113]) kbd0.1).2.
Proof.
  apply (sysrq_iff (low [125; 81; 113]) kbd0.1 98); [reflexivity|vm_compute; discriminate|].
  split; [reflexivity|]. left. split; [reflexivity|].
  exists 11%nat, (Button 113 true 1 139 98). repeat split; try reflexivity. discriminate.
Defined.

(** Moving the slider while a button is held leaves its normal key pressed
    after the button is released, until the slider is released. *)
Example held_key_outlives_button :
  bool_decide (103 ∈ key (poll_all [low [102]; low [102; 125]; low [125]; low [125]] kbd0).2) = true /\
  bool_decide (103 ∈ key (poll_all [low [102]; low [102; 125]; low [125]; low []] kbd0).2) = false.
Proof. vm_compute. done. Qed.
