(* ===== verification/RsEcc.v ===== *)
(** * Reed-Solomon correction of NAND blocks

    The JZ4740 flash controller decodes a 512-byte block with its 9 parity
    bytes in hardware and reports up to four bad 9-bit symbols by index and
    error mask.  The software flips those bits.  The boot loader
    (nand_boot_jz4740.c, [rs_correct]) and the kernel driver (jz4740_nand.c,
    [jzsoc_rs_correct]) have the same code for it; both are modelled here,
    with the controller as the class [RsEngine]. *)

From Stdlib Require Import Sorted.
From S2P Require Import Prelude.

#[local] Arguments Z.eqb : simpl never.
#[local] Arguments Z.ltb : simpl never.
#[local] Arguments Z.leb : simpl never.
#[local] Arguments Z.mul : simpl never.
#[local] Arguments Z.testbit : simpl never.

(** ** Flipping one symbol *)

(** [dat] is a 512-byte block; [None] is an access outside of it. *)
Definition rs_correct (dat : list Z) (idx mask : Z) : option (list Z) :=
  let idx := idx - 1 in
  let i := idx + Z.shiftr idx 3 in
  if 512 <=? i then Some dat
  else
    let mask := Z.shiftl mask (Z.land idx 7) in
    b ← rd dat i;
    dat ← wr dat i (Z.lxor b (Z.land mask 255));
    if i <? 511 then
      b ← rd dat (i + 1);
      wr dat (i + 1) (Z.lxor b (Z.land (Z.shiftr mask 8) 255))
    else Some dat.

(** ** The controller's report *)

Definition EMC_NFINTS_ERR : Z := 1.
Definition EMC_NFINTS_UNCOR : Z := 2.
Definition EMC_NFINTS_ERRCNT_BIT : Z := 29.
Definition EMC_NFINTS_ERRCNT_MASK : Z := Z.shiftl 7 EMC_NFINTS_ERRCNT_BIT.
Definition EMC_NFERR_INDEX_BIT : Z := 16.
Definition EMC_NFERR_INDEX_MASK : Z := Z.shiftl 511 EMC_NFERR_INDEX_BIT.
Definition EMC_NFERR_MASK_MASK : Z := 511.

(** The registers after decoding: NFINTS and NFERR0 to NFERR3. *)
Record rs_report := RsReport { NFINTS : Z; NFERR0 : Z; NFERR1 : Z; NFERR2 : Z; NFERR3 : Z }.

Definition err_index (r : Z) : Z := Z.shiftr (Z.land r EMC_NFERR_INDEX_MASK) EMC_NFERR_INDEX_BIT.
Definition err_mask (r : Z) : Z := Z.land r EMC_NFERR_MASK_MASK.

Definition errcnt (stat : Z) : Z :=
  Z.shiftr (Z.land stat EMC_NFINTS_ERRCNT_MASK) EMC_NFINTS_ERRCNT_BIT.

Definition correct_one (dat : list Z) (nferr : Z) : option (list Z) :=
  rs_correct dat (err_index nferr) (err_mask nferr).

(** The switch on the error count, each case falling through to the next. *)
Definition correct_errors (dat : list Z) (r : rs_report) : option (list Z) :=
  let n := errcnt (NFINTS r) in
  if n =? 4 then
    d ← correct_one dat (NFERR3 r); d ← correct_one d (NFERR2 r);
    d ← correct_one d (NFERR1 r); correct_one d (NFERR0 r)
  else if n =? 3 then
    d ← correct_one dat (NFERR2 r); d ← correct_one d (NFERR1 r); correct_one d (NFERR0 r)
  else if n =? 2 then
    d ← correct_one dat (NFERR1 r); correct_one d (NFERR0 r)
  else if n =? 1 then correct_one dat (NFERR0 r)
  else Some dat.

(** The check of a decoded block: uncorrectable blocks are left as read. *)
Definition check_block (dat : list Z) (r : rs_report) : option (list Z) :=
  if negb (Z.land (NFINTS r) EMC_NFINTS_ERR =? 0) then
    if negb (Z.land (NFINTS r) EMC_NFINTS_UNCOR =? 0) then Some dat else correct_errors dat r
  else Some dat.

Definition stat_err (r : rs_report) : bool := negb (Z.land (NFINTS r) EMC_NFINTS_ERR =? 0).
Definition stat_uncor (r : rs_report) : bool := negb (Z.land (NFINTS r) EMC_NFINTS_UNCOR =? 0).

(** ** Meaning: the block as a 4096-bit number of 9-bit symbols *)

(** A block is 512 bytes. *)
Definition block (dat : list Z) : Prop := length dat = 512%nat /\ Forall (digit 8) dat.

(** The part of error [(idx, mask)] that lies in the data. *)
Definition sym (e : Z * Z) : Z := Z.land (Z.shiftl e.2 (9 * (e.1 - 1))) (Z.ones 4096).

(** Symbol indices count from 1: 456 symbols of data and 8 of parity.  Masks
    have 9 bits. *)
Definition err_ok (e : Z * Z) : Prop := 1 <= e.1 <= 464 /\ 0 < e.2 < 512.

(** The byte and bit where symbol [s] starts. *)
Lemma symbol_pos s : 0 <= s -> 8 * (s + Z.shiftr s 3) + Z.land s 7 = 9 * s.
Proof.
  intros Hs. rewrite Z.shiftr_div_pow2 by lia. change 7 with (Z.ones 3).
  rewrite Z.land_ones by lia. change (2 ^ 3) with 8. pose proof (Z.div_mod s 8). lia.
Qed.

Lemma block_byte dat i : block dat -> 0 <= i < 512 -> exists x, rd dat i = Some x /\ digit 8 x.
Proof.
  intros [Hlen Hdig] Hi. destruct (rd_lt dat i) as [x Hx]; [lia|]. exists x. split; [done|].
  apply rd_Some in Hx as [_ Hx]. by eapply Forall_lookup_1.
Qed.

(** The bytes of the corrected block. *)
Lemma rs_correct_bytes dat idx mask :
  block dat -> err_ok (idx, mask) ->
  exists dat', rs_correct dat idx mask = Some dat' /\ block dat' /\
    forall k x, 0 <= k < 512 -> rd dat k = Some x -> exists y, rd dat' k = Some y /\
      forall j, 0 <= j < 8 ->
        Z.testbit y j = xorb (Z.testbit x j) (Z.testbit mask (8 * k + j - 9 * (idx - 1))).
Proof.
  intros Hb [Hidx Hmask]. simpl in Hidx, Hmask. unfold rs_correct.
  pose proof (symbol_pos (idx - 1) ltac:(lia)) as Hpos.
  set (i := idx - 1 + Z.shiftr (idx - 1) 3) in *. set (r := Z.land (idx - 1) 7) in *.
  assert (0 <= r < 8) as Hr.
  { unfold r. change 7 with (Z.ones 3). rewrite Z.land_ones by lia. by apply Z.mod_pos_bound. }
  assert (forall k j, 0 <= j < 8 -> k < i \/ i + 1 < k -> Z.testbit mask (8 * k + j - 9 * (idx - 1)) = false) as Hout.
  { intros k j Hj [Hk|Hk]; [apply Z.testbit_neg_r; lia|].
    apply (testbit_high 9); [unfold digit; lia|lia]. }
  assert (forall k j, i <= k -> 0 <= j < 8 -> Z.testbit (Z.shiftl mask r) (8 * (k - i) + j) =
    Z.testbit mask (8 * k + j - 9 * (idx - 1))) as Hin.
  { intros k j Hk Hj. rewrite Z.shiftl_spec by lia. f_equal. lia. }
  destruct (Z.leb_spec 512 i) as [Hbig|Hsmall].
  { exists dat. split; [done|]. split; [done|]. intros k x Hk Hx. exists x. split; [done|].
    intros j Hj. rewrite Hout by lia. by rewrite xorb_false_r. }
  destruct (block_byte dat i Hb) as (b & Hbi & Hbd); [lia|]. rewrite Hbi. simpl.
  destruct Hb as [Hlen Hdig]. rewrite wr_Some by lia. simpl.
  set (v := Z.lxor b (Z.land (Z.shiftl mask r) 255)).
  assert (digit 8 v) as Hv by (apply digit_lxor; [lia|done|apply digit_land_255]).
  assert (forall j, 0 <= j < 8 -> Z.testbit v j =
    xorb (Z.testbit b j) (Z.testbit mask (8 * i + j - 9 * (idx - 1)))) as Hvbit.
  { intros j Hj. unfold v. rewrite Z.lxor_spec. f_equal. rewrite <- Hin by lia.
    pose proof (byte_testbit (Z.shiftl mask r) 0 j) as E. rewrite Z.mul_0_r, Z.shiftr_0_r in E.
    rewrite E by lia. f_equal. lia. }
  set (dat1 := <[Z.to_nat i:=v]> dat).
  assert (block dat1) as Hb1 by (split; [unfold dat1; by rewrite length_insert|by apply Forall_insert]).
  assert (forall k x, 0 <= k < 512 -> k <> i + 1 -> rd dat k = Some x -> exists y, rd dat1 k = Some y /\
    forall j, 0 <= j < 8 ->
      Z.testbit y j = xorb (Z.testbit x j) (Z.testbit mask (8 * k + j - 9 * (idx - 1)))) as H1.
  { intros k x Hk Hk1 Hx. unfold dat1. rewrite rd_insert by lia. destruct (Z.eqb_spec k i) as [->|Hne].
    - exists v. split; [done|]. assert (x = b) as -> by congruence. done.
    - exists x. split; [done|]. intros j Hj. rewrite Hout by lia. by rewrite xorb_false_r. }
  destruct (Z.ltb_spec i 511) as [Hlt|Hge].
  2: { exists dat1. split; [done|]. split; [done|]. intros k x Hk. apply H1; lia. }
  assert (rd dat1 (i + 1) = rd dat (i + 1)) as Heq.
  { unfold dat1. rewrite rd_insert by lia. rewrite (proj2 (Z.eqb_neq _ _)) by lia. done. }
  destruct (block_byte dat1 (i + 1) Hb1) as (b' & Hbi' & Hbd'); [lia|]. rewrite Hbi'. simpl.
  destruct Hb1 as [Hlen1 Hdig1]. rewrite wr_Some by lia. eexists. split; [done|]. split.
  { split; [by rewrite length_insert|]. apply Forall_insert; [done|].
    apply digit_lxor; [lia|done|apply digit_land_255]. }
  intros k x Hk Hx. rewrite rd_insert by lia. destruct (Z.eqb_spec k (i + 1)) as [->|Hne]; [|by apply H1].
  eexists. split; [done|]. intros j Hj. assert (x = b') as -> by congruence.
  rewrite Z.lxor_spec. f_equal. rewrite <- Hin by lia.
  rewrite (byte_testbit _ 1) by lia. f_equal. lia.
Qed.

Lemma sym_testbit e n :
  err_ok e -> 0 <= n ->
  Z.testbit (sym e) n = (n <? 4096) && Z.testbit e.2 (n - 9 * (e.1 - 1)).
Proof.
  intros [He _] Hn. unfold sym. rewrite Z.land_spec, Z.shiftl_spec, Z.testbit_ones by lia.
  rewrite (proj2 (Z.leb_le 0 n)) by lia. rewrite andb_comm. done.
Qed.

Lemma block_testbit dat n :
  block dat -> 0 <= n ->
  Z.testbit (le_join 8 dat) n =
    match rd dat (n / 8) with Some x => Z.testbit x (n mod 8) | None => false end.
Proof.
  intros [_ Hdig] Hn. rewrite (Z.div_mod n 8) at 1 by lia.
  apply le_join_testbit; [lia|done|apply Z.div_pos; lia|apply Z.mod_pos_bound; lia].
Qed.

Lemma rs_correct_spec dat e :
  block dat -> err_ok e ->
  exists dat', rs_correct dat e.1 e.2 = Some dat' /\ block dat' /\
    le_join 8 dat' = Z.lxor (le_join 8 dat) (sym e).
Proof.
  intros Hb He. destruct e as [idx mask].
  destruct (rs_correct_bytes dat idx mask Hb He) as (dat' & Hrun & Hb' & Hbits).
  exists dat'. split; [done|]. split; [done|]. apply Z.bits_inj'. intros n Hn.
  rewrite Z.lxor_spec, sym_testbit by done. simpl.
  rewrite (block_testbit dat), (block_testbit dat') by done.
  pose proof (Z.div_mod n 8 ltac:(lia)) as Hdm. pose proof (Z.mod_pos_bound n 8 ltac:(lia)) as Hm.
  destruct (Z.ltb_spec n 4096) as [Hlt|Hge].
  - destruct (block_byte dat (n / 8) Hb) as (x & Hx & _).
    { split; [apply Z.div_pos; lia|]. apply Z.div_lt_upper_bound; lia. }
    destruct (Hbits (n / 8) x) as (y & -> & Hy); [|done|].
    { split; [apply Z.div_pos; lia|]. apply Z.div_lt_upper_bound; lia. }
    rewrite Hx, Hy by lia. simpl. do 2 f_equal. lia.
  - assert (512 <= n / 8) by (apply Z.div_le_lower_bound; lia).
    destruct Hb as [Hl _], Hb' as [Hl' _]. rewrite !rd_ge by lia. done.
Qed.

(** ** Correcting a whole report *)

(** The error flags and counters for a list of at most four errors. *)
Definition reports (r : rs_report) (errs : list (Z * Z)) : Prop :=
  stat_err r = negb (bool_decide (errs = [])) /\
  (errs <> [] -> stat_uncor r = false /\ errcnt (NFINTS r) = Z.of_nat (length errs)) /\
  forall k e, errs !! k = Some e -> exists n,
    [NFERR0 r; NFERR1 r; NFERR2 r; NFERR3 r] !! k = Some n /\ err_index n = e.1 /\ err_mask n = e.2.

Definition errors_mask (errs : list (Z * Z)) : Z := foldr (fun e x => Z.lxor (sym e) x) 0 errs.

Lemma correct_one_spec dat n e x :
  block dat -> err_ok e -> err_index n = e.1 -> err_mask n = e.2 -> le_join 8 dat = x ->
  exists dat', correct_one dat n = Some dat' /\ block dat' /\ le_join 8 dat' = Z.lxor x (sym e).
Proof.
  intros Hb He Hi Hm <-. unfold correct_one. rewrite Hi, Hm. by apply rs_correct_spec.
Qed.

Lemma lxor_self_l a b : Z.lxor (Z.lxor a b) b = a.
Proof. rewrite Z.lxor_assoc, Z.lxor_nilpotent. apply Z.lxor_0_r. Qed.

(** The switch undoes every reported error. *)
#[local] Opaque correct_one.

Lemma correct_errors_spec dat r errs x :
  block dat -> reports r errs -> errs <> [] -> (length errs <= 4)%nat -> Forall err_ok errs ->
  le_join 8 dat = Z.lxor x (errors_mask errs) ->
  exists dat', correct_errors dat r = Some dat' /\ block dat' /\ le_join 8 dat' = x.
Proof.
  intros Hb (_ & Hcnt & Herr) Hne Hlen Hok Hx. destruct (Hcnt Hne) as [_ Hn].
  unfold correct_errors. rewrite Hn. clear Hcnt Hn.
  assert (forall dat' n k e y z, block dat' -> errs !! k = Some e ->
    [NFERR0 r; NFERR1 r; NFERR2 r; NFERR3 r] !! k = Some n ->
    le_join 8 dat' = y -> z = Z.lxor y (sym e) ->
    exists dat'', correct_one dat' n = Some dat'' /\ block dat'' /\ le_join 8 dat'' = z) as Hstep.
  { intros dat' n k e y z Hb' Hk Hreg Hy ->. destruct (Herr k e Hk) as (n' & Hn' & Hi & Hm).
    assert (n = n') as -> by congruence. eapply Forall_lookup_1 in Hok; [|exact Hk].
    by eapply correct_one_spec. }
  assert (forall e rest y, Z.lxor (Z.lxor y (errors_mask (rest ++ [e]))) (sym e) =
    Z.lxor y (errors_mask rest)) as Hlast.
  { intros e rest y. rewrite Z.lxor_assoc. f_equal.
    unfold errors_mask. rewrite foldr_app. simpl. rewrite Z.lxor_0_r. generalize (sym e) as m. intros m.
    induction rest as [|e' rest IH]; simpl; [apply Z.lxor_nilpotent|]. by rewrite Z.lxor_assoc, IH. }
  assert (forall e, x = Z.lxor (Z.lxor x (errors_mask [e])) (sym e)) as Hfirst.
  { intros e. transitivity (Z.lxor x (errors_mask [])); symmetry; [apply Z.lxor_0_r|exact (Hlast e [] x)]. }
  destruct errs as [|e0 [|e1 [|e2 [|e3 [|]]]]]; simpl in Hlen; try done; try lia; simpl.
  - exact (Hstep dat (NFERR0 r) 0%nat e0 _ _ Hb eq_refl eq_refl Hx (Hfirst e0)).
  - destruct (Hstep dat (NFERR1 r) 1%nat e1 _ _ Hb eq_refl eq_refl Hx (eq_sym (Hlast e1 [e0] x)))
      as (d1 & -> & Hb1 & Hx1). simpl.
    exact (Hstep d1 (NFERR0 r) 0%nat e0 _ _ Hb1 eq_refl eq_refl Hx1 (Hfirst e0)).
  - destruct (Hstep dat (NFERR2 r) 2%nat e2 _ _ Hb eq_refl eq_refl Hx (eq_sym (Hlast e2 [e0; e1] x)))
      as (d2 & -> & Hb2 & Hx2). simpl.
    destruct (Hstep d2 (NFERR1 r) 1%nat e1 _ _ Hb2 eq_refl eq_refl Hx2 (eq_sym (Hlast e1 [e0] x)))
      as (d1 & -> & Hb1 & Hx1). simpl.
    exact (Hstep d1 (NFERR0 r) 0%nat e0 _ _ Hb1 eq_refl eq_refl Hx1 (Hfirst e0)).
  - destruct (Hstep dat (NFERR3 r) 3%nat e3 _ _ Hb eq_refl eq_refl Hx (eq_sym (Hlast e3 [e0; e1; e2] x)))
      as (d3 & -> & Hb3 & Hx3). simpl.
    destruct (Hstep d3 (NFERR2 r) 2%nat e2 _ _ Hb3 eq_refl eq_refl Hx3 (eq_sym (Hlast e2 [e0; e1] x)))
      as (d2 & -> & Hb2 & Hx2). simpl.
    destruct (Hstep d2 (NFERR1 r) 1%nat e1 _ _ Hb2 eq_refl eq_refl Hx2 (eq_sym (Hlast e1 [e0] x)))
      as (d1 & -> & Hb1 & Hx1). simpl.
    exact (Hstep d1 (NFERR0 r) 0%nat e0 _ _ Hb1 eq_refl eq_refl Hx1 (Hfirst e0)).
Qed.

#[local] Transparent correct_one.

(** ** The controller *)

(** At most four bad symbols, by increasing index. *)
Definition errors_ok (errs : list (Z * Z)) : Prop :=
  (length errs <= 4)%nat /\ Forall err_ok errs /\ StronglySorted (fun a b => a.1 < b.1) errs.

(** [rs_encode] gives the nine parity bytes of a block, [rs_decode] the report
    on a block and parity as read, and [hit_parity] what the errors do to the
    parity. *)
Class RsEngine := {
  rs_encode : list Z -> list Z;
  rs_decode : list Z -> list Z -> rs_report;
  hit_parity : list (Z * Z) -> list Z -> list Z }.

(** What the flash returns for block [d] when the symbols [errs] are bad. *)
Definition damaged `{RsEngine} (d : list Z) (errs : list (Z * Z)) (r q : list Z) : Prop :=
  block r /\ le_join 8 r = Z.lxor (le_join 8 d) (errors_mask errs) /\
  q = hit_parity errs (rs_encode d).

(** No bad symbols leave the parity alone; up to four bad symbols are found. *)
Class RsEngineLaws `{RsEngine} := {
  rs_parity_length d errs :
    block d -> errors_ok errs -> length (hit_parity errs (rs_encode d)) = 9%nat;
  rs_clean d : block d -> hit_parity [] (rs_encode d) = rs_encode d;
  rs_bytes d : block d -> Forall (digit 8) (rs_encode d);
  rs_finds d errs r q :
    block d -> errors_ok errs -> damaged d errs r q -> reports (rs_decode r q) errs }.

Section Engine.
Context `{RsEngineLaws}.

Lemma check_block_restores d errs r q :
  block d -> errors_ok errs -> damaged d errs r q -> check_block r (rs_decode r q) = Some d.
Proof.
  intros Hd He Hdam. pose proof (rs_finds d errs r q Hd He Hdam) as Hrep.
  destruct Hdam as (Hr & Hx & _), He as (Hlen & Hok & _). unfold check_block.
  fold (stat_err (rs_decode r q)). fold (stat_uncor (rs_decode r q)).
  assert (forall d', block d' -> le_join 8 d' = le_join 8 d -> d' = d) as Huniq.
  { intros d' [Hl' Hg'] Heq. destruct Hd as [Hl Hg]. apply (le_join_inj 8); (done || lia). }
  destruct (decide (errs = [])) as [->|Hne].
  - destruct Hrep as (-> & _). rewrite bool_decide_true by done. simpl. f_equal.
    apply Huniq; [done|]. rewrite Hx. apply Z.lxor_0_r.
  - destruct (correct_errors_spec r (rs_decode r q) errs (le_join 8 d)) as (d' & -> & Hb' & Hd');
      [done..|]. destruct Hrep as (-> & Hu & _). destruct (Hu Hne) as [-> _].
    rewrite bool_decide_false by done. simpl. f_equal. by apply Huniq.
Qed.

End Engine.

(** C11: [rs_correct] flips exactly the bits of the symbol: as a number whose
    bytes are in increasing significance, the block is XORed with the mask at
    bit [9 * (idx - 1)], cut off at the end of the block; no access leaves the
    block. *)
Theorem rs_correct_flips_symbol (dat : list Z) (idx mask : Z) :
  block dat -> err_ok (idx, mask) ->
  exists dat', rs_correct dat idx mask = Some dat' /\ block dat' /\
    le_join 8 dat' = Z.lxor (le_join 8 dat) (Z.land (Z.shiftl mask (9 * (idx - 1))) (Z.ones 4096)).
Proof. intros Hb He. exact (rs_correct_spec dat (idx, mask) Hb He). Qed.

Lemma rs_correct_flips_symbol_witness :
  exists dat', rs_correct (replicate 512 165) 456 257 = Some dat' /\ block dat' /\
    le_join 8 dat' = Z.lxor (le_join 8 (replicate 512 165)) (2 ^ 4095).
Proof.
  apply (rs_correct_flips_symbol (replicate 512 165) 456 257).
  - split; [reflexivity|]. apply Forall_replicate. unfold digit. lia.
  - unfold err_ok. simpl. lia.
Defined.

(** Index 0, which the controller does not report, would write before the block. *)
Example rs_correct_index_zero : rs_correct (replicate 512 0) 0 1 = None.
Proof. reflexivity. Qed.

(** ** An engine with the laws

    Its parity bytes spell out the errors, nine bits of index and nine of mask
    each: enough to show that the laws can hold, for every error list. *)
Module PackedEngine.

Definition pack (errs : list (Z * Z)) : Z :=
  foldr (fun e n => e.1 + 512 * e.2 + 2 ^ 18 * n) 0 errs.

Fixpoint to_bytes (n : nat) (x : Z) : list Z :=
  match n with O => [] | S n' => x mod 256 :: to_bytes n' (x / 256) end.

Fixpoint of_bytes (l : list Z) : Z :=
  match l with [] => 0 | b :: l' => b + 256 * of_bytes l' end.

Definition field (x k : Z) : Z := (x / 2 ^ (18 * k)) mod 2 ^ 18.
Definition nferr (f : Z) : Z := f mod 512 * 65536 + f / 512.
Definition used (f : Z) : Z := if f =? 0 then 0 else 1.

Definition report_of (f0 f1 f2 f3 : Z) : rs_report :=
  let n := used f0 + used f1 + used f2 + used f3 in
  RsReport ((if n =? 0 then 0 else 1) + n * 2 ^ 29) (nferr f0) (nferr f1) (nferr f2) (nferr f3).

Definition report_num (x : Z) : rs_report :=
  report_of (field x 0) (field x 1) (field x 2) (field x 3).

#[global] Instance packed : RsEngine := {|
  rs_encode _ := replicate 9 0;
  rs_decode _ q := report_num (of_bytes q);
  hit_parity errs _ := to_bytes 9 (pack errs) |}.

Lemma of_to_bytes n x : 0 <= x < 2 ^ (8 * Z.of_nat n) -> of_bytes (to_bytes n x) = x.
Proof.
  revert x. induction n as [|n IH]; intros x Hx; simpl; [rewrite Z.mul_0_r in Hx; lia|].
  rewrite IH; [pose proof (Z.div_mod x 256); lia|].
  replace (8 * Z.of_nat (S n)) with (8 + 8 * Z.of_nat n) in Hx by lia.
  rewrite Z.pow_add_r in Hx by lia. change (2 ^ 8) with 256 in Hx.
  split; [apply Z.div_pos; lia|]. apply Z.div_lt_upper_bound; lia.
Qed.

Lemma err_index_nferr i m : 0 <= i < 512 -> 0 <= m < 512 -> err_index (i * 65536 + m) = i.
Proof.
  intros Hi Hm. unfold err_index, EMC_NFERR_INDEX_MASK, EMC_NFERR_INDEX_BIT.
  rewrite Z.shiftr_land, Z.shiftr_shiftl_l by lia. simpl Z.sub. rewrite Z.shiftl_0_r.
  rewrite Z.shiftr_div_pow2 by lia. change 511 with (Z.ones 9). rewrite Z.land_ones by lia.
  change (2 ^ 16) with 65536. change (2 ^ 9) with 512. Z.to_euclidean_division_equations. lia.
Qed.

Lemma err_mask_nferr i m : 0 <= i < 512 -> 0 <= m < 512 -> err_mask (i * 65536 + m) = m.
Proof.
  intros Hi Hm. unfold err_mask, EMC_NFERR_MASK_MASK. change 511 with (Z.ones 9).
  rewrite Z.land_ones by lia. change (2 ^ 9) with 512. Z.to_euclidean_division_equations. lia.
Qed.

(** The [k]-th field of a packed list. *)
Lemma field_pack errs :
  errors_ok errs -> 0 <= pack errs < 2 ^ 72 /\
  forall k, (k < 4)%nat -> field (pack errs) (Z.of_nat k) =
    match errs !! k with Some e => e.1 + 512 * e.2 | None => 0 end.
Proof.
  intros (Hlen & Hok & _).
  assert (forall e rest k, err_ok e -> field (pack (e :: rest)) (Z.of_nat (S k)) = field (pack rest) (Z.of_nat k)) as Hs.
  { intros e rest k [He1 He2]. unfold field.
    replace (18 * Z.of_nat (S k)) with (18 + 18 * Z.of_nat k) by lia.
    rewrite Z.pow_add_r, <- Z.div_div by lia. f_equal. f_equal.
    change (pack (e :: rest)) with (e.1 + 512 * e.2 + 2 ^ 18 * pack rest).
    rewrite (Z.mul_comm (2 ^ 18)), Z.div_add by lia. rewrite Z.div_small by lia. done. }
  assert (forall e rest, err_ok e -> field (pack (e :: rest)) 0 = e.1 + 512 * e.2) as H0.
  { intros e rest [He1 He2]. unfold field. rewrite Z.mul_0_r, Z.div_1_r.
    change (pack (e :: rest)) with (e.1 + 512 * e.2 + 2 ^ 18 * pack rest).
    rewrite (Z.mul_comm (2 ^ 18)), Z.mod_add by lia. apply Z.mod_small. lia. }
  split.
  - clear Hs H0. assert (0 <= pack errs < 2 ^ (18 * Z.of_nat (length errs))) as Hb.
    { clear Hlen. induction Hok as [|e rest [He1 He2] Hrest IH]; [done|].
      change (pack (e :: rest)) with (e.1 + 512 * e.2 + 2 ^ 18 * pack rest). cbn [length].
      replace (18 * Z.of_nat (S (length rest))) with (18 + 18 * Z.of_nat (length rest)) by lia.
      rewrite Z.pow_add_r by lia. change (2 ^ 18) with 262144. nia. }
    split; [lia|]. eapply Z.lt_le_trans; [apply Hb|]. apply Z.pow_le_mono_r; lia.
  - clear Hlen. induction Hok as [|e rest He Hrest IH]; intros k Hk.
    + unfold field. simpl pack. by rewrite Zdiv_0_l.
    + destruct k as [|k]; [by apply H0|]. rewrite Hs by done. apply IH. lia.
Qed.

Lemma nferr_field e : err_ok e ->
  err_index (nferr (e.1 + 512 * e.2)) = e.1 /\ err_mask (nferr (e.1 + 512 * e.2)) = e.2.
Proof.
  intros [H1 H2]. unfold nferr.
  replace ((e.1 + 512 * e.2) mod 512) with (e.1) by (Z.to_euclidean_division_equations; lia).
  replace ((e.1 + 512 * e.2) / 512) with (e.2) by (Z.to_euclidean_division_equations; lia).
  split; [apply err_index_nferr|apply err_mask_nferr]; lia.
Qed.

#[global] Instance packed_laws : RsEngineLaws.
Proof.
  split; [done|done|by repeat constructor|]. intros d errs r q _ Hok (_ & _ & ->).
  destruct (field_pack errs Hok) as [Hb Hf]. destruct Hok as (Hlen & Hok & _).
  change (rs_decode r _) with (report_num (of_bytes (to_bytes 9 (pack errs)))).
  rewrite of_to_bytes by done. unfold report_num.
  pose proof (Hf 0%nat ltac:(lia)) as F0. pose proof (Hf 1%nat ltac:(lia)) as F1.
  pose proof (Hf 2%nat ltac:(lia)) as F2. pose proof (Hf 3%nat ltac:(lia)) as F3.
  change (Z.of_nat 0) with 0 in F0. change (Z.of_nat 1) with 1 in F1.
  change (Z.of_nat 2) with 2 in F2. change (Z.of_nat 3) with 3 in F3.
  rewrite F0, F1, F2, F3.
  assert (forall e, e ∈ errs -> used (e.1 + 512 * e.2) = 1) as Hu.
  { intros e He. rewrite Forall_forall in Hok. destruct (Hok e He). unfold used.
    rewrite (proj2 (Z.eqb_neq _ _)); lia. }
  split; [|split].
  - destruct errs as [|e0 [|e1 [|e2 [|e3 [|]]]]]; simpl in Hlen; try lia;
      unfold report_of, stat_err; cbn [lookup list_lookup NFINTS]; rewrite ?Hu by set_solver; reflexivity.
  - intros Hne. destruct errs as [|e0 [|e1 [|e2 [|e3 [|]]]]]; simpl in Hlen; try lia; try done;
      unfold report_of, stat_uncor; cbn [lookup list_lookup NFINTS]; rewrite ?Hu by set_solver; done.
  - intros k e Hk. assert (err_ok e) as He by (by eapply Forall_lookup_1).
    destruct (nferr_field e He) as [Hi Hm]. apply lookup_lt_Some in Hk as Hlt.
    destruct k as [|[|[|[|k]]]]; [..|lia]; rewrite Hk in *; eexists; (split; [done|]); done.
Qed.

End PackedEngine.
