(* ===== verification/NandSpl.v ===== *)
(** * Second-stage boot loader (u-boot nand_spl/board/a320/nand_boot_jz4740.c)

    The loader reads an image page by page from NAND flash, skipping bad
    blocks and correcting read errors, and jumps to it.  Which image depends on
    a key that is polled for a second: the original firmware's system loader by
    default, U-Boot when the key is pressed.

    The flash chip is the class [NandBus]: commands and addresses go out one
    byte at a time and data comes back one byte at a time. *)

From S2P Require Import Prelude RsEcc.

#[local] Arguments Z.eqb : simpl never.
#[local] Arguments Z.ltb : simpl never.
#[local] Arguments Z.leb : simpl never.
#[local] Arguments Z.mul : simpl never.
#[local] Arguments Z.add : simpl never.
#[local] Arguments Z.of_nat : simpl never.

(** ** Configuration (include/configs/a320.h) *)

Definition CFG_NAND_PAGE_SIZE : Z := 2048.
Definition CFG_NAND_BLOCK_SIZE : Z := Z.shiftl 256 10.
Definition CFG_NAND_BADBLOCK_PAGE : Z := 127.
Definition CFG_NAND_ECC_POS : Z := 6.
Definition CFG_NAND_BAD_BLOCK_POS : Z := 0.
Definition CFG_NAND_PAGE_PER_BLOCK : Z := CFG_NAND_BLOCK_SIZE / CFG_NAND_PAGE_SIZE.
Definition CFG_NAND_OOB_SIZE : Z := CFG_NAND_PAGE_SIZE / 32.
Definition ECC_BLOCK : Z := 512.
Definition PAR_SIZE : Z := 9.
Definition CFG_NAND_ECC_COUNT : Z := CFG_NAND_PAGE_SIZE / ECC_BLOCK.

Definition NAND_CMD_READ0 : Z := 0.
Definition NAND_CMD_READSTART : Z := 48.

(** ** The flash chip *)

(** [page_bytes] is what the chip returns for a page, data then spare area;
    [streams b p c] says that the next data byte is the one at column [c]. *)
Class NandBus (bus : Type) := {
  nand_cmd : Z -> bus -> bus;
  nand_addr : Z -> bus -> bus;
  nand_data8 : bus -> Z * bus;
  page_bytes : bus -> Z -> list Z;
  streams : bus -> Z -> Z -> Prop }.

(** Two column cycles and three row cycles between READ0 and READSTART select a
    page and column; data then come in order.  Reading changes no page. *)
Class NandBusLaws (bus : Type) `{NandBus bus} := {
  cmd_frame c b p : page_bytes (nand_cmd c b) p = page_bytes b p;
  addr_frame a b p : page_bytes (nand_addr a b) p = page_bytes b p;
  data_frame b p : page_bytes (nand_data8 b).2 p = page_bytes b p;
  read_start b c0 c1 r0 r1 r2 :
    digit 8 c0 -> digit 8 c1 -> digit 8 r0 -> digit 8 r1 -> digit 8 r2 ->
    streams (nand_cmd NAND_CMD_READSTART
      (nand_addr r2 (nand_addr r1 (nand_addr r0 (nand_addr c1 (nand_addr c0
        (nand_cmd NAND_CMD_READ0 b))))))) (r0 + 256 * r1 + 65536 * r2) (c0 + 256 * c1);
  data_next b p c x : streams b p c -> page_bytes b p !! Z.to_nat c = Some x ->
    (nand_data8 b).1 = x /\ streams (nand_data8 b).2 p (c + 1) }.

Section Loader.
Context {bus : Type} `{NandBus bus} `{RsEngine}.

Fixpoint nand_read_buf (b : bus) (count : nat) : list Z * bus :=
  match count with
  | O => ([], b)
  | S n =>
      let '(x, b1) := nand_data8 b in
      let '(xs, b2) := nand_read_buf b1 n in
      (x :: xs, b2)
  end.

(** Column and page address bytes, for a 2048-byte page with three row cycles. *)
Definition send_address (b : bus) (col_addr page_addr : Z) : bus :=
  nand_addr (Z.land (Z.shiftr page_addr 16) 255)
    (nand_addr (Z.land (Z.shiftr page_addr 8) 255)
      (nand_addr (Z.land page_addr 255)
        (nand_addr (Z.land (Z.shiftr col_addr 8) 255)
          (nand_addr (Z.land col_addr 255) b)))).

Definition nand_read_oob (b : bus) (page_addr size : Z) : list Z * bus :=
  let b := nand_cmd NAND_CMD_READ0 b in
  let b := send_address b CFG_NAND_PAGE_SIZE page_addr in
  let b := nand_cmd NAND_CMD_READSTART b in
  nand_read_buf b (Z.to_nat size).

(** The parity bytes that are written to EMC_NFPAR0 for block [i]. *)
Fixpoint par_bytes (oob : list Z) (pos : Z) (n : nat) : option (list Z) :=
  match n with
  | O => Some []
  | S n' => x ← rd oob pos; xs ← par_bytes oob (pos + 1) n'; Some (x :: xs)
  end.

Definition par_pos (weird : bool) (i : Z) : Z :=
  if weird then 4 + i * 12 else CFG_NAND_ECC_POS + i * PAR_SIZE.

(** The loop over the ECC blocks of a page, from block [i] on. *)
Fixpoint read_blocks (n : nat) (weird : bool) (oob : list Z) (i : Z) (b : bus)
  : option (list Z * bus) :=
  match n with
  | O => Some ([], b)
  | S n' =>
      let '(dat, b1) := nand_read_buf b (Z.to_nat ECC_BLOCK) in
      par ← par_bytes oob (par_pos weird i) (Z.to_nat PAR_SIZE);
      fixed ← check_block dat (rs_decode dat par);
      '(rest, b2) ← read_blocks n' weird oob (i + 1) b1;
      Some (fixed ++ rest, b2)
  end.

(** The page as stored at [dst], and the bus. *)
Definition nand_read_page (weird : bool) (b : bus) (page_addr : Z) : option (list Z * bus) :=
  let '(oob, b) := nand_read_oob b page_addr CFG_NAND_OOB_SIZE in
  let b := nand_cmd NAND_CMD_READ0 b in
  let b := send_address b 0 page_addr in
  let b := nand_cmd NAND_CMD_READSTART b in
  read_blocks (Z.to_nat CFG_NAND_ECC_COUNT) weird oob 0 b.

(** Image parameters, the globals [image_*]. *)
Record image := Image {
  image_weird_ecc : bool;
  image_offs : Z;
  image_size : Z;
  image_dst : Z;
  image_start : Z }.

(** The copy loop: the bytes stored from [image_dst] on.  [todo] is
    [image_size / CFG_NAND_PAGE_SIZE - pagecopy_count]. *)
Fixpoint load_loop (fuel : nat) (weird : bool) (b : bus) (page : Z) (todo : Z)
  : option (list Z * bus) :=
  match fuel with
  | O => None
  | S fuel' =>
      if 0 <? todo then
        let '(skip, b) :=
          if page mod CFG_NAND_PAGE_PER_BLOCK =? 0 then
            let '(oob, b) := nand_read_oob b (page + CFG_NAND_BADBLOCK_PAGE) CFG_NAND_OOB_SIZE in
            (negb (default 0 (rd oob CFG_NAND_BAD_BLOCK_POS) =? 255), b)
          else (false, b) in
        if skip then load_loop fuel' weird b (page + CFG_NAND_PAGE_PER_BLOCK) todo
        else
          '(dat, b) ← nand_read_page weird b page;
          '(rest, b) ← load_loop fuel' weird b (page + 1) (todo - 1);
          Some (dat ++ rest, b)
      else Some ([], b)
  end.

Definition nand_load (fuel : nat) (im : image) (b : bus) : option (list Z * bus) :=
  load_loop fuel (image_weird_ecc im) b (image_offs im / CFG_NAND_PAGE_SIZE)
    (image_size im / CFG_NAND_PAGE_SIZE).

(** ** Image selection and boot *)

Definition system_loader : image := Image true 262144 786432 2162163712 2162229256.
Definition u_boot : image := Image false (Z.shiftl 16 10) (Z.shiftl 240 10) 2148532224 2148532224.

(** The wait loop: [key i] is the level of GPIO_BOOT_SELECT at turn [i]. *)
Fixpoint select_image (n : nat) (i : Z) (key : Z -> bool) : image :=
  match n with
  | O => system_loader
  | S n' => if negb (key i) then u_boot else select_image n' (i + 1) key
  end.

(** What the loader does, in order. *)
Inductive boot_step :=
  | gpio_init | serial_init | pll_init | sdram_init | slcd_init | nand_init
  | load (im : image) (bytes : list Z) | flush_cache_all | slcd_off | start (addr : Z).

Definition nand_boot (fuel : nat) (key : Z -> bool) (b : bus) : option (list boot_step) :=
  let im := select_image 100 0 key in
  '(bytes, _) ← nand_load fuel im b;
  Some ([gpio_init; serial_init; pll_init; sdram_init; slcd_init; nand_init;
         load im bytes; flush_cache_all] ++
        (if image_weird_ecc im then [slcd_off] else []) ++ [start (image_start im)]).

(** ** Reading a page *)

Section Laws.
Context `{!NandBusLaws bus} `{!RsEngineLaws}.

(** Same pages on the chip. *)
Definition same_pages (b b' : bus) : Prop := forall p, page_bytes b' p = page_bytes b p.

Lemma nand_read_buf_spec n b p c :
  streams b p c -> 0 <= c -> (Z.to_nat c + n <= length (page_bytes b p))%nat ->
  exists b', nand_read_buf b n = (take n (drop (Z.to_nat c) (page_bytes b p)), b') /\
    streams b' p (c + Z.of_nat n) /\ same_pages b b'.
Proof.
  revert b c. induction n as [|n IH]; intros b c Hs Hc Hlen; simpl.
  { exists b. rewrite Z.add_0_r. done. }
  destruct (lookup_lt_is_Some_2 (page_bytes b p) (Z.to_nat c)) as [x Hx]; [lia|].
  destruct (data_next b p c x Hs Hx) as [Hd Hs1].
  pose proof (data_frame b) as Hf. destruct (nand_data8 b) as [y b1]. simpl in *. subst y.
  destruct (IH b1 (c + 1)) as (b2 & Hrun & Hs2 & Hf2); [done|lia|rewrite Hf; lia|].
  rewrite Hrun. exists b2. rewrite Hf. replace (Z.to_nat (c + 1)) with (S (Z.to_nat c)) by lia.
  split; [|split].
  - f_equal. by rewrite (drop_S _ x (Z.to_nat c)).
  - by replace (c + Z.of_nat (S n)) with (c + 1 + Z.of_nat n) by lia.
  - intros q. by rewrite Hf2.
Qed.

Lemma byte_split x : 0 <= x < 2 ^ 24 ->
  Z.land x 255 + 256 * Z.land (Z.shiftr x 8) 255 + 65536 * Z.land (Z.shiftr x 16) 255 = x.
Proof.
  intros Hx. change 255 with (Z.ones 8). rewrite !Z.land_ones, !Z.shiftr_div_pow2 by lia.
  change (2 ^ 8) with 256. change (2 ^ 16) with 65536. Z.to_euclidean_division_equations. lia.
Qed.

Lemma send_address_streams b col page :
  0 <= page < 2 ^ 24 -> 0 <= col < 2 ^ 16 ->
  streams (nand_cmd NAND_CMD_READSTART (send_address (nand_cmd NAND_CMD_READ0 b) col page)) page col.
Proof.
  intros Hp Hc. unfold send_address.
  pose proof (read_start b (Z.land col 255) (Z.land (Z.shiftr col 8) 255) (Z.land page 255)
    (Z.land (Z.shiftr page 8) 255) (Z.land (Z.shiftr page 16) 255)
    (digit_land_255 _) (digit_land_255 _) (digit_land_255 _) (digit_land_255 _) (digit_land_255 _)) as Hs.
  rewrite byte_split in Hs by done.
  replace (Z.land col 255 + 256 * Z.land (Z.shiftr col 8) 255) with col in Hs; [done|].
  rewrite <- (byte_split col) at 1 by lia.
  assert (Z.shiftr col 16 = 0) as -> by (rewrite Z.shiftr_div_pow2 by lia; apply Z.div_small; lia).
  rewrite Z.land_0_l. lia.
Qed.

Lemma send_address_frame b col page p : page_bytes (send_address b col page) p = page_bytes b p.
Proof. unfold send_address. by rewrite !addr_frame. Qed.

(** Every page has 2048 data bytes and 64 spare bytes. *)
Definition chip_ok (b : bus) : Prop := forall p, length (page_bytes b p) = 2112%nat.

Lemma nand_read_oob_spec b p :
  chip_ok b -> 0 <= p < 2 ^ 24 ->
  exists b', nand_read_oob b p CFG_NAND_OOB_SIZE = (drop 2048 (page_bytes b p), b') /\ same_pages b b'.
Proof.
  intros Hok Hp. unfold nand_read_oob.
  set (b1 := nand_cmd NAND_CMD_READSTART (send_address (nand_cmd NAND_CMD_READ0 b) CFG_NAND_PAGE_SIZE p)).
  assert (same_pages b b1) as Hf.
  { intros q. unfold b1. by rewrite cmd_frame, send_address_frame, cmd_frame. }
  destruct (nand_read_buf_spec (Z.to_nat CFG_NAND_OOB_SIZE) b1 p CFG_NAND_PAGE_SIZE) as (b2 & -> & _ & Hf2).
  - by apply send_address_streams.
  - done.
  - rewrite Hf, Hok. done.
  - exists b2. split; [|intros q; by rewrite Hf2].
    f_equal. rewrite Hf. apply take_ge. rewrite length_drop, Hok. done.
Qed.

Definition chunk (i : nat) (l : list Z) : list Z := take 512 (drop (512 * i) l).

(** Page [p] holds the data [d]: each of its four blocks reads as damaged in at
    most four symbols, with the parity where this image keeps it. *)
Definition holds_page (weird : bool) (raw d : list Z) : Prop :=
  length d = 2048%nat /\ Forall (digit 8) d /\
  forall i, (i < 4)%nat -> exists errs, errors_ok errs /\
    damaged (chunk i d) errs (chunk i raw)
      (take 9 (drop (Z.to_nat (par_pos weird (Z.of_nat i))) (drop 2048 raw))).

Lemma par_bytes_spec oob pos n :
  0 <= pos -> (Z.to_nat pos + n <= length oob)%nat ->
  par_bytes oob pos n = Some (take n (drop (Z.to_nat pos) oob)).
Proof.
  revert pos. induction n as [|n IH]; intros pos Hp Hlen; simpl; [done|].
  destruct (lookup_lt_is_Some_2 oob (Z.to_nat pos)) as [x Hx]; [lia|].
  rewrite (proj2 (rd_Some oob pos x)) by done. simpl. rewrite IH by lia. simpl.
  replace (Z.to_nat (pos + 1)) with (S (Z.to_nat pos)) by lia.
  by rewrite (drop_S _ x (Z.to_nat pos)).
Qed.

Lemma chunk_block i d : length d = 2048%nat -> Forall (digit 8) d -> (i < 4)%nat -> block (chunk i d).
Proof.
  intros Hlen Hd Hi. split.
  - unfold chunk. rewrite length_take, length_drop. lia.
  - by apply Forall_take, Forall_drop.
Qed.

Lemma read_blocks_spec n weird b p d raw :
  (n <= 4)%nat -> page_bytes b p = raw -> length raw = 2112%nat -> holds_page weird raw d ->
  streams b p (Z.of_nat (512 * (4 - n))) ->
  exists b', read_blocks n weird (drop 2048 raw) (Z.of_nat (4 - n)) b =
      Some (drop (512 * (4 - n)) d, b') /\ same_pages b b'.
Proof.
  intros Hn Hraw Hlen (Hld & Hd & Hblk). revert b Hraw.
  induction n as [|n IH]; intros b Hraw Hs; cbn [read_blocks].
  { exists b. rewrite drop_ge by lia. done. }
  destruct (nand_read_buf_spec (Z.to_nat ECC_BLOCK) b p (Z.of_nat (512 * (4 - S n))))
    as (b1 & -> & Hs1 & Hf1); [done|lia|rewrite Hraw, Hlen; change (Z.to_nat ECC_BLOCK) with 512%nat; lia|].
  rewrite Hraw. change (Z.to_nat ECC_BLOCK) with 512%nat in *. rewrite Nat2Z.id.
  set (i := (4 - S n)%nat) in *. fold (chunk i raw).
  destruct (Hblk i ltac:(lia)) as (errs & He & Hdam).
  rewrite par_bytes_spec.
  2, 3: unfold par_pos, CFG_NAND_ECC_POS, PAR_SIZE; rewrite ?length_drop; case_match; lia.
  cbn [mbind option_bind]. change (Z.to_nat PAR_SIZE) with 9%nat.
  rewrite (check_block_restores (chunk i d) errs) by (done || apply chunk_block; (done || lia)).
  cbn [mbind option_bind].
  replace (Z.of_nat i + 1) with (Z.of_nat (4 - n)) by lia.
  destruct (IH ltac:(lia) b1) as (b2 & -> & Hf2).
  { by rewrite Hf1. }
  { by replace (Z.of_nat (512 * (4 - n))) with (Z.of_nat (512 * i) + Z.of_nat 512) by lia. }
  cbn [mbind option_bind]. exists b2. split; [|intros q; by rewrite Hf2].
  do 2 f_equal. unfold chunk. replace (512 * (4 - n))%nat with (512 * i + 512)%nat by lia.
  rewrite <- drop_drop. apply take_drop.
Qed.

Lemma nand_read_page_spec weird b p d :
  chip_ok b -> 0 <= p < 2 ^ 24 -> holds_page weird (page_bytes b p) d ->
  exists b', nand_read_page weird b p = Some (d, b') /\ same_pages b b'.
Proof.
  intros Hok Hp Hd. unfold nand_read_page.
  destruct (nand_read_oob_spec b p Hok Hp) as (b1 & -> & Hf1).
  set (b2 := nand_cmd NAND_CMD_READSTART (send_address (nand_cmd NAND_CMD_READ0 b1) 0 p)).
  assert (same_pages b b2) as Hf.
  { intros q. unfold b2. by rewrite cmd_frame, send_address_frame, cmd_frame, Hf1. }
  destruct (read_blocks_spec 4 weird b2 p d (page_bytes b p)) as (b3 & Hrun & Hf3);
    [lia|by rewrite Hf|by rewrite Hok|done|by apply send_address_streams|].
  change (Z.to_nat CFG_NAND_ECC_COUNT) with 4%nat. exists b3. split; [exact Hrun|].
  intros q. by rewrite Hf3.
Qed.

(** ** Loading an image *)

(** Block [k] is marked bad: the mark in its last page is not 0xff. *)
Definition bad_block (b : bus) (k : Z) : bool :=
  negb (default 0 (page_bytes b (128 * k + 127) !! 2048%nat) =? 255).

(** The loader looks at a block's mark only when it enters the block at its
    first page: an image that starts inside a block takes that block as good. *)
Definition good_page (b : bus) (page0 p : Z) : bool :=
  negb (bad_block b (p / 128)) || (128 * (p / 128) <? page0).

(** The first [n] good pages among the [L] pages from [page] on. *)
Definition image_pages (b : bus) (page0 page : Z) (L : Z) (n : nat) : list Z :=
  take n (filter (fun p => good_page b page0 p = true) (seqZ page L)).

Lemma filter_none {A} (P : A -> Prop) `{!forall x, Decision (P x)} l :
  Forall (fun x => ~ P x) l -> filter P l = [].
Proof. induction 1 as [|x l Hx Hl IH]; [done|]. by rewrite filter_cons_False. Qed.

Lemma block_start page : page mod 128 = 0 -> 128 * (page / 128) = page.
Proof. intros Hm. pose proof (Z.div_mod page 128). lia. Qed.

Lemma image_pages_skip b page0 page L n :
  page mod 128 = 0 -> bad_block b (page / 128) = true -> page0 <= page -> 128 <= L ->
  image_pages b page0 page L n = image_pages b page0 (page + 128) (L - 128) n.
Proof.
  intros Hm Hbad Hp HL. unfold image_pages. f_equal.
  replace L with (128 + (L - 128)) at 1 by lia. rewrite seqZ_app by lia.
  rewrite filter_app, filter_none; [done|].
  apply Forall_forall. intros p Hin%elem_of_seqZ Hg. pose proof (block_start page Hm).
  assert (p / 128 = page / 128) as Hq.
  { symmetry. apply (Z.div_unique p 128 (page / 128) (p - page)); lia. }
  unfold good_page in Hg. rewrite Hq, Hbad in Hg. simpl in Hg. bool_lia.
Qed.

Lemma image_pages_take b page0 page L n :
  good_page b page0 page = true -> 0 < L ->
  image_pages b page0 page L (S n) = page :: image_pages b page0 (page + 1) (L - 1) n.
Proof.
  intros Hg HL. unfold image_pages. rewrite seqZ_cons by lia.
  rewrite filter_cons_True by done. simpl. rewrite <- Z.sub_1_r, <- Z.add_1_r. done.
Qed.

(** Bad blocks from [page] on. *)
Definition bad_left (bl : list Z) (page : Z) : nat := length (filter (fun k => page <= 128 * k) bl).

Lemma bad_left_le bl page page' : page <= page' -> (bad_left bl page' <= bad_left bl page)%nat.
Proof.
  intros Hp. unfold bad_left. induction bl as [|k bl IH]; [done|].
  rewrite !filter_cons. repeat case_decide; simpl; lia.
Qed.

Lemma bad_left_lt bl page :
  page mod 128 = 0 -> page / 128 ∈ bl -> (bad_left bl (page + 128) < bad_left bl page)%nat.
Proof.
  intros Hm%block_start Hin. unfold bad_left.
  induction bl as [|k bl IH]; [by apply elem_of_nil in Hin|].
  rewrite !filter_cons. pose proof (bad_left_le bl page (page + 128) ltac:(lia)) as Hle.
  unfold bad_left in Hle. apply elem_of_cons in Hin as [<-|Hin].
  - rewrite decide_False, decide_True by lia. simpl. lia.
  - specialize (IH Hin). repeat case_decide; simpl; lia.
Qed.

Lemma same_pages_bad b b' k : same_pages b b' -> bad_block b' k = bad_block b k.
Proof. intros Hf. unfold bad_block. by rewrite Hf. Qed.

Lemma same_pages_image b b' page0 page L n :
  same_pages b b' -> image_pages b' page0 page L n = image_pages b page0 page L n.
Proof.
  intros Hf. unfold image_pages. f_equal. apply list_filter_iff. intros p.
  unfold good_page. by rewrite (same_pages_bad b b').
Qed.

Lemma mark_check b page :
  chip_ok b -> 0 <= page -> page + 127 < 2 ^ 24 -> page mod 128 = 0 ->
  exists b', nand_read_oob b (page + CFG_NAND_BADBLOCK_PAGE) CFG_NAND_OOB_SIZE =
      (drop 2048 (page_bytes b (page + 127)), b') /\ same_pages b b' /\
    negb (default 0 (rd (drop 2048 (page_bytes b (page + 127))) CFG_NAND_BAD_BLOCK_POS) =? 255) =
      bad_block b (page / 128).
Proof.
  intros Hok Hp Hlt Hm. unfold CFG_NAND_BADBLOCK_PAGE.
  destruct (nand_read_oob_spec b (page + 127) Hok) as (b' & -> & Hf); [lia|].
  exists b'. split; [done|]. split; [done|]. unfold bad_block. rewrite block_start by done.
  unfold rd, CFG_NAND_BAD_BLOCK_POS. simpl. by rewrite lookup_drop, Nat.add_0_r.
Qed.

Lemma load_loop_spec weird img bl page0 fuel b page n L :
  chip_ok b -> 0 <= page0 <= page -> page + L + 128 <= 2 ^ 24 ->
  (forall k, page0 <= 128 * k -> 128 * k < page + L -> bad_block b k = true -> k ∈ bl) ->
  (forall p, page0 <= p < page + L -> good_page b page0 p = true ->
     holds_page weird (page_bytes b p) (img p)) ->
  (page mod 128 <> 0 -> good_page b page0 page = true) ->
  Z.of_nat n + 128 * Z.of_nat (bad_left bl page) <= L ->
  (n + bad_left bl page < fuel)%nat ->
  exists b', load_loop fuel weird b page (Z.of_nat n) =
    Some (concat (img <$> image_pages b page0 page L n), b') /\ same_pages b b'.
Proof.
  revert b page n L. induction fuel as [|fuel IH];
    intros b page n L Hok Hp Hmax Hbl Himg Hinv HL Hfuel; [lia|].
  cbn [load_loop]. destruct n as [|n].
  { rewrite (proj2 (Z.ltb_ge _ _)) by lia. exists b. done. }
  rewrite (proj2 (Z.ltb_lt _ _)) by lia. change CFG_NAND_PAGE_PER_BLOCK with 128.
  assert (exists b1, same_pages b b1 /\
    (if page mod 128 =? 0 then
       let '(oob, b0) := nand_read_oob b (page + CFG_NAND_BADBLOCK_PAGE) CFG_NAND_OOB_SIZE in
       (negb (default 0 (rd oob CFG_NAND_BAD_BLOCK_POS) =? 255), b0)
     else (false, b)) = ((page mod 128 =? 0) && bad_block b (page / 128), b1)) as (b1 & Hf1 & ->).
  { destruct (Z.eqb_spec (page mod 128) 0) as [Hm|]; [|by exists b].
    destruct (mark_check b page Hok) as (b1 & -> & Hf1 & ->); [lia|lia|done|]. by exists b1. }
  destruct ((page mod 128 =? 0) && bad_block b (page / 128)) eqn:Hskip.
  - bool_lia. pose proof (block_start page ltac:(done)) as Hst.
    assert (page / 128 ∈ bl) as Hin by (apply Hbl; [lia|lia|done]).
    pose proof (bad_left_lt bl page ltac:(done) Hin) as Hlt.
    rewrite image_pages_skip, <- (same_pages_image b b1) by (done || lia).
    destruct (IH b1 (page + 128) (S n) (L - 128)) as (b2 & Hrun & Hf2);
      [intros p; by rewrite Hf1|lia|lia| | |intros Hm2; exfalso; apply Hm2|lia|lia|].
    + intros k. rewrite (same_pages_bad b b1) by done. intros. apply Hbl; (done || lia).
    + intros p Hpp. rewrite Hf1. unfold good_page. rewrite (same_pages_bad b b1) by done. intros Hg.
      apply Himg; [lia|exact Hg].
    + rewrite <- (Z.mul_1_l 128) at 1. by rewrite Z.mod_add.
    + exists b2. split; [exact Hrun|]. intros p. by rewrite Hf2.
  - assert (good_page b page0 page = true) as Hg.
    { apply andb_false_iff in Hskip as [Hm|Hb]; [apply Hinv; bool_lia|]. unfold good_page. by rewrite Hb. }
    assert (chip_ok b1) as Hok1 by (intros p; by rewrite Hf1).
    destruct (nand_read_page_spec weird b1 page (img page) Hok1) as (b2 & -> & Hf2); [lia| |].
    { rewrite Hf1. apply Himg; [lia|done]. }
    cbn [mbind option_bind]. assert (same_pages b b2) as Hf by (intros p; by rewrite Hf2).
    pose proof (bad_left_le bl page (page + 1) ltac:(lia)).
    replace (Z.of_nat (S n) - 1) with (Z.of_nat n) by lia.
    destruct (IH b2 (page + 1) n (L - 1)) as (b3 & -> & Hf3);
      [intros p; by rewrite Hf|lia|lia| | | |lia|lia|].
    + intros k. rewrite (same_pages_bad b b2) by done. intros. apply Hbl; (done || lia).
    + intros p Hpp. rewrite Hf. unfold good_page. rewrite (same_pages_bad b b2) by done. intros Hg'.
      apply Himg; [lia|exact Hg'].
    + intros Hm. assert ((page + 1) / 128 = page / 128) as Hq.
      { symmetry. apply (Z.div_unique (page + 1) 128 (page / 128) (page mod 128 + 1));
          Z.to_euclidean_division_equations; lia. }
      unfold good_page in *. rewrite (same_pages_bad b b2), Hq by done. done.
    + cbn [mbind option_bind]. exists b3. split; [|intros p; by rewrite Hf3].
      rewrite image_pages_take, (same_pages_image b b2) by (done || lia). done.
Qed.

(** What the chip must hold for an image of [n] pages at [page0]: among the [L]
    pages from there on, the bad blocks are listed in [bl], there is room for
    the image besides them, and each good page [p] holds [img p]. *)
Record stores_image (b : bus) (weird : bool) (page0 : Z) (n : nat) (L : Z) (bl : list Z)
    (img : Z -> list Z) : Prop := {
  si_chip : chip_ok b;
  si_range : 0 <= page0 /\ page0 + L + 128 <= 2 ^ 24;
  si_bad : forall k, page0 <= 128 * k -> 128 * k < page0 + L -> bad_block b k = true -> k ∈ bl;
  si_room : Z.of_nat n + 128 * Z.of_nat (length bl) <= L;
  si_pages : forall p, page0 <= p < page0 + L -> good_page b page0 p = true ->
    holds_page weird (page_bytes b p) (img p) }.

Lemma nand_load_spec im b L bl img fuel :
  let page0 := image_offs im / 2048 in
  let n := Z.to_nat (image_size im / 2048) in
  0 <= image_size im -> stores_image b (image_weird_ecc im) page0 n L bl img ->
  (n + length bl < fuel)%nat ->
  exists b', nand_load fuel im b = Some (concat (img <$> image_pages b page0 page0 L n), b') /\
    same_pages b b'.
Proof.
  intros page0 n Hsize [Hok Hr Hb HL Hp] Hfuel. unfold nand_load. change CFG_NAND_PAGE_SIZE with 2048.
  fold page0. rewrite <- (Z2Nat.id (image_size im / 2048)) by (apply Z.div_pos; lia). fold n.
  assert (bad_left bl page0 <= length bl)%nat.
  { unfold bad_left. apply length_filter. }
  eapply (load_loop_spec _ img bl); [done|lia|lia|done|done| |lia|lia].
  intros Hm. unfold good_page. apply orb_true_iff. right. apply Z.ltb_lt.
  Z.to_euclidean_division_equations. lia.
Qed.

(** C12: the loader delivers the image.  If the chip holds the image, with each
    512-byte block damaged in at most four symbols and enough good blocks, then
    [nand_load] terminates within one turn per page and bad block, and what it
    stores from [image_dst] on is the data of the first good pages in order. *)
Theorem nand_load_correct (im : image) (b : bus) (L : Z) (bl : list Z) (img : Z -> list Z) (fuel : nat) :
  0 <= image_size im ->
  stores_image b (image_weird_ecc im) (image_offs im / 2048) (Z.to_nat (image_size im / 2048)) L bl img ->
  (Z.to_nat (image_size im / 2048) + length bl < fuel)%nat ->
  exists b', nand_load fuel im b =
    Some (concat (img <$> image_pages b (image_offs im / 2048) (image_offs im / 2048) L
                   (Z.to_nat (image_size im / 2048))), b') /\
    forall p, page_bytes b' p = page_bytes b p.
Proof. intros Hsize Hst Hfuel. exact (nand_load_spec im b L bl img fuel Hsize Hst Hfuel). Qed.

Lemma select_image_spec n i key :
  (select_image n i key = u_boot <-> exists j, i <= j < i + Z.of_nat n /\ key j = false) /\
  (select_image n i key = u_boot \/ select_image n i key = system_loader).
Proof.
  revert i. induction n as [|n IH]; intros i; simpl.
  { split; [|by right]. split; [done|]. intros (j & Hj & _). lia. }
  destruct (key i) eqn:Hk; simpl.
  - destruct (IH (i + 1)) as [Hiff Hor]. split; [|done]. rewrite Hiff. split.
    + intros (j & Hj & Hkj). exists j. split; [lia|done].
    + intros (j & Hj & Hkj). exists j. split; [|done]. assert (j <> i) by congruence. lia.
  - split; [|by left]. split; [|done]. intros _. exists i. split; [lia|done].
Qed.

(** The boot key decides.  With [im] U-Boot if the key is down at one of
    the hundred polls and the system loader otherwise, and the chip holding that
    image, [nand_boot] loads exactly its pages and then, caches flushed and the
    display off only for the system loader, jumps into the loaded region. *)
Theorem nand_boot_starts_selected (key : Z -> bool) (b : bus) (L : Z) (bl : list Z)
    (img : Z -> list Z) (fuel : nat) (im : image) :
  (im = u_boot /\ exists i, 0 <= i < 100 /\ key i = false) \/
  (im = system_loader /\ forall i, 0 <= i < 100 -> key i = true) ->
  stores_image b (image_weird_ecc im) (image_offs im / 2048) (Z.to_nat (image_size im / 2048)) L bl img ->
  (Z.to_nat (image_size im / 2048) + length bl < fuel)%nat ->
  image_dst im <= image_start im < image_dst im + image_size im /\
  exists bytes, nand_boot fuel key b =
    Some ([gpio_init; serial_init; pll_init; sdram_init; slcd_init; nand_init; load im bytes; flush_cache_all]
          ++ (if image_weird_ecc im then [slcd_off] else []) ++ [start (image_start im)]) /\
    bytes = concat (img <$> image_pages b (image_offs im / 2048) (image_offs im / 2048) L
                     (Z.to_nat (image_size im / 2048))).
Proof.
  intros Hkey Hst Hfuel. destruct (select_image_spec 100 0 key) as [Hiff Hor].
  assert (select_image 100 0 key = im) as Hsel.
  { destruct Hkey as [[-> Hk]|[-> Hk]]; [by apply Hiff|]. destruct Hor as [Hu|]; [|done].
    apply Hiff in Hu as (j & Hj & Hkj). rewrite Hk in Hkj by lia. done. }
  assert (0 <= image_size im) as Hs by (by destruct Hkey as [[-> _]|[-> _]]).
  split; [destruct Hkey as [[-> _]|[-> _]]; done|].
  destruct (nand_load_spec im b L bl img fuel Hs Hst Hfuel) as (b' & Hrun & _).
  unfold nand_boot. rewrite Hsel, Hrun. simpl. eexists. done.
Qed.

End Laws.
End Loader.

(** ** A chip with the laws, and an image with a bad block and a read error *)

Module SimChip.

Record chip := Chip { pages : Z -> list Z; addrs : list Z; pg : Z; col : Z }.

#[global] Instance chip_bus : NandBus chip := {|
  nand_cmd c b :=
    if c =? 0 then Chip (pages b) [] (pg b) (col b)
    else match addrs b with
         | [c0; c1; r0; r1; r2] => Chip (pages b) [] (r0 + 256 * r1 + 65536 * r2) (c0 + 256 * c1)
         | _ => b
         end;
  nand_addr a b := Chip (pages b) (addrs b ++ [a]) (pg b) (col b);
  nand_data8 b := (default 0 (pages b (pg b) !! Z.to_nat (col b)),
                   Chip (pages b) (addrs b) (pg b) (col b + 1));
  page_bytes b p := pages b p;
  streams b p c := pg b = p /\ col b = c |}.

#[global] Instance chip_laws : NandBusLaws chip.
Proof.
  split; try done.
  - intros c b p. simpl. by repeat case_match.
  - intros b p c x [<- <-] Hx. simpl in *. rewrite Hx. done.
Qed.

(** Every good page holds sevens; the first bit of its first block is wrong. *)
Definition data : list Z := replicate 2048 7.
Definition spare (mark : Z) : list Z :=
  [mark; 255; 255; 255; 255; 255] ++ PackedEngine.to_bytes 9 (PackedEngine.pack [(1, 1)]) ++
  replicate 27 0 ++ replicate 22 255.
Definition raw (mark : Z) : list Z := 6 :: replicate 2047 7 ++ spare mark.

(** Block 1 is bad. *)
Definition flash_chip : chip :=
  Chip (fun p => raw (if p =? 255 then 0 else 255)) [] 0 0.

Definition small_image : image := Image false (128 * 2048) (2 * 2048) 0 0.

Lemma raw_holds mark : holds_page false (raw mark) data.
Proof.
  split; [reflexivity|]. split; [apply Forall_replicate; unfold digit; lia|].
  intros i Hi. destruct i as [|[|[|[|i]]]]; [| | | |lia].
  - exists [(1, 1)]. split.
    + split; [simpl; lia|]. split; [repeat constructor; unfold err_ok; simpl; lia|repeat constructor].
    + split; [split; [reflexivity|]|split; reflexivity].
      apply (Forall_cons_2 _ 6 (replicate 511 7)); [unfold digit; lia|].
      apply Forall_replicate. unfold digit. lia.
  - exists []. split; [split; [simpl; lia|]; split; constructor|].
    split; [split; [reflexivity|]|split; reflexivity]. apply (Forall_replicate _ 512 7). unfold digit. lia.
  - exists []. split; [split; [simpl; lia|]; split; constructor|].
    split; [split; [reflexivity|]|split; reflexivity]. apply (Forall_replicate _ 512 7). unfold digit. lia.
  - exists []. split; [split; [simpl; lia|]; split; constructor|].
    split; [split; [reflexivity|]|split; reflexivity]. apply (Forall_replicate _ 512 7). unfold digit. lia.
Qed.

Lemma flash_chip_stores n page0 L :
  0 <= page0 -> page0 + L + 128 <= 2 ^ 24 -> Z.of_nat n + 128 <= L ->
  stores_image flash_chip false page0 n L [1] (fun _ => data).
Proof.
  intros H0 Hmax HL. split.
  - intros p. reflexivity.
  - done.
  - intros k _ _ Hb. apply list_elem_of_singleton. unfold bad_block in Hb. simpl in Hb.
    destruct (Z.eqb_spec (128 * k + 127) 255); [lia|]. done.
  - simpl. lia.
  - intros p _ _. apply raw_holds.
Qed.

End SimChip.

Lemma nand_load_correct_witness :
  exists b', nand_load 10 SimChip.small_image SimChip.flash_chip =
    Some (concat ((fun _ => SimChip.data) <$> image_pages SimChip.flash_chip 128 128 200 2), b') /\
    forall p, page_bytes b' p = page_bytes SimChip.flash_chip p.
Proof.
  apply (nand_load_correct SimChip.small_image SimChip.flash_chip 200 [1] (fun _ => SimChip.data) 10).
  - vm_compute. discriminate.
  - apply SimChip.flash_chip_stores; vm_compute; discriminate.
  - vm_compute. lia.
Defined.

Lemma nand_boot_starts_selected_witness :
  image_dst u_boot <= image_start u_boot < image_dst u_boot + image_size u_boot /\
  exists bytes, nand_boot 200 (fun i => negb (i =? 42)) SimChip.flash_chip =
    Some ([gpio_init; serial_init; pll_init; sdram_init; slcd_init; nand_init; load u_boot bytes; flush_cache_all]
          ++ [] ++ [start (image_start u_boot)]) /\
    bytes = concat ((fun _ => SimChip.data) <$> image_pages SimChip.flash_chip 8 8 300 120).
Proof.
  apply (nand_boot_starts_selected (fun i => negb (i =? 42)) SimChip.flash_chip 300 [1]
    (fun _ => SimChip.data) 200 u_boot).
  - left. split; [reflexivity|]. exists 42. split; [lia|reflexivity].
  - apply SimChip.flash_chip_stores; vm_compute; discriminate.
  - vm_compute. lia.
Defined.

(** Block 1 is skipped. *)
Example small_image_pages : image_pages SimChip.flash_chip 128 128 200 2 = [256; 257].
Proof. vm_compute. reflexivity. Qed.
