(* ===== verification/Fstype.v ===== *)
(** * File system detection of the initial process (mininit/fstype.c)

    [fstype] opens a block device, reads its first sector and, if that does not
    decide, the sector at offset 1024, and compares signatures.  The device is
    given by what the system calls on it return. *)

From S2P Require Import Prelude.

#[local] Arguments Z.eqb : simpl never.
#[local] Arguments Z.land : simpl never.

(** ** Signatures *)

Definition CRAMFS_SUPER_MAGIC : Z := 684539205.
Definition CRAMFS_SUPER_MAGIC_BE : Z := 1161678120.
Definition SQUASHFS_SUPER_MAGIC : Z := 1936814952.
Definition SQUASHFS_SUPER_MAGIC_BE : Z := 1752396147.
Definition EXT2_PRE_02B_MAGIC : Z := 61265.
Definition EXT2_SUPER_MAGIC : Z := 61267.
Definition EXT3_FEATURE_COMPAT_HAS_JOURNAL : Z := 4.
Definition MINIX_SUPER_MAGIC : Z := 4991.
Definition MINIX_SUPER_MAGIC2 : Z := 5007.
Definition MINIX2_SUPER_MAGIC : Z := 9320.
Definition MINIX2_SUPER_MAGIC2 : Z := 9336.

Inductive fs := romfs | cramfs | squashfs | vfat | ext2 | ext3 | minix.

#[global] Instance fs_eq_dec : EqDecision fs.
Proof. solve_decision. Defined.

(** Byte [i] of a sector. *)
Definition at_ (sect : list Z) (i : nat) : Z := nth i sect 0.

Definition assemble2le (sect : list Z) (p : nat) : Z :=
  Z.lor (at_ sect p) (Z.shiftl (at_ sect (p + 1)) 8).

Definition assemble4le (sect : list Z) (p : nat) : Z :=
  Z.lor (Z.lor (Z.lor (at_ sect p) (Z.shiftl (at_ sect (p + 1)) 8))
               (Z.shiftl (at_ sect (p + 2)) 16))
        (u32 (Z.shiftl (at_ sect (p + 3)) 24)).

(** On [unsigned short]. *)
Definition swapped (b : Z) : Z := u16 (Z.lor (Z.shiftl b 8) (Z.shiftr b 8)).

(** [memcmp] or [strncmp] with a literal of that many characters. *)
Definition starts_with (sect : list Z) (p : nat) (s : list Z) : bool :=
  bool_decide (take (length s) (drop p sect) = s).

(** Field offsets in the packed structures. *)
Definition fat_s_os : nat := 3.
Definition fat_s_fs : nat := 54.
Definition fat_s_fs2 : nat := 82.
Definition ext2_s_magic : nat := 56.
Definition ext2_s_feature_compat : nat := 92.
Definition ext2_s_journal_inum : nat := 224.
Definition minix_s_magic : nat := 16.

(** The character strings of the signatures. *)
Definition rom1fs : list Z := [45; 114; 111; 109; 49; 102; 115; 45].
Definition fat_os : list (list Z) :=
  [[77; 83; 68; 79; 83];                     (* MSDOS *)
   [77; 83; 87; 73; 78];                     (* MSWIN *)
   [77; 84; 79; 79; 76];                     (* MTOOL *)
   [73; 66; 77];                             (* IBM *)
   [68; 82; 68; 79; 83];                     (* DRDOS *)
   [109; 107; 100; 111; 115; 102; 115];      (* mkdosfs *)
   [107; 109; 107; 100; 111; 115; 102; 115]; (* kmkdosfs *)
   [67; 72; 45; 70; 79; 82; 49; 56]].        (* CH-FOR18 *)
Definition FAT12 : list Z := [70; 65; 84; 49; 50; 32; 32; 32].
Definition FAT16 : list Z := [70; 65; 84; 49; 54; 32; 32; 32].
Definition FAT32 : list Z := [70; 65; 84; 51; 50; 32; 32; 32].

(** ** Detection *)

Definition is_fat (sect : list Z) : bool :=
  existsb (starts_with sect fat_s_os) fat_os &&
  (starts_with sect fat_s_fs FAT12 || starts_with sect fat_s_fs FAT16 || starts_with sect fat_s_fs2 FAT32).

Definition first_sector (sect : list Z) : option fs :=
  if starts_with sect 0 rom1fs then Some romfs
  else if (assemble4le sect 0 =? CRAMFS_SUPER_MAGIC) || (assemble4le sect 0 =? CRAMFS_SUPER_MAGIC_BE)
  then Some cramfs
  else if (assemble4le sect 0 =? SQUASHFS_SUPER_MAGIC) || (assemble4le sect 0 =? SQUASHFS_SUPER_MAGIC_BE)
  then Some squashfs
  else if is_fat sect then Some vfat
  else None.

Definition ext2_magic (sect : list Z) : bool :=
  let m := assemble2le sect ext2_s_magic in
  (m =? EXT2_SUPER_MAGIC) || (m =? EXT2_PRE_02B_MAGIC) || (m =? swapped EXT2_SUPER_MAGIC).

Definition minix_magic (sect : list Z) : bool :=
  let m := assemble2le sect minix_s_magic in
  (m =? MINIX_SUPER_MAGIC) || (m =? MINIX_SUPER_MAGIC2) || (m =? swapped MINIX_SUPER_MAGIC2) ||
  (m =? MINIX2_SUPER_MAGIC) || (m =? MINIX2_SUPER_MAGIC2).

(** The test [sect.ext2.s_journal_inum != 0] compares the array, that is its
    address, with 0: it always holds. *)
Definition journal_inum_test (sect : list Z) : bool := true.

Definition second_sector (sect : list Z) : option fs :=
  if ext2_magic sect then
    if negb (Z.land (assemble4le sect ext2_s_feature_compat) EXT3_FEATURE_COMPAT_HAS_JOURNAL =? 0)
    then if journal_inum_test sect then Some ext3 else Some ext2
    else Some ext2
  else if minix_magic sect then Some minix
  else None.

(** A device as the calls see it: does [open] work, and what [lseek] and [read]
    give at an offset ([None] if one of them falls short). *)
Record device := Device { dev_open : bool; dev_read : Z -> option (list Z) }.

(** The name of the type, or NULL.  The descriptor is closed on every path. *)
Definition fstype (d : device) : option fs :=
  if negb (dev_open d) then None
  else match dev_read d 0 with
       | None => None
       | Some sect =>
           match first_sector sect with
           | Some t => Some t
           | None =>
               match dev_read d 1024 with
               | None => None
               | Some sect => second_sector sect
               end
           end
       end.

(** ** What is detected *)

(** A sector is 512 bytes. *)
Definition sector_ok (s : list Z) : Prop := length s = 512%nat /\ Forall (digit 8) s.

Lemma at_digit s i : sector_ok s -> (i < 512)%nat -> digit 8 (at_ s i).
Proof.
  intros [Hlen Hd] Hi. unfold at_. destruct (nth_in_or_default i s 0) as [Hin|Heq].
  - apply list_elem_of_In in Hin. rewrite Forall_forall in Hd. by apply Hd.
  - rewrite Heq. unfold digit. lia.
Qed.

Lemma lor_shift_8 x y : digit 8 x -> digit 8 y -> Z.lor x (Z.shiftl y 8) = x + 256 * y.
Proof.
  intros Hx Hy. assert (Z.land x (Z.shiftl y 8) = 0) as Hland.
  { apply Z.bits_inj'. intros n Hn. rewrite Z.land_spec, Z.bits_0.
    destruct (Z.lt_ge_cases n 8); [by rewrite Z.shiftl_spec_low, andb_false_r|].
    by rewrite (testbit_high 8 n x). }
  rewrite <- Z.lxor_lor, <- Z.add_nocarry_lxor by done.
  rewrite Z.shiftl_mul_pow2 by lia. lia.
Qed.

(** A two-byte magic number, by its bytes. *)
Lemma assemble2le_eq s p lo hi :
  sector_ok s -> (p + 1 < 512)%nat -> digit 8 lo -> digit 8 hi ->
  (assemble2le s p =? lo + 256 * hi) = (at_ s p =? lo) && (at_ s (p + 1) =? hi).
Proof.
  intros Hs Hp Hlo Hhi. unfold assemble2le.
  pose proof (at_digit s p Hs ltac:(lia)) as H0. pose proof (at_digit s (p + 1) Hs ltac:(lia)) as H1.
  rewrite lor_shift_8 by done. unfold digit in *.
  destruct (Z.eqb_spec (at_ s p) lo), (Z.eqb_spec (at_ s (p + 1)) hi); simpl; bool_lia.
Qed.

Lemma journal_bit s :
  sector_ok s ->
  negb (Z.land (assemble4le s ext2_s_feature_compat) EXT3_FEATURE_COMPAT_HAS_JOURNAL =? 0) =
  Z.testbit (at_ s 92) 2.
Proof.
  intros Hs. change EXT3_FEATURE_COMPAT_HAS_JOURNAL with (2 ^ 2). rewrite land_pow2_testbit by lia.
  unfold assemble4le. rewrite !Z.lor_spec. unfold u32. rewrite Z.mod_pow2_bits_low by lia.
  rewrite !Z.shiftl_spec_low by lia. by rewrite !orb_false_r.
Qed.

(** The superblock magic of ext2 and ext3, as bytes 56 and 57. *)
Definition ext_bytes (s : list Z) : Prop :=
  (at_ s 56, at_ s 57) ∈ [(83, 239); (81, 239); (239, 83)].

Lemma ext2_magic_bytes s : sector_ok s -> ext2_magic s = true <-> ext_bytes s.
Proof.
  intros Hs. unfold ext2_magic, ext_bytes.
  change (swapped EXT2_SUPER_MAGIC) with (239 + 256 * 83).
  change EXT2_SUPER_MAGIC with (83 + 256 * 239). change EXT2_PRE_02B_MAGIC with (81 + 256 * 239).
  unfold ext2_s_magic. rewrite !assemble2le_eq by (done || (unfold digit; lia) || lia).
  rewrite !orb_true_iff, !andb_true_iff, !Z.eqb_eq. change (56 + 1)%nat with 57%nat.
  rewrite !elem_of_cons, elem_of_nil, !pair_eq. tauto.
Qed.

(** The device can be opened and its two sectors [s0] and [s1] read, and the
    first one carries no signature. *)
Definition second_decides (d : device) (s1 : list Z) : Prop :=
  dev_open d = true /\ (exists s0, dev_read d 0 = Some s0 /\ first_sector s0 = None) /\
  dev_read d 1024 = Some s1.

Lemma fstype_second d s1 : second_decides d s1 -> fstype d = second_sector s1.
Proof. intros (Ho & (s0 & H0 & Hf) & H1). unfold fstype. by rewrite Ho, H0, Hf, H1. Qed.

Lemma fstype_inv d t :
  fstype d = Some t -> t = ext2 \/ t = ext3 -> exists s1, second_decides d s1 /\ second_sector s1 = Some t.
Proof.
  unfold fstype. intros Ht Hor. destruct (dev_open d) eqn:Ho; [|done]. simpl in Ht.
  destruct (dev_read d 0) as [s0|] eqn:H0; [|done].
  destruct (first_sector s0) as [t'|] eqn:Hf.
  { injection Ht as ->. unfold first_sector in Hf.
    destruct Hor as [-> | ->]; repeat (destruct (starts_with _ _ _) || destruct (_ || _) || destruct (is_fat _)); done. }
  destruct (dev_read d 1024) as [s1|] eqn:H1; [|done]. exists s1. split; [|done].
  split; [done|]. split; [eauto|done].
Qed.

(** C16: which devices are mounted as ext2 and ext3.  A device is taken for
    ext3 exactly if its first sector has no signature and the sector at 1024
    carries one of the three ext magic numbers with the journal feature bit set,
    and for ext2 exactly if the bit is clear; the journal inode number plays no
    part. *)
Theorem fstype_ext (d : device) (t : fs) :
  (forall s, dev_read d 1024 = Some s -> sector_ok s) -> t = ext2 \/ t = ext3 ->
  fstype d = Some t <->
  exists s1, second_decides d s1 /\ ext_bytes s1 /\ Z.testbit (at_ s1 92) 2 = bool_decide (t = ext3).
Proof.
  intros Hbytes Ht. split.
  - intros (s1 & Hd & Hs)%fstype_inv; [|done]. exists s1. split; [done|].
    assert (sector_ok s1) as Hok by (apply Hbytes, Hd).
    unfold second_sector in Hs. rewrite journal_bit in Hs by done.
    destruct (ext2_magic s1) eqn:Hm; [|by repeat case_match; simplify_eq; naive_solver].
    split; [by apply ext2_magic_bytes|]. destruct (Z.testbit (at_ s1 92) 2); simpl in Hs; simplify_eq; done.
  - intros (s1 & Hd & He & Hj). rewrite (fstype_second d s1 Hd).
    assert (sector_ok s1) as Hok by (apply Hbytes, Hd).
    unfold second_sector. rewrite journal_bit, (proj2 (ext2_magic_bytes s1 Hok) He), Hj by done.
    by destruct Ht as [-> | ->].
Qed.

(** An ext superblock with the journal bit and a zero journal inode. *)
Definition sample_super : list Z := replicate 56 0 ++ [83; 239] ++ replicate 34 0 ++ [4] ++ replicate 419 0.
Definition sample_device : device :=
  Device true (fun off => if off =? 1024 then Some sample_super else Some (replicate 512 0)).

Lemma fstype_ext_witness : fstype sample_device = Some ext3.
Proof.
  apply (fstype_ext sample_device ext3).
  - intros s Hs. injection Hs as <-. split; [reflexivity|].
    apply Forall_forall. intros x Hx. unfold sample_super in Hx.
    rewrite !elem_of_app, !elem_of_replicate, !elem_of_cons, elem_of_nil in Hx. unfold digit. lia.
  - right. reflexivity.
  - exists sample_super. split; [split; [reflexivity|split; [|reflexivity]]|].
    + exists (replicate 512 0). split; reflexivity.
    + split; [|reflexivity]. left.
Defined.
