(* ===== verification/Mininit.v ===== *)
(** * The initial process (mininit/init.c, mininit/loop.c)

    [main] mounts /proc and /sys, splits the kernel command line, mounts the
    boot and root devices, sets up loop devices, switches the root directory and
    executes init.

    The kernel is a function from the history of system calls to the answer to
    the last one, so the theorems hold whatever the kernel answers.  A run is a
    computation in a state monad over that history; it ends normally, in
    [exit(1)] (through [_fatal]) or in undefined behaviour (a write outside of
    an array). *)

From Stdlib Require Import Ascii String.
From stdpp Require Import strings.
From S2P Require Import Prelude Fstype.

#[local] Arguments Z.eqb : simpl never.
#[local] Arguments Z.add : simpl never.
#[local] Arguments Z.of_nat : simpl never.

Definition str := list ascii.
Definition lit (s : string) : str := list_ascii_of_string s.

(** ** System calls *)

Inductive call :=
  | Cmkdir (path : str) (mode : Z)
  | Cmount (source : option str) (target : str) (type : option fs) (special : option str) (flags : Z) (data : option str)
  | Cumount2 (target : str) (flags : Z)
  | Copen (path : str) (flags : Z)
  | Cread (fd : Z) (len : Z)
  | Cclose (fd : Z)
  | Cioctl_set_fd (fd arg : Z)
  | Cioctl_set_status (fd : Z) (name : str)
  | Caccess (path : str) (mode : Z)
  | Cusleep (us : Z)
  | Csleep (s : Z)
  | Cfstype (dev : str)
  | Cchdir (path : str)
  | Cchroot (path : str)
  | Cdup2 (fd newfd : Z)
  | Cexecv (path : str) (argv : list str).

(** Return value, [errno], the bytes a [read] stores and the device a
    [fstype] call looks at. *)
Record answer := Answer { ret : Z; errno : Z; bytes : str; probed : device }.

Definition kernel := list call -> answer.

Inductive outcome (A : Type) :=
  | Ok (a : A)
  | Exited
  | Undefined.
Arguments Ok {A} a.
Arguments Exited {A}.
Arguments Undefined {A}.

Definition M (A : Type) : Type := list call -> outcome A * list call.

Definition ret_ {A} (a : A) : M A := fun h => (Ok a, h).
Definition bind_ {A B} (m : M A) (k : A -> M B) : M B := fun h =>
  match m h with
  | (Ok a, h') => k a h'
  | (Exited, h') => (Exited, h')
  | (Undefined, h') => (Undefined, h')
  end.
Definition undefined {A} : M A := fun h => (Undefined, h).

Declare Scope init_scope.
Delimit Scope init_scope with init.
Notation "x <-- m ;; k" := (bind_ m (fun x => k))
  (at level 100, m at next level, right associativity) : init_scope.
Notation "m ;;; k" := (bind_ m (fun _ => k)) (at level 100, right associativity) : init_scope.
Open Scope init_scope.

Definition EEXIST : Z := 17.
Definition MS_RDONLY : Z := 1.
Definition MS_MOVE : Z := 8192.
Definition MNT_FORCE : Z := 1.
Definition MNT_DETACH : Z := 2.
Definition O_RDONLY : Z := 0.
Definition O_RDWR : Z := 2.
Definition R_OK : Z := 4.
Definition X_OK : Z := 1.
Definition LO_NAME_SIZE : nat := 64.

Section Init.
Context (K : kernel).

Definition sys (c : call) : M answer := fun h => (Ok (K (h ++ [c])), h ++ [c]).

(** [_fatal]: the message, three seconds, [exit(1)]. *)
Definition _fatal {A} : M A := sys (Csleep 3) ;;; (fun h => (Exited, h)).

(** ** Directories and mounts *)

(** The loop of [_mkpath] from index [i] on: [buf] holds the path up to [i]. *)
Fixpoint mkpath_loop (path : str) (buf : str) (mode : Z) (fatal : bool) : M Z :=
  match path with
  | [] => if (List.length buf <? 256)%nat then ret_ 0 else undefined
  | c :: path' =>
      if (List.length buf <? 256)%nat then
        if negb (bool_decide (c = "/"%char)) then mkpath_loop path' (buf ++ [c]) mode fatal
        else
          a <-- sys (Cmkdir buf mode) ;;
          if (ret a <? 0) && negb (errno a =? EEXIST) then
            if fatal then _fatal else ret_ (ret a)
          else mkpath_loop path' (buf ++ [c]) mode fatal
      else undefined
  end.

Definition _mkpath (path : str) (mode : Z) (fatal : bool) : M Z :=
  match path with
  | [] => ret_ 0
  | c :: path' => mkpath_loop path' [c] mode fatal
  end.

Definition _mkdir (path : str) (mode : Z) (fatal : bool) : M Z :=
  r <-- _mkpath path mode fatal ;;
  if r <? 0 then ret_ r
  else
    a <-- sys (Cmkdir path mode) ;;
    if (ret a <? 0) && negb (errno a =? EEXIST) then
      if fatal then _fatal else ret_ (ret a)
    else ret_ 0.

(** [special] is the type given by the caller, or NULL to guess it. *)
Definition _mount (source : option str) (target : str) (special : option str) (flags : Z)
    (data : option str) (fatal : bool) : M Z :=
  r <-- _mkdir target 493 fatal ;;
  if r <? 0 then ret_ r
  else
    t <-- (match special with
           | None =>
               if Z.land flags MS_MOVE =? 0 then
                 a <-- sys (Cfstype (default [] source)) ;;
                 ret_ (match fstype (probed a) with Some t => Some (Some t) | None => None end)
               else ret_ (Some None)
           | Some _ => ret_ (Some None)
           end) ;;
    match t with
    | None => if fatal then _fatal else ret_ (-1)
    | Some t =>
        a <-- sys (Cmount source target t special flags data) ;;
        if (ret a <? 0) && fatal then _fatal else ret_ (ret a)
    end.

Definition _umount (target : str) : M unit :=
  a <-- sys (Cumount2 target MNT_DETACH) ;;
  if ret a <? 0 then sys (Cumount2 target MNT_FORCE) ;;; ret_ tt else ret_ tt.

(** ** Reading a line *)

Definition NUL : ascii := Ascii.zero.
Definition NL : ascii := "010"%char.

(** The C string at the start of a buffer. *)
Fixpoint cstr (buf : str) : str :=
  match buf with
  | [] => []
  | c :: buf' => if bool_decide (c = NUL) then [] else c :: cstr buf'
  end.

(** Up to the first newline. *)
Fixpoint first_line (s : str) : str :=
  match s with
  | [] => []
  | c :: s' => if bool_decide (c = NL) then [] else c :: first_line s'
  end.

(** What is in the buffer once [buf[r]] is cleared, up to the end of the line. *)
Definition line_of (b : answer) : str := first_line (cstr (take (Z.to_nat (ret b)) (bytes b))).

(** The line, or the error code.  [read] stores as many bytes as it returns, and
    no more than asked for; with another kernel the string has no end, or the
    terminator is stored outside of the buffer. *)
Definition _read_line (path : str) (len : Z) (fatal : bool) : M (str + Z) :=
  a <-- sys (Copen path O_RDONLY) ;;
  if ret a <? 0 then (if fatal then _fatal else ret_ (inr (ret a)))
  else
    b <-- sys (Cread (ret a) (len - 1)) ;;
    sys (Cclose (ret a)) ;;;
    if ret b <? 0 then (if fatal then _fatal else ret_ (inr (ret b)))
    else if (ret b <=? len - 1) && (ret b <=? Z.of_nat (List.length (bytes b))) then ret_ (inl (line_of b))
    else undefined.

(** ** Loop devices *)

Definition losetup (loopfd filefd : Z) (filename : str) : M Z :=
  a <-- sys (Cioctl_set_fd loopfd filefd) ;;
  if ret a <? 0 then ret_ (ret a)
  else b <-- sys (Cioctl_set_status loopfd (take (LO_NAME_SIZE - 1) filename)) ;; ret_ (ret b).

Definition _losetup (loop file : str) (fatal : bool) : M Z :=
  a <-- sys (Copen file O_RDWR) ;;
  fm <-- (if ret a <? 0 then b <-- sys (Copen file O_RDONLY) ;; ret_ (ret b, O_RDONLY)
          else ret_ (ret a, O_RDWR)) ;;
  let '(filefd, mode) := fm in
  if filefd <? 0 then
    if fatal then _fatal
    else sys (Cclose (-1)) ;;; sys (Cclose filefd) ;;; ret_ filefd
  else
    c <-- sys (Copen loop mode) ;;
    loopfd <-- (if ret c <? 0 then d <-- sys (Copen loop O_RDONLY) ;; ret_ (ret d) else ret_ (ret c)) ;;
    if loopfd <? 0 then
      if fatal then _fatal
      else sys (Cclose loopfd) ;;; sys (Cclose filefd) ;;; ret_ loopfd
    else
      r <-- losetup loopfd filefd file ;;
      if (r <? 0) && fatal then _fatal
      else sys (Cclose loopfd) ;;; sys (Cclose filefd) ;;; ret_ r.

(** ** Parameters *)

Definition isspace (c : ascii) : bool :=
  let n := nat_of_ascii c in (Nat.eqb n 32) || ((9 <=? n)%nat && (n <=? 13)%nat).

(** [for (; *s != '\0' && p( *s); s++);] from index [s]. *)
Fixpoint scan_while (p : ascii -> bool) (fuel : nat) (buf : str) (s : nat) : option nat :=
  match fuel with
  | O => None
  | S fuel' =>
      c ← buf !! s;
      if negb (bool_decide (c = NUL)) && p c then scan_while p fuel' buf (S s) else Some s
  end.

(** The final buffer and the offsets stored in [paramv], in order. *)
Fixpoint mkparam_loop (fuel : nat) (buf : str) (s : nat) (paramv : list nat) (maxparam : nat)
  : option (str * list nat) :=
  match fuel with
  | O => None
  | S fuel' =>
      s ← scan_while isspace (S (List.length buf)) buf s;
      c ← buf !! s;
      if bool_decide (c = NUL) then Some (buf, paramv)
      else
        let paramv := paramv ++ [s] in
        if (maxparam <=? List.length paramv)%nat then Some (buf, paramv)
        else
          s ← scan_while (fun c => negb (isspace c)) (S (List.length buf)) buf s;
          c ← buf !! s;
          if bool_decide (c = NUL) then Some (buf, paramv)
          else mkparam_loop fuel' (<[s := NUL]> buf) (S s) paramv maxparam
  end.

(** The parameters as C strings; [line] is followed by its terminator. *)
Definition _mkparam (line : str) (maxparam : nat) : option (list str) :=
  match mkparam_loop (S (List.length line)) (line ++ [NUL]) 0 [] maxparam with
  | Some (buf, paramv) => Some (map (fun s => cstr (drop s buf)) paramv)
  | None => None
  end.

(** ** Comma-separated mounts *)

(** The pieces of a list, in order: the strings that [t] points to. *)
Fixpoint pieces (s : str) : list str :=
  match s with
  | [] => [[]]
  | c :: s' =>
      if bool_decide (c = ","%char) then [] :: pieces s'
      else match pieces s' with
           | p :: ps => (c :: p) :: ps
           | [] => [[c]]
           end
  end.

(** [for (t = s; *s != ',' && *s != '\0'; s++)] in the buffer. *)
Definition piece_end (fuel : nat) (buf : str) (s : nat) : option nat :=
  scan_while (fun c => negb (bool_decide (c = ","%char))) fuel buf s.

(** The inner loop: cut a piece out with a terminator, try it, put the
    character back.  The result says whether a mount succeeded, and has the
    buffer. *)
Fixpoint pieces_loop (fuel : nat) (buf : str) (s : nat) (target : str) (special : option str)
    (flags : Z) (data : option str) : M (bool * str) :=
  match fuel with
  | O => undefined
  | S fuel' =>
      let t := s in
      match piece_end (S (List.length buf)) buf s with
      | None => undefined
      | Some s =>
          match buf !! s with
          | None => undefined
          | Some c =>
              let buf1 := <[s := NUL]> buf in
              let piece := cstr (drop t buf1) in
              a <-- sys (Caccess piece R_OK) ;;
              ok <-- (if 0 <=? ret a then
                        r <-- _mount (Some piece) target special flags data false ;; ret_ (0 <=? r)
                      else ret_ false) ;;
              let buf2 := <[s := c]> buf1 in
              if (ok : bool) then ret_ (true, buf2)
              else if bool_decide (c = ","%char) then
                pieces_loop fuel' buf2 (S s) target special flags data
              else ret_ (false, buf2)
          end
      end
  end.

Fixpoint tries_loop (retries : nat) (buf : str) (target : str) (special : option str)
    (flags : Z) (data : option str) (fatal : bool) : M (Z * str) :=
  match retries with
  | O => if fatal then _fatal else ret_ (-1, buf)
  | S n =>
      r <-- pieces_loop (S (List.length buf)) buf 0 target special flags data ;;
      let '(ok, buf) := r in
      if (ok : bool) then ret_ (0, buf)
      else sys (Cusleep 100000) ;;; tries_loop n buf target special flags data fatal
  end.

(** [buf] is the source string with its terminator. *)
Definition _multimount (buf : str) (target : str) (special : option str) (flags : Z)
    (data : option str) (retries : nat) (fatal : bool) : M (Z * str) :=
  tries_loop retries buf target special flags data fatal.

(** ** main *)

Definition prefixed (p s : str) : bool := bool_decide (take (List.length p) s = p).

(** The parameter after the first [p], if any. *)
Fixpoint find_param (p : str) (params : list str) : option str :=
  match params with
  | [] => None
  | s :: params' => if prefixed p s then Some (drop (List.length p) s) else find_param p params'
  end.

(** The loop over "loopN=" parameters. *)
Fixpoint loops (params : list str) : M unit :=
  match params with
  | [] => ret_ tt
  | s :: params' =>
      if prefixed (lit "loop") s && bool_decide (s !! 5%nat = Some "="%char) then
        match s !! 4%nat with
        | None => undefined
        | Some c => _losetup (lit "/dev/loop" ++ [c]) (drop 6 s) true ;;; loops params'
        end
      else loops params'
  end.

(** [strcpy] into [sbuf], 256 bytes: the last "init=" wins. *)
Fixpoint init_param (params : list str) (sbuf : str) : option str :=
  match params with
  | [] => Some sbuf
  | s :: params' =>
      if prefixed (lit "init=") s then
        let v := drop 5 s in
        if (List.length v <? 256)%nat then init_param params' v else None
      else init_param params' sbuf
  end.

Definition inits : list str := [lit "/sbin/init"; lit "/etc/init"; lit "/bin/init"; lit "/bin/sh"].

Fixpoint locate_init (l : list str) : M str :=
  match l with
  | [] => _fatal
  | s :: l' => a <-- sys (Caccess s X_OK) ;; if ret a <? 0 then locate_init l' else ret_ s
  end.

Definition dup_to (f n : Z) (k : M unit) : M unit :=
  a <-- sys (Cdup2 f n) ;; if negb (ret a =? n) then _fatal else k.

Definition switch_root : M unit :=
  a <-- sys (Cchdir (lit "/root")) ;;
  if ret a <? 0 then _fatal else
  f <-- sys (Copen (lit "./dev/console") O_RDWR) ;;
  if ret f <? 0 then _fatal else
  dup_to (ret f) 0 (dup_to (ret f) 1 (dup_to (ret f) 2 (ret_ tt))) ;;;
  (if 2 <? ret f then sys (Cclose (ret f)) ;;; ret_ tt else ret_ tt) ;;;
  g <-- sys (Copen (lit "/") O_RDONLY) ;;
  _umount (lit "/sys") ;;;
  _umount (lit "/proc") ;;;
  _mount (Some (lit ".")) (lit "/") None MS_MOVE None true ;;;
  b <-- sys (Cchroot (lit ".")) ;;
  if ret b <? 0 then _fatal else
  c <-- sys (Cchdir (lit "/")) ;;
  if ret c <? 0 then _fatal else
  sys (Cclose (ret g)) ;;; ret_ tt.

(** The parameters that follow argv[0] are those of the command line. *)
Definition main : M unit :=
  _mount None (lit "/proc") (Some (lit "proc")) 0 None true ;;;
  _mount None (lit "/sys") (Some (lit "sysfs")) 0 None true ;;;
  line <-- _read_line (lit "/proc/cmdline") 4096 true ;;
  match line with
  | inr _ => undefined
  | inl line =>
      match _mkparam line 62 with
      | None => undefined
      | Some params =>
          boot <-- (match find_param (lit "boot=") params with
                    | Some src =>
                        _multimount (src ++ [NUL]) (lit "/boot") None MS_RDONLY (Some (lit "utf8")) 20 true ;;;
                        ret_ true
                    | None => ret_ false
                    end) ;;
          loops params ;;;
          (match find_param (lit "root=") params with
           | Some src =>
               _multimount (src ++ [NUL]) (lit "/root") None MS_RDONLY None 20 true ;;; ret_ tt
           | None => _fatal
           end) ;;;
          (if (boot : bool)
           then _mount (Some (lit "/boot")) (lit "/root/boot") None MS_MOVE None true ;;; ret_ tt
           else ret_ tt) ;;;
          switch_root ;;;
          match init_param params [] with
          | None => undefined
          | Some sbuf =>
              path <-- (match sbuf with [] => locate_init inits | _ => ret_ sbuf end) ;;
              sys (Cexecv path (path :: params)) ;;;
              _fatal
          end
      end
  end.

End Init.

(** ** Splitting: what _mkparam computes *)

Fixpoint take_while (p : ascii -> bool) (l : str) : str :=
  match l with [] => [] | c :: l' => if p c then c :: take_while p l' else [] end.
Fixpoint drop_while (p : ascii -> bool) (l : str) : str :=
  match l with [] => [] | c :: l' => if p c then drop_while p l' else l end.

(** The first [n] words of a line; the [n]-th one has the rest of the line. *)
Fixpoint words_upto (n : nat) (l : str) : list str :=
  match n with
  | O => []
  | S n' =>
      match drop_while isspace l with
      | [] => []
      | l' => match n' with
              | O => [l']
              | _ => take_while (fun c => negb (isspace c)) l' ::
                     words_upto n' (drop_while (fun c => negb (isspace c)) l')
              end
      end
  end.

Definition no_nul (s : str) : Prop := Forall (fun c => c <> NUL) s.

Lemma take_drop_while p l : take_while p l ++ drop_while p l = l.
Proof. induction l as [|c l IH]; simpl; [done|]. destruct (p c); simpl; [by rewrite IH|done]. Qed.

Lemma no_nul_drop_while p l : no_nul l -> no_nul (drop_while p l).
Proof. intros Hl. rewrite <- (take_drop_while p l) in Hl. by apply Forall_app in Hl as [_ ?]. Qed.

Lemma no_nul_take_while p l : no_nul l -> no_nul (take_while p l).
Proof. intros Hl. rewrite <- (take_drop_while p l) in Hl. by apply Forall_app in Hl as [? _]. Qed.

Lemma drop_while_head p l c l' : drop_while p l = c :: l' -> p c = false.
Proof.
  induction l as [|x l IH]; simpl; [done|]. destruct (p x) eqn:Hx; [done|]. intros [= <- <-]. done.
Qed.

Lemma lookup_end (pre : str) c tl : (pre ++ c :: tl) !! List.length pre = Some c.
Proof. by apply list_lookup_middle. Qed.

Lemma insert_end (pre : str) c tl x :
  <[List.length pre := x]> (pre ++ c :: tl) = pre ++ x :: tl.
Proof. induction pre as [|y pre IH]; [done|]. simpl. f_equal. exact IH. Qed.

(** A scan over a terminated string stops behind the longest matching run. *)
Lemma scan_while_spec p fuel pre rest :
  no_nul rest -> (List.length rest < fuel)%nat ->
  scan_while p fuel (pre ++ rest ++ [NUL]) (List.length pre) =
    Some (List.length pre + List.length (take_while p rest))%nat.
Proof.
  intros Hn. revert fuel pre. induction Hn as [|c rest Hc Hn IH]; intros fuel pre Hf; simpl in Hf;
    (destruct fuel as [|fuel]; [lia|]); cbn [scan_while app take_while List.length].
  - rewrite lookup_end. cbn [mbind option_bind]. rewrite bool_decide_true by done. simpl.
    f_equal. lia.
  - rewrite lookup_end. cbn [mbind option_bind]. rewrite bool_decide_false by done. simpl.
    destruct (p c); [|simpl; f_equal; lia].
    specialize (IH fuel (pre ++ [c]) ltac:(lia)). rewrite length_app, <- app_assoc in IH. simpl in IH.
    replace (S (List.length pre)) with (List.length pre + 1)%nat by lia. rewrite IH. f_equal. simpl. lia.
Qed.

Lemma cstr_app_nul s tl : no_nul s -> cstr (s ++ NUL :: tl) = s.
Proof.
  induction 1 as [|c s Hc Hs IH]; simpl; [done|]. rewrite bool_decide_false by done. by rewrite IH.
Qed.

Lemma drop_prefix (pre l : str) : drop (List.length pre) (pre ++ l) = l.
Proof. by apply drop_app_length'. Qed.

(** One turn of the loop: the spaces skipped, the word at the front of the rest
    recorded, and the rest after it. *)
Lemma mkparam_loop_step fuel pre rest v max :
  no_nul rest ->
  let buf := pre ++ rest ++ [NUL] in
  let pre1 := pre ++ take_while isspace rest in
  let r1 := drop_while isspace rest in
  let word := take_while (fun c => negb (isspace c)) r1 in
  let v' := v ++ [List.length pre1] in
  mkparam_loop (S fuel) buf (List.length pre) v max =
  match r1 with
  | [] => Some (buf, v)
  | _ =>
      if (max <=? List.length v')%nat then Some (buf, v')
      else match drop_while (fun c => negb (isspace c)) r1 with
           | [] => Some (buf, v')
           | _ :: r => let pre2 := pre1 ++ word ++ [NUL] in
               mkparam_loop fuel (pre2 ++ r ++ [NUL]) (List.length pre2) v' max
           end
  end.
Proof.
  intros Hn buf pre1 r1 word v'. cbn [mkparam_loop]. unfold buf.
  rewrite scan_while_spec by (done || (rewrite !length_app; simpl; lia)).
  cbn [mbind option_bind]. rewrite <- length_app. fold pre1.
  assert (buf = pre1 ++ r1 ++ [NUL]) as Hbuf.
  { unfold buf, pre1, r1. rewrite <- (take_drop_while isspace rest) at 1. by rewrite <- !app_assoc. }
  assert (no_nul r1) as Hn1 by (by apply no_nul_drop_while).
  fold buf. rewrite Hbuf. clearbody pre1 r1 buf. destruct r1 as [|c r2].
  { change ([] ++ [NUL]) with [NUL]. rewrite lookup_end. cbn [mbind option_bind]. by rewrite bool_decide_true. }
  assert (c <> NUL) as Hc by (by apply Forall_cons in Hn1 as [? _]).
  cbn [app]. rewrite lookup_end. cbn [mbind option_bind]. rewrite bool_decide_false by done. fold v'.
  destruct (max <=? List.length v')%nat; [done|]. change (c :: r2 ++ [NUL]) with ((c :: r2) ++ [NUL]).
  rewrite scan_while_spec by (done || (rewrite ?length_app; simpl; rewrite ?length_app; simpl; lia)).
  cbn [mbind option_bind]. fold word. pose proof (take_drop_while (fun c => negb (isspace c)) (c :: r2)) as Hw. fold word in Hw.
  assert (no_nul (drop_while (fun c => negb (isspace c)) (c :: r2))) as Hn3 by (by apply no_nul_drop_while).
  set (r3 := drop_while _ (c :: r2)) in *. clearbody r3 word. rewrite <- Hw.
  replace (pre1 ++ (word ++ r3) ++ [NUL]) with ((pre1 ++ word) ++ r3 ++ [NUL]) by (by rewrite <- !app_assoc).
  rewrite <- length_app. destruct r3 as [|d r4].
  { change ([] ++ [NUL]) with [NUL]. rewrite lookup_end. cbn [mbind option_bind]. by rewrite bool_decide_true. }
  assert (d <> NUL) as Hd by (by apply Forall_cons in Hn3 as [? _]).
  cbn [app]. rewrite lookup_end. cbn [mbind option_bind]. rewrite bool_decide_false, insert_end by done. cbv zeta.
  rewrite (app_assoc pre1), <- (app_assoc (pre1 ++ word)), (length_app (pre1 ++ word)). cbn [List.length].
  by rewrite Nat.add_1_r.
Qed.

(** The word recorded at the end of [pre], read back from the final buffer. *)
Lemma recorded_word pre w tl vs ws :
  no_nul w -> map (fun s => cstr (drop s (pre ++ w ++ NUL :: tl))) vs = ws ->
  map (fun s => cstr (drop s (pre ++ w ++ NUL :: tl))) (List.length pre :: vs) = w :: ws.
Proof. intros Hw <-. cbn [map]. by rewrite drop_prefix, cstr_app_nul. Qed.

Lemma mkparam_loop_spec fuel pre rest v max :
  no_nul rest -> (List.length rest < fuel)%nat -> (List.length v < max)%nat ->
  exists tl vs, mkparam_loop fuel (pre ++ rest ++ [NUL]) (List.length pre) v max = Some (pre ++ tl, v ++ vs) /\
    map (fun s => cstr (drop s (pre ++ tl))) vs = words_upto (max - List.length v) rest /\
    (List.length vs <= max - List.length v)%nat.
Proof.
  revert pre rest v. induction fuel as [|fuel IH]; intros pre rest v Hn Hf Hv; [lia|].
  rewrite mkparam_loop_step by done. cbv zeta. rewrite length_app. cbn [List.length].
  pose proof (take_drop_while isspace rest) as Hrest. pose proof (no_nul_drop_while isspace rest Hn) as Hn1.
  destruct (max - List.length v)%nat as [|k] eqn:Hk; [lia|]. cbn [words_upto].
  set (sp := take_while isspace rest) in *. destruct (drop_while isspace rest) as [|c r2] eqn:Hr1.
  { exists (rest ++ [NUL]), []. rewrite app_nil_r. split; [done|]. simpl. split; [done|lia]. }
  clear Hr1. set (r1 := c :: r2) in *. clearbody r1. destruct k as [|k].
  { rewrite (proj2 (Nat.leb_le _ _)) by lia. exists (sp ++ r1 ++ [NUL]), [List.length (pre ++ sp)].
    split; [by rewrite <- Hrest, <- app_assoc|]. split; [|simpl; lia].
    rewrite app_assoc. by apply recorded_word. }
  rewrite (proj2 (Nat.leb_gt _ _)) by lia. pose proof (take_drop_while (fun c => negb (isspace c)) r1) as Hw.
  pose proof (no_nul_take_while (fun c => negb (isspace c)) r1 Hn1) as Hnw.
  pose proof (no_nul_drop_while (fun c => negb (isspace c)) r1 Hn1) as Hn3.
  set (w := take_while (fun c => negb (isspace c)) r1) in *.
  destruct (drop_while (fun c => negb (isspace c)) r1) as [|d r4] eqn:Hr3.
  { exists (sp ++ w ++ [NUL]), [List.length (pre ++ sp)].
    split; [by rewrite <- Hrest, <- Hw, app_nil_r, <- !app_assoc|]. split; [|simpl; lia].
    rewrite app_assoc. by apply recorded_word. }
  destruct (IH ((pre ++ sp) ++ w ++ [NUL]) r4 (v ++ [List.length (pre ++ sp)])) as (tl & vs & Hrun & Hmap & Hlen).
  { by apply Forall_cons in Hn3 as [_ ?]. }
  { apply (f_equal (@List.length _)) in Hrest, Hw. rewrite length_app in Hrest, Hw. simpl in *. lia. }
  { rewrite length_app. simpl. lia. }
  rewrite Hrun. rewrite length_app in Hmap, Hlen. cbn [List.length] in Hmap, Hlen.
  exists (sp ++ w ++ NUL :: tl), (List.length (pre ++ sp) :: vs).
  split; [by rewrite <- !app_assoc|]. split; [|simpl; lia]. rewrite (app_assoc pre sp). apply recorded_word; [done|].
  rewrite <- !app_assoc in Hmap. rewrite <- !app_assoc. etransitivity; [exact Hmap|].
  replace (max - (List.length v + 1))%nat with (S k) by lia. cbn [words_upto drop_while].
  pose proof (drop_while_head (fun c => negb (isspace c)) r1 d r4 Hr3) as Hx. apply negb_false_iff in Hx. by rewrite Hx.
Qed.

Lemma mkparam_spec line max :
  no_nul line -> (0 < max)%nat ->
  _mkparam line max = Some (words_upto max line) /\ (List.length (words_upto max line) <= max)%nat.
Proof.
  intros Hn Hmax. unfold _mkparam.
  destruct (mkparam_loop_spec (S (List.length line)) [] line [] max Hn) as (tl & vs & Hrun & Hmap & Hlen);
    [lia|simpl; lia|]. simpl in *. rewrite Nat.sub_0_r in *. rewrite Hrun. rewrite <- Hmap, length_map. done.
Qed.

(** ** Reasoning about runs *)

(** [m], started with history [h], has no undefined behaviour; a normal result
    satisfies [Q], and an exit leaves a history in [E]. *)
Definition wp {A} (E : list call -> Prop) (m : M A) (Q : A -> list call -> Prop) (h : list call) : Prop :=
  match m h with
  | (Ok a, h') => Q a h'
  | (Exited, h') => E h'
  | (Undefined, _) => False
  end.

Lemma wp_ret {A} E (a : A) Q h : Q a h -> wp E (ret_ a) Q h.
Proof. done. Qed.

Lemma wp_bind {A B} E (m : M A) (k : A -> M B) Q h :
  wp E m (fun a h' => wp E (k a) Q h') h -> wp E (bind_ m k) Q h.
Proof. unfold wp, bind_. by destruct (m h) as [[a| |] h']. Qed.

Lemma wp_assoc {A B C} E (m : M A) (k : A -> M B) (l : B -> M C) Q h :
  wp E (bind_ (bind_ m k) l) Q h -> wp E (bind_ m (fun a => bind_ (k a) l)) Q h.
Proof. unfold wp, bind_. by destruct (m h) as [[a| |] h']. Qed.

Lemma wp_mono {A} E (m : M A) (Q Q' : A -> list call -> Prop) h :
  (forall a h', Q a h' -> Q' a h') -> wp E m Q h -> wp E m Q' h.
Proof. unfold wp. intros HQ. destruct (m h) as [[a| |] h']; auto. Qed.

(** Every call that the two histories differ by satisfies [P]. *)
Definition adds (P : call -> Prop) (h h' : list call) : Prop := exists hs, h' = h ++ hs /\ Forall P hs.

Lemma adds_refl P h : adds P h h.
Proof. exists []. by rewrite app_nil_r. Qed.

Lemma adds_trans P h1 h2 h3 : adds P h1 h2 -> adds P h2 h3 -> adds P h1 h3.
Proof.
  intros (a & -> & Ha) (b & -> & Hb). exists (a ++ b). rewrite <- app_assoc. split; [done|].
  by apply Forall_app.
Qed.

Lemma adds_one (P : call -> Prop) h c : P c -> adds P h (h ++ [c]).
Proof. intros Hc. exists [c]. split; [done|]. by constructor. Qed.

#[local] Hint Resolve adds_refl adds_one : dingoo.

Section Runs.
Context (K : kernel) (P : call -> Prop).

(** From any history, [m] only makes calls that satisfy [P], has no undefined
    behaviour, and exits only if [ex] allows it. *)
Definition only {A} (ex : bool) (m : M A) : Prop :=
  forall h, wp (fun h' => ex = true /\ adds P h h') m (fun _ h' => adds P h h') h.

Lemma only_ret {A} ex (a : A) : only ex (ret_ a).
Proof. intros h. apply adds_refl. Qed.

Lemma only_bind {A B} ex (m : M A) (k : A -> M B) :
  only ex m -> (forall a, only ex (k a)) -> only ex (bind_ m k).
Proof.
  intros Hm Hk h. unfold wp, bind_. specialize (Hm h). unfold wp in Hm.
  destruct (m h) as [[a| |] h']; try done. specialize (Hk a h'). unfold wp in Hk.
  destruct (k a h') as [[b| |] h'']; try done; [by eapply adds_trans|].
  destruct Hk as [-> Hk]. split; [done|]. by eapply adds_trans.
Qed.

Lemma only_sys ex c : P c -> only ex (sys K c).
Proof. intros Hc h. unfold wp, sys. by apply adds_one. Qed.

Lemma only_fatal {A} ex : ex = true -> P (Csleep 3) -> only ex (@_fatal K A).
Proof.
  intros -> Hc. apply only_bind; [by apply only_sys|]. intros _ h. split; [done|apply adds_refl].
Qed.

Lemma only_weaken {A} (m : M A) : only false m -> only true m.
Proof. intros Hm h. specialize (Hm h). unfold wp in *. destruct (m h) as [[a| |] h']; naive_solver. Qed.

End Runs.

(** Case analysis along a program for [only]. *)
Ltac only_step :=
  match goal with
  | |- only _ _ (ret_ _) => apply only_ret
  | |- only _ _ (bind_ _ _) => apply only_bind; [|intros]
  | |- only _ _ (sys _ _) => apply only_sys
  | |- only _ _ (_fatal _) => apply only_fatal
  | |- only _ _ (if ?b then _ else _) => destruct b eqn:?
  | |- only _ _ (let '(_, _) := ?x in _) => destruct x as [? ?] eqn:?
  | |- only _ _ (match ?x with _ => _ end) => destruct x eqn:?
  end.
Ltac only_tac :=
  repeat only_step; auto;
  try match goal with H : _ && ?b = true |- ?b = true => by apply andb_true_iff in H as [_ ?] end.

(** The paths checked with [access], in order. *)
Definition is_access (c : call) : option str := match c with Caccess p _ => Some p | _ => None end.
Definition accesses (h : list call) : list str := omap is_access h.

Definition not_exec (c : call) : Prop := match c with Cexecv _ _ => False | _ => True end.

Section Kernel.
Context (K : kernel).

Lemma only_mkpath_loop P path buf mode fatal :
  (forall d, P (Cmkdir d mode)) -> P (Csleep 3) -> (List.length buf + List.length path < 256)%nat ->
  only P fatal (mkpath_loop K path buf mode fatal).
Proof.
  intros Hd Hs. revert buf. induction path as [|c path IH]; intros buf Hlen; cbn [mkpath_loop].
  - simpl in Hlen. rewrite (proj2 (Nat.ltb_lt _ _)) by lia. apply only_ret.
  - simpl in Hlen. rewrite (proj2 (Nat.ltb_lt _ _)) by lia.
    assert (only P fatal (mkpath_loop K path (buf ++ [c]) mode fatal))
      by (apply IH; rewrite length_app; simpl; lia).
    only_tac.
Qed.

Lemma only_mkdir P path mode fatal :
  (forall d, P (Cmkdir d mode)) -> P (Csleep 3) -> (List.length path <= 255)%nat ->
  only P fatal (_mkdir K path mode fatal).
Proof.
  intros Hd Hs Hlen. unfold _mkdir, _mkpath. apply only_bind; [|intros; only_tac].
  destruct path as [|c path]; [apply only_ret|]. apply only_mkpath_loop; auto. simpl in *. lia.
Qed.

Lemma only_mount P source target special flags data fatal :
  (forall d m, P (Cmkdir d m)) -> P (Csleep 3) -> (forall t, P (Cmount source target t special flags data)) ->
  P (Cfstype (default [] source)) -> (List.length target <= 255)%nat ->
  only P fatal (_mount K source target special flags data fatal).
Proof.
  intros Hd Hs Hm Hf Hlen. unfold _mount.
  apply only_bind; [by apply only_mkdir|]. intros r. only_tac.
Qed.

(** ** Comma-separated mounts *)

Definition not_comma (c : ascii) : bool := negb (bool_decide (c = ","%char)).

Lemma pieces_end rest : drop_while not_comma rest = [] -> pieces rest = [rest].
Proof.
  induction rest as [|c rest IH]; simpl; [done|]. unfold not_comma at 1.
  destruct (bool_decide (c = ","%char)); simpl; [done|]. intros Hd. by rewrite IH.
Qed.

Lemma pieces_comma rest c r :
  drop_while not_comma rest = c :: r -> c = ","%char /\ pieces rest = take_while not_comma rest :: pieces r.
Proof.
  induction rest as [|x rest IH]; simpl; [done|]. unfold not_comma at 1 3.
  destruct (bool_decide_reflect (x = ","%char)) as [->|]; simpl.
  - intros [= <- <-]. done.
  - intros Hd. destruct (IH Hd) as [-> ->]. done.
Qed.

(** A successful mount of one of [ps] on [target] is among the calls after [h]. *)
Definition mounted (ps : list str) (target : str) (h h' : list call) : Prop :=
  exists p h1 t sp fl da, p ∈ ps /\ h1 ++ [Cmount (Some p) target t sp fl da] `prefix_of` h' /\
    h `prefix_of` h1 /\ 0 <= ret (K (h1 ++ [Cmount (Some p) target t sp fl da])).

Lemma only_wp {A} P (m : M A) h :
  only P false m -> wp (fun _ => False) m (fun _ h' => adds P h h') h.
Proof. intros Hm. specialize (Hm h). unfold wp in *. destruct (m h) as [[a| |] h']; naive_solver. Qed.

(** Calls that neither check a path nor run a program. *)
Definition quiet (c : call) : Prop := is_access c = None /\ not_exec c.

Lemma quiet_not_exec h h' : adds quiet h h' -> adds not_exec h h'.
Proof. intros (hs & -> & Hhs). exists hs. split; [done|]. eapply Forall_impl; [exact Hhs|]. by intros c [_ ?]. Qed.

Lemma adds_prefix P h h' : adds P h h' -> h `prefix_of` h'.
Proof. intros (hs & -> & _). by exists hs. Qed.

(** A mount that reports success ends with a successful [mount] call. *)
Lemma mount_result source target special flags data h :
  (List.length target <= 255)%nat ->
  wp (fun _ => False) (_mount K source target special flags data false)
    (fun r h' => adds quiet h h' /\
       (0 <= r -> exists h1 t, h' = h1 ++ [Cmount source target t special flags data] /\
          h `prefix_of` h1 /\ 0 <= ret (K h'))) h.
Proof.
  intros Hlen. unfold _mount. apply wp_bind.
  eapply wp_mono; [|apply (only_wp quiet); by apply only_mkdir].
  intros r h1 Hh1. destruct (r <? 0) eqn:Hr; [apply wp_ret; split; [done|bool_lia]|].
  apply wp_bind.
  eapply wp_mono; [|apply (only_wp quiet); by only_tac].
  intros t h2 Hh2. assert (adds quiet h h2) as Hh by exact (adds_trans _ _ _ _ Hh1 Hh2).
  destruct t as [t|]; [|apply wp_ret; split; [done|lia]].
  apply wp_bind. unfold wp at 1, sys. rewrite andb_false_r. apply wp_ret.
  split; [eapply adds_trans; [exact Hh|by apply adds_one]|]. intros Hret. exists h2, t.
  split; [done|]. split; [|done]. destruct Hh as (hs & -> & _). by exists hs.
Qed.

Lemma accesses_adds h h' : adds quiet h h' -> accesses h' = accesses h.
Proof.
  intros (hs & -> & Hhs). unfold accesses. rewrite omap_app.
  replace (omap is_access hs) with (@nil str); [apply app_nil_r|].
  induction Hhs as [|c hs [Hc _] Hhs IH]; simpl; [done|]. by rewrite Hc.
Qed.

Lemma accesses_snoc h p m : accesses (h ++ [Caccess p m]) = accesses h ++ [p].
Proof. unfold accesses. by rewrite omap_app. Qed.

(** The first piece. *)
Lemma pieces_head rest :
  let p := take_while not_comma rest in p ∈ pieces rest /\ exists k, take k (pieces rest) = [p].
Proof.
  intros p. destruct (drop_while not_comma rest) as [|d r'] eqn:Hr.
  - pose proof (take_drop_while not_comma rest) as E. rewrite Hr, app_nil_r in E. unfold p. rewrite E.
    rewrite (pieces_end rest Hr). split; [by left|by exists 1%nat].
  - destruct (pieces_comma rest d r' Hr) as [_ ->]. split; [by left|]. by exists 1%nat.
Qed.

(** One piece: checked for access, then mounted. *)
Lemma try_piece p target special flags data h :
  (List.length target <= 255)%nat ->
  wp (fun _ => False)
    (bind_ (sys K (Caccess p R_OK)) (fun a =>
      if 0 <=? ret a then bind_ (_mount K (Some p) target special flags data false) (fun r => ret_ (0 <=? r))
      else ret_ false))
    (fun ok h2 => adds not_exec h h2 /\ accesses h2 = accesses h ++ [p] /\
       (ok = true -> exists h3 t, h2 = h3 ++ [Cmount (Some p) target t special flags data] /\
          h `prefix_of` h3 /\ 0 <= ret (K h2))) h.
Proof.
  intros Ht. apply wp_bind. unfold wp at 1, sys. rewrite <- (accesses_snoc h p R_OK).
  set (h1 := h ++ [Caccess p R_OK]).
  assert (adds not_exec h h1) as Hp1 by (by apply adds_one).
  destruct (0 <=? ret (K h1)); [|apply wp_ret; split; [done|done]]. apply wp_bind.
  eapply wp_mono; [|by apply mount_result]. intros x h2 [Ha Hok]. apply wp_ret.
  split; [exact (adds_trans _ _ _ _ Hp1 (quiet_not_exec _ _ Ha))|].
  split; [by apply accesses_adds|]. intros Hx.
  destruct (Hok ltac:(bool_lia)) as (h3 & t & -> & Hpre & Hret). exists h3, t. split; [done|].
  split; [transitivity h1; [by eapply adds_prefix|done]|done].
Qed.

(** One round over the pieces of [rest]: the buffer is restored, the pieces are
    tried in order up to the first that mounts. *)
Lemma pieces_loop_spec fuel pre rest target special flags data h :
  no_nul rest -> (List.length rest < fuel)%nat -> (List.length target <= 255)%nat ->
  wp (fun _ => False)
    (pieces_loop K fuel (pre ++ rest ++ [NUL]) (List.length pre) target special flags data)
    (fun r h' => adds not_exec h h' /\ r.2 = pre ++ rest ++ [NUL] /\
       if r.1 then (exists k, accesses h' = accesses h ++ take k (pieces rest)) /\
                   mounted (pieces rest) target h h'
       else accesses h' = accesses h ++ pieces rest) h.
Proof.
  revert pre rest h. induction fuel as [|fuel IH]; intros pre rest h Hn Hf Ht; [lia|].
  cbn [pieces_loop]. unfold piece_end. change (fun c => negb (bool_decide (c = ","%char))) with not_comma.
  rewrite scan_while_spec by (done || (rewrite !length_app; simpl; lia)).
  set (p := take_while not_comma rest). set (r := drop_while not_comma rest).
  assert (rest = p ++ r) as Hrest by (symmetry; apply take_drop_while).
  assert (no_nul p) as Hnp by (by apply no_nul_take_while).
  assert (no_nul r) as Hnr by (by apply no_nul_drop_while).
  set (c := match r with [] => NUL | c :: _ => c end).
  set (tl := match r with [] => [] | _ :: r' => r' ++ [NUL] end).
  assert (pre ++ rest ++ [NUL] = (pre ++ p) ++ c :: tl) as Hbuf.
  { rewrite Hrest. unfold c, tl. destruct r; by rewrite <- !app_assoc. }
  rewrite Hbuf, <- length_app, lookup_end, insert_end.
  replace (drop (List.length pre) ((pre ++ p) ++ NUL :: tl)) with (p ++ NUL :: tl)
    by (rewrite <- app_assoc; by rewrite drop_prefix).
  rewrite cstr_app_nul, insert_end by done. apply wp_assoc, wp_bind.
  eapply wp_mono; [|by apply try_piece]. intros ok h2 (Hp & Ha2 & Hok).
  destruct (pieces_head rest) as [Hin Htk]. fold p in Hin, Htk.
  destruct ok.
  { apply wp_ret. split; [done|]. split; [done|]. simpl. split.
    - destruct Htk as [k Hk]. exists k. by rewrite Hk.
    - destruct (Hok eq_refl) as (h3 & t & -> & Hp3 & Hret).
      exists p, h3, t, special, flags, data. split; [done|]. split; [done|].
      done. }
  destruct r as [|d r'] eqn:Hr.
  - rewrite bool_decide_false by done. apply wp_ret. split; [done|]. split; [done|]. simpl.
    rewrite (pieces_end rest Hr). assert (p = rest) as -> by (by rewrite Hrest, app_nil_r). done.
  - destruct (pieces_comma rest d r' Hr) as [Hd Hps]. unfold c. rewrite bool_decide_true by done.
    specialize (IH ((pre ++ p) ++ [d]) r' h2). rewrite length_app in IH. cbn [List.length] in IH.
    replace (S (List.length (pre ++ p))) with (List.length (pre ++ p) + 1)%nat by lia.
    rewrite <- (app_assoc (pre ++ p)) in IH. cbn [app] in IH.
    eapply wp_mono; [|apply IH; [by apply Forall_cons in Hnr as [_ ?]| |done]].
    2: { assert (List.length rest = (List.length p + S (List.length r'))%nat) as E
           by (rewrite Hrest, length_app; done). lia. }
    intros [ok buf'] h' (Hp' & Hb' & Hres). simpl in *. split; [exact (adds_trans _ _ _ _ Hp Hp')|]. split; [done|].
    rewrite Hps. destruct ok.
    + destruct Hres as [[k Hk] Hm]. split.
      * exists (S k). rewrite Hk, Ha2, <- app_assoc. done.
      * destruct Hm as (q & h4 & t & sp & fl & da & Hq & Hpre & Hh4 & Hret).
        exists q, h4, t, sp, fl, da. split; [by right|]. split; [done|].
        split; [transitivity h2; [by eapply adds_prefix|done]|done].
    + rewrite Hres, Ha2, <- app_assoc. done.
Qed.

Lemma mounted_mono ps target h0 h h' : h0 `prefix_of` h -> mounted ps target h h' -> mounted ps target h0 h'.
Proof.
  intros Hp (p & h1 & t & sp & fl & da & Hin & Hpre & Hh & Hr).
  exists p, h1, t, sp, fl, da. split; [done|]. split; [done|]. split; [by transitivity h|done].
Qed.

(** What a multiple mount with [n] rounds does to the history. *)
Definition tried (n : nat) (src target : str) (fatal : bool) (h : list call) (r : Z * str) (h' : list call) : Prop :=
  adds not_exec h h' /\ r.2 = src ++ [NUL] /\
  ((r.1 = 0 /\ mounted (pieces src) target h h' /\
      exists k, accesses h' = accesses h ++ take k (mjoin (replicate n (pieces src)))) \/
   (r.1 = -1 /\ fatal = false /\ accesses h' = accesses h ++ mjoin (replicate n (pieces src)))).

Lemma tries_loop_spec n src target special flags data fatal h :
  no_nul src -> (List.length target <= 255)%nat ->
  wp (fun h' => fatal = true /\ adds not_exec h h' /\
        accesses h' = accesses h ++ mjoin (replicate n (pieces src)))
    (tries_loop K n (src ++ [NUL]) target special flags data fatal)
    (tried n src target fatal h) h.
Proof.
  intros Hn Ht. revert h. induction n as [|n IH]; intros h; cbn [tries_loop].
  - destruct fatal.
    + unfold wp. simpl. split; [done|]. split; [by apply adds_one|]. rewrite app_nil_r. unfold accesses. rewrite omap_app. apply app_nil_r.
    + apply wp_ret. split; [apply adds_refl|]. split; [done|]. right. rewrite app_nil_r. done.
  - apply wp_bind.
    pose proof (pieces_loop_spec (S (List.length (src ++ [NUL]))) [] src target special flags data h Hn
      ltac:(rewrite length_app; lia) Ht) as Hround. cbn [app List.length] in Hround.
    unfold wp at 1. unfold wp in Hround.
    destruct (pieces_loop K (S (List.length (src ++ [NUL]))) (src ++ [NUL]) 0 target special flags data h)
      as [[[ok buf]| |] h1]; [|done|done].
    destruct Hround as (Hp & Hb & Hres). simpl in Hb, Hres. subst buf. destruct ok.
    + apply wp_ret. destruct Hres as [[k Hk] Hm]. split; [done|]. split; [done|]. left.
      split; [done|]. split; [done|]. exists (k `min` List.length (pieces src))%nat. rewrite Hk. f_equal. simpl.
      rewrite take_app_le by lia. destruct (Nat.le_gt_cases k (List.length (pieces src))).
      * by rewrite Nat.min_l.
      * by rewrite Nat.min_r, !take_ge by lia.
    + apply wp_bind. unfold wp at 1, sys. set (h2 := h1 ++ [Cusleep 100000]).
      assert (accesses h2 = accesses h ++ pieces src) as Ha2.
      { unfold h2, accesses. rewrite omap_app. simpl. rewrite app_nil_r. exact Hres. }
      assert (adds not_exec h h2) as Hp2 by (eapply adds_trans; [exact Hp|by apply adds_one]).
      specialize (IH h2). unfold wp in *.
      destruct (tries_loop K n (src ++ [NUL]) target special flags data fatal h2) as [[r| |] h3]; [| |done].
      * destruct IH as (Hp3 & Hb3 & IH). split; [exact (adds_trans _ _ _ _ Hp2 Hp3)|]. split; [done|].
        destruct IH as [(Hr & Hm & k & Hk)|(Hr & Hf & Hk)]; [left|right].
        -- split; [done|]. split; [eapply mounted_mono; [by eapply adds_prefix|done]|].
           exists (List.length (pieces src) + k)%nat. rewrite Hk, Ha2, <- app_assoc. f_equal. simpl.
           rewrite take_app_add'; done.
        -- split; [done|]. split; [done|]. rewrite Hk, Ha2, <- app_assoc. done.
      * destruct IH as (-> & Hp3 & Hk). split; [done|]. split; [exact (adds_trans _ _ _ _ Hp2 Hp3)|]. rewrite Hk, Ha2, <- app_assoc. done.
Qed.

End Kernel.

(** C17: splitting the command line.  For a line without NUL characters
    [_mkparam] stays inside the buffer and returns the words in order; when
    there are more than [maxparam], the last parameter is the rest of the line.
    At most [maxparam] are returned, so [paramv] is never overrun. *)
Theorem mkparam_splits (line : str) (maxparam : nat) :
  no_nul line -> (0 < maxparam)%nat ->
  _mkparam line maxparam = Some (words_upto maxparam line) /\
  (List.length (words_upto maxparam line) <= maxparam)%nat.
Proof. intros Hn Hm. exact (mkparam_spec line maxparam Hn Hm). Qed.

(** Mounting from a list.  Whatever the kernel answers, [_multimount] has
    no undefined behaviour and leaves the list as it was; it checks the pieces
    in order, round after round, returns 0 only after a successful mount of one
    of them, and gives up (exiting if the mount is vital) only after checking
    every piece in each of the [retries] rounds. *)
Theorem multimount_tries (K : kernel) (src target : str) (special : option str) (flags : Z)
    (data : option str) (retries : nat) (fatal : bool) (h : list call) :
  no_nul src -> (List.length target <= 255)%nat ->
  wp (fun h' => fatal = true /\ adds not_exec h h' /\
        accesses h' = accesses h ++ mjoin (replicate retries (pieces src)))
    (_multimount K (src ++ [NUL]) target special flags data retries fatal)
    (tried K retries src target fatal h) h.
Proof. intros Hn Ht. by apply tries_loop_spec. Qed.

(** ** The whole run *)

Section Main.
Context (K : kernel).

Definition clean (h : list call) : Prop := Forall not_exec h.

Definition chrooted (h : list call) : Prop :=
  exists h0, h0 ++ [Cchroot (lit ".")] `prefix_of` h /\ 0 <= ret (K (h0 ++ [Cchroot (lit ".")])).

(** [line] is what was read from /proc/cmdline. *)
Definition command_line (line : str) (h : list call) : Prop := exists h0,
  let ho := h0 ++ [Copen (lit "/proc/cmdline") O_RDONLY] in
  let hr := ho ++ [Cread (ret (K ho)) 4095] in
  hr `prefix_of` h /\ 0 <= ret (K hr) /\ line = line_of (K hr).

(** The program to start: the last "init=" value or, when there is none, one of
    the usual places. *)
Definition init_program (line p : str) : Prop :=
  exists sbuf, init_param (words_upto 62 line) [] = Some sbuf /\ match sbuf with [] => p ∈ inits | _ => p = sbuf end.

(** If a program was executed at all, it was the last thing but the final
    sleep, after a successful mount of the command line's root device and
    [chroot], and with the words of the command line as its arguments. *)
Definition exec_ok (h : list call) : Prop :=
  forall p argv, Cexecv p argv ∈ h -> exists h1 line src,
    h = h1 ++ [Cexecv p argv; Csleep 3] /\ clean h1 /\ chrooted h1 /\ command_line line h1 /\
    find_param (lit "root=") (words_upto 62 line) = Some src /\
    mounted K (pieces src) (lit "/root") [] h1 /\ argv = p :: words_upto 62 line /\ init_program line p.

Lemma clean_exec_ok h : clean h -> exec_ok h.
Proof. intros Hc p argv Hin. unfold clean in Hc. rewrite Forall_forall in Hc. by apply Hc in Hin. Qed.

Lemma clean_adds h h' : clean h -> adds not_exec h h' -> clean h'.
Proof. intros Hc (hs & -> & Hhs). by apply Forall_app. Qed.

Lemma wp_only {A} ex (m : M A) h :
  only not_exec ex m -> clean h -> wp exec_ok m (fun _ h' => clean h' /\ h `prefix_of` h') h.
Proof.
  intros Hm Hc. specialize (Hm h). unfold wp in *. destruct (m h) as [[a| |] h']; [| |done].
  - split; [by eapply clean_adds|by eapply adds_prefix].
  - destruct Hm as [_ Hm]. apply clean_exec_ok. by eapply clean_adds.
Qed.

Lemma wp_seq_only {A B} ex (m : M A) (k : A -> M B) Q h :
  only not_exec ex m -> clean h ->
  (forall a h', clean h' -> h `prefix_of` h' -> wp exec_ok (k a) Q h') -> wp exec_ok (bind_ m k) Q h.
Proof.
  intros Hm Hc Hk. apply wp_bind. eapply wp_mono; [|by eapply wp_only].
  intros a h' [Hc' Hp]. by apply Hk.
Qed.

Lemma wp_fatal {A} (Q : A -> list call -> Prop) h : clean h -> wp exec_ok (_fatal K) Q h.
Proof. intros Hc. unfold wp. simpl. apply clean_exec_ok, Forall_app. split; [done|by constructor]. Qed.

Lemma only_mount_lit source target special flags data fatal :
  (List.length target <= 255)%nat -> only not_exec fatal (_mount K source target special flags data fatal).
Proof. intros Hlen. by apply only_mount. Qed.

Lemma only_umount target ex : only not_exec ex (_umount K target).
Proof. unfold _umount. only_tac; done. Qed.

Lemma only_dup_to f n k : only not_exec true k -> only not_exec true (dup_to K f n k).
Proof. intros Hk. unfold dup_to. only_tac; done. Qed.

Lemma only_losetup loop file : only not_exec true (_losetup K loop file true).
Proof. unfold _losetup, losetup. only_tac; done. Qed.

Lemma only_loops params : only not_exec true (loops K params).
Proof.
  induction params as [|s params IH]; cbn [loops]; [apply only_ret|].
  destruct (prefixed (lit "loop") s && bool_decide (s !! 5%nat = Some "="%char)) eqn:Hg; [|done].
  apply andb_true_iff in Hg as [_ Hg%bool_decide_eq_true].
  only_step; [apply only_bind; [apply only_losetup|done]|].
  apply lookup_ge_None in Heqo. apply lookup_lt_Some in Hg. lia.
Qed.

Lemma only_locate l : only not_exec true (locate_init K l).
Proof. induction l as [|s l IH]; cbn [locate_init]; only_tac; done. Qed.

(** Switching the root: on return the root has been changed. *)
Lemma switch_root_spec h :
  clean h -> wp exec_ok (switch_root K) (fun _ h' => clean h' /\ h `prefix_of` h' /\ chrooted h') h.
Proof.
  intros Hc. unfold switch_root.
  apply (wp_seq_only true); [by apply only_sys|done|]. intros a h1 Hc1 Hp1.
  destruct (ret a <? 0); [by apply wp_fatal|].
  apply (wp_seq_only true); [by apply only_sys|done|]. intros f h2 Hc2 Hp2.
  destruct (ret f <? 0); [by apply wp_fatal|].
  apply (wp_seq_only true); [repeat apply only_dup_to; apply only_ret|done|]. intros _ h3 Hc3 Hp3.
  apply (wp_seq_only true); [by only_tac|done|]. intros _ h4 Hc4 Hp4.
  apply (wp_seq_only true); [by apply only_sys|done|]. intros g h5 Hc5 Hp5.
  apply (wp_seq_only true); [apply only_umount|done|]. intros _ h6 Hc6 Hp6.
  apply (wp_seq_only true); [apply only_umount|done|]. intros _ h7 Hc7 Hp7.
  apply (wp_seq_only true); [by apply only_mount_lit; simpl; lia|done|]. intros _ h8 Hc8 Hp8.
  assert (h `prefix_of` h8) as Hp.
  { repeat (etransitivity; [eassumption|]). reflexivity. }
  apply wp_bind. unfold wp at 1, sys. set (h9 := h8 ++ [Cchroot (lit ".")]).
  assert (clean h9) as Hc9 by (apply Forall_app; split; [done|by constructor]).
  destruct (ret (K h9) <? 0) eqn:Hr; [by apply wp_fatal|].
  apply (wp_seq_only true); [by apply only_sys|done|]. intros c h10 Hc10 Hp10.
  destruct (ret c <? 0); [by apply wp_fatal|].
  apply (wp_seq_only true); [by apply only_sys|done|]. intros d h11 Hc11 Hp11.
  assert (h9 `prefix_of` h11) as Hp9 by (by transitivity h10).
  apply wp_ret. split; [done|]. split.
  - transitivity h8; [done|]. transitivity h9; [by eexists|done].
  - exists h8. split; [done|]. apply Z.ltb_ge in Hr. exact Hr.
Qed.

(** read(2): it returns the number of bytes that it stores, at most those asked
    for. *)
Definition read_law : Prop := forall h fd n, let a := K (h ++ [Cread fd n]) in
  0 <= ret a -> ret a <= n /\ ret a <= Z.of_nat (List.length (bytes a)).

Lemma read_line_spec h :
  read_law -> clean h ->
  wp exec_ok (_read_line K (lit "/proc/cmdline") 4096 true)
    (fun r h' => clean h' /\ exists line, r = inl line /\ command_line line h') h.
Proof.
  intros Hlaw Hc. unfold _read_line. apply wp_bind. unfold wp at 1, sys.
  set (h1 := h ++ [Copen (lit "/proc/cmdline") O_RDONLY]).
  assert (clean h1) as Hc1 by (apply Forall_app; split; [done|by constructor]).
  destruct (ret (K h1) <? 0); [by apply wp_fatal|].
  apply wp_bind. unfold wp at 1, sys. change (4096 - 1) with 4095. set (h2 := h1 ++ [Cread (ret (K h1)) 4095]).
  assert (clean h2) as Hc2 by (apply Forall_app; split; [done|by constructor]).
  apply (wp_seq_only true); [by apply only_sys|done|]. intros c h3 Hc3 Hp3.
  destruct (Z.ltb_spec (ret (K h2)) 0); [by apply wp_fatal|].
  destruct (Hlaw h1 (ret (K h1)) 4095) as [H1 H2]; [done|]. fold h2 in H1, H2.
  rewrite !(proj2 (Z.leb_le _ _)) by done. apply wp_ret. split; [done|].
  exists (line_of (K h2)). split; [done|]. by exists h.
Qed.

Lemma cstr_no_nul b : no_nul (cstr b).
Proof.
  induction b as [|c b IH]; simpl; [by constructor|].
  destruct (bool_decide_reflect (c = NUL)); [by constructor|by constructor].
Qed.

Lemma first_line_no_nul s : no_nul s -> no_nul (first_line s).
Proof. induction 1 as [|c s Hc Hs IH]; simpl; [by constructor|]. case_match; [by constructor|by constructor]. Qed.

Lemma find_param_no_nul p params src : Forall no_nul params -> find_param p params = Some src -> no_nul src.
Proof.
  induction 1 as [|s params Hs Hps IH]; simpl; [done|]. case_match; [|done].
  intros [= <-]. by apply Forall_drop.
Qed.

Lemma words_no_nul n l : no_nul l -> Forall no_nul (words_upto n l).
Proof.
  revert l. induction n as [|n IH]; intros l Hl; cbn [words_upto]; [done|].
  pose proof (no_nul_drop_while isspace l Hl) as Hd.
  destruct (drop_while isspace l) as [|c r] eqn:Hr; [done|]. destruct n as [|n]; [by constructor|].
  constructor; [by apply no_nul_take_while|]. by apply IH, no_nul_drop_while.
Qed.

Lemma multimount_clean src target special flags data n h :
  no_nul src -> (List.length target <= 255)%nat -> clean h ->
  wp exec_ok (_multimount K (src ++ [NUL]) target special flags data n true)
    (fun _ h' => clean h' /\ h `prefix_of` h' /\ mounted K (pieces src) target h h') h.
Proof.
  intros Hn Ht Hc. pose proof (tries_loop_spec K n src target special flags data true h Hn Ht) as Hw.
  unfold wp, _multimount in *. destruct (tries_loop _ _ _ _ _ _ _ _ h) as [[r| |] h']; [| |done].
  - destruct Hw as (Ha & _ & [(_ & Hm & _)|(_ & ? & _)]); [|done].
    split; [by eapply clean_adds|]. split; [by eapply adds_prefix|done].
  - destruct Hw as (_ & Ha & _). apply clean_exec_ok. by eapply clean_adds.
Qed.

(** No "init=" value of a command line that the kernel may return overruns the
    256-byte buffer. *)
Definition init_fits : Prop := forall h, init_param (words_upto 62 (line_of (K h))) [] <> None.

Lemma mounted_extend ps target h h' h'' :
  mounted K ps target h h' -> h' `prefix_of` h'' -> mounted K ps target h h''.
Proof.
  intros (p & h1 & t & sp & fl & da & Hin & Hpre & Hh & Hr) Hp.
  exists p, h1, t, sp, fl, da. split; [done|]. split; [by transitivity h'|done].
Qed.

Lemma locate_spec sbuf h :
  clean h ->
  wp exec_ok (match sbuf with [] => locate_init K inits | _ => ret_ sbuf end)
    (fun p h' => clean h' /\ h `prefix_of` h' /\ match sbuf with [] => p ∈ inits | _ => p = sbuf end) h.
Proof.
  intros Hc. destruct sbuf as [|c sbuf]; [|by apply wp_ret].
  assert (forall l h, clean h -> wp exec_ok (locate_init K l) (fun p h' => clean h' /\ h `prefix_of` h' /\ p ∈ l) h) as Hl;
    [|by apply Hl].
  clear h Hc. induction l as [|s l IH]; intros h Hc; cbn [locate_init]; [by apply wp_fatal|].
  apply (wp_seq_only true); [by apply only_sys|done|]. intros a h1 Hc1 Hp1.
  destruct (ret a <? 0); [|by apply wp_ret; split_and!; [..|by left]].
  eapply wp_mono; [|by apply IH]. intros p h2 (Hc2 & Hp2 & Hin). split; [done|]. split; [by transitivity h1|by right].
Qed.

(** The end of [main]: locating and executing init. *)
Lemma run_init_spec params sbuf src h (line : str) :
  init_param params [] = Some sbuf -> params = words_upto 62 line -> command_line line h ->
  find_param (lit "root=") params = Some src -> clean h -> chrooted h -> mounted K (pieces src) (lit "/root") [] h ->
  wp exec_ok
    (bind_ (match sbuf with [] => locate_init K inits | _ => ret_ sbuf end)
      (fun path => bind_ (sys K (Cexecv path (path :: params))) (fun _ => _fatal K)))
    (fun (_ : unit) _ => False) h.
Proof.
  intros Hi -> Hl Hroot Hc Hr Hm. apply wp_bind. eapply wp_mono; [|by apply (locate_spec sbuf)].
  intros path h1 (Hc1 & Hp1 & Hpath). unfold wp. simpl. intros p argv Hin.
  rewrite <- app_assoc in Hin. apply elem_of_app in Hin as [Hin|Hin].
  { unfold clean in Hc1. rewrite Forall_forall in Hc1. by apply Hc1 in Hin. }
  simpl in Hin. apply elem_of_cons in Hin as [[= -> ->]|Hin]; [|set_solver].
  exists h1, line, src. rewrite <- app_assoc. split; [done|]. split; [done|].
  split; [|split; [|split; [done|split; [by eapply mounted_extend|split; [done|by exists sbuf]]]]].
  - destruct Hr as (h0 & Hp0 & Hr0). exists h0. split; [by transitivity h|done].
  - destruct Hl as (h0 & Hp0 & Hr0). exists h0. split; [by transitivity h|done].
Qed.

Lemma main_spec : read_law -> init_fits -> wp exec_ok (main K) (fun _ _ => False) [].
Proof.
  intros Hlaw Hfit. unfold main.
  apply (wp_seq_only true); [by apply only_mount_lit; simpl; lia|by constructor|]. intros _ h1 Hc1 _.
  apply (wp_seq_only true); [by apply only_mount_lit; simpl; lia|done|]. intros _ h2 Hc2 _.
  apply wp_bind. eapply wp_mono; [|by apply read_line_spec].
  intros r h3 (Hc3 & line & -> & Hline).
  assert (no_nul line) as Hnl by (destruct Hline as (? & _ & _ & ->); apply first_line_no_nul, cstr_no_nul).
  destruct (mkparam_spec line 62 Hnl ltac:(lia)) as [-> _].
  pose proof (words_no_nul 62 line Hnl) as Hw.
  assert (init_param (words_upto 62 line) [] <> None) as Hi by (destruct Hline as (? & _ & _ & ->); apply Hfit).
  destruct (init_param (words_upto 62 line) []) as [sbuf|] eqn:Hinit; [|done].
  set (params := words_upto 62 line) in *.
  assert (forall h, clean h -> wp exec_ok
    (match find_param (lit "boot=") params with
     | Some src => bind_ (_multimount K (src ++ [NUL]) (lit "/boot") None MS_RDONLY (Some (lit "utf8")) 20 true)
                     (fun _ => ret_ true)
     | None => ret_ false end) (fun _ h' => clean h' /\ h `prefix_of` h') h) as Hboot.
  { intros h Hc. destruct (find_param (lit "boot=") params) as [src|] eqn:Hf; [|by apply wp_ret].
    apply wp_bind. eapply wp_mono; [|apply multimount_clean; [by eapply find_param_no_nul|simpl; lia|done]].
    intros _ h' (Hc' & Hp' & _). by apply wp_ret. }
  apply wp_bind. eapply wp_mono; [|by apply Hboot]. clear Hboot. intros boot h4 [Hc4 Hp4].
  apply (wp_seq_only true); [apply only_loops|done|]. intros _ h5 Hc5 Hp5.
  destruct (find_param (lit "root=") params) as [src|] eqn:Hroot.
  2: { apply wp_bind. by apply wp_fatal. }
  apply wp_bind, wp_bind. eapply wp_mono;
    [|apply multimount_clean; [by eapply find_param_no_nul|simpl; lia|done]].
  intros _ h6 (Hc6 & Hp6 & Hm). apply wp_ret.
  apply (mounted_mono K _ _ [] h5 h6) in Hm; [|apply prefix_nil].
  apply (wp_seq_only true);
    [destruct boot; [apply only_bind; [by apply only_mount_lit; simpl; lia|intros; apply only_ret]|apply only_ret]
    |done|]. intros _ h7 Hc7 Hp7.
  apply wp_bind. eapply wp_mono; [|by apply switch_root_spec]. intros _ h8 (Hc8 & Hp8 & Hch).
  eapply (run_init_spec params sbuf src h8 line); [done|done| |done|done|done|].
  { destruct Hline as (h0 & Hp0 & Hr0). exists h0. split; [|done]. by repeat (etransitivity; [eassumption|]). }
  eapply mounted_extend; [exact Hm|by transitivity h7].
Qed.

End Main.


(** ** A concrete kernel *)

Definition sample_cmdline : str :=
  lit "console=tty0 boot=/dev/mmcblk0p1 loop1=/boot/local root=/dev/mmcblk0p2,/dev/loop1 init=/sbin/init2 quiet".

(** The first root device does not exist; everything else works. *)
Definition sample_kernel (cmdline : str) : kernel := fun h =>
  let ans r := Answer r 0 [] (Device false (fun _ => None)) in
  match last h with
  | Some (Cread _ n) => Answer (Z.min n (Z.of_nat (List.length cmdline))) 0 cmdline (Device false (fun _ => None))
  | Some (Cdup2 _ n) => ans n
  | Some (Copen _ _) => ans 3
  | Some (Caccess p _) => ans (if bool_decide (p = lit "/dev/mmcblk0p2") then -1 else 0)
  | Some (Cfstype _) => Answer 0 0 [] sample_device
  | Some (Cexecv _ _) => ans (-1)
  | _ => ans 0
  end.

Lemma sample_no_nul : no_nul sample_cmdline.
Proof. apply (bool_decide_unpack _). vm_compute. exact I. Qed.

Lemma mkparam_splits_witness :
  _mkparam sample_cmdline 62 = Some (words_upto 62 sample_cmdline) /\
  (List.length (words_upto 62 sample_cmdline) <= 62)%nat.
Proof. apply (mkparam_splits sample_cmdline 62); [exact sample_no_nul|lia]. Defined.

Lemma multimount_tries_witness :
  wp (fun h' => true = true /\ adds not_exec [] h' /\ accesses h' = [] ++
        mjoin (replicate 20 (pieces (lit "/dev/mmcblk0p2,/dev/loop1"))))
    (_multimount (sample_kernel []) (lit "/dev/mmcblk0p2,/dev/loop1" ++ [NUL]) (lit "/root") None MS_RDONLY None 20 true)
    (tried (sample_kernel []) 20 (lit "/dev/mmcblk0p2,/dev/loop1") (lit "/root") true []) [].
Proof.
  apply (multimount_tries (sample_kernel []) (lit "/dev/mmcblk0p2,/dev/loop1") (lit "/root") None MS_RDONLY None 20 true []).
  - apply (bool_decide_unpack _). vm_compute. exact I.
  - vm_compute. lia.
Defined.

Lemma sample_read_law cmdline : read_law (sample_kernel cmdline).
Proof. intros h fd n a _. unfold a, sample_kernel. rewrite last_snoc. simpl. lia. Qed.

(** The whole line fits, and so does any part of it. *)
Lemma sample_init_fits : init_fits (sample_kernel sample_cmdline).
Proof.
  intros h. unfold sample_kernel, line_of.
  destruct (last h) as [[]|]; cbn [bytes ret]; rewrite ?take_nil;
    lazymatch goal with |- context [Z.min] => idtac | _ => by vm_compute end.
  assert (forall k, (k <= List.length sample_cmdline)%nat ->
    init_param (words_upto 62 (first_line (cstr (take k sample_cmdline)))) [] <> None) as Hk; [|apply Hk; lia].
  intros k Hk. assert (k ∈ seq 0 (S (List.length sample_cmdline))) as Hs by (apply elem_of_seq; lia).
  clear Hk. revert k Hs. apply Forall_forall. apply (bool_decide_unpack _). vm_compute. exact I.
Qed.


(** The run mounts the second root device and executes the given init. *)
Example sample_run :
  let h := (main (sample_kernel sample_cmdline) []).2 in
  Cmount (Some (lit "/dev/loop1")) (lit "/root") (Some ext3) None MS_RDONLY None ∈ h /\
  last (take (List.length h - 1) h) =
    Some (Cexecv (lit "/sbin/init2") (lit "/sbin/init2" :: words_upto 62 sample_cmdline)).
Proof.
  split; [|vm_compute; reflexivity].
  apply (list_elem_of_lookup_2 _ 21). vm_compute. reflexivity.
Qed.

(** A long "init=" value overruns [sbuf]. *)
Example long_init_overruns :
  (main (sample_kernel (lit "root=/dev/loop1 init=/" ++ replicate 300 "a"%char)) []).1 = Undefined.
Proof. vm_compute. reflexivity. Qed.
