(* ===== verification/Dma.v ===== *)
(** * DMA channel management (arch/mips/jz4740/dma.c, mach-jz4740/dma.h)

    Six channels are handed out to drivers by device id; each has a software
    record ([jz_dma_chan]) and a set of hardware registers.  The model has the
    table, the registers and the interrupt lines that are held.  Accesses to
    channel records outside of the table are undefined ([None]). *)

From S2P Require Import Prelude.

#[local] Arguments Z.eqb : simpl never.
#[local] Arguments Z.ltb : simpl never.
#[local] Arguments Z.leb : simpl never.
#[local] Arguments Z.land : simpl never.
#[local] Arguments Z.lor : simpl never.
#[local] Arguments Z.testbit : simpl never.
#[local] Arguments Z.add : simpl never.
#[local] Arguments Z.of_nat : simpl never.

(** ** Constants *)

Definition MAX_DMA_NUM : Z := 6.
Definition IRQ_DMA_0 : Z := 32.
Definition EINVAL : Z := 22.
Definition ENODEV : Z := 19.

(** Device ids. *)
Definition DMA_ID_AUTO : Z := 9.
Definition DMA_ID_RAW_SET : Z := 10.
Definition DMA_ID_MAX : Z := 11.

Definition DMA_MODE_READ : Z := 0.
Definition DMA_MODE_WRITE : Z := 1.
Definition DMA_AUTOINIT : Z := 2.
Definition DMA_MODE_MASK : Z := 3.

Definition DMAC_DCMD_SAI : Z := 2 ^ 23.
Definition DMAC_DCMD_DAI : Z := 2 ^ 22.
Definition DMAC_DCMD_SWDH_MASK : Z := Z.shiftl 3 14.
Definition DMAC_DCMD_SWDH_32 : Z := 0.
Definition DMAC_DCMD_SWDH_8 : Z := Z.shiftl 1 14.
Definition DMAC_DCMD_SWDH_16 : Z := Z.shiftl 2 14.
Definition DMAC_DCMD_DWDH_MASK : Z := Z.shiftl 3 12.
Definition DMAC_DCMD_DWDH_32 : Z := 0.
Definition DMAC_DCMD_DWDH_8 : Z := Z.shiftl 1 12.
Definition DMAC_DCMD_DWDH_16 : Z := Z.shiftl 2 12.
Definition DMAC_DCMD_DS_BIT : Z := 8.
Definition DMAC_DCMD_DS_MASK : Z := Z.shiftl 7 8.
Definition DMAC_DCMD_DS_32BIT : Z := 0.
Definition DMAC_DCMD_DS_8BIT : Z := Z.shiftl 1 8.
Definition DMAC_DCMD_DS_16BIT : Z := Z.shiftl 2 8.
Definition DMAC_DCMD_DS_16BYTE : Z := Z.shiftl 3 8.
Definition DMAC_DCMD_DS_32BYTE : Z := Z.shiftl 4 8.
Definition DMAC_DCMD_TIE : Z := 2 ^ 1.
Definition DMAC_DCCSR_NDES : Z := 2 ^ 31.
Definition DMAC_DCCSR_AR : Z := 2 ^ 4.
Definition DMAC_DCCSR_TT : Z := 2 ^ 3.
Definition DMAC_DCCSR_HLT : Z := 2 ^ 2.
Definition DMAC_DCCSR_EN : Z := 2 ^ 0.

Definition DMA_8BIT_TX_CMD : Z := Z.lor DMAC_DCMD_SAI (Z.lor DMAC_DCMD_DWDH_8 DMAC_DCMD_DS_8BIT).
Definition DMA_8BIT_RX_CMD : Z := Z.lor DMAC_DCMD_DAI (Z.lor DMAC_DCMD_SWDH_8 DMAC_DCMD_DS_8BIT).
Definition DMA_32BIT_TX_CMD : Z := DMAC_DCMD_SAI.
Definition DMA_32BIT_RX_CMD : Z := DMAC_DCMD_DAI.
Definition DMA_AIC_32_16BYTE_TX_CMD : Z := Z.lor DMAC_DCMD_SAI DMAC_DCMD_DS_16BYTE.
Definition DMA_AIC_32_16BYTE_RX_CMD : Z := Z.lor DMAC_DCMD_DAI DMAC_DCMD_DS_16BYTE.
Definition DMA_AIC_16BYTE_TX_CMD : Z :=
  Z.lor DMAC_DCMD_SAI (Z.lor DMAC_DCMD_SWDH_16 (Z.lor DMAC_DCMD_DWDH_16 DMAC_DCMD_DS_16BYTE)).
Definition DMA_AIC_16BYTE_RX_CMD : Z :=
  Z.lor DMAC_DCMD_DAI (Z.lor DMAC_DCMD_SWDH_16 (Z.lor DMAC_DCMD_DWDH_16 DMAC_DCMD_DS_16BYTE)).

(** ** State *)

(** [dev_str] and [irq_dev] are pointers that are only stored; the field [cntl]
    is never used. *)
Record jz_dma_chan := Chan {
  dev_id : Z; io : Z; dev_str : Z; irq : Z; irq_dev : Z; fifo_addr : Z; mode : Z; source : Z }.

Record dma_regs := Regs { DSAR : Z; DTAR : Z; DTCR : Z; DRSR : Z; DCCSR : Z; DCMD : Z }.

(** [irqs] are the interrupt lines for which a handler is installed; [DMACR] is
    the register that all channels share. *)
Record dma := Dma {
  jz_dma_table : list jz_dma_chan; regs : list dma_regs; irqs : gset Z; DMACR : Z }.

(** FIFO address, mode and request source by device id. *)
Definition dma_dev_table : list (Z * Z * Z) :=
  [(268632064, Z.lor DMA_8BIT_TX_CMD DMA_MODE_WRITE, 20);
   (268632064, Z.lor DMA_8BIT_RX_CMD DMA_MODE_READ, 21);
   (268709888, Z.lor DMA_32BIT_TX_CMD DMA_MODE_WRITE, 22);
   (268709888, Z.lor DMA_32BIT_RX_CMD DMA_MODE_READ, 23);
   (268566580, Z.lor DMA_32BIT_TX_CMD DMA_MODE_WRITE, 24);
   (268566580, Z.lor DMA_32BIT_RX_CMD DMA_MODE_READ, 25);
   (268570684, Z.lor DMA_32BIT_TX_CMD DMA_MODE_WRITE, 26);
   (268570680, Z.lor DMA_32BIT_RX_CMD DMA_MODE_READ, 27);
   (0, DMA_AUTOINIT, 28);
   (0, DMA_AUTOINIT, 8);
   (0, 0, 0)].

Definition free_chan : jz_dma_chan := Chan (-1) 0 0 0 0 0 0 0.

(** The table and registers at boot. *)
Definition dma_init : dma := Dma (replicate 6 free_chan) (replicate 6 (Regs 0 0 0 0 0 0)) ∅ 0.

(** ** Accessors *)

Definition set_chan (d : dma) (i : Z) (c : jz_dma_chan) : option dma :=
  t ← wr (jz_dma_table d) i c; Some (Dma t (regs d) (irqs d) (DMACR d)).

Definition set_regs (d : dma) (i : Z) (f : dma_regs -> dma_regs) : option dma :=
  r ← rd (regs d) i; rs ← wr (regs d) i (f r); 
  Some (Dma (jz_dma_table d) rs (irqs d) (DMACR d)).

Definition set_mode (c : jz_dma_chan) (m : Z) : jz_dma_chan :=
  Chan (dev_id c) (io c) (dev_str c) (irq c) (irq_dev c) (fifo_addr c) m (source c).

(** [x & ~y] on 32 bits. *)
Definition clear_bits (x y : Z) : Z := Z.land x (Z.lxor (2 ^ 32 - 1) y).

(** [None] for NULL, undefined for a channel just past the table. *)
Definition get_dma_chan (d : dma) (dmanr : Z) : option (option jz_dma_chan) :=
  if MAX_DMA_NUM <? dmanr then Some None
  else
    c ← rd (jz_dma_table d) dmanr;
    if dev_id c <? 0 then Some None else Some (Some c).

(** ** Allocation *)

(** The first free channel at or after [i], or [MAX_DMA_NUM]. *)
Fixpoint find_free (t : list jz_dma_chan) (i : Z) : Z :=
  match t with
  | [] => i
  | c :: t' => if dev_id c <? 0 then i else find_free t' (i + 1)
  end.

(** [handler] is the interrupt handler, if given, with the result of
    [request_irq] for it. *)
Definition jz_request_dma (d : dma) (id str : Z) (handler : option Z) (irq_dev_id : Z)
  : option (Z * dma) :=
  if (id <? 0) || (DMA_ID_MAX <=? id) then Some (- EINVAL, d)
  else
    let i := find_free (jz_dma_table d) 0 in
    if i =? MAX_DMA_NUM then Some (- ENODEV, d)
    else
      c ← rd (jz_dma_table d) i;
      '(fifo, md, src) ← rd dma_dev_table id;
      match handler with
      | Some r =>
          if negb (r =? 0) then
            d ← set_chan d i (Chan (dev_id c) (io c) (dev_str c) (-1) 0 (fifo_addr c) (mode c) (source c));
            Some (r, d)
          else
            d ← set_chan d i (Chan id i str (IRQ_DMA_0 + i) irq_dev_id fifo md src);
            Some (i, Dma (jz_dma_table d) (regs d) ({[IRQ_DMA_0 + i]} ∪ irqs d) (DMACR d))
      | None =>
          d ← set_chan d i (Chan id i str (-1) 0 fifo md src);
          Some (i, d)
      end.

(** The wait for the end of the transfer only reads. *)
Definition disable_dma (d : dma) (dmanr : Z) : option dma :=
  c ← get_dma_chan d dmanr;
  match c with
  | None => Some d
  | Some c =>
      r ← rd (regs d) dmanr;
      if Z.land (DCCSR r) DMAC_DCCSR_EN =? 0 then Some d
      else
        d ← set_regs d dmanr (fun r =>
          Regs (DSAR r) (DTAR r) (DTCR r) (DRSR r) (clear_bits (DCCSR r) DMAC_DCCSR_EN) (DCMD r));
        if negb (irq c =? 0) then
          set_regs d dmanr (fun r =>
            Regs (DSAR r) (DTAR r) (DTCR r) (DRSR r) (DCCSR r) (clear_bits (DCMD r) DMAC_DCMD_TIE))
        else Some d
  end.

Definition jz_free_dma (d : dma) (dmanr : Z) : option dma :=
  c ← get_dma_chan d dmanr;
  match c with
  | None => Some d
  | Some c =>
      d ← disable_dma d dmanr;
      let d := if negb (irq c =? 0)
               then Dma (jz_dma_table d) (regs d) (irqs d ∖ {[irq c]}) (DMACR d) else d in
      set_chan d dmanr (Chan (-1) (io c) (dev_str c) (-1) 0 (fifo_addr c) (mode c) (source c))
  end.

(** ** Transfer set-up *)

Definition with_chan (d : dma) (dmanr : Z) (f : jz_dma_chan -> jz_dma_chan) : option dma :=
  c ← get_dma_chan d dmanr;
  match c with
  | None => Some d
  | Some c => set_chan d dmanr (f c)
  end.

Definition jz_set_dma_dest_width (d : dma) (dmanr nbit : Z) : option dma :=
  with_chan d dmanr (fun c =>
    let m := clear_bits (mode c) DMAC_DCMD_DWDH_MASK in
    set_mode c (if nbit =? 8 then Z.lor m DMAC_DCMD_DWDH_8
                else if nbit =? 16 then Z.lor m DMAC_DCMD_DWDH_16
                else if nbit =? 32 then Z.lor m DMAC_DCMD_DWDH_32 else m)).

Definition jz_set_dma_src_width (d : dma) (dmanr nbit : Z) : option dma :=
  with_chan d dmanr (fun c =>
    let m := clear_bits (mode c) DMAC_DCMD_SWDH_MASK in
    set_mode c (if nbit =? 8 then Z.lor m DMAC_DCMD_SWDH_8
                else if nbit =? 16 then Z.lor m DMAC_DCMD_SWDH_16
                else if nbit =? 32 then Z.lor m DMAC_DCMD_SWDH_32 else m)).

Definition jz_set_dma_block_size (d : dma) (dmanr nbyte : Z) : option dma :=
  with_chan d dmanr (fun c =>
    let m := clear_bits (mode c) DMAC_DCMD_DS_MASK in
    set_mode c (if nbyte =? 1 then Z.lor m DMAC_DCMD_DS_8BIT
                else if nbyte =? 2 then Z.lor m DMAC_DCMD_DS_16BIT
                else if nbyte =? 4 then Z.lor m DMAC_DCMD_DS_32BIT
                else if nbyte =? 16 then Z.lor m DMAC_DCMD_DS_16BYTE
                else if nbyte =? 32 then Z.lor m DMAC_DCMD_DS_32BYTE else m)).

(** A null channel is dereferenced: undefined. *)
Definition jz_get_dma_command (d : dma) (dmanr : Z) : option Z :=
  c ← get_dma_chan d dmanr; c ← c; Some (mode c).

(** DCMD and DRSR from the channel record. *)
Definition load_command (d : dma) (c : jz_dma_chan) : option dma :=
  set_regs d (io c) (fun r =>
    Regs (DSAR r) (DTAR r) (DTCR r) (source c) (DCCSR r) (clear_bits (mode c) DMA_MODE_MASK)).

(** The new mode of a channel that has [md] when [m] is set. *)
Definition next_mode (md m : Z) : Z :=
  let md := Z.lor md (clear_bits m (Z.lor DMAC_DCMD_SAI DMAC_DCMD_DAI)) in
  let m := Z.land m DMA_MODE_MASK in
  if m =? DMA_MODE_READ then clear_bits (Z.lor md DMAC_DCMD_DAI) DMAC_DCMD_SAI
  else if m =? DMA_MODE_WRITE then clear_bits (Z.lor md DMAC_DCMD_SAI) DMAC_DCMD_DAI
  else md.

Definition set_dma_mode (d : dma) (dmanr m : Z) : option dma :=
  c ← get_dma_chan d dmanr;
  match c with
  | None => Some d
  | Some c =>
      let c := set_mode c (next_mode (mode c) m) in
      d ← set_chan d dmanr c;
      load_command d c
  end.

Definition jz_set_dma_mode (d : dma) (dmanr m dma_mode dma_source fifo : Z) : option (Z * dma) :=
  if MAX_DMA_NUM <? dmanr then Some (- ENODEV, d)
  else
    let i := find_free (jz_dma_table d) 0 in
    if i =? MAX_DMA_NUM then Some (- ENODEV, d)
    else
      c ← rd (jz_dma_table d) dmanr;
      if 0 <? dev_id c then Some (- ENODEV, d)
      else
        f ← rd (jz_dma_table d) i;
        let moved := negb (i =? dmanr) in
        d ← (if moved then
               set_chan d i (Chan (-1) (io f) (dev_str f) 0 0 (fifo_addr f) (mode f) (source f))
             else Some d);
        let c := Chan DMA_ID_RAW_SET dmanr (if moved then dev_str f else dev_str c)
                   (if moved then irq f else irq c) (if moved then irq_dev f else irq_dev c)
                   fifo dma_mode dma_source in
        d ← set_chan d dmanr c;
        d ← set_dma_mode d dmanr dma_mode;
        Some (dmanr, d).

Definition enable_dma (d : dma) (dmanr : Z) : option dma :=
  c ← get_dma_chan d dmanr;
  match c with
  | None => Some d
  | Some c =>
      set_regs d dmanr (fun r =>
        let csr := clear_bits (DCCSR r) (Z.lor DMAC_DCCSR_HLT (Z.lor DMAC_DCCSR_TT DMAC_DCCSR_AR)) in
        let csr := Z.lor csr DMAC_DCCSR_NDES in
        let cmd := if negb (irq c =? 0) then Z.lor (DCMD r) DMAC_DCMD_TIE else DCMD r in
        Regs (DSAR r) (DTAR r) (DTCR r) (DRSR r) (Z.lor csr DMAC_DCCSR_EN) cmd)
  end.

Definition set_dma_addr (d : dma) (dmanr phyaddr : Z) : option dma :=
  c ← get_dma_chan d dmanr;
  match c with
  | None => Some d
  | Some c =>
      let m := Z.land (mode c) DMA_MODE_MASK in
      if m =? DMA_MODE_READ then
        set_regs d (io c) (fun r => Regs (fifo_addr c) phyaddr (DTCR r) (DRSR r) (DCCSR r) (DCMD r))
      else if m =? DMA_MODE_WRITE then
        set_regs d (io c) (fun r => Regs phyaddr (fifo_addr c) (DTCR r) (DRSR r) (DCCSR r) (DCMD r))
      else Some d
  end.

(** Bytes per transfer unit, by the DS field. *)
Definition dma_ds : list Z := [4; 1; 2; 16; 32].

Definition unit_size (c : jz_dma_chan) : option Z :=
  rd dma_ds (Z.shiftr (Z.land (mode c) DMAC_DCMD_DS_MASK) DMAC_DCMD_DS_BIT).

Definition set_dma_count (d : dma) (dmanr bytecnt : Z) : option dma :=
  c ← get_dma_chan d dmanr;
  match c with
  | None => Some d
  | Some c =>
      u ← unit_size c;
      set_regs d (io c) (fun r => Regs (DSAR r) (DTAR r) (bytecnt / u) (DRSR r) (DCCSR r) (DCMD r))
  end.

Definition get_dma_residue (d : dma) (dmanr : Z) : option Z :=
  c ← get_dma_chan d dmanr;
  match c with
  | None => Some 0
  | Some c => u ← unit_size c; r ← rd (regs d) (io c); Some (u32 (DTCR r * u))
  end.

(** The audio drivers' set-up, for 16-bit samples; 8-bit samples change nothing. *)
Definition set_audio_dma (rx tx : Z) (d : dma) (dmanr m : Z) : option dma :=
  c ← get_dma_chan d dmanr;
  match c with
  | None => Some d
  | Some c =>
      let keep := clear_bits m (Z.lor DMAC_DCMD_SAI DMAC_DCMD_DAI) in
      let md := if m =? DMA_MODE_READ
                then clear_bits (Z.lor (Z.lor (Z.lor rx DMA_MODE_READ) keep) DMAC_DCMD_DAI) DMAC_DCMD_SAI
                else if m =? DMA_MODE_WRITE
                then clear_bits (Z.lor (Z.lor (Z.lor tx DMA_MODE_WRITE) keep) DMAC_DCMD_SAI) DMAC_DCMD_DAI
                else mode c in
      let c := set_mode c md in
      d ← set_chan d dmanr c;
      load_command d c
  end.

Definition AFMT_S16_LE : Z := 16.

Definition jz_set_oss_dma (d : dma) (dmanr m audio_fmt : Z) : option dma :=
  c ← get_dma_chan d dmanr;
  match c with
  | None => Some d
  | Some _ =>
      if audio_fmt =? AFMT_S16_LE
      then set_audio_dma DMA_AIC_32_16BYTE_RX_CMD DMA_AIC_32_16BYTE_TX_CMD d dmanr m else Some d
  end.

Definition jz_set_alsa_dma (d : dma) (dmanr m audio_fmt : Z) : option dma :=
  c ← get_dma_chan d dmanr;
  match c with
  | None => Some d
  | Some _ =>
      if audio_fmt =? 16
      then set_audio_dma DMA_AIC_16BYTE_RX_CMD DMA_AIC_16BYTE_TX_CMD d dmanr m else Some d
  end.

(** ** Status (inline functions of dma.h) *)

Definition DMAC_DMACR_HLT : Z := 2 ^ 3.
Definition DMAC_DMACR_AR : Z := 2 ^ 2.

(** The status bits of [DCCSR] that software clears. *)
Definition done_bits : Z := Z.lor DMAC_DCCSR_HLT (Z.lor DMAC_DCCSR_TT DMAC_DCCSR_AR).

Definition clear_status (bits : Z) (r : dma_regs) : dma_regs :=
  Regs (DSAR r) (DTAR r) (DTCR r) (DRSR r) (clear_bits (DCCSR r) bits) (DCMD r).

(** A query of the channel record and its registers, with the answer for a
    channel that is not allocated. *)
Definition query (d : dma) (dmanr none : Z) (f : jz_dma_chan -> option Z) : option Z :=
  c ← get_dma_chan d dmanr;
  match c with None => Some none | Some c => f c end.

Definition dma_halted (d : dma) (dmanr : Z) : option Z :=
  query d dmanr 1 (fun _ =>
    r ← rd (regs d) dmanr;
    Some (if negb (Z.land (DCCSR r) DMAC_DCCSR_HLT =? 0) then 1 else 0)).

Definition get_dma_mode (d : dma) (dmanr : Z) : option Z :=
  query d dmanr 0 (fun c => Some (mode c)).

Definition get_dma_done_status (d : dma) (dmanr : Z) : option Z :=
  query d dmanr 0 (fun c => r ← rd (regs d) (io c); Some (Z.land (DCCSR r) done_bits)).

Definition get_dma_done_irq (d : dma) (dmanr : Z) : option Z :=
  query d dmanr (-1) (fun c => Some (irq c)).

Definition clear_dma_done (d : dma) (dmanr : Z) : option dma :=
  c ← get_dma_chan d dmanr;
  match c with
  | None => Some d
  | Some c => set_regs d (io c) (clear_status done_bits)
  end.

Definition clear_dma_halt (d : dma) (dmanr : Z) : option dma :=
  c ← get_dma_chan d dmanr;
  match c with
  | None => Some d
  | Some c =>
      d ← set_regs d (io c) (clear_status DMAC_DCCSR_HLT);
      Some (Dma (jz_dma_table d) (regs d) (irqs d) (clear_bits (DMACR d) DMAC_DMACR_HLT))
  end.

Definition clear_dma_flag (d : dma) (dmanr : Z) : option dma :=
  c ← get_dma_chan d dmanr;
  match c with
  | None => Some d
  | Some c =>
      d ← set_regs d (io c) (clear_status done_bits);
      Some (Dma (jz_dma_table d) (regs d) (irqs d)
                (clear_bits (DMACR d) (Z.lor DMAC_DMACR_HLT DMAC_DMACR_AR)))
  end.

(** ** The allocator as its users see it

    What the drivers rely on is a map from the channels in use to the device
    ids they were handed out for. *)

Definition owner (c : jz_dma_chan) : option Z := if dev_id c <? 0 then None else Some (dev_id c).

Definition owned (d : dma) (n : Z) : option Z := c ← rd (jz_dma_table d) n; owner c.

(** One call of a driver that may change the state. *)
Inductive dma_op :=
| Request (id str : Z) (handler : option Z) (irq_dev_id : Z)
| Free (n : Z)
| RawSet (n m dma_mode dma_source fifo : Z)
| SetMode (n m : Z) | SetAddr (n a : Z) | SetCount (n bytecnt : Z)
| DestWidth (n nbit : Z) | SrcWidth (n nbit : Z) | BlockSize (n nbyte : Z)
| OssMode (n m fmt : Z) | AlsaMode (n m fmt : Z)
| Enable (n : Z) | Disable (n : Z)
| ClearDone (n : Z) | ClearHalt (n : Z) | ClearFlag (n : Z).

(** A call without result returns 0. *)
Definition void (r : option dma) : option (Z * dma) := d ← r; Some (0, d).

Definition dma_call (d : dma) (o : dma_op) : option (Z * dma) :=
  match o with
  | Request id str h dev => jz_request_dma d id str h dev
  | Free n => void (jz_free_dma d n)
  | RawSet n m dm src fifo => jz_set_dma_mode d n m dm src fifo
  | SetMode n m => void (set_dma_mode d n m)
  | SetAddr n a => void (set_dma_addr d n a)
  | SetCount n b => void (set_dma_count d n b)
  | DestWidth n b => void (jz_set_dma_dest_width d n b)
  | SrcWidth n b => void (jz_set_dma_src_width d n b)
  | BlockSize n b => void (jz_set_dma_block_size d n b)
  | OssMode n m f => void (jz_set_oss_dma d n m f)
  | AlsaMode n m f => void (jz_set_alsa_dma d n m f)
  | Enable n => void (enable_dma d n)
  | Disable n => void (disable_dma d n)
  | ClearDone n => void (clear_dma_done d n)
  | ClearHalt n => void (clear_dma_halt d n)
  | ClearFlag n => void (clear_dma_flag d n)
  end.

Fixpoint dma_run (d : dma) (ops : list dma_op) : option (list Z * dma) :=
  match ops with
  | [] => Some ([], d)
  | o :: ops =>
      '(r, d) ← dma_call d o;
      '(rs, d) ← dma_run d ops;
      Some (r :: rs, d)
  end.

(** The specification: the lowest channel without an owner. *)
Definition channels : list Z := [0; 1; 2; 3; 4; 5].

Definition least_free (m : gmap Z Z) : option Z :=
  snd <$> list_find (fun n => m !! n = None) channels.

Definition spec_call (m : gmap Z Z) (o : dma_op) : Z * gmap Z Z :=
  match o with
  | Request id _ h _ =>
      if decide (0 <= id < DMA_ID_MAX) then
        match least_free m, h with
        | None, _ => (- ENODEV, m)
        | Some n, (None | Some 0) => (n, <[n := id]> m)
        | Some _, Some r => (r, m)
        end
      else (- EINVAL, m)
  | Free n => (0, delete n m)
  | RawSet n _ _ _ _ =>
      match least_free m, m !! n with
      | Some _, (None | Some 0) => if n <? MAX_DMA_NUM then (n, <[n := DMA_ID_RAW_SET]> m) else (- ENODEV, m)
      | _, _ => (- ENODEV, m)
      end
  | _ => (0, m)
  end.

Fixpoint spec_run (m : gmap Z Z) (ops : list dma_op) : list Z * gmap Z Z :=
  match ops with
  | [] => ([], m)
  | o :: ops =>
      let (r, m) := spec_call m o in
      let (rs, m) := spec_run m ops in
      (r :: rs, m)
  end.

(** The channel number that a call is given. *)
Definition op_channel (o : dma_op) : Z :=
  match o with
  | Request _ _ _ _ => 0
  | Free n | RawSet n _ _ _ _ | SetMode n _ | SetAddr n _ | SetCount n _ | DestWidth n _
  | SrcWidth n _ | BlockSize n _ | OssMode n _ _ | AlsaMode n _ _ | Enable n | Disable n
  | ClearDone n | ClearHalt n | ClearFlag n => n
  end.

(** The transfer unit that a mode selects is one of the five of [dma_ds]. *)
Definition unit_ok (md : Z) : Prop := exists u, rd dma_ds (Z.shiftr (Z.land md DMAC_DCMD_DS_MASK) DMAC_DCMD_DS_BIT) = Some u.

(** A raw mode selects an existing transfer unit; the mode given to
    [set_dma_mode], which is or-ed to the one set, selects none. *)
Definition op_unit_ok (o : dma_op) : Prop :=
  match o with
  | RawSet _ _ dma_mode _ _ => unit_ok dma_mode
  | SetMode _ m => Z.land m DMAC_DCMD_DS_MASK = 0
  | _ => True
  end.

(** Any unsigned channel number but the one just past the table, for which
    [get_dma_chan] reads outside of it, and modes that leave the channel with
    one of the five transfer units, without which [set_dma_count] reads outside
    of [dma_ds]. *)
Definition op_ok (o : dma_op) : Prop :=
  0 <= op_channel o /\ op_channel o <> MAX_DMA_NUM /\ op_unit_ok o.

(** ** Invariant *)

(** Channel [n]: registers of its own while in use, and a line that is either
    none ([0], [-1]) or its own, for which a handler is installed. *)
Definition chan_ok (lines : gset Z) (n : Z) (c : jz_dma_chan) : Prop :=
  (0 <= dev_id c -> io c = n) /\
  (irq c = 0 \/ irq c = -1 \/ (0 <= dev_id c /\ irq c = IRQ_DMA_0 + n /\ irq c ∈ lines)).

Definition wf (d : dma) : Prop :=
  length (jz_dma_table d) = 6%nat /\ length (regs d) = 6%nat /\
  forall n c, rd (jz_dma_table d) n = Some c -> chan_ok (irqs d) n c.

(** The state [d] implements the map [m]. *)
Definition implements (d : dma) (m : gmap Z Z) : Prop := wf d /\ forall n, owned d n = m !! n.

Lemma owned_range d n : wf d -> ~ 0 <= n < 6 -> owned d n = None.
Proof.
  intros (Hl & _ & _) Hn. unfold owned, rd. destruct (Z.leb_spec 0 n); [|done].
  by rewrite (lookup_ge_None_2 (jz_dma_table d)) by lia.
Qed.

Lemma chan_lt d n : wf d -> 0 <= n < 6 -> exists c, rd (jz_dma_table d) n = Some c.
Proof. intros (Hl & _ & _) Hn. apply rd_lt. lia. Qed.

(** [get_dma_chan] is defined off [MAX_DMA_NUM], and finds the owned channels. *)
Lemma get_dma_chan_spec d n :
  wf d -> 0 <= n -> n <> MAX_DMA_NUM ->
  (get_dma_chan d n = Some None /\ owned d n = None) \/
  exists c, get_dma_chan d n = Some (Some c) /\ rd (jz_dma_table d) n = Some c /\
    0 <= n < 6 /\ 0 <= dev_id c /\ owned d n = Some (dev_id c) /\ chan_ok (irqs d) n c.
Proof.
  unfold MAX_DMA_NUM, get_dma_chan, owned, owner. intros Hwf H0 H6.
  destruct (Z.ltb_spec MAX_DMA_NUM n); unfold MAX_DMA_NUM in *.
  { left. split; [done|]. by rewrite rd_ge by (destruct Hwf; lia). }
  destruct (chan_lt d n Hwf) as [c Hc]; [lia|]. rewrite Hc. simpl.
  destruct (Z.ltb_spec (dev_id c) 0); [by left|right].
  exists c. repeat split; try done; try lia; apply Hwf; done.
Qed.

Lemma set_regs_ok d n f :
  wf d -> 0 <= n < 6 -> exists d', set_regs d n f = Some d' /\ wf d' /\
    jz_dma_table d' = jz_dma_table d /\ irqs d' = irqs d.
Proof.
  intros (Hl & Hr & Hok) Hn. unfold set_regs.
  destruct (rd_lt (regs d) n) as [r ->]; [lia|]. simpl. rewrite wr_Some by lia. simpl.
  eexists. split; [done|]. split; [|done]. repeat split; simpl; try done; [by rewrite length_insert| |].
  all: by apply (Hok n0 c).
Qed.

Lemma set_chan_ok d n c :
  wf d -> 0 <= n < 6 -> chan_ok (irqs d) n c ->
  exists d', set_chan d n c = Some d' /\ wf d' /\ regs d' = regs d /\ irqs d' = irqs d /\
    rd (jz_dma_table d') n = Some c /\
    forall k, owned d' k = if k =? n then owner c else owned d k.
Proof.
  intros (Hl & Hr & Hok) Hn Hc. unfold set_chan. rewrite wr_Some by lia. simpl.
  assert (Hrd : forall k, rd (<[Z.to_nat n := c]> (jz_dma_table d)) k =
                   if k =? n then Some c else rd (jz_dma_table d) k).
  { intros k. destruct (Z.lt_ge_cases k 0); [|apply rd_insert; lia].
    unfold rd. destruct (Z.leb_spec 0 k); [lia|]. destruct (Z.eqb_spec k n); [lia|done]. }
  eexists. split; [done|]. split; [|repeat split; simpl; try done].
  - split; [|split; [done|]]; simpl; [by rewrite length_insert|].
    intros k c'. rewrite Hrd. destruct (Z.eqb_spec k n) as [->|]; [by intros [= <-]|apply Hok].
  - by rewrite Hrd, Z.eqb_refl.
  - intros k. unfold owned at 1. simpl. rewrite Hrd. by destruct (k =? n).
Qed.

(** Setting a mode or registers changes no owner. *)
Definition keeps (r : option dma) (d : dma) : Prop :=
  exists d', r = Some d' /\ wf d' /\ irqs d' = irqs d /\ forall k, owned d' k = owned d k.

Lemma keeps_refl d : wf d -> keeps (Some d) d.
Proof. intros H. by exists d. Qed.

Lemma keeps_bind r f d :
  keeps r d -> (forall d', r = Some d' -> wf d' -> keeps (f d') d') -> keeps (r ≫= f) d.
Proof.
  intros (d' & -> & Hwf & Hi & Ho) Hf. destruct (Hf d' eq_refl Hwf) as (d2 & E & Hwf2 & Hi2 & Ho2).
  exists d2. split; [done|]. split; [done|]. split; [congruence|]. intros k. by rewrite Ho2.
Qed.

Lemma keeps_regs d n f : wf d -> 0 <= n < 6 -> keeps (set_regs d n f) d.
Proof.
  intros Hwf Hn. destruct (set_regs_ok d n f Hwf Hn) as (d' & E & Hwf' & Ht & Hi).
  exists d'. split; [done|]. split; [done|]. split; [done|]. intros k. unfold owned. by rewrite Ht.
Qed.

Lemma keeps_mode d n c m :
  wf d -> 0 <= n < 6 -> rd (jz_dma_table d) n = Some c -> keeps (set_chan d n (set_mode c m)) d.
Proof.
  intros Hwf Hn Hc. destruct (set_chan_ok d n (set_mode c m)) as (d' & E & Hwf' & _ & Hi & _ & Ho); [done|done| |].
  { apply Hwf in Hc. done. }
  exists d'. split; [done|]. split; [done|]. split; [done|]. intros k. rewrite Ho.
  destruct (Z.eqb_spec k n) as [->|]; [|done]. unfold owned. by rewrite Hc.
Qed.

Lemma keeps_DMACR d x : wf d -> keeps (Some (Dma (jz_dma_table d) (regs d) (irqs d) x)) d.
Proof. intros Hwf. eexists. split; [done|]. by split. Qed.

#[local] Hint Resolve keeps_refl keeps_regs keeps_mode keeps_DMACR : dingoo.

(** Case analysis on the channel that a call names. *)
Ltac with_channel d n :=
  let c := fresh "c" in
  destruct (get_dma_chan_spec d n) as [[-> ?]|(c & -> & ? & ? & ? & ? & [Hio ?])];
  [done|done|done|simpl; auto with dingoo|simpl; specialize (Hio ltac:(assumption))].

Section keep.
Context (d : dma) (n : Z) (Hwf : wf d) (Hn : 0 <= n) (H6 : n <> MAX_DMA_NUM).

Lemma keeps_set_dma_mode m : keeps (set_dma_mode d n m) d.
Proof using All.
  unfold set_dma_mode. with_channel d n.
  apply keeps_bind; [auto with dingoo|]. intros d' _ Hwf'. apply keeps_regs; [done|]. simpl. lia.
Qed.

Lemma keeps_set_dma_addr a : keeps (set_dma_addr d n a) d.
Proof using All.
  unfold set_dma_addr. with_channel d n. rewrite Hio. repeat case_match; auto with dingoo.
Qed.

Lemma keeps_set_dma_count b :
  (forall k c, rd (jz_dma_table d) k = Some c -> unit_ok (mode c)) -> keeps (set_dma_count d n b) d.
Proof using All.
  intros Hs. unfold set_dma_count. with_channel d n. destruct (Hs n c) as [u Hu]; [done|].
  unfold unit_size. rewrite Hu, Hio. simpl. auto with dingoo.
Qed.

Lemma keeps_with_chan f : (forall c, exists m, f c = set_mode c m) -> keeps (with_chan d n f) d.
Proof using All.
  intros Hf. unfold with_chan. with_channel d n. destruct (Hf c) as [m ->]. auto with dingoo.
Qed.

Lemma keeps_set_audio_dma rx tx m : keeps (set_audio_dma rx tx d n m) d.
Proof using All.
  unfold set_audio_dma. with_channel d n.
  apply keeps_bind; [auto with dingoo|]. intros d' _ Hwf'. apply keeps_regs; [done|]. simpl. lia.
Qed.

Lemma keeps_oss m f : keeps (jz_set_oss_dma d n m f) d.
Proof using All.
  unfold jz_set_oss_dma. with_channel d n. case_match; auto using keeps_set_audio_dma with dingoo.
Qed.

Lemma keeps_alsa m f : keeps (jz_set_alsa_dma d n m f) d.
Proof using All.
  unfold jz_set_alsa_dma. with_channel d n. case_match; auto using keeps_set_audio_dma with dingoo.
Qed.

Lemma keeps_enable : keeps (enable_dma d n) d.
Proof using All. unfold enable_dma. with_channel d n. auto with dingoo. Qed.

Lemma keeps_disable : keeps (disable_dma d n) d.
Proof using All.
  unfold disable_dma. with_channel d n. destruct (rd_lt (regs d) n) as [r ->]; [destruct Hwf; lia|].
  simpl. case_match; [auto with dingoo|]. apply keeps_bind; [auto with dingoo|].
  intros d' _ Hwf'. case_match; auto with dingoo.
Qed.

Lemma keeps_clear_done : keeps (clear_dma_done d n) d.
Proof using All. unfold clear_dma_done. with_channel d n. rewrite Hio. auto with dingoo. Qed.

Lemma keeps_clear_halt : keeps (clear_dma_halt d n) d.
Proof using All.
  unfold clear_dma_halt. with_channel d n. rewrite Hio.
  apply keeps_bind; [auto with dingoo|]. intros d' _ Hwf'. auto with dingoo.
Qed.

Lemma keeps_clear_flag : keeps (clear_dma_flag d n) d.
Proof using All.
  unfold clear_dma_flag. with_channel d n. rewrite Hio.
  apply keeps_bind; [auto with dingoo|]. intros d' _ Hwf'. auto with dingoo.
Qed.

End keep.

(** ** Searching for a free channel *)

Lemma find_free_spec t : forall i,
  find_free t i = match list_find (fun c => dev_id c < 0) t with
                  | Some (k, _) => i + Z.of_nat k
                  | None => i + Z.of_nat (length t)
                  end.
Proof.
  induction t as [|c t IH]; intros i; simpl; [unfold Z.of_nat; lia|].
  destruct (Z.ltb_spec (dev_id c) 0); simpl; [rewrite decide_True by done; simpl; lia|].
  rewrite decide_False by lia. rewrite IH. destruct (list_find _ t) as [[k x]|]; simpl; lia.
Qed.

(** The code's search finds the lowest channel without an owner. *)
Lemma find_free_least d m :
  implements d m ->
  match least_free m with
  | Some n => find_free (jz_dma_table d) 0 = n /\ 0 <= n < 6 /\ m !! n = None
  | None => find_free (jz_dma_table d) 0 = MAX_DMA_NUM
  end.
Proof.
  intros [(Hl & _ & _) Ho]. rewrite find_free_spec. unfold least_free.
  assert (Hget : forall k c, jz_dma_table d !! k = Some c ->
            owner c = m !! Z.of_nat k /\ channels !! k = Some (Z.of_nat k)).
  { intros k c Hk. rewrite <- Ho. unfold owned. rewrite rd_lookup, Nat2Z.id, Hk by lia. split; [done|].
    apply lookup_lt_Some in Hk. rewrite Hl in Hk. do 6 (destruct k as [|k]; [done|]). lia. }
  assert (Hown : forall c, owner c = None <-> dev_id c < 0).
  { intros c. unfold owner. destruct (Z.ltb_spec (dev_id c) 0); naive_solver lia. }
  destruct (list_find _ (jz_dma_table d)) as [[k c]|] eqn:E.
  - apply list_find_Some in E as (Hk & Hneg & Hbefore). destruct (Hget k c Hk) as [Hm Hch].
    assert (list_find (fun n => m !! n = None) channels = Some (k, Z.of_nat k)) as ->.
    { apply list_find_Some. split; [done|]. split; [rewrite <- Hm; by apply Hown|].
      intros j y Hj Hlt. destruct (lookup_lt_is_Some_2 (jz_dma_table d) j) as [c' Hc'].
      { apply lookup_lt_Some in Hk. lia. }
      destruct (Hget j c' Hc') as [Hm' Hch']. rewrite Hj in Hch'. injection Hch' as ->.
      rewrite <- Hm'. intros Hn%Hown. by apply (Hbefore j c' Hc' Hlt). }
    simpl. apply lookup_lt_Some in Hk. split; [lia|]. split; [lia|]. rewrite <- Hm. by apply Hown.
  - apply list_find_None in E.
    assert (list_find (fun n => m !! n = None) channels = None) as ->.
    { apply list_find_None. apply Forall_lookup. intros j y Hj.
      destruct (lookup_lt_is_Some_2 (jz_dma_table d) j) as [c' Hc'].
      { apply lookup_lt_Some in Hj. rewrite Hl. done. }
      destruct (Hget j c' Hc') as [Hm' Hch']. rewrite Hj in Hch'. injection Hch' as ->.
      rewrite <- Hm'. intros Hn%Hown. eapply Forall_lookup_1 in E; [|exact Hc']. done. }
    simpl. rewrite Hl. done.
Qed.

(** ** The calls that change owners *)

(** The record [c] put at [n] while the lines become [lines]. *)
Lemma implements_set d m n c lines :
  implements d m -> 0 <= n < 6 -> chan_ok lines n c ->
  (forall k c', k <> n -> rd (jz_dma_table d) k = Some c' -> chan_ok lines k c') ->
  exists t, wr (jz_dma_table d) n c = Some t /\ forall cr,
    implements (Dma t (regs d) lines cr) (partial_alter (fun _ => owner c) n m).
Proof.
  intros [(Hl & Hr & Hok) Ho] Hn Hc Hoth. rewrite wr_Some by lia. eexists. split; [done|]. intros cr.
  assert (Hrd : forall k, 0 <= k -> rd (<[Z.to_nat n := c]> (jz_dma_table d)) k =
                   if k =? n then Some c else rd (jz_dma_table d) k) by (intros; apply rd_insert; lia).
  split; [split; [|split; [done|]]; simpl; [by rewrite length_insert|]|].
  - intros k c' Hk. pose proof (rd_Some_lt _ _ _ Hk). rewrite Hrd in Hk by lia.
    destruct (Z.eqb_spec k n) as [->|]; [by injection Hk as <-|by apply Hoth].
  - intros k. unfold owned. simpl. destruct (Z.lt_ge_cases k 0) as [Hneg|].
    + rewrite lookup_partial_alter_ne, <- Ho by lia. unfold owned, rd.
      destruct (Z.leb_spec 0 k); [lia|done].
    + rewrite Hrd by done. destruct (Z.eqb_spec k n) as [->|].
      * by rewrite lookup_partial_alter_eq.
      * rewrite lookup_partial_alter_ne, <- Ho by done. done.
Qed.

Lemma chan_ok_mono L1 L2 n c : L1 ⊆ L2 -> chan_ok L1 n c -> chan_ok L2 n c.
Proof. intros HL [H1 H2]. split; [done|]. set_solver. Qed.

Lemma chan_ok_del L k n c : k <> n -> chan_ok L k c -> chan_ok (L ∖ {[IRQ_DMA_0 + n]}) k c.
Proof.
  intros Hne [H1 [H|[H|(H2 & H3 & H4)]]]; split; auto. right. right. split; [done|]. split; [done|].
  apply elem_of_difference. split; [done|]. rewrite H3. intros ?%elem_of_singleton. lia.
Qed.

Lemma owner_None_free c : owner c = None -> dev_id c < 0.
Proof. unfold owner. by destruct (Z.ltb_spec (dev_id c) 0). Qed.

Lemma rd_dma_dev_table id :
  0 <= id < DMA_ID_MAX -> exists e, rd dma_dev_table id = Some e.
Proof. intros H. apply rd_lt. exact H. Qed.

Lemma wf_other d m n lines :
  implements d m -> irqs d ⊆ lines -> forall k c, k <> n ->
  rd (jz_dma_table d) k = Some c -> chan_ok lines k c.
Proof. intros [(_ & _ & Hok) _] HL k c _ Hc. eapply chan_ok_mono; [exact HL|]. by apply Hok. Qed.

Lemma request_refines d m id str h dev :
  implements d m ->
  exists r d', jz_request_dma d id str h dev = Some (r, d') /\
    (spec_call m (Request id str h dev)).1 = r /\
    implements d' (spec_call m (Request id str h dev)).2.
Proof.
  intros Himp. pose proof (find_free_least d m Himp) as Hf. unfold jz_request_dma. simpl.
  destruct (decide (0 <= id < DMA_ID_MAX)) as [Hid|Hid].
  2: { replace (_ || _) with true; [by eexists _, _|]. symmetry. apply orb_true_iff.
       unfold DMA_ID_MAX in *. rewrite Z.ltb_lt, Z.leb_le. lia. }
  rewrite (proj2 (Z.ltb_ge _ _)), (proj2 (Z.leb_gt _ _)) by lia. simpl.
  destruct (least_free m) as [n|]; [|rewrite Hf; by eexists _, _].
  destruct Hf as (-> & Hn & Hfree). rewrite (proj2 (Z.eqb_neq _ _)) by (unfold MAX_DMA_NUM; lia).
  destruct (chan_lt d n (proj1 Himp) Hn) as [c Hc]. rewrite Hc. simpl.
  destruct (rd_dma_dev_table id Hid) as [[[fifo md] src] ->]. simpl.
  assert (Hneg : dev_id c < 0).
  { apply owner_None_free. rewrite <- Hfree, <- (proj2 Himp). unfold owned. by rewrite Hc. }
  assert (Hown : forall c', dev_id c' = id -> owner c' = Some id).
  { intros c' <-. unfold owner. by rewrite (proj2 (Z.ltb_ge _ _)) by lia. }
  unfold set_chan. destruct h as [r|]; [destruct (Z.eqb_spec r 0) as [->|Hr]|]; simpl.
  - edestruct (implements_set d m n (Chan id n str (IRQ_DMA_0 + n) dev fifo md src)
      ({[IRQ_DMA_0 + n]} ∪ irqs d)) as (t & -> & Ht); [done|done| | |].
    { split; [done|]. right. right. simpl. split; [lia|]. split; [done|set_solver]. }
    { eapply wf_other; [done|set_solver]. }
    simpl. eexists _, _. split; [done|]. split; [done|]. specialize (Ht (DMACR d)).
    rewrite Hown in Ht by done. exact Ht.
  - edestruct (implements_set d m n (Chan (dev_id c) (io c) (dev_str c) (-1) 0 (fifo_addr c) (mode c) (source c))
      (irqs d)) as (t & -> & Ht); [done|done| | |].
    { split; simpl; [lia|auto]. }
    { by eapply wf_other. }
    simpl. eexists _, _. split; [done|]. specialize (Ht (DMACR d)).
    rewrite partial_alter_id in Ht by (rewrite Hfree; unfold owner; simpl; by rewrite (proj2 (Z.ltb_lt _ _))).
    by destruct r.
  - edestruct (implements_set d m n (Chan id n str (-1) 0 fifo md src) (irqs d))
      as (t & -> & Ht); [done|done| | |].
    { split; simpl; auto. }
    { by eapply wf_other. }
    simpl. eexists _, _. split; [done|]. split; [done|]. specialize (Ht (DMACR d)).
    rewrite Hown in Ht by done. exact Ht.
Qed.

Lemma implements_keeps d m r :
  implements d m -> keeps r d -> exists d', r = Some d' /\ implements d' m /\ irqs d' = irqs d.
Proof.
  intros [Hwf Ho] (d' & -> & Hwf' & Hi & Ho'). exists d'. split; [done|]. split; [|done].
  split; [done|]. intros k. by rewrite Ho'.
Qed.

Lemma free_refines d m n :
  implements d m -> 0 <= n -> n <> MAX_DMA_NUM ->
  exists d', jz_free_dma d n = Some d' /\ implements d' (delete n m).
Proof.
  intros Himp Hn H6. unfold jz_free_dma.
  destruct (get_dma_chan_spec d n) as [[E Hnone]|(c & E & Hc & Hlt & Hdev & Hown & [Hio Hirq])];
    [apply Himp|done|done| |]; rewrite E; simpl.
  { exists d. split; [done|]. rewrite delete_id; [done|]. by rewrite <- (proj2 Himp). }
  destruct (implements_keeps d m (disable_dma d n)) as (d1 & -> & Himp1 & Hi);
    [done|by apply keeps_disable; [apply Himp| |]|].
  simpl. unfold set_chan.
  destruct (implements_set d1 m n
    (Chan (-1) (io c) (dev_str c) (-1) 0 (fifo_addr c) (mode c) (source c))
    (if negb (irq c =? 0) then irqs d1 ∖ {[irq c]} else irqs d1)) as (t & Ht & Hres).
  - done.
  - done.
  - split; simpl; [done|auto].
  - intros k c' Hne Hk. pose proof (rd_Some_lt _ _ _ Hk). apply (proj1 Himp1) in Hk.
    destruct Hirq as [Hz|[Hz|(_ & Hz & _)]]; rewrite Hz; simpl; [done| |].
    + destruct Hk as [Hk1 [Hk2|[Hk2|(Hk2 & Hk3 & Hk4)]]]; split; auto. right. right.
      split; [done|]. split; [done|]. apply elem_of_difference. split; [done|].
      rewrite Hk3. unfold IRQ_DMA_0 in *. intros ?%elem_of_singleton. lia.
    + rewrite (proj2 (Z.eqb_neq _ _)) by (unfold IRQ_DMA_0; lia). by apply chan_ok_del.
  - specialize (Hres (DMACR d1)). exists (Dma t (regs d1)
      (if negb (irq c =? 0) then irqs d1 ∖ {[irq c]} else irqs d1) (DMACR d1)).
    destruct (negb (irq c =? 0)); simpl; rewrite Ht; done.
Qed.

(** A record without a line of its own fits any channel. *)
Lemma chan_ok_no_line L n c : io c = n -> irq c = 0 \/ irq c = -1 -> chan_ok L n c.
Proof. intros ? [?|?]; split; auto. Qed.

Lemma free_no_line d n c :
  wf d -> rd (jz_dma_table d) n = Some c -> dev_id c < 0 -> irq c = 0 \/ irq c = -1.
Proof. intros (_ & _ & Hok) Hc Hneg. destruct (Hok n c Hc) as [_ [?|[?|(? & _)]]]; auto. lia. Qed.

Lemma raw_set_refines d m n md dm src fifo :
  implements d m -> 0 <= n -> n <> MAX_DMA_NUM ->
  exists r d', jz_set_dma_mode d n md dm src fifo = Some (r, d') /\
    (spec_call m (RawSet n md dm src fifo)).1 = r /\
    implements d' (spec_call m (RawSet n md dm src fifo)).2.
Proof.
  intros Himp Hn H6. pose proof (find_free_least d m Himp) as Hf. unfold jz_set_dma_mode, MAX_DMA_NUM in *.
  destruct (Z.ltb_spec 6 n) as [Hbig|Hsmall].
  { eexists _, _. split; [done|]. simpl. rewrite <- (proj2 Himp), (owned_range d n) by (apply Himp || lia).
    unfold MAX_DMA_NUM. rewrite (proj2 (Z.ltb_ge _ _)) by lia. by destruct (least_free m). }
  simpl. unfold MAX_DMA_NUM. destruct (least_free m) as [i|]; [|rewrite Hf; by eexists _, _].
  destruct Hf as (-> & Hi & Hfree). rewrite (proj2 (Z.eqb_neq _ _)) by lia.
  rewrite (proj2 (Z.ltb_lt n 6)) by lia.
  destruct (chan_lt d n (proj1 Himp)) as [c Hc]; [lia|].
  assert (Hon : m !! n = owner c) by (rewrite <- (proj2 Himp); unfold owned; by rewrite Hc).
  rewrite Hc, Hon. simpl. destruct (Z.ltb_spec 0 (dev_id c)) as [Hpos|Hle].
  { unfold owner. rewrite (proj2 (Z.ltb_ge _ _)) by lia. destruct (dev_id c); [lia| |lia].
    by eexists _, _. }
  assert (Hsp : forall a b : Z * gmap Z Z, match owner c with None => a | Some 0 => a | Some _ => b end = a).
  { intros a b. unfold owner. destruct (Z.ltb_spec (dev_id c) 0); [done|]. by assert (dev_id c = 0) as -> by lia. }
  destruct (chan_lt d i (proj1 Himp)) as [f Hfc]; [lia|]. rewrite Hfc. simpl.
  assert (Hfneg : dev_id f < 0).
  { apply owner_None_free. rewrite <- Hfree, <- (proj2 Himp). unfold owned. by rewrite Hfc. }
  pose proof (free_no_line d i f (proj1 Himp) Hfc Hfneg) as Hfline.
  assert (exists d1, (if negb (i =? n) then
      set_chan d i (Chan (-1) (io f) (dev_str f) 0 0 (fifo_addr f) (mode f) (source f)) else Some d) = Some d1 /\
      implements d1 m) as (d1 & -> & Himp1).
  { destruct (negb (i =? n)); [|by exists d]. unfold set_chan.
    destruct (implements_set d m i (Chan (-1) (io f) (dev_str f) 0 0 (fifo_addr f) (mode f) (source f)) (irqs d))
      as (t & -> & Ht); [done|done|split; simpl; [lia|auto]|by eapply wf_other|].
    simpl. eexists. split; [done|]. specialize (Ht (DMACR d)). rewrite partial_alter_id in Ht; [done|].
    by rewrite Hfree. }
  simpl. set (c' := Chan DMA_ID_RAW_SET n _ _ _ fifo dm src).
  destruct (implements_set d1 m n c' (irqs d1)) as (t & Ht & Hres); [done|lia| |by eapply wf_other|].
  { apply chan_ok_no_line; [done|]. simpl. destruct (Z.eqb_spec i n) as [<-|]; simpl; [|done].
    rewrite Hfc in Hc. injection Hc as <-. done. }
  unfold set_chan at 1. rewrite Ht. simpl. specialize (Hres (DMACR d1)).
  destruct (implements_keeps _ _ (set_dma_mode (Dma t (regs d1) (irqs d1) (DMACR d1)) n dm) Hres)
    as (d2 & -> & Himp2 & _); [apply keeps_set_dma_mode; [apply Hres|done|unfold MAX_DMA_NUM; lia]|].
  simpl. eexists _, _. split; [done|]. rewrite Hsp. done.
Qed.

Lemma void_keeps d m r :
  implements d m -> keeps r d -> exists d', void r = Some (0, d') /\ implements d' m.
Proof.
  intros Himp Hk. destruct (implements_keeps d m r Himp Hk) as (d' & -> & ? & _). by exists d'.
Qed.

(** ** Transfer units

    Every channel record keeps a mode whose unit field is an index of [dma_ds]. *)

Definition sized (d : dma) : Prop := forall n c, rd (jz_dma_table d) n = Some c -> unit_ok (mode c).

(** Only the unit field matters. *)
Lemma unit_ok_ds a b :
  Z.land a DMAC_DCMD_DS_MASK = Z.land b DMAC_DCMD_DS_MASK -> unit_ok a -> unit_ok b.
Proof. intros E. unfold unit_ok. by rewrite E. Qed.

Lemma ds_clear x y k :
  Z.land (Z.lxor (2 ^ 32 - 1) y) DMAC_DCMD_DS_MASK = k -> Z.land (clear_bits x y) DMAC_DCMD_DS_MASK = Z.land x k.
Proof. intros <-. unfold clear_bits. by rewrite Z.land_assoc. Qed.

Lemma ds_keep x y :
  Z.land (Z.lxor (2 ^ 32 - 1) y) DMAC_DCMD_DS_MASK = DMAC_DCMD_DS_MASK ->
  Z.land (clear_bits x y) DMAC_DCMD_DS_MASK = Z.land x DMAC_DCMD_DS_MASK.
Proof. apply ds_clear. Qed.

Lemma ds_or x k :
  Z.land k DMAC_DCMD_DS_MASK = 0 -> Z.land (Z.lor x k) DMAC_DCMD_DS_MASK = Z.land x DMAC_DCMD_DS_MASK.
Proof. intros Hk. by rewrite Z.land_lor_distr_l, Hk, Z.lor_0_r. Qed.

(** Rewrites the unit field of a mode that is built by constants. *)
Ltac unit_field := repeat first [rewrite ds_keep by done | rewrite ds_or by done].

Lemma next_mode_ds md m :
  Z.land (next_mode md m) DMAC_DCMD_DS_MASK =
  Z.lor (Z.land md DMAC_DCMD_DS_MASK) (Z.land m DMAC_DCMD_DS_MASK).
Proof.
  unfold next_mode. repeat case_match; unit_field; by rewrite Z.land_lor_distr_l, ds_keep.
Qed.

Lemma sized_init : sized dma_init.
Proof.
  intros n c [_ Hc]%rd_Some. unfold dma_init in Hc. cbn [jz_dma_table] in Hc.
  apply lookup_replicate in Hc as [-> _]. by exists 4.
Qed.

Lemma sized_table d d' : jz_dma_table d' = jz_dma_table d -> sized d -> sized d'.
Proof. unfold sized. by intros ->. Qed.

(** The result, if the call is defined, is sized. *)
Definition leaves_sized (r : option dma) : Prop := forall d', r = Some d' -> sized d'.

Lemma leaves_sized_ret d : sized d -> leaves_sized (Some d).
Proof. by intros H d' [= <-]. Qed.

Lemma leaves_sized_bind r f :
  leaves_sized r -> (forall d', sized d' -> leaves_sized (f d')) -> leaves_sized (r ≫= f).
Proof. intros Hr Hf d' E. destruct r as [d1|]; [|done]. by apply (Hf d1); [apply Hr|]. Qed.

Lemma set_chan_sized d i c : sized d -> unit_ok (mode c) -> leaves_sized (set_chan d i c).
Proof.
  unfold set_chan. intros Hs Hc d' E. destruct (wr _ i c) as [t|] eqn:Et; [|done]. injection E as <-.
  intros k c' Hk. simpl in Hk. pose proof (rd_Some_lt _ _ _ Hk).
  rewrite (rd_wr _ _ _ _ _ Et) in Hk by lia.
  destruct (k =? i); [by injection Hk as <-|by apply (Hs k)].
Qed.

Lemma set_regs_sized d i f : sized d -> leaves_sized (set_regs d i f).
Proof.
  unfold set_regs. intros Hs d' E. revert Hs. destruct (rd _ i) as [r|]; [|done]. simpl in E.
  destruct (wr _ i _) as [t|]; [|done]. injection E as <-. by apply sized_table.
Qed.

Lemma get_dma_chan_rd d n c : get_dma_chan d n = Some (Some c) -> rd (jz_dma_table d) n = Some c.
Proof.
  unfold get_dma_chan. case_match; [done|]. destruct (rd _ n) as [c'|]; [|done]. simpl.
  case_match; [done|]. by intros [= ->].
Qed.

Lemma sized_DMACR d l x : sized d -> leaves_sized (Some (Dma (jz_dma_table d) (regs d) l x)).
Proof. intros H. by apply leaves_sized_ret. Qed.

#[local] Hint Resolve leaves_sized_ret set_chan_sized set_regs_sized sized_DMACR : dingoo.

(** A call on a channel that is in use. *)
Lemma chan_sized d n f :
  sized d -> (forall c, unit_ok (mode c) -> leaves_sized (f c)) ->
  leaves_sized (c ← get_dma_chan d n; match c with None => Some d | Some c => f c end).
Proof.
  intros Hs Hf. destruct (get_dma_chan d n) as [[c|]|] eqn:E; simpl; [|auto with dingoo|done].
  apply Hf, (Hs n). by apply get_dma_chan_rd.
Qed.

Section sized.
Context (d : dma) (n : Z) (Hs : sized d).

Lemma sized_set_dma_mode m :
  (forall c, unit_ok (mode c) -> get_dma_chan d n = Some (Some c) -> unit_ok (next_mode (mode c) m)) ->
  leaves_sized (set_dma_mode d n m).
Proof using All.
  intros Hm. unfold set_dma_mode. destruct (get_dma_chan d n) as [[c|]|] eqn:E; simpl; [|auto with dingoo|done].
  apply leaves_sized_bind; [|intros; by apply set_regs_sized].
  apply set_chan_sized; [done|]. apply Hm; [|done]. apply (Hs n). by apply get_dma_chan_rd.
Qed.

Lemma sized_with_chan f :
  (forall c, unit_ok (mode c) -> unit_ok (mode (f c))) -> leaves_sized (with_chan d n f).
Proof using All. intros Hf. apply chan_sized; auto with dingoo. Qed.

Lemma sized_set_audio_dma rx tx m :
  Z.land rx DMAC_DCMD_DS_MASK = DMAC_DCMD_DS_16BYTE -> Z.land tx DMAC_DCMD_DS_MASK = DMAC_DCMD_DS_16BYTE ->
  leaves_sized (set_audio_dma rx tx d n m).
Proof using All.
  intros Hrx Htx. apply chan_sized; [done|]. intros c Hc.
  apply leaves_sized_bind; [|intros; by apply set_regs_sized]. apply set_chan_sized; [done|]. simpl.
  destruct (Z.eqb_spec m DMA_MODE_READ) as [->|]; [|destruct (Z.eqb_spec m DMA_MODE_WRITE) as [->|]; [|done]].
  - apply (unit_ok_ds rx); [by unit_field|]. unfold unit_ok. rewrite Hrx. by exists 16.
  - apply (unit_ok_ds tx); [by unit_field|]. unfold unit_ok. rewrite Htx. by exists 16.
Qed.

Lemma sized_disable : leaves_sized (disable_dma d n).
Proof using All.
  apply chan_sized; [done|]. intros c _. destruct (rd (regs d) n); [|done]. simpl.
  case_match; [auto with dingoo|]. apply leaves_sized_bind; [auto with dingoo|].
  intros. case_match; auto with dingoo.
Qed.

Lemma sized_free : leaves_sized (jz_free_dma d n).
Proof using All.
  apply chan_sized; [done|]. intros c Hc. apply leaves_sized_bind; [apply sized_disable|].
  intros d1 H1. apply set_chan_sized; [|done]. by case_match.
Qed.

End sized.

Lemma sized_request d id str h dev r d' :
  sized d -> jz_request_dma d id str h dev = Some (r, d') -> sized d'.
Proof.
  intros Hs. unfold jz_request_dma. case_match; [by intros [= _ <-]|]. case_match; [by intros [= _ <-]|].
  destruct (rd (jz_dma_table d) _) as [c|] eqn:Hc; [|done]. simpl.
  destruct (rd dma_dev_table id) as [[[fifo md] src]|] eqn:Ht; [|done]. simpl.
  assert (Hmd : unit_ok md).
  { apply rd_Some in Ht as [_ Ht]. unfold unit_ok.
    revert Ht. generalize (Z.to_nat id). intros k Ht.
    do 11 (destruct k as [|k]; [injection Ht as _ <- _; by eexists|]). done. }
  pose proof (set_chan_sized d (find_free (jz_dma_table d) 0)) as Hset.
  destruct h as [z|]; [case_match|]; destruct (set_chan d _ _) as [d1|] eqn:E; try done; simpl;
    intros [= _ <-]; apply Hset in E; simpl; eauto.
Qed.

Lemma sized_raw_set d n md dm src fifo r d' :
  sized d -> unit_ok dm -> jz_set_dma_mode d n md dm src fifo = Some (r, d') -> sized d'.
Proof.
  intros Hs Hdm. unfold jz_set_dma_mode. case_match; [by intros [= _ <-]|]. case_match; [by intros [= _ <-]|].
  destruct (rd (jz_dma_table d) n) as [c|]; [|done]. simpl. case_match; [by intros [= _ <-]|].
  destruct (rd (jz_dma_table d) (find_free _ 0)) as [f|] eqn:Hf; [|done]. simpl.
  match goal with |- (?x ≫= _) = _ -> _ => destruct x as [d1|] eqn:E1; [|done] end. simpl.
  assert (Hs1 : sized d1).
  { revert E1. case_match; [|by intros [= <-]]. intros E1. eapply set_chan_sized; [done| |exact E1]. exact (Hs _ f Hf). }
  set (c' := Chan DMA_ID_RAW_SET n _ _ _ fifo dm src).
  destruct (set_chan d1 n c') as [d2|] eqn:E2; [|done]. simpl.
  assert (Hs2 : sized d2) by by eapply set_chan_sized; [exact Hs1| |exact E2].
  destruct (set_dma_mode d2 n dm) as [d3|] eqn:E3; [|done]. intros [= _ <-].
  eapply sized_set_dma_mode; [exact Hs2| |exact E3]. intros c2 Hc2 Hget%get_dma_chan_rd.
  assert (c2 = c') as ->.
  { unfold set_chan in E2. destruct (wr _ n c') as [t|] eqn:Et; [|done]. injection E2 as <-. simpl in Hget.
    pose proof (rd_Some_lt _ _ _ Hget). rewrite (rd_wr _ _ _ _ _ Et), Z.eqb_refl in Hget by lia.
    by injection Hget. }
  eapply unit_ok_ds; [|exact Hdm]. rewrite next_mode_ds. simpl. by rewrite Z.lor_diag.
Qed.

(** Every call keeps the units of the channels. *)
Lemma call_sized d o r d' : sized d -> op_unit_ok o -> dma_call d o = Some (r, d') -> sized d'.
Proof.
  intros Hs Ho. assert (Hv : forall x, leaves_sized x -> void x = Some (r, d') -> sized d').
  { intros [d1|] Hx; [|done]. simpl. intros [= _ <-]. by apply Hx. }
  destruct o; simpl in Ho |- *; try (apply Hv).
  - by apply sized_request.
  - by apply sized_free.
  - by apply sized_raw_set.
  - apply sized_set_dma_mode; [done|]. intros c Hc _. eapply unit_ok_ds; [|exact Hc].
    by rewrite next_mode_ds, Ho, Z.lor_0_r.
  - apply chan_sized; [done|]. intros c _. repeat case_match; auto with dingoo.
  - apply chan_sized; [done|]. intros c _. destruct (unit_size c); [|done]. simpl. auto with dingoo.
  - apply sized_with_chan; [done|]. intros c. apply unit_ok_ds. simpl. repeat case_match; by unit_field.
  - apply sized_with_chan; [done|]. intros c. apply unit_ok_ds. simpl. repeat case_match; by unit_field.
  - apply sized_with_chan; [done|]. intros c _. simpl. unfold unit_ok.
    repeat case_match; rewrite ?Z.land_lor_distr_l, (ds_clear _ _ 0), Z.land_0_r by done; by eexists.
  - apply chan_sized; [done|]. intros c _. case_match; [by apply sized_set_audio_dma|auto with dingoo].
  - apply chan_sized; [done|]. intros c _. case_match; [by apply sized_set_audio_dma|auto with dingoo].
  - apply chan_sized; auto with dingoo.
  - by apply sized_disable.
  - apply chan_sized; auto with dingoo.
  - apply chan_sized; [done|]. intros c _. apply leaves_sized_bind; auto with dingoo.
  - apply chan_sized; [done|]. intros c _. apply leaves_sized_bind; auto with dingoo.
Qed.

(** One call refines its specification. *)
Lemma call_refines d m o :
  implements d m -> sized d -> op_ok o ->
  exists r d', dma_call d o = Some (r, d') /\ (spec_call m o).1 = r /\ implements d' (spec_call m o).2.
Proof.
  intros Himp Hs (H0 & H6 & _). pose proof (proj1 Himp) as Hwf.
  assert (Hvoid : forall r, keeps r d -> exists z d', void r = Some (z, d') /\ 0 = z /\ implements d' m).
  { intros r Hk. destruct (void_keeps d m r Himp Hk) as (d' & -> & ?). by eexists _, _. }
  destruct o; simpl in H0, H6; cbn [dma_call].
  - by apply request_refines.
  - destruct (free_refines d m n Himp H0 H6) as (d' & -> & ?). by eexists _, _.
  - by apply raw_set_refines.
  - apply Hvoid. by apply keeps_set_dma_mode.
  - apply Hvoid. by apply keeps_set_dma_addr.
  - apply Hvoid. by apply keeps_set_dma_count.
  - apply Hvoid. apply keeps_with_chan; [done|done|done|]. intros c. by eexists.
  - apply Hvoid. apply keeps_with_chan; [done|done|done|]. intros c. by eexists.
  - apply Hvoid. apply keeps_with_chan; [done|done|done|]. intros c. by eexists.
  - apply Hvoid. by apply keeps_oss.
  - apply Hvoid. by apply keeps_alsa.
  - apply Hvoid. by apply keeps_enable.
  - apply Hvoid. by apply keeps_disable.
  - apply Hvoid. by apply keeps_clear_done.
  - apply Hvoid. by apply keeps_clear_halt.
  - apply Hvoid. by apply keeps_clear_flag.
Qed.

Lemma implements_init : implements dma_init ∅.
Proof.
  assert (H : forall n c, rd (jz_dma_table dma_init) n = Some c -> c = free_chan).
  { intros n c [_ Hc]%rd_Some. unfold dma_init in Hc. simpl in Hc.
    change [free_chan; free_chan; free_chan; free_chan; free_chan; free_chan] with (replicate 6 free_chan) in Hc.
    by apply lookup_replicate in Hc as [-> _]. }
  split; [split; [done|split; [done|]]|].
  - intros n c ->%H. split; simpl; [lia|auto].
  - intros n. rewrite lookup_empty. unfold owned. destruct (rd _ n) as [c|] eqn:E; [|done].
    by rewrite (H n c E).
Qed.

Lemma run_refines ops : forall d m,
  implements d m -> sized d -> Forall op_ok ops ->
  exists rs d', dma_run d ops = Some (rs, d') /\ (spec_run m ops).1 = rs /\ implements d' (spec_run m ops).2.
Proof.
  induction ops as [|o ops IH]; intros d m Himp Hs Hops; [by eexists _, _|].
  inversion Hops as [|? ? Ho Hops']; subst. simpl.
  destruct (call_refines d m o Himp Hs Ho) as (r & d1 & Hcall & Hr & Himp1).
  assert (Hs1 : sized d1) by (eapply call_sized; [exact Hs| |exact Hcall]; apply Ho). rewrite Hcall. simpl.
  destruct (spec_call m o) as [r' m1]. simpl in *. subst r'.
  destruct (IH d1 m1 Himp1 Hs1 Hops') as (rs & d2 & -> & Hrs & Himp2). simpl.
  destruct (spec_run m1 ops) as [rs' m2]. simpl in *. subst. by eexists _, _.
Qed.

(** C20: any sequence of the calls of the DMA interface that may change its
    state ([op_ok]: the channel number is not [MAX_DMA_NUM], for which
    [get_dma_chan] reads past the table; a raw mode names one of the five
    transfer units and the mode of [set_dma_mode] names none) that starts at boot
    is free of undefined behaviour, returns what the allocation map predicts (a request gets the lowest free channel, [-ENODEV] when all six
    are taken, [-EINVAL] for an unknown id and the error of [request_irq] when
    that fails), and leaves exactly the owners of the map; and a channel in use
    whose record names an interrupt line names its own, with a handler
    installed. *)
Theorem dma_refines_alloc ops :
  Forall op_ok ops ->
  exists d, dma_run dma_init ops = Some ((spec_run ∅ ops).1, d) /\
    (forall n, owned d n = (spec_run ∅ ops).2 !! n) /\
    (forall n c, rd (jz_dma_table d) n = Some c -> 0 <= dev_id c ->
       io c = n /\ (0 < irq c -> irq c = IRQ_DMA_0 + n /\ irq c ∈ irqs d)).
Proof.
  intros Hops. destruct (run_refines ops dma_init ∅ implements_init sized_init Hops) as (rs & d & E & <- & Himp).
  exists d. split; [done|]. split; [apply Himp|]. intros n c Hc Hdev.
  destruct (proj2 (proj2 (proj1 Himp)) n c Hc) as [Hio Hirq]. split; [auto|]. intros Hpos.
  destruct Hirq as [?|[?|(_ & ? & ?)]]; [lia|lia|done].
Qed.

Definition sample_ops : list dma_op :=
  [Request 0 0 (Some 0) 7; Request 4 0 None 0; Request 11 0 None 0; Free 0; SetMode 1 1;
   SetAddr 1 4096; SetCount 1 512; Request 5 0 (Some (-16)) 7; Request 5 0 (Some 0) 7; Enable 0;
   RawSet 2 0 DMA_AIC_16BYTE_TX_CMD 24 268566580; SetCount 2 64].

Lemma dma_refines_alloc_witness :
  (exists d, dma_run dma_init sample_ops = Some ([0; 1; -22; 0; 0; 0; 0; -16; 0; 0; 2; 0], d) /\
             owned d 0 = Some 5 /\ owned d 1 = Some 4 /\ owned d 2 = Some 10 /\ owned d 3 = None).
Proof.
  destruct (dma_refines_alloc sample_ops) as (d & Hrun & Hown & _).
  { unfold sample_ops. repeat constructor; try (vm_compute; by intros); simpl; first [by exists 16|lia|by vm_compute]. }
  exists d. rewrite !Hown. split; [exact Hrun|]. repeat split; vm_compute; reflexivity.
Defined.

(** ** Setting up a transfer *)

(** The order in which the drivers set up and start a transfer. *)
Definition start_transfer (d : dma) (n m phyaddr bytecnt : Z) : option dma :=
  d ← set_dma_mode d n m;
  d ← set_dma_addr d n phyaddr;
  d ← set_dma_count d n bytecnt;
  enable_dma d n.

(** Channel [n] is in use with record [c] and registers [r]. *)
Definition chan_at (d : dma) (n : Z) (c : jz_dma_chan) (r : dma_regs) : Prop :=
  0 <= n < 6 /\ rd (jz_dma_table d) n = Some c /\ 0 <= dev_id c /\ io c = n /\ rd (regs d) n = Some r.

Lemma chan_at_get d n c r : chan_at d n c r -> get_dma_chan d n = Some (Some c).
Proof.
  intros (Hn & Hc & Hd & _). unfold get_dma_chan, MAX_DMA_NUM.
  rewrite (proj2 (Z.ltb_ge _ _)), Hc by lia. simpl. by rewrite (proj2 (Z.ltb_ge _ _)) by lia.
Qed.

Lemma chan_at_regs d n c r f :
  chan_at d n c r -> exists d', set_regs d n f = Some d' /\ chan_at d' n c (f r).
Proof.
  intros (Hn & Hc & Hd & Hio & Hr). unfold set_regs. rewrite Hr. simpl.
  pose proof (rd_Some_lt _ _ _ Hr). rewrite wr_Some by lia. simpl. eexists. split; [done|].
  repeat split; simpl; try done; try lia. by rewrite rd_insert, Z.eqb_refl by lia.
Qed.

Lemma chan_at_chan d n c r m :
  chan_at d n c r -> exists d', set_chan d n (set_mode c m) = Some d' /\ chan_at d' n (set_mode c m) r.
Proof.
  intros (Hn & Hc & Hd & Hio & Hr). unfold set_chan.
  pose proof (rd_Some_lt _ _ _ Hc). rewrite wr_Some by lia. simpl. eexists. split; [done|].
  repeat split; simpl; try done; try lia. by rewrite rd_insert, Z.eqb_refl by lia.
Qed.

(** What [start_transfer] leaves in the registers, from the channel's record. *)
Lemma start_transfer_regs d n c r m phy len u :
  let md := next_mode (mode c) m in
  let dir := Z.land md DMA_MODE_MASK in
  chan_at d n c r -> unit_size (set_mode c md) = Some u ->
  dir = DMA_MODE_READ \/ dir = DMA_MODE_WRITE ->
  exists d' csr, start_transfer d n m phy len = Some d' /\
    chan_at d' n (set_mode c md)
      (Regs (if dir =? DMA_MODE_READ then fifo_addr c else phy)
            (if dir =? DMA_MODE_READ then phy else fifo_addr c)
            (len / u) (source c) (Z.lor csr DMAC_DCCSR_EN)
            (if negb (irq c =? 0) then Z.lor (clear_bits md DMA_MODE_MASK) DMAC_DCMD_TIE
             else clear_bits md DMA_MODE_MASK)).
Proof.
  intros md dir Hat Hu Hdir. unfold start_transfer, set_dma_mode.
  rewrite (chan_at_get _ _ _ _ Hat). simpl. fold md.
  destruct (chan_at_chan d n c r md Hat) as (d1 & -> & Hat1). simpl. unfold load_command. simpl.
  assert (io c = n) as -> by apply Hat.
  destruct (chan_at_regs d1 n _ _ (fun r => Regs (DSAR r) (DTAR r) (DTCR r) (source c) (DCCSR r)
              (clear_bits md DMA_MODE_MASK)) Hat1) as (d2 & -> & Hat2).
  simpl. unfold set_dma_addr. rewrite (chan_at_get _ _ _ _ Hat2). simpl. fold dir.
  assert (io c = n) as -> by apply Hat.
  assert (exists d3 r3, (if dir =? DMA_MODE_READ
      then set_regs d2 n (fun r => Regs (fifo_addr c) phy (DTCR r) (DRSR r) (DCCSR r) (DCMD r))
      else if dir =? DMA_MODE_WRITE
      then set_regs d2 n (fun r => Regs phy (fifo_addr c) (DTCR r) (DRSR r) (DCCSR r) (DCMD r)) else Some d2)
      = Some d3 /\ chan_at d3 n (set_mode c md) r3 /\
      DSAR r3 = (if dir =? DMA_MODE_READ then fifo_addr c else phy) /\
      DTAR r3 = (if dir =? DMA_MODE_READ then phy else fifo_addr c) /\
      DRSR r3 = source c /\ DCMD r3 = clear_bits md DMA_MODE_MASK) as (d3 & r3 & -> & Hat3 & HS & HT & HR & HC).
  { destruct Hdir as [-> | ->]; simpl;
      (edestruct (chan_at_regs d2 n) as (d3 & Hs & Hat3); [exact Hat2|]; rewrite Hs;
       eexists _, _; split; [done|]; split; [exact Hat3|done]). }
  simpl. unfold set_dma_count. rewrite (chan_at_get _ _ _ _ Hat3). simpl. rewrite Hu. simpl.
  assert (io c = n) as -> by apply Hat.
  edestruct (chan_at_regs d3 n) as (d4 & -> & Hat4); [exact Hat3|]. simpl.
  unfold enable_dma. rewrite (chan_at_get _ _ _ _ Hat4). simpl.
  edestruct (chan_at_regs d4 n) as (d5 & -> & Hat5); [exact Hat4|]. simpl in Hat5.
  rewrite HS, HT, HR, HC in Hat5. eexists _, _. split; [done|]. exact Hat5.
Qed.

(** The record of a channel that a request returns. *)
Lemma request_record d m id str h dev n d' :
  implements d m -> h = None \/ h = Some 0 -> jz_request_dma d id str h dev = Some (n, d') -> 0 <= n ->
  0 <= id < DMA_ID_MAX /\ exists fifo dm src line idev r, rd dma_dev_table id = Some (fifo, dm, src) /\
    line <> 0 /\ chan_at d' n (Chan id n str line idev fifo dm src) r.
Proof.
  intros Himp Hh Hreq Hn. destruct (request_refines d m id str h dev Himp) as (n' & d2 & Hreq2 & Hs & Himp').
  rewrite Hreq in Hreq2. injection Hreq2 as <- <-.
  pose proof (find_free_least d m Himp) as Hf. simpl in Hs.
  destruct (decide (0 <= id < DMA_ID_MAX)) as [Hid|]; [split; [done|]|unfold EINVAL in *; simpl in *; lia].
  destruct (least_free m) as [i|]; [|unfold ENODEV in *; simpl in *; lia].
  assert (i = n) as -> by (destruct Hh as [-> | ->]; exact Hs). destruct Hf as (Hff & Hlt & _).
  destruct (rd_dma_dev_table id Hid) as [[[fifo dm] src] He].
  destruct (rd_lt (regs d') n) as [r Hr]; [destruct (proj1 Himp') as (_ & ? & _); lia|].
  destruct (chan_lt d n (proj1 Himp) Hlt) as [c Hc]. pose proof (rd_Some_lt _ _ _ Hc).
  unfold jz_request_dma in Hreq. rewrite (proj2 (Z.ltb_ge _ _)), (proj2 (Z.leb_gt _ _)), Hff in Hreq by lia.
  rewrite (proj2 (Z.eqb_neq _ _)), Hc, He in Hreq by (unfold MAX_DMA_NUM; lia).
  unfold set_chan in Hreq.
  destruct Hh as [-> | ->]; simpl in Hreq; rewrite wr_Some in Hreq by lia; injection Hreq as <-;
    eexists fifo, dm, src, _, _, r; (split; [done|]); (split; [|repeat split; simpl; try done; try lia;
      by rewrite rd_insert, Z.eqb_refl by lia]); unfold IRQ_DMA_0; lia.
Qed.

(** After any history of driver calls, a channel obtained for one of the
    eight device FIFOs (even ids send to the device, odd ids receive) and set up
    in direction [m] is enabled with the device's request source, [len / unit]
    transfers and address increment on the side that [m] asks for, and its
    residue is [len] rounded down to the unit.  The addresses, however, follow
    the last [DMA_MODE_WRITE] ever set: memory is the source if [m] is
    [DMA_MODE_WRITE] or if the device is a sending one. *)
Theorem dma_setup_transfer ops rs d id str h dev n d1 m phy len :
  Forall op_ok ops -> dma_run dma_init ops = Some (rs, d) ->
  h = None \/ h = Some 0 -> jz_request_dma d id str h dev = Some (n, d1) -> 0 <= n ->
  id < 8 -> m = DMA_MODE_READ \/ m = DMA_MODE_WRITE -> 0 <= len < 2 ^ 32 ->
  let unit := if id <? 2 then 1 else 4 in
  let to_dev := Z.even id || (m =? DMA_MODE_WRITE) in
  exists fifo dm src d2 r,
    rd dma_dev_table id = Some (fifo, dm, src) /\
    start_transfer d1 n m phy len = Some d2 /\ rd (regs d2) n = Some r /\
    DSAR r = (if to_dev then phy else fifo) /\ DTAR r = (if to_dev then fifo else phy) /\
    DTCR r = len / unit /\ DRSR r = src /\
    Z.testbit (DCMD r) 23 = (m =? DMA_MODE_WRITE) /\ Z.testbit (DCMD r) 22 = (m =? DMA_MODE_READ) /\
    Z.testbit (DCCSR r) 0 = true /\ get_dma_residue d2 n = Some (len - len mod unit).
Proof.
  intros Hops Hrun Hh Hreq Hn Hid8 Hm Hlen unit to_dev.
  destruct (run_refines ops dma_init ∅ implements_init sized_init Hops) as (rs' & d' & E & _ & Himp).
  rewrite Hrun in E. injection E as <- <-.
  destruct (request_record _ _ _ _ _ _ _ _ Himp Hh Hreq Hn)
    as (Hid & fifo & dm & src & line & idev & r & Htab & Hline & Hat).
  set (c := Chan id n str line idev fifo dm src) in *. set (md := next_mode dm m).
  assert (Hmode : Z.land md DMA_MODE_MASK = (if to_dev then DMA_MODE_WRITE else DMA_MODE_READ) /\
    unit_size (set_mode c md) = Some unit /\
    Z.testbit (Z.lor (clear_bits md DMA_MODE_MASK) DMAC_DCMD_TIE) 23 = (m =? DMA_MODE_WRITE) /\
    Z.testbit (Z.lor (clear_bits md DMA_MODE_MASK) DMAC_DCMD_TIE) 22 = (m =? DMA_MODE_READ)).
  { unfold md, unit, to_dev, unit_size, c, set_mode, mode. clear - Htab Hm Hid Hid8.
    assert (id = 0 \/ id = 1 \/ id = 2 \/ id = 3 \/ id = 4 \/ id = 5 \/ id = 6 \/ id = 7) as Hcases by lia.
    destruct Hm as [-> | ->]; repeat (destruct Hcases as [-> | Hcases]);
      try subst id; vm_compute in Htab; injection Htab as <- <- <-; vm_compute; done. }
  destruct Hmode as (Hdir & Hu & H23 & H22).
  destruct (start_transfer_regs d1 n c r m phy len unit Hat Hu) as (d2 & csr & Hstart & Hat2).
  { change (next_mode (mode c) m) with md. rewrite Hdir. destruct to_dev; auto. }
  change (next_mode (mode c) m) with md in Hat2. simpl in Hat2.
  rewrite Hdir, (proj2 (Z.eqb_neq line 0)) in Hat2 by done.
  eexists fifo, dm, src, d2, _. split; [done|]. split; [done|]. split; [apply Hat2|].
  simpl. split; [by destruct to_dev|]. split; [by destruct to_dev|]. split; [done|]. split; [done|].
  split; [done|]. split; [done|]. split.
  { unfold DMAC_DCCSR_EN. rewrite Z.lor_spec. by rewrite orb_true_r. }
  unfold get_dma_residue. rewrite (chan_at_get _ _ _ _ Hat2). simpl. rewrite Hu. simpl.
  destruct Hat2 as (_ & _ & _ & _ & Hr2). simpl in Hr2. rewrite Hr2. simpl. f_equal. unfold u32.
  assert (0 < unit) by (unfold unit; destruct (id <? 2); lia).
  rewrite (Z.mod_eq len unit) by lia. rewrite Z.mod_small; [lia|].
  pose proof (Z.mul_div_le len unit). pose proof (Z.div_pos len unit). lia.
Qed.

Lemma dma_setup_transfer_witness :
  exists d1 d2, jz_request_dma dma_init 4 0 None 0 = Some (0, d1) /\
    start_transfer d1 0 DMA_MODE_WRITE 4096 1024 = Some d2 /\
    get_dma_residue d2 0 = Some 1024.
Proof.
  destruct (jz_request_dma dma_init 4 0 None 0) as [[n d1]|] eqn:E; [|discriminate].
  pose proof E as E2. vm_compute in E2. injection E2 as En _. subst n.
  destruct (dma_setup_transfer [] [] dma_init 4 0 None 0 0 d1 DMA_MODE_WRITE 4096 1024)
    as (fifo & dm & src & d2 & r & _ & Hs & _ & _ & _ & _ & _ & _ & _ & _ & Hres);
    [constructor|reflexivity|left; reflexivity|exact E|lia|lia|right; reflexivity|lia|].
  exists d1, d2. split; [reflexivity|]. split; [exact Hs|exact Hres].
Defined.

(** The protocol that the comment of [jz_set_dma_mode] prescribes, a request
    for [DMA_ID_RAW_SET] and then the raw settings of the channel obtained, is
    refused: the channel is already owned. *)
Lemma raw_protocol_refused d m str h dev n d1 md dm src fifo :
  implements d m -> h = None \/ h = Some 0 ->
  jz_request_dma d DMA_ID_RAW_SET str h dev = Some (n, d1) -> 0 <= n ->
  jz_set_dma_mode d1 n md dm src fifo = Some (- ENODEV, d1).
Proof.
  intros Himp Hh Hreq Hn. destruct (request_record _ _ _ _ _ _ _ _ Himp Hh Hreq Hn)
    as (_ & f & mo & s & line & idev & r & _ & _ & Hlt & Hc & _).
  unfold jz_set_dma_mode, MAX_DMA_NUM. rewrite (proj2 (Z.ltb_ge _ _)) by lia.
  destruct (_ =? 6); [done|]. rewrite Hc. simpl. done.
Qed.
