(* ===== verification/Irq.v ===== *)
(** * Interrupt controller (arch/mips/jz4740/irq.c)

    Interrupt numbers 0-31 are the sources of the controller, 32-37 the DMA
    channels behind source [IRQ_DMAC] and 48-175 the GPIO pins behind the four
    sources [IRQ_GPIO0]-[IRQ_GPIO3].  The state has the mask and flag registers,
    with the channel registers of Dma.v, and the static variable of
    [plat_irq_dispatch]. *)

From S2P Require Import Prelude Dma.

#[local] Arguments Z.eqb : simpl never.
#[local] Arguments Z.ltb : simpl never.
#[local] Arguments Z.leb : simpl never.
#[local] Arguments Z.land : simpl never.
#[local] Arguments Z.lor : simpl never.
#[local] Arguments Z.testbit : simpl never.
#[local] Arguments Z.add : simpl never.
#[local] Arguments Z.sub : simpl never.
#[local] Arguments Z.of_nat : simpl never.
#[local] Arguments Z.pow : simpl never.

Definition IRQ_DMAC : Z := 20.
Definition IRQ_GPIO3 : Z := 25.
Definition IRQ_GPIO2 : Z := 26.
Definition IRQ_GPIO1 : Z := 27.
Definition IRQ_GPIO0 : Z := 28.
Definition IRQ_GPIO_0 : Z := 48.
Definition NUM_DMA : Z := 6.
Definition NUM_GPIO : Z := 128.
Definition IRQ_INPROGRESS : Z := 256.
Definition IRQ_DISABLED : Z := 512.

(** The three tables of handlers. *)
Inductive irq_chip := intc_irq_type | gpio_irq_type | dma_irq_type.

(** [IMR] and [PXIM] have a bit set for a masked source or pin, [PXFLG] for a
    pin that has raised an interrupt; [chip] is [irq_desc[].chip]. *)
Record intc := Intc {
  IMR : Z; PXIM : list Z; PXFLG : list Z; dmac : list dma_regs;
  chip : gmap Z irq_chip; intc_ipr : Z }.

(** ** Register operations

    A write to a set or clear register sets or clears the bits that are set in
    the value; writes to the pending register, which the hardware owns, change
    nothing. *)

Definition set_bit (x n : Z) : Z := Z.lor x (2 ^ n).
Definition clear_bit (x n : Z) : Z := Z.ldiff x (2 ^ n).

Definition __intc_unmask_irq (s : intc) (n : Z) : intc :=
  Intc (clear_bit (IMR s) n) (PXIM s) (PXFLG s) (dmac s) (chip s) (intc_ipr s).

Definition __intc_mask_irq (s : intc) (n : Z) : intc :=
  Intc (set_bit (IMR s) n) (PXIM s) (PXFLG s) (dmac s) (chip s) (intc_ipr s).

Definition __intc_ack_irq (s : intc) (n : Z) : intc := s.

Definition upd {A} (l : list A) (i : Z) (f : A -> A) : option (list A) := x ← rd l i; wr l i (f x).

Definition __gpio_mask_irq (s : intc) (n : Z) : option intc :=
  l ← upd (PXIM s) (n / 32) (fun x => set_bit x (n mod 32));
  Some (Intc (IMR s) l (PXFLG s) (dmac s) (chip s) (intc_ipr s)).

Definition __gpio_unmask_irq (s : intc) (n : Z) : option intc :=
  l ← upd (PXIM s) (n / 32) (fun x => clear_bit x (n mod 32));
  Some (Intc (IMR s) l (PXFLG s) (dmac s) (chip s) (intc_ipr s)).

Definition __gpio_ack_irq (s : intc) (n : Z) : option intc :=
  l ← upd (PXFLG s) (n / 32) (fun x => clear_bit x (n mod 32));
  Some (Intc (IMR s) (PXIM s) l (dmac s) (chip s) (intc_ipr s)).

Definition set_tie (on : bool) (r : dma_regs) : dma_regs :=
  Regs (DSAR r) (DTAR r) (DTCR r) (DRSR r) (DCCSR r)
       (if on then Z.lor (DCMD r) DMAC_DCMD_TIE else Z.ldiff (DCMD r) DMAC_DCMD_TIE).

Definition __dmac_channel_enable_irq (s : intc) (n : Z) : option intc :=
  l ← upd (dmac s) n (set_tie true);
  Some (Intc (IMR s) (PXIM s) (PXFLG s) l (chip s) (intc_ipr s)).

Definition __dmac_channel_disable_irq (s : intc) (n : Z) : option intc :=
  l ← upd (dmac s) n (set_tie false);
  Some (Intc (IMR s) (PXIM s) (PXFLG s) l (chip s) (intc_ipr s)).

(** ** Handlers *)

Definition enable_intc_irq (s : intc) (irq : Z) : intc := __intc_unmask_irq s irq.
Definition disable_intc_irq (s : intc) (irq : Z) : intc := __intc_mask_irq s irq.
Definition mask_and_ack_intc_irq (s : intc) (irq : Z) : intc :=
  __intc_ack_irq (__intc_mask_irq s irq) irq.

(** [status] is [irq_desc[irq].status]. *)
Definition idle (status : Z) : bool := Z.land status (Z.lor IRQ_DISABLED IRQ_INPROGRESS) =? 0.

Definition end_intc_irq (s : intc) (status irq : Z) : intc :=
  if idle status then enable_intc_irq s irq else s.
Definition startup_intc_irq (s : intc) (irq : Z) : intc := enable_intc_irq s irq.
Definition shutdown_intc_irq (s : intc) (irq : Z) : intc := disable_intc_irq s irq.

(** The source that the pin of [irq] is behind. *)
Definition gpio_group (irq : Z) : Z :=
  if irq <? IRQ_GPIO_0 + 32 then IRQ_GPIO0
  else if irq <? IRQ_GPIO_0 + 64 then IRQ_GPIO1
  else if irq <? IRQ_GPIO_0 + 96 then IRQ_GPIO2
  else IRQ_GPIO3.

Definition enable_gpio_irq (s : intc) (irq : Z) : option intc :=
  __gpio_unmask_irq (enable_intc_irq s (gpio_group irq)) (irq - IRQ_GPIO_0).
Definition disable_gpio_irq (s : intc) (irq : Z) : option intc :=
  __gpio_mask_irq s (irq - IRQ_GPIO_0).
Definition mask_and_ack_gpio_irq (s : intc) (irq : Z) : option intc :=
  s ← __gpio_mask_irq s (irq - IRQ_GPIO_0);
  __gpio_ack_irq s (irq - IRQ_GPIO_0).
Definition end_gpio_irq (s : intc) (status irq : Z) : option intc :=
  if idle status then enable_gpio_irq s irq else Some s.
Definition startup_gpio_irq (s : intc) (irq : Z) : option intc := enable_gpio_irq s irq.
Definition shutdown_gpio_irq (s : intc) (irq : Z) : option intc := disable_gpio_irq s irq.

Definition enable_dma_irq (s : intc) (irq : Z) : option intc :=
  __dmac_channel_enable_irq (__intc_unmask_irq s IRQ_DMAC) (irq - IRQ_DMA_0).
Definition disable_dma_irq (s : intc) (irq : Z) : option intc :=
  __dmac_channel_disable_irq s (irq - IRQ_DMA_0).
Definition mask_and_ack_dma_irq (s : intc) (irq : Z) : option intc :=
  __dmac_channel_disable_irq (__intc_ack_irq s IRQ_DMAC) (irq - IRQ_DMA_0).
Definition end_dma_irq (s : intc) (status irq : Z) : option intc :=
  if idle status then enable_dma_irq s irq else Some s.
Definition startup_dma_irq (s : intc) (irq : Z) : option intc := enable_dma_irq s irq.
Definition shutdown_dma_irq (s : intc) (irq : Z) : option intc := disable_dma_irq s irq.

(** The calls of the generic interrupt code, through a chip's table. *)
Inductive chip_op := startup | shutdown | enable | disable | ack | end_ (status : Z).

Definition chip_call (c : irq_chip) (o : chip_op) (s : intc) (irq : Z) : option intc :=
  match c, o with
  | intc_irq_type, startup => Some (startup_intc_irq s irq)
  | intc_irq_type, shutdown => Some (shutdown_intc_irq s irq)
  | intc_irq_type, enable => Some (enable_intc_irq s irq)
  | intc_irq_type, disable => Some (disable_intc_irq s irq)
  | intc_irq_type, ack => Some (mask_and_ack_intc_irq s irq)
  | intc_irq_type, end_ st => Some (end_intc_irq s st irq)
  | gpio_irq_type, startup => startup_gpio_irq s irq
  | gpio_irq_type, shutdown => shutdown_gpio_irq s irq
  | gpio_irq_type, enable => enable_gpio_irq s irq
  | gpio_irq_type, disable => disable_gpio_irq s irq
  | gpio_irq_type, ack => mask_and_ack_gpio_irq s irq
  | gpio_irq_type, end_ st => end_gpio_irq s st irq
  | dma_irq_type, startup => startup_dma_irq s irq
  | dma_irq_type, shutdown => shutdown_dma_irq s irq
  | dma_irq_type, enable => enable_dma_irq s irq
  | dma_irq_type, disable => disable_dma_irq s irq
  | dma_irq_type, ack => mask_and_ack_dma_irq s irq
  | dma_irq_type, end_ st => end_dma_irq s st irq
  end.

(** ** Initialization *)

Definition set_chip (s : intc) (irq : Z) (c : irq_chip) : intc :=
  Intc (IMR s) (PXIM s) (PXFLG s) (dmac s) (<[irq := c]> (chip s)) (intc_ipr s).

(** [for (i = lo; ...; i++)] over [n] numbers: disable and set the chip. *)
Fixpoint init_loop (c : irq_chip) (n : nat) (irq : Z) (s : intc) : option intc :=
  match n with
  | O => Some s
  | S n =>
      s ← chip_call c disable s irq;
      init_loop c n (irq + 1) (set_chip s irq c)
  end.

Definition arch_init_irq (s : intc) : option intc :=
  s ← init_loop intc_irq_type 32 0 s;
  s ← init_loop dma_irq_type (Z.to_nat NUM_DMA) IRQ_DMA_0 s;
  init_loop gpio_irq_type (Z.to_nat NUM_GPIO) IRQ_GPIO_0 s.

(** ** Dispatch *)

(** The highest bit below [k] that is set, or -1. *)
Fixpoint __gpio_group_irq (tmp : Z) (k : nat) : Z :=
  match k with
  | O => -1
  | S k => if negb (Z.land tmp (2 ^ Z.of_nat k) =? 0) then Z.of_nat k else __gpio_group_irq tmp k
  end.

(** The lowest of the channels [i], ..., [i + k - 1] that is pending, or -1. *)
Fixpoint __dmac_get_irq (DMAIPR : Z) (k : nat) (i : Z) : Z :=
  match k with
  | O => -1
  | S k => if negb (Z.land DMAIPR (2 ^ i) =? 0) then i else __dmac_get_irq DMAIPR k (i + 1)
  end.

Definition fls (w : Z) : Z := if w =? 0 then 0 else Z.log2 w + 1.
Definition ffs (w : Z) : Z := if w =? 0 then 0 else fls (Z.land w (u32 (- w))).

Definition plat_real_irq (s : intc) (DMAIPR irq : Z) : option Z :=
  let group n := f ← rd (PXFLG s) n; Some (__gpio_group_irq f 32) in
  if irq =? IRQ_GPIO0 then g ← group 0; Some (g + IRQ_GPIO_0)
  else if irq =? IRQ_GPIO1 then g ← group 1; Some (g + IRQ_GPIO_0 + 32)
  else if irq =? IRQ_GPIO2 then g ← group 2; Some (g + IRQ_GPIO_0 + 64)
  else if irq =? IRQ_GPIO3 then g ← group 3; Some (g + IRQ_GPIO_0 + 96)
  else if irq =? IRQ_DMAC then Some (__dmac_get_irq DMAIPR (Z.to_nat MAX_DMA_NUM) 0 + IRQ_DMA_0)
  else Some irq.

Definition set_latch (s : intc) (x : Z) : intc :=
  Intc (IMR s) (PXIM s) (PXFLG s) (dmac s) (chip s) x.

(** [IPR] and [DMAIPR] are the pending registers; the result is the number that
    [do_IRQ] is called with, if it is called. *)
Definition plat_irq_dispatch (s : intc) (IPR DMAIPR : Z) : option (option Z * intc) :=
  let ipr := Z.lor (intc_ipr s) IPR in
  if ipr =? 0 then Some (None, set_latch s ipr)
  else
    let irq := ffs ipr - 1 in
    let s := set_latch s (clear_bit ipr irq) in
    r ← plat_real_irq s DMAIPR irq;
    Some (Some r, s).

(** ** Specification of masking *)

Definition real_irq (irq : Z) : Prop := 0 <= irq < 38 \/ 48 <= irq < 176.

Definition chip_of (irq : Z) : irq_chip :=
  if irq <? 32 then intc_irq_type else if irq <? 48 then dma_irq_type else gpio_irq_type.

(** The controller source that a DMA channel or pin is behind. *)
Definition parent (irq : Z) : option Z :=
  match chip_of irq with
  | intc_irq_type => None
  | dma_irq_type => Some IRQ_DMAC
  | gpio_irq_type => Some (IRQ_GPIO0 - (irq - IRQ_GPIO_0) / 32)
  end.

(** The mask bit of the interrupt itself. *)
Definition own_masked (s : intc) (irq : Z) : bool :=
  match chip_of irq with
  | intc_irq_type => Z.testbit (IMR s) irq
  | dma_irq_type =>
      match rd (dmac s) (irq - IRQ_DMA_0) with Some r => negb (Z.testbit (DCMD r) 1) | None => true end
  | gpio_irq_type =>
      match rd (PXIM s) ((irq - IRQ_GPIO_0) / 32) with
      | Some x => Z.testbit x ((irq - IRQ_GPIO_0) mod 32) | None => true end
  end.

(** The flag of pin [n]. *)
Definition pin_flag (s : intc) (n : Z) : bool :=
  match rd (PXFLG s) (n / 32) with Some x => Z.testbit x (n mod 32) | None => false end.

(** An interrupt gets through if neither it nor its source is masked. *)
Definition deliverable (s : intc) (irq : Z) : bool :=
  negb (own_masked s irq) && match parent irq with Some p => negb (own_masked s p) | None => true end.

Definition iwf (s : intc) : Prop :=
  length (PXIM s) = 4%nat /\ length (PXFLG s) = 4%nat /\ length (dmac s) = 6%nat.

Definition opens (o : chip_op) : bool :=
  match o with startup | enable => true | end_ st => idle st | _ => false end.
Definition closes (o : chip_op) : bool :=
  match o with shutdown | disable | ack => true | _ => false end.

(** The masks after a call. *)
Definition masked_after (o : chip_op) (irq : Z) (s : intc) (k : Z) : bool :=
  if closes o then (k =? irq) || own_masked s k
  else if opens o then negb ((k =? irq) || bool_decide (parent irq = Some k)) && own_masked s k
  else own_masked s k.

(** ** Lemmas *)

Lemma set_bit_testbit x n m : 0 <= n -> 0 <= m -> Z.testbit (set_bit x n) m = (m =? n) || Z.testbit x m.
Proof.
  intros Hn Hm. unfold set_bit. rewrite Z.lor_spec, Z.pow2_bits_eqb by lia.
  rewrite (Z.eqb_sym n m). apply orb_comm.
Qed.

Lemma clear_bit_testbit x n m :
  0 <= n -> 0 <= m -> Z.testbit (clear_bit x n) m = negb (m =? n) && Z.testbit x m.
Proof.
  intros Hn Hm. unfold clear_bit. rewrite Z.ldiff_spec, Z.pow2_bits_eqb by lia.
  rewrite (Z.eqb_sym n m). apply andb_comm.
Qed.

Lemma set_tie_testbit b r : Z.testbit (DCMD (set_tie b r)) 1 = b.
Proof.
  unfold set_tie. simpl. unfold DMAC_DCMD_TIE.
  destruct b; [rewrite Z.lor_spec|rewrite Z.ldiff_spec]; rewrite Z.pow2_bits_true by lia.
  - apply orb_true_r.
  - apply andb_false_r.
Qed.

Lemma upd_spec {A} (l : list A) i f :
  0 <= i < Z.of_nat (length l) ->
  exists l', upd l i f = Some l' /\ length l' = length l /\
    forall k, 0 <= k -> rd l' k = if k =? i then f <$> rd l k else rd l k.
Proof.
  intros Hi. unfold upd. destruct (rd_lt l i Hi) as [x Hx]. rewrite Hx. simpl. rewrite wr_Some by done.
  eexists. split; [done|]. split; [apply length_insert|]. intros k Hk. rewrite rd_insert by lia.
  destruct (Z.eqb_spec k i) as [->|]; [by rewrite Hx|done].
Qed.

Lemma chip_of_intc irq : irq < 32 -> chip_of irq = intc_irq_type.
Proof. intros. unfold chip_of. by rewrite (proj2 (Z.ltb_lt _ _)). Qed.

Lemma chip_of_dma irq : 32 <= irq < 48 -> chip_of irq = dma_irq_type.
Proof. intros. unfold chip_of. by rewrite (proj2 (Z.ltb_ge _ _)), (proj2 (Z.ltb_lt _ _)) by lia. Qed.

Lemma chip_of_gpio irq : 48 <= irq -> chip_of irq = gpio_irq_type.
Proof. intros. unfold chip_of. by rewrite !(proj2 (Z.ltb_ge _ _)) by lia. Qed.

Lemma chip_of_range irq :
  real_irq irq ->
  match chip_of irq with
  | intc_irq_type => 0 <= irq < 32 | dma_irq_type => 32 <= irq < 38 | gpio_irq_type => 48 <= irq < 176
  end.
Proof.
  unfold real_irq, chip_of. intros H. destruct (Z.ltb_spec irq 32); [lia|]. destruct (Z.ltb_spec irq 48); lia.
Qed.

Lemma gpio_group_parent irq :
  48 <= irq < 176 -> gpio_group irq = IRQ_GPIO0 - (irq - IRQ_GPIO_0) / 32.
Proof.
  unfold gpio_group, IRQ_GPIO_0, IRQ_GPIO0, IRQ_GPIO1, IRQ_GPIO2, IRQ_GPIO3. intros H.
  Z.to_euclidean_division_equations. zcases.
Qed.

(** What a call may do to the rest of the state. *)
Definition frame (s s' : intc) : Prop := iwf s' /\ chip s' = chip s /\ intc_ipr s' = intc_ipr s.

(** Position of a pin in its port. *)
Lemma pin_eqb k n :
  0 <= k -> 0 <= n -> (k =? n) = (k / 32 =? n / 32) && (k mod 32 =? n mod 32).
Proof.
  intros Hk Hn. pose proof (Z.div_mod k 32). pose proof (Z.div_mod n 32).
  destruct (Z.eqb_spec k n) as [->|]; [by rewrite !Z.eqb_refl|].
  symmetry. apply andb_false_iff. rewrite !Z.eqb_neq. lia.
Qed.

Section masking.
Context (s : intc) (Hs : iwf s).

(** The mask bit of a pin is written, or cleared. *)
Lemma gpio_mask_spec irq (b : bool) :
  48 <= irq < 176 ->
  exists s', (if b then __gpio_mask_irq s (irq - IRQ_GPIO_0) else __gpio_unmask_irq s (irq - IRQ_GPIO_0)) = Some s' /\
    frame s s' /\ PXFLG s' = PXFLG s /\
    forall k, real_irq k -> own_masked s' k = if k =? irq then b else own_masked s k.
Proof using Hs.
  intros Hi. destruct Hs as (Hm & Hf & Hd).
  destruct (upd_spec (PXIM s) ((irq - IRQ_GPIO_0) / 32) (fun x =>
    if b then set_bit x ((irq - IRQ_GPIO_0) mod 32) else clear_bit x ((irq - IRQ_GPIO_0) mod 32)))
    as (l & Hl & Hlen & Hrd).
  { unfold IRQ_GPIO_0. rewrite Hm. Z.to_euclidean_division_equations; lia. }
  exists (Intc (IMR s) l (PXFLG s) (dmac s) (chip s) (intc_ipr s)).
  split; [destruct b; unfold __gpio_mask_irq, __gpio_unmask_irq; by rewrite Hl|].
  split; [split; [|done]; split; simpl; [lia|done]|]. split; [done|].
  intros k Hk. unfold own_masked. destruct (chip_of k) eqn:Hc; simpl.
  1, 3: destruct (Z.eqb_spec k irq) as [->|]; [by rewrite chip_of_gpio in Hc by lia|done].
  assert (48 <= k < 176).
  { pose proof (chip_of_range k Hk) as Hr. by rewrite Hc in Hr. }
  assert (Hpos : forall x, 48 <= x < 176 -> 0 <= (x - 48) / 32 < 4 /\ 0 <= (x - 48) mod 32 < 32).
  { intros x Hx. Z.to_euclidean_division_equations. lia. }
  unfold IRQ_GPIO_0 in *. pose proof (Hpos k). pose proof (Hpos irq).
  rewrite Hrd by lia. replace (k =? irq) with (k - 48 =? irq - 48)
    by (destruct (Z.eqb_spec k irq), (Z.eqb_spec (k - 48) (irq - 48)); lia || done).
  rewrite (pin_eqb (k - 48) (irq - 48)) by lia.
  destruct (rd_lt (PXIM s) ((k - 48) / 32)) as [x Hx]; [lia|]. rewrite Hx. simpl.
  destruct (_ =? _); simpl; [|done].
  destruct b; [rewrite set_bit_testbit by lia|rewrite clear_bit_testbit by lia]; by destruct (_ =? _).
Qed.

Lemma dma_mask_spec irq (b : bool) :
  32 <= irq < 38 ->
  exists s', (if b then __dmac_channel_disable_irq s (irq - IRQ_DMA_0) else __dmac_channel_enable_irq s (irq - IRQ_DMA_0)) = Some s' /\
    frame s s' /\ PXFLG s' = PXFLG s /\
    forall k, real_irq k -> own_masked s' k = if k =? irq then b else own_masked s k.
Proof using Hs.
  intros Hi. destruct Hs as (Hm & Hf & Hd).
  destruct (upd_spec (dmac s) (irq - IRQ_DMA_0) (set_tie (negb b))) as (l & Hl & Hlen & Hrd).
  { unfold IRQ_DMA_0. lia. }
  exists (Intc (IMR s) (PXIM s) (PXFLG s) l (chip s) (intc_ipr s)).
  split; [destruct b; unfold __dmac_channel_disable_irq, __dmac_channel_enable_irq; simpl in Hl; by rewrite Hl|].
  split; [split; [|done]; split; simpl; [lia|lia]|]. split; [done|].
  intros k Hk. unfold own_masked. destruct (chip_of k) eqn:Hc; simpl.
  1, 2: destruct (Z.eqb_spec k irq) as [->|]; [by rewrite chip_of_dma in Hc by lia|done].
  assert (32 <= k < 38).
  { pose proof (chip_of_range k Hk) as Hr. by rewrite Hc in Hr. }
  unfold IRQ_DMA_0 in *. rewrite Hrd by lia.
  destruct (rd_lt (dmac s) (k - 32)) as [r Hr]; [lia|]. rewrite Hr. simpl.
  destruct (Z.eqb_spec k irq) as [->|]; [by rewrite Z.eqb_refl, set_tie_testbit, negb_involutive|].
  rewrite (proj2 (Z.eqb_neq _ _)) by lia. done.
Qed.

Lemma intc_mask_spec irq (b : bool) :
  0 <= irq < 32 ->
  let s' := if b then __intc_mask_irq s irq else __intc_unmask_irq s irq in
  frame s s' /\ PXFLG s' = PXFLG s /\
    forall k, real_irq k -> own_masked s' k = if k =? irq then b else own_masked s k.
Proof using Hs.
  intros Hi s'. split; [by destruct b|]. split; [by destruct b|].
  intros k Hk. unfold own_masked. destruct (chip_of k) eqn:Hc.
  2, 3: destruct (Z.eqb_spec k irq) as [->|]; [by rewrite chip_of_intc in Hc by lia|by destruct b].
  assert (0 <= k < 32).
  { pose proof (chip_of_range k Hk) as Hr. by rewrite Hc in Hr. }
  unfold s'. destruct b; simpl; [rewrite set_bit_testbit by lia|rewrite clear_bit_testbit by lia];
    by destruct (_ =? _).
Qed.

(** Acknowledging a pin clears its flag only. *)
Lemma gpio_ack_spec irq :
  48 <= irq < 176 ->
  exists s', __gpio_ack_irq s (irq - IRQ_GPIO_0) = Some s' /\ frame s s' /\
    (forall k, own_masked s' k = own_masked s k) /\
    forall n, 0 <= n < 128 -> pin_flag s' n = negb (n =? irq - IRQ_GPIO_0) && pin_flag s n.
Proof using Hs.
  intros Hi. destruct Hs as (Hm & Hf & Hd). unfold IRQ_GPIO_0.
  assert (Hpos : forall x, 0 <= x < 128 -> 0 <= x / 32 < 4 /\ 0 <= x mod 32 < 32).
  { intros x Hx. Z.to_euclidean_division_equations. lia. }
  pose proof (Hpos (irq - 48)).
  destruct (upd_spec (PXFLG s) ((irq - 48) / 32) (fun x => clear_bit x ((irq - 48) mod 32)))
    as (l & Hl & Hlen & Hrd); [lia|].
  unfold __gpio_ack_irq. rewrite Hl. eexists. split; [done|]. simpl.
  split; [split; [split; [done|]; simpl; lia|done]|]. split; [done|].
  intros n Hn. pose proof (Hpos n). unfold pin_flag. simpl. rewrite Hrd by lia.
  rewrite (pin_eqb n) by lia. destruct (rd_lt (PXFLG s) (n / 32)) as [x Hx]; [lia|]. rewrite Hx.
  destruct (_ =? _); simpl; [|done]. rewrite clear_bit_testbit by lia. done.
Qed.

End masking.

#[export] Instance chip_op_eq : EqDecision chip_op.
Proof. solve_decision. Defined.

(** What every call guarantees: it is defined, and changes exactly the masks
    that it should. *)
Definition exact (o : chip_op) (irq : Z) (s : intc) (r : option intc) : Prop :=
  exists s', r = Some s' /\ frame s s' /\
    (forall k, real_irq k -> own_masked s' k = masked_after o irq s k) /\
    (forall n, 0 <= n < 128 ->
       pin_flag s' n = negb (bool_decide (o = ack) && (n =? irq - IRQ_GPIO_0)) && pin_flag s n).

Lemma flags_same s s' o irq :
  PXFLG s' = PXFLG s -> o <> ack -> forall n, 0 <= n < 128 ->
  pin_flag s' n = negb (bool_decide (o = ack) && (n =? irq - IRQ_GPIO_0)) && pin_flag s n.
Proof. intros Hf Ho n _. unfold pin_flag. rewrite Hf, bool_decide_eq_false_2 by done. done. Qed.

(** The calls reduce to masking, unmasking, acknowledging or nothing. *)
Lemma exact_nop o irq s : iwf s -> closes o = false -> opens o = false -> exact o irq s (Some s).
Proof.
  intros Hs Hc Ho. exists s. split; [done|]. split; [done|]. split.
  - intros k _. unfold masked_after. by rewrite Hc, Ho.
  - apply flags_same; [done|]. by intros ->.
Qed.

Lemma exact_close o irq s s' :
  closes o = true -> o <> ack \/ irq < 48 -> frame s s' -> PXFLG s' = PXFLG s ->
  (forall k, real_irq k -> own_masked s' k = if k =? irq then true else own_masked s k) ->
  exact o irq s (Some s').
Proof.
  intros Hc Ho Hfr Hfl Hm. exists s'. split; [done|]. split; [done|]. split.
  - intros k Hk. unfold masked_after. rewrite Hc, Hm by done. by destruct (k =? irq).
  - intros n Hn. unfold pin_flag. rewrite Hfl. destruct Ho as [Ho|Ho].
    + by rewrite bool_decide_eq_false_2.
    + rewrite (proj2 (Z.eqb_neq n _)) by (unfold IRQ_GPIO_0; lia). by rewrite andb_false_r.
Qed.

Lemma exact_open o irq s s' :
  opens o = true -> frame s s' -> PXFLG s' = PXFLG s ->
  (forall k, real_irq k -> own_masked s' k =
     if (k =? irq) || bool_decide (parent irq = Some k) then false else own_masked s k) ->
  exact o irq s (Some s').
Proof.
  intros Ho Hfr Hfl Hm. exists s'. split; [done|]. split; [done|]. split.
  - intros k Hk. unfold masked_after. rewrite Ho, Hm by done.
    replace (closes o) with false by (by destruct o). by destruct (_ || _).
  - apply flags_same; [done|]. by intros ->.
Qed.

Lemma frame_trans s1 s2 s3 : frame s1 s2 -> frame s2 s3 -> frame s1 s3.
Proof. intros (_ & H1 & H2) (H3 & H4 & H5). split; [done|]. by rewrite H4, H5. Qed.

(** Unmasking the source and then the interrupt behind it. *)
Lemma open_both irq p s s1 s2 :
  parent irq = Some p ->
  (forall k, real_irq k -> own_masked s1 k = if k =? p then false else own_masked s k) ->
  (forall k, real_irq k -> own_masked s2 k = if k =? irq then false else own_masked s1 k) ->
  forall k, real_irq k -> own_masked s2 k =
    if (k =? irq) || bool_decide (parent irq = Some k) then false else own_masked s k.
Proof.
  intros Hp H1 H2 k Hk. rewrite H2, H1, Hp by done. destruct (k =? irq); simpl; [done|].
  destruct (Z.eqb_spec k p) as [->|Hne]; [by rewrite bool_decide_eq_true_2|].
  rewrite bool_decide_eq_false_2; [done|]. congruence.
Qed.

Section calls.
Context (s : intc) (Hs : iwf s).

Lemma intc_call_exact o irq : 0 <= irq < 32 -> exact o irq s (chip_call intc_irq_type o s irq).
Proof using Hs.
  intros Hi. pose proof (intc_mask_spec s Hs irq true Hi) as (Hf & Hg & Hm).
  pose proof (intc_mask_spec s Hs irq false Hi) as (Hf2 & Hg2 & Hm2).
  assert (Hpar : parent irq = None) by (unfold parent; by rewrite chip_of_intc by lia).
  assert (Hop : forall o, opens o = true -> exact o irq s (Some (enable_intc_irq s irq))).
  { intros o' Ho. apply exact_open; [done|done|done|]. intros k Hk. unfold enable_intc_irq.
    rewrite Hm2, Hpar by done. rewrite bool_decide_eq_false_2, orb_false_r by done. done. }
  assert (Hcl : forall o, closes o = true -> exact o irq s (Some (disable_intc_irq s irq))).
  { intros o' Ho. apply exact_close; [done|right; lia|done|done|done]. }
  destruct o as [| | | | |st]; simpl; try (by apply Hop); try (by apply Hcl).
  unfold end_intc_irq. destruct (idle st) eqn:Hst; [by apply Hop|by apply exact_nop].
Qed.

Lemma dma_call_exact o irq : 32 <= irq < 38 -> exact o irq s (chip_call dma_irq_type o s irq).
Proof using Hs.
  intros Hi.
  assert (Hop : forall o, opens o = true -> exact o irq s (enable_dma_irq s irq)).
  { intros o' Ho. unfold enable_dma_irq.
    destruct (intc_mask_spec s Hs IRQ_DMAC false) as (Hf & Hg & Hm); [unfold IRQ_DMAC; lia|].
    destruct (dma_mask_spec (__intc_unmask_irq s IRQ_DMAC) ltac:(apply Hf) irq false Hi) as (s' & -> & Hf' & Hg' & Hm').
    apply exact_open; [done|exact (frame_trans _ _ _ Hf Hf')|by rewrite Hg'|].
    eapply open_both; [unfold parent; by rewrite chip_of_dma by lia|exact Hm|exact Hm']. }
  assert (Hcl : forall o, closes o = true -> exact o irq s (disable_dma_irq s irq)).
  { intros o' Ho. unfold disable_dma_irq.
    destruct (dma_mask_spec s Hs irq true Hi) as (s' & -> & Hf' & Hg' & Hm').
    apply exact_close; [done|right; lia|done|done|done]. }
  destruct o as [| | | | |st]; simpl; try (by apply Hop); try (by apply Hcl).
  unfold end_dma_irq. destruct (idle st) eqn:Hst; [by apply Hop|by apply exact_nop].
Qed.

Lemma gpio_call_exact o irq : 48 <= irq < 176 -> exact o irq s (chip_call gpio_irq_type o s irq).
Proof using Hs.
  intros Hi.
  assert (Hop : forall o, opens o = true -> exact o irq s (enable_gpio_irq s irq)).
  { intros o' Ho. unfold enable_gpio_irq, enable_intc_irq. rewrite gpio_group_parent by done.
    set (p := IRQ_GPIO0 - (irq - IRQ_GPIO_0) / 32).
    destruct (intc_mask_spec s Hs p false) as (Hf & Hg & Hm).
    { unfold p, IRQ_GPIO0, IRQ_GPIO_0. Z.to_euclidean_division_equations; lia. }
    destruct (gpio_mask_spec (__intc_unmask_irq s p) ltac:(apply Hf) irq false Hi) as (s' & -> & Hf' & Hg' & Hm').
    apply exact_open; [done|exact (frame_trans _ _ _ Hf Hf')|by rewrite Hg'|].
    eapply open_both; [unfold parent; by rewrite chip_of_gpio by lia|exact Hm|exact Hm']. }
  assert (Hcl : forall o, closes o = true -> o <> ack -> exact o irq s (disable_gpio_irq s irq)).
  { intros o' Ho Hn. unfold disable_gpio_irq.
    destruct (gpio_mask_spec s Hs irq true Hi) as (s' & -> & Hf' & Hg' & Hm').
    apply exact_close; [done|by left|done|done|done]. }
  destruct o as [| | | | |st]; simpl; try (by apply Hop); try (by apply Hcl).
  - unfold mask_and_ack_gpio_irq.
    destruct (gpio_mask_spec s Hs irq true Hi) as (s1 & -> & Hf1 & Hg1 & Hm1). simpl.
    destruct (gpio_ack_spec s1 ltac:(apply Hf1) irq Hi) as (s2 & -> & Hf2 & Hm2 & Hfl2).
    exists s2. split; [done|]. split; [exact (frame_trans _ _ _ Hf1 Hf2)|]. split.
    + intros k Hk. unfold masked_after. simpl. rewrite Hm2, Hm1 by done. by destruct (k =? irq).
    + intros n Hn. rewrite Hfl2, bool_decide_eq_true_2 by done. unfold pin_flag. by rewrite Hg1.
  - unfold end_gpio_irq. destruct (idle st) eqn:Hst; [by apply Hop|by apply exact_nop].
Qed.

Lemma call_exact o irq : real_irq irq -> exact o irq s (chip_call (chip_of irq) o s irq).
Proof using Hs.
  intros Hr. pose proof (chip_of_range irq Hr) as H. destruct (chip_of irq);
    [by apply intc_call_exact|by apply gpio_call_exact|by apply dma_call_exact].
Qed.

(** C22: through the handler table of its kind, every interrupt (controller
    source, DMA channel or pin) and every call of the generic code: the call is
    defined; disabling, shutting down or acknowledging sets exactly the mask bit
    of that interrupt; enabling, starting up or ending (unless it is disabled or
    in progress) clears exactly the mask bits of the interrupt and of the source
    it is behind, so that it is deliverable; all other masks stay; and a pin's
    flag is cleared by its own acknowledgement only. *)
Theorem irq_calls_exact o irq :
  real_irq irq ->
  exists s', chip_call (chip_of irq) o s irq = Some s' /\ frame s s' /\
    (forall k, real_irq k -> own_masked s' k = masked_after o irq s k) /\
    (opens o = true -> deliverable s' irq = true) /\ (closes o = true -> deliverable s' irq = false) /\
    (forall n, 0 <= n < 128 ->
       pin_flag s' n = negb (bool_decide (o = ack) && (n =? irq - IRQ_GPIO_0)) && pin_flag s n).
Proof using Hs.
  intros Hr. destruct (call_exact o irq Hr) as (s' & E & Hf & Hm & Hfl).
  exists s'. split; [done|]. split; [done|]. split; [done|]. split; [|split; [|done]].
  - intros Ho. unfold deliverable. assert (closes o = false) as Hc by (by destruct o).
    rewrite Hm by done. unfold masked_after. rewrite Hc, Ho, Z.eqb_refl. simpl.
    destruct (parent irq) as [p|] eqn:Hp; [|done].
    rewrite Hm. 1: unfold masked_after; rewrite Hc, Ho, Hp, bool_decide_eq_true_2 by done; by rewrite orb_true_r.
    unfold parent in Hp. pose proof (chip_of_range irq Hr) as H. left.
    destruct (chip_of irq); [done| |]; injection Hp as <-; [|unfold IRQ_DMAC; lia].
    unfold IRQ_GPIO0, IRQ_GPIO_0. Z.to_euclidean_division_equations; lia.
  - intros Hc. unfold deliverable. rewrite Hm by done. unfold masked_after. by rewrite Hc, Z.eqb_refl.
Qed.

End calls.

(** A controller with every register clear. *)
Definition intc0 : intc := Intc 0 [0; 0; 0; 0] [0; 8; 0; 0] (replicate 6 (Regs 0 0 0 0 0 0)) ∅ 0.

Lemma irq_calls_exact_witness :
  exists s', chip_call (chip_of 83) ack intc0 83 = Some s' /\
    deliverable s' 83 = false /\ own_masked s' 84 = false /\ pin_flag intc0 35 = true /\ pin_flag s' 35 = false.
Proof.
  destruct (irq_calls_exact intc0 ltac:(by repeat split) ack 83) as (s' & E & _ & Hm & _ & Hc & Hfl); [right; lia|].
  exists s'. split; [exact E|]. split; [by apply Hc|]. split; [rewrite Hm; [reflexivity|right; lia]|].
  split; [reflexivity|]. rewrite Hfl by lia. reflexivity.
Defined.

(** ** Initialization *)

Lemma init_loop_spec c n : forall irq s,
  iwf s -> (forall k, irq <= k < irq + Z.of_nat n -> real_irq k /\ chip_of k = c) ->
  exists s', init_loop c n irq s = Some s' /\ iwf s' /\ intc_ipr s' = intc_ipr s /\
    (forall k, real_irq k -> own_masked s' k =
       ((irq <=? k) && (k <? irq + Z.of_nat n)) || own_masked s k) /\
    (forall k, chip s' !! k = if (irq <=? k) && (k <? irq + Z.of_nat n) then Some c else chip s !! k).
Proof.
  induction n as [|n IH]; intros irq s Hs Hall.
  { exists s. split; [done|]. split; [done|]. split; [done|].
    split; intros k; intros; replace ((irq <=? k) && (k <? irq + Z.of_nat 0)) with false; try done;
      symmetry; apply andb_false_iff; rewrite Z.leb_gt, Z.ltb_ge; lia. }
  destruct (Hall irq) as [Hr Hc]; [lia|]. subst c. cbn [init_loop].
  pose proof (call_exact s Hs disable irq Hr) as (s1 & E & (Hs1 & Hch & Hl) & Hm & _).
  rewrite E. simpl.
  destruct (IH (irq + 1) (set_chip s1 irq (chip_of irq))) as (s2 & E2 & Hs2 & Hl2 & Hm2 & Hc2).
  { done. } { intros k Hk. apply Hall. lia. }
  rewrite E2. exists s2. split; [done|]. split; [done|]. split; [by rewrite Hl2|].
  assert (Hin : forall k, (irq <=? k) && (k <? irq + Z.of_nat (S n)) =
    (k =? irq) || ((irq + 1 <=? k) && (k <? irq + 1 + Z.of_nat n))).
  { intros k. apply eq_true_iff_eq. rewrite orb_true_iff, !andb_true_iff, !Z.leb_le, !Z.ltb_lt, Z.eqb_eq. lia. }
  split; intros k; [intros Hk|]; rewrite Hin.
  - rewrite Hm2 by done. change (own_masked (set_chip s1 irq (chip_of irq)) k) with (own_masked s1 k).
    rewrite Hm by done. unfold masked_after. simpl.
    destruct (k =? irq), ((irq + 1 <=? k) && (k <? irq + 1 + Z.of_nat n)); done.
  - rewrite Hc2. simpl. destruct ((irq + 1 <=? k) && (k <? irq + 1 + Z.of_nat n)) eqn:Hk; [by rewrite orb_true_r|].
    rewrite orb_false_r, Hch. destruct (Z.eqb_spec k irq) as [->|]; [by rewrite lookup_insert_eq|].
    by rewrite lookup_insert_ne.
Qed.

(** Whatever the registers hold at boot, [arch_init_irq] is defined and
    leaves every interrupt masked, with the handler table of its kind and no
    other entry of [irq_desc] changed. *)
Theorem arch_init_irq_masks s :
  iwf s ->
  exists s', arch_init_irq s = Some s' /\ iwf s' /\
    (forall irq, real_irq irq -> deliverable s' irq = false /\ chip s' !! irq = Some (chip_of irq)) /\
    (forall irq, ~ real_irq irq -> chip s' !! irq = chip s !! irq).
Proof.
  intros Hs. unfold arch_init_irq.
  destruct (init_loop_spec intc_irq_type 32 0 s Hs) as (s1 & -> & Hs1 & _ & Hm1 & Hc1).
  { intros k Hk. split; [unfold real_irq; lia|apply chip_of_intc; lia]. }
  cbn [mbind option_bind].
  destruct (init_loop_spec dma_irq_type (Z.to_nat NUM_DMA) IRQ_DMA_0 s1 Hs1) as (s2 & -> & Hs2 & _ & Hm2 & Hc2).
  { unfold IRQ_DMA_0, NUM_DMA. intros k Hk. split; [unfold real_irq; lia|apply chip_of_dma; lia]. }
  cbn [mbind option_bind].
  destruct (init_loop_spec gpio_irq_type (Z.to_nat NUM_GPIO) IRQ_GPIO_0 s2 Hs2) as (s3 & -> & Hs3 & _ & Hm3 & Hc3).
  { unfold IRQ_GPIO_0, NUM_GPIO. intros k Hk. split; [unfold real_irq; lia|apply chip_of_gpio; lia]. }
  exists s3. split; [done|]. split; [done|].
  rewrite Z2Nat.id in * by (unfold NUM_GPIO; lia). rewrite Z2Nat.id in * by (unfold NUM_DMA; lia).
  unfold NUM_GPIO, NUM_DMA, IRQ_GPIO_0, IRQ_DMA_0, real_irq in *. split; intros k Hk.
  - unfold deliverable. rewrite Hm3, Hm2, Hm1, Hc3, Hc2, Hc1 by done. unfold chip_of. split.
    + destruct (Z.leb_spec 48 k), (Z.ltb_spec k (48 + 128)), (Z.leb_spec 32 k), (Z.ltb_spec k (32 + 6)),
        (Z.leb_spec 0 k), (Z.ltb_spec k (0 + Z.of_nat 32)); simpl; done || lia.
    + destruct (Z.leb_spec 48 k), (Z.ltb_spec k (48 + 128)), (Z.leb_spec 32 k), (Z.ltb_spec k (32 + 6)),
        (Z.leb_spec 0 k), (Z.ltb_spec k (0 + Z.of_nat 32)), (Z.ltb_spec k 32), (Z.ltb_spec k 48); simpl; done || lia.
  - rewrite Hc3, Hc2, Hc1.
    destruct (Z.leb_spec 48 k), (Z.ltb_spec k (48 + 128)), (Z.leb_spec 32 k), (Z.ltb_spec k (32 + 6)),
      (Z.leb_spec 0 k), (Z.ltb_spec k (0 + Z.of_nat 32)); simpl; done || lia.
Qed.

Lemma arch_init_irq_masks_witness :
  exists s', arch_init_irq intc0 = Some s' /\ deliverable s' 100 = false /\ chip s' !! 100 = Some gpio_irq_type.
Proof.
  destruct (arch_init_irq_masks intc0) as (s' & E & _ & H & _); [by repeat split|].
  exists s'. split; [exact E|]. apply H. right. lia.
Defined.

(** ** Dispatch *)

(** [src] is the lowest bit that is set in [w]. *)
Definition lowest (w src : Z) : Prop :=
  0 <= src < 32 /\ Z.testbit w src = true /\ forall j, 0 <= j < src -> Z.testbit w j = false.

(** Every positive number is an odd number shifted. *)
Lemma odd_part p : exists i m, 0 <= i /\ 0 <= m /\ Z.pos p = Z.shiftl (2 * m + 1) i.
Proof.
  induction p as [p _|p (i & m & Hi & Hm & E)|].
  - exists 0, (Z.pos p). rewrite Z.shiftl_0_r. lia.
  - exists (i + 1), m. split; [lia|]. split; [done|]. rewrite Pos2Z.inj_xO, E.
    rewrite !Z.shiftl_mul_pow2, Z.pow_add_r by lia. lia.
  - exists 0, 0. done.
Qed.

Lemma land_opp_odd m : Z.land (2 * m + 1) (- (2 * m + 1)) = 1.
Proof.
  replace (- (2 * m + 1)) with (Z.lnot (2 * m)) by (unfold Z.lnot; lia).
  apply Z.bits_inj'. intros n Hn. rewrite Z.land_spec, Z.lnot_spec by done.
  destruct (Z.eq_dec n 0) as [->|Hn0].
  - by rewrite Z.testbit_odd_0, Z.testbit_even_0.
  - replace n with (Z.succ (n - 1)) by lia. rewrite Z.testbit_odd_succ, Z.testbit_even_succ by lia.
    change (Z.testbit 1) with (Z.testbit (2 ^ 0)). rewrite Z.pow2_bits_false by lia. by destruct (Z.testbit m (n - 1)).
Qed.

Lemma ffs_lowest w : 0 < w < 2 ^ 32 -> lowest w (ffs w - 1).
Proof.
  intros Hw. destruct w as [|p|p]; [lia| |lia]. destruct (odd_part p) as (i & m & Hi & Hm & E).
  set (w := Z.pos p) in *.
  assert (Hbit : Z.testbit w i = true).
  { rewrite E, Z.shiftl_spec by lia. by rewrite Z.sub_diag, Z.testbit_odd_0. }
  assert (Hi32 : i < 32).
  { destruct (Z.lt_ge_cases i 32); [done|]. by rewrite (testbit_high 32 i w) in Hbit by (unfold digit; lia). }
  assert (Hand : Z.land w (u32 (- w)) = 2 ^ i).
  { unfold u32. rewrite <- Z.land_ones by lia. rewrite (Z.land_comm (- w)), Z.land_assoc, Z.land_ones by lia.
    rewrite Z.mod_small by lia. rewrite E. replace (- Z.shiftl (2 * m + 1) i) with (Z.shiftl (- (2 * m + 1)) i)
      by (rewrite !Z.shiftl_mul_pow2 by lia; ring).
    rewrite <- Z.shiftl_land, land_opp_odd, Z.shiftl_1_l. done. }
  unfold ffs, fls. rewrite Hand. pose proof (Z.pow_pos_nonneg 2 i).
  rewrite (proj2 (Z.eqb_neq w 0)), (proj2 (Z.eqb_neq (2 ^ i) 0)) by lia. rewrite Z.log2_pow2 by lia.
  replace (i + 1 - 1) with i by lia. split; [lia|]. split; [done|].
  intros j Hj. rewrite E. apply Z.shiftl_spec_low. lia.
Qed.

Lemma group_irq_spec f n :
  (exists p, 0 <= p < Z.of_nat n /\ __gpio_group_irq f n = p /\ Z.testbit f p = true /\
     forall j, p < j < Z.of_nat n -> Z.testbit f j = false) \/
  (__gpio_group_irq f n = -1 /\ forall j, 0 <= j < Z.of_nat n -> Z.testbit f j = false).
Proof.
  induction n as [|n IH]; [right; split; [done|lia]|]. cbn [__gpio_group_irq].
  rewrite land_pow2_testbit by lia. destruct (Z.testbit f (Z.of_nat n)) eqn:Hb.
  - left. exists (Z.of_nat n). split; [lia|]. split; [done|]. split; [done|]. lia.
  - assert (Hext : forall j, 0 <= j < Z.of_nat (S n) -> j <> Z.of_nat n -> 0 <= j < Z.of_nat n) by lia.
    destruct IH as [(p & Hp & -> & Hpb & Hab)|[-> Hall]]; [left|right].
    + exists p. split; [lia|]. split; [done|]. split; [done|]. intros j Hj.
      destruct (Z.eq_dec j (Z.of_nat n)) as [->|]; [done|apply Hab; lia].
    + split; [done|]. intros j Hj. destruct (Z.eq_dec j (Z.of_nat n)) as [->|]; [done|apply Hall; lia].
Qed.

Lemma dmac_get_irq_spec w n : forall i, 0 <= i ->
  (exists p, i <= p < i + Z.of_nat n /\ __dmac_get_irq w n i = p /\ Z.testbit w p = true /\
     forall j, i <= j < p -> Z.testbit w j = false) \/
  (__dmac_get_irq w n i = -1 /\ forall j, i <= j < i + Z.of_nat n -> Z.testbit w j = false).
Proof.
  induction n as [|n IH]; intros i Hi; [right; split; [done|lia]|]. cbn [__dmac_get_irq].
  rewrite land_pow2_testbit by lia. destruct (Z.testbit w i) eqn:Hb.
  - left. exists i. split; [lia|]. split; [done|]. split; [done|]. lia.
  - destruct (IH (i + 1)) as [(p & Hp & -> & Hpb & Hab)|[-> Hall]]; [lia|left|right].
    + exists p. split; [lia|]. split; [done|]. split; [done|]. intros j Hj.
      destruct (Z.eq_dec j i) as [->|]; [done|apply Hab; lia].
    + split; [done|]. intros j Hj. destruct (Z.eq_dec j i) as [->|]; [done|apply Hall; lia].
Qed.

(** The interrupt number for source [src]: the highest flagged pin of the port,
    or the lowest pending DMA channel, or the source itself.  The last disjuncts
    are the numbers that come out when nothing is flagged. *)
Definition number_of (flg : list Z) (DMAIPR src r : Z) : Prop :=
  if (IRQ_GPIO3 <=? src) && (src <=? IRQ_GPIO0) then
    exists f, rd flg (IRQ_GPIO0 - src) = Some f /\
      let base := IRQ_GPIO_0 + 32 * (IRQ_GPIO0 - src) in
      ((exists p, 0 <= p < 32 /\ r = base + p /\ Z.testbit f p = true /\
         forall j, p < j < 32 -> Z.testbit f j = false) \/
       (r = base - 1 /\ forall j, 0 <= j < 32 -> Z.testbit f j = false))
  else if src =? IRQ_DMAC then
    (exists p, 0 <= p < 6 /\ r = IRQ_DMA_0 + p /\ Z.testbit DMAIPR p = true /\
       forall j, 0 <= j < p -> Z.testbit DMAIPR j = false) \/
    (r = IRQ_DMA_0 - 1 /\ forall j, 0 <= j < 6 -> Z.testbit DMAIPR j = false)
  else r = src.

Lemma plat_real_irq_spec s DMAIPR src :
  iwf s -> exists r, plat_real_irq s DMAIPR src = Some r /\ number_of (PXFLG s) DMAIPR src r.
Proof.
  intros (_ & Hf & _). unfold plat_real_irq, number_of.
  assert (Hgrp : forall n off, 0 <= n < 4 -> off = 32 * n -> exists r f,
    (g ← (f ← rd (PXFLG s) n; Some (__gpio_group_irq f 32)); Some (g + IRQ_GPIO_0 + off)) = Some r /\
    rd (PXFLG s) n = Some f /\
    ((exists p, 0 <= p < 32 /\ r = IRQ_GPIO_0 + 32 * n + p /\ Z.testbit f p = true /\
         forall j, p < j < 32 -> Z.testbit f j = false) \/
     (r = IRQ_GPIO_0 + 32 * n - 1 /\ forall j, 0 <= j < 32 -> Z.testbit f j = false))).
  { intros n off Hn ->. destruct (rd_lt (PXFLG s) n) as [f Hfl]; [lia|]. rewrite Hfl.
    cbn [mbind option_bind]. eexists _, f. split; [done|]. split; [done|].
    destruct (group_irq_spec f 32) as [(p & Hp & -> & Hb & Hh)|[-> Hh]]; [left; exists p|right];
      (split; [lia|]); auto. split; [lia|]. auto. }
  unfold IRQ_GPIO0, IRQ_GPIO1, IRQ_GPIO2, IRQ_GPIO3, IRQ_DMAC in *.
  destruct (Z.eqb_spec src 28) as [->|].
  { destruct (Hgrp 0 0) as (r & f & E & Hfl & Hr); [lia|lia|]. exists r. split; [|by exists f].
    destruct (rd (PXFLG s) 0); [|done]. cbn [mbind option_bind] in *. by rewrite Z.add_0_r in E. }
  destruct (Z.eqb_spec src 27) as [->|].
  { destruct (Hgrp 1 32) as (r & f & E & Hfl & Hr); [lia|lia|]. exists r. split; [done|by exists f]. }
  destruct (Z.eqb_spec src 26) as [->|].
  { destruct (Hgrp 2 64) as (r & f & E & Hfl & Hr); [lia|lia|]. exists r. split; [done|by exists f]. }
  destruct (Z.eqb_spec src 25) as [->|].
  { destruct (Hgrp 3 96) as (r & f & E & Hfl & Hr); [lia|lia|]. exists r. split; [done|by exists f]. }
  replace ((25 <=? src) && (src <=? 28)) with false
    by (symmetry; apply andb_false_iff; rewrite !Z.leb_gt; lia).
  destruct (Z.eqb_spec src 20) as [->|]; [|by eexists].
  eexists. split; [done|]. change (Z.to_nat MAX_DMA_NUM) with 6%nat.
  destruct (dmac_get_irq_spec DMAIPR 6 0) as [(p & Hp & -> & Hb & Hl)|[-> Hl]];
    [lia|left; exists p|right]; (split; [lia|]); auto. split; [lia|]. auto.
Qed.

Definition lwf (s : intc) : Prop := iwf s /\ digit 32 (intc_ipr s).

(** The source that a call with pending register [IPR] serves. *)
Definition served (s : intc) (IPR : Z) : option Z :=
  let ipr := Z.lor (intc_ipr s) IPR in if ipr =? 0 then None else Some (ffs ipr - 1).

(** One call of the dispatcher, in terms of the source it serves. *)
Lemma dispatch_step s IPR DMAIPR :
  lwf s -> digit 32 IPR ->
  exists out s', plat_irq_dispatch s IPR DMAIPR = Some (out, s') /\ lwf s' /\ PXFLG s' = PXFLG s /\
    (forall k, 0 <= k -> Z.testbit (intc_ipr s') k =
       negb (bool_decide (served s IPR = Some k)) && Z.testbit (Z.lor (intc_ipr s) IPR) k) /\
    match served s IPR with
    | None => out = None /\ Z.lor (intc_ipr s) IPR = 0
    | Some src => lowest (Z.lor (intc_ipr s) IPR) src /\ exists r, out = Some r /\ number_of (PXFLG s) DMAIPR src r
    end.
Proof.
  intros [Hs Hl] Hipr. unfold plat_irq_dispatch, served.
  pose proof (digit_lor 32 (intc_ipr s) IPR ltac:(lia) Hl Hipr) as Hw.
  set (w := Z.lor (intc_ipr s) IPR) in *. destruct (Z.eqb_spec w 0) as [E|Hne].
  { eexists _, _. split; [done|]. split; [split; [done|]; simpl; rewrite E; unfold digit; lia|].
    split; [done|]. split; [|done]. intros k Hk. simpl. by rewrite E. }
  pose proof (ffs_lowest w ltac:(destruct Hw; lia)) as Hlow. set (src := ffs w - 1) in *.
  destruct (plat_real_irq_spec (set_latch s (clear_bit w src)) DMAIPR src) as (r & -> & Hr); [done|].
  cbn [mbind option_bind]. eexists _, _. split; [done|].
  split; [split; [done|]; simpl; by apply digit_ldiff|]. split; [done|]. split; [|split; [done|by exists r]].
  intros k Hk. simpl. rewrite clear_bit_testbit by (apply Hlow || done).
  destruct (Z.eqb_spec k src) as [->|]; [by rewrite bool_decide_eq_true_2|].
  rewrite bool_decide_eq_false_2 by congruence. done.
Qed.

(** One call of [plat_irq_dispatch] serves the lowest-numbered source that
    is pending now or was latched by an earlier call, and keeps all others
    latched; [do_IRQ] gets the highest flagged pin of a GPIO port, the lowest
    pending DMA channel, or the source itself.  When the port or the DMA
    controller has nothing flagged any more, the number is the one below the
    group's first: for ports 1 to 3, pin 31 of another port. *)
Theorem dispatch_serves_lowest s IPR DMAIPR :
  lwf s -> digit 32 IPR ->
  let w := Z.lor (intc_ipr s) IPR in
  exists out s', plat_irq_dispatch s IPR DMAIPR = Some (out, s') /\ lwf s' /\
    (out = None <-> w = 0) /\
    (w <> 0 -> exists src r, lowest w src /\ out = Some r /\ number_of (PXFLG s) DMAIPR src r /\
       forall k, 0 <= k -> Z.testbit (intc_ipr s') k = negb (k =? src) && Z.testbit w k).
Proof.
  intros Hs Hipr w. destruct (dispatch_step s IPR DMAIPR Hs Hipr) as (out & s' & E & Hs' & _ & Hl & Hsrv).
  exists out, s'. split; [done|]. split; [done|]. destruct (served s IPR) as [src|] eqn:Hv.
  - destruct Hsrv as (Hlow & r & -> & Hr). split.
    { split; [done|]. intros Hz. destruct Hlow as (_ & Hb & _). fold w in Hb. by rewrite Hz, Z.bits_0 in Hb. }
    intros _. exists src, r. split; [done|]. split; [done|]. split; [done|]. intros k Hk. rewrite Hl by done.
    fold w. destruct (Z.eqb_spec k src) as [->|]; [by rewrite bool_decide_eq_true_2|].
    by rewrite bool_decide_eq_false_2 by congruence.
  - destruct Hsrv as [-> Hz]. done.
Qed.

Lemma dispatch_serves_lowest_witness :
  exists s', plat_irq_dispatch intc0 (2 ^ 27 + 2 ^ 30) 0 = Some (Some 83, s') /\ intc_ipr s' = 2 ^ 30.
Proof.
  destruct (dispatch_serves_lowest intc0 (2 ^ 27 + 2 ^ 30) 0) as (out & s' & E & _ & _ & _);
    [split; [by repeat split|unfold digit; simpl; lia]|unfold digit; lia|].
  pose proof E as E2. vm_compute in E2. injection E2 as <- <-. eexists. split; [exact E|reflexivity].
Defined.

(** ** Runs of the dispatcher *)

(** What a call reads: the pending registers and the pin flags. *)
Record reading := Reading { r_ipr : Z; r_dmaipr : Z; r_flg : list Z }.

Definition reading_ok (r : reading) : Prop := digit 32 (r_ipr r) /\ length (r_flg r) = 4%nat.

Definition with_flags (s : intc) (l : list Z) : intc :=
  Intc (IMR s) (PXIM s) l (dmac s) (chip s) (intc_ipr s).

(** A sequence of calls, with what each hands to [do_IRQ]. *)
Fixpoint dispatches (s : intc) (rs : list reading) : option (list (option Z) * intc) :=
  match rs with
  | [] => Some ([], s)
  | r :: rs =>
      '(n, s) ← plat_irq_dispatch (with_flags s (r_flg r)) (r_ipr r) (r_dmaipr r);
      '(ns, s) ← dispatches s rs;
      Some (n :: ns, s)
  end.

(** A call that read [r] and handed [n] to [do_IRQ] delivered source [src]. *)
Definition delivers (r : reading) (src : Z) (n : option Z) : Prop :=
  exists irq, n = Some irq /\ number_of (r_flg r) (r_dmaipr r) src irq.

(** One call within a run. *)
Lemma dispatch_reading s r :
  lwf s -> reading_ok r ->
  exists n s1, plat_irq_dispatch (with_flags s (r_flg r)) (r_ipr r) (r_dmaipr r) = Some (n, s1) /\ lwf s1 /\
    forall k, 0 <= k -> Z.testbit (Z.lor (intc_ipr s) (r_ipr r)) k = true ->
      delivers r k n \/
      Z.testbit (intc_ipr s1) k = true /\ exists j, j < k /\ delivers r j n.
Proof.
  intros Hs [Hr Hf]. set (s0 := with_flags s (r_flg r)).
  assert (Hs0 : lwf s0) by (destruct Hs as [(? & ? & ?) ?]; split; [split; [done|split; done]|done]).
  destruct (dispatch_step s0 (r_ipr r) (r_dmaipr r) Hs0 Hr) as (n & s1 & E & Hs1 & _ & Hl & Hsrv).
  exists n, s1. split; [done|]. split; [done|]. intros k Hk Hb. specialize (Hl k Hk).
  change (intc_ipr s0) with (intc_ipr s) in *. destruct (served s0 (r_ipr r)) as [j|].
  - destruct Hsrv as ((Hj & _ & Hlow) & irq & Hn & Hnum).
    destruct (Z.lt_trichotomy j k) as [Hlt|[->|Hgt]]; [right|left|by rewrite Hlow in Hb by lia].
    + rewrite bool_decide_eq_false_2, Hb in Hl by (intros [= ->]; lia).
      split; [done|]. exists j. split; [done|]. by exists irq.
    + by exists irq.
  - destruct Hsrv as [_ Hz]. by rewrite Hz, Z.bits_0 in Hb.
Qed.

Lemma dispatches_defined rs : forall s,
  lwf s -> Forall reading_ok rs -> exists ns s', dispatches s rs = Some (ns, s').
Proof.
  induction rs as [|r rs IH]; intros s Hs Hrs; [by eexists _, _|].
  inversion Hrs as [|? ? Hr Hrs']; subst. destruct (dispatch_reading s r Hs Hr) as (n & s1 & E & Hs1 & _).
  simpl. rewrite E. simpl. destruct (IH s1 Hs1 Hrs') as (ns & s' & ->). by eexists _, _.
Qed.

(** A source that is latched or pending at the first call of a run is
    delivered, or loses to a lower one at every call and stays latched. *)
Lemma dispatches_keep rs : forall s k,
  lwf s -> Forall reading_ok rs -> 0 <= k ->
  Z.testbit (intc_ipr s) k = true \/ (exists r, head rs = Some r /\ Z.testbit (r_ipr r) k = true) ->
  exists ns s', dispatches s rs = Some (ns, s') /\
  ((exists i r n, rs !! i = Some r /\ ns !! i = Some n /\ delivers r k n) \/
   (Z.testbit (intc_ipr s') k = true /\ Forall2 (fun r n => exists j, j < k /\ delivers r j n) rs ns)).
Proof.
  induction rs as [|r rs IH]; intros s k Hs Hrs Hk Hpend.
  { eexists _, _. split; [done|]. right. destruct Hpend as [?|(? & ? & _)]; [|done]. by split. }
  inversion Hrs as [|? ? Hr Hrs']; subst.
  destruct (dispatch_reading s r Hs Hr) as (n & s1 & E & Hs1 & Hcall).
  assert (Hb : Z.testbit (Z.lor (intc_ipr s) (r_ipr r)) k = true).
  { rewrite Z.lor_spec. apply orb_true_iff. destruct Hpend as [?|(r' & [= <-] & ?)]; auto. }
  simpl. rewrite E. simpl. destruct (Hcall k Hk Hb) as [Hd|[Hlat Hlow]].
  - destruct (dispatches_defined rs s1 Hs1 Hrs') as (ns & s' & ->). simpl. eexists _, _. split; [done|].
    left. by exists 0%nat, r, n.
  - destruct (IH s1 k Hs1 Hrs' Hk ltac:(by left)) as (ns & s' & -> & H). simpl. eexists _, _. split; [done|].
    destruct H as [(i & r' & n' & Hi)|[Hl Hall]]; [left; by exists (S i), r', n'|right; auto].
Qed.

(** C25: no interrupt is lost over any run of the dispatcher, which is always
    defined: a source that is pending at some call is delivered by that call or a
    later one, that is, [do_IRQ] gets the source's number or, for a GPIO port or
    the DMA controller, the number of the highest pin or lowest channel that is
    flagged in it (one below the group's first when nothing is flagged there any
    more); or every call from then on delivers a lower-numbered source, and then
    it is still latched at the end.  The registers that the calls read are
    arbitrary. *)
Theorem dispatch_no_loss s rs1 r rs2 k :
  lwf s -> Forall reading_ok (rs1 ++ r :: rs2) -> 0 <= k -> Z.testbit (r_ipr r) k = true ->
  exists ns1 ns2 s', dispatches s (rs1 ++ r :: rs2) = Some (ns1 ++ ns2, s') /\ length ns1 = length rs1 /\
  ((exists i r' n, (r :: rs2) !! i = Some r' /\ ns2 !! i = Some n /\ delivers r' k n) \/
   (Z.testbit (intc_ipr s') k = true /\
    Forall2 (fun r' n => exists j, j < k /\ delivers r' j n) (r :: rs2) ns2)).
Proof.
  intros Hs Hrs Hk Hb. revert s Hs. induction rs1 as [|r1 rs1 IH]; intros s Hs.
  - destruct (dispatches_keep (r :: rs2) s k Hs Hrs Hk) as (ns & s' & E & H); [right; by exists r|].
    by exists [], ns, s'.
  - inversion Hrs as [|? ? Hr Hrs']; subst.
    destruct (dispatch_reading s r1 Hs Hr) as (n & s1 & E & Hs1 & _).
    destruct (IH Hrs' s1 Hs1) as (ns1 & ns2 & s' & E1 & Hlen & H).
    exists (n :: ns1), ns2, s'. split; [|split; [simpl; lia|done]]. simpl. rewrite E. simpl. by rewrite E1.
Qed.

(** Source 4 and the GPIO port 1 (source 27, pin 5 flagged) arrive together,
    then 4 again: the port waits for its turn. *)
Definition sample_readings : list reading :=
  [Reading (2 ^ 4 + 2 ^ 27) 0 [0; 32; 0; 0]; Reading (2 ^ 4) 0 [0; 32; 0; 0]; Reading (2 ^ 5) 0 [0; 32; 0; 0];
   Reading 0 0 [0; 32; 0; 0]].

Lemma dispatch_no_loss_witness :
  exists s', dispatches intc0 sample_readings = Some ([Some 4; Some 4; Some 5; Some 85], s') /\
    exists i r n, sample_readings !! i = Some r /\ [Some 4; Some 4; Some 5; Some 85] !! i = Some n /\ delivers r 27 n.
Proof.
  destruct (dispatch_no_loss intc0 [] (Reading (2 ^ 4 + 2 ^ 27) 0 [0; 32; 0; 0])
    [Reading (2 ^ 4) 0 [0; 32; 0; 0]; Reading (2 ^ 5) 0 [0; 32; 0; 0]; Reading 0 0 [0; 32; 0; 0]] 27)
    as (ns1 & ns2 & s' & E & Hlen & H).
  - split; [by repeat split|unfold digit; simpl; lia].
  - repeat constructor; unfold digit; simpl; lia.
  - lia.
  - reflexivity.
  - destruct ns1; [|discriminate Hlen]. pose proof E as E2. vm_compute in E2. injection E2 as <- <-.
    eexists. split; [exact E|]. destruct H as [H|[Hl _]]; [exact H|discriminate Hl].
Defined.
