(* ===== verification/NandEcc.v ===== *)
(** * Hamming code of NAND pages (drivers/mtd/nand/nand_ecc.c and
      jzsoc_nand_hm_correct_data of jz4740_nand.c)

    Three check bytes protect a block of 256 bytes.  [nand_calculate_ecc]
    computes them, [nand_correct_data] corrects a block from stored and
    recalculated check bytes; the NAND driver has a correction function of its
    own for the hardware generator.  Bytes are numbers below 256; the
    configuration is the one without CONFIG_MTD_NAND_ECC_SMC. *)

From S2P Require Import Prelude.

#[local] Arguments Z.eqb : simpl never.
#[local] Arguments Z.land : simpl never.
#[local] Arguments Z.lor : simpl never.
#[local] Arguments Z.lxor : simpl never.
#[local] Arguments Z.shiftl : simpl never.
#[local] Arguments Z.shiftr : simpl never.
#[local] Arguments Z.add : simpl never.
#[local] Arguments Z.of_nat : simpl never.

Definition EBADMSG : Z := 74.

(** ** nand_ecc.c *)

Definition nand_ecc_precalc_table : list Z :=
  [0; 85; 86; 3; 89; 12; 15; 90; 90; 15; 12; 89; 3; 86; 85; 0;
   101; 48; 51; 102; 60; 105; 106; 63; 63; 106; 105; 60; 102; 51; 48; 101;
   102; 51; 48; 101; 63; 106; 105; 60; 60; 105; 106; 63; 101; 48; 51; 102;
   3; 86; 85; 0; 90; 15; 12; 89; 89; 12; 15; 90; 0; 85; 86; 3;
   105; 60; 63; 106; 48; 101; 102; 51; 51; 102; 101; 48; 106; 63; 60; 105;
   12; 89; 90; 15; 85; 0; 3; 86; 86; 3; 0; 85; 15; 90; 89; 12;
   15; 90; 89; 12; 86; 3; 0; 85; 85; 0; 3; 86; 12; 89; 90; 15;
   106; 63; 60; 105; 51; 102; 101; 48; 48; 101; 102; 51; 105; 60; 63; 106;
   106; 63; 60; 105; 51; 102; 101; 48; 48; 101; 102; 51; 105; 60; 63; 106;
   15; 90; 89; 12; 86; 3; 0; 85; 85; 0; 3; 86; 12; 89; 90; 15;
   12; 89; 90; 15; 85; 0; 3; 86; 86; 3; 0; 85; 15; 90; 89; 12;
   105; 60; 63; 106; 48; 101; 102; 51; 51; 102; 101; 48; 106; 63; 60; 105;
   3; 86; 85; 0; 90; 15; 12; 89; 89; 12; 15; 90; 0; 85; 86; 3;
   102; 51; 48; 101; 63; 106; 105; 60; 60; 105; 106; 63; 101; 48; 51; 102;
   101; 48; 51; 102; 60; 105; 106; 63; 63; 106; 105; 60; 102; 51; 48; 101;
   0; 85; 86; 3; 89; 12; 15; 90; 90; 15; 12; 89; 3; 86; 85; 0].

(** [~x] stored in a byte. *)
Definition not8 (x : Z) : Z := u8 (Z.lnot x).

(** The loop over the bytes: [reg1] collects column parity, [reg2] and [reg3]
    line parity. *)
Fixpoint parity_loop (dat : list Z) (i reg1 reg2 reg3 : Z) : option (Z * Z * Z) :=
  match dat with
  | [] => Some (reg1, reg2, reg3)
  | x :: dat =>
      idx ← rd nand_ecc_precalc_table x;
      let reg1 := Z.lxor reg1 (Z.land idx 63) in
      if negb (Z.land idx 64 =? 0)
      then parity_loop dat (i + 1) reg1 (Z.lxor reg2 (not8 (u8 i))) (Z.lxor reg3 (u8 i))
      else parity_loop dat (i + 1) reg1 reg2 reg3
  end.

(** Line parity bits 7-4 and 3-0, interleaved. *)
Definition tmp1_of (reg2 reg3 : Z) : Z :=
  let t := Z.land reg3 128 in
  let t := Z.lor t (Z.shiftr (Z.land reg2 128) 1) in
  let t := Z.lor t (Z.shiftr (Z.land reg3 64) 1) in
  let t := Z.lor t (Z.shiftr (Z.land reg2 64) 2) in
  let t := Z.lor t (Z.shiftr (Z.land reg3 32) 2) in
  let t := Z.lor t (Z.shiftr (Z.land reg2 32) 3) in
  let t := Z.lor t (Z.shiftr (Z.land reg3 16) 3) in
  Z.lor t (Z.shiftr (Z.land reg2 16) 4).

Definition tmp2_of (reg2 reg3 : Z) : Z :=
  let t := Z.shiftl (Z.land reg3 8) 4 in
  let t := Z.lor t (Z.shiftl (Z.land reg2 8) 3) in
  let t := Z.lor t (Z.shiftl (Z.land reg3 4) 3) in
  let t := Z.lor t (Z.shiftl (Z.land reg2 4) 2) in
  let t := Z.lor t (Z.shiftl (Z.land reg3 2) 2) in
  let t := Z.lor t (Z.shiftl (Z.land reg2 2) 1) in
  let t := Z.lor t (Z.shiftl (Z.land reg3 1) 1) in
  Z.lor t (Z.land reg2 1).

(** The three check bytes. *)
Record ecc := Ecc { ecc0 : Z; ecc1 : Z; ecc2 : Z }.

(** [dat] are the 256 bytes that the code reads. *)
Definition nand_calculate_ecc (dat : list Z) : option ecc :=
  '(reg1, reg2, reg3) ← parity_loop dat 0 0 0 0;
  Some (Ecc (not8 (tmp1_of reg2 reg3)) (not8 (tmp2_of reg2 reg3))
            (u8 (Z.lor (Z.shiftl (Z.lnot reg1) 2) 3))).

(** [for (; byte; byte >>= 1) res += byte & 1]: at most 32 rounds. *)
Fixpoint countbits_loop (fuel : nat) (byte res : Z) : Z :=
  match fuel with
  | O => res
  | S fuel => if byte =? 0 then res else countbits_loop fuel (Z.shiftr byte 1) (res + Z.land byte 1)
  end.

Definition countbits (byte : Z) : Z := countbits_loop 32 byte 0.

(** The pattern of a single wrong data bit. *)
Definition single_pattern (s0 s1 s2 : Z) : bool :=
  (Z.land (Z.lxor s0 (Z.shiftr s0 1)) 85 =? 85) &&
  (Z.land (Z.lxor s1 (Z.shiftr s1 1)) 85 =? 85) &&
  (Z.land (Z.lxor s2 (Z.shiftr s2 1)) 84 =? 84).

Definition byteoffs (s0 s1 : Z) : Z :=
  let b := Z.land s1 128 in
  let b := Z.lor b (Z.land (Z.shiftl s1 1) 64) in
  let b := Z.lor b (Z.land (Z.shiftl s1 2) 32) in
  let b := Z.lor b (Z.land (Z.shiftl s1 3) 16) in
  let b := Z.lor b (Z.land (Z.shiftr s0 4) 8) in
  let b := Z.lor b (Z.land (Z.shiftr s0 3) 4) in
  let b := Z.lor b (Z.land (Z.shiftr s0 2) 2) in
  Z.lor b (Z.land (Z.shiftr s0 1) 1).

Definition bitnum (s2 : Z) : Z :=
  let b := Z.land (Z.shiftr s2 5) 4 in
  let b := Z.lor b (Z.land (Z.shiftr s2 4) 2) in
  Z.lor b (Z.land (Z.shiftr s2 3) 1).

(** [dat[i] ^= 1 << b] *)
Definition flip (dat : list Z) (i b : Z) : option (list Z) :=
  x ← rd dat i; wr dat i (u8 (Z.lxor x (Z.shiftl 1 b))).

Definition nand_correct_data (dat : list Z) (read_ecc calc_ecc : ecc) : option (Z * list Z) :=
  let s1 := Z.lxor (ecc0 calc_ecc) (ecc0 read_ecc) in
  let s0 := Z.lxor (ecc1 calc_ecc) (ecc1 read_ecc) in
  let s2 := Z.lxor (ecc2 calc_ecc) (ecc2 read_ecc) in
  if Z.lor (Z.lor s0 s1) s2 =? 0 then Some (0, dat)
  else if single_pattern s0 s1 s2 then
    dat ← flip dat (byteoffs s0 s1) (bitnum s2);
    Some (1, dat)
  else if countbits (Z.lor (Z.lor s0 (Z.shiftl s1 8)) (Z.shiftl s2 16)) =? 1 then Some (1, dat)
  else Some (- EBADMSG, dat).

(** ** The driver's own correction *)

(** [for (i = 0; i < n; i++) { if (d & c) acc |= a; c >>= 2; a >>= 1; }]; the
    result has the last value of [a]. *)
Fixpoint gather (n : nat) (d c a acc : Z) : Z * Z :=
  match n with
  | O => (acc, a)
  | S n =>
      let acc := if negb (Z.land d c =? 0) then Z.lor acc a else acc in
      gather n d (Z.shiftr c 2) (Z.shiftr a 1) acc
  end.

(** [while (d) { if (d & 1) ++i; d >>= 1; }] on a byte: at most 8 rounds. *)
Fixpoint count_loop (fuel : nat) (d i : Z) : Z :=
  match fuel with
  | O => i
  | S fuel =>
      if d =? 0 then i
      else count_loop fuel (Z.shiftr d 1) (if negb (Z.land d 1 =? 0) then u8 (i + 1) else i)
  end.

(** The result, the data and the stored check bytes. *)
Definition jzsoc_nand_hm_correct_data (dat : list Z) (read_ecc calc_ecc : ecc)
  : option (Z * list Z * ecc) :=
  let d1 := Z.lxor (ecc0 calc_ecc) (ecc0 read_ecc) in
  let d2 := Z.lxor (ecc1 calc_ecc) (ecc1 read_ecc) in
  let d3 := Z.lxor (ecc2 calc_ecc) (ecc2 read_ecc) in
  if Z.lor (Z.lor d1 d2) d3 =? 0 then Some (0, dat, read_ecc)
  else
    let a := Z.land (Z.lxor d1 (Z.shiftr d1 1)) 85 in
    let b := Z.land (Z.lxor d2 (Z.shiftr d2 1)) 85 in
    let c := Z.land (Z.lxor d3 (Z.shiftr d3 1)) 84 in
    if (a =? 85) && (b =? 85) && (c =? 84) then
      let (add, a) := gather 4 d1 128 128 0 in
      let (add, _) := gather 4 d2 128 a add in
      let (bit, _) := gather 3 d3 128 4 0 in
      dat ← flip dat add bit;
      Some (0, dat, read_ecc)
    else
      let i := count_loop 8 d3 (count_loop 8 d2 (count_loop 8 d1 0)) in
      if i =? 1 then Some (0, dat, calc_ecc) else Some (-1, dat, read_ecc).

(** ** Checking all bytes

    The code's tables and bit permutations are finite: facts about them are
    decided by evaluation on all bytes, or on all pairs of bytes. *)

Definition bytes : list Z := seqZ 0 256.

Lemma all_bytes (P : Z -> bool) : forallb P bytes = true -> forall x, digit 8 x -> P x = true.
Proof.
  intros H x [Hx Hx2]. rewrite forallb_forall in H. apply H.
  apply list_elem_of_In, elem_of_seqZ. lia.
Qed.

Lemma all_bytes2 (P : Z -> Z -> bool) :
  forallb (fun x => forallb (P x) bytes) bytes = true -> forall x y, digit 8 x -> digit 8 y -> P x y = true.
Proof.
  intros H x y Hx Hy. apply (all_bytes (P x)); [|done]. by apply (all_bytes (fun x => forallb (P x) bytes)).
Qed.

Lemma all_bits (P : Z -> bool) : forallb P (seqZ 0 8) = true -> forall b, 0 <= b < 8 -> P b = true.
Proof.
  intros H b Hb. rewrite forallb_forall in H. apply H. apply list_elem_of_In, elem_of_seqZ. lia.
Qed.

(** [f] is linear for exclusive or on bytes. *)
Definition linear (f : Z -> Z) : Prop :=
  forall x y, digit 8 x -> digit 8 y -> f (Z.lxor x y) = Z.lxor (f x) (f y).

Definition linearb (f : Z -> Z) : bool :=
  forallb (fun x => forallb (fun y => f (Z.lxor x y) =? Z.lxor (f x) (f y)) bytes) bytes.

Lemma linear_dec f : linearb f = true -> linear f.
Proof.
  intros H x y Hx Hy. apply Z.eqb_eq.
  by apply (all_bytes2 (fun x y => f (Z.lxor x y) =? Z.lxor (f x) (f y))).
Qed.

(** ** Parity as a sum *)

Definition T (x : Z) : Z := default 0 (rd nand_ecc_precalc_table x).

(** Parity of all bits. *)
Definition odd_bits (x : Z) : bool := negb (Z.land (T x) 64 =? 0).

Definition xor3 (r s : Z * Z * Z) : Z * Z * Z :=
  let '(a, b, c) := r in let '(d, e, f) := s in (Z.lxor a d, Z.lxor b e, Z.lxor c f).

Lemma xor3_assoc r s t : xor3 (xor3 r s) t = xor3 r (xor3 s t).
Proof. destruct r as [[]], s as [[]], t as [[]]. simpl. by rewrite !Z.lxor_assoc. Qed.

Lemma xor3_comm r s : xor3 r s = xor3 s r.
Proof.
  destruct r as [[a b] c], s as [[d e] f]. simpl.
  by rewrite (Z.lxor_comm a), (Z.lxor_comm b), (Z.lxor_comm c).
Qed.

Lemma xor3_0_l r : xor3 (0, 0, 0) r = r.
Proof. by destruct r as [[]]. Qed.

Lemma xor3_nilpotent r : xor3 r r = (0, 0, 0).
Proof. destruct r as [[]]. simpl. by rewrite !Z.lxor_nilpotent. Qed.

(** What byte [x] at position [i] adds to the registers. *)
Definition contrib (i x : Z) : Z * Z * Z :=
  (Z.land (T x) 63, if odd_bits x then not8 (u8 i) else 0, if odd_bits x then u8 i else 0).

Fixpoint psum (dat : list Z) (i : Z) : Z * Z * Z :=
  match dat with
  | [] => (0, 0, 0)
  | x :: dat => xor3 (contrib i x) (psum dat (i + 1))
  end.

Lemma parity_loop_sum dat : forall i r1 r2 r3,
  Forall (digit 8) dat -> parity_loop dat i r1 r2 r3 = Some (xor3 (r1, r2, r3) (psum dat i)).
Proof.
  induction dat as [|x dat IH]; intros i r1 r2 r3 Hd; simpl; [by rewrite !Z.lxor_0_r|].
  inversion Hd as [|? ? Hx Hd']; subst. destruct (rd_lt nand_ecc_precalc_table x) as [idx Hidx]; [exact Hx|].
  rewrite Hidx. simpl. replace (psum dat (i + 1)) with (xor3 (0, 0, 0) (psum dat (i + 1))) by apply xor3_0_l.
  unfold contrib, odd_bits, T. rewrite Hidx. simpl.
  destruct (negb _); rewrite IH by done; simpl; destruct (psum dat (i + 1)) as [[a b] c]; simpl;
    by rewrite ?Z.lxor_0_l, ?Z.lxor_assoc.
Qed.

#[local] Opaque contrib.

(** A changed byte changes the sum by the difference of its contributions. *)
Lemma psum_insert dat : forall i n x y,
  dat !! n = Some x ->
  psum (<[n := y]> dat) i = xor3 (psum dat i) (xor3 (contrib (i + Z.of_nat n) x) (contrib (i + Z.of_nat n) y)).
Proof.
  induction dat as [|z dat IH]; intros i n x y Hn; [done|]. destruct n as [|n]; simpl in *.
  - injection Hn as ->. rewrite Z.add_0_r.
    rewrite (xor3_comm (contrib i x)), !xor3_assoc, <- (xor3_assoc (contrib i x)).
    rewrite xor3_nilpotent, xor3_0_l. apply xor3_comm.
  - rewrite (IH (i + 1) n x y Hn). replace (i + 1 + Z.of_nat n) with (i + Z.of_nat (S n)) by lia.
    by rewrite xor3_assoc.
Qed.

#[local] Transparent contrib.

Lemma T_linear : linear T.
Proof. apply linear_dec. vm_compute. reflexivity. Qed.

Lemma odd_bits_xor x y :
  digit 8 x -> digit 8 y -> odd_bits (Z.lxor x y) = xorb (odd_bits x) (odd_bits y).
Proof.
  intros Hx Hy. unfold odd_bits. change 64 with (2 ^ 6). rewrite !land_pow2_testbit by lia.
  by rewrite T_linear, Z.lxor_spec.
Qed.

Lemma contrib_xor i x d :
  digit 8 x -> digit 8 d -> xor3 (contrib i x) (contrib i (Z.lxor x d)) = contrib i d.
Proof.
  intros Hx Hd. unfold contrib. rewrite odd_bits_xor, T_linear by done. simpl.
  assert (Hl : forall a b m, Z.lxor (Z.land a m) (Z.land (Z.lxor a b) m) = Z.land b m).
  { intros a b m. apply Z.bits_inj'. intros n _. autorewrite with zbits.
    by destruct (Z.testbit a n), (Z.testbit b n), (Z.testbit m n). }
  rewrite Hl. by destruct (odd_bits x), (odd_bits d); rewrite ?Z.lxor_0_l, ?Z.lxor_0_r, ?Z.lxor_nilpotent.
Qed.

(** ** The check bytes as a function of the sums *)

Definition code (r : Z * Z * Z) : ecc :=
  let '(r1, r2, r3) := r in
  Ecc (not8 (tmp1_of r2 r3)) (not8 (tmp2_of r2 r3)) (u8 (Z.lor (Z.shiftl (Z.lnot r1) 2) 3)).

(** The difference of the check bytes, from the difference of the sums. *)
Definition syndrome (r : Z * Z * Z) : Z * Z * Z :=
  let '(r1, r2, r3) := r in (tmp1_of r2 r3, tmp2_of r2 r3, u8 (Z.shiftl r1 2)).

Definition byte3 (r : Z * Z * Z) : Prop := digit 8 r.1.1 /\ digit 8 r.1.2 /\ digit 8 r.2.

Lemma byte3_xor r s : byte3 r -> byte3 s -> byte3 (xor3 r s).
Proof.
  destruct r as [[]], s as [[]]. intros (? & ? & ?) (? & ? & ?).
  split; [|split]; simpl in *; apply digit_lxor; (done || lia).
Qed.

Lemma digit_u8 x : digit 8 (u8 x).
Proof. unfold digit, u8. apply Z.mod_pos_bound. lia. Qed.

Lemma byte3_contrib i x : digit 8 x -> byte3 (contrib i x).
Proof.
  intros Hx. unfold contrib, byte3. simpl.
  assert (digit 8 (T x)).
  { apply (all_bytes (fun x => (0 <=? T x) && (T x <? 256))) in Hx; [|vm_compute; reflexivity].
    unfold digit. bool_lia. }
  split; [by apply digit_land|]. destruct (odd_bits x); split; apply digit_u8 || (unfold digit; lia).
Qed.

Lemma byte3_psum dat : forall i, Forall (digit 8) dat -> byte3 (psum dat i).
Proof.
  induction dat as [|x dat IH]; intros i Hd; [unfold byte3, digit; simpl; lia|].
  inversion Hd; subst. apply byte3_xor; [by apply byte3_contrib|by apply IH].
Qed.

Lemma not8_xor x y : Z.lxor (not8 x) (not8 y) = u8 (Z.lxor x y).
Proof.
  unfold not8, u8. rewrite <- !Z.land_ones by lia. apply Z.bits_inj'. intros n Hn.
  autorewrite with zbits. rewrite !Z.lnot_spec by done.
  by destruct (Z.testbit x n), (Z.testbit y n), (Z.testbit (Z.ones 8) n).
Qed.

Lemma ecc2_xor x y :
  Z.lxor (u8 (Z.lor (Z.shiftl (Z.lnot x) 2) 3)) (u8 (Z.lor (Z.shiftl (Z.lnot y) 2) 3)) =
  u8 (Z.shiftl (Z.lxor x y) 2).
Proof.
  unfold u8. rewrite <- !Z.land_ones by lia. apply Z.bits_inj'. intros n Hn.
  autorewrite with zbits. rewrite !Z.shiftl_spec by done.
  destruct (Z.lt_ge_cases n 2).
  - rewrite !(Z.testbit_neg_r _ (n - 2)) by lia. by destruct (Z.testbit 3 n), (Z.testbit (Z.ones 8) n).
  - rewrite !Z.lnot_spec, Z.lxor_spec by lia. change 3 with (Z.ones 2). rewrite (Z.ones_spec_high 2) by lia.
    by destruct (Z.testbit x (n - 2)), (Z.testbit y (n - 2)), (Z.testbit (Z.ones 8) n).
Qed.

(** Both interleavings are linear, with byte results. *)
Lemma tmp_of_xor (f : Z -> Z -> Z) :
  linearb (fun x => f x 0) && linearb (f 0) &&
  forallb (fun x => forallb (fun y => (f x y =? Z.lxor (f x 0) (f 0 y)) && (0 <=? f x y) && (f x y <? 256)) bytes) bytes = true ->
  forall x y x' y', digit 8 x -> digit 8 y -> digit 8 x' -> digit 8 y' ->
  Z.lxor (f x y) (f x' y') = f (Z.lxor x x') (Z.lxor y y') /\ u8 (f x y) = f x y.
Proof.
  intros [[H1%linear_dec H2%linear_dec]%andb_prop H3]%andb_prop x y x' y' Hx Hy Hx' Hy'.
  assert (Hsplit : forall x y, digit 8 x -> digit 8 y -> f x y = Z.lxor (f x 0) (f 0 y) /\ digit 8 (f x y)).
  { intros u v Hu Hv. pose proof (all_bytes2 _ H3 u v Hu Hv) as [[E Hlo]%andb_prop Hhi]%andb_prop.
    unfold digit. bool_lia. }
  split; [|apply Z.mod_small; apply (Hsplit x y Hx Hy)].
  assert (digit 8 (Z.lxor x x')) by (by apply digit_lxor). assert (digit 8 (Z.lxor y y')) by (by apply digit_lxor).
  rewrite (proj1 (Hsplit x y Hx Hy)), (proj1 (Hsplit x' y' Hx' Hy')), (proj1 (Hsplit _ _ H H0)).
  rewrite (H1 x x'), (H2 y y') by done. rewrite !Z.lxor_assoc. f_equal.
  rewrite <- !Z.lxor_assoc. f_equal. apply Z.lxor_comm.
Qed.

Lemma tmp1_xor x y x' y' : digit 8 x -> digit 8 y -> digit 8 x' -> digit 8 y' ->
  Z.lxor (tmp1_of x y) (tmp1_of x' y') = tmp1_of (Z.lxor x x') (Z.lxor y y') /\ u8 (tmp1_of x y) = tmp1_of x y.
Proof. apply tmp_of_xor. vm_compute. reflexivity. Qed.

Lemma tmp2_xor x y x' y' : digit 8 x -> digit 8 y -> digit 8 x' -> digit 8 y' ->
  Z.lxor (tmp2_of x y) (tmp2_of x' y') = tmp2_of (Z.lxor x x') (Z.lxor y y') /\ u8 (tmp2_of x y) = tmp2_of x y.
Proof. apply tmp_of_xor. vm_compute. reflexivity. Qed.

(** The syndrome of two check codes is linear in the sums. *)
Lemma code_syndrome r r' :
  byte3 r -> byte3 r' ->
  (Z.lxor (ecc0 (code r)) (ecc0 (code r')), Z.lxor (ecc1 (code r)) (ecc1 (code r')),
   Z.lxor (ecc2 (code r)) (ecc2 (code r'))) = syndrome (xor3 r r').
Proof.
  destruct r as [[r1 r2] r3], r' as [[s1 s2] s3]. intros (H1 & H2 & H3) (H1' & H2' & H3'). simpl in *.
  rewrite !not8_xor, ecc2_xor.
  assert (digit 8 (Z.lxor r2 s2)) by (by apply digit_lxor). assert (digit 8 (Z.lxor r3 s3)) by (by apply digit_lxor).
  rewrite (proj1 (tmp1_xor r2 r3 s2 s3 H2 H3 H2' H3')), (proj1 (tmp2_xor r2 r3 s2 s3 H2 H3 H2' H3')).
  by rewrite (proj2 (tmp1_xor _ _ 0 0 H H0 ltac:(done) ltac:(done))),
    (proj2 (tmp2_xor _ _ 0 0 H H0 ltac:(done) ltac:(done))).
Qed.

(** ** Correction *)

Definition block (dat : list Z) : Prop := length dat = 256%nat /\ Forall (digit 8) dat.

Lemma calculate_code dat : block dat -> nand_calculate_ecc dat = Some (code (psum dat 0)).
Proof.
  intros [_ Hd]. unfold nand_calculate_ecc. rewrite parity_loop_sum by done. rewrite xor3_0_l.
  simpl. by destruct (psum dat 0) as [[]].
Qed.

(** Bit positions in a block, and the byte with bit [b]. *)
Definition position (p b : Z) : Prop := 0 <= p < 256 /\ 0 <= b < 8.

Lemma digit_bit b : 0 <= b < 8 -> digit 8 (Z.shiftl 1 b).
Proof.
  intros Hb. rewrite Z.shiftl_1_l. unfold digit. split; [apply Z.pow_nonneg; lia|].
  apply Z.pow_lt_mono_r; lia.
Qed.

(** The block with a bit flipped, and its sum. *)
Lemma flip_spec dat p b :
  block dat -> position p b ->
  exists dat', flip dat p b = Some dat' /\ block dat' /\ flip dat' p b = Some dat /\
    psum dat' 0 = xor3 (psum dat 0) (contrib p (Z.shiftl 1 b)).
Proof.
  intros [Hl Hd] [Hp Hb]. unfold flip. destruct (rd_lt dat p) as [x Hx]; [lia|]. rewrite Hx. simpl.
  pose proof Hx as [_ Hlk]%rd_Some.
  assert (digit 8 x) as Hdx by (by eapply Forall_lookup_1 in Hd).
  pose proof (digit_bit b Hb) as Hdb. set (d := Z.shiftl 1 b) in *.
  assert (Hu : forall y, digit 8 y -> u8 y = y) by (intros y Hy; by apply Z.mod_small).
  assert (Hdxd : digit 8 (Z.lxor x d)) by (by apply digit_lxor).
  rewrite wr_Some by lia. eexists. split; [done|]. split; [split; [by rewrite length_insert|]|split].
  - apply Forall_insert; [done|apply digit_u8].
  - rewrite rd_insert, Z.eqb_refl by lia. simpl. rewrite wr_Some by (rewrite length_insert; lia). f_equal.
    rewrite list_insert_insert, (Hu (Z.lxor x d)), Z.lxor_assoc, Z.lxor_nilpotent, Z.lxor_0_r, Hu by done.
    rewrite decide_True by done. by apply list_insert_id.
  - rewrite (psum_insert dat 0 (Z.to_nat p) x) by done. replace (0 + Z.of_nat (Z.to_nat p)) with p by lia.
    rewrite Hu, contrib_xor by done. done.
Qed.

(** The correction, by the syndrome. *)
Lemma correct_syndrome dat r r' :
  byte3 r -> byte3 r' ->
  nand_correct_data dat (code r) (code r') =
    let '(s1, s0, s2) := syndrome (xor3 r' r) in
    if Z.lor (Z.lor s0 s1) s2 =? 0 then Some (0, dat)
    else if single_pattern s0 s1 s2 then
      dat ← flip dat (byteoffs s0 s1) (bitnum s2); Some (1, dat)
    else if countbits (Z.lor (Z.lor s0 (Z.shiftl s1 8)) (Z.shiftl s2 16)) =? 1 then Some (1, dat)
    else Some (- EBADMSG, dat).
Proof. intros Hr Hr'. rewrite <- code_syndrome by done. done. Qed.

(** The syndrome of one wrong data bit names it. *)
Lemma single_syndrome p b :
  position p b ->
  let '(s1, s0, s2) := syndrome (contrib p (Z.shiftl 1 b)) in
  (Z.lor (Z.lor s0 s1) s2 =? 0) = false /\ single_pattern s0 s1 s2 = true /\
  byteoffs s0 s1 = p /\ bitnum s2 = b.
Proof.
  intros [Hp Hb].
  assert (forallb (fun p => forallb (fun b => let '(s1, s0, s2) := syndrome (contrib p (Z.shiftl 1 b)) in
    negb (Z.lor (Z.lor s0 s1) s2 =? 0) && single_pattern s0 s1 s2 && (byteoffs s0 s1 =? p) && (bitnum s2 =? b))
    (seqZ 0 8)) bytes = true) as H by (vm_compute; reflexivity).
  pose proof (all_bits _ (all_bytes _ H p Hp) b Hb) as H2. clear H. cbv beta in H2.
  destruct (syndrome _) as [[s1 s0] s2].
  apply andb_prop in H2 as [[[H2 H3]%andb_prop H4]%andb_prop H5].
  split; [by apply negb_true_iff|]. split; [done|]. bool_lia.
Qed.

(** The sums of two wrong bits depend on the difference of their bytes. *)
Lemma contrib_pair p b q c :
  position p b -> position q c ->
  xor3 (contrib p (Z.shiftl 1 b)) (contrib q (Z.shiftl 1 c)) =
    (Z.lxor (Z.land (T (Z.shiftl 1 b)) 63) (Z.land (T (Z.shiftl 1 c)) 63), Z.lxor p q, Z.lxor p q).
Proof.
  intros [Hp Hb] [Hq Hc].
  assert (Ho : forall b, 0 <= b < 8 -> odd_bits (Z.shiftl 1 b) = true).
  { apply (all_bits (fun b => odd_bits (Z.shiftl 1 b))). vm_compute. reflexivity. }
  unfold contrib. rewrite !Ho by done. simpl. rewrite not8_xor.
  assert (Hu : forall y, digit 8 y -> u8 y = y) by (intros y Hy; by apply Z.mod_small).
  rewrite !(Hu p), !(Hu q) by (unfold digit; lia). rewrite Hu; [done|].
  apply digit_lxor; unfold digit; lia.
Qed.

(** The syndrome of two wrong data bits is neither zero nor that of one. *)
Lemma double_syndrome w b c :
  0 <= w < 256 -> 0 <= b < 8 -> 0 <= c < 8 -> w <> 0 \/ b <> c ->
  let '(s1, s0, s2) := syndrome (Z.lxor (Z.land (T (Z.shiftl 1 b)) 63) (Z.land (T (Z.shiftl 1 c)) 63), w, w) in
  (Z.lor (Z.lor s0 s1) s2 =? 0) = false /\ single_pattern s0 s1 s2 = false /\
  (countbits (Z.lor (Z.lor s0 (Z.shiftl s1 8)) (Z.shiftl s2 16)) =? 1) = false.
Proof.
  intros Hw Hb Hc Hne.
  assert (forallb (fun w => forallb (fun b => forallb (fun c =>
    let '(s1, s0, s2) := syndrome (Z.lxor (Z.land (T (Z.shiftl 1 b)) 63) (Z.land (T (Z.shiftl 1 c)) 63), w, w) in
    ((w =? 0) && (b =? c)) || (negb (Z.lor (Z.lor s0 s1) s2 =? 0) && negb (single_pattern s0 s1 s2) &&
    negb (countbits (Z.lor (Z.lor s0 (Z.shiftl s1 8)) (Z.shiftl s2 16)) =? 1)))
    (seqZ 0 8)) (seqZ 0 8)) bytes = true) as H by (vm_compute; reflexivity).
  pose proof (all_bits _ (all_bits _ (all_bytes _ H w Hw) b Hb) c Hc) as H2. clear H. cbv beta in H2.
  destruct (syndrome _) as [[s1 s0] s2]. apply orb_prop in H2 as [H2|H2].
  - apply andb_prop in H2 as [?%Z.eqb_eq ?%Z.eqb_eq]. lia.
  - apply andb_prop in H2 as [[H2 H3]%andb_prop H4]. by rewrite !negb_true_iff in *.
Qed.

(** One wrong bit in the stored check bytes. *)
Definition flip_ecc (e : ecc) (k : Z) : ecc :=
  if k <? 8 then Ecc (Z.lxor (ecc0 e) (Z.shiftl 1 k)) (ecc1 e) (ecc2 e)
  else if k <? 16 then Ecc (ecc0 e) (Z.lxor (ecc1 e) (Z.shiftl 1 (k - 8))) (ecc2 e)
  else Ecc (ecc0 e) (ecc1 e) (Z.lxor (ecc2 e) (Z.shiftl 1 (k - 16))).

Lemma check_bit_error dat e k : 0 <= k < 24 -> nand_correct_data dat (flip_ecc e k) e = Some (1, dat).
Proof.
  intros Hk. unfold nand_correct_data, flip_ecc.
  assert (Hx : forall a d, Z.lxor a (Z.lxor a d) = d).
  { intros a d. by rewrite <- Z.lxor_assoc, Z.lxor_nilpotent. }
  assert (Hc : forall b, 0 <= b < 8 ->
    (Z.shiftl 1 b =? 0) = false /\ single_pattern 0 (Z.shiftl 1 b) 0 = false /\
    single_pattern (Z.shiftl 1 b) 0 0 = false /\ single_pattern 0 0 (Z.shiftl 1 b) = false /\
    (countbits (Z.shiftl 1 b) =? 1) = true /\ (countbits (Z.shiftl (Z.shiftl 1 b) 8) =? 1) = true /\
    (countbits (Z.shiftl (Z.shiftl 1 b) 16) =? 1) = true).
  { intros b Hb. assert (b = 0 \/ b = 1 \/ b = 2 \/ b = 3 \/ b = 4 \/ b = 5 \/ b = 6 \/ b = 7) as H by lia.
    repeat (destruct H as [->|H]); try subst b; vm_compute; done. }
  destruct (Z.ltb_spec k 8); [|destruct (Z.ltb_spec k 16)]; cbn [ecc0 ecc1 ecc2]; rewrite Hx, !Z.lxor_nilpotent;
    [destruct (Hc k) as (E1 & E2 & E3 & E4 & E5 & E6 & E7); [lia|]
    |destruct (Hc (k - 8)) as (E1 & E2 & E3 & E4 & E5 & E6 & E7); [lia|]
    |destruct (Hc (k - 16)) as (E1 & E2 & E3 & E4 & E5 & E6 & E7); [lia|]];
    rewrite ?Z.shiftl_0_l, ?Z.lor_0_l, ?Z.lor_0_r, E1, ?E2, ?E3, ?E4, ?E5, ?E6, ?E7; done.
Qed.

(** C26: the code corrects single and detects double errors.  For a block
    of 256 bytes with check bytes [e]: an intact block is accepted; after any
    one data bit flips, the correction restores the block; after any two
    different data bits flip, it reports [-EBADMSG] and leaves the data alone;
    and one wrong bit in the stored check bytes is taken for what it is. *)
Theorem hamming_secded dat :
  block dat ->
  exists e, nand_calculate_ecc dat = Some e /\ nand_correct_data dat e e = Some (0, dat) /\
    (forall k, 0 <= k < 24 -> nand_correct_data dat (flip_ecc e k) e = Some (1, dat)) /\
    forall p b, position p b -> exists dat1 e1,
      flip dat p b = Some dat1 /\ nand_calculate_ecc dat1 = Some e1 /\
      nand_correct_data dat1 e e1 = Some (1, dat) /\
      forall q c, position q c -> (p, b) <> (q, c) -> exists dat2 e2,
        flip dat1 q c = Some dat2 /\ nand_calculate_ecc dat2 = Some e2 /\
        nand_correct_data dat2 e e2 = Some (- EBADMSG, dat2).
Proof.
  intros Hd. exists (code (psum dat 0)). split; [by apply calculate_code|].
  assert (Hb : forall l, block l -> byte3 (psum l 0)) by (intros l [_ Hl]; by apply byte3_psum).
  split. { rewrite correct_syndrome, xor3_nilpotent by auto. done. }
  split; [intros k Hk; by apply check_bit_error|].
  intros p b Hpb. destruct (flip_spec dat p b Hd Hpb) as (dat1 & Hf & Hd1 & Hback & Hs1).
  exists dat1, (code (psum dat1 0)). split; [done|]. split; [by apply calculate_code|].
  assert (Hx : xor3 (psum dat1 0) (psum dat 0) = contrib p (Z.shiftl 1 b)).
  { rewrite Hs1, xor3_comm, <- xor3_assoc, xor3_nilpotent. apply xor3_0_l. }
  split.
  { rewrite correct_syndrome, Hx by auto. pose proof (single_syndrome p b Hpb) as H.
    destruct (syndrome _) as [[s1 s0] s2]. destruct H as (-> & -> & -> & ->). by rewrite Hback. }
  intros q c Hqc Hne. destruct (flip_spec dat1 q c Hd1 Hqc) as (dat2 & Hf2 & Hd2 & _ & Hs2).
  exists dat2, (code (psum dat2 0)). split; [done|]. split; [by apply calculate_code|].
  rewrite correct_syndrome by auto.
  assert (xor3 (psum dat2 0) (psum dat 0) = xor3 (contrib p (Z.shiftl 1 b)) (contrib q (Z.shiftl 1 c))) as ->.
  { rewrite Hs2, (xor3_comm (psum dat1 0)), xor3_assoc, Hx. apply xor3_comm. }
  rewrite contrib_pair by done. destruct Hpb as [Hp Hbb], Hqc as [Hq Hc].
  assert (digit 8 (Z.lxor p q)) by (apply digit_lxor; unfold digit; lia).
  pose proof (double_syndrome (Z.lxor p q) b c) as H2.
  destruct (syndrome _) as [[s1 s0] s2]. destruct H2 as (-> & -> & ->); [done|done|done| |done].
  destruct (Z.eq_dec b c) as [->|]; [left|by right]. intros E%Z.lxor_eq. by subst.
Qed.

Lemma hamming_secded_witness :
  exists e dat1 e1, nand_calculate_ecc (replicate 256 165) = Some e /\
    flip (replicate 256 165) 200 3 = Some dat1 /\ nand_calculate_ecc dat1 = Some e1 /\
    nand_correct_data dat1 e e1 = Some (1, replicate 256 165).
Proof.
  destruct (hamming_secded (replicate 256 165)) as (e & He & _ & _ & H).
  { split; [reflexivity|]. apply Forall_replicate. unfold digit. lia. }
  destruct (H 200 3) as (dat1 & e1 & H1 & H2 & H3 & _); [split; lia|].
  exists e, dat1, e1. done.
Defined.

(** ** The driver's correction is the generic one *)

(** Set bits among the lowest [n]. *)
Fixpoint pop (n : nat) (x : Z) : Z :=
  match n with O => 0 | S n => Z.land x 1 + pop n (Z.shiftr x 1) end.

Lemma pop_0 n : pop n 0 = 0.
Proof. induction n as [|n IH]; [done|]. simpl. by rewrite Z.shiftr_0_l, IH. Qed.

Lemma countbits_pop n : forall x r, countbits_loop n x r = r + pop n x.
Proof.
  induction n as [|n IH]; intros x r; simpl; [lia|].
  destruct (Z.eqb_spec x 0) as [->|]; [rewrite Z.shiftr_0_l, pop_0, Z.land_0_l; lia|]. rewrite IH. lia.
Qed.

Lemma pop_add n m x : pop (n + m) x = pop n x + pop m (Z.shiftr x (Z.of_nat n)).
Proof.
  revert x. induction n as [|n IH]; intros x; simpl; [by rewrite Z.shiftr_0_r|].
  rewrite IH, Z.shiftr_shiftr by lia. replace (1 + Z.of_nat n) with (Z.of_nat (S n)) by lia. lia.
Qed.

Lemma pop_low n : forall x y, (forall k, 0 <= k < Z.of_nat n -> Z.testbit x k = Z.testbit y k) -> pop n x = pop n y.
Proof.
  induction n as [|n IH]; intros x y H; [done|]. simpl. f_equal.
  - change 1 with (Z.ones 1). apply Z.bits_inj'. intros k Hk. rewrite !Z.land_spec.
    destruct (Z.eq_dec k 0) as [->|]; [by rewrite H by lia|]. by rewrite Z.ones_spec_high, !andb_false_r by lia.
  - apply IH. intros k Hk. rewrite !Z.shiftr_spec by lia. apply H. lia.
Qed.

(** The bits of three bytes side by side. *)
Lemma countbits_bytes x y z :
  digit 8 x -> digit 8 y -> digit 8 z ->
  countbits (Z.lor (Z.lor x (Z.shiftl y 8)) (Z.shiftl z 16)) = pop 8 x + pop 8 y + pop 8 z.
Proof.
  intros Hx Hy Hz. unfold countbits. rewrite countbits_pop. set (w := Z.lor _ _).
  assert (Hw : forall k, 0 <= k -> Z.testbit w k =
    if k <? 8 then Z.testbit x k else if k <? 16 then Z.testbit y (k - 8)
    else if k <? 24 then Z.testbit z (k - 16) else false).
  { intros k Hk. unfold w. rewrite !Z.lor_spec, !Z.shiftl_spec by done.
    destruct (Z.ltb_spec k 8); [rewrite (Z.testbit_neg_r y), (Z.testbit_neg_r z) by lia; by rewrite !orb_false_r|].
    rewrite (testbit_high 8 k x) by (done || lia).
    destruct (Z.ltb_spec k 16); [rewrite (Z.testbit_neg_r z) by lia; by rewrite orb_false_r|].
    rewrite (testbit_high 8 (k - 8) y) by (done || lia).
    destruct (Z.ltb_spec k 24); [done|]. by rewrite (testbit_high 8 (k - 16) z) by (done || lia). }
  change 32%nat with (8 + (8 + (8 + 8)))%nat. rewrite !pop_add, !Z.shiftr_shiftr by lia.
  rewrite (pop_low 8 w x), (pop_low 8 (Z.shiftr w _) y), (pop_low 8 (Z.shiftr w _) z), (pop_low 8 (Z.shiftr w _) 0), pop_0;
    [lia| | | |]; intros k Hk; rewrite ?Z.shiftr_spec by lia; rewrite Hw by lia.
  - rewrite !(proj2 (Z.ltb_ge _ _)) by lia. by rewrite Z.bits_0.
  - rewrite (proj2 (Z.ltb_ge _ 8)), (proj2 (Z.ltb_ge _ 16)), (proj2 (Z.ltb_lt _ 24)) by lia. f_equal. lia.
  - rewrite (proj2 (Z.ltb_ge _ 8)), (proj2 (Z.ltb_lt _ 16)) by lia. f_equal. lia.
  - rewrite (proj2 (Z.ltb_lt _ 8)) by lia. done.
Qed.

Lemma land_1 d : Z.land d 1 = if Z.testbit d 0 then 1 else 0.
Proof.
  change 1 with (Z.ones 1) at 1. rewrite Z.land_ones by lia. change (2 ^ 1) with 2.
  rewrite <- Z.bit0_mod. by destruct (Z.testbit d 0).
Qed.

Lemma count_loop_pop n : forall d i,
  0 <= i -> i + Z.of_nat n < 256 -> count_loop n d i = i + pop n d.
Proof.
  induction n as [|n IH]; intros d i Hi Hn; simpl; [lia|].
  destruct (Z.eqb_spec d 0) as [->|]; [rewrite Z.shiftr_0_l, pop_0, Z.land_0_l; lia|].
  rewrite land_1. destruct (Z.testbit d 0).
  - unfold u8. rewrite Z.mod_small by lia. simpl. rewrite IH by lia. lia.
  - simpl. rewrite IH by lia. lia.
Qed.

(** The loops compute the byte and bit offsets of the generic code. *)
Lemma gather_offsets d1 d2 :
  digit 8 d1 -> digit 8 d2 ->
  (let (add, a) := gather 4 d1 128 128 0 in (gather 4 d2 128 a add).1) = byteoffs d2 d1.
Proof.
  intros H1 H2. apply Z.eqb_eq.
  apply (all_bytes2 (fun d1 d2 =>
    (let (add, a) := gather 4 d1 128 128 0 in (gather 4 d2 128 a add).1) =? byteoffs d2 d1)); [|done|done].
  vm_compute. reflexivity.
Qed.

Lemma gather_bitnum d3 : digit 8 d3 -> (gather 3 d3 128 4 0).1 = bitnum d3.
Proof.
  intros H. apply Z.eqb_eq. apply (all_bytes (fun d => (gather 3 d 128 4 0).1 =? bitnum d)); [|done].
  vm_compute. reflexivity.
Qed.

Lemma pop8_bounds x : 0 <= pop 8 x <= 8.
Proof.
  assert (forall n x, 0 <= pop n x <= Z.of_nat n) as H; [|apply (H 8%nat)].
  induction n as [|n IH]; intros y; simpl; [lia|]. specialize (IH (Z.shiftr y 1)).
  rewrite land_1. destruct (Z.testbit y 0); lia.
Qed.

Definition ecc_ok (e : ecc) : Prop := digit 8 (ecc0 e) /\ digit 8 (ecc1 e) /\ digit 8 (ecc2 e).

(** C27: on every block and every pair of stored and calculated check bytes,
    the driver's correction changes the data exactly as the generic one does,
    and succeeds (with 0 instead of the number of corrected bits, and -1 instead
    of [-EBADMSG] for a failure) exactly when that does; the stored check bytes are replaced by the calculated ones only
    when the one wrong bit is in them. *)
Theorem hm_correct_equiv dat read calc :
  block dat -> ecc_ok read -> ecc_ok calc ->
  exists ret dat' read', nand_correct_data dat read calc = Some (ret, dat') /\
    jzsoc_nand_hm_correct_data dat read calc = Some (if ret <? 0 then -1 else 0, dat', read') /\
    (read' = read \/ (read' = calc /\ ret = 1 /\ dat' = dat)).
Proof.
  intros Hd (Hr0 & Hr1 & Hr2) (Hc0 & Hc1 & Hc2). unfold nand_correct_data, jzsoc_nand_hm_correct_data.
  assert (digit 8 (Z.lxor (ecc0 calc) (ecc0 read))) as H1 by (by apply digit_lxor).
  assert (digit 8 (Z.lxor (ecc1 calc) (ecc1 read))) as H2 by (by apply digit_lxor).
  assert (digit 8 (Z.lxor (ecc2 calc) (ecc2 read))) as H3 by (by apply digit_lxor).
  set (d1 := Z.lxor (ecc0 calc) _) in *. set (d2 := Z.lxor (ecc1 calc) _) in *. set (d3 := Z.lxor (ecc2 calc) _) in *.
  rewrite (Z.lor_comm d2 d1). destruct (_ =? 0); [eexists _, _, _; split; [done|]; split; [done|by left]|].
  assert (Hpat : (Z.land (Z.lxor d1 (Z.shiftr d1 1)) 85 =? 85) && (Z.land (Z.lxor d2 (Z.shiftr d2 1)) 85 =? 85) &&
    (Z.land (Z.lxor d3 (Z.shiftr d3 1)) 84 =? 84) = single_pattern d2 d1 d3).
  { unfold single_pattern. f_equal. apply andb_comm. }
  rewrite Hpat. destruct (single_pattern d2 d1 d3).
  - pose proof (gather_offsets d1 d2 H1 H2) as Ho. pose proof (gather_bitnum d3 H3) as Hb.
    destruct (gather 4 d1 128 128 0) as [add a]. destruct (gather 4 d2 128 a add) as [add' a'].
    destruct (gather 3 d3 128 4 0) as [bit b']. simpl in Ho, Hb. subst.
    assert (position (byteoffs d2 d1) (bitnum d3)) as Hpos.
    { split.
      - pose proof (all_bytes2 (fun x y => (0 <=? byteoffs y x) && (byteoffs y x <? 256))
          ltac:(vm_compute; reflexivity) d1 d2 H1 H2) as H. cbv beta in H. bool_lia.
      - pose proof (all_bytes (fun x => (0 <=? bitnum x) && (bitnum x <? 8)) ltac:(vm_compute; reflexivity) d3 H3) as H.
        cbv beta in H. bool_lia. }
    destruct (flip_spec dat _ _ Hd Hpos) as (dat' & -> & _). simpl.
    eexists _, _, _. split; [done|]. split; [done|by left].
  - rewrite countbits_bytes by done. pose proof (pop8_bounds d1). pose proof (pop8_bounds d2).
    rewrite (count_loop_pop 8 d1), (count_loop_pop 8 d2), (count_loop_pop 8 d3) by lia.
    replace (0 + pop 8 d1 + pop 8 d2 + pop 8 d3) with (pop 8 d2 + pop 8 d1 + pop 8 d3) by lia.
    destruct (_ =? 1); eexists _, _, _; (split; [done|]); (split; [done|]); auto.
Qed.

Lemma hm_correct_equiv_witness :
  exists ret dat' read', nand_correct_data (replicate 256 7) (Ecc 170 170 168) (Ecc 0 0 0) = Some (ret, dat') /\
    jzsoc_nand_hm_correct_data (replicate 256 7) (Ecc 170 170 168) (Ecc 0 0 0) =
      Some (if ret <? 0 then -1 else 0, dat', read') /\ ret = 1 /\ rd dat' 255 = Some 135.
Proof.
  destruct (hm_correct_equiv (replicate 256 7) (Ecc 170 170 168) (Ecc 0 0 0)) as (ret & dat' & read' & H1 & H2 & _).
  { split; [reflexivity|]. apply Forall_replicate. unfold digit. lia. }
  { unfold ecc_ok, digit. simpl. lia. }
  { unfold ecc_ok, digit. simpl. lia. }
  exists ret, dat', read'. split; [exact H1|]. split; [exact H2|].
  vm_compute in H1. injection H1 as <- <-. split; reflexivity.
Defined.
