(* ===== verification/NandCtrl.v ===== *)
(** * NAND command cycles (jz_hwcontrol of drivers/mtd/nand/jz4740_nand.c and
      nand_select_chip, nand_command_lp of nand_base.c)

    The generic code sends commands and addresses through the driver's
    [cmd_ctrl] function, which maps chip select, command latch and address latch
    to chip-enable bits of the controller and to address lines of the bus.  The
    model has the controller register, the two bus addresses kept in the chip
    structure and the bytes written to the bus. *)

From S2P Require Import Prelude.

#[local] Arguments Z.eqb : simpl never.
#[local] Arguments Z.land : simpl never.
#[local] Arguments Z.lor : simpl never.
#[local] Arguments Z.ldiff : simpl never.
#[local] Arguments Z.shiftr : simpl never.
#[local] Arguments Z.add : simpl never.
#[local] Arguments Z.testbit : simpl never.

Definition NAND_DATA_PORT1 : Z := 3087007744.
Definition NAND_DATA_PORT2 : Z := 3019898880.
Definition NAND_DATA_PORT3 : Z := 2885681152.
Definition NAND_DATA_PORT4 : Z := 2818572288.

Definition NAND_NCE1 : Z := 8.
Definition NAND_NCE2 : Z := 16.
Definition NAND_NCE3 : Z := 32.
Definition NAND_NCE4 : Z := 64.
Definition NAND_NCE : Z := 1.
Definition NAND_CLE : Z := 2.
Definition NAND_ALE : Z := 4.
Definition NAND_CTRL_CHANGE : Z := 128.

Definition NAND_CMD_NONE : Z := -1.
Definition NAND_CMD_READ0 : Z := 0.
Definition NAND_CMD_RNDOUT : Z := 5.
Definition NAND_CMD_PAGEPROG : Z := 16.
Definition NAND_CMD_READOOB : Z := 80.
Definition NAND_CMD_ERASE2 : Z := 208.
Definition NAND_CMD_READSTART : Z := 48.
Definition NAND_CMD_RNDOUTSTART : Z := 224.

Definition EMC_NFCSR_NFCE1 : Z := 2 ^ 1.
Definition EMC_NFCSR_NFCE2 : Z := 2 ^ 3.
Definition EMC_NFCSR_NFCE3 : Z := 2 ^ 5.
Definition EMC_NFCSR_NFCE4 : Z := 2 ^ 7.

(** ** State *)

(** [bus] are the bytes written so far, with their addresses, last first. *)
Record hw := Hw { IO_ADDR_W : Z; IO_ADDR_R : Z; NFCSR : Z; nand_nce : Z; bus : list (Z * Z) }.

(** [c] bits off, then the bit [e] on. *)
Definition select (h : hw) (port c1 c2 c3 e : Z) : hw :=
  Hw port port (Z.lor (Z.ldiff (Z.ldiff (Z.ldiff (NFCSR h) c1) c2) c3) e) (nand_nce h) (bus h).

(** [ctrl & x] as a condition. *)
Definition has (ctrl x : Z) : bool := negb (Z.land ctrl x =? 0).

Definition jz_hwcontrol (h : hw) (dat ctrl : Z) : hw :=
  let nandaddr := IO_ADDR_W h in
  let '(h, nandaddr) :=
    if has ctrl NAND_CTRL_CHANGE then
      let h :=
        if has ctrl NAND_NCE then
          if nand_nce h =? NAND_NCE1 then
            select h NAND_DATA_PORT1 EMC_NFCSR_NFCE2 EMC_NFCSR_NFCE3 EMC_NFCSR_NFCE4 EMC_NFCSR_NFCE1
          else if nand_nce h =? NAND_NCE2 then
            select h NAND_DATA_PORT2 EMC_NFCSR_NFCE1 EMC_NFCSR_NFCE3 EMC_NFCSR_NFCE4 EMC_NFCSR_NFCE2
          else if nand_nce h =? NAND_NCE3 then
            select h NAND_DATA_PORT3 EMC_NFCSR_NFCE1 EMC_NFCSR_NFCE2 EMC_NFCSR_NFCE4 EMC_NFCSR_NFCE3
          else if nand_nce h =? NAND_NCE4 then
            select h NAND_DATA_PORT4 EMC_NFCSR_NFCE1 EMC_NFCSR_NFCE2 EMC_NFCSR_NFCE3 EMC_NFCSR_NFCE4
          else h
        else
          Hw (IO_ADDR_W h) (IO_ADDR_R h)
             (Z.ldiff (Z.ldiff (Z.ldiff (Z.ldiff (NFCSR h) EMC_NFCSR_NFCE1) EMC_NFCSR_NFCE2)
                EMC_NFCSR_NFCE3) EMC_NFCSR_NFCE4) (nand_nce h) (bus h) in
      let nandaddr := if has ctrl NAND_ALE then Z.lor (IO_ADDR_W h) 65536
                      else Z.ldiff (IO_ADDR_W h) 65536 in
      let nandaddr := if has ctrl NAND_CLE then Z.lor nandaddr 32768 else Z.ldiff nandaddr 32768 in
      (h, nandaddr)
    else (h, nandaddr) in
  Hw nandaddr (IO_ADDR_R h) (NFCSR h) (nand_nce h)
     (if negb (dat =? NAND_CMD_NONE) then (nandaddr, u8 dat) :: bus h else bus h).

(** [None] is the BUG() of the default case. *)
Definition nand_select_chip (h : hw) (chipnr : Z) : option hw :=
  let pick nce :=
    Some (jz_hwcontrol (Hw (IO_ADDR_W h) (IO_ADDR_R h) (NFCSR h) nce (bus h)) NAND_CMD_NONE
            (Z.lor NAND_NCE NAND_CTRL_CHANGE)) in
  if chipnr =? -1 then Some (jz_hwcontrol h NAND_CMD_NONE NAND_CTRL_CHANGE)
  else if chipnr =? 0 then pick NAND_NCE1
  else if chipnr =? 1 then pick NAND_NCE2
  else if chipnr =? 2 then pick NAND_NCE3
  else if chipnr =? 3 then pick NAND_NCE4
  else None.

(** The fields of the chip structure that the command function looks at. *)
Record chip_info := ChipInfo { writesize : Z; planenum : Z; buswidth_16 : bool; chipsize : Z }.

(** The address cycles. *)
Definition send_column (ci : chip_info) (h : hw) (column ctrl : Z) : hw * Z :=
  if column =? -1 then (h, ctrl)
  else
    let column := if buswidth_16 ci then Z.shiftr column 1 else column in
    let h := jz_hwcontrol h column ctrl in
    let ctrl := Z.ldiff ctrl NAND_CTRL_CHANGE in
    (jz_hwcontrol h (Z.shiftr column 8) ctrl, ctrl).

Definition send_page (ci : chip_info) (h : hw) (page_addr ctrl : Z) : hw :=
  if page_addr =? -1 then h
  else
    let h := jz_hwcontrol h page_addr ctrl in
    let h := jz_hwcontrol h (Z.shiftr page_addr 8) (Z.lor NAND_NCE NAND_ALE) in
    if Z.shiftl 128 20 <? chipsize ci
    then jz_hwcontrol h (Z.shiftr page_addr 16) (Z.lor NAND_NCE NAND_ALE) else h.

(** Delays and the wait for the ready line, which write nothing, are left out;
    the driver sets [dev_ready], so the reset command sends nothing more. *)
Definition nand_command_lp (ci : chip_info) (h : hw) (command column page_addr : Z) : hw :=
  let latch := Z.lor (Z.lor NAND_NCE NAND_CLE) NAND_CTRL_CHANGE in
  let release := Z.lor NAND_NCE NAND_CTRL_CHANGE in
  let '(command, column) :=
    if command =? NAND_CMD_READOOB then
      (NAND_CMD_READ0,
       if 1 <? planenum ci then column + writesize ci / planenum ci else column + writesize ci)
    else (command, column) in
  let h := jz_hwcontrol h (Z.land command 255) latch in
  let h :=
    if negb (column =? -1) || negb (page_addr =? -1) then
      let '(h, ctrl) := send_column ci h column (Z.lor (Z.lor NAND_CTRL_CHANGE NAND_NCE) NAND_ALE) in
      send_page ci h page_addr ctrl
    else h in
  let h := jz_hwcontrol h NAND_CMD_NONE release in
  if command =? NAND_CMD_RNDOUT then
    jz_hwcontrol (jz_hwcontrol h NAND_CMD_RNDOUTSTART latch) NAND_CMD_NONE release
  else if command =? NAND_CMD_READ0 then
    jz_hwcontrol (jz_hwcontrol h NAND_CMD_READSTART latch) NAND_CMD_NONE release
  else h.

(** ** What the flash chips see *)

(** Chip select [k], from 1 to 4. *)
Definition nce_of (k : Z) : Z := 2 ^ (k + 2).
Definition port_of (k : Z) : Z :=
  if k =? 1 then NAND_DATA_PORT1 else if k =? 2 then NAND_DATA_PORT2
  else if k =? 3 then NAND_DATA_PORT3 else NAND_DATA_PORT4.

(** The chips that are enabled. *)
Definition enabled (h : hw) (k : Z) : bool := Z.testbit (NFCSR h) (2 * k - 1).

(** A cycle on the bus of chip [k]. *)
Inductive cycle := Command (b : Z) | Address (b : Z).

Definition on_bus (k : Z) (c : cycle) : Z * Z :=
  match c with
  | Command b => (port_of k + 32768, b)
  | Address b => (port_of k + 65536, b)
  end.

(** The cycles of a command: the second command byte of reads included. *)
Definition cycles (ci : chip_info) (command column page_addr : Z) : list cycle :=
  let command' := if command =? NAND_CMD_READOOB then NAND_CMD_READ0 else command in
  let column := if command =? NAND_CMD_READOOB
                then column + (if 1 <? planenum ci then writesize ci / planenum ci else writesize ci)
                else column in
  let col := if buswidth_16 ci then column / 2 else column in
  [Command (command' mod 256)] ++
  (if column =? -1 then [] else [Address (col mod 256); Address (col / 256 mod 256)]) ++
  (if page_addr =? -1 then []
   else [Address (page_addr mod 256); Address (page_addr / 256 mod 256)] ++
        (if 134217728 <? chipsize ci then [Address (page_addr / 65536 mod 256)] else [])) ++
  (if command' =? NAND_CMD_RNDOUT then [Command NAND_CMD_RNDOUTSTART]
   else if command' =? NAND_CMD_READ0 then [Command NAND_CMD_READSTART] else []).

(** [h] has chip [k] selected, alone, with both bus addresses at its data port;
    the other bits of the controller are those of [r]. *)
Definition selected (k r : Z) (h : hw) : Prop :=
  IO_ADDR_W h = port_of k /\ IO_ADDR_R h = port_of k /\ nand_nce h = nce_of k /\
  (forall j, 1 <= j <= 4 -> enabled h j = (j =? k)) /\
  (forall i, 0 <= i -> i <> 1 -> i <> 3 -> i <> 5 -> i <> 7 -> Z.testbit (NFCSR h) i = Z.testbit r i).

(** ** Lemmas *)

(** [h] has chip [k] selected; its write address is [a]. *)
Definition chosen (k r a : Z) (l : list (Z * Z)) (h : hw) : Prop :=
  IO_ADDR_W h = a /\ IO_ADDR_R h = port_of k /\ nand_nce h = nce_of k /\
  (forall j, 1 <= j <= 4 -> enabled h j = (j =? k)) /\
  (forall i, 0 <= i -> i <> 1 -> i <> 3 -> i <> 5 -> i <> 7 -> Z.testbit (NFCSR h) i = Z.testbit r i) /\
  bus h = l.

(** The byte written, unless it is [NAND_CMD_NONE]. *)
Definition put (a dat : Z) (l : list (Z * Z)) : list (Z * Z) :=
  if dat =? NAND_CMD_NONE then l else (a, u8 dat) :: l.

Lemma chip_cases k : 1 <= k <= 4 -> k = 1 \/ k = 2 \/ k = 3 \/ k = 4.
Proof. lia. Qed.

(** Bits of the controller register after a chip is selected. *)
Lemma select_bits r a b c e i :
  0 <= a -> 0 <= b -> 0 <= c -> 0 <= e -> 0 <= i ->
  Z.testbit (Z.lor (Z.ldiff (Z.ldiff (Z.ldiff r (2 ^ a)) (2 ^ b)) (2 ^ c)) (2 ^ e)) i =
    (e =? i) || (negb (a =? i) && negb (b =? i) && negb (c =? i) && Z.testbit r i).
Proof.
  intros. autorewrite with zbits. rewrite !Z.pow2_bits_eqb by done.
  by destruct (a =? i), (b =? i), (c =? i), (e =? i), (Z.testbit r i).
Qed.

(** Cycles that change the latches: [b] for the address latch, [c] for the
    command latch. *)
Definition change (b c : bool) : Z :=
  Z.lor (Z.lor (Z.lor NAND_NCE NAND_CTRL_CHANGE) (if b then NAND_ALE else 0)) (if c then NAND_CLE else 0).

Ltac chip_bits b c dat :=
  repeat match goal with
  | |- context [2 ^ ?a =? ?n] => let v := eval vm_compute in (2 ^ a =? n) in change (2 ^ a =? n) with v
  end;
  cbv beta iota zeta;
  split; [by destruct b, c|]; split; [done|]; split; [done|];
  split; [|split; [|by destruct b, c, (dat =? NAND_CMD_NONE)]];
  [ let j := fresh in let Hj := fresh in intros j Hj;
    destruct (chip_cases j Hj) as [->|[->|[->| ->]]]; unfold enabled; cbn [NFCSR select];
    cbv [EMC_NFCSR_NFCE1 EMC_NFCSR_NFCE2 EMC_NFCSR_NFCE3 EMC_NFCSR_NFCE4];
    rewrite select_bits by lia; reflexivity
  | intros; cbn [NFCSR select];
    cbv [EMC_NFCSR_NFCE1 EMC_NFCSR_NFCE2 EMC_NFCSR_NFCE3 EMC_NFCSR_NFCE4];
    rewrite select_bits, !(proj2 (Z.eqb_neq _ _)) by lia; done ].

Lemma hwcontrol_change h k dat (b c : bool) :
  1 <= k <= 4 -> nand_nce h = nce_of k ->
  let a := port_of k + (if b then 65536 else 0) + (if c then 32768 else 0) in
  chosen k (NFCSR h) a (put a dat (bus h)) (jz_hwcontrol h dat (change b c)).
Proof.
  intros Hk Hn a. unfold jz_hwcontrol, put.
  assert (has (change b c) NAND_CTRL_CHANGE = true /\ has (change b c) NAND_NCE = true /\
    has (change b c) NAND_ALE = b /\ has (change b c) NAND_CLE = c) as (-> & -> & -> & ->)
    by (destruct b, c; done).
  rewrite !Hn. unfold nce_of in *.
  destruct (chip_cases k Hk) as [->|[->|[->| ->]]]; chip_bits b c dat.
Qed.

(** Address cycles after the first leave everything but the bus alone. *)
Lemma hwcontrol_keep h k r a l dat :
  chosen k r a l h -> chosen k r a (put a dat l) (jz_hwcontrol h dat (Z.lor NAND_NCE NAND_ALE)).
Proof.
  intros (Hw & Hr & Hn & He & Ho & Hb). unfold jz_hwcontrol, put.
  change (has (Z.lor NAND_NCE NAND_ALE) NAND_CTRL_CHANGE) with false. cbv iota beta zeta.
  unfold chosen. cbn [IO_ADDR_W IO_ADDR_R nand_nce NFCSR bus]. rewrite Hw, Hb.
  split; [done|]. split; [done|]. split; [done|]. split; [done|]. split; [done|].
  by destruct (dat =? NAND_CMD_NONE).
Qed.

(** A cycle that changes the latches, on a chip already chosen. *)
Lemma chosen_change h k r a0 l dat (b c : bool) :
  1 <= k <= 4 -> chosen k r a0 l h ->
  let a := port_of k + (if b then 65536 else 0) + (if c then 32768 else 0) in
  chosen k r a (put a dat l) (jz_hwcontrol h dat (change b c)).
Proof.
  intros Hk (_ & _ & Hn & _ & Ho & Hb) a.
  destruct (hwcontrol_change h k dat b c Hk Hn) as (H1 & H2 & H3 & H4 & H5 & H6).
  split; [done|]. split; [done|]. split; [done|]. split; [done|]. split; [|by rewrite H6, Hb].
  intros i Hi ? ? ? ?. by rewrite H5, Ho.
Qed.

Lemma put_byte a dat l : 0 <= dat -> put a dat l = (a, dat mod 256) :: l.
Proof. intros H. unfold put, NAND_CMD_NONE. by rewrite (proj2 (Z.eqb_neq _ _)) by lia. Qed.

Lemma shiftr_byte x n : 0 <= n -> Z.shiftr x n = x / 2 ^ n.
Proof. apply Z.shiftr_div_pow2. Qed.

Lemma put_shift a x n l :
  0 <= x -> 0 <= n -> put a (Z.shiftr x n) l = (a, x / 2 ^ n mod 256) :: l.
Proof.
  intros Hx Hn. rewrite put_byte by (rewrite shiftr_byte by done; apply Z.div_pos; lia).
  by rewrite shiftr_byte.
Qed.

Lemma land_255 x : Z.land x 255 = x mod 256.
Proof. change 255 with (Z.ones 8). by rewrite Z.land_ones. Qed.

Section command.
Context (ci : chip_info) (k r : Z) (Hk : 1 <= k <= 4).

Lemma send_column_spec h a0 l column :
  chosen k r a0 l h -> -1 <= column ->
  let col := if buswidth_16 ci then column / 2 else column in
  let '(h', ctrl) := send_column ci h column (change true false) in
  (column = -1 /\ h' = h /\ ctrl = change true false) \/
  (column <> -1 /\ ctrl = Z.lor NAND_NCE NAND_ALE /\
   chosen k r (port_of k + 65536)
     ((port_of k + 65536, col / 256 mod 256) :: (port_of k + 65536, col mod 256) :: l) h').
Proof using Hk.
  intros Hh Hc. unfold send_column. destruct (Z.eqb_spec column (-1)) as [->|Hne]; [by left|right].
  split; [done|]. split; [reflexivity|].
  assert (0 <= (if buswidth_16 ci then Z.shiftr column 1 else column) /\
    (if buswidth_16 ci then Z.shiftr column 1 else column) = (if buswidth_16 ci then column / 2 else column)) as [H0 ->].
  { destruct (buswidth_16 ci); [|lia]. rewrite shiftr_byte by lia. split; [apply Z.div_pos; lia|done]. }
  set (col := if buswidth_16 ci then column / 2 else column) in *.
  assert (0 <= col) by (unfold col; destruct (buswidth_16 ci); [apply Z.div_pos; lia|lia]).
  pose proof (chosen_change h k r a0 l col true false Hk Hh) as H1. cbv zeta in H1. rewrite put_byte in H1 by done.
  change (if true then 65536 else 0) with 65536 in H1. change (if false then 32768 else 0) with 0 in H1.
  rewrite Z.add_0_r in H1. change (Z.ldiff (change true false) NAND_CTRL_CHANGE) with (Z.lor NAND_NCE NAND_ALE).
  apply (hwcontrol_keep _ _ _ _ _ (Z.shiftr col 8)) in H1. rewrite put_shift in H1 by lia.
  exact H1.
Qed.

Lemma send_page_spec h a0 l page ctrl :
  ctrl = change true false \/ (ctrl = Z.lor NAND_NCE NAND_ALE /\ a0 = port_of k + 65536) ->
  chosen k r a0 l h -> -1 <= page ->
  let A x := (port_of k + 65536, x mod 256) in
  exists a1, chosen k r a1
    (if page =? -1 then l
     else (if 134217728 <? chipsize ci then [A (page / 65536)] else []) ++ A (page / 256) :: A page :: l)
    (send_page ci h page ctrl).
Proof using Hk.
  intros Hctrl Hh Hp A. unfold send_page. destruct (Z.eqb_spec page (-1)) as [->|Hne]; [by exists a0|].
  assert (H1 : chosen k r (port_of k + 65536) (A page :: l) (jz_hwcontrol h page ctrl)).
  { destruct Hctrl as [-> |[-> ->]].
    - pose proof (chosen_change h k r a0 l page true false Hk Hh) as H1. cbv zeta in H1. rewrite put_byte in H1 by lia.
      change (if true then 65536 else 0) with 65536 in H1. change (if false then 32768 else 0) with 0 in H1.
      by rewrite Z.add_0_r in H1.
    - pose proof (hwcontrol_keep h k r _ l page Hh) as H1. by rewrite put_byte in H1 by lia. }
  apply (hwcontrol_keep _ _ _ _ _ (Z.shiftr page 8)) in H1. rewrite put_shift in H1 by lia.
  exists (port_of k + 65536). change (Z.shiftl 128 20) with 134217728.
  destruct (134217728 <? chipsize ci); [|exact H1].
  apply (hwcontrol_keep _ _ _ _ _ (Z.shiftr page 16)) in H1. rewrite put_shift in H1 by lia.
  exact H1.
Qed.

(** A latch cycle and the release that follows. *)
Lemma latch_release h a0 l cmd :
  0 <= cmd < 256 -> chosen k r a0 l h ->
  chosen k r (port_of k) ((port_of k + 32768, cmd) :: l)
    (jz_hwcontrol (jz_hwcontrol h cmd (change false true)) NAND_CMD_NONE (change false false)).
Proof using Hk.
  intros Hcmd Hh. pose proof (chosen_change h k r a0 l cmd false true Hk Hh) as H1. cbv zeta in H1.
  rewrite put_byte, Z.mod_small, Z.add_0_r in H1 by lia.
  pose proof (chosen_change _ k r _ _ NAND_CMD_NONE false false Hk H1) as H2. cbv zeta in H2. by rewrite !Z.add_0_r in H2.
Qed.

End command.

(** Selecting a chip writes nothing; deselecting leaves none enabled. *)
Lemma select_chip_spec h n :
  0 <= n <= 3 -> exists h', nand_select_chip h n = Some h' /\ selected (n + 1) (NFCSR h) h' /\ bus h' = bus h.
Proof.
  intros Hn. assert (Hs : forall k nce, 1 <= k <= 4 -> nce = nce_of k ->
    let h' := jz_hwcontrol (Hw (IO_ADDR_W h) (IO_ADDR_R h) (NFCSR h) nce (bus h)) NAND_CMD_NONE (change false false) in
    selected k (NFCSR h) h' /\ bus h' = bus h).
  { intros k nce Hk ->. destruct (hwcontrol_change (Hw (IO_ADDR_W h) (IO_ADDR_R h) (NFCSR h) (nce_of k) (bus h))
      k NAND_CMD_NONE false false Hk eq_refl) as (H1 & H2 & H3 & H4 & H5 & H6).
    rewrite !Z.add_0_r in H1. split; [|exact H6]. by repeat (split; [done|]). }
  unfold nand_select_chip. change (Z.lor NAND_NCE NAND_CTRL_CHANGE) with (change false false).
  assert (n = 0 \/ n = 1 \/ n = 2 \/ n = 3) as [->|[->|[->| ->]]] by lia;
    eexists; (split; [reflexivity|]); by apply Hs.
Qed.

Lemma deselect_spec h :
  exists h', nand_select_chip h (-1) = Some h' /\ (forall j, 1 <= j <= 4 -> enabled h' j = false) /\ bus h' = bus h.
Proof.
  eexists. split; [reflexivity|]. split; [|done]. intros j Hj.
  change (Z.testbit (Z.ldiff (Z.ldiff (Z.ldiff (Z.ldiff (NFCSR h) (2 ^ 1)) (2 ^ 3)) (2 ^ 5)) (2 ^ 7)) (2 * j - 1) = false).
  autorewrite with zbits. rewrite !Z.pow2_bits_eqb by lia.
  destruct (chip_cases j Hj) as [->|[->|[->| ->]]]; by rewrite ?andb_false_r.
Qed.

(** The command byte and the column that really go out: READOOB is a READ0 of
    the spare area. *)
Definition sent_command (command : Z) : Z := if command =? NAND_CMD_READOOB then NAND_CMD_READ0 else command.

Definition sent_column (ci : chip_info) (command column : Z) : Z :=
  if command =? NAND_CMD_READOOB
  then column + (if 1 <? planenum ci then writesize ci / planenum ci else writesize ci) else column.

Lemma sent_column_bound ci command column :
  -1 <= column -> 0 <= writesize ci -> (command = NAND_CMD_READOOB -> 0 <= column) ->
  -1 <= sent_column ci command column.
Proof.
  intros Hcol Hws Hoob. unfold sent_column. destruct (Z.eqb_spec command NAND_CMD_READOOB); [|done]. specialize (Hoob e).
  destruct (Z.ltb_spec 1 (planenum ci)); [|lia]. pose proof (Z.div_pos (writesize ci) (planenum ci)). lia.
Qed.

(** The handler in terms of what goes out. *)
Lemma command_lp_unfold ci h command column page :
  nand_command_lp ci h command column page =
  let cmd := sent_command command in let col := sent_column ci command column in
  let h := jz_hwcontrol h (cmd mod 256) (change false true) in
  let h := if negb (col =? -1) || negb (page =? -1) then
    let '(h, ctrl) := send_column ci h col (change true false) in send_page ci h page ctrl else h in
  let h := jz_hwcontrol h NAND_CMD_NONE (change false false) in
  if cmd =? NAND_CMD_RNDOUT then
    jz_hwcontrol (jz_hwcontrol h NAND_CMD_RNDOUTSTART (change false true)) NAND_CMD_NONE (change false false)
  else if cmd =? NAND_CMD_READ0 then
    jz_hwcontrol (jz_hwcontrol h NAND_CMD_READSTART (change false true)) NAND_CMD_NONE (change false false)
  else h.
Proof.
  cbv zeta. rewrite <- land_255. unfold nand_command_lp, sent_command, sent_column.
  by destruct (command =? NAND_CMD_READOOB), (1 <? planenum ci).
Qed.

(** The address cycles, the latest first, on top of the bus trace [l]. *)
Definition address_trace (ci : chip_info) (k col page : Z) (l : list (Z * Z)) : list (Z * Z) :=
  let A x := (port_of k + 65536, x mod 256) in
  let c := if buswidth_16 ci then col / 2 else col in
  let lc := if col =? -1 then l else A (c / 256) :: A c :: l in
  if page =? -1 then lc
  else (if 134217728 <? chipsize ci then [A (page / 65536)] else []) ++ A (page / 256) :: A page :: lc.

Lemma send_address_spec ci k r h a0 l col page :
  1 <= k <= 4 -> chosen k r a0 l h -> -1 <= col -> -1 <= page ->
  exists a, chosen k r a (address_trace ci k col page l)
    (if negb (col =? -1) || negb (page =? -1) then
       let '(h, ctrl) := send_column ci h col (change true false) in send_page ci h page ctrl
     else h).
Proof.
  intros Hk H1 Hcol Hpg. pose proof (send_column_spec ci k r Hk h _ l col H1 Hcol) as Hc.
  destruct (send_column ci h col (change true false)) as [h2 ctrl]. unfold address_trace.
  destruct Hc as [(-> & -> & ->)|(Hne & -> & H2)].
  - change (-1 =? -1) with true. cbn [negb orb].
    destruct (Z.eqb_spec page (-1)) as [->|Hpn]; [by eexists|]. cbn [negb].
    destruct (send_page_spec ci k r Hk h _ l page (change true false) ltac:(by left) H1 Hpg) as [a Ha].
    rewrite (proj2 (Z.eqb_neq page (-1))) in Ha by done. by exists a.
  - rewrite (proj2 (Z.eqb_neq col (-1))) by done. cbn [negb orb].
    destruct (send_page_spec ci k r Hk h2 _ _ page _ ltac:(by right) H2 Hpg) as [a Ha]. by exists a.
Qed.

(** The second command byte of a read, after the address. *)
Definition second_command (cmd : Z) : list cycle :=
  if cmd =? NAND_CMD_RNDOUT then [Command NAND_CMD_RNDOUTSTART]
  else if cmd =? NAND_CMD_READ0 then [Command NAND_CMD_READSTART] else [].

Lemma send_second_spec k r h l cmd :
  1 <= k <= 4 -> chosen k r (port_of k) l h ->
  chosen k r (port_of k) (rev (map (on_bus k) (second_command cmd)) ++ l)
    (if cmd =? NAND_CMD_RNDOUT then
       jz_hwcontrol (jz_hwcontrol h NAND_CMD_RNDOUTSTART (change false true)) NAND_CMD_NONE (change false false)
     else if cmd =? NAND_CMD_READ0 then
       jz_hwcontrol (jz_hwcontrol h NAND_CMD_READSTART (change false true)) NAND_CMD_NONE (change false false)
     else h).
Proof.
  intros Hk Hh. unfold second_command. destruct (cmd =? NAND_CMD_RNDOUT); [|destruct (cmd =? NAND_CMD_READ0); [|done]];
    (eapply latch_release; [done|done|exact Hh]).
Qed.

(** The latch traces put together are the specified cycles. *)
Lemma cycles_trace ci k l command column page :
  let cmd := sent_command command in
  rev (map (on_bus k) (second_command cmd)) ++
    address_trace ci k (sent_column ci command column) page ((port_of k + 32768, cmd mod 256) :: l) =
  rev (map (on_bus k) (cycles ci command column page)) ++ l.
Proof.
  intros cmd. unfold cycles. fold (sent_command command) (sent_column ci command column).
  set (col := sent_column ci command column). rewrite !map_app, !rev_app_distr, <- !app_assoc. f_equal.
  unfold address_trace. destruct (col =? -1), (page =? -1), (134217728 <? chipsize ci); done.
Qed.

(** Whatever state the controller was left in, a command for chip [k]
    (chosen with [nand_select_chip]) puts exactly its cycles on the bus of that
    chip, in order: the command byte with the command latch, the column and page
    bytes with the address latch (low bytes first, a third page byte for large
    chips, the columns of READOOB moved into the spare area) and the second
    command byte of a read; and it leaves the chip alone selected, with both bus
    addresses at its data port and no other controller bit changed. *)
Theorem command_lp_cycles ci h k command column page :
  1 <= k <= 4 -> nand_nce h = nce_of k -> 0 <= command -> -1 <= column -> -1 <= page ->
  0 <= writesize ci -> (command = NAND_CMD_READOOB -> 0 <= column) ->
  let h' := nand_command_lp ci h command column page in
  selected k (NFCSR h) h' /\
  bus h' = rev (map (on_bus k) (cycles ci command column page)) ++ bus h.
Proof.
  intros Hk Hn Hcmd Hcol Hpg Hws Hoob h'. unfold h'. rewrite command_lp_unfold. clear h'.
  pose proof (sent_column_bound ci command column Hcol Hws Hoob) as Hcol'.
  set (cmd := sent_command command) in *. set (col := sent_column ci command column) in *.
  pose proof (hwcontrol_change h k (cmd mod 256) false true Hk Hn) as H1. cbv zeta in H1.
  pose proof (Z.mod_pos_bound cmd 256 ltac:(lia)).
  rewrite put_byte, (Z.mod_small (cmd mod 256)), Z.add_0_r in H1 by lia. cbv iota in H1.
  destruct (send_address_spec ci k (NFCSR h) _ _ _ col page Hk H1 Hcol' Hpg) as [a H2].
  pose proof (chosen_change _ k _ _ _ NAND_CMD_NONE false false Hk H2) as H3. cbv zeta in H3. rewrite !Z.add_0_r in H3.
  destruct (send_second_spec k _ _ _ cmd Hk H3) as (Q1 & Q2 & Q3 & Q4 & Q5 & Q6).
  split; [done|]. etransitivity; [exact Q6|]. exact (cycles_trace ci k (bus h) command column page).
Qed.

(** Reading the spare area of page 0x12345 of chip 2, from a fresh controller. *)
Lemma command_lp_cycles_witness :
  let h' := nand_command_lp (ChipInfo 2048 1 false 536870912) (Hw 0 0 0 NAND_NCE2 []) NAND_CMD_READOOB 0 74565 in
  enabled h' 2 = true /\ enabled h' 1 = false /\
  map snd (rev (bus h')) = [0; 0; 8; 69; 35; 1; 48].
Proof.
  destruct (command_lp_cycles (ChipInfo 2048 1 false 536870912) (Hw 0 0 0 NAND_NCE2 []) 2 NAND_CMD_READOOB 0 74565)
    as ((_ & _ & _ & He & _) & Hb); [lia|reflexivity|unfold NAND_CMD_READOOB; lia|lia|lia|simpl; lia|lia|].
  cbv zeta. rewrite !He, Hb by lia. split; [reflexivity|]. split; reflexivity.
Defined.
