(* ===== verification/NandPlanes.v ===== *)
(** * Two-plane NAND operations (drivers/mtd/nand/jz4740_nand.c)

    Chips with two planes are used with pages of double size: large page [n] is
    a page of an even block together with the same page of the next block.  The
    driver's functions read, write and erase both at a time; they reach the chip
    through the functions of the chip structure (the class [PlaneChip]) and get
    parity from the controller (the class [RsEngine] of RsEcc.v). *)

From S2P Require Import Prelude RsEcc NandCtrl.

#[local] Arguments Z.eqb : simpl never.
#[local] Arguments Z.ltb : simpl never.
#[local] Arguments Z.leb : simpl never.
#[local] Arguments Z.land : simpl never.
#[local] Arguments Z.add : simpl never.
#[local] Arguments Z.mul : simpl never.
#[local] Arguments Z.div : simpl never.
#[local] Arguments Z.of_nat : simpl never.
#[local] Arguments Z.to_nat : simpl never.

Definition EIO : Z := 5.
Definition NAND_STATUS_FAIL : Z := 1.
Definition PAR_SIZE : Z := 9.

(** ** Geometry *)

(** The fields of the MTD and chip structures; sizes are those of large pages
    and blocks. *)
Record geometry := Geo {
  mtd_writesize : Z; mtd_oobsize : Z; mtd_erasesize : Z; ecc_size : Z;
  ecc_steps : Z; ecc_total : Z; eccpos : list Z;
  realplanenum : Z; chip_shift : Z; page_shift : Z }.

Section Geometry.
Context (g : geometry).

Definition ppb : Z := mtd_erasesize g / mtd_writesize g.
Definition half_page : Z := Z.shiftr (mtd_writesize g) 1.
Definition half_oob : Z := Z.shiftr (mtd_oobsize g) 1.
Definition half_steps : Z := Z.shiftr (ecc_steps g) 1.
Definition half_total : Z := Z.shiftr (ecc_total g) 1.

(** The first of the two pages of large page [n]. *)
Definition plane_page (n : Z) : Z := n / ppb * ppb + n.

(** The row address of the first plane: the top bit for chips with four. *)
Definition first_row (page : Z) : Z :=
  if realplanenum g =? 2 then 0 else Z.land page (Z.shiftl 1 (chip_shift g - page_shift g)).

(** ** The chip *)

(** What the chip is doing: reading out a page from a column, taking in data for
    the first plane (with the row address that came with the command), holding
    them, taking in data for the second, erasing. *)
Inductive phase_t :=
| Idle | Out (page col : Z) | In1 (row col : Z) (d : list Z) | Held (row col : Z) (d : list Z)
| In2 (row c1 : Z) (d1 : list Z) (page col : Z) (d : list Z) | Er1 (row : Z) | Er2 (row page : Z).

(** Programming can only clear bits. *)
Definition program (old : list Z) (col : Z) (d : list Z) : list Z :=
  let c := Z.to_nat col in
  take c old ++ zip_with Z.land d (drop c old) ++ drop (c + length d) old.

Definition erased : list Z := replicate (Z.to_nat (half_page + half_oob)) 255.

(** The functions of the chip structure, and the cells of the physical pages. *)
Class PlaneChip (S : Type) := {
  cmdfunc : Z -> Z -> Z -> S -> S;
  read_buf : Z -> S -> list Z * S;
  write_buf : list Z -> S -> S;
  waitfunc : S -> Z * S;
  phase : S -> phase_t;
  cells : S -> Z -> list Z }.

(** The chip's protocol: reading from the spare area and back from column 0,
    two-plane programming with 0x80, 0x11, 0x81 and PAGEPROG, and two-plane
    erasing with 0x60 twice and ERASE2.  The page or block comes with the second
    address; the first one must be zero or, on chips with four planes, have the top
    bit of the page and no other. *)
Class PlaneChipLaws (S : Type) `{PlaneChip S} := {
  cmd_readoob s col p : phase (cmdfunc NAND_CMD_READOOB col p s) = Out p (half_page + col);
  cmd_rndout s p c col : phase s = Out p c -> phase (cmdfunc NAND_CMD_RNDOUT col (-1) s) = Out p col;
  cmd_frame s cmd col p q :
    cmd <> NAND_CMD_PAGEPROG -> cmd <> NAND_CMD_ERASE2 -> cells (cmdfunc cmd col p s) q = cells s q;
  read_next s n p c :
    phase s = Out p c -> 0 <= c -> 0 <= n ->
    (read_buf n s).1 = take (Z.to_nat n) (drop (Z.to_nat c) (cells s p)) /\
    phase (read_buf n s).2 = Out p (c + n);
  read_frame s n q : cells (read_buf n s).2 q = cells s q;
  write_frame s l q : cells (write_buf l s) q = cells s q;
  wait_phase s : phase (waitfunc s).2 = phase s;
  wait_frame s q : cells (waitfunc s).2 q = cells s q;
  cmd_seqin s col row : phase (cmdfunc 128 col row s) = In1 row col [];
  write_first s r c d l : phase s = In1 r c d -> phase (write_buf l s) = In1 r c (d ++ l);
  cmd_hold s r c d : phase s = In1 r c d -> phase (cmdfunc 17 (-1) (-1) s) = Held r c d;
  cmd_seqin2 s r c d col p : phase s = Held r c d -> phase (cmdfunc 129 col p s) = In2 r c d p col [];
  write_second s r c1 d1 p c d l :
    phase s = In2 r c1 d1 p c d -> phase (write_buf l s) = In2 r c1 d1 p c (d ++ l);
  cmd_pageprog s r c1 d1 p c2 d2 q :
    phase s = In2 r c1 d1 p c2 d2 -> Z.odd (p / ppb) = true -> r = first_row (p - ppb) ->
    cells (cmdfunc NAND_CMD_PAGEPROG (-1) (-1) s) q =
      if q =? p - ppb then program (cells s q) c1 d1
      else if q =? p then program (cells s q) c2 d2 else cells s q;
  cmd_erase s row : Z.odd (row / ppb) = false -> phase (cmdfunc 96 (-1) row s) = Er1 row;
  cmd_erase_second s r p :
    phase s = Er1 r -> Z.odd (p / ppb) = true -> phase (cmdfunc 96 (-1) p s) = Er2 r p;
  cmd_erase2 s r p q :
    phase s = Er2 r p -> Z.odd (p / ppb) = true -> r = first_row (p - ppb) ->
    cells (cmdfunc NAND_CMD_ERASE2 (-1) (-1) s) q =
      if q / ppb / 2 =? p / ppb / 2 then erased else cells s q }.

Context {S : Type} {HC : PlaneChip S} {HR : RsEngine}.

(** ** Correction of one block *)

Definition jzsoc_nand_rs_correct_data (dat read_ecc : list Z) : option (Z * list Z) :=
  let r := rs_decode dat read_ecc in
  if stat_err r then
    if stat_uncor r then Some (-1, dat)
    else d ← correct_errors dat r; Some (0, d)
  else Some (0, dat).

(** ** Reading *)

(** [ecc_code[i] = oob[eccpos[i]]] for [n] positions. *)
Fixpoint gather_code (oob pos : list Z) (n : nat) : option (list Z) :=
  match n, pos with
  | O, _ => Some []
  | Datatypes.S n, p :: pos => x ← rd oob p; xs ← gather_code oob pos n; Some (x :: xs)
  | _, [] => None
  end.

(** The blocks of one plane: the data, and the number that could not be
    corrected.  [code] is [&ecc_code[i]]. *)
Fixpoint read_steps (n : nat) (flag : bool) (code : list Z) (s : S) : option (list Z * Z * S) :=
  match n with
  | O => Some ([], 0, s)
  | Datatypes.S n =>
      let '(p, s) := read_buf (ecc_size g) s in
      '(p, failed) ← (if flag then
          if decide (length (take (Z.to_nat PAR_SIZE) code) = Z.to_nat PAR_SIZE) then
            '(stat, p) ← jzsoc_nand_rs_correct_data p (take (Z.to_nat PAR_SIZE) code);
            Some (p, if stat <? 0 then 1 else 0)
          else None
        else Some (p, 0));
      '(rest, f, s) ← read_steps n flag (drop (Z.to_nat PAR_SIZE) code) s;
      Some (p ++ rest, failed + f, s)
  end.

Definition read_plane (s : S) (page : Z) : option (list Z * list Z * Z * S) :=
  let s := cmdfunc NAND_CMD_READOOB 0 page s in
  let '(oob, s) := read_buf half_oob s in
  code ← gather_code oob (eccpos g) (Z.to_nat half_total);
  let flag := existsb (fun x => negb (x =? 255)) code in
  let s := cmdfunc NAND_CMD_RNDOUT 0 (-1) s in
  '(dat, failed, s) ← read_steps (Z.to_nat half_steps) flag code s;
  Some (dat, oob, failed, s).

(** The read function of nand_base.c for pages of normal size. *)
Definition nand_read_page_hwecc_rs (s : S) (page : Z) : option (list Z * list Z * Z * S) :=
  let s := cmdfunc NAND_CMD_READOOB 0 page s in
  let '(oob, s) := read_buf (mtd_oobsize g) s in
  code ← gather_code oob (eccpos g) (Z.to_nat (ecc_total g));
  let flag := existsb (fun x => negb (x =? 255)) code in
  let s := cmdfunc NAND_CMD_RNDOUT 0 (-1) s in
  '(dat, failed, s) ← read_steps (Z.to_nat (ecc_steps g)) flag code s;
  Some (dat, oob, failed, s).

(** The data, the spare bytes, the increase of [ecc_stats.failed]; the count of
    corrected bits is never increased, as corrections return 0. *)
Definition nand_read_page_hwecc_rs_planes (s : S) (global_page : Z) : option (list Z * list Z * Z * S) :=
  let page := plane_page global_page in
  '(d1, o1, f1, s) ← read_plane s page;
  '(d2, o2, f2, s) ← read_plane s (page + ppb);
  Some (d1 ++ d2, o1 ++ o2, f1 + f2, s).

Definition nand_read_oob_std_planes (s : S) (global_page : Z) (sndcmd : bool) : list Z * S :=
  let page := plane_page global_page in
  let s := if sndcmd then cmdfunc NAND_CMD_READOOB 0 page s else s in
  let '(o1, s) := read_buf half_oob s in
  let page := page + ppb in
  let s := if sndcmd then cmdfunc NAND_CMD_READOOB 0 page s else s in
  let '(o2, s) := read_buf half_oob s in
  (o1 ++ o2, s).

(** ** Writing *)

Fixpoint write_steps (n : nat) (p : list Z) (s : S) : option (list Z * list Z * S) :=
  match n with
  | O => Some ([], p, s)
  | Datatypes.S n =>
      let blk := take (Z.to_nat (ecc_size g)) p in
      if decide (length blk = Z.to_nat (ecc_size g)) then
        let s := write_buf blk s in
        '(calc, p, s) ← write_steps n (drop (Z.to_nat (ecc_size g)) p) s;
        Some (rs_encode blk ++ calc, p, s)
      else None
  end.

(** [oob[eccpos[i]] = ecc_calc[i]] for [n] positions. *)
Fixpoint put_code (oob pos calc : list Z) (n : nat) : option (list Z) :=
  match n, pos, calc with
  | O, _, _ => Some oob
  | Datatypes.S n, p :: pos, x :: calc => oob ← wr oob p x; put_code oob pos calc n
  | _, _, _ => None
  end.

(** The first [n] bytes of a buffer. *)
Definition first_bytes (l : list Z) (n : Z) : option (list Z) :=
  if Z.of_nat (length l) <? n then None else Some (take (Z.to_nat n) l).

Definition write_plane (s : S) (p oob : list Z) : option (list Z * list Z * S) :=
  '(calc, p, s) ← write_steps (Z.to_nat half_steps) p s;
  oob ← put_code oob (eccpos g) calc (Z.to_nat half_total);
  o ← first_bytes oob half_oob;
  Some (p, oob, write_buf o s).

(** [oob] is [chip->oob_poi]; the wait for the ready line in the middle is left
    out. *)
Definition nand_write_page_hwecc_planes (s : S) (global_page : Z) (buf oob : list Z) : option (list Z * S) :=
  let page := plane_page global_page in
  let s := cmdfunc 128 0 (first_row page) s in
  '(p, oob, s) ← write_plane s buf oob;
  let s := cmdfunc 17 (-1) (-1) s in
  let page := page + ppb in
  let s := cmdfunc 129 0 page s in
  '(p, oob, s) ← write_plane s p oob;
  Some (oob, s).

(** [nand_write_page] for more than one plane; no [errstat] function is set. *)
Definition nand_write_page (s : S) (page : Z) (buf oob : list Z) : option (Z * S) :=
  '(_, s) ← nand_write_page_hwecc_planes s page buf oob;
  let s := cmdfunc NAND_CMD_PAGEPROG (-1) (-1) s in
  let '(status, s) := waitfunc s in
  if negb (Z.land status NAND_STATUS_FAIL =? 0) then Some (- EIO, s) else Some (0, s).

Definition nand_write_oob_std_planes (s : S) (global_page : Z) (oob : list Z) : option (Z * S) :=
  let page := plane_page global_page in
  let s := cmdfunc 128 half_page (first_row page) s in
  o1 ← first_bytes oob half_oob;
  let s := write_buf o1 s in
  let s := cmdfunc 17 (-1) (-1) s in
  let '(_, s) := waitfunc s in
  let page := page + ppb in
  let s := cmdfunc 129 half_page page s in
  o2 ← first_bytes (drop (Z.to_nat half_oob) oob) half_oob;
  let s := write_buf o2 s in
  let s := cmdfunc NAND_CMD_PAGEPROG (-1) (-1) s in
  let '(status, s) := waitfunc s in
  Some (if negb (Z.land status NAND_STATUS_FAIL =? 0) then - EIO else 0, s).

(** ** Erasing *)

Definition single_erase_cmd_planes (s : S) (global_page : Z) : S :=
  let page := plane_page global_page in
  let s := cmdfunc 96 (-1) (first_row page) s in
  let page := page + ppb in
  let s := cmdfunc 96 (-1) (Z.ldiff page (ppb - 1)) s in
  cmdfunc NAND_CMD_ERASE2 (-1) (-1) s.

(** ** Which pages *)

Lemma plane_page_div n : 0 < ppb -> plane_page n / ppb = 2 * (n / ppb).
Proof.
  intros Hp. unfold plane_page. rewrite Z.add_comm, Z.div_add by lia. lia.
Qed.

Lemma plane_page_mod n : 0 < ppb -> plane_page n mod ppb = n mod ppb.
Proof. intros Hp. unfold plane_page. by rewrite Z.add_comm, Z.mod_add by lia. Qed.

Lemma second_page_odd n : 0 < ppb -> Z.odd ((plane_page n + ppb) / ppb) = true.
Proof.
  intros Hp. replace (plane_page n + ppb) with (plane_page n + 1 * ppb) by lia.
  rewrite Z.div_add, plane_page_div by lia. rewrite Z.add_comm, Z.odd_add_mul_2. done.
Qed.

Lemma first_row_second n : first_row (plane_page n) = first_row (plane_page n + ppb - ppb).
Proof. f_equal. lia. Qed.

(** ** Hypotheses on the geometry *)

Definition code_pos : list Z := take (Z.to_nat half_total) (eccpos g).

Record geometry_ok : Prop := {
  geo_ppb : 0 < ppb;
  geo_size : ecc_size g = 512;
  geo_steps : 0 <= half_steps;
  geo_page : half_page = 512 * half_steps;
  geo_total : half_total = 9 * half_steps;
  geo_oob : 0 <= half_oob;
  geo_len : (Z.to_nat half_total <= length (eccpos g))%nat;
  geo_pos : Forall (fun p => 0 <= p < half_oob) code_pos;
  geo_nodup : NoDup code_pos }.

Context {HL : PlaneChipLaws S} {HE : RsEngineLaws} (Hg : geometry_ok).

Definition same_cells (s s' : S) : Prop := forall q, cells s' q = cells s q.

(** ** Reading *)

(** Block [i] of a list of blocks. *)
Definition blk (i : nat) (l : list Z) : list Z := take 512 (drop (512 * i) l).

Lemma correct_data_restores d errs r q :
  block d -> errors_ok errs -> damaged d errs r q -> jzsoc_nand_rs_correct_data r q = Some (0, d).
Proof using All.
  intros Hd He Hdam. pose proof (check_block_restores d errs r q Hd He Hdam) as Hc.
  pose proof (rs_finds d errs r q Hd He Hdam) as (Herr & Hun & _).
  unfold check_block in Hc. fold (stat_err (rs_decode r q)) (stat_uncor (rs_decode r q)) in Hc.
  unfold jzsoc_nand_rs_correct_data. destruct (stat_err (rs_decode r q)); [|by injection Hc as ->].
  destruct (decide (errs = [])) as [->|Hne]; [done|]. destruct (Hun Hne) as [Hu _]. rewrite Hu in *.
  by rewrite Hc.
Qed.

(** What is stored for data [d] of [n] blocks: a damaged copy with its parity, or,
    when the parity is not looked at, an intact one. *)
Definition stored (flag : bool) (n : nat) (d raw code : list Z) : Prop :=
  length d = (512 * n)%nat /\ Forall (digit 8) d /\
  if flag then forall i, (i < n)%nat -> exists errs, errors_ok errs /\
    damaged (blk i d) errs (blk i raw) (take 9 (drop (9 * i) code))
  else take (512 * n) raw = d.

Lemma stored_tail flag n d raw code :
  stored flag (Datatypes.S n) d raw code -> stored flag n (drop 512 d) (drop 512 raw) (drop 9 code).
Proof using Type.
  intros (Hl & Hd & Hs). split; [rewrite length_drop; lia|]. split; [by apply Forall_drop|].
  destruct flag.
  - intros i Hi. destruct (Hs (Datatypes.S i) ltac:(lia)) as (errs & He & Hdam). exists errs. split; [done|].
    unfold blk in *. rewrite !drop_drop. replace (512 + 512 * i)%nat with (512 * Datatypes.S i)%nat by lia.
    by replace (9 + 9 * i)%nat with (9 * Datatypes.S i)%nat by lia.
  - rewrite <- Hs. rewrite skipn_firstn_comm. f_equal. lia.
Qed.

Lemma stored_head n d raw code :
  stored true (Datatypes.S n) d raw code ->
  exists errs, errors_ok errs /\ damaged (take 512 d) errs (take 512 raw) (take 9 code) /\ block (take 512 d).
Proof using Type.
  intros (Hl & Hd & Hs). destruct (Hs 0%nat ltac:(lia)) as (errs & He & Hdam). exists errs.
  split; [done|]. unfold blk in Hdam. rewrite !drop_0 in Hdam. split; [done|]. split; [rewrite length_take; lia|].
  by apply Forall_take.
Qed.

Lemma read_steps_spec n : forall flag code s p c d,
  phase s = Out p c -> 0 <= c -> (flag = true -> (9 * n <= length code)%nat) ->
  stored flag n d (drop (Z.to_nat c) (cells s p)) code ->
  exists s', read_steps n flag code s = Some (d, 0, s') /\ same_cells s s'.
Proof using All.
  induction n as [|n IH]; intros flag code s p c d Hph Hc Hlen Hst; cbn [read_steps].
  { destruct Hst as (Hl & _). exists s. destruct d; [done|]. simpl in Hl. lia. }
  rewrite (geo_size Hg). destruct (read_next s 512 p c Hph Hc ltac:(lia)) as [Hrd Hph'].
  pose proof (read_frame s 512) as Hfr. destruct (read_buf 512 s) as [blk0 s1]. simpl in Hrd, Hph', Hfr.
  change (Z.to_nat 512) with 512%nat in *. change (Z.to_nat PAR_SIZE) with 9%nat in *.
  destruct (IH flag (drop 9 code) s1 p (c + 512) (drop 512 d)) as (s2 & E2 & Hf2).
  - done.
  - lia.
  - intros Hfl. specialize (Hlen Hfl). rewrite length_drop. lia.
  - rewrite Hfr. replace (Z.to_nat (c + 512)) with (Z.to_nat c + 512)%nat by lia. rewrite <- drop_drop.
    by apply stored_tail.
  - assert (exists f, (if flag then
          if decide (length (take 9 code) = 9%nat) then
            '(stat, p) ← jzsoc_nand_rs_correct_data blk0 (take 9 code); Some (p, if stat <? 0 then 1 else 0)
          else None else Some (blk0, 0)) = Some (take 512 d, f) /\ f = 0) as (f & -> & ->).
    { exists 0. split; [|done]. destruct flag.
      - rewrite decide_True by (rewrite length_take; specialize (Hlen eq_refl); lia).
        destruct (stored_head _ _ _ _ Hst) as (errs & He & Hdam & Hb). rewrite <- Hrd in Hdam.
        by rewrite (correct_data_restores (take 512 d) errs) by done.
      - destruct Hst as (Hl & _ & <-). rewrite Hrd. rewrite take_take. do 3 f_equal. lia. }
    simpl. rewrite E2. simpl. exists s2. rewrite take_drop. split; [done|].
    intros q. by rewrite Hf2, Hfr.
Qed.

(** The parity stored in spare bytes [oob]. *)
Definition code_in (oob code : list Z) : Prop :=
  gather_code oob (eccpos g) (Z.to_nat half_total) = Some code.

Definition used (code : list Z) : bool := existsb (fun x => negb (x =? 255)) code.

(** Page contents [raw] that stand for the data [d]. *)
Definition holds (raw d : list Z) : Prop :=
  exists code, code_in (take (Z.to_nat half_oob) (drop (Z.to_nat half_page) raw)) code /\
    stored (used code) (Z.to_nat half_steps) d raw code.

Lemma gather_code_length oob pos n code : gather_code oob pos n = Some code -> length code = n.
Proof using Type.
  revert pos code. induction n as [|n IH]; intros [|p pos] code Hc; simpl in Hc; try (by simplify_eq).
  destruct (rd oob p); [|done]. simpl in Hc. destruct (gather_code oob pos n) as [xs|] eqn:E; [|done].
  injection Hc as <-. simpl. f_equal. by eapply IH.
Qed.

Lemma half_page_nonneg : 0 <= half_page.
Proof using Hg. rewrite (geo_page Hg). pose proof (geo_steps Hg). lia. Qed.

Lemma read_plane_spec s page d :
  holds (cells s page) d ->
  exists s', read_plane s page =
      Some (d, take (Z.to_nat half_oob) (drop (Z.to_nat half_page) (cells s page)), 0, s') /\ same_cells s s'.
Proof using All.
  intros (code & Hcode & Hst). unfold read_plane. pose proof half_page_nonneg as Hhp.
  pose proof (cmd_readoob s 0 page) as Hp0. set (s0 := cmdfunc NAND_CMD_READOOB 0 page s) in *.
  assert (Hc0 : same_cells s s0) by (intros q; by apply cmd_frame).
  destruct (read_next s0 half_oob page _ Hp0 ltac:(lia) (geo_oob Hg)) as [Hrd Hp1].
  pose proof (read_frame s0 half_oob) as Hc1. destruct (read_buf half_oob s0) as [oob s1]. simpl in *.
  rewrite Z.add_0_r, Hc0 in Hrd. rewrite <- Hrd in *. unfold code_in in Hcode. rewrite Hcode. simpl. fold (used code).
  pose proof (cmd_rndout s1 page _ 0 Hp1) as Hp2. set (s2 := cmdfunc NAND_CMD_RNDOUT 0 (-1) s1) in *.
  assert (Hc2 : same_cells s s2).
  { intros q. unfold s2. rewrite cmd_frame by done. by rewrite Hc1, Hc0. }
  destruct (read_steps_spec (Z.to_nat half_steps) (used code) code s2 page 0 d) as (s3 & -> & Hc3).
  - done.
  - lia.
  - intros _. apply gather_code_length in Hcode. rewrite Hcode, (geo_total Hg). pose proof (geo_steps Hg). lia.
  - rewrite Hc2. exact Hst.
  - simpl. exists s3. split; [done|]. intros q. by rewrite Hc3, Hc2.
Qed.

(** C29: if both pages of large page [n] hold data with at most four damaged
    symbols in each block (or hold them intact, with parity that was never
    written), the two-plane read is defined, returns exactly the data of the
    first page followed by those of the second, with their spare bytes, counts
    no failure and changes no cell. *)
Theorem read_planes_corrects s n d1 d2 :
  holds (cells s (plane_page n)) d1 -> holds (cells s (plane_page n + ppb)) d2 ->
  exists o s', nand_read_page_hwecc_rs_planes s n = Some (d1 ++ d2, o, 0, s') /\ same_cells s s' /\
    o = take (Z.to_nat half_oob) (drop (Z.to_nat half_page) (cells s (plane_page n))) ++
        take (Z.to_nat half_oob) (drop (Z.to_nat half_page) (cells s (plane_page n + ppb))).
Proof using All.
  intros H1 H2. unfold nand_read_page_hwecc_rs_planes.
  destruct (read_plane_spec s _ d1 H1) as (s1 & -> & Hc1). simpl.
  rewrite <- (Hc1 (plane_page n + ppb)) in H2.
  destruct (read_plane_spec s1 _ d2 H2) as (s2 & -> & Hc2). simpl.
  eexists _, s2. split; [done|]. split; [intros q; by rewrite Hc2, Hc1|]. by rewrite Hc1.
Qed.

(** ** Writing *)

(** [s'] is [s] with [l] taken in by the chip. *)
Definition takes_in (l : list Z) (s s' : S) : Prop :=
  same_cells s s' /\
  (forall r c d, phase s = In1 r c d -> phase s' = In1 r c (d ++ l)) /\
  (forall r c1 d1 p c d, phase s = In2 r c1 d1 p c d -> phase s' = In2 r c1 d1 p c (d ++ l)).

Lemma takes_in_write l s : takes_in l s (write_buf l s).
Proof using All.
  split; [intros q; apply write_frame|]. split; intros; [by apply write_first|by apply write_second].
Qed.

Lemma takes_in_trans l1 l2 s1 s2 s3 : takes_in l1 s1 s2 -> takes_in l2 s2 s3 -> takes_in (l1 ++ l2) s1 s3.
Proof using Type.
  intros (H1 & H2 & H3) (H4 & H5 & H6). split; [intros q; by rewrite H4, H1|].
  split; intros; rewrite app_assoc; auto.
Qed.

Fixpoint parity (n : nat) (p : list Z) : list Z :=
  match n with O => [] | Datatypes.S n => rs_encode (take 512 p) ++ parity n (drop 512 p) end.

Lemma rs_encode_length d : block d -> length (rs_encode d) = 9%nat.
Proof using All.
  intros Hd. rewrite <- (rs_clean d Hd). apply rs_parity_length; [done|].
  split; [simpl; lia|]. split; constructor.
Qed.

Lemma block_take p n : Forall (digit 8) p -> (512 * Datatypes.S n <= length p)%nat -> block (take 512 p).
Proof using Type. intros Hd Hl. split; [rewrite length_take; lia|by apply Forall_take]. Qed.

Lemma write_steps_spec n : forall p s,
  Forall (digit 8) p -> (512 * n <= length p)%nat ->
  exists s', write_steps n p s = Some (parity n p, drop (512 * n) p, s') /\ takes_in (take (512 * n) p) s s'.
Proof using All.
  induction n as [|n IH]; intros p s Hd Hl; cbn [write_steps parity].
  { exists s. rewrite Nat.mul_0_r, drop_0, take_0. split; [done|]. split; [done|].
    split; intros; by rewrite app_nil_r. }
  rewrite (geo_size Hg). change (Z.to_nat 512) with 512%nat.
  rewrite decide_True by (rewrite length_take; lia).
  destruct (IH (drop 512 p) (write_buf (take 512 p) s)) as (s' & -> & Ht).
  { by apply Forall_drop. } { rewrite length_drop. lia. }
  cbn [mbind option_bind]. exists s'. rewrite drop_drop. replace (512 + 512 * n)%nat with (512 * Datatypes.S n)%nat by lia. split; [done|].
  replace (take (512 * Datatypes.S n) p) with (take 512 p ++ take (512 * n) (drop 512 p)).
  - eapply takes_in_trans; [apply takes_in_write|exact Ht].
  - rewrite <- (take_drop 512 p) at 3. rewrite take_app_ge by (rewrite length_take; lia).
    rewrite length_take. do 2 f_equal. lia.
Qed.

Lemma parity_length n : forall p,
  Forall (digit 8) p -> (512 * n <= length p)%nat -> length (parity n p) = (9 * n)%nat.
Proof using All.
  induction n as [|n IH]; intros p Hd Hl; [done|]. cbn [parity]. rewrite length_app, rs_encode_length, IH.
  - lia.
  - by apply Forall_drop.
  - rewrite length_drop. lia.
  - by eapply block_take.
Qed.

Lemma parity_bytes n : forall p,
  Forall (digit 8) p -> (512 * n <= length p)%nat -> Forall (digit 8) (parity n p).
Proof using All.
  induction n as [|n IH]; intros p Hd Hl; [constructor|]. cbn [parity]. apply Forall_app_2.
  - apply rs_bytes. by eapply block_take.
  - apply IH; [by apply Forall_drop|]. rewrite length_drop. lia.
Qed.

Lemma parity_take m : forall l k, (512 * m <= k)%nat -> parity m (take k l) = parity m l.
Proof using Type.
  induction m as [|m IH]; intros l k Hk; [done|]. cbn [parity]. rewrite take_take.
  replace (Nat.min 512 k) with 512%nat by lia. f_equal. rewrite skipn_firstn_comm. apply IH. lia.
Qed.

Lemma gather_code_ext n : forall pos oob oob',
  (forall j, j ∈ take n pos -> rd oob' j = rd oob j) -> gather_code oob' pos n = gather_code oob pos n.
Proof using Type.
  induction n as [|n IH]; intros [|p pos] oob oob' Heq; simpl; try done.
  simpl in Heq. rewrite Heq by (by left). destruct (rd oob p); [|done]. simpl.
  by rewrite (IH pos oob oob') by (intros; apply Heq; by right).
Qed.

(** Storing parity bytes at distinct positions, and finding them there. *)
Lemma put_code_spec n : forall oob pos calc,
  length calc = n -> (n <= length pos)%nat -> NoDup (take n pos) ->
  Forall (fun p => 0 <= p < Z.of_nat (length oob)) (take n pos) ->
  exists oob', put_code oob pos calc n = Some oob' /\ length oob' = length oob /\
    gather_code oob' pos n = Some calc /\
    (forall j, 0 <= j -> j ∉ take n pos -> rd oob' j = rd oob j) /\
    (Forall (digit 8) oob -> Forall (digit 8) calc -> Forall (digit 8) oob').
Proof using Type.
  induction n as [|n IH]; intros oob pos calc Hl Hn Hnd Hr.
  { exists oob. by destruct pos, calc. }
  destruct pos as [|p pos]; [simpl in Hn; lia|]. destruct calc as [|x calc]; [done|]. simpl in *.
  apply NoDup_cons in Hnd as [Hnotin Hnd]. apply Forall_cons in Hr as [Hp Hr].
  rewrite wr_Some by done. simpl. set (o1 := <[Z.to_nat p := x]> oob).
  destruct (IH o1 pos calc) as (o2 & -> & Hlen & Hg2 & Hkeep & Hby); [lia|lia|done| |].
  { unfold o1. by rewrite length_insert. }
  exists o2. split; [done|]. split; [rewrite Hlen; apply length_insert|].
  assert (Hpx : rd o2 p = Some x).
  { rewrite Hkeep by (done || lia). unfold o1. by rewrite rd_insert, Z.eqb_refl by lia. }
  split; [by rewrite Hpx, Hg2|]. split.
  - intros j Hj Hjn. apply not_elem_of_cons in Hjn as [Hne Hjn]. rewrite Hkeep by done.
    unfold o1. by rewrite rd_insert, (proj2 (Z.eqb_neq _ _)) by lia.
  - intros Ho Hc. inversion Hc; subst. apply Hby; [by apply Forall_insert|done].
Qed.

(** One plane: the data and the spare bytes with their parity go to the chip. *)
Lemma write_plane_spec s p oob :
  Forall (digit 8) p -> half_page <= Z.of_nat (length p) ->
  Forall (digit 8) oob -> half_oob <= Z.of_nat (length oob) ->
  let hp := Z.to_nat half_page in let ho := Z.to_nat half_oob in
  exists oob' s', write_plane s p oob = Some (drop hp p, oob', s') /\
    takes_in (take hp p ++ take ho oob') s s' /\ length oob' = length oob /\ Forall (digit 8) oob' /\
    code_in (take ho oob') (parity (Z.to_nat half_steps) p) /\
    (forall j, 0 <= j -> j ∉ code_pos -> rd oob' j = rd oob j).
Proof using All.
  intros Hp Hlp Ho Hlo hp ho. unfold write_plane.
  pose proof (geo_steps Hg). pose proof (geo_oob Hg).
  assert (Hhp : hp = (512 * Z.to_nat half_steps)%nat) by (unfold hp; rewrite (geo_page Hg); lia).
  destruct (write_steps_spec (Z.to_nat half_steps) p s Hp) as (s1 & -> & Ht); [lia|].
  assert (Hplen : length (parity (Z.to_nat half_steps) p) = Z.to_nat half_total).
  { rewrite parity_length by (done || lia). rewrite (geo_total Hg). lia. }
  cbn [mbind option_bind].
  destruct (put_code_spec (Z.to_nat half_total) oob (eccpos g) (parity (Z.to_nat half_steps) p))
    as (oob' & -> & Hlen & Hgc & Hkeep & Hby); [done|apply Hg|apply Hg| |].
  { eapply Forall_impl; [apply (geo_pos Hg)|]. simpl. lia. }
  cbn [mbind option_bind]. unfold first_bytes. rewrite (proj2 (Z.ltb_ge _ _)) by lia. cbn [mbind option_bind].
  fold ho. rewrite <- Hhp in *. eexists oob', _. split; [done|].
  split; [eapply takes_in_trans; [exact Ht|apply takes_in_write]|]. split; [done|].
  split; [apply Hby; [done|]; apply parity_bytes; (done || lia)|]. split; [|done].
  unfold code_in. rewrite <- Hgc. apply gather_code_ext. intros j Hj.
  assert (0 <= j < half_oob) as Hjr by (pose proof (geo_pos Hg) as Hpos; rewrite Forall_forall in Hpos; by apply Hpos).
  rewrite !rd_lookup by lia. apply lookup_take_lt. unfold ho. lia.
Qed.

(** Data just written, with their parity, are held. *)
Lemma stored_fresh flag n : forall d raw,
  length d = (512 * n)%nat -> Forall (digit 8) d -> take (512 * n) raw = d -> stored flag n d raw (parity n d).
Proof using All.
  intros d raw Hl Hd Hraw. split; [done|]. split; [done|]. destruct flag; [|done].
  assert (H : forall m l i, (i < m)%nat -> (512 * m <= length l)%nat -> Forall (digit 8) l ->
    take 9 (drop (9 * i) (parity m l)) = rs_encode (blk i l)).
  { intros m. induction m as [|m IH]; intros l i Hi Hm Hb; [lia|]. cbn [parity].
    assert (block (take 512 l)) as Hblk by (by eapply block_take).
    destruct i as [|i].
    - rewrite Nat.mul_0_r, drop_0. unfold blk. rewrite Nat.mul_0_r, drop_0.
      rewrite take_app_le by (rewrite rs_encode_length by done; lia).
      apply take_ge. by rewrite rs_encode_length by done.
    - rewrite drop_app_ge by (rewrite rs_encode_length by done; lia). rewrite rs_encode_length by done.
      replace (9 * Datatypes.S i - 9)%nat with (9 * i)%nat by lia.
      rewrite IH; [|lia|rewrite length_drop; lia|by apply Forall_drop].
      unfold blk. rewrite drop_drop. by replace (512 + 512 * i)%nat with (512 * Datatypes.S i)%nat by lia. }
  intros i Hi. assert (Hblkr : blk i raw = blk i d).
  { unfold blk. rewrite <- Hraw, skipn_firstn_comm, take_take. f_equal. lia. }
  assert (Hb : block (blk i d)).
  { split; [unfold blk; rewrite length_take, length_drop; lia|]. by apply Forall_take, Forall_drop. }
  exists []. split; [split; [simpl; lia|]; split; constructor|]. rewrite H by (done || lia). rewrite Hblkr.
  split; [done|]. split; [by rewrite Z.lxor_0_r|]. by rewrite rs_clean.
Qed.

Lemma program_erased d :
  length d = Z.to_nat (half_page + half_oob) -> Forall (digit 8) d -> program erased 0 d = d.
Proof using Type.
  intros Hl Hd. unfold program, erased. change (Z.to_nat 0) with 0%nat. rewrite take_0, drop_0. simpl.
  rewrite drop_ge by (rewrite length_replicate; lia). rewrite app_nil_r, <- Hl. clear Hl.
  induction Hd as [|x d Hx Hd IH]; simpl; [done|]. rewrite IH. f_equal.
  change 255 with (Z.ones 8). rewrite Z.land_ones by lia. apply Z.mod_small. exact Hx.
Qed.

Lemma holds_fresh d o code :
  length d = Z.to_nat half_page -> Forall (digit 8) d -> length o = Z.to_nat half_oob ->
  code_in o code -> code = parity (Z.to_nat half_steps) d -> holds (d ++ o) d.
Proof using All.
  intros Hl Hd Hlo Hc ->. exists (parity (Z.to_nat half_steps) d). split.
  - rewrite drop_app_length', take_ge by (done || lia). done.
  - pose proof (geo_steps Hg). apply stored_fresh; [rewrite Hl, (geo_page Hg); lia|done|].
    replace (512 * Z.to_nat half_steps)%nat with (length d) by (rewrite Hl, (geo_page Hg); lia).
    by rewrite take_app_length.
Qed.

(** The two-plane write of both halves, up to the final program command. *)
Lemma write_page_phase s n buf oob :
  Forall (digit 8) buf -> Z.of_nat (length buf) = 2 * half_page ->
  Forall (digit 8) oob -> half_oob <= Z.of_nat (length oob) ->
  let hp := Z.to_nat half_page in let ho := Z.to_nat half_oob in
  exists oob1 oob2 s', nand_write_page_hwecc_planes s n buf oob = Some (oob2, s') /\ same_cells s s' /\
    phase s' = In2 (first_row (plane_page n)) 0 (take hp buf ++ take ho oob1) (plane_page n + ppb) 0 (drop hp buf ++ take ho oob2) /\
    (length oob1 = length oob /\ Forall (digit 8) oob1 /\ code_in (take ho oob1) (parity (Z.to_nat half_steps) buf)) /\
    (length oob2 = length oob /\ Forall (digit 8) oob2 /\ code_in (take ho oob2) (parity (Z.to_nat half_steps) (drop hp buf))) /\
    (forall j, 0 <= j -> j ∉ code_pos -> rd oob1 j = rd oob j /\ rd oob2 j = rd oob j).
Proof using All.
  intros Hb Hlb Ho Hlo hp ho. unfold nand_write_page_hwecc_planes. pose proof half_page_nonneg as Hnn.
  set (row := first_row (plane_page n)). pose proof (cmd_seqin s 0 row) as Hp0. set (s0 := cmdfunc 128 0 row s) in *.
  assert (Hc0 : same_cells s s0) by (intros q; by apply cmd_frame).
  destruct (write_plane_spec s0 buf oob Hb ltac:(lia) Ho Hlo) as (oob1 & s1 & -> & (Hc1 & Ht1 & _) & Hl1 & Hd1 & Hk1 & Hr1).
  cbn [mbind option_bind]. specialize (Ht1 _ _ _ Hp0). rewrite app_nil_l in Ht1.
  pose proof (cmd_hold s1 _ _ _ Ht1) as Hp2. set (s2 := cmdfunc 17 (-1) (-1) s1) in *.
  assert (Hc2 : same_cells s1 s2) by (intros q; by apply cmd_frame).
  pose proof (cmd_seqin2 s2 _ _ _ 0 (plane_page n + ppb) Hp2) as Hp3. set (s3 := cmdfunc 129 0 (plane_page n + ppb) s2) in *.
  assert (Hc3 : same_cells s2 s3) by (intros q; by apply cmd_frame).
  destruct (write_plane_spec s3 (drop hp buf) oob1) as (oob2 & s4 & E & (Hc4 & _ & Ht4) & Hl4 & Hd4 & Hk4 & Hr4).
  { by apply Forall_drop. } { rewrite length_drop. unfold hp. lia. } { done. } { lia. }
  fold hp in E |- *. rewrite E. cbn [mbind option_bind]. specialize (Ht4 _ _ _ _ _ _ Hp3). rewrite app_nil_l in Ht4.
  fold hp ho in Ht4. rewrite (take_ge (drop hp buf)) in Ht4 by (rewrite length_drop; unfold hp; lia).
  exists oob1, oob2, s4. split; [done|]. split; [intros q; by rewrite Hc4, Hc3, Hc2, Hc1, Hc0|].
  split; [exact Ht4|]. split; [done|]. split; [split; [lia|done]|].
  intros j Hj Hjn. split; [by apply Hr1|]. rewrite Hr4 by done. by apply Hr1.
Qed.

(** What a two-plane write leaves in the cells: each half with its own parity,
    and nothing else changed. *)
Lemma write_page_cells s n buf oob :
  Forall (digit 8) buf -> Z.of_nat (length buf) = 2 * half_page ->
  Forall (digit 8) oob -> half_oob <= Z.of_nat (length oob) ->
  cells s (plane_page n) = erased -> cells s (plane_page n + ppb) = erased ->
  let hp := Z.to_nat half_page in let ho := Z.to_nat half_oob in
  exists status s1 o1 o2, nand_write_page s n buf oob = Some (status, s1) /\
    cells s1 (plane_page n) = take hp buf ++ o1 /\ cells s1 (plane_page n + ppb) = drop hp buf ++ o2 /\
    (forall q, q <> plane_page n -> q <> plane_page n + ppb -> cells s1 q = cells s q) /\
    (length o1 = ho /\ code_in o1 (parity (Z.to_nat half_steps) (take hp buf))) /\
    (length o2 = ho /\ code_in o2 (parity (Z.to_nat half_steps) (drop hp buf))) /\
    (forall j, 0 <= j < half_oob -> j ∉ code_pos -> rd o1 j = rd oob j /\ rd o2 j = rd oob j).
Proof using All.
  intros Hb Hlb Ho Hlo He1 He2.
  destruct (write_page_phase s n buf oob Hb Hlb Ho Hlo)
    as (oob1 & oob2 & s' & Hw & Hsame & Hph & (Hl1 & Hd1 & Hk1) & (Hl2 & Hd2 & Hk2) & Hkeep).
  unfold nand_write_page. rewrite Hw. cbn [mbind option_bind].
  set (hp := Z.to_nat half_page) in *. set (ho := Z.to_nat half_oob) in *.
  pose proof half_page_nonneg as Hnn. pose proof (geo_oob Hg) as Hoo. pose proof (geo_ppb Hg) as Hppb.
  pose proof (fun q => cmd_pageprog s' _ _ _ _ _ _ q Hph (second_page_odd n Hppb) (first_row_second n)) as Hcell.
  set (s1 := cmdfunc NAND_CMD_PAGEPROG (-1) (-1) s') in *. set (p := plane_page n) in *.
  pose proof (wait_frame s1) as Hw1. destruct (waitfunc s1) as [status s2]. simpl in Hw1.
  assert (exists st, (if negb (Z.land status NAND_STATUS_FAIL =? 0) then Some (- EIO, s2) else Some (0, s2)) = Some (st, s2))
    as [st ->] by (destruct (negb _); by eexists).
  assert (Hlo1 : length (take ho oob1) = ho) by (rewrite length_take; unfold ho; lia).
  assert (Hlo2 : length (take ho oob2) = ho) by (rewrite length_take; unfold ho; lia).
  exists st, s2, (take ho oob1), (take ho oob2). split; [done|]. split; [|split; [|split; [|split; [|split]]]].
  - rewrite Hw1, Hcell. replace (p + ppb - ppb) with p by lia. rewrite Z.eqb_refl, Hsame, He1.
    apply program_erased; [rewrite length_app, Hlo1, length_take; unfold hp, ho; lia|].
    apply Forall_app_2; by apply Forall_take.
  - rewrite Hw1, Hcell, (proj2 (Z.eqb_neq _ _)), Z.eqb_refl, Hsame, He2 by lia.
    apply program_erased; [rewrite length_app, Hlo2, length_drop; unfold hp, ho; lia|].
    apply Forall_app_2; [by apply Forall_drop|by apply Forall_take].
  - intros q Hq1 Hq2. rewrite Hw1, Hcell, !(proj2 (Z.eqb_neq _ _)), Hsame by lia. done.
  - split; [done|]. rewrite parity_take; [exact Hk1|]. unfold hp. rewrite (geo_page Hg). pose proof (geo_steps Hg). lia.
  - done.
  - intros j Hj Hjn. destruct (Hkeep j ltac:(lia) Hjn) as [E1 E2].
    split; [rewrite <- E1|rewrite <- E2]; by rewrite !rd_lookup, lookup_take_lt by (unfold ho; lia).
Qed.

(** C30: a large page written to two erased pages, on chips with two or four
    planes, is read back unchanged, with no failure counted, and no other page
    changes; the status returned is that of the chip.  The spare bytes of both
    pages are the first half of the spare buffer, except that the parity positions
    have the parity of each page's own data: the second half of the buffer is
    never stored. *)
Theorem write_read_planes s n buf oob :
  0 <= n -> Forall (digit 8) buf -> Z.of_nat (length buf) = 2 * half_page ->
  Forall (digit 8) oob -> half_oob <= Z.of_nat (length oob) ->
  cells s (plane_page n) = erased -> cells s (plane_page n + ppb) = erased ->
  exists status s1 o1 o2 s2, nand_write_page s n buf oob = Some (status, s1) /\
    nand_read_page_hwecc_rs_planes s1 n = Some (buf, o1 ++ o2, 0, s2) /\
    (forall q, q <> plane_page n -> q <> plane_page n + ppb -> cells s1 q = cells s q) /\
    Z.of_nat (length o1) = half_oob /\ Z.of_nat (length o2) = half_oob /\
    (forall j, 0 <= j < half_oob -> j ∉ code_pos -> rd o1 j = rd oob j /\ rd o2 j = rd oob j) /\
    code_in o1 (parity (Z.to_nat half_steps) (take (Z.to_nat half_page) buf)) /\
    code_in o2 (parity (Z.to_nat half_steps) (drop (Z.to_nat half_page) buf)).
Proof using All.
  intros Hn Hb Hlb Ho Hlo He1 He2.
  destruct (write_page_cells s n buf oob Hb Hlb Ho Hlo He1 He2)
    as (st & s2 & o1 & o2 & Hw & Hc1 & Hc2 & Hframe & [Hlo1 Hk1] & [Hlo2 Hk2] & Hkeep).
  set (hp := Z.to_nat half_page) in *. set (ho := Z.to_nat half_oob) in *. set (p := plane_page n) in *.
  pose proof half_page_nonneg as Hnn. pose proof (geo_oob Hg) as Hoo.
  assert (Hlt : length (take hp buf) = hp) by (rewrite length_take; unfold hp; lia).
  assert (Hld : length (drop hp buf) = hp) by (rewrite length_drop; unfold hp; lia).
  destruct (read_plane_spec s2 p (take hp buf)) as (s3 & Er1 & Hs3).
  { rewrite Hc1. eapply holds_fresh; [done|by apply Forall_take|done|exact Hk1|done]. }
  destruct (read_plane_spec s3 (p + ppb) (drop hp buf)) as (s4 & Er2 & Hs4).
  { rewrite Hs3, Hc2. eapply holds_fresh; [done|by apply Forall_drop|done|exact Hk2|done]. }
  exists st, s2, o1, o2, s4. split; [done|]. split; [|split; [done|split; [lia|split; [lia|done]]]].
  unfold nand_read_page_hwecc_rs_planes. fold p. rewrite Er1. cbn [mbind option_bind]. rewrite Er2.
  cbn [mbind option_bind]. rewrite take_drop. fold hp ho.
  by rewrite Hs3, Hc1, Hc2, !drop_app_length', !take_ge by (done || lia).
Qed.

(** ** Erasing *)

Lemma block_start_odd n k :
  ppb = 2 ^ k -> 0 <= k ->
  let p := Z.ldiff (plane_page n + ppb) (ppb - 1) in
  p / ppb = 2 * (n / ppb) + 1.
Proof using Hg.
  intros Hk Hk0 p. pose proof (geo_ppb Hg). unfold p. rewrite Hk at 2.
  replace (2 ^ k - 1) with (Z.ones k) by (rewrite Z.ones_equiv; lia).
  rewrite Z.ldiff_ones_r, Z.shiftl_mul_pow2, Z.shiftr_div_pow2, <- Hk, Z.div_mul by lia.
  replace (plane_page n + ppb) with (plane_page n + 1 * ppb) by lia.
  rewrite Z.div_add, plane_page_div by lia. done.
Qed.

(** The row of the first plane, for a chip whose top bit is above the blocks. *)
Lemma erase_rows n k :
  ppb = 2 ^ k -> 0 <= k -> realplanenum g = 2 \/ k < chip_shift g - page_shift g ->
  first_row (plane_page n) = first_row (Z.ldiff (plane_page n + ppb) (ppb - 1) - ppb) /\
  Z.odd (first_row (plane_page n) / ppb) = false.
Proof using Hg.
  intros Hk Hk0 Hpl. pose proof (geo_ppb Hg) as Hp. pose proof (block_start_odd n k Hk Hk0) as Hodd. cbv zeta in Hodd.
  set (p2 := Z.ldiff (plane_page n + ppb) (ppb - 1)) in *. unfold first_row.
  destruct (Z.eqb_spec (realplanenum g) 2) as [_|Hne]; [by rewrite Z.div_0_l by lia|].
  destruct Hpl as [?|HK]; [done|]. set (K := chip_shift g - page_shift g) in *. rewrite Z.shiftl_1_l.
  assert (Hbit : forall x, x / ppb = 2 * (n / ppb) -> Z.land x (2 ^ K) = Z.land (ppb * (2 * (n / ppb))) (2 ^ K)).
  { intros x Hx. apply Z.bits_inj'. intros i Hi. rewrite !Z.land_spec, Z.pow2_bits_eqb by lia.
    destruct (Z.eqb_spec K i) as [<-|]; [|by rewrite !andb_false_r]. rewrite !andb_true_r, !Z.testbit_odd.
    rewrite !Z.shiftr_div_pow2 by lia. replace K with (k + (K - k)) by lia. rewrite Z.pow_add_r, <- Hk by lia.
    rewrite <- !Z.div_div by lia. by rewrite Hx, (Z.mul_comm ppb (2 * _)), Z.div_mul by lia. }
  split.
  - rewrite (Hbit (plane_page n)), (Hbit (p2 - ppb)); [done| |by apply plane_page_div].
    replace (p2 - ppb) with (p2 + (-1) * ppb) by lia. rewrite Z.div_add by lia. lia.
  - rewrite Hk, <- Z.shiftr_div_pow2, <- Z.testbit_odd, Z.land_spec, Z.pow2_bits_eqb by lia.
    rewrite (proj2 (Z.eqb_neq K k)) by lia. apply andb_false_r.
Qed.

(** With a power of two pages per block, erasing at large page [n] erases
    both pages of every large page of its large block, and changes no page of
    any other. *)
Theorem erase_planes_block s n k m :
  realplanenum g = 2 \/ k < chip_shift g - page_shift g -> ppb = 2 ^ k -> 0 <= k -> 0 <= n -> 0 <= m ->
  let s' := single_erase_cmd_planes s n in
  (m / ppb = n / ppb -> cells s' (plane_page m) = erased /\ cells s' (plane_page m + ppb) = erased) /\
  (m / ppb <> n / ppb -> cells s' (plane_page m) = cells s (plane_page m) /\
                         cells s' (plane_page m + ppb) = cells s (plane_page m + ppb)).
Proof using All.
  intros Hpl Hk Hk0 Hn Hm s'. pose proof (geo_ppb Hg) as Hp.
  pose proof (block_start_odd n k Hk Hk0) as Hodd. cbv zeta in Hodd.
  destruct (erase_rows n k Hk Hk0 Hpl) as [Hr Hre]. unfold s', single_erase_cmd_planes.
  set (row := first_row (plane_page n)) in *. set (p2 := Z.ldiff (plane_page n + ppb) (ppb - 1)) in *.
  assert (Ho : Z.odd (p2 / ppb) = true) by (rewrite Hodd, Z.add_comm, Z.odd_add_mul_2; done).
  pose proof (cmd_erase_second _ _ p2 (cmd_erase s row Hre) Ho) as Hph.
  pose proof (fun q => cmd_erase2 _ _ p2 q Hph Ho Hr) as Hcell.
  assert (Hc0 : forall q, cells (cmdfunc 96 (-1) p2 (cmdfunc 96 (-1) row s)) q = cells s q).
  { intros q. by rewrite !cmd_frame by done. }
  assert (H2 : forall x, (2 * x + 1) / 2 = x) by (intros; Z.to_euclidean_division_equations; lia).
  assert (H2' : forall x, 2 * x / 2 = x) by (intros; Z.to_euclidean_division_equations; lia).
  assert (Hq1 : plane_page m / ppb / 2 = m / ppb) by (rewrite plane_page_div by done; apply H2').
  assert (Hq2 : (plane_page m + ppb) / ppb / 2 = m / ppb).
  { replace (plane_page m + ppb) with (plane_page m + 1 * ppb) by lia.
    rewrite Z.div_add, plane_page_div by lia. apply H2. }
  split; intros Heq; rewrite !Hcell, Hq1, Hq2, Hodd, H2, ?Hc0.
  - by rewrite Heq, Z.eqb_refl.
  - by rewrite (proj2 (Z.eqb_neq _ _)).
Qed.

(** The two pages of the large pages are all pages, each once: every
    physical page is the first or the second page of exactly one large page. *)
Theorem plane_pages_bijective x :
  0 <= x ->
  exists n h, 0 <= n /\ 0 <= h <= 1 /\ x = plane_page n + h * ppb /\
    forall n' h', 0 <= n' -> 0 <= h' <= 1 -> x = plane_page n' + h' * ppb -> n' = n /\ h' = h.
Proof using Hg.
  intros Hx. pose proof (geo_ppb Hg) as Hp.
  set (b := x / ppb). exists (b / 2 * ppb + x mod ppb), (b mod 2).
  assert (Hb : x = ppb * b + x mod ppb) by (apply Z.div_mod; lia).
  pose proof (Z.mod_pos_bound x ppb Hp). pose proof (Z.mod_pos_bound b 2 ltac:(lia)).
  assert (0 <= b) by (apply Z.div_pos; lia). assert (Hb2 : b = 2 * (b / 2) + b mod 2) by (apply Z.div_mod; lia).
  assert (0 <= b / 2) by (apply Z.div_pos; lia).
  split; [nia|]. split; [lia|]. split.
  { unfold plane_page. rewrite Z.div_add_l, (Z.div_small (x mod ppb)), Z.add_0_r by lia. nia. }
  intros n' h' Hn' Hh' E.
  assert (Hd : x / ppb = 2 * (n' / ppb) + h').
  { rewrite E, Z.div_add, plane_page_div by lia. done. }
  assert (Hm : x mod ppb = n' mod ppb) by (rewrite E, Z.mod_add, plane_page_mod by lia; done).
  fold b in Hd. assert (b / 2 = n' / ppb /\ b mod 2 = h') as [E1 E2].
  { rewrite Hd. split; [|]; Z.to_euclidean_division_equations; lia. }
  rewrite E1, E2, Hm. split; [|done]. pose proof (Z.div_mod n' ppb). lia.
Qed.

(** ** Spare bytes *)

Lemma program_spare dat d :
  length dat = Z.to_nat half_page -> length d = Z.to_nat half_oob -> Forall (digit 8) d -> 0 <= half_page ->
  program (dat ++ replicate (Z.to_nat half_oob) 255) half_page d = dat ++ d.
Proof using Type.
  intros Hdat Hd Hb Hnn. unfold program. rewrite take_app_length' by done.
  rewrite (drop_app_length' dat) by done. rewrite drop_ge by (rewrite length_app, length_replicate; lia).
  rewrite app_nil_r. f_equal. rewrite <- Hd. clear Hd Hdat.
  induction Hb as [|x d Hx Hd IH]; simpl; [done|]. rewrite IH. f_equal.
  change 255 with (Z.ones 8). rewrite Z.land_ones by lia. apply Z.mod_small. exact Hx.
Qed.

(** Spare bytes written with the two-plane function to pages with a blank
    spare area are read back unchanged, both halves, without touching the data
    of the pages. *)
Theorem oob_planes_roundtrip s n oob dat1 dat2 :
  Forall (digit 8) oob -> Z.of_nat (length oob) = 2 * half_oob ->
  length dat1 = Z.to_nat half_page -> length dat2 = Z.to_nat half_page ->
  cells s (plane_page n) = dat1 ++ replicate (Z.to_nat half_oob) 255 ->
  cells s (plane_page n + ppb) = dat2 ++ replicate (Z.to_nat half_oob) 255 ->
  exists status s', nand_write_oob_std_planes s n oob = Some (status, s') /\
    (nand_read_oob_std_planes s' n true).1 = oob /\
    take (Z.to_nat half_page) (cells s' (plane_page n)) = dat1 /\
    take (Z.to_nat half_page) (cells s' (plane_page n + ppb)) = dat2.
Proof using All.
  intros Ho Hlo Hd1 Hd2 Hc1 Hc2. unfold nand_write_oob_std_planes. pose proof half_page_nonneg as Hnn. pose proof (geo_oob Hg) as Hoo.
  pose proof (geo_ppb Hg) as Hppb. set (ho := Z.to_nat half_oob) in *. set (p := plane_page n) in *.
  unfold first_bytes. rewrite (proj2 (Z.ltb_ge (Z.of_nat (length oob)) _)) by lia. cbn [mbind option_bind]. fold ho.
  rewrite (proj2 (Z.ltb_ge (Z.of_nat (length (drop ho oob))) _)) by (rewrite length_drop; unfold ho; lia).
  cbn [mbind option_bind].
  rewrite (take_ge (drop ho oob)) by (rewrite length_drop; unfold ho; lia).
  pose proof (write_first _ _ _ _ (take ho oob) (cmd_seqin s half_page (first_row p))) as Hp1. rewrite app_nil_l in Hp1.
  pose proof (cmd_hold _ _ _ _ Hp1) as Hp2. set (s2 := cmdfunc 17 (-1) (-1) _) in *.
  assert (Hs2 : same_cells s s2).
  { intros q. unfold s2. by rewrite cmd_frame, write_frame, cmd_frame by done. }
  pose proof (wait_phase s2) as Hp3. pose proof (wait_frame s2) as Hs3. destruct (waitfunc s2) as [st0 s3]. simpl in Hp3, Hs3.
  rewrite Hp2 in Hp3. pose proof (cmd_seqin2 _ _ _ _ half_page (p + ppb) Hp3) as Hp4.
  pose proof (write_second _ _ _ _ _ _ _ (drop ho oob) Hp4) as Hp5. rewrite app_nil_l in Hp5.
  set (s5 := write_buf (drop ho oob) _) in *.
  assert (Hs5 : same_cells s s5).
  { intros q. unfold s5. by rewrite write_frame, cmd_frame, Hs3, Hs2 by done. }
  pose proof (fun q => cmd_pageprog s5 _ _ _ _ _ _ q Hp5 (second_page_odd n Hppb) (first_row_second n)) as Hcell.
  set (s6 := cmdfunc NAND_CMD_PAGEPROG (-1) (-1) s5) in *.
  pose proof (wait_frame s6) as Hs7. destruct (waitfunc s6) as [st s7]. simpl in Hs7.
  assert (E1 : cells s7 p = dat1 ++ take ho oob).
  { rewrite Hs7, Hcell. replace (p + ppb - ppb) with p by lia. rewrite Z.eqb_refl, Hs5, Hc1.
    apply program_spare; [done|rewrite length_take; fold ho; unfold ho; lia|by apply Forall_take|done]. }
  assert (E2 : cells s7 (p + ppb) = dat2 ++ drop ho oob).
  { rewrite Hs7, Hcell, (proj2 (Z.eqb_neq _ _)), Z.eqb_refl, Hs5, Hc2 by lia.
    apply program_spare; [done|rewrite length_drop; fold ho; unfold ho; lia|by apply Forall_drop|done]. }
  eexists _, s7. split; [done|]. rewrite E1, E2, !take_app_length' by done. split; [|done].
  unfold nand_read_oob_std_planes. fold p.
  destruct (read_next _ half_oob p _ (cmd_readoob s7 0 p) ltac:(lia) Hoo) as [Hr1 _].
  pose proof (read_frame (cmdfunc NAND_CMD_READOOB 0 p s7) half_oob) as Hf1.
  destruct (read_buf half_oob (cmdfunc NAND_CMD_READOOB 0 p s7)) as [o1 s8]. simpl in Hr1, Hf1.
  destruct (read_next _ half_oob (p + ppb) _ (cmd_readoob s8 0 (p + ppb)) ltac:(lia) Hoo) as [Hr2 _].
  destruct (read_buf half_oob (cmdfunc NAND_CMD_READOOB 0 (p + ppb) s8)) as [o2 s9]. simpl in Hr2 |- *.
  rewrite cmd_frame in Hr1 by done. rewrite cmd_frame, Hf1, cmd_frame in Hr2 by done.
  rewrite Hr1, Hr2, E1, E2, !Z.add_0_r, !drop_app_length' by done. fold ho.
  rewrite take_take, Nat.min_id, (take_ge (drop ho oob)) by (rewrite length_drop; unfold ho; lia).
  apply take_drop.
Qed.

End Geometry.

(** ** A chip with the laws *)
Module SimPlanes.

Record sim := Sim { ph : phase_t; mem : Z -> list Z }.

Definition sim_cmd (g : geometry) (cmd col page : Z) (s : sim) : sim :=
  if cmd =? NAND_CMD_READOOB then Sim (Out page (half_page g + col)) (mem s)
  else if cmd =? NAND_CMD_RNDOUT then
    match ph s with Out p _ => Sim (Out p col) (mem s) | _ => s end
  else if cmd =? 128 then Sim (In1 page col []) (mem s)
  else if cmd =? 17 then match ph s with In1 r c d => Sim (Held r c d) (mem s) | _ => s end
  else if cmd =? 129 then match ph s with Held r c d => Sim (In2 r c d page col []) (mem s) | _ => s end
  else if cmd =? NAND_CMD_PAGEPROG then
    match ph s with
    | In2 _ c1 d1 p c2 d2 =>
        Sim Idle (fun q => if q =? p - ppb g then program (mem s q) c1 d1
                           else if q =? p then program (mem s q) c2 d2 else mem s q)
    | _ => s end
  else if cmd =? 96 then
    if Z.odd (page / ppb g) then match ph s with Er1 r => Sim (Er2 r page) (mem s) | _ => s end
    else Sim (Er1 page) (mem s)
  else if cmd =? NAND_CMD_ERASE2 then
    match ph s with
    | Er2 _ p => Sim Idle (fun q => if q / ppb g / 2 =? p / ppb g / 2 then erased g else mem s q)
    | _ => s end
  else s.

Definition sim_read (n : Z) (s : sim) : list Z * sim :=
  match ph s with
  | Out p c => (take (Z.to_nat n) (drop (Z.to_nat c) (mem s p)), Sim (Out p (c + n)) (mem s))
  | _ => ([], s)
  end.

Definition sim_write (l : list Z) (s : sim) : sim :=
  match ph s with
  | In1 r c d => Sim (In1 r c (d ++ l)) (mem s)
  | In2 r c1 d1 p c d => Sim (In2 r c1 d1 p c (d ++ l)) (mem s)
  | _ => s
  end.

(** A small geometry: pages of 512 bytes with 16 spare ones, four pages to a
    block. *)
Definition geo : geometry := Geo 1024 32 4096 512 2 18 [0; 1; 2; 3; 4; 5; 6; 7; 8] 2 20 9.

Definition sim_of (g : geometry) : PlaneChip sim := {|
  cmdfunc := sim_cmd g; read_buf := sim_read; write_buf := sim_write; waitfunc s := (192, s);
  phase := ph; cells := mem |}.

#[local] Instance sim_chip : PlaneChip sim := sim_of geo.

Lemma geo_is_ok : geometry_ok geo.
Proof.
  split; try reflexivity; try (vm_compute; discriminate).
  - apply Forall_forall. intros x Hx. change (code_pos geo) with [0; 1; 2; 3; 4; 5; 6; 7; 8] in Hx.
    change (half_oob geo) with 16. set_solver by lia.
  - change (code_pos geo) with [0; 1; 2; 3; 4; 5; 6; 7; 8]. apply NoDup_ListNoDup. repeat constructor; simpl; lia.
Qed.

Lemma sim_of_laws g : PlaneChipLaws (H := sim_of g) g sim.
Proof.
  split; try done; cbn [phase cells cmdfunc read_buf write_buf waitfunc sim_of].
  - intros s p c col E. unfold sim_cmd. cbn. by rewrite E.
  - intros s cmd col p q H1 H2. unfold sim_cmd.
    rewrite (proj2 (Z.eqb_neq cmd NAND_CMD_PAGEPROG)), (proj2 (Z.eqb_neq cmd NAND_CMD_ERASE2)) by done.
    repeat case_match; done.
  - intros s n p c E _ _. unfold sim_read. by rewrite E.
  - intros s n q. unfold sim_read. by destruct (ph s).
  - intros s l q. unfold sim_write. by destruct (ph s).
  - intros s r c d l E. unfold sim_write. by rewrite E.
  - intros s r c d E. unfold sim_cmd. cbn. by rewrite E.
  - intros s r c d col p E. unfold sim_cmd. cbn. by rewrite E.
  - intros s r c1 d1 p c d l E. unfold sim_write. by rewrite E.
  - intros s r c1 d1 p c2 d2 q E _ _. unfold sim_cmd. cbn. by rewrite E.
  - intros s row Ho. unfold sim_cmd. cbn. by rewrite Ho.
  - intros s r p E Ho. unfold sim_cmd. cbn. by rewrite Ho, E.
  - intros s r p q E _ _. unfold sim_cmd. cbn. by rewrite E.
Qed.

#[local] Instance sim_laws : PlaneChipLaws geo sim := sim_of_laws geo.

(** A page of sevens whose first bit is wrong, with its parity. *)
Definition sevens : list Z := replicate 512 7.
Definition bad_page : list Z :=
  (6 :: replicate 511 7) ++ PackedEngine.to_bytes 9 (PackedEngine.pack [(1, 1)]) ++ replicate 7 255.

Definition bad_chip : sim := Sim Idle (fun _ => bad_page).
Definition blank_chip : sim := Sim Idle (fun _ => erased geo).
Definition blank_spare : sim := Sim Idle (fun _ => sevens ++ replicate 16 255).

Lemma bad_page_holds : holds geo bad_page sevens.
Proof.
  exists (PackedEngine.to_bytes 9 (PackedEngine.pack [(1, 1)])). split; [reflexivity|].
  split; [reflexivity|]. split; [apply Forall_replicate; unfold digit; lia|].
  intros i Hi. destruct i as [|i]; [|change (Z.to_nat (half_steps geo)) with 1%nat in Hi; lia].
  exists [(1, 1)]. split.
  - split; [simpl; lia|]. split; [repeat constructor; unfold err_ok; simpl; lia|repeat constructor].
  - split; [split; [reflexivity|]|split; reflexivity].
    apply (Forall_cons_2 _ 6 (replicate 511 7)); [unfold digit; lia|].
    apply Forall_replicate. unfold digit. lia.
Qed.

End SimPlanes.

Lemma read_planes_corrects_witness :
  exists o s', nand_read_page_hwecc_rs_planes SimPlanes.geo (HC := SimPlanes.sim_chip) SimPlanes.bad_chip 5 =
    Some (SimPlanes.sevens ++ SimPlanes.sevens, o, 0, s').
Proof.
  destruct (read_planes_corrects SimPlanes.geo (HC := SimPlanes.sim_chip) (HL := SimPlanes.sim_laws)
    SimPlanes.geo_is_ok SimPlanes.bad_chip 5 SimPlanes.sevens SimPlanes.sevens) as (o & s' & H & _);
    [apply SimPlanes.bad_page_holds|apply SimPlanes.bad_page_holds|].
  exists o, s'. exact H.
Defined.

Lemma write_read_planes_witness :
  exists status s1 o1 o2 s2,
    nand_write_page SimPlanes.geo (HC := SimPlanes.sim_chip) SimPlanes.blank_chip 5
      (SimPlanes.sevens ++ replicate 512 9) (replicate 16 1 ++ replicate 16 2) = Some (status, s1) /\
    nand_read_page_hwecc_rs_planes SimPlanes.geo (HC := SimPlanes.sim_chip) s1 5 =
      Some (SimPlanes.sevens ++ replicate 512 9, o1 ++ o2, 0, s2) /\ rd o1 9 = Some 1 /\ rd o2 9 = Some 1.
Proof.
  destruct (write_read_planes SimPlanes.geo (HC := SimPlanes.sim_chip) (HL := SimPlanes.sim_laws)
    SimPlanes.geo_is_ok SimPlanes.blank_chip 5 (SimPlanes.sevens ++ replicate 512 9)
    (replicate 16 1 ++ replicate 16 2)) as (st & s1 & o1 & o2 & s2 & H1 & H2 & _ & Hl & _ & H3 & _).
  - lia.
  - apply Forall_app_2; apply Forall_replicate; unfold digit; lia.
  - reflexivity.
  - apply Forall_app_2; apply Forall_replicate; unfold digit; lia.
  - vm_compute. discriminate.
  - reflexivity.
  - reflexivity.
  - exists st, s1, o1, o2, s2. split; [exact H1|]. split; [exact H2|].
    apply (H3 9); [change (half_oob SimPlanes.geo) with 16; lia|].
    change (code_pos SimPlanes.geo) with [0; 1; 2; 3; 4; 5; 6; 7; 8]. rewrite !not_elem_of_cons. 
    repeat split; try lia. apply not_elem_of_nil.
Defined.

Lemma erase_planes_block_witness :
  let s' := single_erase_cmd_planes SimPlanes.geo (HC := SimPlanes.sim_chip) SimPlanes.bad_chip 5 in
  cells (PlaneChip := SimPlanes.sim_chip) s' (plane_page SimPlanes.geo 6) = erased SimPlanes.geo /\
  cells (PlaneChip := SimPlanes.sim_chip) s' (plane_page SimPlanes.geo 3) = SimPlanes.bad_page.
Proof.
  pose proof (fun m => erase_planes_block SimPlanes.geo (HC := SimPlanes.sim_chip) (HL := SimPlanes.sim_laws)
    SimPlanes.geo_is_ok SimPlanes.bad_chip 5 2 m (or_introl eq_refl) eq_refl ltac:(lia) ltac:(lia)) as H.
  cbv zeta. split.
  - apply (proj1 (H 6 ltac:(lia))). reflexivity.
  - apply (proj2 (H 3 ltac:(lia))). vm_compute. discriminate.
Defined.

Lemma plane_pages_bijective_witness :
  exists n h, 0 <= n /\ 13 = plane_page SimPlanes.geo n + h * ppb SimPlanes.geo.
Proof.
  destruct (plane_pages_bijective SimPlanes.geo SimPlanes.geo_is_ok 13) as (n & h & Hn & _ & E & _); [lia|].
  exists n, h. split; [exact Hn|exact E].
Defined.

Lemma oob_planes_roundtrip_witness :
  exists status s', nand_write_oob_std_planes SimPlanes.geo (HC := SimPlanes.sim_chip) SimPlanes.blank_spare 5
      (replicate 16 1 ++ replicate 16 2) = Some (status, s') /\
    (nand_read_oob_std_planes SimPlanes.geo (HC := SimPlanes.sim_chip) s' 5 true).1 = replicate 16 1 ++ replicate 16 2.
Proof.
  destruct (oob_planes_roundtrip SimPlanes.geo (HC := SimPlanes.sim_chip) (HL := SimPlanes.sim_laws)
    SimPlanes.geo_is_ok SimPlanes.blank_spare 5 (replicate 16 1 ++ replicate 16 2) SimPlanes.sevens SimPlanes.sevens)
    as (st & s' & H1 & H2 & _).
  - apply Forall_app_2; apply Forall_replicate; unfold digit; lia.
  - reflexivity.
  - reflexivity.
  - reflexivity.
  - reflexivity.
  - reflexivity.
  - exists st, s'. split; [exact H1|exact H2].
Defined.
