(* ===== verification/Nandfix.v ===== *)
(** * OOB fix-up of a NAND dump (nandfix/nandfix.c)

    The tool rewrites the spare area of every programmed page of a dump of the
    boot block: Linux keeps the parity bytes at offset 28, the boot ROM and the
    boot loader expect them at offset 6.  The last theorem ties it to both: what
    the read function of Linux (NandPlanes.v) returns for a page of the dump is
    what the loader (NandSpl.v) returns for the page after the fix. *)

From S2P Require Import Prelude RsEcc NandPlanes NandSpl.

#[local] Arguments Z.eqb : simpl never.

(** ** The program *)

Definition DATA : nat := 2048.
Definition OOB : nat := 64.
Definition PAGE : nat := 2112.
Definition PAGES : nat := 128.

(** Characters the program prints per page: '-', 'B', 'F'. *)
Inductive mark := Erased | Bad | Fixed.

(** [memmove(oob + 6, oob + 28, 36)], the fill up to 64, and bytes 2 to 5. *)
Definition fix_oob (oob : list Z) : list Z :=
  let moved := take 6 oob ++ take 36 (drop 28 oob) ++ drop 42 oob in
  let filled := take 42 moved ++ replicate (OOB - 6 - 36) 255 in
  <[5%nat := 255]> (<[4%nat := 0]> (<[3%nat := 0]> (<[2%nat := 0]> filled))).

Definition all_ff (l : list Z) : bool := forallb (Z.eqb 255) l.

(** One page of the loop: the page as it is in the file afterwards. *)
Definition fix_page (page : list Z) : mark * list Z :=
  let data := take DATA page in
  let oob := drop DATA page in
  if all_ff data && all_ff oob then (Erased, page)
  else
    let oob' := fix_oob oob in
    let bad := negb (nth 0 oob' 0 =? 255) || negb (nth 1 oob' 0 =? 255) in
    (if bad then Bad else Fixed, data ++ oob').

(** How the run ends. *)
Inductive exit_status := Usage | CannotOpen | BadSize | CannotRead | CannotWrite | Done.

(** The loop from page [i] on; [io i] says whether [fread] and [fwrite]
    succeed for page [i].  The result has the marks printed and the file. *)
Fixpoint fix_loop (n : nat) (i : nat) (io : nat -> bool * bool) (file : list Z)
  : exit_status * list mark * list Z :=
  match n with
  | O => (Done, [], file)
  | S n' =>
      let pos := (i * PAGE)%nat in
      if negb (io i).1 then (CannotRead, [], file)
      else
        let '(mk, page) := fix_page (take PAGE (drop pos file)) in
        match mk with
        | Erased =>
            let '(st, out, file') := fix_loop n' (S i) io file in (st, mk :: out, file')
        | _ =>
            if negb (io i).2 then (CannotWrite, [], file)
            else
              let file1 := take (pos + DATA) file ++ drop DATA page ++ drop (pos + PAGE) file in
              let '(st, out, file') := fix_loop n' (S i) io file1 in (st, mk :: out, file')
        end
  end.

Definition main (argc : Z) (io : nat -> bool * bool) (file : option (list Z))
  : exit_status * list mark * option (list Z) :=
  if argc <? 2 then (Usage, [], file)
  else match file with
       | None => (CannotOpen, [], None)
       | Some f =>
           if negb (Nat.eqb (length f) (PAGES * PAGE)) then (BadSize, [], Some f)
           else let '(st, out, f') := fix_loop PAGES 0 io f in (st, out, Some f')
       end.

(** ** Pages *)

Definition page_of (i : nat) (file : list Z) : list Z := take PAGE (drop (i * PAGE) file).

Lemma fix_page_length page : length page = PAGE -> length (fix_page page).2 = PAGE.
Proof.
  intros Hlen. unfold fix_page. case_match; [done|]. simpl. unfold fix_oob.
  repeat (rewrite length_app || rewrite length_insert || rewrite length_take ||
          rewrite length_drop || rewrite length_replicate). rewrite Hlen. done.
Qed.

(** The data of a page is never changed. *)
Lemma fix_page_data page : length page = PAGE -> take DATA (fix_page page).2 = take DATA page.
Proof.
  intros Hlen. unfold fix_page. case_match; [done|]. simpl.
  rewrite take_app_le, take_take; [done|]. rewrite length_take, Hlen. done.
Qed.

(** Replacing the spare area of page [i] replaces page [i] and no other. *)
Lemma splice_page (i j : nat) (page file : list Z) :
  (i < PAGES)%nat -> (j < PAGES)%nat -> length file = (PAGES * PAGE)%nat ->
  length page = PAGE -> take DATA page = take DATA (page_of i file) ->
  let file1 := take (i * PAGE + DATA) file ++ drop DATA page ++ drop (i * PAGE + PAGE) file in
  length file1 = (PAGES * PAGE)%nat /\
  page_of j file1 = if decide (j = i) then page else page_of j file.
Proof.
  intros Hi Hj Hlen Hpage Hdata file1. unfold page_of, PAGE, PAGES, DATA in *.
  assert (file1 = take (i * 2112) file ++ page ++ drop (i * 2112 + 2112) file) as Heq.
  { unfold file1. rewrite take_take, Nat.min_l in Hdata by lia.
    assert (take (i * 2112 + 2048) file = take (i * 2112) file ++ take 2048 page) as ->.
    { rewrite Hdata, <- (take_drop (i * 2112) (take (i * 2112 + 2048) file)).
      rewrite take_take, Nat.min_l, skipn_firstn_comm by lia. do 2 f_equal. lia. }
    rewrite <- !app_assoc. f_equal. by rewrite app_assoc, take_drop. }
  assert (length (take (i * 2112) file) = (i * 2112)%nat) as Hl1 by (rewrite length_take; lia).
  split.
  { rewrite Heq, !length_app, Hl1, length_drop, Hpage. lia. }
  rewrite Heq. case_decide as Hij.
  - subst j. rewrite drop_app_length' by done. rewrite take_app_length' by done. done.
  - destruct (Nat.lt_ge_cases j i) as [Hlt|Hge].
    + rewrite drop_app_le by lia. rewrite take_app_le by (rewrite length_drop; lia).
      rewrite skipn_firstn_comm, take_take, Nat.min_l by lia. done.
    + rewrite drop_app_ge, Hl1 by lia. rewrite drop_app_ge, Hpage by lia.
      rewrite drop_drop. do 2 f_equal. lia.
Qed.

Definition io_ok (io : nat -> bool * bool) : Prop := forall i, (i < PAGES)%nat -> io i = (true, true).

Lemma fix_page_erased page : (fix_page page).1 = Erased -> (fix_page page).2 = page.
Proof. unfold fix_page. by repeat case_match. Qed.

Lemma fix_loop_spec n i io file :
  io_ok io -> (i + n = PAGES)%nat -> length file = (PAGES * PAGE)%nat ->
  exists file', fix_loop n i io file =
    (Done, (fun j => (fix_page (page_of j file)).1) <$> seq i n, file') /\
    length file' = (PAGES * PAGE)%nat /\
    forall j, (j < PAGES)%nat ->
      page_of j file' = if decide (i <= j)%nat then (fix_page (page_of j file)).2 else page_of j file.
Proof.
  intros Hio. revert i file. induction n as [|n IH]; intros i file Hn Hlen; cbn [fix_loop].
  { exists file. split; [done|]. split; [done|]. intros j Hj. by rewrite decide_False by lia. }
  rewrite Hio by lia. cbn [fst snd negb]. fold (page_of i file).
  assert (length (page_of i file) = PAGE) as Hpl.
  { unfold page_of, PAGE, PAGES in *. rewrite length_take, length_drop, Hlen. lia. }
  pose proof (fix_page_length _ Hpl) as Hfl. pose proof (fix_page_data _ Hpl) as Hfd.
  pose proof (fix_page_erased (page_of i file)) as Her.
  destruct (fix_page (page_of i file)) as [mk page] eqn:Hfix. cbn [fst snd] in *.
  assert (exists file1, length file1 = (PAGES * PAGE)%nat /\
    (forall j, (j < PAGES)%nat -> page_of j file1 = if decide (j = i) then page else page_of j file) /\
    forall k,
    (match mk with
     | Erased => let '(st, out, file') := fix_loop n (S i) io file in (st, mk :: out, file')
     | _ => let '(st, out, file') := fix_loop n (S i) io
              (take (i * PAGE + DATA) file ++ drop DATA page ++ drop (i * PAGE + PAGE) file) in
            (st, mk :: out, file')
     end) = k -> (let '(st, out, file') := fix_loop n (S i) io file1 in (st, mk :: out, file')) = k)
    as (file1 & Hl1 & Hp1 & Hk).
  { set (spliced := take (i * PAGE + DATA) file ++ drop DATA page ++ drop (i * PAGE + PAGE) file).
    exists (match mk with Erased => file | _ => spliced end).
    assert (forall j, (j < PAGES)%nat -> length spliced = (PAGES * PAGE)%nat /\
      page_of j spliced = if decide (j = i) then page else page_of j file) as Hsp
      by (intros j Hj; apply splice_page; (done || lia)).
    assert (i < PAGES)%nat as Hi by lia.
    destruct mk; [|split; [by apply (Hsp i)|]; split; [|done]; intros j Hj; by apply Hsp..].
    split; [done|]. split; [|done]. intros j Hj. case_decide; [|done]. subst. by rewrite Her. }
  destruct (IH (S i) file1) as (file' & Hrun & Hl' & Hp'); [lia|done|].
  exists file'. split; [|split; [done|]].
  - assert ((fun j => (fix_page (page_of j file1)).1) <$> seq (S i) n =
            (fun j => (fix_page (page_of j file)).1) <$> seq (S i) n) as Hmarks.
    { apply list_fmap_ext. intros k j [-> Hj]%lookup_seq. rewrite Hp1, decide_False by lia. done. }
    rewrite <- (Hk _ eq_refl), Hrun, Hmarks. rewrite <- cons_seq. cbn [fmap list_fmap].
    rewrite Hfix. reflexivity.
  - intros j Hj. rewrite Hp', Hp1 by lia. destruct (decide (j = i)) as [->|Hne].
    + rewrite decide_False, decide_True by lia. by rewrite Hfix.
    + repeat case_decide; (done || lia).
Qed.

(** The run of the tool.  On a dump of the right size and with working
    I/O it succeeds, keeps the size, and changes every page to its fixed form:
    erased pages and all data areas stay as they are. *)
Theorem nandfix_run (argc : Z) (io : nat -> bool * bool) (f : list Z) :
  2 <= argc -> io_ok io -> length f = (PAGES * PAGE)%nat ->
  exists f', main argc io (Some f) =
      (Done, (fun j => (fix_page (page_of j f)).1) <$> seq 0 PAGES, Some f') /\
    length f' = length f /\
    forall j, (j < PAGES)%nat -> page_of j f' = (fix_page (page_of j f)).2 /\
      take DATA (page_of j f') = take DATA (page_of j f) /\
      (all_ff (page_of j f) = true -> page_of j f' = page_of j f).
Proof.
  intros Ha Hio Hlen. unfold main. rewrite (proj2 (Z.ltb_ge _ _)) by lia.
  rewrite (proj2 (Nat.eqb_eq _ _) Hlen). cbn [negb].
  destruct (fix_loop_spec PAGES 0 io f Hio eq_refl Hlen) as (f' & -> & Hl' & Hp').
  exists f'. split; [done|]. split; [congruence|]. intros j Hj.
  specialize (Hp' j Hj). rewrite decide_True in Hp' by lia. split; [done|]. rewrite Hp'.
  assert (length (page_of j f) = PAGE) as Hpl.
  { unfold page_of, PAGE, PAGES in *. rewrite length_take, length_drop, Hlen. lia. }
  split; [by apply fix_page_data|]. intros Hff. unfold fix_page.
  assert (all_ff (take DATA (page_of j f)) && all_ff (drop DATA (page_of j f)) = true) as ->; [|done].
  unfold all_ff in *. by rewrite <- forallb_app, take_drop.
Qed.

(** ** The fixed page and the boot loader *)

(** The MTD structure of the boot partition: pages of 2048 bytes with 64 spare
    ones, parity as in [nand_oob_64]; and the same chip for the functions that
    use two planes, with double pages. *)
Definition boot_mtd : geometry := Geo 2048 64 262144 512 4 36 (seqZ 28 36) 1 30 11.
Definition boot_chip : geometry := Geo 4096 128 524288 512 8 72 (seqZ 28 36) 2 30 12.

Lemma gather_range oob n a :
  (a + n <= length oob)%nat -> gather_code oob (seqZ (Z.of_nat a) (Z.of_nat n)) n = Some (take n (drop a oob)).
Proof.
  revert a. induction n as [|n IH]; intros a Hl; [done|]. rewrite seqZ_cons by lia. cbn [gather_code].
  destruct (lookup_lt_is_Some_2 oob a) as [x Hx]; [lia|].
  rewrite (proj2 (rd_Some oob (Z.of_nat a) x)) by (split; [lia|by rewrite Nat2Z.id]). cbn [mbind option_bind].
  replace (Z.succ (Z.of_nat a)) with (Z.of_nat (S a)) by lia. replace (Z.pred (Z.of_nat (S n))) with (Z.of_nat n) by lia.
  rewrite IH by lia. cbn [mbind option_bind]. by rewrite (drop_S _ x a).
Qed.

Lemma boot_chip_ok : geometry_ok boot_chip.
Proof.
  split; try reflexivity; try (vm_compute; congruence).
  - change (half_oob boot_chip) with 64. unfold code_pos. apply Forall_take, Forall_forall. intros x Hx%elem_of_seqZ. lia.
  - unfold code_pos. change (eccpos boot_chip) with (seqZ 28 36). rewrite take_ge by (rewrite length_seqZ; vm_compute; lia).
    apply NoDup_seqZ.
Qed.

Section Loader.
Context `{RsEngine}.

(** The page as Linux writes it: parity of block [i] at [28 + 9 * i]. *)
Definition linux_page (raw d : list Z) : Prop :=
  length raw = PAGE /\ length d = DATA /\ Forall (digit 8) d /\
  forall i, (i < 4)%nat -> exists errs, errors_ok errs /\
    damaged (chunk i d) errs (chunk i raw) (take 9 (drop (28 + 9 * i) (drop DATA raw))).

Lemma fix_oob_parity oob i :
  length oob = OOB -> (i < 4)%nat ->
  take 9 (drop (6 + 9 * i) (fix_oob oob)) = take 9 (drop (28 + 9 * i) oob).
Proof.
  intros Hlen Hi. unfold fix_oob. rewrite !drop_insert_lt by lia.
  assert (length (take 6 oob) = 6%nat) as H6 by (rewrite length_take; unfold OOB in Hlen; lia).
  assert (length (take 36 (drop 28 oob)) = 36%nat) as H36
    by (rewrite length_take, length_drop; unfold OOB in Hlen; lia).
  rewrite (app_assoc (take 6 oob)), take_app_length' by (rewrite length_app; lia).
  rewrite <- app_assoc, drop_app_ge, H6 by lia.
  replace (6 + 9 * i - 6)%nat with (9 * i)%nat by lia.
  rewrite drop_app_le, take_app_le by (rewrite ?length_drop; lia).
  rewrite skipn_firstn_comm, take_take, Nat.min_l, drop_drop by lia. done.
Qed.

Lemma chunk_data i l1 l2 :
  (i < 4)%nat -> take DATA l1 = take DATA l2 -> chunk i l1 = chunk i l2.
Proof.
  intros Hi Heq. unfold chunk, DATA in *.
  assert (forall l : list Z, take 512 (drop (512 * i) l) = take 512 (drop (512 * i) (take 2048 l))) as Ht.
  { intros l. rewrite skipn_firstn_comm, take_take, Nat.min_l by lia. done. }
  by rewrite Ht, (Ht l2), Heq.
Qed.

Lemma fixed_page_holds (raw d : list Z) :
  linux_page raw d -> all_ff raw = false -> holds_page false (fix_page raw).2 d.
Proof.
  intros (Hlen & Hd & Hdig & Hblk) Hff. split; [done|]. split; [done|].
  intros i Hi. destruct (Hblk i Hi) as (errs & He & Hdam). exists errs. split; [done|].
  rewrite (chunk_data i _ raw Hi (fix_page_data raw Hlen)).
  replace (Z.to_nat (par_pos false (Z.of_nat i))) with (6 + 9 * i)%nat
    by (unfold par_pos, CFG_NAND_ECC_POS, NandSpl.PAR_SIZE; lia).
  assert (drop 2048 (fix_page raw).2 = fix_oob (drop DATA raw)) as ->.
  { unfold fix_page.
    assert (all_ff (take DATA raw) && all_ff (drop DATA raw) = false) as ->.
    { unfold all_ff in *. by rewrite <- forallb_app, take_drop. }
    simpl. rewrite drop_app_length'; [done|]. rewrite length_take, Hlen. done. }
  rewrite fix_oob_parity; [done| |done]. rewrite length_drop, Hlen. done.
Qed.

(** Parity bytes that were written: Linux uses them only if one is not 0xff. *)
Definition parity_written (raw : list Z) : bool :=
  existsb (fun x => negb (x =? 255)) (take 36 (drop 28 (drop DATA raw))).

Lemma parity_written_ff raw : length raw = PAGE -> parity_written raw = true -> all_ff raw = false.
Proof.
  intros Hl (x & Hx & Hn)%existsb_exists. apply not_true_is_false. intros Hff. unfold all_ff in Hff.
  rewrite forallb_forall in Hff. assert (255 = x) as <-; [|by rewrite Z.eqb_refl in Hn].
  apply Z.eqb_eq, Hff, list_elem_of_In. apply list_elem_of_In in Hx.
  eapply subseteq_drop, subseteq_drop, subseteq_take, Hx.
Qed.

Lemma linux_page_holds raw d :
  linux_page raw d -> parity_written raw = true -> holds boot_chip raw d.
Proof.
  intros (Hl & Hd & Hdig & Hblk) Hw. exists (take 36 (drop 28 (drop DATA raw))).
  change (Z.to_nat (half_oob boot_chip)) with 64%nat. change (Z.to_nat (half_page boot_chip)) with DATA.
  change (Z.to_nat (half_steps boot_chip)) with 4%nat. unfold PAGE, DATA in *.
  rewrite (take_ge (drop 2048 raw)) by (rewrite length_drop; lia). split.
  - apply (gather_range (drop 2048 raw) 36 28). rewrite length_drop. lia.
  - split; [done|]. split; [done|]. unfold parity_written, DATA in Hw. unfold used. rewrite Hw. intros i Hi.
    destruct (Hblk i Hi) as (errs & He & Hdam). exists errs. split; [done|].
    rewrite skipn_firstn_comm, take_take, Nat.min_l, drop_drop by lia.
    replace (9 * i + 28)%nat with (28 + 9 * i)%nat by lia. done.
Qed.

Context {HE : RsEngineLaws} {bus : Type} {HB : NandBus bus} {HBL : NandBusLaws bus}.
Context {chip : Type} {HC : PlaneChip chip} {HCL : PlaneChipLaws boot_chip chip}.

(** C15: the fixed dump boots.  Take a page with written parity at offset 28 (not
    all 0xff) and at most four bad symbols per block.  Linux reads its data from
    it with [nand_read_page_hwecc_rs], counting no failure; and from a chip that
    has the page as [fix_page] leaves it, the boot loader's [nand_read_page] reads
    the same data. *)
Theorem fixed_page_loads (raw d : list Z) :
  linux_page raw d -> parity_written raw = true ->
  (forall (s : chip) q, cells s q = raw ->
     exists s', nand_read_page_hwecc_rs boot_mtd s q = Some (d, drop DATA raw, 0, s')) /\
  (forall (b : bus) p, chip_ok b -> 0 <= p < 2 ^ 24 -> page_bytes b p = (fix_page raw).2 ->
     exists b', nand_read_page false b p = Some (d, b')).
Proof.
  intros Hp Hw. pose proof Hp as (Hl & _). split.
  - intros s q Hq. change (nand_read_page_hwecc_rs boot_mtd s q) with (read_plane boot_chip s q).
    pose proof (linux_page_holds raw d Hp Hw) as Hh. rewrite <- Hq in Hh.
    destruct (read_plane_spec boot_chip boot_chip_ok s q d Hh) as (s' & -> & _). exists s'. rewrite Hq.
    change (Z.to_nat (half_oob boot_chip)) with 64%nat. change (Z.to_nat (half_page boot_chip)) with DATA.
    by rewrite (take_ge (drop DATA raw)) by (rewrite length_drop; unfold PAGE, DATA in *; lia).
  - intros b p Hok Hr Hb.
    pose proof (fixed_page_holds raw d Hp (parity_written_ff raw Hl Hw)) as Hh. rewrite <- Hb in Hh.
    destruct (nand_read_page_spec false b p d Hok Hr Hh) as (b' & E & _). by exists b'.
Qed.

End Loader.

(** ** A concrete dump *)

(** One page of sevens with a bad first bit, as Linux writes it. *)
Definition sample_page : list Z :=
  6 :: replicate 2047 7 ++ replicate 28 255 ++
  PackedEngine.to_bytes 9 (PackedEngine.pack [(1, 1)]) ++ replicate 27 0.

Definition sample_dump : list Z := sample_page ++ replicate (127 * 2112) 255.

Lemma nandfix_run_witness :
  exists f', main 2 (fun _ => (true, true)) (Some sample_dump) =
      (Done, (fun j => (fix_page (page_of j sample_dump)).1) <$> seq 0 PAGES, Some f') /\
    length f' = length sample_dump /\
    forall j, (j < PAGES)%nat -> page_of j f' = (fix_page (page_of j sample_dump)).2 /\
      take DATA (page_of j f') = take DATA (page_of j sample_dump) /\
      (all_ff (page_of j sample_dump) = true -> page_of j f' = page_of j sample_dump).
Proof.
  apply (nandfix_run 2 (fun _ => (true, true)) sample_dump).
  - lia.
  - intros i _. reflexivity.
  - unfold sample_dump. rewrite length_app, length_replicate. change (length sample_page) with 2112%nat.
    unfold PAGES, PAGE. lia.
Defined.

Lemma fixed_page_loads_witness :
  (exists s', nand_read_page_hwecc_rs boot_mtd (HC := SimPlanes.sim_of boot_chip)
     (SimPlanes.Sim Idle (fun _ => sample_page)) 5 = Some (replicate 2048 7, drop 2048 sample_page, 0, s')) /\
  (exists b', nand_read_page false (SimChip.Chip (fun _ => (fix_page sample_page).2) [] 0 0) 3 =
     Some (replicate 2048 7, b')).
Proof.
  destruct (fixed_page_loads (HC := SimPlanes.sim_of boot_chip) (HCL := SimPlanes.sim_of_laws boot_chip)
    (bus := SimChip.chip) sample_page (replicate 2048 7)) as [HL HB].
  - split; [vm_compute; reflexivity|]. split; [reflexivity|].
    split; [apply Forall_replicate; unfold digit; lia|].
    intros i Hi. destruct (SimChip.raw_holds 255) as (_ & _ & Hraw).
    destruct (Hraw i Hi) as (errs & He & Hdam). exists errs. split; [exact He|].
    destruct i as [|[|[|[|i]]]]; [exact Hdam| exact Hdam|exact Hdam|exact Hdam|lia].
  - vm_compute. reflexivity.
  - split.
    + apply (HL (SimPlanes.Sim Idle (fun _ => sample_page)) 5). reflexivity.
    + apply (HB (SimChip.Chip (fun _ => (fix_page sample_page).2) [] 0 0) 3); [|lia|reflexivity].
      intros p. vm_compute. reflexivity.
Defined.
