(* ===== verification/I2c.v ===== *)
(** * The I2C bus driver

    [drivers/i2c/busses/i2c-jz47xx.c]: the transfer of one byte in either
    direction with its bounded polling ([i2c_put_data], [i2c_get_data]), reading
    and writing a buffer with retries ([xfer_read], [xfer_write]) and the
    adapter's entry point [i2c_jz_xfer].

    The driver's own state is [sub_addr] and [addr_val].  What it does to the
    controller is recorded as a history of events; the device on the bus is any
    function of that history: after how many polls a byte is acknowledged
    ([ack_delay]), after how many polls a byte has arrived ([data_delay]) and
    which one ([rx]).  The two waits of [i2c_put_data] without a limit (until
    the controller has taken and sent the byte) end as soon as the controller
    is done with the byte and leave no trace. *)

From S2P Require Import Prelude.

#[local] Arguments Z.eqb : simpl never.
#[local] Arguments Z.ltb : simpl never.
#[local] Arguments Z.land : simpl never.
#[local] Arguments Z.lor : simpl never.
#[local] Arguments Z.add : simpl never.
#[local] Arguments Z.sub : simpl never.
#[local] Arguments Z.mul : simpl never.
#[local] Arguments Z.modulo : simpl never.
#[local] Arguments Z.div : simpl never.
#[local] Arguments Z.of_nat : simpl never.
#[local] Arguments Z.shiftl : simpl never.
#[local] Arguments Z.shiftr : simpl never.

Definition I2C_READ : Z := 1.
Definition I2C_WRITE : Z := 0.
Definition TIMEOUT : Z := 1000.
Definition ETIMEDOUT : Z := 145.
Definition ENODEV : Z := 19.
Definition I2C_M_RD : Z := 1.

(** What the driver does to the controller, in order: setting the start and
    stop bits, choosing whether the master acknowledges, sending a byte and
    taking one in. *)
Inductive event :=
  | Start
  | Stop
  | Ack
  | Nack
  | Put (b : Z)
  | Get (b : Z).

Record i2c := I2c {
  sub_addr : Z;
  addr_val : Z;
  hist : list event }.

Definition log (e : event) (s : i2c) : i2c := I2c (sub_addr s) (addr_val s) (hist s ++ [e]).
Definition set_sub (x : Z) (s : i2c) : i2c := I2c x (addr_val s) (hist s).
Definition set_val (x : Z) (s : i2c) : i2c := I2c (sub_addr s) x (hist s).

(** [while (!ready && timeout) timeout--;] where the first [k] polls fail: the
    timeout that is left. *)
Fixpoint poll (k timeout : nat) : nat :=
  match k, timeout with
  | O, _ => timeout
  | S _, O => O
  | S k, S timeout => poll k timeout
  end.

(** A message; [buf] may be null. *)
Record i2c_msg := Msg {
  addr : Z;
  flags : Z;
  len : Z;
  buf : option (list Z) }.

Section Driver.
Context (ack_delay data_delay : list event -> nat) (rx : list event -> Z).

(** ** One byte *)

Definition i2c_put_data (data : Z) (s : i2c) : Z * i2c :=
  let s := log (Put (u8 data)) s in
  let timeout := poll (ack_delay (hist s)) (Z.to_nat (TIMEOUT * 10)) in
  (if negb (timeout =? 0)%nat then 0 else - ETIMEDOUT, s).

(** The byte stored through [data], if any, and the result. *)
Definition i2c_get_data (ack : bool) (s : i2c) : option Z * Z * i2c :=
  let s := log (if ack then Ack else Nack) s in
  let timeout := poll (data_delay (hist s)) (Z.to_nat (TIMEOUT * 10)) in
  if negb (timeout =? 0)%nat then
    let s := if ack then s else log Stop s in
    let b := rx (hist s) in
    (Some b, 0, log (Get b) s)
  else (None, - ETIMEDOUT, s).

(** [device = (0xa << 3) | ((sub_addr & 0x0700) >> 8); sub_addr &= 0xff] *)
Definition device_of (s : i2c) : Z :=
  Z.lor (Z.shiftl 10 3) (Z.shiftr (Z.land (sub_addr s) 1792) 8).

Definition cut_sub (s : i2c) : i2c := set_sub (Z.land (sub_addr s) 255) s.

Definition put_device (device rw : Z) (s : i2c) : Z * i2c :=
  i2c_put_data (Z.lor (Z.shiftl device 1) rw) s.

(** ** Writing *)

(** From [start_write_page] to the loop; [true] if it gets there. *)
Definition start_write_page (device : Z) (s : i2c) : bool * i2c :=
  let s := log Start s in
  let '(r, s) := put_device device I2C_WRITE s in
  if r <? 0 then (false, s)
  else if negb (addr_val s =? 0) then
    let '(r, s) := i2c_put_data (sub_addr s) s in
    (negb (r <? 0), s)
  else (true, s).

(** [while (cnt)]: the count at its end, or [None] when the start of a later
    page went to [device_err] or [address_err].  [rest] is what [tmpbuf] points
    to; a new page starts with the byte at hand. *)
Fixpoint write_bytes (device : Z) (rest : list Z) (cnt_in_pg : Z) (s : i2c) : option nat * i2c :=
  match rest with
  | [] => (Some O, s)
  | b :: rest' =>
      let cnt_in_pg := cnt_in_pg + 1 in
      let '(ok, cnt_in_pg, s) :=
        if 8 <? cnt_in_pg then
          let s := log Stop s in
          let s := set_sub (u16 (sub_addr s + 8)) s in
          let '(ok, s) := start_write_page device s in
          (ok, 1, s)
        else (true, cnt_in_pg, s) in
      if (ok : bool) then
        let '(r, s) := i2c_put_data b s in
        if r <? 0 then (Some (length rest), s)
        else write_bytes device rest' cnt_in_pg s
      else (None, s)
  end.

(** From [W_try_again]; [tries] is [timeout + 1]. *)
Fixpoint write_try (tries : nat) (device : Z) (data : list Z) (s : i2c) : Z * i2c :=
  match tries with
  | O => (- ENODEV, log Stop s)
  | S tries' =>
      let '(ok, s) := start_write_page device s in
      let '(r, s) := if (ok : bool) then write_bytes device data 0 s else (None, s) in
      match r with
      | Some cnt => (Z.of_nat (length data) - Z.of_nat cnt, set_val 0 (log Stop s))
      | None => write_try tries' device data (log Stop s)
      end
  end.

Definition xfer_write (data : list Z) (s : i2c) : Z * i2c :=
  let device := device_of s in
  write_try 6 device data (log Nack (cut_sub s)).

(** ** Reading *)

(** Up to the loop; [true] if it gets there. *)
Definition start_read (device : Z) (s : i2c) : bool * i2c :=
  let s := log Nack s in
  let '(ok, s) :=
    if negb (addr_val s =? 0) then
      let s := log Start s in
      let '(r, s) := put_device device I2C_WRITE s in
      if r <? 0 then (false, s)
      else
        let '(r, s) := i2c_put_data (sub_addr s) s in
        (negb (r <? 0), s)
    else (true, s) in
  if (ok : bool) then
    let s := log Start s in
    let '(r, s) := put_device device I2C_READ s in
    if r <? 0 then (false, s) else (true, log Start (log Ack s))
  else (false, s).

(** [while (cnt)]: the bytes stored. *)
Fixpoint read_bytes (cnt : nat) (s : i2c) : list Z * i2c :=
  match cnt with
  | O => ([], s)
  | S cnt' =>
      let '(b, r, s) := i2c_get_data (negb (cnt =? 1)%nat) s in
      match b with
      | Some b =>
          if r <? 0 then ([], s)
          else let '(bs, s) := read_bytes cnt' s in (b :: bs, s)
      | None => ([], s)
      end
  end.

(** From [L_try_again]: the result and the bytes stored. *)
Fixpoint read_try (tries : nat) (device : Z) (length_ : nat) (s : i2c) : Z * list Z * i2c :=
  match tries with
  | O => (- ENODEV, [], log Stop s)
  | S tries' =>
      let '(ok, s) := start_read device s in
      if (ok : bool) then
        let '(bs, s) := read_bytes length_ s in
        (Z.of_nat (length bs), bs, set_val 0 s)
      else read_try tries' device length_ (log Stop s)
  end.

Definition xfer_read (length_ : nat) (s : i2c) : Z * list Z * i2c :=
  let device := device_of s in
  read_try 6 device length_ (cut_sub s).

(** ** The entry point *)

(** The [while] loop over the messages; [i] is the number done.  A buffer
    shorter than [len] is overrun: [None]. *)
Fixpoint xfer_loop (i : Z) (pmsg : list i2c_msg) (s : i2c) : option (Z * list i2c_msg * i2c) :=
  match pmsg with
  | [] => Some (i, [], s)
  | m :: pmsg' =>
      '(ret, m, s) ←
        match buf m with
        | Some b =>
            if negb (len m =? 0) then
              if Z.of_nat (length b) <? len m then None
              else if negb (Z.land (flags m) I2C_M_RD =? 0) then
                let '(ret, bs, s) := xfer_read (Z.to_nat (len m)) s in
                Some (ret, Msg (addr m) (flags m) (len m) (Some (bs ++ drop (length bs) b)), s)
              else
                let '(ret, s) := xfer_write (take (Z.to_nat (len m)) b) s in
                Some (ret, m, s)
            else Some (0, m, s)
        | None => Some (0, m, s)
        end;
      if negb (ret =? 0) then Some (ret, m :: pmsg', s)
      else
        '(r, ms, s) ← xfer_loop (i + 1) pmsg' s;
        Some (r, m :: ms, s)
  end.

Definition i2c_jz_xfer (pmsg : list i2c_msg) (s : i2c) : option (Z * list i2c_msg * i2c) :=
  xfer_loop 0 pmsg s.

(** ** Traces *)

Lemma poll_sub k t : poll k t = (t - k)%nat.
Proof. revert t; induction k as [|k IH]; intros [|t]; cbn; try rewrite IH; lia. Qed.

(** The device acknowledges within the limit. *)
Definition accepted (h : list event) : bool := Z.of_nat (ack_delay h) <? 10000.

Lemma put_data_spec b s :
  i2c_put_data b s =
  (if accepted (hist s ++ [Put (u8 b)]) then 0 else - ETIMEDOUT, log (Put (u8 b)) s).
Proof.
  unfold i2c_put_data, accepted, TIMEOUT. rewrite poll_sub. cbn [hist log].
  destruct (Z.ltb_spec (Z.of_nat (ack_delay (hist s ++ [Put (u8 b)]))) 10000) as [H|H];
    destruct (Nat.eqb_spec (Z.to_nat (1000 * 10) - ack_delay (hist s ++ [Put (u8 b)])) 0);
    try reflexivity; lia.
Qed.

(** The byte that addresses the device. *)
Definition dev_byte (device rw : Z) : Z := u8 (Z.lor (Z.shiftl device 1) rw).

(** The start of a page. *)
Definition page_head (device av sub : Z) : list event :=
  Start :: Put (dev_byte device I2C_WRITE) :: (if negb (av =? 0) then [Put (u8 sub)] else []).

(** Bytes written from position [pg] of the page at [sub] on. *)
Fixpoint page_trace (device av sub pg : Z) (bs : list Z) : list event :=
  match bs with
  | [] => []
  | b :: bs =>
      if 8 <? pg + 1 then
        Stop :: page_head device av (u16 (sub + 8)) ++
        Put (u8 b) :: page_trace device av (u16 (sub + 8)) 1 bs
      else Put (u8 b) :: page_trace device av sub (pg + 1) bs
  end.

Ltac by_trace := cbn [hist sub_addr addr_val log set_sub set_val];
  repeat rewrite <- app_assoc; cbn [app]; try reflexivity; try congruence.

Lemma start_write_page_spec device s ok s' :
  start_write_page device s = (ok, s') ->
  sub_addr s' = sub_addr s /\ addr_val s' = addr_val s /\
  (if ok then hist s' = hist s ++ page_head device (addr_val s) (sub_addr s)
   else exists tr, hist s' = hist s ++ tr).
Proof.
  unfold start_write_page, put_device, page_head. rewrite put_data_spec.
  destruct (accepted _); [|intros [= <- <-]; split_and!; [by_trace..|eexists; by_trace]].
  change (0 <? 0) with false. cbv iota. cbn [addr_val log sub_addr].
  destruct (negb (addr_val s =? 0)) eqn:Ha; [|by intros [= <- <-]; split_and!; by_trace].
  rewrite put_data_spec. destruct (accepted _); intros [= <- <-]; split_and!; try by_trace.
  eexists; by_trace.
Qed.

(** The sub-address is a whole number of pages further on. *)
Definition pages_on (sub sub' : Z) : Prop := exists j, 0 <= j /\ sub' = (sub + 8 * j) mod 2 ^ 16.

Lemma pages_on_refl sub : digit 16 sub -> pages_on sub sub.
Proof. unfold digit. intros H; exists 0. rewrite Z.mod_small; lia. Qed.

Lemma pages_on_next sub sub' : pages_on (u16 (sub + 8)) sub' -> pages_on sub sub'.
Proof.
  intros (j & Hj & ->). exists (j + 1). split; [lia|]. unfold u16.
  rewrite Zplus_mod_idemp_l. f_equal. lia.
Qed.

Lemma pages_on_trans a b c : pages_on a b -> pages_on b c -> pages_on a c.
Proof.
  intros (j & Hj & ->) (k & Hk & ->). exists (j + k). split; [lia|].
  rewrite Zplus_mod_idemp_l. f_equal. lia.
Qed.

Lemma u16_digit x : digit 16 (u16 x).
Proof. unfold digit, u16. apply Z.mod_pos_bound. lia. Qed.

Lemma write_bytes_spec device rest pg s r s' :
  digit 16 (sub_addr s) -> write_bytes device rest pg s = (r, s') ->
  addr_val s' = addr_val s /\ pages_on (sub_addr s) (sub_addr s') /\
  match r with
  | Some cnt => (cnt <= length rest)%nat /\
      hist s' = hist s ++ page_trace device (addr_val s) (sub_addr s) pg
                            (take (S (length rest - cnt)) rest)
  | None => exists tr, hist s' = hist s ++ tr
  end.
Proof.
  revert pg s. induction rest as [|b rest IH]; intros pg s Hd.
  { intros [= <- <-]. split_and!; auto using pages_on_refl. by rewrite app_nil_r. }
  cbn [write_bytes].
  assert (Hput : forall s1 pg1, digit 16 (sub_addr s1) ->
    (let '(x, s2) := i2c_put_data b s1 in
     if x <? 0 then (Some (length (b :: rest)), s2) else write_bytes device rest pg1 s2) = (r, s') ->
    addr_val s' = addr_val s1 /\ pages_on (sub_addr s1) (sub_addr s') /\
    match r with
    | Some cnt => (cnt <= length (b :: rest))%nat /\
        hist s' = hist s1 ++ Put (u8 b) :: page_trace device (addr_val s1) (sub_addr s1) pg1
                              (take (length (b :: rest) - cnt) rest)
    | None => exists tr, hist s' = hist s1 ++ tr
    end).
  { intros s1 pg1 Hd1. rewrite put_data_spec. destruct (accepted _).
    - change (0 <? 0) with false. cbv iota. intros Hw.
      apply (IH pg1 (log (Put (u8 b)) s1) Hd1) in Hw as (Ha & Hs & Hr).
      split; [exact Ha|]. split; [exact Hs|]. destruct r as [cnt|].
      + destruct Hr as (Hc & Hh). split; [cbn; lia|]. rewrite Hh. cbn [length].
        replace (S (length rest) - cnt)%nat with (S (length rest - cnt)) by lia. by_trace.
      + destruct Hr as (tr & ->). eexists. by_trace.
    - change (- ETIMEDOUT <? 0) with true. cbv iota. intros [= <- <-].
      split; [done|]. split; [by apply pages_on_refl|]. split; [cbn; lia|].
      cbn [length]. rewrite Nat.sub_diag. by_trace. }
  cbn [take page_trace]. destruct (8 <? pg + 1).
  - destruct (start_write_page device (set_sub (u16 (sub_addr (log Stop s) + 8)) (log Stop s)))
      as [ok s1] eqn:Hst.
    apply start_write_page_spec in Hst as (Hs1 & Ha1 & Hh). cbn in Hs1, Ha1, Hh.
    destruct ok; [|intros [= <- <-]].
    + intros Hw. apply Hput in Hw as (Ha & Hs & Hr); [|rewrite Hs1; apply u16_digit].
      rewrite Ha, Ha1. split; [done|]. rewrite Hs1 in Hs.
      split; [by apply pages_on_next|]. destruct r as [cnt|].
      * destruct Hr as (Hc & ->). split; [done|]. rewrite Hh, Ha1, Hs1. by_trace.
      * destruct Hr as (tr & ->). rewrite Hh. eexists. by_trace.
    + split; [done|]. split; [rewrite Hs1; apply pages_on_next, pages_on_refl, u16_digit|].
      destruct Hh as (tr & ->). eexists. by_trace.
  - intros Hw. apply Hput in Hw; [|done]. exact Hw.
Qed.

(** A run that gave up, and one that ended with [n] bytes acknowledged: the
    last attempt sent the first [n] bytes and, unless that is all, the byte that
    was not acknowledged. *)
Definition gave_up (s : i2c) (ret : Z) (s' : i2c) : Prop :=
  ret = - ENODEV /\ addr_val s' = addr_val s /\ exists tr, hist s' = hist s ++ tr ++ [Stop].

Definition wrote (device : Z) (data : list Z) (s : i2c) (ret : Z) (s' : i2c) : Prop :=
  exists n sub pre, ret = Z.of_nat n /\ (n <= length data)%nat /\ addr_val s' = 0 /\
    pages_on (sub_addr s) sub /\ (pre = [] -> sub = sub_addr s) /\
    hist s' = hist s ++ pre ++ page_head device (addr_val s) sub ++
              page_trace device (addr_val s) sub 0 (take (S n) data) ++ [Stop].

(** After a failed attempt. *)
Lemma wrote_retry device data s s1 ret s' tr :
  addr_val s1 = addr_val s -> pages_on (sub_addr s) (sub_addr s1) -> hist s1 = hist s ++ tr ->
  tr <> [] -> wrote device data s1 ret s' -> wrote device data s ret s'.
Proof.
  intros Ha Hs Hh Htr (n & sub & pre & -> & Hn & Hv & Hp & Hpre & Hh').
  exists n, sub, (tr ++ pre). rewrite Ha, Hh in *. split_and!; auto.
  - by eapply pages_on_trans.
  - intros [-> _]%app_nil. done.
  - rewrite Hh'. by repeat rewrite <- app_assoc.
Qed.

Lemma gave_up_retry s s1 ret s' tr :
  addr_val s1 = addr_val s -> hist s1 = hist s ++ tr -> gave_up s1 ret s' -> gave_up s ret s'.
Proof.
  intros Ha Hh (-> & Hv & tr' & Hh'). split; [done|]. split; [congruence|].
  exists (tr ++ tr'). rewrite Hh', Hh. by repeat rewrite <- app_assoc.
Qed.

Lemma write_try_spec tries device data s ret s' :
  digit 16 (sub_addr s) -> write_try tries device data s = (ret, s') ->
  gave_up s ret s' \/ wrote device data s ret s'.
Proof.
  revert s. induction tries as [|tries IH]; intros s Hd; cbn [write_try].
  { intros [= <- <-]. left. split; [done|]. split; [done|]. exists []. by_trace. }
  destruct (start_write_page device s) as [ok s1] eqn:Hst.
  apply start_write_page_spec in Hst as (Hs1 & Ha1 & Hh1).
  assert (Hretry : forall s2 tr, addr_val s2 = addr_val s -> pages_on (sub_addr s) (sub_addr s2) ->
    hist s2 = hist s ++ tr -> write_try tries device data (log Stop s2) = (ret, s') ->
    gave_up s ret s' \/ wrote device data s ret s').
  { intros s2 tr Ha2 Hs2 Hh2 Hw. apply IH in Hw as [Hw|Hw].
    - left. eapply (gave_up_retry _ (log Stop s2) _ _ (tr ++ [Stop])); [done|..|exact Hw].
      cbn. rewrite Hh2. by rewrite <- app_assoc.
    - right. eapply (wrote_retry _ _ _ (log Stop s2) _ _ (tr ++ [Stop])); [done|done|..|exact Hw].
      + cbn. rewrite Hh2. by rewrite <- app_assoc.
      + by destruct tr.
    - destruct Hs2 as (j & _ & Hs2). cbn. rewrite Hs2. apply u16_digit. }
  destruct ok.
  - destruct (write_bytes device data 0 s1) as [r s2] eqn:Hwb.
    apply write_bytes_spec in Hwb as (Ha2 & Hs2 & Hr); [|congruence].
    rewrite Hs1 in Hs2. destruct r as [cnt|].
    + intros [= <- <-]. right. destruct Hr as (Hc & Hh2).
      exists (length data - cnt)%nat, (sub_addr s), []. split_and!; auto using pages_on_refl.
      * lia.
      * lia.
      * cbn. rewrite Hh2, Hh1, Ha1, Hs1. by repeat rewrite <- app_assoc.
    + intros Hw. destruct Hr as (tr & Hh2). eapply (Hretry s2); [congruence|done|..|exact Hw].
      rewrite Hh2, Hh1, <- app_assoc. reflexivity.
  - intros Hw. destruct Hh1 as (tr & Hh1). eapply (Hretry s1); [done|..|exact Hw]; [|exact Hh1].
    rewrite Hs1. by apply pages_on_refl.
Qed.

Lemma land_255_digit x : digit 16 (Z.land x 255).
Proof. unfold digit. change 255 with (Z.ones 8). rewrite Z.land_ones by lia.
  pose proof (Z.mod_pos_bound x (2 ^ 8)). lia. Qed.

(** Whatever the device does, a write comes to an end with the bus
    released: either all six attempts failed while a page was being started, and
    the result is [-ENODEV] and the pending sub-address flag is kept; or the
    result is the number [n] of bytes acknowledged in the last attempt, which
    sent the device address, the sub-address if one was set and the first [n]
    bytes of the buffer (and the one refused) in pages of eight.  The
    sub-address of that attempt is the caller's, modulo 256, when no attempt
    failed before it, and a multiple of eight further on otherwise. *)
Theorem xfer_write_outcome data s ret s' :
  xfer_write data s = (ret, s') ->
  exists s0, s0 = I2c (sub_addr s mod 256) (addr_val s) (hist s ++ [Nack]) /\
    (gave_up s0 ret s' \/ wrote (device_of s) data s0 ret s').
Proof.
  intros Hw. unfold xfer_write in Hw. apply write_try_spec in Hw; [|apply land_255_digit].
  eexists. split; [reflexivity|]. unfold log, cut_sub, set_sub in Hw. cbn in Hw.
  change 255 with (Z.ones 8) in Hw. rewrite Z.land_ones in Hw by lia. exact Hw.
Qed.

(** ** Reading *)

(** What the driver does before the first byte of a read. *)
Definition read_head (device av sub : Z) : list event :=
  Nack :: (if negb (av =? 0) then [Start; Put (dev_byte device I2C_WRITE); Put (u8 sub)] else []) ++
  [Start; Put (dev_byte device I2C_READ); Ack; Start].

(** Reading [cnt] bytes of which [bs] arrive: every byte but the last is
    acknowledged, and the bus is released before the last one is taken. *)
Fixpoint read_trace (cnt : nat) (bs : list Z) : list event :=
  match cnt, bs with
  | O, _ => []
  | S O, [] => [Nack]
  | S _, [] => [Ack]
  | S O, b :: _ => [Nack; Stop; Get b]
  | S cnt, b :: bs => Ack :: Get b :: read_trace cnt bs
  end.

Lemma start_read_spec device s ok s' :
  start_read device s = (ok, s') ->
  sub_addr s' = sub_addr s /\ addr_val s' = addr_val s /\
  (if ok then hist s' = hist s ++ read_head device (addr_val s) (sub_addr s)
   else exists tr, hist s' = hist s ++ tr).
Proof.
  unfold start_read, put_device, read_head. cbn [addr_val log].
  destruct (negb (addr_val s =? 0)).
  - rewrite put_data_spec. destruct (accepted _);
      [|intros [= <- <-]; split_and!; [by_trace..|eexists; by_trace]].
    change (0 <? 0) with false. cbv iota. rewrite put_data_spec. destruct (accepted _);
      [|intros [= <- <-]; split_and!; [by_trace..|eexists; by_trace]].
    change (negb (0 <? 0)) with true. cbv iota. rewrite put_data_spec.
    destruct (accepted _); intros [= <- <-]; split_and!; try by_trace. eexists; by_trace.
  - rewrite put_data_spec.
    destruct (accepted _); intros [= <- <-]; split_and!; try by_trace. eexists; by_trace.
Qed.

(** A byte arrives within the limit. *)
Definition arrives (h : list event) : bool := Z.of_nat (data_delay h) <? 10000.

Lemma get_data_spec ack s :
  i2c_get_data ack s =
  (let s1 := log (if ack then Ack else Nack) s in
   let s2 := if ack then s1 else log Stop s1 in
   if arrives (hist s1) then (Some (rx (hist s2)), 0, log (Get (rx (hist s2))) s2)
   else (None, - ETIMEDOUT, s1)).
Proof.
  unfold i2c_get_data, arrives, TIMEOUT. cbv zeta. rewrite poll_sub.
  set (h := hist _).
  destruct (Z.ltb_spec (Z.of_nat (data_delay h)) 10000) as [H|H];
    destruct (Nat.eqb_spec (Z.to_nat (1000 * 10) - data_delay h) 0); try reflexivity; lia.
Qed.

(** Every byte taken in along [tr], which follows [h], is the device's. *)
Definition from_device (h tr : list event) : Prop :=
  forall p b q, tr = p ++ Get b :: q -> b = rx (h ++ p).

Lemma from_device_quiet h tr : Forall (fun e => forall b, e <> Get b) tr -> from_device h tr.
Proof.
  intros Hq p b q ->. apply Forall_app in Hq as [_ Hq]. inversion Hq as [|? ? Hb]; subst.
  by destruct (Hb b).
Qed.

Lemma from_device_app h t1 t2 :
  from_device h t1 -> from_device (h ++ t1) t2 -> from_device h (t1 ++ t2).
Proof.
  intros H1 H2 p b q Heq. apply app_eq_app in Heq as (l & [(-> & Hl)|(-> & Hl)]).
  - destruct l as [|e l]; cbn in Hl.
    + rewrite app_nil_r in H2. specialize (H2 [] b q (eq_sym Hl)). by rewrite app_nil_r in H2.
    + injection Hl as <- ->. by eapply H1.
  - rewrite app_assoc. eapply H2. exact Hl.
Qed.

Lemma from_device_get h b : b = rx h -> from_device h [Get b].
Proof.
  intros -> p b' q Heq. destruct p as [|e p]; [|by destruct p].
  injection Heq as <- <-. by rewrite app_nil_r.
Qed.

Lemma read_bytes_spec cnt s bs s' :
  read_bytes cnt s = (bs, s') ->
  (length bs <= cnt)%nat /\ sub_addr s' = sub_addr s /\ addr_val s' = addr_val s /\
  hist s' = hist s ++ read_trace cnt bs /\ from_device (hist s) (read_trace cnt bs).
Proof.
  revert s bs. induction cnt as [|cnt IH]; intros s bs; cbn [read_bytes].
  { intros [= <- <-]. split_and!; auto. by rewrite app_nil_r. by apply from_device_quiet. }
  rewrite get_data_spec. cbv zeta. destruct cnt as [|cnt]; cbn [Nat.eqb negb].
  - destruct (arrives _); intros [= <- <-]; (split_and!; [cbn; lia|by_trace..|]).
    + cbn [read_trace]. change [Nack; Stop; ?e] with ([Nack; Stop] ++ [e]). apply from_device_app.
      * apply from_device_quiet. repeat constructor; congruence.
      * apply (from_device_get (hist s ++ [Nack; Stop])). by_trace.
    + apply from_device_quiet. repeat constructor; congruence.
  - destruct (arrives _).
    + change (0 <? 0) with false. cbv iota. destruct (read_bytes _ _) as [bs' s2] eqn:Hr.
      intros [= <- <-]. apply IH in Hr as (Hl & Hs & Ha & Hh & Hf).
      rewrite Hs, Ha, Hh. split_and!; [cbn; lia|by_trace..|]. cbn [read_trace].
      set (b := rx _) in *. change (Ack :: Get b :: ?l) with ([Ack; Get b] ++ l).
      apply from_device_app; [|cbn [hist log] in Hf; by rewrite <- app_assoc in Hf].
      change [Ack; Get b] with ([Ack] ++ [Get b]). apply from_device_app.
      * apply from_device_quiet. repeat constructor; congruence.
      * by apply from_device_get.
    + intros [= <- <-]. split_and!; [cbn; lia|by_trace..|].
      apply from_device_quiet. repeat constructor; congruence.
Qed.

(** A run that took in [bs]; the bus is released exactly when all arrived. *)
Definition read_in (device : Z) (cnt : nat) (s : i2c) (ret : Z) (bs : list Z) (s' : i2c) : Prop :=
  exists pre, ret = Z.of_nat (length bs) /\ (length bs <= cnt)%nat /\ addr_val s' = 0 /\
    hist s' = hist s ++ pre ++ read_head device (addr_val s) (sub_addr s) ++ read_trace cnt bs /\
    from_device (hist s ++ pre ++ read_head device (addr_val s) (sub_addr s)) (read_trace cnt bs).

Lemma read_try_spec tries device cnt s ret bs s' :
  read_try tries device cnt s = (ret, bs, s') ->
  (gave_up s ret s' /\ bs = []) \/ read_in device cnt s ret bs s'.
Proof.
  revert s. induction tries as [|tries IH]; intros s; cbn [read_try].
  { intros [= <- <- <-]. left. split; [|done]. split; [done|]. split; [done|]. exists []. by_trace. }
  destruct (start_read device s) as [ok s1] eqn:Hst.
  apply start_read_spec in Hst as (Hs1 & Ha1 & Hh1). destruct ok.
  - destruct (read_bytes cnt s1) as [bs1 s2] eqn:Hr. intros [= <- <- <-].
    apply read_bytes_spec in Hr as (Hl & Hs2 & Ha2 & Hh2 & Hf). right.
    exists []. rewrite Hh1 in *. split_and!; auto. cbn. rewrite Hh2. by rewrite <- app_assoc.
  - destruct Hh1 as (tr & Hh1). intros Hw.
    assert (Hh : hist (log Stop s1) = hist s ++ tr ++ [Stop]) by (cbn; by rewrite Hh1, <- app_assoc).
    apply IH in Hw as [[Hw ->]|(pre & -> & Hl & Ha & Hh' & Hf)].
    + left. split; [|done]. eapply (gave_up_retry _ (log Stop s1)); [exact Ha1|exact Hh|exact Hw].
    + right. exists ((tr ++ [Stop]) ++ pre). cbn [log sub_addr addr_val] in Hh', Hf.
      rewrite Hh, Ha1, Hs1 in Hh', Hf. split_and!; auto.
      * rewrite Hh'. by repeat rewrite <- app_assoc.
      * repeat rewrite <- app_assoc in Hf. by repeat rewrite <- app_assoc.
Qed.

(** Whatever the device does, a read comes to an end: either all six
    attempts at addressing the device failed, then nothing is stored, the bus is
    released and the result is [-ENODEV]; or the result is the number of bytes
    stored, which are the bytes the device delivered, in order, after the device
    address and the caller's sub-address (modulo 256, the same in every
    attempt), and each but the last was acknowledged. *)
Theorem xfer_read_outcome cnt s ret bs s' :
  xfer_read cnt s = (ret, bs, s') ->
  exists s0, s0 = I2c (sub_addr s mod 256) (addr_val s) (hist s) /\
    ((gave_up s0 ret s' /\ bs = []) \/ read_in (device_of s) cnt s0 ret bs s').
Proof.
  intros Hw. unfold xfer_read in Hw. apply read_try_spec in Hw.
  eexists. split; [reflexivity|]. unfold log, cut_sub, set_sub in Hw. cbn in Hw.
  change 255 with (Z.ones 8) in Hw. rewrite Z.land_ones in Hw by lia. exact Hw.
Qed.

(** ** A device that answers *)

Section Responsive.
Context (acks : forall h, accepted h = true) (sends : forall h, arrives h = true).

Lemma start_write_page_ok device s : (start_write_page device s).1 = true.
Proof.
  unfold start_write_page, put_device. rewrite put_data_spec, acks.
  change (0 <? 0) with false. cbv iota. destruct (negb _); [|done]. by rewrite put_data_spec, acks.
Qed.

Lemma write_bytes_ok device rest pg s : (write_bytes device rest pg s).1 = Some O.
Proof.
  revert pg s. induction rest as [|b rest IH]; intros pg s; [done|]. cbn [write_bytes].
  destruct (8 <? pg + 1).
  - destruct (start_write_page _ _) as [ok s1] eqn:Hst.
    pose proof (start_write_page_ok device (set_sub (u16 (sub_addr (log Stop s) + 8)) (log Stop s))) as Hok.
    rewrite Hst in Hok. cbn in Hok. rewrite Hok, put_data_spec, acks. apply IH.
  - rewrite put_data_spec, acks. apply IH.
Qed.

Lemma xfer_write_ok data s :
  exists s', xfer_write data s = (Z.of_nat (length data), s') /\ addr_val s' = 0 /\
    hist s' = hist s ++ Nack :: page_head (device_of s) (addr_val s) (sub_addr s mod 256) ++
      page_trace (device_of s) (addr_val s) (sub_addr s mod 256) 0 data ++ [Stop].
Proof.
  unfold xfer_write. cbn [write_try]. set (s0 := log Nack (cut_sub s)).
  destruct (start_write_page (device_of s) s0) as [ok s1] eqn:Hst.
  pose proof (start_write_page_ok (device_of s) s0) as Hok. rewrite Hst in Hok. cbn in Hok.
  rewrite Hok in *. apply start_write_page_spec in Hst as (Hs1 & Ha1 & Hh1).
  destruct (write_bytes (device_of s) data 0 s1) as [r s2] eqn:Hwb.
  pose proof (write_bytes_ok (device_of s) data 0 s1) as Hr. rewrite Hwb in Hr. cbn in Hr. subst r.
  apply write_bytes_spec in Hwb as (_ & _ & _ & Hh2); [|rewrite Hs1; apply land_255_digit].
  eexists. split; [f_equal; lia|]. split; [done|]. cbn [hist set_val log].
  rewrite Hh2, Hh1, Ha1, Hs1, take_ge by lia. unfold s0. cbn [hist log cut_sub set_sub sub_addr addr_val].
  change 255 with (Z.ones 8). rewrite Z.land_ones by lia. by_trace.
Qed.

Lemma start_read_ok device s : (start_read device s).1 = true.
Proof.
  unfold start_read, put_device. rewrite put_data_spec, acks. destruct (negb (addr_val _ =? 0));
    change (0 <? 0) with false; cbv iota; rewrite !put_data_spec, !acks; reflexivity.
Qed.

Lemma read_bytes_ok cnt s : length (read_bytes cnt s).1 = cnt.
Proof.
  revert s. induction cnt as [|cnt IH]; intros s; [done|]. cbn [read_bytes].
  rewrite get_data_spec. cbv zeta. rewrite sends. change (0 <? 0) with false. cbv iota.
  match goal with |- context [read_bytes cnt ?x] => specialize (IH x); destruct (read_bytes cnt x) end.
  cbn in *. lia.
Qed.

Lemma xfer_read_ok cnt s :
  exists bs s', xfer_read cnt s = (Z.of_nat cnt, bs, s') /\ length bs = cnt.
Proof.
  unfold xfer_read. cbn [read_try].
  destruct (start_read (device_of s) (cut_sub s)) as [ok s1] eqn:Hst.
  pose proof (start_read_ok (device_of s) (cut_sub s)) as Hok. rewrite Hst in Hok. cbn in Hok.
  rewrite Hok. pose proof (read_bytes_ok cnt s1) as Hl.
  destruct (read_bytes cnt s1) as [bs s2]. cbn in Hl. rewrite Hl. eauto.
Qed.

(** A message with data whose buffer is as long as it says. *)
Definition msg_ok (m : i2c_msg) : Prop :=
  exists b, buf m = Some b /\ 0 < len m <= Z.of_nat (length b).

(** Of a list of messages only the first is transferred, even when the
    device answers everything: the result is the length of the first message,
    not the number of messages, and the others are left as they are. *)
Theorem xfer_first_message m ms s :
  msg_ok m ->
  exists m' s', i2c_jz_xfer (m :: ms) s = Some (len m, m' :: ms, s') /\
                i2c_jz_xfer [m] s = Some (len m, [m'], s').
Proof.
  intros (b & Hb & Hl). unfold i2c_jz_xfer. cbn [xfer_loop]. rewrite Hb.
  replace (len m =? 0) with false by lia. replace (Z.of_nat (length b) <? len m) with false by lia.
  cbn [negb]. destruct (negb (Z.land (flags m) I2C_M_RD =? 0)).
  - destruct (xfer_read_ok (Z.to_nat (len m)) s) as (bs & s' & -> & _). rewrite Z2Nat.id by lia.
    cbn [mbind option_bind]. replace (len m =? 0) with false by lia. eauto.
  - destruct (xfer_write_ok (take (Z.to_nat (len m)) b) s) as (s' & -> & _).
    rewrite length_take_le by lia. rewrite Z2Nat.id by lia.
    cbn [mbind option_bind]. replace (len m =? 0) with false by lia. eauto.
Qed.

End Responsive.

End Driver.

(** ** What a memory on the bus stores *)

(** A listener on the bus: a write transaction is a start, a device byte with
    the write bit, a word address and data, up to the stop. *)
Inductive bus_state :=
  | Idle
  | NeedDevice
  | NeedAddress (block : Z)
  | Data (a : Z) (l : list Z).

Definition listen (st : bus_state * list (Z * list Z)) (e : event) : bus_state * list (Z * list Z) :=
  match e, st with
  | Start, (_, t) => (NeedDevice, t)
  | Stop, (Data a l, t) => (Idle, t ++ [(a, l)])
  | Stop, (_, t) => (Idle, t)
  | Put b, (NeedDevice, t) =>
      (if Z.land b 1 =? 0 then NeedAddress (Z.shiftr (Z.land b 14) 1) else Idle, t)
  | Put b, (NeedAddress k, t) => (Data (256 * k + b) [], t)
  | Put b, (Data a l, t) => (Data a (l ++ [b]), t)
  | _, _ => st
  end.

Definition transactions (tr : list event) : list (Z * list Z) := (foldl listen (Idle, []) tr).2.

(** A serial memory that stores up to eight bytes of one page at a time. *)
Class Eeprom (E : Type) := {
  page_write : Z -> list Z -> E -> E;
  peek : E -> Z -> Z }.

Class EepromLaws (E : Type) `{Eeprom E} := {
  peek_page_write a l e x : a mod 8 + Z.of_nat (length l) <= 8 ->
    peek (page_write a l e) x =
    if (a <=? x) && (x <? a + Z.of_nat (length l)) then default 0 (rd l (x - a)) else peek e x }.

Definition store `{Eeprom E} (txs : list (Z * list Z)) (e : E) : E :=
  foldl (fun e t => page_write t.1 t.2 e) e txs.

(** The pages of [rest] when [l] is already in the page at [a]. *)
Fixpoint split_pages (a : Z) (l rest : list Z) : list (Z * list Z) :=
  match rest with
  | [] => [(a, l)]
  | b :: rest =>
      if 8 <? Z.of_nat (length l) + 1 then (a, l) :: split_pages (a + 8) [b] rest
      else split_pages a (l ++ [b]) rest
  end.

Section Memory.
Context {E : Type} `{EE : Eeprom E} {EL : EepromLaws E}.

Lemma store_app t1 t2 (e : E) : store (t1 ++ t2) e = store t2 (store t1 e).
Proof. apply foldl_app. Qed.

(** Bytes [l] at [a]. *)
Definition overlay (a : Z) (l : list Z) (m : Z -> Z) (x : Z) : Z :=
  if (a <=? x) && (x <? a + Z.of_nat (length l)) then default 0 (rd l (x - a)) else m x.

Lemma overlay_app a l1 l2 m x :
  overlay a (l1 ++ l2) m x = overlay (a + Z.of_nat (length l1)) l2 (overlay a l1 m) x.
Proof.
  unfold overlay. rewrite length_app, Nat2Z.inj_add.
  destruct (Z.leb_spec a x), (Z.ltb_spec x (a + (Z.of_nat (length l1) + Z.of_nat (length l2))));
    cbn [andb]; destruct (Z.leb_spec (a + Z.of_nat (length l1)) x),
      (Z.ltb_spec x (a + Z.of_nat (length l1) + Z.of_nat (length l2))),
      (Z.ltb_spec x (a + Z.of_nat (length l1))); cbn [andb]; try lia; try reflexivity.
  - unfold rd. replace (0 <=? x - a) with true by lia.
    replace (0 <=? x - (a + Z.of_nat (length l1))) with true by lia.
    rewrite lookup_app_r by lia. do 2 f_equal. lia.
  - unfold rd. replace (0 <=? x - a) with true by lia. by rewrite lookup_app_l by lia.
Qed.

Lemma overlay_ext a l m m' x : (forall y, m y = m' y) -> overlay a l m x = overlay a l m' x.
Proof. intros H. unfold overlay. by destruct (_ && _). Qed.

Lemma split_pages_store a l rest (e : E) x :
  a mod 8 = 0 -> (length l <= 8)%nat ->
  peek (store (split_pages a l rest) e) x = overlay a (l ++ rest) (peek e) x.
Proof.
  revert a l e x. induction rest as [|b rest IH]; intros a l e x Ha Hl; cbn [split_pages].
  { rewrite app_nil_r. cbn. apply peek_page_write. lia. }
  destruct (Z.ltb_spec 8 (Z.of_nat (length l) + 1)).
  - change (store ((a, l) :: ?t) e) with (store t (page_write a l e)).
    rewrite IH by (cbn; Z.to_euclidean_division_equations; lia). rewrite (overlay_app a l).
    replace (a + Z.of_nat (length l)) with (a + 8) by lia.
    apply overlay_ext. intros y. apply peek_page_write. lia.
  - rewrite IH by (try rewrite length_app; cbn; lia). by rewrite <- app_assoc.
Qed.

End Memory.

(** ** What the driver's writes store *)

Lemma device_of_block sub av h :
  digit 16 sub -> device_of (I2c sub av h) = 80 + (sub / 256) mod 8.
Proof.
  unfold digit, device_of. cbn [sub_addr]. intros Hs.
  change (Z.shiftl 10 3) with 80.
  replace (Z.shiftr (Z.land sub 1792) 8) with ((sub / 256) mod 8).
  - assert (H : 0 <= (sub / 256) mod 8 < 8) by (apply Z.mod_pos_bound; lia).
    revert H. generalize ((sub / 256) mod 8). intros k Hk.
    assert (k = 0 \/ k = 1 \/ k = 2 \/ k = 3 \/ k = 4 \/ k = 5 \/ k = 6 \/ k = 7) as H by lia.
    by repeat destruct H as [->|H]; [..|rewrite H].
  - rewrite Z.shiftr_land. change (Z.shiftr 1792 8) with (Z.ones 3).
    rewrite Z.land_ones by lia. by rewrite Z.shiftr_div_pow2 by lia.
Qed.

Lemma dev_byte_heard k t : 0 <= k < 8 -> forall st,
  foldl listen (st, t) [Start; Put (dev_byte (80 + k) I2C_WRITE)] = (NeedAddress k, t).
Proof.
  intros Hk st.
  assert (k = 0 \/ k = 1 \/ k = 2 \/ k = 3 \/ k = 4 \/ k = 5 \/ k = 6 \/ k = 7) as H by lia.
  by repeat destruct H as [->|H]; [..|rewrite H].
Qed.

Lemma page_head_heard k av sub st t :
  0 <= k < 8 -> av <> 0 ->
  foldl listen (st, t) (page_head (80 + k) av sub) = (Data (256 * k + u8 sub) [], t).
Proof.
  intros Hk Ha. unfold page_head. apply Z.eqb_neq in Ha. rewrite Ha. cbn [negb].
  change (Start :: ?p :: ?q) with ([Start; p] ++ q). rewrite foldl_app, dev_byte_heard by done.
  reflexivity.
Qed.

(** The listener hears the pages. *)
Lemma page_trace_heard k av sub data a l t :
  0 <= k < 8 -> av <> 0 -> Forall (digit 8) data -> 0 <= sub ->
  sub + Z.of_nat (length l + length data) <= 256 -> (length l <= 8)%nat -> a = 256 * k + sub ->
  foldl listen (Data a l, t) (page_trace (80 + k) av sub (Z.of_nat (length l)) data ++ [Stop])
  = (Idle, t ++ split_pages a l data).
Proof.
  intros Hk Ha Hd. revert sub a l t. induction Hd as [|b data Hb Hd IH]; intros sub a l t Hs Hle Hl ->.
  { done. }
  cbn [page_trace split_pages]. assert (Hu : u8 b = b) by (by apply Z.mod_small).
  cbn [length] in Hle. rewrite Hu. destruct (Z.ltb_spec 8 (Z.of_nat (length l) + 1)).
  - assert (H16 : u16 (sub + 8) = sub + 8) by (apply Z.mod_small; lia).
    assert (H8 : u8 (sub + 8) = sub + 8) by (apply Z.mod_small; lia).
    rewrite H16. cbn [app foldl listen]. rewrite <- app_assoc, foldl_app, page_head_heard, H8 by done.
    cbn [app foldl listen].
    rewrite (IH (sub + 8) (256 * k + (sub + 8)) [b]) by (cbn [length]; lia).
    rewrite <- app_assoc. by rewrite <- Z.add_assoc.
  - cbn [app foldl listen]. rewrite <- (IH sub _ (l ++ [b]) t); [|rewrite ?length_app; cbn [length]; lia..].
    rewrite length_app, Nat2Z.inj_add. reflexivity.
Qed.

(** C34: when the device acknowledges every byte and a sub-address at the start
    of an 8-byte page is set, with a non-zero address value, [xfer_write] returns the whole length and a memory on the
    bus, which takes in pages of up to eight bytes, afterwards holds the buffer
    from the sub-address on, in the block that the upper bits select, and is
    unchanged everywhere else; as long as the data do not reach beyond the
    256-byte block. *)
Theorem xfer_write_stores ack_delay `{EL : EepromLaws E} data s (e : E) :
  (forall h, accepted ack_delay h = true) -> digit 16 (sub_addr s) -> sub_addr s mod 8 = 0 ->
  addr_val s <> 0 -> Forall (digit 8) data ->
  sub_addr s mod 256 + Z.of_nat (length data) <= 256 ->
  exists s' tr, xfer_write ack_delay data s = (Z.of_nat (length data), s') /\
    hist s' = hist s ++ tr /\
    forall x, peek (store (transactions tr) e) x = overlay (sub_addr s mod 2048) data (peek e) x.
Proof.
  intros Hack Hd H8 Ha Hdata Hfit.
  destruct (xfer_write_ok ack_delay Hack data s) as (s' & Hw & _ & Hh).
  eexists s', _. split; [exact Hw|]. split; [exact Hh|]. intros x.
  destruct s as [sub av h]. cbn [sub_addr addr_val] in *. rewrite device_of_block by done.
  set (k := (sub / 256) mod 8). assert (Hk : 0 <= k < 8) by (apply Z.mod_pos_bound; lia).
  assert (Hu : u8 (sub mod 256) = sub mod 256) by (apply Z.mod_mod; lia).
  assert (Hb : sub mod 2048 = 256 * k + sub mod 256)
    by (unfold k; Z.to_euclidean_division_equations; lia).
  unfold transactions. cbn [foldl listen].
  rewrite foldl_app, page_head_heard, Hu by done.
  change 0 with (Z.of_nat (length (@nil Z))) at 1.
  rewrite page_trace_heard; [|try done; cbn [length]; try lia..]; [|Z.to_euclidean_division_equations; lia].
  cbn [snd app]. rewrite split_pages_store, Hb; [done| |cbn; lia].
  rewrite <- Hb. Z.to_euclidean_division_equations; lia.
Qed.

(** ** A retry after the first page *)

Definition is_start (e : event) : bool := match e with Start => true | _ => false end.

(** A memory still busy with the first page when the second one starts, as a
    memory in its write cycle is: it answers the next attempt. *)
Definition busy_once (h : list event) : nat :=
  if (length (filter (fun e => is_start e = true) h) =? 2)%nat then Z.to_nat 10000 else 0%nat.

(** A retry starts the buffer again but keeps the sub-address the failed
    attempt had reached.  When a memory does not answer the start of the second
    page once, writing 16 bytes at sub-address 0 reports success, and the first
    eight bytes end up at 0 and at 8 and the last eight at 16. *)
Theorem write_retry_shifts data :
  length data = 16%nat -> Forall (digit 8) data ->
  exists s', xfer_write busy_once data (I2c 0 1 []) = (16, s') /\
    transactions (hist s') = [(0, take 8 data); (8, take 8 data); (16, drop 8 data)].
Proof.
  intros Hl Hd. do 16 (destruct data as [|? data]; [discriminate Hl|]).
  destruct data; [|discriminate Hl].
  repeat match goal with H : Forall _ (_ :: _) |- _ => apply Forall_cons in H as [? H] end.
  repeat match goal with H : digit 8 ?b |- _ => change (0 <= b < 2 ^ 8) in H; apply Z.mod_small in H end.
  eexists. split; [cbv -[u8]; reflexivity|]. cbn [hist]. unfold u8.
  repeat match goal with H : _ mod _ = _ |- _ => rewrite H; clear H end. reflexivity.
Qed.

(** ** A concrete memory and device *)

(** Pages of eight bytes; an address past the end of the page goes on at its
    start. *)
Instance mem_eeprom : Eeprom (Z -> Z) := {
  page_write a l m x :=
    if x / 8 =? a / 8 then default (m x) (rd l ((x - a) mod 8)) else m x;
  peek m x := m x }.

Instance mem_eeprom_laws : EepromLaws (Z -> Z).
Proof.
  constructor. intros a l e x Hl. cbn. unfold rd.
  assert (Hm : 0 <= (x - a) mod 8 < 8) by (apply Z.mod_pos_bound; lia).
  replace (0 <=? (x - a) mod 8) with true by lia.
  destruct (Z.leb_spec a x), (Z.ltb_spec x (a + Z.of_nat (length l))); cbn [andb].
  1: { replace (x / 8 =? a / 8) with true by (Z.to_euclidean_division_equations; lia).
       replace (0 <=? x - a) with true by lia.
       rewrite Z.mod_small by (Z.to_euclidean_division_equations; lia).
       destruct (lookup_lt_is_Some_2 l (Z.to_nat (x - a))) as [b ->]; [lia|done]. }
  all: destruct (Z.eqb_spec (x / 8) (a / 8)); [|done];
    rewrite lookup_ge_None_2 by (Z.to_euclidean_division_equations; lia); done.
Qed.

Definition prompt (h : list event) : nat := 3.
Definition mute (h : list event) : nat := Z.to_nat 10000.

Lemma prompt_accepted h : accepted prompt h = true.
Proof. reflexivity. Qed.

Lemma prompt_arrives h : arrives prompt h = true.
Proof. reflexivity. Qed.

(** Twelve bytes at 0x110: two pages of the second block. *)
Lemma xfer_write_stores_witness :
  exists s' tr, xfer_write prompt (seqZ 1 12) (I2c 272 1 []) = (12, s') /\ hist s' = tr /\
    (store (transactions tr) (fun _ => 0) : Z -> Z) 283 = 12 /\
    (store (transactions tr) (fun _ => 0) : Z -> Z) 284 = 0.
Proof.
  assert (Hd : Forall (digit 8) (seqZ 1 12)).
  { cbn. repeat constructor; discriminate. }
  destruct (xfer_write_stores prompt (seqZ 1 12) (I2c 272 1 []) (fun _ : Z => 0) prompt_accepted)
    as (s' & tr & Hw & Hh & Hx); [split; [discriminate|reflexivity]|reflexivity|discriminate|exact Hd|discriminate|].
  exists s', tr. split; [exact Hw|]. split; [exact Hh|].
  split; [exact (eq_trans (Hx 283) eq_refl)|exact (eq_trans (Hx 284) eq_refl)].
Defined.

(** A mute device: six attempts and no data. *)
Lemma xfer_read_outcome_witness :
  exists ret bs s', xfer_read mute prompt (fun _ => 7) 4 (I2c 16 1 []) = (ret, bs, s') /\
    ((gave_up (I2c 16 1 []) ret s' /\ bs = []) \/
     read_in (fun _ => 7) 80 4 (I2c 16 1 []) ret bs s').
Proof.
  eexists _, _, _. split; [vm_compute; reflexivity|].
  match goal with |- (gave_up _ ?r ?s /\ ?b = []) \/ _ =>
    destruct (xfer_read_outcome mute prompt (fun _ => 7) 4 (I2c 16 1 []) r b s) as (s0 & -> & H);
    [vm_compute; reflexivity|exact H] end.
Defined.

(** A device that never answers. *)
Lemma xfer_write_outcome_witness :
  exists ret s', xfer_write mute [1; 2] (I2c 16 1 []) = (ret, s') /\
    (gave_up (I2c 16 1 [Nack]) ret s' \/ wrote 80 [1; 2] (I2c 16 1 [Nack]) ret s').
Proof.
  eexists _, _. split; [vm_compute; reflexivity|].
  match goal with |- gave_up _ ?r ?s \/ _ =>
    destruct (xfer_write_outcome mute [1; 2] (I2c 16 1 []) r s) as (s0 & -> & H);
    [vm_compute; reflexivity|exact H] end.
Defined.

(** A write of an address followed by a read: the read is not done. *)
Lemma xfer_first_message_witness :
  exists m' s', i2c_jz_xfer prompt prompt (fun _ => 7)
    [Msg 80 0 1 (Some [16]); Msg 80 1 4 (Some [0; 0; 0; 0])] (I2c 0 0 []) =
    Some (1, [m'; Msg 80 1 4 (Some [0; 0; 0; 0])], s').
Proof.
  destruct (xfer_first_message prompt prompt (fun _ => 7) prompt_accepted prompt_arrives
    (Msg 80 0 1 (Some [16])) [Msg 80 1 4 (Some [0; 0; 0; 0])] (I2c 0 0 [])) as (m' & s' & H & _).
  { exists [16]. split; [reflexivity|]. split; [reflexivity|discriminate]. }
  exists m', s'. exact H.
Defined.

Lemma write_retry_shifts_witness :
  exists s', xfer_write busy_once (replicate 8 1 ++ replicate 8 2) (I2c 0 1 []) = (16, s') /\
    transactions (hist s') = [(0, replicate 8 1); (8, replicate 8 1); (16, replicate 8 2)].
Proof.
  apply (write_retry_shifts (replicate 8 1 ++ replicate 8 2)); [reflexivity|].
  cbn. repeat constructor; discriminate.
Defined.
