(* ===== verification/Cpufreq.v ===== *)
(** * CPU frequency scaling

    [arch/mips/jz4740/cpufreq.c] with the clock functions of [clock.h] and
    [ops.h] and the frequency table functions of [drivers/cpufreq/freq_table.c].
    The code under [CHANGE_PLL], which nothing defines, is left out.

    The state has the clock and memory controller registers the code touches,
    the boot parameters, the clocks record and the frequency table; [writes]
    records the registers after each write that changes the clocks or the
    memory timing, [notified] the notifications sent.  [None] is a division by
    zero or an access outside of an array; also the endless loop of
    [index_to_divisor] when the divisor is 0. *)

From S2P Require Import Prelude.

#[local] Arguments Z.eqb : simpl never.
#[local] Arguments Z.ltb : simpl never.
#[local] Arguments Z.leb : simpl never.
#[local] Arguments Z.land : simpl never.
#[local] Arguments Z.lor : simpl never.
#[local] Arguments Z.ldiff : simpl never.
#[local] Arguments Z.add : simpl never.
#[local] Arguments Z.sub : simpl never.
#[local] Arguments Z.mul : simpl never.
#[local] Arguments Z.modulo : simpl never.
#[local] Arguments Z.div : simpl never.
#[local] Arguments Z.shiftl : simpl never.
#[local] Arguments Z.shiftr : simpl never.

(** ** Registers and data *)

Definition JZ_EXTAL : Z := 12000000.
Definition EINVAL : Z := 22.
Definition CPUFREQ_TABLE_END : Z := 2 ^ 32 - 2.
Definition CPUFREQ_ENTRY_INVALID : Z := 2 ^ 32 - 1.
Definition CPUFREQ_RELATION_L : Z := 0.
Definition CPUFREQ_RELATION_H : Z := 1.

Definition CPM_CPCCR_I2CS : Z := Z.shiftl 1 31.
Definition CPM_CPCCR_UCS : Z := Z.shiftl 1 29.
Definition CPM_CPCCR_UDIV_BIT : Z := 23.
Definition CPM_CPCCR_UDIV_MASK : Z := Z.shiftl 63 CPM_CPCCR_UDIV_BIT.
Definition CPM_CPCCR_CE : Z := Z.shiftl 1 22.
Definition CPM_CPCCR_PCS : Z := Z.shiftl 1 21.
Definition CPM_CPCCR_LDIV_BIT : Z := 16.
Definition CPM_CPCCR_LDIV_MASK : Z := Z.shiftl 31 CPM_CPCCR_LDIV_BIT.
Definition CPM_CPCCR_MDIV_BIT : Z := 12.
Definition CPM_CPCCR_MDIV_MASK : Z := Z.shiftl 15 CPM_CPCCR_MDIV_BIT.
Definition CPM_CPCCR_PDIV_BIT : Z := 8.
Definition CPM_CPCCR_PDIV_MASK : Z := Z.shiftl 15 CPM_CPCCR_PDIV_BIT.
Definition CPM_CPCCR_HDIV_BIT : Z := 4.
Definition CPM_CPCCR_HDIV_MASK : Z := Z.shiftl 15 CPM_CPCCR_HDIV_BIT.
Definition CPM_CPCCR_CDIV_BIT : Z := 0.
Definition CPM_CPCCR_CDIV_MASK : Z := Z.shiftl 15 CPM_CPCCR_CDIV_BIT.
Definition CPM_I2SCDR_I2SDIV_MASK : Z := 511.
Definition CPM_LPCDR_PIXDIV_MASK : Z := 2047.
Definition CPM_MSCCDR_MSCDIV_MASK : Z := 31.
Definition CPM_CPPCR_PLLM_BIT : Z := 23.
Definition CPM_CPPCR_PLLM_MASK : Z := Z.shiftl 511 CPM_CPPCR_PLLM_BIT.
Definition CPM_CPPCR_PLLN_BIT : Z := 18.
Definition CPM_CPPCR_PLLN_MASK : Z := Z.shiftl 31 CPM_CPPCR_PLLN_BIT.
Definition CPM_CPPCR_PLLOD_BIT : Z := 16.
Definition CPM_CPPCR_PLLOD_MASK : Z := Z.shiftl 3 CPM_CPPCR_PLLOD_BIT.
Definition CPM_CPPCR_PLLBP : Z := Z.shiftl 1 9.
Definition CPM_CPPCR_PLLEN : Z := Z.shiftl 1 8.
Definition EMC_DMCR_TRAS_BIT : Z := 13.
Definition EMC_DMCR_TRAS_MASK : Z := Z.shiftl 7 EMC_DMCR_TRAS_BIT.
Definition EMC_DMCR_RCD_BIT : Z := 11.
Definition EMC_DMCR_RCD_MASK : Z := Z.shiftl 3 EMC_DMCR_RCD_BIT.
Definition EMC_DMCR_TPC_BIT : Z := 8.
Definition EMC_DMCR_TPC_MASK : Z := Z.shiftl 7 EMC_DMCR_TPC_BIT.
Definition EMC_DMCR_TRWL_BIT : Z := 5.
Definition EMC_DMCR_TRWL_MASK : Z := Z.shiftl 3 EMC_DMCR_TRWL_BIT.
Definition EMC_DMCR_TRC_BIT : Z := 2.
Definition EMC_DMCR_TRC_MASK : Z := Z.shiftl 7 EMC_DMCR_TRC_BIT.

Record hw := Hw {
  CPCCR : Z;
  CPPCR : Z;
  I2SCDR : Z;
  LPCDR : Z;
  MSCCDR : Z;
  DMCR : Z;
  RTCOR : Z;
  RTCNT : Z }.

Definition set_CPCCR (x : Z) (h : hw) : hw :=
  Hw x (CPPCR h) (I2SCDR h) (LPCDR h) (MSCCDR h) (DMCR h) (RTCOR h) (RTCNT h).
Definition set_DMCR (x : Z) (h : hw) : hw :=
  Hw (CPCCR h) (CPPCR h) (I2SCDR h) (LPCDR h) (MSCCDR h) x (RTCOR h) (RTCNT h).
Definition set_RTCOR (x : Z) (h : hw) : hw :=
  Hw (CPCCR h) (CPPCR h) (I2SCDR h) (LPCDR h) (MSCCDR h) (DMCR h) x (RTCNT h).
Definition set_RTCNT (x : Z) (h : hw) : hw :=
  Hw (CPCCR h) (CPPCR h) (I2SCDR h) (LPCDR h) (MSCCDR h) (DMCR h) (RTCOR h) x.

Record boot_params := Boot {
  b_mclk : Z;
  b_tras : Z;
  b_rcd : Z;
  b_tpc : Z;
  b_trwl : Z;
  b_trc : Z;
  b_rtcor : Z;
  sdram_initialized : Z;
  lcd_clk : Z;
  lcdpix_clk : Z;
  lcd_clks_initialized : Z }.

Record jz_clocks_t := Clocks {
  cclk : Z;
  hclk : Z;
  pclk : Z;
  mclk : Z;
  lcdclk : Z;
  pixclk : Z;
  i2sclk : Z;
  usbclk : Z;
  mscclk : Z }.

Inductive notification :=
  | CPUFREQ_PRECHANGE (old new : Z)
  | CPUFREQ_POSTCHANGE (old new : Z).

Record cpufreq := Cpufreq {
  regs : hw;
  boot_config : boot_params;
  jz_clocks : jz_clocks_t;
  table : list Z;
  writes : list hw;
  notified : list notification }.

Definition set_boot (b : boot_params) (s : cpufreq) : cpufreq :=
  Cpufreq (regs s) b (jz_clocks s) (table s) (writes s) (notified s).
Definition set_clocks (c : jz_clocks_t) (s : cpufreq) : cpufreq :=
  Cpufreq (regs s) (boot_config s) c (table s) (writes s) (notified s).
Definition set_table (t : list Z) (s : cpufreq) : cpufreq :=
  Cpufreq (regs s) (boot_config s) (jz_clocks s) t (writes s) (notified s).
Definition write_regs (h : hw) (s : cpufreq) : cpufreq :=
  Cpufreq h (boot_config s) (jz_clocks s) (table s) (writes s ++ [h]) (notified s).
Definition cpufreq_notify_transition (n : notification) (s : cpufreq) : cpufreq :=
  Cpufreq (regs s) (boot_config s) (jz_clocks s) (table s) (writes s) (notified s ++ [n]).

(** Division of unsigned numbers. *)
Definition udiv (a b : Z) : option Z := if b =? 0 then None else Some (a / b).

(** ** Clock functions *)

Definition bits (r mask bit : Z) : Z := Z.shiftr (Z.land r mask) bit.

Definition __cpm_get_pllm (h : hw) : Z := bits (CPPCR h) CPM_CPPCR_PLLM_MASK CPM_CPPCR_PLLM_BIT.
Definition __cpm_get_plln (h : hw) : Z := bits (CPPCR h) CPM_CPPCR_PLLN_MASK CPM_CPPCR_PLLN_BIT.
Definition __cpm_get_pllod (h : hw) : Z := bits (CPPCR h) CPM_CPPCR_PLLOD_MASK CPM_CPPCR_PLLOD_BIT.
Definition __cpm_get_cdiv (h : hw) : Z := bits (CPCCR h) CPM_CPCCR_CDIV_MASK CPM_CPCCR_CDIV_BIT.
Definition __cpm_get_hdiv (h : hw) : Z := bits (CPCCR h) CPM_CPCCR_HDIV_MASK CPM_CPCCR_HDIV_BIT.
Definition __cpm_get_pdiv (h : hw) : Z := bits (CPCCR h) CPM_CPCCR_PDIV_MASK CPM_CPCCR_PDIV_BIT.
Definition __cpm_get_mdiv (h : hw) : Z := bits (CPCCR h) CPM_CPCCR_MDIV_MASK CPM_CPCCR_MDIV_BIT.
Definition __cpm_get_ldiv (h : hw) : Z := bits (CPCCR h) CPM_CPCCR_LDIV_MASK CPM_CPCCR_LDIV_BIT.
Definition __cpm_get_udiv (h : hw) : Z := bits (CPCCR h) CPM_CPCCR_UDIV_MASK CPM_CPCCR_UDIV_BIT.
Definition __cpm_get_i2sdiv (h : hw) : Z := bits (I2SCDR h) CPM_I2SCDR_I2SDIV_MASK 0.
Definition __cpm_get_pixdiv (h : hw) : Z := bits (LPCDR h) CPM_LPCDR_PIXDIV_MASK 0.
Definition __cpm_get_mscdiv (h : hw) : Z := bits (MSCCDR h) CPM_MSCCDR_MSCDIV_MASK 0.

Definition od : list Z := [1; 2; 2; 4].
Definition div_table : list Z := [1; 2; 3; 4; 6; 8; 12; 16; 24; 32].

Definition is_set (r bit : Z) : bool := negb (Z.land r bit =? 0).

Definition __cpm_get_pllout (h : hw) : option Z :=
  if is_set (CPPCR h) CPM_CPPCR_PLLEN && negb (is_set (CPPCR h) CPM_CPPCR_PLLBP) then
    let m := __cpm_get_pllm h + 2 in
    let n := __cpm_get_plln h + 2 in
    no ← rd od (__cpm_get_pllod h);
    q ← udiv JZ_EXTAL (u32 (n * no));
    Some (u32 (q * m))
  else Some JZ_EXTAL.

Definition __cpm_get_pllout2 (h : hw) : option Z :=
  p ← __cpm_get_pllout h;
  Some (if is_set (CPCCR h) CPM_CPCCR_PCS then p else p / 2).

(** [__cpm_get_pllout() / div[i]] *)
Definition pllout_over (h : hw) (i : Z) : option Z :=
  p ← __cpm_get_pllout h;
  d ← rd div_table i;
  udiv p d.

Definition __cpm_get_cclk (h : hw) : option Z := pllout_over h (__cpm_get_cdiv h).
Definition __cpm_get_hclk (h : hw) : option Z := pllout_over h (__cpm_get_hdiv h).
Definition __cpm_get_mclk (h : hw) : option Z := pllout_over h (__cpm_get_mdiv h).
Definition __cpm_get_pclk (h : hw) : option Z := pllout_over h (__cpm_get_pdiv h).

Definition __cpm_get_lcdclk (h : hw) : option Z :=
  p ← __cpm_get_pllout2 h; udiv p (__cpm_get_ldiv h + 1).
Definition __cpm_get_pixclk (h : hw) : option Z :=
  p ← __cpm_get_pllout2 h; udiv p (__cpm_get_pixdiv h + 1).
Definition __cpm_get_i2sclk (h : hw) : option Z :=
  if is_set (CPCCR h) CPM_CPCCR_I2CS
  then p ← __cpm_get_pllout2 h; udiv p (__cpm_get_i2sdiv h + 1) else Some JZ_EXTAL.
Definition __cpm_get_usbclk (h : hw) : option Z :=
  if is_set (CPCCR h) CPM_CPCCR_UCS
  then p ← __cpm_get_pllout2 h; udiv p (__cpm_get_udiv h + 1) else Some JZ_EXTAL.
Definition __cpm_get_mscclk (h : hw) : option Z :=
  p ← __cpm_get_pllout2 h; udiv p (__cpm_get_mscdiv h + 1).

Definition jz_update_clocks (s : cpufreq) : option cpufreq :=
  let h := regs s in
  c ← __cpm_get_cclk h;
  hc ← __cpm_get_hclk h;
  mc ← __cpm_get_mclk h;
  pc ← __cpm_get_pclk h;
  lc ← __cpm_get_lcdclk h;
  px ← __cpm_get_pixclk h;
  i2 ← __cpm_get_i2sclk h;
  us ← __cpm_get_usbclk h;
  ms ← __cpm_get_mscclk h;
  Some (set_clocks (Clocks c hc pc mc lc px i2 us ms) s).

(** ** Memory timing *)

Definition jz_init_boot_config (s : cpufreq) : option cpufreq :=
  let h := regs s in
  s ← (let b := boot_config s in
       if lcd_clks_initialized b =? 0 then
         lc ← __cpm_get_lcdclk h;
         px ← __cpm_get_pixclk h;
         Some (set_boot (Boot (b_mclk b) (b_tras b) (b_rcd b) (b_tpc b) (b_trwl b) (b_trc b)
                           (b_rtcor b) (sdram_initialized b) lc px 1) s)
       else Some s);
  let b := boot_config s in
  if sdram_initialized b =? 0 then
    let dmcr := DMCR h in
    let tras := Z.land (Z.shiftr dmcr 13) 7 in
    let rcd := Z.land (Z.shiftr dmcr 11) 3 in
    let tpc := Z.land (Z.shiftr dmcr 8) 7 in
    let trwl := Z.land (Z.shiftr dmcr 5) 3 in
    let trc := Z.land (Z.shiftr dmcr 2) 7 in
    mc ← __cpm_get_mclk h;
    Some (set_boot (Boot (mc / 1000) (tras + 4) (rcd + 1) (tpc + 1) (trwl + 1) (trc * 2 + 1)
                      (RTCOR h) 1 (lcd_clk b) (lcdpix_clk b) (lcd_clks_initialized b)) s)
  else Some s.

Definition jz_update_dram_rtcor (new_mclk : Z) (s : cpufreq) : option cpufreq :=
  let new_mclk := new_mclk / 1000 in
  q ← udiv (u32 (b_rtcor (boot_config s) * new_mclk)) (b_mclk (boot_config s));
  let rtcor := u32 (q - 1) in
  let rtcor := if rtcor <? 1 then 1 else rtcor in
  let rtcor := if 255 <? rtcor then 255 else rtcor in
  let s := write_regs (set_RTCOR rtcor (regs s)) s in
  Some (write_regs (set_RTCNT rtcor (regs s)) s).

(** The scaled number of cycles with its check: [t] cycles at [mclk] kHz, at
    [new_mclk] kHz; [step] more when the time would be shorter. *)
Definition scale_cycles (t step mclk new_mclk : Z) : option Z :=
  n ← udiv (u32 (t * new_mclk)) mclk;
  valid_time ← udiv (u32 (t * 1000000)) mclk;
  new_time ← udiv (u32 (n * 1000000)) new_mclk;
  Some (if new_time <? valid_time then u32 (n + step) else n).

(** [x = (x < lo) ? lo : x; x = (x > hi) ? hi : x;] *)
Definition clamp (lo hi x : Z) : Z :=
  let x := if x <? lo then lo else x in
  if hi <? x then hi else x.

Definition DMCR_TIMING : Z :=
  Z.lor (Z.lor (Z.lor (Z.lor EMC_DMCR_TRAS_MASK EMC_DMCR_RCD_MASK) EMC_DMCR_TPC_MASK)
    EMC_DMCR_TRWL_MASK) EMC_DMCR_TRC_MASK.

Definition jz_update_dram_dmcr (new_mclk : Z) (s : cpufreq) : option cpufreq :=
  let b := boot_config s in
  let new_mclk := new_mclk / 1000 in
  tras ← scale_cycles (b_tras b) 1 (b_mclk b) new_mclk;
  rcd ← scale_cycles (b_rcd b) 1 (b_mclk b) new_mclk;
  tpc ← scale_cycles (b_tpc b) 1 (b_mclk b) new_mclk;
  trwl ← scale_cycles (b_trwl b) 1 (b_mclk b) new_mclk;
  trc ← scale_cycles (b_trc b) 2 (b_mclk b) new_mclk;
  let tras := clamp 4 11 tras - 4 in
  let rcd := clamp 1 4 rcd - 1 in
  let tpc := clamp 1 8 tpc - 1 in
  let trwl := clamp 1 4 trwl - 1 in
  let trc := clamp 1 15 trc / 2 in
  let dmcr := Z.ldiff (DMCR (regs s)) DMCR_TIMING in
  let dmcr := Z.lor dmcr
    (Z.lor (Z.lor (Z.lor (Z.lor (Z.shiftl tras EMC_DMCR_TRAS_BIT) (Z.shiftl rcd EMC_DMCR_RCD_BIT))
      (Z.shiftl tpc EMC_DMCR_TPC_BIT)) (Z.shiftl trwl EMC_DMCR_TRWL_BIT))
      (Z.shiftl trc EMC_DMCR_TRC_BIT)) in
  Some (write_regs (set_DMCR dmcr (regs s)) s).

Definition jz_update_dram_prev (cur_mclk new_mclk : Z) (s : cpufreq) : option cpufreq :=
  if cur_mclk <? new_mclk then jz_update_dram_dmcr new_mclk s
  else jz_update_dram_rtcor new_mclk s.

Definition jz_update_dram_post (cur_mclk new_mclk : Z) (s : cpufreq) : option cpufreq :=
  if cur_mclk <? new_mclk then jz_update_dram_rtcor new_mclk s
  else jz_update_dram_dmcr new_mclk s.

(** ** Changing the divisors *)

Record dpm_regs := Dpm {
  cpccr : Z;
  cpccr_mask : Z }.

(** The busy wait after the write is [500 * (cclk / 1000000000)] rounds. *)
Definition jz_scale_divisors (r : dpm_regs) (s : cpufreq) : option cpufreq :=
  _ ← __cpm_get_cclk (regs s);
  let c := Z.ldiff (CPCCR (regs s)) (cpccr_mask r) in
  let c := Z.lor c (cpccr r) in
  let c := Z.lor c CPM_CPCCR_CE in
  cur_mclk ← __cpm_get_mclk (regs s);
  new_mclk ← pllout_over (regs s) (bits c CPM_CPCCR_MDIV_MASK CPM_CPCCR_MDIV_BIT);
  s ← jz_update_dram_prev cur_mclk new_mclk s;
  let s := write_regs (set_CPCCR c (regs s)) s in
  jz_update_dram_post cur_mclk new_mclk s.

(** Without [CHANGE_PLL] the three values of [pll_up_flag] make no difference. *)
Definition jz4740_transition (r : dpm_regs) (s : cpufreq) : option cpufreq :=
  s ← jz_init_boot_config s;
  s ← jz_scale_divisors r s;
  jz_update_clocks s.

Definition jz4740_freq_get (s : cpufreq) : option Z :=
  c ← __cpm_get_cclk (regs s); Some (c / 1000).

Definition n2FR : list Z :=
  [0; 0; 1; 2; 3; 0; 4; 0; 5; 0; 0; 0; 6; 0; 0; 0;
   7; 0; 0; 0; 0; 0; 0; 0; 8; 0; 0; 0; 0; 0; 0; 0;
   9].

Definition index_to_divisor (index : Z) (s : cpufreq) : option (Z * dpm_regs) :=
  let mask := Z.lor (Z.lor (Z.lor CPM_CPCCR_CDIV_MASK CPM_CPCCR_HDIV_MASK) CPM_CPCCR_PDIV_MASK)
                CPM_CPCCR_MDIV_MASK in
  new_freq ← rd (table s) index;
  p ← __cpm_get_pllout (regs s);
  div_of_cclk ← udiv p (u32 (1000 * new_freq));
  if div_of_cclk =? 0 then None
  else
    let f := if (div_of_cclk =? 1) || (div_of_cclk =? 2) || (div_of_cclk =? 4) then 3 else 2 in
    n0 ← rd n2FR div_of_cclk;
    n1 ← rd n2FR (f * div_of_cclk);
    let c := Z.lor (Z.lor (Z.lor (Z.shiftl n0 CPM_CPCCR_CDIV_BIT) (Z.shiftl n1 CPM_CPCCR_HDIV_BIT))
               (Z.shiftl n1 CPM_CPCCR_PDIV_BIT)) (Z.shiftl n1 CPM_CPCCR_MDIV_BIT) in
    Some (div_of_cclk, Dpm c mask).

Definition jz4740_set_cpu_divider_index (index : Z) (s : cpufreq) : option cpufreq :=
  p ← __cpm_get_pllout (regs s);
  c ← __cpm_get_cclk (regs s);
  old_divisor ← udiv p c;
  '(divisor, r) ← index_to_divisor index s;
  new ← udiv p (u32 (1000 * divisor));
  let s := cpufreq_notify_transition (CPUFREQ_PRECHANGE (c / 1000) new) s in
  s ← (if negb (old_divisor =? divisor) then jz4740_transition r s else Some s);
  Some (cpufreq_notify_transition (CPUFREQ_POSTCHANGE (c / 1000) new) s).

(** ** The frequency table *)

Record cpufreq_policy := Policy {
  cpu : Z;
  p_min : Z;
  p_max : Z;
  cur : Z;
  min_freq : Z;
  max_freq : Z }.

(** The lowest and highest frequency from here on; the loop ends at the end
    mark. *)
Fixpoint cpuinfo_loop (t : list Z) (lo hi : Z) : option (Z * Z) :=
  match t with
  | [] => None
  | freq :: t =>
      if freq =? CPUFREQ_TABLE_END then Some (lo, hi)
      else if freq =? CPUFREQ_ENTRY_INVALID then cpuinfo_loop t lo hi
      else cpuinfo_loop t (if freq <? lo then freq else lo) (if hi <? freq then freq else hi)
  end.

Definition cpufreq_frequency_table_cpuinfo (p : cpufreq_policy) (t : list Z)
  : option (Z * cpufreq_policy) :=
  '(lo, hi) ← cpuinfo_loop t (2 ^ 32 - 1) 0;
  Some (if lo =? 2 ^ 32 - 1 then - EINVAL else 0, Policy (cpu p) lo hi (cur p) lo hi).

(** An entry, [.index] and [.frequency]. *)
Record entry := Entry { e_index : Z; e_freq : Z }.

Definition target_step (relation target_freq i freq : Z) (o s : entry) : entry * entry :=
  if relation =? CPUFREQ_RELATION_H then
    if freq <=? target_freq then
      (if e_freq o <=? freq then Entry i freq else o, s)
    else (o, if freq <=? e_freq s then Entry i freq else s)
  else if relation =? CPUFREQ_RELATION_L then
    if target_freq <=? freq then
      (if freq <=? e_freq o then Entry i freq else o, s)
    else (o, if e_freq s <=? freq then Entry i freq else s)
  else (o, s).

(** The loop: the index of the end mark and the two candidates. *)
Fixpoint target_loop (p : cpufreq_policy) (target_freq relation i : Z) (t : list Z) (o s : entry)
  : option (Z * entry * entry) :=
  match t with
  | [] => None
  | freq :: t =>
      if freq =? CPUFREQ_TABLE_END then Some (i, o, s)
      else if freq =? CPUFREQ_ENTRY_INVALID then target_loop p target_freq relation (i + 1) t o s
      else if (freq <? p_min p) || (p_max p <? freq)
           then target_loop p target_freq relation (i + 1) t o s
      else
        let '(o, s) := target_step relation target_freq i freq o s in
        target_loop p target_freq relation (i + 1) t o s
  end.

(** The result and [*index]; [online] is [cpu_online(policy->cpu)]. *)
Definition cpufreq_frequency_table_target (online : bool) (p : cpufreq_policy) (t : list Z)
  (target_freq relation index : Z) : option (Z * Z) :=
  let none := 2 ^ 32 - 1 in
  let s := Entry none (if relation =? CPUFREQ_RELATION_H then none else 0) in
  let o := Entry none (if relation =? CPUFREQ_RELATION_L then none else 0) in
  if negb online then Some (- EINVAL, index)
  else
    '(i, o, s) ← target_loop p target_freq relation 0 t o s;
    Some (if i <? e_index o then
            if i <? e_index s then (- EINVAL, index) else (0, e_index s)
          else (0, e_index o)).

(** ** The driver *)

Definition jz4740_freq_target (online : bool) (p : cpufreq_policy) (target_freq relation : Z)
  (s : cpufreq) : option (Z * cpufreq) :=
  '(r, new_index) ← cpufreq_frequency_table_target online p (table s) target_freq relation 0;
  if negb (r =? 0) then Some (- EINVAL, s)
  else
    s ← jz4740_set_cpu_divider_index new_index s;
    Some (0, s).

Definition jz4740_cpufreq_driver_init (p : cpufreq_policy) (s : cpufreq)
  : option (Z * cpufreq_policy * cpufreq) :=
  if negb (cpu p =? 0) then Some (- EINVAL, p, s)
  else
    c ← __cpm_get_cclk (regs s);
    let MAX_FREQ := c / 1000 in
    let p := Policy (cpu p) (p_min p) (p_max p) MAX_FREQ (MAX_FREQ / 8) MAX_FREQ in
    let t := [MAX_FREQ / 8; MAX_FREQ / 6; MAX_FREQ / 4; MAX_FREQ / 3; MAX_FREQ / 2; MAX_FREQ;
              CPUFREQ_TABLE_END] in
    '(r, p) ← cpufreq_frequency_table_cpuinfo p t;
    Some (r, p, set_table t s).

Definition cpufreq_verify_within_limits (lo hi : Z) (p : cpufreq_policy) : cpufreq_policy :=
  let mn := if p_min p <? lo then lo else p_min p in
  let mx := if p_max p <? lo then lo else p_max p in
  let mn := if hi <? mn then hi else mn in
  let mx := if hi <? mx then hi else mx in
  let mn := if mx <? mn then mx else mn in
  Policy (cpu p) mn mx (cur p) (min_freq p) (max_freq p).

(** The number of entries within the policy and the next larger frequency. *)
Fixpoint verify_loop (p : cpufreq_policy) (t : list Z) (count next_larger : Z) : option (Z * Z) :=
  match t with
  | [] => None
  | freq :: t =>
      if freq =? CPUFREQ_TABLE_END then Some (count, next_larger)
      else if freq =? CPUFREQ_ENTRY_INVALID then verify_loop p t count next_larger
      else if (p_min p <=? freq) && (freq <=? p_max p) then verify_loop p t (count + 1) next_larger
      else if (freq <? next_larger) && (p_max p <? freq) then verify_loop p t count freq
      else verify_loop p t count next_larger
  end.

Definition cpufreq_frequency_table_verify (online : bool) (p : cpufreq_policy) (t : list Z)
  : option (Z * cpufreq_policy) :=
  if negb online then Some (- EINVAL, p)
  else
    let p := cpufreq_verify_within_limits (min_freq p) (max_freq p) p in
    '(count, next_larger) ← verify_loop p t 0 (2 ^ 32 - 1);
    let p := if count =? 0
             then Policy (cpu p) (p_min p) next_larger (cur p) (min_freq p) (max_freq p) else p in
    Some (0, cpufreq_verify_within_limits (min_freq p) (max_freq p) p).

Definition jz4740_freq_verify (online : bool) (p : cpufreq_policy) (s : cpufreq)
  : option (Z * cpufreq_policy) :=
  cpufreq_frequency_table_verify online p (table s).

(** ** Register fields *)

(** A field of a register whose bits are cleared and then set. *)
Lemma replaced_field D T w b k :
  0 <= b -> 0 <= k -> Z.land (Z.shiftr T b) (Z.ones k) = Z.ones k ->
  Z.land (Z.shiftr (Z.lor (Z.ldiff D T) w) b) (Z.ones k) = Z.land (Z.shiftr w b) (Z.ones k).
Proof.
  intros Hb Hk HT. apply Z.bits_inj'. intros i Hi.
  apply (f_equal (fun x => Z.testbit x i)) in HT.
  rewrite !Z.land_spec, !Z.shiftr_spec, Z.lor_spec, Z.ldiff_spec in * by lia.
  destruct (Z.testbit (Z.ones k) i); [|by rewrite !andb_false_r].
  rewrite andb_true_r in HT. rewrite HT. by rewrite andb_false_r.
Qed.

(** The timing bits of [jz_update_dram_dmcr] and back. *)
Definition timing_word (tras rcd tpc trwl trc : Z) : Z :=
  Z.lor (Z.lor (Z.lor (Z.lor (Z.shiftl tras EMC_DMCR_TRAS_BIT) (Z.shiftl rcd EMC_DMCR_RCD_BIT))
      (Z.shiftl tpc EMC_DMCR_TPC_BIT)) (Z.shiftl trwl EMC_DMCR_TRWL_BIT))
      (Z.shiftl trc EMC_DMCR_TRC_BIT).

Lemma in_seqZ n x : 0 <= x < n -> x ∈ seqZ 0 n.
Proof. intros. apply elem_of_seqZ. lia. Qed.

Definition timing_fields (w : Z) : Z * Z * Z * Z * Z :=
  (Z.land (Z.shiftr w 13) 7, Z.land (Z.shiftr w 11) 3, Z.land (Z.shiftr w 8) 7,
   Z.land (Z.shiftr w 5) 3, Z.land (Z.shiftr w 2) 7).

Lemma timing_word_fields a r p w c :
  0 <= a < 8 -> 0 <= r < 4 -> 0 <= p < 8 -> 0 <= w < 4 -> 0 <= c < 8 ->
  timing_fields (timing_word a r p w c) = (a, r, p, w, c).
Proof.
  intros Ha Hr Hp Hw Hc.
  assert (Hall : Forall (fun a => Forall (fun r => Forall (fun p => Forall (fun w => Forall (fun c =>
    timing_fields (timing_word a r p w c) = (a, r, p, w, c)) (seqZ 0 8)) (seqZ 0 4)) (seqZ 0 8))
    (seqZ 0 4)) (seqZ 0 8)).
  { apply (bool_decide_unpack _). vm_compute. exact I. }
  rewrite Forall_forall in Hall. specialize (Hall a (in_seqZ _ _ Ha)). cbv beta in Hall.
  rewrite Forall_forall in Hall. specialize (Hall r (in_seqZ _ _ Hr)). cbv beta in Hall.
  rewrite Forall_forall in Hall. specialize (Hall p (in_seqZ _ _ Hp)). cbv beta in Hall.
  rewrite Forall_forall in Hall. specialize (Hall w (in_seqZ _ _ Hw)). cbv beta in Hall.
  rewrite Forall_forall in Hall. exact (Hall c (in_seqZ _ _ Hc)).
Qed.

Lemma dmcr_fields D w :
  timing_fields (Z.lor (Z.ldiff D DMCR_TIMING) w) = timing_fields w.
Proof.
  unfold timing_fields. change 3 with (Z.ones 2). change 7 with (Z.ones 3).
  by repeat rewrite replaced_field by (try lia; reflexivity).
Qed.

(** ** Memory timing: specification *)

(** Cycles that the memory controller waits. *)
Definition cycles_of (h : hw) : list Z :=
  let '(a, r, p, w, c) := timing_fields (DMCR h) in [a + 4; r + 1; p + 1; w + 1; c * 2 + 1].

Definition boot_cycles (b : boot_params) : list Z := [b_tras b; b_rcd b; b_tpc b; b_trwl b; b_trc b].

(** Time of [n] cycles at [f] kHz, in whole nanoseconds. *)
Definition ns (n f : Z) : Z := n * 1000000 / f.

(** At a memory clock of [f] kHz no time is shorter than it was at boot, and
    memory is refreshed at least as often. *)
Definition timing_ok (b : boot_params) (h : hw) (f : Z) : Prop :=
  Forall2 (fun t n => ns t (b_mclk b) <= ns n f) (boot_cycles b) (cycles_of h).

Definition refresh_ok (b : boot_params) (h : hw) (f : Z) : Prop :=
  RTCOR h * b_mclk b <= b_rtcor b * f.

Definition dram_ok (b : boot_params) (h : hw) : Prop :=
  exists x, __cpm_get_mclk h = Some x /\ 0 < x / 1000 /\
    timing_ok b h (x / 1000) /\ refresh_ok b h (x / 1000).

(** Boot parameters as [jz_init_boot_config] reads them. *)
Record boot_ok (b : boot_params) : Prop := {
  ok_mclk : 0 < b_mclk b < 2 ^ 24;
  ok_tras : 4 <= b_tras b <= 11;
  ok_rcd : 1 <= b_rcd b <= 4;
  ok_tpc : 1 <= b_tpc b <= 8;
  ok_trwl : 1 <= b_trwl b <= 4;
  ok_trc : 1 <= b_trc b <= 15;
  ok_rtcor : 0 <= b_rtcor b <= 255 }.

Lemma ns_mono n n' f f' : 0 <= n <= n' -> 0 < f' <= f -> ns n f <= ns n' f'.
Proof.
  intros Hn Hf. unfold ns. transitivity (n * 1000000 / f').
  - apply Z.div_le_compat_l; lia.
  - apply Z.div_le_mono; lia.
Qed.


Lemma cycles_of_nonneg h : Forall (fun n => 0 <= n) (cycles_of h).
Proof.
  unfold cycles_of, timing_fields.
  assert (H : forall x k, 0 <= k -> 0 <= Z.land x (Z.ones k)).
  { intros x k Hk. rewrite Z.land_ones by done. apply Z.mod_pos_bound. lia. }
  pose proof (H (Z.shiftr (DMCR h) 13) 3). pose proof (H (Z.shiftr (DMCR h) 11) 2).
  pose proof (H (Z.shiftr (DMCR h) 8) 3). pose proof (H (Z.shiftr (DMCR h) 5) 2).
  pose proof (H (Z.shiftr (DMCR h) 2) 3). change (Z.ones 3) with 7 in *. change (Z.ones 2) with 3 in *.
  repeat constructor; lia.
Qed.

(** Slower is safe for the timing, faster for the refresh. *)
Lemma timing_ok_slower b h f f' : 0 < f' <= f -> timing_ok b h f -> timing_ok b h f'.
Proof.
  unfold timing_ok. intros Hf H. pose proof (cycles_of_nonneg h) as Hn. revert H Hn.
  generalize (boot_cycles b). generalize (cycles_of h). intros l l' H. induction H; constructor.
  - apply Forall_inv in Hn. etransitivity; [exact H|]. apply ns_mono; lia.
  - apply Forall_inv_tail in Hn. auto.
Qed.

Lemma refresh_ok_faster b h f f' : 0 <= b_rtcor b -> f <= f' -> refresh_ok b h f -> refresh_ok b h f'.
Proof. unfold refresh_ok. intros. nia. Qed.

(** ** Memory timing: the updates *)

Lemma u32_small x : 0 <= x < 2 ^ 32 -> u32 x = x.
Proof. apply Z.mod_small. Qed.

Lemma scale_cycles_spec t step m f :
  0 < t <= 15 -> 1 <= step <= 2 -> 0 < f <= m -> m < 2 ^ 24 ->
  exists n, scale_cycles t step m f = Some n /\ 0 <= n < t + step /\ ns t m <= ns n f.
Proof.
  intros Ht Hs Hf Hm. unfold scale_cycles, udiv.
  replace (m =? 0) with false by lia. replace (f =? 0) with false by lia. cbn [mbind option_bind].
  rewrite (u32_small (t * f)), (u32_small (t * 1000000)) by nia.
  assert (Hn : 0 <= t * f / m <= t)
    by (split; [apply Z.div_pos; nia|apply Z.div_le_upper_bound; nia]).
  rewrite (u32_small (t * f / m * 1000000)) by lia. fold (ns t m). fold (ns (t * f / m) f).
  eexists. split; [reflexivity|].
  destruct (Z.ltb_spec (ns (t * f / m) f) (ns t m)) as [H|H]; [|lia].
  rewrite u32_small by lia.
  assert (t * f / m <> t).
  { intros He. rewrite He in H. pose proof (ns_mono t t m f). lia. }
  split; [lia|]. transitivity (ns (t * f / m + 1) f); [|apply ns_mono; lia].
  unfold ns. apply Z.div_le_lower_bound; [lia|].
  assert (H1 : m * (t * 1000000 / m) <= t * 1000000) by (apply Z.mul_div_le; lia).
  assert (H2 : t * f < m * (t * f / m + 1)) by (pose proof (Z.mul_succ_div_gt (t * f) m); lia).
  nia.
Qed.

Lemma clamp_le lo hi x : x <= hi -> lo <= hi -> x <= clamp lo hi x /\ lo <= clamp lo hi x <= hi.
Proof.
  intros Hx Hl. unfold clamp. cbv zeta. destruct (Z.ltb_spec x lo), (Z.ltb_spec hi lo), (Z.ltb_spec hi x); lia.
Qed.

Lemma clamp_range lo hi x : lo <= hi -> lo <= clamp lo hi x <= hi.
Proof.
  intros Hl. unfold clamp. cbv zeta. destruct (Z.ltb_spec x lo), (Z.ltb_spec hi lo), (Z.ltb_spec hi x); lia.
Qed.

Lemma update_dmcr_spec b y s :
  boot_ok b -> boot_config s = b -> 0 < y / 1000 <= b_mclk b ->
  exists d, jz_update_dram_dmcr y s = Some (write_regs (set_DMCR d (regs s)) s) /\
    timing_ok b (set_DMCR d (regs s)) (y / 1000).
Proof.
  intros [Hm H1 H2 H3 H4 H5 _] Hb Hf. unfold jz_update_dram_dmcr. rewrite Hb. set (f := y / 1000) in *.
  destruct (scale_cycles_spec (b_tras b) 1 (b_mclk b) f) as (n1 & -> & B1 & L1); [lia..|].
  destruct (scale_cycles_spec (b_rcd b) 1 (b_mclk b) f) as (n2 & -> & B2 & L2); [lia..|].
  destruct (scale_cycles_spec (b_tpc b) 1 (b_mclk b) f) as (n3 & -> & B3 & L3); [lia..|].
  destruct (scale_cycles_spec (b_trwl b) 1 (b_mclk b) f) as (n4 & -> & B4 & L4); [lia..|].
  destruct (scale_cycles_spec (b_trc b) 2 (b_mclk b) f) as (n5 & -> & B5 & L5); [lia..|].
  cbn [mbind option_bind]. eexists. split; [reflexivity|].
  unfold timing_ok, cycles_of. cbn [DMCR set_DMCR]. rewrite dmcr_fields.
  pose proof (clamp_le 4 11 n1). pose proof (clamp_le 1 4 n2). pose proof (clamp_le 1 8 n3).
  pose proof (clamp_le 1 4 n4). pose proof (clamp_range 1 15 n5).
  fold (timing_word (clamp 4 11 n1 - 4) (clamp 1 4 n2 - 1) (clamp 1 8 n3 - 1) (clamp 1 4 n4 - 1)
          (clamp 1 15 n5 / 2)).
  rewrite timing_word_fields by (Z.to_euclidean_division_equations; lia).
  assert (Hc : ns (b_trc b) (b_mclk b) <= ns (clamp 1 15 n5 / 2 * 2 + 1) f).
  { assert (Hd : clamp 1 15 n5 <= clamp 1 15 n5 / 2 * 2 + 1) by (Z.to_euclidean_division_equations; lia).
    destruct (Z.le_gt_cases n5 15) as [H15|H15].
    - etransitivity; [exact L5|]. apply ns_mono; [|lia]. pose proof (clamp_le 1 15 n5). lia.
    - assert (He : clamp 1 15 n5 = 15)
        by (unfold clamp; cbv zeta; destruct (Z.ltb_spec n5 1), (Z.ltb_spec 15 n5); lia).
      rewrite He in *. apply ns_mono; lia. }
  repeat constructor; try exact Hc; (etransitivity; [eassumption|]; apply ns_mono; lia).
Qed.

Lemma update_rtcor_spec b y s :
  boot_ok b -> boot_config s = b -> b_mclk b <= b_rtcor b * (y / 1000) -> 0 < y / 1000 < 2 ^ 24 ->
  exists r, jz_update_dram_rtcor y s =
      Some (write_regs (set_RTCNT r (set_RTCOR r (regs s))) (write_regs (set_RTCOR r (regs s)) s)) /\
    1 <= r <= 255 /\ refresh_ok b (set_RTCOR r (regs s)) (y / 1000).
Proof.
  intros [Hm _ _ _ _ _ Hr] Hb Hle Hf. unfold jz_update_dram_rtcor, udiv. rewrite Hb.
  replace (b_mclk b =? 0) with false by lia. cbn [mbind option_bind].
  rewrite (u32_small (_ * _)) by nia. set (q := b_rtcor b * (y / 1000) / b_mclk b).
  assert (Hq : 1 <= q) by (apply Z.div_le_lower_bound; lia).
  assert (Hq2 : b_mclk b * q <= b_rtcor b * (y / 1000)) by (apply Z.mul_div_le; lia).
  rewrite (u32_small (q - 1)) by nia.
  eexists. split; [reflexivity|]. unfold refresh_ok. cbn [RTCOR set_RTCOR].
  destruct (Z.ltb_spec (q - 1) 1); [change (255 <? 1) with false|destruct (Z.ltb_spec 255 (q - 1))]; nia.
Qed.

(** ** A change of the divisors *)

Definition new_CPCCR (r : dpm_regs) (h : hw) : Z :=
  Z.lor (Z.lor (Z.ldiff (CPCCR h) (cpccr_mask r)) (cpccr r)) CPM_CPCCR_CE.

(** Everything but the memory timing registers is the same. *)
Definition same_clocks (h h' : hw) : Prop :=
  CPCCR h' = CPCCR h /\ CPPCR h' = CPPCR h /\ I2SCDR h' = I2SCDR h /\ LPCDR h' = LPCDR h /\
  MSCCDR h' = MSCCDR h.

(** [s'] is [s] after writes that were all safe. *)
Definition safe_change (b : boot_params) (h : hw) (s s' : cpufreq) : Prop :=
  same_clocks h (regs s') /\ boot_config s' = boot_config s /\ table s' = table s /\
  notified s' = notified s /\ dram_ok b (regs s') /\
  exists ws, writes s' = writes s ++ ws /\ Forall (dram_ok b) ws.

Lemma dram_ok_intro b h x :
  __cpm_get_mclk h = Some x -> 0 < x / 1000 -> timing_ok b h (x / 1000) ->
  refresh_ok b h (x / 1000) -> dram_ok b h.
Proof. intros. by exists x. Qed.

Lemma scale_divisors_safe b r s y :
  boot_ok b -> boot_config s = b -> dram_ok b (regs s) -> is_Some (__cpm_get_cclk (regs s)) ->
  __cpm_get_mclk (set_CPCCR (new_CPCCR r (regs s)) (regs s)) = Some y ->
  0 < y / 1000 <= b_mclk b -> b_mclk b <= b_rtcor b * (y / 1000) ->
  exists s', jz_scale_divisors r s = Some s' /\
    safe_change b (set_CPCCR (new_CPCCR r (regs s)) (regs s)) s s'.
Proof.
  intros Hok Hb (x & Hx & Hx0 & Ht & Hr) (z & Hz) Hy Hy0 Hy1.
  unfold jz_scale_divisors. rewrite Hz. cbn [mbind option_bind]. fold (new_CPCCR r (regs s)).
  rewrite Hx. cbn [mbind option_bind].
  change (pllout_over (regs s) (bits (new_CPCCR r (regs s)) CPM_CPCCR_MDIV_MASK CPM_CPCCR_MDIV_BIT))
    with (__cpm_get_mclk (set_CPCCR (new_CPCCR r (regs s)) (regs s))).
  rewrite Hy. cbn [mbind option_bind]. generalize dependent (new_CPCCR r (regs s)). intros c Hy.
  pose proof (ok_mclk _ Hok) as Hm. pose proof (ok_rtcor _ Hok) as Hc.
  unfold jz_update_dram_prev, jz_update_dram_post. destruct (Z.ltb_spec x y) as [Hlt|Hge].
  - assert (Hxy : x / 1000 <= y / 1000) by (apply Z.div_le_mono; lia).
    destruct (update_dmcr_spec b y s Hok Hb Hy0) as (d & -> & Td). cbn [mbind option_bind].
    edestruct (update_rtcor_spec b y) as (v & -> & Hv & Rv); [exact Hok| |exact Hy1|lia|];
      [by cbn|]. cbn [regs write_regs].
    eexists. split; [reflexivity|]. repeat split; try done.
    + apply (dram_ok_intro _ _ y); try done. lia.
    + exists [set_DMCR d (regs s); set_CPCCR c (set_DMCR d (regs s));
              set_RTCOR v (set_CPCCR c (set_DMCR d (regs s)));
              set_RTCNT v (set_RTCOR v (set_CPCCR c (set_DMCR d (regs s))))].
      split; [cbn; by rewrite <- !app_assoc|]. repeat constructor.
      * apply (dram_ok_intro _ _ x); try done. apply (timing_ok_slower _ _ (y / 1000)); [lia|done].
      * apply (dram_ok_intro _ _ y); try done; [lia|]. apply (refresh_ok_faster _ _ (x / 1000)); [lia..|done].
      * apply (dram_ok_intro _ _ y); try done. lia.
      * apply (dram_ok_intro _ _ y); try done. lia.
  - assert (Hxy : y / 1000 <= x / 1000) by (apply Z.div_le_mono; lia).
    edestruct (update_rtcor_spec b y s) as (v & -> & Hv & Rv); [exact Hok|exact Hb|exact Hy1|lia|].
    cbn [mbind option_bind]. edestruct (update_dmcr_spec b y) as (d & -> & Td);
      [exact Hok| |exact Hy0|]; [by cbn|]. cbn [regs write_regs] in *.
    eexists. split; [reflexivity|]. repeat split; try done.
    + apply (dram_ok_intro _ _ y); try done. lia.
    + exists [set_RTCOR v (regs s); set_RTCNT v (set_RTCOR v (regs s));
              set_CPCCR c (set_RTCNT v (set_RTCOR v (regs s)));
              set_DMCR d (set_CPCCR c (set_RTCNT v (set_RTCOR v (regs s))))].
      split; [cbn; by rewrite <- !app_assoc|]. repeat constructor.
      * apply (dram_ok_intro _ _ x); try done. apply (refresh_ok_faster _ _ (y / 1000)); [lia..|done].
      * apply (dram_ok_intro _ _ x); try done. apply (refresh_ok_faster _ _ (y / 1000)); [lia..|done].
      * apply (dram_ok_intro _ _ y); try done; [lia|]. apply (timing_ok_slower _ _ (x / 1000)); [lia|done].
      * apply (dram_ok_intro _ _ y); try done. lia.
Qed.

(** ** The operating points *)

(** The factors below the boot frequency, by table index. *)
Definition factors : list Z := [8; 6; 4; 3; 2; 1].

(** The table for a PLL output of [P] and a boot divisor [c]. *)
Definition boot_table (P c : Z) : list Z :=
  map (fun k => P / c / 1000 / k) [8; 6; 4; 3; 2] ++ [P / c / 1000; CPUFREQ_TABLE_END].

(** Divisor of the three bus clocks for a CPU divisor [d]. *)
Definition bus_div (d : Z) : Z := (if (d =? 1) || (d =? 2) || (d =? 4) then 3 else 2) * d.

Definition good_div (d : Z) : Prop := d ∈ [1; 2; 3; 4; 6; 8; 12; 16].

Ltac each_div H := repeat (apply elem_of_cons in H as [->|H]); [..|by apply elem_of_nil in H].

Lemma point_div c i k :
  c = 1 \/ c = 2 -> rd factors i = Some k ->
  good_div (c * k) /\ 1 <= k <= 8 /\ 3 * c <= bus_div (c * k) <= 16 * c /\
  forall P, rd (boot_table P c) i = Some (P / c / 1000 / k).
Proof.
  intros Hc Hi. unfold rd in *. destruct (Z.leb_spec 0 i); [|done].
  destruct (Z.to_nat i) as [|[|[|[|[|[|n]]]]]]; cbn in Hi;
    try discriminate Hi; injection Hi as <-;
    (split_and!; [destruct Hc as [->| ->]; apply (bool_decide_unpack _); reflexivity
                 |lia|lia|destruct Hc as [->| ->]; vm_compute; discriminate
                 |destruct Hc as [->| ->]; vm_compute; discriminate|]); intros P; cbn;
    try reflexivity. by rewrite Z.div_1_r.
Qed.

(** The table entries are rounded down; the divisor comes out right. *)
Lemma divisor_of_entry P d : 1 <= d <= 16 -> 256000 <= P -> P / (1000 * (P / (1000 * d))) = d.
Proof.
  intros Hd HP. set (f := P / (1000 * d)).
  assert (Hf : d <= f) by (apply Z.div_le_lower_bound; nia).
  pose proof (Z.mul_div_le P (1000 * d)). pose proof (Z.mul_succ_div_gt P (1000 * d)).
  fold f in H, H0. symmetry. apply Z.div_unique with (P - 1000 * f * d); nia.
Qed.

(** The register value for a CPU divisor. *)
Definition point_word (d : Z) : Z :=
  let n x := default 0 (rd n2FR x) in
  Z.lor (Z.lor (Z.lor (Z.shiftl (n d) CPM_CPCCR_CDIV_BIT) (Z.shiftl (n (bus_div d)) CPM_CPCCR_HDIV_BIT))
    (Z.shiftl (n (bus_div d)) CPM_CPCCR_PDIV_BIT)) (Z.shiftl (n (bus_div d)) CPM_CPCCR_MDIV_BIT).

Definition point (d : Z) : dpm_regs := Dpm (point_word d) 65535.

Lemma index_to_divisor_spec P c i k s :
  c = 1 \/ c = 2 -> 256000 <= P < 2 ^ 32 -> __cpm_get_pllout (regs s) = Some P ->
  table s = boot_table P c -> rd factors i = Some k ->
  index_to_divisor i s = Some (c * k, point (c * k)).
Proof.
  intros Hc HP Hp Ht Hi. destruct (point_div c i k Hc Hi) as (Hg & Hk & _ & Hr).
  unfold index_to_divisor. rewrite Ht, Hr, Hp. cbn [mbind option_bind].
  rewrite Z.div_div, Z.div_div by lia. replace (c * (1000 * k)) with (1000 * (c * k)) by lia.
  assert (Hd : 1 <= c * k <= 16) by lia.
  assert (Hf : 16 <= P / (1000 * (c * k))) by (apply Z.div_le_lower_bound; nia).
  assert (Hm : 0 <= 1000 * (P / (1000 * (c * k))) < 2 ^ 32).
  { pose proof (Z.mul_div_le P (1000 * (c * k))) as Hm.
    revert Hf Hm. generalize (P / (1000 * (c * k))). intros f Hf Hm. nia. }
  rewrite u32_small by exact Hm.
  unfold udiv at 1. rewrite (proj2 (Z.eqb_neq (1000 * (P / (1000 * (c * k)))) 0))
    by (revert Hf; generalize (P / (1000 * (c * k))); lia).
  cbn [mbind option_bind]. rewrite divisor_of_entry by lia.
  revert Hg. generalize (c * k). intros d Hg. each_div Hg; reflexivity.
Qed.

Lemma field_new_CPCCR d h b :
  0 <= b <= 12 ->
  bits (new_CPCCR (point d) h) (Z.shiftl 15 b) b =
  Z.land (Z.shiftr (Z.lor (point_word d) CPM_CPCCR_CE) b) 15.
Proof.
  intros Hb. unfold bits, new_CPCCR. cbn [cpccr cpccr_mask point].
  rewrite Z.shiftr_land, Z.shiftr_shiftl_l, Z.sub_diag, Z.shiftl_0_r, <- Z.lor_assoc by lia.
  change 15 with (Z.ones 4). apply replaced_field; [lia..|].
  change 65535 with (Z.ones 16). apply Z.bits_inj'. intros i Hi.
  rewrite Z.land_spec, Z.shiftr_spec by lia. rewrite !Z.testbit_ones_nonneg by lia.
  destruct (Z.ltb_spec i 4), (Z.ltb_spec (i + b) 16); try reflexivity; lia.
Qed.

(** The clocks after the switch. *)
Lemma point_clocks P d h h' :
  good_div d -> __cpm_get_pllout h = Some P -> same_clocks (set_CPCCR (new_CPCCR (point d) h) h) h' ->
  __cpm_get_cclk h' = Some (P / d) /\ __cpm_get_hclk h' = Some (P / bus_div d) /\
  __cpm_get_pclk h' = Some (P / bus_div d) /\ __cpm_get_mclk h' = Some (P / bus_div d).
Proof.
  intros Hg Hp (HC & HP & _). cbn in HC, HP.
  assert (Hp' : __cpm_get_pllout h' = Some P).
  { rewrite <- Hp. unfold __cpm_get_pllout, __cpm_get_pllm, __cpm_get_plln, __cpm_get_pllod.
    by rewrite HP. }
  unfold __cpm_get_cclk, __cpm_get_hclk, __cpm_get_pclk, __cpm_get_mclk, pllout_over.
  rewrite Hp'. cbn [mbind option_bind].
  unfold __cpm_get_cdiv, __cpm_get_hdiv, __cpm_get_pdiv, __cpm_get_mdiv. rewrite HC.
  unfold CPM_CPCCR_CDIV_MASK, CPM_CPCCR_HDIV_MASK, CPM_CPCCR_PDIV_MASK, CPM_CPCCR_MDIV_MASK.
  rewrite !field_new_CPCCR by (vm_compute; split; discriminate).
  clear HC. each_div Hg; split_and!; reflexivity.
Qed.

Lemma bits_nonneg r mask bit : 0 <= mask -> 0 <= bits r mask bit.
Proof. intros H. unfold bits. apply Z.shiftr_nonneg, Z.land_nonneg. by right. Qed.

Lemma pllout2_some P h : __cpm_get_pllout h = Some P -> exists Q, __cpm_get_pllout2 h = Some Q.
Proof. intros Hp. unfold __cpm_get_pllout2. rewrite Hp. by eexists. Qed.

Lemma udiv_succ a b : 0 <= b -> udiv a (b + 1) = Some (a / (b + 1)).
Proof. intros. unfold udiv. by replace (b + 1 =? 0) with false by lia. Qed.

(** The bus clocks are what can go wrong. *)
Lemma update_clocks_ok P s :
  __cpm_get_pllout (regs s) = Some P -> is_Some (__cpm_get_cclk (regs s)) ->
  is_Some (__cpm_get_hclk (regs s)) -> is_Some (__cpm_get_mclk (regs s)) ->
  is_Some (__cpm_get_pclk (regs s)) ->
  exists k, jz_update_clocks s = Some (set_clocks k s).
Proof.
  intros Hp (c & Hc) (hc & Hh) (mc & Hm) (pc & Hpc). destruct (pllout2_some P (regs s) Hp) as (Q & HQ).
  unfold jz_update_clocks. rewrite Hc, Hh, Hm, Hpc. cbn [mbind option_bind].
  unfold __cpm_get_lcdclk, __cpm_get_pixclk, __cpm_get_i2sclk, __cpm_get_usbclk, __cpm_get_mscclk.
  rewrite HQ. cbn [mbind option_bind].
  rewrite !udiv_succ by (apply bits_nonneg; vm_compute; discriminate). cbn [mbind option_bind].
  destruct (is_set _ CPM_CPCCR_I2CS), (is_set _ CPM_CPCCR_UCS); cbn [mbind option_bind]; eauto.
Qed.

Definition init_flags (b : boot_params) : Prop :=
  lcd_clks_initialized b <> 0 /\ sdram_initialized b <> 0.

Lemma init_boot_flags s s' : jz_init_boot_config s = Some s' -> init_flags (boot_config s').
Proof.
  unfold jz_init_boot_config, init_flags. intros H.
  assert (Hs : exists s1, (if lcd_clks_initialized (boot_config s) =? 0 then
     lc ← __cpm_get_lcdclk (regs s); px ← __cpm_get_pixclk (regs s);
     Some (set_boot (Boot (b_mclk (boot_config s)) (b_tras (boot_config s)) (b_rcd (boot_config s))
       (b_tpc (boot_config s)) (b_trwl (boot_config s)) (b_trc (boot_config s))
       (b_rtcor (boot_config s)) (sdram_initialized (boot_config s)) lc px 1) s)
     else Some s) = Some s1 /\ lcd_clks_initialized (boot_config s1) <> 0).
  { cbv zeta in H. apply bind_Some in H as (s1 & H1 & _). exists s1. split; [exact H1|].
    destruct (Z.eqb_spec (lcd_clks_initialized (boot_config s)) 0); [|by injection H1 as <-].
    apply bind_Some in H1 as (? & _ & H1). apply bind_Some in H1 as (? & _ & H1).
    by injection H1 as <-. }
  destruct Hs as (s1 & H1 & Hl). cbv zeta in H. rewrite H1 in H. cbn [mbind option_bind] in H.
  destruct (Z.eqb_spec (sdram_initialized (boot_config s1)) 0); [|by injection H as <-].
  apply bind_Some in H as (? & _ & H). by injection H as <-.
Qed.

Lemma init_boot_done s : init_flags (boot_config s) -> jz_init_boot_config s = Some s.
Proof.
  intros [Hl Hs]. unfold jz_init_boot_config. cbv zeta.
  rewrite (proj2 (Z.eqb_neq _ _) Hl). cbn [mbind option_bind]. by rewrite (proj2 (Z.eqb_neq _ _) Hs).
Qed.

Lemma init_boot_notify n s s' :
  jz_init_boot_config s = Some s' ->
  jz_init_boot_config (cpufreq_notify_transition n s) = Some (cpufreq_notify_transition n s').
Proof.
  unfold jz_init_boot_config. cbv zeta. intros H.
  apply bind_Some in H as (s1 & H1 & H). apply bind_Some.
  exists (cpufreq_notify_transition n s1). cbn [regs boot_config cpufreq_notify_transition].
  assert (regs s1 = regs s).
  { destruct (lcd_clks_initialized (boot_config s) =? 0); [|by injection H1 as <-].
    apply bind_Some in H1 as (? & _ & H1). apply bind_Some in H1 as (? & _ & H1).
    by injection H1 as <-. }
  split.
  - destruct (lcd_clks_initialized (boot_config s) =? 0); [|by injection H1 as <-].
    apply bind_Some in H1 as (lc & -> & H1). apply bind_Some in H1 as (px & Hpx & H1).
    cbn [mbind option_bind]. rewrite Hpx. by injection H1 as <-.
  - destruct (sdram_initialized (boot_config s1) =? 0); [|by injection H as <-].
    apply bind_Some in H as (mc & -> & H). by injection H as <-.
Qed.

(** The state between two changes, for a PLL output [P], a boot divisor [c] and
    the parameters [b] that the boot configuration has, or will have when the
    first change reads them from the registers. *)
Record freq_inv (P c : Z) (b : boot_params) (s : cpufreq) : Prop := {
  inv_pll : __cpm_get_pllout (regs s) = Some P;
  inv_table : table s = boot_table P c;
  inv_boot : jz_init_boot_config s = Some (set_boot b s);
  inv_dram : dram_ok b (regs s);
  inv_cclk : exists d, 1 <= d <= 32 /\ __cpm_get_cclk (regs s) = Some (P / d) }.

(** The PLL runs at 256 kHz at least; the boot divisor is 1 or 2; at boot, memory
    was not slower than with the driver's divisors at full speed, and the
    refresh counter can be scaled down to the slowest point. *)
Record boot_points (P c : Z) (b : boot_params) : Prop := {
  bp_c : c = 1 \/ c = 2;
  bp_P : 256000 <= P < 2 ^ 32;
  bp_boot : boot_ok b;
  bp_fast : P / (3 * c) / 1000 <= b_mclk b;
  bp_slow : b_mclk b <= b_rtcor b * (P / (16 * c) / 1000) }.

Section Points.
Context (P c : Z) (b : boot_params) (BP : boot_points P c b).

Lemma transition_point d s :
  good_div d -> 1 <= d <= 16 -> 3 * c <= bus_div d <= 16 * c -> freq_inv P c b s ->
  exists s' ws, jz4740_transition (point d) s = Some s' /\ freq_inv P c b s' /\
    __cpm_get_cclk (regs s') = Some (P / d) /\ notified s' = notified s /\
    writes s' = writes s ++ ws /\ Forall (dram_ok b) ws.
Proof.
  intros Hg Hd Hbus [Ip It Ib Id (d0 & Hd0 & Ic)]. destruct BP as [Hc HP Hok Hfast Hslow].
  pose proof (init_boot_flags _ _ Ib) as Hfl. cbn in Hfl.
  unfold jz4740_transition. rewrite Ib. cbn [mbind option_bind].
  assert (Hy : __cpm_get_mclk (set_CPCCR (new_CPCCR (point d) (regs s)) (regs s)) = Some (P / bus_div d))
    by (by eapply point_clocks).
  assert (P / (16 * c) / 1000 <= P / bus_div d / 1000 <= P / (3 * c) / 1000)
    by (split; apply Z.div_le_mono; try lia; apply Z.div_le_compat_l; lia).
  assert (8 <= P / (16 * c) / 1000) by (do 2 (apply Z.div_le_lower_bound; [lia|]); lia).
  destruct (scale_divisors_safe b (point d) (set_boot b s) (P / bus_div d))
    as (s' & -> & Hcl & Hb' & Ht' & Hn' & Hdr & ws & Hw & Hws);
    [exact Hok|reflexivity|exact Id|by exists (P / d0)|exact Hy|lia| |].
  { pose proof (ok_rtcor _ Hok). nia. }
  cbn [mbind option_bind]. destruct (point_clocks P d (regs s) (regs s') Hg Ip Hcl) as (C1 & C2 & C3 & C4).
  assert (Hp' : __cpm_get_pllout (regs s') = Some P).
  { rewrite <- Ip. destruct Hcl as (_ & HP' & _).
    unfold __cpm_get_pllout, __cpm_get_pllm, __cpm_get_plln, __cpm_get_pllod. by rewrite HP'. }
  destruct (update_clocks_ok P s' Hp') as (k & ->); [eauto..|].
  exists (set_clocks k s'), ws. split_and!; try done. split; try done; cbn [regs table set_clocks].
  - by rewrite Ht'.
  - rewrite init_boot_done; [|cbn; by rewrite Hb']. f_equal. destruct s'. cbn in *. by subst.
  - exists d. split; [lia|done].
Qed.

Lemma set_divider_point i k s :
  rd factors i = Some k -> freq_inv P c b s ->
  exists s' ws old, jz4740_set_cpu_divider_index i s = Some s' /\ freq_inv P c b s' /\
    __cpm_get_cclk (regs s') = Some (P / (c * k)) /\
    writes s' = writes s ++ ws /\ Forall (dram_ok b) ws /\
    jz4740_freq_get s = Some old /\
    notified s' = notified s ++ [CPUFREQ_PRECHANGE old (P / (1000 * (c * k)));
                                 CPUFREQ_POSTCHANGE old (P / (1000 * (c * k)))].
Proof.
  intros Hi Inv. destruct Inv as [Ip It Ib Id (d0 & Hd0 & Ic)] eqn:HI. clear HI.
  destruct BP as [Hc HP Hok Hfast Hslow] eqn:HB. clear HB.
  destruct (point_div c i k Hc Hi) as (Hg & Hk & Hbus & _).
  assert (Hd : 1 <= c * k <= 16) by lia.
  unfold jz4740_set_cpu_divider_index, jz4740_freq_get. rewrite Ip, Ic. cbn [mbind option_bind].
  assert (Hf0 : d0 <= P / d0) by (apply Z.div_le_lower_bound; nia).
  assert (Hold : udiv P (P / d0) = Some d0).
  { unfold udiv. rewrite (proj2 (Z.eqb_neq (P / d0) 0)) by lia. f_equal.
    pose proof (Z.mul_div_le P d0). pose proof (Z.mul_succ_div_gt P d0).
    symmetry. apply Z.div_unique with (P - P / d0 * d0); nia. }
  rewrite Hold. cbn [mbind option_bind].
  rewrite (index_to_divisor_spec P c i k) by done. cbn [mbind option_bind].
  rewrite u32_small by lia. unfold udiv at 1.
  rewrite (proj2 (Z.eqb_neq (1000 * (c * k)) 0)) by lia. cbn [mbind option_bind].
  set (new := P / (1000 * (c * k))). set (s1 := cpufreq_notify_transition _ s).
  assert (Inv1 : freq_inv P c b s1).
  { split; try done; [|by exists d0]. subst s1. by erewrite init_boot_notify by exact Ib. }
  assert (Hmid : exists s2 ws,
    (if negb (d0 =? c * k) then jz4740_transition (point (c * k)) s1 else Some s1) = Some s2 /\
    freq_inv P c b s2 /\ __cpm_get_cclk (regs s2) = Some (P / (c * k)) /\ notified s2 = notified s1 /\
    writes s2 = writes s1 ++ ws /\ Forall (dram_ok b) ws).
  { destruct (Z.eqb_spec d0 (c * k)) as [->|]; cbn [negb].
    - exists s1, []. split_and!; try done. by rewrite app_nil_r.
    - by apply transition_point. }
  destruct Hmid as (s2 & ws & -> & [Jp Jt Jb Jd Jc] & Hcc & Hn & Hw & Hws). cbn [mbind option_bind].
  eexists _, ws, _. split; [reflexivity|]. split_and!; try done.
  - split; try done. by erewrite init_boot_notify by exact Jb.
  - cbn. rewrite Hn. subst s1. cbn. by rewrite <- app_assoc.
Qed.

(** A sequence of requests, by table index. *)
Fixpoint run_points (idxs : list Z) (s : cpufreq) : option cpufreq :=
  match idxs with
  | [] => Some s
  | i :: idxs => s ← jz4740_set_cpu_divider_index i s; run_points idxs s
  end.

Lemma run_points_safe idxs s :
  Forall (fun i => 0 <= i < 6) idxs -> freq_inv P c b s ->
  exists s' ws, run_points idxs s = Some s' /\ freq_inv P c b s' /\
    writes s' = writes s ++ ws /\ Forall (dram_ok b) ws /\
    (forall i, last idxs = Some i ->
       exists k, rd factors i = Some k /\ __cpm_get_cclk (regs s') = Some (P / (c * k))).
Proof.
  intros His. revert s. induction His as [|i idxs Hi His IH]; intros s Inv.
  { exists s, []. rewrite app_nil_r. by split_and!. }
  assert (Hk : exists k, rd factors i = Some k).
  { unfold rd. replace (0 <=? i) with true by lia. apply lookup_lt_is_Some. cbn. lia. }
  destruct Hk as (k & Hk). cbn [run_points].
  destruct (set_divider_point i k s Hk Inv) as (s1 & ws1 & old & -> & Inv1 & Hcc & Hw1 & Hd1 & _).
  cbn [mbind option_bind]. destruct (IH s1 Inv1) as (s' & ws & Hr & Inv' & Hw & Hd & Hl).
  exists s', (ws1 ++ ws). split_and!; try done.
  - by rewrite Hw, Hw1, app_assoc.
  - by apply Forall_app.
  - intros i'. destruct idxs as [|i2 idxs]; cbn; [|apply Hl].
    intros [= <-]. cbn in Hr. injection Hr as <-. eauto.
Qed.

End Points.

(** ** From boot on *)

(** The boot parameters that the registers give. *)
Definition boot_of (h : hw) (mc lc px : Z) : boot_params :=
  Boot (mc / 1000) (Z.land (Z.shiftr (DMCR h) 13) 7 + 4) (Z.land (Z.shiftr (DMCR h) 11) 3 + 1)
    (Z.land (Z.shiftr (DMCR h) 8) 7 + 1) (Z.land (Z.shiftr (DMCR h) 5) 3 + 1)
    (Z.land (Z.shiftr (DMCR h) 2) 7 * 2 + 1) (RTCOR h) 1 lc px 1.

Lemma boot_dram_ok h mc lc px :
  __cpm_get_mclk h = Some mc -> 0 < mc / 1000 -> dram_ok (boot_of h mc lc px) h.
Proof.
  intros Hm H0. apply (dram_ok_intro _ _ mc); try done.
  - repeat constructor; cbn; lia.
  - unfold refresh_ok. cbn. lia.
Qed.

(** Case analysis on the innermost comparisons first. *)
Ltac inner_ltbs :=
  repeat match goal with
  | |- context [if ?x <? ?y then _ else _] =>
      lazymatch constr:((x, y)) with
      | context [if _ then _ else _] => fail
      | _ => destruct (Z.ltb_spec x y)
      end
  end.

Lemma cpuinfo_points M :
  0 <= M < 2 ^ 32 - 2 ->
  cpuinfo_loop [M / 8; M / 6; M / 4; M / 3; M / 2; M; CPUFREQ_TABLE_END] (2 ^ 32 - 1) 0 = Some (M / 8, M).
Proof.
  intros HM. unfold cpuinfo_loop, CPUFREQ_TABLE_END, CPUFREQ_ENTRY_INVALID.
  assert (Hk : 0 <= M / 8 <= M / 6 /\ M / 6 <= M / 4 <= M / 3 /\ M / 3 <= M / 2 <= M)
    by (Z.to_euclidean_division_equations; lia).
  generalize dependent (M / 8). generalize dependent (M / 6). generalize dependent (M / 4).
  generalize dependent (M / 3). generalize dependent (M / 2). intros m2 m3 m4 m6 m8 Hk.
  repeat match goal with |- context [if ?x =? ?y then _ else _] =>
    rewrite (proj2 (Z.eqb_neq x y)) by lia || rewrite Z.eqb_refl end.
  f_equal. f_equal; inner_ltbs; lia.
Qed.

(** The driver's start on CPU 0: the invariant holds, and the policy is the range
    from an eighth of the boot frequency to that frequency. *)
Lemma driver_init_inv P c p s mc lc px :
  0 < c -> 0 <= P < 2 ^ 32 -> c <= 32 -> cpu p = 0 -> lcd_clks_initialized (boot_config s) = 0 ->
  sdram_initialized (boot_config s) = 0 -> __cpm_get_pllout (regs s) = Some P ->
  __cpm_get_cclk (regs s) = Some (P / c) -> __cpm_get_mclk (regs s) = Some mc -> 0 < mc / 1000 ->
  __cpm_get_lcdclk (regs s) = Some lc -> __cpm_get_pixclk (regs s) = Some px ->
  exists p' s', jz4740_cpufreq_driver_init p s = Some (0, p', s') /\ regs s' = regs s /\
    writes s' = writes s /\ freq_inv P c (boot_of (regs s) mc lc px) s' /\
    p_min p' = P / c / 1000 / 8 /\ p_max p' = P / c / 1000.
Proof.
  intros Hc HP Hc2 Hcpu Hl Hs Hp Hcc Hmc Hm0 Hlc Hpx. unfold jz4740_cpufreq_driver_init.
  rewrite Hcpu. change (negb (0 =? 0)) with false. cbv iota. rewrite Hcc. cbn [mbind option_bind].
  assert (HM : 0 <= P / c / 1000 < 2 ^ 32 - 2)
    by (rewrite Z.div_div by lia; split; [apply Z.div_pos; nia|apply Z.div_lt_upper_bound; nia]).
  unfold cpufreq_frequency_table_cpuinfo. rewrite cpuinfo_points by done. cbn [mbind option_bind].
  rewrite (proj2 (Z.eqb_neq (P / c / 1000 / 8) (2 ^ 32 - 1))) by (Z.to_euclidean_division_equations; lia).
  eexists _, _. split; [reflexivity|]. split_and!; try done. split; try done.
  - unfold jz_init_boot_config. cbn [regs boot_config set_table]. cbv zeta. rewrite Hl, Hs, Hlc.
    cbn [mbind option_bind]. rewrite Hpx. cbn [mbind option_bind boot_config set_boot sdram_initialized].
    change (0 =? 0) with true. cbv iota. by rewrite Hmc.
  - by apply boot_dram_ok.
  - exists c. split; [lia|done].
Qed.

(** C39: memory stays safe from boot on: after the driver's start on the boot
    processor, whatever table entries are requested and in whatever order, each
    single write of the driver leaves the memory timing no shorter (in
    nanoseconds) and the refresh no rarer than at boot, at the memory clock of
    that very moment, whichever way the clock changes; and after each request
    the CPU runs at the PLL output divided by exactly the boot divisor times
    the entry's factor.  This is under [boot_points]: the boot divisor of the CPU
    is 1 or 2, the PLL runs at 256 kHz at least, the memory clock at boot is at
    least a third of the CPU clock at boot, and the refresh counter at boot can be
    scaled down to the slowest entry; the examples below show what happens
    otherwise. *)
Theorem cpufreq_run_safe P c p s mc lc px idxs :
  cpu p = 0 -> lcd_clks_initialized (boot_config s) = 0 ->
  sdram_initialized (boot_config s) = 0 -> __cpm_get_pllout (regs s) = Some P ->
  __cpm_get_cclk (regs s) = Some (P / c) -> __cpm_get_mclk (regs s) = Some mc ->
  __cpm_get_lcdclk (regs s) = Some lc -> __cpm_get_pixclk (regs s) = Some px ->
  boot_points P c (boot_of (regs s) mc lc px) -> Forall (fun i => 0 <= i < 6) idxs ->
  exists p' s0 s' ws, jz4740_cpufreq_driver_init p s = Some (0, p', s0) /\
    run_points idxs s0 = Some s' /\ writes s' = writes s ++ ws /\
    Forall (dram_ok (boot_of (regs s) mc lc px)) ws /\
    (forall i, last idxs = Some i ->
       exists k, rd factors i = Some k /\ __cpm_get_cclk (regs s') = Some (P / (c * k))).
Proof.
  intros Hcpu Hl Hs Hp Hcc Hmc Hlc Hpx BP His.
  assert (Hc : 0 < c <= 32) by (destruct BP as [[->| ->]]; lia).
  destruct (driver_init_inv P c p s mc lc px) as (p' & s0 & Hi & Hr0 & Hw0 & Inv & _); try done; try lia.
  { destruct BP. lia. }
  { destruct BP as [_ _ [Hm _ _ _ _ _ _]]. cbn in Hm. lia. }
  destruct (run_points_safe P c _ BP idxs s0 His Inv) as (s' & ws & Hr & _ & Hw & Hd & Hk).
  exists p', s0, s', ws. rewrite Hw0 in Hw. by split_and!.
Qed.

(** ** Choosing the operating point *)

(** The side of the target that is preferred, and which of two frequencies on a
    side is the better one: [up] for the higher. *)
Definition near_side (relation target f : Z) : bool :=
  if relation =? CPUFREQ_RELATION_H then f <=? target else target <=? f.

Definition better (up : bool) (f f' : Z) : bool := if up then f <=? f' else f' <=? f.

Definition allowed (p : cpufreq_policy) (f : Z) : Prop := p_min p <= f <= p_max p.

Definition no_entry (up : bool) : entry := Entry (2 ^ 32 - 1) (if up then 0 else 2 ^ 32 - 1).

Definition update (up : bool) (i f : Z) (e : entry) : entry :=
  if better up (e_freq e) f then Entry i f else e.

Lemma target_step_side relation target i f o s :
  relation = CPUFREQ_RELATION_H \/ relation = CPUFREQ_RELATION_L ->
  target_step relation target i f o s =
  let up := relation =? CPUFREQ_RELATION_H in
  if near_side relation target f then (update up i f o, s) else (o, update (negb up) i f s).
Proof. intros [->| ->]; unfold target_step, near_side, update, better; cbn; by case_match. Qed.

(** The best of the frequencies [pre] that are allowed and on the given side. *)
Definition candidate (p : cpufreq_policy) (good : Z -> bool) (up : bool) (pre : list Z) (e : entry)
  : Prop :=
  (e = no_entry up /\ forall f, f ∈ pre -> allowed p f -> good f = false) \/
  (exists j, e_index e = Z.of_nat j /\ pre !! j = Some (e_freq e) /\ allowed p (e_freq e) /\
     good (e_freq e) = true /\
     forall f, f ∈ pre -> allowed p f -> good f = true -> better up f (e_freq e) = true).

Lemma candidate_skip p good up pre f e :
  (allowed p f -> good f = false) -> candidate p good up pre e -> candidate p good up (pre ++ [f]) e.
Proof.
  intros Hf [(-> & H)|(j & Hj & Hl & Ha & Hg & H)].
  - left. split; [done|]. intros x [Hx|Hx%list_elem_of_singleton]%elem_of_app; [auto|by subst].
  - right. exists j. split_and!; try done; [by apply lookup_app_l_Some|].
    intros x [Hx|Hx%list_elem_of_singleton]%elem_of_app Hax Hgx; [auto|]. subst. rewrite Hf in Hgx by done. done.
Qed.

Lemma candidate_update p good up pre f e :
  allowed p f -> good f = true -> 0 <= f < 2 ^ 32 ->
  candidate p good up pre e ->
  candidate p good up (pre ++ [f]) (update up (Z.of_nat (length pre)) f e).
Proof.
  intros Haf Hgf Hf Hc. unfold update. destruct (better up (e_freq e) f) eqn:Hb.
  - right. exists (length pre). split_and!; try done.
    { cbn. by rewrite lookup_app_r, Nat.sub_diag by lia. }
    intros x [Hx|Hx%list_elem_of_singleton]%elem_of_app Hax Hgx; cbn [e_freq].
    + destruct Hc as [(-> & H)|(j & Hj & Hl & Ha & Hg & H)]; [rewrite H in Hgx; done|].
      specialize (H x Hx Hax Hgx). revert H Hb. unfold better. destruct up; lia.
    + subst. unfold better. destruct up; lia.
  - destruct Hc as [(-> & H)|(j & Hj & Hl & Ha & Hg & H)].
    { exfalso. revert Hb. unfold better. destruct up; cbn; lia. }
    right. exists j. split_and!; try done; [by apply lookup_app_l_Some|].
    intros x [Hx|Hx%list_elem_of_singleton]%elem_of_app Hax Hgx; [auto|]. subst.
    revert Hb. unfold better. destruct up; lia.
Qed.

Lemma target_loop_spec p target relation fs pre o s :
  relation = CPUFREQ_RELATION_H \/ relation = CPUFREQ_RELATION_L ->
  Forall (fun f => 0 <= f < 2 ^ 32 - 2) fs ->
  let up := relation =? CPUFREQ_RELATION_H in
  candidate p (near_side relation target) up pre o ->
  candidate p (fun f => negb (near_side relation target f)) (negb up) pre s ->
  exists o' s', target_loop p target relation (Z.of_nat (length pre)) (fs ++ [CPUFREQ_TABLE_END]) o s =
      Some (Z.of_nat (length (pre ++ fs)), o', s') /\
    candidate p (near_side relation target) up (pre ++ fs) o' /\
    candidate p (fun f => negb (near_side relation target f)) (negb up) (pre ++ fs) s'.
Proof.
  intros Hrel Hfs up. revert pre o s. induction Hfs as [|f fs Hf Hfs IH]; intros pre o s Ho Hs.
  { rewrite app_nil_r. eexists _, _. split; [reflexivity|]. done. }
  cbn [app target_loop]. unfold CPUFREQ_ENTRY_INVALID.
  replace (f =? CPUFREQ_TABLE_END) with false by (unfold CPUFREQ_TABLE_END; lia).
  replace (f =? 2 ^ 32 - 1) with false by lia.
  assert (Hgo : forall o s, candidate p (near_side relation target) up (pre ++ [f]) o ->
    candidate p (fun f => negb (near_side relation target f)) (negb up) (pre ++ [f]) s ->
    exists o' s', target_loop p target relation (Z.of_nat (length pre) + 1) (fs ++ [CPUFREQ_TABLE_END]) o s
      = Some (Z.of_nat (length (pre ++ f :: fs)), o', s') /\
    candidate p (near_side relation target) up (pre ++ f :: fs) o' /\
    candidate p (fun f => negb (near_side relation target f)) (negb up) (pre ++ f :: fs) s').
  { intros o1 s1 Ho1 Hs1. specialize (IH _ _ _ Ho1 Hs1). rewrite <- !app_assoc in IH. cbn [app] in IH.
    rewrite length_app in IH. cbn [length] in IH. by rewrite Nat2Z.inj_add in IH. }
  destruct ((f <? p_min p) || (p_max p <? f)) eqn:Hal.
  - apply Hgo; apply candidate_skip; try done; unfold allowed; intros; lia.
  - assert (Hall : allowed p f) by (unfold allowed; lia).
    rewrite target_step_side by done. cbv zeta. fold up.
    destruct (near_side relation target f) eqn:Hn; apply Hgo.
    + apply candidate_update; try done. lia.
    + apply candidate_skip; [|done]. by rewrite Hn.
    + apply candidate_skip; [|done]. by rewrite Hn.
    + apply candidate_update; try done; [by rewrite Hn|lia].
Qed.

(** Entry [j] is the one to choose: allowed by the policy and, on the preferred
    side of the target, the nearest to it; or, if no allowed entry is on that
    side, the nearest on the other. *)
Definition selected (p : cpufreq_policy) (relation target : Z) (fs : list Z) (j : nat) (f : Z) : Prop :=
  let up := relation =? CPUFREQ_RELATION_H in
  fs !! j = Some f /\ allowed p f /\
  if near_side relation target f then
    forall f', f' ∈ fs -> allowed p f' -> near_side relation target f' = true -> better up f' f = true
  else
    forall f', f' ∈ fs -> allowed p f' ->
      near_side relation target f' = false /\ better (negb up) f' f = true.

Lemma table_target_spec p relation target fs idx :
  relation = CPUFREQ_RELATION_H \/ relation = CPUFREQ_RELATION_L ->
  Forall (fun f => 0 <= f < 2 ^ 32 - 2) fs -> (length fs < 100)%nat ->
  let r := cpufreq_frequency_table_target true p (fs ++ [CPUFREQ_TABLE_END]) target relation idx in
  ((forall f, f ∈ fs -> ~ allowed p f) /\ r = Some (- EINVAL, idx)) \/
  (exists j f, selected p relation target fs j f /\ r = Some (0, Z.of_nat j)).
Proof.
  intros Hrel Hfs Hlen. cbv zeta. unfold cpufreq_frequency_table_target. cbn [negb].
  set (up := relation =? CPUFREQ_RELATION_H).
  destruct (target_loop_spec p target relation fs [] (no_entry up) (no_entry (negb up)) Hrel Hfs)
    as (o & s & Hl & Ho & Hs).
  { left. split; [done|]. intros f Hf. by apply elem_of_nil in Hf. }
  { left. split; [done|]. intros f Hf. by apply elem_of_nil in Hf. }
  cbn [app length] in *. fold up in Ho, Hs.
  replace (target_loop p target relation 0 _ _ _) with (Some (Z.of_nat (length fs), o, s))
    by (rewrite <- Hl; subst up; destruct Hrel as [->| ->]; reflexivity).
  cbn [mbind option_bind].
  destruct Ho as [(-> & Hno)|(j & Hj & Hlk & Ha & Hg & Hbest)].
  - replace (Z.of_nat (length fs) <? e_index (no_entry up)) with true by (cbn; lia).
    destruct Hs as [(-> & Hns)|(j & Hj & Hlk & Ha & Hg & Hbest)].
    + left. replace (Z.of_nat (length fs) <? e_index (no_entry (negb up))) with true by (cbn; lia).
      split; [|done]. intros f Hf Hal. specialize (Hno f Hf Hal). specialize (Hns f Hf Hal).
      by rewrite Hno in Hns.
    + right. exists j, (e_freq s). apply lookup_lt_Some in Hlk as Hlt. rewrite Hj.
      replace (Z.of_nat (length fs) <? Z.of_nat j) with false by lia. split; [|done].
      split; [done|]. split; [done|]. apply negb_true_iff in Hg. rewrite Hg.
      intros f' Hf' Hal'. split; [by apply Hno|]. apply Hbest; try done. by rewrite Hno.
  - right. exists j, (e_freq o). apply lookup_lt_Some in Hlk as Hlt. rewrite Hj.
    replace (Z.of_nat (length fs) <? Z.of_nat j) with false by lia. split; [|done].
    split; [done|]. split; [done|]. rewrite Hg. exact Hbest.
Qed.

(** The frequencies of the table, without the end mark. *)
Definition points (P c : Z) : list Z := map (fun k => P / c / 1000 / k) factors.

Lemma boot_table_points P c : boot_table P c = points P c ++ [CPUFREQ_TABLE_END].
Proof. unfold boot_table, points. cbn. by rewrite Z.div_1_r. Qed.

Lemma points_range P c : 0 < c -> 0 <= P < 2 ^ 32 -> Forall (fun f => 0 <= f < 2 ^ 32 - 2) (points P c).
Proof.
  intros Hc HP. unfold points.
  assert (H : 0 <= P / c / 1000 < 2 ^ 32 - 2)
    by (rewrite Z.div_div by lia; split; [apply Z.div_pos; nia|apply Z.div_lt_upper_bound; nia]).
  assert (Hk : forall k, 1 <= k -> 0 <= P / c / 1000 / k < 2 ^ 32 - 2)
    by (intros; split; [apply Z.div_pos; lia|apply Z.div_lt_upper_bound; nia]).
  repeat constructor; apply Hk; lia.
Qed.

(** A request for a frequency changes to the right operating point: when the
    policy allows an entry of the table, the CPU afterwards runs at the PLL
    output divided by the boot divisor times the factor of the entry to choose,
    namely the highest allowed one not above the target (or the lowest allowed,
    if all are above), for the other relation the lowest one not below it (or
    the highest); and when the policy allows none, the result is [-EINVAL] and
    nothing changes. *)
Theorem freq_target_selects P c b p relation target s :
  boot_points P c b -> freq_inv P c b s ->
  relation = CPUFREQ_RELATION_H \/ relation = CPUFREQ_RELATION_L ->
  ((forall f, f ∈ points P c -> ~ allowed p f) /\
     jz4740_freq_target true p target relation s = Some (- EINVAL, s)) \/
  (exists j f k s', selected p relation target (points P c) j f /\
     factors !! j = Some k /\ jz4740_freq_target true p target relation s = Some (0, s') /\
     __cpm_get_cclk (regs s') = Some (P / (c * k)) /\ freq_inv P c b s').
Proof.
  intros BP Inv Hrel. unfold jz4740_freq_target. rewrite (inv_table _ _ _ _ Inv), boot_table_points.
  destruct (table_target_spec p relation target (points P c) 0 Hrel) as [(Hno & ->)|(j & f & Hsel & ->)].
  - destruct BP. apply points_range; lia.
  - cbn. lia.
  - left. split; [done|]. reflexivity.
  - right. cbn [mbind option_bind]. change (negb (0 =? 0)) with false. cbv iota.
    pose proof (proj1 Hsel) as Hj.
    assert (Hk : exists k, factors !! j = Some k).
    { apply lookup_lt_is_Some. apply lookup_lt_Some in Hj. exact Hj. }
    destruct Hk as (k & Hk).
    destruct (set_divider_point P c b BP (Z.of_nat j) k s) as (s' & _ & _ & -> & Inv' & Hcc & _).
    { unfold rd. rewrite (proj2 (Z.leb_le 0 (Z.of_nat j)) (Nat2Z.is_nonneg j)). by rewrite Nat2Z.id. }
    { done. }
    exists j, f, k, s'. split_and!; done.
Qed.

(** ** Concrete runs *)

(** 336 MHz, buses at a third of it, the refresh counter at 36. *)
Definition boot_hw : hw := Hw 8736 (54 * 2 ^ 23 + 256) 0 0 0 (3 * 2 ^ 13 + 2 ^ 11 + 2 * 2 ^ 8 + 12) 36 36.
Definition boot_state : cpufreq :=
  Cpufreq boot_hw (Boot 0 0 0 0 0 0 0 0 0 0 0) (Clocks 0 0 0 0 0 0 0 0 0) [] [] [].
Definition boot_policy : cpufreq_policy := Policy 0 0 0 0 0 0.

Lemma boot_points_336 : boot_points 336000000 1 (boot_of boot_hw 112000000 168000000 168000000).
Proof.
  split; [by left|split; [discriminate|reflexivity]| |vm_compute; discriminate|vm_compute; discriminate].
  split; vm_compute; split; first [reflexivity|discriminate].
Qed.

Lemma boot_state_inv :
  exists p s, jz4740_cpufreq_driver_init boot_policy boot_state = Some (0, p, s) /\
    freq_inv 336000000 1 (boot_of boot_hw 112000000 168000000 168000000) s.
Proof.
  edestruct (driver_init_inv 336000000 1 boot_policy boot_state 112000000 168000000 168000000)
    as (p & s & H & _ & _ & Inv & _); [lia..| | | | | | | | | |exists p, s; by split];
    try reflexivity.
Qed.

Lemma cpufreq_run_safe_witness :
  exists p' s0 s', jz4740_cpufreq_driver_init boot_policy boot_state = Some (0, p', s0) /\
    run_points [0; 5; 2] s0 = Some s' /\ length (writes s') = 12%nat /\
    Forall (dram_ok (boot_of boot_hw 112000000 168000000 168000000)) (writes s') /\
    __cpm_get_cclk (regs s') = Some 84000000.
Proof.
  destruct (cpufreq_run_safe 336000000 1 boot_policy boot_state 112000000 168000000 168000000 [0; 5; 2])
    as (p' & s0 & s' & ws & Hi & Hr & Hw & Hd & Hk); try reflexivity.
  - exact boot_points_336.
  - repeat constructor; try discriminate.
  - exists p', s0, s'. split; [exact Hi|]. split; [exact Hr|]. rewrite Hw. cbn [writes boot_state app].
    assert (Hlen : run_points [0; 5; 2] s0 = Some s' -> length (writes s') = 12%nat).
    { vm_compute in Hi. injection Hi as <- <-. intros H. vm_compute in H. by injection H as <-. }
    split; [|split; [exact Hd|]].
    + specialize (Hlen Hr). rewrite Hw in Hlen. exact Hlen.
    + destruct (Hk 2 eq_refl) as (k & [= <-] & Hc). exact Hc.
Defined.

Lemma freq_target_selects_witness :
  exists p s r s', jz4740_cpufreq_driver_init boot_policy boot_state = Some (0, p, s) /\
    jz4740_freq_target true p 100000 CPUFREQ_RELATION_H s = Some (r, s').
Proof.
  destruct boot_state_inv as (p & s & Hi & Inv).
  destruct (freq_target_selects 336000000 1 _ p CPUFREQ_RELATION_H 100000 s boot_points_336 Inv
    (or_introl eq_refl)) as [(_ & H)|(j & f & k & s' & _ & _ & H & _)].
  - exists p, s, (- EINVAL), s. by split.
  - exists p, s, 0, s'. by split.
Defined.

(** A request for 100 MHz is served with 84 MHz. *)
Example target_100_MHz :
  option_map (fun r => jz4740_freq_get r.2)
    ('(_, p, s) ← jz4740_cpufreq_driver_init boot_policy boot_state;
     jz4740_freq_target true p 100000 CPUFREQ_RELATION_H s) = Some (Some 84000).
Proof. vm_compute. reflexivity. Qed.

(** With a boot divisor of 3 the slowest entry needs element 48 of [n2FR]. *)
Example boot_divisor_three :
  index_to_divisor 0 (set_table (boot_table 336000000 3) boot_state) = None.
Proof. vm_compute. reflexivity. Qed.

(** A refresh constant that scales to 0 becomes 255. *)
Example refresh_wraps :
  option_map (fun s => RTCOR (regs s))
    (jz_update_dram_rtcor 10000000 (set_boot (Boot 112000 0 0 0 0 0 8 1 0 0 1) boot_state)) = Some 255.
Proof. vm_compute. reflexivity. Qed.
