(* ===== verification/SplClock.v ===== *)
(** * Clock and memory set-up of the boot loader
      (u-boot-1.1.6/nand_spl/board/a320/jz4740.c)

    [pll_init] starts the PLL and sets the divisors, [sdram_init] programs the
    memory controller from the memory's data sheet times.  What they leave in
    the registers is what the kernel's frequency driver ([Cpufreq]) finds at
    boot, so that driver's safety can be stated from the boot loader on.

    The parameters of include/configs/a320.h are a record, so that the memory
    set-up can be stated for any of them.  The register layout is that of
    [Cpufreq]; the busy waits change no state. *)

From S2P Require Import Prelude Cpufreq.

#[local] Arguments Z.eqb : simpl never.
#[local] Arguments Z.ltb : simpl never.
#[local] Arguments Z.land : simpl never.
#[local] Arguments Z.lor : simpl never.
#[local] Arguments Z.add : simpl never.
#[local] Arguments Z.sub : simpl never.
#[local] Arguments Z.mul : simpl never.
#[local] Arguments Z.div : simpl never.
#[local] Arguments Z.shiftl : simpl never.
#[local] Arguments Z.shiftr : simpl never.

Definition CPM_CPCCR_CLKOEN : Z := Z.shiftl 1 30.
Definition CPM_CPPCR_PLLST_BIT : Z := 0.
Definition EMC_DMCR_BW_BIT : Z := 31.
Definition EMC_DMCR_CA_BIT : Z := 26.
Definition EMC_DMCR_RFSH : Z := Z.shiftl 1 24.
Definition EMC_DMCR_MRSET : Z := Z.shiftl 1 23.
Definition EMC_DMCR_RA_BIT : Z := 20.
Definition EMC_DMCR_BA_BIT : Z := 19.
Definition EMC_DMCR_EPIN : Z := Z.shiftl 1 17.
Definition EMC_DMCR_TCL_BIT : Z := 0.
Definition EMC_RTCSR_CKS_64 : Z := 3.
Definition EMC_SDMR0 : Z := 3003228160.
Definition EMC_SDMR_OM_NORMAL : Z := 0.
Definition EMC_SDMR_CAS_2 : Z := Z.shiftl 2 4.
Definition EMC_SDMR_CAS_3 : Z := Z.shiftl 3 4.
Definition EMC_SDMR_BT_SEQ : Z := 0.
Definition EMC_SDMR_BL_4 : Z := 2.

(** The configuration of a board: clocks in Hz, memory geometry, times in ns. *)
Record config := Config {
  CFG_CPU_SPEED : Z;
  CFG_EXTAL : Z;
  SDRAM_BW16 : Z;
  SDRAM_BANK4 : Z;
  SDRAM_ROW : Z;
  SDRAM_COL : Z;
  SDRAM_CASL : Z;
  SDRAM_TRAS : Z;
  SDRAM_RCD : Z;
  SDRAM_TPC : Z;
  SDRAM_TRWL : Z;
  SDRAM_TREF : Z }.

Definition a320 : config := Config 336000000 12000000 0 1 12 9 2 45 20 20 7 15625.

(** The registers of [Cpufreq], those only set here, and the writes to the
    memory's mode register, each with the [DMCR] of the moment. *)
Record spl := Spl {
  chip : hw;
  UHCCDR : Z;
  BCR : Z;
  RTCSR : Z;
  mode_writes : list (Z * Z) }.

Definition set_chip (h : hw) (s : spl) : spl := Spl h (UHCCDR s) (BCR s) (RTCSR s) (mode_writes s).
Definition set_UHCCDR (x : Z) (s : spl) : spl := Spl (chip s) x (BCR s) (RTCSR s) (mode_writes s).
Definition set_BCR (x : Z) (s : spl) : spl := Spl (chip s) (UHCCDR s) x (RTCSR s) (mode_writes s).
Definition set_RTCSR (x : Z) (s : spl) : spl := Spl (chip s) (UHCCDR s) (BCR s) x (mode_writes s).
Definition set_CPPCR (x : Z) (h : hw) : hw :=
  Hw (CPCCR h) x (I2SCDR h) (LPCDR h) (MSCCDR h) (DMCR h) (RTCOR h) (RTCNT h).
Definition write_DMCR (x : Z) (s : spl) : spl := set_chip (set_DMCR x (chip s)) s.

(** [REG8(EMC_SDMR0|sdmode) = 0] *)
Definition write_mode (sdmode : Z) (s : spl) : spl :=
  Spl (chip s) (UHCCDR s) (BCR s) (RTCSR s)
    (mode_writes s ++ [(DMCR (chip s), Z.lor EMC_SDMR0 sdmode)]).

(** ** The PLL *)

Definition pll_init (c : config) (s : spl) : option spl :=
  n0 ← rd n2FR 1;
  n1 ← rd n2FR 3;
  let cfcr := Z.lor (Z.lor (Z.lor (Z.lor (Z.lor CPM_CPCCR_CLKOEN
    (Z.shiftl n0 CPM_CPCCR_CDIV_BIT)) (Z.shiftl n1 CPM_CPCCR_HDIV_BIT))
    (Z.shiftl n1 CPM_CPCCR_PDIV_BIT)) (Z.shiftl n1 CPM_CPCCR_MDIV_BIT))
    (Z.shiftl n1 CPM_CPCCR_LDIV_BIT) in
  let pllout2 := if is_set cfcr CPM_CPCCR_PCS then CFG_CPU_SPEED c else CFG_CPU_SPEED c / 2 in
  let s := set_UHCCDR (u32 (pllout2 / 48000000 - 1)) s in
  nf ← udiv (s32 (CFG_CPU_SPEED c * 2)) (CFG_EXTAL c);
  let plcr1 := Z.lor (Z.lor (shl32 (nf - 2) CPM_CPPCR_PLLM_BIT)
    (Z.shiftl 32 CPM_CPPCR_PLLST_BIT)) CPM_CPPCR_PLLEN in
  let s := set_chip (set_CPCCR cfcr (chip s)) s in
  Some (set_chip (set_CPPCR plcr1 (chip s)) s).

(** ** The memory *)

(** The fields that do not depend on the clock; [row], [col] and [bank] are
    0 in the value used to set the mode. *)
Definition dmcr_basic (c : config) (row col bank : Z) : Z :=
  u32 (Z.lor (Z.lor (Z.lor (Z.lor (Z.lor
    (Z.shiftl (row - 11) EMC_DMCR_RA_BIT) (Z.shiftl (col - 8) EMC_DMCR_CA_BIT))
    (Z.shiftl bank EMC_DMCR_BA_BIT)) (Z.shiftl (SDRAM_BW16 c) EMC_DMCR_BW_BIT)) EMC_DMCR_EPIN)
    (Z.shiftl (if SDRAM_CASL c =? 3 then 2 else 1) EMC_DMCR_TCL_BIT)).

(** [if (tmp > hi) tmp = hi] *)
Definition at_most (hi x : Z) : Z := if hi <? x then hi else x.

(** The timing fields for a cycle of [ns] nanoseconds. *)
Definition tras_field (c : config) (ns : Z) : Z :=
  let tmp := SDRAM_TRAS c / ns in
  at_most 11 (if tmp <? 4 then 4 else tmp) - 4.
Definition rcd_field (c : config) (ns : Z) : Z := at_most 3 (SDRAM_RCD c / ns).
Definition tpc_field (c : config) (ns : Z) : Z := at_most 7 (SDRAM_TPC c / ns).
Definition trwl_field (c : config) (ns : Z) : Z := at_most 3 (SDRAM_TRWL c / ns).
Definition trc_field (c : config) (ns : Z) : Z :=
  Z.shiftr (at_most 14 ((SDRAM_TRAS c + SDRAM_TPC c) / ns) + 1) 1.

Definition dmcr_timing (c : config) (ns dmcr : Z) : Z :=
  let dmcr := Z.lor dmcr (Z.shiftl (tras_field c ns) EMC_DMCR_TRAS_BIT) in
  let dmcr := Z.lor dmcr (Z.shiftl (rcd_field c ns) EMC_DMCR_RCD_BIT) in
  let dmcr := Z.lor dmcr (Z.shiftl (tpc_field c ns) EMC_DMCR_TPC_BIT) in
  let dmcr := Z.lor dmcr (Z.shiftl (trwl_field c ns) EMC_DMCR_TRWL_BIT) in
  Z.lor dmcr (Z.shiftl (trc_field c ns) EMC_DMCR_TRC_BIT).

Definition sdram_init (c : config) (s : spl) : option spl :=
  dc ← rd div_table (__cpm_get_cdiv (chip s));
  dm ← rd div_table (__cpm_get_mdiv (chip s));
  mem_clk ← udiv (u32 (CFG_CPU_SPEED c * dc)) dm;
  let s := set_RTCSR 0 (set_BCR 0 s) in
  let dmcr0 := dmcr_basic c 11 8 0 in
  let dmcr := dmcr_basic c (SDRAM_ROW c) (SDRAM_COL c) (SDRAM_BANK4 c) in
  ns ← udiv 1000000000 mem_clk;
  if ns =? 0 then None
  else
    let dmcr := dmcr_timing c ns dmcr in
    let sdmode := Z.lor (Z.lor (Z.lor EMC_SDMR_BT_SEQ EMC_SDMR_OM_NORMAL) EMC_SDMR_BL_4)
      (if SDRAM_CASL c =? 3 then EMC_SDMR_CAS_3 else EMC_SDMR_CAS_2) in
    let s := write_mode sdmode (write_DMCR dmcr s) in
    let s := write_DMCR (Z.lor dmcr EMC_DMCR_RFSH) s in
    let tmp := at_most 255 (SDRAM_TREF c / ns / 64 + 1) in
    let s := set_chip (set_RTCNT 0 (set_RTCOR tmp (chip s))) s in
    let s := set_RTCSR EMC_RTCSR_CKS_64 s in
    let s := write_DMCR (Z.lor (Z.lor dmcr0 EMC_DMCR_RFSH) EMC_DMCR_MRSET) s in
    let s := write_mode sdmode s in
    Some (write_DMCR (Z.lor (Z.lor dmcr EMC_DMCR_RFSH) EMC_DMCR_MRSET) s).

(** ** The fields of [DMCR] *)

Lemma timing_fields_lor x w : Z.land x DMCR_TIMING = 0 -> timing_fields (Z.lor x w) = timing_fields w.
Proof.
  intros H. replace x with (Z.ldiff x DMCR_TIMING); [apply dmcr_fields|].
  apply Z.bits_inj'. intros i Hi. apply (f_equal (fun y => Z.testbit y i)) in H.
  rewrite Z.land_spec, Z.bits_0 in H. rewrite Z.ldiff_spec.
  destruct (Z.testbit x i), (Z.testbit DMCR_TIMING i); done.
Qed.

(** Fields above bit 15 are not timing fields. *)
Lemma high_field v n : 16 <= n -> Z.land (Z.shiftl v n) DMCR_TIMING = 0.
Proof.
  intros Hn. apply Z.bits_inj'. intros i Hi. rewrite Z.land_spec, Z.bits_0.
  destruct (Z.lt_ge_cases i 16).
  - by rewrite Z.shiftl_spec_low by lia.
  - replace DMCR_TIMING with (Z.land DMCR_TIMING (Z.ones 16)) by reflexivity.
    rewrite Z.land_spec, Z.ones_spec_high by lia. by rewrite !andb_false_r.
Qed.

Lemma land_lor_0 x y m : Z.land x m = 0 -> Z.land y m = 0 -> Z.land (Z.lor x y) m = 0.
Proof. intros Hx Hy. by rewrite Z.land_lor_distr_l, Hx, Hy. Qed.

Lemma land_u32_0 x m : Z.land x m = 0 -> Z.land (u32 x) m = 0.
Proof.
  intros H. unfold u32. rewrite <- Z.land_ones by lia.
  rewrite <- Z.land_assoc, (Z.land_comm (Z.ones 32)), Z.land_assoc, H. apply Z.land_0_l.
Qed.

Lemma basic_no_timing c row col bank : Z.land (dmcr_basic c row col bank) DMCR_TIMING = 0.
Proof.
  unfold dmcr_basic. apply land_u32_0. repeat apply land_lor_0; try (apply high_field; vm_compute; discriminate).
  by destruct (SDRAM_CASL c =? 3).
Qed.

Lemma dmcr_timing_word c ns x :
  dmcr_timing c ns x =
  Z.lor x (timing_word (tras_field c ns) (rcd_field c ns) (tpc_field c ns) (trwl_field c ns) (trc_field c ns)).
Proof. unfold dmcr_timing, timing_word. by rewrite !Z.lor_assoc. Qed.

Lemma at_most_spec hi x : 0 <= hi -> 0 <= x ->
  0 <= at_most hi x <= hi /\ at_most hi x <= x /\ (at_most hi x = hi \/ at_most hi x = x).
Proof. intros. unfold at_most. destruct (Z.ltb_spec hi x); lia. Qed.

(** Times below one second: no sum of two overflows. *)
Record times_ok (c : config) : Prop := {
  t_ras : 0 <= SDRAM_TRAS c < 10 ^ 9;
  t_rcd : 0 <= SDRAM_RCD c < 10 ^ 9;
  t_pc : 0 <= SDRAM_TPC c < 10 ^ 9;
  t_rwl : 0 <= SDRAM_TRWL c < 10 ^ 9;
  t_ref : 0 <= SDRAM_TREF c < 10 ^ 9 }.

Lemma field_ranges c ns :
  times_ok c -> 0 < ns ->
  0 <= tras_field c ns < 8 /\ 0 <= rcd_field c ns < 4 /\ 0 <= tpc_field c ns < 8 /\
  0 <= trwl_field c ns < 4 /\ 0 <= trc_field c ns < 8.
Proof.
  intros [[H1 _] [H2 _] [H3 _] [H4 _] _] Hn.
  assert (Hd : forall x, 0 <= x -> 0 <= x / ns) by (intros; by apply Z.div_pos).
  unfold tras_field, rcd_field, tpc_field, trwl_field, trc_field. cbv zeta.
  pose proof (at_most_spec 3 (SDRAM_RCD c / ns)). pose proof (at_most_spec 7 (SDRAM_TPC c / ns)).
  pose proof (at_most_spec 3 (SDRAM_TRWL c / ns)).
  pose proof (at_most_spec 14 ((SDRAM_TRAS c + SDRAM_TPC c) / ns)).
  pose proof (Hd _ H1). pose proof (Hd _ H2). pose proof (Hd _ H3). pose proof (Hd _ H4).
  assert (0 <= (SDRAM_TRAS c + SDRAM_TPC c) / ns) by (apply Hd; lia).
  rewrite Z.shiftr_div_pow2 by lia. change (2 ^ 1) with 2.
  split; [|Z.to_euclidean_division_equations; lia].
  unfold at_most. destruct (Z.ltb_spec (SDRAM_TRAS c / ns) 4); [vm_compute; split; [discriminate|reflexivity]|].
  destruct (Z.ltb_spec 11 (SDRAM_TRAS c / ns)); lia.
Qed.

(** [n] cycles of a clock of [f] Hz take at least [t] ns. *)
Definition lasts (n f t : Z) : Prop := t * f <= n * 1000000000.

(** One cycle more than the quotient by the rounded cycle time is enough. *)
Lemma lasts_quotient t f ns n :
  0 < f -> ns = 1000000000 / f -> 0 < ns -> 0 <= t -> t / ns < n -> lasts n f t.
Proof.
  intros Hf Hns Hn Ht Hq. unfold lasts.
  assert (t < ns * (t / ns + 1)) by (pose proof (Z.mul_succ_div_gt t ns); lia).
  assert (f * ns <= 1000000000) by (subst ns; apply Z.mul_div_le; lia).
  nia.
Qed.

(** The times of the fields, for a clock of [f] Hz with a cycle of [ns]
    nanoseconds. *)
Section Times.
Context (f ns : Z) (Hf : 0 < f) (Hns : ns = 1000000000 / f) (Hn : 0 < ns).

Lemma quotient_nonneg t : 0 <= t -> 0 <= t / ns.
Proof. intros. apply Z.div_pos; lia. Qed.

Lemma lasts_at_most t hi :
  0 <= t -> 0 <= hi -> at_most hi (t / ns) + 1 = hi + 1 \/ lasts (at_most hi (t / ns) + 1) f t.
Proof.
  intros Ht Hhi. destruct (at_most_spec hi (t / ns) Hhi (quotient_nonneg t Ht)) as (_ & _ & [->|He]); [by left|].
  right. eapply lasts_quotient; [lia|exact Hns|done|done|lia].
Qed.

Lemma tras_lasts c :
  0 <= SDRAM_TRAS c -> tras_field c ns + 4 = 11 \/ lasts (tras_field c ns + 4 + 1) f (SDRAM_TRAS c).
Proof.
  intros Ht. unfold tras_field. cbv zeta. unfold at_most. destruct (Z.ltb_spec (SDRAM_TRAS c / ns) 4).
  - right. change (11 <? 4) with false. cbv iota. eapply lasts_quotient; [lia|exact Hns|done|done|lia].
  - destruct (Z.ltb_spec 11 (SDRAM_TRAS c / ns)); [left; lia|right].
    eapply lasts_quotient; [lia|exact Hns|done|done|lia].
Qed.

Lemma trc_lasts c :
  0 <= SDRAM_TRAS c + SDRAM_TPC c ->
  trc_field c ns * 2 + 1 = 15 \/ lasts (trc_field c ns * 2 + 1) f (SDRAM_TRAS c + SDRAM_TPC c).
Proof.
  intros Ht. unfold trc_field. rewrite Z.shiftr_div_pow2 by lia. change (2 ^ 1) with 2.
  destruct (at_most_spec 14 ((SDRAM_TRAS c + SDRAM_TPC c) / ns)) as (Hr & _ & [He|He]);
    [lia|by apply quotient_nonneg| |].
  - left. rewrite He. reflexivity.
  - right. rewrite He. eapply lasts_quotient; [lia|exact Hns|done|lia|].
    Z.to_euclidean_division_equations; lia.
Qed.

Lemma refresh_range c : 0 <= SDRAM_TREF c -> 1 <= at_most 255 (SDRAM_TREF c / ns / 64 + 1) <= 255.
Proof.
  intros Ht. assert (0 <= SDRAM_TREF c / ns / 64) by (apply Z.div_pos; [by apply quotient_nonneg|lia]).
  unfold at_most. destruct (Z.ltb_spec 255 (SDRAM_TREF c / ns / 64 + 1)); lia.
Qed.

(** The final value of [DMCR] has the fields. *)
Lemma final_fields c row col bank :
  times_ok c ->
  timing_fields (Z.lor (Z.lor (dmcr_timing c ns (dmcr_basic c row col bank)) EMC_DMCR_RFSH) EMC_DMCR_MRSET) =
  (tras_field c ns, rcd_field c ns, tpc_field c ns, trwl_field c ns, trc_field c ns).
Proof.
  intros Hok. pose proof (field_ranges c ns Hok Hn) as (F1 & F2 & F3 & F4 & F5). rewrite dmcr_timing_word.
  set (w := timing_word _ _ _ _ _). set (x := dmcr_basic _ _ _ _).
  replace (Z.lor (Z.lor (Z.lor x w) EMC_DMCR_RFSH) EMC_DMCR_MRSET)
    with (Z.lor (Z.lor (Z.lor x EMC_DMCR_RFSH) EMC_DMCR_MRSET) w).
  - rewrite timing_fields_lor; [subst w; by rewrite timing_word_fields|].
    apply land_lor_0; [apply land_lor_0; [apply basic_no_timing|]|]; vm_compute; reflexivity.
  - apply Z.bits_inj'. intros i Hi. rewrite !Z.lor_spec.
    by destruct (Z.testbit x i), (Z.testbit w i), (Z.testbit EMC_DMCR_RFSH i), (Z.testbit EMC_DMCR_MRSET i).
Qed.

End Times.

(** C33: the memory controller set-up for any board configuration and any memory
    clock up to 1 GHz: afterwards each timing field is in range, and the number
    of cycles it stands for takes at least the time of the data sheet, unless
    the field is at its maximum; except for the RAS pulse width, which can be
    one cycle short.  The refresh counter is between 1 and 255 and refresh is
    switched on, with the mode register written once before and once after. *)
Theorem sdram_init_timing c s dc dm f ns :
  times_ok c ->
  rd div_table (__cpm_get_cdiv (chip s)) = Some dc -> rd div_table (__cpm_get_mdiv (chip s)) = Some dm ->
  udiv (u32 (CFG_CPU_SPEED c * dc)) dm = Some f -> 0 < f <= 1000000000 -> ns = 1000000000 / f ->
  exists s' tras rcd tpc trwl trc, sdram_init c s = Some s' /\
    cycles_of (chip s') = [tras; rcd; tpc; trwl; trc] /\
    (tras = 11 \/ lasts (tras + 1) f (SDRAM_TRAS c)) /\
    (rcd = 4 \/ lasts rcd f (SDRAM_RCD c)) /\ (tpc = 8 \/ lasts tpc f (SDRAM_TPC c)) /\
    (trwl = 4 \/ lasts trwl f (SDRAM_TRWL c)) /\
    (trc = 15 \/ lasts trc f (SDRAM_TRAS c + SDRAM_TPC c)) /\
    1 <= RTCOR (chip s') <= 255 /\ RTCSR s' = EMC_RTCSR_CKS_64 /\
    length (mode_writes s') = (2 + length (mode_writes s))%nat /\
    CPCCR (chip s') = CPCCR (chip s) /\ CPPCR (chip s') = CPPCR (chip s).
Proof.
  intros Hok Hdc Hdm Hf Hfr Hns. unfold sdram_init. rewrite Hdc, Hdm. cbn [mbind option_bind].
  rewrite Hf. cbn [mbind option_bind]. unfold udiv at 1.
  rewrite (proj2 (Z.eqb_neq f 0)) by lia. cbn [mbind option_bind]. rewrite <- Hns.
  assert (Hn : 0 < ns) by (subst ns; apply Z.div_str_pos; lia). rewrite (proj2 (Z.eqb_neq ns 0)) by lia.
  eexists _, (tras_field c ns + 4), (rcd_field c ns + 1), (tpc_field c ns + 1), (trwl_field c ns + 1),
    (trc_field c ns * 2 + 1).
  split; [reflexivity|]. cbn [chip RTCSR mode_writes set_chip write_DMCR write_mode set_RTCSR set_BCR
    RTCOR set_DMCR set_RTCNT set_RTCOR CPCCR CPPCR]. split.
  { unfold cycles_of. cbn [DMCR set_DMCR]. by rewrite final_fields. }
  destruct Hok as [[H1 _] [H2 _] [H3 _] [H4 _] [H5 _]]. destruct Hfr as [Hf0 _].
  split; [by apply tras_lasts|]. split; [by apply (lasts_at_most f ns Hf0 Hns Hn _ 3)|].
  split; [by apply (lasts_at_most f ns Hf0 Hns Hn _ 7)|].
  split; [by apply (lasts_at_most f ns Hf0 Hns Hn _ 3)|].
  split; [apply trc_lasts; lia|]. split; [by apply refresh_range|]. split_and!; try done.
  rewrite !length_app. cbn. lia.
Qed.

(** ** From the boot loader to the frequency driver *)

(** What the code that runs in between (serial port, display) leaves alone: the
    PLL, the bus divisors, the memory controller. *)
Definition CLOCK_FIELDS : Z :=
  Z.lor (Z.lor (Z.lor CPM_CPCCR_CDIV_MASK CPM_CPCCR_HDIV_MASK) CPM_CPCCR_PDIV_MASK) CPM_CPCCR_MDIV_MASK.

Record same_clocks (h h' : hw) : Prop := {
  sc_CPCCR : Z.land (CPCCR h') CLOCK_FIELDS = Z.land (CPCCR h) CLOCK_FIELDS;
  sc_CPPCR : CPPCR h' = CPPCR h;
  sc_DMCR : DMCR h' = DMCR h;
  sc_RTCOR : RTCOR h' = RTCOR h }.

Lemma bits_of_clock_fields x y m b :
  Z.land x CLOCK_FIELDS = Z.land y CLOCK_FIELDS -> Z.land CLOCK_FIELDS m = m -> bits x m b = bits y m b.
Proof. intros H Hm. unfold bits. by rewrite <- Hm, !Z.land_assoc, H. Qed.

Lemma same_clocks_mclk h h' : same_clocks h h' -> __cpm_get_mclk h' = __cpm_get_mclk h.
Proof.
  intros [H1 H2 _ _]. unfold __cpm_get_mclk, pllout_over, __cpm_get_mdiv, __cpm_get_pllout, __cpm_get_pllm,
    __cpm_get_plln, __cpm_get_pllod. rewrite H2. by erewrite (bits_of_clock_fields _ _ _ _ H1).
Qed.

Lemma same_clocks_cclk h h' : same_clocks h h' -> __cpm_get_cclk h' = __cpm_get_cclk h.
Proof.
  intros [H1 H2 _ _]. unfold __cpm_get_cclk, pllout_over, __cpm_get_cdiv, __cpm_get_pllout, __cpm_get_pllm,
    __cpm_get_plln, __cpm_get_pllod. rewrite H2. by erewrite (bits_of_clock_fields _ _ _ _ H1).
Qed.

Lemma same_clocks_pllout h h' : CPPCR h' = CPPCR h -> __cpm_get_pllout h' = __cpm_get_pllout h.
Proof. intros H. unfold __cpm_get_pllout, __cpm_get_pllm, __cpm_get_plln, __cpm_get_pllod. by rewrite H. Qed.

(** The display clocks exist whatever their divisors are. *)
Lemma display_clocks h P :
  __cpm_get_pllout h = Some P ->
  exists lc px, __cpm_get_lcdclk h = Some lc /\ __cpm_get_pixclk h = Some px.
Proof.
  intros HP. unfold __cpm_get_lcdclk, __cpm_get_pixclk, __cpm_get_pllout2. rewrite HP.
  cbn [mbind option_bind]. unfold udiv, __cpm_get_ldiv, __cpm_get_pixdiv.
  pose proof (bits_nonneg (CPCCR h) CPM_CPCCR_LDIV_MASK CPM_CPCCR_LDIV_BIT ltac:(discriminate)).
  pose proof (bits_nonneg (LPCDR h) CPM_LPCDR_PIXDIV_MASK 0 ltac:(discriminate)).
  rewrite !(proj2 (Z.eqb_neq _ 0)) by lia. eauto.
Qed.

(** The registers after the boot loader of this board. *)
Lemma a320_boot s :
  exists s1 s2, pll_init a320 s = Some s1 /\ sdram_init a320 s1 = Some s2 /\
    __cpm_get_pllout (chip s2) = Some 336000000 /\ __cpm_get_cclk (chip s2) = Some 336000000 /\
    __cpm_get_mclk (chip s2) = Some 112000000 /\ cycles_of (chip s2) = [5; 3; 3; 1; 9] /\
    RTCOR (chip s2) = 31.
Proof. eexists _, _. split; [reflexivity|]. split; [reflexivity|]. by split_and!; vm_compute. Qed.

Lemma a320_points h lc px :
  cycles_of h = [5; 3; 3; 1; 9] -> RTCOR h = 31 ->
  boot_points 336000000 1 (boot_of h 112000000 lc px).
Proof.
  intros Hc Hr. injection Hc as Ha Hb Hd He Hf. unfold boot_of. rewrite Ha, Hb, Hd, He, Hf, Hr.
  split; [by left|by split| |by vm_compute|by vm_compute]. by split; vm_compute.
Qed.

(** At the memory clock of [h] (in kHz), each wait lasts at least as long as
    [ts] says, in ns, and refresh is not rarer than every 64 * 31 cycles of 112 MHz. *)
Definition memory_served (ts : list Z) (h : hw) : Prop :=
  exists f, __cpm_get_mclk h = Some f /\ 0 < f / 1000 /\
    Forall2 (fun t n => t <= ns n (f / 1000)) ts (cycles_of h) /\
    RTCOR h * 112000 <= 31 * (f / 1000).

Lemma dram_ok_served h h' lc px ts :
  RTCOR h = 31 -> Forall2 (fun t n => t <= ns n 112000) ts (cycles_of h) ->
  dram_ok (boot_of h 112000000 lc px) h' -> memory_served ts h'.
Proof.
  intros Hr Hts (f & Hf & Hpos & Ht & Hre). exists f. split_and!; try done.
  - change (cycles_of h) with (boot_cycles (boot_of h 112000000 lc px)) in Hts.
    refine (Forall2_trans _ _ _ _ _ _ _ Hts Ht). intros t n n' H1 H2. by etransitivity.
  - unfold refresh_ok in Hre. cbn in Hre. by rewrite Hr in Hre.
Qed.

(** C10: memory is safe from the boot loader to the frequency driver: whatever
    the registers held before, the boot loader's two functions succeed; if the
    code in between leaves the PLL, the bus divisors and the memory controller
    alone, then the driver starts, any sequence of its table entries can be
    requested, and each single register write of the driver leaves the memory
    with waits of at least the data sheet's 20 ns (RAS to CAS), 20 ns
    (precharge), 7 ns (write recovery) and 65 ns (RAS cycle), of 44 ns for the
    RAS pulse, and with refreshes not rarer than at boot. *)
Theorem spl_boot_scaling_safe s :
  exists s1 s2, pll_init a320 s = Some s1 /\ sdram_init a320 s1 = Some s2 /\
    forall k p idxs,
      same_clocks (chip s2) (regs k) -> cpu p = 0 -> lcd_clks_initialized (boot_config k) = 0 ->
      sdram_initialized (boot_config k) = 0 -> Forall (fun i => 0 <= i < 6) idxs ->
      exists p' k0 k' ws, jz4740_cpufreq_driver_init p k = Some (0, p', k0) /\
        run_points idxs k0 = Some k' /\ writes k' = writes k ++ ws /\
        Forall (memory_served
          [44; SDRAM_RCD a320; SDRAM_TPC a320; SDRAM_TRWL a320; SDRAM_TRAS a320 + SDRAM_TPC a320]) ws /\
        (forall i, last idxs = Some i ->
           exists n, rd factors i = Some n /\ __cpm_get_cclk (regs k') = Some (336000000 / n)).
Proof.
  destruct (a320_boot s) as (s1 & s2 & H1 & H2 & Hp & Hc & Hm & Hcy & Hr).
  exists s1, s2. split; [done|]. split; [done|]. intros k p idxs Hsc Hcpu Hl Hs His.
  rewrite <- (same_clocks_mclk _ _ Hsc) in Hm. rewrite <- (same_clocks_cclk _ _ Hsc) in Hc.
  rewrite <- (same_clocks_pllout _ _ (sc_CPPCR _ _ Hsc)) in Hp. rewrite <- (sc_RTCOR _ _ Hsc) in Hr.
  unfold cycles_of in Hcy. rewrite <- (sc_DMCR _ _ Hsc) in Hcy.
  change (cycles_of (regs k) = [5; 3; 3; 1; 9]) in Hcy.
  destruct (display_clocks _ _ Hp) as (lc & px & Hlc & Hpx).
  destruct (driver_init_inv 336000000 1 p k 112000000 lc px) as (p' & k0 & Hi & _ & Hw0 & Inv & _); try done.
  assert (BP : boot_points 336000000 1 (boot_of (regs k) 112000000 lc px)).
  { apply a320_points; done. }
  destruct (run_points_safe 336000000 1 _ BP idxs k0 His Inv) as (k' & ws & Hrun & _ & Hw & Hd & Hk).
  exists p', k0, k', ws. rewrite Hw0 in Hw. split_and!; try done.
  - eapply Forall_impl; [exact Hd|]. intros h. apply dram_ok_served; [done|]. rewrite Hcy.
    repeat constructor; vm_compute; discriminate.
  - intros i Hi'. destruct (Hk i Hi') as (n & Hn & Hcc). exists n. by rewrite Z.mul_1_l in Hcc.
Qed.

(** ** Concrete runs *)

Definition spl0 : spl := Spl (Hw 0 0 0 0 0 0 0 0) 0 0 0 [].

Lemma a320_times : times_ok a320.
Proof. split; cbn; lia. Qed.

(** After [pll_init]: 336 MHz for the CPU, 112 MHz for the memory. *)
Definition spl1 : spl := match pll_init a320 spl0 with Some s => s | None => spl0 end.

Lemma sdram_init_timing_witness :
  exists s' tras rcd, sdram_init a320 spl1 = Some s' /\ nth 0 (cycles_of (chip s')) 0 = tras /\
    nth 1 (cycles_of (chip s')) 0 = rcd /\ 1 <= RTCOR (chip s') <= 255 /\
    length (mode_writes s') = 2%nat.
Proof.
  destruct (sdram_init_timing a320 spl1 1 3 112000000 8) as
    (s' & tras & rcd & tpc & trwl & trc & Hi & Hc & _ & _ & _ & _ & _ & Hr & _ & Hm & _);
    [exact a320_times|done..|].
  exists s', tras, rcd. rewrite Hc. split_and!; [exact Hi|done|done|apply Hr|apply Hr|exact Hm].
Defined.

(** The driver started right after the boot loader, then three requests. *)
Lemma spl_boot_scaling_safe_witness :
  exists s1 s2 p' k0 k', pll_init a320 spl0 = Some s1 /\ sdram_init a320 s1 = Some s2 /\
    jz4740_cpufreq_driver_init boot_policy
      (Cpufreq (chip s2) (Boot 0 0 0 0 0 0 0 0 0 0 0) (Clocks 0 0 0 0 0 0 0 0 0) [] [] []) = Some (0, p', k0) /\
    run_points [0; 5; 2] k0 = Some k' /\ __cpm_get_cclk (regs k') = Some 84000000.
Proof.
  destruct (spl_boot_scaling_safe spl0) as (s1 & s2 & H1 & H2 & H).
  destruct (H (Cpufreq (chip s2) (Boot 0 0 0 0 0 0 0 0 0 0 0) (Clocks 0 0 0 0 0 0 0 0 0) [] [] [])
    boot_policy [0; 5; 2]) as (p' & k0 & k' & ws & Hi & Hr & _ & _ & Hk); try done.
  - repeat constructor; discriminate.
  - exists s1, s2, p', k0, k'. destruct (Hk 2 eq_refl) as (n & [= <-] & Hc). by split_and!.
Defined.

(** What the board's values give: the RAS pulse is 5 cycles of 112 MHz, less than
    45 ns; refreshes come every 31 * 64 cycles, more than 15625 ns apart; and the
    USB host clock is 168 MHz / 3, not 48 MHz. *)
Example a320_margins :
  option_map (fun s => (firstn 1 (cycles_of (chip s)), RTCOR (chip s), UHCCDR s))
    (s ← pll_init a320 spl0; sdram_init a320 s) = Some ([5], 31, 2) /\
  5 * 10 ^ 9 < 45 * 112000000 /\ 15625 * 112000000 < 31 * 64 * 10 ^ 9 /\ 168000000 / (2 + 1) = 56000000.
Proof. vm_compute. by split_and!. Qed.
