(* ===== verification/ItemList.v ===== *)
(** * Item lists of the menu program (gp2xmb/src/itemlist.c)

    The menu keeps a stack of doubly linked lists of items, one per level that
    the user has entered; the items of a level point to the item of the level
    above that was selected when the level was entered.  The model has the
    linked cells themselves, in a heap: a null or freed cell that is accessed
    is undefined behaviour ([None]).  The address that [malloc] returns is an
    argument; [None] is a failed allocation.  Icons are addresses of SDL surfaces,
    which belong to the callers: the calls that free them and the extra data are
    recorded ([release]), not checked.  Drawing ([LIST_draw]) is not modelled. *)

From S2P Require Import Prelude.

#[local] Arguments Z.eqb : simpl never.
#[local] Arguments Z.ltb : simpl never.
#[local] Arguments Z.add : simpl never.
#[local] Arguments Z.sub : simpl never.
#[local] Arguments Z.of_nat : simpl never.
#[local] Arguments Nat.pred : simpl never.

Abbreviation ptr := (option Z) (only parsing).

(** What an item shows; the links are apart. *)
Record shown := Shown {
  icon : ptr;
  icon_semi : ptr;
  filetypeicon : ptr;
  title : list Z;
  subtitle : list Z;
  extra : ptr;
  flags : Z }.

Record tlistitem := Item {
  data : shown;
  next : ptr;
  prev : ptr;
  root : ptr;
  parent : ptr }.

Definition ITF_NONE : Z := 0.

Record lists := Lists {
  heap : gmap Z tlistitem;
  li_root : ptr;
  li_curr_root : ptr;
  li_selected : Z;
  li_stage : Z;
  li_create_new : bool;
  li_animtimer : Z }.

Definition set_heap (h : gmap Z tlistitem) (s : lists) : lists :=
  Lists h (li_root s) (li_curr_root s) (li_selected s) (li_stage s) (li_create_new s) (li_animtimer s).
Definition set_curr_root (p : ptr) (s : lists) : lists :=
  Lists (heap s) (li_root s) p (li_selected s) (li_stage s) (li_create_new s) (li_animtimer s).
Definition set_selected (n : Z) (s : lists) : lists :=
  Lists (heap s) (li_root s) (li_curr_root s) n (li_stage s) (li_create_new s) (li_animtimer s).
Definition set_create_new (b : bool) (s : lists) : lists :=
  Lists (heap s) (li_root s) (li_curr_root s) (li_selected s) (li_stage s) b (li_animtimer s).

(** The cell behind a pointer. *)
Definition deref (h : gmap Z tlistitem) (p : ptr) : option tlistitem := a ← p; h !! a.

Definition set_next (c : tlistitem) (p : ptr) : tlistitem := Item (data c) p (prev c) (root c) (parent c).
Definition set_root (c : tlistitem) (p : ptr) : tlistitem := Item (data c) (next c) (prev c) p (parent c).

(** ** Operations *)

Definition LIST_init (s : lists) : lists := Lists (heap s) None None 0 0 false (li_animtimer s).

(** [for (count = 0; p != NULL && count < n; p = p->next, count++);]: the pointer
    and the count. *)
Fixpoint walk_next (n : nat) (h : gmap Z tlistitem) (p : ptr) (count : Z) : option (ptr * Z) :=
  match n with
  | O => Some (p, count)
  | S n =>
      match p with
      | None => Some (None, count)
      | Some a => c ← h !! a; walk_next n h (next c) (count + 1)
      end
  end.

Definition LIST_getSelected (s : lists) : option ptr :=
  '(p, _) ← walk_next (Z.to_nat (li_selected s)) (heap s) (li_curr_root s) 0; Some p.

Definition LIST_getSelNum (s : lists) : option Z :=
  '(_, n) ← walk_next (Z.to_nat (li_selected s)) (heap s) (li_curr_root s) 0; Some n.

(** [for (count = 0; p != NULL && p->prev != NULL; p = p->prev, count++);] *)
Fixpoint walk_first (fuel : nat) (h : gmap Z tlistitem) (p : ptr) (count : Z) : option (ptr * Z) :=
  match fuel with
  | O => None
  | S fuel =>
      match p with
      | None => Some (None, count)
      | Some a =>
          c ← h !! a;
          match prev c with
          | None => Some (p, count)
          | Some q => walk_first fuel h (Some q) (count + 1)
          end
      end
  end.

(** [while (walker && walker->next) walker = walker->next;] *)
Fixpoint walk_last (fuel : nat) (h : gmap Z tlistitem) (p : ptr) : option ptr :=
  match fuel with
  | O => None
  | S fuel =>
      match p with
      | None => Some None
      | Some a =>
          c ← h !! a;
          match next c with
          | None => Some p
          | Some q => walk_last fuel h (Some q)
          end
      end
  end.

(** A walk visits each cell at most once. *)
Definition cells (h : gmap Z tlistitem) : nat := S (size h).

Section Add.
(** [SDL_ConvertSurface(icon, icon->format, icon->flags)] *)
Context (convert : Z -> ptr).

(** What [LIST_seticon] and the rest of [LIST_add] store; strings are cut to
    the 63 characters before the terminator. *)
Definition shown_item (icon filetypeicon : ptr) (title subtitle : option (list Z)) (extra : ptr) : shown :=
  Shown icon (i ← icon; convert i) filetypeicon
    (match title with Some t => take 63 t | None => [] end)
    (match subtitle with Some t => take 63 t | None => [] end) extra ITF_NONE.

(** [mem] is the result of [malloc]. *)
Definition LIST_add (mem : ptr) (d : shown) (s : lists) : option lists :=
  match li_root s with
  | None =>
      match mem with
      | None => Some s
      | Some a =>
          Some (Lists (<[a := Item d None None None None]> (heap s)) (Some a) (Some a)
                  (li_selected s) (li_stage s) (li_create_new s) (li_animtimer s))
      end
  | Some _ =>
      match li_curr_root s with
      | None => None                       (* [curr] stays null *)
      | Some r =>
          if li_create_new s then
            c ← heap s !! r;
            let h := <[r := set_root c mem]> (heap s) in
            match mem with
            | None => Some (set_heap h s)
            | Some a =>
                sel ← LIST_getSelected (set_heap h s);
                Some (Lists (<[a := Item d None None None sel]> h) (li_root s) (Some a)
                        0 (li_stage s) false (li_animtimer s))
            end
          else
            w ← walk_last (cells (heap s)) (heap s) (Some r);
            wa ← w;
            wc ← heap s !! wa;
            let h := <[wa := set_next wc mem]> (heap s) in
            a ← mem;                       (* [walker->next->prev], unchecked *)
            c ← h !! r;
            Some (set_heap (<[a := Item d None (Some wa) None (parent c)]> h) s)
      end
  end.

End Add.

(** Calls of [SDL_FreeSurface] and of [free] for the extra data. *)
Inductive release := FreeSurface (a : Z) | Free (a : Z).

Definition free_surface (p : ptr) : list release := match p with Some a => [FreeSurface a] | None => [] end.

(** What is freed besides the cell, in this order. *)
Definition releases (d : shown) : list release :=
  free_surface (icon d) ++ free_surface (icon_semi d) ++ free_surface (filetypeicon d) ++
  match extra d with Some a => [Free a] | None => [] end.

(** The loop of [LIST_empty]: the heap without the cells, and what else is
    freed. *)
Fixpoint empty_loop (fuel : nat) (h : gmap Z tlistitem) (p : ptr) : option (list release * gmap Z tlistitem) :=
  match fuel with
  | O => None
  | S fuel =>
      match p with
      | None => Some ([], h)
      | Some a =>
          c ← h !! a;
          '(l, h) ← empty_loop fuel (delete a h) (next c);
          Some (releases (data c) ++ l, h)
      end
  end.

Definition LIST_empty (p : ptr) (s : lists) : option (list release * lists) :=
  '(l, h) ← empty_loop (cells (heap s)) (heap s) p; Some (l, set_heap h s).

Definition LIST_destroy (s : lists) : option (list release * lists) :=
  '(l, s) ← (match li_root s with Some _ => LIST_empty (li_root s) s | None => Some ([], s) end);
  Some (l, Lists (heap s) None None 0 0 false (li_animtimer s)).

Definition LIST_in (s : lists) : lists := set_create_new true s.

(** The result, what is freed besides cells, and the state. *)
Definition LIST_out (s : lists) : option (Z * list release * lists) :=
  if li_create_new s then Some (0, [], set_create_new false s)
  else
    if bool_decide (li_curr_root s = None \/ li_curr_root s = li_root s) then Some (1, [], s)
    else
      sel ← LIST_getSelected s;
      match sel with
      | None => Some (1, [], s)
      | Some a =>
          c ← heap s !! a;
          '(tmp_root, count) ← walk_first (cells (heap s)) (heap s) (parent c) 0;
          '(l, s) ← LIST_empty (li_curr_root s) (set_selected count s);
          Some (0, l, set_curr_root tmp_root s)
      end.

(** [LIST_up] and [LIST_down]; [now] is [SDL_GetTicks()]. *)
Definition LIST_up (now : Z) (s : lists) : option (Z * lists) :=
  match li_curr_root s with
  | None => Some (0, s)
  | Some _ =>
      sel ← LIST_getSelected s;
      c ← deref (heap s) sel;
      if bool_decide (prev c <> None) && negb (li_create_new s) then
        Some (1, Lists (heap s) (li_root s) (li_curr_root s) (li_selected s - 1) 1
                   (li_create_new s) now)
      else Some (0, s)
  end.

Definition LIST_down (now : Z) (s : lists) : option (Z * lists) :=
  match li_curr_root s with
  | None => Some (0, s)
  | Some _ =>
      sel ← LIST_getSelected s;
      c ← deref (heap s) sel;
      if bool_decide (next c <> None) && negb (li_create_new s) then
        Some (1, Lists (heap s) (li_root s) (li_curr_root s) (li_selected s + 1) 2
                   (li_create_new s) now)
      else Some (0, s)
  end.

(** The search loop of [LIST_getelement]. *)
Fixpoint find_element (fuel : nat) (h : gmap Z tlistitem) (p : ptr) (count index : Z) : option ptr :=
  match fuel with
  | O => None
  | S fuel =>
      match p with
      | None => Some None
      | Some a =>
          if count =? index then Some p
          else c ← h !! a; find_element fuel h (next c) (count + 1) index
      end
  end.

Definition LIST_getelement (index : Z) (s : lists) : option ptr :=
  sel ← LIST_getSelected s;
  '(first, _) ← walk_first (cells (heap s)) (heap s) sel 0;
  find_element (cells (heap s)) (heap s) first 0 index.

(** ** The menu as a stack of lists *)

(** The items of the current level and the number selected, the levels above
    with the item each was left at, whether a level is about to be entered, and
    how many cells have been lost. *)
Record menu := Menu {
  here : list shown;
  sel : nat;
  below : list (list shown * nat);
  entering : bool;
  lost : nat }.

Definition total (ls : list (list shown * nat)) : nat := sum_list_with (fun l => length l.1) ls.

Inductive request :=
  | Add (d : shown)
  | In
  | Out
  | Up (now : Z)
  | Down (now : Z)
  | Destroy.

(** The items of the outermost level. *)
Definition outermost_items (m : menu) : list shown :=
  match last ((here m, sel m) :: below m) with Some l => l.1 | None => [] end.

Definition freed (its : list shown) : list release := concat (map releases its).

(** The result and what is freed besides cells, and the menu. *)
Definition menu_step (r : request) (m : menu) : Z * list release * menu :=
  match r with
  | Add d =>
      (0, [], match here m with
          | [] => Menu [d] (sel m) (below m) (entering m) (lost m)
          | _ =>
              if entering m then Menu [d] 0 ((here m, sel m) :: below m) false (lost m)
              else Menu (here m ++ [d]) (sel m) (below m) false (lost m)
          end)
  | In => (0, [], Menu (here m) (sel m) (below m) true (lost m))
  | Out =>
      if entering m then (0, [], Menu (here m) (sel m) (below m) false (lost m))
      else
        match below m with
        | [] => (1, [], m)
        | (l, i) :: ls => (0, freed (here m), Menu l i ls false (lost m))
        end
  | Up _ =>
      if negb (entering m) && (0 <? sel m)%nat
      then (1, [], Menu (here m) (pred (sel m)) (below m) (entering m) (lost m)) else (0, [], m)
  | Down _ =>
      if negb (entering m) && (S (sel m) <? length (here m))%nat
      then (1, [], Menu (here m) (S (sel m)) (below m) (entering m) (lost m)) else (0, [], m)
  | Destroy =>
      (* only the outermost list is freed *)
      (0, freed (outermost_items m),
       Menu [] 0 [] false (lost m + (total ((here m, sel m) :: below m) - length (outermost_items m)))%nat)
  end.

(** ** Linked levels *)

(** The cells [A], in order, hold [its] and hang below [par]. *)
Definition level (h : gmap Z tlistitem) (par : ptr) (A : list Z) (its : list shown) : Prop :=
  length A = length its /\
  forall i a, A !! i = Some a -> exists c, h !! a = Some c /\ its !! i = Some (data c) /\
    next c = A !! S i /\ prev c = match i with O => None | S j => A !! j end /\ parent c = par.

(** The forward links alone. *)
Definition chain (h : gmap Z tlistitem) (A : list Z) : Prop :=
  forall i a, A !! i = Some a -> exists c, h !! a = Some c /\ next c = A !! S i.

Lemma level_chain h par A its : level h par A its -> chain h A.
Proof. intros [_ H] i a Hi. destruct (H i a Hi) as (c & Hc & _ & Hn & _). eauto. Qed.

(** Forward links and items. *)
Definition linked (h : gmap Z tlistitem) (A : list Z) (its : list shown) : Prop :=
  length A = length its /\
  forall i a, A !! i = Some a -> exists c, h !! a = Some c /\ next c = A !! S i /\ its !! i = Some (data c).

Lemma level_linked h par A its : level h par A its -> linked h A its.
Proof. intros [Hl H]. split; [done|]. intros i a Hi. destruct (H i a Hi) as (c & Hc & Hd & Hn & _). eauto. Qed.

Lemma level_lookup h par A its i a :
  level h par A its -> A !! i = Some a -> exists c, h !! a = Some c /\ its !! i = Some (data c) /\
    next c = A !! S i /\ prev c = match i with O => None | S j => A !! j end /\ parent c = par.
Proof. intros [_ H]. apply H. Qed.

Lemma chain_cells h A : NoDup A -> chain h A -> (length A <= size h)%nat.
Proof.
  intros Hd Hc. rewrite <- size_dom, <- (size_list_to_set (C := gset Z) A) by done.
  apply subseteq_size. intros a Ha. apply elem_of_list_to_set in Ha.
  apply list_elem_of_lookup in Ha as (i & Hi). destruct (Hc i a Hi) as (c & Hh & _).
  by apply elem_of_dom_2 in Hh.
Qed.

Lemma walk_next_chain n h A i k :
  chain h A -> exists k', walk_next n h (A !! i) k = Some (A !! (i + n)%nat, k') /\
    ((i + n <= length A)%nat -> k' = k + Z.of_nat n).
Proof.
  intros Hc. revert i k. induction n as [|n IH]; intros i k; cbn [walk_next].
  { rewrite Nat.add_0_r. exists k. split; [done|]. lia. }
  destruct (A !! i) as [a|] eqn:Hi.
  - destruct (Hc i a Hi) as (c & -> & Hn). cbn [mbind option_bind]. rewrite Hn.
    destruct (IH (S i) (k + 1)) as (k' & -> & Hk).
    exists k'. split; [do 2 f_equal; f_equal; lia|]. intros. rewrite Hk by lia. lia.
  - apply lookup_ge_None in Hi. exists k. split; [|lia].
    by rewrite (lookup_ge_None_2 A (i + S n)) by lia.
Qed.

Lemma walk_first_level h par A its i k fuel :
  level h par A its -> (i < length A)%nat -> (i < fuel)%nat ->
  walk_first fuel h (A !! i) k = Some (A !! 0%nat, k + Z.of_nat i).
Proof.
  intros Hl. revert i k. induction fuel as [|fuel IH]; intros i k Hi Hf; [lia|]. cbn [walk_first].
  destruct (lookup_lt_is_Some_2 A i Hi) as [a Ha]. rewrite Ha.
  destruct (level_lookup _ _ _ _ _ _ Hl Ha) as (c & -> & _ & _ & Hp & _). cbn [mbind option_bind].
  rewrite Hp. destruct i as [|i].
  - by rewrite Z.add_0_r, Ha.
  - destruct (lookup_lt_is_Some_2 A i) as [b Hb]; [lia|]. rewrite Hb, <- Hb.
    rewrite IH by lia. do 2 f_equal. lia.
Qed.

Lemma walk_last_chain h A i fuel :
  chain h A -> (i < length A)%nat -> (length A - i <= fuel)%nat ->
  walk_last fuel h (A !! i) = Some (last A).
Proof.
  intros Hc. revert i. induction fuel as [|fuel IH]; intros i Hi Hf; [lia|]. cbn [walk_last].
  destruct (lookup_lt_is_Some_2 A i Hi) as [a Ha]. rewrite Ha.
  destruct (Hc i a Ha) as (c & -> & Hn). cbn [mbind option_bind]. rewrite Hn.
  destruct (A !! S i) as [b|] eqn:Hb.
  - rewrite <- Hb. apply lookup_lt_Some in Hb as Hlt. apply IH; lia.
  - apply lookup_ge_None in Hb. rewrite last_lookup. by replace (pred (length A)) with i by lia; rewrite Ha.
Qed.

Definition delete_all (A : list Z) (h : gmap Z tlistitem) : gmap Z tlistitem :=
  foldl (fun h a => delete a h) h A.

Lemma lookup_delete_all A h b : delete_all A h !! b = if bool_decide (b ∈ A) then None else h !! b.
Proof.
  revert h. induction A as [|a A IH]; intros h; [done|]. cbn [delete_all foldl].
  fold (delete_all A (delete a h)). rewrite IH.
  destruct (decide (b = a)) as [->|Hne].
  - rewrite (bool_decide_true (a ∈ a :: A)) by left. case_match; [done|]. by rewrite lookup_delete_eq.
  - rewrite lookup_delete_ne by done.
    by rewrite (bool_decide_ext (b ∈ A) (b ∈ a :: A)) by set_solver.
Qed.

Lemma empty_chain h A its fuel :
  NoDup A -> linked h A its -> (length A < fuel)%nat ->
  empty_loop fuel h (A !! 0%nat) = Some (freed its, delete_all A h) /\
  (size (delete_all A h) + length A = size h)%nat.
Proof.
  revert h its fuel. induction A as [|a A IH]; intros h its fuel Hd [Hl Hc] Hf.
  { destruct its; [|done]. destruct fuel; [cbn in Hf; lia|]. cbn. split; [done|lia]. }
  destruct fuel; [cbn in Hf; lia|]. apply NoDup_cons in Hd as [Ha Hd]. destruct its as [|d its]; [done|].
  destruct (Hc 0%nat a eq_refl) as (c & Hh & Hn & [= ->]). change ((a :: A) !! 0%nat) with (Some a).
  cbn [empty_loop]. rewrite Hh. cbn [mbind option_bind]. rewrite Hn.
  change ((a :: A) !! 1%nat) with (A !! 0%nat). cbn in Hf.
  destruct (IH (delete a h) its fuel) as [-> Hs]; [done| |lia|].
  - split; [by injection Hl|]. intros i b Hi. destruct (Hc (S i) b Hi) as (c' & Hc' & Hn').
    exists c'. split; [|done]. rewrite lookup_delete_ne; [done|]. intros ->.
    apply Ha. by eapply list_elem_of_lookup_2.
  - split; [done|]. cbn [delete_all foldl length]. fold (delete_all A (delete a h)).
    rewrite map_size_delete_Some in Hs by eauto.
    assert (size h <> 0)%nat by (intros ?%map_size_empty_inv; subst; by rewrite lookup_empty in Hh). lia.
Qed.

Lemma find_element_chain h A i k fuel :
  chain h A -> (length A - i < fuel)%nat -> (i <= k)%nat ->
  find_element fuel h (A !! i) (Z.of_nat i) (Z.of_nat k) = Some (A !! k).
Proof.
  intros Hc. revert i. induction fuel as [|fuel IH]; intros i Hf Hk; [lia|]. cbn [find_element].
  destruct (A !! i) as [a|] eqn:Ha.
  - destruct (Z.eqb_spec (Z.of_nat i) (Z.of_nat k)) as [He|He].
    + apply Nat2Z.inj in He as ->. by rewrite Ha.
    + destruct (Hc i a Ha) as (c & -> & Hn). cbn [mbind option_bind]. rewrite Hn.
      apply lookup_lt_Some in Ha. replace (Z.of_nat i + 1) with (Z.of_nat (S i)) by lia. apply IH; lia.
  - apply lookup_ge_None in Ha. by rewrite lookup_ge_None_2 by lia.
Qed.

(** ** The heap represents the menu *)

(** Cells that differ in the [root] link only, which nothing reads. *)
Definition same_links (c c' : tlistitem) : Prop :=
  data c' = data c /\ next c' = next c /\ prev c' = prev c /\ parent c' = parent c.

(** [h'] keeps the cells [A] of [h]. *)
Definition keeps (h h' : gmap Z tlistitem) (A : list Z) : Prop :=
  forall a c, a ∈ A -> h !! a = Some c -> exists c', h' !! a = Some c' /\ same_links c c'.

Lemma keeps_ne h h' A : (forall a, a ∈ A -> h' !! a = h !! a) -> keeps h h' A.
Proof. intros H a c Ha Hc. exists c. rewrite H by done. by split_and!. Qed.

Lemma keeps_sub h h' A B : A ⊆ B -> keeps h h' B -> keeps h h' A.
Proof. intros Hs H a c Ha. apply H. set_solver. Qed.

Lemma level_keeps h h' par A its : keeps h h' A -> level h par A its -> level h' par A its.
Proof.
  intros Hk [Hl H]. split; [done|]. intros i a Hi. destruct (H i a Hi) as (c & Hc & Hd & Hn & Hp & Hq).
  destruct (Hk a c) as (c' & Hc' & (E1 & E2 & E3 & E4)); [by eapply list_elem_of_lookup_2|done|].
  exists c'. rewrite E1, E2, E3, E4. by split_and!.
Qed.

(** The item that a level hangs below: the one the level above was left at. *)
Definition par_of (ls : list (list shown * nat)) (As : list (list Z)) : ptr :=
  match ls, As with (_, i) :: _, A :: _ => A !! i | _, _ => None end.

Fixpoint levels (h : gmap Z tlistitem) (ls : list (list shown * nat)) (As : list (list Z)) : Prop :=
  match ls, As with
  | [], [] => True
  | (its, i) :: ls, A :: As => level h (par_of ls As) A its /\ (i < length A)%nat /\ levels h ls As
  | _, _ => False
  end.

Lemma levels_keeps h h' ls As : keeps h h' (concat As) -> levels h ls As -> levels h' ls As.
Proof.
  revert As. induction ls as [|[its i] ls IH]; intros [|A As] Hk; try done. cbn [levels].
  intros (Hl & Hi & H). split_and!; [|done|].
  - eapply level_keeps; [|done]. eapply keeps_sub; [|exact Hk]. cbn. set_solver.
  - apply IH; [|done]. eapply keeps_sub; [|exact Hk]. cbn. set_solver.
Qed.

(** The head of the outermost level. *)
Definition root_of (A : list Z) (As : list (list Z)) : ptr := default A (last As) !! 0%nat.

Record rep (s : lists) (m : menu) (A : list Z) (As : list (list Z)) : Prop := {
  rep_level : level (heap s) (par_of (below m) As) A (here m);
  rep_levels : levels (heap s) (below m) As;
  rep_nodup : NoDup (A ++ concat As);
  rep_curr : li_curr_root s = A !! 0%nat;
  rep_root : li_root s = root_of A As;
  rep_sel : li_selected s = Z.of_nat (sel m);
  rep_new : li_create_new s = entering m;
  rep_size : size (heap s) = (length A + length (concat As) + lost m)%nat;
  rep_range : (sel m < length A)%nat \/ (A = [] /\ sel m = 0%nat /\ below m = []) }.

Definition represents (s : lists) (m : menu) : Prop := exists A As, rep s m A As.

Lemma getSelected_rep s m A As : rep s m A As -> LIST_getSelected s = Some (A !! sel m).
Proof.
  intros R. unfold LIST_getSelected. rewrite (rep_curr _ _ _ _ R), (rep_sel _ _ _ _ R), Nat2Z.id.
  destruct (walk_next_chain (sel m) (heap s) A 0 0) as (k & -> & _); [|done].
  eapply level_chain, (rep_level _ _ _ _ R).
Qed.

Lemma rep_lengths s m A As : rep s m A As -> length A = length (here m).
Proof. intros R. apply (rep_level _ _ _ _ R). Qed.

Lemma rep_fuel s m A As : rep s m A As -> (length A < cells (heap s))%nat.
Proof. intros R. unfold cells. rewrite (rep_size _ _ _ _ R). lia. Qed.

(** The parent's list is not empty and is the one below. *)
Lemma levels_cons h its i ls As :
  levels h ((its, i) :: ls) As -> exists A As', As = A :: As' /\
    level h (par_of ls As') A its /\ (i < length A)%nat /\ levels h ls As'.
Proof. destruct As as [|A As']; cbn; [done|]. intros (? & ? & ?). eauto 10. Qed.

Lemma levels_nil h As : levels h [] As -> As = [].
Proof. by destruct As. Qed.

Lemma levels_nonempty h ls As B : levels h ls As -> B ∈ As -> B <> [].
Proof.
  revert As. induction ls as [|[its i] ls IH]; intros [|A As]; try done; cbn [levels].
  { intros _ HB. by apply elem_of_nil in HB. }
  intros (_ & Hi & H) [->|HB]%elem_of_cons; [|by eapply IH]. intros ->. cbn in Hi. lia.
Qed.

(** The outermost level is another one once a level has been entered. *)
Lemma root_of_cons A B As :
  B <> [] -> (forall C, C ∈ As -> C <> []) -> NoDup (A ++ concat (B :: As)) -> A <> [] ->
  root_of A (B :: As) <> A !! 0%nat.
Proof.
  intros HB HAs Hd HA. unfold root_of.
  destruct (last (B :: As)) as [C|] eqn:HC; [|by apply last_None in HC]. cbn [default from_option].
  apply last_Some_elem_of in HC as HC'. intros He.
  destruct A as [|a A]; [done|]. cbn in He.
  assert (C <> []) by (apply elem_of_cons in HC' as [->|?]; auto).
  destruct C as [|c C]; [done|]. cbn in He. injection He as ->.
  apply NoDup_app in Hd as (_ & Hd & _). apply (Hd a); [left|].
  apply list_elem_of_In, in_concat. exists (a :: C). split; [by apply list_elem_of_In|by left].
Qed.

Lemma root_of_push A B As : root_of A As = root_of B (A :: As).
Proof.
  unfold root_of. destruct As as [|C As]; [done|]. change (last (A :: C :: As)) with (last (C :: As)).
  by destruct (last (C :: As)) eqn:H; [|apply last_None in H].
Qed.

Lemma root_of_some h m A As :
  levels h (below m) As -> A <> [] -> exists r, root_of A As = Some r.
Proof.
  intros Hls HA. unfold root_of.
  assert (Hne : default A (last As) <> []).
  { destruct (last As) as [C|] eqn:HC; [|done]. cbn.
    eapply levels_nonempty; [exact Hls|by apply last_Some_elem_of]. }
  destruct (default A (last As)); [done|]. by eexists.
Qed.

(** A new last cell. *)
Lemma level_snoc h par A its wa wc a d :
  level h par A its -> NoDup A -> last A = Some wa -> h !! wa = Some wc -> h !! a = None ->
  level (<[a := Item d None (Some wa) None par]> (<[wa := set_next wc (Some a)]> h)) par
    (A ++ [a]) (its ++ [d]).
Proof.
  intros [Hl H] Hd Hlast Hwc Ha. split; [rewrite !length_app; cbn; lia|].
  rewrite last_lookup in Hlast. intros i b Hb.
  assert (Hpos : (0 < length A)%nat) by (destruct A; [by rewrite lookup_nil in Hlast|cbn; lia]).
  destruct (decide (i < length A)%nat) as [Hi|Hi].
  - rewrite lookup_app_l in Hb by done. destruct (H i b Hb) as (c & Hc & Hdt & Hn & Hp & Hq).
    assert (b <> a) by congruence.
    assert (Hprev : match i with O => None | S j => (A ++ [a]) !! j end
                    = match i with O => None | S j => A !! j end)
      by (destruct i; [done|by rewrite lookup_app_l by lia]).
    rewrite Hprev. destruct (decide (b = wa)) as [->|Hbw].
    + assert (i = pred (length A)) as -> by (by eapply NoDup_lookup).
      exists (set_next wc (Some a)). rewrite Hwc in Hc. injection Hc as <-.
      rewrite lookup_insert_ne, lookup_insert_eq by done. split_and!; try done.
      * rewrite lookup_app_l by lia. exact Hdt.
      * rewrite lookup_app_r by lia. by replace (S (pred (length A)) - length A)%nat with 0%nat by lia.
    + exists c. rewrite !lookup_insert_ne by done. split_and!; try done.
      * rewrite lookup_app_l by lia. exact Hdt.
      * rewrite Hn. destruct (decide (S i < length A)%nat); [by rewrite lookup_app_l by lia|].
        exfalso. apply Hbw. assert (i = pred (length A)) as -> by lia. congruence.
  - apply lookup_lt_Some in Hb as Hlt. rewrite length_app in Hlt. cbn in Hlt.
    assert (i = length A) as -> by lia. rewrite lookup_app_r, Nat.sub_diag in Hb by lia.
    injection Hb as <-. eexists. rewrite lookup_insert_eq. split; [done|]. cbn [data next prev parent].
    split_and!; try done.
    + rewrite lookup_app_r, Hl, Nat.sub_diag by lia. done.
    + by rewrite lookup_app_r by lia; replace (S (length A) - length A)%nat with 1%nat by lia.
    + destruct (length A) eqn:He; [lia|]. cbn [pred] in Hlast. by rewrite lookup_app_l by lia.
Qed.

Lemma level_single h a d par : level (<[a := Item d None None None par]> h) par [a] [d].
Proof.
  split; [done|]. intros [|i] b Hb; [|discriminate Hb]. injection Hb as <-.
  eexists. rewrite lookup_insert_eq. by split_and!.
Qed.

(** A fresh address is in no level. *)
Lemma fresh_level h par A its a : level h par A its -> h !! a = None -> a ∉ A.
Proof.
  intros [_ H] Ha (i & Hi)%list_elem_of_lookup. destruct (H i a Hi) as (c & Hc & _). congruence.
Qed.

Lemma fresh_levels h ls As a : levels h ls As -> h !! a = None -> a ∉ concat As.
Proof.
  intros Hls Ha. revert As Hls. induction ls as [|[its i] ls IH]; intros [|A As]; cbn [levels concat]; try done.
  { intros _. apply not_elem_of_nil. }
  intros (Hl & _ & H) [Hin|Hin]%elem_of_app; [by eapply fresh_level|by eapply IH].
Qed.

(** The first item of all. *)
Lemma add_first_rep a d s m As :
  heap s !! a = None -> rep s m [] As ->
  exists s', LIST_add (Some a) d s = Some s' /\ represents s' (menu_step (Add d) m).2.
Proof.
  intros Ha R. pose proof (rep_lengths _ _ _ _ R) as Hlen. destruct R as [Rl Rls Rd Rc Rr Rs Rn Rz Rg].
  destruct Rg as [Rg|(_ & Rs0 & Rb)]; [cbn in Rg; lia|].
  rewrite Rb in *. apply levels_nil in Rls as ->. unfold LIST_add. rewrite Rr.
  cbn [root_of last default from_option lookup].
  eexists. split; [reflexivity|]. exists [a], []. cbn [menu_step snd].
  destruct (here m) as [|? ?] eqn:Hh; [|done].
  split; cbn; try done; try rewrite Rb; try done.
  - apply level_single.
  - apply NoDup_singleton.
  - rewrite map_size_insert_None by done. cbn in Rz. lia.
  - left. lia.
Qed.

(** The first item of a new level. *)
Lemma add_enter_rep a d s m A As r :
  heap s !! a = None -> rep s m A As -> A !! 0%nat = Some r -> entering m = true ->
  exists s', LIST_add (Some a) d s = Some s' /\ represents s' (menu_step (Add d) m).2.
Proof.
  intros Ha R Hr He. pose proof (rep_lengths _ _ _ _ R) as Hlen.
  destruct R as [Rl Rls Rd Rc Rr Rs Rn Rz Rg].
  assert (HaA : a ∉ A) by (by eapply fresh_level). assert (HaAs : a ∉ concat As) by (by eapply fresh_levels).
  assert (HAne : A <> []) by (by intros ->). destruct Rg as [Rg|(? & _)]; [|done].
  destruct (root_of_some (heap s) m A As Rls HAne) as (r0 & Hr0).
  unfold LIST_add. rewrite Rr, Hr0, Rc, Hr, Rn, He.
  destruct (level_lookup _ _ _ _ _ _ Rl Hr) as (c & Hc & _). rewrite Hc. cbn [mbind option_bind menu_step].
  destruct (here m) as [|x xs] eqn:Hh; [by destruct A|]. rewrite <- Hh in *. rewrite He.
  set (h1 := <[r := set_root c (Some a)]> (heap s)).
  assert (Hk : keeps (heap s) h1 (A ++ concat As)).
  { intros b c' _ Hb. subst h1. destruct (decide (b = r)) as [->|].
    - rewrite lookup_insert_eq. rewrite Hc in Hb. injection Hb as <-. eexists. by split.
    - rewrite lookup_insert_ne by done. exists c'. by split. }
  unfold LIST_getSelected. cbn [heap li_selected li_curr_root set_heap]. rewrite Rc, Rs, Nat2Z.id.
  destruct (walk_next_chain (sel m) h1 A 0 0) as (k & -> & _).
  { eapply level_chain, level_keeps, Rl. eapply keeps_sub; [|exact Hk]. set_solver. }
  cbn [mbind option_bind Nat.add].
  assert (Ha1 : h1 !! a = None) by (subst h1; rewrite lookup_insert_ne; [done|]; congruence).
  assert (Hk2 : keeps (heap s) (<[a := Item d None None None (A !! sel m)]> h1) (A ++ concat As)).
  { intros b c' Hb Hbc. destruct (Hk b c' Hb Hbc) as (c2 & Hc2 & Hs2). exists c2.
    rewrite lookup_insert_ne; [done|]. intros ->. set_solver. }
  eexists. split; [reflexivity|]. exists [a], (A :: As).
  split; cbn [heap li_root li_curr_root li_selected li_create_new snd here sel below entering lost]; try done.
  - apply level_single.
  - cbn [levels]. split_and!; [|done|].
    + eapply level_keeps; [|exact Rl]. eapply keeps_sub; [|exact Hk2]. set_solver.
    + eapply levels_keeps; [|exact Rls]. eapply keeps_sub; [|exact Hk2]. set_solver.
  - cbn [concat]. apply NoDup_cons. split; [set_solver|done].
  - rewrite <- Hr0. apply root_of_push.
  - rewrite map_size_insert_None by done. subst h1. rewrite map_size_insert_Some by eauto.
    cbn [concat length]. rewrite length_app. lia.
  - left. cbn. lia.
Qed.

(** A further item of the level. *)
Lemma add_append_rep a d s m A As r :
  heap s !! a = None -> rep s m A As -> A !! 0%nat = Some r -> entering m = false ->
  exists s', LIST_add (Some a) d s = Some s' /\ represents s' (menu_step (Add d) m).2.
Proof.
  intros Ha R Hr He. pose proof (rep_lengths _ _ _ _ R) as Hlen. pose proof (rep_fuel _ _ _ _ R) as Hf.
  destruct R as [Rl Rls Rd Rc Rr Rs Rn Rz Rg].
  assert (HaA : a ∉ A) by (by eapply fresh_level). assert (HaAs : a ∉ concat As) by (by eapply fresh_levels).
  assert (HAne : A <> []) by (by intros ->). destruct Rg as [Rg|(? & _)]; [|done].
  destruct (root_of_some (heap s) m A As Rls HAne) as (r0 & Hr0).
  unfold LIST_add. rewrite Rr, Hr0, Rc, Hr, Rn, He. cbn [menu_step].
  destruct (here m) as [|x xs] eqn:Hh; [by destruct A|]. rewrite <- Hh in *. rewrite He.
  destruct (last A) as [wa|] eqn:Hlast; [|by apply last_None in Hlast].
  rewrite <- Hr, (walk_last_chain _ A) by (try (by eapply level_chain); lia).
  rewrite Hlast. cbn [mbind option_bind]. pose proof Hlast as Hlast'. rewrite last_lookup in Hlast'.
  destruct (level_lookup _ _ _ _ _ _ Rl Hlast') as (wc & Hwc & _ & _ & _ & Hwp).
  rewrite Hwc. cbn [mbind option_bind].
  assert (Hp : exists c', <[wa := set_next wc (Some a)]> (heap s) !! r = Some c' /\
                          parent c' = par_of (below m) As).
  { destruct (level_lookup _ _ _ _ _ _ Rl Hr) as (c & Hc & _ & _ & _ & Hcp).
    destruct (decide (r = wa)) as [->|]; [rewrite lookup_insert_eq; eauto|].
    rewrite lookup_insert_ne by done. eauto. }
  destruct Hp as (c' & -> & Hpc). cbn [mbind option_bind]. rewrite Hpc.
  apply NoDup_app in Rd as (RdA & Rdis & RdAs).
  eexists. split; [reflexivity|]. exists (A ++ [a]), As.
  split; cbn [heap li_root li_curr_root li_selected li_create_new snd here sel below entering lost set_heap];
    try done.
  - by apply level_snoc.
  - eapply levels_keeps; [|exact Rls]. apply keeps_ne. intros b Hb.
    rewrite !lookup_insert_ne; [done| |intros ->; done].
    intros ->. apply (Rdis b); [|done]. by eapply list_elem_of_lookup_2.
  - rewrite <- app_assoc. apply NoDup_app. split; [done|]. split; [set_solver|].
    cbn. apply NoDup_cons. by split.
  - rewrite Rc. by destruct A.
  - rewrite Rr. unfold root_of. destruct (last As); [done|]. cbn. by destruct A.
  - congruence.
  - rewrite map_size_insert_None, map_size_insert_Some by
      (try rewrite lookup_insert_ne; try done; eauto; intros ->; congruence).
    rewrite length_app. cbn. lia.
  - left. rewrite length_app. lia.
Qed.

Lemma add_rep a d s m A As :
  heap s !! a = None -> rep s m A As ->
  exists s', LIST_add (Some a) d s = Some s' /\ represents s' (menu_step (Add d) m).2.
Proof.
  intros Ha R. destruct A as [|r A]; [by eapply add_first_rep|].
  destruct (entering m) eqn:He; [by eapply add_enter_rep|by eapply add_append_rep].
Qed.

Lemma move_rep s m A As (up : bool) now :
  rep s m A As ->
  exists s', (if up then LIST_up now s else LIST_down now s) =
      Some ((menu_step (if up then Up now else Down now) m).1.1, s') /\
    (menu_step (if up then Up now else Down now) m).1.2 = [] /\
    represents s' (menu_step (if up then Up now else Down now) m).2.
Proof.
  intros R. pose proof (rep_lengths _ _ _ _ R) as Hlen.
  pose proof (getSelected_rep _ _ _ _ R) as Hsel.
  destruct (rep_range _ _ _ _ R) as [Hr|(-> & Hs0 & Hb)].
  - destruct (lookup_lt_is_Some_2 A (sel m) Hr) as [a Ha].
    destruct (level_lookup _ _ _ _ _ _ (rep_level _ _ _ _ R) Ha) as (c & Hc & _ & Hn & Hp & _).
    assert (Hroot : exists r, li_curr_root s = Some r).
    { rewrite (rep_curr _ _ _ _ R). destruct A; [cbn in Hr; lia|]. by eexists. }
    destruct Hroot as (r & Hroot).
    destruct up; [unfold LIST_up|unfold LIST_down]; rewrite Hroot, Hsel; cbn [mbind option_bind];
      rewrite Ha; unfold deref; cbn [mbind option_bind]; rewrite Hc; cbn [mbind option_bind];
      rewrite (rep_new _ _ _ _ R); cbn [menu_step].
    + rewrite Hp, andb_comm. assert (He : bool_decide (match sel m with O => None | S j => A !! j end <> None)
        = (0 <? sel m)%nat).
      { destruct (sel m) as [|j]; [done|]. apply bool_decide_eq_true_2.
        destruct (lookup_lt_is_Some_2 A j) as [b ->]; [lia|done]. }
      rewrite He. destruct (negb (entering m) && (0 <? sel m)%nat) eqn:Hb.
      * eexists. split; [reflexivity|]. split; [done|]. exists A, As. destruct R. split; cbn; try done; try congruence.
        -- apply andb_true_iff in Hb as [_ Hb%Nat.ltb_lt]. lia.
        -- left. lia.
      * exists s. split; [reflexivity|]. split; [done|]. by exists A, As.
    + rewrite Hn, andb_comm, <- Hlen.
      assert (He : bool_decide (A !! S (sel m) <> None) = (S (sel m) <? length A)%nat).
      { destruct (Nat.ltb_spec (S (sel m)) (length A)).
        - apply bool_decide_eq_true_2. destruct (lookup_lt_is_Some_2 A (S (sel m))) as [b ->]; [lia|done].
        - apply bool_decide_eq_false_2. by rewrite lookup_ge_None_2 by lia; intros []. }
      rewrite He. destruct (negb (entering m) && (S (sel m) <? length A)%nat) eqn:Hb.
      * eexists. split; [reflexivity|]. split; [done|]. exists A, As. destruct R. split; cbn; try done; try congruence.
        -- lia.
        -- apply andb_true_iff in Hb as [_ Hb%Nat.ltb_lt]. left. lia.
      * exists s. split; [reflexivity|]. split; [done|]. by exists A, As.
  - assert (Hroot : li_curr_root s = None) by (by rewrite (rep_curr _ _ _ _ R)).
    cbn in Hlen. destruct (here m) eqn:Hh; [|done].
    exists s. destruct up; [unfold LIST_up|unfold LIST_down]; rewrite Hroot; cbn [menu_step];
      rewrite Hs0, ?Hh, andb_false_r; (split; [reflexivity|split; [done|by exists [], As]]).
Qed.

Lemma out_rep s m A As :
  rep s m A As ->
  exists s', LIST_out s = Some ((menu_step Out m).1, s') /\ represents s' (menu_step Out m).2.
Proof.
  intros R. pose proof (getSelected_rep _ _ _ _ R) as Hsel. pose proof (rep_fuel _ _ _ _ R) as Hfuel.
  unfold LIST_out. cbn [menu_step]. rewrite (rep_new _ _ _ _ R). destruct (entering m) eqn:He.
  { eexists. split; [reflexivity|]. exists A, As. by destruct R. }
  destruct (below m) as [|[l i] ls] eqn:Hb.
  { assert (As = []) as ->. { eapply levels_nil. rewrite <- Hb. apply R. }
    rewrite bool_decide_eq_true_2.
    - exists s. split; [reflexivity|]. by exists A, [].
    - right. by rewrite (rep_curr _ _ _ _ R), (rep_root _ _ _ _ R). }
  destruct R as [Rl Rls Rd Rc Rr Rs Rn Rz Rg]. rewrite Hb in *.
  apply levels_cons in Rls as (B & As' & -> & Bl & Bi & Bls).
  destruct Rg as [Rg|(_ & _ & ?)]; [|done].
  assert (HAne : A <> []) by (intros ->; cbn in Rg; lia).
  assert (HBne : B <> []) by (intros ->; cbn in Bi; lia).
  rewrite bool_decide_eq_false_2.
  2: { rewrite Rc, Rr. intros [H|H].
       - by destruct A.
       - symmetry in H. revert H. apply root_of_cons; try done. intros. by eapply levels_nonempty. }
  rewrite Hsel. cbn [mbind option_bind]. destruct (lookup_lt_is_Some_2 A (sel m) Rg) as [a Ha]. rewrite Ha.
  destruct (level_lookup _ _ _ _ _ _ Rl Ha) as (c & -> & _ & _ & _ & Hpar). cbn [mbind option_bind].
  rewrite Hpar. cbn [par_of].
  rewrite (walk_first_level _ _ _ _ _ _ _ Bl Bi).
  2: { unfold cells. rewrite Rz. cbn [concat]. rewrite length_app. lia. }
  cbn [mbind option_bind]. unfold LIST_empty. cbn [heap set_selected].
  cbn [concat] in Rd. apply NoDup_app in Rd as (RdA & Rdis & RdB).
  rewrite Rc. destruct (empty_chain (heap s) A (here m) (cells (heap s))) as [-> Hsz];
    [done|by eapply level_linked|done|]. cbn [mbind option_bind].
  assert (Hk : keeps (heap s) (delete_all A (heap s)) (B ++ concat As')).
  { apply keeps_ne. intros b Hbin. rewrite lookup_delete_all, bool_decide_eq_false_2; [done|].
    intros HbA. by apply (Rdis b). }
  eexists. split; [reflexivity|]. exists B, As'.
  split; cbn [heap li_root li_curr_root li_selected li_create_new here sel below entering lost snd
              set_heap set_curr_root set_selected]; try done.
  - eapply level_keeps; [|exact Bl]. eapply keeps_sub; [|exact Hk]. set_solver.
  - eapply levels_keeps; [|exact Bls]. eapply keeps_sub; [|exact Hk]. set_solver.
  - rewrite Rr. symmetry. apply root_of_push.
  - congruence.
  - cbn [concat] in Rz. rewrite length_app in Rz. lia.
  - by left.
Qed.

Lemma total_levels h ls As : levels h ls As -> total ls = length (concat As).
Proof.
  revert As. induction ls as [|[its i] ls IH]; intros [|A As]; try done. cbn [levels].
  intros ([Hl _] & _ & H). cbn [total concat sum_list_with fst]. rewrite length_app, Hl.
  unfold total in IH. by rewrite (IH As H).
Qed.

(** The level that [li_root] heads. *)
Lemma outermost h par A its ls As i :
  level h par A its -> levels h ls As ->
  exists B, default A (last As) = B /\ (length B <= length A + length (concat As))%nat /\
    linked h B match last ((its, i) :: ls) with Some l => l.1 | None => [] end.
Proof.
  revert par A its i As. induction ls as [|[its' i'] ls IH]; intros par A its i [|A' As] Hl; try done.
  - intros _. exists A. split_and!; [done|lia|by eapply level_linked].
  - cbn [levels]. intros (Hl' & _ & H). destruct (IH _ _ _ i' _ Hl' H) as (B & HB & Hsub & Hch).
    exists B. split_and!; [|cbn [concat]; rewrite length_app; lia|exact Hch].
    rewrite <- HB. destruct As as [|C As]; [done|]. change (last (A' :: C :: As)) with (last (C :: As)).
    by destruct (last (C :: As)) eqn:E; [|apply last_None in E].
Qed.

Lemma NoDup_concat_elem (As : list (list Z)) B : NoDup (concat As) -> B ∈ As -> NoDup B.
Proof.
  induction As as [|A As IH]; intros Hd HB; [by apply elem_of_nil in HB|].
  cbn in Hd. apply NoDup_app in Hd as (? & _ & ?). apply elem_of_cons in HB as [->|HB]; auto.
Qed.

Lemma destroy_rep s m A As :
  rep s m A As ->
  exists s', LIST_destroy s = Some (freed (outermost_items m), s') /\ represents s' (menu_step Destroy m).2.
Proof.
  intros [Rl Rls Rd Rc Rr Rs Rn Rz Rg]. unfold LIST_destroy. rewrite Rr.
  destruct (outermost _ _ _ _ _ _ (sel m) Rl Rls) as (B & HB & Hsub & Hch).
  change (linked (heap s) B (outermost_items m)) in Hch. pose proof (proj1 Hch) as HlenB.
  assert (HBd : NoDup B).
  { apply NoDup_app in Rd as (? & _ & ?). subst B. destruct (last As) as [C|] eqn:HC; [|done].
    eapply NoDup_concat_elem; [done|by apply last_Some_elem_of]. }
  assert (Hfin : forall h, (size h + length B)%nat = size (heap s) ->
    represents (Lists h None None 0 0 false (li_animtimer s)) (menu_step Destroy m).2).
  { intros h Hh. exists [], []. split; cbn [heap li_root li_curr_root li_selected li_create_new
      menu_step here sel below entering lost snd]; try done.
    - apply NoDup_nil. constructor.
    - rewrite <- HlenB. cbn [total sum_list_with fst]. fold (total (below m)).
      rewrite (total_levels _ _ _ Rls). destruct Rl as [Hl _]. rewrite <- Hl. cbn. lia.
    - right. done. }
  unfold root_of. rewrite HB. destruct B as [|r B'] eqn:EB.
  - cbn [lookup]. cbn [mbind option_bind]. destruct (outermost_items m); [|done].
    eexists. split; [reflexivity|]. apply Hfin. cbn. lia.
  - rewrite <- EB in *. assert (Hr : B !! 0%nat = Some r) by (by subst). rewrite Hr, <- Hr.
    unfold LIST_empty. destruct (empty_chain (heap s) B (outermost_items m) (cells (heap s))) as [-> Hsz]; [done..| |].
    + unfold cells. lia.
    + cbn [mbind option_bind]. eexists. split; [reflexivity|]. apply Hfin. exact Hsz.
Qed.

(** ** Runs *)

Section Runs.
(** An allocator that always succeeds: an address that is not in use. *)
Context (malloc : gmap Z tlistitem -> Z) (malloc_fresh : forall h, h !! malloc h = None).

Definition list_step (r : request) (s : lists) : option (Z * list release * lists) :=
  match r with
  | Add d => s ← LIST_add (Some (malloc (heap s))) d s; Some (0, [], s)
  | In => Some (0, [], LIST_in s)
  | Out => LIST_out s
  | Up now => '(v, s) ← LIST_up now s; Some (v, [], s)
  | Down now => '(v, s) ← LIST_down now s; Some (v, [], s)
  | Destroy => '(l, s) ← LIST_destroy s; Some (0, l, s)
  end.

(** The results of a sequence of calls, each with what it frees besides cells. *)
Fixpoint list_run (rs : list request) (s : lists) : option (list (Z * list release) * lists) :=
  match rs with
  | [] => Some ([], s)
  | r :: rs => '(v, s) ← list_step r s; '(vs, s) ← list_run rs s; Some (v :: vs, s)
  end.

Fixpoint menu_run (rs : list request) (m : menu) : list (Z * list release) * menu :=
  match rs with
  | [] => ([], m)
  | r :: rs => let '(v, m) := menu_step r m in let '(vs, m) := menu_run rs m in (v :: vs, m)
  end.

Lemma step_represents r s m :
  represents s m ->
  exists s', list_step r s = Some ((menu_step r m).1, s') /\ represents s' (menu_step r m).2.
Proof.
  intros (A & As & R). destruct r; cbn [list_step].
  - destruct (add_rep (malloc (heap s)) d s m A As) as (s' & -> & H); [done..|]. by exists s'.
  - eexists. split; [reflexivity|]. exists A, As. by destruct R.
  - by eapply out_rep.
  - destruct (move_rep s m A As true now R) as (s' & -> & Hl & H). cbn [mbind option_bind].
    exists s'. by destruct (menu_step (Up now) m) as [[v l] m'] eqn:E; cbn in Hl |- *; subst l.
  - destruct (move_rep s m A As false now R) as (s' & -> & Hl & H). cbn [mbind option_bind].
    exists s'. by destruct (menu_step (Down now) m) as [[v l] m'] eqn:E; cbn in Hl |- *; subst l.
  - destruct (destroy_rep s m A As R) as (s' & -> & H). by exists s'.
Qed.

Lemma run_represents rs s m :
  represents s m ->
  exists s', list_run rs s = Some ((menu_run rs m).1, s') /\ represents s' (menu_run rs m).2.
Proof.
  revert s m. induction rs as [|r rs IH]; intros s m R; [by exists s|]. cbn [list_run menu_run].
  destruct (step_represents r s m R) as (s1 & -> & R1). cbn [mbind option_bind].
  destruct (menu_step r m) as [v m1]. cbn [fst snd] in R1.
  destruct (IH s1 m1 R1) as (s2 & -> & R2). cbn [mbind option_bind].
  destruct (menu_run rs m1) as [vs m2]. by exists s2.
Qed.

(** What a caller sees of the item that a pointer leads to. *)
Definition shows (s : lists) (p : ptr) : option shown := c ← deref (heap s) p; Some (data c).

Lemma rep_shows s m A As i : rep s m A As -> shows s (A !! i) = here m !! i.
Proof.
  intros R. destruct (A !! i) as [a|] eqn:Ha.
  - destruct (level_lookup _ _ _ _ _ _ (rep_level _ _ _ _ R) Ha) as (c & Hc & Hd & _).
    unfold shows, deref. cbn [mbind option_bind]. rewrite Hc. by rewrite Hd.
  - apply lookup_ge_None in Ha. rewrite (rep_lengths _ _ _ _ R) in Ha.
    by rewrite lookup_ge_None_2 by done.
Qed.

Lemma getelement_rep s m A As k : rep s m A As -> LIST_getelement (Z.of_nat k) s = Some (A !! k).
Proof.
  intros R. pose proof (rep_fuel _ _ _ _ R) as Hf. unfold LIST_getelement.
  rewrite (getSelected_rep _ _ _ _ R). cbn [mbind option_bind].
  destruct (rep_range _ _ _ _ R) as [Hr|(-> & Hs0 & _)].
  - rewrite (walk_first_level _ _ _ _ _ _ _ (rep_level _ _ _ _ R) Hr) by lia. cbn [mbind option_bind].
    apply (find_element_chain _ A 0); [by eapply level_chain, (rep_level _ _ _ _ R)|lia|lia].
  - rewrite Hs0. unfold cells. reflexivity.
Qed.

(** The menu right after [LIST_init] in a heap without cells. *)
Definition empty_menu : menu := Menu [] 0 [] false 0.

(** C8: the linked lists are a stack of menus: after [LIST_init], any sequence of
    additions, entering and leaving of levels, moves and destructions accesses
    no null or freed cell, and its results are those of a stack of lists: an
    addition goes to the end of the current level or opens a new one below the
    selected item, leaving a level frees exactly its items and returns to the
    level above with the item selected that it was entered from, moves stay in
    the list.  Besides the cells, leaving a level and destroying free the icons and
    the extra data of the items that go, item by item, each once, and nothing else
    does; whether the caller still needs them is not the list's concern.  Afterwards [LIST_getSelected], [LIST_getelement] and
    [LIST_getSelNum] give the selected item, each item and the number of the
    selected one, and the memory in use is that of the items in the stack plus
    the items of the inner levels that [LIST_destroy] has forgotten. *)
Theorem itemlist_refines rs s :
  heap s = ∅ ->
  exists s', list_run rs (LIST_init s) = Some ((menu_run rs empty_menu).1, s') /\
    let m := (menu_run rs empty_menu).2 in
    (exists p, LIST_getSelected s' = Some p /\ shows s' p = here m !! sel m) /\
    (forall k, exists p, LIST_getelement (Z.of_nat k) s' = Some p /\ shows s' p = here m !! k) /\
    LIST_getSelNum s' = Some (Z.of_nat (sel m)) /\
    size (heap s') = (total ((here m, sel m) :: below m) + lost m)%nat.
Proof.
  intros Hs. destruct (run_represents rs (LIST_init s) empty_menu) as (s' & Hr & A & As & R).
  { exists [], []. split; cbn; try done; [by constructor|by rewrite Hs|]. by right. }
  exists s'. split; [exact Hr|]. cbv zeta. set (m := (menu_run rs empty_menu).2) in *.
  split_and!.
  - exists (A !! sel m). split; [by eapply getSelected_rep|by eapply rep_shows].
  - intros k. exists (A !! k). split; [by eapply getelement_rep|by eapply rep_shows].
  - unfold LIST_getSelNum. rewrite (rep_curr _ _ _ _ R), (rep_sel _ _ _ _ R), Nat2Z.id.
    destruct (walk_next_chain (sel m) (heap s') A 0 0) as (k & -> & Hk); [eapply level_chain, (rep_level _ _ _ _ R)|].
    cbn [mbind option_bind]. rewrite Hk; [done|].
    destruct (rep_range _ _ _ _ R) as [?|(-> & -> & _)]; cbn; lia.
  - rewrite (rep_size _ _ _ _ R). cbn [total sum_list_with fst]. fold (total (below m)).
    rewrite (total_levels _ _ _ (rep_levels _ _ _ _ R)), (rep_lengths _ _ _ _ R). done.
Qed.

End Runs.

(** ** A concrete run *)

Definition some_item (t : Z) : shown := Shown (Some (100 + t)) (Some (200 + t)) None [t] [] (Some (300 + t)) ITF_NONE.
Definition fresh_cell (h : gmap Z tlistitem) : Z := fresh (dom h : gset Z).

Lemma fresh_cell_fresh h : h !! fresh_cell h = None.
Proof. apply (not_elem_of_dom (D := gset Z)). unfold fresh_cell. apply is_fresh. Qed.

(** Two items, a level with one item below the second, destroyed from there: the
    inner item is lost. *)
Lemma itemlist_refines_witness :
  exists s', list_run fresh_cell
      [Add (some_item 1); Add (some_item 2); Down 0; In; Add (some_item 3); Destroy]
      (LIST_init (Lists ∅ None None 0 0 false 0)) =
      Some ([(0, []); (0, []); (1, []); (0, []); (0, []);
             (0, [FreeSurface 101; FreeSurface 201; Free 301; FreeSurface 102; FreeSurface 202; Free 302])], s') /\
    size (heap s') = 1%nat.
Proof.
  destruct (itemlist_refines fresh_cell fresh_cell_fresh
    [Add (some_item 1); Add (some_item 2); Down 0; In; Add (some_item 3); Destroy]
    (Lists ∅ None None 0 0 false 0) eq_refl) as (s' & Hr & _ & _ & _ & Hsz).
  exists s'. split; [exact Hr|exact Hsz].
Defined.

(** [walker->next->prev] after a failed allocation. *)
Example add_unchecked :
  (s ← LIST_add (Some 1) (some_item 1) (Lists ∅ None None 0 0 false 0);
   LIST_add None (some_item 2) s) = None.
Proof. reflexivity. Qed.
