(* ===== verification/UdcDriver.v ===== *)
(** * USB device controller driver
      (linux-2.6.24.3/drivers/usb/gadget/jz4740_udc.c, jz4740_udc.h)

    Four endpoints, each with a queue of requests; requests are numbers, their
    contents are in a store, so that a request is one object however often it is
    named.  Every access to a register of the controller is an event of a log,
    latest first; what a register holds when it is read is any function of the
    log ([hw]).  The completion and set-up callbacks of the gadget driver are
    arguments: they run inside the driver and may call it again.  [None] is what
    the code leaves undefined: an endpoint or a byte outside its array, a request
    that was freed, a loop that does not end within [fuel] rounds.

    Spin locks are not modelled: they serialise the entry points, and are
    released where the callbacks run. *)

From S2P Require Import Prelude.

(** ** Constants *)

Definition EAGAIN : Z := 11.
Definition EBUSY : Z := 16.
Definition ENODEV : Z := 19.
Definition EINVAL : Z := 22.
Definition EPROTO : Z := 71.
Definition EOVERFLOW : Z := 79.
Definition EOPNOTSUPP : Z := 122.
Definition ECONNABORTED : Z := 130.
Definition ECONNRESET : Z := 131.
Definition ESHUTDOWN : Z := 143.
Definition EINPROGRESS : Z := 150.

Definition USB_BASE : Z := 3003383808.
Definition USB_REG_FADDR : Z := USB_BASE.
Definition USB_REG_POWER : Z := USB_BASE + 1.
Definition USB_REG_INTRIN : Z := USB_BASE + 2.
Definition USB_REG_INTROUT : Z := USB_BASE + 4.
Definition USB_REG_INTRINE : Z := USB_BASE + 6.
Definition USB_REG_INTROUTE : Z := USB_BASE + 8.
Definition USB_REG_INTRUSB : Z := USB_BASE + 10.
Definition USB_REG_INTRUSBE : Z := USB_BASE + 11.
Definition USB_REG_FRAME : Z := USB_BASE + 12.
Definition USB_REG_INDEX : Z := USB_BASE + 14.
Definition USB_REG_INMAXP : Z := USB_BASE + 16.
Definition USB_REG_CSR0 : Z := USB_BASE + 18.
Definition USB_REG_INCSR : Z := USB_BASE + 18.
Definition USB_REG_INCSRH : Z := USB_BASE + 19.
Definition USB_REG_OUTMAXP : Z := USB_BASE + 20.
Definition USB_REG_OUTCSR : Z := USB_BASE + 22.
Definition USB_REG_OUTCSRH : Z := USB_BASE + 23.
Definition USB_REG_OUTCOUNT : Z := USB_BASE + 24.
Definition USB_FIFO_EP0 : Z := USB_BASE + 32.
Definition USB_FIFO_EP1 : Z := USB_BASE + 36.
Definition USB_FIFO_EP2 : Z := USB_BASE + 40.
Definition USB_REG_INTR : Z := USB_BASE + 512.
Definition USB_REG_CNTL1 : Z := USB_BASE + 516.
Definition USB_REG_ADDR1 : Z := USB_BASE + 520.
Definition USB_REG_COUNT1 : Z := USB_BASE + 524.
Definition USB_REG_CNTL2 : Z := USB_BASE + 532.
Definition USB_REG_ADDR2 : Z := USB_BASE + 536.
Definition USB_REG_COUNT2 : Z := USB_BASE + 540.
Definition CPM_CLKGR : Z := 2952790048.
Definition CPM_SCR : Z := 2952790052.
Definition CPM_CLKGR_UDC : Z := 2048.
Definition CPM_SCR_USBPHY_ENABLE : Z := 64.

Definition USB_POWER_HSMODE : Z := 16.
Definition USB_POWER_HSENAB : Z := 32.
Definition USB_POWER_SOFTCONN : Z := 64.
Definition USB_INTR_SUSPEND : Z := 1.
Definition USB_INTR_RESUME : Z := 2.
Definition USB_INTR_RESET : Z := 4.
Definition USB_INTR_EP0 : Z := 1.
Definition USB_INTR_INEP1 : Z := 2.
Definition USB_INTR_INEP2 : Z := 4.
Definition USB_INTR_OUTEP1 : Z := 2.
Definition USB_CSR0_OUTPKTRDY : Z := 1.
Definition USB_CSR0_INPKTRDY : Z := 2.
Definition USB_CSR0_SENTSTALL : Z := 4.
Definition USB_CSR0_DATAEND : Z := 8.
Definition USB_CSR0_SETUPEND : Z := 16.
Definition USB_CSR0_SENDSTALL : Z := 32.
Definition USB_CSR0_SVDOUTPKTRDY : Z := 64.
Definition USB_CSR0_SVDSETUPEND : Z := 128.
Definition USB_INCSRH_AUTOSET : Z := 128.
Definition USB_INCSRH_ISO : Z := 64.
Definition USB_INCSRH_DMAREQENAB : Z := 16.
Definition USB_INCSRH_DMAREQMODE : Z := 4.
Definition USB_INCSR_CDT : Z := 64.
Definition USB_INCSR_SENTSTALL : Z := 32.
Definition USB_INCSR_SENDSTALL : Z := 16.
Definition USB_INCSR_FF : Z := 8.
Definition USB_INCSR_FFNOTEMPT : Z := 2.
Definition USB_INCSR_INPKTRDY : Z := 1.
Definition USB_OUTCSRH_AUTOCLR : Z := 128.
Definition USB_OUTCSRH_ISO : Z := 64.
Definition USB_OUTCSRH_DMAREQENAB : Z := 32.
Definition USB_OUTCSRH_DNYT : Z := 16.
Definition USB_OUTCSRH_DMAREQMODE : Z := 8.
Definition USB_OUTCSR_CDT : Z := 128.
Definition USB_OUTCSR_SENTSTALL : Z := 64.
Definition USB_OUTCSR_SENDSTALL : Z := 32.
Definition USB_OUTCSR_FF : Z := 16.
Definition USB_OUTCSR_OUTPKTRDY : Z := 1.
Definition USB_CNTL_ENA : Z := 1.
Definition USB_CNTL_DIR_IN : Z := 2.
Definition USB_CNTL_MODE_1 : Z := 4.
Definition USB_CNTL_INTR_EN : Z := 8.
Definition USB_CNTL_EP (n : Z) : Z := Z.shiftl n 4.
Definition USB_CNTL_BURST_16 : Z := 1536.

Definition USB_DIR_IN : Z := 128.
Definition USB_TYPE_STANDARD : Z := 0.
Definition USB_RECIP_DEVICE : Z := 0.
Definition USB_RECIP_ENDPOINT : Z := 2.
Definition USB_REQ_CLEAR_FEATURE : Z := 1.
Definition USB_REQ_SET_FEATURE : Z := 3.
Definition USB_REQ_SET_ADDRESS : Z := 5.
Definition USB_REQ_SET_CONFIGURATION : Z := 9.
Definition USB_REQ_SET_INTERFACE : Z := 11.
Definition USB_DT_ENDPOINT : Z := 5.
Definition USB_ENDPOINT_XFERTYPE_MASK : Z := 3.
Definition USB_ENDPOINT_XFER_ISOC : Z := 1.
Definition USB_ENDPOINT_XFER_BULK : Z := 2.
Definition USB_ENDPOINT_XFER_INT : Z := 3.
Definition USB_SPEED_UNKNOWN : Z := 0.
Definition USB_SPEED_FULL : Z := 2.
Definition USB_SPEED_HIGH : Z := 3.

Definition EP0_MAXPACKETSIZE : Z := 64.
Definition EPBULK_MAXPACKETSIZE : Z := 512.
Definition EPINTR_MAXPACKETSIZE : Z := 64.

(** ** State *)

Inductive ep_type_t := ep_control | ep_bulk_in | ep_bulk_out | ep_interrupt.

Inductive ep0state_t :=
  WAIT_FOR_SETUP | DATA_STATE_XMIT | DATA_STATE_NEED_ZLP | WAIT_FOR_OUT_STATUS | DATA_STATE_RECV.

Record usb_endpoint_descriptor := Descriptor {
  bDescriptorType : Z;
  d_bEndpointAddress : Z;
  d_bmAttributes : Z;
  wMaxPacketSize : Z }.

(** [is_ep0]: the name is [ep0name]. *)
Record jz4740_ep := Ep {
  is_ep0 : bool;
  maxpacket : Z;
  desc : option usb_endpoint_descriptor;
  queue : list nat;
  stopped : bool;
  bEndpointAddress : Z;
  bmAttributes : Z;
  ep_type : ep_type_t;
  fifo : Z;
  csr : Z;
  reg_addr : Z }.

(** [phys] is the physical address of [buf]; both pointers may be null. *)
Record usb_request := Request {
  buf : option (list Z);
  phys : Z;
  r_length : Z;
  zero : bool;
  has_complete : bool;
  status : Z;
  actual : Z }.

Record usb_ctrlrequest := Ctrl {
  bRequestType : Z;
  bRequest : Z;
  wValue : Z;
  wIndex : Z;
  wLength : Z }.

Inductive width := B8 | B16 | B32.

(** Register accesses, requests taken over and given back, calls of the gadget
    driver. *)
Inductive event :=
  | Rd (w : width) (reg v : Z)
  | Wr (w : width) (reg v : Z)
  | Accept (r : nat)
  | Complete (e r : nat) (status actual : Z)
  | Setup (c : usb_ctrlrequest)
  | Bind
  | Unbind
  | Disconnect.

Record jz4740_udc := Udc {
  the_controller : bool;
  driver : bool;
  speed : Z;
  ep0state : ep0state_t;
  usb_address : Z;
  ep : list jz4740_ep;
  reqs : gmap nat usb_request;
  log : list event }.

Definition set_controller (x : bool) (s : jz4740_udc) : jz4740_udc :=
  Udc x (driver s) (speed s) (ep0state s) (usb_address s) (ep s) (reqs s) (log s).
Definition set_driver (x : bool) (s : jz4740_udc) : jz4740_udc :=
  Udc (the_controller s) x (speed s) (ep0state s) (usb_address s) (ep s) (reqs s) (log s).
Definition set_speed (x : Z) (s : jz4740_udc) : jz4740_udc :=
  Udc (the_controller s) (driver s) x (ep0state s) (usb_address s) (ep s) (reqs s) (log s).
Definition set_ep0state (x : ep0state_t) (s : jz4740_udc) : jz4740_udc :=
  Udc (the_controller s) (driver s) (speed s) x (usb_address s) (ep s) (reqs s) (log s).
Definition set_address (x : Z) (s : jz4740_udc) : jz4740_udc :=
  Udc (the_controller s) (driver s) (speed s) (ep0state s) x (ep s) (reqs s) (log s).
Definition set_eps (x : list jz4740_ep) (s : jz4740_udc) : jz4740_udc :=
  Udc (the_controller s) (driver s) (speed s) (ep0state s) (usb_address s) x (reqs s) (log s).
Definition set_reqs (x : gmap nat usb_request) (s : jz4740_udc) : jz4740_udc :=
  Udc (the_controller s) (driver s) (speed s) (ep0state s) (usb_address s) (ep s) x (log s).
Definition set_log (x : list event) (s : jz4740_udc) : jz4740_udc :=
  Udc (the_controller s) (driver s) (speed s) (ep0state s) (usb_address s) (ep s) (reqs s) x.

Definition set_maxpacket (x : Z) (p : jz4740_ep) : jz4740_ep :=
  Ep (is_ep0 p) x (desc p) (queue p) (stopped p) (bEndpointAddress p) (bmAttributes p) (ep_type p)
    (fifo p) (csr p) (reg_addr p).
Definition set_desc (x : option usb_endpoint_descriptor) (p : jz4740_ep) : jz4740_ep :=
  Ep (is_ep0 p) (maxpacket p) x (queue p) (stopped p) (bEndpointAddress p) (bmAttributes p) (ep_type p)
    (fifo p) (csr p) (reg_addr p).
Definition set_queue (x : list nat) (p : jz4740_ep) : jz4740_ep :=
  Ep (is_ep0 p) (maxpacket p) (desc p) x (stopped p) (bEndpointAddress p) (bmAttributes p) (ep_type p)
    (fifo p) (csr p) (reg_addr p).
Definition set_stopped (x : bool) (p : jz4740_ep) : jz4740_ep :=
  Ep (is_ep0 p) (maxpacket p) (desc p) (queue p) x (bEndpointAddress p) (bmAttributes p) (ep_type p)
    (fifo p) (csr p) (reg_addr p).
Definition set_bEndpointAddress (x : Z) (p : jz4740_ep) : jz4740_ep :=
  Ep (is_ep0 p) (maxpacket p) (desc p) (queue p) (stopped p) x (bmAttributes p) (ep_type p)
    (fifo p) (csr p) (reg_addr p).
Definition set_reg_addr (x : Z) (p : jz4740_ep) : jz4740_ep :=
  Ep (is_ep0 p) (maxpacket p) (desc p) (queue p) (stopped p) (bEndpointAddress p) (bmAttributes p)
    (ep_type p) (fifo p) (csr p) x.

Definition set_buf (x : list Z) (q : usb_request) : usb_request :=
  Request (Some x) (phys q) (r_length q) (zero q) (has_complete q) (status q) (actual q).
Definition set_status (x : Z) (q : usb_request) : usb_request :=
  Request (buf q) (phys q) (r_length q) (zero q) (has_complete q) x (actual q).
Definition set_actual (x : Z) (q : usb_request) : usb_request :=
  Request (buf q) (phys q) (r_length q) (zero q) (has_complete q) (status q) x.

Definition ep_is_in (p : jz4740_ep) : bool := Z.land (bEndpointAddress p) USB_DIR_IN =? USB_DIR_IN.
Definition ep_maxpacket (p : jz4740_ep) : Z := maxpacket p.
Definition ep_index (p : jz4740_ep) : Z := Z.land (bEndpointAddress p) 15.

(** ** A state monad with failure *)

Definition M (A : Type) : Type := jz4740_udc -> option (A * jz4740_udc).

Definition ret {A} (x : A) : M A := fun s => Some (x, s).
Definition bind {A C} (m : M A) (k : A -> M C) : M C :=
  fun s => match m s with Some (x, s') => k x s' | None => None end.
Definition fail {A} : M A := fun _ => None.
Definition gets {A} (f : jz4740_udc -> A) : M A := fun s => Some (f s, s).
Definition modify (f : jz4740_udc -> jz4740_udc) : M unit := fun s => Some (tt, f s).
Definition lift {A} (o : option A) : M A := fun s => match o with Some x => Some (x, s) | None => None end.

Declare Scope udc_scope.
Delimit Scope udc_scope with udc.
Bind Scope udc_scope with M.
Notation "x <- m ;; k" := (bind m (fun x => k))
  (at level 100, m at next level, right associativity) : udc_scope.
Notation "m ;;; k" := (bind m (fun _ => k)) (at level 100, right associativity) : udc_scope.
#[global] Open Scope udc_scope.

Definition emit (x : event) : M unit := modify (fun s => set_log (x :: log s) s).
Definition get_ep (e : nat) : M jz4740_ep := fun s => match ep s !! e with Some p => Some (p, s) | None => None end.
Definition upd_ep (e : nat) (f : jz4740_ep -> jz4740_ep) : M unit :=
  p <- get_ep e ;; modify (fun s => set_eps (<[e := f p]> (ep s)) s).
Definition get_req (r : nat) : M usb_request :=
  fun s => match reqs s !! r with Some q => Some (q, s) | None => None end.
Definition put_req (r : nat) (q : usb_request) : M unit := modify (fun s => set_reqs (<[r := q]> (reqs s)) s).
Definition upd_req (r : nat) (f : usb_request -> usb_request) : M unit :=
  q <- get_req r ;; put_req r (f q).

(** The requests of all queues; [list_del_init] takes a request out of the one it is in. *)
Definition pending (s : jz4740_udc) : list nat := concat (map queue (ep s)).
Definition unlink (r : nat) (p : jz4740_ep) : jz4740_ep :=
  set_queue (filter (fun r' => r' <> r) (queue p)) p.
Definition list_del_init (r : nat) : M unit := modify (fun s => set_eps (map (unlink r) (ep s)) s).
Definition list_add_tail (r e : nat) : M unit := upd_ep e (fun p => set_queue (queue p ++ [r]) p).

Definition when (b : bool) (m : M unit) : M unit := if b then m else ret tt.
Definition is_Some_b {A} (o : option A) : bool := match o with Some _ => true | None => false end.
Definition is_nil {A} (l : list A) : bool := match l with [] => true | _ :: _ => false end.
Definition has (x bit : Z) : bool := negb (Z.land x bit =? 0).

Definition trunc (w : width) (x : Z) : Z := match w with B8 => u8 x | B16 => u16 x | B32 => u32 x end.

(** The little-endian word at [i]. *)
Definition ld32 (b : list Z) (i : Z) : option Z :=
  b0 ← rd b i; b1 ← rd b (i + 1); b2 ← rd b (i + 2); b3 ← rd b (i + 3);
  Some (b0 + Z.shiftl b1 8 + Z.shiftl b2 16 + Z.shiftl b3 24).
Definition st32 (b : list Z) (i w : Z) : option (list Z) :=
  b ← wr b i (Z.land w 255);
  b ← wr b (i + 1) (Z.land (Z.shiftr w 8) 255);
  b ← wr b (i + 2) (Z.land (Z.shiftr w 16) 255);
  wr b (i + 3) (Z.land (Z.shiftr w 24) 255).

Definition bytes (q : usb_request) : list Z := default [] (buf q).

Section Driver.
Context (hw : list event -> Z -> Z) (stack : list event -> nat -> Z) (fuel : nat) (use_dma : bool).
Context (complete : nat -> nat -> M unit).

(** ** Register access *)

Definition usb_read (w : width) (port : Z) : M Z :=
  l <- gets log ;; (let v := trunc w (hw l port) in emit (Rd w port v) ;;; ret v).
Definition usb_write (w : width) (port v : Z) : M unit := emit (Wr w port (trunc w v)).

Definition usb_readb : Z -> M Z := usb_read B8.
Definition usb_readw : Z -> M Z := usb_read B16.
Definition usb_readl : Z -> M Z := usb_read B32.
Definition usb_writeb : Z -> Z -> M unit := usb_write B8.
Definition usb_writew : Z -> Z -> M unit := usb_write B16.
Definition usb_writel : Z -> Z -> M unit := usb_write B32.
Definition usb_set (w : width) (port v : Z) : M unit :=
  x <- usb_read w port ;; usb_write w port (Z.lor x v).
Definition usb_clear (w : width) (port v : Z) : M unit :=
  x <- usb_read w port ;; usb_write w port (Z.land x (Z.lnot v)).
Definition usb_setb : Z -> Z -> M unit := usb_set B8.
Definition usb_setw : Z -> Z -> M unit := usb_set B16.
Definition usb_setl : Z -> Z -> M unit := usb_set B32.
Definition usb_clearb : Z -> Z -> M unit := usb_clear B8.
Definition usb_clearw : Z -> Z -> M unit := usb_clear B16.
Definition usb_clearl : Z -> Z -> M unit := usb_clear B32.
Definition usb_set_index (i : Z) : M unit := usb_writeb USB_REG_INDEX i.

(** ** Packets *)

Fixpoint write_longs (nlong : nat) (port : Z) (b : list Z) (i : Z) : M unit :=
  match nlong with
  | O => ret tt
  | S n => w <- lift (ld32 b i) ;; usb_write B32 port w ;;; write_longs n port b (i + 4)
  end.

Fixpoint write_bytes (nbyte : nat) (port : Z) (b : list Z) (i : Z) : M unit :=
  match nbyte with
  | O => ret tt
  | S n => x <- lift (rd b i) ;; usb_write B8 port x ;;; write_bytes n port b (i + 1)
  end.

Definition write_packet (e r : nat) (max : Z) : M Z :=
  p <- get_ep e ;; q <- get_req r ;;
  (let len := Z.min (s32 (r_length q - actual q)) max in
   put_req r (set_actual (u32 (actual q + len)) q) ;;;
   if len <? 0 then fail
   else
     write_longs (Z.to_nat (Z.shiftr len 2)) (fifo p) (bytes q) (actual q) ;;;
     write_bytes (Z.to_nat (Z.land len 3)) (fifo p) (bytes q) (actual q + 4 * Z.shiftr len 2) ;;;
     ret len).

Fixpoint read_longs (nlong : nat) (port : Z) (b : list Z) (i : Z) : M (list Z) :=
  match nlong with
  | O => ret b
  | S n => w <- usb_readl port ;; b <- lift (st32 b i w) ;; read_longs n port b (i + 4)
  end.

Fixpoint read_bytes (nbyte : nat) (port : Z) (b : list Z) (i : Z) : M (list Z) :=
  match nbyte with
  | O => ret b
  | S n => x <- usb_readb port ;; b <- lift (wr b i x) ;; read_bytes n port b (i + 1)
  end.

Definition read_packet (e r : nat) (count : Z) : M Z :=
  p <- get_ep e ;; q <- get_req r ;;
  (let len := Z.min (s32 (r_length q - actual q)) count in
   put_req r (set_actual (u32 (actual q + len)) q) ;;;
   if len <? 0 then fail
   else
     b <- read_longs (Z.to_nat (Z.shiftr len 2)) (fifo p) (bytes q) (actual q) ;;
     b <- read_bytes (Z.to_nat (Z.land len 3)) (fifo p) b (actual q + 4 * Z.shiftr len 2) ;;
     upd_req r (set_buf b) ;;; ret len).

(** ** Whole device *)

Definition udc_set_address (address : Z) : M unit :=
  modify (set_address address) ;;; usb_writeb USB_REG_FADDR address.

Definition udc_disable : M unit :=
  udc_set_address 0 ;;;
  usb_writew USB_REG_INTRINE 0 ;;;
  usb_writew USB_REG_INTROUTE 0 ;;;
  usb_writeb USB_REG_INTRUSBE 0 ;;;
  usb_writel USB_REG_CNTL1 0 ;;;
  usb_writel USB_REG_CNTL2 0 ;;;
  usb_clearb USB_REG_POWER USB_POWER_SOFTCONN ;;;
  usb_clearl CPM_SCR CPM_SCR_USBPHY_ENABLE ;;;
  modify (set_ep0state WAIT_FOR_SETUP) ;;;
  modify (set_speed USB_SPEED_UNKNOWN).

Definition reinit_ep (p : jz4740_ep) : jz4740_ep := set_stopped false (set_desc None (set_queue [] p)).

Definition udc_reinit : M unit :=
  modify (set_ep0state WAIT_FOR_SETUP) ;;;
  modify (fun s => set_eps (map reinit_ep (ep s)) s).

Definition flush (e : nat) : M unit :=
  p <- get_ep e ;;
  match ep_type p with
  | ep_control => ret tt
  | ep_bulk_in | ep_interrupt => usb_setb (csr p) USB_INCSR_FF
  | ep_bulk_out => usb_setb (csr p) USB_OUTCSR_FF
  end.

(** [for (i = 0; i < UDC_MAX_ENDPOINTS; i++)] *)
Definition for_endpoints (f : nat -> M unit) : M unit := f 0%nat ;;; f 1%nat ;;; f 2%nat ;;; f 3%nat.

Definition udc_enable : M unit :=
  modify (set_speed USB_SPEED_UNKNOWN) ;;;
  for_endpoints (fun e => p <- get_ep e ;; usb_set_index (ep_index p) ;;; flush e) ;;;
  usb_setl CPM_CLKGR CPM_CLKGR_UDC ;;;
  usb_setl CPM_SCR CPM_SCR_USBPHY_ENABLE ;;;
  usb_writew USB_REG_INTRINE 0 ;;;
  usb_writew USB_REG_INTROUTE 0 ;;;
  usb_writeb USB_REG_INTRUSBE 0 ;;;
  usb_setw USB_REG_INTRINE USB_INTR_EP0 ;;;
  usb_setb USB_REG_INTRUSBE USB_INTR_RESET ;;;
  usb_setb USB_REG_POWER USB_POWER_HSENAB ;;;
  usb_setb USB_REG_POWER USB_POWER_SOFTCONN.

(** ** Requests *)

Definition done (e r : nat) (st : Z) : M unit :=
  p <- get_ep e ;;
  list_del_init r ;;;
  q <- get_req r ;;
  (let st := if status q =? - EINPROGRESS then st else status q in
   put_req r (set_status st q) ;;;
   upd_ep e (set_stopped true) ;;;
   index <- usb_readb USB_REG_INDEX ;;
   emit (Complete e r st (actual q)) ;;;
   complete e r ;;;
   usb_set_index index ;;;
   upd_ep e (set_stopped (stopped p))).

Definition pio_irq_enable (e : nat) : M unit :=
  p <- get_ep e ;;
  if ep_is_in p then
    if ep_index p =? 1 then usb_setw USB_REG_INTRINE USB_INTR_INEP1
    else when (ep_index p =? 2) (usb_setw USB_REG_INTRINE USB_INTR_INEP2)
  else when (ep_index p =? 1) (usb_setw USB_REG_INTROUTE USB_INTR_OUTEP1).

Definition pio_irq_disable (e : nat) : M unit :=
  p <- get_ep e ;;
  if ep_is_in p then
    if ep_index p =? 1 then usb_clearw USB_REG_INTRINE USB_INTR_INEP1
    else when (ep_index p =? 2) (usb_clearw USB_REG_INTRINE USB_INTR_INEP2)
  else when (ep_index p =? 1) (usb_clearw USB_REG_INTROUTE USB_INTR_OUTEP1).

(** [while (!list_empty(&ep->queue))] *)
Fixpoint nuke_loop (n e : nat) (st : Z) : M unit :=
  p <- get_ep e ;;
  match queue p with
  | [] => ret tt
  | r :: _ => match n with O => fail | S n => done e r st ;;; nuke_loop n e st end
  end.

Definition nuke (e : nat) (st : Z) : M unit :=
  flush e ;;;
  nuke_loop fuel e st ;;;
  p <- get_ep e ;;
  match desc p with Some _ => pio_irq_disable e | None => ret tt end.

(** ** Bulk and interrupt endpoints *)

Definition kick_dma (e r : nat) : M unit :=
  p <- get_ep e ;; q <- get_req r ;;
  usb_set_index (ep_index p) ;;;
  if ep_is_in p then
    upd_ep e (set_reg_addr USB_REG_ADDR1) ;;;
    pio_irq_enable e ;;;
    usb_writeb USB_REG_INCSRH (Z.lor (Z.lor USB_INCSRH_DMAREQENAB USB_INCSRH_AUTOSET) USB_INCSRH_DMAREQMODE) ;;;
    usb_writel USB_REG_ADDR1 (phys q) ;;;
    usb_writel USB_REG_COUNT1 (r_length q) ;;;
    usb_writel USB_REG_CNTL1 (Z.lor (Z.lor (Z.lor (Z.lor (Z.lor USB_CNTL_ENA USB_CNTL_DIR_IN) USB_CNTL_MODE_1)
      USB_CNTL_INTR_EN) USB_CNTL_BURST_16) (USB_CNTL_EP (ep_index p)))
  else
    upd_ep e (set_reg_addr USB_REG_ADDR2) ;;;
    pio_irq_enable e ;;;
    usb_setb USB_REG_OUTCSRH (Z.lor (Z.lor USB_OUTCSRH_DMAREQENAB USB_OUTCSRH_AUTOCLR) USB_OUTCSRH_DMAREQMODE) ;;;
    usb_writel USB_REG_ADDR2 (phys q) ;;;
    usb_writel USB_REG_COUNT2 (r_length q) ;;;
    usb_writel USB_REG_CNTL2 (Z.lor (Z.lor (Z.lor (Z.lor USB_CNTL_ENA USB_CNTL_MODE_1)
      USB_CNTL_INTR_EN) USB_CNTL_BURST_16) (USB_CNTL_EP (ep_index p))).

(** [dma_count = usb_readl(ep->reg_addr) - physaddr; req->req.actual += dma_count] *)
Definition count_dma (e r : nat) : M Z :=
  p <- get_ep e ;; q <- get_req r ;;
  a <- usb_readl (reg_addr p) ;;
  (let dma_count := u32 (a - phys q) in
   put_req r (set_actual (u32 (actual q + dma_count)) q) ;;; ret dma_count).

Definition write_fifo (e r : nat) : M Z :=
  p <- get_ep e ;;
  d <- lift (desc p) ;;
  (let max := wMaxPacketSize d in
   if use_dma then
     dma_count <- count_dma e r ;;
     (if max =? 0 then fail
      else
        when (negb (dma_count mod max =? 0)) (usb_setb (csr p) USB_INCSR_INPKTRDY) ;;;
        done e r 0 ;;;
        p <- get_ep e ;;
        match queue p with
        | [] => pio_irq_disable e ;;; ret 1
        | r' :: _ => kick_dma e r' ;;; ret 0
        end)
   else
     c <- usb_readb (csr p) ;;
     if negb (has c USB_INCSR_FFNOTEMPT) then
       count <- write_packet e r max ;;
       usb_setb (csr p) USB_INCSR_INPKTRDY ;;;
       q <- get_req r ;;
       (let is_last := negb (count =? max) || ((r_length q =? actual q) && negb (zero q)) in
        if is_last then
          done e r 0 ;;;
          p <- get_ep e ;;
          match queue p with [] => pio_irq_disable e | _ :: _ => ret tt end ;;;
          ret 1
        else ret 0)
     else ret 0).

Definition read_fifo (e r : nat) : M Z :=
  p <- get_ep e ;;
  if use_dma then
    count_dma e r ;;;
    pio_irq_disable e ;;;
    usb_writel USB_REG_CNTL2 0 ;;;
    count <- usb_readw USB_REG_OUTCOUNT ;;
    count <- read_packet e r count ;;
    when (negb (count =? 0)) (usb_clearb (csr p) USB_OUTCSR_OUTPKTRDY) ;;;
    done e r 0 ;;;
    p <- get_ep e ;;
    match queue p with [] => ret tt | r' :: _ => kick_dma e r' end ;;;
    ret 1
  else
    c <- usb_readb (csr p) ;;
    if negb (has c USB_OUTCSR_OUTPKTRDY) then ret (- EINVAL)
    else
      count <- usb_readw USB_REG_OUTCOUNT ;;
      (let is_short := count <? maxpacket p in
       read_packet e r count ;;;
       usb_clearb (csr p) USB_OUTCSR_OUTPKTRDY ;;;
       q <- get_req r ;;
       if is_short || (actual q =? r_length q) then
         done e r 0 ;;;
         p <- get_ep e ;;
         match queue p with [] => pio_irq_disable e | _ :: _ => ret tt end ;;;
         ret 1
       else ret 0).

Definition head_of (e : nat) : M (option nat) := p <- get_ep e ;; ret (head (queue p)).

(** [ep_idx + 1] counts past the OUT endpoint. *)
Definition jz4740_in_epn (ep_idx : Z) : M unit :=
  (let e := Z.to_nat (ep_idx + 1) in
   p <- get_ep e ;;
   usb_set_index (ep_index p) ;;;
   c <- usb_readb (csr p) ;;
   if has c USB_INCSR_SENTSTALL then usb_clearb (csr p) USB_INCSR_SENTSTALL
   else
     match desc p with
     | None => ret tt
     | Some _ =>
         req <- head_of e ;;
         match req with
         | None => ret tt
         | Some r => write_fifo e r ;;; ret tt
         end
     end).

(** [while ((csr = usb_readb(ep->csr)) & (OUTPKTRDY | SENTSTALL))] *)
Fixpoint out_loop (n e : nat) : M unit :=
  p <- get_ep e ;;
  c <- usb_readb (csr p) ;;
  if has c (Z.lor USB_OUTCSR_OUTPKTRDY USB_OUTCSR_SENTSTALL) then
    match n with
    | O => fail
    | S n =>
        if has c USB_OUTCSR_SENTSTALL then flush e ;;; out_loop n e
        else
          req <- head_of e ;;
          match req with
          | None => ret tt
          | Some r => read_fifo e r ;;; out_loop n e
          end
    end
  else ret tt.

Definition jz4740_out_epn (ep_idx : Z) : M unit :=
  (let e := Z.to_nat ep_idx in
   p <- get_ep e ;;
   usb_set_index (ep_index p) ;;;
   match desc p with
   | Some _ =>
       if use_dma then
         req <- head_of e ;;
         match req with
         | None => ret tt
         | Some r => read_fifo e r ;;; ret tt
         end
       else out_loop fuel e
   | None => flush e
   end).

Definition jz4740_set_halt (_ep : option nat) (value : bool) : M Z :=
  match _ep with
  | None => ret (- EINVAL)
  | Some e =>
      p <- get_ep e ;;
      if negb (is_Some_b (desc p)) && negb (is_ep0 p) then ret (- EINVAL)
      else
        usb_set_index (ep_index p) ;;;
        if ep_index p =? 0 then
          usb_setb USB_REG_CSR0 USB_CSR0_SENDSTALL ;;;
          upd_ep e (set_stopped value) ;;; ret 0
        else if ep_is_in p then
          c <- usb_readb (csr p) ;;
          if value && (has c USB_INCSR_FFNOTEMPT || negb (is_nil (queue p))) then ret (- EAGAIN)
          else
            flush e ;;;
            (if value then usb_setb (csr p) USB_INCSR_SENDSTALL
             else usb_clearb (csr p) USB_INCSR_SENDSTALL ;;; usb_setb (csr p) USB_INCSR_CDT) ;;;
            upd_ep e (set_stopped value) ;;; ret 0
        else
          flush e ;;;
          (if value then usb_setb (csr p) USB_OUTCSR_SENDSTALL
           else usb_clearb (csr p) USB_OUTCSR_SENDSTALL ;;; usb_setb (csr p) USB_OUTCSR_CDT) ;;;
          upd_ep e (set_stopped value) ;;; ret 0
  end.

(** The high byte of the control register for an endpoint type. *)
Definition in_csrh (attributes : Z) : Z :=
  if Z.land attributes USB_ENDPOINT_XFERTYPE_MASK =? USB_ENDPOINT_XFER_ISOC then USB_INCSRH_ISO else 0.
Definition out_csrh (attributes : Z) : Z :=
  let t := Z.land attributes USB_ENDPOINT_XFERTYPE_MASK in
  if t =? USB_ENDPOINT_XFER_INT then USB_OUTCSRH_DNYT
  else if t =? USB_ENDPOINT_XFER_ISOC then USB_OUTCSRH_ISO else 0.

Definition jz4740_ep_enable (_ep : option nat) (_desc : option usb_endpoint_descriptor) : M Z :=
  match _ep, _desc with
  | Some e, Some d =>
      p <- get_ep e ;;
      if is_Some_b (desc p) || is_ep0 p || negb (bDescriptorType d =? USB_DT_ENDPOINT)
         || negb (bEndpointAddress p =? d_bEndpointAddress d) then ret (- EINVAL)
      else if negb (bmAttributes p =? d_bmAttributes d) && negb (bmAttributes p =? USB_ENDPOINT_XFER_BULK)
              && negb (d_bmAttributes d =? USB_ENDPOINT_XFER_INT) then ret (- EINVAL)
      else
        dr <- gets driver ;; sp <- gets speed ;;
        if negb dr || (sp =? USB_SPEED_UNKNOWN) then ret (- ESHUTDOWN)
        else
          (let max := wMaxPacketSize d in
           usb_set_index (Z.land (d_bEndpointAddress d) 15) ;;;
           (if ep_is_in p then
              usb_writew USB_REG_INMAXP max ;;; usb_writeb USB_REG_INCSRH (in_csrh (d_bmAttributes d))
            else
              usb_writew USB_REG_OUTMAXP max ;;; usb_writeb USB_REG_OUTCSRH (out_csrh (d_bmAttributes d))) ;;;
           upd_ep e (fun p => set_maxpacket max (set_desc (Some d) (set_stopped false p))) ;;;
           jz4740_set_halt _ep false ;;;
           ret 0)
  | _, _ => ret (- EINVAL)
  end.

Definition jz4740_ep_disable (_ep : option nat) : M Z :=
  match _ep with
  | None => ret (- EINVAL)
  | Some e =>
      p <- get_ep e ;;
      match desc p with
      | None => ret (- EINVAL)
      | Some _ =>
          usb_set_index (ep_index p) ;;;
          nuke e (- ESHUTDOWN) ;;;
          pio_irq_disable e ;;;
          upd_ep e (fun p => set_stopped true (set_desc None p)) ;;;
          ret 0
      end
  end.

(** [kzalloc]; [None] of the argument when memory is short. *)
Definition jz4740_alloc_request (mem : bool) : M (option nat) :=
  if negb mem then ret None
  else
    m <- gets reqs ;;
    (let r := fresh (dom m) in
     put_req r (Request None 0 0 false false 0 0) ;;; ret (Some r)).

Definition jz4740_free_request (r : nat) : M unit := modify (fun s => set_reqs (delete r (reqs s)) s).

Definition jz4740_dequeue (_ep : option nat) (r : nat) : M Z :=
  match _ep with
  | None => ret (- EINVAL)
  | Some e =>
      p <- get_ep e ;;
      if is_ep0 p then ret (- EINVAL)
      else if bool_decide (r ∈ queue p) then done e r (- ECONNRESET) ;;; ret 0
      else ret (- EINVAL)
  end.

Definition jz4740_fifo_status (_ep : option nat) : M Z :=
  match _ep with
  | None => ret (- ENODEV)
  | Some e =>
      p <- get_ep e ;;
      if ep_is_in p then ret (- EOPNOTSUPP)
      else
        usb_set_index (ep_index p) ;;;
        c <- usb_readb (csr p) ;;
        sp <- gets speed ;;
        if negb (sp =? USB_SPEED_UNKNOWN) || has c 1 then usb_readw USB_REG_OUTCOUNT else ret 0
  end.

Definition jz4740_fifo_flush (_ep : option nat) : M unit :=
  match _ep with
  | None => ret tt
  | Some e =>
      p <- get_ep e ;;
      if negb (is_Some_b (desc p)) && negb (is_ep0 p) then ret tt
      else usb_set_index (ep_index p) ;;; flush e
  end.

(** ** Endpoint 0 *)

Definition write_fifo_ep0 (e r : nat) : M Z :=
  p <- get_ep e ;;
  (let max := ep_maxpacket p in
   count <- write_packet e r max ;;
   q <- get_req r ;;
   if negb (count =? max) || ((r_length q =? actual q) && negb (zero q)) then done e r 0 ;;; ret 1
   else ret 0).

(** The rest of the array is what the stack held. *)
Fixpoint fifo_read_loop (count : nat) (port : Z) : M (list Z) :=
  match count with
  | O => ret []
  | S n => x <- usb_readb port ;; l <- fifo_read_loop n port ;; ret (x :: l)
  end.

Definition jz4740_fifo_read (e : nat) (max : Z) : M (list Z) :=
  p <- get_ep e ;;
  count <- usb_readw USB_REG_OUTCOUNT ;;
  l <- fifo_read_loop (Z.to_nat (if max <? count then max else count)) (fifo p) ;;
  h <- gets log ;;
  ret (l ++ map (stack h) (seq (length l) (Z.to_nat max - length l))).

(** [while (count-- != 0)]: the buffer and whether bytes were dropped. *)
Fixpoint read_ep0_loop (count : nat) (port : Z) (b : list Z) (i bufferspace : Z) (over : bool)
  : M (list Z * bool) :=
  match count with
  | O => ret (b, over)
  | S n =>
      x <- usb_readb port ;;
      if bufferspace =? 0 then read_ep0_loop n port b i bufferspace true
      else b <- lift (wr b i x) ;; read_ep0_loop n port b (i + 1) (bufferspace - 1) over
  end.

Definition read_fifo_ep0 (e r : nat) : M Z :=
  p <- get_ep e ;; q <- get_req r ;;
  c <- usb_readb USB_REG_CSR0 ;;
  if negb (has c USB_CSR0_OUTPKTRDY) then ret 0
  else
    (let bufferspace := u32 (r_length q - actual q) in
     count <- usb_readw USB_REG_OUTCOUNT ;;
     (let act := u32 (actual q + Z.min count bufferspace) in
      let is_short := count <? maxpacket p in
      x <- read_ep0_loop (Z.to_nat count) (fifo p) (bytes q) (actual q) bufferspace false ;;
      put_req r (set_buf x.1 (set_actual act (if x.2 : bool then set_status (- EOVERFLOW) q else q))) ;;;
      if is_short || (act =? r_length q) then done e r 0 ;;; ret 1 else ret 0)).

Definition jz4740_ep0_out : M unit :=
  req <- head_of 0 ;;
  match req with
  | None => ret tt
  | Some r =>
      q <- get_req r ;;
      if r_length q =? 0 then
        usb_setb USB_REG_CSR0 USB_CSR0_SVDOUTPKTRDY ;;; modify (set_ep0state WAIT_FOR_SETUP)
      else
        rc <- read_fifo_ep0 0 r ;;
        if negb (rc =? 0) then
          usb_setb USB_REG_CSR0 (Z.lor USB_CSR0_SVDOUTPKTRDY USB_CSR0_DATAEND) ;;;
          modify (set_ep0state WAIT_FOR_SETUP)
        else usb_setb USB_REG_CSR0 USB_CSR0_SVDOUTPKTRDY
  end.

Definition jz4740_ep0_in : M Z :=
  req <- head_of 0 ;;
  match req with
  | None => ret 0
  | Some r =>
      q <- get_req r ;;
      if r_length q =? 0 then
        usb_setb USB_REG_CSR0 (Z.lor USB_CSR0_INPKTRDY USB_CSR0_DATAEND) ;;;
        modify (set_ep0state WAIT_FOR_SETUP) ;;; ret 1
      else
        (let need_zlp := u32 (r_length q - actual q) =? EP0_MAXPACKETSIZE in
         rc <- write_fifo_ep0 0 r ;;
         (if (rc =? 1) && negb need_zlp then
            usb_setb USB_REG_CSR0 (Z.lor USB_CSR0_INPKTRDY USB_CSR0_DATAEND) ;;;
            modify (set_ep0state WAIT_FOR_SETUP)
          else usb_setb USB_REG_CSR0 USB_CSR0_INPKTRDY) ;;;
         when need_zlp
           (usb_setb USB_REG_CSR0 USB_CSR0_INPKTRDY ;;; modify (set_ep0state DATA_STATE_NEED_ZLP)) ;;;
         ret 1)
  end.

Definition jz4740_ep0_in_zlp : M unit :=
  usb_setb USB_REG_CSR0 (Z.lor USB_CSR0_INPKTRDY USB_CSR0_DATAEND) ;;;
  modify (set_ep0state WAIT_FOR_SETUP).

Definition jz4740_ep0_kick (e : nat) : M unit :=
  usb_set_index 0 ;;;
  usb_readb USB_REG_CSR0 ;;;
  usb_setb USB_REG_CSR0 USB_CSR0_SVDOUTPKTRDY ;;;
  p <- get_ep e ;;
  if ep_is_in p then modify (set_ep0state DATA_STATE_XMIT) ;;; jz4740_ep0_in ;;; ret tt
  else modify (set_ep0state DATA_STATE_RECV) ;;; jz4740_ep0_out.

(** ** Queueing *)

(** The transfer is started if the queue was empty; [true] if the request is
    still to be added to the queue. *)
Definition kickstart (e r : nat) (p : jz4740_ep) : M bool :=
  if is_nil (queue p) && negb (stopped p) then
    if ep_index p =? 0 then list_add_tail r e ;;; jz4740_ep0_kick e ;;; ret false
    else if use_dma then kick_dma e r ;;; ret true
    else
      usb_set_index (ep_index p) ;;;
      c <- usb_readb (csr p) ;;
      pio_irq_enable e ;;;
      if ep_is_in p then
        if negb (has c USB_INCSR_FFNOTEMPT) then rc <- write_fifo e r ;; ret (negb (rc =? 1)) else ret true
      else
        if has c USB_OUTCSR_OUTPKTRDY then rc <- read_fifo e r ;; ret (negb (rc =? 1)) else ret true
  else ret true.

Definition jz4740_queue (_ep _req : option nat) : M Z :=
  match _req with
  | None => ret (- EINVAL)
  | Some r =>
      q <- get_req r ;; pend <- gets pending ;;
      if negb (has_complete q) || negb (is_Some_b (buf q)) || bool_decide (r ∈ pend) then ret (- EINVAL)
      else
        match _ep with
        | None => ret (- EINVAL)
        | Some e =>
            p <- get_ep e ;;
            if negb (is_Some_b (desc p)) && negb (is_ep0 p) then ret (- EINVAL)
            else
              dr <- gets driver ;; sp <- gets speed ;;
              if negb dr || (sp =? USB_SPEED_UNKNOWN) then ret (- ESHUTDOWN)
              else
                put_req r (set_actual 0 (set_status (- EINPROGRESS) q)) ;;;
                emit (Accept r) ;;;
                add <- kickstart e r p ;;
                when add (list_add_tail r e) ;;; ret 0
        end
  end.

(** ** The gadget driver *)

(** What a gadget driver can ask of this one; [Fill] is its own write of the
    fields of a request it owns. *)
Inductive call :=
  | Enable (_ep : option nat) (_desc : option usb_endpoint_descriptor)
  | Disable (_ep : option nat)
  | Alloc (mem : bool)
  | Free (r : nat)
  | Fill (r : nat) (q : usb_request)
  | Queue (_ep _req : option nat)
  | Dequeue (_ep : option nat) (r : nat)
  | Halt (_ep : option nat) (value : bool)
  | FifoStatus (_ep : option nat)
  | FifoFlush (_ep : option nat).

Definition fill (r : nat) (q : usb_request) : M unit :=
  old <- get_req r ;; pend <- gets pending ;;
  if bool_decide (r ∈ pend) then ret tt
  else put_req r (Request (buf q) (phys q) (r_length q) (zero q) (has_complete q) (status old) (actual old)).

Definition perform (c : call) : M unit :=
  match c with
  | Enable _ep _desc => jz4740_ep_enable _ep _desc ;;; ret tt
  | Disable _ep => jz4740_ep_disable _ep ;;; ret tt
  | Alloc mem => jz4740_alloc_request mem ;;; ret tt
  | Free r => jz4740_free_request r
  | Fill r q => fill r q
  | Queue _ep _req => jz4740_queue _ep _req ;;; ret tt
  | Dequeue _ep r => jz4740_dequeue _ep r ;;; ret tt
  | Halt _ep value => jz4740_set_halt _ep value ;;; ret tt
  | FifoStatus _ep => jz4740_fifo_status _ep ;;; ret tt
  | FifoFlush _ep => jz4740_fifo_flush _ep
  end.

Fixpoint run_calls (cs : list call) : M unit :=
  match cs with
  | [] => ret tt
  | c :: cs => perform c ;;; run_calls cs
  end.

End Driver.

(** A gadget driver: the calls that each of its functions makes, given what the
    driver's state is when it is called, and what it returns. *)
Record gadget := Gadget {
  g_complete : nat -> nat -> jz4740_udc -> list call;
  g_setup : usb_ctrlrequest -> jz4740_udc -> list call * Z;
  g_bind : jz4740_udc -> list call * Z;
  g_unbind : jz4740_udc -> list call;
  g_disconnect : jz4740_udc -> list call }.

Section Device.
Context (hw : list event -> Z -> Z) (stack : list event -> nat -> Z) (fuel : nat) (use_dma udc_debug : bool)
  (g : gadget).

(** Completions within completions, [n] deep at most. *)
Fixpoint complete_n (n : nat) (e r : nat) : M unit :=
  match n with
  | O => fail
  | S n => fun s => run_calls hw fuel use_dma (complete_n n) (g_complete g e r s) s
  end.

Definition complete : nat -> nat -> M unit := complete_n fuel.
Definition gadget_runs (cs : list call) : M unit := run_calls hw fuel use_dma complete cs.

Definition word (b : list Z) (i : nat) : Z := nth i b 0 + Z.shiftl (nth (S i) b 0) 8.
Definition ctrl_of (b : list Z) : usb_ctrlrequest :=
  Ctrl (nth 0 b 0) (nth 1 b 0) (word b 2) (word b 4) (word b 6).

(** Requests handled here; [true] when the gadget driver does not see them. *)
Definition setup_own (c : usb_ctrlrequest) : M bool :=
  if bRequest c =? USB_REQ_SET_ADDRESS then
    if negb (bRequestType c =? Z.lor USB_TYPE_STANDARD USB_RECIP_DEVICE) then ret false
    else
      udc_set_address (u8 (wValue c)) ;;;
      usb_setb hw USB_REG_CSR0 (Z.lor USB_CSR0_SVDOUTPKTRDY USB_CSR0_DATAEND) ;;; ret true
  else if bRequest c =? USB_REQ_SET_CONFIGURATION then
    if negb (bRequestType c =? Z.lor USB_TYPE_STANDARD USB_RECIP_DEVICE) then ret false
    else
      usb_setb hw USB_REG_CSR0 (Z.lor USB_CSR0_SVDOUTPKTRDY USB_CSR0_DATAEND) ;;;
      usb_setb hw USB_REG_INTRUSBE (Z.lor USB_INTR_RESUME USB_INTR_SUSPEND) ;;; ret false
  else if bRequest c =? USB_REQ_SET_INTERFACE then
    if negb (bRequestType c =? Z.lor USB_TYPE_STANDARD USB_RECIP_DEVICE) then ret false
    else usb_setb hw USB_REG_CSR0 (Z.lor USB_CSR0_SVDOUTPKTRDY USB_CSR0_DATAEND) ;;; ret false
  else if (bRequest c =? USB_REQ_CLEAR_FEATURE) || (bRequest c =? USB_REQ_SET_FEATURE) then
    if bRequestType c =? USB_RECIP_ENDPOINT then
      (let ep_num := Z.land (wIndex c) 15 in
       if negb (wValue c =? 0) || negb (wLength c =? 0) || (3 <? ep_num) || (ep_num <? 1) then ret false
       else
         jz4740_set_halt hw (Some (Z.to_nat ep_num)) (bRequest c =? USB_REQ_SET_FEATURE) ;;;
         usb_set_index 0 ;;;
         usb_setb hw USB_REG_CSR0 (Z.lor USB_CSR0_SVDOUTPKTRDY USB_CSR0_DATAEND) ;;; ret true)
    else ret false
  else ret false.

(** [ep->bEndpointAddress |= USB_DIR_IN] or [&= ~USB_DIR_IN] *)
Definition set_direction (c : usb_ctrlrequest) (p : jz4740_ep) : jz4740_ep :=
  set_bEndpointAddress
    (if has (bRequestType c) USB_DIR_IN then Z.lor (bEndpointAddress p) USB_DIR_IN
     else Z.land (bEndpointAddress p) (Z.lnot USB_DIR_IN)) p.

Definition jz4740_ep0_setup : M unit :=
  nuke hw fuel complete 0 (- EPROTO) ;;;
  b <- jz4740_fifo_read hw stack 0 8 ;;
  (let c := ctrl_of b in
   upd_ep 0 (set_direction c) ;;;
   own <- setup_own c ;;
   dr <- gets driver ;;
   if own || negb dr then ret tt
   else
     emit (Setup c) ;;;
     x <- gets (g_setup g c) ;;
     gadget_runs x.1 ;;;
     if x.2 <? 0 then
       usb_set_index 0 ;;;
       usb_setb hw USB_REG_CSR0 (Z.lor (Z.lor USB_CSR0_SVDOUTPKTRDY USB_CSR0_DATAEND) USB_CSR0_SENDSTALL) ;;;
       modify (set_ep0state WAIT_FOR_SETUP)
     else when (wLength c =? 0) (usb_setb hw USB_REG_CSR0 USB_CSR0_SVDOUTPKTRDY)).

(** ** Interrupts *)

Definition jz4740_handle_ep0 : M unit :=
  usb_set_index 0 ;;;
  c <- usb_readb hw USB_REG_CSR0 ;;
  if has c USB_CSR0_SENTSTALL then
    usb_clearb hw USB_REG_CSR0 (Z.lor USB_CSR0_SENDSTALL USB_CSR0_SENTSTALL) ;;;
    nuke hw fuel complete 0 (- ECONNABORTED) ;;;
    modify (set_ep0state WAIT_FOR_SETUP)
  else if negb (has c (Z.lor USB_CSR0_INPKTRDY USB_CSR0_OUTPKTRDY)) then
    st <- gets ep0state ;;
    match st with
    | DATA_STATE_XMIT => jz4740_ep0_in hw complete ;;; ret tt
    | DATA_STATE_NEED_ZLP => jz4740_ep0_in_zlp hw
    | _ => modify (set_ep0state WAIT_FOR_SETUP)
    end
  else
    when (has c USB_CSR0_SETUPEND)
      (usb_setb hw USB_REG_CSR0 USB_CSR0_SVDSETUPEND ;;;
       nuke hw fuel complete 0 0 ;;;
       modify (set_ep0state WAIT_FOR_SETUP)) ;;;
    when (has c USB_CSR0_OUTPKTRDY)
      (st <- gets ep0state ;;
       match st with
       | WAIT_FOR_SETUP => jz4740_ep0_setup
       | DATA_STATE_RECV => jz4740_ep0_out hw complete
       | _ => ret tt
       end).

Definition jz4740_reset_irq : M unit :=
  p <- usb_readb hw USB_REG_POWER ;;
  modify (set_speed (if has p USB_POWER_HSMODE then USB_SPEED_HIGH else USB_SPEED_FULL)).

(** The endpoint number in a DMA control register. *)
Definition dma_ep (cntl : Z) : Z := Z.land (Z.shiftr cntl 4) 15.

Definition endpoint_irqs (intr_in intr_out intr_dma : Z) : M unit :=
  when (has intr_in USB_INTR_EP0) jz4740_handle_ep0 ;;;
  when (has intr_dma 1)
    (c <- usb_readl hw USB_REG_CNTL1 ;; jz4740_in_epn hw use_dma complete (dma_ep c)) ;;;
  when (has intr_dma 2)
    (c <- usb_readl hw USB_REG_CNTL2 ;; jz4740_out_epn hw fuel use_dma complete (dma_ep c)) ;;;
  when (has intr_in USB_INTR_INEP1) (jz4740_in_epn hw use_dma complete 1) ;;;
  when (has intr_in USB_INTR_INEP2) (jz4740_in_epn hw use_dma complete 2) ;;;
  when (has intr_out USB_INTR_OUTEP1) (jz4740_out_epn hw fuel use_dma complete 1).

Definition jz4740_udc_irq : M unit :=
  u <- usb_readb hw USB_REG_INTRUSB ;;
  intr_in <- usb_readw hw USB_REG_INTRIN ;;
  intr_out <- usb_readw hw USB_REG_INTROUT ;;
  intr_dma <- usb_readb hw USB_REG_INTR ;;
  (let intr_usb := Z.land u 7 in
   if (intr_usb =? 0) && (intr_in =? 0) && (intr_out =? 0) && (intr_dma =? 0) then ret tt
   else
     when (has intr_usb USB_INTR_RESUME) (usb_readb hw USB_REG_INTRUSBE ;;; ret tt) ;;;
     if has intr_usb USB_INTR_RESET && udc_debug then udc_disable hw
     else
       when (has intr_usb USB_INTR_RESET) jz4740_reset_irq ;;;
       endpoint_irqs intr_in intr_out intr_dma ;;;
       when (has intr_usb USB_INTR_SUSPEND) (usb_readb hw USB_REG_INTRUSBE ;;; ret tt)).

(** ** Registration *)

Definition stop_activity (driver : bool) : M unit :=
  sp <- gets speed ;;
  (let driver := driver && negb (sp =? USB_SPEED_UNKNOWN) in
   modify (set_speed USB_SPEED_UNKNOWN) ;;;
   for_endpoints (fun e =>
     upd_ep e (set_stopped true) ;;;
     p <- get_ep e ;;
     usb_set_index (ep_index p) ;;;
     nuke hw fuel complete e (- ESHUTDOWN)) ;;;
   when driver (emit Disconnect ;;; cs <- gets (g_disconnect g) ;; gadget_runs cs) ;;;
   udc_reinit).

(** [valid]: the driver and its functions are not null. *)
Definition usb_gadget_register_driver (valid : bool) : M Z :=
  if negb valid then ret (- EINVAL)
  else
    ctl <- gets the_controller ;; dr <- gets driver ;;
    if negb ctl then ret (- ENODEV)
    else if (dr : bool) then ret (- EBUSY)
    else
      modify (set_driver true) ;;;
      emit Bind ;;;
      x <- gets (g_bind g) ;;
      gadget_runs x.1 ;;;
      if negb (x.2 =? 0) then modify (set_driver false) ;;; ret x.2
      else udc_enable hw ;;; ret 0.

(** [same]: the argument is the registered driver. *)
Definition usb_gadget_unregister_driver (same : bool) : M Z :=
  ctl <- gets the_controller ;; dr <- gets driver ;;
  if negb ctl then ret (- ENODEV)
  else if negb same || negb dr then ret (- EINVAL)
  else
    modify (set_driver false) ;;;
    stop_activity true ;;;
    emit Unbind ;;;
    cs <- gets (g_unbind g) ;; gadget_runs cs ;;;
    udc_disable hw ;;;
    ret 0.

Definition udc_dev : jz4740_udc :=
  Udc false false 0 WAIT_FOR_SETUP 0
    [Ep true EP0_MAXPACKETSIZE None [] false 0 0 ep_control USB_FIFO_EP0 USB_REG_CSR0 0;
     Ep false EPBULK_MAXPACKETSIZE None [] false 1 USB_ENDPOINT_XFER_BULK ep_bulk_out USB_FIFO_EP1 USB_REG_OUTCSR 0;
     Ep false EPBULK_MAXPACKETSIZE None [] false (Z.lor USB_DIR_IN 1) USB_ENDPOINT_XFER_BULK ep_bulk_in
       USB_FIFO_EP1 USB_REG_INCSR 0;
     Ep false EPINTR_MAXPACKETSIZE None [] false (Z.lor USB_DIR_IN 2) USB_ENDPOINT_XFER_INT ep_interrupt
       USB_FIFO_EP2 USB_REG_INCSR 0] ∅ [].

(** With the results of [device_register] and [request_irq]. *)
Definition jz4740_udc_probe (rc irq : Z) : M Z :=
  modify (set_controller true) ;;;
  if rc <? 0 then ret rc
  else
    udc_disable hw ;;; udc_reinit ;;;
    ret (if irq =? 0 then 0 else - EBUSY).

Definition jz4740_udc_remove : M Z :=
  dr <- gets driver ;;
  if (dr : bool) then ret (- EBUSY)
  else udc_disable hw ;;; modify (set_controller false) ;;; ret 0.

Definition jz4740_udc_get_frame : M Z := usb_readw hw USB_REG_FRAME.

End Device.
