(* ===== verification/UdcRequests.v ===== *)
(** * Requests of the USB device controller: none lost, none given back twice

    The abstract view of [UdcDriver] is a ledger: the requests accepted, the
    requests completed, the queues, and whether the bus is up.  Its steps are to
    accept a request into a queue and to complete a queued one.  Every entry point
    of the driver, with the calls that the gadget driver makes from within its
    callbacks, is a sequence of such steps; what holds of the ledger then holds
    of the driver. *)

From S2P Require Import Prelude UdcDriver.

(** ** The ledger *)

Definition accepted (l : list event) : list nat :=
  omap (fun x => match x with Accept r => Some r | _ => None end) l.
Definition completed (l : list event) : list nat :=
  omap (fun x => match x with Complete _ r _ _ => Some r | _ => None end) l.

Record ledger := Ledger {
  acc : list nat;
  com : list nat;
  queues : list (list nat);
  bus : Z }.

Definition view (s : jz4740_udc) : ledger :=
  Ledger (accepted (log s)) (completed (log s)) (map queue (ep s)) (speed s).

Definition remove (r : nat) (q : list nat) : list nat := filter (fun r' => r' <> r) q.

Inductive lstep : ledger -> ledger -> Prop :=
  | l_accept e r v :
      bus v <> USB_SPEED_UNKNOWN -> (e < length (queues v))%nat -> r ∉ concat (queues v) ->
      lstep v (Ledger (r :: acc v) (com v) (alter (fun q => q ++ [r]) e (queues v)) (bus v))
  | l_complete r v :
      r ∈ concat (queues v) ->
      lstep v (Ledger (acc v) (r :: com v) (map (remove r) (queues v)) (bus v))
  | l_at_once r v :
      bus v <> USB_SPEED_UNKNOWN -> r ∉ concat (queues v) ->
      lstep v (Ledger (r :: acc v) (r :: com v) (queues v) (bus v)).

Abbreviation lsteps := (rtc lstep).

(** Each request accepted is queued, once, or was completed. *)
Definition balanced (v : ledger) : Prop :=
  acc v ≡ₚ com v ++ concat (queues v) /\ NoDup (concat (queues v)).

(** The queues in [E] are empty and the bus is down. *)
Definition quiet (E : list nat) (v : ledger) : Prop :=
  bus v = USB_SPEED_UNKNOWN /\ Forall (fun e => forall q, queues v !! e = Some q -> q = []) E.

Lemma remove_absent r q : r ∉ q -> remove r q = q.
Proof.
  intros H. induction q as [|x q IH]; [done|]. unfold remove in *. rewrite filter_cons.
  apply not_elem_of_cons in H as [Hx Hq]. rewrite decide_True by done. by rewrite IH.
Qed.

Lemma remove_concat r qs : concat (map (remove r) qs) = remove r (concat qs).
Proof. induction qs as [|q qs IH]; [done|]. cbn. rewrite IH. unfold remove. by rewrite filter_app. Qed.

#[local] Instance remove_Permutation r : Proper ((≡ₚ) ==> (≡ₚ)) (remove r).
Proof. intros q q' H. unfold remove. by rewrite H. Qed.

Lemma remove_perm r q : NoDup q -> r ∈ q -> q ≡ₚ r :: remove r q.
Proof.
  intros Hq Hr. apply elem_of_Permutation in Hr as (q' & Hp). rewrite Hp in Hq |- *.
  apply NoDup_cons in Hq as [Hn _]. unfold remove. rewrite filter_cons, decide_False by auto.
  fold (remove r q'). by rewrite remove_absent.
Qed.

Lemma concat_alter e r (qs : list (list nat)) :
  (e < length qs)%nat -> concat (alter (fun q : list nat => q ++ [r]) e qs) ≡ₚ r :: concat qs.
Proof.
  revert e. induction qs as [|q qs IH]; intros [|e] He; cbn in *; try lia.
  - rewrite <- app_assoc. cbn. by rewrite <- Permutation_middle.
  - rewrite IH by lia. by rewrite Permutation_middle.
Qed.

Lemma lstep_balanced v v' : lstep v v' -> balanced v -> balanced v'.
Proof.
  intros [e r w _ He Hr|r w Hr|r w _ Hr] [Hp Hn]; split; cbn.
  - by rewrite concat_alter, Hp, Permutation_middle.
  - rewrite concat_alter by done. by constructor.
  - rewrite remove_concat, Hp. rewrite (remove_perm r _ Hn Hr) at 1. by rewrite <- Permutation_middle.
  - rewrite remove_concat. by apply NoDup_filter.
  - by rewrite Hp.
  - done.
Qed.

Lemma lstep_quiet E v v' : lstep v v' -> quiet E v -> quiet E v'.
Proof.
  intros [e r w Hb|r w Hr|r w Hb] [Hs HE]; try done. split; [done|]. cbn.
  eapply Forall_impl; [exact HE|]. intros e He q. rewrite list_lookup_fmap.
  destruct (queues w !! e) as [q'|] eqn:Hq; [|done]. cbn. intros [= <-]. by rewrite (He _ Hq).
Qed.

Lemma lsteps_balanced v v' : lsteps v v' -> balanced v -> balanced v'.
Proof. induction 1; [done|]. eauto using lstep_balanced. Qed.

Lemma lsteps_quiet E v v' : lsteps v v' -> quiet E v -> quiet E v'.
Proof. induction 1; [done|]. eauto using lstep_quiet. Qed.

(** The queues that are left are parts of what there was, when the bus is down. *)
Lemma lsteps_length v v' : lsteps v v' -> length (queues v') = length (queues v).
Proof.
  induction 1 as [|v v1 v' H _ IH]; [done|]. rewrite IH. destruct H; cbn; try done.
  - apply length_alter.
  - by rewrite length_map.
Qed.

(** ** Operations that do not touch the ledger *)

Definition frame {A} (m : M A) : Prop := forall s x s', m s = Some (x, s') -> view s' = view s.
Definition refines {A} (m : M A) : Prop := forall s x s', m s = Some (x, s') -> lsteps (view s) (view s').

Create HintDb frame discriminated.

Lemma frame_ret {A} (x : A) : frame (ret x).
Proof. by intros s y s' [= <- <-]. Qed.
Lemma frame_fail {A} : frame (A := A) fail.
Proof. by intros s y s' H. Qed.
Lemma frame_gets {A} (f : jz4740_udc -> A) : frame (gets f).
Proof. by intros s y s' [= <- <-]. Qed.
Lemma frame_lift {A} (o : option A) : frame (lift o).
Proof. intros s y s'. unfold lift. destruct o; [|done]. by intros [= <- <-]. Qed.
Lemma frame_bind {A C} (m : M A) (k : A -> M C) : frame m -> (forall x, frame (k x)) -> frame (bind m k).
Proof.
  intros Hm Hk s y s'. unfold bind. destruct (m s) as [[x s1]|] eqn:E; [|done].
  intros H. rewrite (Hk _ _ _ _ H). by apply (Hm _ _ _ E).
Qed.
Lemma frame_modify f : (forall s, view (f s) = view s) -> frame (modify f).
Proof. intros H s y s' [= <- <-]. apply H. Qed.
Lemma frame_get_ep e : frame (get_ep e).
Proof. intros s y s'. unfold get_ep. destruct (ep s !! e); [|done]. by intros [= <- <-]. Qed.
Lemma frame_get_req r : frame (get_req r).
Proof. intros s y s'. unfold get_req. destruct (reqs s !! r); [|done]. by intros [= <- <-]. Qed.
Lemma frame_put_req r q : frame (put_req r q).
Proof. by apply frame_modify. Qed.
Lemma frame_when b m : frame m -> frame (when b m).
Proof. destruct b; [done|]. intros _. apply frame_ret. Qed.
Lemma frame_emit x : match x with Accept _ | Complete _ _ _ _ => False | _ => True end -> frame (emit x).
Proof. intros H. apply frame_modify. intros s. by destruct x. Qed.
Lemma frame_upd_ep e f : (forall p, queue (f p) = queue p) -> frame (upd_ep e f).
Proof.
  intros H s y s'. unfold upd_ep, bind, get_ep. destruct (ep s !! e) as [p|] eqn:E; [|done].
  intros [= <- <-]. unfold view. cbn. f_equal. rewrite list_fmap_insert, H.
  apply list_insert_id. by rewrite list_lookup_fmap, E.
Qed.
#[export] Hint Resolve frame_ret frame_fail frame_gets frame_lift frame_bind frame_get_ep frame_get_req
  frame_put_req frame_when : frame.
#[export] Hint Extern 1 (frame (emit _)) => apply frame_emit; exact I : frame.
#[export] Hint Extern 1 (frame (upd_ep _ _)) => apply frame_upd_ep; intros; reflexivity : frame.
#[export] Hint Extern 1 (frame (modify _)) => apply frame_modify; intros; reflexivity : frame.

(** Splits the code along its binds and conditions. *)
Ltac framed :=
  repeat (intros; cbv zeta;
    lazymatch goal with
    | |- frame (bind _ _) => apply frame_bind
    | |- frame (if ?b then _ else _) => destruct b
    | |- frame (match ?x with _ => _ end) => destruct x
    | |- frame (when _ _) => apply frame_when
    | |- frame _ => solve [auto 2 with frame]
    end).

Lemma refines_frame {A} (m : M A) : frame m -> refines m.
Proof. intros H s x s' Hm. rewrite (H _ _ _ Hm). apply rtc_refl. Qed.
Lemma refines_bind {A C} (m : M A) (k : A -> M C) : refines m -> (forall x, refines (k x)) -> refines (bind m k).
Proof.
  intros Hm Hk s y s'. unfold bind. destruct (m s) as [[x s1]|] eqn:E; [|done].
  intros H. etransitivity; [by apply (Hm _ _ _ E)|by apply (Hk _ _ _ _ H)].
Qed.
Lemma refines_when b m : refines m -> refines (when b m).
Proof. destruct b; [done|]. intros _. apply refines_frame, frame_ret. Qed.

Create HintDb refines discriminated.

(** Frames where possible, else splits; leaves what is neither. *)
Ltac refined :=
  repeat (intros; cbv zeta;
    first
      [ apply refines_frame; solve [framed]
      | solve [auto 2 with refines]
      | lazymatch goal with
        | |- refines (bind (head_of _) _) => fail
        | |- refines (bind _ _) => apply refines_bind
        | |- refines (if ?b then _ else _) => destruct b
        | |- refines (match ?x with _ => _ end) => destruct x
        | |- refines (when _ _) => apply refines_when
        end ]).

Section Driver.
Context (hw : list event -> Z -> Z) (stack : list event -> nat -> Z) (fuel : nat) (use_dma : bool).

Lemma frame_usb_read w port : frame (usb_read hw w port).
Proof. unfold usb_read. framed. Qed.
Lemma frame_usb_write w port v : frame (usb_write w port v).
Proof. unfold usb_write. framed. Qed.
Hint Resolve frame_usb_read frame_usb_write : frame.
Lemma frame_usb_readb port : frame (usb_readb hw port).
Proof. apply frame_usb_read. Qed.
Lemma frame_usb_readw port : frame (usb_readw hw port).
Proof. apply frame_usb_read. Qed.
Lemma frame_usb_readl port : frame (usb_readl hw port).
Proof. apply frame_usb_read. Qed.
Lemma frame_usb_writeb port v : frame (usb_writeb port v).
Proof. apply frame_usb_write. Qed.
Lemma frame_usb_writew port v : frame (usb_writew port v).
Proof. apply frame_usb_write. Qed.
Lemma frame_usb_writel port v : frame (usb_writel port v).
Proof. apply frame_usb_write. Qed.
Lemma frame_usb_set_index i : frame (usb_set_index i).
Proof. apply frame_usb_write. Qed.
Lemma frame_usb_set w port v : frame (usb_set hw w port v).
Proof. unfold usb_set. framed. Qed.
Lemma frame_usb_clear w port v : frame (usb_clear hw w port v).
Proof. unfold usb_clear. framed. Qed.
Lemma frame_usb_setb port v : frame (usb_setb hw port v).
Proof. apply frame_usb_set. Qed.
Lemma frame_usb_setw port v : frame (usb_setw hw port v).
Proof. apply frame_usb_set. Qed.
Lemma frame_usb_setl port v : frame (usb_setl hw port v).
Proof. apply frame_usb_set. Qed.
Lemma frame_usb_clearb port v : frame (usb_clearb hw port v).
Proof. apply frame_usb_clear. Qed.
Lemma frame_usb_clearw port v : frame (usb_clearw hw port v).
Proof. apply frame_usb_clear. Qed.
Lemma frame_usb_clearl port v : frame (usb_clearl hw port v).
Proof. apply frame_usb_clear. Qed.
Hint Resolve frame_usb_readb frame_usb_readw frame_usb_readl frame_usb_writeb frame_usb_writew frame_usb_writel
  frame_usb_set_index frame_usb_setb frame_usb_setw frame_usb_setl frame_usb_clearb frame_usb_clearw
  frame_usb_clearl : frame.

Lemma frame_flush e : frame (flush hw e).
Proof. unfold flush. framed. Qed.
Lemma frame_pio_irq_enable e : frame (pio_irq_enable hw e).
Proof. unfold pio_irq_enable. framed. Qed.
Lemma frame_pio_irq_disable e : frame (pio_irq_disable hw e).
Proof. unfold pio_irq_disable. framed. Qed.
Lemma frame_write_longs n port b i : frame (write_longs n port b i).
Proof. revert i. induction n as [|n IH]; intros i; cbn [write_longs]; framed. Qed.
Lemma frame_write_bytes n port b i : frame (write_bytes n port b i).
Proof. revert i. induction n as [|n IH]; intros i; cbn [write_bytes]; framed. Qed.
Lemma frame_read_longs n port b i : frame (read_longs hw n port b i).
Proof. revert b i. induction n as [|n IH]; intros b i; cbn [read_longs]; framed. Qed.
Lemma frame_read_bytes n port b i : frame (read_bytes hw n port b i).
Proof. revert b i. induction n as [|n IH]; intros b i; cbn [read_bytes]; framed. Qed.
Lemma frame_read_ep0_loop n port b i sp o : frame (read_ep0_loop hw n port b i sp o).
Proof. revert b i sp o. induction n as [|n IH]; intros b i sp o; cbn [read_ep0_loop]; framed. Qed.
Lemma frame_fifo_read_loop n port : frame (fifo_read_loop hw n port).
Proof. induction n as [|n IH]; cbn [fifo_read_loop]; framed. Qed.
Hint Resolve frame_flush frame_pio_irq_enable frame_pio_irq_disable frame_write_longs frame_write_bytes
  frame_read_longs frame_read_bytes frame_read_ep0_loop frame_fifo_read_loop : frame.

Lemma frame_upd_req r f : frame (upd_req r f).
Proof. unfold upd_req. framed. Qed.
Hint Resolve frame_upd_req : frame.
Lemma frame_write_packet e r max : frame (write_packet e r max).
Proof. unfold write_packet. framed. Qed.
Lemma frame_read_packet e r count : frame (read_packet hw e r count).
Proof. unfold read_packet. framed. Qed.
Lemma frame_kick_dma e r : frame (kick_dma hw e r).
Proof. unfold kick_dma. framed. Qed.
Lemma frame_count_dma e r : frame (count_dma hw e r).
Proof. unfold count_dma. framed. Qed.
Lemma frame_head_of e : frame (head_of e).
Proof. unfold head_of. framed. Qed.
Lemma frame_set_halt o v : frame (jz4740_set_halt hw o v).
Proof. unfold jz4740_set_halt. framed. Qed.
Hint Resolve frame_write_packet frame_read_packet frame_kick_dma frame_count_dma frame_head_of
  frame_set_halt : frame.
Lemma frame_ep_enable o d : frame (jz4740_ep_enable hw o d).
Proof. unfold jz4740_ep_enable. framed. Qed.
Lemma frame_fifo_status o : frame (jz4740_fifo_status hw o).
Proof. unfold jz4740_fifo_status. framed. Qed.
Lemma frame_fifo_flush o : frame (jz4740_fifo_flush hw o).
Proof. unfold jz4740_fifo_flush. framed. Qed.
Lemma frame_alloc_request b : frame (jz4740_alloc_request b).
Proof. unfold jz4740_alloc_request. framed. Qed.
Lemma frame_free_request r : frame (jz4740_free_request r).
Proof. unfold jz4740_free_request. framed. Qed.
Lemma frame_fill r q : frame (fill r q).
Proof. unfold fill. framed. Qed.
Lemma frame_fifo_read e max : frame (jz4740_fifo_read hw stack e max).
Proof. unfold jz4740_fifo_read. framed. Qed.
Lemma frame_ep0_in_zlp : frame (jz4740_ep0_in_zlp hw).
Proof. unfold jz4740_ep0_in_zlp. framed. Qed.
Hint Resolve frame_ep_enable frame_fifo_status frame_fifo_flush frame_alloc_request frame_free_request
  frame_fill frame_fifo_read frame_ep0_in_zlp : frame.

(** ** Operations as steps of the ledger *)

Lemma bind_inv {A C} (m : M A) (k : A -> M C) s x s' :
  bind m k s = Some (x, s') -> exists y s1, m s = Some (y, s1) /\ k y s1 = Some (x, s').
Proof. unfold bind. destruct (m s) as [[y s1]|]; [|done]. eauto. Qed.

Context (complete : nat -> nat -> M unit) (Hcomplete : forall e r, refines (complete e r)).

(** The ledger with [r] completed. *)
Definition ticked (r : nat) (v : ledger) : ledger :=
  Ledger (acc v) (r :: com v) (map (remove r) (queues v)) (bus v).

Lemma done_from v e r st s x s' :
  lsteps v (ticked r (view s)) -> done hw complete e r st s = Some (x, s') -> lsteps v (view s').
Proof.
  intros Hv H. unfold done in H.
  apply bind_inv in H as (p & s1 & H1 & H). apply frame_get_ep in H1.
  apply bind_inv in H as (? & s2 & H2 & H). injection H2 as _ <-.
  apply bind_inv in H as (q & s3 & H3 & H). apply frame_get_req in H3. cbv zeta in H.
  apply bind_inv in H as (? & s4 & H4 & H). apply frame_put_req in H4.
  apply bind_inv in H as (? & s5 & H5 & H). apply (frame_upd_ep e (set_stopped true)) in H5; [|done].
  apply bind_inv in H as (index & s6 & H6 & H). apply frame_usb_readb in H6.
  apply bind_inv in H as (? & s7 & H7 & H). injection H7 as _ <-.
  apply bind_inv in H as (? & s8 & H8 & H). apply Hcomplete in H8.
  apply bind_inv in H as (? & s9 & H9 & H). apply frame_usb_set_index in H9.
  apply frame_upd_ep in H; [|done]. rewrite H, H9. etransitivity; [exact Hv|].
  replace (ticked r (view s)) with (view (set_log (Complete e r
    (if status q =? - EINPROGRESS then st else status q) (actual q) :: log s6) s6)); [exact H8|].
  unfold view at 1. cbn [log set_log ep speed]. change (accepted (_ :: log s6)) with (acc (view s6)).
  change (completed (_ :: log s6)) with (r :: com (view s6)).
  change (map queue (ep s6)) with (queues (view s6)). change (speed s6) with (bus (view s6)).
  rewrite H6, H5, H4, H3. unfold ticked. rewrite <- H1. cbn. f_equal. by rewrite !map_map.
Qed.

Lemma done_steps e r st s x s' :
  r ∈ pending s -> done hw complete e r st s = Some (x, s') -> lsteps (view s) (view s').
Proof. intros Hr. apply done_from, rtc_once. by apply (l_complete r (view s)). Qed.

(** The first request of a queue is queued. *)
Lemma head_pending e p r q s : ep s !! e = Some p -> queue p = r :: q -> r ∈ pending s.
Proof.
  intros Hp Hq. unfold pending. apply list_elem_of_In, in_concat. exists (queue p). split.
  - apply in_map, list_elem_of_In. by eapply list_elem_of_lookup_2.
  - rewrite Hq. by left.
Qed.

Lemma pending_view s s' : view s' = view s -> pending s' = pending s.
Proof. intros H. change (concat (queues (view s')) = concat (queues (view s))). by rewrite H. Qed.

Lemma refines_nuke_loop n e st : refines (nuke_loop hw complete n e st).
Proof.
  induction n as [|n IH]; intros s x s' H; cbn [nuke_loop] in H;
    apply bind_inv in H as (p & s1 & H1 & H); unfold get_ep in H1;
    destruct (ep s !! e) as [p'|] eqn:Hp; try done; injection H1 as -> ->;
    destruct (queue p) as [|r q] eqn:Hq; try (injection H as _ <-; apply rtc_refl); [done|].
  apply bind_inv in H as (? & s2 & H2 & H). etransitivity; [|by apply (IH _ _ _ H)].
  eapply done_steps; [|exact H2]. by eapply head_pending.
Qed.
Lemma refines_nuke e st : refines (nuke hw fuel complete e st).
Proof.
  apply refines_bind; [apply refines_frame; framed|intros _].
  apply refines_bind; [apply refines_nuke_loop|intros _]. apply refines_frame. framed.
Qed.

(** A transfer step for [r], a queued request or one that is just being
    accepted: the ledger is as before, or [r] was completed and callbacks ran. *)
Definition fifo_result (v : ledger) (x : Z) (s s' : jz4740_udc) : Prop :=
  (x <> 1 /\ use_dma = false /\ view s' = view s) \/ (lsteps v (view s') /\ (use_dma = false -> x = 1)).

Lemma write_fifo_from v e r s x s' :
  lsteps v (ticked r (view s)) -> write_fifo hw use_dma complete e r s = Some (x, s') -> fifo_result v x s s'.
Proof.
  intros Hv H. unfold write_fifo in H.
  apply bind_inv in H as (p & s1 & H1 & H). apply frame_get_ep in H1.
  apply bind_inv in H as (d & s2 & H2 & H). apply frame_lift in H2. cbv zeta in H.
  unfold fifo_result. destruct use_dma.
  - right. split; [|done]. apply bind_inv in H as (c & s3 & H3 & H). apply frame_count_dma in H3.
    destruct (_ =? 0); [done|]. apply bind_inv in H as (? & s4 & H4 & H).
    apply frame_when in H4; [|apply frame_usb_setb].
    apply bind_inv in H as (? & s5 & H5 & H). apply (done_from v) in H5; [|by rewrite H4, H3, H2, H1].
    etransitivity; [exact H5|]. revert H. apply refines_frame. framed.
  - apply bind_inv in H as (c & s3 & H3 & H). apply frame_usb_readb in H3.
    destruct (negb _); [|injection H as <- <-; left; by rewrite H3, H2, H1].
    apply bind_inv in H as (cnt & s4 & H4 & H). apply frame_write_packet in H4.
    apply bind_inv in H as (? & s5 & H5 & H). apply frame_usb_setb in H5.
    apply bind_inv in H as (q & s6 & H6 & H). apply frame_get_req in H6. cbv zeta in H.
    destruct (_ || _); [|injection H as <- <-; left; by rewrite H6, H5, H4, H3, H2, H1].
    right. apply bind_inv in H as (? & s7 & H7 & H).
    apply (done_from v) in H7; [|by rewrite H6, H5, H4, H3, H2, H1].
    apply bind_inv in H as (p' & s8 & H8 & H). apply frame_get_ep in H8.
    apply bind_inv in H as (? & s9 & H9 & H). injection H as <- <-. split; [|done].
    etransitivity; [exact H7|]. rewrite <- H8. revert H9. apply refines_frame. framed.
Qed.

Lemma read_fifo_from v e r s x s' :
  lsteps v (ticked r (view s)) -> read_fifo hw use_dma complete e r s = Some (x, s') -> fifo_result v x s s'.
Proof.
  intros Hv H. unfold read_fifo in H.
  apply bind_inv in H as (p & s1 & H1 & H). apply frame_get_ep in H1. unfold fifo_result. destruct use_dma.
  - right. split; [|done].
    apply bind_inv in H as (c & s3 & H3 & H). apply frame_count_dma in H3.
    apply bind_inv in H as (? & s4 & H4 & H). apply frame_pio_irq_disable in H4.
    apply bind_inv in H as (? & s5 & H5 & H). apply frame_usb_writel in H5.
    apply bind_inv in H as (? & s6 & H6 & H). apply frame_usb_readw in H6.
    apply bind_inv in H as (? & s7 & H7 & H). apply frame_read_packet in H7.
    apply bind_inv in H as (? & s8 & H8 & H). apply frame_when in H8; [|apply frame_usb_clearb].
    apply bind_inv in H as (? & s9 & H9 & H).
    apply (done_from v) in H9; [|by rewrite H8, H7, H6, H5, H4, H3, H1].
    etransitivity; [exact H9|]. revert H. apply refines_frame. framed.
  - apply bind_inv in H as (c & s3 & H3 & H). apply frame_usb_readb in H3.
    destruct (negb _); [injection H as <- <-; left; by rewrite H3, H1|].
    apply bind_inv in H as (cnt & s4 & H4 & H). apply frame_usb_readw in H4. cbv zeta in H.
    apply bind_inv in H as (? & s5 & H5 & H). apply frame_read_packet in H5.
    apply bind_inv in H as (? & s6 & H6 & H). apply frame_usb_clearb in H6.
    apply bind_inv in H as (q & s7 & H7 & H). apply frame_get_req in H7.
    destruct (_ || _); [|injection H as <- <-; left; by rewrite H7, H6, H5, H4, H3, H1].
    right. apply bind_inv in H as (? & s8 & H8 & H).
    apply (done_from v) in H8; [|by rewrite H7, H6, H5, H4, H3, H1].
    apply bind_inv in H as (p' & s9 & H9 & H). apply frame_get_ep in H9.
    apply bind_inv in H as (? & sa & Ha & H). injection H as <- <-. split; [|done].
    etransitivity; [exact H8|]. rewrite <- H9. revert Ha. apply refines_frame. framed.
Qed.

(** For a queued request. *)
Lemma fifo_result_queued r x s s' :
  (lsteps (view s) (ticked r (view s)) -> fifo_result (view s) x s s') -> r ∈ pending s ->
  lsteps (view s) (view s').
Proof.
  intros H Hr. destruct H as [(_ & _ & ->)|[H _]]; [|apply rtc_refl|done].
  apply rtc_once. by apply (l_complete r (view s)).
Qed.

(** After [head_of], its result is queued. *)
Lemma head_of_inv e s o s1 :
  head_of e s = Some (o, s1) -> s1 = s /\ (forall r, o = Some r -> r ∈ pending s).
Proof.
  unfold head_of, bind, get_ep. destruct (ep s !! e) as [p|] eqn:Hp; [|done]. intros [= <- <-].
  split; [done|]. intros r Hr. destruct (queue p) as [|r' q] eqn:Hq; [done|]. injection Hr as <-.
  by eapply head_pending.
Qed.

(** A step on the first request of a queue, if there is one. *)
Lemma refines_head {A} e (k : option nat -> M A) :
  refines (k None) ->
  (forall r s x s', r ∈ pending s -> k (Some r) s = Some (x, s') -> lsteps (view s) (view s')) ->
  refines (bind (head_of e) k).
Proof.
  intros Hn Hk s x s' H. apply bind_inv in H as (o & s1 & H1 & H).
  apply head_of_inv in H1 as [-> Ho]. destruct o as [r|]; [|by apply (Hn _ _ _ H)].
  apply (Hk r _ x); [by apply Ho|done].
Qed.

Lemma refines_in_epn i : refines (jz4740_in_epn hw use_dma complete i).
Proof.
  unfold jz4740_in_epn. apply refines_bind; [apply refines_frame; framed|intros p].
  apply refines_bind; [apply refines_frame; framed|intros _].
  apply refines_bind; [apply refines_frame; framed|intros c].
  destruct (has _ _); [apply refines_frame; framed|].
  destruct (desc p); [|apply refines_frame; framed].
  apply refines_head; [apply refines_frame; framed|]. intros r s x s' Hr H.
  apply bind_inv in H as (y & s1 & H1 & H). injection H as _ <-.
  eapply fifo_result_queued; [|exact Hr]. intros Hv. by eapply write_fifo_from.
Qed.

Lemma read_fifo_queued e r s x s' :
  r ∈ pending s -> read_fifo hw use_dma complete e r s = Some (x, s') -> lsteps (view s) (view s').
Proof. intros Hr H. eapply fifo_result_queued; [|exact Hr]. intros Hv. by eapply read_fifo_from. Qed.

Lemma refines_out_loop n e : refines (out_loop hw use_dma complete n e).
Proof.
  induction n as [|n IH]; cbn [out_loop]; [refined|].
  apply refines_bind; [apply refines_frame; framed|intros p].
  apply refines_bind; [apply refines_frame; framed|intros c].
  destruct (has c (Z.lor _ _)); [|apply refines_frame; framed].
  destruct (has c _); [apply refines_bind; [apply refines_frame; framed|intros _; exact IH]|].
  apply refines_head; [apply refines_frame; framed|]. intros r s x s' Hr H.
  apply bind_inv in H as (y & s1 & H1 & H). etransitivity; [by eapply read_fifo_queued|by eapply IH].
Qed.
Hint Resolve refines_in_epn refines_out_loop refines_nuke : refines.

Lemma refines_out_epn i : refines (jz4740_out_epn hw fuel use_dma complete i).
Proof.
  unfold jz4740_out_epn. apply refines_bind; [apply refines_frame; framed|intros p].
  apply refines_bind; [apply refines_frame; framed|intros _].
  destruct (desc p); [|apply refines_frame; framed].
  destruct use_dma eqn:Hd; [|rewrite <- Hd; auto with refines].
  apply refines_head; [apply refines_frame; framed|]. intros r s y s' Hr H.
  apply bind_inv in H as (z & s1 & H1 & H). injection H as _ <-. rewrite <- Hd in H1.
  by eapply read_fifo_queued.
Qed.

Lemma write_fifo_ep0_queued e r s x s' :
  r ∈ pending s -> write_fifo_ep0 hw complete e r s = Some (x, s') -> lsteps (view s) (view s').
Proof.
  intros Hr H. unfold write_fifo_ep0 in H.
  apply bind_inv in H as (p & s1 & H1 & H). apply frame_get_ep in H1. cbv zeta in H.
  apply bind_inv in H as (c & s2 & H2 & H). apply frame_write_packet in H2.
  apply bind_inv in H as (q & s3 & H3 & H). apply frame_get_req in H3.
  assert (Hs : view s3 = view s) by (by rewrite H3, H2, H1).
  destruct (_ || _); [|injection H as _ <-; by rewrite Hs].
  apply bind_inv in H as (? & s4 & H4 & H). injection H as _ <-. rewrite <- Hs.
  eapply done_steps; [|exact H4]. by rewrite (pending_view s s3).
Qed.

Lemma read_fifo_ep0_queued e r s x s' :
  r ∈ pending s -> read_fifo_ep0 hw complete e r s = Some (x, s') -> lsteps (view s) (view s').
Proof.
  intros Hr H. unfold read_fifo_ep0 in H.
  apply bind_inv in H as (p & s1 & H1 & H). apply frame_get_ep in H1.
  apply bind_inv in H as (q & s2 & H2 & H). apply frame_get_req in H2.
  apply bind_inv in H as (c & s3 & H3 & H). apply frame_usb_readb in H3.
  destruct (negb _); [injection H as _ <-; by rewrite H3, H2, H1|]. cbv zeta in H.
  apply bind_inv in H as (n & s4 & H4 & H). apply frame_usb_readw in H4.
  apply bind_inv in H as (y & s5 & H5 & H). apply frame_read_ep0_loop in H5.
  apply bind_inv in H as (? & s6 & H6 & H). apply frame_put_req in H6.
  assert (Hs : view s6 = view s) by (by rewrite H6, H5, H4, H3, H2, H1).
  destruct (_ || _); [|injection H as _ <-; by rewrite Hs].
  apply bind_inv in H as (? & s7 & H7 & H). injection H as _ <-. rewrite <- Hs.
  eapply done_steps; [|exact H7]. by rewrite (pending_view s s6).
Qed.

Lemma refines_ep0_out : refines (jz4740_ep0_out hw complete).
Proof.
  apply refines_head; [apply refines_frame; framed|]. intros r s x s' Hr H.
  apply bind_inv in H as (q & s1 & H1 & H). apply frame_get_req in H1.
  destruct (_ =? 0); [rewrite <- H1; revert H; apply refines_frame; framed|].
  apply bind_inv in H as (c & s2 & H2 & H). rewrite <- H1.
  etransitivity; [eapply read_fifo_ep0_queued; [|exact H2]; by rewrite (pending_view s s1)|].
  revert H. apply refines_frame. framed.
Qed.

Lemma refines_ep0_in : refines (jz4740_ep0_in hw complete).
Proof.
  apply refines_head; [apply refines_frame; framed|]. intros r s x s' Hr H.
  apply bind_inv in H as (q & s1 & H1 & H). apply frame_get_req in H1.
  destruct (_ =? 0); [rewrite <- H1; revert H; apply refines_frame; framed|]. cbv zeta in H.
  apply bind_inv in H as (c & s2 & H2 & H). rewrite <- H1.
  etransitivity; [eapply write_fifo_ep0_queued; [|exact H2]; by rewrite (pending_view s s1)|].
  revert H. apply refines_frame. framed.
Qed.
Hint Resolve refines_out_epn refines_ep0_out refines_ep0_in : refines.

Lemma refines_ep0_kick e : refines (jz4740_ep0_kick hw complete e).
Proof. unfold jz4740_ep0_kick. refined. Qed.
Hint Resolve refines_ep0_kick : refines.

(** The ledger with [r] taken over but not queued yet. *)
Definition taken (r : nat) (v : ledger) : ledger := Ledger (r :: acc v) (com v) (queues v) (bus v).

Lemma insert_as_alter {A} (l : list A) (f : A -> A) i x : l !! i = Some x -> <[i := f x]> l = alter f i l.
Proof. revert i. induction l as [|y l IH]; intros [|i] H; cbn in *; simplify_eq; [done|]. f_equal. by apply IH. Qed.

Lemma list_add_tail_view r e s x s' :
  list_add_tail r e s = Some (x, s') ->
  (e < length (queues (view s)))%nat /\
  view s' = Ledger (acc (view s)) (com (view s)) (alter (fun q => q ++ [r]) e (queues (view s))) (bus (view s)).
Proof.
  unfold list_add_tail, upd_ep, bind, get_ep. destruct (ep s !! e) as [p|] eqn:Hp; [|done].
  intros [= _ <-]. split.
  - cbn. rewrite length_map. by eapply lookup_lt_Some.
  - unfold view. cbn. f_equal. rewrite list_fmap_insert. cbn.
    apply (insert_as_alter (map queue (ep s)) (fun q => q ++ [r])). by rewrite list_lookup_fmap, Hp.
Qed.

Lemma add_taken v r e s x s' :
  bus v <> USB_SPEED_UNKNOWN -> r ∉ concat (queues v) -> view s = taken r v ->
  list_add_tail r e s = Some (x, s') -> lsteps v (view s').
Proof.
  intros Hb Hr Hs H. apply list_add_tail_view in H as [He ->]. rewrite Hs in He |- *.
  apply rtc_once. by apply (l_accept e r v).
Qed.

Lemma ticked_taken v r :
  bus v <> USB_SPEED_UNKNOWN -> r ∉ concat (queues v) -> lsteps v (ticked r (taken r v)).
Proof.
  intros Hb Hr. apply rtc_once. unfold ticked, taken. cbn.
  assert (map (remove r) (queues v) = queues v) as ->; [|by apply l_at_once].
  clear Hb. induction (queues v) as [|q qs IH]; [done|]. cbn in *.
  apply not_elem_of_app in Hr as [H1 H2]. by rewrite remove_absent, IH.
Qed.

Lemma kickstart_from v e r p s b s' :
  bus v <> USB_SPEED_UNKNOWN -> r ∉ concat (queues v) -> view s = taken r v ->
  kickstart hw use_dma complete e r p s = Some (b, s') ->
  (b = true /\ view s' = view s) \/ (b = false /\ lsteps v (view s')).
Proof.
  intros Hb Hr Hs H. pose proof (ticked_taken v r Hb Hr) as Ht. rewrite <- Hs in Ht. unfold kickstart in H.
  destruct (_ && _); [|injection H as <- <-; by left].
  destruct (ep_index p =? 0).
  { apply bind_inv in H as (? & s1 & H1 & H). apply (add_taken v) in H1; try done.
    apply bind_inv in H as (? & s2 & H2 & H). injection H as <- <-. right. split; [done|].
    etransitivity; [exact H1|]. by apply refines_ep0_kick in H2. }
  destruct use_dma eqn:Hd.
  { apply bind_inv in H as (? & s1 & H1 & H). injection H as <- <-. left. split; [done|].
    by apply frame_kick_dma in H1. }
  rewrite <- Hd in H.
  apply bind_inv in H as (? & s1 & H1 & H). apply frame_usb_set_index in H1.
  apply bind_inv in H as (c & s2 & H2 & H). apply frame_usb_readb in H2.
  apply bind_inv in H as (? & s3 & H3 & H). apply frame_pio_irq_enable in H3.
  assert (Hv : view s3 = view s) by (by rewrite H3, H2, H1). rewrite <- Hv in Ht.
  assert (Hfin : forall rc s4, fifo_result v rc s3 s4 -> Some (negb (rc =? 1), s4) = Some (b, s') ->
    (b = true /\ view s' = view s) \/ (b = false /\ lsteps v (view s'))).
  { intros rc s4 [(Hn & _ & Hv4)|[Hl H1']] [= <- <-].
    - left. rewrite Hv4, Hv. split; [|done]. apply negb_true_iff. by apply Z.eqb_neq.
    - right. by rewrite (H1' Hd). }
  destruct (ep_is_in p).
  - destruct (negb (has c _)); [|injection H as <- <-; by left].
    apply bind_inv in H as (rc & s4 & H4 & H). apply (Hfin rc s4); [|exact H].
    by eapply write_fifo_from.
  - destruct (has c _); [|injection H as <- <-; by left].
    apply bind_inv in H as (rc & s4 & H4 & H). apply (Hfin rc s4); [|exact H].
    by eapply read_fifo_from.
Qed.

Lemma refines_queue o q : refines (jz4740_queue hw use_dma complete o q).
Proof.
  unfold jz4740_queue. destruct q as [r|]; [|refined]. intros s x s' H.
  apply bind_inv in H as (q & s1 & H1 & H). unfold get_req in H1.
  destruct (reqs s !! r); [|done]. injection H1 as -> <-.
  apply bind_inv in H as (pend & s1 & H1 & H). injection H1 as <- <-.
  destruct (_ || bool_decide (r ∈ pending s)) eqn:Hchk; [injection H as _ <-; apply rtc_refl|].
  apply orb_false_iff in Hchk as [_ Hr]. apply bool_decide_eq_false in Hr.
  destruct o as [e|]; [|injection H as _ <-; apply rtc_refl].
  apply bind_inv in H as (p & s1 & H1 & H). unfold get_ep in H1.
  destruct (ep s !! e) as [p'|]; [|done]. injection H1 as -> <-.
  destruct (_ && _); [injection H as _ <-; apply rtc_refl|].
  apply bind_inv in H as (dr & s1 & H1 & H). injection H1 as <- <-.
  apply bind_inv in H as (sp & s1 & H1 & H). injection H1 as <- <-.
  destruct (negb (driver s) || (speed s =? USB_SPEED_UNKNOWN)) eqn:Hup; [injection H as _ <-; apply rtc_refl|].
  apply orb_false_iff in Hup as [_ Hup]. apply Z.eqb_neq in Hup.
  apply bind_inv in H as (? & s1 & H1 & H). apply frame_put_req in H1.
  apply bind_inv in H as (? & s2 & H2 & H). injection H2 as _ <-.
  apply bind_inv in H as (add & s3 & H3 & H).
  assert (Hv : view (set_log (Accept r :: log s1) s1) = taken r (view s)) by (rewrite <- H1; reflexivity).
  apply bind_inv in H as (? & s4 & H4 & H). injection H as _ <-.
  apply (kickstart_from (view s)) in H3 as [[-> H3]|[-> H3]]; try done.
  - eapply add_taken; [done|exact Hr|by rewrite H3|exact H4].
  - by injection H4 as _ <-.
Qed.

Lemma refines_dequeue o r : refines (jz4740_dequeue hw complete o r).
Proof.
  unfold jz4740_dequeue. destruct o as [e|]; [|refined]. intros s x s' H.
  apply bind_inv in H as (p & s1 & H1 & H). unfold get_ep in H1.
  destruct (ep s !! e) as [p'|] eqn:Hp; [|done]. injection H1 as -> <-.
  destruct (is_ep0 p); [injection H as _ <-; apply rtc_refl|].
  case_bool_decide as Hr; [|injection H as _ <-; apply rtc_refl].
  apply bind_inv in H as (? & s2 & H2 & H). injection H as _ <-. eapply done_steps; [|exact H2].
  unfold pending. apply list_elem_of_In, in_concat. exists (queue p). split; [|by apply list_elem_of_In].
  apply in_map, list_elem_of_In. by eapply list_elem_of_lookup_2.
Qed.
Hint Resolve refines_queue refines_dequeue : refines.

Lemma refines_ep_disable o : refines (jz4740_ep_disable hw fuel complete o).
Proof. unfold jz4740_ep_disable. refined. Qed.
Hint Resolve refines_ep_disable : refines.

Lemma refines_run_calls cs : refines (run_calls hw fuel use_dma complete cs).
Proof.
  induction cs as [|c cs IH]; cbn [run_calls]; [refined|].
  apply refines_bind; [destruct c; cbn [perform]; refined|done].
Qed.

End Driver.

(** ** The whole device *)

(** Bus reset and shutdown change the last field of the ledger only. *)
Inductive dstep : ledger -> ledger -> Prop :=
  | d_step v v' : lstep v v' -> dstep v v'
  | d_bus v b : dstep v (Ledger (acc v) (com v) (queues v) b).

Definition device {A} (m : M A) : Prop :=
  forall s x s', m s = Some (x, s') -> rtc dstep (view s) (view s').

Lemma lsteps_device v v' : lsteps v v' -> rtc dstep v v'.
Proof. induction 1; [done|]. eapply rtc_l; [by constructor|done]. Qed.
Lemma device_refines {A} (m : M A) : refines m -> device m.
Proof. intros H s x s' Hm. by apply lsteps_device, (H _ _ _ Hm). Qed.
Lemma device_bind {A C} (m : M A) (k : A -> M C) : device m -> (forall x, device (k x)) -> device (bind m k).
Proof.
  intros Hm Hk s y s' H. apply bind_inv in H as (x & s1 & H1 & H).
  etransitivity; [by apply (Hm _ _ _ H1)|by apply (Hk _ _ _ _ H)].
Qed.
Lemma device_when b m : device m -> device (when b m).
Proof. destruct b; [done|]. intros _. apply device_refines, refines_frame, frame_ret. Qed.
Lemma device_speed b : device (modify (set_speed b)).
Proof. intros s x s' [= _ <-]. apply rtc_once, (d_bus (view s) b). Qed.

Lemma dsteps_balanced v v' : rtc dstep v v' -> balanced v -> balanced v'.
Proof. induction 1 as [|v v1 v' [w w' H|w b] _ IH]; [done|eauto using lstep_balanced|]. intros H. by apply IH. Qed.
Lemma dsteps_length v v' : rtc dstep v v' -> length (queues v') = length (queues v).
Proof.
  induction 1 as [|v v1 v' [w w' H|w b] _ IH]; [done| |done]. rewrite IH.
  by apply lsteps_length, rtc_once.
Qed.

Ltac device_split :=
  repeat (intros; cbv zeta;
    first
      [ apply device_refines; solve [refined]
      | apply device_speed
      | lazymatch goal with
        | |- device (bind _ _) => apply device_bind
        | |- device (if ?b then _ else _) => destruct b
        | |- device (when _ _) => apply device_when
        end ]).

Section Device.
Context (hw : list event -> Z -> Z) (stack : list event -> nat -> Z) (fuel : nat) (use_dma udc_debug : bool)
  (g : gadget).

Lemma refines_complete_n n e r : refines (complete_n hw fuel use_dma g n e r).
Proof.
  revert e r. induction n as [|n IH]; intros e r; cbn [complete_n]; [by intros s x s'|].
  intros s x s' H. by eapply (refines_run_calls hw fuel use_dma _ IH).
Qed.
Lemma refines_complete e r : refines (complete hw fuel use_dma g e r).
Proof. apply refines_complete_n. Qed.
Lemma refines_gadget_runs cs : refines (gadget_runs hw fuel use_dma g cs).
Proof. apply refines_run_calls, refines_complete. Qed.
#[local] Hint Resolve refines_gadget_runs frame_usb_setb frame_usb_clearb frame_usb_set_index frame_set_halt
  frame_fifo_read frame_usb_readb frame_usb_readw frame_usb_readl frame_ep0_in_zlp frame_usb_writeb
  frame_usb_writew frame_usb_writel frame_usb_setw frame_usb_setl frame_usb_clearl frame_flush : frame refines.
#[local] Hint Extern 1 (refines (nuke _ _ _ _ _)) => apply refines_nuke, refines_complete : refines.
#[local] Hint Extern 1 (refines (jz4740_ep0_in _ _)) => apply refines_ep0_in, refines_complete : refines.
#[local] Hint Extern 1 (refines (jz4740_ep0_out _ _)) => apply refines_ep0_out, refines_complete : refines.
#[local] Hint Extern 1 (refines (jz4740_in_epn _ _ _ _)) => apply refines_in_epn, refines_complete : refines.
#[local] Hint Extern 1 (refines (jz4740_out_epn _ _ _ _ _)) => apply refines_out_epn, refines_complete : refines.

Lemma frame_set_address a : frame (udc_set_address a).
Proof. unfold udc_set_address. framed. Qed.
#[local] Hint Resolve frame_set_address : frame.
Lemma frame_setup_own c : frame (setup_own hw c).
Proof. unfold setup_own. framed. Qed.
#[local] Hint Resolve frame_setup_own : frame.

Lemma refines_ep0_setup : refines (jz4740_ep0_setup hw stack fuel use_dma g).
Proof. unfold jz4740_ep0_setup. refined. Qed.
#[local] Hint Resolve refines_ep0_setup : refines.
Lemma refines_handle_ep0 : refines (jz4740_handle_ep0 hw stack fuel use_dma g).
Proof. unfold jz4740_handle_ep0. refined. Qed.
#[local] Hint Resolve refines_handle_ep0 : refines.
Lemma refines_endpoint_irqs i o d : refines (endpoint_irqs hw stack fuel use_dma g i o d).
Proof. unfold endpoint_irqs. refined. Qed.
#[local] Hint Resolve refines_endpoint_irqs : refines.

Lemma device_udc_disable : device (udc_disable hw).
Proof. unfold udc_disable. device_split. Qed.
Lemma device_udc_enable : device (udc_enable hw).
Proof. unfold udc_enable, for_endpoints. device_split. Qed.
Lemma device_irq : device (jz4740_udc_irq hw stack fuel use_dma udc_debug g).
Proof. unfold jz4740_udc_irq, jz4740_reset_irq. device_split; apply device_udc_disable. Qed.
Lemma device_register b : device (usb_gadget_register_driver hw fuel use_dma g b).
Proof. unfold usb_gadget_register_driver. device_split. apply device_udc_enable. Qed.
Lemma device_remove : device (jz4740_udc_remove hw).
Proof. unfold jz4740_udc_remove. device_split. apply device_udc_disable. Qed.

(** [nuke] returns with an empty queue. *)
Definition empty_at (e : nat) (v : ledger) : Prop := forall q, queues v !! e = Some q -> q = [].

Lemma nuke_loop_empty n e st s x s' :
  nuke_loop hw (complete hw fuel use_dma g) n e st s = Some (x, s') -> empty_at e (view s').
Proof.
  revert s. induction n as [|n IH]; intros s H; cbn [nuke_loop] in H;
    apply bind_inv in H as (p & s1 & H1 & H); unfold get_ep in H1;
    destruct (ep s !! e) as [p'|] eqn:Hp; try done; injection H1 as -> ->;
    destruct (queue p) as [|r q] eqn:Hq; try done.
  1, 2: injection H as _ <-; intros q; cbn; rewrite list_lookup_fmap, Hp; cbn; intros [= <-]; done.
  apply bind_inv in H as (? & s2 & _ & H). by apply IH in H.
Qed.

Lemma nuke_quiet E e st s x s' :
  nuke hw fuel (complete hw fuel use_dma g) e st s = Some (x, s') ->
  quiet E (view s) -> quiet (E ++ [e]) (view s').
Proof.
  intros H HE. pose proof H as Hr. apply refines_nuke in Hr; [|apply refines_complete].
  apply (lsteps_quiet E) in Hr as [Hb HE']; [|done]. split; [done|]. apply Forall_app. split; [done|].
  constructor; [|done]. unfold nuke in H.
  apply bind_inv in H as (? & s1 & _ & H). apply bind_inv in H as (? & s2 & H2 & H).
  apply nuke_loop_empty in H2. assert (Hv : view s' = view s2).
  { revert H. apply frame_bind; [apply frame_get_ep|]. intros p.
    destruct (desc p); [apply frame_pio_irq_disable|apply frame_ret]. }
  by rewrite Hv.
Qed.

(** One round of the loop of [stop_activity]. *)
Lemma stop_round E e s x s' :
  (upd_ep e (set_stopped true) ;;; p <- get_ep e ;; usb_set_index (ep_index p) ;;;
   nuke hw fuel (complete hw fuel use_dma g) e (- ESHUTDOWN)) s = Some (x, s') ->
  quiet E (view s) -> lsteps (view s) (view s') /\ quiet (E ++ [e]) (view s').
Proof.
  intros H HE. apply bind_inv in H as (? & s1 & H1 & H). apply frame_upd_ep in H1; [|done].
  apply bind_inv in H as (p & s2 & H2 & H). apply frame_get_ep in H2.
  apply bind_inv in H as (? & s3 & H3 & H). apply frame_usb_set_index in H3.
  assert (Hv : view s3 = view s) by (by rewrite H3, H2, H1). rewrite <- Hv in HE |- *.
  split; [by apply refines_nuke in H; [|apply refines_complete]|by eapply nuke_quiet].
Qed.

Lemma reinit_quiet s x s' :
  udc_reinit s = Some (x, s') -> quiet [0; 1; 2; 3]%nat (view s) -> length (queues (view s)) = 4%nat ->
  view s' = view s.
Proof.
  intros [= _ <-] [_ HE] Hlen. unfold view. cbn. f_equal.
  repeat (apply Forall_cons in HE as [? HE]). unfold empty_at in *. cbn in *.
  rewrite length_map in Hlen. destruct (ep s) as [|a [|b [|c [|d [|? ?]]]]]; try done. cbn in *.
  repeat f_equal; symmetry; eauto.
Qed.

Lemma device_stop_activity b s x s' :
  stop_activity hw fuel use_dma g b s = Some (x, s') -> length (queues (view s)) = 4%nat ->
  rtc dstep (view s) (view s') /\ quiet [0; 1; 2; 3]%nat (view s').
Proof.
  intros H Hlen. unfold stop_activity, for_endpoints in H.
  apply bind_inv in H as (sp & s1 & H1 & H). injection H1 as <- <-. cbv zeta in H.
  apply bind_inv in H as (? & s1 & H1 & H). pose proof H1 as Hd1. apply device_speed in Hd1.
  assert (Q0 : quiet [] (view s1)) by (injection H1 as _ <-; by split).
  apply bind_inv in H as (? & s5 & Hf & H).
  apply bind_inv in Hf as (? & s2 & H2 & Hf). apply (stop_round []) in H2 as [L2 Q2]; [|done].
  apply bind_inv in Hf as (? & s3 & H3 & Hf). apply (stop_round [0%nat]) in H3 as [L3 Q3]; [|done].
  apply bind_inv in Hf as (? & s4 & H4 & Hf). apply (stop_round [0; 1]%nat) in H4 as [L4 Q4]; [|done].
  apply (stop_round [0; 1; 2]%nat) in Hf as [L5 Q5]; [|done].
  apply bind_inv in H as (? & s6 & H6 & H).
  assert (L6 : lsteps (view s5) (view s6)).
  { revert H6. apply refines_when. apply refines_bind; [apply refines_frame; framed|intros _].
    apply refines_bind; [apply refines_frame; framed|intros cs]. apply refines_gadget_runs. }
  pose proof (lsteps_quiet _ _ _ L6 Q5) as Q6.
  assert (D : rtc dstep (view s) (view s6)).
  { etransitivity; [exact Hd1|]. apply lsteps_device. repeat (etransitivity; [eassumption|]). done. }
  apply reinit_quiet in H as ->; [done|done|]. by rewrite (dsteps_length _ _ D).
Qed.

Lemma device_unregister b s x s' :
  usb_gadget_unregister_driver hw fuel use_dma g b s = Some (x, s') -> length (queues (view s)) = 4%nat ->
  rtc dstep (view s) (view s').
Proof.
  intros H Hlen. unfold usb_gadget_unregister_driver in H.
  apply bind_inv in H as (ctl & s1 & H1 & H). injection H1 as <- <-.
  apply bind_inv in H as (dr & s1 & H1 & H). injection H1 as <- <-.
  destruct (negb _); [by injection H as _ <-|]. destruct (_ || _); [by injection H as _ <-|].
  apply bind_inv in H as (? & s1 & H1 & H). injection H1 as _ <-.
  apply bind_inv in H as (? & s2 & H2 & H). apply device_stop_activity in H2 as [D2 _]; [|done].
  etransitivity; [exact D2|]. refine ((_ : device _) s2 _ _ H). device_split. apply device_udc_disable.
Qed.

(** ** Runs *)

(** The gadget driver at work, an interrupt, registration and removal. *)
Inductive op :=
  | OCalls (cs : list call)
  | OIrq
  | ORegister (valid : bool)
  | OUnregister (same : bool)
  | ORemove.

Definition exec (o : op) : M unit :=
  match o with
  | OCalls cs => gadget_runs hw fuel use_dma g cs
  | OIrq => jz4740_udc_irq hw stack fuel use_dma udc_debug g
  | ORegister valid => usb_gadget_register_driver hw fuel use_dma g valid ;;; ret tt
  | OUnregister same => usb_gadget_unregister_driver hw fuel use_dma g same ;;; ret tt
  | ORemove => jz4740_udc_remove hw ;;; ret tt
  end.

Inductive reachable : jz4740_udc -> Prop :=
  | r_probe rc irq x s : jz4740_udc_probe hw rc irq udc_dev = Some (x, s) -> reachable s
  | r_exec o s x s' : reachable s -> exec o s = Some (x, s') -> reachable s'.

(** Several of them. *)
Fixpoint run (os : list op) : M unit :=
  match os with
  | [] => ret tt
  | o :: os => exec o ;;; run os
  end.

Lemma run_reachable os s x s' : reachable s -> run os s = Some (x, s') -> reachable s'.
Proof.
  revert s. induction os as [|o os IH]; intros s Hs H; cbn [run] in H; [by injection H as _ <-|].
  apply bind_inv in H as (? & s1 & H1 & H). eapply IH; [|exact H]. by eapply r_exec.
Qed.

Lemma udc_disable_view s x s' :
  udc_disable hw s = Some (x, s') ->
  view s' = Ledger (acc (view s)) (com (view s)) (queues (view s)) USB_SPEED_UNKNOWN.
Proof.
  intros H. unfold udc_disable in H.
  apply bind_inv in H as (? & s1 & H1 & H). apply frame_set_address in H1.
  apply bind_inv in H as (? & s2 & H2 & H). apply frame_usb_writew in H2.
  apply bind_inv in H as (? & s3 & H3 & H). apply frame_usb_writew in H3.
  apply bind_inv in H as (? & s4 & H4 & H). apply frame_usb_writeb in H4.
  apply bind_inv in H as (? & s5 & H5 & H). apply frame_usb_writel in H5.
  apply bind_inv in H as (? & s6 & H6 & H). apply frame_usb_writel in H6.
  apply bind_inv in H as (? & s7 & H7 & H). apply frame_usb_clearb in H7.
  apply bind_inv in H as (? & s8 & H8 & H). apply frame_usb_clearl in H8.
  apply bind_inv in H as (? & s9 & H9 & H). injection H9 as _ <-. injection H as _ <-.
  by rewrite <- H1, <- H2, <- H3, <- H4, <- H5, <- H6, <- H7, <- H8.
Qed.

Lemma probe_view rc irq x s :
  jz4740_udc_probe hw rc irq udc_dev = Some (x, s) ->
  acc (view s) = [] /\ com (view s) = [] /\ queues (view s) = [[]; []; []; []].
Proof.
  unfold jz4740_udc_probe. intros H. apply bind_inv in H as (? & s1 & H1 & H). injection H1 as _ <-.
  destruct (rc <? 0); [by injection H as _ <-|].
  apply bind_inv in H as (? & s2 & H2 & H). apply udc_disable_view in H2.
  apply bind_inv in H as (? & s3 & H3 & H). injection H as _ <-.
  apply reinit_quiet in H3 as ->; rewrite H2; [done| |done].
  split; [done|]. repeat constructor; by intros q [= <-].
Qed.

Lemma reachable_inv s : reachable s -> balanced (view s) /\ length (queues (view s)) = 4%nat.
Proof.
  induction 1 as [rc irq x s H|o s x s' _ [IHb IHl] H].
  { apply probe_view in H as (Ha & Hc & Hq). unfold balanced. rewrite Ha, Hc, Hq.
    split; [split; [done|constructor]|done]. }
  assert (D : rtc dstep (view s) (view s')).
  { destruct o; cbn [exec] in H.
    - apply refines_gadget_runs in H. by apply lsteps_device.
    - by apply device_irq in H.
    - apply bind_inv in H as (? & s1 & H1 & H). injection H as _ <-. by apply device_register in H1.
    - apply bind_inv in H as (? & s1 & H1 & H). injection H as _ <-. by apply device_unregister in H1.
    - apply bind_inv in H as (? & s1 & H1 & H). injection H as _ <-. by apply device_remove in H1. }
  split; [by eapply dsteps_balanced|by rewrite (dsteps_length _ _ D)].
Qed.

(** C37: no request is lost and none is given back twice: whatever the hardware
    registers read, whatever the gadget driver's functions call, and in whatever
    order calls, interrupts, registration and removal come, the requests that
    the driver accepted are, counted with multiplicity, those it completed and
    those that are in a queue, and no request is in two queues or twice in one. *)
Theorem requests_conserved s :
  reachable s -> accepted (log s) ≡ₚ completed (log s) ++ pending s /\ NoDup (pending s).
Proof. intros H. by apply reachable_inv in H as [[Hp Hn] _]. Qed.

End Device.

(** ** A concrete run *)

(** A controller that reports a reset at each interrupt and holds 0 otherwise. *)
Definition reset_hw (_ : list event) (port : Z) : Z := if port =? USB_REG_INTRUSB then USB_INTR_RESET else 0.

Definition bulk_out : usb_endpoint_descriptor := Descriptor USB_DT_ENDPOINT 1 USB_ENDPOINT_XFER_BULK 512.
Definition four_bytes : usb_request := Request (Some [0; 0; 0; 0]) 4096 4 false true 0 0.

(** A gadget driver that queues each request again when it is given back. *)
Definition echo : gadget :=
  Gadget (fun e r _ => [Queue (Some e) (Some r)]) (fun _ _ => ([], 0))
    (fun _ => ([Alloc true; Alloc true; Fill 0 four_bytes; Fill 1 four_bytes], 0))
    (fun _ => []) (fun _ => []).

Definition echo_ops : list op :=
  [ORegister true; OIrq;
   OCalls [Enable (Some 1%nat) (Some bulk_out); Queue (Some 1%nat) (Some 0%nat); Queue (Some 1%nat) (Some 1%nat);
           Dequeue (Some 1%nat) 0]].

Definition started : jz4740_udc :=
  match (jz4740_udc_probe reset_hw 0 0 ;;; run reset_hw (fun _ _ => 0) 8 true false echo echo_ops) udc_dev with
  | Some (_, s) => s
  | None => udc_dev
  end.

Lemma started_reachable : reachable reset_hw (fun _ _ => 0) 8 true false echo started.
Proof.
  assert (H : exists s0, jz4740_udc_probe reset_hw 0 0 udc_dev = Some (0, s0) /\
    run reset_hw (fun _ _ => 0) 8 true false echo echo_ops s0 = Some (tt, started)).
  { eexists. split; [vm_compute; reflexivity|]. vm_compute. reflexivity. }
  destruct H as (s0 & H0 & H1). eapply run_reachable; [|exact H1]. by eapply r_probe.
Qed.

(** Request 0 was taken back and queued again behind request 1. *)
Lemma requests_conserved_witness :
  completed (log started) = [0%nat] /\ pending started = [1; 0]%nat /\
  accepted (log started) ≡ₚ completed (log started) ++ pending started.
Proof.
  split; [vm_compute; reflexivity|]. split; [vm_compute; reflexivity|].
  exact (proj1 (requests_conserved reset_hw (fun _ _ => 0) 8 true false echo started started_reachable)).
Defined.
