(* ===== verification/UdcShutdown.v ===== *)
(** * Shutdown of the USB device controller driver

    When the gadget driver is unregistered, each request that is still queued is
    given back, once, in order, marked as shut down, and the call returns even if
    the gadget driver queues its requests again from within each completion. *)

From S2P Require Import Prelude UdcDriver UdcRequests.

(** Completions in the log: endpoint, request, status. *)
Definition given_back (l : list event) : list (nat * nat * Z) :=
  omap (fun x => match x with Complete e r st _ => Some (e, r, st) | _ => None end) l.

Definition final_status (st : Z) (q : usb_request) : Z := if status q =? - EINPROGRESS then st else status q.

(** What shutdown gives back for a queue. *)
Definition shut_down (st : Z) (m : gmap nat usb_request) (e : nat) (q : list nat) : list (nat * nat * Z) :=
  map (fun r => (e, r, match m !! r with Some x => final_status st x | None => 0 end)) q.

(** Only the log has grown, without a completion. *)
Definition logged (s s' : jz4740_udc) : Prop := exists l, s' = set_log (l ++ log s) s /\ given_back l = [].

(** [m] succeeds and only adds to the log. *)
Definition logs {A} (m : M A) (s : jz4740_udc) : Prop := exists x s', m s = Some (x, s') /\ logged s s'.

Lemma logged_refl s : logged s s.
Proof. exists []. by destruct s. Qed.

Lemma logs_ret {A} (x : A) s : logs (ret x) s.
Proof. exists x, s. split; [done|apply logged_refl]. Qed.

Lemma logs_bind {A C} (m : M A) (k : A -> M C) s :
  logs m s -> (forall x s', logged s s' -> logs (k x) s') -> logs (bind m k) s.
Proof.
  intros (x & s1 & H1 & l1 & -> & Hl1) Hk.
  destruct (Hk x (set_log (l1 ++ log s) s)) as (y & s2 & H2 & l2 & -> & Hl2); [by exists l1|].
  exists y. eexists. unfold bind. rewrite H1. split; [exact H2|].
  exists (l2 ++ l1). split; [by rewrite <- app_assoc|]. unfold given_back in *. by rewrite omap_app, Hl1, Hl2.
Qed.

Lemma logs_emit x s : match x with Complete _ _ _ _ => False | _ => True end -> logs (emit x) s.
Proof. intros H. eexists _, _. split; [reflexivity|]. exists [x]. split; [done|]. by destruct x. Qed.

Section Shutdown.
Context (hw : list event -> Z -> Z) (stack : list event -> nat -> Z).

Lemma logs_set w port v s : logs (usb_set hw w port v) s.
Proof. eexists _, _. split; [reflexivity|]. by eexists [_; _]. Qed.
Lemma logs_clear w port v s : logs (usb_clear hw w port v) s.
Proof. eexists _, _. split; [reflexivity|]. by eexists [_; _]. Qed.
Lemma logs_write w port v s : logs (usb_write w port v) s.
Proof. by apply logs_emit. Qed.

Lemma logs_get_ep {A} e p (k : jz4740_ep -> M A) s : ep s !! e = Some p -> logs (k p) s -> logs (bind (get_ep e) k) s.
Proof. intros Hp (x & s' & H & Hl). exists x, s'. unfold bind, get_ep. by rewrite Hp. Qed.

Lemma logs_flush e p s : ep s !! e = Some p -> logs (flush hw e) s.
Proof. intros Hp. apply (logs_get_ep e p); [done|]. destruct (ep_type p); first [apply logs_ret|apply logs_set]. Qed.

Lemma logs_pio_irq_disable e p s : ep s !! e = Some p -> logs (pio_irq_disable hw e) s.
Proof.
  intros Hp. apply (logs_get_ep e p); [done|]. unfold when.
  repeat match goal with |- logs (if ?b then _ else _) _ => destruct b end;
    first [apply logs_clear|apply logs_ret].
Qed.

Lemma logged_ep s s' : logged s s' -> ep s' = ep s /\ reqs s' = reqs s /\ speed s' = speed s /\
  driver s' = driver s /\ the_controller s' = the_controller s /\ given_back (log s') = given_back (log s).
Proof.
  intros (l & -> & Hl). split_and!; try done. cbn. unfold given_back in *. by rewrite omap_app, Hl.
Qed.

(** ** One request *)

Context (complete : nat -> nat -> M unit).
Hypothesis complete_down : forall e r s,
  speed s = USB_SPEED_UNKNOWN -> length (ep s) = 4%nat -> (e < 4)%nat -> is_Some (reqs s !! r) ->
  complete e r s = Some (tt, s).

Lemma bind_ok {A C} (m : M A) (k : A -> M C) s x s1 : m s = Some (x, s1) -> bind m k s = k x s1.
Proof. intros H. unfold bind. by rewrite H. Qed.

Lemma usb_read_ok w port s :
  usb_read hw w port s =
  Some (trunc w (hw (log s) port), set_log (Rd w port (trunc w (hw (log s) port)) :: log s) s).
Proof. reflexivity. Qed.

Lemma upd_ep_ok e p f s : ep s !! e = Some p -> upd_ep e f s = Some (tt, set_eps (<[e := f p]> (ep s)) s).
Proof. intros Hp. unfold upd_ep, bind, get_ep. by rewrite Hp. Qed.

Lemma map_queue_insert e f p (l : list jz4740_ep) :
  l !! e = Some p -> queue (f p) = queue p -> map queue (<[e := f p]> l) = map queue l.
Proof.
  intros Hp Hq. rewrite list_fmap_insert, Hq. apply list_insert_id. by rewrite list_lookup_fmap, Hp.
Qed.

Lemma done_down e r st p q s :
  speed s = USB_SPEED_UNKNOWN -> length (ep s) = 4%nat -> ep s !! e = Some p -> reqs s !! r = Some q ->
  exists s', done hw complete e r st s = Some (tt, s') /\ speed s' = speed s /\ driver s' = driver s /\
    map queue (ep s') = map (remove r) (map queue (ep s)) /\ length (ep s') = 4%nat /\
    reqs s' = <[r := set_status (final_status st q) q]> (reqs s) /\
    given_back (log s') = (e, r, final_status st q) :: given_back (log s).
Proof.
  intros Hs Hl Hp Hq. unfold done.
  assert (Hp1 : map (unlink r) (ep s) !! e = Some (unlink r p)) by (by rewrite list_lookup_fmap, Hp).
  rewrite (bind_ok _ _ s p s) by (unfold get_ep; by rewrite Hp).
  erewrite bind_ok by reflexivity.
  erewrite bind_ok by (unfold get_req; cbn [reqs set_eps]; by rewrite Hq). cbv zeta. fold (final_status st q).
  erewrite bind_ok by reflexivity.
  erewrite bind_ok by (apply (upd_ep_ok e (unlink r p)); exact Hp1). cbn [ep set_eps set_reqs].
  erewrite bind_ok by apply usb_read_ok. erewrite bind_ok by reflexivity.
  erewrite bind_ok by (apply complete_down; cbn;
    [exact Hs|by rewrite length_insert, length_map|rewrite <- Hl; by eapply lookup_lt_Some|by rewrite lookup_insert_eq]).
  erewrite bind_ok by reflexivity.
  rewrite (upd_ep_ok e (set_stopped true (unlink r p)))
    by (cbn; apply list_lookup_insert_eq, (lookup_lt_Some _ _ _ Hp1)).
  eexists. split; [reflexivity|]. cbn. split_and!; try done.
  - rewrite map_queue_insert; [|apply list_lookup_insert_eq, (lookup_lt_Some _ _ _ Hp1)|done].
    rewrite map_queue_insert by done. by rewrite !map_map.
  - by rewrite !length_insert, length_map.
Qed.

(** ** One queue *)

Lemma remove_at e r q (qs : list (list nat)) :
  NoDup (concat qs) -> qs !! e = Some (r :: q) -> map (remove r) qs = <[e := q]> qs.
Proof.
  revert e. induction qs as [|q0 qs IH]; intros e Hn He; [done|]. cbn in Hn.
  apply NoDup_app in Hn as (Hn0 & Hd & Hn). destruct e as [|e]; cbn in *.
  - injection He as ->. apply NoDup_cons in Hn0 as [Hr _]. f_equal.
    + unfold remove. rewrite filter_cons, decide_False by auto. by apply remove_absent.
    + assert (Hno : r ∉ concat qs) by (apply Hd; by left). clear -Hno.
      induction qs as [|q1 qs IH]; [done|]. cbn in *. apply not_elem_of_app in Hno as [H1 H2].
      by rewrite remove_absent, IH.
  - f_equal; [|by apply IH]. apply remove_absent. intros Hr. apply (Hd _ Hr).
    apply list_elem_of_In, in_concat. exists (r :: q). split; [|by left].
    apply list_elem_of_In. by eapply list_elem_of_lookup_2.
Qed.

(** A state during shutdown: the bus is down, the queues are [qs], the requests
    in them exist. *)
Record down (qs : list (list nat)) (s : jz4740_udc) : Prop := {
  dn_speed : speed s = USB_SPEED_UNKNOWN;
  dn_driver : driver s = false;
  dn_len : length (ep s) = 4%nat;
  dn_queues : map queue (ep s) = qs;
  dn_nodup : NoDup (concat qs);
  dn_reqs : forall r, r ∈ concat qs -> is_Some (reqs s !! r) }.

Lemma down_logged qs s s' : logged s s' -> down qs s -> down qs s'.
Proof.
  intros Hl [H1 H2 H3 H4 H5 H6]. apply logged_ep in Hl as (E1 & E2 & E3 & E4 & _).
  split; rewrite ?E1, ?E2, ?E3, ?E4; done.
Qed.

Lemma concat_insert_nil e q (qs : list (list nat)) :
  qs !! e = Some q -> concat qs ≡ₚ q ++ concat (<[e := []]> qs).
Proof.
  revert e. induction qs as [|q0 qs IH]; intros [|e] H; cbn in *; simplify_eq; [done|].
  rewrite (IH _ H) at 1. by rewrite !app_assoc, (Permutation_app_comm q0).
Qed.

(** Queue [e] is given back, in order; other requests keep their contents. *)
Definition emptied (e : nat) (q : list nat) (st : Z) (s s' : jz4740_udc) : Prop :=
  given_back (log s') = rev (shut_down st (reqs s) e q) ++ given_back (log s) /\
  (forall r, r ∉ q -> reqs s' !! r = reqs s !! r).

Lemma nuke_loop_down e st q qs s n :
  down qs s -> qs !! e = Some q -> (length q <= n)%nat ->
  exists s', nuke_loop hw complete n e st s = Some (tt, s') /\ down (<[e := []]> qs) s' /\
    emptied e q st s s'.
Proof.
  revert qs s n. induction q as [|r q IH]; intros qs s n D Hq Hn;
    destruct (dn_queues _ _ D); rewrite list_lookup_fmap in Hq;
    destruct (ep s !! e) as [p|] eqn:Hp; try done; injection Hq as Hq.
  - exists s. split; [|split].
    + destruct n; cbn [nuke_loop]; rewrite (bind_ok _ _ s p s) by (unfold get_ep; by rewrite Hp); by rewrite Hq.
    + rewrite list_insert_id; [done|]. by rewrite list_lookup_fmap, Hp, <- Hq.
    + by split.
  - destruct n as [|n]; [cbn in Hn; lia|]. cbn [nuke_loop].
    rewrite (bind_ok _ _ s p s) by (unfold get_ep; by rewrite Hp). rewrite Hq.
    assert (Hqe : map queue (ep s) !! e = Some (r :: q)) by (by rewrite list_lookup_fmap, Hp; cbn; rewrite Hq).
    assert (Hin : forall r', r' ∈ r :: q -> r' ∈ concat (map queue (ep s))).
    { intros r' Hr'. apply list_elem_of_In, in_concat. exists (r :: q).
      split; [apply list_elem_of_In; by eapply list_elem_of_lookup_2|by apply list_elem_of_In]. }
    destruct (dn_reqs _ _ D r) as (x & Hx); [apply Hin; by left|].
    destruct (done_down e r st p x s (dn_speed _ _ D) (dn_len _ _ D) Hp Hx)
      as (s1 & H1 & Hs1 & Hd1 & Hq1 & Hl1 & Hr1 & Hg1).
    rewrite (bind_ok _ _ _ _ _ H1). rewrite (remove_at e r q) in Hq1; [|apply D|exact Hqe].
    pose proof (concat_insert_nil e _ _ Hqe) as Hc.
    assert (Hlt : (e < length (map queue (ep s)))%nat) by (by eapply lookup_lt_Some).
    assert (Hc1 : concat (<[e := q]> (map queue (ep s))) ≡ₚ q ++ concat (<[e := []]> (map queue (ep s)))).
    { rewrite (concat_insert_nil e q) by (by apply list_lookup_insert_eq). by rewrite list_insert_insert_eq. }
    pose proof (dn_nodup _ _ D) as Hnd. rewrite Hc in Hnd. apply NoDup_cons in Hnd as [Hr Hnd].
    assert (D1 : down (<[e := q]> (map queue (ep s))) s1).
    { split; [by rewrite Hs1; apply D|by rewrite Hd1; apply D|done|done|by rewrite Hc1|].
      intros r' Hr'. rewrite Hr1. rewrite Hc1 in Hr'. rewrite lookup_insert_ne by (by intros ->).
      apply (dn_reqs _ _ D). rewrite Hc. by right. }
    destruct (IH _ s1 n D1) as (s2 & H2 & D2 & Hg2 & Hk2);
      [by apply list_lookup_insert_eq|cbn in Hn; lia|].
    exists s2. split; [exact H2|]. split; [by rewrite list_insert_insert_eq in D2|].
    assert (Hrq : r ∉ q) by (intros H; apply Hr, elem_of_app; by left).
    split.
    + rewrite Hg2, Hg1. cbn [shut_down map rev]. rewrite Hx, <- app_assoc. cbn [app]. do 2 f_equal.
      apply map_ext_in. intros r' Hr'. rewrite Hr1, lookup_insert_ne; [done|].
      intros ->. by apply Hrq, list_elem_of_In.
    + intros r' Hr'. apply not_elem_of_cons in Hr' as [H3 H4].
      by rewrite Hk2, Hr1, lookup_insert_ne by done.
Qed.

Context (fuel : nat).

Lemma nuke_down e st q qs s :
  down qs s -> qs !! e = Some q -> (length q <= fuel)%nat ->
  exists s', nuke hw fuel complete e st s = Some (tt, s') /\ down (<[e := []]> qs) s' /\ emptied e q st s s'.
Proof.
  intros D Hq Hf. unfold nuke.
  assert (Hp : exists p, ep s !! e = Some p).
  { pose proof Hq as H. rewrite <- (dn_queues _ _ D), list_lookup_fmap in H.
    destruct (ep s !! e) as [p|]; [by exists p|done]. }
  destruct Hp as (p & Hp). destruct (logs_flush e p s Hp) as ([] & s1 & H1 & L1).
  rewrite (bind_ok _ _ _ _ _ H1).
  destruct (nuke_loop_down e st q qs s1 fuel (down_logged _ _ _ L1 D) Hq Hf) as (s2 & H2 & D2 & Hg2 & Hk2).
  rewrite (bind_ok _ _ _ _ _ H2).
  assert (Hp2 : exists p2, ep s2 !! e = Some p2).
  { assert (Hlt : (e < length (ep s2))%nat).
    { rewrite (dn_len _ _ D2). apply lookup_lt_Some in Hp. by rewrite (dn_len _ _ D) in Hp. }
    by apply lookup_lt_is_Some in Hlt. }
  destruct Hp2 as (p2 & Hp2). rewrite (bind_ok _ _ s2 p2 s2) by (unfold get_ep; by rewrite Hp2).
  assert (H3 : logs (match desc p2 with Some _ => pio_irq_disable hw e | None => ret tt end) s2)
    by (destruct (desc p2); [by eapply logs_pio_irq_disable|apply logs_ret]).
  destruct H3 as ([] & s3 & H3 & L3). rewrite H3. exists s3. split; [done|].
  split; [by eapply down_logged|]. apply logged_ep in L1 as (_ & R1 & _ & _ & _ & G1).
  apply logged_ep in L3 as (_ & R3 & _ & _ & _ & G3). split; [by rewrite G3, Hg2, R1, G1|].
  intros r Hr. by rewrite R3, Hk2, R1.
Qed.

(** A round of the loop of [stop_activity]. *)
Lemma round_down e q qs s :
  down qs s -> qs !! e = Some q -> (length q <= fuel)%nat ->
  exists s', (upd_ep e (set_stopped true) ;;; p <- get_ep e ;; usb_set_index (ep_index p) ;;;
    nuke hw fuel complete e (- ESHUTDOWN)) s = Some (tt, s') /\
    down (<[e := []]> qs) s' /\ emptied e q (- ESHUTDOWN) s s'.
Proof.
  intros D Hq Hf. pose proof Hq as H. rewrite <- (dn_queues _ _ D), list_lookup_fmap in H.
  destruct (ep s !! e) as [p|] eqn:Hp; [|done]. clear H.
  rewrite (bind_ok _ _ _ _ _ (upd_ep_ok e p (set_stopped true) s Hp)).
  set (s1 := set_eps _ s).
  assert (Hp1 : ep s1 !! e = Some (set_stopped true p))
    by (cbn; by eapply list_lookup_insert_eq, lookup_lt_Some).
  rewrite (bind_ok _ _ s1 (set_stopped true p) s1) by (unfold get_ep; by rewrite Hp1).
  erewrite bind_ok by reflexivity.
  destruct D as [Ds Dd Dl Dq Dn Dr].
  destruct (nuke_down e (- ESHUTDOWN) q qs
    (set_log (Wr B8 USB_REG_INDEX (trunc B8 (ep_index (set_stopped true p))) :: log s1) s1)) as (s2 & H2 & D2 & E2);
    [|done|done|exists s2; split; [exact H2|]; by split].
  split; try done; cbn; [by rewrite length_insert|by rewrite map_queue_insert].
Qed.

(** All four queues. *)
Definition shut_down_all (st : Z) (m : gmap nat usb_request) (qs : list (list nat)) : list (nat * nat * Z) :=
  concat (imap (shut_down st m) qs).

Lemma shut_down_ext st m m' e q :
  (forall r, r ∈ q -> m' !! r = m !! r) -> shut_down st m' e q = shut_down st m e q.
Proof. intros H. apply map_ext_in. intros r Hr. by rewrite H by (by apply list_elem_of_In). Qed.

Lemma rounds_down q0 q1 q2 q3 s :
  down [q0; q1; q2; q3] s -> (length (concat [q0; q1; q2; q3]) <= fuel)%nat ->
  exists s', for_endpoints (fun e => upd_ep e (set_stopped true) ;;; p <- get_ep e ;;
      usb_set_index (ep_index p) ;;; nuke hw fuel complete e (- ESHUTDOWN)) s = Some (tt, s') /\
    down [[]; []; []; []] s' /\
    given_back (log s') =
      rev (shut_down_all (- ESHUTDOWN) (reqs s) [q0; q1; q2; q3]) ++ given_back (log s).
Proof.
  intros D Hf. cbn in Hf. rewrite !length_app in Hf. pose proof (dn_nodup _ _ D) as Hn. cbn in Hn.
  rewrite app_nil_r in Hn. apply NoDup_app in Hn as (_ & N0 & Hn). apply NoDup_app in Hn as (_ & N1 & Hn).
  apply NoDup_app in Hn as (_ & N2 & _).
  unfold for_endpoints.
  destruct (round_down 0 q0 _ s D eq_refl) as (s1 & H1 & D1 & G1 & K1); [lia|]. cbn in D1.
  rewrite (bind_ok _ _ _ _ _ H1).
  destruct (round_down 1 q1 _ s1 D1 eq_refl) as (s2 & H2 & D2 & G2 & K2); [lia|]. cbn in D2.
  rewrite (bind_ok _ _ _ _ _ H2).
  destruct (round_down 2 q2 _ s2 D2 eq_refl) as (s3 & H3 & D3 & G3 & K3); [lia|]. cbn in D3.
  rewrite (bind_ok _ _ _ _ _ H3).
  destruct (round_down 3 q3 _ s3 D3 eq_refl) as (s4 & H4 & D4 & G4 & K4); [lia|]. cbn in D4.
  rewrite H4. exists s4. split; [done|]. split; [done|].
  assert (E1 : forall r, r ∈ q1 ++ q2 ++ q3 -> reqs s1 !! r = reqs s !! r)
    by (intros r Hr; apply K1; intros H; by apply (N0 r H)).
  assert (E2 : forall r, r ∈ q2 ++ q3 -> reqs s2 !! r = reqs s !! r).
  { intros r Hr. rewrite K2 by (intros H; by apply (N1 r H)). apply E1, elem_of_app. by right. }
  assert (E3 : forall r, r ∈ q3 -> reqs s3 !! r = reqs s !! r).
  { intros r Hr. rewrite K3 by (intros H; by apply (N2 r H)). apply E2, elem_of_app. by right. }
  rewrite G4, G3, G2, G1. unfold shut_down_all. cbn [imap concat]. unfold compose. cbn. rewrite app_nil_r.
  rewrite !rev_app_distr, <- !app_assoc.
  rewrite (shut_down_ext _ (reqs s) (reqs s1)) by (intros r Hr; apply E1, elem_of_app; by left).
  rewrite (shut_down_ext _ (reqs s) (reqs s2)) by (intros r Hr; apply E2, elem_of_app; by left).
  by rewrite (shut_down_ext _ (reqs s) (reqs s3)) by done.
Qed.

End Shutdown.

(** ** Unregistering *)

Section Unregister.
Context (hw : list event -> Z -> Z) (stack : list event -> nat -> Z) (fuel : nat) (use_dma udc_debug : bool)
  (g : gadget).

(** The gadget driver only queues existing requests on existing endpoints. *)
Definition only_queues (s : jz4740_udc) (cs : list call) : Prop :=
  Forall (fun c => exists e r, c = Queue (Some e) (Some r) /\ (e < 4)%nat /\ is_Some (reqs s !! r)) cs.

Record resubmits : Prop := {
  rs_complete : forall e r s,
    (e < 4)%nat -> is_Some (reqs s !! r) -> only_queues s (g_complete g e r s);
  rs_disconnect : forall s, only_queues s (g_disconnect g s);
  rs_unbind : forall s, only_queues s (g_unbind g s) }.

(** While the bus is down, queueing fails and changes nothing. *)
Lemma queue_down complete e r s :
  speed s = USB_SPEED_UNKNOWN -> (e < length (ep s))%nat -> is_Some (reqs s !! r) ->
  exists x, jz4740_queue hw use_dma complete (Some e) (Some r) s = Some (x, s).
Proof.
  intros Hs He (q & Hq). apply lookup_lt_is_Some in He as (p & Hp). unfold jz4740_queue.
  rewrite (bind_ok _ _ s q s) by (unfold get_req; by rewrite Hq).
  rewrite (bind_ok _ _ s (pending s) s) by done.
  destruct (_ || _); [by eexists|].
  rewrite (bind_ok _ _ s p s) by (unfold get_ep; by rewrite Hp).
  destruct (_ && _); [by eexists|].
  rewrite (bind_ok _ _ s (driver s) s) by done. rewrite (bind_ok _ _ s (speed s) s) by done.
  rewrite Hs, orb_true_r. by eexists.
Qed.

Lemma calls_down complete cs s :
  speed s = USB_SPEED_UNKNOWN -> length (ep s) = 4%nat -> only_queues s cs ->
  run_calls hw fuel use_dma complete cs s = Some (tt, s).
Proof.
  intros Hs Hl. induction 1 as [|c cs (e & r & -> & He & Hr) _ IH]; [done|]. cbn [run_calls perform].
  destruct (queue_down complete e r s Hs) as (x & Hx); [lia|done|].
  erewrite bind_ok; [exact IH|]. by erewrite bind_ok by exact Hx.
Qed.

Lemma complete_down_g e r s :
  resubmits -> (0 < fuel)%nat -> speed s = USB_SPEED_UNKNOWN -> length (ep s) = 4%nat ->
  (e < 4)%nat -> is_Some (reqs s !! r) -> complete hw fuel use_dma g e r s = Some (tt, s).
Proof.
  intros R Hf Hs Hl He Hr. unfold complete.
  replace (complete_n hw fuel use_dma g fuel e r) with (complete_n hw fuel use_dma g (S (pred fuel)) e r)
    by (f_equal; lia).
  cbn [complete_n]. apply calls_down; [done|done|by apply R].
Qed.

Lemma stop_activity_down q0 q1 q2 q3 b s :
  resubmits -> (length (pending s) < fuel)%nat -> driver s = false ->
  map queue (ep s) = [q0; q1; q2; q3] -> NoDup (pending s) ->
  (forall r, r ∈ pending s -> is_Some (reqs s !! r)) ->
  exists s', stop_activity hw fuel use_dma g b s = Some (tt, s') /\
    speed s' = USB_SPEED_UNKNOWN /\ driver s' = false /\ length (ep s') = 4%nat /\ pending s' = [] /\
    given_back (log s') =
      rev (shut_down_all (- ESHUTDOWN) (reqs s) [q0; q1; q2; q3]) ++ given_back (log s).
Proof.
  intros R Hf Hd Hq Hn Hr. unfold stop_activity. rewrite (bind_ok _ _ s (speed s) s) by done. cbv zeta.
  erewrite bind_ok by reflexivity.
  assert (Hl : length (ep s) = 4%nat) by (by rewrite <- (length_map queue), Hq).
  destruct (rounds_down hw (complete hw fuel use_dma g) (fun e r s => complete_down_g e r s R ltac:(lia)) fuel
    q0 q1 q2 q3 (set_speed USB_SPEED_UNKNOWN s)) as (s1 & H1 & D1 & G1).
  { unfold pending in *. rewrite Hq in *. split; done. }
  { unfold pending in Hf. rewrite Hq in Hf. lia. }
  rewrite (bind_ok _ _ _ _ _ H1).
  assert (H2 : exists s2, when (b && negb (speed s =? USB_SPEED_UNKNOWN))
    (emit Disconnect ;;; cs <- gets (g_disconnect g) ;; gadget_runs hw fuel use_dma g cs) s1 = Some (tt, s2) /\
    logged s1 s2).
  { destruct (_ && _); [|exists s1; split; [done|apply logged_refl]]. cbn [when].
    eexists. split; [|by exists [Disconnect]]. erewrite bind_ok by reflexivity. erewrite bind_ok by reflexivity.
    apply calls_down; [apply D1|apply D1|apply R]. }
  destruct H2 as (s2 & H2 & L2). rewrite (bind_ok _ _ _ _ _ H2).
  pose proof (down_logged _ _ _ L2 D1) as D2. apply logged_ep in L2 as (_ & _ & _ & _ & _ & G2).
  eexists. split; [reflexivity|]. cbn. split_and!; [apply D2|apply D2|rewrite length_map; apply D2| |exact (eq_trans G2 G1)].
  pose proof (dn_queues _ _ D2) as Hq2. clear - Hq2. unfold pending. cbn.
  destruct (ep s2) as [|? [|? [|? [|? [|? ?]]]]]; done.
Qed.

Lemma logs_udc_disable s :
  exists s', udc_disable hw s = Some (tt, s') /\ ep s' = ep s /\ driver s' = driver s /\
    speed s' = USB_SPEED_UNKNOWN /\ given_back (log s') = given_back (log s).
Proof. eexists. split; [reflexivity|]. done. Qed.

(** C38: unregistering gives every request back: in any state the driver can
    reach, if a gadget driver is registered, its requests exist, and its
    functions do nothing but queue requests (even again and again), the call
    returns 0; afterwards the queues are empty and, after what was completed
    before, each request that was queued has been completed exactly once,
    endpoint by endpoint and in queue order, with the status for a shutdown
    (unless a status was set before). *)
Theorem unregister_gives_back s :
  reachable hw stack fuel use_dma udc_debug g s ->
  the_controller s = true -> driver s = true -> resubmits -> (length (pending s) < fuel)%nat ->
  (forall r, r ∈ pending s -> is_Some (reqs s !! r)) ->
  exists s', usb_gadget_unregister_driver hw fuel use_dma g true s = Some (0, s') /\
    driver s' = false /\ speed s' = USB_SPEED_UNKNOWN /\ pending s' = [] /\
    given_back (log s') =
      rev (shut_down_all (- ESHUTDOWN) (reqs s) (map queue (ep s))) ++ given_back (log s).
Proof.
  intros Hr Hc Hd R Hf Hx. apply reachable_inv in Hr as [[_ Hn] Hl]. cbn in Hn, Hl. rewrite length_map in Hl.
  assert (Hq : exists q0 q1 q2 q3, map queue (ep s) = [q0; q1; q2; q3])
    by (destruct (ep s) as [|? [|? [|? [|? [|? ?]]]]]; try done; by eexists _, _, _, _).
  destruct Hq as (q0 & q1 & q2 & q3 & Hq). unfold usb_gadget_unregister_driver.
  rewrite (bind_ok _ _ s true s) by (unfold gets; by rewrite Hc).
  rewrite (bind_ok _ _ s true s) by (unfold gets; by rewrite Hd). cbn [negb orb].
  erewrite bind_ok by reflexivity.
  destruct (stop_activity_down q0 q1 q2 q3 true (set_driver false s)) as (s1 & H1 & S1 & D1 & L1 & P1 & G1);
    try done.
  rewrite (bind_ok _ _ _ _ _ H1). erewrite bind_ok by reflexivity. erewrite bind_ok by reflexivity.
  erewrite bind_ok by (apply calls_down; [exact S1|exact L1|apply R]).
  destruct (logs_udc_disable (set_log (Unbind :: log s1) s1)) as (s2 & H2 & E2 & D2 & S2 & G2).
  rewrite (bind_ok _ _ _ _ _ H2). exists s2. split; [reflexivity|]. rewrite D2, G2. split_and!; try done.
  - unfold pending. by rewrite E2.
  - rewrite Hq. exact G1.
Qed.

End Unregister.

(** ** A concrete run *)

Lemma echo_resubmits : resubmits echo.
Proof. split; intros; repeat constructor. by exists e, r. Qed.

(** After the run of [UdcRequests], both requests come back, request 1 first,
    although each is queued again when it does. *)
Lemma unregister_gives_back_witness :
  exists s', usb_gadget_unregister_driver reset_hw 8 true echo true started = Some (0, s') /\
    pending s' = [] /\
    given_back (log s') = [(1%nat, 0%nat, - ESHUTDOWN); (1%nat, 1%nat, - ESHUTDOWN); (1%nat, 0%nat, - ECONNRESET)].
Proof.
  destruct (unregister_gives_back reset_hw (fun _ _ => 0) 8 true false echo started started_reachable)
    as (s' & H & _ & _ & Hp & Hg).
  - vm_compute. reflexivity.
  - vm_compute. reflexivity.
  - exact echo_resubmits.
  - vm_compute. lia.
  - assert (Hall : Forall (fun r => is_Some (reqs started !! r)) (pending started)).
    { apply (bool_decide_unpack _). vm_compute. exact I. }
    by intros r Hr; apply (proj1 (list.Forall_forall _ _) Hall).
  - exists s'. split; [exact H|]. split; [exact Hp|]. rewrite Hg. vm_compute. reflexivity.
Defined.
