(* ===== verification/UdcControl.v ===== *)
(** * Control reads through the USB device controller

    What the host sees of a control read is read off the log of register
    accesses: bytes written to the FIFO of endpoint 0, and packets released with
    INPKTRDY.  For a host that fetches each packet, the driver sends the
    request's bytes in packets of 64, ended by a shorter one. *)

From S2P Require Import Prelude UdcDriver UdcRequests UdcShutdown.

#[local] Arguments Z.eqb : simpl never.
#[local] Arguments Z.ltb : simpl never.
#[local] Arguments Z.land : simpl never.
#[local] Arguments Z.lor : simpl never.
#[local] Arguments Z.add : simpl never.
#[local] Arguments Z.sub : simpl never.
#[local] Arguments Z.mul : simpl never.
#[local] Arguments Z.shiftl : simpl never.
#[local] Arguments Z.shiftr : simpl never.

(** ** The host's side *)

(** The endpoint that the index register selects. *)
Fixpoint index_of (n : list event) : option Z :=
  match n with
  | [] => None
  | Wr _ reg v :: n => if reg =? USB_REG_INDEX then Some v else index_of n
  | _ :: n => index_of n
  end.

(** A write of [bit] to the control register of endpoint 0. *)
Definition sets_csr0 (bit reg v : Z) (n : list event) : bool :=
  (reg =? USB_REG_CSR0) && bool_decide (index_of n = Some 0) && has v bit.

(** A packet is waiting for the host; it has been fetched when the next
    interrupt is served. *)
Fixpoint in_ready (n : list event) : bool :=
  match n with
  | [] => false
  | Rd _ reg _ :: n => if reg =? USB_REG_INTRIN then false else in_ready n
  | Wr _ reg v :: n => if sets_csr0 USB_CSR0_INPKTRDY reg v n then true else in_ready n
  | _ :: n => in_ready n
  end.

(** The set-up packet has been taken out. *)
Fixpoint acked (n : list event) : bool :=
  match n with
  | [] => false
  | Wr _ reg v :: n => sets_csr0 USB_CSR0_SVDOUTPKTRDY reg v n || acked n
  | _ :: n => acked n
  end.

(** Bytes read from the FIFO of endpoint 0. *)
Fixpoint fifo_reads (n : list event) : nat :=
  match n with
  | [] => 0
  | Rd _ reg _ :: n => if reg =? USB_FIFO_EP0 then S (fifo_reads n) else fifo_reads n
  | _ :: n => fifo_reads n
  end.

Definition le_bytes (w : width) (v : Z) : list Z :=
  match w with
  | B8 => [v]
  | B16 => [Z.land v 255; Z.land (Z.shiftr v 8) 255]
  | B32 => [Z.land v 255; Z.land (Z.shiftr v 8) 255; Z.land (Z.shiftr v 16) 255; Z.land (Z.shiftr v 24) 255]
  end.

(** The bytes in the FIFO and the packets released, each with its DATAEND flag. *)
Fixpoint in_fifo (n : list event) : list Z :=
  match n with
  | [] => []
  | Wr w reg v :: n =>
      if reg =? USB_FIFO_EP0 then in_fifo n ++ le_bytes w v
      else if sets_csr0 USB_CSR0_INPKTRDY reg v n then [] else in_fifo n
  | _ :: n => in_fifo n
  end.

Fixpoint packets (n : list event) : list (list Z * bool) :=
  match n with
  | [] => []
  | Wr _ reg v :: n =>
      if sets_csr0 USB_CSR0_INPKTRDY reg v n && negb (in_ready n)
      then packets n ++ [(in_fifo n, has v USB_CSR0_DATAEND)] else packets n
  | _ :: n => packets n
  end.

(** A host that sends the set-up packet [b], fetches every packet, and does
    nothing else; [l0] is the log before. *)
Record control_host (hw : list event -> Z -> Z) (l0 : list event) (b : list Z) : Prop := {
  h_usb : forall n, hw (n ++ l0) USB_REG_INTRUSB = 0;
  h_in : forall n, hw (n ++ l0) USB_REG_INTRIN = USB_INTR_EP0;
  h_out : forall n, hw (n ++ l0) USB_REG_INTROUT = 0;
  h_dma : forall n, hw (n ++ l0) USB_REG_INTR = 0;
  h_index : forall n i, index_of n = Some i -> hw (n ++ l0) USB_REG_INDEX = i;
  h_count : forall n, hw (n ++ l0) USB_REG_OUTCOUNT = 8;
  h_fifo : forall n, hw (n ++ l0) USB_FIFO_EP0 = nth (fifo_reads n) b 0;
  h_csr : forall n, index_of n = Some 0 ->
    hw (n ++ l0) USB_REG_CSR0 =
      (if acked n then 0 else USB_CSR0_OUTPKTRDY) + (if in_ready n then USB_CSR0_INPKTRDY else 0) }.

(** ** The packets of a transfer *)

(** [k] full packets, then the rest, less than a full one. *)
Fixpoint in_packets (k : nat) (data : list Z) : list (list Z * bool) :=
  match k with
  | O => [(data, true)]
  | S k => (take 64 data, false) :: in_packets k (drop 64 data)
  end.

Definition usb_packets (data : list Z) : list (list Z * bool) := in_packets (length data / 64) data.

(** ** Filling the FIFO *)

(** [l] only writes [d] to the FIFO. *)
Inductive fifo_writes : list event -> list Z -> Prop :=
  | fw_nil : fifo_writes [] []
  | fw_cons w v l d : fifo_writes l d -> fifo_writes (Wr w USB_FIFO_EP0 v :: l) (d ++ le_bytes w v).

Lemma fifo_writes_app l1 d1 l2 d2 : fifo_writes l1 d1 -> fifo_writes l2 d2 -> fifo_writes (l2 ++ l1) (d1 ++ d2).
Proof. intros H1 H2. induction H2; cbn; [by rewrite app_nil_r|]. rewrite app_assoc. by constructor. Qed.

Lemma fifo_writes_frame l d n :
  fifo_writes l d -> index_of (l ++ n) = index_of n /\ in_ready (l ++ n) = in_ready n /\
    acked (l ++ n) = acked n /\ packets (l ++ n) = packets n /\ in_fifo (l ++ n) = in_fifo n ++ d /\
    given_back l = [].
Proof.
  induction 1 as [|w v l d H (I1 & I2 & I3 & I4 & I5 & I6)]; [by rewrite app_nil_r|]. cbn [app].
  cbn -[given_back]. rewrite I1, I2, I3, I4, I5. split_and!; try done. by rewrite app_assoc.
Qed.

(** Compares register addresses. *)
Ltac ports :=
  repeat match goal with
  | |- context [?x =? ?y] => first [change (x =? y) with false|change (x =? y) with true]
  end; cbv iota; cbn [andb orb negb].

(** Computes the host's view of a log whose first events are known. *)
Ltac host_step :=
  cbn [app index_of in_ready acked packets in_fifo fifo_reads]; unfold sets_csr0; cbn [index_of]; ports.

Definition byte (x : Z) : Prop := 0 <= x < 256.

Lemma word_bytes b0 b1 b2 b3 :
  byte b0 -> byte b1 -> byte b2 -> byte b3 ->
  le_bytes B32 (trunc B32 (b0 + Z.shiftl b1 8 + Z.shiftl b2 16 + Z.shiftl b3 24)) = [b0; b1; b2; b3].
Proof.
  unfold byte. intros H0 H1 H2 H3. cbn [trunc le_bytes]. unfold u32.
  rewrite !Z.shiftl_mul_pow2, !Z.shiftr_div_pow2 by lia. change 255 with (Z.ones 8).
  rewrite !Z.land_ones by lia. change (2 ^ 8) with 256. change (2 ^ 16) with 65536.
  change (2 ^ 24) with 16777216. change (2 ^ 32) with 4294967296.
  rewrite (Z.mod_small _ 4294967296) by lia. repeat f_equal; Z.to_euclidean_division_equations; lia.
Qed.

Lemma byte_trunc x : byte x -> trunc B8 x = x.
Proof. intros H. apply Z.mod_small. exact H. Qed.

Lemma rd_drop {A} (b : list A) i k : 0 <= i -> rd b (i + Z.of_nat k) = drop (Z.to_nat i) b !! k.
Proof.
  intros Hi. unfold rd. rewrite (proj2 (Z.leb_le 0 _)) by lia. rewrite lookup_drop. f_equal. lia.
Qed.

Lemma fifo_longs_ok n b i s :
  Forall byte b -> 0 <= i -> i + 4 * Z.of_nat n <= Z.of_nat (length b) ->
  exists l, write_longs n USB_FIFO_EP0 b i s = Some (tt, set_log (l ++ log s) s) /\
    fifo_writes l (take (4 * n) (drop (Z.to_nat i) b)).
Proof.
  intros Hb. revert i s. induction n as [|n IH]; intros i s Hi Hn.
  { exists []. split; [by destruct s|]. rewrite Nat.mul_0_r. constructor. }
  cbn [write_longs]. pose proof (rd_drop b i 0 Hi) as R0. pose proof (rd_drop b i 1 Hi) as R1.
  pose proof (rd_drop b i 2 Hi) as R2. pose proof (rd_drop b i 3 Hi) as R3.
  change (Z.of_nat 0) with 0 in R0. change (Z.of_nat 1) with 1 in R1. change (Z.of_nat 2) with 2 in R2.
  change (Z.of_nat 3) with 3 in R3. rewrite Z.add_0_r in R0.
  assert (Hd : Forall byte (drop (Z.to_nat i) b)) by (by apply Forall_drop).
  assert (Hnext : drop (Z.to_nat (i + 4)) b = drop 4 (drop (Z.to_nat i) b))
    by (rewrite drop_drop; f_equal; lia).
  assert (Hl : (4 <= length (drop (Z.to_nat i) b))%nat) by (rewrite length_drop; lia).
  destruct (drop (Z.to_nat i) b) as [|b0 [|b1 [|b2 [|b3 rest]]]] eqn:E; cbn in Hl; try lia.
  cbn in R0, R1, R2, R3, Hnext. unfold ld32. rewrite R0, R1, R2, R3. cbn [mbind option_bind].
  erewrite bind_ok by reflexivity. erewrite bind_ok by reflexivity.
  match goal with |- context [write_longs n _ b (i + 4) ?s1] => destruct (IH (i + 4) s1) as (l & -> & Hl') end;
    [lia|lia|].
  exists (l ++ [Wr B32 USB_FIFO_EP0 (trunc B32 (b0 + Z.shiftl b1 8 + Z.shiftl b2 16 + Z.shiftl b3 24))]).
  split; [by rewrite <- app_assoc|].
  replace (4 * S n)%nat with (4 + 4 * n)%nat by lia. rewrite Hnext in Hl'. cbn [take plus].
  change (b0 :: b1 :: b2 :: b3 :: take (4 * n) rest) with ([b0; b1; b2; b3] ++ take (4 * n) rest).
  apply fifo_writes_app; [|exact Hl'].
  repeat (apply Forall_cons in Hd as [? Hd]). rewrite <- (word_bytes b0 b1 b2 b3) by done.
  apply (fw_cons B32 _ [] []). constructor.
Qed.

Lemma fifo_bytes_ok n b i s :
  Forall byte b -> 0 <= i -> i + Z.of_nat n <= Z.of_nat (length b) ->
  exists l, write_bytes n USB_FIFO_EP0 b i s = Some (tt, set_log (l ++ log s) s) /\
    fifo_writes l (take n (drop (Z.to_nat i) b)).
Proof.
  intros Hb. revert i s. induction n as [|n IH]; intros i s Hi Hn.
  { exists []. split; [by destruct s|]. constructor. }
  cbn [write_bytes]. pose proof (rd_drop b i 0 Hi) as R0. change (Z.of_nat 0) with 0 in R0. rewrite Z.add_0_r in R0.
  assert (Hd : Forall byte (drop (Z.to_nat i) b)) by (by apply Forall_drop).
  assert (Hnext : drop (Z.to_nat (i + 1)) b = drop 1 (drop (Z.to_nat i) b))
    by (rewrite drop_drop; f_equal; lia).
  assert (Hl : (1 <= length (drop (Z.to_nat i) b))%nat) by (rewrite length_drop; lia).
  destruct (drop (Z.to_nat i) b) as [|b0 rest] eqn:E; cbn in Hl; try lia.
  cbn in R0, Hnext. rewrite R0. erewrite bind_ok by reflexivity. erewrite bind_ok by reflexivity.
  match goal with |- context [write_bytes n _ b (i + 1) ?s1] => destruct (IH (i + 1) s1) as (l & -> & Hl') end;
    [lia|lia|].
  exists (l ++ [Wr B8 USB_FIFO_EP0 (trunc B8 b0)]). split; [by rewrite <- app_assoc|].
  rewrite Hnext, drop_0 in Hl'. cbn [take]. change (b0 :: take n rest) with ([b0] ++ take n rest).
  apply fifo_writes_app; [|exact Hl']. apply Forall_cons in Hd as [H0 _]. rewrite (byte_trunc b0) by done.
  apply (fw_cons B8 b0 [] []). constructor.
Qed.

Lemma read_back (b : list Z) :
  length b = 8%nat -> Forall byte b -> map (fun i => u8 (nth i b 0)) (seq 0 8) = b.
Proof.
  intros Hl Hb. destruct b as [|b0 [|b1 [|b2 [|b3 [|b4 [|b5 [|b6 [|b7 [|]]]]]]]]]; try done.
  repeat (apply Forall_cons in Hb as [? Hb]). cbn. unfold u8. by rewrite !Z.mod_small by done.
Qed.

(** A packet of [m] bytes from position [actual]. *)
Lemma write_packet_ok p r q s max data :
  ep s !! 0%nat = Some p -> fifo p = USB_FIFO_EP0 -> reqs s !! r = Some q -> buf q = Some data ->
  Forall byte data -> r_length q = Z.of_nat (length data) -> Z.of_nat (length data) < 2 ^ 31 ->
  0 <= actual q <= r_length q -> 0 <= max ->
  let m := Z.min (r_length q - actual q) max in
  exists l, write_packet 0 r max s =
      Some (m, set_log (l ++ log s) (set_reqs (<[r := set_actual (actual q + m) q]> (reqs s)) s)) /\
    fifo_writes l (take (Z.to_nat m) (drop (Z.to_nat (actual q)) data)).
Proof.
  intros Hp Hf Hq Hbuf Hb Hlen H31 Ha Hmax m. unfold write_packet.
  rewrite (bind_ok _ _ s p s) by (unfold get_ep; by rewrite Hp).
  rewrite (bind_ok _ _ s q s) by (unfold get_req; by rewrite Hq). cbv zeta.
  assert (Hs : s32 (r_length q - actual q) = r_length q - actual q)
    by (unfold s32; rewrite Z.mod_small by lia; lia).
  rewrite Hs. fold m. assert (Hm : 0 <= m <= r_length q - actual q) by (unfold m; lia).
  assert (Hu : u32 (actual q + m) = actual q + m) by (unfold u32; apply Z.mod_small; lia). rewrite Hu.
  erewrite bind_ok by reflexivity. rewrite (proj2 (Z.ltb_ge m 0)) by lia.
  rewrite Hf. unfold bytes. rewrite Hbuf. cbn [default].
  rewrite Z.shiftr_div_pow2 by lia. change (2 ^ 2) with 4. change 3 with (Z.ones 2).
  rewrite Z.land_ones by lia. change (2 ^ 2) with 4.
  destruct (fifo_longs_ok (Z.to_nat (m / 4)) data (actual q)
    (set_reqs (<[r := set_actual (actual q + m) q]> (reqs s)) s)) as (l1 & H1 & W1);
    [done|lia|Z.to_euclidean_division_equations; lia|].
  rewrite (bind_ok _ _ _ _ _ H1).
  match goal with |- context [bind _ _ ?s1] =>
    destruct (fifo_bytes_ok (Z.to_nat (m mod 4)) data (actual q + 4 * (m / 4)) s1) as (l2 & H2 & W2) end;
    [done|Z.to_euclidean_division_equations; lia|Z.to_euclidean_division_equations; lia|].
  rewrite (bind_ok _ _ _ _ _ H2). exists (l2 ++ l1). split; [by rewrite <- app_assoc|].
  assert (Hsplit : Z.to_nat m = (4 * Z.to_nat (m / 4) + Z.to_nat (m mod 4))%nat)
    by (Z.to_euclidean_division_equations; lia).
  rewrite Hsplit, <- take_take_drop. apply fifo_writes_app; [exact W1|].
  rewrite drop_drop. replace (Z.to_nat (actual q) + 4 * Z.to_nat (m / 4))%nat
    with (Z.to_nat (actual q + 4 * (m / 4))) by (Z.to_euclidean_division_equations; lia). exact W2.
Qed.

(** ** Steps of a transfer *)

(** What the log since [l0] says: packet waiting, set-up packet taken, packets
    released, bytes in the FIFO, requests given back; endpoint 0 is selected. *)
Record host_sees (n : list event) (rdy ack : bool) (pk : list (list Z * bool)) (ff : list Z)
    (gb : list (nat * nat * Z)) : Prop := {
  hs_index : index_of n = Some 0;
  hs_ready : in_ready n = rdy;
  hs_acked : acked n = ack;
  hs_packets : packets n = pk;
  hs_fifo : in_fifo n = ff;
  hs_given : given_back n = gb }.

Lemma given_back_app l1 l2 : given_back (l1 ++ l2) = given_back l1 ++ given_back l2.
Proof. apply omap_app. Qed.

Lemma host_sees_fifo l d n rdy ack pk ff gb :
  fifo_writes l d -> host_sees n rdy ack pk ff gb -> host_sees (l ++ n) rdy ack pk (ff ++ d) gb.
Proof.
  intros Hl [H1 H2 H3 H4 H5 H6]. destruct (fifo_writes_frame l d n Hl) as (I1 & I2 & I3 & I4 & I5 & I6).
  split; rewrite ?given_back_app, ?I1, ?I2, ?I3, ?I4, ?I5, ?I6; try done. by rewrite H5.
Qed.

Lemma release_bits (last : bool) : (if last then 10 else 2) ∈ [2; 10; 64].
Proof. destruct last; set_solver. Qed.

Section Transfer.
Context (hw : list event -> Z -> Z) (l0 : list event) (b : list Z) (Hhost : control_host hw l0 b).
Context (complete : nat -> nat -> M unit) (r : nat).
Hypothesis complete_idle : forall s, complete 0 r s = Some (tt, s).

(** The control register is updated with one of the values in use. *)
Lemma set_csr0 bits n rdy ack pk ff gb s :
  bits ∈ [2; 10; 64] -> host_sees n rdy ack pk ff gb -> log s = n ++ l0 ->
  exists l, usb_setb hw USB_REG_CSR0 bits s = Some (tt, set_log ((l ++ n) ++ l0) s) /\
    host_sees (l ++ n) (rdy || has bits 2) (ack || has bits 64)
      (pk ++ if has bits 2 && negb rdy then [(ff, has bits 8)] else [])
      (if has bits 2 || rdy then [] else ff) gb.
Proof.
  intros Hb [H1 H2 H3 H4 H5 H6] Hl. pose proof (h_csr _ _ _ Hhost n H1) as Hc. rewrite H2, H3 in Hc.
  eexists [_; _]. split.
  { unfold usb_setb, usb_set. rewrite (bind_ok _ _ _ _ _ (usb_read_ok hw B8 USB_REG_CSR0 s)).
    rewrite Hl, Hc. reflexivity. }
  split; [exact H1| | | | |exact H6]; cbn [app in_ready acked packets in_fifo index_of];
    unfold sets_csr0; cbn [index_of]; rewrite ?H1, ?H2, ?H3, ?H4, ?H5;
    rewrite (bool_decide_eq_true_2 (Some 0 = Some 0)) by done;
    apply elem_of_cons in Hb as [->|Hb]; try (apply elem_of_cons in Hb as [->|Hb]);
    try (apply list_elem_of_singleton in Hb as ->);
    destruct rdy, ack; cbn; rewrite ?app_nil_r; reflexivity.
Qed.

(** The bytes in the FIFO are released as a packet. *)
Lemma release_packet (last : bool) n ack pk ff gb s :
  host_sees n false ack pk ff gb -> log s = n ++ l0 ->
  exists l, usb_setb hw USB_REG_CSR0 (if last then 10 else 2) s = Some (tt, set_log ((l ++ n) ++ l0) s) /\
    host_sees (l ++ n) true ack (pk ++ [(ff, last)]) [] gb.
Proof.
  intros Hn Hl. destruct (set_csr0 (if last then 10 else 2) _ _ _ _ _ _ s (release_bits last) Hn Hl)
    as (l & H & Hs). exists l. split; [done|]. destruct last; cbn in Hs; by rewrite orb_false_r in Hs.
Qed.

(** INPKTRDY is set once more while the packet waits. *)
Lemma release_again n ack pk ff gb s :
  host_sees n true ack pk ff gb -> log s = n ++ l0 ->
  exists l, usb_setb hw USB_REG_CSR0 2 s = Some (tt, set_log ((l ++ n) ++ l0) s) /\
    host_sees (l ++ n) true ack pk [] gb.
Proof.
  intros Hn Hl. destruct (set_csr0 2 _ _ _ _ _ _ s (release_bits false) Hn Hl) as (l & H & Hs).
  exists l. split; [done|]. cbn in Hs. by rewrite orb_false_r, app_nil_r in Hs.
Qed.

(** Endpoint 0 has an empty queue. *)
Definition idle0 (s : jz4740_udc) : Prop := exists p, ep s !! 0%nat = Some p /\ queue p = [].

(** Endpoint 0 sends request [r], of which [a] bytes are gone. *)
Record sending (data : list Z) (z : bool) (a : Z) (s : jz4740_udc) : Prop := {
  sd_ep : exists p, ep s !! 0%nat = Some p /\ queue p = [r] /\ maxpacket p = 64 /\ fifo p = USB_FIFO_EP0;
  sd_req : exists q, reqs s !! r = Some q /\ buf q = Some data /\ r_length q = Z.of_nat (length data) /\
    zero q = z /\ status q = - EINPROGRESS /\ actual q = a }.

Lemma sending_ext data z a s s' :
  ep s' = ep s -> reqs s' = reqs s -> sending data z a s -> sending data z a s'.
Proof. intros H1 H2 [H3 H4]. split; by rewrite ?H1, ?H2. Qed.

Lemma done_idle p q n rdy ack pk ff gb s :
  ep s !! 0%nat = Some p -> queue p = [r] -> reqs s !! r = Some q -> status q = - EINPROGRESS ->
  host_sees n rdy ack pk ff gb -> log s = n ++ l0 ->
  exists s' n', done hw complete 0 r 0 s = Some (tt, s') /\ idle0 s' /\ log s' = n' ++ l0 /\
    ep0state s' = ep0state s /\ host_sees n' rdy ack pk ff ((0%nat, r, 0) :: gb).
Proof.
  intros Hp Hqp Hq Hst [H1 H2 H3 H4 H5 H6] Hl. unfold done.
  assert (Hp1 : map (unlink r) (ep s) !! 0%nat = Some (unlink r p)) by (by rewrite list_lookup_fmap, Hp).
  rewrite (bind_ok _ _ s p s) by (unfold get_ep; by rewrite Hp).
  erewrite bind_ok by reflexivity.
  erewrite bind_ok by (unfold get_req; cbn [reqs set_eps]; by rewrite Hq). cbv zeta. rewrite Hst, Z.eqb_refl.
  erewrite bind_ok by reflexivity.
  erewrite bind_ok by (apply (upd_ep_ok 0 (unlink r p)); exact Hp1).
  erewrite bind_ok by apply usb_read_ok. erewrite bind_ok by reflexivity.
  erewrite bind_ok by apply complete_idle. erewrite bind_ok by reflexivity.
  rewrite (upd_ep_ok 0 (set_stopped true (unlink r p)))
    by (cbn; apply list_lookup_insert_eq, (lookup_lt_Some _ _ _ Hp1)).
  eexists _, (Wr B8 USB_REG_INDEX 0 :: Complete 0 r 0 (actual q) :: Rd B8 USB_REG_INDEX 0 :: n).
  split; [reflexivity|]. split.
  { eexists. cbn [ep set_eps]. split.
    - apply list_lookup_insert_eq. cbn [ep set_eps set_log set_reqs]. rewrite length_insert.
      by eapply lookup_lt_Some.
    - cbn. rewrite Hqp. rewrite filter_cons, decide_False by auto. reflexivity. }
  cbn [log set_eps set_log set_reqs]. rewrite Hl. rewrite (h_index _ _ _ Hhost n 0 H1).
  split; [reflexivity|]. split; [reflexivity|]. split; host_step; try done. cbn. by rewrite <- H6.
Qed.

Context (data : list Z) (z : bool).
Hypothesis data_bytes : Forall byte data.
Hypothesis data_len : Z.of_nat (length data) < 2 ^ 31.

(** The next packet: what is left, 64 bytes at most. *)
Definition left_ (a : Z) : Z := Z.of_nat (length data) - a.
Definition chunk (a : Z) : list Z := take 64 (drop (Z.to_nat a) data).
Definition last_chunk (a : Z) : bool := negb (Z.min (left_ a) 64 =? 64) || ((left_ a =? 64) && negb z).

Lemma write_fifo_ep0_ok a n rdy ack pk gb s :
  sending data z a s -> 0 <= a < Z.of_nat (length data) -> host_sees n rdy ack pk [] gb -> log s = n ++ l0 ->
  exists s' n', write_fifo_ep0 hw complete 0 r s = Some (if last_chunk a then 1 else 0, s') /\
    log s' = n' ++ l0 /\ ep0state s' = ep0state s /\
    host_sees n' rdy ack pk (chunk a) (if last_chunk a then (0%nat, r, 0) :: gb else gb) /\
    (if last_chunk a then idle0 s' else sending data z (a + Z.min (left_ a) 64) s').
Proof.
  intros [(p & Hp & Hqp & Hmax & Hf) (q & Hq & Hbuf & Hlen & Hz & Hst & Ha)] Har Hn Hl.
  unfold write_fifo_ep0. rewrite (bind_ok _ _ s p s) by (unfold get_ep; by rewrite Hp). cbv zeta.
  unfold ep_maxpacket. rewrite Hmax.
  destruct (write_packet_ok p r q s 64 data Hp Hf Hq Hbuf data_bytes Hlen data_len) as (l & Hw & Hl1); [lia|lia|].
  cbv zeta in Hw, Hl1. rewrite Hlen, Ha in Hw, Hl1. fold (left_ a) in Hw, Hl1.
  rewrite (bind_ok _ _ _ _ _ Hw). set (m := Z.min (left_ a) 64) in *.
  set (q1 := set_actual (a + m) q) in *. set (s1 := set_log _ _).
  assert (Hq1 : reqs s1 !! r = Some q1) by (cbn; apply lookup_insert_eq).
  rewrite (bind_ok _ _ s1 q1 s1) by (unfold get_req; by rewrite Hq1).
  assert (Hc : take (Z.to_nat m) (drop (Z.to_nat a) data) = chunk a).
  { unfold chunk, m, left_. destruct (Z.le_gt_cases 64 (Z.of_nat (length data) - a)).
    - by rewrite Z.min_r by lia.
    - rewrite !take_ge; [done|rewrite length_drop; lia|rewrite length_drop; lia]. }
  rewrite Hc in Hl1. pose proof (host_sees_fifo _ _ _ _ _ _ _ _ Hl1 Hn) as Hn1. cbn [app] in Hn1.
  assert (Hlast : negb (m =? 64) || ((r_length q1 =? actual q1) && negb (zero q1)) = last_chunk a).
  { cbn. rewrite Hlen, Hz. unfold last_chunk. fold m.
    destruct (Z.eqb_spec m 64) as [Hm|Hm]; [|done]. cbn. f_equal. rewrite Hm. unfold m, left_ in *.
    destruct (Z.eqb_spec (Z.of_nat (length data)) (a + 64)), (Z.eqb_spec (Z.of_nat (length data) - a) 64); lia. }
  assert (Hl1' : log s1 = (l ++ n) ++ l0) by (cbn; by rewrite Hl, app_assoc).
  rewrite Hlast. destruct (last_chunk a).
  - destruct (done_idle p q1 (l ++ n) rdy ack pk (chunk a) gb s1) as (s2 & n2 & H2 & I2 & L2 & E2 & N2); try done.
    rewrite (bind_ok _ _ _ _ _ H2). exists s2, n2. by split_and!.
  - exists s1, (l ++ n). split_and!; try done. split; [by exists p|]. exists q1. split_and!; try done.
Qed.

Lemma last_chunk_cases a :
  (left_ a < 64 /\ last_chunk a = true) \/ left_ a = 64 \/ (64 < left_ a /\ last_chunk a = false).
Proof.
  unfold last_chunk. destruct (Z.lt_total (left_ a) 64) as [Hlt|[He|Hgt]]; [left|by right; left|right; right].
  - split; [done|]. by rewrite (proj2 (Z.eqb_neq _ 64)) by lia.
  - split; [lia|]. rewrite Z.min_r by lia. by rewrite (proj2 (Z.eqb_neq (left_ a) 64)) by lia.
Qed.

Lemma ep0_in_ok a n ack pk gb s :
  sending data z a s -> 0 <= a < Z.of_nat (length data) -> host_sees n false ack pk [] gb -> log s = n ++ l0 ->
  exists s' n', jz4740_ep0_in hw complete s = Some (1, s') /\ log s' = n' ++ l0 /\
    host_sees n' true ack (pk ++ [(chunk a, left_ a <? 64)]) [] (if last_chunk a then (0%nat, r, 0) :: gb else gb) /\
    (if last_chunk a then idle0 s' else sending data z (a + 64) s') /\
    ep0state s' = (if left_ a <? 64 then WAIT_FOR_SETUP
                   else if left_ a =? 64 then DATA_STATE_NEED_ZLP else ep0state s).
Proof.
  intros Hs Har Hn Hl. pose proof Hs as [(p & Hp & Hqp & _) (q & Hq & _ & Hlen & _ & _ & Ha)].
  unfold jz4740_ep0_in. rewrite (bind_ok _ _ s (Some r) s).
  2: { unfold head_of, bind, get_ep. rewrite Hp, Hqp. reflexivity. }
  rewrite (bind_ok _ _ s q s) by (unfold get_req; by rewrite Hq).
  rewrite Hlen, Ha. rewrite (proj2 (Z.eqb_neq _ 0)) by lia. cbv zeta.
  fold (left_ a). assert (Hu : u32 (left_ a) = left_ a) by (unfold u32, left_; apply Z.mod_small; lia).
  rewrite Hu. change EP0_MAXPACKETSIZE with 64.
  destruct (write_fifo_ep0_ok a n false ack pk gb s Hs Har Hn Hl) as (s1 & n1 & H1 & L1 & E1 & N1 & X1).
  rewrite (bind_ok _ _ _ _ _ H1).
  destruct (last_chunk_cases a) as [[Hlt Hla]|[He|[Hgt Hla]]].
  - rewrite Hla in *. rewrite (proj2 (Z.eqb_neq (left_ a) 64)), (proj2 (Z.ltb_lt (left_ a) 64)) by lia.
    change (1 =? 1) with true. cbn [negb andb when]. cbv iota.
    destruct (release_packet true _ _ _ _ _ s1 N1 L1) as (l & H2 & N2).
    erewrite bind_ok by (erewrite bind_ok by exact H2; reflexivity). erewrite bind_ok by reflexivity.
    eexists _, (l ++ n1). split; [reflexivity|]. by split_and!.
  - rewrite He in *. change (64 =? 64) with true. cbn [negb]. rewrite andb_false_r. cbv iota. cbn [when].
    destruct (release_packet false _ _ _ _ _ s1 N1 L1) as (l & H2 & N2). rewrite (bind_ok _ _ _ _ _ H2).
    destruct (release_again _ _ _ _ _ (set_log ((l ++ n1) ++ l0) s1) N2 eq_refl) as (l' & H3 & N3).
    erewrite bind_ok by (erewrite bind_ok by exact H3; reflexivity).
    eexists _, (l' ++ l ++ n1). split; [reflexivity|]. split; [reflexivity|]. split; [exact N3|].
    split; [|reflexivity]. destruct (last_chunk a); [exact X1|]. by apply (sending_ext _ _ _ s1).
  - rewrite Hla in *. rewrite (proj2 (Z.eqb_neq (left_ a) 64)), (proj2 (Z.ltb_ge (left_ a) 64)) by lia.
    rewrite Z.min_r in X1 by lia. change (0 =? 1) with false. cbn [negb andb when]. cbv iota.
    destruct (release_packet false _ _ _ _ _ s1 N1 L1) as (l & H2 & N2). rewrite (bind_ok _ _ _ _ _ H2).
    erewrite bind_ok by reflexivity. eexists _, (l ++ n1). split; [reflexivity|].
    split_and!; try done. by apply (sending_ext _ _ _ s1).
Qed.

End Transfer.

(** ** Interrupts *)

Section Control.
Context (hw : list event -> Z -> Z) (stack : list event -> nat -> Z) (fuel : nat) (use_dma udc_debug : bool)
  (g : gadget) (l0 : list event) (b : list Z) (Hhost : control_host hw l0 b) (r : nat).
Hypothesis complete_nothing : forall s, g_complete g 0 r s = [].
Hypothesis fuel_pos : (0 < fuel)%nat.

Lemma complete_idle_g s : complete hw fuel use_dma g 0 r s = Some (tt, s).
Proof.
  unfold complete.
  replace (complete_n hw fuel use_dma g fuel 0 r) with (complete_n hw fuel use_dma g (S (pred fuel)) 0 r)
    by (f_equal; lia).
  cbn [complete_n]. by rewrite complete_nothing.
Qed.

(** The events at the start of an interrupt. *)
Definition irq_reads : list event :=
  [Rd B8 USB_REG_INTR 0; Rd B16 USB_REG_INTROUT 0; Rd B16 USB_REG_INTRIN 1; Rd B8 USB_REG_INTRUSB 0].

(** Only endpoint 0 needs service. *)
Lemma irq_handles n s x s' :
  log s = n ++ l0 ->
  jz4740_handle_ep0 hw stack fuel use_dma g (set_log ((irq_reads ++ n) ++ l0) s) = Some (x, s') ->
  jz4740_udc_irq hw stack fuel use_dma udc_debug g s = Some (tt, s').
Proof.
  intros Hl H. unfold jz4740_udc_irq.
  erewrite bind_ok by apply usb_read_ok. rewrite Hl, (h_usb _ _ _ Hhost).
  change (trunc B8 0) with 0.
  pose proof (h_in _ _ _ Hhost (Rd B8 USB_REG_INTRUSB 0 :: n)) as Hin.
  pose proof (h_out _ _ _ Hhost ([Rd B16 USB_REG_INTRIN 1; Rd B8 USB_REG_INTRUSB 0] ++ n)) as Hout.
  pose proof (h_dma _ _ _ Hhost ([Rd B16 USB_REG_INTROUT 0; Rd B16 USB_REG_INTRIN 1; Rd B8 USB_REG_INTRUSB 0] ++ n))
    as Hdma.
  cbn [app] in Hin, Hout, Hdma.
  erewrite bind_ok by apply usb_read_ok. cbn [log set_log]. rewrite Hin. change (trunc B16 USB_INTR_EP0) with 1.
  erewrite bind_ok by apply usb_read_ok. cbn [log set_log]. rewrite Hout. change (trunc B16 0) with 0.
  erewrite bind_ok by apply usb_read_ok. cbn [log set_log]. rewrite Hdma. change (trunc B8 0) with 0.
  change (Z.land 0 7) with 0. cbv zeta. change (1 =? 0) with false. change (0 =? 0) with true.
  cbn [andb]. change (has 0 USB_INTR_RESUME) with false. change (has 0 USB_INTR_RESET) with false.
  change (has 0 USB_INTR_SUSPEND) with false. cbn [when andb]. cbv iota.
  erewrite bind_ok by reflexivity. erewrite bind_ok by reflexivity.
  erewrite bind_ok; [reflexivity|]. unfold endpoint_irqs.
  change (has 1 USB_INTR_EP0) with true. change (has 0 1) with false. change (has 0 2) with false.
  change (has 1 USB_INTR_INEP1) with false. change (has 1 USB_INTR_INEP2) with false.
  change (has 0 USB_INTR_OUTEP1) with false. cbn [when]. cbv iota.
  change ((irq_reads ++ n) ++ l0) with (irq_reads ++ n ++ l0) in H. cbn [irq_reads app] in H.
  destruct x. rewrite (bind_ok _ _ _ _ _ H). reflexivity.
Qed.

(** The head of the interrupt as the host sees it: the last packet was fetched. *)
Lemma irq_reads_sees n rdy ack pk ff gb :
  host_sees n rdy ack pk ff gb -> host_sees (irq_reads ++ n) false ack pk ff gb.
Proof. intros [H1 H2 H3 H4 H5 H6]. by split; host_step. Qed.

(** [usb_set_index(0); csr = usb_readb(USB_REG_CSR0)] *)
Lemma select_ep0 {A} (k : Z -> M A) n s :
  log s = n ++ l0 ->
  let c := (if acked n then 0 else 1) + (if in_ready n then 2 else 0) in
  (usb_set_index 0 ;;; c <- usb_readb hw USB_REG_CSR0 ;; k c) s =
  k c (set_log (([Rd B8 USB_REG_CSR0 c; Wr B8 USB_REG_INDEX 0] ++ n) ++ l0) s).
Proof.
  intros Hl c. erewrite bind_ok by reflexivity. erewrite bind_ok by apply usb_read_ok. cbn [log set_log].
  change (trunc B8 0) with 0. rewrite Hl.
  pose proof (h_csr _ _ _ Hhost (Wr B8 USB_REG_INDEX 0 :: n) eq_refl) as E. revert E. host_step. intros ->.
  replace (trunc B8 _) with c; [reflexivity|].
  subst c. by destruct (acked n), (in_ready n).
Qed.

Lemma select_sees c n rdy ack pk ff gb :
  in_ready n = rdy -> acked n = ack -> packets n = pk -> in_fifo n = ff -> given_back n = gb ->
  host_sees ([Rd B8 USB_REG_CSR0 c; Wr B8 USB_REG_INDEX 0] ++ n) rdy ack pk ff gb.
Proof. intros H2 H3 H4 H5 H6. by split; host_step. Qed.

Lemma handle_data n s :
  log s = n ++ l0 -> in_ready n = false -> acked n = true ->
  jz4740_handle_ep0 hw stack fuel use_dma g s =
  match ep0state s with
  | DATA_STATE_XMIT => jz4740_ep0_in hw (complete hw fuel use_dma g) ;;; ret tt
  | DATA_STATE_NEED_ZLP => jz4740_ep0_in_zlp hw
  | _ => modify (set_ep0state WAIT_FOR_SETUP)
  end (set_log (([Rd B8 USB_REG_CSR0 0; Wr B8 USB_REG_INDEX 0] ++ n) ++ l0) s).
Proof.
  intros Hl Hr Ha. unfold jz4740_handle_ep0. rewrite (select_ep0 _ n s Hl), Hr, Ha.
  change (0 + 0) with 0. change (has 0 USB_CSR0_SENTSTALL) with false.
  change (has 0 (Z.lor USB_CSR0_INPKTRDY USB_CSR0_OUTPKTRDY)) with false. cbn [negb].
  rewrite (bind_ok _ _ _ (ep0state s) (set_log (([Rd B8 USB_REG_CSR0 0; Wr B8 USB_REG_INDEX 0] ++ n) ++ l0) s))
    by reflexivity.
  by destruct (ep0state s).
Qed.

Context (data : list Z) (z : bool).
Hypothesis data_bytes : Forall byte data.
Hypothesis data_len : Z.of_nat (length data) < 2 ^ 31.

#[local] Abbreviation left_ := (left_ data).
#[local] Abbreviation chunk := (chunk data).
#[local] Abbreviation last_chunk := (last_chunk data z).
#[local] Abbreviation sending := (sending r data z).

(** The packet at [a] has been released. *)
Record released (a : Z) (pk : list (list Z * bool)) (gb : list (nat * nat * Z)) (n : list event)
    (s : jz4740_udc) : Prop := {
  rl_log : log s = n ++ l0;
  rl_host : host_sees n true true (pk ++ [(chunk a, left_ a <? 64)]) []
    (if last_chunk a then (0%nat, r, 0) :: gb else gb);
  rl_queue : if last_chunk a then idle0 s else sending (a + 64) s;
  rl_state : ep0state s = if left_ a <? 64 then WAIT_FOR_SETUP
    else if left_ a =? 64 then DATA_STATE_NEED_ZLP else DATA_STATE_XMIT }.

Lemma irq_xmit a n pk gb s :
  sending a s -> 0 <= a < Z.of_nat (length data) -> ep0state s = DATA_STATE_XMIT ->
  host_sees n true true pk [] gb -> log s = n ++ l0 ->
  exists s' n', jz4740_udc_irq hw stack fuel use_dma udc_debug g s = Some (tt, s') /\ released a pk gb n' s'.
Proof.
  intros Hs Ha Hst Hn Hl. pose proof (irq_reads_sees _ _ _ _ _ _ Hn) as Hn1.
  set (n1 := irq_reads ++ n) in *. set (n2 := [Rd B8 USB_REG_CSR0 0; Wr B8 USB_REG_INDEX 0] ++ n1).
  assert (Hn2 : host_sees n2 false true pk [] gb) by (destruct Hn1; by apply select_sees).
  set (s2 := set_log (n2 ++ l0) s).
  destruct (ep0_in_ok hw l0 b Hhost (complete hw fuel use_dma g) r complete_idle_g data z data_bytes data_len
    a n2 true pk gb s2) as (s3 & n3 & H3 & L3 & N3 & X3 & E3); [by apply (sending_ext _ _ _ _ s)|done..|].
  exists s3, n3. split.
  - apply (irq_handles n s tt); [done|]. fold n1. rewrite (handle_data n1) by (done || apply Hn1).
    cbn [ep0state set_log]. rewrite Hst. erewrite bind_ok; [reflexivity|exact H3].
  - split; try done. rewrite E3. cbn [ep0state]. by rewrite <- Hst.
Qed.

Lemma irq_zlp n pk gb s :
  ep0state s = DATA_STATE_NEED_ZLP -> host_sees n true true pk [] gb -> log s = n ++ l0 ->
  exists s' n', jz4740_udc_irq hw stack fuel use_dma udc_debug g s = Some (tt, s') /\ log s' = n' ++ l0 /\
    host_sees n' true true (pk ++ [([], true)]) [] gb /\ ep s' = ep s /\ ep0state s' = WAIT_FOR_SETUP.
Proof.
  intros Hst Hn Hl. pose proof (irq_reads_sees _ _ _ _ _ _ Hn) as Hn1.
  set (n1 := irq_reads ++ n) in *. set (n2 := [Rd B8 USB_REG_CSR0 0; Wr B8 USB_REG_INDEX 0] ++ n1).
  assert (Hn2 : host_sees n2 false true pk [] gb) by (destruct Hn1; by apply select_sees).
  set (s2 := set_log (n2 ++ l0) s).
  destruct (release_packet hw l0 b Hhost true n2 true pk [] gb s2 Hn2 eq_refl) as (l & H3 & N3).
  exists (set_ep0state WAIT_FOR_SETUP (set_log ((l ++ n2) ++ l0) s2)), (l ++ n2). split.
  - apply (irq_handles n s tt); [done|]. fold n1. rewrite (handle_data n1) by (done || apply Hn1).
    cbn [ep0state set_log]. rewrite Hst. unfold jz4740_ep0_in_zlp. erewrite bind_ok; [reflexivity|exact H3].
  - by split_and!.
Qed.

Fixpoint irqs (k : nat) : M unit :=
  match k with
  | O => ret tt
  | S k => jz4740_udc_irq hw stack fuel use_dma udc_debug g ;;; irqs k
  end.

(** The request stays queued when it asks for a zero packet and ends on a full one. *)
Definition unfinished (a : Z) : bool := z && (left_ a mod 64 =? 0).

Lemma irqs_finish k a pk gb n s :
  k = Z.to_nat (left_ a / 64) -> 0 <= a < Z.of_nat (length data) -> released a pk gb n s ->
  exists s' n', irqs k s = Some (tt, s') /\ log s' = n' ++ l0 /\
    packets n' = pk ++ in_packets k (drop (Z.to_nat a) data) /\
    given_back n' = (if unfinished a then gb else (0%nat, r, 0) :: gb) /\
    ep0state s' = WAIT_FOR_SETUP /\ (unfinished a = false -> idle0 s').
Proof.
  revert a pk gb n s. induction k as [|k IH]; intros a pk gb n s Hk Ha [Hl Hn Hq Hst];
    destruct (last_chunk_cases data z a) as [[Hlt Hla]|[He|[Hgt Hla]]].
  - rewrite Hla, (proj2 (Z.ltb_lt _ _) Hlt) in *. exists s, n. split; [done|]. split; [done|].
    assert (Hu : unfinished a = false).
    { unfold unfinished. rewrite Z.mod_small by (unfold UdcControl.left_ in *; lia).
      rewrite (proj2 (Z.eqb_neq (left_ a) 0)) by (unfold UdcControl.left_ in *; lia). apply andb_false_r. }
    rewrite Hu. split_and!; try done; [|apply Hn]. rewrite (hs_packets _ _ _ _ _ _ Hn). cbn [in_packets].
    unfold UdcControl.chunk. rewrite take_ge; [done|]. rewrite length_drop. unfold UdcControl.left_ in Hlt. lia.
  - rewrite He in Hk. discriminate Hk.
  - exfalso. assert (1 <= left_ a / 64) by (apply Z.div_le_lower_bound; lia). lia.
  - exfalso. rewrite Z.div_small in Hk by (unfold UdcControl.left_ in *; lia). discriminate Hk.
  - rewrite He in Hk, Hst, Hn. injection Hk as ->. change (64 <? 64) with false in *. change (64 =? 64) with true in *.
    destruct (irq_zlp _ _ _ _ Hst Hn Hl) as (s' & n' & H1 & L1 & N1 & E1 & S1). exists s', n'.
    cbn [irqs]. rewrite (bind_ok _ _ _ _ _ H1).
    assert (Hu : last_chunk a = negb (unfinished a)).
    { unfold UdcControl.last_chunk, unfinished. rewrite He. by destruct z. }
    rewrite Hu in *. split_and!; try done.
    + rewrite (hs_packets _ _ _ _ _ _ N1), <- app_assoc. cbn [in_packets app]. repeat f_equal.
      symmetry. apply drop_ge. rewrite length_drop. unfold UdcControl.left_ in He. lia.
    + rewrite (hs_given _ _ _ _ _ _ N1). by destruct (unfinished a).
    + intros Hf. rewrite Hf in Hq. destruct Hq as (p & Hp & Hqp). exists p. by rewrite E1.
  - rewrite Hla, (proj2 (Z.ltb_ge (left_ a) 64)), (proj2 (Z.eqb_neq (left_ a) 64)) in * by lia.
    assert (Ha' : 0 <= a + 64 < Z.of_nat (length data)) by (unfold UdcControl.left_ in Hgt; lia).
    destruct (irq_xmit _ _ _ _ s Hq Ha' Hst Hn Hl) as (s1 & n1 & H1 & R1).
    cbn [irqs]. rewrite (bind_ok _ _ _ _ _ H1).
    assert (Hl64 : left_ a = left_ (a + 64) + 1 * 64) by (unfold UdcControl.left_; lia).
    assert (Hk' : k = Z.to_nat (left_ (a + 64) / 64)).
    { rewrite Hl64, Z.div_add in Hk by lia.
      assert (0 <= left_ (a + 64) / 64) by (apply Z.div_pos; unfold UdcControl.left_ in *; lia). lia. }
    destruct (IH _ _ _ n1 s1 Hk' Ha' R1) as (s' & n' & H2 & L2 & P2 & G2 & S2 & I2).
    assert (Hu : unfinished a = unfinished (a + 64)).
    { unfold unfinished. by rewrite Hl64, Z.mod_add by lia. }
    exists s', n'. rewrite Hu. split_and!; try done. rewrite P2, <- app_assoc.
    replace (drop (Z.to_nat (a + 64)) data) with (drop 64 (drop (Z.to_nat a) data))
      by (rewrite drop_drop; f_equal; lia).
    reflexivity.
Qed.

(** ** The set-up packet *)

Record ep0_ready (p : jz4740_ep) : Prop := {
  er_name : is_ep0 p = true;
  er_max : maxpacket p = 64;
  er_desc : desc p = None;
  er_queue : queue p = [];
  er_stopped : stopped p = false;
  er_address : ep_index p = 0;
  er_type : ep_type p = ep_control;
  er_fifo : fifo p = USB_FIFO_EP0 }.

(** The request as the gadget driver has filled it in. *)
Record filled (q : usb_request) : Prop := {
  fi_buf : buf q = Some data;
  fi_len : r_length q = Z.of_nat (length data);
  fi_zero : zero q = z;
  fi_complete : has_complete q = true }.

(** Nothing has happened yet for the host. *)
Record untouched (n : list event) : Prop := {
  un_ready : in_ready n = false;
  un_acked : acked n = false;
  un_packets : packets n = [];
  un_fifo : in_fifo n = [];
  un_given : given_back n = [] }.

Lemma untouched_select n : untouched n ->
  host_sees ([Rd B8 USB_REG_CSR0 1; Wr B8 USB_REG_INDEX 0] ++ n) false false [] [] [].
Proof. intros [? ? ? ? ?]. by apply select_sees. Qed.

Lemma ep0_kick_ok p q n s :
  (0 < length data)%nat -> ep s !! 0%nat = Some p -> queue p = [r] -> maxpacket p = 64 ->
  fifo p = USB_FIFO_EP0 -> ep_is_in p = true -> reqs s !! r = Some q -> filled q ->
  status q = - EINPROGRESS -> actual q = 0 -> untouched n -> log s = n ++ l0 ->
  exists s' n', jz4740_ep0_kick hw (complete hw fuel use_dma g) 0 s = Some (tt, s') /\ released 0 [] [] n' s'.
Proof.
  intros Hpos Hp Hqp Hmax Hf Hin Hq [Hbuf Hlen Hz _] Hst Ha Hn Hl. unfold jz4740_ep0_kick.
  rewrite (select_ep0 (fun _ => _) n s Hl), (un_ready _ Hn), (un_acked _ Hn). change (1 + 0) with 1.
  set (n1 := [Rd B8 USB_REG_CSR0 1; Wr B8 USB_REG_INDEX 0] ++ n).
  pose proof (untouched_select n Hn) as N1. fold n1 in N1.
  destruct (set_csr0 hw l0 b Hhost 64 n1 _ _ _ _ _ (set_log (n1 ++ l0) s) ltac:(set_solver) N1 eq_refl)
    as (l & H2 & N2). cbn in N2.
  rewrite (bind_ok _ _ _ _ _ H2). set (s2 := set_log ((l ++ n1) ++ l0) _).
  rewrite (bind_ok _ _ s2 p s2) by (unfold get_ep; cbn; by rewrite Hp). rewrite Hin.
  erewrite bind_ok by reflexivity. set (s3 := set_ep0state DATA_STATE_XMIT s2).
  destruct (ep0_in_ok hw l0 b Hhost (complete hw fuel use_dma g) r complete_idle_g data z data_bytes data_len
    0 (l ++ n1) true [] [] s3) as (s4 & n4 & H4 & L4 & N4 & X4 & E4); try done.
  { split; [exists p; by split_and!|exists q; by split_and!]. }
  { lia. }
  exists s4, n4. split; [by rewrite (bind_ok _ _ _ _ _ H4)|]. by split.
Qed.

Lemma queue_ok p q n s :
  (0 < length data)%nat -> driver s = true -> speed s <> USB_SPEED_UNKNOWN ->
  ep s !! 0%nat = Some p -> ep0_ready p -> ep_is_in p = true -> reqs s !! r = Some q -> filled q ->
  r ∉ pending s -> untouched n -> log s = n ++ l0 ->
  exists s' n', jz4740_queue hw use_dma (complete hw fuel use_dma g) (Some 0%nat) (Some r) s = Some (0, s') /\
    released 0 [] [] n' s'.
Proof.
  intros Hpos Hd Hs Hp [R1 R2 R3 R4 R5 R6 R7 R8] Hin Hq Hfill Hr Hn Hl. unfold jz4740_queue.
  rewrite (bind_ok _ _ s q s) by (unfold get_req; by rewrite Hq).
  rewrite (bind_ok _ _ s (pending s) s) by done.
  rewrite (fi_complete _ Hfill), (fi_buf _ Hfill), (bool_decide_eq_false_2 _ Hr). cbn [negb orb is_Some_b].
  rewrite (bind_ok _ _ s p s) by (unfold get_ep; by rewrite Hp). rewrite R1, andb_false_r.
  rewrite (bind_ok _ _ s (driver s) s) by done. rewrite (bind_ok _ _ s (speed s) s) by done.
  rewrite Hd, (proj2 (Z.eqb_neq _ _) Hs). cbn [negb orb].
  erewrite bind_ok by reflexivity. erewrite bind_ok by reflexivity.
  unfold kickstart. rewrite R4, R5, R6. cbn [is_nil negb andb]. change (0 =? 0) with true. cbv iota.
  set (q1 := set_actual 0 (set_status (- EINPROGRESS) q)). set (s1 := set_log (Accept r :: _) _).
  set (p1 := set_queue (queue p ++ [r]) p). set (s2 := set_eps (<[0%nat := p1]> (ep s1)) s1).
  destruct (ep0_kick_ok p1 q1 (Accept r :: n) s2) as (s3 & n3 & H3 & X3); try done.
  { cbn. apply list_lookup_insert_eq. by eapply lookup_lt_Some. }
  { cbn. by rewrite R4. }
  { cbn. apply lookup_insert_eq. }
  { destruct Hfill. by split. }
  { destruct Hn. by split. }
  { cbn. by rewrite Hl. }
  exists s3, n3. split; [|done].
  rewrite (bind_ok _ _ s1 false s3); [reflexivity|].
  rewrite (bind_ok _ _ s1 tt s2) by (apply (upd_ep_ok 0 p); exact Hp).
  by rewrite (bind_ok _ _ s2 tt s3) by exact H3.
Qed.

(** Reads of the FIFO. *)
Definition fifo_rds (l : list event) : Prop := Forall (fun x => exists v, x = Rd B8 USB_FIFO_EP0 v) l.

Lemma fifo_rds_untouched l n : fifo_rds l -> untouched n -> untouched (l ++ n).
Proof.
  induction 1 as [|x l (v & ->) _ IH]; [done|]. intros Hn. destruct (IH Hn) as [H1 H2 H3 H4 H5].
  by split; cbn [app]; host_step.
Qed.

Lemma fifo_read_loop_ok k n s :
  log s = n ++ l0 ->
  exists l, fifo_read_loop hw k USB_FIFO_EP0 s =
      Some (map (fun i => u8 (nth i b 0)) (seq (fifo_reads n) k), set_log ((l ++ n) ++ l0) s) /\ fifo_rds l.
Proof.
  revert n s. induction k as [|k IH]; intros n s Hl.
  { exists []. split; [|constructor]. cbn [fifo_read_loop seq map app]. rewrite <- Hl. by destruct s. }
  cbn [fifo_read_loop]. erewrite bind_ok by apply usb_read_ok. rewrite Hl, (h_fifo _ _ _ Hhost n).
  set (v := trunc B8 _).
  destruct (IH (Rd B8 USB_FIFO_EP0 v :: n) (set_log (Rd B8 USB_FIFO_EP0 v :: n ++ l0) s) eq_refl) as (l & H & Hf).
  rewrite (bind_ok _ _ _ _ _ H). exists (l ++ [Rd B8 USB_FIFO_EP0 v]). split.
  - cbn [fifo_reads]. change (USB_FIFO_EP0 =? USB_FIFO_EP0) with true. cbn [seq map].
    replace ((l ++ [Rd B8 USB_FIFO_EP0 v]) ++ n) with (l ++ Rd B8 USB_FIFO_EP0 v :: n) by (by rewrite <- app_assoc).
    reflexivity.
  - apply Forall_app. split; [done|]. repeat constructor. by exists v.
Qed.

Hypothesis setup_len : length b = 8%nat.
Hypothesis setup_bytes : Forall byte b.

Lemma fifo_read_8 n p s :
  ep s !! 0%nat = Some p -> fifo p = USB_FIFO_EP0 -> fifo_reads n = 0%nat -> untouched n -> log s = n ++ l0 ->
  exists n', jz4740_fifo_read hw stack 0 8 s = Some (b, set_log (n' ++ l0) s) /\ untouched n'.
Proof.
  intros Hp Hf Hn0 Hn Hl. unfold jz4740_fifo_read.
  rewrite (bind_ok _ _ s p s) by (unfold get_ep; by rewrite Hp).
  erewrite bind_ok by apply usb_read_ok. rewrite Hl, (h_count _ _ _ Hhost). change (trunc B16 8) with 8.
  change (8 <? 8) with false. cbv iota. rewrite Hf. set (n1 := Rd B16 USB_REG_OUTCOUNT 8 :: n).
  destruct (fifo_read_loop_ok (Z.to_nat 8) n1 (set_log (n1 ++ l0) s) eq_refl) as (l & H & Hr).
  change (Rd B16 USB_REG_OUTCOUNT 8 :: n ++ l0) with (n1 ++ l0).
  rewrite (bind_ok _ _ _ _ _ H). erewrite bind_ok by reflexivity.
  exists (l ++ n1). split.
  - assert (Hb : map (fun i => u8 (nth i b 0)) (seq (fifo_reads n1) (Z.to_nat 8)) = b).
    { subst n1. cbn [fifo_reads]. change (USB_REG_OUTCOUNT =? USB_FIFO_EP0) with false. rewrite Hn0.
      by apply read_back. }
    rewrite Hb, setup_len. cbn. by rewrite app_nil_r.
  - apply fifo_rds_untouched; [done|]. destruct Hn. by split; host_step.
Qed.

Context (i : Z).
Hypothesis setup_in : has (bRequestType (ctrl_of b)) USB_DIR_IN = true.
Hypothesis setup_other : bRequest (ctrl_of b) ∉ [1; 3; 5; 9; 11].
Hypothesis setup_wlength : wLength (ctrl_of b) <> 0.
Hypothesis setup_queues : forall s, g_setup g (ctrl_of b) s = ([Queue (Some 0%nat) (Some r)], i).
Hypothesis setup_accepts : 0 <= i.

Lemma setup_own_other s : setup_own hw (ctrl_of b) s = Some (false, s).
Proof.
  unfold setup_own. assert (Hno : forall x, x ∈ [1; 3; 5; 9; 11] -> (bRequest (ctrl_of b) =? x) = false)
    by (intros x Hx; apply Z.eqb_neq; intros E; by subst x).
  unfold USB_REQ_SET_ADDRESS, USB_REQ_SET_CONFIGURATION, USB_REQ_SET_INTERFACE, USB_REQ_CLEAR_FEATURE,
    USB_REQ_SET_FEATURE. by rewrite !Hno by set_solver.
Qed.

Lemma in_direction p : ep_index p = 0 ->
  ep_is_in (set_direction (ctrl_of b) p) = true /\ ep_index (set_direction (ctrl_of b) p) = 0.
Proof.
  unfold set_direction, ep_is_in, ep_index. cbn [bEndpointAddress set_bEndpointAddress]. rewrite setup_in.
  intros H. split.
  - apply Z.eqb_eq. rewrite Z.land_lor_distr_l, Z.land_diag. apply Z.bits_inj'. intros k Hk.
    rewrite Z.lor_spec, Z.land_spec. by destruct (Z.testbit USB_DIR_IN k), (Z.testbit (bEndpointAddress p) k).
  - rewrite Z.land_lor_distr_l, H. reflexivity.
Qed.

Lemma ep0_setup_ok p q n s :
  (0 < length data)%nat -> driver s = true -> speed s <> USB_SPEED_UNKNOWN -> ep s !! 0%nat = Some p ->
  ep0_ready p -> reqs s !! r = Some q -> filled q -> r ∉ pending s -> fifo_reads n = 0%nat -> untouched n ->
  log s = n ++ l0 ->
  exists s' n', jz4740_ep0_setup hw stack fuel use_dma g s = Some (tt, s') /\ released 0 [] [] n' s'.
Proof.
  intros Hpos Hd Hs Hp Hready Hq Hfill Hr Hn0 Hn Hl. pose proof Hready as [R1 R2 R3 R4 R5 R6 R7 R8].
  unfold jz4740_ep0_setup. rewrite (bind_ok _ _ s tt s).
  2: { unfold nuke. rewrite (bind_ok _ _ s tt s).
       2: { unfold flush. rewrite (bind_ok _ _ s p s) by (unfold get_ep; by rewrite Hp). by rewrite R7. }
       rewrite (bind_ok _ _ s tt s).
       2: { destruct fuel; cbn [nuke_loop]; rewrite (bind_ok _ _ s p s) by (unfold get_ep; by rewrite Hp);
            by rewrite R4. }
       rewrite (bind_ok _ _ s p s) by (unfold get_ep; by rewrite Hp). by rewrite R3. }
  destruct (fifo_read_8 n p s Hp R8 Hn0 Hn Hl) as (n1 & H1 & Hn1). rewrite (bind_ok _ _ _ _ _ H1). cbv zeta.
  rewrite (bind_ok _ _ _ _ _ (upd_ep_ok 0 p (set_direction (ctrl_of b)) (set_log (n1 ++ l0) s) Hp)).
  set (p2 := set_direction (ctrl_of b) p). set (s2 := set_eps _ _).
  rewrite (bind_ok _ _ _ _ _ (setup_own_other s2)). rewrite (bind_ok _ _ s2 true s2) by (unfold gets; by rewrite <- Hd).
  cbn [orb negb]. erewrite bind_ok by reflexivity. set (s3 := set_log (Setup _ :: _) _).
  rewrite (bind_ok _ _ s3 ([Queue (Some 0%nat) (Some r)], i) s3) by (unfold gets; by rewrite setup_queues).
  cbn [fst snd]. destruct (in_direction p R6) as [Hin Hix].
  destruct (queue_ok p2 q (Setup (ctrl_of b) :: n1) s3) as (s4 & n4 & H4 & X4); try done.
  { cbn. by eapply list_lookup_insert_eq, lookup_lt_Some. }
  { unfold pending. cbn [ep set_log set_eps s3 s2]. by rewrite (map_queue_insert 0 (set_direction (ctrl_of b)) p). }
  { destruct Hn1. by split. }
  exists s4, n4. split; [|done]. unfold gadget_runs. cbn [run_calls perform].
  rewrite (bind_ok _ _ s3 tt s4).
  - rewrite (proj2 (Z.ltb_ge i 0)) by lia. rewrite (proj2 (Z.eqb_neq _ 0)) by done. reflexivity.
  - rewrite (bind_ok _ _ s3 tt s4) by (by rewrite (bind_ok _ _ _ _ _ H4)). reflexivity.
Qed.

Lemma setup_irq p q s :
  (0 < length data)%nat -> driver s = true -> speed s <> USB_SPEED_UNKNOWN -> ep0state s = WAIT_FOR_SETUP ->
  ep s !! 0%nat = Some p -> ep0_ready p -> reqs s !! r = Some q -> filled q -> r ∉ pending s -> log s = l0 ->
  exists s' n', jz4740_udc_irq hw stack fuel use_dma udc_debug g s = Some (tt, s') /\ released 0 [] [] n' s'.
Proof.
  intros Hpos Hd Hs Hst Hp Hready Hq Hfill Hr Hl.
  set (n1 := irq_reads). set (n2 := [Rd B8 USB_REG_CSR0 1; Wr B8 USB_REG_INDEX 0] ++ n1).
  destruct (ep0_setup_ok p q n2 (set_log (n2 ++ l0) s)) as (s' & n' & H & X); try done.
  exists s', n'. split; [|done]. apply (irq_handles [] s tt); [done|]. rewrite app_nil_r. fold n1.
  unfold jz4740_handle_ep0. rewrite (select_ep0 _ n1 (set_log (n1 ++ l0) s) eq_refl).
  change (acked n1) with false. change (in_ready n1) with false. cbv iota. change (1 + 0) with 1.
  change (has 1 USB_CSR0_SENTSTALL) with false. change (has 1 USB_CSR0_SETUPEND) with false.
  change (has 1 (Z.lor USB_CSR0_INPKTRDY USB_CSR0_OUTPKTRDY)) with true.
  change (has 1 USB_CSR0_OUTPKTRDY) with true. cbn [negb when]. cbv iota.
  erewrite bind_ok by reflexivity. erewrite bind_ok by reflexivity. cbn [ep0state set_log]. rewrite Hst. exact H.
Qed.

End Control.

(** ** A control read *)

(** The set-up packet [b] asks for data, is none that the driver handles itself,
    and makes the gadget driver queue request [r] on endpoint 0; its completion
    needs nothing of the driver. *)
Record answered_with (g : gadget) (b : list Z) (r : nat) : Prop := {
  aw_len : length b = 8%nat;
  aw_bytes : Forall byte b;
  aw_in : has (bRequestType (ctrl_of b)) USB_DIR_IN = true;
  aw_other : bRequest (ctrl_of b) ∉ [1; 3; 5; 9; 11];
  aw_wlength : wLength (ctrl_of b) <> 0;
  aw_queues : exists i, 0 <= i /\ forall s, g_setup g (ctrl_of b) s = ([Queue (Some 0%nat) (Some r)], i);
  aw_complete : forall s, g_complete g 0 r s = [] }.

(** The device is up, endpoint 0 idle, and request [r] holds [data]. *)
Record can_answer (r : nat) (data : list Z) (z : bool) (s : jz4740_udc) : Prop := {
  ca_driver : driver s = true;
  ca_speed : speed s <> USB_SPEED_UNKNOWN;
  ca_state : ep0state s = WAIT_FOR_SETUP;
  ca_ep : exists p, ep s !! 0%nat = Some p /\ ep0_ready p;
  ca_req : exists q, reqs s !! r = Some q /\ filled data z q;
  ca_free : r ∉ pending s }.


(** The packets are the data, all but the last are full, and the last is shorter. *)
Lemma usb_packets_data data :
  concat (map fst (usb_packets data)) = data /\
  exists full rest, usb_packets data = map (fun d => (d, false)) full ++ [(rest, true)] /\
    Forall (fun d => length d = 64%nat) full /\ (length rest < 64)%nat.
Proof.
  unfold usb_packets. remember (length data / 64)%nat as k eqn:Hk. revert data Hk.
  induction k as [|k IH]; intros data Hk.
  { cbn. rewrite app_nil_r. split; [done|]. exists [], data. split_and!; try done.
    symmetry in Hk. apply Nat.div_small_iff in Hk; lia. }
  assert (H64 : (64 <= length data)%nat).
  { destruct (Nat.lt_ge_cases (length data) 64); [|done]. rewrite Nat.div_small in Hk by done. lia. }
  destruct (IH (drop 64 data)) as (H1 & full & rest & H2 & H3 & H4).
  { rewrite length_drop. replace (length data) with (length data - 64 + 1 * 64)%nat in Hk by lia.
    rewrite Nat.div_add in Hk by lia. lia. }
  cbn [in_packets map concat fst]. rewrite H1, take_drop. split; [done|].
  exists (take 64 data :: full), rest. rewrite H2. split_and!; try done. constructor; [|done].
  rewrite length_take. lia.
Qed.

(** ** Concrete runs *)

(** The host of [control_host], as a function. *)
Definition host (b : list Z) (n : list event) (port : Z) : Z :=
  if port =? USB_REG_INTRIN then USB_INTR_EP0
  else if port =? USB_REG_INDEX then default 0 (index_of n)
  else if port =? USB_REG_OUTCOUNT then 8
  else if port =? USB_FIFO_EP0 then nth (fifo_reads n) b 0
  else if port =? USB_REG_CSR0 then
    (if acked n then 0 else USB_CSR0_OUTPKTRDY) + (if in_ready n then USB_CSR0_INPKTRDY else 0)
  else 0.

Lemma host_ok b : control_host (host b) [] b.
Proof. split; intros; rewrite app_nil_r; try reflexivity. unfold host. ports. by rewrite H. Qed.

(** GET_DESCRIPTOR, answered with request 7. *)
Definition get_descriptor : list Z := [128; 6; 0; 1; 0; 0; 64; 0].
Definition answer7 : gadget :=
  Gadget (fun _ _ _ => []) (fun _ _ => ([Queue (Some 0%nat) (Some 7%nat)], 64)) (fun _ => ([], 0))
    (fun _ => []) (fun _ => []).
Definition desc64 : list Z := seqZ 0 64.
Definition configured (z : bool) : jz4740_udc :=
  Udc true true USB_SPEED_FULL WAIT_FOR_SETUP 1 (ep udc_dev)
    {[7%nat := Request (Some desc64) 0 64 z true 0 0]} [].

Lemma answer7_ok : answered_with answer7 get_descriptor 7.
Proof.
  split; try done.
  - repeat constructor; discriminate.
  - by apply (bool_decide_unpack (_ ∉ _)).
  - by exists 64.
Qed.

Lemma configured_ok : can_answer 7 desc64 false (configured false).
Proof.
  split; try done; [eexists; split; [reflexivity|by split]| |by apply (bool_decide_unpack (_ ∉ _))].
  eexists. split; [apply lookup_singleton_eq|by split].
Qed.


(** With [zero] set the same transfer ends without giving the request back; the
    next set-up packet will, with [-EPROTO]. *)
Example zero_flag_not_given_back :
  option_map (fun x => (given_back (log x.2), pending x.2, ep0state x.2))
    (irqs (host get_descriptor) (fun _ _ => 0) 1 true false answer7 2 (configured true)) =
  Some ([], [7%nat], WAIT_FOR_SETUP).
Proof. vm_compute. reflexivity. Qed.

(** SET_FEATURE(HALT) for endpoint 0x81, the IN endpoint 1, halts [ep[1]], the
    OUT endpoint. *)
Example halt_ignores_direction :
  option_map (fun x => map (fun p => (bEndpointAddress p, stopped p)) (ep x.2))
    (setup_own (fun _ _ => 0) (Ctrl USB_RECIP_ENDPOINT USB_REQ_SET_FEATURE 0 129 0)
       (set_eps (map (set_desc (Some bulk_out)) (ep udc_dev)) (configured false))) =
  Some [(0, false); (1, true); (129, false); (130, false)].
Proof. vm_compute. reflexivity. Qed.
