(* ===== verification/MmcDriver.v ===== *)
(** * MMC/SD host driver
      (linux-2.6.24.3/drivers/mmc/host/jz_mmc.c, with the request functions of
      drivers/mmc/core/core.c)

    A request is a number; its command, data and stop command are in a store, so
    that the driver's pointers [mrq], [cmd] and [data] name one object.  When a
    request is done it leaves the store: the caller's stack frame that held it
    may be gone, and naming it again is undefined.  Every access to a register
    of the controller is an event of a log, latest first, and what a register
    holds when it is read is any function of the log ([hw]).  The channels of the
    DMA controller are those of Dma.v, the clock registers those of Cpufreq.v.
    [None] is what the code leaves undefined.

    The configuration is that of the Dingoo (JZ4740 with DMA); [bus_1] stands for
    CONFIG_JZ_MMC_BUS_1.  [udelay] and [printk] are left out, but for the message
    of the core that a request is tried again ([Retry]).

    An entry point is one step.  [jz_mmc_request] and [jz_mmc_irq] take no lock;
    what keeps them apart is that the controller's interrupts are masked while a
    command is sent, and that the only one ever enabled, at the end of the command,
    is that of a finished data phase: for a read nothing is left to do by then, and
    a write cannot finish before its transfer is set up.  A card that is removed
    while a command is sent is removed before or after that command here. *)

From S2P Require Import Prelude.
From S2P Require Import Cpufreq.
From S2P Require Import Dma.

(** ** Constants *)

Definition ENXIO : Z := 6.
Definition ENOMEM : Z := 12.
Definition EBUSY : Z := 16.
Definition EILSEQ : Z := 88.
Definition ETIMEDOUT : Z := 145.

Definition MSC_STRPCL_RESET : Z := 8.
Definition MSC_STRPCL_START_OP : Z := 4.
Definition MSC_STRPCL_CLOCK_CONTROL_STOP : Z := 1.
Definition MSC_STRPCL_CLOCK_CONTROL_START : Z := 2.
Definition MSC_STAT_IS_RESETTING : Z := 2 ^ 15.
Definition MSC_STAT_END_CMD_RES : Z := 2 ^ 11.
Definition MSC_STAT_CLK_EN : Z := 2 ^ 8.
Definition MSC_STAT_CRC_RES_ERR : Z := 2 ^ 5.
Definition MSC_STAT_CRC_READ_ERROR : Z := 2 ^ 4.
Definition MSC_STAT_CRC_WRITE_ERROR : Z := 2 ^ 2.
Definition MSC_STAT_TIME_OUT_RES : Z := 2 ^ 1.
Definition MSC_STAT_TIME_OUT_READ : Z := 2 ^ 0.
Definition MSC_CMDAT_BUS_WIDTH_1BIT : Z := 0.
Definition MSC_CMDAT_BUS_WIDTH_4BIT : Z := 2 ^ 10.
Definition MSC_CMDAT_DMA_EN : Z := 2 ^ 8.
Definition MSC_CMDAT_INIT : Z := 2 ^ 7.
Definition MSC_CMDAT_BUSY : Z := 2 ^ 6.
Definition MSC_CMDAT_STREAM_BLOCK : Z := 2 ^ 5.
Definition MSC_CMDAT_WRITE : Z := 2 ^ 4.
Definition MSC_CMDAT_DATA_EN : Z := 2 ^ 3.
Definition MSC_CMDAT_RESPONSE_R1 : Z := 1.
Definition MSC_CMDAT_RESPONSE_R2 : Z := 2.
Definition MSC_CMDAT_RESPONSE_R3 : Z := 3.
Definition MSC_IMASK_DATA_TRAN_DONE : Z := 2 ^ 0.
Definition MSC_IREG_END_CMD_RES : Z := 2 ^ 2.
Definition MSC_IREG_PRG_DONE : Z := 2 ^ 1.
Definition MSC_IREG_DATA_TRAN_DONE : Z := 2 ^ 0.

Definition MMC_RSP_PRESENT : Z := 2 ^ 0.
Definition MMC_RSP_136 : Z := 2 ^ 1.
Definition MMC_RSP_CRC : Z := 2 ^ 2.
Definition MMC_RSP_BUSY : Z := 2 ^ 3.
Definition MMC_RSP_OPCODE : Z := 2 ^ 4.
Definition MMC_RSP_R1 : Z := Z.lor MMC_RSP_PRESENT (Z.lor MMC_RSP_CRC MMC_RSP_OPCODE).
Definition MMC_RSP_R2 : Z := Z.lor MMC_RSP_PRESENT (Z.lor MMC_RSP_136 MMC_RSP_CRC).
Definition MMC_RSP_R3 : Z := MMC_RSP_PRESENT.
Definition MMC_DATA_WRITE : Z := 2 ^ 8.
Definition MMC_DATA_READ : Z := 2 ^ 9.
Definition MMC_DATA_STREAM : Z := 2 ^ 10.

Definition MMC_ALL_SEND_CID : Z := 2.
Definition SD_IO_SEND_OP_COND : Z := 5.
Definition MMC_SEND_CSD : Z := 9.
Definition MMC_SEND_CID : Z := 10.
Definition MMC_WRITE_BLOCK : Z := 24.
Definition MMC_WRITE_MULTIPLE_BLOCK : Z := 25.

Definition MMC_POWER_ON : Z := 2.
Definition MMC_BUS_WIDTH_4 : Z := 2.
Definition MMC_BUS_WIDTH_8 : Z := 4.
Definition MMC_CLOCK_SLOW : Z := 400000.
Definition SD_CLOCK_FAST : Z := 24000000.
Definition PAGE_SIZE : Z := 4096.
Definition DMA_ID_MSC_TX : Z := 6.
Definition DMA_ID_MSC_RX : Z := 7.
Definition DMA_TO_DEVICE : Z := 1.
Definition DMA_FROM_DEVICE : Z := 2.

(** ** State *)

(** [error] and [resp] are unsigned. *)
Record mmc_command := Command {
  opcode : Z;
  arg : Z;
  resp : list Z;
  flags : Z;
  retries : Z;
  error : Z }.

(** [phys] is what [dma_map_sg] puts in [dma_address]. *)
Record scatterlist := Sg { phys : Z; sg_length : Z; sg_offset : Z }.

Record mmc_data := Data {
  blksz : Z;
  blocks : Z;
  d_error : Z;
  d_flags : Z;
  bytes_xfered : Z;
  sg_len : Z;
  sg : list scatterlist }.

Record mmc_request := Request {
  r_cmd : mmc_command;
  r_data : option mmc_data;
  r_stop : option mmc_command }.

(** A pointer to the command or to the stop command of a request. *)
Inductive cmd_ptr := Main (id : nat) | Stop (id : nat).

Inductive reg := STRPCL | STAT | CLKRT | CMDAT | BLKLEN | NOB | IMASK | IREG | CMD | ARG | RES | PIN_CD.

(** Register accesses, cache and DMA operations, calls of the MMC core. *)
Inductive event :=
  | Rd (r : reg) (v : Z)
  | Wr (r : reg) (v : Z)
  | Map (n dir : Z)
  | Unmap (n dir : Z)
  | Writeback (addr len : Z)
  | Start_dma (chan phyaddr count mode : Z)
  | Wait_edge (rising : bool)
  | Detect_change (delay : Z)
  | Retry (id : nat) (e : Z)           (** a request has failed with [e] and is tried again *)
  | Done (id : nat) (r : mmc_request).

(** [dma_len] and [dma_dir] are host->dma.len and host->dma.dir; the fields
    host->dma_len and host->dma_dir are never set. *)
Record jz_mmc_host := Host {
  mrq : option nat;
  cmd : option cmd_ptr;
  data : option nat;
  cmdat : Z;
  imask : Z;
  power_mode : Z;
  dma_len : Z;
  dma_dir : Z;
  sg_cpu : list (Z * Z) }.

(** The host with the variables of the file, the requests, the DMA controller,
    the clock registers and the log. *)
Record state := State {
  host : jz_mmc_host;
  r_type : Z;
  mmc_slot_enable : bool;
  rxdmachan : Z;
  txdmachan : Z;
  reqs : gmap nat mmc_request;
  dmac : dma;
  cpm : Cpufreq.hw;
  log : list event }.

Definition set_host (x : jz_mmc_host) (s : state) : state :=
  State x (r_type s) (mmc_slot_enable s) (rxdmachan s) (txdmachan s) (reqs s) (dmac s) (cpm s) (log s).
Definition set_r_type (x : Z) (s : state) : state :=
  State (host s) x (mmc_slot_enable s) (rxdmachan s) (txdmachan s) (reqs s) (dmac s) (cpm s) (log s).
Definition set_slot (x : bool) (s : state) : state :=
  State (host s) (r_type s) x (rxdmachan s) (txdmachan s) (reqs s) (dmac s) (cpm s) (log s).
Definition set_reqs (x : gmap nat mmc_request) (s : state) : state :=
  State (host s) (r_type s) (mmc_slot_enable s) (rxdmachan s) (txdmachan s) x (dmac s) (cpm s) (log s).
Definition set_dmac (x : dma) (s : state) : state :=
  State (host s) (r_type s) (mmc_slot_enable s) (rxdmachan s) (txdmachan s) (reqs s) x (cpm s) (log s).
Definition set_cpm (x : Cpufreq.hw) (s : state) : state :=
  State (host s) (r_type s) (mmc_slot_enable s) (rxdmachan s) (txdmachan s) (reqs s) (dmac s) x (log s).
Definition set_log (x : list event) (s : state) : state :=
  State (host s) (r_type s) (mmc_slot_enable s) (rxdmachan s) (txdmachan s) (reqs s) (dmac s) (cpm s) x.

Definition set_mrq (x : option nat) (h : jz_mmc_host) : jz_mmc_host :=
  Host x (cmd h) (data h) (cmdat h) (imask h) (power_mode h) (dma_len h) (dma_dir h) (sg_cpu h).
Definition set_cmd (x : option cmd_ptr) (h : jz_mmc_host) : jz_mmc_host :=
  Host (mrq h) x (data h) (cmdat h) (imask h) (power_mode h) (dma_len h) (dma_dir h) (sg_cpu h).
Definition set_data (x : option nat) (h : jz_mmc_host) : jz_mmc_host :=
  Host (mrq h) (cmd h) x (cmdat h) (imask h) (power_mode h) (dma_len h) (dma_dir h) (sg_cpu h).
Definition set_cmdat (x : Z) (h : jz_mmc_host) : jz_mmc_host :=
  Host (mrq h) (cmd h) (data h) x (imask h) (power_mode h) (dma_len h) (dma_dir h) (sg_cpu h).
Definition set_imask (x : Z) (h : jz_mmc_host) : jz_mmc_host :=
  Host (mrq h) (cmd h) (data h) (cmdat h) x (power_mode h) (dma_len h) (dma_dir h) (sg_cpu h).
Definition set_power_mode (x : Z) (h : jz_mmc_host) : jz_mmc_host :=
  Host (mrq h) (cmd h) (data h) (cmdat h) (imask h) x (dma_len h) (dma_dir h) (sg_cpu h).
Definition set_dma (len dir : Z) (h : jz_mmc_host) : jz_mmc_host :=
  Host (mrq h) (cmd h) (data h) (cmdat h) (imask h) (power_mode h) len dir (sg_cpu h).
Definition set_sg_cpu (x : list (Z * Z)) (h : jz_mmc_host) : jz_mmc_host :=
  Host (mrq h) (cmd h) (data h) (cmdat h) (imask h) (power_mode h) (dma_len h) (dma_dir h) x.

Definition set_resp (x : list Z) (c : mmc_command) : mmc_command :=
  Command (opcode c) (arg c) x (flags c) (retries c) (error c).
Definition set_retries (x : Z) (c : mmc_command) : mmc_command :=
  Command (opcode c) (arg c) (resp c) (flags c) x (error c).
Definition set_error (x : Z) (c : mmc_command) : mmc_command :=
  Command (opcode c) (arg c) (resp c) (flags c) (retries c) (u32 x).
Definition set_d_error (x : Z) (d : mmc_data) : mmc_data :=
  Data (blksz d) (blocks d) (u32 x) (d_flags d) (bytes_xfered d) (sg_len d) (sg d).
Definition set_bytes_xfered (x : Z) (d : mmc_data) : mmc_data :=
  Data (blksz d) (blocks d) (d_error d) (d_flags d) x (sg_len d) (sg d).

(** ** A state monad with failure *)

Definition M (A : Type) : Type := state -> option (A * state).

Definition ret {A} (x : A) : M A := fun s => Some (x, s).
Definition bind {A C} (m : M A) (k : A -> M C) : M C :=
  fun s => match m s with Some (x, s') => k x s' | None => None end.
Definition fail {A} : M A := fun _ => None.
Definition gets {A} (f : state -> A) : M A := fun s => Some (f s, s).
Definition modify (f : state -> state) : M unit := fun s => Some (tt, f s).
Definition lift {A} (o : option A) : M A := fun s => match o with Some x => Some (x, s) | None => None end.

Declare Scope mmc_scope.
Delimit Scope mmc_scope with mmc.
Bind Scope mmc_scope with M.
Notation "x <- m ;; k" := (bind m (fun x => k))
  (at level 100, m at next level, right associativity) : mmc_scope.
Notation "m ;;; k" := (bind m (fun _ => k)) (at level 100, right associativity) : mmc_scope.
#[global] Open Scope mmc_scope.

Definition when (b : bool) (m : M unit) : M unit := if b then m else ret tt.
Definition has (x bit : Z) : bool := negb (Z.land x bit =? 0).
Definition emit (x : event) : M unit := modify (fun s => set_log (x :: log s) s).
Definition upd_host (f : jz_mmc_host -> jz_mmc_host) : M unit := modify (fun s => set_host (f (host s)) s).
Definition upd_dma (f : dma -> option dma) : M unit := d <- gets dmac ;; d <- lift (f d) ;; modify (set_dmac d).
Definition get_req (id : nat) : M mmc_request := rs <- gets reqs ;; lift (rs !! id).
Definition put_req (id : nat) (r : mmc_request) : M unit := modify (fun s => set_reqs (<[id := r]> (reqs s)) s).

Definition get_cmd (p : cmd_ptr) : M mmc_command :=
  match p with
  | Main id => r <- get_req id ;; ret (r_cmd r)
  | Stop id => r <- get_req id ;; lift (r_stop r)
  end.

Definition upd_cmd (p : cmd_ptr) (f : mmc_command -> mmc_command) : M unit :=
  match p with
  | Main id => r <- get_req id ;; put_req id (Request (f (r_cmd r)) (r_data r) (r_stop r))
  | Stop id => r <- get_req id ;; c <- lift (r_stop r) ;; put_req id (Request (r_cmd r) (r_data r) (Some (f c)))
  end.

Definition get_data (id : nat) : M mmc_data := r <- get_req id ;; lift (r_data r).
Definition upd_data (id : nat) (f : mmc_data -> mmc_data) : M unit :=
  r <- get_req id ;; d <- lift (r_data r) ;; put_req id (Request (r_cmd r) (Some (f d)) (r_stop r)).

(** At most [p] rounds of [f], which goes on from [inl] and ends with [inr]. *)
Fixpoint rounds {A B} (p : positive) (f : A -> M (A + B)) (a : A) : M (A + B) :=
  match p with
  | xH => f a
  | xO q => r <- rounds q f a ;; match r with inl a => rounds q f a | inr b => ret (inr b) end
  | xI q =>
      r <- f a ;;
      match r with
      | inl a => r <- rounds q f a ;; match r with inl a => rounds q f a | inr b => ret (inr b) end
      | inr b => ret (inr b)
      end
  end.

Definition ended {A B} (r : A + B) : M B := match r with inl _ => fail | inr b => ret b end.

Section Driver.
Context (hw : list event -> reg -> Z) (bus_1 : bool).

(** ** Registers *)

Definition trunc (r : reg) (v : Z) : Z :=
  match r with
  | STAT | CMDAT | ARG => u32 v
  | CMD => u8 v
  | PIN_CD => v mod 2
  | _ => u16 v
  end.

Definition readr (r : reg) : M Z :=
  l <- gets log ;; (let v := trunc r (hw l r) in emit (Rd r v) ;;; ret v).
Definition writer (r : reg) (v : Z) : M unit := emit (Wr r (trunc r v)).

(** ** Clock *)

(** Returns 0 whether the clock stopped or not. *)
Definition jz_mmc_stop_clock : M Z :=
  writer STRPCL MSC_STRPCL_CLOCK_CONTROL_STOP ;;;
  r <- rounds 1001 (fun timeout =>
    if timeout =? 0 then ret (inr 0)
    else
      v <- readr STAT ;;
      if has v MSC_STAT_CLK_EN then
        (let timeout := timeout - 1 in if timeout =? 0 then ret (inr 0) else ret (inl timeout))
      else ret (inr 0)) 1000 ;;
  ended r.

Definition jz_mmc_start_clock : M unit :=
  writer STRPCL (Z.lor MSC_STRPCL_CLOCK_CONTROL_START MSC_STRPCL_START_OP).

(** [while (rate < clk_src) { clkrt++; clk_src >>= 1; }]: a 32-bit source is
    below any positive rate after 32 halvings. *)
Fixpoint calc_clkrt (fuel : nat) (rate clk_src clkrt : Z) : option Z :=
  if rate <? clk_src then
    match fuel with
    | O => None
    | S fuel => calc_clkrt fuel rate (Z.shiftr clk_src 1) (clkrt + 1)
    end
  else Some clkrt.

Definition jz_mmc_calc_clkrt (is_sd : bool) (rate : Z) : option Z :=
  calc_clkrt 32 rate (if is_sd then 24000000 else 16000000) 0.

Definition set_MSCCDR (x : Z) (h : Cpufreq.hw) : Cpufreq.hw :=
  Cpufreq.Hw (CPCCR h) (CPPCR h) (I2SCDR h) (LPCDR h) x (DMCR h) (RTCOR h) (RTCNT h).

Definition __cpm_select_msc_clk (sd : bool) : M unit :=
  h <- gets cpm ;;
  pllout2 <- lift (__cpm_get_pllout2 h) ;;
  (let div := if sd then pllout2 / 24000000 else pllout2 / 16000000 in
   modify (set_cpm (set_MSCCDR (u32 (div - 1)) h))).

Definition jz_mmc_set_clock (rate : Z) : M unit :=
  jz_mmc_stop_clock ;;;
  __cpm_select_msc_clk true ;;;
  clkrt <- lift (jz_mmc_calc_clkrt true rate) ;;
  writer CLKRT clkrt.

(** ** Interrupt mask *)

Definition jz_mmc_enable_irq (mask : Z) : M unit :=
  upd_host (fun h => set_imask (Z.ldiff (imask h) mask) h) ;;;
  h <- gets host ;; writer IMASK (imask h).

Definition jz_mmc_disable_irq (mask : Z) : M unit :=
  upd_host (fun h => set_imask (Z.lor (imask h) mask) h) ;;;
  h <- gets host ;; writer IMASK (imask h).

(** ** DMA *)

(** [clear_dma_ff] is empty. *)
Definition jz_mmc_start_dma (chan phyaddr count mode : Z) : M unit :=
  emit (Start_dma chan phyaddr count mode) ;;;
  upd_dma (fun d => disable_dma d chan) ;;;
  upd_dma (fun d => jz_set_dma_block_size d chan 32) ;;;
  upd_dma (fun d => set_dma_mode d chan mode) ;;;
  upd_dma (fun d => set_dma_addr d chan phyaddr) ;;;
  upd_dma (fun d => set_dma_count d chan (u32 (count + 31))) ;;;
  upd_dma (fun d => enable_dma d chan).

Definition clear_dccsr (chan bit : Z) (d : dma) : option dma :=
  set_regs d chan (fun r => Regs (DSAR r) (DTAR r) (DTCR r) (DRSR r) (clear_bits (DCCSR r) bit) (DCMD r)).

(** Both callbacks, for their channel. *)
Definition dma_callback (chan : Z) : M unit :=
  upd_dma (fun d => disable_dma d chan) ;;;
  upd_dma (fun d => r ← rd (Dma.regs d) chan;
    if has (DCCSR r) DMAC_DCCSR_AR then clear_dccsr chan DMAC_DCCSR_AR d else Some d) ;;;
  upd_dma (fun d => r ← rd (Dma.regs d) chan;
    if has (DCCSR r) DMAC_DCCSR_TT then clear_dccsr chan DMAC_DCCSR_TT d else Some d).

Definition jz_mmc_dma_rx_callback : M unit := chan <- gets rxdmachan ;; dma_callback chan.
Definition jz_mmc_dma_tx_callback : M unit := chan <- gets txdmachan ;; dma_callback chan.

(** The loop over the mapped segments, from segment [i]. *)
Fixpoint start_segments (n : nat) (i chan mode : Z) (d : mmc_data) : M unit :=
  match n with
  | O => ret tt
  | S n =>
      x <- lift (rd (sg d) i) ;;
      h <- gets host ;;
      l <- lift (wr (sg_cpu h) i (phys x, sg_length x)) ;;
      upd_host (set_sg_cpu l) ;;;
      x0 <- lift (rd (sg d) 0) ;;
      emit (Writeback (phys x0 + sg_offset x0) (sg_length x)) ;;;
      jz_mmc_start_dma chan (phys x) (sg_length x) mode ;;;
      start_segments n (i + 1) chan mode d
  end.

(** The body that the two set-up functions share; [dma_map_sg] returns the
    number of segments it was given. *)
Definition setup_data (id : nat) (chan mode : Z) : M unit :=
  d <- get_data id ;;
  (let nob := if has (d_flags d) MMC_DATA_STREAM then 65535 else blocks d in
   writer NOB nob ;;;
   writer BLKLEN (blksz d) ;;;
   let dir := if has (d_flags d) MMC_DATA_READ then DMA_FROM_DEVICE else DMA_TO_DEVICE in
   emit (Map (sg_len d) dir) ;;;
   upd_host (set_dma (sg_len d) dir) ;;;
   start_segments (Z.to_nat (sg_len d)) 0 chan mode d).

Definition jz_mmc_rx_setup_data (id : nat) : M unit :=
  chan <- gets rxdmachan ;; setup_data id chan DMA_MODE_READ.
Definition jz_mmc_tx_setup_data (id : nat) : M unit :=
  chan <- gets txdmachan ;; setup_data id chan DMA_MODE_WRITE.

(** ** Responses *)

(** Three 16-bit words of a short response, nine of a long one. *)
Definition short_response (w0 w1 w2 : Z) : Z :=
  let buf1 := Z.land w0 255 in
  let buf2 := Z.land (Z.shiftr w1 8) 255 in
  let buf3 := Z.land w1 255 in
  let buf4 := Z.land w2 255 in
  u32 (Z.lor (Z.lor (Z.lor (Z.shiftl buf1 24) (Z.shiftl buf2 16)) (Z.shiftl buf3 8)) buf4).

Definition long_word (v w1 w2 : Z) : Z :=
  Z.lor (Z.lor (shl32 v 24) (shl32 w1 8)) (Z.shiftr w2 8).

Fixpoint long_response (n : nat) (i v : Z) (p : cmd_ptr) : M unit :=
  match n with
  | O => ret tt
  | S n =>
      x <- readr RES ;;
      (let w1 := Z.land x 65535 in
       x <- readr RES ;;
       let w2 := Z.land x 65535 in
       c <- get_cmd p ;;
       l <- lift (wr (resp c) i (long_word v w1 w2)) ;;
       upd_cmd p (set_resp l) ;;;
       long_response n (i + 1) w2 p)
  end.

Definition read_response (r_type : Z) (p : cmd_ptr) : M unit :=
  if r_type =? 1 then
    w0 <- readr RES ;; w1 <- readr RES ;; w2 <- readr RES ;;
    c <- get_cmd p ;;
    l <- lift (wr (resp c) 0 (short_response w0 w1 w2)) ;;
    upd_cmd p (set_resp l)
  else if r_type =? 2 then
    x <- readr RES ;; long_response 4 0 (Z.land x 65535) p
  else ret tt.

(** ** Requests *)

(** [while (timeout-- && !(reg & bit))]: the value of the counter behind the
    loop; it wraps when the wait runs out. *)
Definition wait_bit (r : reg) (bit timeout : Z) : M Z :=
  x <- rounds (Z.to_pos (timeout + 1)) (fun timeout =>
    if timeout =? 0 then ret (inr (2 ^ 32 - 1))
    else
      v <- readr r ;;
      if has v bit then ret (inr (timeout - 1)) else ret (inl (timeout - 1))) timeout ;;
  ended x.

Definition RSP_TYPE (x : Z) : Z := Z.ldiff x (Z.lor MMC_RSP_BUSY MMC_RSP_OPCODE).
Definition mmc_resp_type (c : mmc_command) : Z := Z.land (flags c) 31.

(** The switch over the response type: the bits for CMDAT; [r_type] keeps its
    value when no response is expected. *)
Definition select_response (c : mmc_command) : M Z :=
  (let t := RSP_TYPE (mmc_resp_type c) in
   if t =? RSP_TYPE MMC_RSP_R1 then modify (set_r_type 1) ;;; ret MSC_CMDAT_RESPONSE_R1
   else if t =? RSP_TYPE MMC_RSP_R3 then modify (set_r_type 1) ;;; ret MSC_CMDAT_RESPONSE_R3
   else if t =? RSP_TYPE MMC_RSP_R2 then modify (set_r_type 2) ;;; ret MSC_CMDAT_RESPONSE_R2
   else ret 0).

Definition write_argument (c : mmc_command) : M unit :=
  if bus_1 then
    if opcode c =? 6 then
      when (arg c =? 2) (writer ARG 0) ;;;
      when (arg c =? 62324993) (writer ARG 62324737)
    else writer ARG (arg c)
  else writer ARG (arg c).

Definition is_write (c : mmc_command) : bool :=
  (opcode c =? MMC_WRITE_BLOCK) || (opcode c =? MMC_WRITE_MULTIPLE_BLOCK).

(** The error that a command ends with, if any, from the status read. *)
Definition status_error (stat : Z) (c : mmc_command) : option Z :=
  if has stat MSC_STAT_TIME_OUT_RES then Some (- ETIMEDOUT)
  else if has stat MSC_STAT_CRC_RES_ERR && has (flags c) MMC_RSP_CRC then
    if (opcode c =? MMC_ALL_SEND_CID) || (opcode c =? MMC_SEND_CSD) || (opcode c =? MMC_SEND_CID) then
      if Z.land (nth 0 (resp c) 0) (2 ^ 31) =? 0 then Some (- EILSEQ) else None
    else None
  else None.

(** The first part of [jz_mmc_start_cmd]: the command goes out, and the card has
    answered or the wait has run out. *)
Definition send_command (p : cmd_ptr) (cmdat : Z) : M mmc_command :=
  upd_host (set_cmd (Some p)) ;;;
  jz_mmc_stop_clock ;;;
  writer IMASK 255 ;;;
  writer IREG 255 ;;;
  c <- get_cmd p ;;
  (let cmdat := if has (flags c) MMC_RSP_BUSY then Z.lor cmdat MSC_CMDAT_BUSY else cmdat in
   bits <- select_response c ;;
   let cmdat := Z.lor cmdat bits in
   writer CMD (opcode c) ;;;
   write_argument c ;;;
   writer CMDAT cmdat ;;;
   jz_mmc_start_clock ;;;
   timeout <- wait_bit STAT MSC_STAT_END_CMD_RES 4194303 ;;
   writer IREG MSC_IREG_END_CMD_RES ;;;
   when (opcode c =? 12)
     (wait_bit IREG MSC_IREG_PRG_DONE timeout ;;; writer IREG MSC_IREG_PRG_DONE) ;;;
   ret c).

Section Request.
(** host->ops->request, which the core calls to retry. *)
Context (ops_request : nat -> M unit).

Definition mmc_request_done (id : nat) : M unit :=
  r <- get_req id ;;
  (let c := r_cmd r in
   if negb (error c =? 0) && negb (retries c =? 0) then
     emit (Retry id (error c)) ;;;
     upd_cmd (Main id) (fun c => set_error 0 (set_retries (retries c - 1) c)) ;;;
     ops_request id
   else
     emit (Done id r) ;;;
     modify (fun s => set_reqs (delete id (reqs s)) s)).

(** A null request is dereferenced by the core. *)
Definition jz_mmc_finish_request (m : option nat) : M unit :=
  jz_mmc_stop_clock ;;;
  upd_host (set_mrq None) ;;;
  upd_host (set_cmd None) ;;;
  upd_host (set_data None) ;;;
  id <- lift m ;;
  mmc_request_done id.

Definition finish_current : M unit := h <- gets host ;; jz_mmc_finish_request (mrq h).

Definition jz_mmc_cmd_done (stat : Z) : M Z :=
  h <- gets host ;;
  match cmd h with
  | None => ret 0
  | Some p =>
      upd_host (set_cmd None) ;;;
      t <- gets r_type ;;
      read_response t p ;;;
      c <- get_cmd p ;;
      match status_error stat c with Some e => upd_cmd p (set_error e) | None => ret tt end ;;;
      c <- get_cmd p ;;
      h <- gets host ;;
      match data h with
      | Some _ => if error c =? 0 then jz_mmc_enable_irq MSC_IMASK_DATA_TRAN_DONE else finish_current
      | None => finish_current
      end ;;;
      ret 1
  end.

Definition jz_mmc_start_cmd (p : cmd_ptr) (cmdat : Z) : M unit :=
  c <- send_command p cmdat ;;
  enabled <- gets mmc_slot_enable ;;
  if negb enabled || (opcode c =? SD_IO_SEND_OP_COND) then
    upd_cmd p (set_error (- ETIMEDOUT)) ;;; finish_current
  else
    stat <- readr STAT ;;
    jz_mmc_cmd_done stat ;;;
    h <- gets host ;;
    match data h with
    | None => ret tt
    | Some id => c <- get_cmd p ;; when (is_write c) (jz_mmc_tx_setup_data id)
    end.

(** The command bits of a data request. *)
Definition data_cmdat (c : mmc_command) (d : mmc_data) (cmdat : Z) : Z :=
  let cmdat := Z.ldiff cmdat MSC_CMDAT_BUSY in
  let cmdat :=
    if (opcode c =? 51) || (opcode c =? 8) || (opcode c =? 6) then
      Z.lor cmdat (Z.lor MSC_CMDAT_BUS_WIDTH_1BIT (Z.lor MSC_CMDAT_DATA_EN MSC_CMDAT_DMA_EN))
    else if bus_1 then
      Z.lor (Z.ldiff cmdat MSC_CMDAT_BUS_WIDTH_4BIT)
        (Z.lor MSC_CMDAT_BUS_WIDTH_1BIT (Z.lor MSC_CMDAT_DATA_EN MSC_CMDAT_DMA_EN))
    else Z.lor cmdat (Z.lor MSC_CMDAT_DATA_EN MSC_CMDAT_DMA_EN) in
  let cmdat := if has (d_flags d) MMC_DATA_WRITE then Z.lor cmdat MSC_CMDAT_WRITE else cmdat in
  if has (d_flags d) MMC_DATA_STREAM then Z.lor cmdat MSC_CMDAT_STREAM_BLOCK else cmdat.

Definition request_body (id : nat) : M unit :=
  jz_mmc_stop_clock ;;;
  r <- get_req id ;;
  upd_host (set_mrq (Some id)) ;;;
  upd_host (set_data (match r_data r with Some _ => Some id | None => None end)) ;;;
  h <- gets host ;;
  (let bits := cmdat h in
   upd_host (fun h => set_cmdat (Z.ldiff (cmdat h) MSC_CMDAT_INIT) h) ;;;
   bits <- match r_data r with
     | Some d =>
         when (negb (is_write (r_cmd r))) (jz_mmc_rx_setup_data id) ;;;
         ret (data_cmdat (r_cmd r) d bits)
     | None => ret bits
     end ;;
   jz_mmc_start_cmd (Main id) bits).

Definition jz_mmc_data_done (stat : Z) : M Z :=
  h <- gets host ;;
  match data h with
  | None => ret 0
  | Some id =>
      writer IREG MSC_IREG_DATA_TRAN_DONE ;;;
      jz_mmc_stop_clock ;;;
      emit (Unmap 0 0) ;;;
      (if has stat MSC_STAT_TIME_OUT_READ then upd_data id (set_d_error (- ETIMEDOUT))
       else
         v <- readr STAT ;;
         when (has v (Z.lor MSC_STAT_CRC_READ_ERROR MSC_STAT_CRC_WRITE_ERROR))
           (upd_data id (set_d_error (- EILSEQ)))) ;;;
      upd_data id (fun d =>
        set_bytes_xfered (if d_error d =? 0 then u32 (blocks d * blksz d) else 0) d) ;;;
      jz_mmc_disable_irq MSC_IMASK_DATA_TRAN_DONE ;;;
      upd_host (set_data None) ;;;
      h <- gets host ;;
      m <- lift (mrq h) ;;
      r <- get_req m ;;
      match r_stop r with
      | Some _ => jz_mmc_stop_clock ;;; jz_mmc_start_cmd (Stop m) 0
      | None => finish_current
      end ;;;
      ret 1
  end.

End Request.

(** A retry decrements [retries] first. *)
Fixpoint jz_mmc_request (fuel : nat) (id : nat) : M unit :=
  match fuel with
  | O => fail
  | S fuel => request_body (jz_mmc_request fuel) id
  end.

Definition jz_mmc_irq (fuel : nat) : M bool :=
  ireg <- readr IREG ;;
  if negb (ireg =? 0) then
    stat <- readr STAT ;;
    if has ireg MSC_IREG_DATA_TRAN_DONE then
      handled <- jz_mmc_data_done (jz_mmc_request fuel) stat ;; ret (negb (handled =? 0))
    else ret false
  else ret false.

(** The limits that [jz_mmc_probe] and [mmc_alloc_host] set; BUG_ON does not
    return. *)
Definition max_blk_size : Z := 1023.
Definition max_blk_count : Z := 65535.
Definition max_req_size : Z := PAGE_SIZE.

Definition within_limits (d : mmc_data) : bool :=
  (blksz d <=? max_blk_size) && (blocks d <=? max_blk_count) && (u32 (blocks d * blksz d) <=? max_req_size).

(** The request as the core hands it to the driver. *)
Definition started (r : mmc_request) : mmc_request :=
  Request (set_error 0 (r_cmd r)) (set_d_error 0 <$> r_data r)
    (match r_data r with Some _ => set_error 0 <$> r_stop r | None => r_stop r end).

Definition mmc_start_request (id : nat) : M unit :=
  r <- get_req id ;;
  if match r_data r with Some d => within_limits d | None => true end then
    put_req id (started r) ;;; jz_mmc_request (S (Z.to_nat (retries (r_cmd r)))) id
  else fail.

(** ** Card detection, clock and power *)

(** The branches of the Dingoo: the edge that ends the present state. *)
Definition jz_mmc_slot_is_empty : M bool :=
  v <- readr PIN_CD ;;
  (let empty := v =? 0 in emit (Wait_edge empty) ;;; ret empty).

Definition jz_mmc_detect_irq : M unit :=
  empty <- jz_mmc_slot_is_empty ;;
  modify (set_slot (negb empty)) ;;; emit (Detect_change 50).

Record mmc_ios := Ios { clock : Z; ios_power_mode : Z; bus_width : Z }.

Definition jz_mmc_set_ios (ios : mmc_ios) : M unit :=
  (if negb (clock ios =? 0) then jz_mmc_set_clock (clock ios) else (jz_mmc_stop_clock ;;; ret tt)) ;;;
  h <- gets host ;;
  when (negb (power_mode h =? ios_power_mode ios))
    (upd_host (set_power_mode (ios_power_mode ios)) ;;;
     when (ios_power_mode ios =? MMC_POWER_ON)
       (upd_host (fun h => set_cmdat (Z.lor (cmdat h) MSC_CMDAT_INIT) h))) ;;;
  if (bus_width ios =? MMC_BUS_WIDTH_4) || (bus_width ios =? MMC_BUS_WIDTH_8) then
    upd_host (fun h => set_cmdat (Z.lor (cmdat h) MSC_CMDAT_BUS_WIDTH_4BIT) h)
  else upd_host (fun h => set_cmdat (Z.ldiff (cmdat h) MSC_CMDAT_BUS_WIDTH_4BIT) h).

(** [get_ro] of the platform data, if there is one. *)
Definition jz_mmc_get_ro (pdata : option (option Z)) : Z :=
  match pdata with Some (Some ro) => ro | _ => 0 end.

End Driver.
