(* ===== verification/MmcRequests.v ===== *)
(** * Requests of the MMC/SD host driver

    A logic of total runs of the driver's monad, what a run of each function
    adds to the log, and from it: every request that the core starts is answered
    exactly once, after at most [retries] repetitions, or waits for the end of
    its data phase with that interrupt enabled and no other request in the
    driver; and the driver never touches a request that was answered. *)

From S2P Require Import Prelude.
From S2P Require Import Cpufreq.
From S2P Require Import Dma.
From S2P Require Import MmcDriver.

(** ** Runs *)

(** [m] runs from [s] and ends with a result and a state in [Q]. *)
Definition runs {A} (m : M A) (Q : A -> state -> Prop) (s : state) : Prop :=
  match m s with Some (x, s') => Q x s' | None => False end.

Lemma runs_ret {A} (x : A) Q s : Q x s -> runs (ret x) Q s.
Proof. done. Qed.

Lemma runs_bind {A C} (m : M A) (k : A -> M C) Q s :
  runs m (fun x s' => runs (k x) Q s') s -> runs (bind m k) Q s.
Proof. unfold runs, bind. by destruct (m s) as [[x s']|]. Qed.

Lemma runs_assoc {A B C} (m : M A) (k : A -> M B) (l : B -> M C) Q s :
  runs (bind (bind m k) l) Q s -> runs (bind m (fun a => bind (k a) l)) Q s.
Proof. unfold runs, bind. by destruct (m s) as [[x s']|]. Qed.

Lemma runs_mono {A} (m : M A) (Q Q' : A -> state -> Prop) s :
  runs m Q s -> (forall x s', Q x s' -> Q' x s') -> runs m Q' s.
Proof. unfold runs. destruct (m s) as [[x s']|]; auto. Qed.

Lemma runs_gets {A} (f : state -> A) Q s : Q (f s) s -> runs (gets f) Q s.
Proof. done. Qed.

Lemma runs_modify f Q s : Q tt (f s) -> runs (modify f) Q s.
Proof. done. Qed.

Lemma runs_lift {A} (o : option A) x Q s : o = Some x -> Q x s -> runs (lift o) Q s.
Proof. by intros -> ?. Qed.

Lemma runs_get_req id r Q s : reqs s !! id = Some r -> Q r s -> runs (get_req id) Q s.
Proof. intros Hr HQ. unfold runs, get_req, bind, gets, lift. by rewrite Hr. Qed.

(** A result, from the run of it. *)
Lemma runs_Some {A} (m : M A) Q s : runs m Q s -> exists x s', m s = Some (x, s') /\ Q x s'.
Proof. unfold runs. destruct (m s) as [[x s']|]; [|done]. by exists x, s'. Qed.

(** Rounds that keep [I] and count [n] down end before [n] is exhausted. *)
Lemma runs_rounds {A B} (f : A -> M (A + B)) (n : A -> Z) (I : state -> Prop) (Q : B -> state -> Prop) p :
  (forall a s, I s -> 0 <= n a ->
     runs (f a) (fun r s' => I s' /\ match r with inl a' => 0 <= n a' < n a | inr b => Q b s' end) s) ->
  forall a s, I s -> 0 <= n a ->
  runs (rounds p f a) (fun r s' => I s' /\
    match r with inl a' => 0 <= n a' <= n a - Zpos p | inr b => Q b s' end) s.
Proof.
  intros Hf. induction p as [p IH|p IH|]; intros a s Hs Ha; cbn [rounds].
  - apply runs_bind. eapply runs_mono; [by apply Hf|]. intros [a1|b] s1 [H1 Hr]; [|by apply runs_ret].
    apply runs_bind. eapply runs_mono; [apply IH; [done|lia]|]. intros [a2|b] s2 [H2 Hr2]; [|by apply runs_ret].
    eapply runs_mono; [apply IH; [done|lia]|]. intros [a3|b] s3 [H3 Hr3]; (split; [done|]); [lia|done].
  - apply runs_bind. eapply runs_mono; [apply IH; done|]. intros [a2|b] s2 [H2 Hr2]; [|by apply runs_ret].
    eapply runs_mono; [apply IH; [done|lia]|]. intros [a3|b] s3 [H3 Hr3]; (split; [done|]); [lia|done].
  - eapply runs_mono; [by apply Hf|]. intros [a1|b] s1 [H1 Hr1]; (split; [done|]); [lia|done].
Qed.

Lemma runs_rounds_end {A B} (f : A -> M (A + B)) (n : A -> Z) (I : state -> Prop) (Q : B -> state -> Prop) p a s :
  (forall a s, I s -> 0 <= n a ->
     runs (f a) (fun r s' => I s' /\ match r with inl a' => 0 <= n a' < n a | inr b => Q b s' end) s) ->
  I s -> 0 <= n a < Zpos p -> runs (r <- rounds p f a ;; ended r) (fun b s' => I s' /\ Q b s') s.
Proof.
  intros Hf Hs Ha. apply runs_bind. eapply runs_mono; [apply (runs_rounds f n I Q); [done|done|lia]|].
  intros [a'|b] s' [Hs' Hr]; [lia|]. by apply runs_ret.
Qed.

(** ** What the log says *)

Definition done_id (e : event) : option nat := match e with Done id _ => Some id | _ => None end.

(** A command was sent, or the core found that it had failed. *)
Inductive attempt := Sent (op : Z) | Failed (e : Z).
Definition attempt_of (e : event) : option attempt :=
  match e with Wr CMD v => Some (Sent v) | Retry _ e => Some (Failed e) | _ => None end.
Definition dma_start (e : event) : option (Z * Z * Z * Z) :=
  match e with Start_dma c p n m => Some (c, p, n, m) | _ => None end.

(** Requests answered, commands sent or failed and transfers started, latest
    first, and what IMASK holds. *)
Definition dones (l : list event) : list nat := omap done_id l.
Definition trail (l : list event) : list attempt := omap attempt_of l.
Definition transfers (l : list event) : list (Z * Z * Z * Z) := omap dma_start l.
Fixpoint imask_of (l : list event) : Z :=
  match l with
  | [] => 255
  | Wr IMASK v :: _ => v
  | _ :: l => imask_of l
  end.

#[global] Arguments dones : simpl never.
#[global] Arguments trail : simpl never.
#[global] Arguments transfers : simpl never.
#[global] Arguments imask_of : simpl never.

Lemma log_retry id e l :
  dones (Retry id e :: l) = dones l /\ trail (Retry id e :: l) = Failed e :: trail l /\
  transfers (Retry id e :: l) = transfers l /\ imask_of (Retry id e :: l) = imask_of l.
Proof. done. Qed.

Lemma log_done id r l :
  dones (Done id r :: l) = id :: dones l /\ trail (Done id r :: l) = trail l /\
  transfers (Done id r :: l) = transfers l /\ imask_of (Done id r :: l) = imask_of l.
Proof. done. Qed.

(** Two logs that say the same. *)
Definition agree (l l' : list event) : Prop :=
  dones l' = dones l /\ trail l' = trail l /\ transfers l' = transfers l /\ imask_of l' = imask_of l.

#[export] Instance agree_refl : Reflexive agree.
Proof. by intros l. Qed.

#[export] Instance agree_trans : Transitive agree.
Proof. intros l1 l2 l3 (H1 & H2 & H3 & H4) (K1 & K2 & K3 & K4). unfold agree. by rewrite K1, K2, K3, K4. Qed.

Definition inert (e : event) : bool :=
  match e with
  | Wr CMD _ | Wr IMASK _ | Start_dma _ _ _ _ | Retry _ _ | Done _ _ => false
  | _ => true
  end.

Lemma agree_cons e l : inert e = true -> agree l (e :: l).
Proof. by destruct e as [| [] | | | | | | | |]. Qed.

(** Only the log grows, by events that say nothing. *)
Definition polls (s s' : state) : Prop := exists l, s' = set_log l s /\ agree (log s) l.

#[export] Instance polls_refl : Reflexive polls.
Proof. intros [h rt en rx tx rq d c l]. by exists l. Qed.

#[export] Instance polls_trans : Transitive polls.
Proof. intros s1 s2 s3 (l & -> & H) (l' & -> & H'). exists l'. split; [done|]. by etransitivity. Qed.

Section Polls.
Context (hw : list event -> reg -> Z).

Lemma runs_emit e Q s : Q tt (set_log (e :: log s) s) -> runs (emit e) Q s.
Proof. done. Qed.

Lemma polls_emit e s : inert e = true -> polls s (set_log (e :: log s) s).
Proof. intros He. eexists. split; [done|]. by apply agree_cons. Qed.

Lemma runs_readr r Q s : (forall v s', polls s s' -> Q v s') -> runs (readr hw r) Q s.
Proof. intros HQ. apply HQ. by apply polls_emit. Qed.

Lemma runs_writer r v Q s :
  r <> CMD -> r <> IMASK -> (forall s', polls s s' -> Q tt s') -> runs (writer r v) Q s.
Proof. intros H1 H2 HQ. apply HQ. apply polls_emit. by destruct r. Qed.

Lemma runs_stop_clock Q s : (forall s', polls s s' -> Q 0 s') -> runs (jz_mmc_stop_clock hw) Q s.
Proof.
  intros HQ. apply runs_bind, runs_writer; [done|done|]. intros s1 H1.
  eapply runs_mono; [apply (runs_rounds_end _ (fun t => t) (polls s) (fun b _ => b = 0)); [|done|lia]|].
  - intros t s2 H2 Ht. destruct (Z.eqb_spec t 0); [by apply runs_ret|]. apply runs_bind, runs_readr. intros v s3 H3.
    assert (polls s s3) by (by etransitivity).
    destruct (has v MSC_STAT_CLK_EN); [|by apply runs_ret]. cbv zeta. destruct (Z.eqb_spec (t - 1) 0); apply runs_ret; [done|].
    split; [done|lia].
  - intros b s2 [H2 ->]. by apply HQ.
Qed.

Lemma runs_wait_bit r bit t Q s :
  0 <= t -> (forall t' s', polls s s' -> 0 <= t' -> Q t' s') -> runs (wait_bit hw r bit t) Q s.
Proof.
  intros Ht HQ.
  eapply runs_mono; [apply (runs_rounds_end _ (fun t => t) (polls s) (fun b _ => 0 <= b)); [|reflexivity|lia]|].
  - intros t' s2 H2 Ht'. destruct (Z.eqb_spec t' 0); [by apply runs_ret|]. apply runs_bind, runs_readr. intros v s3 H3.
    assert (polls s s3) by (by etransitivity). destruct (has v bit); apply runs_ret; (split; [done|lia]).
  - intros b s2 [H2 Hb]. by apply HQ.
Qed.

End Polls.

(** ** Commands in the store *)

Definition ptr_id (p : cmd_ptr) : nat := match p with Main id | Stop id => id end.
Definition cmd_of (p : cmd_ptr) (r : mmc_request) : option mmc_command :=
  match p with Main _ => Some (r_cmd r) | Stop _ => r_stop r end.
Definition put_cmd (p : cmd_ptr) (c : mmc_command) (r : mmc_request) : mmc_request :=
  match p with
  | Main _ => Request c (r_data r) (r_stop r)
  | Stop _ => Request (r_cmd r) (r_data r) (Some c)
  end.

Lemma cmd_of_put p c r : cmd_of p (put_cmd p c r) = Some c.
Proof. by destruct p. Qed.

Lemma put_put p c c' r : put_cmd p c (put_cmd p c' r) = put_cmd p c r.
Proof. by destruct p. Qed.

Lemma put_cmd_same p c r : cmd_of p r = Some c -> put_cmd p c r = r.
Proof. destruct p, r; simpl; congruence. Qed.

(** [id] now holds [r]; besides, registers were polled. *)
Definition stores (id : nat) (r : mmc_request) (s s' : state) : Prop :=
  polls (set_reqs (<[id := r]> (reqs s)) s) s'.

Lemma stores_lookup id r s s' : stores id r s s' -> reqs s' !! id = Some r.
Proof. intros (l & -> & _). apply lookup_insert_eq. Qed.

Lemma polls_lookup id s s' : polls s s' -> reqs s' !! id = reqs s !! id.
Proof. by intros (l & -> & _). Qed.

Lemma polls_host s s' : polls s s' -> host s' = host s.
Proof. by intros (l & -> & _). Qed.

Lemma stores_trans id r r' s s' s'' : stores id r s s' -> stores id r' s' s'' -> stores id r' s s''.
Proof.
  intros (l & -> & H) (l' & -> & H'). exists l'. simpl in *. split; [by rewrite insert_insert_eq|]. by etransitivity.
Qed.

Lemma stores_host id r s s' : stores id r s s' -> host s' = host s.
Proof. by intros (l & -> & _). Qed.

Lemma stores_polls id r s s' s'' : stores id r s s' -> polls s' s'' -> stores id r s s''.
Proof. intros H H'. unfold stores. by etransitivity. Qed.

Lemma polls_stores id r s s' : reqs s !! id = Some r -> polls s s' -> stores id r s s'.
Proof.
  intros Hr (l & -> & H). exists l. split; [|done]. rewrite insert_id by done. by destruct s.
Qed.

Lemma runs_get_cmd p r c Q s :
  reqs s !! ptr_id p = Some r -> cmd_of p r = Some c -> Q c s -> runs (get_cmd p) Q s.
Proof.
  intros Hr Hc HQ. destruct p; simpl in *; apply runs_bind; (eapply runs_get_req; [done|]).
  - injection Hc as <-. by apply runs_ret.
  - by apply (runs_lift _ c).
Qed.

Lemma runs_upd_cmd p r c f Q s :
  reqs s !! ptr_id p = Some r -> cmd_of p r = Some c ->
  (forall s', stores (ptr_id p) (put_cmd p (f c) r) s s' -> Q tt s') -> runs (upd_cmd p f) Q s.
Proof.
  intros Hr Hc HQ. destruct p; simpl in *; apply runs_bind; (eapply runs_get_req; [done|]).
  - injection Hc as <-. apply HQ. unfold stores. reflexivity.
  - apply runs_bind, (runs_lift _ c); [done|]. apply HQ. unfold stores. reflexivity.
Qed.

Lemma runs_get_data id r d Q s :
  reqs s !! id = Some r -> r_data r = Some d -> Q d s -> runs (get_data id) Q s.
Proof. intros Hr Hd HQ. apply runs_bind. eapply runs_get_req; [done|]. by apply (runs_lift _ d). Qed.

Lemma runs_upd_data id r d f Q s :
  reqs s !! id = Some r -> r_data r = Some d ->
  (forall s', stores id (Request (r_cmd r) (Some (f d)) (r_stop r)) s s' -> Q tt s') -> runs (upd_data id f) Q s.
Proof.
  intros Hr Hd HQ. apply runs_bind. eapply runs_get_req; [done|]. apply runs_bind, (runs_lift _ d); [done|].
  apply HQ. unfold stores. reflexivity.
Qed.

(** ** Responses *)

Section Responses.
Context (hw : list event -> reg -> Z).

Lemma runs_long_response n i v p r c s :
  reqs s !! ptr_id p = Some r -> cmd_of p r = Some c -> length (resp c) = 4%nat -> 0 <= i -> i + Z.of_nat n <= 4 ->
  runs (long_response hw n i v p) (fun _ s' =>
    exists l, length l = 4%nat /\ stores (ptr_id p) (put_cmd p (set_resp l c) r) s s') s.
Proof.
  revert i v r c s. induction n as [|n IH]; intros i v r c s Hr Hc Hl Hi Hn; cbn [long_response].
  - apply runs_ret. exists (resp c). split; [done|]. apply polls_stores; [|reflexivity].
    rewrite put_cmd_same; [done|]. rewrite Hc. by destruct c.
  - apply runs_bind, runs_readr. intros x s1 H1. cbv zeta. apply runs_bind, runs_readr. intros x' s2 H2.
    assert (Hp : polls s s2) by (by etransitivity).
    apply runs_bind. eapply runs_get_cmd; [by rewrite (polls_lookup _ _ _ Hp)|done|].
    apply runs_bind. destruct (wr (resp c) i _) as [l|] eqn:Hw; [|apply wr_None in Hw; lia].
    eapply runs_lift; [done|]. apply runs_bind. eapply runs_upd_cmd; [by rewrite (polls_lookup _ _ _ Hp)|done|].
    intros s3 H3. pose proof (stores_trans _ _ _ _ _ _ (polls_stores _ _ _ _ Hr Hp) H3) as H3'.
    eapply runs_mono; [eapply IH; [by eapply stores_lookup|apply cmd_of_put| |lia|lia]|].
    + simpl. by rewrite (wr_length _ _ _ _ Hw).
    + intros _ s4 (l' & Hl' & H4). exists l'. split; [done|]. rewrite put_put in H4. by eapply stores_trans.
Qed.

Lemma runs_read_response t p r c s :
  reqs s !! ptr_id p = Some r -> cmd_of p r = Some c -> length (resp c) = 4%nat ->
  runs (read_response hw t p) (fun _ s' =>
    exists l, length l = 4%nat /\ stores (ptr_id p) (put_cmd p (set_resp l c) r) s s') s.
Proof.
  intros Hr Hc Hl. unfold read_response. destruct (t =? 1); [|destruct (t =? 2)].
  - apply runs_bind, runs_readr. intros w0 s1 H1. apply runs_bind, runs_readr. intros w1 s2 H2.
    apply runs_bind, runs_readr. intros w2 s3 H3.
    assert (Hp : polls s s3) by (etransitivity; [done|by etransitivity]).
    apply runs_bind. eapply runs_get_cmd; [by rewrite (polls_lookup _ _ _ Hp)|done|].
    apply runs_bind. destruct (wr (resp c) 0 _) as [l|] eqn:Hw; [|apply wr_None in Hw; lia].
    eapply runs_lift; [done|]. eapply runs_upd_cmd; [by rewrite (polls_lookup _ _ _ Hp)|done|].
    intros s4 H4. exists l. split; [by rewrite (wr_length _ _ _ _ Hw)|].
    exact (stores_trans _ _ _ _ _ _ (polls_stores _ _ _ _ Hr Hp) H4).
  - apply runs_bind, runs_readr. intros x s1 Hp.
    eapply runs_mono; [eapply runs_long_response; [by rewrite (polls_lookup _ _ _ Hp)|done|done|lia|lia]|].
    intros _ s2 (l & Hl' & H2). exists l. split; [done|].
    exact (stores_trans _ _ _ _ _ _ (polls_stores _ _ _ _ Hr Hp) H2).
  - apply runs_ret. exists (resp c). split; [done|]. apply polls_stores; [|reflexivity].
    rewrite put_cmd_same; [done|]. rewrite Hc. by destruct c.
Qed.

End Responses.

(** ** Transfers *)

(** Only channel [n] differs. *)
Definition others (n : Z) (d d' : dma) : Prop :=
  forall k, k <> n -> rd (jz_dma_table d') k = rd (jz_dma_table d) k /\ rd (Dma.regs d') k = rd (Dma.regs d) k.

#[export] Instance others_refl n : Reflexive (others n).
Proof. by intros d k Hk. Qed.

#[export] Instance others_trans n : Transitive (others n).
Proof. intros d1 d2 d3 H H' k Hk. destruct (H k Hk) as [<- <-]. by apply H'. Qed.

Lemma wr_other {A} (l l' : list A) i k (x : A) : wr l i x = Some l' -> k <> i -> rd l' k = rd l k.
Proof.
  intros Hw Hk. destruct (Z.leb_spec 0 k) as [Hk0|Hk0].
  - rewrite (rd_wr _ _ _ k _ Hw) by done. by rewrite (proj2 (Z.eqb_neq k i)).
  - unfold rd. by rewrite (proj2 (Z.leb_gt 0 k)).
Qed.

Lemma others_set_regs d d' n f : set_regs d n f = Some d' -> others n d d'.
Proof.
  unfold set_regs. destruct (rd (Dma.regs d) n) as [r|]; [|done]. simpl.
  destruct (wr (Dma.regs d) n (f r)) as [l|] eqn:Hw; [|done]. intros [= <-] k Hk. simpl. split; [done|]. by eapply wr_other.
Qed.

Lemma others_set_chan d d' n c : set_chan d n c = Some d' -> others n d d'.
Proof.
  unfold set_chan. destruct (wr (jz_dma_table d) n c) as [l|] eqn:Hw; [|done]. intros [= <-] k Hk. simpl.
  split; [|done]. by eapply wr_other.
Qed.

Lemma chan_at_others d d' n k c r : others n d d' -> k <> n -> chan_at d k c r -> chan_at d' k c r.
Proof. intros Ho Hk (H1 & H2 & H3 & H4 & H5). destruct (Ho k Hk) as [E1 E2]. unfold chan_at. by rewrite E1, E2. Qed.

(** A channel of the card controller: [id] is its device, and the driver has
    used it or not yet. *)
Definition msc_chan (d : dma) (n id : Z) : Prop :=
  exists str line idev fifo m0 src m r, rd dma_dev_table id = Some (fifo, m0, src) /\ line <> 0 /\
    (m = m0 \/ m = Z.lor m0 DMAC_DCMD_DS_32BYTE) /\ chan_at d n (Chan id n str line idev fifo m src) r.

Lemma msc_chan_others d d' n k id : others n d d' -> k <> n -> msc_chan d k id -> msc_chan d' k id.
Proof.
  intros Ho Hk (str & line & idev & fifo & m0 & src & m & r & H1 & H2 & H3 & H4).
  exists str, line, idev, fifo, m0, src, m, r. split; [done|]. split; [done|]. split; [done|].
  by eapply chan_at_others.
Qed.

Lemma disable_at d n c r :
  chan_at d n c r -> exists d' r', disable_dma d n = Some d' /\ chan_at d' n c r' /\ others n d d'.
Proof.
  intros Hat. unfold disable_dma. rewrite (chan_at_get _ _ _ _ Hat). cbn [mbind option_bind].
  destruct Hat as (Hn & Hc & Hd & Hio & Hr). rewrite Hr. cbn [mbind option_bind].
  assert (chan_at d n c r) as Hat by done. destruct (_ =? 0); [by exists d, r|].
  edestruct (chan_at_regs d n c r) as (d1 & E1 & Hat1); [done|]. rewrite E1. cbn [mbind option_bind].
  apply others_set_regs in E1. destruct (negb _); [|by eexists _, _].
  edestruct (chan_at_regs d1 n) as (d2 & E2 & Hat2); [exact Hat1|]. rewrite E2.
  apply others_set_regs in E2. eexists _, _. split; [done|]. split; [done|]. by etransitivity.
Qed.

Lemma block_size_at d n c r nbyte :
  chan_at d n c r -> exists d' m, jz_set_dma_block_size d n nbyte = Some d' /\ chan_at d' n (set_mode c m) r /\
    others n d d' /\ (nbyte = 32 -> m = Z.lor (clear_bits (mode c) DMAC_DCMD_DS_MASK) DMAC_DCMD_DS_32BYTE).
Proof.
  intros Hat. unfold jz_set_dma_block_size, with_chan. rewrite (chan_at_get _ _ _ _ Hat). cbn [mbind option_bind].
  edestruct (chan_at_chan d n c r) as (d1 & E1 & Hat1); [done|]. rewrite E1. apply others_set_chan in E1.
  eexists _, _. split; [done|]. split; [done|]. split; [done|]. by intros ->.
Qed.

Lemma start_transfer_others d n c r m phy len d' :
  chan_at d n c r -> start_transfer d n m phy len = Some d' -> others n d d'.
Proof.
  intros Hat. unfold start_transfer, set_dma_mode. rewrite (chan_at_get _ _ _ _ Hat). cbn [mbind option_bind].
  destruct (chan_at_chan d n c r (next_mode (mode c) m) Hat) as (d1 & E1 & Hat1). rewrite E1. cbn [mbind option_bind].
  apply others_set_chan in E1. unfold load_command. assert (io c = n) as Hio by apply Hat.
  change (io (set_mode c (next_mode (mode c) m))) with (io c). rewrite Hio.
  edestruct (chan_at_regs d1 n) as (d2 & E2 & Hat2); [exact Hat1|]. rewrite E2. cbn [mbind option_bind].
  apply others_set_regs in E2. unfold set_dma_addr. rewrite (chan_at_get _ _ _ _ Hat2). cbn [mbind option_bind].
  change (io (set_mode c (next_mode (mode c) m))) with (io c). rewrite Hio.
  intros H. apply bind_Some in H as (d3 & E3 & H).
  assert (others n d2 d3 /\ exists r3, chan_at d3 n (set_mode c (next_mode (mode c) m)) r3) as [H3 [r3 Hat3]].
  { destruct (_ =? DMA_MODE_READ); [|destruct (_ =? DMA_MODE_WRITE)]; [| |injection E3 as <-; split; [reflexivity|by eexists]];
      (split; [by eapply others_set_regs|]); (edestruct (chan_at_regs d2 n) as (d3' & E3' & Hat3); [exact Hat2|]);
      rewrite E3' in E3; injection E3 as <-; by eexists. }
  unfold set_dma_count in H. rewrite (chan_at_get _ _ _ _ Hat3) in H. cbn [mbind option_bind] in H.
  apply bind_Some in H as (d4 & E4 & H). apply bind_Some in E4 as (u & Eu & E4).
  change (io (set_mode c (next_mode (mode c) m))) with (io c) in E4. rewrite Hio in E4.
  edestruct (chan_at_regs d3 n) as (d4' & E4' & Hat4); [exact Hat3|]. rewrite E4' in E4. injection E4 as <-.
  apply others_set_regs in E4'. unfold enable_dma in H. rewrite (chan_at_get _ _ _ _ Hat4) in H. cbn [mbind option_bind] in H.
  apply others_set_regs in H. repeat (etransitivity; [eassumption|]). reflexivity.
Qed.

(** The modes of the two channels, before and after the block size is set. *)
Lemma msc_modes id m0 fifo src m :
  id = DMA_ID_MSC_TX \/ id = DMA_ID_MSC_RX -> rd dma_dev_table id = Some (fifo, m0, src) ->
  m = m0 \/ m = Z.lor m0 DMAC_DCMD_DS_32BYTE ->
  let md := if id =? DMA_ID_MSC_TX then DMA_MODE_WRITE else DMA_MODE_READ in
  let m1 := Z.lor (clear_bits m DMAC_DCMD_DS_MASK) DMAC_DCMD_DS_32BYTE in
  next_mode m1 md = Z.lor m0 DMAC_DCMD_DS_32BYTE /\ Z.land (Z.lor m0 DMAC_DCMD_DS_32BYTE) DMA_MODE_MASK = md /\
  fifo = (if id =? DMA_ID_MSC_TX then 268570684 else 268570680) /\
  src = (if id =? DMA_ID_MSC_TX then 26 else 27) /\
  rd dma_ds (Z.shiftr (Z.land (Z.lor m0 DMAC_DCMD_DS_32BYTE) DMAC_DCMD_DS_MASK) DMAC_DCMD_DS_BIT) = Some 32.
Proof. intros [-> | ->] E; vm_compute in E; injection E as <- <- <-; by intros [-> | ->]. Qed.

(** The registers of a channel that moves [count] bytes, in units of 32, between
    memory at [phy] and the FIFO of the card controller. *)
Definition moves (id phy count : Z) (r : dma_regs) : Prop :=
  let tx := id =? DMA_ID_MSC_TX in
  let fifo := if tx then 268570684 else 268570680 in
  DSAR r = (if tx then phy else fifo) /\ DTAR r = (if tx then fifo else phy) /\
  DTCR r = u32 (count + 31) / 32 /\ DRSR r = (if tx then 26 else 27) /\ Z.testbit (DCCSR r) 0 = true.

Lemma runs_upd_dma f d' Q s : f (dmac s) = Some d' -> Q tt (set_dmac d' s) -> runs (upd_dma f) Q s.
Proof. intros Hf HQ. apply runs_bind, runs_gets, runs_bind. by apply (runs_lift _ d'). Qed.

Lemma runs_start_dma s chan id phy count Q :
  id = DMA_ID_MSC_TX \/ id = DMA_ID_MSC_RX -> msc_chan (dmac s) chan id ->
  let md := if id =? DMA_ID_MSC_TX then DMA_MODE_WRITE else DMA_MODE_READ in
  (forall d' r, msc_chan d' chan id -> others chan (dmac s) d' -> rd (Dma.regs d') chan = Some r -> moves id phy count r ->
     Q tt (set_dmac d' (set_log (Start_dma chan phy count md :: log s) s))) ->
  runs (jz_mmc_start_dma chan phy count md) Q s.
Proof.
  intros Hid (str & line & idev & fifo & m0 & src & m & r & Htab & Hline & Hm & Hat) md HQ.
  destruct (msc_modes id m0 fifo src m Hid Htab Hm) as (Hnext & Hdir & Hfifo & Hsrc & Hu). fold md in Hnext, Hdir.
  apply runs_bind, runs_emit. destruct (disable_at _ _ _ _ Hat) as (d1 & r1 & E1 & Hat1 & Ho1).
  apply runs_bind, (runs_upd_dma _ d1); [done|].
  destruct (block_size_at _ _ _ _ 32 Hat1) as (d2 & m2 & E2 & Hat2 & Ho2 & Hm2). specialize (Hm2 eq_refl). simpl in Hm2.
  apply runs_bind, (runs_upd_dma _ d2); [done|].
  destruct (start_transfer_regs d2 chan _ r1 md phy (u32 (count + 31)) 32 Hat2) as (d3 & csr & Est & Hat3).
  { unfold unit_size. simpl. by rewrite Hm2, Hnext. }
  { simpl. rewrite Hm2, Hnext, Hdir. unfold md. destruct (id =? DMA_ID_MSC_TX); auto. }
  pose proof (start_transfer_others _ _ _ _ _ _ _ _ Hat2 Est) as Ho3.
  simpl in Hat3. rewrite Hm2, Hnext, Hdir in Hat3.
  unfold start_transfer in Est. apply bind_Some in Est as (e1 & F1 & Est). apply bind_Some in Est as (e2 & F2 & Est).
  apply bind_Some in Est as (e3 & F3 & F4).
  apply runs_bind, (runs_upd_dma _ e1); [done|]. apply runs_bind, (runs_upd_dma _ e2); [done|].
  apply runs_bind, (runs_upd_dma _ e3); [done|]. apply (runs_upd_dma _ d3); [done|].
  eapply (HQ d3).
  - exists str, line, idev, fifo, m0, src, (Z.lor m0 DMAC_DCMD_DS_32BYTE). eexists. split; [done|]. split; [done|].
    split; [by right|]. exact Hat3.
  - do 2 (etransitivity; [eassumption|]). done.
  - apply Hat3.
  - unfold moves, md in *. cbn [DSAR DTAR DTCR DRSR DCCSR]. rewrite Hfifo, Hsrc.
    destruct (id =? DMA_ID_MSC_TX); unfold DMAC_DCCSR_EN; rewrite Z.lor_spec, orb_true_r; done.
Qed.

(** The segments of a list, as transfers on [chan], latest first. *)
Definition segments (chan md : Z) (l : list scatterlist) : list (Z * Z * Z * Z) :=
  rev (map (fun x => (chan, phys x, sg_length x, md)) l).

Definition dir_of (id : Z) : Z := if id =? DMA_ID_MSC_TX then DMA_MODE_WRITE else DMA_MODE_READ.

(** The host up to what [setup_data] keeps there. *)
Definition same_host (h h' : jz_mmc_host) : Prop :=
  exists len dir l, h' = set_sg_cpu l (set_dma len dir h) /\ length l = length (sg_cpu h).

#[export] Instance same_host_refl : Reflexive same_host.
Proof. intros []. by eexists _, _, _. Qed.

#[export] Instance same_host_trans : Transitive same_host.
Proof. intros h1 h2 h3 (a & b & l & -> & H) (a' & b' & l' & -> & H'). exists a', b', l'. split; [done|]. simpl in *. congruence. Qed.

(** From [s] to [s'] the transfers [ts] were started on channel [chan]. *)
Definition transferred (chan id : Z) (ts : list (Z * Z * Z * Z)) (s s' : state) : Prop :=
  exists h d l, s' = set_log l (set_dmac d (set_host h s)) /\ same_host (host s) h /\
    msc_chan d chan id /\ others chan (dmac s) d /\
    dones l = dones (log s) /\ trail l = trail (log s) /\ imask_of l = imask_of (log s) /\
    transfers l = ts ++ transfers (log s).

Lemma transferred_trans chan id ts ts' s s' s'' :
  transferred chan id ts s s' -> transferred chan id ts' s' s'' -> transferred chan id (ts' ++ ts) s s''.
Proof.
  intros (h & d & l & -> & H1 & H2 & H3 & H4 & H5 & H6 & H7) (h' & d' & l' & -> & K1 & K2 & K3 & K4 & K5 & K6 & K7).
  exists h', d', l'. split; [done|]. simpl in *. split; [by etransitivity|]. split; [done|]. split; [by etransitivity|].
  rewrite K4, K5, K6, K7, H4, H5, H6, H7. by rewrite app_assoc.
Qed.

Lemma transferred_polls chan id ts s s' s'' :
  transferred chan id ts s s' -> polls s' s'' -> transferred chan id ts s s''.
Proof.
  intros (h & d & l & -> & H1 & H2 & H3 & H4 & H5 & H6 & H7) (l' & -> & K4 & K5 & K7 & K6).
  exists h, d, l'. split; [done|]. simpl in *. rewrite K4, K5, K6, K7. done.
Qed.

Lemma polls_transferred chan id s s' : msc_chan (dmac s) chan id -> polls s s' -> transferred chan id [] s s'.
Proof.
  intros Hc (l & -> & K4 & K5 & K7 & K6). exists (host s), (dmac s), l. split; [by destruct s|].
  split; [reflexivity|]. split; [done|]. split; [reflexivity|]. done.
Qed.

Lemma host_transferred chan id h s :
  msc_chan (dmac s) chan id -> same_host (host s) h -> transferred chan id [] s (set_host h s).
Proof. intros Hc Hh. exists h, (dmac s), (log s). split; [by destruct s|]. split; [done|]. split; [done|]. split; [reflexivity|done]. Qed.

Lemma transferred_chan chan id ts s s' : transferred chan id ts s s' -> msc_chan (dmac s') chan id.
Proof. by intros (h & d & l & -> & H1 & H2 & H3). Qed.

Lemma transferred_sg_cpu chan id ts s s' :
  transferred chan id ts s s' -> length (sg_cpu (host s')) = length (sg_cpu (host s)).
Proof. by intros (h & d & l & -> & (a & b & l' & -> & Hl') & _). Qed.

Lemma runs_start_segments n i chan id d s :
  id = DMA_ID_MSC_TX \/ id = DMA_ID_MSC_RX -> msc_chan (dmac s) chan id ->
  length (sg_cpu (host s)) = 256%nat -> (length (sg d) <= 256)%nat -> (i + n)%nat = length (sg d) ->
  runs (start_segments n (Z.of_nat i) chan (dir_of id) d)
    (fun _ s' => transferred chan id (segments chan (dir_of id) (drop i (sg d))) s s') s.
Proof.
  intros Hid. revert i s. induction n as [|n IH]; intros i s Hc Hl Hd Hi; cbn [start_segments].
  { apply runs_ret. rewrite drop_ge by lia. by apply polls_transferred. }
  destruct (lookup_lt_is_Some_2 (sg d) i) as [x Hx]; [lia|]. destruct (lookup_lt_is_Some_2 (sg d) 0) as [x0 Hx0]; [lia|].
  apply runs_bind, (runs_lift _ x); [by rewrite rd_lookup, Nat2Z.id by lia|]. apply runs_bind, runs_gets, runs_bind.
  destruct (wr (sg_cpu (host s)) (Z.of_nat i) _) as [l|] eqn:Hw; [|apply wr_None in Hw; lia].
  apply wr_length in Hw. eapply runs_lift; [done|]. apply runs_bind, runs_modify, runs_bind, (runs_lift _ x0); [done|].
  assert (H1 : transferred chan id [] s (set_host (set_sg_cpu l (host s)) s)).
  { apply host_transferred; [done|]. exists (dma_len (host s)), (dma_dir (host s)), l. by destruct (host s). }
  set (s1 := set_host _ s) in *. apply runs_bind, runs_emit. set (e := Writeback _ _).
  assert (H2 : transferred chan id [] s (set_log (e :: log s1) s1)).
  { eapply transferred_polls; [exact H1|]. by apply polls_emit. }
  set (s2 := set_log _ s1) in *.
  apply runs_bind, (runs_start_dma s2 chan id); [done|by eapply transferred_chan|]. intros d' r Hc' Ho _ _. fold (dir_of id).
  assert (H3 : transferred chan id [(chan, phys x, sg_length x, dir_of id)] s2
    (set_dmac d' (set_log (Start_dma chan (phys x) (sg_length x) (dir_of id) :: log s2) s2))).
  { exists (host s2), d'. eexists. split; [done|]. split; [reflexivity|]. done. }
  set (s3 := set_dmac d' _) in *.
  replace (Z.of_nat i + 1) with (Z.of_nat (S i)) by lia. eapply runs_mono; [apply IH; [done|simpl; lia|done|lia]|].
  intros [] s4 H4. rewrite (drop_S _ x) by done. unfold segments. cbn [map rev].
  pose proof (transferred_trans _ _ _ _ _ _ _ H2 (transferred_trans _ _ _ _ _ _ _ H3 H4)) as H. by rewrite app_nil_r in H.
Qed.

(** What the core guarantees of the data of a request. *)
Definition data_ok (d : mmc_data) : Prop := sg_len d = Z.of_nat (length (sg d)) /\ (length (sg d) <= 256)%nat.

Lemma runs_setup_data rid r d chan id s :
  id = DMA_ID_MSC_TX \/ id = DMA_ID_MSC_RX -> msc_chan (dmac s) chan id -> length (sg_cpu (host s)) = 256%nat ->
  reqs s !! rid = Some r -> r_data r = Some d -> data_ok d ->
  runs (setup_data rid chan (dir_of id)) (fun _ s' => transferred chan id (segments chan (dir_of id) (sg d)) s s') s.
Proof.
  intros Hid Hc Hl Hr Hd [Hn Hlen]. apply runs_bind. eapply runs_get_data; [done|done|]. cbv zeta.
  apply runs_bind, runs_writer; [done|done|]. intros s1 H1. apply runs_bind, runs_writer; [done|done|]. intros s2 H2.
  apply runs_bind, runs_emit. set (e := Map _ _). set (s3 := set_log (e :: log s2) s2).
  assert (H3 : polls s s3).
  { etransitivity; [exact H1|]. etransitivity; [exact H2|]. by apply polls_emit. }
  apply runs_bind, runs_modify. set (s4 := set_host _ s3).
  assert (H4 : transferred chan id [] s s4).
  { pose proof (polls_transferred chan id s s3 Hc H3) as H3'.
    eapply (transferred_trans _ _ [] []); [exact H3'|]. apply host_transferred; [by eapply transferred_chan|].
    eexists _, _, (sg_cpu (host s3)). by split. }
  rewrite Hn, Nat2Z.id. change 0 with (Z.of_nat 0).
  eapply runs_mono; [apply (runs_start_segments _ 0 chan id); [done| | |done|lia]|].
  - by eapply transferred_chan.
  - by rewrite (transferred_sg_cpu _ _ _ _ _ H4).
  - intros [] s5 H5. rewrite drop_0 in H5. pose proof (transferred_trans _ _ _ _ _ _ _ H4 H5) as H. by rewrite app_nil_r in H.
Qed.

(** ** Commands *)

Definition same_cmd (c c' : mmc_command) : Prop :=
  opcode c' = opcode c /\ arg c' = arg c /\ flags c' = flags c /\ retries c' = retries c /\ length (resp c') = 4%nat.

(** The command at [p] was sent, ended as [c], and is no longer (or still) the
    current one; nothing else happened to the requests. *)
Definition issued (p : cmd_ptr) (c : mmc_command) (r : mmc_request) (s s' : state) : Prop :=
  exists x rt l, s' = set_log l (set_r_type rt (set_reqs (<[ptr_id p := put_cmd p c r]> (reqs s))
      (set_host (set_cmd x (host s)) s))) /\
    dones l = dones (log s) /\ trail l = Sent (u8 (opcode c)) :: trail (log s) /\ transfers l = transfers (log s) /\
    imask_of l = 255.

Lemma issued_stores p c c' r s s' s'' :
  issued p c r s s' -> opcode c' = opcode c -> stores (ptr_id p) (put_cmd p c' r) s' s'' -> issued p c' r s s''.
Proof.
  intros (x & rt & l & -> & H1 & H2 & H3 & H4) Hop (l' & -> & K1 & K2 & K3 & K4). exists x, rt, l'. split.
  - unfold set_reqs. simpl. by rewrite insert_insert_eq.
  - simpl in *. rewrite K1, K2, K3, K4, Hop. done.
Qed.

Lemma issued_polls p c r s s' s'' : issued p c r s s' -> polls s' s'' -> issued p c r s s''.
Proof.
  intros H Hp. eapply issued_stores; [exact H|done|]. apply polls_stores; [|done].
  destruct H as (x & rt & l & -> & _). apply lookup_insert_eq.
Qed.

Lemma issued_set_cmd p c r s s' x : issued p c r s s' -> issued p c r s (set_host (set_cmd x (host s')) s').
Proof. intros (y & rt & l & -> & H). by exists x, rt, l. Qed.

Lemma issued_lookup p c r s s' : issued p c r s s' -> reqs s' !! ptr_id p = Some (put_cmd p c r).
Proof. intros (x & rt & l & -> & _). apply lookup_insert_eq. Qed.

Section Commands.
Context (hw : list event -> reg -> Z) (bus_1 : bool).

Lemma runs_select_response c Q s :
  (forall b rt, Q b (set_r_type rt s)) -> runs (select_response c) Q s.
Proof.
  intros HQ. unfold select_response. cbv zeta.
  destruct (_ =? _); [by apply runs_bind, runs_modify, runs_ret|].
  destruct (_ =? _); [by apply runs_bind, runs_modify, runs_ret|].
  destruct (_ =? _); [by apply runs_bind, runs_modify, runs_ret|].
  apply runs_ret. replace s with (set_r_type (r_type s) s) by (by destruct s). apply HQ.
Qed.

Lemma runs_write_argument c Q s : (forall s', polls s s' -> Q tt s') -> runs (write_argument bus_1 c) Q s.
Proof.
  intros HQ. unfold write_argument, when. destruct bus_1; [destruct (opcode c =? 6)|]; [|by apply runs_writer..].
  apply runs_bind. destruct (arg c =? 2).
  - apply runs_writer; [done|done|]. intros s1 H1. destruct (arg c =? 62324993); [|by apply HQ].
    apply runs_writer; [done|done|]. intros s2 H2. apply HQ. by etransitivity.
  - apply runs_ret. destruct (arg c =? 62324993); [by apply runs_writer|]. apply HQ. reflexivity.
Qed.

Lemma runs_send_command p bits r c Q s :
  reqs s !! ptr_id p = Some r -> cmd_of p r = Some c ->
  (forall s', issued p c r s s' -> cmd (host s') = Some p -> Q c s') -> runs (send_command hw bus_1 p bits) Q s.
Proof.
  intros Hr Hc HQ. apply runs_bind, runs_modify, runs_bind, runs_stop_clock. intros s1 (l1 & -> & A1 & A2 & A3 & A4).
  apply runs_bind, runs_emit, runs_bind, runs_emit, runs_bind. eapply runs_get_cmd; [done|done|]. cbv zeta.
  apply runs_bind, runs_select_response. intros b rt. apply runs_bind, runs_emit.
  set (s2 := set_log _ (set_r_type rt _)).
  assert (Hi : issued p c r s s2).
  { eexists (Some p), rt, _. unfold s2. split; [unfold set_reqs; simpl; by rewrite put_cmd_same, insert_id by done|].
    split; [exact A1|]. split; [exact (f_equal (cons _) A2)|]. by split; [exact A3|]. }
  assert (Hp2 : cmd (host s2) = Some p) by done.
  clearbody s2. apply runs_bind, runs_write_argument. intros s3 H3.
  apply runs_bind, runs_writer; [done|done|]. intros s4 H4. apply runs_bind, runs_writer; [done|done|]. intros s5 H5.
  apply runs_bind, runs_wait_bit; [lia|]. intros t s6 H6 Ht. apply runs_bind, runs_writer; [done|done|]. intros s7 H7.
  assert (Hi7 : issued p c r s s7) by (repeat (eapply issued_polls; [|eassumption]); exact Hi).
  assert (Hp7 : cmd (host s7) = Some p) by (by rewrite (polls_host _ _ H7), (polls_host _ _ H6), (polls_host _ _ H5),
    (polls_host _ _ H4), (polls_host _ _ H3)).
  apply runs_bind. unfold when. destruct (opcode c =? 12); [|by apply runs_ret, runs_ret, HQ].
  apply runs_bind, runs_wait_bit; [done|]. intros t' s8 H8 _. apply runs_writer; [done|done|]. intros s9 H9.
  apply runs_ret, HQ; [|by rewrite (polls_host _ _ H9), (polls_host _ _ H8)].
  eapply issued_polls; [|exact H9]. by eapply issued_polls.
Qed.

(** *** The end of a request *)

Definition idle_host (h : jz_mmc_host) : jz_mmc_host := set_data None (set_cmd None (set_mrq None h)).

Definition retry (r : mmc_request) : mmc_request :=
  Request (set_error 0 (set_retries (retries (r_cmd r) - 1) (r_cmd r))) (r_data r) (r_stop r).

Lemma runs_finish ops id r Q s :
  mrq (host s) = Some id -> reqs s !! id = Some r ->
  (forall s', polls (set_host (idle_host (host s)) s) s' ->
     if negb (error (r_cmd r) =? 0) && negb (retries (r_cmd r) =? 0)
     then runs (ops id) Q (set_reqs (<[id := retry r]> (reqs s')) (set_log (Retry id (error (r_cmd r)) :: log s') s'))
     else Q tt (set_reqs (delete id (reqs s')) (set_log (Done id r :: log s') s'))) ->
  runs (finish_current hw ops) Q s.
Proof.
  intros Hm Hr HQ. apply runs_bind, runs_gets, runs_bind, runs_stop_clock. intros s1 (l & -> & H1).
  do 3 apply runs_bind, runs_modify. apply runs_bind, (runs_lift _ id); [done|].
  apply runs_bind. eapply runs_get_req; [done|]. cbv zeta.
  specialize (HQ (set_log l (set_host (idle_host (host s)) s)) ltac:(by exists l)).
  destruct (negb _ && negb _).
  - apply runs_bind, runs_emit, runs_bind. eapply runs_bind, runs_get_req; [done|]. exact HQ.
  - apply runs_bind, runs_emit, runs_modify. exact HQ.
Qed.

(** *** From the command to the data phase *)

Definition error_ok (e : Z) : Prop := e = 0 \/ e = u32 (- ETIMEDOUT) \/ e = u32 (- EILSEQ).

(** The end of [jz_mmc_start_cmd]. *)
Definition after_cmd (p : cmd_ptr) : M unit :=
  h <- gets host ;;
  match data h with
  | None => ret tt
  | Some id => c <- get_cmd p ;; when (is_write c) (jz_mmc_tx_setup_data id)
  end.

Lemma issued_data p c r s s' : issued p c r s s' -> data (host s') = data (host s) /\ mrq (host s') = mrq (host s).
Proof. by intros (x & rt & l & -> & _). Qed.

Lemma runs_cmd_done ops p r c stat Q s0 s :
  issued p c r s0 s -> cmd (host s) = Some p -> length (resp c) = 4%nat -> error c = 0 ->
  (forall s1 c1, issued p c1 r s0 s1 -> same_cmd c c1 -> error_ok (error c1) ->
     data (host s0) = None \/ error c1 <> 0 -> runs (finish_current hw ops) (fun _ => Q 1) s1) ->
  (forall s1 c1, issued p c1 r s0 s1 -> cmd (host s1) = None -> same_cmd c c1 -> error c1 = 0 -> data (host s0) <> None ->
     runs (jz_mmc_enable_irq MSC_IMASK_DATA_TRAN_DONE) (fun _ => Q 1) s1) ->
  runs (jz_mmc_cmd_done hw ops stat) Q s.
Proof.
  intros Hi Hp Hl He Hend Hgo. apply runs_bind, runs_gets. rewrite Hp. apply runs_bind, runs_modify.
  pose proof (issued_set_cmd _ _ _ _ _ None Hi) as H1. set (s1 := set_host _ s) in *.
  assert (N1 : cmd (host s1) = None) by done. clearbody s1.
  apply runs_bind, runs_gets, runs_bind.
  eapply runs_mono; [eapply runs_read_response; [by eapply issued_lookup|apply cmd_of_put|done]|].
  intros [] s2 (l & Hl2 & H2). rewrite put_put in H2. set (c2 := set_resp l c) in *.
  pose proof (issued_stores _ _ c2 _ _ _ _ H1 eq_refl H2) as H2'. apply runs_bind.
  eapply runs_get_cmd; [by eapply issued_lookup|apply cmd_of_put|]. apply runs_bind.
  assert (Hst : runs match status_error stat c2 with Some e => upd_cmd p (set_error e) | None => ret tt end
    (fun _ s3 => exists c3, issued p c3 r s0 s3 /\ cmd (host s3) = None /\ same_cmd c c3 /\ error_ok (error c3)) s2).
  { rewrite <- (stores_host _ _ _ _ H2) in N1.
    destruct (status_error stat c2) as [e|] eqn:Hse; [|apply runs_ret; exists c2; do 3 (split; [done|]); by left].
    eapply runs_upd_cmd; [by eapply issued_lookup|apply cmd_of_put|]. intros s3 H3. exists (set_error e c2).
    rewrite put_put in H3. split; [by eapply issued_stores|]. split; [by rewrite (stores_host _ _ _ _ H3)|].
    split; [done|]. right. clear - Hse.
    unfold status_error in Hse. repeat (case_match; simplify_eq); auto. }
  eapply runs_mono; [exact Hst|]. intros [] s3 (c3 & H3 & N3 & Hs3 & He3). apply runs_bind.
  eapply runs_get_cmd; [by eapply issued_lookup|apply cmd_of_put|]. apply runs_bind, runs_gets, runs_bind.
  destruct (issued_data _ _ _ _ _ H3) as [-> _]. specialize (Hend s3 c3 H3 Hs3 He3).
  destruct (data (host s0)) as [i|]; [|eapply runs_mono; [apply Hend; by left|by intros]].
  destruct (Z.eqb_spec (error c3) 0).
  - eapply runs_mono; [by eapply Hgo|]. by intros.
  - eapply runs_mono; [apply Hend; by right|]. by intros.
Qed.

Lemma runs_start_cmd ops p r c bits Q s :
  reqs s !! ptr_id p = Some r -> cmd_of p r = Some c -> length (resp c) = 4%nat -> error c = 0 ->
  (forall s1 c1, issued p c1 r s s1 -> same_cmd c c1 -> error c1 = u32 (- ETIMEDOUT) ->
     (mmc_slot_enable s = true -> opcode c = SD_IO_SEND_OP_COND) -> runs (finish_current hw ops) Q s1) ->
  (forall s1 c1, issued p c1 r s s1 -> same_cmd c c1 -> mmc_slot_enable s = true -> error_ok (error c1) ->
     data (host s) = None \/ error c1 <> 0 -> runs (finish_current hw ops) (fun _ => runs (after_cmd p) Q) s1) ->
  (forall s1 c1, issued p c1 r s s1 -> cmd (host s1) = None -> same_cmd c c1 -> mmc_slot_enable s = true ->
     error c1 = 0 -> data (host s) <> None ->
     runs (jz_mmc_enable_irq MSC_IMASK_DATA_TRAN_DONE) (fun _ => runs (after_cmd p) Q) s1) ->
  runs (jz_mmc_start_cmd hw bus_1 ops p bits) Q s.
Proof.
  intros Hr Hc Hl He Hoff Hend Hgo. apply runs_bind. eapply runs_send_command; [done|done|]. intros s1 H1 Hp1.
  apply runs_bind, runs_gets. assert (mmc_slot_enable s1 = mmc_slot_enable s) as -> by (by destruct H1 as (x & rt & l & -> & _)).
  destruct (mmc_slot_enable s) eqn:Hen; simpl; [destruct (Z.eqb_spec (opcode c) SD_IO_SEND_OP_COND)|].
  - apply runs_bind. eapply runs_upd_cmd; [by eapply issued_lookup|apply cmd_of_put|]. intros s2 H2.
    rewrite put_put in H2. eapply Hoff; [exact (issued_stores _ _ (set_error (- ETIMEDOUT) c) _ _ _ _ H1 eq_refl H2)|done|done|done].
  - apply runs_bind, runs_readr. intros stat s2 H2. apply runs_bind.
    eapply runs_cmd_done; [by eapply issued_polls|by rewrite (polls_host _ _ H2)|done|done| |].
    + intros s3 c3 H3 Hs3 He3 Hd. eapply runs_mono; [by eapply Hend|]. by intros [] s4 H4.
    + intros s3 c3 H3 N3 Hs3 He3 Hd. eapply runs_mono; [by eapply Hgo|]. by intros [] s4 H4.
  - apply runs_bind. eapply runs_upd_cmd; [by eapply issued_lookup|apply cmd_of_put|]. intros s2 H2.
    rewrite put_put in H2. eapply Hoff; [exact (issued_stores _ _ (set_error (- ETIMEDOUT) c) _ _ _ _ H1 eq_refl H2)|done|done|done].
Qed.

End Commands.

(** ** Requests *)

(** Both channels belong to the card controller and the descriptors have room. *)
Definition ready (s : state) : Prop :=
  msc_chan (dmac s) (rxdmachan s) DMA_ID_MSC_RX /\ msc_chan (dmac s) (txdmachan s) DMA_ID_MSC_TX /\
  length (sg_cpu (host s)) = 256%nat.

Definition req_ok (r : mmc_request) : Prop :=
  length (resp (r_cmd r)) = 4%nat /\ 0 <= retries (r_cmd r) /\
  (forall d, r_data r = Some d -> data_ok d) /\ (forall c, r_stop r = Some c -> length (resp c) = 4%nat).

Definition kept (s s' : state) : Prop :=
  rxdmachan s' = rxdmachan s /\ txdmachan s' = txdmachan s /\ mmc_slot_enable s' = mmc_slot_enable s /\ cpm s' = cpm s /\
  ready s'.

Lemma kept_trans s1 s2 s3 : kept s1 s2 -> kept s2 s3 -> kept s1 s3.
Proof. intros (H1 & H2 & H3 & H4 & H5) (K1 & K2 & K3 & K4 & K5). unfold kept. by rewrite K1, K2, K3, K4. Qed.

(** The transfers that a request needs; [w]: its data phase was reached. *)
Definition plan (s : state) (r : mmc_request) (w : bool) : list (Z * Z * Z * Z) :=
  match r_data r with
  | Some d =>
      if is_write (r_cmd r) then (if w then segments (txdmachan s) DMA_MODE_WRITE (sg d) else [])
      else segments (rxdmachan s) DMA_MODE_READ (sg d)
  | None => []
  end.

(** [r'] is [r] after some attempts. *)
Definition attempted (r r' : mmc_request) : Prop :=
  r_data r' = r_data r /\ r_stop r' = r_stop r /\
  opcode (r_cmd r') = opcode (r_cmd r) /\ arg (r_cmd r') = arg (r_cmd r) /\ flags (r_cmd r') = flags (r_cmd r) /\
  length (resp (r_cmd r')) = 4%nat /\ 0 <= retries (r_cmd r') <= retries (r_cmd r).

(** The request was answered with [r'], and the host is free. *)
Definition answered (id : nat) (r' : mmc_request) (s s' : state) : Prop :=
  mrq (host s') = None /\ cmd (host s') = None /\ data (host s') = None /\
  imask (host s') = 255 /\ imask_of (log s') = 255 /\
  reqs s' = delete id (reqs s) /\ dones (log s') = id :: dones (log s) /\ (exists l, log s' = Done id r' :: l).

(** The request waits for the end of its data phase. *)
Definition waiting (id : nat) (r' : mmc_request) (s s' : state) : Prop :=
  mrq (host s') = Some id /\ cmd (host s') = None /\ data (host s') = Some id /\
  imask (host s') = 254 /\ imask_of (log s') = 254 /\
  reqs s' = <[id := r']> (reqs s) /\ dones (log s') = dones (log s).

(** The attempts at a command: all but the last one have failed with the errors
    [errs]; latest first, as in the log. *)
Fixpoint attempts (op : Z) (errs : list Z) : list attempt :=
  match errs with [] => [Sent op] | e :: errs => Sent op :: Failed e :: attempts op errs end.

Lemma attempts_snoc op errs e : attempts op (errs ++ [e]) = attempts op errs ++ [Failed e; Sent op].
Proof. induction errs as [|e' errs IH]; simpl; [done|]. by rewrite IH. Qed.

Definition failure (e : Z) : Prop := e = u32 (- ETIMEDOUT) \/ e = u32 (- EILSEQ).

Definition repeated {A} (n : nat) (l : list A) : list A := concat (replicate n l).

Lemma repeated_add {A} n m (l : list A) : repeated (n + m) l = repeated n l ++ repeated m l.
Proof. unfold repeated. by rewrite replicate_add, concat_app. Qed.

Lemma repeated_nil {A} n : repeated n ([] : list A) = [].
Proof. induction n; [done|]. exact IHn. Qed.

Lemma repeated_1 {A} (l : list A) : repeated 1 l = l.
Proof. apply app_nil_r. Qed.

(** How a request goes on from [s], where it is [r].  A transfer is handed over
    once per attempt; for a write, [m] is 0 until the outermost attempt has done so. *)
Definition outcome (m : nat) (id : nat) (r : mmc_request) (s s' : state) : Prop :=
  exists r' (w : bool) errs, attempted r r' /\ kept s s' /\
    (Z.of_nat (length errs) = retries (r_cmd r) - retries (r_cmd r') /\ Forall failure errs /\
     trail (log s') = attempts (u8 (opcode (r_cmd r))) errs ++ trail (log s)) /\
    transfers (log s') =
      repeated ((if is_write (r_cmd r) then m else 1) + length errs) (plan s r w) ++ transfers (log s) /\
    if w then waiting id r' s s' /\ r_data r <> None /\ error (r_cmd r') = 0 /\ mmc_slot_enable s = true
    else answered id r' s s' /\ error_ok (error (r_cmd r')) /\ (error (r_cmd r') <> 0 -> retries (r_cmd r') = 0) /\
      (r_data r <> None -> error (r_cmd r') <> 0) /\ (mmc_slot_enable s = false -> error (r_cmd r') = u32 (- ETIMEDOUT)).

Lemma plan_false s r n : repeated ((if is_write (r_cmd r) then n else 1) + 0) (plan s r false) = plan s r false.
Proof.
  unfold plan. destruct (r_data r); [|apply repeated_nil]. destruct (is_write (r_cmd r)); [apply repeated_nil|apply repeated_1].
Qed.

Lemma outcome_done id r s s' :
  outcome 0 id r s s' -> (mmc_slot_enable s = true -> is_write (r_cmd r) = false) -> outcome 1 id r s s'.
Proof.
  intros (r' & w & errs & Ha & Hk & Ht & Htr & Hw) Hs. exists r', w, errs. split; [done|]. split; [done|]. split; [done|].
  split; [|done]. rewrite Htr. destruct w; [by rewrite Hs by apply Hw|]. unfold plan. destruct (r_data r); [|by rewrite !repeated_nil].
  destruct (is_write (r_cmd r)); [by rewrite !repeated_nil|done].
Qed.

(** Ready for the command of [id]. *)
Definition prepared (id : nat) (r : mmc_request) (s s' : state) : Prop :=
  kept s s' /\ mrq (host s') = Some id /\ data (host s') = (match r_data r with Some _ => Some id | None => None end) /\
  imask (host s') = 255 /\ reqs s' = reqs s /\ dones (log s') = dones (log s) /\ trail (log s') = trail (log s) /\
  transfers (log s') = plan s r false ++ transfers (log s).

Lemma chan_differ s : ready s -> rxdmachan s <> txdmachan s.
Proof.
  intros [(a & b & c & e & f & g & m & r & _ & _ & _ & Hat) [(a' & b' & c' & e' & f' & g' & m' & r' & _ & _ & _ & Hat') _]] E.
  destruct Hat as (_ & H & _), Hat' as (_ & H' & _). rewrite E, H' in H. done.
Qed.

Lemma transferred_kept chan id ts s s' :
  ready s -> (chan = rxdmachan s /\ id = DMA_ID_MSC_RX \/ chan = txdmachan s /\ id = DMA_ID_MSC_TX) ->
  transferred chan id ts s s' -> kept s s'.
Proof.
  intros Hrd Hchan Ht. pose proof (chan_differ s Hrd) as Hne. pose proof (transferred_sg_cpu _ _ _ _ _ Ht) as Hl.
  destruct Ht as (h & d & l & -> & Hh & Hc & Ho & _). destruct Hrd as (Hrx & Htx & Hsg).
  do 4 (split; [done|]). split; [|split; [|congruence]]; simpl;
    destruct Hchan as [[-> ->] | [-> ->]]; try done; eapply msc_chan_others; eauto.
Qed.

Lemma transferred_host chan id ts s s' :
  transferred chan id ts s s' -> mrq (host s') = mrq (host s) /\ cmd (host s') = cmd (host s) /\
    data (host s') = data (host s) /\ imask (host s') = imask (host s) /\ cmdat (host s') = cmdat (host s).
Proof. by intros (h & d & l & -> & (a & b & l' & -> & _) & _). Qed.

Section Request.
Context (hw : list event -> reg -> Z) (bus_1 : bool).

Lemma runs_enable_irq mask Q s :
  (forall l, dones l = dones (log s) -> trail l = trail (log s) -> transfers l = transfers (log s) ->
     imask_of l = u16 (Z.ldiff (imask (host s)) mask) ->
     Q tt (set_log l (set_host (set_imask (Z.ldiff (imask (host s)) mask) (host s)) s))) ->
  runs (jz_mmc_enable_irq mask) Q s.
Proof. intros HQ. apply runs_bind, runs_modify, runs_bind, runs_gets, runs_emit. by apply HQ. Qed.

(** The first half of [jz_mmc_request]. *)
Lemma runs_prepare id r bits s :
  ready s -> reqs s !! id = Some r -> req_ok r -> imask (host s) = 255 ->
  mrq (host s) = Some id -> data (host s) = (match r_data r with Some _ => Some id | None => None end) ->
  runs (match r_data r with
        | Some d => when (negb (is_write (r_cmd r))) (jz_mmc_rx_setup_data id) ;;; ret (data_cmdat bus_1 (r_cmd r) d bits)
        | None => ret bits
        end) (fun _ => prepared id r s) s.
Proof.
  intros Hrd Hr (_ & _ & Hd & _) Him Hm Hda. unfold prepared, plan.
  assert (kept s s) by done. destruct (r_data r) as [d|] eqn:Hdata; [|by apply runs_ret]. apply runs_bind.
  destruct (is_write (r_cmd r)); simpl; [by apply runs_ret, runs_ret|]. apply runs_bind, runs_gets.
  eapply runs_mono; [eapply (runs_setup_data id r d (rxdmachan s) DMA_ID_MSC_RX); [by right|apply Hrd|apply Hrd|done|done|by apply Hd]|].
  intros [] s1 H1. apply runs_ret. destruct (transferred_host _ _ _ _ _ H1) as (-> & _ & -> & -> & _).
  pose proof (transferred_kept _ _ _ _ _ Hrd ltac:(left; done) H1) as Hk.
  destruct H1 as (h & dd & l & -> & _ & _ & _ & E1 & E2 & _ & E4). simpl in *. by rewrite E1, E2, E4.
Qed.

Lemma issued_kept p c r s s' : ready s -> issued p c r s s' -> kept s s' /\ imask (host s') = imask (host s).
Proof. by intros Hrd (x & rt & l & -> & _). Qed.

(** What [ops] does with a request that is tried again. *)
Definition retries_ok (ops : nat -> M unit) (id : nat) (n : Z) : Prop :=
  forall r s, reqs s !! id = Some r -> req_ok r -> error (r_cmd r) = 0 -> ready s -> imask (host s) = 255 ->
    retries (r_cmd r) = n - 1 -> runs (ops id) (fun _ => outcome 1 id r s) s.

Lemma plan_kept s s2 r r2 w :
  kept s s2 -> r_data r2 = r_data r -> opcode (r_cmd r2) = opcode (r_cmd r) -> plan s2 r2 w = plan s r w.
Proof. intros (K1 & K2 & _) Hd Ho. unfold plan, is_write. by rewrite Hd, Ho, K1, K2. Qed.

(** An outcome after one more attempt. *)
Lemma outcome_retry id r s c1 e s2 s' :
  same_cmd (r_cmd r) c1 -> req_ok r -> retries (r_cmd r) <> 0 -> failure e ->
  let r2 := Request (set_error 0 (set_retries (retries c1 - 1) c1)) (r_data r) (r_stop r) in
  kept s s2 -> reqs s2 = <[id := r2]> (reqs s) -> dones (log s2) = dones (log s) ->
  trail (log s2) = Failed e :: Sent (u8 (opcode (r_cmd r))) :: trail (log s) ->
  transfers (log s2) = plan s r false ++ transfers (log s) -> outcome 1 id r2 s2 s' -> outcome 0 id r s s'.
Proof.
  intros (So & Sa & Sf & Sr & Sl) (Hl & Hn & Hd & Hst) Hnz He r2 Hk Hrq Hdn Hse Htr2
    (r' & w & errs & (A1 & A2 & A3 & A4 & A5 & A6 & A7) & Hk' & (Hle & Hfa & Hs') & Htr' & Hw).
  rewrite (plan_kept s s2 r r2 w Hk eq_refl So) in Htr'.
  replace (if is_write (r_cmd r2) then 1 else 1)%nat with 1%nat in Htr' by (by destruct (is_write (r_cmd r2))).
  simpl in *. exists r', w, (errs ++ [e]). split; [repeat split; try congruence; lia|]. split; [by eapply kept_trans|]. split; [split|split].
  - rewrite length_app. simpl. lia.
  - split; [by apply Forall_app; split; [|constructor]|]. rewrite Hs', Hse, So, attempts_snoc, <- app_assoc. done.
  - rewrite Htr', Htr2, app_assoc. f_equal. rewrite length_app. simpl length.
    unfold plan. destruct (r_data r) as [m|]; [|by rewrite !repeated_nil].
    destruct (is_write (r_cmd r)); [rewrite app_nil_r; f_equal; lia|].
    transitivity (repeated (S (length errs) + 1) (segments (rxdmachan s) DMA_MODE_READ (sg m)));
      [by rewrite repeated_add, repeated_1|done].
  - assert (Hen : mmc_slot_enable s2 = mmc_slot_enable s) by apply Hk. rewrite Hen in Hw.
    destruct w; [|destruct Hw as [Hw ?]; split; [|done]]; unfold answered, waiting in *.
    + destruct Hw as [Hw ?]. split; [|done]. by rewrite Hrq, insert_insert_eq, Hdn in Hw.
    + by rewrite Hrq, delete_insert_eq, Hdn in Hw.
Qed.

Lemma runs_finish_outcome ops id r c1 s s0 s1 :
  prepared id r s s0 -> reqs s !! id = Some r -> req_ok r -> issued (Main id) c1 r s0 s1 -> same_cmd (r_cmd r) c1 ->
  error_ok (error c1) -> (r_data r <> None -> error c1 <> 0) ->
  (mmc_slot_enable s = false -> error c1 = u32 (- ETIMEDOUT)) ->
  (retries (r_cmd r) <> 0 -> retries_ok ops id (retries (r_cmd r))) ->
  runs (finish_current hw ops) (fun _ s' => outcome 0 id r s s' /\ (retries (r_cmd r) <> 0 \/ data (host s') = None)) s1.
Proof.
  intros (Hk0 & Hm0 & Hd0 & Hi0 & Hr0 & Hdn0 & Hs0 & Ht0) Hr Hok Hi Hsame Heo Hde Hsl Hops.
  destruct (issued_kept _ _ _ _ _ (proj2 (proj2 (proj2 (proj2 Hk0)))) Hi) as [Hk1 Him1].
  pose proof (kept_trans _ _ _ Hk0 Hk1) as Hk. destruct (issued_data _ _ _ _ _ Hi) as [_ Hm1].
  eapply runs_finish; [by rewrite Hm1|exact (issued_lookup _ _ _ _ _ Hi)|]. intros s2 (l2 & -> & B1 & B2 & B3 & B4).
  destruct Hi as (x & rt & l & -> & E1 & E2 & E3 & E4). simpl in *.
  pose proof Hsame as (So & Sa & Sf & Sr & Sl).
  destruct (Z.eqb_spec (error c1) 0) as [He|He]; simpl; [|destruct (Z.eqb_spec (retries c1) 0) as [Hz|Hz]; simpl].
  3: { assert (Hnz : retries (r_cmd r) <> 0) by congruence. eapply runs_mono; [eapply (Hops Hnz)|].
       - simpl. apply lookup_insert_eq.
       - destruct Hok as (? & ? & ? & ?). repeat split; simpl; try done; try lia; by apply H1.
       - done.
       - apply Hk.
       - simpl. congruence.
       - simpl. congruence.
       - intros [] s' Hout. split; [|by left]. eapply (outcome_retry id r s c1 (error c1)); [done|done|done|by destruct Heo| | | | | |exact Hout]; simpl.
         + exact Hk.
         + by rewrite Hr0, !insert_insert_eq.
         + rewrite (proj1 (log_retry _ _ _)). congruence.
         + rewrite (proj1 (proj2 (log_retry _ _ _))). by rewrite B2, E2, Hs0, So.
         + rewrite (proj1 (proj2 (proj2 (log_retry _ _ _)))). by rewrite B3, E3, Ht0. }
  all: destruct (log_done id (put_cmd (Main id) c1 r) l2) as (D1 & D2 & D3 & D4); simpl in D1, D2, D3, D4;
    split; [|by right]; exists (Request c1 (r_data r) (r_stop r)), false, []; simpl length; rewrite plan_false; simpl;
    rewrite D2, D3, B2, B3, E2, E3, So, Hs0, Ht0, Sr, Z.sub_diag; destruct Hok as (? & ? & ? & ?);
    (split; [repeat split; simpl; try congruence; lia|]); (split; [exact Hk|]); (split; [done|]); (split; [done|]);
    (split; [|split; [done|split; [congruence|done]]]);
    unfold answered; simpl; rewrite D1, D4, B1, E1, Hdn0, B4, E4, Hr0, delete_insert_eq; repeat split; try congruence; by eexists.
Qed.

(** The set-up of a write transfer changes nothing of a waiting request. *)
Lemma waiting_transferred id r' s s1 s2 ts :
  ready s1 -> waiting id r' s s1 -> transferred (txdmachan s1) DMA_ID_MSC_TX ts s1 s2 -> waiting id r' s s2 /\ kept s1 s2.
Proof.
  intros Hrd Hw Ht. split; [|eapply transferred_kept; [done|by right|done]].
  unfold waiting in *. destruct (transferred_host _ _ _ _ _ Ht) as (-> & -> & -> & -> & _).
  destruct Ht as (h & d & l & -> & _ & _ & _ & E1 & E2 & E3 & E4). simpl. by rewrite E1, E3.
Qed.

(** The end of [jz_mmc_start_cmd] for a waiting request. *)
Lemma runs_after_waiting id r r' s s1 :
  attempted r r' -> req_ok r -> r_data r <> None -> kept s s1 -> waiting id r' s s1 ->
  runs (after_cmd (Main id)) (fun _ s2 => waiting id r' s s2 /\ kept s s2 /\ trail (log s2) = trail (log s1) /\
    transfers (log s2) =
      (if is_write (r_cmd r) then plan s r true else []) ++ transfers (log s1)) s1.
Proof.
  intros (A1 & A2 & A3 & _) (_ & _ & Hd & _) Hdn Hk Hw. pose proof Hw as (_ & _ & Hda & _ & _ & Hrq & _).
  apply runs_bind, runs_gets. rewrite Hda. apply runs_bind.
  assert (Hr' : reqs s1 !! id = Some r') by (rewrite Hrq; apply lookup_insert_eq).
  eapply (runs_get_cmd (Main id)); [done|done|]. unfold is_write, plan. rewrite A3. fold (is_write (r_cmd r)).
  destruct (r_data r) as [d|] eqn:Hdata; [|done]. destruct (is_write (r_cmd r)); [|by apply runs_ret].
  apply runs_bind, runs_gets. assert (ready s1) as (H1 & H2 & H3) by apply Hk.
  eapply runs_mono; [eapply (runs_setup_data id r' d _ DMA_ID_MSC_TX); [by left|done|done|done|done|by apply Hd]|].
  intros [] s2 Ht. destruct (waiting_transferred _ _ _ _ _ _ ltac:(done) Hw Ht) as [Hw2 Hk2].
  split; [done|]. split; [by eapply kept_trans|].
  destruct Ht as (h & dd & l & -> & _ & _ & _ & E1 & E2 & E3 & E4). simpl. rewrite E2, E4.
  by assert (txdmachan s1 = txdmachan s) as -> by apply Hk.
Qed.

Lemma runs_after_outcome id r s s1 :
  outcome 0 id r s s1 -> req_ok r -> retries (r_cmd r) <> 0 \/ data (host s1) = None ->
  runs (after_cmd (Main id)) (fun _ => outcome 1 id r s) s1.
Proof.
  intros (r' & w & errs & Ha & Hk & Hs & Ht & Hw) Hok Hor. destruct w.
  - destruct Hw as (Hw & Hd & He & Hen). destruct Hor as [Hnz|Hnone]; [|destruct Hw as (_ & _ & Hx & _); congruence].
    eapply runs_mono; [by eapply runs_after_waiting|]. intros [] s2 (Hw2 & Hk2 & Hs2 & Ht2).
    exists r', true, errs. rewrite Hs2, Ht2, Ht. split; [done|]. split; [done|]. split; [done|]. split; [|done].
    rewrite app_assoc. f_equal. destruct (is_write (r_cmd r)); [|done].
    rewrite <- (repeated_1 (plan s r true)) at 1. by rewrite <- repeated_add.
  - apply runs_bind, runs_gets. destruct (proj1 Hw) as (H1 & H2 & H3 & Hrest). rewrite H3. apply runs_ret.
    assert (outcome 0 id r s s1) as Ho by (by exists r', false, errs).
    destruct (is_write (r_cmd r)) eqn:Hwr; [|apply outcome_done; [done|done]].
    exists r', false, errs. split; [done|]. split; [done|]. split; [done|]. split; [|done].
    rewrite Ht, Hwr. unfold plan. rewrite Hwr. destruct (r_data r); by rewrite !repeated_nil.
Qed.

Lemma runs_go_outcome id r c1 s s0 s1 :
  prepared id r s s0 -> req_ok r -> issued (Main id) c1 r s0 s1 -> cmd (host s1) = None -> same_cmd (r_cmd r) c1 ->
  error c1 = 0 -> r_data r <> None -> mmc_slot_enable s = true ->
  runs (jz_mmc_enable_irq MSC_IMASK_DATA_TRAN_DONE) (fun _ => runs (after_cmd (Main id)) (fun _ => outcome 1 id r s)) s1.
Proof.
  intros (Hk0 & Hm0 & Hd0 & Hi0 & Hr0 & Hdn0 & Hs0 & Ht0) Hok Hi N1 (So & Sa & Sf & Sr & Sl) He Hd Hen.
  destruct (issued_kept _ _ _ _ _ (proj2 (proj2 (proj2 (proj2 Hk0)))) Hi) as [Hk1 Him1].
  pose proof (kept_trans _ _ _ Hk0 Hk1) as Hk. destruct (issued_data _ _ _ _ _ Hi) as [Hd1 Hm1].
  apply runs_enable_irq. intros l2 B1 B2 B3 B4. rewrite Him1, Hi0 in B4. change (u16 _) with 254 in B4.
  set (r' := Request c1 (r_data r) (r_stop r)). set (s2 := set_log l2 _).
  assert (Ha : attempted r r') by (destruct Hok as (? & ? & ? & ?); repeat split; simpl; try congruence; lia).
  assert (Hw : waiting id r' s s2).
  { unfold waiting, s2. simpl. rewrite Hm1, Hm0, Hd1, Hd0, N1, Him1, Hi0, B1, B4.
    destruct Hi as (x & rt & l & -> & E1 & _). simpl. rewrite E1, Hdn0, Hr0. by destruct (r_data r). }
  assert (Hk2 : kept s s2) by exact Hk.
  eapply runs_mono; [by eapply runs_after_waiting|]. intros [] s3 (Hw3 & Hk3 & Hs3 & Ht3).
  destruct Hi as (x & rt & l & -> & E1 & E2 & E3 & E4). simpl in *.
  exists r', true, []. simpl. rewrite Sr, Z.sub_diag, Hs3, B2, E2, So, Hs0. split; [done|]. split; [done|]. split; [done|].
  split; [|done]. rewrite Ht3, B3, E3, Ht0, app_assoc. f_equal.
  replace ((if is_write (r_cmd r) then 1 else 1) + 0)%nat with 1%nat by (by destruct (is_write (r_cmd r))).
  rewrite repeated_1. unfold plan.
  destruct (r_data r) as [d|]; [|done]. destruct (is_write (r_cmd r)); [by rewrite app_nil_r|done].
Qed.

(** Every request that the driver is given ends as [outcome] says, with enough
    fuel for its retries. *)
Lemma runs_request fuel id r s :
  (Z.to_nat (retries (r_cmd r)) < fuel)%nat -> reqs s !! id = Some r -> req_ok r -> error (r_cmd r) = 0 ->
  ready s -> imask (host s) = 255 -> runs (jz_mmc_request hw bus_1 fuel id) (fun _ => outcome 1 id r s) s.
Proof.
  revert r s. induction fuel as [|fuel IH]; intros r s Hf Hr Hok He Hrd Him; [lia|]. cbn [jz_mmc_request].
  assert (Hops : retries (r_cmd r) <> 0 -> retries_ok (jz_mmc_request hw bus_1 fuel) id (retries (r_cmd r))).
  { intros Hnz r2 s2 H1 H2 H3 H4 H5 H6. apply IH; try done. destruct Hok as (_ & ? & _). lia. }
  apply runs_bind, runs_stop_clock. intros s1 (l1 & -> & A1 & A2 & A3 & A4). apply runs_bind.
  eapply runs_get_req; [done|]. apply runs_bind, runs_modify, runs_bind, runs_modify, runs_bind, runs_gets. cbv zeta.
  apply runs_bind, runs_modify, runs_bind.
  eapply runs_mono; [eapply (runs_prepare id r); done|].
  intros bits s0 Hp. assert (Hp0 : prepared id r s s0).
  { destruct Hp as (Hk & ? & ? & ? & ? & B1 & B2 & B3). simpl in *. rewrite A1 in B1. rewrite A2 in B2. rewrite A3 in B3.
    split; [exact Hk|]. done. }
  clear Hp. pose proof Hp0 as (Hk0 & Hm0 & Hd0 & Hi0 & Hr0 & _).
  assert (Hen : mmc_slot_enable s0 = mmc_slot_enable s) by apply Hk0.
  assert (Hr00 : reqs s0 !! ptr_id (Main id) = Some r) by (by rewrite Hr0).
  eapply (runs_start_cmd hw bus_1 _ (Main id) r (r_cmd r) _ _ _ Hr00 eq_refl (proj1 Hok) He).
  - intros s1 c1 Hi Hs He1 Hop. eapply runs_mono; [eapply runs_finish_outcome; try done|].
    + rewrite He1. by right; left.
    + by rewrite He1.
    + intros [] s2 [Hout _]. apply outcome_done; [done|]. rewrite <- Hen. intros Hs2. unfold is_write. by rewrite (Hop Hs2).
  - intros s1 c1 Hi Hs Ht Heo Hor. eapply runs_mono; [eapply runs_finish_outcome; try done|].
    + rewrite Hd0 in Hor. by destruct Hor, (r_data r).
    + rewrite <- Hen, Ht. done.
    + intros [] s2 [Hout Hx]. by apply runs_after_outcome.
  - intros s1 c1 Hi N1 Hs Ht He1 Hd. rewrite Hd0 in Hd. eapply runs_go_outcome; try done.
    + by destruct (r_data r).
    + by rewrite <- Hen.
Qed.

(** *** The data phase *)

(** [id] waits in the driver as [r]. *)
Definition busy (id : nat) (r : mmc_request) (s : state) : Prop :=
  mrq (host s) = Some id /\ cmd (host s) = None /\ data (host s) = Some id /\
  imask (host s) = 254 /\ imask_of (log s) = 254 /\ reqs s !! id = Some r /\ req_ok r /\ error (r_cmd r) = 0 /\
  r_data r <> None /\ (forall c, r_stop r = Some c -> error c = 0).

(** The data of a request whose data phase has ended: all of it or nothing. *)
Definition data_ended (d d' : mmc_data) : Prop :=
  blksz d' = blksz d /\ blocks d' = blocks d /\ d_flags d' = d_flags d /\ sg d' = sg d /\
  (d_error d' = d_error d \/ d_error d' = u32 (- ETIMEDOUT) \/ d_error d' = u32 (- EILSEQ)) /\
  bytes_xfered d' = if d_error d' =? 0 then u32 (blocks d * blksz d) else 0.

Definition stop_ended (c c' : option mmc_command) : Prop :=
  match c, c' with
  | Some c, Some c' => same_cmd c c' /\ error_ok (error c')
  | None, None => True
  | _, _ => False
  end.

(** The data phase of [id] has ended and the request was answered. *)
Definition completed (id : nat) (r : mmc_request) (s s' : state) : Prop :=
  exists d d' stop', r_data r = Some d /\ data_ended d d' /\ stop_ended (r_stop r) stop' /\ kept s s' /\
    answered id (Request (r_cmd r) (Some d') stop') s s' /\ transfers (log s') = transfers (log s) /\
    trail (log s') = (match r_stop r with Some c => [Sent (u8 (opcode c))] | None => [] end) ++ trail (log s).

(** The host when the last step of a data request begins. *)
Definition closing (id : nat) (r : mmc_request) (s s' : state) : Prop :=
  kept s s' /\ mrq (host s') = Some id /\ data (host s') = None /\ imask (host s') = 255 /\ imask_of (log s') = 255 /\
  reqs s' = <[id := r]> (reqs s) /\ dones (log s') = dones (log s) /\ trail (log s') = trail (log s) /\
  transfers (log s') = transfers (log s).

(** The main command has no error: the request is answered, not tried again. *)
Lemma runs_finish_answered ops id r s :
  mrq (host s) = Some id -> reqs s !! id = Some r -> error (r_cmd r) = 0 -> ready s ->
  imask (host s) = 255 -> imask_of (log s) = 255 ->
  runs (finish_current hw ops) (fun _ s' => answered id r s s' /\ kept s s' /\ trail (log s') = trail (log s) /\
    transfers (log s') = transfers (log s)) s.
Proof.
  intros Hm Hr He Hrd Him Hio. eapply runs_finish; [done|done|]. intros s1 (l & -> & A1 & A2 & A3 & A4).
  rewrite He. simpl in *. destruct (log_done id r l) as (D1 & D2 & D3 & D4).
  unfold answered. simpl. rewrite D1, D2, D3, D4, A1, A2, A3, A4.
  split; [|by split]. repeat split; try done. by eexists.
Qed.

Lemma runs_stop_cmd ops id r c s :
  mrq (host s) = Some id -> data (host s) = None -> reqs s !! id = Some r -> r_stop r = Some c -> error (r_cmd r) = 0 ->
  length (resp c) = 4%nat -> error c = 0 -> ready s -> imask (host s) = 255 ->
  runs (jz_mmc_start_cmd hw bus_1 ops (Stop id) 0) (fun _ s' => exists c',
    same_cmd c c' /\ error_ok (error c') /\ answered id (Request (r_cmd r) (r_data r) (Some c')) s s' /\ kept s s' /\
    trail (log s') = Sent (u8 (opcode c)) :: trail (log s) /\ transfers (log s') = transfers (log s)) s.
Proof.
  intros Hm Hd Hr Hst He Hl Hec Hrd Him.
  assert (Hfin : forall s1 c1, issued (Stop id) c1 r s s1 -> same_cmd c c1 -> error_ok (error c1) ->
    runs (finish_current hw ops) (fun _ s' => data (host s') = None /\ exists c',
      same_cmd c c' /\ error_ok (error c') /\ answered id (Request (r_cmd r) (r_data r) (Some c')) s s' /\ kept s s' /\
      trail (log s') = Sent (u8 (opcode c)) :: trail (log s) /\ transfers (log s') = transfers (log s)) s1).
  { intros s1 c1 Hi Hs Heo. destruct (issued_kept _ _ _ _ _ Hrd Hi) as [Hk Him1].
    destruct (issued_data _ _ _ _ _ Hi) as [_ Hm1]. pose proof (issued_lookup _ _ _ _ _ Hi) as Hr1.
    destruct Hi as (x & rt & l & -> & E1 & E2 & E3 & E4).
    eapply runs_mono; [eapply (runs_finish_answered ops id); [by rewrite Hm1|exact Hr1|done|apply Hk|by rewrite Him1|done]|].
    intros [] s' (Ha & Hk' & Hs' & Ht'). split; [apply Ha|]. exists c1. split; [done|]. split; [done|]. simpl in *. split.
    - unfold answered in *. simpl in Ha. by rewrite delete_insert_eq, E1 in Ha.
    - split; [exact Hk'|]. rewrite Hs', Ht', E2, E3. by rewrite (proj1 Hs). }
  eapply (runs_start_cmd hw bus_1 _ (Stop id) r c _ _ _ Hr Hst Hl Hec).
  - intros s1 c1 Hi Hs Hee _. eapply runs_mono; [eapply Hfin; [done|done|rewrite Hee; by right; left]|]. by intros [] s' [_ ?].
  - intros s1 c1 Hi Hs Hen Heo _. eapply runs_mono; [by eapply Hfin|]. intros [] s' [Hn Hx].
    apply runs_bind, runs_gets. rewrite Hn. by apply runs_ret.
  - intros s1 c1 _ _ _ _ _ Hx. done.
Qed.

Lemma runs_disable_irq mask Q s :
  (forall l, dones l = dones (log s) -> trail l = trail (log s) -> transfers l = transfers (log s) ->
     imask_of l = u16 (Z.lor (imask (host s)) mask) ->
     Q tt (set_log l (set_host (set_imask (Z.lor (imask (host s)) mask) (host s)) s))) ->
  runs (jz_mmc_disable_irq mask) Q s.
Proof. intros HQ. apply runs_bind, runs_modify, runs_bind, runs_gets, runs_emit. by apply HQ. Qed.

(** The error and the count of a data phase that has ended. *)
Lemma runs_data_result id r d stat Q s :
  reqs s !! id = Some r -> r_data r = Some d ->
  (forall d' s', data_ended d d' -> stores id (Request (r_cmd r) (Some d') (r_stop r)) s s' -> Q tt s') ->
  runs ((if has stat MSC_STAT_TIME_OUT_READ then upd_data id (set_d_error (- ETIMEDOUT))
         else v <- readr hw STAT ;;
           when (has v (Z.lor MSC_STAT_CRC_READ_ERROR MSC_STAT_CRC_WRITE_ERROR)) (upd_data id (set_d_error (- EILSEQ)))) ;;;
        upd_data id (fun d => set_bytes_xfered (if d_error d =? 0 then u32 (blocks d * blksz d) else 0) d)) Q s.
Proof.
  intros Hr Hd HQ. apply runs_bind.
  apply (runs_mono _ (fun _ s' => exists d', data_ended d (set_bytes_xfered
    (if d_error d' =? 0 then u32 (blocks d' * blksz d') else 0) d') /\ stores id (Request (r_cmd r) (Some d') (r_stop r)) s s')).
  - assert (Hdd : Request (r_cmd r) (Some d) (r_stop r) = r) by (destruct r; simpl in *; congruence).
    destruct (has stat MSC_STAT_TIME_OUT_READ).
    + eapply runs_upd_data; [done|done|]. intros s' H'. exists (set_d_error (- ETIMEDOUT) d).
      split; [|done]. repeat split; try done. by right; left.
    + apply runs_bind, runs_readr. intros v s1 H1. pose proof (polls_stores id r s s1 Hr H1) as H1'.
      unfold when. destruct (has v _).
      * eapply runs_upd_data; [by rewrite (polls_lookup _ _ _ H1)|done|]. intros s2 H2. exists (set_d_error (- EILSEQ) d).
        split; [repeat split; try done; by right; right|]. by eapply stores_trans.
      * apply runs_ret. exists d. rewrite Hdd. split; [|done]. repeat split; try done. by left.
  - intros [] s1 (d1 & Hd1 & H1). eapply runs_upd_data; [by eapply stores_lookup|done|]. intros s2 H2.
    eapply HQ; [exact Hd1|]. by eapply stores_trans.
Qed.

Lemma runs_data_done ops id r stat s :
  busy id r s -> ready s ->
  runs (jz_mmc_data_done hw bus_1 ops stat) (fun handled s' => handled = 1 /\ completed id r s s') s.
Proof.
  intros (Hm & Hcm & Hd & Him & Hio & Hr & (Hl & Hn & Hdo & Hst) & He & Hdata & Hse) Hrd.
  destruct (r_data r) as [d|] eqn:Hrd0; [|done]. apply runs_bind, runs_gets. rewrite Hd.
  apply runs_bind, runs_writer; [done|done|]. intros s1 H1. apply runs_bind, runs_stop_clock. intros s2 H2.
  apply runs_bind, runs_emit. set (s3 := set_log _ s2).
  assert (Hp3 : polls s s3) by (etransitivity; [exact H1|]; etransitivity; [exact H2|]; by apply polls_emit).
  clearbody s3. clear s1 s2 H1 H2. apply runs_assoc, runs_bind.
  eapply runs_data_result; [by rewrite (polls_lookup _ _ _ Hp3)|done|]. intros d' s4 Hd' H4.
  set (r4 := Request (r_cmd r) (Some d') (r_stop r)) in *.
  pose proof (stores_trans _ _ _ _ _ _ (polls_stores _ _ _ _ Hr Hp3) H4) as (l4 & -> & A1 & A2 & A3 & A4).
  clear s3 Hp3 H4. apply runs_bind, runs_disable_irq. simpl. rewrite Him. intros l5 B1 B2 B3 B4.
  apply runs_bind, runs_modify, runs_bind, runs_gets, runs_bind, (runs_lift _ id); [done|]. apply runs_bind.
  apply (runs_get_req _ r4); [apply lookup_insert_eq|]. set (s6 := set_host _ _).
  assert (Hc : closing id r4 s s6).
  { unfold closing, s6. simpl. rewrite B1, B2, B3, B4, A1, A2, A3. split; [exact (conj eq_refl (conj eq_refl (conj eq_refl (conj eq_refl Hrd))))|].
    done. }
  clearbody s6. destruct Hc as (Hk & Hm6 & Hd6 & Hi6 & Hio6 & Hr6 & Hdn6 & Hs6 & Ht6).
  assert (Hrd6 : ready s6) by apply Hk. assert (Hl6 : reqs s6 !! id = Some r4) by (rewrite Hr6; apply lookup_insert_eq).
  assert (Hans : forall r' s', answered id r' s6 s' -> answered id r' s s').
  { intros r' s'. unfold answered. by rewrite Hr6, delete_insert_eq, Hdn6. }
  apply runs_bind. destruct (r_stop r) as [c|] eqn:Hstop; unfold r4; cbn [r_stop]; rewrite ?Hstop.
  - apply runs_bind, runs_stop_clock. intros s7 (l7 & -> & C1 & C2 & C3 & C4).
    eapply runs_mono; [eapply (runs_stop_cmd ops id r4 c); try done; [by apply Hst|by apply Hse]|].
    intros [] s8 (c' & Hsc & Heo & Ha & Hk8 & Hs8 & Ht8). apply runs_ret. split; [done|].
    exists d, d', (Some c'). rewrite Hstop. simpl in *. split; [done|]. split; [done|]. split; [done|].
    split; [by eapply kept_trans|]. split.
    + apply Hans. unfold answered in *. simpl in Ha. by rewrite C1 in Ha.
    + by rewrite Hs8, Ht8, C2, C3, Hs6, Ht6.
  - eapply runs_mono; [by apply (runs_finish_answered ops id r4)|]. intros [] s8 (Ha & Hk8 & Hs8 & Ht8).
    apply runs_ret. split; [done|]. exists d, d', None. rewrite Hstop. split; [done|]. split; [done|]. split; [done|].
    split; [by eapply kept_trans|]. split; [|by rewrite Hs8, Ht8, Hs6, Ht6].
    apply Hans. exact Ha.
Qed.

(** The controller's interrupt: the end of the data phase, or nothing. *)
Lemma runs_irq fuel s :
  ready s -> (forall id, data (host s) = Some id -> exists r, busy id r s) ->
  runs (jz_mmc_irq hw bus_1 fuel) (fun handled s' =>
    if handled : bool then exists id r, busy id r s /\ completed id r s s' else polls s s') s.
Proof.
  intros Hrd Hb. apply runs_bind, runs_readr. intros ireg s1 H1. destruct (negb _); [|by apply runs_ret].
  apply runs_bind, runs_readr. intros stat s2 H2. assert (H12 : polls s s2) by (by etransitivity).
  destruct (has ireg _); [|by apply runs_ret]. apply runs_bind. destruct (data (host s)) as [id|] eqn:Hd.
  - destruct (Hb id eq_refl) as [r Hr]. destruct H12 as (l & -> & A1 & A2 & A3 & A4). simpl in *.
    eapply runs_mono; [eapply (runs_data_done _ id r)|].
    + unfold busy in *. simpl. by rewrite A4.
    + done.
    + intros x s' [-> (d & d' & st & E1 & E2 & E3 & E4 & E5 & E6 & E7)]. apply runs_ret. simpl in *.
      exists id, r. split; [done|]. exists d, d', st. unfold answered in *. simpl in E5. rewrite A1 in E5.
      rewrite E6, E7, A2, A3. done.
  - apply runs_bind, runs_gets. rewrite (polls_host _ _ H12), Hd. by apply runs_ret, runs_ret.
Qed.

End Request.
