(* ===== verification/MmcSystem.v ===== *)
(** * The MMC/SD host driver under the MMC core

    The entry points of the driver as steps of one system: requests of the core,
    interrupts of the card controller, of its two DMA channels and of the card
    slot, and changes of the bus settings, in any order that the core allows.
    Over every such history and whatever the hardware answers, each request is
    answered exactly once; the responses and the clock that the driver computes
    are the right ones. *)

From S2P Require Import Prelude.
From S2P Require Import Cpufreq.
From S2P Require Import Dma.
From S2P Require Import MmcDriver.
From S2P Require Import MmcRequests.

(** ** Entry points *)

(** [Rx_irq v] and [Tx_irq v]: the DMA controller has put [v] in DCCSR. *)
Inductive op :=
  | Submit (id : nat) (r : mmc_request)
  | Irq
  | Rx_irq (dccsr : Z)
  | Tx_irq (dccsr : Z)
  | Card_irq
  | Set_ios (ios : mmc_ios).

Section System.
Context (hw : list event -> reg -> Z) (bus_1 : bool).

Definition hw_dccsr (chan v : Z) : M unit :=
  upd_dma (fun d => set_regs d chan (fun r => Regs (DSAR r) (DTAR r) (DTCR r) (DRSR r) v (DCMD r))).

Definition exec (o : op) : M unit :=
  match o with
  | Submit id r => put_req id r ;;; mmc_start_request hw bus_1 id
  | Irq => jz_mmc_irq hw bus_1 0 ;;; ret tt
  | Rx_irq v => chan <- gets rxdmachan ;; hw_dccsr chan v ;;; jz_mmc_dma_rx_callback
  | Tx_irq v => chan <- gets txdmachan ;; hw_dccsr chan v ;;; jz_mmc_dma_tx_callback
  | Card_irq => jz_mmc_detect_irq hw
  | Set_ios ios => jz_mmc_set_ios hw ios
  end.

(** The core holds the host for one request at a time, within its limits; the
    descriptions of requests are well formed. *)
Definition submit_ok (r : mmc_request) : Prop :=
  req_ok r /\ (forall d, r_data r = Some d -> within_limits d = true).

Definition allowed (o : op) (s : state) : Prop :=
  match o with
  | Submit id r => mrq (host s) = None /\ (id ∉ dones (log s)) /\ submit_ok r
  | Set_ios ios => 0 <= clock ios
  | _ => True
  end.

Definition submitted (o : op) : list nat := match o with Submit id _ => [id] | _ => [] end.

(** The host as [jz_mmc_probe] leaves it, with the DMA channels it has got. *)
Definition booted (s : state) : Prop :=
  ready s /\ __cpm_get_pllout2 (cpm s) <> None /\ mrq (host s) = None /\ cmd (host s) = None /\ data (host s) = None /\
  imask (host s) = 255 /\ imask_of (log s) = 255 /\ reqs s = ∅ /\ dones (log s) = [].

Inductive reach (s0 : state) : list nat -> state -> Prop :=
  | reach_refl : reach s0 [] s0
  | reach_step ids s o s' : reach s0 ids s -> allowed o s -> exec o s = Some (tt, s') ->
      reach s0 (submitted o ++ ids) s'.

(** ** The invariant *)

Definition pending (s : state) : list nat := match mrq (host s) with Some id => [id] | None => [] end.

Definition free (s : state) : Prop :=
  mrq (host s) = None /\ cmd (host s) = None /\ data (host s) = None /\
  imask (host s) = 255 /\ imask_of (log s) = 255 /\ reqs s = ∅.

Definition inv (s : state) : Prop :=
  ready s /\ __cpm_get_pllout2 (cpm s) <> None /\ NoDup (pending s ++ dones (log s)) /\
  (free s \/ exists id r, busy id r s /\ reqs s = {[id := r]}).

(** Steps that leave the requests alone. *)
Definition aside (s s' : state) : Prop :=
  ready s' /\ __cpm_get_pllout2 (cpm s') = __cpm_get_pllout2 (cpm s) /\ reqs s' = reqs s /\
  mrq (host s') = mrq (host s) /\ cmd (host s') = cmd (host s) /\ data (host s') = data (host s) /\
  imask (host s') = imask (host s) /\ imask_of (log s') = imask_of (log s) /\ dones (log s') = dones (log s).

Lemma aside_inv s s' : inv s -> aside s s' -> inv s' /\ pending s' = pending s /\ dones (log s') = dones (log s).
Proof.
  intros (Hrd & Hp & Hn & Hf) (A1 & A2 & A3 & A4 & A5 & A6 & A7 & A8 & A9).
  unfold inv, pending, free, busy in *. rewrite A2, A3, A4, A5, A6, A7, A8, A9. done.
Qed.

Lemma aside_refl s : ready s -> aside s s.
Proof. done. Qed.

Lemma aside_trans s1 s2 s3 : aside s1 s2 -> aside s2 s3 -> aside s1 s3.
Proof.
  intros (A1 & A2 & A3 & A4 & A5 & A6 & A7 & A8 & A9) (B1 & B2 & B3 & B4 & B5 & B6 & B7 & B8 & B9).
  unfold aside. by rewrite B2, B3, B4, B5, B6, B7, B8, B9.
Qed.

Lemma polls_aside s s' : ready s -> polls s s' -> aside s s'.
Proof. intros Hrd (l & -> & A1 & A2 & A3 & A4). unfold aside. simpl. by rewrite A1, A4. Qed.

(** A change of the host that keeps the request fields and the mask. *)
Lemma host_aside f s :
  ready s -> sg_cpu (f (host s)) = sg_cpu (host s) -> mrq (f (host s)) = mrq (host s) -> cmd (f (host s)) = cmd (host s) ->
  data (f (host s)) = data (host s) -> imask (f (host s)) = imask (host s) -> aside s (set_host (f (host s)) s).
Proof.
  intros (H1 & H2 & H3) Hs Hm Hc Hd Hi. unfold aside. simpl. rewrite Hm, Hc, Hd, Hi. split; [|done].
  split; [done|]. split; [done|]. simpl. by rewrite Hs.
Qed.

(** *** Clock and card slot *)

Lemma calc_clkrt_spec fuel rate src k :
  1 <= rate -> 0 <= src < 2 ^ Z.of_nat fuel ->
  exists n, calc_clkrt fuel rate src k = Some (k + n) /\ 0 <= n <= Z.of_nat fuel /\ src / 2 ^ n <= rate /\
    (forall j, 0 <= j < n -> rate < src / 2 ^ j).
Proof.
  intros Hr. revert src k. induction fuel as [|fuel IH]; intros src k Hs; cbn [calc_clkrt].
  - rewrite (proj2 (Z.ltb_ge _ _)) by (simpl in Hs; lia). exists 0. rewrite Z.add_0_r. simpl in Hs.
    split; [done|]. split; [lia|]. split; [rewrite Z.pow_0_r, Z.div_1_r; lia|lia].
  - destruct (Z.ltb_spec rate src) as [Hlt|Hge].
    + rewrite Z.shiftr_div_pow2, Z.pow_1_r by lia.
      destruct (IH (src / 2) (k + 1)) as (n & -> & Hn & Hle & Hj).
      { rewrite Nat2Z.inj_succ, Z.pow_succ_r in Hs by lia. split; [apply Z.div_pos; lia|].
        apply Z.div_lt_upper_bound; lia. }
      assert (Hdiv : forall j, 0 <= j -> src / 2 / 2 ^ j = src / 2 ^ (j + 1)).
      { intros j Hj0. rewrite Z.div_div by (try apply Z.pow_pos_nonneg; lia).
        by rewrite (Z.add_comm j), Z.pow_add_r, Z.pow_1_r by lia. }
      exists (n + 1). split; [f_equal; lia|]. split; [lia|]. split; [by rewrite <- Hdiv by lia|].
      intros j Hjn. destruct (Z.eq_dec j 0) as [->|]; [by rewrite Z.pow_0_r, Z.div_1_r|].
      replace j with (j - 1 + 1) by lia. rewrite <- Hdiv by lia. apply Hj. lia.
    + exists 0. rewrite Z.add_0_r, Z.pow_0_r, Z.div_1_r. split; [done|]. split; [lia|]. split; [done|lia].
Qed.

Lemma runs_set_clock rate s :
  ready s -> __cpm_get_pllout2 (cpm s) <> None -> 1 <= rate ->
  runs (jz_mmc_set_clock hw rate) (fun _ s' => aside s s') s.
Proof.
  intros Hrd Hp Hr. apply runs_bind, runs_stop_clock. intros s1 H1. pose proof (polls_aside _ _ Hrd H1) as Ha1.
  destruct (__cpm_get_pllout2 (cpm s)) as [p|] eqn:Hpll; [|done].
  assert (__cpm_get_pllout2 (cpm s1) = Some p) as Hp1 by (rewrite <- Hpll; apply Ha1).
  apply runs_bind, runs_bind, runs_gets, runs_bind, (runs_lift _ p); [done|]. apply runs_modify. apply runs_bind.
  destruct (calc_clkrt_spec 32 rate 24000000 0 Hr ltac:(done)) as (n & Hn & _). eapply runs_lift; [exact Hn|].
  apply runs_writer; [done|done|]. intros s2 H2. eapply aside_trans; [exact Ha1|].
  eapply aside_trans; [|eapply polls_aside; [|exact H2]; apply Ha1]. split; [apply Ha1|].
  split; [|done]. simpl. unfold set_MSCCDR, __cpm_get_pllout2 at 1. done.
Qed.

Lemma runs_set_ios ios s :
  ready s -> __cpm_get_pllout2 (cpm s) <> None -> 0 <= clock ios -> runs (jz_mmc_set_ios hw ios) (fun _ => aside s) s.
Proof.
  intros Hrd Hp Hc. apply runs_bind. apply (runs_mono _ (fun _ => aside s)).
  { destruct (Z.eqb_spec (clock ios) 0); simpl; [|apply runs_set_clock; [done|done|lia]].
    apply runs_bind, runs_stop_clock. intros s1 H1. by apply runs_ret, polls_aside. }
  intros [] s1 H1. apply runs_bind, runs_gets, runs_bind. apply (runs_mono _ (fun _ => aside s)).
  { unfold when. destruct (negb _); [|by apply runs_ret].
    assert (H2 : aside s (set_host (set_power_mode (ios_power_mode ios) (host s1)) s1)).
    { eapply aside_trans; [exact H1|]. apply (host_aside (set_power_mode (ios_power_mode ios))); try done. apply H1. }
    apply runs_bind, runs_modify. destruct (_ =? _); [|by apply runs_ret]. apply runs_modify.
    eapply aside_trans; [exact H2|]. set (s2 := set_host _ s1) in *.
    apply (host_aside (fun h => set_cmdat (Z.lor (cmdat h) MSC_CMDAT_INIT) h)); try done. apply H2. }
  intros [] s2 H2.
  destruct (_ || _); apply runs_modify; (eapply aside_trans; [exact H2|]); [set (b := MSC_CMDAT_BUS_WIDTH_4BIT)|].
  - apply (host_aside (fun h => set_cmdat (Z.lor (cmdat h) b) h)); try done. apply H2.
  - apply (host_aside (fun h => set_cmdat (Z.ldiff (cmdat h) MSC_CMDAT_BUS_WIDTH_4BIT) h)); try done. apply H2.
Qed.

Lemma runs_detect s : ready s -> runs (jz_mmc_detect_irq hw) (fun _ => aside s) s.
Proof.
  intros Hrd. apply runs_bind, runs_bind, runs_readr. intros v s1 H1. apply runs_bind, runs_emit, runs_ret.
  apply runs_bind, runs_modify, runs_emit. destruct H1 as (l & -> & A1 & A2 & A3 & A4). split; [done|].
  by repeat split.
Qed.

(** *** DMA callbacks *)

Lemma msc_chan_regs d n id f :
  msc_chan d n id -> exists d' r, set_regs d n f = Some d' /\ msc_chan d' n id /\ others n d d' /\ rd (Dma.regs d') n = Some r.
Proof.
  intros (str & line & idev & fifo & m0 & src & m & r & H1 & H2 & H3 & Hat).
  destruct (chan_at_regs d n _ r f Hat) as (d' & E & Hat'). exists d', (f r). split; [done|]. split.
  - exists str, line, idev, fifo, m0, src, m, (f r). done.
  - split; [by eapply others_set_regs|apply Hat'].
Qed.

Lemma msc_chan_disable d n id :
  msc_chan d n id -> exists d' r, disable_dma d n = Some d' /\ msc_chan d' n id /\ others n d d' /\ rd (Dma.regs d') n = Some r.
Proof.
  intros (str & line & idev & fifo & m0 & src & m & r & H1 & H2 & H3 & Hat).
  destruct (disable_at d n _ r Hat) as (d' & r' & E & Hat' & Ho). exists d', r'. split; [done|]. split.
  - exists str, line, idev, fifo, m0, src, m, r'. done.
  - split; [done|apply Hat'].
Qed.

Definition our_chan (s : state) (chan id : Z) : Prop :=
  chan = rxdmachan s /\ id = DMA_ID_MSC_RX \/ chan = txdmachan s /\ id = DMA_ID_MSC_TX.

Lemma our_chan_msc s chan id : ready s -> our_chan s chan id -> msc_chan (dmac s) chan id.
Proof. by intros (H1 & H2 & _) [[-> ->] | [-> ->]]. Qed.

Lemma dmac_aside s chan id d :
  ready s -> our_chan s chan id -> msc_chan d chan id -> others chan (dmac s) d -> aside s (set_dmac d s).
Proof.
  intros Hrd Hc Hd Ho. split; [|done]. pose proof (chan_differ s Hrd) as Hne. destruct Hrd as (H1 & H2 & H3).
  destruct Hc as [[-> ->] | [-> ->]]; (split; [|split; [|done]]); simpl; try done; eapply msc_chan_others; eauto.
Qed.

(** A step on the DMA controller that only touches our channel. *)
Lemma runs_upd_aside f chan id s :
  ready s -> our_chan s chan id ->
  (exists d r, f (dmac s) = Some d /\ msc_chan d chan id /\ others chan (dmac s) d /\ rd (Dma.regs d) chan = Some r) ->
  runs (upd_dma f) (fun _ s' => aside s s' /\ our_chan s' chan id) s.
Proof.
  intros Hrd Hc (d & r & Hf & Hd & Ho & _). apply (runs_upd_dma _ d); [done|]. split; [by eapply dmac_aside|]. exact Hc.
Qed.

Lemma runs_hw_dccsr chan id v s :
  ready s -> our_chan s chan id -> runs (hw_dccsr chan v) (fun _ s' => aside s s' /\ our_chan s' chan id) s.
Proof. intros Hrd Hc. apply (runs_upd_aside _ chan id s Hrd Hc), msc_chan_regs. by apply our_chan_msc. Qed.

Lemma runs_callback chan id s : ready s -> our_chan s chan id -> runs (dma_callback chan) (fun _ => aside s) s.
Proof.
  intros Hrd Hc. apply runs_bind.
  eapply runs_mono; [apply (runs_upd_aside _ chan id s Hrd Hc), msc_chan_disable; by apply our_chan_msc|].
  intros [] s2 [H2 Hc2]. assert (Hclr : forall bit s, ready s -> our_chan s chan id ->
    runs (upd_dma (fun d => r ← rd (Dma.regs d) chan; if has (DCCSR r) bit then clear_dccsr chan bit d else Some d))
      (fun _ s' => aside s s' /\ our_chan s' chan id) s).
  { intros bit t Ht Hct. apply runs_upd_aside; [done|done|]. pose proof (our_chan_msc _ _ _ Ht Hct) as Hm.
    destruct Hm as (str & line & idev & fifo & m0 & src & m & r & K1 & K2 & K3 & Hat).
    pose proof Hat as (_ & _ & _ & _ & ->). cbn [mbind option_bind]. destruct (has (DCCSR r) bit).
    - apply msc_chan_regs. by exists str, line, idev, fifo, m0, src, m, r.
    - exists (dmac t), r. split; [done|]. split; [by exists str, line, idev, fifo, m0, src, m, r|].
      split; [reflexivity|apply Hat]. }
  assert (Hrd2 : ready s2) by apply H2. apply runs_bind. eapply runs_mono; [by apply Hclr|]. intros [] s3 [H3 Hc3].
  assert (Hrd3 : ready s3) by apply H3. eapply runs_mono; [by apply Hclr|]. intros [] s4 [H4 _].
  do 2 (eapply aside_trans; [eassumption|]). done.
Qed.

(** *** Preservation *)

(** How a step changes what is pending and what is answered. *)
Definition step_ok (o : op) (s s' : state) : Prop :=
  inv s' /\ Permutation (pending s' ++ dones (log s')) (submitted o ++ pending s ++ dones (log s)).

Lemma aside_step_ok o s s' : submitted o = [] -> inv s -> aside s s' -> step_ok o s s'.
Proof. intros Ho Hi Ha. destruct (aside_inv s s' Hi Ha) as (H1 & H2 & H3). split; [done|]. by rewrite Ho, H2, H3. Qed.

Lemma started_ok r : submit_ok r -> req_ok (started r) /\ error (r_cmd (started r)) = 0.
Proof.
  intros [(H1 & H2 & H3 & H4) _]. split; [|done]. split; [done|]. split; [done|]. split.
  - intros d. simpl. destruct (r_data r) as [d0|] eqn:E; [|done]. intros [= <-]. exact (H3 d0 eq_refl).
  - intros c. simpl. destruct (r_data r), (r_stop r) as [c0|] eqn:E; simpl; try done; intros [= <-]; exact (H4 c0 eq_refl).
Qed.

Lemma runs_submit id r s :
  inv s -> mrq (host s) = None -> submit_ok r -> id ∉ dones (log s) ->
  runs (put_req id r ;;; mmc_start_request hw bus_1 id)
    (fun _ s' => outcome 1 id (started r) (set_reqs {[id := started r]} s) s') s.
Proof.
  intros (Hrd & Hp & Hn & Hf) Hm Hok Hid. destruct Hf as [Hf|(i & ri & Hb & _)]; [|destruct Hb as (Hb & _); congruence].
  destruct Hf as (_ & Hc & Hd & Him & Hio & Hrq). destruct (started_ok r Hok) as [Hst He].
  apply runs_bind, runs_modify, runs_bind. rewrite Hrq. apply (runs_get_req _ r); [apply lookup_insert_eq|].
  assert (match r_data r with Some d => within_limits d | None => true end = true) as ->.
  { destruct (r_data r) as [d|] eqn:E; [|done]. by apply (proj2 Hok). }
  apply runs_bind, runs_modify. match goal with |- runs _ _ ?t => replace t with (set_reqs {[id := started r]} s) end.
  2: { unfold set_reqs. simpl. by rewrite insert_insert_eq. }
  apply (runs_request hw bus_1 _ id (started r)); try done; [simpl; lia|apply lookup_insert_eq].
Qed.

Lemma outcome_step_ok id r s s' :
  inv s -> mrq (host s) = None -> id ∉ dones (log s) -> req_ok r -> (forall c, r_data r <> None -> r_stop r = Some c -> error c = 0) ->
  outcome 1 id r (set_reqs {[id := r]} s) s' ->
  inv s' /\ Permutation (pending s' ++ dones (log s')) (id :: dones (log s)).
Proof.
  intros (Hrd & Hp & Hn & Hf) Hm Hid (Q1 & Q2 & Q3 & Q4) Hstop
    (r' & w & errs & (A1 & A2 & A3 & A4 & A5 & A6 & A7) & (_ & _ & _ & Hcpm & Hrd') & _ & _ & Hw).
  unfold pending in *. rewrite Hm in Hn. simpl in *. assert (NoDup (id :: dones (log s))) by (by constructor).
  destruct w.
  - destruct Hw as ((W1 & W2 & W3 & W4 & W5 & W6 & W7) & Hdn & He & _). simpl in *. rewrite insert_singleton_eq in W6.
    rewrite W1, W7. split; [|done]. split; [done|]. split; [by rewrite Hcpm|]. unfold pending. rewrite W1, W7.
    split; [done|]. right. exists id, r'. split; [|done]. unfold busy. rewrite W1, W2, W3, W4, W5, W6, lookup_singleton_eq.
    do 6 (split; [done|]). split; [|split; [done|split]].
    + split; [done|]. split; [lia|]. rewrite A1, A2. done.
    + by rewrite A1.
    + rewrite A2. intros c Hc. by apply Hstop.
  - destruct Hw as ((W1 & W2 & W3 & W4 & W5 & W6 & W7 & _) & _). simpl in *. rewrite delete_singleton_eq in W6.
    rewrite W1, W7. split; [|done]. split; [done|]. split; [by rewrite Hcpm|]. unfold pending. rewrite W1, W7.
    split; [done|]. by left.
Qed.

Lemma completed_step_ok id r s s' :
  inv s -> busy id r s -> completed id r s s' ->
  inv s' /\ Permutation (pending s' ++ dones (log s')) (pending s ++ dones (log s)).
Proof.
  intros (Hrd & Hp & Hn & Hf) Hb (d & d' & st & _ & _ & _ & (_ & _ & _ & Hcpm & Hrd') & Ha & _).
  destruct Hf as [Hf|(i & ri & Hbi & Hrq)]; [destruct Hf as (Hf & _), Hb as (Hb & _); congruence|].
  assert (i = id) as -> by (destruct Hbi as (Hbi & _), Hb as (Hb & _); congruence).
  destruct Ha as (W1 & W2 & W3 & W4 & W5 & W6 & W7 & _). rewrite Hrq, delete_singleton_eq in W6.
  destruct Hb as (Hb & _). unfold inv, pending in *. rewrite W1, W7, Hb in *. split; [|done].
  split; [done|]. split; [by rewrite Hcpm|]. split; [done|]. by left.
Qed.

(** Every step that is allowed runs, and keeps the invariant. *)
Lemma runs_exec o s : inv s -> allowed o s -> runs (exec o) (fun _ => step_ok o s) s.
Proof.
  intros Hi Hal. pose proof Hi as (Hrd & Hp & Hn & Hf). destruct o as [id r| |v|v| |ios]; cbn [exec].
  - destruct Hal as (Hm & Hid & Hok). eapply runs_mono; [by apply runs_submit|]. intros [] s' Hout.
    destruct (started_ok r Hok) as [Hst _]. unfold step_ok, pending at 2. rewrite Hm.
    apply (outcome_step_ok id (started r)); try done. intros c. simpl.
    destruct (r_data r); [|done]. intros _. destruct (r_stop r); [|done]. by intros [= <-].
  - apply runs_bind. eapply runs_mono; [apply runs_irq; [done|]|].
    + intros id Hd. destruct Hf as [Hf|(i & ri & Hbi & _)]; [destruct Hf as (_ & _ & Hf & _); congruence|].
      exists ri. assert (i = id) as <- by (destruct Hbi as (_ & _ & Hbi & _); congruence). done.
    + intros handled s' Hs'. apply runs_ret. destruct handled; [|by apply aside_step_ok, polls_aside].
      destruct Hs' as (id & r & Hb & Hc). by eapply completed_step_ok.
  - apply runs_bind, runs_gets, runs_bind.
    eapply runs_mono; [eapply (runs_hw_dccsr (rxdmachan s) DMA_ID_MSC_RX v); [done|by left]|]. intros [] s1 [H1 _].
    apply runs_bind, runs_gets. eapply runs_mono; [apply (runs_callback _ DMA_ID_MSC_RX); [apply H1|by left]|].
    intros [] s' H'. apply aside_step_ok; [done|done|]. by eapply aside_trans.
  - apply runs_bind, runs_gets, runs_bind.
    eapply runs_mono; [eapply (runs_hw_dccsr (txdmachan s) DMA_ID_MSC_TX v); [done|by right]|]. intros [] s1 [H1 _].
    apply runs_bind, runs_gets. eapply runs_mono; [apply (runs_callback _ DMA_ID_MSC_TX); [apply H1|by right]|].
    intros [] s' H'. apply aside_step_ok; [done|done|]. by eapply aside_trans.
  - eapply runs_mono; [by apply runs_detect|]. intros [] s' H'. by apply aside_step_ok.
  - eapply runs_mono; [by apply runs_set_ios|]. intros [] s' H'. by apply aside_step_ok.
Qed.

Lemma reach_inv s0 ids s : booted s0 -> reach s0 ids s -> inv s /\ Permutation ids (pending s ++ dones (log s)).
Proof.
  intros (B1 & B2 & B3 & B4 & B5 & B6 & B7 & B8 & B9). induction 1 as [|ids s o s' Hr [IHi IHp] Hal He].
  - unfold inv, pending, free. rewrite B3, B9. split; [|done]. split; [done|]. split; [done|]. split; [constructor|by left].
  - pose proof (runs_exec o s IHi Hal) as Hx. unfold runs in Hx. rewrite He in Hx. destruct Hx as [Hi Hperm].
    split; [done|]. rewrite Hperm. by rewrite IHp.
Qed.

(** C36: whatever the controller and the card answer, and in whatever order requests,
    interrupts, card changes and bus settings come, no allowed step is undefined;
    the requests submitted are exactly the answered ones and the one in the
    driver, each once; the driver holds no other request; and the interrupt for
    the end of a data phase is enabled exactly when a request waits for it. *)
Theorem requests_answered_once s0 ids s :
  booted s0 -> reach s0 ids s ->
  Permutation ids (pending s ++ dones (log s)) /\ NoDup ids /\
  (forall id, id ∈ dom (reqs s) <-> mrq (host s) = Some id) /\
  imask_of (log s) = (match mrq (host s) with Some _ => 254 | None => 255 end) /\
  (forall o, allowed o s -> exists s', exec o s = Some (tt, s')).
Proof.
  intros Hb Hr. destruct (reach_inv s0 ids s Hb Hr) as [Hi Hp]. pose proof Hi as (_ & _ & Hn & Hf).
  split; [done|]. split; [by rewrite Hp|]. split; [|split].
  - destruct Hf as [(-> & _ & _ & _ & _ & ->)|(i & r & (-> & _) & ->)]; intros id;
      [rewrite dom_empty_L; set_solver|rewrite dom_singleton_L; set_solver].
  - destruct Hf as [(-> & _ & _ & _ & -> & _)|(i & r & (-> & _ & _ & _ & -> & _) & _)]; done.
  - intros o Ho. destruct (runs_Some _ _ _ (runs_exec o s Hi Ho)) as ([] & s' & He & _). by exists s'.
Qed.

(** C9: a command without data is answered at once.  It is sent again exactly
    when it has failed and retries are left: the log shows one more command than
    failures, a failure with its error before each command but the first, and as
    many retries used up as there are failures; an error that is reported means
    that none were left.  Without a card the report is a time-out. *)
Theorem command_retried s0 ids s id r :
  booted s0 -> reach s0 ids s -> allowed (Submit id r) s -> r_data r = None ->
  exists s' r' l errs, exec (Submit id r) s = Some (tt, s') /\ log s' = Done id r' :: l /\ mrq (host s') = None /\
    trail (log s') = attempts (u8 (opcode (r_cmd r))) errs ++ trail (log s) /\ Forall failure errs /\
    Z.of_nat (length errs) = retries (r_cmd r) - retries (r_cmd r') /\ 0 <= retries (r_cmd r') /\
    error_ok (error (r_cmd r')) /\ (error (r_cmd r') <> 0 -> retries (r_cmd r') = 0) /\
    (mmc_slot_enable s = false -> error (r_cmd r') = u32 (- ETIMEDOUT)).
Proof.
  intros Hb Hr (Hm & Hid & Hok) Hd. destruct (reach_inv s0 ids s Hb Hr) as [Hi _].
  destruct (runs_Some _ _ _ (runs_submit id r s Hi Hm Hok Hid)) as ([] & s' & He & Hout).
  destruct Hout as (r' & w & errs & (A1 & A2 & A3 & A4 & A5 & A6 & A7) & Hk & (Hl1 & Hf & Hs) & _ & Hw).
  simpl in *. rewrite Hd in *. simpl in *.
  destruct w; [by destruct Hw as (_ & Hw & _)|]. destruct Hw as ((W1 & _ & _ & _ & _ & _ & _ & l & Hl) & Heo & Hre & _ & Hsl).
  exists s', r', l, errs. do 7 (split; [done || lia|]). done.
Qed.

(** C24: a data request.  Its command is tried as a command without data is; if it
    fails for good, the request is answered with its error.  Otherwise every
    segment has been handed to the DMA channel of its direction once for each
    attempt, so exactly once if none has failed, and the request waits.  The
    interrupt that ends the data phase sends the stop command, if there is one,
    and answers the request with all of its bytes counted or, with an error, none;
    any other interrupt changes nothing. *)
Theorem data_request_transfers s0 ids s id r d :
  booted s0 -> reach s0 ids s -> allowed (Submit id r) s -> r_data r = Some d ->
  exists s1 errs, exec (Submit id r) s = Some (tt, s1) /\
    trail (log s1) = attempts (u8 (opcode (r_cmd r))) errs ++ trail (log s) /\ Forall failure errs /\
    Z.of_nat (length errs) <= retries (r_cmd r) /\
    ((exists r' l, log s1 = Done id r' :: l /\ mrq (host s1) = None /\ error (r_cmd r') <> 0 /\
        Z.of_nat (length errs) = retries (r_cmd r)) \/
     (mrq (host s1) = Some id /\ dones (log s1) = dones (log s) /\
      transfers (log s1) =
        repeated (S (length errs))
          (if is_write (r_cmd r) then segments (txdmachan s) DMA_MODE_WRITE (sg d)
           else segments (rxdmachan s) DMA_MODE_READ (sg d)) ++ transfers (log s) /\
      exists s2, exec Irq s1 = Some (tt, s2) /\
        (polls s1 s2 \/
         exists c d' stop' l, log s2 = Done id (Request c (Some d') stop') :: l /\ mrq (host s2) = None /\ error c = 0 /\
           data_ended (set_d_error 0 d) d' /\ transfers (log s2) = transfers (log s1) /\
           trail (log s2) = (match r_stop r with Some c => [Sent (u8 (opcode c))] | None => [] end) ++ trail (log s1)))).
Proof.
  intros Hb Hr Hal Hd. destruct (reach_inv s0 ids s Hb Hr) as [Hi _]. pose proof Hal as (Hm & Hid & Hok).
  destruct (runs_Some _ _ _ (runs_submit id r s Hi Hm Hok Hid)) as ([] & s1 & He & Hout).
  pose proof (runs_exec (Submit id r) s Hi Hal) as Hi1. unfold runs in Hi1. cbn [exec] in Hi1. rewrite He in Hi1.
  destruct Hi1 as [Hi1 _]. destruct Hout as (r' & w & errs & (A1 & A2 & _ & _ & _ & _ & A7) & Hk & (Hl1 & Hf & Hs) & Ht & Hw).
  unfold plan in Ht. simpl in *. rewrite Hd in *. simpl in *.
  exists s1, errs. split; [done|]. split; [done|]. split; [done|]. split; [lia|]. destruct w.
  - right. destruct Hw as ((W1 & _ & W3 & _ & _ & W6 & W7) & _). do 2 (split; [done|]). split; [rewrite Ht; by destruct (is_write _)|].
    destruct Hi1 as (Hrd1 & _ & _ & [(Hfr & _)|(i & ri & Hbi & _)]); [congruence|].
    assert (i = id) as -> by (destruct Hbi as (Hbi & _); congruence).
    assert (ri = r') as -> by (destruct Hbi as (_ & _ & _ & _ & _ & Hbi & _); rewrite W6, lookup_insert_eq in Hbi; congruence).
    destruct (runs_Some _ _ _ (runs_irq hw bus_1 0 s1 Hrd1 ltac:(intros j Hj; exists r'; by assert (j = id) as -> by congruence)))
      as (handled & s2 & He2 & Hs2).
    exists s2. split; [unfold exec, bind; by rewrite He2|]. destruct handled; [right|by left].
    destruct Hs2 as (j & rj & Hbj & (dj & d' & st & E1 & E2 & E3 & E4 & (F1 & _ & _ & _ & _ & _ & _ & l & Hl) & E6 & E7)).
    assert (j = id) as -> by (destruct Hbj as (Hbj & _); congruence).
    assert (rj = r') as -> by (destruct Hbj as (_ & _ & _ & _ & _ & Hbj & _); rewrite W6, lookup_insert_eq in Hbj; congruence).
    assert (dj = set_d_error 0 d) as -> by congruence.
    exists (r_cmd r'), d', st, l. do 2 (split; [done|]).
    split; [by destruct Hbj as (_ & _ & _ & _ & _ & _ & _ & Hbj & _)|]. split; [done|]. split; [done|].
    rewrite E7, A2. by destruct (r_stop r).
  - left. destruct Hw as ((W1 & _ & _ & _ & _ & _ & _ & l & Hl) & _ & Hz & Hne & _). exists r', l. split; [done|].
    split; [done|]. assert (error (r_cmd r') <> 0) as Hn by (by apply Hne). split; [done|]. specialize (Hz Hn). lia.
Qed.

End System.
