(* ===== verification/MmcCard.v ===== *)
(** * Responses and clock of the card

    The words that the driver stores as the response of a command are the bits
    that it read from the response register, and the divisor that it sets is the
    fastest one that the card allows. *)

From S2P Require Import Prelude.
From S2P Require Import Cpufreq.
From S2P Require Import Dma.
From S2P Require Import MmcDriver.
From S2P Require Import MmcRequests.
From S2P Require Import MmcSystem.

(** ** Responses *)

Lemma lor_low x b n : 0 <= n -> x mod 2 ^ n = 0 -> 0 <= b < 2 ^ n -> Z.lor x b = x + b.
Proof.
  intros Hn Hx Hb. pose proof (Z.add_lor_land x b).
  assert (Z.land x b = 0); [|lia]. apply Z.bits_inj'.
  intros k Hk. rewrite Z.land_spec, Z.bits_0. destruct (Z.ltb_spec k n) as [Hlt|Hge].
  - assert (Z.testbit x k = false) as ->; [|done]. rewrite <- (Z.mod_pow2_bits_low x n k) by lia. rewrite Hx. apply Z.bits_0.
  - assert (Z.testbit b k = false) as ->; [|apply andb_false_r]. by apply (testbit_high n).
Qed.

Lemma land_low x n : 0 <= n -> Z.land x (2 ^ n - 1) = x mod 2 ^ n.
Proof. intros Hn. rewrite <- Z.land_ones by done. f_equal. by rewrite Z.ones_equiv, Z.sub_1_r. Qed.

Lemma short_response_value w0 w1 w2 :
  0 <= w1 < 2 ^ 16 -> short_response w0 w1 w2 = w0 mod 256 * 2 ^ 24 + w1 * 2 ^ 8 + w2 mod 256.
Proof.
  intros H1. unfold short_response. cbv zeta. change 255 with (2 ^ 8 - 1). rewrite !land_low by lia. change (2 ^ 8) with 256.
  rewrite !Z.shiftl_mul_pow2, Z.shiftr_div_pow2 by lia. change (2 ^ 8) with 256.
  rewrite (Z.mod_small (w1 / 256)) by (split; [apply Z.div_pos|apply Z.div_lt_upper_bound]; lia).
  pose proof (Z.mod_pos_bound w0 256 ltac:(lia)). pose proof (Z.mod_pos_bound w1 256 ltac:(lia)).
  pose proof (Z.mod_pos_bound w2 256 ltac:(lia)). pose proof (Z.div_mod w1 256 ltac:(lia)) as E.
  assert (0 <= w1 / 256 < 256) by (split; [apply Z.div_pos|apply Z.div_lt_upper_bound]; lia).
  set (a := w0 mod 256) in *. set (b := w1 / 256) in *. set (c := w1 mod 256) in *. set (e := w2 mod 256) in *.
  rewrite (lor_low (a * 2 ^ 24) (b * 2 ^ 16) 24); [|lia|by rewrite Z.mod_mul|lia].
  rewrite (lor_low _ (c * 256) 16); [|lia| |lia].
  2: { replace (a * 2 ^ 24 + b * 2 ^ 16) with ((a * 2 ^ 8 + b) * 2 ^ 16) by lia. by rewrite Z.mod_mul. }
  rewrite (lor_low _ e 8); [|lia| |lia].
  2: { replace (a * 2 ^ 24 + b * 2 ^ 16 + c * 256) with ((a * 2 ^ 16 + b * 2 ^ 8 + c) * 2 ^ 8) by lia. by rewrite Z.mod_mul. }
  unfold u32. rewrite Z.mod_small by lia. lia.
Qed.

Lemma long_word_value v w1 w2 :
  0 <= v < 2 ^ 16 -> 0 <= w1 < 2 ^ 16 -> 0 <= w2 < 2 ^ 16 ->
  long_word v w1 w2 = v mod 256 * 2 ^ 24 + w1 * 2 ^ 8 + w2 / 256.
Proof.
  intros Hv H1 H2. unfold long_word, shl32, u32. rewrite !Z.shiftl_mul_pow2, Z.shiftr_div_pow2 by lia. change (2 ^ 8) with 256.
  assert (0 <= w2 / 256 < 256) by (split; [apply Z.div_pos|apply Z.div_lt_upper_bound]; lia).
  assert (v * 2 ^ 24 mod 2 ^ 32 = v mod 256 * 2 ^ 24) as ->.
  { change (2 ^ 32) with (256 * 2 ^ 24). by rewrite Z.mul_mod_distr_r by lia. }
  rewrite (Z.mod_small (w1 * 256)) by lia. pose proof (Z.mod_pos_bound v 256 ltac:(lia)).
  rewrite (lor_low _ (w1 * 256) 24); [|lia|by rewrite Z.mod_mul|lia].
  rewrite (lor_low _ (w2 / 256) 8); [lia|lia| |lia].
  replace (v mod 256 * 2 ^ 24 + w1 * 256) with ((v mod 256 * 2 ^ 16 + w1) * 2 ^ 8) by lia. by rewrite Z.mod_mul.
Qed.

(** The number with the digits [l], most significant first. *)
Definition be_join (b : Z) (l : list Z) : Z := fold_left (fun a w => a * 2 ^ b + w) l 0.

Lemma long_response_value w0 w1 w2 w3 w4 w5 w6 w7 w8 :
  Forall (digit 16) [w0; w1; w2; w3; w4; w5; w6; w7; w8] ->
  be_join 32 [long_word w0 w1 w2; long_word w2 w3 w4; long_word w4 w5 w6; long_word w6 w7 w8] =
  be_join 16 [w0; w1; w2; w3; w4; w5; w6; w7; w8] / 2 ^ 8 mod 2 ^ 128.
Proof.
  intros H. repeat (apply Forall_cons in H as [? H]). unfold digit in *. rewrite !long_word_value by done.
  unfold be_join. cbn [fold_left]. clear H.
  pose proof (Z.div_mod w0 256 ltac:(lia)). pose proof (Z.mod_pos_bound w0 256 ltac:(lia)).
  pose proof (Z.div_mod w2 256 ltac:(lia)). pose proof (Z.mod_pos_bound w2 256 ltac:(lia)).
  pose proof (Z.div_mod w4 256 ltac:(lia)). pose proof (Z.mod_pos_bound w4 256 ltac:(lia)).
  pose proof (Z.div_mod w6 256 ltac:(lia)). pose proof (Z.mod_pos_bound w6 256 ltac:(lia)).
  pose proof (Z.div_mod w8 256 ltac:(lia)). pose proof (Z.mod_pos_bound w8 256 ltac:(lia)).
  symmetry. set (R := _ + (w6 mod 256 * 2 ^ 24 + w7 * 2 ^ 8 + w8 / 256)).
  assert (0 <= R < 2 ^ 128) by (unfold R; lia).
  erewrite <- (Z.div_unique_pos _ (2 ^ 8) (w0 / 256 * 2 ^ 128 + R) (w8 mod 256)); [|lia|unfold R; lia].
  rewrite Z.add_comm, Z.mod_add, Z.mod_small by lia. done.
Qed.

Section Card.
Context (hw : list event -> reg -> Z).

Lemma runs_readr_RES Q s :
  (forall v, digit 16 v -> Q v (set_log (Rd RES v :: log s) s)) -> runs (readr hw RES) Q s.
Proof. intros HQ. apply HQ. unfold digit. simpl. apply Z.mod_pos_bound. lia. Qed.

Lemma land_halfword w : digit 16 w -> Z.land w 65535 = w.
Proof. intros Hw. change 65535 with (2 ^ 16 - 1). rewrite land_low by lia. by apply Z.mod_small. Qed.

(** Storing the response at [p]. *)
Lemma runs_put_resp p r c l Q s :
  reqs s !! ptr_id p = Some r -> cmd_of p r = Some c ->
  Q tt (set_reqs (<[ptr_id p := put_cmd p (set_resp l c) r]> (reqs s)) s) -> runs (upd_cmd p (set_resp l)) Q s.
Proof.
  intros Hr Hc HQ. destruct p; simpl in *; apply runs_bind; (eapply runs_get_req; [done|]).
  - injection Hc as <-. exact HQ.
  - by apply runs_bind, (runs_lift _ c).
Qed.

(** One word of a long response. *)
Lemma runs_long_step n i v p r c l Q s :
  reqs s !! ptr_id p = Some (put_cmd p (set_resp l c) r) -> (0 <= i < Z.of_nat (length l)) ->
  (forall w1 w2 s', digit 16 w1 -> digit 16 w2 -> log s' = Rd RES w2 :: Rd RES w1 :: log s ->
     reqs s' !! ptr_id p = Some (put_cmd p (set_resp (<[Z.to_nat i := long_word v w1 w2]> l) c) r) ->
     runs (long_response hw n (i + 1) w2 p) Q s') ->
  runs (long_response hw (S n) i v p) Q s.
Proof.
  intros Hr Hi HQ. cbn [long_response]. apply runs_bind, runs_readr_RES. intros w1 Hw1. cbv zeta.
  apply runs_bind, runs_readr_RES. intros w2 Hw2. rewrite !land_halfword by done.
  apply runs_bind. eapply runs_get_cmd; [exact Hr|apply cmd_of_put|]. apply runs_bind.
  eapply runs_lift; [apply wr_Some; exact Hi|]. apply runs_bind. eapply runs_put_resp; [exact Hr|apply cmd_of_put|].
  rewrite put_put. apply (HQ w1 w2); [done|done|done|]. apply lookup_insert_eq.
Qed.

(** The response that is stored is what was read from the response register,
    without the first byte of the frame: for a short response 32 bits of three
    words, for a long one bits 8 to 135 of nine words. *)
Theorem response_bits p r c s :
  reqs s !! ptr_id p = Some r -> cmd_of p r = Some c -> length (resp c) = 4%nat ->
  runs (read_response hw 1 p) (fun _ s' => exists w0 w1 w2,
    log s' = [Rd RES w2; Rd RES w1; Rd RES w0] ++ log s /\
    reqs s' !! ptr_id p =
      Some (put_cmd p (set_resp (w0 mod 256 * 2 ^ 24 + w1 * 2 ^ 8 + w2 mod 256 :: tail (resp c)) c) r)) s /\
  runs (read_response hw 2 p) (fun _ s' => exists ws l,
    log s' = rev (map (Rd RES) ws) ++ log s /\ length ws = 9%nat /\ Forall (digit 16) ws /\ length l = 4%nat /\
    reqs s' !! ptr_id p = Some (put_cmd p (set_resp l c) r) /\
    be_join 32 l = be_join 16 ws / 2 ^ 8 mod 2 ^ 128) s.
Proof.
  intros Hr Hc Hl. destruct (resp c) as [|a [|b [|e [|f [|]]]]] eqn:Hresp; try done. split.
  - apply runs_bind, runs_readr_RES. intros w0 H0. apply runs_bind, runs_readr_RES. intros w1 H1.
    apply runs_bind, runs_readr_RES. intros w2 H2. apply runs_bind. eapply runs_get_cmd; [exact Hr|exact Hc|].
    rewrite Hresp. apply runs_bind. eapply runs_lift; [done|]. eapply runs_put_resp; [exact Hr|exact Hc|].
    exists w0, w1, w2. split; [done|]. simpl. rewrite lookup_insert_eq. by rewrite short_response_value.
  - apply runs_bind, runs_readr_RES. intros w0 H0. rewrite land_halfword by done.
    assert (Hr0 : reqs s !! ptr_id p = Some (put_cmd p (set_resp [a; b; e; f] c) r)).
    { rewrite put_cmd_same; [done|]. rewrite Hc, <- Hresp. by destruct c. }
    eapply runs_long_step; [exact Hr0|simpl; lia|]. intros w1 w2 s1 H1 H2 L1 R1.
    eapply runs_long_step; [exact R1|simpl; lia|]. intros w3 w4 s2 H3 H4 L2 R2.
    eapply runs_long_step; [exact R2|simpl; lia|]. intros w5 w6 s3 H5 H6 L3 R3.
    eapply runs_long_step; [exact R3|simpl; lia|]. intros w7 w8 s4 H7 H8 L4 R4. apply runs_ret.
    exists [w0; w1; w2; w3; w4; w5; w6; w7; w8].
    exists [long_word w0 w1 w2; long_word w2 w3 w4; long_word w4 w5 w6; long_word w6 w7 w8].
    split; [by rewrite L4, L3, L2, L1|]. split; [done|].
    assert (Forall (digit 16) [w0; w1; w2; w3; w4; w5; w6; w7; w8]) by (repeat (apply Forall_cons_2; [done|]); apply Forall_nil_2).
    split; [done|]. split; [done|]. split; [exact R4|]. by apply long_response_value.
Qed.

(** ** Clock *)

(** C32: for a PLL output that is a multiple of 24 MHz and any rate down to 187.5 kHz
    (the core asks for 400 kHz or more), the card clock is the fastest power-of-two
    fraction of 24 MHz that does not exceed the rate, and its divisor fits the
    register field. *)
Theorem clock_fastest rate n s :
  __cpm_get_pllout2 (cpm s) = Some (24000000 * n) -> 1 <= n <= 32 -> 187500 <= rate ->
  runs (jz_mmc_set_clock hw rate) (fun _ s' => exists k l,
    log s' = Wr CLKRT k :: l /\ 0 <= k <= 7 /\ __cpm_get_mscclk (cpm s') = Some 24000000 /\
    24000000 / 2 ^ k <= rate /\ (0 < k -> rate < 24000000 / 2 ^ (k - 1))) s.
Proof.
  intros Hp Hn Hr. apply runs_bind, runs_stop_clock. intros s1 (l & -> & _).
  apply runs_bind, runs_bind, runs_gets, runs_bind, (runs_lift _ (24000000 * n)); [done|]. apply runs_modify. apply runs_bind.
  destruct (calc_clkrt_spec 32 rate 24000000 0 ltac:(lia) ltac:(done)) as (k & Hk & Hk0 & Hle & Hlt).
  eapply runs_lift; [exact Hk|]. rewrite Z.add_0_l. apply runs_emit.
  assert (Hk7 : k <= 7).
  { destruct (Z.le_gt_cases k 7); [done|]. specialize (Hlt 7 ltac:(lia)). change (24000000 / 2 ^ 7) with 187500 in Hlt. lia. }
  assert (trunc CLKRT k = k) as -> by (unfold trunc, u16; apply Z.mod_small; lia).
  exists k. eexists. split; [done|]. split; [lia|]. split.
  - unfold __cpm_get_mscclk. simpl. change (__cpm_get_pllout2 _) with (__cpm_get_pllout2 (cpm s)). rewrite Hp. simpl.
    rewrite (Z.mul_comm 24000000), Z.div_mul by lia. unfold u32. rewrite Z.mod_small by lia.
    unfold __cpm_get_mscdiv, bits. cbn [MSCCDR set_MSCCDR]. change CPM_MSCCDR_MSCDIV_MASK with (2 ^ 5 - 1).
    rewrite land_low, Z.shiftr_0_r, Z.mod_small by lia. unfold udiv. replace (n - 1 + 1) with n by lia.
    rewrite (proj2 (Z.eqb_neq n 0)) by lia. by rewrite Z.mul_comm, Z.div_mul by lia.
  - split; [done|]. intros Hpos. apply Hlt. lia.
Qed.

End Card.
