(* ===== verification/MmcProbe.v ===== *)
(** * Set-up of the MMC/SD host driver (jz_mmc_probe, jz_mmc_remove)

    The resources that the driver takes from the kernel and what it gives back.
    A successful probe leaves the driver as the theorems on requests assume; the
    error paths give back too little or too much. *)

From S2P Require Import Prelude.
From S2P Require Import Cpufreq.
From S2P Require Import Dma.
From S2P Require Import MmcDriver.
From S2P Require Import MmcRequests.
From S2P Require Import MmcSystem.

(** ** Operations *)

(** What the kernel answers; the last two are the results of [request_irq] for
    the DMA channels. *)
Record kernel := Kernel {
  mem_resource : bool;
  irq_resource : Z;
  region : bool;
  alloc : bool;
  coherent : bool;
  irq_msc_ret : Z;
  irq_hotplug_ret : Z;
  rx_irq_ret : Z;
  tx_irq_ret : Z }.

(** Resources of the driver besides the DMA channels. *)
Inductive resource := Mem_region | Mmc_host | Sg_page | Irq_msc | Irq_hotplug.

#[export] Instance resource_eq_dec : EqDecision resource.
Proof. solve_decision. Defined.

Definition set_rx (x : Z) (s : state) : state :=
  State (host s) (r_type s) (mmc_slot_enable s) x (txdmachan s) (reqs s) (dmac s) (cpm s) (log s).
Definition set_tx (x : Z) (s : state) : state :=
  State (host s) (r_type s) (mmc_slot_enable s) (rxdmachan s) x (reqs s) (dmac s) (cpm s) (log s).

(** [mmc_alloc_host] clears; a page holds 256 descriptors. *)
Definition new_host : jz_mmc_host := Host None None None 0 0 0 0 0 (replicate 256 (0, 0)).

Section Probe.
Context (hw : list event -> reg -> Z) (fuel : nat).

Definition __msc_reset : M unit :=
  writer STRPCL MSC_STRPCL_RESET ;;;
  (fix wait n := match n with
    | O => fail
    | S n => v <- readr hw STAT ;; if has v MSC_STAT_IS_RESETTING then wait n else ret tt
    end) fuel.

(** The names that the channels get do not matter. *)
Definition request_channel (id irq_ret : Z) : M Z :=
  d <- gets dmac ;;
  p <- lift (jz_request_dma d id 0 (Some irq_ret) 0) ;;
  modify (set_dmac p.2) ;;; ret p.1.

(** The argument is unsigned. *)
Definition free_channel (n : Z) : M unit := upd_dma (fun d => jz_free_dma d (u32 n)).

(** The labels err1, err2, err3 and out: [free_irq(IRQ_MSC, &host)] names the wrong
    handler and frees nothing; the memory of the host and its page go back. *)
Definition err3 (held : list resource) : M (Z * list resource) :=
  s <- gets txdmachan ;; free_channel s ;;; ret (-1, held).
Definition err2 (held : list resource) : M (Z * list resource) :=
  s <- gets rxdmachan ;; free_channel s ;;; err3 held.
Definition err1 (held : list resource) : M (Z * list resource) := err2 held.

(** The pins and the power of the slot are left out. *)
Definition jz_mmc_probe (k : kernel) : M (Z * list resource) :=
  __msc_reset ;;;
  jz_mmc_stop_clock hw ;;;
  writer IMASK 255 ;;;
  writer IREG 255 ;;;
  if negb (mem_resource k) || (irq_resource k <? 0) then ret (- ENXIO, [])
  else if negb (region k) then ret (- EBUSY, [])
  else if negb (alloc k) then ret (-1, [Mem_region])
  else
    upd_host (fun _ => new_host) ;;;
    if negb (coherent k) then ret (-1, [Mem_region])
    else
      upd_host (set_imask 255) ;;;
      if negb (irq_msc_ret k =? 0) then ret (irq_msc_ret k, [Sg_page; Mmc_host; Mem_region])
      else
        jz_mmc_slot_is_empty hw ;;;
        if negb (irq_hotplug_ret k =? 0) then err1 [Irq_msc; Mem_region]
        else
          rx <- request_channel DMA_ID_MSC_RX (rx_irq_ret k) ;;
          modify (set_rx rx) ;;;
          if rx <? 0 then err2 [Irq_hotplug; Irq_msc; Mem_region]
          else
            tx <- request_channel DMA_ID_MSC_TX (tx_irq_ret k) ;;
            modify (set_tx tx) ;;;
            if tx <? 0 then err3 [Irq_hotplug; Irq_msc; Mem_region]
            else
              empty <- jz_mmc_slot_is_empty hw ;;
              when (negb empty) (modify (set_slot true) ;;; emit (Detect_change 0)) ;;;
              ret (0, [Irq_hotplug; Irq_msc; Sg_page; Mmc_host; Mem_region]).

(** [mmc]: the driver data of the device. *)
Definition jz_mmc_remove (mmc : bool) (held : list resource) : M (Z * list resource) :=
  if mmc then
    jz_mmc_stop_clock hw ;;;
    s <- gets rxdmachan ;; free_channel s ;;;
    s <- gets txdmachan ;; free_channel s ;;;
    ret (0, filter (fun x => x <> Irq_msc /\ x <> Mmc_host) held)
  else ret (0, held).

End Probe.

(** ** A successful probe *)

(** A request for a channel touches only the channel that it returns. *)
Lemma request_others d id str dev n d' :
  jz_request_dma d id str (Some 0) dev = Some (n, d') -> 0 <= n -> others n d d'.
Proof.
  unfold jz_request_dma. destruct (_ || _); [intros [= <- <-]; unfold EINVAL; lia|].
  destruct (_ =? MAX_DMA_NUM); [intros [= <- <-]; unfold ENODEV; lia|]. intros H _.
  apply bind_Some in H as (c & Hc & H). apply bind_Some in H as ([[fifo md] src] & Ht & H). simpl in H.
  apply bind_Some in H as (d1 & H1 & H). injection H as <- <-. apply others_set_chan in H1. exact H1.
Qed.

(** The channel of the card controller that a request returns. *)
Lemma request_msc d m id ret n d' :
  id = DMA_ID_MSC_TX \/ id = DMA_ID_MSC_RX -> implements d m -> ret <= 0 ->
  jz_request_dma d id 0 (Some ret) 0 = Some (n, d') -> 0 <= n ->
  msc_chan d' n id /\ others n d d' /\ (exists m', implements d' m') /\ m !! n = None.
Proof.
  intros Hid Himp Hret Hreq Hn. destruct (request_refines d m id 0 (Some ret) 0 Himp) as (n' & d2 & E & Hs & Himp').
  rewrite Hreq in E. injection E as <- <-.
  assert (0 <= id < DMA_ID_MAX) by (destruct Hid as [-> | ->]; done). cbn [spec_call] in Hs.
  rewrite decide_True in Hs by done. pose proof (find_free_least d m Himp) as Hff.
  destruct (least_free m) as [i|]; [|unfold ENODEV in Hs; simpl in Hs; lia].
  assert (ret = 0 /\ i = n) as [-> ->].
  { destruct (Z.eq_dec ret 0) as [->|Hne]; [by split|]. destruct ret; simpl in Hs; lia. }
  destruct Hff as (_ & _ & Hfree). split; [|split; [by eapply request_others|split; [by eexists|done]]].
  destruct (request_record _ _ _ _ _ _ _ _ Himp (or_intror eq_refl) Hreq Hn)
    as (_ & fifo & dm & src & line & idev & r & Htab & Hline & Hat).
  exists 0, line, idev, fifo, dm, src, dm, r. split; [done|]. split; [done|]. split; [by left|]. done.
Qed.

Lemma msc_chan_owned d m n id : msc_chan d n id -> implements d m -> m !! n = Some id.
Proof.
  intros (str & line & idev & fifo & m0 & src & md & r & _ & _ & _ & (Hn & Hc & Hd & _)) [_ Ho].
  rewrite <- Ho. unfold owned, owner. rewrite Hc. simpl in *. by rewrite (proj2 (Z.ltb_ge _ _)).
Qed.

Section Boots.
Context (hw : list event -> reg -> Z) (fuel : nat).
Hypothesis (Hreset : forall l, has (trunc STAT (hw l STAT)) MSC_STAT_IS_RESETTING = false).
Hypothesis (Hfuel : (0 < fuel)%nat).

Lemma runs_msc_reset Q s : (forall s', polls s s' -> Q tt s') -> runs (__msc_reset hw fuel) Q s.
Proof using All.
  intros HQ. destruct fuel as [|n]; [lia|]. apply runs_bind, runs_writer; [done|done|]. intros s1 H1.
  apply runs_bind. unfold runs, readr, bind, gets, emit, modify, ret. rewrite Hreset. apply HQ.
  etransitivity; [exact H1|]. by apply polls_emit.
Qed.

Lemma runs_slot_is_empty Q s : (forall b s', polls s s' -> Q b s') -> runs (jz_mmc_slot_is_empty hw) Q s.
Proof using All.
  intros HQ. apply runs_bind, runs_readr. intros v s1 H1. apply runs_bind, runs_emit, runs_ret, HQ.
  etransitivity; [exact H1|]. by apply polls_emit.
Qed.

Lemma runs_free_channel n Q s m :
  implements (dmac s) m -> u32 n <> MAX_DMA_NUM ->
  (forall d' m', implements d' m' -> Q tt (set_dmac d' s)) -> runs (free_channel n) Q s.
Proof using All.
  intros Himp Hn HQ. destruct (free_refines (dmac s) m (u32 n) Himp) as (d' & E & Himp'); [|done|].
  - unfold u32. apply Z.mod_pos_bound. lia.
  - eapply runs_upd_dma; [exact E|]. by eapply HQ.
Qed.

(** A failed set-up reports -1, whatever it gives back. *)
Lemma runs_err2 held s m :
  implements (dmac s) m -> u32 (rxdmachan s) <> MAX_DMA_NUM -> u32 (txdmachan s) <> MAX_DMA_NUM ->
  runs (err2 held) (fun res _ => res = (-1, held)) s.
Proof using All.
  intros Himp Hrx Htx. apply runs_bind, runs_gets, runs_bind. eapply runs_free_channel; [done|done|]. intros d' m' Himp'.
  apply runs_bind, runs_gets, runs_bind. eapply runs_free_channel; [exact Himp'|done|]. intros d2 m2 _. by apply runs_ret.
Qed.

Lemma runs_request_channel id ret Q s m :
  id = DMA_ID_MSC_TX \/ id = DMA_ID_MSC_RX -> implements (dmac s) m -> -4095 <= ret <= 0 ->
  (forall n d' m', implements d' m' -> (-4095 <= n < 0 \/ 0 <= n /\ msc_chan d' n id /\ others n (dmac s) d' /\ m !! n = None) ->
     Q n (set_dmac d' s)) -> runs (request_channel id ret) Q s.
Proof using All.
  intros Hid Himp Hret HQ. destruct (request_refines (dmac s) m id 0 (Some ret) 0 Himp) as (n & d' & E & Hs & Himp').
  apply runs_bind, runs_gets, runs_bind, (runs_lift _ (n, d')); [done|]. apply runs_bind, runs_modify, runs_ret.
  eapply HQ; [exact Himp'|]. simpl. destruct (Z.ltb_spec n 0) as [Hneg|Hpos].
  - left. split; [|done]. rewrite <- Hs. cbn [spec_call].
    rewrite decide_True by (destruct Hid as [-> | ->]; done). pose proof (find_free_least (dmac s) m Himp) as Hff.
    destruct (least_free m) as [i|]; [|done]. destruct Hff as (_ & Hi & _). destruct ret; simpl; lia.
  - right. destruct (request_msc _ m _ _ _ _ Hid Himp (proj2 Hret) E Hpos) as (H1 & H2 & _ & H4). done.
Qed.

(** Whatever the kernel answers, the probe returns; if it reports success, every
    resource is held and the driver is in the state from which requests are
    answered once. *)
Theorem probe_boots k m s :
  implements (dmac s) m -> rxdmachan s = 0 -> txdmachan s = 0 -> __cpm_get_pllout2 (cpm s) <> None ->
  reqs s = ∅ -> dones (log s) = [] -> -4095 <= rx_irq_ret k <= 0 -> -4095 <= tx_irq_ret k <= 0 ->
  runs (jz_mmc_probe hw fuel k) (fun res s' => res.1 = 0 ->
    booted s' /\ res.2 = [Irq_hotplug; Irq_msc; Sg_page; Mmc_host; Mem_region]) s.
Proof using All.
  intros Himp Hrx Htx Hpll Hrq Hdn Hr1 Hr2. apply runs_bind, runs_msc_reset. intros s1 H1.
  apply runs_bind, runs_stop_clock. intros s2 H2. assert (polls s s2) as (l & -> & A1 & A2 & A3 & A4) by (by etransitivity).
  clear s1 H1 H2. apply runs_bind, runs_emit, runs_bind, runs_emit.
  destruct (_ || _); [by apply runs_ret|]. destruct (negb (region k)); [by apply runs_ret|].
  destruct (negb (alloc k)); [by apply runs_ret|]. apply runs_bind, runs_modify.
  destruct (negb (coherent k)); [by apply runs_ret|]. apply runs_bind, runs_modify.
  destruct (Z.eqb_spec (irq_msc_ret k) 0) as [|Hirq]; simpl; [|by apply runs_ret].
  set (s3 := set_host _ _). assert (Hs3 : dones (log s3) = [] /\ imask_of (log s3) = 255).
  { simpl. rewrite <- Hdn, <- A1. done. }
  apply runs_bind, runs_slot_is_empty. intros b s4 (l4 & -> & B1 & B2 & B3 & B4).
  destruct (negb (irq_hotplug_ret k =? 0)).
  { eapply runs_mono; [eapply runs_err2; [exact Himp|simpl; by rewrite Hrx|simpl; by rewrite Htx]|]. by intros x s' ->. }
  apply runs_bind. eapply runs_request_channel; [by right|exact Himp|done|]. intros rx d5 m5 Himp5 Hrx5.
  apply runs_bind, runs_modify. destruct (Z.ltb_spec rx 0) as [Hneg|Hpos].
  { eapply runs_mono; [eapply runs_err2; [exact Himp5| |simpl; by rewrite Htx]|by intros x s' ->].
    simpl. unfold u32, MAX_DMA_NUM. rewrite <- (Z.mod_add rx 1), Z.mod_small by lia. lia. }
  destruct Hrx5 as [|(_ & Hc5 & Ho5 & _)]; [lia|].
  apply runs_bind. eapply runs_request_channel; [by left|exact Himp5|done|]. intros tx d6 m6 Himp6 Htx6.
  apply runs_bind, runs_modify. destruct (Z.ltb_spec tx 0) as [Hneg|Hpos6].
  { apply runs_bind, runs_gets, runs_bind. eapply runs_free_channel; [exact Himp6| |intros d' m' _; by apply runs_ret].
    simpl. unfold u32, MAX_DMA_NUM. rewrite <- (Z.mod_add tx 1), Z.mod_small by lia. lia. }
  destruct Htx6 as [|(_ & Hc6 & Ho6 & Hfree)]; [lia|]. simpl in Ho6.
  assert (Hne : rx <> tx) by (intros ->; rewrite (msc_chan_owned _ _ _ _ Hc5 Himp5) in Hfree; done).
  apply runs_bind, runs_slot_is_empty. intros emp s7 (l7 & -> & C1 & C2 & C3 & C4). simpl in C1, C4.
  assert (dones l7 = [] /\ imask_of l7 = 255) as [Hd7 Hm7] by (split; [rewrite C1, B1|rewrite C4, B4]; apply Hs3).
  assert (Hboot : forall en l, dones l = [] -> imask_of l = 255 ->
    booted (State (set_imask 255 new_host) (r_type s) en rx tx ∅ d6 (cpm s) l)).
  { intros en l' Hl1 Hl2. split; [|done]. split; [|done]. by apply (msc_chan_others d5 d6 tx). }
  match goal with |- runs _ _ ?t =>
    change t with (State (set_imask 255 new_host) (r_type s) (mmc_slot_enable s) rx tx (reqs s) d6 (cpm s) l7) end.
  rewrite Hrq. apply runs_bind. destruct emp; cbn [negb when].
  - apply runs_ret, runs_ret. intros _. split; [|done]. by apply Hboot.
  - apply runs_bind, runs_modify, runs_emit, runs_ret. intros _. split; [|done]. by apply Hboot.
Qed.

End Boots.
