(* ===== verification/MmcRuns.v ===== *)
(** * Runs of the MMC/SD host driver

    Concrete runs on a controller that answers every command at once: inputs at
    which the theorems on the driver apply, and runs that show where the code
    does not do what it seems to mean. *)

From S2P Require Import Prelude.
From S2P Require Import Cpufreq.
From S2P Require Import Dma.
From S2P Require Import MmcDriver.
From S2P Require Import MmcRequests.
From S2P Require Import MmcSystem.
From S2P Require Import MmcCard.
From S2P Require Import MmcProbe.

(** A card is present, commands end at once without error, data phases have
    ended, and every response word is 0x1234. *)
Definition good (l : list event) (r : reg) : Z :=
  match r with STAT => 2048 | IREG => 1 | RES => 4660 | PIN_CD => 1 | _ => 0 end.

(** The slot is empty. *)
Definition no_card (l : list event) (r : reg) : Z := match r with PIN_CD => 0 | _ => good l r end.

(** A PLL at 336 MHz. *)
Definition clocks_336 : Cpufreq.hw := Cpufreq.Hw (2 ^ 21) (Z.lor (Z.shiftl 54 23) 256) 0 0 0 0 0 0.

Definition off : state := State new_host 0 false 0 0 ∅ dma_init clocks_336 [].
Definition willing : kernel := Kernel true 14 true true true 0 0 0 0.

Definition after {A} (m : M A) (s : state) : state := match m s with Some (_, s') => s' | None => s end.
Definition does {A} (m : M A) (s : state) : bool := match m s with Some _ => true | None => false end.

Lemma does_after (m : M unit) s : does m s = true -> m s = Some (tt, after m s).
Proof. unfold does, after. destruct (m s) as [[[] s']|]; done. Qed.

Definition on : state := after (jz_mmc_probe good 1 willing) off.
Definition on_empty : state := after (jz_mmc_probe no_card 1 willing) off.

(** CMD8 with a short response and two retries, CMD17 reading one block of 512
    bytes, CMD25 writing one block, with a stop command. *)
Definition cmd (op flags retries : Z) : mmc_command := Command op 0 [0; 0; 0; 0] flags retries 0.
Definition block (dir : Z) : mmc_data := Data 512 1 0 dir 0 1 [Sg 1048576 512 0].
Definition ask : mmc_request := Request (cmd 13 21 2) None None.
Definition read_one : mmc_request := Request (cmd 17 53 0) (Some (block MMC_DATA_READ)) None.
Definition write_one : mmc_request := Request (cmd 25 53 0) (Some (block MMC_DATA_WRITE)) (Some (cmd 12 29 0)).

Definition code (m : M (Z * list resource)) (s : state) : Z := match m s with Some (r, _) => r.1 | None => -1 end.

Lemma after_success m P Q s :
  runs m (fun res s' => res.1 = 0 -> P s' /\ Q res) s -> code m s = 0 -> P (after m s).
Proof. unfold runs, code, after. destruct (m s) as [[res s']|]; [|done]. intros H E. by apply H. Qed.

Lemma on_booted : booted on.
Proof.
  unfold on. eapply after_success; [apply (probe_boots good 1 ltac:(by intros) ltac:(lia) willing ∅ off)|vm_compute; reflexivity].
  - apply implements_init.
  - done.
  - done.
  - by vm_compute.
  - done.
  - done.
  - done.
  - done.
Qed.

(** ** Histories *)

Lemma reach_does s0 ids s o :
  reach good true s0 ids s -> allowed o s -> does (exec good true o) s = true ->
  reach good true s0 (submitted o ++ ids) (after (exec good true o) s).
Proof. intros Hr Ha Hd. eapply reach_step; [done|done|]. by apply does_after. Qed.

Lemma submit_ok_example : submit_ok ask /\ submit_ok read_one /\ submit_ok write_one.
Proof.
  assert (Hd : forall f d, Some (block f) = Some d -> data_ok d /\ within_limits d = true).
  { intros f d [= <-]. split; [split; [done|simpl; lia]|done]. }
  unfold submit_ok, req_ok. split; [|split]; (split; [split; [done|split; [done|split]]|]); simpl; try done;
    try (intros d Hx; apply (Hd _ d Hx)). intros c [= <-]. done.
Qed.

Definition s1 : state := after (exec good true (Submit 1 ask)) on.
Definition s2 : state := after (exec good true (Submit 2 read_one)) s1.
Definition s3 : state := after (exec good true Irq) s2.
Definition s4 : state := after (exec good true (Submit 3 write_one)) s3.

Lemma allowed_submit s id r : mrq (host s) = None -> bool_decide (id ∉ dones (log s)) = true -> submit_ok r -> allowed (Submit id r) s.
Proof. intros H1 H2 H3. split; [done|]. split; [by apply bool_decide_eq_true in H2|done]. Qed.

Lemma reach_s3 : reach good true on [2; 1]%nat s3.
Proof.
  destruct submit_ok_example as (Ha & Hr & Hw).
  apply (reach_does on [2; 1]%nat s2 Irq); [|done|vm_compute; reflexivity].
  apply (reach_does on [1]%nat s1 (Submit 2 read_one)); [|apply allowed_submit; [vm_compute; reflexivity..|done]|vm_compute; reflexivity].
  apply (reach_does on []%nat on (Submit 1 ask)); [constructor|apply allowed_submit; [vm_compute; reflexivity..|done]|vm_compute; reflexivity].
Qed.

(** A status request and a read, both answered; then the write is submitted and
    waits. *)
Lemma requests_answered_once_witness :
  booted on /\ reach good true on [3; 2; 1]%nat s4 /\ mrq (host s4) = Some 3%nat /\
  Permutation [3; 2; 1]%nat (pending s4 ++ dones (log s4)).
Proof.
  assert (Hr : reach good true on [3; 2; 1]%nat s4).
  { apply (reach_does on [2; 1]%nat s3 (Submit 3 write_one)); [exact reach_s3| |vm_compute; reflexivity].
    apply allowed_submit; [vm_compute; reflexivity..|apply submit_ok_example]. }
  split; [exact on_booted|]. split; [exact Hr|]. split; [vm_compute; reflexivity|].
  exact (proj1 (requests_answered_once good true on _ _ on_booted Hr)).
Defined.

Lemma command_retried_witness :
  exists s' r' l, exec good true (Submit 1 ask) on = Some (tt, s') /\ log s' = Done 1 r' :: l /\ mrq (host s') = None.
Proof.
  destruct (command_retried good true on [] on 1 ask on_booted (reach_refl _ _ _)) as (s' & r' & l & errs & H1 & H2 & H3 & _).
  - apply allowed_submit; [vm_compute; reflexivity..|apply submit_ok_example].
  - reflexivity.
  - exists s', r', l. split; [exact H1|]. split; [exact H2|exact H3].
Defined.

Lemma data_request_transfers_witness :
  exists t, exec good true (Submit 3 write_one) s3 = Some (tt, t) /\ mrq (host t) = Some 3%nat /\
    transfers (log t) = (1, 1048576, 512, 1) :: transfers (log s3).
Proof.
  destruct (data_request_transfers good true on _ s3 3 write_one (block MMC_DATA_WRITE) on_booted reach_s3) as (t & errs & H1 & H2).
  - apply allowed_submit; [vm_compute; reflexivity..|apply submit_ok_example].
  - reflexivity.
  - exists t. split; [exact H1|].
    assert (t = s4) as -> by (unfold s4, after; by rewrite H1). split; vm_compute; reflexivity.
Defined.

Lemma response_bits_witness :
  let s := set_reqs {[7%nat := ask]} on in
  runs (read_response good 1 (Main 7)) (fun _ t => exists w0 w1 w2,
    log t = [Rd RES w2; Rd RES w1; Rd RES w0] ++ log s /\
    reqs t !! 7%nat = Some (put_cmd (Main 7) (set_resp [w0 mod 256 * 2 ^ 24 + w1 * 2 ^ 8 + w2 mod 256; 0; 0; 0]
      (cmd 13 21 2)) ask)) s.
Proof. intros s. exact (proj1 (response_bits good (Main 7) ask (cmd 13 21 2) s eq_refl eq_refl eq_refl)). Defined.

Lemma clock_fastest_witness :
  runs (jz_mmc_set_clock good 400000) (fun _ t => exists k l, log t = Wr CLKRT k :: l /\ 0 <= k <= 7 /\
    __cpm_get_mscclk (cpm t) = Some 24000000 /\ 24000000 / 2 ^ k <= 400000 /\ (0 < k -> 400000 < 24000000 / 2 ^ (k - 1))) on.
Proof. apply (clock_fastest good 400000 14 on); [vm_compute; reflexivity|lia|lia]. Defined.

(** ** Where the code falls short *)

(** A checksum error in the response to a read command (CMD17, whose response has
    a checksum) is no error of the command. *)
Example response_crc_ignored :
  has 53 MMC_RSP_CRC = true /\ status_error MSC_STAT_CRC_RES_ERR (cmd 17 53 0) = None /\
  status_error MSC_STAT_CRC_RES_ERR (cmd 9 7 0) = Some (- EILSEQ).
Proof. by vm_compute. Qed.

(** With a one-bit bus, CMD6 with another argument than the two bus widths writes
    no argument: the card gets that of the command before. *)
Example switch_argument_lost :
  write_argument true (Command 6 16777201 [0; 0; 0; 0] 53 0 0) on = Some (tt, on).
Proof. by vm_compute. Qed.

(** A command without response after one with a response: the response register
    is read and stored as its response. *)
Example response_of_none :
  let t := after (exec good true (Submit 2 (Request (cmd 0 0 0) None None))) s1 in
  match log t with Done 2 r :: _ => resp (r_cmd r) = [873608244; 0; 0; 0] | _ => False end.
Proof. by vm_compute. Qed.

(** The first command of a log times out, the others succeed. *)
Definition first_fails (l : list event) (r : reg) : Z :=
  match r with STAT => if (length (trail l) =? 1)%nat then 2050 else 2048 | _ => good l r end.

(** A write with a retry whose first command fails: when the second one has
    succeeded, its transfer is set up twice. *)
Example retried_write_set_up_twice :
  let r := Request (cmd 25 53 1) (Some (block MMC_DATA_WRITE)) None in
  let t := after (exec first_fails true (Submit 1 r)) on in
  mrq (host t) = Some 1%nat /\ trail (log t) = [Sent 25; Failed (u32 (- ETIMEDOUT)); Sent 25] /\
  transfers (log t) = [(1, 1048576, 512, 1); (1, 1048576, 512, 1)].
Proof. by vm_compute. Qed.

(** A wait that runs out leaves the counter at its maximum: the wait for the end
    of programming after CMD12 would then run for 2^32 rounds. *)
Example wait_counter_wraps :
  option_map fst (wait_bit (fun _ _ => 0) STAT MSC_STAT_END_CMD_RES 3 on) = Some (2 ^ 32 - 1).
Proof. by vm_compute. Qed.

(** Without a card a command is sent as often as its retries allow, and then
    reported as timed out. *)
Example empty_slot_times_out :
  let t := after (exec no_card true (Submit 1 ask)) on_empty in
  trail (log t) = attempts 13 [u32 (- ETIMEDOUT); u32 (- ETIMEDOUT)] /\
  match log t with Done 1 r :: _ => error (r_cmd r) = u32 (- ETIMEDOUT) | _ => False end.
Proof. by vm_compute. Qed.

(** The card detect line is refused: the probe fails, DMA channel 0, which belongs
    to another driver, is freed, and the interrupt handler of the freed host stays. *)
Example failed_probe_frees_channel :
  let others := default dma_init (snd <$> jz_request_dma dma_init 3 0 (Some 0) 0) in
  let s := State new_host 0 false 0 0 ∅ others clocks_336 [] in
  let k := Kernel true 14 true true true 0 (-16) 0 0 in
  owned others 0 = Some 3 /\
  option_map fst (jz_mmc_probe good 1 k s) = Some (-1, [Irq_msc; Mem_region]) /\
  owned (dmac (after (jz_mmc_probe good 1 k) s)) 0 = None.
Proof. by vm_compute. Qed.

(** Removing the driver leaves the card detect handler, the descriptor page and
    the memory region. *)
Example remove_leaves :
  option_map fst (jz_mmc_remove good true [Irq_hotplug; Irq_msc; Sg_page; Mmc_host; Mem_region] on) =
  Some (0, [Irq_hotplug; Sg_page; Mem_region]).
Proof. by vm_compute. Qed.
