(* ===== verification/I2sFill.v ===== *)
(** * Sample conversions of the sound driver (sound/oss/jz_i2s.c)

    Programs write and read 8-bit unsigned or 16-bit signed samples, mono or
    stereo; the sound controller takes and delivers 32-bit words, left and right
    in turn.  The [replay_fill] functions expand a part of the driver's copy of
    the user's bytes into a DMA buffer, the [record_fill] functions pack the
    words of one into bytes.  A buffer is the list of the words of its pages; an
    access outside of it, or outside of the copy, is undefined ([None]).  Built
    as for the internal codec (CONFIG_I2S_ICODEC). *)

From S2P Require Import Prelude.

#[local] Arguments Z.eqb : simpl never.
#[local] Arguments Z.ltb : simpl never.
#[local] Arguments Z.leb : simpl never.
#[local] Arguments Z.shiftl : simpl never.
#[local] Arguments Z.shiftr : simpl never.
#[local] Arguments Z.add : simpl never.
#[local] Arguments Z.sub : simpl never.
#[local] Arguments Z.mul : simpl never.
#[local] Arguments Z.of_nat : simpl never.

(** Conversion to [signed short]. *)
Definition s16 (x : Z) : Z := (x + 2 ^ 15) mod 2 ^ 16 - 2 ^ 15.

(** The [signed short] at byte [i], least significant byte first. *)
Definition rd_short (l : list Z) (i : Z) : option Z :=
  lo ← rd l i; hi ← rd l (i + 1); Some (s16 (lo + 256 * hi)).

Definition wr_short (l : list Z) (i x : Z) : option (list Z) :=
  l ← wr l i (u8 x); wr l (i + 1) (u8 (Z.shiftr x 8)).

(** ** Playing

    [sp] and [dp] are the source and target pointers, as a byte and a word
    index; [last] the saved last samples of the buffer.  Each loop returns [cnt],
    the buffer and the last samples.  Every round lowers [count], so that
    [count] rounds are enough. *)

Fixpoint replay_1x8_loop (fuel : nat) (s : list Z) (sp count cnt dp : Z) (buf : list Z) (last : Z * Z)
  : option (Z * list Z * (Z * Z)) :=
  if 0 <? count then
    match fuel with
    | O => None
    | S fuel =>
        let count := count - 1 in
        x ← rd s sp;
        let ddata := shl32 (u8 (x - 128)) 8 in
        buf ← wr buf dp ddata;
        buf ← wr buf (dp + 1) ddata;
        replay_1x8_loop fuel s (sp + 1) count (cnt + 1) (dp + 2) buf
          (if count =? 1 then (ddata, ddata) else last)
    end
  else Some (cnt, buf, last).

Fixpoint replay_2x8_loop (fuel : nat) (s : list Z) (sp count cnt dp : Z) (buf : list Z) (last : Z * Z)
  : option (Z * list Z * (Z * Z)) :=
  if 0 <? count then
    match fuel with
    | O => None
    | S fuel =>
        let count := count - 1 in
        x ← rd s sp;
        let dd1 := shl32 (u8 (x - 128)) 8 in
        buf ← wr buf dp dd1;
        let last := if count =? 2 then (dd1, last.2) else last in
        let last := if count =? 1 then (last.1, dd1) else last in
        replay_2x8_loop fuel s (sp + 1) count (cnt + 1) (dp + 1) buf last
    end
  else Some (cnt, buf, last).

Fixpoint replay_1x16_loop (fuel : nat) (shift : Z) (s : list Z) (sp count cnt dp : Z)
    (buf : list Z) (last : Z * Z) : option (Z * list Z * (Z * Z)) :=
  if 0 <? count then
    match fuel with
    | O => None
    | S fuel =>
        let count := count - 2 in
        d1 ← rd_short s sp;
        let l1 := Z.shiftr d1 shift in
        buf ← wr buf dp (u32 l1);
        buf ← wr buf (dp + 1) (u32 l1);
        replay_1x16_loop fuel shift s (sp + 2) count (cnt + 2) (dp + 2) buf
          (if count =? 1 then (l1, l1) else last)
    end
  else Some (cnt, buf, last).

(** A run of [sam_rate] zero samples gets two words of value one, ten and eleven
    words back. *)
Definition keep_awake (sam_rate l1 mute_cnt dp : Z) (buf : list Z) : option (Z * list Z) :=
  if l1 =? 0 then
    let mute_cnt := mute_cnt + 1 in
    if sam_rate <=? mute_cnt then
      buf ← wr buf (dp - 10) 1;
      buf ← wr buf (dp - 11) 1;
      Some (0, buf)
    else Some (mute_cnt, buf)
  else Some (0, buf).

Fixpoint replay_2x16_loop (fuel : nat) (sam_rate shift : Z) (s : list Z)
    (sp count cnt dp mute_cnt tmp1 tmp2 : Z) (buf : list Z) : option (Z * list Z * (Z * Z)) :=
  if 0 <? count then
    match fuel with
    | O => None
    | S fuel =>
        d1 ← rd_short s sp;
        let l1 := Z.shiftr d1 shift in
        '(mute_cnt, buf) ← keep_awake sam_rate l1 mute_cnt dp buf;
        buf ← wr buf dp (u32 l1);
        replay_2x16_loop fuel sam_rate shift s (sp + 2) (count - 2) (cnt + 2) (dp + 1)
          mute_cnt tmp2 l1 buf
    end
  else Some (cnt, buf, (tmp1, tmp2)).

(** The fillers return the byte count of the buffer, its words and the saved
    last samples.  [b] is [jz_audio_b], [rate] is [jz_audio_rate], [shift] is
    [codec_volue_shift]. *)

Definition replay_fill_1x8_u (b : Z) (s : list Z) (off count : Z) (buf : list Z) (last : Z * Z)
  : option (Z * list Z * (Z * Z)) :=
  '(cnt, buf, last) ← replay_1x8_loop (Z.to_nat count) s off count 0 0 buf last;
  Some (u32 (cnt * 2 * b), buf, last).

Definition replay_fill_2x8_u (b : Z) (s : list Z) (off count : Z) (buf : list Z) (last : Z * Z)
  : option (Z * list Z * (Z * Z)) :=
  '(cnt, buf, last) ← replay_2x8_loop (Z.to_nat count) s off count 0 0 buf last;
  Some (u32 (cnt * b), buf, last).

Definition replay_fill_1x16_s (b shift : Z) (s : list Z) (off count : Z) (buf : list Z) (last : Z * Z)
  : option (Z * list Z * (Z * Z)) :=
  '(cnt, buf, last) ← replay_1x16_loop (Z.to_nat count) shift s off count 0 0 buf last;
  Some (u32 (cnt * 2 * b), buf, last).

Definition replay_fill_2x16_s (b rate shift : Z) (s : list Z) (off count : Z) (buf : list Z)
  : option (Z * list Z * (Z * Z)) :=
  '(cnt, buf, last) ← replay_2x16_loop (Z.to_nat count) (Z.quot rate 20) shift s off count 0 0 0 0 0 buf;
  Some (u32 (cnt * b), buf, last).

(** ** Recording

    [s] are the words of the DMA buffer, [count] the number of them to convert;
    the bytes go to [dst] from [dp] on, and the byte count is returned. *)

Definition rec8 (data : Z) : Z := u8 (Z.shiftr (shl32 data 16) 24 + 128).
Definition rec16 (data : Z) : Z := u16 (Z.shiftr (shl32 data 16) 16).

Fixpoint record_1x8_loop (fuel : nat) (s : list Z) (sp count cnt dp : Z) (dst : list Z)
  : option (Z * list Z) :=
  if 0 <? count then
    match fuel with
    | O => None
    | S fuel =>
        data ← rd s sp;
        dst ← wr dst dp (rec8 data);
        record_1x8_loop fuel s (sp + 2) (count - 2) (cnt + 1) (dp + 1) dst
    end
  else Some (cnt, dst).

Fixpoint record_2x8_loop (fuel : nat) (s : list Z) (sp count cnt dp : Z) (dst : list Z)
  : option (Z * list Z) :=
  if 0 <? count then
    match fuel with
    | O => None
    | S fuel =>
        d1 ← rd s sp;
        dst ← wr dst dp (rec8 d1);
        d2 ← rd s (sp + 1);
        dst ← wr dst (dp + 1) (rec8 d2);
        record_2x8_loop fuel s (sp + 2) (count - 2) (cnt + 2) (dp + 2) dst
    end
  else Some (cnt, dst).

Fixpoint record_1x16_loop (fuel : nat) (s : list Z) (sp count cnt dp : Z) (dst : list Z)
  : option (Z * list Z) :=
  if 0 <? count then
    match fuel with
    | O => None
    | S fuel =>
        d1 ← rd s sp;
        dst ← wr_short dst dp (rec16 d1);
        record_1x16_loop fuel s (sp + 2) (count - 2) (cnt + 2) (dp + 2) dst
    end
  else Some (cnt, dst).

Fixpoint record_2x16_loop (fuel : nat) (abnormal : Z) (s : list Z) (sp count cnt dp : Z) (dst : list Z)
  : option (Z * list Z * Z) :=
  if 0 <? count then
    match fuel with
    | O => None
    | S fuel =>
        d1 ← rd s sp;
        d2 ← rd s (sp + 1);
        let '(d1, d2, abnormal) := if 0 <? abnormal then (0, 0, abnormal - 1) else (d1, d2, abnormal) in
        dst ← wr_short dst dp (rec16 d1);
        dst ← wr_short dst (dp + 2) (rec16 d2);
        record_2x16_loop fuel abnormal s (sp + 2) (count - 2) (cnt + 4) (dp + 4) dst
    end
  else Some (cnt, dst, abnormal).

Definition record_fill_1x8_u (dst : list Z) (off count : Z) (s : list Z) : option (Z * list Z) :=
  record_1x8_loop (Z.to_nat count) s 0 count 0 off dst.

Definition record_fill_2x8_u (dst : list Z) (off count : Z) (s : list Z) : option (Z * list Z) :=
  record_2x8_loop (Z.to_nat count) s 0 count 0 off dst.

Definition record_fill_1x16_s (dst : list Z) (off count : Z) (s : list Z) : option (Z * list Z) :=
  record_1x16_loop (Z.to_nat count) s 0 count 0 off dst.

Definition record_fill_2x16_s (abnormal : Z) (dst : list Z) (off count : Z) (s : list Z)
  : option (Z * list Z * Z) :=
  record_2x16_loop (Z.to_nat count) abnormal s 0 count 0 off dst.

(** ** The format in force *)

(** What [replay_filler] and [record_filler] point to. *)
Inductive filler := F1x8 | F2x8 | F1x16 | F2x16.

#[export] Instance filler_eq_dec : EqDecision filler.
Proof. solve_decision. Defined.

Definition AFMT_QUERY : Z := 0.
Definition AFMT_U8 : Z := 8.
Definition AFMT_S16_LE : Z := 16.

(** The driver's variables [jz_audio_rate], [_speed], [_format], [_channels],
    [_b] and the two function pointers, which are always set together. *)
Record audio := Audio {
  jz_audio_rate : Z; jz_audio_speed : Z; jz_audio_format : Z; jz_audio_channels : Z; jz_audio_b : Z;
  fill : option filler }.

(** Static storage: all zero, no function. *)
Definition audio_init : audio := Audio 0 0 0 0 0 None.

Definition TYPE (fmt ch : Z) : Z := Z.lor (shl32 fmt 2) (Z.land ch 3).

Definition jz_update_filler (a : audio) (format channels : Z) : audio :=
  let set b f := Audio (jz_audio_rate a) (jz_audio_speed a) (jz_audio_format a) (jz_audio_channels a) b (Some f) in
  let t := TYPE format channels in
  if t =? TYPE AFMT_U8 1 then set 4 F1x8
  else if t =? TYPE AFMT_U8 2 then set 4 F2x8
  else if t =? TYPE AFMT_S16_LE 1 then set 2 F1x16
  else if t =? TYPE AFMT_S16_LE 2 then set 2 F2x16
  else a.

(** Both formats set the controller to 16-bit samples as well
    ([set_sample_size] of the codec's file). *)
Definition jz_audio_set_format (a : audio) (fmt : Z) : Z * audio :=
  let a := if (fmt =? AFMT_U8) || (fmt =? AFMT_S16_LE)
           then jz_update_filler (Audio (jz_audio_rate a) (jz_audio_speed a) fmt
                                        (jz_audio_channels a) (jz_audio_b a) (fill a))
                                 fmt (jz_audio_channels a)
           else a in
  (jz_audio_format a, a).

(** The argument is converted to [short]. *)
Definition jz_audio_set_channels (a : audio) (channels : Z) : Z * audio :=
  let ch := s16 channels in
  let a := if (ch =? 1) || (ch =? 2)
           then jz_update_filler (Audio (jz_audio_rate a) (jz_audio_speed a) (jz_audio_format a)
                                        ch (jz_audio_b a) (fill a))
                                 (jz_audio_format a) ch
           else a in
  (jz_audio_channels a, a).

(** The rate that is kept, and that the codec is set to. *)
Definition jz_audio_set_speed (a : audio) (rate : Z) : Z * audio :=
  let r := if 48000 <? rate then 48000 else rate in
  let r := if r <? 8000 then 8000 else r in
  (r, Audio r rate (jz_audio_format a) (jz_audio_channels a) (jz_audio_b a) (fill a)).

(** The call through [replay_filler]; a null pointer is undefined. *)
Definition replay_filler (a : audio) (shift : Z) (s : list Z) (off count : Z) (buf : list Z) (last : Z * Z)
  : option (Z * list Z * (Z * Z)) :=
  k ← fill a;
  match k with
  | F1x8 => replay_fill_1x8_u (jz_audio_b a) s off count buf last
  | F2x8 => replay_fill_2x8_u (jz_audio_b a) s off count buf last
  | F1x16 => replay_fill_1x16_s (jz_audio_b a) shift s off count buf last
  | F2x16 => replay_fill_2x16_s (jz_audio_b a) (jz_audio_rate a) shift s off count buf
  end.

(** The call through [record_filler], with [abnormal_data_count]. *)
Definition record_filler (a : audio) (abnormal : Z) (dst : list Z) (off count : Z) (s : list Z)
  : option (Z * list Z * Z) :=
  k ← fill a;
  match k with
  | F1x8 => '(c, d) ← record_fill_1x8_u dst off count s; Some (c, d, abnormal)
  | F2x8 => '(c, d) ← record_fill_2x8_u dst off count s; Some (c, d, abnormal)
  | F1x16 => '(c, d) ← record_fill_1x16_s dst off count s; Some (c, d, abnormal)
  | F2x16 => record_fill_2x16_s abnormal dst off count s
  end.

(** ** The conversions as functions of lists *)

Definition word8 (x : Z) : Z := shl32 (u8 (x - 128)) 8.

Fixpoint shorts (l : list Z) : list Z :=
  match l with
  | lo :: hi :: l => s16 (lo + 256 * hi) :: shorts l
  | _ => []
  end.

Fixpoint dup (l : list Z) : list Z :=
  match l with [] => [] | x :: l => x :: x :: dup l end.

(** The words that the bytes [l] stand for. *)
Definition words (k : filler) (shift : Z) (l : list Z) : list Z :=
  match k with
  | F1x8 => dup (map word8 l)
  | F2x8 => map word8 l
  | F1x16 => dup (map (fun d => u32 (Z.shiftr d shift)) (shorts l))
  | F2x16 => map (fun d => u32 (Z.shiftr d shift)) (shorts l)
  end.

(** A word that is played for the word [c]: itself, or one for a zero. *)
Definition nearly (w c : Z) : Prop := w = c \/ c = 0 /\ w = 1.

Definition close (k : filler) (ws cs : list Z) : Prop :=
  match k with F2x16 => Forall2 nearly ws cs | _ => ws = cs end.

(** ** Lists under pointers *)

Lemma rd_app {A} (a : list A) x c i : i = Z.of_nat (length a) -> rd (a ++ x :: c) i = Some x.
Proof. intros ->. rewrite rd_lookup, Nat2Z.id by lia. by apply list_lookup_middle. Qed.

Lemma wr_app {A} (a : list A) x y c i : i = Z.of_nat (length a) -> wr (a ++ x :: c) i y = Some (a ++ y :: c).
Proof.
  intros ->. rewrite wr_Some by (rewrite length_app; simpl; lia). rewrite Nat2Z.id. f_equal.
  by rewrite insert_app_r_alt, Nat.sub_diag by lia.
Qed.

Lemma rd_short_app a lo hi c i :
  i = Z.of_nat (length a) -> rd_short (a ++ lo :: hi :: c) i = Some (s16 (lo + 256 * hi)).
Proof.
  intros Hi. unfold rd_short. rewrite (rd_app a lo (hi :: c) i) by done. simpl.
  rewrite (cons_middle lo), app_assoc.
  rewrite rd_app; [done|]. rewrite length_app. simpl. lia.
Qed.

Lemma wr_short_app a x y c i v :
  i = Z.of_nat (length a) ->
  wr_short (a ++ x :: y :: c) i v = Some (a ++ u8 v :: u8 (Z.shiftr v 8) :: c).
Proof.
  intros Hi. unfold wr_short. rewrite (wr_app a x (u8 v) (y :: c) i) by done. simpl.
  rewrite (cons_middle (u8 v)), app_assoc.
  rewrite wr_app by (rewrite length_app; simpl; lia). by rewrite <- app_assoc.
Qed.

Lemma length_dup l : length (dup l) = (2 * length l)%nat.
Proof. induction l as [|x l IH]; simpl; lia. Qed.

(** Two elements at a time. *)
Lemma pair_ind {A} (P : list A -> Prop) :
  P [] -> (forall x y l, P l -> P (x :: y :: l)) -> forall l, Nat.Even (length l) -> P l.
Proof.
  intros H0 H2 l. remember (length l) as n eqn:Hn. revert l Hn.
  induction n as [n IH] using lt_wf_ind. intros [|x [|y l]] Hn Hev; [done| |].
  - subst n. destruct Hev as [m Hm]. simpl in Hm. lia.
  - apply H2. apply (IH (length l)); [simpl in Hn; lia|done|]. subst n. destruct Hev as [m Hm].
    exists (m - 1)%nat. simpl in Hm. lia.
Qed.

Lemma length_shorts l : Nat.Even (length l) -> (length l = 2 * length (shorts l))%nat.
Proof. revert l. apply pair_ind; [done|]. intros x y l IH. simpl. lia. Qed.

(** ** What the loops compute

    [bs] are the bytes still to convert, [pre] the words that are done and [mid]
    the room for the rest. *)

(** One more element to the left of the cursor. *)
Lemma snoc_cons {A} (a : list A) x c : a ++ x :: c = (a ++ [x]) ++ c.
Proof. by rewrite <- app_assoc. Qed.

Ltac len := rewrite ?length_app, ?length_map; simpl; lia.

Section Replay.
Context (c post : list Z).

Lemma replay_1x8_spec : forall bs mid a pre sp dp n cnt last fuel,
  sp = Z.of_nat (length a) -> dp = Z.of_nat (length pre) -> n = Z.of_nat (length bs) ->
  length mid = (2 * length bs)%nat -> (length bs <= fuel)%nat ->
  exists last', replay_1x8_loop fuel (a ++ bs ++ c) sp n cnt dp (pre ++ mid ++ post) last =
    Some (cnt + n, pre ++ dup (map word8 bs) ++ post, last').
Proof.
  induction bs as [|x bs IH]; intros mid a pre sp dp n cnt last fuel Hsp Hdp -> Hmid Hf.
  - destruct mid; [|done]. exists last. destruct fuel; simpl; by rewrite Z.add_0_r.
  - destruct fuel as [|fuel]; [simpl in Hf; lia|]. destruct mid as [|m0 [|m1 mid]]; simpl in Hmid, Hf; try lia.
    cbn [replay_1x8_loop length]. rewrite (proj2 (Z.ltb_lt _ _)) by lia. cbn [app].
    rewrite (rd_app a) by done. cbn [mbind option_bind]. fold (word8 x).
    rewrite (wr_app pre) by done. cbn [mbind option_bind].
    rewrite (snoc_cons pre), (wr_app (pre ++ _)) by len. cbn [mbind option_bind].
    rewrite (snoc_cons a), (snoc_cons (pre ++ _)).
    edestruct (IH mid (a ++ [x]) ((pre ++ [word8 x]) ++ [word8 x])) as [last' ->];
      [len|len|len|lia|lia|]. exists last'. do 3 f_equal; [lia|].
    simpl. by rewrite <- !app_assoc.
Qed.

Lemma replay_2x8_spec : forall bs mid a pre sp dp n cnt last fuel,
  sp = Z.of_nat (length a) -> dp = Z.of_nat (length pre) -> n = Z.of_nat (length bs) ->
  length mid = length bs -> (length bs <= fuel)%nat ->
  exists last', replay_2x8_loop fuel (a ++ bs ++ c) sp n cnt dp (pre ++ mid ++ post) last =
    Some (cnt + n, pre ++ map word8 bs ++ post, last').
Proof.
  induction bs as [|x bs IH]; intros mid a pre sp dp n cnt last fuel Hsp Hdp -> Hmid Hf.
  - destruct mid; [|done]. exists last. destruct fuel; simpl; by rewrite Z.add_0_r.
  - destruct fuel as [|fuel]; [simpl in Hf; lia|]. destruct mid as [|m0 mid]; simpl in Hmid, Hf; try lia.
    cbn [replay_2x8_loop length]. rewrite (proj2 (Z.ltb_lt _ _)) by lia. cbn [app].
    rewrite (rd_app a) by done. cbn [mbind option_bind]. fold (word8 x).
    rewrite (wr_app pre) by done. cbn [mbind option_bind].
    rewrite (snoc_cons a), (snoc_cons pre).
    edestruct (IH mid (a ++ [x]) (pre ++ [word8 x])) as [last' ->];
      [len|len|len|lia|lia|]. exists last'. do 3 f_equal; [lia|].
    simpl. by rewrite <- !app_assoc.
Qed.

Lemma replay_1x16_spec shift bs : Nat.Even (length bs) -> forall mid a pre sp dp n cnt last fuel,
  sp = Z.of_nat (length a) -> dp = Z.of_nat (length pre) -> n = Z.of_nat (length bs) ->
  length mid = length bs -> (length bs <= fuel)%nat ->
  exists last', replay_1x16_loop fuel shift (a ++ bs ++ c) sp n cnt dp (pre ++ mid ++ post) last =
    Some (cnt + n, pre ++ words F1x16 shift bs ++ post, last').
Proof.
  revert bs. refine (pair_ind _ _ _).
  - intros mid a pre sp dp n cnt last fuel Hsp Hdp -> Hmid Hf.
    destruct mid; [|done]. exists last. destruct fuel; simpl; by rewrite Z.add_0_r.
  - intros lo hi bs IH mid a pre sp dp n cnt last fuel Hsp Hdp -> Hmid Hf.
    destruct fuel as [|fuel]; [simpl in Hf; lia|]. destruct mid as [|m0 [|m1 mid]]; simpl in Hmid, Hf; try lia.
    cbn [replay_1x16_loop length]. rewrite (proj2 (Z.ltb_lt _ _)) by lia. cbn [app].
    rewrite (rd_short_app a) by done. cbn [mbind option_bind].
    set (w := Z.shiftr (s16 (lo + 256 * hi)) shift).
    rewrite (wr_app pre) by done. cbn [mbind option_bind].
    rewrite (snoc_cons pre), (wr_app (pre ++ _)) by len. cbn [mbind option_bind].
    rewrite (snoc_cons a), (snoc_cons (a ++ _)), (snoc_cons (pre ++ _)).
    edestruct (IH mid ((a ++ [lo]) ++ [hi]) ((pre ++ [u32 w]) ++ [u32 w])) as [last' ->];
      [len|len|len|lia|lia|]. exists last'. do 3 f_equal; [lia|].
    simpl. by rewrite <- !app_assoc.
Qed.

(** The last [n] of the words [cs] are zero. *)
Definition quiet (n : Z) (cs : list Z) : Prop :=
  forall i : nat, Z.of_nat (length cs) - n <= Z.of_nat i < Z.of_nat (length cs) -> cs !! i = Some 0.

(** Position [j] of the words [cs] is inside of a run of [sam] zeros. *)
Definition in_silence (sam : Z) (cs : list Z) (j : nat) : Prop :=
  exists i, i <= Z.of_nat j < i + sam /\ forall t : nat, i <= Z.of_nat t < i + sam -> cs !! t = Some 0.

(** [ws] is played for [cs], the first words of [all]: some zeros inside of long
    silences have become ones. *)
Record awake (sam : Z) (all ws cs : list Z) : Prop := {
  aw_nearly : Forall2 nearly ws cs;
  aw_silence : forall j, ws !! j <> cs !! j -> in_silence sam all j }.

Lemma wr_nearly sam all pre rest cs k :
  awake sam all pre cs -> 0 <= k -> cs !! Z.to_nat k = Some 0 -> in_silence sam all (Z.to_nat k) ->
  exists pre', wr (pre ++ rest) k 1 = Some (pre' ++ rest) /\ awake sam all pre' cs.
Proof.
  intros [Hn Hs] Hk Hz Hin. pose proof (lookup_lt_Some _ _ _ Hz). pose proof (Forall2_length _ _ _ Hn).
  rewrite wr_Some by len. rewrite insert_app_l by lia. eexists. split; [done|]. split.
  - rewrite <- (list_insert_id cs (Z.to_nat k) 0) by done. apply Forall2_insert; [done|]. by right.
  - intros j Hj. destruct (decide (j = Z.to_nat k)) as [->|Hne]; [done|]. apply Hs.
    by rewrite list_lookup_insert_ne in Hj by congruence.
Qed.

Lemma keep_awake_spec sam l1 mute pre cs rest more :
  12 <= sam -> awake sam (cs ++ u32 l1 :: more) pre cs -> 0 <= mute <= Z.of_nat (length cs) -> quiet mute cs ->
  exists mute' pre', keep_awake sam l1 mute (Z.of_nat (length pre)) (pre ++ rest) = Some (mute', pre' ++ rest) /\
    awake sam (cs ++ u32 l1 :: more) pre' cs /\ 0 <= mute' <= Z.of_nat (length cs) + 1 /\ quiet mute' (cs ++ [u32 l1]).
Proof.
  intros Hs Hn Hm Hq. unfold keep_awake. pose proof (Forall2_length _ _ _ (aw_nearly _ _ _ _ Hn)) as Hl.
  assert (H0 : forall x, quiet 0 (cs ++ [x])) by (intros x i Hi; lia).
  destruct (Z.eqb_spec l1 0) as [->|_]; [|exists 0, pre; split; [done|]; split; [done|]; split; [lia|apply H0]].
  destruct (Z.leb_spec sam (mute + 1)).
  - assert (Hrun : forall k, 10 <= k <= 11 -> in_silence sam (cs ++ u32 0 :: more) (Z.to_nat (Z.of_nat (length pre) - k))).
    { intros k Hk. exists (Z.of_nat (length cs) + 1 - sam). split; [lia|]. intros t Ht.
      destruct (decide (t = length cs)) as [->|]; [by rewrite list_lookup_middle by done|].
      rewrite lookup_app_l by lia. apply Hq. lia. }
    destruct (wr_nearly sam (cs ++ u32 0 :: more) pre rest cs (Z.of_nat (length pre) - 10)) as (p1 & -> & Hp1);
      [done|lia|apply Hq; lia|apply Hrun; lia|]. cbn [mbind option_bind].
    destruct (wr_nearly sam (cs ++ u32 0 :: more) p1 rest cs (Z.of_nat (length pre) - 11)) as (p2 & -> & Hp2);
      [done|lia|apply Hq; lia|apply Hrun; lia|]. exists 0, p2. split; [done|]. split; [done|]. split; [lia|apply H0].
  - exists (mute + 1), pre. split; [done|]. split; [done|]. split; [lia|]. intros i Hi. rewrite length_app in Hi. simpl in Hi.
    destruct (decide (i = length cs)) as [->|]; [by rewrite list_lookup_middle by done|].
    rewrite lookup_app_l by lia. apply Hq. lia.
Qed.

Lemma replay_2x16_spec sam shift bs : 12 <= sam -> Nat.Even (length bs) ->
  forall mid a pre cs sp dp n cnt mute t1 t2 fuel,
  sp = Z.of_nat (length a) -> dp = Z.of_nat (length pre) -> n = Z.of_nat (length bs) ->
  (2 * length mid = length bs)%nat -> (length bs <= fuel)%nat ->
  awake sam (cs ++ words F2x16 shift bs) pre cs -> 0 <= mute <= Z.of_nat (length cs) -> quiet mute cs ->
  exists last' ws,
    replay_2x16_loop fuel sam shift (a ++ bs ++ c) sp n cnt dp mute t1 t2 (pre ++ mid ++ post) =
      Some (cnt + n, ws ++ post, last') /\
    awake sam (cs ++ words F2x16 shift bs) ws (cs ++ words F2x16 shift bs).
Proof.
  intros Hsam. revert bs. refine (pair_ind _ _ _).
  - intros mid a pre cs sp dp n cnt mute t1 t2 fuel Hsp Hdp -> Hmid Hf Hn Hm Hq.
    destruct mid; [|done]. exists (t1, t2), pre. simpl in Hn |- *. rewrite app_nil_r in *. split; [|done].
    destruct fuel; simpl; by rewrite Z.add_0_r.
  - intros lo hi bs IH mid a pre cs sp dp n cnt mute t1 t2 fuel Hsp Hdp -> Hmid Hf Hn Hm Hq.
    destruct fuel as [|fuel]; [simpl in Hf; lia|]. destruct mid as [|m0 mid]; simpl in Hmid, Hf; try lia.
    cbn [replay_2x16_loop length]. rewrite (proj2 (Z.ltb_lt _ _)) by lia. cbn [app].
    rewrite (rd_short_app a) by done. cbn [mbind option_bind].
    set (w := Z.shiftr (s16 (lo + 256 * hi)) shift). subst dp.
    destruct (keep_awake_spec sam w mute pre cs (m0 :: mid ++ post) (words F2x16 shift bs) Hsam Hn Hm Hq)
      as (mute' & pre' & -> & Hn' & Hm' & Hq'). cbn [mbind option_bind].
    assert (Hlen : length pre' = length pre).
    { by rewrite (Forall2_length _ _ _ (aw_nearly _ _ _ _ Hn')), (Forall2_length _ _ _ (aw_nearly _ _ _ _ Hn)). }
    rewrite (wr_app pre') by len. cbn [mbind option_bind].
    rewrite (snoc_cons a), (snoc_cons (a ++ _)), (snoc_cons pre').
    edestruct (IH mid ((a ++ [lo]) ++ [hi]) (pre' ++ [u32 w]) (cs ++ [u32 w])) as (last' & ws & -> & Hws);
      [len|len|len|lia|lia| |rewrite length_app; simpl; lia|done|].
    { rewrite <- app_assoc. destruct Hn' as [Hn1 Hn2]. split.
      - apply Forall2_app; [done|]. constructor; [by left|constructor].
      - intros j Hj. apply Hn2. intros Heq. apply Hj. pose proof (Forall2_length _ _ _ Hn1) as Hl1.
        destruct (decide (j < length pre')%nat).
        + by rewrite !lookup_app_l by lia.
        + rewrite !lookup_app_r by lia. by rewrite Hl1. }
    exists last', ws. split; [do 3 f_equal; lia|]. rewrite <- app_assoc in Hws. exact Hws.
Qed.
End Replay.

(** The bytes that the words [ws] are recorded as; mono takes every other word. *)
Fixpoint evens (l : list Z) : list Z :=
  match l with x :: _ :: l => x :: evens l | _ => [] end.

Definition le16 (x : Z) : list Z := [u8 x; u8 (Z.shiftr x 8)].

Definition bytes (k : filler) (ws : list Z) : list Z :=
  match k with
  | F1x8 => map rec8 (evens ws)
  | F2x8 => map rec8 ws
  | F1x16 => concat (map (fun w => le16 (rec16 w)) (evens ws))
  | F2x16 => concat (map (fun w => le16 (rec16 w)) ws)
  end.

Section Record.
Context (c post : list Z).

Lemma record_1x8_spec ws : Nat.Even (length ws) -> forall mid a pre sp dp n cnt fuel,
  sp = Z.of_nat (length a) -> dp = Z.of_nat (length pre) -> n = Z.of_nat (length ws) ->
  length mid = length (bytes F1x8 ws) -> (length ws <= fuel)%nat ->
  record_1x8_loop fuel (a ++ ws ++ c) sp n cnt dp (pre ++ mid ++ post) =
    Some (cnt + Z.of_nat (length mid), pre ++ bytes F1x8 ws ++ post).
Proof.
  revert ws. refine (pair_ind _ _ _).
  - intros mid a pre sp dp n cnt fuel Hsp Hdp -> Hmid Hf. destruct mid; [|done].
    destruct fuel; simpl; by rewrite Z.add_0_r.
  - intros x y ws IH mid a pre sp dp n cnt fuel Hsp Hdp -> Hmid Hf.
    destruct fuel as [|fuel]; [simpl in Hf; lia|]. destruct mid as [|m0 mid]; simpl in Hmid, Hf; try lia.
    cbn [record_1x8_loop length]. rewrite (proj2 (Z.ltb_lt _ _)) by lia. cbn [app].
    rewrite (rd_app a) by done. cbn [mbind option_bind].
    rewrite (wr_app pre) by done. cbn [mbind option_bind].
    rewrite (snoc_cons a), (snoc_cons (a ++ _)), (snoc_cons pre).
    rewrite (IH mid ((a ++ [x]) ++ [y]) (pre ++ [rec8 x])); [|len|len|len|unfold bytes; lia|lia].
    do 2 f_equal; [lia|]. simpl. by rewrite <- !app_assoc.
Qed.

Lemma record_2x8_spec ws : Nat.Even (length ws) -> forall mid a pre sp dp n cnt fuel,
  sp = Z.of_nat (length a) -> dp = Z.of_nat (length pre) -> n = Z.of_nat (length ws) ->
  length mid = length (bytes F2x8 ws) -> (length ws <= fuel)%nat ->
  record_2x8_loop fuel (a ++ ws ++ c) sp n cnt dp (pre ++ mid ++ post) =
    Some (cnt + Z.of_nat (length mid), pre ++ bytes F2x8 ws ++ post).
Proof.
  revert ws. refine (pair_ind _ _ _).
  - intros mid a pre sp dp n cnt fuel Hsp Hdp -> Hmid Hf. destruct mid; [|done].
    destruct fuel; simpl; by rewrite Z.add_0_r.
  - intros x y ws IH mid a pre sp dp n cnt fuel Hsp Hdp -> Hmid Hf.
    destruct fuel as [|fuel]; [simpl in Hf; lia|].
    destruct mid as [|m0 [|m1 mid]]; simpl in Hmid, Hf; try lia.
    cbn [record_2x8_loop length]. rewrite (proj2 (Z.ltb_lt _ _)) by lia. cbn [app].
    rewrite (rd_app a x _ sp) by done. cbn [mbind option_bind]. rewrite (wr_app pre) by done. cbn [mbind option_bind].
    rewrite (snoc_cons a), (snoc_cons pre), (rd_app (a ++ _)) by len. cbn [mbind option_bind].
    rewrite (wr_app (pre ++ _)) by len. cbn [mbind option_bind].
    rewrite (snoc_cons (a ++ _)), (snoc_cons (pre ++ _)).
    rewrite (IH mid ((a ++ [x]) ++ [y]) ((pre ++ [rec8 x]) ++ [rec8 y])); [|len|len|len|unfold bytes; lia|lia].
    do 2 f_equal; [lia|]. simpl. by rewrite <- !app_assoc.
Qed.

Lemma record_1x16_spec ws : Nat.Even (length ws) -> forall mid a pre sp dp n cnt fuel,
  sp = Z.of_nat (length a) -> dp = Z.of_nat (length pre) -> n = Z.of_nat (length ws) ->
  length mid = length (bytes F1x16 ws) -> (length ws <= fuel)%nat ->
  record_1x16_loop fuel (a ++ ws ++ c) sp n cnt dp (pre ++ mid ++ post) =
    Some (cnt + Z.of_nat (length mid), pre ++ bytes F1x16 ws ++ post).
Proof.
  revert ws. refine (pair_ind _ _ _).
  - intros mid a pre sp dp n cnt fuel Hsp Hdp -> Hmid Hf. destruct mid; [|done].
    destruct fuel; simpl; by rewrite Z.add_0_r.
  - intros x y ws IH mid a pre sp dp n cnt fuel Hsp Hdp -> Hmid Hf.
    destruct fuel as [|fuel]; [simpl in Hf; lia|].
    destruct mid as [|m0 [|m1 mid]]; simpl in Hmid, Hf; try lia.
    cbn [record_1x16_loop length]. rewrite (proj2 (Z.ltb_lt _ _)) by lia. cbn [app].
    rewrite (rd_app a x _ sp) by done. cbn [mbind option_bind]. rewrite (wr_short_app pre) by done. cbn [mbind option_bind].
    rewrite (snoc_cons a), (snoc_cons (a ++ _)), (snoc_cons pre), (snoc_cons (pre ++ _)).
    rewrite (IH mid ((a ++ [x]) ++ [y]) ((pre ++ _) ++ _)); [|len|len|len|unfold bytes; lia|lia].
    do 2 f_equal; [lia|]. simpl. by rewrite <- !app_assoc.
Qed.

Lemma record_2x16_spec ws abn : abn <= 0 -> Nat.Even (length ws) -> forall mid a pre sp dp n cnt fuel,
  sp = Z.of_nat (length a) -> dp = Z.of_nat (length pre) -> n = Z.of_nat (length ws) ->
  length mid = length (bytes F2x16 ws) -> (length ws <= fuel)%nat ->
  record_2x16_loop fuel abn (a ++ ws ++ c) sp n cnt dp (pre ++ mid ++ post) =
    Some (cnt + Z.of_nat (length mid), pre ++ bytes F2x16 ws ++ post, abn).
Proof.
  intros Habn. revert ws. refine (pair_ind _ _ _).
  - intros mid a pre sp dp n cnt fuel Hsp Hdp -> Hmid Hf. destruct mid; [|done].
    destruct fuel; simpl; by rewrite Z.add_0_r.
  - intros x y ws IH mid a pre sp dp n cnt fuel Hsp Hdp -> Hmid Hf.
    destruct fuel as [|fuel]; [simpl in Hf; lia|].
    destruct mid as [|m0 [|m1 [|m2 [|m3 mid]]]]; simpl in Hmid, Hf; try lia.
    cbn [record_2x16_loop length]. rewrite (proj2 (Z.ltb_lt _ _)) by lia. cbn [app].
    rewrite (rd_app a x _ sp) by done. cbn [mbind option_bind].
    rewrite (snoc_cons a), (rd_app (a ++ _)) by len. cbn [mbind option_bind].
    rewrite (proj2 (Z.ltb_ge _ _)) by lia. cbv zeta iota.
    rewrite (wr_short_app pre) by done. cbn [mbind option_bind].
    rewrite (snoc_cons pre), (snoc_cons (pre ++ _)), (wr_short_app ((pre ++ _) ++ _)) by len. cbn [mbind option_bind].
    rewrite (snoc_cons (a ++ _)), (snoc_cons ((pre ++ _) ++ _)), (snoc_cons (((pre ++ _) ++ _) ++ _)).
    rewrite (IH mid ((a ++ [x]) ++ [y]) ((((pre ++ _) ++ _) ++ _) ++ _)); [|len|len|len|unfold bytes; lia|lia].
    do 3 f_equal; [lia|]. simpl. by rewrite <- !app_assoc.
Qed.
End Record.

(** ** Well-formed formats

    The filler and the width that belong to a format and a channel count. *)

Definition filler_of (format channels : Z) : option filler :=
  if format =? AFMT_U8 then
    if channels =? 1 then Some F1x8 else if channels =? 2 then Some F2x8 else None
  else if format =? AFMT_S16_LE then
    if channels =? 1 then Some F1x16 else if channels =? 2 then Some F2x16 else None
  else None.

Definition width_of (k : filler) : Z := match k with F1x8 | F2x8 => 4 | F1x16 | F2x16 => 2 end.

Definition audio_wf (a : audio) : Prop :=
  (jz_audio_format a = 0 \/ jz_audio_format a = AFMT_U8 \/ jz_audio_format a = AFMT_S16_LE) /\
  (jz_audio_channels a = 0 \/ jz_audio_channels a = 1 \/ jz_audio_channels a = 2) /\
  (jz_audio_rate a = 0 \/ 8000 <= jz_audio_rate a <= 48000) /\
  fill a = filler_of (jz_audio_format a) (jz_audio_channels a) /\
  jz_audio_b a = match fill a with Some k => width_of k | None => 0 end.

(** The settings a program can make. *)
Inductive setting := Set_format (fmt : Z) | Set_channels (ch : Z) | Set_speed (rate : Z).

Definition set_audio (a : audio) (x : setting) : audio :=
  match x with
  | Set_format fmt => (jz_audio_set_format a fmt).2
  | Set_channels ch => (jz_audio_set_channels a ch).2
  | Set_speed r => (jz_audio_set_speed a r).2
  end.

Lemma audio_wf_init : audio_wf audio_init.
Proof. unfold audio_wf. simpl. auto 10. Qed.

Lemma update_filler_wf rate speed fmt ch b f :
  (fmt = 0 \/ fmt = AFMT_U8 \/ fmt = AFMT_S16_LE) -> (ch = 0 \/ ch = 1 \/ ch = 2) ->
  rate = 0 \/ 8000 <= rate <= 48000 ->
  (fmt = 0 \/ ch = 0 -> f = None /\ b = 0) ->
  audio_wf (jz_update_filler (Audio rate speed fmt ch b f) fmt ch).
Proof.
  intros [-> | [-> | ->]] [-> | [-> | ->]] Hr Hn; unfold audio_wf; lazy -[Z.le]; 
    try (destruct Hn as [-> ->]; [by auto|]); auto 10.
Qed.

Lemma set_audio_wf a x : audio_wf a -> audio_wf (set_audio a x).
Proof.
  intros (Hf & Hc & Hr & Hk & Hb). destruct a as [rate speed fmt ch b f]; simpl in *.
  assert (Hn : fmt = 0 \/ ch = 0 -> f = None /\ b = 0).
  { intros [-> | ->]; rewrite Hk in *; [by rewrite Hb|].
    destruct Hf as [-> | [-> | ->]]; simpl in *; auto. }
  destruct x as [v|v|v]; unfold set_audio; simpl.
  - unfold jz_audio_set_format. simpl. destruct ((v =? AFMT_U8) || (v =? AFMT_S16_LE)) eqn:E; simpl.
    + apply update_filler_wf; [|done|done|]. 
      * apply orb_true_iff in E as [E|E]; apply Z.eqb_eq in E; auto.
      * intros [-> |H0]; [done|]. auto.
    + unfold audio_wf. simpl. auto 10.
  - unfold jz_audio_set_channels. simpl. destruct ((s16 v =? 1) || (s16 v =? 2)) eqn:E; simpl.
    + apply orb_true_iff in E as [E|E]; apply Z.eqb_eq in E; rewrite E in *; apply update_filler_wf; auto;
        intros [H0|]; try done; auto.
    + unfold audio_wf. simpl. auto 10.
  - unfold audio_wf. simpl. repeat split; try done. right. zcases.
Qed.

(** C40: the format variables stay in their types.  Whatever formats, channel
    counts and rates a program asks for and in whatever order, valid or not, the
    format is unset, 8-bit or 16-bit, there are at most two channels, a rate that
    was set is between 8000 and 48000, and the pair of conversion routines and the
    sample width are the ones of that format, or unset as long as it is
    incomplete. *)
Theorem sound_format_typed xs : audio_wf (foldl set_audio audio_init xs).
Proof.
  assert (H : forall a, audio_wf a -> audio_wf (foldl set_audio a xs)).
  { induction xs as [|x xs IH]; intros a Ha; [done|]. simpl. by apply IH, set_audio_wf. }
  apply H, audio_wf_init.
Qed.

(** Whole samples only. *)
Definition whole (k : filler) (n : nat) : Prop :=
  match k with F1x8 | F2x8 => True | F1x16 | F2x16 => Nat.Even n end.

(** Words for [n] bytes. *)
Definition words_for (k : filler) (n : Z) : Z :=
  match k with F1x8 => 2 * n | F2x8 | F1x16 => n | F2x16 => n / 2 end.

Lemma length_words k shift l :
  whole k (length l) -> Z.of_nat (length (words k shift l)) = words_for k (Z.of_nat (length l)).
Proof.
  destruct k; simpl; intros Hw; rewrite ?length_dup, ?length_map; try lia.
  - pose proof (length_shorts l Hw). lia.
  - rewrite (length_shorts l Hw), Nat2Z.inj_mul, (Z.mul_comm _ (Z.of_nat _)), Z.div_mul; lia.
Qed.

Lemma length_close k ws cs : close k ws cs -> length ws = length cs.
Proof. destruct k; simpl; intros H; subst; try done. by eapply Forall2_length. Qed.

Ltac fill_done E Hsz :=
  simpl in E; rewrite E; simpl; rewrite Hsz by done; do 3 f_equal; (etransitivity; [apply Z.mod_small|]); lia.

(** The filler for 16-bit stereo needs a rate; the other ones do not use it. *)
Definition rate_set (a : audio) (k : filler) : Prop := k = F2x16 -> 8000 <= jz_audio_rate a.

(** The filler in force converts the bytes [l] at [off] of the driver's copy,
    given room for their words, and reports the size of the words. *)
Lemma replay_filler_spec a k shift p l c buf last :
  audio_wf a -> fill a = Some k -> rate_set a k -> whole k (length l) ->
  words_for k (Z.of_nat (length l)) <= Z.of_nat (length buf) < 2 ^ 30 ->
  exists ws last', close k ws (words k shift l) /\
    replay_filler a shift (p ++ l ++ c) (Z.of_nat (length p)) (Z.of_nat (length l)) buf last =
      Some (4 * Z.of_nat (length ws), ws ++ drop (length ws) buf, last') /\
    (k = F2x16 -> forall j, ws !! j <> words k shift l !! j ->
       in_silence (Z.quot (jz_audio_rate a) 20) (words k shift l) j).
Proof.
  intros (_ & _ & _ & _ & Hb) Hk Hr Hw Hroom. rewrite Hk in Hb. unfold replay_filler. rewrite Hk, Hb. simpl.
  pose proof (length_words k shift l Hw) as Hlen.
  set (m := length (words k shift l)) in *. rewrite <- (take_drop m buf).
  assert (Htk : length (take m buf) = m) by (rewrite length_take; lia).
  assert (Hsz : forall ws : list Z, length ws = m -> ws ++ drop m (take m buf ++ drop m buf) = [] ++ ws ++ drop m buf).
  { intros ws Hws. rewrite drop_app_length'; done. }
  destruct k; simpl in *.
  - destruct (replay_1x8_spec c (drop m buf) l (take m buf) p [] (Z.of_nat (length p)) 0 (Z.of_nat (length l)) 0 last
      (Z.to_nat (Z.of_nat (length l)))) as [last' E]; [done|done|done|lia|lia|].
    eexists _, last'. split; [done|]. split; [|done]. unfold replay_fill_1x8_u. fill_done E Hsz.
  - destruct (replay_2x8_spec c (drop m buf) l (take m buf) p [] (Z.of_nat (length p)) 0 (Z.of_nat (length l)) 0 last
      (Z.to_nat (Z.of_nat (length l)))) as [last' E]; [done|done|done|lia|lia|].
    eexists _, last'. split; [done|]. split; [|done]. unfold replay_fill_2x8_u. fill_done E Hsz.
  - destruct (replay_1x16_spec c (drop m buf) shift l Hw (take m buf) p [] (Z.of_nat (length p)) 0 (Z.of_nat (length l)) 0
      last (Z.to_nat (Z.of_nat (length l)))) as [last' E]; [done|done|done|lia|lia|].
    eexists _, last'. split; [done|]. split; [|done]. unfold replay_fill_1x16_s. fill_done E Hsz.
  - assert (Hl2 : Z.of_nat (length l) = 2 * Z.of_nat m).
    { rewrite Hlen, (length_shorts l Hw), Nat2Z.inj_mul, (Z.mul_comm _ (Z.of_nat _)), Z.div_mul; lia. }
    destruct (replay_2x16_spec c (drop m buf) (Z.quot (jz_audio_rate a) 20) shift l) with
      (mid := take m buf) (a := p) (pre := @nil Z) (cs := @nil Z) (sp := Z.of_nat (length p)) (dp := 0)
      (n := Z.of_nat (length l)) (cnt := 0) (mute := 0) (t1 := 0) (t2 := 0)
      (fuel := Z.to_nat (Z.of_nat (length l))) as (last' & ws & E & Hws);
      [|done|done|done|done|lia|lia|done|simpl; lia|intros i Hi; simpl in Hi; lia|].
    { specialize (Hr eq_refl). rewrite Z.quot_div_nonneg by lia. apply Z.div_le_lower_bound; lia. }
    destruct Hws as [Hws Hsil]. pose proof (Forall2_length _ _ _ Hws) as Hlw. simpl in Hws, Hsil, Hlw.
    exists ws, last'. split; [done|]. split; [|done]. unfold replay_fill_2x16_s.
    change (length ws = m) in Hlw. rewrite Hlw. fill_done E Hsz.
Qed.

(** The filler in force packs the words [ws] at the start of a DMA buffer. *)
Lemma record_filler_spec a k abn p mid post ws c :
  fill a = Some k -> abn <= 0 -> Nat.Even (length ws) -> length mid = length (bytes k ws) ->
  record_filler a abn (p ++ mid ++ post) (Z.of_nat (length p)) (Z.of_nat (length ws)) (ws ++ c) =
    Some (Z.of_nat (length mid), p ++ bytes k ws ++ post, abn).
Proof.
  intros Hk Habn Hev Hmid. unfold record_filler. rewrite Hk. simpl. rewrite <- (app_nil_l (ws ++ c)).
  destruct k.
  - unfold record_fill_1x8_u. by rewrite (record_1x8_spec c post ws Hev mid [] p) by (done || lia).
  - unfold record_fill_2x8_u. by rewrite (record_2x8_spec c post ws Hev mid [] p) by (done || lia).
  - unfold record_fill_1x16_s. by rewrite (record_1x16_spec c post ws Hev mid [] p) by (done || lia).
  - unfold record_fill_2x16_s. by rewrite (record_2x16_spec c post ws abn Habn Hev mid [] p) by (done || lia).
Qed.

(** ** Samples there and back *)

Definition byte (x : Z) : Prop := 0 <= x < 256.

Lemma rec8_word8 x : byte x -> rec8 (word8 x) = x.
Proof.
  intros Hx. unfold rec8, word8, byte in *. unfold shl32. rewrite !Z.shiftl_mul_pow2, Z.shiftr_div_pow2 by lia.
  unfold u8, u32. assert (Hm := Z.mod_pos_bound (x - 128) (2 ^ 8) eq_refl).
  set (y := (x - 128) mod 2 ^ 8) in *. rewrite (Z.mod_small (y * 2 ^ 8)) by lia.
  rewrite (Z.mod_small (y * 2 ^ 8 * 2 ^ 16)) by lia.
  replace (y * 2 ^ 8 * 2 ^ 16) with (y * 2 ^ 24) by lia. rewrite Z.div_mul by lia.
  unfold y. destruct (Z.lt_ge_cases x 128).
  - rewrite <- (Z.mod_unique (x - 128) (2 ^ 8) (-1) (x + 128)) by lia.
    symmetry. apply (Z.mod_unique _ _ 1); lia.
  - rewrite (Z.mod_small (x - 128)) by lia. rewrite Z.mod_small; lia.
Qed.

(** The low half of a word is the sample. *)
Lemma rec16_u32 d : rec16 (u32 d) = u16 d.
Proof.
  unfold rec16, shl32, u32, u16. rewrite Z.shiftl_mul_pow2, Z.shiftr_div_pow2 by lia.
  replace (2 ^ 32) with (2 ^ 16 * 2 ^ 16) at 2 by done. rewrite Z.mul_mod_distr_r, Z.div_mul by lia.
  rewrite Z.mod_mod by lia. replace (2 ^ 32) with (2 ^ 16 * 2 ^ 16) by done.
  rewrite Z.rem_mul_r by lia. rewrite Z.mul_comm, Z_mod_plus_full. by rewrite Z.mod_mod by lia.
Qed.

Lemma le16_s16 lo hi : byte lo -> byte hi -> le16 (u16 (s16 (lo + 256 * hi))) = [lo; hi].
Proof.
  unfold byte. intros Hlo Hhi.
  assert (u16 (s16 (lo + 256 * hi)) = lo + 256 * hi) as ->.
  { unfold u16, s16. rewrite Zminus_mod_idemp_l. rewrite Z.mod_small; lia. }
  unfold le16, u8. rewrite Z.shiftr_div_pow2 by lia. f_equal; [|f_equal].
  - symmetry. apply (Z.mod_unique _ _ hi); lia.
  - replace ((lo + 256 * hi) / 2 ^ 8) with hi by (apply (Z.div_unique _ _ _ lo); lia).
    apply Z.mod_small. lia.
Qed.

Lemma evens_dup l : evens (dup l) = l.
Proof. induction l as [|x l IH]; simpl; [done|]. by rewrite IH. Qed.

Lemma even_dup l : Nat.Even (length (dup l)).
Proof. exists (length l). by rewrite length_dup. Qed.

(** Played at full volume and recorded again, the bytes come back. *)
Lemma bytes_words k l :
  whole k (length l) -> Forall byte l -> bytes k (words k 0 l) = l.
Proof.
  assert (H8 : forall l, Forall byte l -> map rec8 (map word8 l) = l).
  { intros l' H. rewrite map_map. induction H; simpl; [done|]. by rewrite rec8_word8, IHForall. }
  assert (H16 : forall l, Nat.Even (length l) -> Forall byte l ->
     concat (map (fun w => le16 (rec16 w)) (map (fun d => u32 (Z.shiftr d 0)) (shorts l))) = l).
  { refine (pair_ind _ _ _); [done|]. intros lo hi l' IH H. cbn [shorts map concat].
    rewrite Z.shiftr_0_r, rec16_u32. inversion_clear H as [|? ? H1 H2]. inversion_clear H2 as [|? ? H3 H4].
    rewrite le16_s16, IH by done. done. }
  intros Hw Hb. destruct k; simpl in *; rewrite ?evens_dup; auto.
Qed.

Lemma s16_range x : - 2 ^ 15 <= s16 x < 2 ^ 15.
Proof. unfold s16. pose proof (Z.mod_pos_bound (x + 2 ^ 15) (2 ^ 16) eq_refl). lia. Qed.

Lemma s16_u16 d : - 2 ^ 15 <= d < 2 ^ 15 -> s16 (u16 d) = d.
Proof.
  intros Hd. unfold s16, u16. rewrite Zplus_mod_idemp_l. rewrite Z.mod_small; lia.
Qed.

Lemma shorts_range l : Forall (fun d => - 2 ^ 15 <= d < 2 ^ 15) (shorts l).
Proof.
  remember (length l) as n eqn:Hn. revert l Hn. induction n as [n IH] using lt_wf_ind.
  intros [|lo [|hi l]] Hn; simpl; [constructor..|]. constructor; [apply s16_range|].
  apply (IH (length l)); [simpl in Hn; lia|done].
Qed.

Lemma shorts_le16 xs : Forall (fun x => 0 <= x < 2 ^ 16) xs -> shorts (concat (map le16 xs)) = map s16 xs.
Proof.
  induction 1 as [|x xs Hx _ IH]; [done|]. cbn [map concat app le16 shorts]. f_equal; [|exact IH].
  f_equal. unfold u8. rewrite Z.shiftr_div_pow2 by lia. pose proof (Z.div_mod x (2 ^ 8)).
  rewrite (Z.mod_small (x / 2 ^ 8)); [lia|]. split; [apply Z.div_pos; lia|]. apply Z.div_lt_upper_bound; lia.
Qed.

(** The samples that bytes stand for. *)
Definition samples (k : filler) (l : list Z) : list Z :=
  match k with F1x8 | F2x8 => l | F1x16 | F2x16 => shorts l end.

(** Whole samples for both channels. *)
Definition frames (k : filler) (n : nat) : Prop :=
  match k with F1x8 => True | F2x8 | F1x16 => Nat.Even n | F2x16 => Nat.divide 4 n end.

Lemma rec16_range w : 0 <= rec16 w < 2 ^ 16.
Proof. unfold rec16, u16. apply Z.mod_pos_bound. lia. Qed.

Lemma nearly_samples ws l :
  Forall2 nearly ws (words F2x16 0 l) -> Forall2 nearly (samples F2x16 (bytes F2x16 ws)) (samples F2x16 l).
Proof.
  intros H. simpl in *. rewrite <- (map_map rec16 le16), shorts_le16.
  2: { apply Forall_map, Forall_true. apply rec16_range. }
  rewrite map_map. pose proof (shorts_range l) as Hr. revert ws H.
  induction (shorts l) as [|d ds IH]; intros ws H; simpl in H.
  - apply Forall2_nil_inv_r in H as ->. constructor.
  - apply Forall2_cons_inv_r in H as (w & ws' & Hw & H & ->). inversion_clear Hr as [|? ? Hd Hds].
    constructor; [|by apply IH]. rewrite Z.shiftr_0_r in Hw. unfold nearly.
    destruct Hw as [->|[H0 ->]].
    + left. by rewrite rec16_u32, s16_u16.
    + right. split; [|done]. unfold u32 in H0. apply Z.mod_divide in H0; [|lia]. destruct H0 as [q Hq]. lia.
Qed.

(** A sample that is recorded as another one than the one played is inside of a
    long silence. *)
Lemma silence_samples sam ws l :
  whole F2x16 (length l) -> Forall byte l ->
  (forall j, ws !! j <> words F2x16 0 l !! j -> in_silence sam (words F2x16 0 l) j) ->
  forall j, samples F2x16 (bytes F2x16 ws) !! j <> samples F2x16 l !! j -> in_silence sam (samples F2x16 l) j.
Proof.
  intros Hw Hb H. set (f := fun w => s16 (rec16 w)).
  assert (Hs : forall xs, samples F2x16 (bytes F2x16 xs) = f <$> xs).
  { intros xs. simpl. rewrite <- (map_map rec16 le16), shorts_le16 by (apply Forall_map, Forall_true, rec16_range).
    by rewrite map_map. }
  assert (Hl : samples F2x16 l = f <$> words F2x16 0 l) by (by rewrite <- Hs, bytes_words).
  intros j. rewrite Hl, Hs, !list_lookup_fmap. intros Hj. destruct (H j) as (i & Hi & Hz); [by intros E; rewrite E in Hj|].
  exists i. split; [done|]. intros t Ht. by rewrite list_lookup_fmap, (Hz t Ht).
Qed.

Lemma close_bytes k ws l :
  whole k (length l) -> Forall byte l -> close k ws (words k 0 l) ->
  Forall2 nearly (samples k (bytes k ws)) (samples k l) /\ (k <> F2x16 -> bytes k ws = l).
Proof.
  intros Hw Hb Hc. assert (Hr : forall l, Forall2 nearly l l).
  { intros l'. induction l'; constructor; [by left|done]. }
  destruct k; [..|by split; [apply nearly_samples|]];
    (unfold close in Hc; subst ws; rewrite (bytes_words _ l Hw Hb); by split).
Qed.

Lemma frames_whole k n : frames k n -> whole k n.
Proof. destruct k; simpl; try done. intros [m Hm]. exists (2 * m)%nat. lia. Qed.

Lemma frames_words k shift l : frames k (length l) -> Nat.Even (length (words k shift l)).
Proof.
  destruct k; simpl; intros Hf; try apply even_dup; rewrite length_map; [done|].
  destruct Hf as [m Hm]. pose proof (length_shorts l) as H. exists m.
  rewrite H in Hm; [lia|]. exists (2 * m)%nat. lia.
Qed.

Lemma length_bytes k ws l :
  frames k (length l) -> length ws = length (words k 0 l) -> length (bytes k ws) = length l.
Proof.
  assert (He : forall l, Nat.Even (length l) -> (length l = 2 * length (evens l))%nat).
  { refine (pair_ind _ _ _); [done|]. intros x y l' H. simpl in *. lia. }
  assert (H16 : forall xs, length (concat (map (fun w => le16 (rec16 w)) xs)) = (2 * length xs)%nat).
  { induction xs as [|x xs IH]; [done|]. simpl. lia. }
  intros Hf Hlen. pose proof (frames_words k 0 l Hf) as Hev. rewrite <- Hlen in Hev.
  pose proof (frames_whole _ _ Hf) as Hw. pose proof (He ws Hev).
  destruct k; simpl in *; rewrite ?length_dup, ?length_map in Hlen; rewrite ?H16, ?length_map;
    try pose proof (length_shorts l Hw); lia.
Qed.

(** C31: the samples come back.  In a well-formed format (and for 16-bit stereo
    with a rate set), whole frames of bytes that the filler for playing writes, at
    volume shift 0, to a DMA buffer with room for them, are packed by the filler for
    recording, with no data to throw away ([abn <= 0]), into as many bytes.  These
    are the same bytes, except that in 16-bit stereo a zero sample may come back as
    one; that happens only inside of a run of at least a twentieth of the rate of
    consecutive zero samples.  The rest of the target is unchanged. *)
Theorem sound_roundtrip a k l buf last dst abn :
  audio_wf a -> fill a = Some k -> rate_set a k -> Forall byte l -> frames k (length l) ->
  words_for k (Z.of_nat (length l)) <= Z.of_nat (length buf) < 2 ^ 30 ->
  (length l <= length dst)%nat -> abn <= 0 ->
  exists cnt buf' last' dst',
    replay_filler a 0 l 0 (Z.of_nat (length l)) buf last = Some (cnt, buf', last') /\
    record_filler a abn dst 0 (cnt / 4) buf' = Some (Z.of_nat (length l), dst', abn) /\
    Forall2 nearly (samples k (take (length l) dst')) (samples k l) /\
    (k = F2x16 -> forall j, samples k (take (length l) dst') !! j <> samples k l !! j ->
       in_silence (Z.quot (jz_audio_rate a) 20) (samples k l) j) /\
    (k <> F2x16 -> take (length l) dst' = l) /\ drop (length l) dst' = drop (length l) dst.
Proof.
  intros Hwf Hk Hr Hb Hf Hroom Hdst Habn. pose proof (frames_whole _ _ Hf) as Hw.
  destruct (replay_filler_spec a k 0 [] l [] buf last Hwf Hk Hr Hw Hroom) as (ws & last' & Hc & E & Hsil).
  simpl in E. rewrite app_nil_r in E.
  pose proof (length_close _ _ _ Hc) as Hlen. pose proof (length_bytes k ws l Hf Hlen) as Hlb.
  destruct (close_bytes k ws l Hw Hb Hc) as [Hs He].
  pose proof (record_filler_spec a k abn [] (take (length l) dst) (drop (length l) dst) ws
    (drop (length ws) buf) Hk Habn) as R.
  assert (Htk : length (take (length l) dst) = length l) by (rewrite length_take; lia).
  simpl in R. rewrite take_drop, Htk in R.
  eexists _, _, last', (bytes k ws ++ drop (length l) dst). split; [exact E|].
  rewrite (Z.mul_comm 4), Z.div_mul by lia. split; [apply R; [|done]|].
  - rewrite Hlen. by apply frames_words.
  - rewrite take_app_length', drop_app_length' by done. split; [done|]. split; [|done].
    intros ->. apply silence_samples; auto.
Qed.

Lemma sound_roundtrip_witness :
  exists dst', record_filler (Audio 44100 44100 16 1 2 (Some F1x16)) 0 (replicate 8 0) 0 6
    [65535; 65535; 5; 5; 4294934528; 4294934528; 7] = Some (6, dst', 0) /\
    take 6 dst' = [255; 255; 5; 0; 0; 128].
Proof.
  destruct (sound_roundtrip (Audio 44100 44100 16 1 2 (Some F1x16)) F1x16 [255; 255; 5; 0; 0; 128]
    (replicate 7 7) (0, 0) (replicate 8 0) 0) as (cnt & buf' & last' & dst' & E1 & E2 & _ & _ & H & _).
  - unfold audio_wf. simpl. repeat split; auto; lia.
  - reflexivity.
  - discriminate.
  - repeat constructor; unfold byte; lia.
  - exists 3%nat. reflexivity.
  - simpl. lia.
  - simpl. lia.
  - lia.
  - exists dst'. vm_compute in E1. injection E1 as <- <- <-. vm_compute in E2 |- *. rewrite E2. split; [done|].
    by apply H.
Defined.

(** ** Room in a fragment *)

(** Bytes of the user that [jz_audio_write] converts into one fragment. *)
Definition copy_count (a : audio) (fragsize : Z) : Z :=
  if jz_audio_channels a =? 2 then Z.quot fragsize (jz_audio_b a)
  else if jz_audio_channels a =? 1 then Z.quot fragsize 4
  else 0.

Lemma replay_1x8_overrun fuel : forall s sp count cnt dp buf last,
  0 <= dp -> 0 < count -> Z.of_nat (length buf) < dp + 2 * count ->
  replay_1x8_loop fuel s sp count cnt dp buf last = None.
Proof.
  induction fuel as [|fuel IH]; intros s sp count cnt dp buf last Hdp Hc Hlen; simpl;
    rewrite (proj2 (Z.ltb_lt _ _)) by lia; [done|].
  destruct (rd s sp) as [x|]; simpl; [|done].
  destruct (wr buf dp _) as [b1|] eqn:E1; simpl; [|done]. pose proof (wr_length _ _ _ _ E1) as L1.
  destruct (wr b1 (dp + 1) _) as [b2|] eqn:E2; simpl; [|done]. pose proof (wr_length _ _ _ _ E2) as L2.
  assert (dp + 1 < Z.of_nat (length b1)).
  { unfold wr in E2. destruct (_ && _) eqn:E; [|done]. bool_lia. }
  apply IH; lia.
Qed.

(** In quarters of the fragment. *)
Lemma copy_count_of a k m :
  audio_wf a -> fill a = Some k -> 0 <= m ->
  copy_count a (16 * m) = match k with F2x16 => 8 * m | _ => 4 * m end.
Proof.
  intros (Hf & Hc & _ & Hfl & Hb) Hk Hp. rewrite Hk in *. unfold copy_count. rewrite Hb.
  assert (Hq : Z.quot (16 * m) 4 = 4 * m /\ Z.quot (16 * m) 2 = 8 * m).
  { rewrite !Z.quot_div_nonneg by lia. split; symmetry; apply (Z.div_unique _ _ _ 0); lia. }
  destruct Hq as [Hq4 Hq2].
  destruct Hf as [Hf|[Hf|Hf]]; rewrite Hf in Hfl; destruct Hc as [Hc|[Hc|Hc]]; rewrite Hc in *;
    try discriminate Hfl; injection Hfl as ->; simpl; rewrite ?Hq4, ?Hq2; done.
Qed.

(** A full fragment of a well-formed format: the words take no more than the
    fragment, except for 8-bit mono samples, which take two of them. *)
Lemma fragment_words a k m :
  audio_wf a -> fill a = Some k -> 0 <= m ->
  4 * words_for k (copy_count a (16 * m)) = (if decide (k = F1x8) then 2 else 1) * (16 * m).
Proof.
  intros Hwf Hk Hm. rewrite (copy_count_of a k m Hwf Hk Hm).
  destruct k; cbn [words_for]; destruct (decide _); try done; try lia.
  rewrite <- (Z.div_unique (8 * m) 2 (4 * m) 0); lia.
Qed.

Lemma fragment_whole a k m n :
  audio_wf a -> fill a = Some k -> 0 <= m -> Z.of_nat n = copy_count a (16 * m) -> whole k n.
Proof.
  intros Hwf Hk Hm. rewrite (copy_count_of a k m Hwf Hk Hm).
  destruct k; try done; simpl; intros Hn; [exists (Z.to_nat (2 * m))|exists (Z.to_nat (4 * m))]; lia.
Qed.

(** As long as no rate has been set, every zero sample counts as a long silence,
    and one among the first eleven is marked before the start of the buffer. *)
Definition early_silence (a : audio) (k : filler) (shift : Z) (l : list Z) : Prop :=
  k = F2x16 /\ jz_audio_rate a = 0 /\ 0 ∈ take 11 (map (fun d => Z.shiftr d shift) (shorts l)).

Lemma keep_awake_unset l1 mute dp buf :
  0 <= mute -> 0 <= dp <= Z.of_nat (length buf) ->
  match keep_awake 0 l1 mute dp buf with
  | Some (mute', buf') => (l1 = 0 -> 11 <= dp) /\ mute' = 0 /\ length buf' = length buf
  | None => l1 = 0 /\ dp < 11
  end.
Proof.
  intros Hm Hd. unfold keep_awake. destruct (Z.eqb_spec l1 0) as [->|]; [|done].
  rewrite (proj2 (Z.leb_le _ _)) by lia.
  destruct (wr buf (dp - 10) 1) as [b1|] eqn:E1; cbn [mbind option_bind]; [|split; [done|]; apply wr_None in E1; lia].
  apply wr_length in E1 as L1.
  destruct (wr b1 (dp - 11) 1) as [b2|] eqn:E2; cbn [mbind option_bind]; [|split; [done|]; apply wr_None in E2; lia].
  pose proof (wr_length _ _ _ _ E2). split; [intros _|split; [done|congruence]].
  unfold wr in E2. destruct (_ && _) eqn:E; [bool_lia|done].
Qed.

(** Without a rate, the loop for 16-bit stereo stays inside of the buffer unless
    there is an early zero. *)
Lemma replay_2x16_unset shift c bs : Nat.Even (length bs) ->
  forall a buf sp dp n cnt mute t1 t2 fuel,
  sp = Z.of_nat (length a) -> n = Z.of_nat (length bs) -> (length bs <= fuel)%nat -> 0 <= mute -> 0 <= dp ->
  2 * dp + n <= 2 * Z.of_nat (length buf) ->
  match replay_2x16_loop fuel 0 shift (a ++ bs ++ c) sp n cnt dp mute t1 t2 buf with
  | Some (cnt', buf', _) => 0 ∉ take (Z.to_nat (11 - dp)) (map (fun d => Z.shiftr d shift) (shorts bs)) /\
      cnt' = cnt + n /\ length buf' = length buf
  | None => 0 ∈ take (Z.to_nat (11 - dp)) (map (fun d => Z.shiftr d shift) (shorts bs))
  end.
Proof.
  revert bs. refine (pair_ind _ _ _).
  - intros a buf sp dp n cnt mute t1 t2 fuel Hsp -> Hf Hm Hdp Hb. destruct fuel; simpl;
      rewrite take_nil; (split; [set_solver|by rewrite Z.add_0_r]).
  - intros lo hi bs IH a buf sp dp n cnt mute t1 t2 fuel Hsp -> Hf Hm Hdp Hb.
    destruct fuel as [|fuel]; simpl in Hf; [lia|]. cbn [length] in Hb.
    cbn [replay_2x16_loop length]. rewrite (proj2 (Z.ltb_lt _ _)) by lia. cbn [app].
    rewrite (rd_short_app a) by done. cbn [mbind option_bind shorts map].
    set (w := Z.shiftr (s16 (lo + 256 * hi)) shift).
    pose proof (keep_awake_unset w mute dp buf Hm ltac:(lia)) as Hk.
    destruct (keep_awake 0 w mute dp buf) as [[mute' buf']|]; cbn [mbind option_bind].
    2: { destruct Hk as [-> Hd]. replace (Z.to_nat (11 - dp)) with (S (Z.to_nat (10 - dp))) by lia. by left. }
    destruct Hk as (Hw & -> & Hlen). destruct (wr buf' dp (u32 w)) as [b2|] eqn:E;
      [|apply wr_None in E; lia]. apply wr_length in E. cbn [mbind option_bind].
    rewrite (snoc_cons a), (snoc_cons (a ++ _)).
    specialize (IH ((a ++ [lo]) ++ [hi]) b2 (sp + 2) (dp + 1) (Z.of_nat (length (lo :: hi :: bs)) - 2) (cnt + 2) 0 t2 w fuel).
    destruct (replay_2x16_loop _ _ _ _ _ _ _ _ _ _ _ _) as [[[cnt' buf2] last]|].
    + destruct IH as (Hin & -> & Hl2); [len|len|lia|lia|lia|len|]. split; [|split; [len|congruence]].
      destruct (Z.lt_ge_cases dp 11) as [Hd|Hd].
      * replace (Z.to_nat (11 - dp)) with (S (Z.to_nat (11 - (dp + 1)))) by lia. cbn [take].
        rewrite not_elem_of_cons. split; [|done]. intros H0. specialize (Hw (eq_sym H0)). lia.
      * replace (Z.to_nat (11 - dp)) with 0%nat by lia. cbn [take]. set_solver.
    + assert (Hin : 0 ∈ take (Z.to_nat (11 - (dp + 1))) (map (fun d => Z.shiftr d shift) (shorts bs))).
      { apply IH; [len|len|lia|lia|lia|len]. }
      destruct (Z.lt_ge_cases dp 11) as [Hd|Hd].
      * replace (Z.to_nat (11 - dp)) with (S (Z.to_nat (11 - (dp + 1)))) by lia. by right.
      * replace (Z.to_nat (11 - (dp + 1))) with 0%nat in Hin by lia. cbn [take] in Hin. set_solver.
Qed.

Lemma fragment_bounds_unset a shift p l c buf last m :
  audio_wf a -> fill a = Some F2x16 -> jz_audio_rate a = 0 -> whole F2x16 (length l) ->
  Z.of_nat (length l) = 8 * m -> 0 < 16 * m <= 4 * Z.of_nat (length buf) -> 16 * m < 2 ^ 30 ->
  match replay_filler a shift (p ++ l ++ c) (Z.of_nat (length p)) (Z.of_nat (length l)) buf last with
  | Some (cnt, buf', _) => F2x16 <> F1x8 /\ ~ early_silence a F2x16 shift l /\ cnt = 16 * m /\ length buf' = length buf
  | None => F2x16 = F1x8 \/ early_silence a F2x16 shift l
  end.
Proof.
  intros (_ & _ & _ & _ & Hb) Hk H0 Hw Hl Hbuf Hlt. rewrite Hk in Hb.
  unfold replay_filler. rewrite Hk, Hb, H0. unfold replay_fill_2x16_s. change (Z.quot 0 20) with 0.
  pose proof (replay_2x16_unset shift c l Hw p buf (Z.of_nat (length p)) 0 (Z.of_nat (length l)) 0 0 0 0
    (Z.to_nat (Z.of_nat (length l))) eq_refl eq_refl ltac:(lia) ltac:(lia) ltac:(lia) ltac:(lia)) as H.
  destruct (replay_2x16_loop _ _ _ _ _ _ _ _ _ _ _ _) as [[[cnt' buf2] la]|]; cbn [mbind option_bind].
  - destruct H as (Hin & -> & Hlen). split; [done|]. split; [by intros (_ & _ & ?)|]. split; [|done].
    simpl. unfold u32. rewrite Z.mod_small; lia.
  - right. done.
Qed.

(** C14: exactly when playing stays inside the DMA buffers.  For a well-formed
    format, a whole fragment of user bytes and a buffer of at least the fragment's
    size and less than twice of it, as the pages of a fragment are, the filler
    succeeds and reports a fragment's worth of data, with two exceptions: 8-bit mono
    samples are written past the end of the buffer; and 16-bit stereo samples with
    a zero, after the shift for the volume, among the first eleven are written before
    its start as long as no rate has been set. *)
Theorem fragment_bounds a k shift p l c buf last m :
  audio_wf a -> fill a = Some k -> 0 < m ->
  Z.of_nat (length l) = copy_count a (16 * m) ->
  16 * m <= 4 * Z.of_nat (length buf) < 32 * m -> 16 * m < 2 ^ 30 ->
  match replay_filler a shift (p ++ l ++ c) (Z.of_nat (length p)) (copy_count a (16 * m)) buf last with
  | Some (cnt, buf', _) => k <> F1x8 /\ ~ early_silence a k shift l /\ cnt = 16 * m /\ length buf' = length buf
  | None => k = F1x8 \/ early_silence a k shift l
  end.
Proof.
  intros Hwf Hk Hp Hl Hbuf Hlt. pose proof (fragment_words a k m Hwf Hk ltac:(lia)) as Hw.
  pose proof (fragment_whole a k m (length l) Hwf Hk ltac:(lia) Hl) as Hwh.
  pose proof (copy_count_of a k m Hwf Hk ltac:(lia)) as Hcc.
  rewrite <- Hl in *. destruct (decide (k = F1x8)) as [->|Hne].
  - unfold replay_filler. rewrite Hk. simpl. unfold replay_fill_1x8_u.
    rewrite replay_1x8_overrun by lia. by left.
  - destruct (decide (k = F2x16 /\ jz_audio_rate a = 0)) as [[-> H0]|Hset].
    { apply fragment_bounds_unset; try done. lia. }
    assert (Hr : rate_set a k). { intros ->. destruct Hwf as (_ & _ & [?|?] & _); [by destruct Hset|lia]. }
    destruct (replay_filler_spec a k shift p l c buf last Hwf Hk Hr Hwh) as (ws & last' & Hc & -> & _); [lia|].
    pose proof (length_close _ _ _ Hc) as Hlen. pose proof (length_words k shift l Hwh).
    split; [done|]. split; [intros (-> & H0 & _); by apply Hset|]. split; [lia|]. rewrite length_app, length_drop. lia.
Qed.

Lemma fragment_bounds_witness :
  replay_filler (Audio 8000 8000 8 1 4 (Some F1x8)) 0 [1; 2; 3; 4] 0 4 [0; 0; 0; 0] (0, 0) = None.
Proof.
  pose proof (fragment_bounds (Audio 8000 8000 8 1 4 (Some F1x8)) F1x8 0 [] [1; 2; 3; 4] [] [0; 0; 0; 0] (0, 0) 1) as H.
  change (copy_count (Audio 8000 8000 8 1 4 (Some F1x8)) (16 * 1)) with 4 in H. simpl app in H.
  destruct (replay_filler _ _ _ _ _ _ _) as [[[cnt buf'] la]|]; [|reflexivity].
  destruct H as [H _]; [unfold audio_wf; simpl; repeat split; auto; lia|reflexivity|lia|reflexivity|simpl; lia|lia|].
  by destruct H.
Defined.

(** A program that sets 16 bits and stereo, but no rate, and plays silence: the
    filler writes before the buffer. *)
Example silence_without_rate :
  let a := foldl set_audio audio_init [Set_format AFMT_S16_LE; Set_channels 2] in
  fill a = Some F2x16 /\ replay_filler a 0 (replicate 80 0) 0 80 (replicate 40 0) (0, 0) = None.
Proof. split; reflexivity. Qed.
