(* ===== verification/I2sCodec.v ===== *)
(** * The internal codec and the mixer (sound/oss/jzcodec.c, jz_i2s.c)

    The codec's two control registers and the registers of the sound controller
    that its driver sets, the volume table, and the mixer device.  Volume is a
    right shift of the 16-bit samples ([codec_volue_shift]); the headphone
    amplifier is left at its maximum.  The hooks that jzcodec.c leaves null
    ([init_codec_pin], [set_codec_some_func], [clear_codec_record],
    [clear_codec_replay], [set_replay_hp_or_speaker], [set_codec_gpio_pin]) are
    not called. *)

From S2P Require Import Prelude.
From stdpp Require Import strings.

#[local] Open Scope Z_scope.

#[local] Arguments Z.eqb : simpl never.
#[local] Arguments Z.ltb : simpl never.
#[local] Arguments Z.leb : simpl never.
#[local] Arguments Z.land : simpl never.
#[local] Arguments Z.lor : simpl never.

Definition USE_NONE : Z := 1.
Definition USE_MIC : Z := 2.
Definition USE_LINEIN : Z := 3.

Definition AIC_FR_LSMP : Z := 2 ^ 6.
Definition AIC_FR_ICDC : Z := 2 ^ 5.
Definition AIC_FR_AUSEL : Z := 2 ^ 4.
Definition AIC_FR_RFTH_MASK : Z := Z.shiftl 15 12.
Definition AIC_FR_TFTH_MASK : Z := Z.shiftl 15 8.
Definition AIC_FR_RST : Z := 2 ^ 3.
Definition AIC_FR_BCKD : Z := 2 ^ 2.
Definition AIC_FR_SYNCD : Z := 2 ^ 1.
Definition AIC_FR_ENB : Z := 2 ^ 0.
Definition AIC_CR_OSS_MASK : Z := Z.shiftl 7 19.
Definition AIC_CR_OSS_16BIT : Z := Z.shiftl 1 19.
Definition AIC_CR_ISS_MASK : Z := Z.shiftl 7 16.
Definition AIC_CR_ISS_16BIT : Z := Z.shiftl 1 16.
Definition AIC_CR_RDMS : Z := 2 ^ 15.
Definition AIC_CR_TDMS : Z := 2 ^ 14.
Definition AIC_CR_ENLBF : Z := 2 ^ 2.
Definition AIC_CR_ERPL : Z := 2 ^ 1.
Definition AIC_CR_EREC : Z := 2 ^ 0.

(** The registers REG_ICDC_CDCCR1 and 2, REG_AIC_CR, REG_AIC_FR and
    REG_AIC_I2SCR, the shift in force, [abnormal_data_count], the volume table
    and the registers saved on suspend. *)
Record codec := Codec {
  CDCCR1 : Z; CDCCR2 : Z; AIC_CR : Z; AIC_FR : Z; AIC_I2SCR : Z;
  codec_volue_shift : Z; abnormal_data_count : Z; hpvol_shift_table : list (Z * Z); jzcodec_reg : Z * Z }.

Definition set_CDCCR1 (v : Z) (c : codec) : codec :=
  Codec v (CDCCR2 c) (AIC_CR c) (AIC_FR c) (AIC_I2SCR c) (codec_volue_shift c) (abnormal_data_count c)
        (hpvol_shift_table c) (jzcodec_reg c).
Definition set_CDCCR2 (v : Z) (c : codec) : codec :=
  Codec (CDCCR1 c) v (AIC_CR c) (AIC_FR c) (AIC_I2SCR c) (codec_volue_shift c) (abnormal_data_count c)
        (hpvol_shift_table c) (jzcodec_reg c).
Definition set_AIC_CR (v : Z) (c : codec) : codec :=
  Codec (CDCCR1 c) (CDCCR2 c) v (AIC_FR c) (AIC_I2SCR c) (codec_volue_shift c) (abnormal_data_count c)
        (hpvol_shift_table c) (jzcodec_reg c).
Definition set_AIC_FR (v : Z) (c : codec) : codec :=
  Codec (CDCCR1 c) (CDCCR2 c) (AIC_CR c) v (AIC_I2SCR c) (codec_volue_shift c) (abnormal_data_count c)
        (hpvol_shift_table c) (jzcodec_reg c).
Definition set_AIC_I2SCR (v : Z) (c : codec) : codec :=
  Codec (CDCCR1 c) (CDCCR2 c) (AIC_CR c) (AIC_FR c) v (codec_volue_shift c) (abnormal_data_count c)
        (hpvol_shift_table c) (jzcodec_reg c).
Definition set_shift (v : Z) (c : codec) : codec :=
  Codec (CDCCR1 c) (CDCCR2 c) (AIC_CR c) (AIC_FR c) (AIC_I2SCR c) v (abnormal_data_count c)
        (hpvol_shift_table c) (jzcodec_reg c).
Definition set_abnormal (v : Z) (c : codec) : codec :=
  Codec (CDCCR1 c) (CDCCR2 c) (AIC_CR c) (AIC_FR c) (AIC_I2SCR c) (codec_volue_shift c) v
        (hpvol_shift_table c) (jzcodec_reg c).
Definition set_table (v : list (Z * Z)) (c : codec) : codec :=
  Codec (CDCCR1 c) (CDCCR2 c) (AIC_CR c) (AIC_FR c) (AIC_I2SCR c) (codec_volue_shift c) (abnormal_data_count c)
        v (jzcodec_reg c).
Definition set_saved (v : Z * Z) (c : codec) : codec :=
  Codec (CDCCR1 c) (CDCCR2 c) (AIC_CR c) (AIC_FR c) (AIC_I2SCR c) (codec_volue_shift c) (abnormal_data_count c)
        (hpvol_shift_table c) v.

(** [r |= m] and [r &= ~m]. *)
Definition on (x m : Z) : Z := Z.lor x m.
Definition off (x m : Z) : Z := Z.land x (Z.lxor (2 ^ 32 - 1) m).

(** ** The sound controller's switches (ops.h) *)

Definition i2s_disable (c : codec) : codec := set_AIC_FR (off (AIC_FR c) AIC_FR_ENB) c.
Definition i2s_enable (c : codec) : codec :=
  set_AIC_FR (on (on (AIC_FR c) AIC_FR_ENB) AIC_FR_AUSEL) c.
Definition i2s_as_slave (c : codec) : codec := set_AIC_FR (off (AIC_FR c) (Z.lor AIC_FR_BCKD AIC_FR_SYNCD)) c.
Definition i2s_internal_codec (c : codec) : codec := set_AIC_FR (on (AIC_FR c) AIC_FR_ICDC) c.
Definition i2s_select_i2s (c : codec) : codec := set_AIC_I2SCR (off (AIC_I2SCR c) 1) c.
Definition aic_select_i2s (c : codec) : codec := set_AIC_FR (on (AIC_FR c) AIC_FR_AUSEL) c.
Definition i2s_set_oss_sample_size (c : codec) : codec :=
  set_AIC_CR (on (off (AIC_CR c) AIC_CR_OSS_MASK) AIC_CR_OSS_16BIT) c.
Definition i2s_set_iss_sample_size (c : codec) : codec :=
  set_AIC_CR (on (off (AIC_CR c) AIC_CR_ISS_MASK) AIC_CR_ISS_16BIT) c.
Definition i2s_enable_transmit_dma (c : codec) : codec := set_AIC_CR (on (AIC_CR c) AIC_CR_TDMS) c.
Definition i2s_disable_transmit_dma (c : codec) : codec := set_AIC_CR (off (AIC_CR c) AIC_CR_TDMS) c.
Definition i2s_enable_receive_dma (c : codec) : codec := set_AIC_CR (on (AIC_CR c) AIC_CR_RDMS) c.
Definition i2s_disable_receive_dma (c : codec) : codec := set_AIC_CR (off (AIC_CR c) AIC_CR_RDMS) c.
Definition i2s_enable_replay (c : codec) : codec := set_AIC_CR (on (AIC_CR c) AIC_CR_ERPL) c.
Definition i2s_disable_replay (c : codec) : codec := set_AIC_CR (off (AIC_CR c) AIC_CR_ERPL) c.
Definition i2s_enable_record (c : codec) : codec := set_AIC_CR (on (AIC_CR c) AIC_CR_EREC) c.
Definition i2s_disable_record (c : codec) : codec := set_AIC_CR (off (AIC_CR c) AIC_CR_EREC) c.

Definition i2s_reset (c : codec) : codec := set_AIC_FR (on (AIC_FR c) AIC_FR_RST) c.
Definition i2s_disable_loopback (c : codec) : codec := set_AIC_CR (off (AIC_CR c) AIC_CR_ENLBF) c.
Definition i2s_set_transmit_trigger (n : Z) (c : codec) : codec :=
  set_AIC_FR (on (off (AIC_FR c) AIC_FR_TFTH_MASK) (Z.shiftl n 8)) c.
Definition i2s_set_receive_trigger (n : Z) (c : codec) : codec :=
  set_AIC_FR (on (off (AIC_FR c) AIC_FR_RFTH_MASK) (Z.shiftl n 12)) c.

(** ** jzcodec.c

    Delays have no effect on the state; of several values written to a register
    in a row, the last stays. *)

Definition set_jzcodec_mode (c : codec) : codec :=
  let c := aic_select_i2s (i2s_select_i2s (i2s_as_slave (i2s_internal_codec c))) in
  set_CDCCR1 0x001b2302 (set_CDCCR1 0x001b2303 c).

Definition each_time_init_jzcodec (c : codec) : codec :=
  i2s_set_iss_sample_size (i2s_set_oss_sample_size (i2s_as_slave (i2s_disable c))).

Definition set_jzcodec_startup_param (c : codec) : codec :=
  set_CDCCR1 0x17026300 (set_CDCCR1 0x00033300 (set_CDCCR1 0x001b2300 c)).

(** Rows of the table from [n] on. *)
Fixpoint volume_rows (n : nat) (hpvol_step sample_shift : Z) : list (Z * Z) :=
  match n with
  | O => []
  | S n =>
      (hpvol_step, sample_shift) ::
      (if hpvol_step - 1 <=? 0 then volume_rows n 3 (sample_shift + 1)
       else volume_rows n (hpvol_step - 1) sample_shift)
  end.

Definition set_jzcodec_volume_table (c : codec) : codec :=
  set_table (volume_rows 72 3 0) (set_shift 0 c).

Definition HP_turn_on (c : codec) : codec :=
  let c := set_CDCCR1 0x03002000 (set_CDCCR1 0x03006000 (set_CDCCR1 0x00037302 c)) in
  set_CDCCR2 (Z.lor (Z.land (CDCCR2 c) 0x0000ff00) 0x001f0033) c.

Definition HP_turn_off (c : codec) : codec := set_CDCCR1 0x00033300 c.

Definition in_codec_app1 (c : codec) : codec := HP_turn_on c.
Definition in_codec_app12 (c : codec) : codec := set_CDCCR1 0x14024300 c.

Definition set_jzcodec_replay (c : codec) : codec := in_codec_app1 c.

Definition set_jzcodec_record (mode : Z) (c : codec) : codec :=
  if (mode =? USE_NONE) || (mode =? USE_MIC) then set_abnormal 0 (in_codec_app12 c)
  else if mode =? USE_LINEIN then set_CDCCR1 0x27022000 c
  else c.

Definition set_jzcodec_replay_record (mode : Z) (c : codec) : codec :=
  let c := set_CDCCR1 0x03006000 (set_CDCCR1 0x00037302 c) in
  let c := if (mode =? USE_NONE) || (mode =? USE_MIC) then set_CDCCR1 0x17022000 c
           else if mode =? USE_LINEIN then set_CDCCR1 0x27022000 c else c in
  set_CDCCR2 (Z.lor (Z.land (CDCCR2 c) 0x0000ff00) 0x00170030) c.

Definition turn_on_jzcodec (c : codec) : codec := HP_turn_on c.
Definition turn_off_jzcodec (c : codec) : codec := HP_turn_off c.

Definition set_jzcodec_direct_mode (c : codec) : codec :=
  set_CDCCR2 (Z.lor (Z.land 0 0x0000ff00) 0x001f0033) (set_CDCCR1 0x14000000 c).

Definition clear_jzcodec_direct_mode (c : codec) : codec := HP_turn_off c.

(** The codec's number for a rate; zero, that is 8000, for any other. *)
Definition speed_code (rate : Z) : Z :=
  if rate =? 8000 then 0 else if rate =? 11025 then 1 else if rate =? 12000 then 2
  else if rate =? 16000 then 3 else if rate =? 22050 then 4 else if rate =? 24000 then 5
  else if rate =? 32000 then 6 else if rate =? 44100 then 7 else if rate =? 48000 then 8 else 0.

Definition set_jzcodec_speed (rate : Z) (c : codec) : codec :=
  let codec_speed := Z.lor (CDCCR2 c) 0x00000f00 in
  let speed := Z.lor (Z.shiftl (speed_code rate) 8) 0xfffff0ff in
  set_CDCCR2 (Z.land codec_speed speed) c.

Definition reset_jzcodec (c : codec) : codec :=
  let c := set_CDCCR1 (Z.lor (CDCCR1 c) 1) c in
  set_CDCCR1 (Z.land (CDCCR1 c) 0xfffffffe) c.

Definition set_jzcodec_bass (val : Z) (c : codec) : codec :=
  let bass_gain := if val <? 25 then 0 else 0 in
  let bass_gain := if (25 <=? val) && (val <? 50) then 1 else bass_gain in
  let bass_gain := if (50 <=? val) && (val <? 75) then 2 else bass_gain in
  let bass_gain := if (75 <=? val) && (val <=? 100) then 3 else bass_gain in
  set_CDCCR2 (Z.lor (off (CDCCR2 c) (Z.shiftl 3 4)) (Z.shiftl bass_gain 4)) c.

(** [for (index = 0; index <= 100; index += vol_step) if (val <= index) break];
    each round raises [index] by at least one, so 101 rounds are enough. *)
Fixpoint volume_index (fuel : nat) (vol_step val index : Z) : option Z :=
  match fuel with
  | O => None
  | S fuel =>
      if index <=? 100 then
        if val <=? index then Some index else volume_index fuel vol_step val (index + vol_step)
      else Some index
  end.

Definition shift_max (sample_oss : Z) : Z :=
  if sample_oss =? 0 then 4 else if sample_oss =? 1 then 10 else if sample_oss =? 2 then 12
  else if sample_oss =? 3 then 15 else if sample_oss =? 4 then 19 else 0.

(** The index into the table. *)
Definition table_index (sample_oss val : Z) : option Z :=
  let vol_scale := 3 * (shift_max sample_oss + 1) in
  let vol_step := Z.quot 100 vol_scale in
  index ← volume_index 102 vol_step val 0;
  let index := if index =? 0 then vol_step else index in
  let index := Z.quot index vol_step in
  let index := if vol_scale <? index then vol_scale else index in
  Some (vol_scale - index).

Definition set_jzcodec_volume (val : Z) (c : codec) : option codec :=
  let sample_oss := Z.shiftr (Z.land (AIC_CR c) 0x00380000) 19 in
  index ← table_index sample_oss val;
  '(_, shift) ← rd (hpvol_shift_table c) index;
  Some (set_CDCCR2 (Z.lor (off (CDCCR2 c) 3) 3) (set_shift shift c)).

Definition set_jzcodec_mic (val : Z) (c : codec) : codec :=
  let mic_gain := Z.quot (31 * val) 100 in
  let c := set_CDCCR2 (Z.lor (CDCCR2 c) (Z.shiftl 3 4)) c in
  set_CDCCR2 (Z.lor (off (CDCCR2 c) (Z.shiftl 31 16)) (Z.shiftl mic_gain 16)) c.

Definition set_jzcodec_line (val : Z) (c : codec) : codec :=
  let line_gain := Z.quot (31 * val) 100 in
  set_CDCCR2 (Z.lor (off (CDCCR2 c) (Z.shiftl 31 16)) (Z.shiftl line_gain 16)) c.

Definition resume_jzcodec (c : codec) : codec :=
  let c := set_CDCCR1 0x00033300 (set_CDCCR1 0x00033302 (set_CDCCR1 0x001f2102 (set_CDCCR2 0x00170800 c))) in
  set_CDCCR2 (jzcodec_reg c).2 (set_CDCCR1 (jzcodec_reg c).1 c).

Definition suspend_jzcodec (c : codec) : codec :=
  set_CDCCR1 0x001b2102 (set_CDCCR1 0x001b2302 (set_saved (CDCCR1 c, CDCCR2 c) c)).

Definition cleanup_jzcodec (c : codec) : codec := set_CDCCR1 0x001b2302 c.

(** ** The mixer device *)

Definition EFAULT : Z := 14.
Definition ENOSYS : Z := 89.

(** [jz_audio_volume], [codec_bass_gain], [codec_mic_gain],
    [use_mic_line_flag], [audio_mix_modcnt], and the identifiers in [info] and
    [old_info], which are zero at boot. *)
Record mixer := Mixer {
  jz_audio_volume : Z; codec_bass_gain : Z; codec_mic_gain : Z; use_mic_line_flag : Z;
  audio_mix_modcnt : Z; info_id : string; old_info_id : string; chip : codec }.

Definition with_chip (c : codec) (m : mixer) : mixer :=
  Mixer (jz_audio_volume m) (codec_bass_gain m) (codec_mic_gain m) (use_mic_line_flag m)
        (audio_mix_modcnt m) (info_id m) (old_info_id m) c.

Definition count_change (m : mixer) : mixer :=
  Mixer (jz_audio_volume m) (codec_bass_gain m) (codec_mic_gain m) (use_mic_line_flag m)
        (s32 (audio_mix_modcnt m + 1)) (info_id m) (old_info_id m) (chip m).

Definition jzcodec_mixer_old_info_id_name (m : mixer) : mixer :=
  Mixer (jz_audio_volume m) (codec_bass_gain m) (codec_mic_gain m) (use_mic_line_flag m)
        (audio_mix_modcnt m) "JZCODEC" (old_info_id m) (chip m).

Definition jzcodec_mixer_info_id_name (m : mixer) : mixer :=
  Mixer (jz_audio_volume m) (codec_bass_gain m) (codec_mic_gain m) (use_mic_line_flag m)
        (audio_mix_modcnt m) (info_id m) "JZCODEC" (chip m).

(** The commands [i2s_mixer_ioctl] knows, and any other. *)
Inductive mixer_cmd :=
  | MIXER_INFO | OLD_MIXER_INFO | READ_STEREODEVS | READ_CAPS | READ_DEVMASK | READ_RECMASK | READ_RECSRC
  | WRITE_SPEAKER | WRITE_BASS | READ_BASS | WRITE_VOLUME | READ_VOLUME | WRITE_MIC | READ_MIC
  | WRITE_LINE | READ_LINE | OTHER.

(** What a command gives to the program. *)
Inductive answer := Nothing | Number (v : Z) | Info (id : string) (modify_counter : Z) | Old_info (id : string).

Definition clamp (val : Z) : Z :=
  let val := Z.land val 0xff in
  let val := if val <? 0 then 0 else val in
  if 100 <? val then 100 else val.

(** Both channels report the same gain. *)
Definition both (val : Z) : Z := Z.lor val (Z.shiftl val 8).

(** [arg] is what [get_user] reads, [None] for an invalid address; answers
    assume a valid one.  The result is undefined outside of the volume table. *)
Definition i2s_mixer_ioctl (m : mixer) (cmd : mixer_cmd) (arg : option Z) : option (Z * answer * mixer) :=
  let reads (k : Z -> option (Z * answer * mixer)) :=
    match arg with None => Some (- EFAULT, Nothing, m) | Some v => k (clamp v) end in
  match cmd with
  | MIXER_INFO =>
      let m := jzcodec_mixer_info_id_name m in
      Some (0, Info (info_id m) (audio_mix_modcnt m), m)
  | OLD_MIXER_INFO =>
      let m := jzcodec_mixer_old_info_id_name m in
      Some (0, Old_info (old_info_id m), m)
  | READ_STEREODEVS => Some (0, Number 0, m)
  | READ_CAPS => Some (0, Number 1, m)
  | READ_DEVMASK | READ_RECMASK | READ_RECSRC => Some (0, Nothing, count_change m)
  | WRITE_SPEAKER => reads (fun v =>
      let c := if v =? 100 then set_jzcodec_direct_mode (chip m)
               else if v =? 0 then clear_jzcodec_direct_mode (chip m) else chip m in
      Some (0, Nothing, count_change (with_chip c m)))
  | WRITE_BASS => reads (fun v =>
      Some (0, Nothing, Mixer (jz_audio_volume m) v (codec_mic_gain m) (use_mic_line_flag m)
                              (audio_mix_modcnt m) (info_id m) (old_info_id m) (set_jzcodec_bass v (chip m))))
  | READ_BASS => Some (0, Number (both (codec_bass_gain m)), m)
  | WRITE_VOLUME => reads (fun v =>
      c ← set_jzcodec_volume v (chip m);
      Some (0, Nothing, Mixer v (codec_bass_gain m) (codec_mic_gain m) (use_mic_line_flag m)
                              (audio_mix_modcnt m) (info_id m) (old_info_id m) c))
  | READ_VOLUME => Some (0, Number (both (jz_audio_volume m)), m)
  | WRITE_MIC => reads (fun v =>
      Some (0, Nothing, Mixer (jz_audio_volume m) (codec_bass_gain m) v USE_MIC
                              (audio_mix_modcnt m) (info_id m) (old_info_id m) (set_jzcodec_mic v (chip m))))
  | READ_MIC => Some (0, Number (both (codec_mic_gain m)), m)
  | WRITE_LINE => reads (fun v =>
      Some (0, Nothing, Mixer (jz_audio_volume m) (codec_bass_gain m) v USE_LINEIN
                              (audio_mix_modcnt m) (info_id m) (old_info_id m) (set_jzcodec_line v (chip m))))
  | READ_LINE => Some (0, Number (both (codec_mic_gain m)), m)
  | OTHER => Some (- ENOSYS, Nothing, m)
  end.

(** ** Volume *)

(** The shift that a volume setting selects at a sample size code. *)
Definition shift_of (oss v : Z) : option Z :=
  i ← table_index oss v; '(_, shift) ← rd (volume_rows 72 3 0) i; Some shift.

Definition step_ok (oss v : Z) : bool :=
  match shift_of oss v, shift_of oss (v + 1) with
  | Some s, Some t => (0 <=? t) && (t <=? s) && (s <=? shift_max oss)
  | _, _ => false
  end.

(** For every sample size code, one step louder is not shifted more, and the
    loudest is not shifted; computed. *)
Lemma shifts_ok :
  forallb (fun oss => forallb (step_ok oss) (seqZ 0 100) && bool_decide (shift_of oss 100 = Some 0))
          (seqZ 0 8) = true.
Proof. vm_compute. reflexivity. Qed.

Lemma shift_step oss v :
  0 <= oss < 8 -> 0 <= v < 100 ->
  exists s t, shift_of oss v = Some s /\ shift_of oss (v + 1) = Some t /\ 0 <= t <= s /\ s <= shift_max oss.
Proof.
  intros Ho Hv. pose proof shifts_ok as H. rewrite forallb_forall in H.
  specialize (H oss (proj1 (list_elem_of_In _ _) (proj2 (elem_of_seqZ 0 8 oss) ltac:(lia)))).
  apply andb_true_iff in H as [H _]. rewrite forallb_forall in H.
  specialize (H v (proj1 (list_elem_of_In _ _) (proj2 (elem_of_seqZ 0 100 v) ltac:(lia)))).
  unfold step_ok in H. destruct (shift_of oss v) as [s|], (shift_of oss (v + 1)) as [t|]; try done.
  exists s, t. repeat split; bool_lia.
Qed.

Lemma shift_loudest oss : 0 <= oss < 8 -> shift_of oss 100 = Some 0.
Proof.
  intros Ho. pose proof shifts_ok as H. rewrite forallb_forall in H.
  specialize (H oss (proj1 (list_elem_of_In _ _) (proj2 (elem_of_seqZ 0 8 oss) ltac:(lia)))).
  apply andb_true_iff in H as [_ H]. by apply bool_decide_eq_true in H.
Qed.

Lemma shift_antitone oss n : forall v,
  0 <= oss < 8 -> 0 <= v -> v + Z.of_nat n <= 100 ->
  exists s t, shift_of oss v = Some s /\ shift_of oss (v + Z.of_nat n) = Some t /\ 0 <= t <= s /\ s <= shift_max oss.
Proof.
  induction n as [|n IH]; intros v Ho Hv Hn.
  - rewrite Z.add_0_r. destruct (Z.lt_ge_cases v 100) as [Hlt|Hge].
    + destruct (shift_step oss v) as (s & t & -> & _ & ? & ?); [done|lia|]. exists s, s. repeat split; lia.
    + replace v with 100 by lia. rewrite shift_loudest by done. exists 0, 0. repeat split; try lia.
      unfold shift_max. zcases.
  - destruct (shift_step oss v) as (s & t & -> & Ht & ? & ?); [done|lia|].
    destruct (IH (v + 1)) as (s' & t' & Hs' & Ht' & ? & ?); [done|lia|lia|].
    rewrite Ht in Hs'. injection Hs' as <-. exists s, t'. replace (v + Z.of_nat (S n)) with (v + 1 + Z.of_nat n) by lia.
    repeat split; try done; lia.
Qed.

Lemma mixer_clamp_range v : 0 <= clamp v <= 100.
Proof.
  unfold clamp. assert (0 <= Z.land v 255) by (apply Z.land_nonneg; lia). zcases.
Qed.

(** A larger right shift is not louder. *)
Lemma shiftr_quieter d s t : 0 <= t <= s -> Z.abs (Z.shiftr d s) <= Z.abs (Z.shiftr d t).
Proof.
  intros Hst. rewrite !Z.shiftr_div_pow2 by lia. replace s with (t + (s - t)) by lia.
  rewrite Z.pow_add_r, <- Z.div_div by (try apply Z.pow_nonzero; try apply Z.pow_pos_nonneg; lia).
  set (q := d / 2 ^ t). assert (0 < 2 ^ (s - t)) by (apply Z.pow_pos_nonneg; lia).
  destruct (Z.lt_ge_cases q 0).
  - assert (q <= q / 2 ^ (s - t)) by (apply Z.div_le_lower_bound; nia).
    assert (q / 2 ^ (s - t) < 0) by (apply Z.div_lt_upper_bound; lia). lia.
  - assert (0 <= q / 2 ^ (s - t)) by (apply Z.div_pos; lia).
    assert (q / 2 ^ (s - t) <= q) by (apply Z.div_le_upper_bound; nia). lia.
Qed.

Lemma oss_range x : 0 <= Z.shiftr (Z.land x 0x00380000) 19 < 8.
Proof.
  assert (H : Z.shiftr (Z.land x 0x00380000) 19 = Z.land (Z.shiftr x 19) (Z.ones 3)).
  { by rewrite Z.shiftr_land. }
  rewrite H, Z.land_ones by lia. by apply Z.mod_pos_bound.
Qed.

Lemma write_volume m v s :
  hpvol_shift_table (chip m) = volume_rows 72 3 0 ->
  shift_of (Z.shiftr (Z.land (AIC_CR (chip m)) 0x00380000) 19) (clamp v) = Some s ->
  exists m', i2s_mixer_ioctl m WRITE_VOLUME (Some v) = Some (0, Nothing, m') /\
    jz_audio_volume m' = clamp v /\ codec_volue_shift (chip m') = s.
Proof.
  intros Ht Hs. unfold i2s_mixer_ioctl, set_jzcodec_volume. rewrite Ht. unfold shift_of in Hs.
  destruct (table_index _ _) as [i|]; [|done]. simpl in Hs |- *.
  destruct (rd _ i) as [[hp sh]|]; [|done]. simpl in Hs |- *. injection Hs as ->. by eexists.
Qed.

(** The mixer's volume.  With the volume table in place, every volume a
    program can write is accepted at every sample size, is what a later read
    reports, and a louder setting never makes a sample smaller; the loudest one
    leaves the samples as they are. *)
Theorem volume_monotone m v1 v2 :
  hpvol_shift_table (chip m) = volume_rows 72 3 0 -> clamp v1 <= clamp v2 ->
  exists m1 m2, i2s_mixer_ioctl m WRITE_VOLUME (Some v1) = Some (0, Nothing, m1) /\
    i2s_mixer_ioctl m WRITE_VOLUME (Some v2) = Some (0, Nothing, m2) /\
    i2s_mixer_ioctl m1 READ_VOLUME None = Some (0, Number (both (clamp v1)), m1) /\
    (forall d, Z.abs (Z.shiftr d (codec_volue_shift (chip m1))) <= Z.abs (Z.shiftr d (codec_volue_shift (chip m2)))) /\
    (clamp v2 = 100 -> codec_volue_shift (chip m2) = 0) /\
    0 <= codec_volue_shift (chip m1) <= 19.
Proof.
  intros Ht Hv. set (oss := Z.shiftr (Z.land (AIC_CR (chip m)) 0x00380000) 19).
  pose proof (oss_range (AIC_CR (chip m))) as Ho. fold oss in Ho.
  pose proof (mixer_clamp_range v1). pose proof (mixer_clamp_range v2).
  destruct (shift_antitone oss (Z.to_nat (clamp v2 - clamp v1)) (clamp v1)) as (s & t & Hs & Hs2 & Hst & Hmax); [done|lia|lia|].
  replace (clamp v1 + Z.of_nat (Z.to_nat (clamp v2 - clamp v1))) with (clamp v2) in Hs2 by lia.
  destruct (write_volume m v1 s Ht Hs) as (m1 & E1 & Hv1 & <-).
  destruct (write_volume m v2 t Ht Hs2) as (m2 & E2 & _ & <-).
  exists m1, m2. split; [done|]. split; [done|]. split; [simpl; by rewrite Hv1|]. split.
  - intros d. by apply shiftr_quieter.
  - split.
    + intros E. rewrite E, shift_loudest in Hs2 by done. by injection Hs2.
    + split; [lia|]. etransitivity; [exact Hmax|]. unfold shift_max. zcases.
Qed.

(** The codec and mixer at boot, once the driver has set the table. *)
Definition boot_mixer : mixer :=
  Mixer 0 0 0 USE_NONE 0 EmptyString EmptyString
    (set_jzcodec_volume_table (each_time_init_jzcodec (set_jzcodec_mode (Codec 0 0 0 0 0 0 0 [] (0, 0))))).

Lemma volume_monotone_witness :
  exists m1 m2, i2s_mixer_ioctl boot_mixer WRITE_VOLUME (Some 20) = Some (0, Nothing, m1) /\
    i2s_mixer_ioctl boot_mixer WRITE_VOLUME (Some 250) = Some (0, Nothing, m2) /\
    codec_volue_shift (chip m1) = 8 /\ codec_volue_shift (chip m2) = 0.
Proof.
  destruct (volume_monotone boot_mixer 20 250) as (m1 & m2 & E1 & E2 & _ & _ & H0 & _).
  - reflexivity.
  - vm_compute. discriminate.
  - exists m1, m2. split; [exact E1|]. split; [exact E2|]. split; [|apply H0; reflexivity].
    vm_compute in E1. injection E1 as <-. reflexivity.
Defined.

(** ** Sampling rate *)

(** Setting the rate writes the codec's four rate bits and nothing else. *)
Lemma speed_bits rate c n :
  0 <= n -> 0 <= CDCCR2 c < 2 ^ 32 ->
  Z.testbit (CDCCR2 (set_jzcodec_speed rate c)) n =
    if (8 <=? n) && (n <? 12) then Z.testbit (speed_code rate) (n - 8) else Z.testbit (CDCCR2 c) n.
Proof.
  intros Hn Hc. unfold set_jzcodec_speed. simpl CDCCR2. rewrite Z.land_spec, !Z.lor_spec, Z.shiftl_spec by done.
  assert (Hcode : 0 <= speed_code rate < 2 ^ 4) by (unfold speed_code; zcases).
  change 0x00000f00 with (Z.shiftl (Z.ones 4) 8).
  change 0xfffff0ff with (Z.lor (Z.shiftl (Z.ones 20) 12) (Z.ones 8)).
  rewrite Z.lor_spec, !Z.shiftl_spec by done.
  destruct (Z.leb_spec 8 n), (Z.ltb_spec n 12); simpl andb.
  - rewrite (Z.ones_spec_low 4), (Z.ones_spec_high 8), (Z.testbit_neg_r _ (n - 12)) by lia.
    by rewrite orb_true_r, orb_false_r.
  - rewrite (Z.ones_spec_high 4), (Z.ones_spec_high 8) by lia. rewrite (testbit_high 4 _ (speed_code rate)) by (done || lia).
    destruct (Z.lt_ge_cases n 32).
    + rewrite Z.ones_spec_low by lia. simpl. by rewrite orb_false_r, andb_true_r.
    + rewrite (testbit_high 32 _ (CDCCR2 c)) by (done || lia). done.
  - rewrite (Z.ones_spec_low 8 n) by lia. rewrite !(Z.testbit_neg_r _ (n - 8)) by lia.
    by rewrite !orb_true_r, andb_true_r, orb_false_r.
  - lia.
Qed.

(** A rate that the codec does not have is played at 8000. *)
Example speed_unsupported : speed_code 37800 = speed_code 8000.
Proof. reflexivity. Qed.

(** [SOUND_MIXER_INFO] names the codec in the structure of the old command: its
    own answer is empty until the old command was used once. *)
Example mixer_info_swapped :
  exists m, i2s_mixer_ioctl boot_mixer MIXER_INFO None = Some (0, Info EmptyString 0, m) /\
    exists m', i2s_mixer_ioctl m OLD_MIXER_INFO None = Some (0, Old_info "JZCODEC", m') /\
    exists m'', i2s_mixer_ioctl m' MIXER_INFO None = Some (0, Info "JZCODEC" 0, m'').
Proof. do 2 (eexists; split; [reflexivity|]). eexists. reflexivity. Qed.
