(* ===== verification/I2sDriver.v ===== *)
(** * The sound driver (sound/oss/jz_i2s.c)

    The driver owns two DMA channels and, for each direction, a set of buffers
    that move between three queues of buffer numbers: empty, full and busy.  A
    program writes samples into empty buffers, which become full; the transfer
    of one full buffer is started at a time, which makes it busy; the interrupt
    at the end of a transfer frees it and starts the next one.  Recording is the
    mirror image.

    The model has the queues as the arrays they are, the DMA controller of
    [Dma], the memory of the buffers and the words that the controller sent to
    the codec.  Interrupts come between any two accesses to shared state, as a
    schedule says.  Caches are coherent, locks of the queues are the atomicity of
    their operations; the code for the DLV codec and power management, which
    the machine's configuration leaves out, is not modelled.  An access outside
    of an array or to a freed buffer, a division by zero and a call through a
    null pointer are undefined ([None]). *)

From S2P Require Import Prelude.
From S2P Require Import Dma.
From S2P Require Import I2sFill.
From S2P Require Import I2sCodec.

#[local] Arguments Z.eqb : simpl never.
#[local] Arguments Z.ltb : simpl never.
#[local] Arguments Z.leb : simpl never.
#[local] Arguments Z.land : simpl never.
#[local] Arguments Z.lor : simpl never.
#[local] Arguments Z.add : simpl never.
#[local] Arguments Z.sub : simpl never.
#[local] Arguments Z.mul : simpl never.
#[local] Arguments Z.of_nat : simpl never.
#[local] Arguments Z.to_nat : simpl never.

Definition EBUSY : Z := 16.
Definition EAGAIN : Z := 11.
Definition PAGE_SIZE : Z := 4096.
Definition PAGE_OFFSET : Z := 0x80000000.
Definition DMA_ID_I2S_TX : Z := 6.
Definition DMA_ID_I2S_RX : Z := 7.
Definition JZCODEC_RW_BUFFER_SIZE : Z := 5.
Definition JZCODEC_RW_BUFFER_TOTAL : Z := 4.
Definition MAXDELAY : Z := 50000.

(** ** Queues of buffer numbers

    The array of a queue that is not allocated is empty. *)

Record buffer_queue := Queue { count : Z; id : list Z }.

(** [for (i; ...; i++) id[i] = id[i + 1]], [n] times. *)
Fixpoint shift_down (n : nat) (i : Z) (l : list Z) : option (list Z) :=
  match n with
  | O => Some l
  | S n => x ← rd l (i + 1); l ← wr l i x; shift_down n (i + 1) l
  end.

Definition get_buffer_id (q : buffer_queue) : option (Z * buffer_queue) :=
  if count q =? 0 then Some (-1, q)
  else
    r ← rd (id q) 0;
    l ← shift_down (Z.to_nat (count q - 1)) 0 (id q);
    Some (r, Queue (count q - 1) l).

Definition put_buffer_id (q : buffer_queue) (x : Z) : option buffer_queue :=
  l ← wr (id q) (count q) x;
  Some (Queue (count q + 1) l).

Definition elements_in_queue (q : buffer_queue) : Z := count q.

(** ** State *)

(** The queues and arrays of one direction: [out_*] or [in_*]. *)
Record stream := Stream {
  empty_queue : buffer_queue; full_queue : buffer_queue; busy_queue : buffer_queue;
  dma_buf : list Z; dma_pbuf : list Z; dma_buf_data_count : list Z }.

Definition set_empty (q : buffer_queue) (t : stream) : stream :=
  Stream q (full_queue t) (busy_queue t) (dma_buf t) (dma_pbuf t) (dma_buf_data_count t).
Definition set_full (q : buffer_queue) (t : stream) : stream :=
  Stream (empty_queue t) q (busy_queue t) (dma_buf t) (dma_pbuf t) (dma_buf_data_count t).
Definition set_busy (q : buffer_queue) (t : stream) : stream :=
  Stream (empty_queue t) (full_queue t) q (dma_buf t) (dma_pbuf t) (dma_buf_data_count t).
Definition set_data_count (l : list Z) (t : stream) : stream :=
  Stream (empty_queue t) (full_queue t) (busy_queue t) (dma_buf t) (dma_pbuf t) l.

(** [struct jz_i2s_controller_info]. *)
Record controller := Controller {
  dma1 : Z; dma2 : Z; opened1 : Z; opened2 : Z; tmp1 : list Z; tmp2 : list Z;
  nextIn : Z; nextOut : Z; total_bytes : Z; blocks : Z }.

Definition set_nextIn (v : Z) (c : controller) : controller :=
  Controller (dma1 c) (dma2 c) (opened1 c) (opened2 c) (tmp1 c) (tmp2 c) v (nextOut c) (total_bytes c) (blocks c).
Definition set_nextOut (v : Z) (c : controller) : controller :=
  Controller (dma1 c) (dma2 c) (opened1 c) (opened2 c) (tmp1 c) (tmp2 c) (nextIn c) v (total_bytes c) (blocks c).
Definition set_totals (t b : Z) (c : controller) : controller :=
  Controller (dma1 c) (dma2 c) (opened1 c) (opened2 c) (tmp1 c) (tmp2 c) (nextIn c) (nextOut c) t b.
Definition set_opened1 (v : Z) (c : controller) : controller :=
  Controller (dma1 c) (dma2 c) v (opened2 c) (tmp1 c) (tmp2 c) (nextIn c) (nextOut c) (total_bytes c) (blocks c).
Definition set_opened2 (v : Z) (c : controller) : controller :=
  Controller (dma1 c) (dma2 c) (opened1 c) v (tmp1 c) (tmp2 c) (nextIn c) (nextOut c) (total_bytes c) (blocks c).
Definition set_tmp1 (v : list Z) (c : controller) : controller :=
  Controller (dma1 c) (dma2 c) (opened1 c) (opened2 c) v (tmp2 c) (nextIn c) (nextOut c) (total_bytes c) (blocks c).
Definition set_tmp2 (v : list Z) (c : controller) : controller :=
  Controller (dma1 c) (dma2 c) (opened1 c) (opened2 c) (tmp1 c) v (nextIn c) (nextOut c) (total_bytes c) (blocks c).

(** [jz_audio_dma_tran_count], [pop_dma_flag], [last_dma_buffer_id],
    [drain_flag], [first_record_call]. *)
Record flags := Flags {
  tran_count : Z; pop_dma_flag : Z; last_dma_buffer_id : Z; drain_flag : Z; first_record_call : Z }.

Definition set_tran_count (v : Z) (f : flags) : flags :=
  Flags v (pop_dma_flag f) (last_dma_buffer_id f) (drain_flag f) (first_record_call f).
Definition set_pop (v : Z) (f : flags) : flags :=
  Flags (tran_count f) v (last_dma_buffer_id f) (drain_flag f) (first_record_call f).
Definition set_last_id (v : Z) (f : flags) : flags :=
  Flags (tran_count f) (pop_dma_flag f) v (drain_flag f) (first_record_call f).
Definition set_drain (v : Z) (f : flags) : flags :=
  Flags (tran_count f) (pop_dma_flag f) (last_dma_buffer_id f) v (first_record_call f).
Definition set_first (v : Z) (f : flags) : flags :=
  Flags (tran_count f) (pop_dma_flag f) (last_dma_buffer_id f) (drain_flag f) v.

(** [ram] has the words of each allocated buffer under its physical address;
    [played] are the words that the codec got and [captured] those it delivered,
    oldest first. *)
Record state := St {
  fmt : audio; mix : mixer; fragstotal : Z; fragsize : Z; flag : flags; outs : stream; ins : stream;
  save_last_samples : list (Z * Z); ctl : controller; dmac : dma; ram : gmap Z (list Z);
  played : list Z; captured : list Z }.

Definition set_fmt (v : audio) (s : state) : state :=
  St v (mix s) (fragstotal s) (fragsize s) (flag s) (outs s) (ins s) (save_last_samples s) (ctl s) (dmac s)
     (ram s) (played s) (captured s).
Definition set_mix (v : mixer) (s : state) : state :=
  St (fmt s) v (fragstotal s) (fragsize s) (flag s) (outs s) (ins s) (save_last_samples s) (ctl s) (dmac s)
     (ram s) (played s) (captured s).
Definition set_frag (n sz : Z) (s : state) : state :=
  St (fmt s) (mix s) n sz (flag s) (outs s) (ins s) (save_last_samples s) (ctl s) (dmac s)
     (ram s) (played s) (captured s).
Definition set_flag (v : flags) (s : state) : state :=
  St (fmt s) (mix s) (fragstotal s) (fragsize s) v (outs s) (ins s) (save_last_samples s) (ctl s) (dmac s)
     (ram s) (played s) (captured s).
Definition set_outs (v : stream) (s : state) : state :=
  St (fmt s) (mix s) (fragstotal s) (fragsize s) (flag s) v (ins s) (save_last_samples s) (ctl s) (dmac s)
     (ram s) (played s) (captured s).
Definition set_ins (v : stream) (s : state) : state :=
  St (fmt s) (mix s) (fragstotal s) (fragsize s) (flag s) (outs s) v (save_last_samples s) (ctl s) (dmac s)
     (ram s) (played s) (captured s).
Definition set_lasts (v : list (Z * Z)) (s : state) : state :=
  St (fmt s) (mix s) (fragstotal s) (fragsize s) (flag s) (outs s) (ins s) v (ctl s) (dmac s)
     (ram s) (played s) (captured s).
Definition set_ctl (v : controller) (s : state) : state :=
  St (fmt s) (mix s) (fragstotal s) (fragsize s) (flag s) (outs s) (ins s) (save_last_samples s) v (dmac s)
     (ram s) (played s) (captured s).
Definition set_dmac (v : dma) (s : state) : state :=
  St (fmt s) (mix s) (fragstotal s) (fragsize s) (flag s) (outs s) (ins s) (save_last_samples s) (ctl s) v
     (ram s) (played s) (captured s).
Definition set_ram (v : gmap Z (list Z)) (s : state) : state :=
  St (fmt s) (mix s) (fragstotal s) (fragsize s) (flag s) (outs s) (ins s) (save_last_samples s) (ctl s) (dmac s)
     v (played s) (captured s).
Definition set_played (v : list Z) (s : state) : state :=
  St (fmt s) (mix s) (fragstotal s) (fragsize s) (flag s) (outs s) (ins s) (save_last_samples s) (ctl s) (dmac s)
     (ram s) v (captured s).
Definition set_captured (v : list Z) (s : state) : state :=
  St (fmt s) (mix s) (fragstotal s) (fragsize s) (flag s) (outs s) (ins s) (save_last_samples s) (ctl s) (dmac s)
     (ram s) (played s) v.

Definition code (s : state) : codec := chip (mix s).
Definition set_code (c : codec) (s : state) : state := set_mix (with_chip c (mix s)) s.

Definition virt_to_phys (a : Z) : Z := u32 (a - PAGE_OFFSET).

(** The words of buffer [i] of a direction, through its kernel address. *)
Definition buffer (s : state) (t : stream) (i : Z) : option (list Z) :=
  a ← rd (dma_buf t) i; ram s !! virt_to_phys a.

(** ** Transfers *)

Definition audio_start_dma (s : state) (chan phyaddr cnt mode : Z) : option state :=
  if jz_audio_b (fmt s) =? 0 then None
  else
    let s := set_flag (set_tran_count (Z.quot cnt (jz_audio_b (fmt s))) (flag s)) s in
    d ← disable_dma (dmac s) chan;
    d ← jz_set_oss_dma d chan mode (jz_audio_format (fmt s));
    d ← set_dma_addr d chan phyaddr;
    d ← set_dma_count d chan (if cnt =? 0 then cnt + 1 else cnt);
    d ← enable_dma d chan;
    Some (set_dmac d s).

(** The hardware at the end of a transfer, of which there is one if the channel
    is enabled: [DTCR] units were moved between the memory and the codec.  The
    words that a recording takes in are the first of [data]; with fewer words
    than it needs it has not ended. *)
Definition running (d : dma) (chan : Z) : option bool :=
  r ← rd (regs d) chan; Some (Z.testbit (DCCSR r) 0).

Definition mark_done (d : dma) (chan : Z) : option dma :=
  set_regs d chan (fun r => Regs (DSAR r) (DTAR r) 0 (DRSR r) (Z.lor (DCCSR r) DMAC_DCCSR_TT) (DCMD r)).

Definition transfer_words (d : dma) (chan : Z) : option Z :=
  c ← rd (jz_dma_table d) chan; u ← unit_size c; r ← rd (regs d) chan; Some (DTCR r * u / 4).

Definition hw_play (s : state) : option state :=
  r ← rd (regs (dmac s)) (dma1 (ctl s));
  n ← transfer_words (dmac s) (dma1 (ctl s));
  blk ← ram s !! DSAR r;
  d ← mark_done (dmac s) (dma1 (ctl s));
  if Z.of_nat (length blk) <? n then None
  else Some (set_played (played s ++ take (Z.to_nat n) blk) (set_dmac d s)).

Definition hw_record (s : state) (data : list Z) : option state :=
  r ← rd (regs (dmac s)) (dma2 (ctl s));
  n ← transfer_words (dmac s) (dma2 (ctl s));
  blk ← ram s !! DTAR r;
  d ← mark_done (dmac s) (dma2 (ctl s));
  if Z.of_nat (length blk) <? n then None
  else
    let got := take (Z.to_nat n) data in
    Some (set_captured (captured s ++ got)
            (set_ram (<[DTAR r := got ++ drop (length got) blk]> (ram s)) (set_dmac d s))).

(** ** Interrupts

    The handlers return whether they wake [tx_wait_queue] or [rx_wait_queue].
    The other wait queues have no sleeper on this machine. *)

Definition status (d : dma) (chan bit : Z) : option bool :=
  r ← rd (regs d) chan; Some (negb (Z.land (DCCSR r) bit =? 0)).

(** [disable_dma], and the address error bit, which both handlers clear. *)
Definition irq_enter (s : state) (chan : Z) : option state :=
  d ← disable_dma (dmac s) chan;
  ar ← status d chan DMAC_DCCSR_AR;
  d ← (if ar : bool then set_regs d chan (clear_status DMAC_DCCSR_AR) else Some d);
  Some (set_dmac d s).

Definition count_transfer (s : state) : state :=
  set_ctl (set_totals (u32 (total_bytes (ctl s) + tran_count (flag s))) (u32 (blocks (ctl s) + 1)) (ctl s)) s.

(** The queues at the end of a recording: the busy buffer is full, and an empty
    one is recorded into next. *)
Definition record_next (s : state) (chan : Z) : option state :=
  let t := ins s in
  '(id1, b) ← get_buffer_id (busy_queue t);
  f ← put_buffer_id (full_queue t) id1;
  '(id2, e) ← get_buffer_id (empty_queue t);
  if 0 <=? id2 then
    b ← put_buffer_id b id2;
    c ← rd (dma_buf_data_count t) id1;
    l ← wr (dma_buf_data_count t) id2 c;
    p ← rd (dma_pbuf t) id2;
    audio_start_dma (set_ins (Stream e f b (dma_buf t) (dma_pbuf t) l) s) chan p c DMA_MODE_READ
  else Some (set_ins (Stream e f (Queue 0 (id b)) (dma_buf t) (dma_pbuf t) (dma_buf_data_count t)) s).

Definition jz_i2s_record_dma_irq (s : state) : option (bool * state) :=
  let chan := dma2 (ctl s) in
  s ← irq_enter s chan;
  tt ← status (dmac s) chan DMAC_DCCSR_TT;
  if tt : bool then
    d ← set_regs (dmac s) chan (clear_status DMAC_DCCSR_TT);
    s ← record_next (count_transfer (set_dmac d s)) chan;
    Some (true, s)
  else Some (false, s).

(** The queues at the end of playing: the busy buffer is empty, and a full one
    is played next. *)
Definition replay_next (s : state) (chan : Z) : option state :=
  let t := outs s in
  '(i, b) ← get_buffer_id (busy_queue t);
  e ← put_buffer_id (empty_queue t) i;
  '(j, f) ← get_buffer_id (full_queue t);
  if 0 <=? j then
    b ← put_buffer_id b j;
    let s := set_outs (Stream e f b (dma_buf t) (dma_pbuf t) (dma_buf_data_count t)) s in
    c ← rd (dma_buf_data_count t) j;
    if 0 <? c then
      p ← rd (dma_pbuf t) j;
      s ← audio_start_dma s chan p c DMA_MODE_WRITE;
      Some (set_flag (set_last_id j (flag s)) s)
    else Some s
  else Some (set_outs (Stream e f (Queue 0 (id b)) (dma_buf t) (dma_pbuf t) (dma_buf_data_count t)) s).

Definition end_drain (s : state) : state :=
  if (drain_flag (flag s) =? 1) && (elements_in_queue (full_queue (outs s)) <=? 0)
  then set_flag (set_drain 0 (flag s)) s else s.

Definition jz_i2s_replay_dma_irq (s : state) : option (bool * state) :=
  let chan := dma1 (ctl s) in
  s ← irq_enter s chan;
  tt ← status (dmac s) chan DMAC_DCCSR_TT;
  if tt : bool then
    d ← set_regs (dmac s) chan (clear_status DMAC_DCCSR_TT);
    let s := set_dmac d s in
    if pop_dma_flag (flag s) =? 1 then Some (false, set_flag (set_pop 0 (flag s)) s)
    else
      s ← replay_next (count_transfer (end_drain s)) chan;
      Some (0 <? elements_in_queue (empty_queue (outs s)), s)
  else Some (false, s).

(** An interrupt: the end of a transfer in one direction. *)
Inductive interrupt := Tx | Rx (data : list Z).

(** Its delivery, with the queues it wakes: [tx], [rx].  Only an enabled
    channel raises it. *)
Definition deliver (s : state) (i : interrupt) : option (bool * bool * state) :=
  match i with
  | Tx =>
      run ← running (dmac s) (dma1 (ctl s));
      if run : bool then s ← hw_play s; '(w, s) ← jz_i2s_replay_dma_irq s; Some (w, false, s)
      else Some (false, false, s)
  | Rx data =>
      run ← running (dmac s) (dma2 (ctl s));
      n ← transfer_words (dmac s) (dma2 (ctl s));
      if run && (n <=? Z.of_nat (length data))
      then s ← hw_record s data; '(w, s) ← jz_i2s_record_dma_irq s; Some (false, w, s)
      else Some (false, false, s)
  end.

(** ** Allocation of the buffers

    [kmalloc n len] is the [n]-th array asked for, of [len] elements with
    arbitrary contents, or none; [pages n order] the address and contents of the
    [n]-th buffer of that order, address zero for none.  Freeing a block that is not allocated is
    undefined. *)

Section Memory.
Context (kmalloc : nat -> nat -> option (list Z)) (pages : nat -> Z -> Z * list Z).

Definition free_pages (a : Z) (m : gmap Z (list Z)) : option (gmap Z (list Z)) :=
  match m !! virt_to_phys a with None => None | Some _ => Some (delete (virt_to_phys a) m) end.

(** [for (i...) if (buf[i]) free_pages(buf[i])], over what the array holds. *)
Fixpoint free_all (l : list Z) (m : gmap Z (list Z)) : option (gmap Z (list Z)) :=
  match l with
  | [] => Some m
  | a :: l => m ← (if a =? 0 then Some m else free_pages a m); free_all l m
  end.

(** The order of the pages for [size] bytes; [size] has 32 bits. *)
Fixpoint order_loop (fuel : nat) (size order : Z) : Z :=
  let size := Z.shiftr size 1 in
  let order := order + 1 in
  match fuel with
  | O => order
  | S fuel => if size =? 0 then order else order_loop fuel size order
  end.

Definition get_order (size : Z) : Z := order_loop 32 (Z.shiftr (u32 (size - 1)) 11) (-1).

(** The loop that allocates the buffers of one direction from number [i] on;
    [false] when one could not be had. *)
Fixpoint alloc_buffers (n : nat) (size : Z) (base : nat) (i : Z) (buf pbuf : list Z) (m : gmap Z (list Z))
  : option (bool * list Z * list Z * gmap Z (list Z)) :=
  match n with
  | O => Some (true, buf, pbuf, m)
  | S n =>
      let '(a, blk) := pages base (get_order size) in
      buf ← wr buf i a;
      if a =? 0 then Some (false, buf, pbuf, m)
      else
        pbuf ← wr pbuf i (virt_to_phys a);
        alloc_buffers n size (S base) (i + 1) buf pbuf (<[virt_to_phys a := blk]> m)
  end.

(** One half of [Init_In_Out_queue], with [all_mem_err] and [mem_failed_*]; the
    arrays are the six from number [k] on, the buffers those from number [base]
    on. *)
Definition init_stream (k base : nat) (total size : Z) (t : stream) (m : gmap Z (list Z))
  : option (bool * stream * gmap Z (list Z)) :=
  let n := Z.to_nat total in
  let t := set_empty (Queue total (id (empty_queue t))) t in
  match kmalloc k n with
  | None => Some (false, Stream (empty_queue t) (full_queue t) (busy_queue t) [] (dma_pbuf t)
                                (dma_buf_data_count t), m)
  | Some buf =>
  match kmalloc (k + 1) n with
  | None => Some (false, Stream (empty_queue t) (full_queue t) (busy_queue t) buf [] (dma_buf_data_count t), m)
  | Some pbuf =>
  match kmalloc (k + 2) n with
  | None => Some (false, Stream (empty_queue t) (full_queue t) (busy_queue t) buf pbuf [], m)
  | Some dc =>
  match kmalloc (k + 3) n with
  | None => Some (false, Stream (Queue total []) (full_queue t) (busy_queue t) buf pbuf dc, m)
  | Some e =>
  match kmalloc (k + 4) n with
  | None => Some (false, Stream (Queue total e) (Queue (count (full_queue t)) []) (busy_queue t) buf pbuf dc, m)
  | Some f =>
  match kmalloc (k + 5) n with
  | None => Some (false, Stream (Queue total e) (Queue (count (full_queue t)) f)
                                (Queue (count (busy_queue t)) []) buf pbuf dc, m)
  | Some b =>
      let e := seqZ 0 total ++ drop n e in
      '(ok, buf, pbuf, m) ← alloc_buffers n size base 0 buf pbuf m;
      let t := Stream (Queue total e) (Queue 0 f) (Queue 0 b) buf pbuf dc in
      if ok : bool then Some (true, t, m)
      else m ← free_all (take n buf) m; Some (false, t, m)
  end end end end end end.

(** Recording first, then playing. *)
Definition Init_In_Out_queue (s : state) : option (Z * state) :=
  let total := fragstotal s in
  '(ok, t, m) ← init_stream 0 0 total (fragsize s) (ins s) (ram s);
  let s := set_ram m (set_ins t s) in
  if ok : bool then
    '(ok, t, m) ← init_stream 6 (Z.to_nat total) total (fragsize s) (outs s) (ram s);
    Some (if ok : bool then 1 else 0, set_ram m (set_outs t s))
  else Some (0, s).

(** One half of [Free_In_Out_queue]. *)
Definition free_stream (total : Z) (t : stream) (m : gmap Z (list Z)) : option (stream * gmap Z (list Z)) :=
  m ← (match dma_buf t with
       | [] => Some m
       | _ => if Z.of_nat (length (dma_buf t)) <? total then None
              else free_all (take (Z.to_nat total) (dma_buf t)) m
       end);
  Some (Stream (Queue total []) (Queue 0 []) (Queue 0 []) [] [] [], m).

Definition Free_In_Out_queue (s : state) : option (Z * state) :=
  '(t, m) ← free_stream (fragstotal s) (outs s) (ram s);
  let s := set_ram m (set_outs t s) in
  '(t, m) ← free_stream (fragstotal s) (ins s) (ram s);
  Some (1, set_ram m (set_ins t s)).

(** ** Fragment size

    The shift by the lower half of the argument is the processor's, which uses
    five bits of it. *)

Definition set_fragment (val : Z) : Z * Z :=
  let newfragsize := s32 (Z.shiftl 1 (Z.land val 31)) in
  let newfragsize := if newfragsize <? 4 * PAGE_SIZE then 4 * PAGE_SIZE else newfragsize in
  let newfragsize := if 16 * PAGE_SIZE <? newfragsize then 16 * PAGE_SIZE else newfragsize in
  let newfragstotal := Z.land (Z.shiftr val 16) 0x7fff in
  let newfragstotal := if newfragstotal <? 2 then 2 else newfragstotal in
  let newfragstotal := if 32 <? newfragstotal then 32 else newfragstotal in
  (newfragstotal, newfragsize).

Definition SETFRAGMENT (s : state) (val : Z) : option (Z * state) :=
  let '(total, size) := set_fragment val in
  if (fragstotal s =? total) && (fragsize s =? size) then Some (0, s)
  else
    '(_, s) ← Free_In_Out_queue s;
    '(_, s) ← Init_In_Out_queue (set_frag total size s);
    Some (0, s).

End Memory.

(** ** Start-up *)

Definition jz_i2s_initHw (set : bool) (c : codec) : codec :=
  let c := i2s_disable c in
  let c := if set then i2s_reset c else c in
  let c := each_time_init_jzcodec c in
  let c := i2s_disable_loopback (i2s_disable_replay (i2s_disable_record c)) in
  i2s_set_receive_trigger 3 (i2s_set_transmit_trigger 4 c).

(** [init_codec] resets the codec; CONFIG_I2S_ICDC is not set. *)
Definition jz_audio_reset (c : codec) : codec :=
  reset_jzcodec (i2s_disable_transmit_dma (i2s_disable_record (i2s_disable_receive_dma (i2s_disable_replay c)))).

(** [attach_jz_i2s] from the temporary buffers on: [t1] and [t2] are their
    pages, [irq2] and [irq1] the results of [request_irq] for the two channels;
    [dev] is the controller.  [true] when the device is complete.  The field
    [dma1] of the controller is as it was allocated when the request for [dma2]
    fails. *)
Definition attach_jz_i2s (s : state) (t1 t2 : option (list Z)) (irq2 irq1 dev : Z) : option (bool * state) :=
  let s := set_code (jz_i2s_initHw true (code s)) s in
  match t1 with
  | None => Some (false, s)
  | Some t1 =>
      match t2 with
      | None => Some (false, s)
      | Some t2 =>
          '(n2, d) ← jz_request_dma (dmac s) DMA_ID_I2S_RX 0 (Some irq2) dev;
          let c := ctl s in
          let s := set_dmac d (set_ctl (Controller (dma1 c) n2 (opened1 c) (opened2 c) t1 t2 (nextIn c) (nextOut c)
                                                   (total_bytes c) (blocks c)) s) in
          if n2 <? 0 then d ← jz_free_dma (dmac s) (dma1 (ctl s)); Some (false, set_dmac d s)
          else
            '(n1, d) ← jz_request_dma (dmac s) DMA_ID_I2S_TX 0 (Some irq1) dev;
            let s := set_dmac d (set_ctl (Controller n1 n2 (opened1 c) (opened2 c) t1 t2 (nextIn c) (nextOut c)
                                                     (total_bytes c) (blocks c)) s) in
            Some (negb (n1 <? 0), s)
      end
  end.

(** ** System calls

    A call runs in steps between which interrupts are delivered: [Some i] in the
    schedule is an interrupt, [None] lets the call go on.  A call that sleeps
    takes interrupts until one wakes it. *)

Definition sched := list (option interrupt).

Inductive result (A : Type) := Done (a : A) | Asleep | Out_of_fuel.
Arguments Done {A}.
Arguments Asleep {A}.
Arguments Out_of_fuel {A}.

Definition P (A : Type) := state -> sched -> option (result A * state * sched).

Definition ret {A} (a : A) : P A := fun s sc => Some (Done a, s, sc).

Definition bind {A B} (m : P A) (k : A -> P B) : P B := fun s sc =>
  match m s sc with
  | Some (Done a, s, sc) => k a s sc
  | Some (Asleep, s, sc) => Some (Asleep, s, sc)
  | Some (Out_of_fuel, s, sc) => Some (Out_of_fuel, s, sc)
  | None => None
  end.

Declare Scope sound_scope.
Delimit Scope sound_scope with sound.
Notation "x <- m ;; k" := (bind m (fun x => k))
  (at level 100, m at next level, right associativity) : sound_scope.
Notation "m ;;; k" := (bind m (fun _ => k)) (at level 100, right associativity) : sound_scope.
Bind Scope sound_scope with P.
#[local] Open Scope sound_scope.

Definition gets {A} (f : state -> A) : P A := fun s sc => Some (Done (f s), s, sc).
Definition modify (f : state -> state) : P unit := fun s sc => Some (Done tt, f s, sc).
Definition fuel_out {A} : P A := fun s sc => Some (Out_of_fuel, s, sc).

(** A step that interrupts do not divide. *)
Definition atomic {A} (f : state -> option (A * state)) : P A := fun s sc =>
  '(a, s) ← f s; Some (Done a, s, sc).

Fixpoint preempt_loop (s : state) (sc : sched) : option (state * sched) :=
  match sc with
  | [] => Some (s, [])
  | None :: sc => Some (s, sc)
  | Some i :: sc => '(_, s) ← deliver s i; preempt_loop s sc
  end.

Definition preempt : P unit := fun s sc => '(s, sc) ← preempt_loop s sc; Some (Done tt, s, sc).

Inductive wait_queue := Tx_wait | Rx_wait.

Fixpoint sleep_loop (w : wait_queue) (s : state) (sc : sched) : option (result unit * state * sched) :=
  match sc with
  | [] => Some (Asleep, s, [])
  | None :: sc => sleep_loop w s sc
  | Some i :: sc =>
      '(tx, rx, s) ← deliver s i;
      if (match w with Tx_wait => tx | Rx_wait => rx end : bool) then Some (Done tt, s, sc) else sleep_loop w s sc
  end.

Definition sleep_on (w : wait_queue) : P unit := sleep_loop w.

(** Queue operations of a direction. *)
Inductive dir := Out | In.
Inductive which := Empty | Full | Busy.

Definition side (d : dir) (s : state) : stream := match d with Out => outs s | In => ins s end.
Definition set_side (d : dir) (t : stream) (s : state) : state :=
  match d with Out => set_outs t s | In => set_ins t s end.
Definition queue (w : which) (t : stream) : buffer_queue :=
  match w with Empty => empty_queue t | Full => full_queue t | Busy => busy_queue t end.
Definition set_queue (w : which) (q : buffer_queue) (t : stream) : stream :=
  match w with Empty => set_empty q t | Full => set_full q t | Busy => set_busy q t end.

Definition take_id (d : dir) (w : which) : P Z := atomic (fun s =>
  '(i, q) ← get_buffer_id (queue w (side d s)); Some (i, set_side d (set_queue w q (side d s)) s)).

Definition put_id (d : dir) (w : which) (i : Z) : P unit := atomic (fun s =>
  q ← put_buffer_id (queue w (side d s)) i; Some (tt, set_side d (set_queue w q (side d s)) s)).

Definition elements (d : dir) (w : which) : P Z := gets (fun s => elements_in_queue (queue w (side d s))).

Definition data_count_of (d : dir) (i : Z) : P Z := atomic (fun s =>
  c ← rd (dma_buf_data_count (side d s)) i; Some (c, s)).

Definition set_data_count_of (d : dir) (i v : Z) : P unit := atomic (fun s =>
  l ← wr (dma_buf_data_count (side d s)) i v; Some (tt, set_side d (set_data_count l (side d s)) s)).

(** [audio_start_dma] for buffer [i]. *)
Definition start (d : dir) (i : Z) : P unit := atomic (fun s =>
  p ← rd (dma_pbuf (side d s)) i;
  c ← rd (dma_buf_data_count (side d s)) i;
  s ← match d with
      | Out => audio_start_dma s (dma1 (ctl s)) p c DMA_MODE_WRITE
      | In => audio_start_dma s (dma2 (ctl s)) p c DMA_MODE_READ
      end;
  Some (tt, s)).

(** ** Writing *)

(** The call of [replay_filler] for buffer [i]. *)
Definition fill_buffer (off count i : Z) : P unit := atomic (fun s =>
  a ← rd (dma_buf (outs s)) i;
  blk ← ram s !! virt_to_phys a;
  last ← rd (save_last_samples s) i;
  '(cnt, blk, last) ← replay_filler (fmt s) (codec_volue_shift (code s)) (tmp1 (ctl s)) off count blk last;
  dc ← wr (dma_buf_data_count (outs s)) i cnt;
  ls ← wr (save_last_samples s) i last;
  Some (tt, set_lasts ls (set_outs (set_data_count dc (outs s)) (set_ram (<[virt_to_phys a := blk]> (ram s)) s)))).

(** Start the next full buffer if none is busy. *)
Definition start_next : P unit :=
  b <- elements Out Busy;;
  if b =? 0 then
    preempt;;;
    i <- take_id Out Full;;
    if 0 <=? i then
      preempt;;; put_id Out Busy i;;;
      preempt;;; c <- data_count_of Out i;;
      if 0 <? c then
        start Out i;;;
        modify (fun s => set_flag (set_last_id i (flag s)) s)
      else ret tt
    else ret tt
  else ret tt.

(** The loop of [jz_audio_write]; every round either takes a part of the user's
    bytes or tries again for a buffer. *)
Fixpoint write_loop (fuel : nat) (nonblock : bool) (count done left copy : Z) : P Z :=
  if 0 <? left then
    match fuel with
    | O => fuel_out
    | S fuel =>
        preempt;;;
        e <- elements Out Empty;;
        if (e =? 0) && nonblock then ret done
        else
          (if e =? 0 then preempt;;; sleep_on Tx_wait else ret tt);;;
          let copy := if count <? done + copy then count - done else copy in
          preempt;;;
          i <- take_id Out Empty;;
          if 0 <=? i then
            preempt;;;
            fill_buffer done copy i;;;
            c <- data_count_of Out i;;
            preempt;;;
            (if 0 <? c then put_id Out Full i else put_id Out Empty i);;;
            let left := left - copy in
            let done := done + copy in
            preempt;;;
            modify (fun s => set_ctl (set_nextOut (nextOut (ctl s) + done) (ctl s)) s);;;
            preempt;;;
            start_next;;;
            write_loop fuel nonblock count done left copy
          else write_loop fuel nonblock count done left copy
    end
  else ret done.

(** [copy_count], which divides by [jz_audio_b] for stereo. *)
Definition chunk : P Z := atomic (fun s =>
  if (jz_audio_channels (fmt s) =? 2) && (jz_audio_b (fmt s) =? 0) then None
  else Some (copy_count (fmt s) (fragsize s), s)).

(** [data] are the user's bytes, [None] for an invalid address; the copy into
    [tmp1] is not bounded by its size. *)
Definition jz_audio_write (fuel : nat) (nonblock : bool) (count : Z) (data : option (list Z)) : P Z :=
  if count <=? 0 then ret (- EINVAL)
  else
    modify (fun s => set_code (i2s_enable_replay (i2s_enable_transmit_dma (code s))) s);;;
    preempt;;;
    modify (fun s => set_ctl (set_nextOut 0 (ctl s)) s);;;
    copy <- chunk;;
    match data with
    | None => ret (- EFAULT)
    | Some data =>
        atomic (fun s => if Z.of_nat (length (tmp1 (ctl s))) <? Z.of_nat (length data) then None
                         else Some (tt, set_ctl (set_tmp1 (data ++ drop (length data) (tmp1 (ctl s))) (ctl s)) s));;;
        write_loop fuel nonblock count 0 count copy
    end.

(** ** Reading *)

(** The call of [record_filler] for buffer [i]; the number of bytes. *)
Definition empty_buffer (off count i : Z) : P Z := atomic (fun s =>
  blk ← buffer s (ins s) i;
  '(cnt, t, abn) ← record_filler (fmt s) (abnormal_data_count (code s)) (tmp2 (ctl s)) off count blk;
  Some (cnt, set_code (set_abnormal abn (code s)) (set_ctl (set_tmp2 t (ctl s)) s))).

(** Make the empty buffer [i] busy and start recording into it. *)
Definition start_record (i copy : Z) : P unit :=
  put_id In Busy i;;;
  preempt;;;
  set_data_count_of In i (copy * 4);;;
  preempt;;;
  start In i.

(** [audio_read_back_first]. *)
Fixpoint first_record (fuel : nat) (copy : Z) : P unit :=
  match fuel with
  | O => fuel_out
  | S fuel =>
      i <- take_id In Empty;;
      if 0 <=? i then
        preempt;;;
        put_id In Busy i;;;
        preempt;;;
        set_data_count_of In i (copy * 4);;;
        modify (fun s => set_code (i2s_enable_record (i2s_enable_receive_dma (code s))) s);;;
        preempt;;;
        start In i;;;
        preempt;;;
        sleep_on Rx_wait
      else first_record fuel copy
  end.

(** The loop of [jz_audio_read]; [data] are the bytes given to the program so
    far.  [ok] is whether its buffer is valid. *)
Fixpoint read_loop (fuel : nat) (nonblock ok : bool) (count done left copy : Z) (data : list Z) : P (Z * list Z) :=
  if 0 <? left then
    match fuel with
    | O => fuel_out
    | S fuel =>
        preempt;;;
        f <- elements In Full;;
        if (f <=? 0) && nonblock then ret (if done =? 0 then - EAGAIN else done, data)
        else
          (if f <=? 0 then preempt;;; sleep_on Rx_wait else ret tt);;;
          preempt;;;
          i <- take_id In Full;;
          if 0 <=? i then
            preempt;;;
            cnt <- empty_buffer done copy i;;
            preempt;;;
            put_id In Empty i;;;
            preempt;;;
            b <- elements In Busy;;
            (if b =? 0 then
               preempt;;;
               j <- take_id In Empty;;
               if 0 <=? j then preempt;;; start_record j copy else ret tt
             else ret tt);;;
            let cnt := if count <? done + cnt then count - done else cnt in
            if ok then
              bytes <- gets (fun s => take (Z.to_nat cnt) (drop (Z.to_nat done) (tmp2 (ctl s))));;
              let done := done + cnt in
              preempt;;;
              modify (fun s => set_ctl (set_nextIn (nextIn (ctl s) + done) (ctl s)) s);;;
              read_loop fuel nonblock ok count done (left - cnt) copy (data ++ bytes)
            else ret (if done =? 0 then - EFAULT else done, data)
          else read_loop fuel nonblock ok count done left copy data
    end
  else ret (done, data).

Definition jz_audio_read (fuel : nat) (nonblock ok : bool) (count : Z) : P (Z * list Z) :=
  modify (fun s => set_code (i2s_enable_record (i2s_enable_receive_dma (code s))) s);;;
  preempt;;;
  modify (fun s => set_ctl (set_nextIn 0 (ctl s)) s);;;
  copy <- gets (fun s => Z.quot (fragsize s) 4);;
  first <- gets (fun s => first_record_call (flag s));;
  (if first =? 0 then ret tt
   else
     modify (fun s => set_flag (set_first 0 (flag s)) s);;;
     first_record fuel copy);;;
  read_loop fuel nonblock ok count 0 count copy [].

(** ** Draining *)

Definition residue (chan : state -> Z) : P Z := atomic (fun s =>
  n ← get_dma_residue (dmac s) (chan s); Some (s32 n, s)).

(** The wait for the controller's FIFO at the end changes no state. *)
Fixpoint drain_dac (fuel : nat) (nonblock : bool) (i : Z) : P Z :=
  match fuel with
  | O => fuel_out
  | S fuel =>
      if negb nonblock && negb (i <? MAXDELAY) then ret 0
      else
        preempt;;;
        e <- elements Out Full;;
        if e <=? 0 then
          preempt;;;
          n <- residue (fun s => dma1 (ctl s));;
          if n <=? 0 then ret 0 else drain_dac fuel nonblock (i + 1)
        else drain_dac fuel nonblock (i + 1)
  end.

Fixpoint drain_adc (fuel : nat) (nonblock : bool) (i : Z) : P Z :=
  match fuel with
  | O => fuel_out
  | S fuel =>
      if i <? MAXDELAY then
        preempt;;;
        n <- residue (fun s => dma2 (ctl s));;
        if n <=? 0 then ret 0
        else if nonblock then ret (- EBUSY) else drain_adc fuel nonblock (i + 1)
      else ret 0
  end.

(** ** Opening and closing *)

(** The queues of a direction with all buffers empty; the array of the empty
    queue is written, the others are only marked empty. *)
Fixpoint write_ids (n : nat) (i : Z) (l : list Z) : option (list Z) :=
  match n with O => Some l | S n => l ← wr l i i; write_ids n (i + 1) l end.

Definition reset_queues (total : Z) (t : stream) : option stream :=
  l ← write_ids (Z.to_nat total) 0 (id (empty_queue t));
  Some (Stream (Queue total l) (Queue 0 (id (full_queue t))) (Queue 0 (id (busy_queue t)))
               (dma_buf t) (dma_pbuf t) (dma_buf_data_count t)).

(** The counters, in an order that does not matter ([count] and [finish] are
    never read). *)
Definition reset_totals (s : state) : state :=
  set_flag (set_tran_count 0 (flag s)) (set_ctl (set_totals 0 0 (ctl s)) s).

Definition open_out (s : state) : option state :=
  let s := set_ctl (set_opened1 1 (ctl s)) s in
  let s := reset_totals s in
  let s := set_ctl (set_nextOut 0 (ctl s)) s in
  let s := set_lasts (replicate 64 (0, 0)) s in
  t ← reset_queues (fragstotal s) (outs s);
  Some (set_flag (set_last_id 0 (flag s)) (set_outs t s)).

Definition open_in (s : state) : option state :=
  let s := set_ctl (set_opened2 1 (ctl s)) s in
  let s := set_flag (set_first 1 (flag s)) s in
  let s := reset_totals s in
  let s := set_ctl (set_nextIn 0 (ctl s)) s in
  t ← reset_queues (fragstotal s) (ins s);
  Some (set_ins t s).

(** [wr] and [rd] are the access modes of the file. *)
Definition jz_audio_open (wr rd : bool) (s : state) : option (Z * state) :=
  let s := set_flag (set_pop 0 (flag s)) s in
  if (opened1 (ctl s) =? 1) || (opened2 (ctl s) =? 1) then Some (- EBUSY, s)
  else
    s ← (if wr then open_out s else Some s);
    s ← (if rd then open_in s else Some s);
    let c := jz_audio_reset (code s) in
    let c := set_AIC_FR (on (AIC_FR c) AIC_FR_LSMP) c in
    let mode := use_mic_line_flag (mix s) in
    let c := if wr && rd then set_jzcodec_replay_record mode c
             else if wr then set_jzcodec_replay c
             else if rd then set_jzcodec_record mode (set_abnormal 0 c)
             else c in
    Some (0, set_code (i2s_enable c) s).

(** Playing stops: the channel is disabled with a count of zero. *)
Definition stop_channel (chan : Z) (d : dma) : option dma :=
  d ← disable_dma d chan; set_dma_count d chan 0.

Definition release_out (fuel : nat) (nonblock : bool) : P unit :=
  modify (fun s => set_code (i2s_enable_replay (i2s_enable_transmit_dma (code s))) s);;;
  drain_dac fuel nonblock 0;;;
  preempt;;;
  atomic (fun s => d ← stop_channel (dma1 (ctl s)) (dmac s); Some (tt, set_dmac d s));;;
  modify (fun s => set_code (i2s_disable_replay (i2s_disable_transmit_dma (code s))) s);;;
  modify (fun s => let s := reset_totals s in set_ctl (set_nextOut 0 (ctl s)) s).

Definition release_in (fuel : nat) (nonblock : bool) : P unit :=
  modify (fun s => set_flag (set_first 1 (flag s)) (set_ctl (set_opened2 0 (ctl s)) s));;;
  modify (fun s => set_code (i2s_enable_record (i2s_enable_receive_dma (code s))) s);;;
  drain_adc fuel nonblock 0;;;
  preempt;;;
  atomic (fun s => d ← stop_channel (dma2 (ctl s)) (dmac s); Some (tt, set_dmac d s));;;
  modify (fun s => set_code (i2s_disable_record (i2s_disable_receive_dma (code s))) s);;;
  modify (fun s => let s := reset_totals s in set_ctl (set_nextIn 0 (ctl s)) s).

Definition codec_off : P unit := modify (fun s => set_code (turn_off_jzcodec (i2s_disable (code s))) s).

Definition jz_audio_release (fuel : nat) (nonblock : bool) : P Z :=
  modify (fun s => set_flag (set_pop 0 (flag s)) s);;;
  o1 <- gets (fun s => opened1 (ctl s));;
  o2 <- gets (fun s => opened2 (ctl s));;
  (if (o1 =? 1) && (o2 =? 1) then
     modify (fun s => set_ctl (set_opened1 0 (ctl s)) s);;;
     release_out fuel nonblock;;;
     release_in fuel nonblock;;;
     codec_off;;;
     modify (fun s => set_code (set_abnormal 0 (code s)) s)
   else if o1 =? 1 then
     release_out fuel nonblock;;; codec_off
   else if o2 =? 1 then
     release_in fuel nonblock;;; codec_off;;;
     modify (fun s => set_code (set_abnormal 0 (code s)) s)
   else ret tt);;;
  modify (fun s =>
    if (opened1 (ctl s) =? 1) && (opened2 (ctl s) =? 1)
    then set_ctl (set_opened2 0 (set_opened1 0 (ctl s))) s
    else if opened1 (ctl s) =? 1 then set_ctl (set_opened1 0 (ctl s)) s
    else if opened2 (ctl s) =? 1 then set_ctl (set_opened2 0 (ctl s)) s
    else s);;;
  ret 0.

(** ** Control *)

Definition POLLOUT : Z := 0x0004.
Definition POLLIN : Z := 0x0001.
Definition POLLRDNORM : Z := 0x0040.

(** POLLWRNORM is POLLOUT on this machine.  [wr] and [rd] are the access modes;
    [poll_wait] registers the caller and changes no state here. *)
Definition jz_audio_poll (wr rd : bool) (s : state) : Z :=
  if wr && (0 <? elements_in_queue (empty_queue (outs s))) then Z.lor POLLOUT POLLOUT
  else if rd && (0 <? elements_in_queue (full_queue (ins s))) then Z.lor POLLIN POLLRDNORM
  else if wr then if 0 <? elements_in_queue (empty_queue (outs s)) then Z.lor POLLOUT POLLOUT else 0
  else if rd then if 0 <? elements_in_queue (full_queue (ins s)) then Z.lor POLLIN POLLRDNORM else 0
  else 0.

(** The commands of [jz_audio_ioctl]; those that read a value from the program
    have it, [None] for an invalid address. *)
Inductive dsp_cmd :=
  | OSS_GETVERSION | DSP_RESET | DSP_SYNC | DSP_SPEED (v : option Z) | DSP_STEREO (v : option Z)
  | DSP_GETBLKSIZE | DSP_GETFMTS | DSP_SETFMT (v : option Z) | DSP_CHANNELS (v : option Z) | DSP_POST
  | DSP_SUBDIVIDE | DSP_SETFRAGMENT (v : Z) | DSP_GETCAPS | DSP_NONBLOCK | DSP_SETDUPLEX
  | DSP_GETOSPACE | DSP_GETISPACE | DSP_GETTRIGGER | DSP_SETTRIGGER (v : option Z)
  | DSP_GETIPTR | DSP_GETOPTR | DSP_GETODELAY | PCM_READ_RATE | PCM_READ_CHANNELS | PCM_READ_BITS
  | DSP_OTHER.

(** What a command gives to the program: a number, an [audio_buf_info], whose
    [fragsize] is not always set, or a [count_info]. *)
Inductive reply :=
  | No_reply | Int (v : Z)
  | Space (fragments total : Z) (size : option Z) (bytes : Z)
  | Ptr (bytes blocks ptr : Z).

(** User bytes for [n] bytes of DMA buffers. *)
Definition to_user (a : audio) (n : Z) : option Z :=
  if jz_audio_channels a =? 2 then if jz_audio_b a =? 0 then None else Some (Z.quot n (jz_audio_b a))
  else if jz_audio_channels a =? 1 then Some (Z.quot n 4)
  else Some n.

Definition space (s : state) (q : buffer_queue) : option reply :=
  let n := elements_in_queue q in
  bytes ← to_user (fmt s) (Z.max 0 n * fragsize s);
  size ← to_user (fmt s) (fragsize s);
  let known := (jz_audio_channels (fmt s) =? 2) || (jz_audio_channels (fmt s) =? 1) in
  Some (Space n (fragstotal s) (if known then Some size else None) bytes).

(** Bytes in the first [n] buffers of the full queue, and what is left of the
    transfer for each busy one. *)
Fixpoint full_bytes (n : nat) (i : Z) (t : stream) : option Z :=
  match n with
  | O => Some 0
  | S n =>
      x ← rd (id (full_queue t)) i;
      c ← rd (dma_buf_data_count t) x;
      rest ← full_bytes n (i + 1) t;
      Some (c + rest)
  end.

Definition odelay (s : state) : option Z :=
  f ← full_bytes (Z.to_nat (elements_in_queue (full_queue (outs s)))) 0 (outs s);
  r ← get_dma_residue (dmac s) (dma1 (ctl s));
  to_user (fmt s) (s32 (f + Z.max 0 (elements_in_queue (busy_queue (outs s))) * r)).

Section Ioctl.
Context (kmalloc : nat -> nat -> option (list Z)) (pages : nat -> Z -> Z * list Z).

(** All commands but [DSP_SYNC]; [wr] and [rd] are the access modes. *)
Definition dsp_ioctl (wr rd : bool) (cmd : dsp_cmd) (s : state) : option (Z * reply * state) :=
  match cmd with
  | OSS_GETVERSION => Some (0, Int 0x030802, s)
  | DSP_RESET | DSP_SYNC | DSP_POST | DSP_SUBDIVIDE | DSP_NONBLOCK => Some (0, No_reply, s)
  | DSP_SPEED None => Some (- EFAULT, No_reply, s)
  | DSP_SPEED (Some v) =>
      if 0 <=? v then
        let '(r, a) := jz_audio_set_speed (fmt s) v in
        Some (0, Int v, set_code (set_jzcodec_speed r (code s)) (set_fmt a s))
      else Some (0, Int v, s)
  | DSP_STEREO None => Some (- EFAULT, No_reply, s)
  | DSP_STEREO (Some v) =>
      Some (0, No_reply, set_fmt (jz_audio_set_channels (fmt s) (if v =? 0 then 1 else 2)).2 s)
  | DSP_GETBLKSIZE => Some (0, Int (fragsize s), s)
  | DSP_GETFMTS => Some (0, Int (Z.lor AFMT_U8 AFMT_S16_LE), s)
  | DSP_SETFMT None => Some (- EFAULT, No_reply, s)
  | DSP_SETFMT (Some v) =>
      if v =? AFMT_QUERY
      then Some (0, Int (if jz_audio_format (fmt s) =? 16 then AFMT_S16_LE else AFMT_U8), s)
      else
        let s := set_fmt (jz_audio_set_format (fmt s) v).2 s in
        Some (0, Int v, if (v =? AFMT_U8) || (v =? AFMT_S16_LE)
                        then set_code (i2s_set_iss_sample_size (i2s_set_oss_sample_size (code s))) s else s)
  | DSP_CHANNELS None => Some (- EFAULT, No_reply, s)
  | DSP_CHANNELS (Some v) => Some (0, Int v, set_fmt (jz_audio_set_channels (fmt s) v).2 s)
  | DSP_SETFRAGMENT v => '(r, s) ← SETFRAGMENT kmalloc pages s v; Some (r, No_reply, s)
  | DSP_GETCAPS => Some (0, Int (Z.lor 0x200 0x400), s)
  | DSP_SETDUPLEX => Some (- EINVAL, No_reply, s)
  | DSP_GETOSPACE =>
      if wr then r ← space s (empty_queue (outs s)); Some (0, r, s) else Some (- EINVAL, No_reply, s)
  | DSP_GETISPACE =>
      if rd then r ← space s (empty_queue (ins s)); Some (0, r, s) else Some (- EINVAL, No_reply, s)
  | DSP_GETTRIGGER =>
      Some (0, Int (Z.lor (if rd && negb (bool_decide (dma_buf (ins s) = [])) then 1 else 0)
                          (if wr && negb (bool_decide (dma_buf (outs s) = [])) then 2 else 0)), s)
  | DSP_SETTRIGGER None => Some (- EFAULT, No_reply, s)
  | DSP_SETTRIGGER (Some _) => Some (0, No_reply, s)
  | DSP_GETIPTR =>
      if rd then Some (0, Ptr (total_bytes (ctl s)) (blocks (ctl s)) (nextIn (ctl s)),
                       set_ctl (set_totals (total_bytes (ctl s)) 0 (ctl s)) s)
      else Some (- EINVAL, No_reply, s)
  | DSP_GETOPTR =>
      if wr then Some (0, Ptr (total_bytes (ctl s)) (blocks (ctl s)) (nextOut (ctl s)),
                       set_ctl (set_totals (total_bytes (ctl s)) 0 (ctl s)) s)
      else Some (- EINVAL, No_reply, s)
  | DSP_GETODELAY =>
      if wr then d ← odelay s; Some (0, Int d, s) else Some (- EINVAL, No_reply, s)
  | PCM_READ_RATE => Some (0, Int (jz_audio_rate (fmt s)), s)
  | PCM_READ_CHANNELS => Some (0, Int (jz_audio_channels (fmt s)), s)
  | PCM_READ_BITS => Some (0, Int (if Z.land (jz_audio_format (fmt s)) (Z.lor 0x40 AFMT_U8) =? 0 then 16 else 8), s)
  | DSP_OTHER => Some (- EINVAL, No_reply, s)
  end.

(** The whole command, with the drain of [DSP_SYNC]. *)
Definition jz_audio_ioctl (fuel : nat) (wr rd nonblock : bool) (cmd : dsp_cmd) : P (Z * reply) :=
  match cmd with
  | DSP_SYNC => if wr then r <- drain_dac fuel nonblock 0;; ret (r, No_reply) else ret (0, No_reply)
  | _ => atomic (fun s => '(r, x, s) ← dsp_ioctl wr rd cmd s; Some ((r, x), s))
  end.

(** ** The module *)

(** [init_jz_i2s] after the registration: [s] is the state at boot. *)
Definition init_jz_i2s (s : state) (t1 t2 : option (list Z)) (irq2 irq1 dev : Z) : option (bool * state) :=
  let m := mix s in
  let s := set_mix (Mixer (jz_audio_volume m) (codec_bass_gain m) (codec_mic_gain m) USE_NONE
                          (audio_mix_modcnt m) (info_id m) (old_info_id m)
                          (set_jzcodec_mode (set_abnormal 0 (chip m)))) s in
  let s := set_flag (set_drain 0 (flag s)) s in
  let s := set_ctl (set_opened2 0 (set_opened1 0 (ctl s))) s in
  '(ok, s) ← attach_jz_i2s s t1 t2 irq2 irq1 dev;
  let s := set_code (set_jzcodec_volume_table (set_jzcodec_startup_param (code s))) s in
  let null t := Stream (Queue (count (empty_queue t)) []) (Queue (count (full_queue t)) [])
                       (Queue (count (busy_queue t)) []) (dma_buf t) (dma_pbuf t) (dma_buf_data_count t) in
  let s := set_ins (null (ins s)) (set_outs (null (outs s)) s) in
  let s := set_frag JZCODEC_RW_BUFFER_TOTAL (JZCODEC_RW_BUFFER_SIZE * PAGE_SIZE) s in
  '(_, s) ← Init_In_Out_queue kmalloc pages s;
  Some (ok, s).

End Ioctl.

(** [cleanup_jz_i2s]: the reset, the channels and the buffers. *)
Definition cleanup_jz_i2s (s : state) : option state :=
  let s := set_code (jz_i2s_initHw false (code s)) s in
  d ← jz_free_dma (dmac s) (dma1 (ctl s));
  d ← jz_free_dma d (dma2 (ctl s));
  '(_, s) ← Free_In_Out_queue (set_dmac d s);
  Some s.
