(* ===== verification/I2sQueues.v ===== *)
(** * Queues and transfers of the sound driver

    A queue of buffer numbers refines a list: taking is its head, putting is at
    its end, as long as the numbers fit the array.  Starting and ending a
    transfer changes one channel of the DMA controller and leaves the other. *)

From S2P Require Import Prelude.
From S2P Require Import Dma.
From S2P Require Import I2sFill.
From S2P Require Import I2sCodec.
From S2P Require Import I2sDriver.

#[local] Arguments Z.eqb : simpl never.
#[local] Arguments Z.ltb : simpl never.
#[local] Arguments Z.leb : simpl never.
#[local] Arguments Z.land : simpl never.
#[local] Arguments Z.lor : simpl never.
#[local] Arguments Z.add : simpl never.
#[local] Arguments Z.sub : simpl never.
#[local] Arguments Z.of_nat : simpl never.
#[local] Arguments Z.to_nat : simpl never.
#[local] Arguments Z.testbit : simpl never.

(** ** Queues *)

Definition contents (q : buffer_queue) : list Z := take (Z.to_nat (count q)) (id q).

(** A queue with room for [n] numbers. *)
Definition queue_wf (n : Z) (q : buffer_queue) : Prop :=
  Z.of_nat (length (id q)) = n /\ 0 <= count q <= n.

Lemma length_contents n q : queue_wf n q -> Z.of_nat (length (contents q)) = count q.
Proof. intros [Hl Hc]. unfold contents. rewrite length_take. lia. Qed.

Lemma contents_split n q : queue_wf n q -> id q = contents q ++ drop (Z.to_nat (count q)) (id q).
Proof. intros _. symmetry. apply take_drop. Qed.

Lemma shift_down_spec r : forall ys a x i,
  i = Z.of_nat (length a) ->
  exists z, shift_down (length ys) i (a ++ x :: ys ++ r) = Some (a ++ ys ++ z :: r).
Proof.
  induction ys as [|y ys IH]; intros a x i Hi; [by exists x|]. cbn [length shift_down].
  rewrite (snoc_cons a x). cbn [app]. rewrite (rd_app (a ++ [x])) by len. cbn [mbind option_bind].
  rewrite <- (snoc_cons a x), (wr_app a) by done. cbn [mbind option_bind]. rewrite (snoc_cons a y).
  destruct (IH (a ++ [y]) y (i + 1)) as [z ->]; [len|]. exists z. by rewrite <- app_assoc.
Qed.

Lemma get_empty q : count q = 0 -> get_buffer_id q = Some (-1, q).
Proof. intros H. unfold get_buffer_id. by rewrite H. Qed.

Lemma get_first n q x l :
  queue_wf n q -> contents q = x :: l ->
  exists q', get_buffer_id q = Some (x, q') /\ queue_wf n q' /\ contents q' = l.
Proof.
  intros Hwf Hc. pose proof (length_contents n q Hwf) as Hl. rewrite Hc in Hl. simpl in Hl.
  destruct Hwf as [Hn Hr]. unfold get_buffer_id. rewrite (proj2 (Z.eqb_neq _ _)) by lia.
  pose proof (take_drop (Z.to_nat (count q)) (id q)) as Hid. fold (contents q) in Hid. rewrite Hc in Hid.
  set (rest := drop _ _) in Hid. rewrite <- Hid. cbn [app]. change (rd (x :: l ++ rest) 0) with (Some x). cbn [mbind option_bind].
  replace (Z.to_nat (count q - 1)) with (length l) by lia.
  destruct (shift_down_spec rest l [] x 0 eq_refl) as [z Hz]. cbn [app] in Hz. rewrite Hz. cbn [mbind option_bind].
  eexists. split; [done|]. rewrite <- Hid in Hn. rewrite length_app in Hn. cbn [length] in Hn.
  split; [split; simpl; rewrite ?length_app; simpl; lia|]. unfold contents. simpl. by rewrite take_app_length' by lia.
Qed.

Lemma put_last n q x :
  queue_wf n q -> count q < n ->
  exists q', put_buffer_id q x = Some q' /\ queue_wf n q' /\ contents q' = contents q ++ [x].
Proof.
  intros Hwf Hlt. pose proof (length_contents n q Hwf) as Hl. destruct Hwf as [Hn Hr].
  unfold put_buffer_id. pose proof (take_drop (Z.to_nat (count q)) (id q)) as Hid. fold (contents q) in Hid.
  destruct (drop (Z.to_nat (count q)) (id q)) as [|y rest] eqn:Hd.
  { apply (f_equal length) in Hd. rewrite length_drop in Hd. simpl in Hd. lia. }
  rewrite <- Hid. rewrite (wr_app (contents q)) by lia. cbn [mbind option_bind]. eexists. split; [done|].
  rewrite <- Hid in Hn. rewrite length_app in Hn. cbn [length] in Hn.
  split; [split; simpl; rewrite ?length_app; simpl; lia|]. unfold contents at 1. simpl.
  rewrite snoc_cons, take_app_length'; [done|]. rewrite length_app. simpl. lia.
Qed.

(** A queue holding every number is full: the array is written no further. *)
Lemma put_overflow q x : 0 <= count q -> Z.of_nat (length (id q)) <= count q -> put_buffer_id q x = None.
Proof.
  intros H0 H. unfold put_buffer_id, wr. rewrite (proj2 (Z.ltb_ge _ _)) by lia. by rewrite andb_false_r.
Qed.

(** ** Channels *)

Lemma regs_other d n n' f d' c r :
  set_regs d n f = Some d' -> 0 <= n -> n <> n' -> chan_at d n' c r -> chan_at d' n' c r.
Proof.
  intros H Hn Hne (Hr & Hc & Hd & Hio & Hrg). unfold set_regs in H.
  destruct (rd (regs d) n) as [r0|]; [|done]. simpl in H.
  destruct (wr (regs d) n (f r0)) as [rs|] eqn:E; [|done]. simpl in H. injection H as <-.
  repeat split; simpl; try done; try lia. rewrite (rd_wr _ _ _ _ _ E) by lia.
  by rewrite (proj2 (Z.eqb_neq _ _)) by lia.
Qed.

Lemma chan_other d n n' c0 d' c r :
  set_chan d n c0 = Some d' -> 0 <= n -> n <> n' -> chan_at d n' c r -> chan_at d' n' c r.
Proof.
  intros H Hn Hne (Hr & Hc & Hd & Hio & Hrg). unfold set_chan in H.
  destruct (wr (jz_dma_table d) n c0) as [t|] eqn:E; [|done]. simpl in H. injection H as <-.
  repeat split; simpl; try done; try lia. rewrite (rd_wr _ _ _ _ _ E) by lia.
  by rewrite (proj2 (Z.eqb_neq _ _)) by lia.
Qed.

(** [d'] is [d] with channel [n] changed to the record [c] and the registers [r]. *)
Definition chan_step (d : dma) (n : Z) (d' : dma) (c : jz_dma_chan) (r : dma_regs) : Prop :=
  chan_at d' n c r /\ forall n' c' r', n' <> n -> chan_at d n' c' r' -> chan_at d' n' c' r'.

Lemma chan_step_refl d n c r : chan_at d n c r -> chan_step d n d c r.
Proof. by split. Qed.

Lemma chan_step_trans d n d1 c1 r1 d2 c2 r2 :
  chan_step d n d1 c1 r1 -> chan_step d1 n d2 c2 r2 -> chan_step d n d2 c2 r2.
Proof. intros [_ H1] [H2 H3]. split; [done|]. auto. Qed.

Lemma regs_step d n c r f :
  chan_at d n c r -> exists d', set_regs d n f = Some d' /\ chan_step d n d' c (f r).
Proof.
  intros H. destruct (chan_at_regs d n c r f H) as (d' & E & H'). exists d'. split; [done|]. split; [done|].
  intros n' c' r' Hne. eapply regs_other; [exact E| |done]. destruct H; lia.
Qed.

Lemma mode_step d n c r m :
  chan_at d n c r -> exists d', set_chan d n (set_mode c m) = Some d' /\ chan_step d n d' (set_mode c m) r.
Proof.
  intros H. destruct (chan_at_chan d n c r m H) as (d' & E & H'). exists d'. split; [done|]. split; [done|].
  intros n' c' r' Hne. eapply chan_other; [exact E| |done]. destruct H; lia.
Qed.

Lemma testbit_clear x y n : 0 <= n < 32 -> Z.testbit (clear_bits x y) n = Z.testbit x n && negb (Z.testbit y n).
Proof.
  intros Hn. unfold clear_bits. rewrite Z.land_spec, Z.lxor_spec. change (2 ^ 32 - 1) with (Z.ones 32).
  by rewrite Z.ones_spec_low by lia.
Qed.

(** The enable and end-of-transfer bits. *)
Definition enabled (r : dma_regs) : bool := Z.testbit (DCCSR r) 0.
Definition ended (r : dma_regs) : bool := Z.testbit (DCCSR r) 3.

Lemma running_spec d n c r : chan_at d n c r -> running d n = Some (enabled r).
Proof. intros (_ & _ & _ & _ & Hr). unfold running. by rewrite Hr. Qed.

Lemma status_spec d n c r k :
  chan_at d n c r -> 0 <= k -> status d n (2 ^ k) = Some (Z.testbit (DCCSR r) k).
Proof. intros (_ & _ & _ & _ & Hr) Hk. unfold status. rewrite Hr. simpl. by rewrite land_pow2_testbit. Qed.

Lemma disable_step d n c r :
  chan_at d n c r -> exists d' r', disable_dma d n = Some d' /\ chan_step d n d' c r' /\
    enabled r' = false /\ ended r' = ended r /\ DTCR r' = DTCR r.
Proof.
  intros H. unfold disable_dma. rewrite (chan_at_get _ _ _ _ H). simpl.
  pose proof H as (_ & _ & _ & _ & Hr). rewrite Hr. simpl.
  destruct (Z.eqb_spec (Z.land (DCCSR r) DMAC_DCCSR_EN) 0) as [E|E].
  - exists d, r. split; [done|]. split; [by apply chan_step_refl|]. split; [|done]. unfold enabled.
    rewrite <- land_pow2_testbit by lia. change (2 ^ 0) with DMAC_DCCSR_EN. by rewrite E.
  - edestruct (regs_step d n c r) as (d1 & -> & H1); [exact H|]. simpl.
    assert (Hbits : forall k, 0 <= k < 32 -> Z.testbit (clear_bits (DCCSR r) DMAC_DCCSR_EN) k =
      Z.testbit (DCCSR r) k && negb (k =? 0)).
    { intros k Hk. rewrite testbit_clear by done. unfold DMAC_DCCSR_EN.
      by rewrite Z.pow2_bits_eqb, Z.eqb_sym by lia. }
    destruct (irq c =? 0); simpl.
    + eexists d1, _. split; [done|]. split; [exact H1|]. unfold enabled, ended. simpl.
      rewrite !Hbits by lia. by rewrite andb_false_r, andb_true_r.
    + edestruct (regs_step d1 n c) as (d2 & -> & H2); [exact (proj1 H1)|].
      eexists d2, _. split; [done|]. split; [eapply chan_step_trans; [exact H1|exact H2]|].
      unfold enabled, ended. simpl. rewrite !Hbits by lia. by rewrite andb_false_r, andb_true_r.
Qed.

(** Modes of the playing and recording channels: 32-bit units as requested, or
    16-byte units once a transfer of 16-bit samples was set up. *)
Definition mode4 (d : dir) : Z :=
  match d with Out => Z.lor DMA_32BIT_TX_CMD DMA_MODE_WRITE | In => Z.lor DMA_32BIT_RX_CMD DMA_MODE_READ end.
Definition mode16 (d : dir) : Z :=
  match d with
  | Out => Z.lor DMA_AIC_32_16BYTE_TX_CMD DMA_MODE_WRITE
  | In => Z.lor DMA_AIC_32_16BYTE_RX_CMD DMA_MODE_READ
  end.

Definition mode_wf (d : dir) (m : Z) : Prop := m = mode4 d \/ m = mode16 d.
Definition unit_of (d : dir) (m : Z) : Z := if m =? mode16 d then 16 else 4.

(** The mode of the next transfer in a sample format. *)
Definition next_audio_mode (d : dir) (format m : Z) : Z :=
  if format =? AFMT_S16_LE then mode16 d else m.

Lemma unit_size_of d c : mode_wf d (mode c) -> unit_size c = Some (unit_of d (mode c)).
Proof. intros [H|H]; unfold unit_size; rewrite H; destruct d; reflexivity. Qed.

Lemma next_audio_mode_wf d f m : mode_wf d m -> mode_wf d (next_audio_mode d f m).
Proof. unfold next_audio_mode. destruct (f =? AFMT_S16_LE); [by right|done]. Qed.

(** Where the memory address of a transfer is. *)
Definition mem_addr (d : dir) (r : dma_regs) : Z := match d with Out => DSAR r | In => DTAR r end.
Definition dma_mode (d : dir) : Z := match d with Out => DMA_MODE_WRITE | In => DMA_MODE_READ end.

Lemma oss_step d n c r k format :
  chan_at d n c r -> mode_wf k (mode c) -> exists d' r',
    jz_set_oss_dma d n (dma_mode k) format = Some d' /\
    chan_step d n d' (set_mode c (next_audio_mode k format (mode c))) r' /\
    DSAR r' = DSAR r /\ DCCSR r' = DCCSR r.
Proof.
  intros H Hm. unfold jz_set_oss_dma. rewrite (chan_at_get _ _ _ _ H). simpl. unfold next_audio_mode.
  change I2sFill.AFMT_S16_LE with 16. change Dma.AFMT_S16_LE with 16.
  destruct (format =? 16).
  - unfold set_audio_dma. rewrite (chan_at_get _ _ _ _ H). simpl.
    match goal with |- context [set_mode c ?m] => assert (E : m = mode16 k) by (destruct k; reflexivity) end.
    rewrite E. destruct (mode_step d n c r (mode16 k) H) as (d1 & -> & H1). simpl. unfold load_command.
    assert (Hio : io (set_mode c (mode16 k)) = n) by (apply H1). rewrite Hio.
    edestruct (regs_step d1 n) as (d2 & -> & H2); [exact (proj1 H1)|]. eexists d2, _. split; [done|].
    split; [eapply chan_step_trans; [exact H1|exact H2]|done].
  - exists d, r. split; [done|]. split; [|done]. apply chan_step_refl. by destruct c.
Qed.

(** [audio_start_dma]: the channel is set up for the memory and the size. *)
Lemma start_step s n k c r phy cnt :
  chan_at (dmac s) n c r -> mode_wf k (mode c) -> jz_audio_b (fmt s) <> 0 -> 0 < cnt ->
  let m := next_audio_mode k (jz_audio_format (fmt s)) (mode c) in
  exists d' r', audio_start_dma s n phy cnt (dma_mode k) =
      Some (set_dmac d' (set_flag (set_tran_count (Z.quot cnt (jz_audio_b (fmt s))) (flag s)) s)) /\
    chan_step (dmac s) n d' (set_mode c m) r' /\
    enabled r' = true /\ mem_addr k r' = phy /\ DTCR r' = cnt / unit_of k m.
Proof.
  intros H Hm Hb Hcnt m. unfold audio_start_dma. rewrite (proj2 (Z.eqb_neq _ _)) by done.
  destruct (disable_step _ _ _ _ H) as (d1 & r1 & E1 & H1 & _). simpl dmac. rewrite E1. simpl.
  destruct (oss_step d1 n c r1 k (jz_audio_format (fmt s)) (proj1 H1) Hm) as (d2 & r2 & -> & H2 & _). simpl.
  fold m in H2. pose proof (next_audio_mode_wf k (jz_audio_format (fmt s)) _ Hm) as Hm'. fold m in Hm'.
  pose proof (proj1 H2) as H2a. assert (Hio : io c = n) by apply H2a.
  unfold set_dma_addr. rewrite (chan_at_get _ _ _ _ H2a). simpl. rewrite Hio.
  assert (exists d3 r3, (if Z.land m DMA_MODE_MASK =? DMA_MODE_READ
      then set_regs d2 n (fun r => Regs (fifo_addr c) phy (DTCR r) (DRSR r) (DCCSR r) (DCMD r))
      else if Z.land m DMA_MODE_MASK =? DMA_MODE_WRITE
      then set_regs d2 n (fun r => Regs phy (fifo_addr c) (DTCR r) (DRSR r) (DCCSR r) (DCMD r)) else Some d2)
      = Some d3 /\ chan_step d2 n d3 (set_mode c m) r3 /\ mem_addr k r3 = phy) as (d3 & r3 & -> & H3 & Ha).
  { destruct k, Hm' as [-> | ->]; simpl;
      (edestruct (regs_step d2 n) as (d3 & Hs & H3); [exact H2a|]; rewrite Hs; eexists d3, _;
       split; [done|]; split; [exact H3|done]). }
  simpl. unfold set_dma_count. rewrite (chan_at_get _ _ _ _ (proj1 H3)). simpl.
  rewrite (unit_size_of k) by done. simpl. rewrite Hio, (proj2 (Z.eqb_neq cnt 0)) by lia.
  edestruct (regs_step d3 n) as (d4 & -> & H4); [exact (proj1 H3)|]. simpl.
  unfold enable_dma. rewrite (chan_at_get _ _ _ _ (proj1 H4)). simpl.
  edestruct (regs_step d4 n) as (d5 & -> & H5); [exact (proj1 H4)|]. simpl in H5 |- *.
  eexists d5, _. split; [done|]. split.
  { eapply chan_step_trans; [exact H1|]. eapply chan_step_trans; [exact H2|].
    eapply chan_step_trans; [exact H3|]. eapply chan_step_trans; [exact H4|exact H5]. }
  split; [|split; [by destruct k|done]]. unfold enabled. simpl. rewrite Z.lor_spec. by rewrite orb_true_r.
Qed.

Lemma enter_step s n c r :
  chan_at (dmac s) n c r -> exists d' r', irq_enter s n = Some (set_dmac d' s) /\ chan_step (dmac s) n d' c r' /\
    enabled r' = false /\ ended r' = ended r.
Proof.
  intros H. unfold irq_enter. destruct (disable_step _ _ _ _ H) as (d1 & r1 & -> & H1 & He & Ht & _).
  cbn [mbind option_bind]. change DMAC_DCCSR_AR with (2 ^ 4). rewrite (status_spec d1 n c r1 4 (proj1 H1)) by lia.
  cbn [mbind option_bind]. destruct (Z.testbit (DCCSR r1) 4).
  - destruct (regs_step d1 n c r1 (clear_status (2 ^ 4)) (proj1 H1)) as (d2 & -> & H2).
    eexists d2, _. split; [done|]. split; [eapply chan_step_trans; [exact H1|exact H2]|].
    unfold enabled, ended, clear_status in *. cbn [DCCSR]. rewrite !testbit_clear, He, Ht by lia.
    split; [done|]. change (Z.testbit (2 ^ 4) 3) with false. by rewrite andb_true_r.
  - exists d1, r1. done.
Qed.

(** The end of a transfer seen by the handler: from an enabled channel at the
    end of a transfer to a disabled one. *)
Lemma clear_end_step d n c r :
  chan_at d n c r -> exists d' r', set_regs d n (clear_status DMAC_DCCSR_TT) = Some d' /\ chan_step d n d' c r' /\
    enabled r' = enabled r.
Proof.
  intros H. destruct (regs_step d n c r (clear_status DMAC_DCCSR_TT) H) as (d' & E & H').
  eexists d', _. split; [done|]. split; [exact H'|]. unfold enabled, clear_status. cbn [DCCSR].
  rewrite testbit_clear by lia. change (Z.testbit DMAC_DCCSR_TT 0) with false. by rewrite andb_true_r.
Qed.

Lemma mark_done_step d n c r :
  chan_at d n c r -> exists d' r', mark_done d n = Some d' /\ chan_step d n d' c r' /\ ended r' = true.
Proof.
  intros H. unfold mark_done. edestruct (regs_step d n c r) as (d' & E & H'); [exact H|].
  eexists d', _. split; [exact E|]. split; [exact H'|]. unfold ended. cbn [DCCSR]. rewrite Z.lor_spec.
  change (Z.testbit DMAC_DCCSR_TT 3) with true. apply orb_true_r.
Qed.

Lemma transfer_words_spec d n c r k :
  chan_at d n c r -> mode_wf k (mode c) -> transfer_words d n = Some (DTCR r * unit_of k (mode c) / 4).
Proof.
  intros (_ & Hc & _ & _ & Hr) Hm. unfold transfer_words. rewrite Hc. simpl. rewrite (unit_size_of k) by done.
  simpl. by rewrite Hr.
Qed.

Lemma chan_at_fun d n c r c' r' : chan_at d n c r -> chan_at d n c' r' -> c' = c /\ r' = r.
Proof. intros (_ & H1 & _ & _ & H2) (_ & H3 & _ & _ & H4). rewrite H1 in H3. rewrite H2 in H4. by simplify_eq. Qed.
