(* ===== verification/I2sSystem.v ===== *)
(** * The invariant of the sound driver

    Every buffer of a direction is in exactly one of its three queues, or in the
    hands of the call that is moving it; at most one is busy, and the channel of
    the direction is enabled exactly when one is, with its address and size.
    Interrupts keep this at any time. *)

From S2P Require Import Prelude.
From S2P Require Import Dma.
From S2P Require Import I2sFill.
From S2P Require Import I2sCodec.
From S2P Require Import I2sDriver.
From S2P Require Import I2sQueues.

#[local] Arguments Z.eqb : simpl never.
#[local] Arguments Z.ltb : simpl never.
#[local] Arguments Z.leb : simpl never.
#[local] Arguments Z.land : simpl never.
#[local] Arguments Z.lor : simpl never.
#[local] Arguments Z.add : simpl never.
#[local] Arguments Z.sub : simpl never.
#[local] Arguments Z.mul : simpl never.
#[local] Arguments Z.of_nat : simpl never.
#[local] Arguments Z.to_nat : simpl never.
#[local] Arguments Z.testbit : simpl never.

(** ** Definitions *)

Definition chan_of (d : dir) (s : state) : Z := match d with Out => dma1 (ctl s) | In => dma2 (ctl s) end.

(** The numbers in the queues of a direction. *)
Definition qE (t : stream) : list Z := contents (empty_queue t).
Definition qF (t : stream) : list Z := contents (full_queue t).
Definition qB (t : stream) : list Z := contents (busy_queue t).

Record stream_ok (n : Z) (t : stream) (hand : list Z) : Prop := {
  so_empty : queue_wf n (empty_queue t);
  so_full : queue_wf n (full_queue t);
  so_busy : queue_wf n (busy_queue t);
  so_buf : Z.of_nat (length (dma_buf t)) = n;
  so_pbuf : dma_pbuf t = map virt_to_phys (dma_buf t);
  so_count : Z.of_nat (length (dma_buf_data_count t)) = n;
  so_perm : qE t ++ qF t ++ qB t ++ hand ≡ₚ seqZ 0 n;
  so_one : (length (qB t) <= 1)%nat }.

(** Distinct blocks of at least the fragment's size. *)
Record mem_ok (s : state) : Prop := {
  mo_nodup : NoDup (dma_pbuf (outs s) ++ dma_pbuf (ins s));
  mo_size : 0 < fragsize s;
  mo_blocks : Forall (fun p => exists blk, ram s !! p = Some blk /\
                        fragsize s <= 4 * Z.of_nat (length blk) < 2 ^ 32)
                     (dma_pbuf (outs s) ++ dma_pbuf (ins s)) }.

(** What buffer [i] holds is at most a fragment, and fits. *)
Definition sized (s : state) (t : stream) (i : Z) : Prop :=
  exists c blk, rd (dma_buf_data_count t) i = Some c /\ buffer s t i = Some blk /\
    0 < c <= fragsize s /\ fragsize s <= 4 * Z.of_nat (length blk).

(** The channel of direction [d], with the transfer of the busy buffer if it was
    started. *)
Definition chan_ok (d : dir) (started : bool) (s : state) : Prop :=
  exists c r, chan_at (dmac s) (chan_of d s) c r /\ mode_wf d (mode c) /\
    match qB (side d s) with
    | [i] =>
        if started then
          enabled r = true /\ rd (dma_pbuf (side d s)) i = Some (mem_addr d r) /\
          exists cnt, rd (dma_buf_data_count (side d s)) i = Some cnt /\ DTCR r = cnt / unit_of d (mode c)
        else enabled r = false
    | _ => enabled r = false
    end.

(** [hand] are the buffers out of the queues, [st] whether the busy buffer's
    transfer was started. *)
Record inv (hand : dir -> list Z) (st : dir -> bool) (s : state) : Prop := {
  i_total : 2 <= fragstotal s <= 64;
  i_stream : forall d, stream_ok (fragstotal s) (side d s) (hand d);
  i_mem : mem_ok s;
  i_chans : dma1 (ctl s) <> dma2 (ctl s);
  i_chan : forall d, chan_ok d (st d) s;
  i_fmt : audio_wf (fmt s);
  i_set : fill (fmt s) = None -> forall d, qB (side d s) = [] /\ (d = Out -> qF (side d s) = []);
  i_pop : pop_dma_flag (flag s) <> 1;
  i_lasts : length (save_last_samples s) = 64%nat;
  i_out : Forall (sized s (outs s)) (qF (outs s) ++ qB (outs s));
  i_in : st In = true -> Forall (sized s (ins s)) (qB (ins s)) }.

(** Nothing in hand, every busy buffer started. *)
Definition none : dir -> list Z := fun _ => [].
Definition all : dir -> bool := fun _ => true.

(** ** Consequences *)

Lemma hand_cases {n t h} : stream_ok n t h ->
  Z.of_nat (length (qE t)) + Z.of_nat (length (qF t)) + Z.of_nat (length (qB t)) + Z.of_nat (length h) = Z.max 0 n.
Proof.
  intros H. pose proof (Permutation_length (so_perm _ _ _ H)) as Hl. rewrite !length_app, length_seqZ in Hl. lia.
Qed.

Lemma number_range {n t h i} : stream_ok n t h -> i ∈ qE t \/ i ∈ qF t \/ i ∈ qB t \/ i ∈ h -> 0 <= i < n.
Proof.
  intros H Hi. assert (Hx : i ∈ qE t ++ qF t ++ qB t ++ h) by (rewrite !elem_of_app; tauto).
  rewrite (so_perm _ _ _ H) in Hx. apply elem_of_seqZ in Hx. lia.
Qed.

(** The first of a queue. *)
Lemma number_head {n t h i l} :
  stream_ok n t h -> qE t = i :: l \/ qF t = i :: l \/ qB t = i :: l -> 0 <= i < n.
Proof.
  intros H Hi. apply (number_range H). destruct Hi as [-> | [-> | ->]]; [left|right; left|do 2 right; left];
    apply list_elem_of_here.
Qed.

Lemma counts {n t h} : stream_ok n t h ->
  count (empty_queue t) = Z.of_nat (length (qE t)) /\ count (full_queue t) = Z.of_nat (length (qF t)) /\
  count (busy_queue t) = Z.of_nat (length (qB t)).
Proof.
  intros H. unfold qE, qF, qB.
  by rewrite !(length_contents n) by apply H.
Qed.

(** The block of a buffer, by its number. *)
Lemma buffer_block {s t n h i} :
  stream_ok n t h -> 0 <= i < n -> exists p, rd (dma_pbuf t) i = Some p /\ buffer s t i = ram s !! p.
Proof.
  intros H Hi. destruct (rd_lt (dma_buf t) i) as [a Ha]; [rewrite (so_buf _ _ _ H); lia|].
  exists (virt_to_phys a). unfold buffer. rewrite Ha. split; [|done].
  rewrite (so_pbuf _ _ _ H). rewrite rd_lookup in * by lia. by rewrite list_lookup_fmap, Ha.
Qed.

Lemma phys_of {n t h i a p} :
  stream_ok n t h -> rd (dma_buf t) i = Some a -> rd (dma_pbuf t) i = Some p -> virt_to_phys a = p.
Proof.
  intros H Ha Hp. pose proof (rd_Some_lt _ _ _ Ha). rewrite (so_pbuf _ _ _ H), rd_lookup in Hp by lia.
  rewrite rd_lookup in Ha by lia. rewrite list_lookup_fmap, Ha in Hp. by injection Hp.
Qed.

Lemma rd_elem {A} (l : list A) i x : rd l i = Some x -> x ∈ l.
Proof. unfold rd. destruct (0 <=? i); [|done]. apply list_elem_of_lookup_2. Qed.

Lemma block_size {hand st} s : inv hand st s -> forall d i p,
  0 <= i < fragstotal s -> rd (dma_pbuf (side d s)) i = Some p ->
  exists blk, ram s !! p = Some blk /\ fragsize s <= 4 * Z.of_nat (length blk) < 2 ^ 32.
Proof.
  intros H d i p Hi Hp. pose proof (mo_blocks _ (i_mem _ _ _ H)) as Hb. rewrite Forall_forall in Hb.
  apply Hb. apply elem_of_app. apply rd_elem in Hp. destruct d; [by left|by right].
Qed.

(** What the busy buffer's transfer is. *)
Lemma busy_started {hand st s d i} :
  inv hand st s -> qB (side d s) = [i] -> st d = true ->
  exists c r cnt blk, chan_at (dmac s) (chan_of d s) c r /\ mode_wf d (mode c) /\ enabled r = true /\
    rd (dma_pbuf (side d s)) i = Some (mem_addr d r) /\ rd (dma_buf_data_count (side d s)) i = Some cnt /\
    DTCR r = cnt / unit_of d (mode c) /\ ram s !! mem_addr d r = Some blk /\
    0 < cnt <= 4 * Z.of_nat (length blk).
Proof.
  intros H Hb Hs. destruct (i_chan _ _ _ H d) as (c & r & Hat & Hm & Hq). rewrite Hb, Hs in Hq.
  destruct Hq as (He & Hp & cnt & Hc & Ht).
  assert (Hz : sized s (side d s) i).
  { destruct d; [pose proof (i_out _ _ _ H) as Ho|pose proof (i_in _ _ _ H Hs) as Ho]; cbn [side] in Hb; rewrite Hb in Ho.
    - apply Forall_app in Ho as [_ Ho]. rewrite Forall_singleton in Ho. exact Ho.
    - rewrite Forall_singleton in Ho. exact Ho. }
  destruct Hz as (cnt' & blk & Hc' & Hbk & Hsz). rewrite Hc in Hc'. injection Hc' as <-.
  pose proof (i_stream _ _ _ H d) as Hok.
  assert (Hi : 0 <= i < fragstotal s) by (apply (number_head (l := []) Hok); auto).
  destruct (buffer_block (s := s) Hok Hi) as (p & Hp' & Hbk'). rewrite Hp in Hp'. injection Hp' as <-.
  exists c, r, cnt, blk. rewrite <- Hbk'. repeat (split; [done|]). lia.
Qed.

Lemma not_started {hand st s d} :
  inv hand st s -> qB (side d s) = [] \/ st d = false -> running (dmac s) (chan_of d s) = Some false.
Proof.
  intros H Hb. destruct (i_chan _ _ _ H d) as (c & r & Hat & _ & Hq). rewrite (running_spec _ _ _ _ Hat).
  f_equal. destruct Hb as [Hb|Hb]; rewrite Hb in Hq; [done|]. destruct (qB (side d s)) as [|? [|]]; done.
Qed.

Lemma busy_cases {hand st s} d : inv hand st s -> qB (side d s) = [] \/ exists i, qB (side d s) = [i].
Proof.
  intros H. pose proof (so_one _ _ _ (i_stream _ _ _ H d)) as Hl.
  destruct (qB (side d s)) as [|i [|j l]]; simpl in Hl; [by left|right; by exists i|lia].
Qed.

(** ** What an interrupt leaves alone *)

(** Formats, sizes, the codec, the user copy, the arrays, and the memory of the
    buffers of the other direction; the counters may change. *)
Record env (d : dir) (s s' : state) : Prop := {
  e_fmt : fmt s' = fmt s; e_mix : mix s' = mix s; e_total : fragstotal s' = fragstotal s;
  e_size : fragsize s' = fragsize s; e_lasts : save_last_samples s' = save_last_samples s;
  e_ctl : exists x y, ctl s' = set_totals x y (ctl s);
  e_pop : pop_dma_flag (flag s') = pop_dma_flag (flag s);
  e_first : first_record_call (flag s') = first_record_call (flag s);
  e_buf : dma_buf (side d s') = dma_buf (side d s);
  e_pbuf : dma_pbuf (side d s') = dma_pbuf (side d s);
  e_count : dma_buf_data_count (side d s') = dma_buf_data_count (side d s);
  e_ram : forall p, p ∈ dma_pbuf (side d s) -> ram s' !! p = ram s !! p }.

#[export] Instance env_refl d : Reflexive (env d).
Proof. intros s. split; try done. by exists (total_bytes (ctl s)), (blocks (ctl s)); destruct (ctl s). Qed.

#[export] Instance env_trans d : Transitive (env d).
Proof.
  intros s1 s2 s3 H1 H2. split; try (etransitivity; [apply H2|apply H1]).
  - destruct (e_ctl _ _ _ H1) as (x & y & E1), (e_ctl _ _ _ H2) as (x' & y' & E2). exists x', y'. by rewrite E2, E1.
  - by rewrite (e_pbuf _ _ _ H1).
  - done.
Qed.

(** ** The end of a transfer out *)

(** The words of buffer [i] that a transfer in units of [u] bytes moves. *)
Definition frag (s : state) (u i : Z) : list Z :=
  match rd (dma_buf_data_count (outs s)) i, buffer s (outs s) i with
  | Some c, Some blk => take (Z.to_nat (c / u * u / 4)) blk
  | _, _ => []
  end.

(** The playing channel's unit now, if a transfer is going on, and next time. *)
Definition unit_now (s : state) (u : Z) : Prop :=
  exists c r, chan_at (dmac s) (dma1 (ctl s)) c r /\
    unit_of Out (next_audio_mode Out (jz_audio_format (fmt s)) (mode c)) = u /\
    (enabled r = true -> unit_of Out (mode c) = u).

(** What has been played and what is on its way. *)
Definition flow (s : state) (u : Z) : list Z :=
  played s ++ concat (map (frag s u) (qB (outs s) ++ qF (outs s))).

(** ** Changes of one side

    What both directions share is kept. *)
Record keep (s s' : state) : Prop := {
  k_fmt : fmt s' = fmt s; k_total : fragstotal s' = fragstotal s; k_size : fragsize s' = fragsize s;
  k_dma : dma1 (ctl s') = dma1 (ctl s) /\ dma2 (ctl s') = dma2 (ctl s);
  k_pop : pop_dma_flag (flag s') = pop_dma_flag (flag s);
  k_lasts : length (save_last_samples s') = length (save_last_samples s);
  k_pbuf : forall d, dma_pbuf (side d s') = dma_pbuf (side d s);
  k_ram : forall p blk, ram s !! p = Some blk -> exists blk', ram s' !! p = Some blk' /\ length blk' = length blk }.

#[export] Instance keep_refl : Reflexive keep.
Proof. intros s. split; try done. intros p blk H. by exists blk. Qed.

Lemma chan_of_keep d s s' : keep s s' -> chan_of d s' = chan_of d s.
Proof. intros H. destruct (k_dma _ _ H). by destruct d. Qed.

Lemma mem_keep s s' : keep s s' -> mem_ok s -> mem_ok s'.
Proof.
  intros K M. pose proof (k_pbuf _ _ K Out) as Ho. pose proof (k_pbuf _ _ K In) as Hi. simpl in Ho, Hi.
  split; rewrite ?Ho, ?Hi, ?(k_size _ _ K); try apply M.
  eapply Forall_impl; [apply (mo_blocks _ M)|]. intros p (blk & Hb & Hl).
  destruct (k_ram _ _ K p blk Hb) as (blk' & -> & Hl'). exists blk'. by rewrite Hl'.
Qed.

Definition other (d : dir) : dir := match d with Out => In | In => Out end.

(** The numbers whose size matters. *)
Definition weighed (d : dir) (started : bool) (t : stream) : list Z :=
  match d with Out => qF t ++ qB t | In => if started then qB t else [] end.

Lemma inv_weighed {hand st s} d : inv hand st s -> Forall (sized s (side d s)) (weighed d (st d) (side d s)).
Proof.
  intros H. destruct d; simpl; [apply H|]. pose proof (i_in _ _ _ H) as Hi.
  destruct (st In); [by apply Hi|constructor].
Qed.

Lemma sized_keep s s' t i : keep s s' -> sized s t i -> sized s' t i.
Proof.
  intros K (c & blk & Hc & Hb & Hs). unfold buffer in Hb. destruct (rd (dma_buf t) i) as [a|] eqn:Ha; [|done].
  simpl in Hb. destruct (k_ram _ _ K _ _ Hb) as (blk' & Hb' & Hl). exists c, blk'. unfold buffer. rewrite Ha. simpl.
  by rewrite Hl, (k_size _ _ K).
Qed.

(** A change of direction [d] that keeps its part of the invariant. *)
Lemma inv_side d hand hand' st st' s s' :
  inv hand st s -> keep s s' -> side (other d) s' = side (other d) s ->
  hand' (other d) = hand (other d) -> st' (other d) = st (other d) ->
  stream_ok (fragstotal s) (side d s') (hand' d) ->
  (forall c r, chan_at (dmac s) (chan_of (other d) s) c r -> chan_at (dmac s') (chan_of (other d) s) c r) ->
  chan_ok d (st' d) s' ->
  Forall (sized s' (side d s')) (weighed d (st' d) (side d s')) ->
  (fill (fmt s) = None -> qB (side d s') = [] /\ (d = Out -> qF (side d s') = [])) ->
  inv hand' st' s'.
Proof.
  intros H K Hside Hh Hst Hok Hfr Hch Hsz Hset.
  assert (Hoth : Forall (sized s' (side (other d) s')) (weighed (other d) (st' (other d)) (side (other d) s'))).
  { rewrite Hside, Hst. eapply Forall_impl; [apply (inv_weighed (other d) H)|]. intros i. by apply sized_keep. }
  assert (Hcho : chan_ok (other d) (st' (other d)) s').
  { destruct (i_chan _ _ _ H (other d)) as (c & r & Hat & Hm & Hq). exists c, r. rewrite (chan_of_keep _ _ _ K).
    rewrite Hside, Hst. auto. }
  assert (Hd : forall P : dir -> Prop, P d -> P (other d) -> forall e, P e) by (intros P0 ? ? e; destruct d, e; done).
  split.
  - rewrite (k_total _ _ K). apply H.
  - rewrite (k_total _ _ K). apply Hd; [done|]. rewrite Hside, Hh. apply H.
  - apply (mem_keep _ _ K), H.
  - destruct (k_dma _ _ K) as [-> ->]. apply H.
  - by apply Hd.
  - rewrite (k_fmt _ _ K). apply H.
  - rewrite (k_fmt _ _ K). intros Hf. apply Hd; [by apply Hset|]. rewrite Hside. by apply (i_set _ _ _ H).
  - rewrite (k_pop _ _ K). apply H.
  - rewrite (k_lasts _ _ K). apply H.
  - destruct d; [exact Hsz|exact Hoth].
  - intros Hst'. destruct d; simpl in Hsz, Hoth; rewrite Hst' in *; done.
Qed.

(** A change that the invariant does not see. *)
Lemma inv_same hand st s s' :
  inv hand st s -> keep s s' -> (forall d, side d s' = side d s) -> dmac s' = dmac s -> inv hand st s'.
Proof.
  intros H K Hs Hd. apply (inv_side Out hand hand st st s); try done.
  - rewrite Hs. apply H.
  - by rewrite Hd.
  - destruct (i_chan _ _ _ H Out) as (c & r & Hx). exists c, r. by rewrite Hd, Hs, (chan_of_keep Out _ _ K).
  - rewrite Hs. eapply Forall_impl; [apply (inv_weighed Out H)|]. intros i. by apply sized_keep.
  - intros Hf. rewrite Hs. apply (i_set _ _ _ H Hf Out).
Qed.

(** ** The end of a transfer out *)

Lemma hw_play_spec {hand st s i} :
  inv hand st s -> qB (outs s) = [i] -> st Out = true ->
  exists c r r' d', chan_at (dmac s) (dma1 (ctl s)) c r /\ enabled r = true /\ mode_wf Out (mode c) /\
    hw_play s = Some (set_played (played s ++ frag s (unit_of Out (mode c)) i) (set_dmac d' s)) /\
    chan_step (dmac s) (dma1 (ctl s)) d' c r' /\ ended r' = true.
Proof.
  intros H Hb Hs. destruct (busy_started (d := Out) H Hb Hs) as (c & r & cnt & blk & Hat & Hm & He & Hp & Hc & Ht & Hr & Hz).
  destruct (mark_done_step _ _ _ _ Hat) as (d' & r' & Hd & Hstep & Hend). exists c, r, r', d'.
  split; [done|]. split; [done|]. split; [done|]. split; [|done]. unfold hw_play.
  pose proof Hat as (_ & _ & _ & _ & Hrg). simpl in Hrg, Hat, Hd, Hr, Hp, Hc.
  rewrite Hrg. cbn [mbind option_bind]. rewrite (transfer_words_spec _ _ _ _ Out Hat Hm). cbn [mbind option_bind].
  rewrite Hr. cbn [mbind option_bind]. rewrite Hd. cbn [mbind option_bind].
  set (u := unit_of Out (mode c)) in *. assert (Hu : 0 < u) by (unfold u, unit_of; destruct (_ =? _); lia).
  rewrite Ht. pose proof (Z.mul_div_le cnt u Hu).
  assert (cnt / u * u / 4 <= Z.of_nat (length blk)) by (apply Z.div_le_upper_bound; lia).
  rewrite (proj2 (Z.ltb_ge _ _)) by lia. do 3 f_equal. unfold frag. rewrite Hc.
  assert (Hi : 0 <= i < fragstotal s).
  { apply (number_head (l := []) (i_stream _ _ _ H Out)). auto. }
  destruct (buffer_block (s := s) (i_stream _ _ _ H Out) Hi) as (p & Hp' & Hbk). simpl in Hp', Hbk.
  rewrite Hp in Hp'. injection Hp' as <-. by rewrite Hbk, Hr.
Qed.

(** Moving the heads of queues keeps the numbers. *)
Lemma perm_free (E F B h X : list Z) i : E ++ F ++ (i :: B) ++ h ≡ₚ X -> (E ++ [i]) ++ F ++ B ++ h ≡ₚ X.
Proof. intros <-. rewrite <- app_assoc. apply Permutation_app_head. simpl. by rewrite Permutation_middle. Qed.

Lemma perm_start (E F B h X : list Z) j : E ++ (j :: F) ++ B ++ h ≡ₚ X -> E ++ F ++ (B ++ [j]) ++ h ≡ₚ X.
Proof.
  intros <-. apply Permutation_app_head. simpl. rewrite <- app_assoc. simpl.
  rewrite (app_assoc F). rewrite <- Permutation_middle. by rewrite <- app_assoc.
Qed.

(** The queue operations of the handler: buffer [i] is freed and, if there is
    one, the first full buffer becomes busy. *)
Lemma tx_queues n t h i :
  stream_ok n t h -> qB t = [i] -> 0 < n ->
  exists b e, get_buffer_id (busy_queue t) = Some (i, b) /\ put_buffer_id (empty_queue t) i = Some e /\
    match qF t with
    | [] => get_buffer_id (full_queue t) = Some (-1, full_queue t) /\
        let t' := Stream e (full_queue t) (Queue 0 (id b)) (dma_buf t) (dma_pbuf t) (dma_buf_data_count t) in
        stream_ok n t' h /\ qE t' = qE t ++ [i] /\ qF t' = [] /\ qB t' = []
    | j :: l => exists f b', get_buffer_id (full_queue t) = Some (j, f) /\ put_buffer_id b j = Some b' /\
        let t' := Stream e f b' (dma_buf t) (dma_pbuf t) (dma_buf_data_count t) in
        stream_ok n t' h /\ qE t' = qE t ++ [i] /\ qF t' = l /\ qB t' = [j]
    end.
Proof.
  intros H Hb Hn. destruct (get_first n _ i [] (so_busy _ _ _ H) Hb) as (b & Eb & Wb & Cb).
  pose proof (hand_cases H) as Hc. pose proof (counts H) as (He & Hf & Hbb). rewrite Hb in Hc. simpl in Hc.
  destruct (put_last n (empty_queue t) i (so_empty _ _ _ H)) as (e & Ee & We & Ce); [lia|].
  exists b, e. split; [done|]. split; [done|].
  pose proof (so_perm _ _ _ H) as Hp. rewrite Hb in Hp. apply (perm_free (qE t) (qF t) []) in Hp.
  fold (qE t) in Ce. destruct (qF t) as [|j l] eqn:HF.
  - split; [by rewrite get_empty by (rewrite Hf; done)|]. cbv zeta. unfold qE, qF, qB. simpl. rewrite Ce.
    assert (contents (Queue 0 (id b)) = []) as -> by done. fold (qF t). rewrite HF.
    split; [|done]. split; simpl; try apply H; try done; unfold qE, qF, qB; simpl.
    + destruct Wb as [Wl _]. split; simpl; lia.
    + rewrite Ce. fold (qF t). by rewrite HF.
    + lia.
  - destruct (get_first n _ j l (so_full _ _ _ H) HF) as (f & Ef & Wf & Cf).
    destruct (put_last n b j Wb) as (b' & Eb' & Wb' & Cb').
    { pose proof (length_contents n b Wb) as Hl. rewrite Cb in Hl. simpl in Hl. lia. }
    exists f, b'. split; [done|]. split; [done|]. cbv zeta. rewrite Cb in Cb'. unfold qE, qF, qB. simpl.
    rewrite Ce, Cf, Cb'. split; [|done]. split; simpl; try apply H; try done; unfold qE, qF, qB; simpl.
    + rewrite Ce, Cf, Cb'. apply (perm_start _ _ [] h _ j). exact Hp.
    + rewrite Cb'. simpl. lia.
Qed.

(** Numbers and memory of a side whose arrays are the same. *)
Lemma sized_same s s' t t' i :
  dma_buf t' = dma_buf t -> dma_buf_data_count t' = dma_buf_data_count t -> ram s' = ram s ->
  fragsize s' = fragsize s -> sized s t i -> sized s' t' i.
Proof. intros Hb Hc Hr Hz H. unfold sized, buffer in *. by rewrite Hb, Hc, Hr, Hz. Qed.

Lemma frag_same s s' u i :
  dma_buf (outs s') = dma_buf (outs s) -> dma_buf_data_count (outs s') = dma_buf_data_count (outs s) ->
  ram s' = ram s -> frag s' u i = frag s u i.
Proof. intros Hb Hc Hr. unfold frag, buffer. by rewrite Hb, Hc, Hr. Qed.

Lemma width_set a k : audio_wf a -> fill a = Some k -> jz_audio_b a <> 0.
Proof. intros (_ & _ & _ & _ & ->) ->. by destruct k. Qed.

(** The state after the interrupt that ends the transfer of buffer [i]. *)
Record tx_done (hand : dir -> list Z) (st : dir -> bool) (i u : Z) (s s' : state) : Prop := {
  td_inv : inv hand st s';
  td_env : forall d, env d s s';
  td_ins : ins s' = ins s;
  td_captured : captured s' = captured s;
  td_played : played s' = played s ++ frag s u i;
  td_empty : qE (outs s') = qE (outs s) ++ [i];
  td_next : qB (outs s') ++ qF (outs s') = qF (outs s) /\ (qF (outs s) <> [] -> qB (outs s') <> []);
  td_unit : unit_now s u -> unit_now s' u;
  td_same : forall v, unit_now s v -> v = u;
  td_ram : ram s' = ram s }.

(** The state after the handler, by its parts. *)
Lemma tx_finish hand st i u s f t x y d' c r c' r' :
  inv hand st s -> st Out = true -> qB (outs s) = [i] ->
  chan_at (dmac s) (dma1 (ctl s)) c r -> enabled r = true -> unit_of Out (mode c) = u ->
  stream_ok (fragstotal s) t (hand Out) -> dma_buf t = dma_buf (outs s) -> dma_pbuf t = dma_pbuf (outs s) ->
  dma_buf_data_count t = dma_buf_data_count (outs s) ->
  qE t = qE (outs s) ++ [i] -> qB t ++ qF t = qF (outs s) -> (qF (outs s) <> [] -> qB t <> []) ->
  chan_step (dmac s) (dma1 (ctl s)) d' c' r' -> mode_wf Out (mode c') ->
  match qB t with
  | [j] => enabled r' = true /\ rd (dma_pbuf t) j = Some (DSAR r') /\
      mode c' = next_audio_mode Out (jz_audio_format (fmt s)) (mode c) /\
      exists cnt, rd (dma_buf_data_count t) j = Some cnt /\ DTCR r' = cnt / unit_of Out (mode c')
  | _ => enabled r' = false /\ c' = c
  end ->
  pop_dma_flag f = pop_dma_flag (flag s) -> first_record_call f = first_record_call (flag s) ->
  tx_done hand st i u s
    (set_flag f (set_outs t (set_ctl (set_totals x y (ctl s)) (set_played (played s ++ frag s u i) (set_dmac d' s))))).
Proof.
  intros H Hs Hb Hat He Hu Hok Hbuf Hpb Hdc HE HF Hne Hstep Hm' Hq Hpop Hfirst.
  assert (Henv : forall d, env d s
    (set_flag f (set_outs t (set_ctl (set_totals x y (ctl s)) (set_played (played s ++ frag s u i) (set_dmac d' s)))))).
  { intros d. split; try done; [by exists x, y|..]; destruct d; done. }
  split; simpl; try done.
  - apply (inv_side Out hand hand st st s).
    + done.
    + split; try done; [|by intros p blk Hp; exists blk]. intros [|]; done.
    + done.
    + done.
    + done.
    + done.
    + simpl. intros c0 r0. apply (proj2 Hstep). apply not_eq_sym, H.
    + exists c', r'. split; [exact (proj1 Hstep)|]. split; [done|]. simpl. rewrite Hs.
      destruct (qB t) as [|j [|]]; [apply Hq| |apply Hq]. destruct Hq as (? & ? & _ & ?). done.
    + simpl. eapply Forall_impl; [|intros j; by apply sized_same].
      pose proof (i_out _ _ _ H) as Ho. rewrite <- HF in Ho.
      apply Forall_app in Ho as [Ho _]. apply Forall_app in Ho as [? ?]. by apply Forall_app.
    + simpl. intros Hf. destruct (i_set _ _ _ H Hf Out) as [Hx _]. simpl in Hx. congruence.
  - intros (c0 & r0 & Hat0 & Hn & Hr). destruct (chan_at_fun _ _ _ _ _ _ Hat Hat0) as [-> ->]. exists c', r'.
    split; [exact (proj1 Hstep)|]. simpl. assert (Hnx : forall m, next_audio_mode Out (jz_audio_format (fmt s))
      (next_audio_mode Out (jz_audio_format (fmt s)) m) = next_audio_mode Out (jz_audio_format (fmt s)) m).
    { intros m. unfold next_audio_mode. by destruct (_ =? _). }
    destruct (qB t) as [|j [|]].
    + destruct Hq as [Hq ->]. split; [done|]. rewrite Hq. done.
    + destruct Hq as (_ & _ & -> & _). rewrite Hnx. done.
    + destruct Hq as [Hq ->]. split; [done|]. rewrite Hq. done.
  - intros v (c0 & r0 & Hat0 & _ & Hr). destruct (chan_at_fun _ _ _ _ _ _ Hat Hat0) as [-> ->].
    by rewrite <- Hu, Hr.
Qed.

(** Until the queues: the channel is disabled and its status clear. *)
Lemma replay_irq_enter s c r :
  chan_at (dmac s) (dma1 (ctl s)) c r -> ended r = true -> pop_dma_flag (flag s) <> 1 ->
  exists d' r' f x y, chan_step (dmac s) (dma1 (ctl s)) d' c r' /\ enabled r' = false /\
    pop_dma_flag f = pop_dma_flag (flag s) /\ first_record_call f = first_record_call (flag s) /\
    jz_i2s_replay_dma_irq s =
      (s' ← replay_next (set_flag f (set_ctl (set_totals x y (ctl s)) (set_dmac d' s))) (dma1 (ctl s));
       Some (0 <? elements_in_queue (empty_queue (outs s')), s')).
Proof.
  intros Hat Hend Hpop. unfold jz_i2s_replay_dma_irq.
  destruct (enter_step s _ c r Hat) as (d2 & r2 & E2 & H2 & Hdis & Hend2). rewrite E2. cbn [mbind option_bind].
  assert (status d2 (dma1 (ctl s)) DMAC_DCCSR_TT = Some (ended r2)) as Hst
    by (apply (status_spec _ _ c r2 3 (proj1 H2)); lia).
  change (dmac (set_dmac d2 s)) with d2. rewrite Hst, Hend2, Hend. cbn [mbind option_bind].
  destruct (clear_end_step d2 _ c r2 (proj1 H2)) as (d3 & r3 & E3 & H3 & Hdis3). rewrite E3. cbn [mbind option_bind].
  rewrite Hdis in Hdis3. change (flag (set_dmac d3 (set_dmac d2 s))) with (flag s).
  rewrite (proj2 (Z.eqb_neq _ _) Hpop).
  assert (Hd : exists f, end_drain (set_dmac d3 (set_dmac d2 s)) = set_flag f (set_dmac d3 s) /\
     pop_dma_flag f = pop_dma_flag (flag s) /\ first_record_call f = first_record_call (flag s)).
  { unfold end_drain. destruct (_ && _); [by exists (set_drain 0 (flag s))|by exists (flag s)]. }
  destruct Hd as (f & -> & Hf & Hf1). eexists d3, r3, f, _, _. split; [eapply chan_step_trans; [exact H2|exact H3]|].
  split; [done|]. split; [done|]. split; [done|]. reflexivity.
Qed.

(** The queues, and the start of the next transfer. *)
Lemma replay_next_spec hand st i s u f x y d3 c r r3 :
  inv hand st s -> qB (outs s) = [i] -> st Out = true ->
  chan_at (dmac s) (dma1 (ctl s)) c r -> enabled r = true -> mode_wf Out (mode c) -> unit_of Out (mode c) = u ->
  chan_step (dmac s) (dma1 (ctl s)) d3 c r3 -> enabled r3 = false -> pop_dma_flag f = pop_dma_flag (flag s) ->
  first_record_call f = first_record_call (flag s) ->
  exists s', replay_next (set_flag f (set_ctl (set_totals x y (ctl s))
                            (set_played (played s ++ frag s u i) (set_dmac d3 s)))) (dma1 (ctl s)) = Some s' /\
    tx_done hand st i u s s'.
Proof.
  intros H Hb Hs Hat He Hm Hu Hstep Hdis Hpop Hfirst.
  pose proof (i_stream _ _ _ H Out) as Hok. simpl in Hok. pose proof (i_total _ _ _ H) as Ht.
  destruct (tx_queues _ _ _ i Hok Hb ltac:(lia)) as (b & e & Gb & Pe & Hq). unfold replay_next.
  cbn [outs set_flag set_ctl set_played set_dmac]. rewrite Gb. cbn [mbind option_bind]. rewrite Pe. cbn [mbind option_bind].
  destruct (qF (outs s)) as [|j l] eqn:HF.
  - destruct Hq as (Gf & Hok' & CE & CF & CB). rewrite Gf. cbn [mbind option_bind].
    change (0 <=? -1) with false. eexists. split; [reflexivity|].
    apply (tx_finish hand st i u s f
      (Stream e (full_queue (outs s)) (Queue 0 (id b)) (dma_buf (outs s)) (dma_pbuf (outs s)) (dma_buf_data_count (outs s)))
      x y d3 c r c r3); done.
  - destruct Hq as (f' & b' & Gf & Pb & Hok' & CE & CF & CB). rewrite Gf. cbn [mbind option_bind].
    assert (Hz : sized s (outs s) j).
    { pose proof (i_out _ _ _ H) as Ho. rewrite HF in Ho. by inversion Ho. }
    destruct Hz as (cnt & blk & Hc & _ & Hcnt).
    assert (Hj : 0 <= j < fragstotal s) by (apply (number_head (l := l) Hok); auto).
    rewrite (proj2 (Z.leb_le 0 j)) by lia. rewrite Pb. cbn [mbind option_bind].
    rewrite Hc. cbn [mbind option_bind]. rewrite (proj2 (Z.ltb_lt 0 cnt)) by lia.
    destruct (buffer_block (s := s) Hok Hj) as (p & Hp & _). rewrite Hp. cbn [mbind option_bind].
    assert (Hset : exists k, fill (fmt s) = Some k).
    { destruct (fill (fmt s)) as [k|] eqn:Hf; [by exists k|].
      destruct (i_set _ _ _ H Hf Out) as [Hx _]. simpl in Hx. congruence. }
    destruct Hset as [k Hk]. match goal with |- context [audio_start_dma ?x _ _ _ _] => set (s3 := x) end.
    destruct (start_step s3 (dma1 (ctl s)) Out c r3 p cnt (proj1 Hstep) Hm
      (width_set _ _ (i_fmt _ _ _ H) Hk) ltac:(lia)) as (d4 & r4 & E4 & H4 & He4 & Ha4 & Ht4).
    cbn [dma_mode] in E4. rewrite E4. cbn [mbind option_bind]. eexists. split; [reflexivity|].
    apply (tx_finish hand st i u s (set_last_id j (set_tran_count (Z.quot cnt (jz_audio_b (fmt s))) f))
      (Stream e f' b' (dma_buf (outs s)) (dma_pbuf (outs s)) (dma_buf_data_count (outs s)))
      x y d4 c r (set_mode c (next_audio_mode Out (jz_audio_format (fmt s)) (mode c))) r4); try done.
    + by rewrite CB, CF, HF.
    + by rewrite CB.
    + eapply chan_step_trans; [exact Hstep|exact H4].
    + by apply next_audio_mode_wf.
    + rewrite CB. simpl. split; [done|]. split; [by rewrite Hp, <- Ha4|]. split; [done|]. by exists cnt.
Qed.

Lemma tx_step {hand st s i} :
  inv hand st s -> qB (outs s) = [i] -> st Out = true ->
  exists u s', deliver s Tx = Some (true, false, s') /\ tx_done hand st i u s s'.
Proof.
  intros H Hb Hs. destruct (hw_play_spec H Hb Hs) as (c & r & r1 & d1 & Hat & He & Hm & Hplay & H1 & Hend).
  unfold deliver. rewrite (running_spec _ _ _ _ Hat), He. cbn [mbind option_bind]. rewrite Hplay. cbn [mbind option_bind].
  set (u := unit_of Out (mode c)) in *. set (s1 := set_played _ _).
  destruct (replay_irq_enter s1 c r1 (proj1 H1) Hend (i_pop _ _ _ H)) as (d3 & r3 & f & x & y & H3 & Hdis & Hf & Hf1 & ->).
  destruct (replay_next_spec hand st i s u f x y d3 c r r3) as (s' & E & Hd); try done.
  { eapply chan_step_trans; [exact H1|exact H3]. }
  change (set_flag f (set_ctl (set_totals x y (ctl s1)) (set_dmac d3 s1))) with
    (set_flag f (set_ctl (set_totals x y (ctl s)) (set_played (played s ++ frag s u i) (set_dmac d3 s)))).
  change (dma1 (ctl s1)) with (dma1 (ctl s)). rewrite E. cbn [mbind option_bind]. exists u, s'. split; [|done].
  do 3 f_equal. pose proof (counts (i_stream _ _ _ (td_inv _ _ _ _ _ _ Hd) Out)) as (Hce & _). simpl in Hce.
  unfold elements_in_queue. rewrite Hce, (td_empty _ _ _ _ _ _ Hd), length_app. simpl. apply Z.ltb_lt. lia.
Qed.

(** ** The end of a transfer in *)

(** The words of a fragment that was recorded into buffer [i]. *)
Definition heard (s : state) (i : Z) : list Z :=
  match buffer s (ins s) i with Some blk => take (Z.to_nat (fragsize s / 4)) blk | None => [] end.

(** Every started recording is for a whole fragment. *)
Definition whole_fragments (s : state) : Prop :=
  (16 | fragsize s) /\ Forall (fun i => rd (dma_buf_data_count (ins s)) i = Some (fragsize s)) (qB (ins s)).

Lemma perm_fill (E F B h X : list Z) i : E ++ F ++ (i :: B) ++ h ≡ₚ X -> E ++ (F ++ [i]) ++ B ++ h ≡ₚ X.
Proof. intros <-. apply Permutation_app_head. by rewrite <- app_assoc. Qed.

Lemma perm_again (E F B h X : list Z) j : (j :: E) ++ F ++ B ++ h ≡ₚ X -> E ++ F ++ (B ++ [j]) ++ h ≡ₚ X.
Proof.
  intros <-. simpl. rewrite <- (app_assoc B). simpl. rewrite !app_assoc. rewrite <- Permutation_middle.
  by rewrite <- !app_assoc.
Qed.

(** The queue operations of the handler: buffer [i] is full and, if there is
    one, the first empty buffer becomes busy. *)
Lemma rx_queues n t h i :
  stream_ok n t h -> qB t = [i] -> 0 < n ->
  exists b f, get_buffer_id (busy_queue t) = Some (i, b) /\ put_buffer_id (full_queue t) i = Some f /\
    match qE t with
    | [] => get_buffer_id (empty_queue t) = Some (-1, empty_queue t) /\
        let t' := Stream (empty_queue t) f (Queue 0 (id b)) (dma_buf t) (dma_pbuf t) (dma_buf_data_count t) in
        stream_ok n t' h /\ qF t' = qF t ++ [i] /\ qE t' = [] /\ qB t' = []
    | j :: l => exists e b', get_buffer_id (empty_queue t) = Some (j, e) /\ put_buffer_id b j = Some b' /\
        forall dc, length dc = length (dma_buf_data_count t) ->
        let t' := Stream e f b' (dma_buf t) (dma_pbuf t) dc in
        stream_ok n t' h /\ qF t' = qF t ++ [i] /\ qE t' = l /\ qB t' = [j]
    end.
Proof.
  intros H Hb Hn. destruct (get_first n _ i [] (so_busy _ _ _ H) Hb) as (b & Eb & Wb & Cb).
  pose proof (hand_cases H) as Hc. pose proof (counts H) as (He & Hf & Hbb). rewrite Hb in Hc. simpl in Hc.
  destruct (put_last n (full_queue t) i (so_full _ _ _ H)) as (f & Ef & Wf & Cf); [lia|].
  exists b, f. split; [done|]. split; [done|].
  pose proof (so_perm _ _ _ H) as Hp. rewrite Hb in Hp. apply (perm_fill (qE t) (qF t) []) in Hp.
  fold (qF t) in Cf. destruct (qE t) as [|j l] eqn:HE.
  - split; [by rewrite get_empty by (rewrite He; done)|]. cbv zeta. unfold qE, qF, qB. simpl. rewrite Cf.
    assert (contents (Queue 0 (id b)) = []) as -> by done. fold (qE t). rewrite HE.
    split; [|done]. split; simpl; try apply H; try done; unfold qE, qF, qB; simpl.
    + destruct Wb as [Wl _]. split; simpl; lia.
    + rewrite Cf. fold (qE t). by rewrite HE.
    + lia.
  - destruct (get_first n _ j l (so_empty _ _ _ H) HE) as (e & Ee & We & Ce).
    destruct (put_last n b j Wb) as (b' & Eb' & Wb' & Cb').
    { pose proof (length_contents n b Wb) as Hl. rewrite Cb in Hl. simpl in Hl. lia. }
    exists e, b'. split; [done|]. split; [done|]. intros dc Hdc. cbv zeta. rewrite Cb in Cb'. unfold qE, qF, qB. simpl.
    rewrite Ce, Cf, Cb'. split; [|done]. split; simpl; try apply H; try done; unfold qE, qF, qB; simpl.
    + rewrite Hdc. apply H.
    + rewrite Ce, Cf, Cb'. apply (perm_again _ _ [] h _ j). exact Hp.
    + rewrite Cb'. simpl. lia.
Qed.

Lemma hw_record_spec {hand st s i data} :
  inv hand st s -> qB (ins s) = [i] -> st In = true ->
  exists c r n, chan_at (dmac s) (dma2 (ctl s)) c r /\ enabled r = true /\ mode_wf In (mode c) /\
    transfer_words (dmac s) (dma2 (ctl s)) = Some n /\ 0 <= n /\
    (rd (dma_buf_data_count (ins s)) i = Some (fragsize s) -> (16 | fragsize s) -> n = fragsize s / 4) /\
    (n <= Z.of_nat (length data) -> exists p blk d' r',
      rd (dma_pbuf (ins s)) i = Some p /\ ram s !! p = Some blk /\ n <= Z.of_nat (length blk) /\
      hw_record s data = Some (set_captured (captured s ++ take (Z.to_nat n) data)
        (set_ram (<[p := take (Z.to_nat n) data ++ drop (Z.to_nat n) blk]> (ram s)) (set_dmac d' s))) /\
      chan_step (dmac s) (dma2 (ctl s)) d' c r' /\ ended r' = true).
Proof.
  intros H Hb Hs. destruct (busy_started (d := In) H Hb Hs) as (c & r & cnt & blk & Hat & Hm & He & Hp & Hc & Ht & Hr & Hz).
  pose proof (transfer_words_spec _ _ _ _ In Hat Hm) as Hw. simpl in Hat, Hw, Hp, Hc, Hr.
  set (u := unit_of In (mode c)) in *. assert (Hu : u = 16 \/ u = 4) by (unfold u, unit_of; destruct (_ =? _); auto).
  assert (Hle : u * (cnt / u) <= cnt) by (apply Z.mul_div_le; lia).
  assert (0 <= cnt / u) by (apply Z.div_pos; lia).
  set (n := DTCR r * u / 4) in *. assert (Hn : 0 <= n <= Z.of_nat (length blk)).
  { unfold n. rewrite Ht. split; [apply Z.div_pos; nia|apply Z.div_le_upper_bound; lia]. }
  exists c, r, n. split; [done|]. split; [done|]. split; [done|]. split; [done|]. split; [lia|]. split.
  { intros Hf [m Hm16]. rewrite Hc in Hf. injection Hf as ->. unfold n. rewrite Ht, Hm16.
    destruct Hu as [-> | ->]; [by rewrite Z.div_mul by lia|].
    replace (m * 16) with (m * 4 * 4) by lia. by rewrite !Z.div_mul by lia. }
  intros Hlen. destruct (mark_done_step _ _ _ _ Hat) as (d' & r' & Hd & Hstep & Hend).
  exists (DTAR r), blk, d', r'. split; [done|]. split; [done|]. split; [lia|]. split; [|done].
  unfold hw_record. pose proof Hat as (_ & _ & _ & _ & Hrg). rewrite Hrg. cbn [mbind option_bind].
  rewrite Hw. cbn [mbind option_bind]. rewrite Hr. cbn [mbind option_bind]. rewrite Hd. cbn [mbind option_bind].
  rewrite (proj2 (Z.ltb_ge _ _)) by lia. do 4 f_equal. rewrite length_take. do 2 f_equal. f_equal. lia.
Qed.

(** The state after the interrupt that ends the recording into buffer [i]. *)
Record rx_done (hand : dir -> list Z) (st : dir -> bool) (i : Z) (got : list Z) (s s' : state) : Prop := {
  xd_inv : inv hand st s';
  xd_env : env Out s s';
  xd_outs : outs s' = outs s;
  xd_played : played s' = played s;
  xd_captured : captured s' = captured s ++ got;
  xd_arrays : dma_buf (ins s') = dma_buf (ins s) /\ dma_pbuf (ins s') = dma_pbuf (ins s);
  xd_full : qF (ins s') = qF (ins s) ++ [i];
  xd_next : qB (ins s') ++ qE (ins s') = qE (ins s);
  xd_flag : first_record_call (flag s') = first_record_call (flag s);
  xd_unit : forall c r, chan_at (dmac s) (dma1 (ctl s)) c r -> chan_at (dmac s') (dma1 (ctl s')) c r;
  xd_whole : whole_fragments s -> whole_fragments s' /\ heard s' i = got /\
    forall j, j <> i -> 0 <= j < fragstotal s -> heard s' j = heard s j }.

(** Two buffers have two blocks. *)
Lemma blocks_differ {hand st s d e i j p q} :
  inv hand st s -> rd (dma_pbuf (side d s)) i = Some p -> rd (dma_pbuf (side e s)) j = Some q ->
  (d, i) <> (e, j) -> p <> q.
Proof.
  intros H Hp Hq Hne ->. pose proof (mo_nodup _ (i_mem _ _ _ H)) as Hnd.
  apply NoDup_app in Hnd as (Ho & Hd & Hi).
  assert (Hsame : forall t : stream, NoDup (dma_pbuf t) -> rd (dma_pbuf t) i = Some q -> rd (dma_pbuf t) j = Some q -> i = j).
  { intros t Ht Hp' Hq'. pose proof (rd_Some_lt _ _ _ Hp'). pose proof (rd_Some_lt _ _ _ Hq').
    rewrite rd_lookup in Hp', Hq' by lia. pose proof (NoDup_lookup _ _ _ _ Ht Hp' Hq'). lia. }
  destruct d, e; simpl in Hp, Hq.
  - apply Hne. f_equal. by apply (Hsame (outs s)).
  - apply rd_elem in Hp, Hq. by apply (Hd q).
  - apply rd_elem in Hp, Hq. by apply (Hd q).
  - apply Hne. f_equal. by apply (Hsame (ins s)).
Qed.

(** The state after the recording of [got] into the block [p] of buffer [i]. *)
Definition recorded (s : state) (f : flags) (t : stream) (x y p : Z) (got blk : list Z) (d' : dma) : state :=
  set_flag f (set_ins t (set_ctl (set_totals x y (ctl s)) (set_captured (captured s ++ got)
    (set_ram (<[p := got ++ drop (length got) blk]> (ram s)) (set_dmac d' s))))).

Lemma recorded_keep s f t x y p got blk d' :
  dma_pbuf t = dma_pbuf (ins s) -> pop_dma_flag f = pop_dma_flag (flag s) ->
  ram s !! p = Some blk -> (length got <= length blk)%nat ->
  keep s (recorded s f t x y p got blk d').
Proof.
  intros Hpb Hpop Hp Hl. split; try done; simpl.
  - intros [|]; simpl; done.
  - intros q b Hq. destruct (decide (p = q)) as [->|Hne].
    + rewrite Hp in Hq. injection Hq as <-. rewrite lookup_insert_eq. eexists. split; [done|].
      rewrite length_app, length_drop. lia.
    + rewrite lookup_insert_ne by done. by exists b.
Qed.

Lemma recorded_heard hand st s f t x y p got blk d' i n :
  inv hand st s -> rd (dma_pbuf (ins s)) i = Some p -> ram s !! p = Some blk -> dma_buf t = dma_buf (ins s) ->
  0 <= i < fragstotal s -> n = fragsize s / 4 -> length got = Z.to_nat n -> (length got <= length blk)%nat ->
  let s' := recorded s f t x y p got blk d' in
  heard s' i = got /\ forall j, j <> i -> 0 <= j < fragstotal s -> heard s' j = heard s j.
Proof.
  intros H Hp Hblk Hbuf Hi Hn Hg Hl s'. pose proof (i_stream _ _ _ H In) as Hok. simpl in Hok.
  assert (Hb : forall j, buffer s' (ins s') j = a ← rd (dma_buf (ins s)) j; ram s' !! virt_to_phys a).
  { intros j. unfold buffer. simpl. by rewrite Hbuf. }
  assert (Hphys : forall j q, 0 <= j < fragstotal s -> rd (dma_pbuf (ins s)) j = Some q -> buffer s' (ins s') j = ram s' !! q /\
     buffer s (ins s) j = ram s !! q).
  { intros j q Hj Hq. destruct (buffer_block (s := s) Hok Hj) as (q' & Hq' & Hbk). rewrite Hq in Hq'. injection Hq' as <-.
    split; [|done]. rewrite Hb. destruct (rd_lt (dma_buf (ins s)) j) as [a Ha]; [rewrite (so_buf _ _ _ Hok); lia|].
    rewrite Ha. simpl. by rewrite (phys_of Hok Ha Hq). }
  split.
  - unfold heard. rewrite (proj1 (Hphys i p Hi Hp)). simpl. rewrite lookup_insert_eq.
    rewrite <- Hn. by rewrite take_app_length'.
  - intros j Hne Hj. destruct (buffer_block (s := s) Hok Hj) as (q & Hq & _). unfold heard.
    destruct (Hphys j q Hj Hq) as [-> ->]. simpl. rewrite lookup_insert_ne; [done|].
    apply (blocks_differ (d := In) (e := In) H Hp Hq). intros [=]. done.
Qed.

Lemma rx_finish hand st i s f t x y d' c r' p got blk n :
  inv hand st s -> st In = true -> qB (ins s) = [i] -> rd (dma_pbuf (ins s)) i = Some p -> ram s !! p = Some blk ->
  length got = Z.to_nat n -> 0 <= n <= Z.of_nat (length blk) ->
  (rd (dma_buf_data_count (ins s)) i = Some (fragsize s) -> (16 | fragsize s) -> n = fragsize s / 4) ->
  stream_ok (fragstotal s) t (hand In) -> dma_buf t = dma_buf (ins s) -> dma_pbuf t = dma_pbuf (ins s) ->
  qF t = qF (ins s) ++ [i] -> qB t ++ qE t = qE (ins s) ->
  chan_step (dmac s) (dma2 (ctl s)) d' c r' -> mode_wf In (mode c) ->
  match qB t with
  | [j] => enabled r' = true /\ rd (dma_pbuf t) j = Some (DTAR r') /\ fill (fmt s) <> None /\
      exists cnt, rd (dma_buf_data_count (ins s)) i = Some cnt /\ rd (dma_buf_data_count t) j = Some cnt /\
        DTCR r' = cnt / unit_of In (mode c) /\ 0 < cnt /\
        sized (recorded s f t x y p got blk d') t j
  | _ => enabled r' = false
  end ->
  pop_dma_flag f = pop_dma_flag (flag s) -> first_record_call f = first_record_call (flag s) ->
  rx_done hand st i got s (recorded s f t x y p got blk d').
Proof.
  intros H Hs Hb Hp Hblk Hg Hn Hw Hok Hbuf Hpb HF HE Hstep Hm Hq Hpop Hfirst.
  assert (Hlg : (length got <= length blk)%nat) by lia.
  assert (Hi : 0 <= i < fragstotal s).
  { apply (number_head (l := []) (i_stream _ _ _ H In)). auto. }
  split; try done.
  - apply (inv_side In hand hand st st s); try done.
    + by apply recorded_keep.
    + simpl. intros c0 r0. apply (proj2 Hstep), H.
    + exists c, r'. split; [exact (proj1 Hstep)|]. split; [done|]. simpl. rewrite Hs.
      destruct (qB t) as [|j [|]]; try done. destruct Hq as (? & ? & _ & cnt & _ & ? & ? & _). eauto.
    + simpl. rewrite Hs. pose proof (so_one _ _ _ Hok) as Hone. destruct (qB t) as [|j [|]]; [constructor| |simpl in Hone; lia].
      apply Forall_singleton. by destruct Hq as (_ & _ & _ & cnt & _ & _ & _ & _ & ?).
    + intros Hf. split; [|done]. destruct (i_set _ _ _ H Hf In) as [Hx _]. simpl in Hx. congruence.
  - split; try done; [by exists x, y|]. simpl. intros q Hq'. apply lookup_insert_ne. intros <-.
    pose proof (mo_nodup _ (i_mem _ _ _ H)) as Hnd. apply NoDup_app in Hnd as (_ & Hd & _).
    apply (Hd p Hq'). by eapply rd_elem.
  - simpl. intros c0 r0. apply (proj2 Hstep), H.
  - intros [H16 Hfr]. rewrite Hb in Hfr. apply Forall_cons in Hfr as [Hfr _].
    pose proof (Hw Hfr H16) as Hn'. split.
    + split; [done|]. simpl. pose proof (so_one _ _ _ Hok) as Hone.
      destruct (qB t) as [|j [|]]; [constructor| |simpl in Hone; lia]. apply Forall_singleton.
      destruct Hq as (_ & _ & _ & cnt & Hc & Hcj & _). congruence.
    + by apply (recorded_heard hand st s f t x y p got blk d' i n).
Qed.

Lemma record_irq_enter s c r :
  chan_at (dmac s) (dma2 (ctl s)) c r -> ended r = true ->
  exists d' r' x y, chan_step (dmac s) (dma2 (ctl s)) d' c r' /\ enabled r' = false /\
    jz_i2s_record_dma_irq s =
      (s' ← record_next (set_ctl (set_totals x y (ctl s)) (set_dmac d' s)) (dma2 (ctl s)); Some (true, s')).
Proof.
  intros Hat Hend. unfold jz_i2s_record_dma_irq.
  destruct (enter_step s _ c r Hat) as (d2 & r2 & E2 & H2 & Hdis & Hend2). rewrite E2. cbn [mbind option_bind].
  assert (status d2 (dma2 (ctl s)) DMAC_DCCSR_TT = Some (ended r2)) as Hst
    by (apply (status_spec _ _ c r2 3 (proj1 H2)); lia).
  change (dmac (set_dmac d2 s)) with d2. rewrite Hst, Hend2, Hend. cbn [mbind option_bind].
  destruct (clear_end_step d2 _ c r2 (proj1 H2)) as (d3 & r3 & E3 & H3 & Hdis3). rewrite E3. cbn [mbind option_bind].
  rewrite Hdis in Hdis3. eexists d3, r3, _, _. split; [eapply chan_step_trans; [exact H2|exact H3]|].
  split; [done|]. reflexivity.
Qed.

Lemma record_next_spec hand st i s x y d3 c r3 p got blk n :
  inv hand st s -> st In = true -> qB (ins s) = [i] -> rd (dma_pbuf (ins s)) i = Some p -> ram s !! p = Some blk ->
  length got = Z.to_nat n -> 0 <= n <= Z.of_nat (length blk) ->
  (rd (dma_buf_data_count (ins s)) i = Some (fragsize s) -> (16 | fragsize s) -> n = fragsize s / 4) ->
  mode_wf In (mode c) -> chan_step (dmac s) (dma2 (ctl s)) d3 c r3 -> enabled r3 = false ->
  exists s', record_next (set_ctl (set_totals x y (ctl s)) (set_captured (captured s ++ got)
      (set_ram (<[p := got ++ drop (length got) blk]> (ram s)) (set_dmac d3 s)))) (dma2 (ctl s)) = Some s' /\
    rx_done hand st i got s s'.
Proof.
  intros H Hs Hb Hp Hblk Hg Hn Hw Hm Hstep Hdis.
  pose proof (i_stream _ _ _ H In) as Hok. simpl in Hok. pose proof (i_total _ _ _ H) as Ht.
  destruct (rx_queues _ _ _ i Hok Hb ltac:(lia)) as (b & f & Gb & Pf & Hq). unfold record_next.
  cbn [ins set_ctl set_captured set_ram set_dmac]. rewrite Gb. cbn [mbind option_bind]. rewrite Pf. cbn [mbind option_bind].
  destruct (qE (ins s)) as [|j l] eqn:HE.
  - destruct Hq as (Ge & Hok' & CF & CE & CB). rewrite Ge. cbn [mbind option_bind].
    change (0 <=? -1) with false. eexists. split; [reflexivity|].
    apply (rx_finish hand st i s (flag s)
      (Stream (empty_queue (ins s)) f (Queue 0 (id b)) (dma_buf (ins s)) (dma_pbuf (ins s)) (dma_buf_data_count (ins s)))
      x y d3 c r3 p got blk n); done.
  - destruct Hq as (e & b' & Ge & Pb & Hq). rewrite Ge. cbn [mbind option_bind].
    assert (Hj : 0 <= j < fragstotal s) by (apply (number_head (l := l) Hok); auto).
    rewrite (proj2 (Z.leb_le 0 j)) by lia. rewrite Pb. cbn [mbind option_bind].
    assert (Hz : sized s (ins s) i) by (pose proof (i_in _ _ _ H Hs) as Hx; rewrite Hb in Hx; by inversion Hx).
    destruct Hz as (cnt & blk0 & Hc & Hbk & Hcnt). rewrite Hc. cbn [mbind option_bind].
    rewrite wr_Some by (rewrite (so_count _ _ _ Hok); lia). cbn [mbind option_bind].
    destruct (buffer_block (s := s) Hok Hj) as (q & Hq' & Hbkj). rewrite Hq'. cbn [mbind option_bind].
    set (dc := <[Z.to_nat j := cnt]> (dma_buf_data_count (ins s))).
    destruct (Hq dc (length_insert _ _ _)) as (Hok' & CF & CE & CB).
    assert (Hset : exists k, fill (fmt s) = Some k).
    { destruct (fill (fmt s)) as [k|] eqn:Hf; [by exists k|].
      destruct (i_set _ _ _ H Hf In) as [Hx _]. simpl in Hx. congruence. }
    destruct Hset as [k Hk]. match goal with |- context [audio_start_dma ?x _ _ _ _] => set (s3 := x) end.
    destruct (start_step s3 (dma2 (ctl s)) In c r3 q cnt (proj1 Hstep) Hm
      (width_set _ _ (i_fmt _ _ _ H) Hk) ltac:(lia)) as (d4 & r4 & E4 & H4 & He4 & Ha4 & Ht4).
    cbn [dma_mode] in E4. rewrite E4. eexists. split; [reflexivity|].
    apply (rx_finish hand st i s (set_tran_count (Z.quot cnt (jz_audio_b (fmt s))) (flag s))
      (Stream e f b' (dma_buf (ins s)) (dma_pbuf (ins s)) dc) x y d4
      (set_mode c (next_audio_mode In (jz_audio_format (fmt s)) (mode c))) r4 p got blk n); try done.
    + by rewrite CB, CE, HE.
    + eapply chan_step_trans; [exact Hstep|exact H4].
    + by apply next_audio_mode_wf.
    + rewrite CB. simpl. split; [done|]. split; [by rewrite Hq', <- Ha4|]. split; [by rewrite Hk|].
      assert (Hdc : rd dc j = Some cnt).
      { unfold dc. rewrite rd_insert, Z.eqb_refl; [done| |lia]. rewrite (so_count _ _ _ Hok). lia. }
      exists cnt. split; [done|]. split; [done|]. split; [done|]. split; [lia|].
      apply (sized_keep s); [apply recorded_keep; try done; lia|].
      destruct (block_size _ H In j q Hj Hq') as (bj & Hbj & Hlj). exists cnt, bj. split; [done|].
      unfold buffer in Hbkj |- *. simpl in *. rewrite Hbkj. split; [done|]. lia.
Qed.

Lemma rx_step {hand st s i data} :
  inv hand st s -> qB (ins s) = [i] -> st In = true ->
  (deliver s (Rx data) = Some (false, false, s) /\
   (rd (dma_buf_data_count (ins s)) i = Some (fragsize s) -> (16 | fragsize s) -> Z.of_nat (length data) < fragsize s / 4)) \/
  exists n s', n <= Z.of_nat (length data) /\ deliver s (Rx data) = Some (false, true, s') /\
    rx_done hand st i (take (Z.to_nat n) data) s s'.
Proof.
  intros H Hb Hs. destruct (hw_record_spec (data := data) H Hb Hs) as (c & r & n & Hat & He & Hm & Hw & Hn & Hwh & Hrec).
  unfold deliver. rewrite (running_spec _ _ _ _ Hat), He. cbn [mbind option_bind]. rewrite Hw. cbn [mbind option_bind].
  destruct (Z.leb_spec n (Z.of_nat (length data))) as [Hle|Hgt].
  2: { left. split; [done|]. intros H1 H2. by rewrite <- (Hwh H1 H2). }
  right. cbn [andb].
  destruct (Hrec Hle) as (p & blk & d1 & r1 & Hp & Hblk & Hnb & -> & H1 & Hend). cbn [mbind option_bind].
  set (got := take (Z.to_nat n) data). assert (Hg : length got = Z.to_nat n) by (unfold got; rewrite length_take; lia).
  replace (drop (Z.to_nat n) blk) with (drop (length got) blk) by (by rewrite Hg).
  set (s1 := set_captured _ _).
  destruct (record_irq_enter s1 c r1 (proj1 H1) Hend) as (d3 & r3 & x & y & H3 & Hdis & ->).
  destruct (record_next_spec hand st i s x y d3 c r3 p got blk n) as (s' & E & Hd);
    [done..|lia|done|done|eapply chan_step_trans; [exact H1|exact H3]|done|].
  change (set_ctl (set_totals x y (ctl s1)) (set_dmac d3 s1)) with
    (set_ctl (set_totals x y (ctl s)) (set_captured (captured s ++ got)
      (set_ram (<[p := got ++ drop (length got) blk]> (ram s)) (set_dmac d3 s)))).
  change (dma2 (ctl s1)) with (dma2 (ctl s)). rewrite E. cbn [mbind option_bind]. by exists n, s'.
Qed.

(** ** Any interrupt *)

Lemma idle_deliver {hand st s} i :
  inv hand st s ->
  match i with Tx => qB (outs s) = [] \/ st Out = false | Rx _ => qB (ins s) = [] \/ st In = false end ->
  deliver s i = Some (false, false, s).
Proof.
  intros H Hb. destruct i as [|data]; unfold deliver.
  - pose proof (not_started (d := Out) H Hb) as Hr. simpl in Hr. by rewrite Hr.
  - pose proof (not_started (d := In) H Hb) as Hr. simpl in Hr. rewrite Hr. simpl.
    destruct (i_chan _ _ _ H In) as (c & r & Hat & Hm & _). simpl in Hat.
    by rewrite (transfer_words_spec _ _ _ _ In Hat Hm).
Qed.

(** What an interrupt can do to a driver in a good state. *)
Inductive effect (hand : dir -> list Z) (st : dir -> bool) (s : state) : bool -> bool -> state -> Prop :=
  | No_effect : effect hand st s false false s
  | Tx_effect i u s' : qB (outs s) = [i] -> st Out = true -> tx_done hand st i u s s' -> effect hand st s true false s'
  | Rx_effect i got s' : qB (ins s) = [i] -> st In = true -> rx_done hand st i got s s' -> effect hand st s false true s'.

Lemma deliver_effect {hand st s} i :
  inv hand st s -> exists tx rx s', deliver s i = Some (tx, rx, s') /\ effect hand st s tx rx s'.
Proof.
  intros H. destruct i as [|data].
  - destruct (busy_cases Out H) as [Hb|[i Hb]]; [|destruct (st Out) eqn:Hs].
    + rewrite (idle_deliver Tx H) by auto. do 3 eexists. split; [done|constructor].
    + destruct (tx_step H Hb Hs) as (u & s' & -> & Hd). do 3 eexists. split; [done|]. by eapply Tx_effect.
    + rewrite (idle_deliver Tx H) by auto. do 3 eexists. split; [done|constructor].
  - destruct (busy_cases In H) as [Hb|[i Hb]]; [|destruct (st In) eqn:Hs].
    + rewrite (idle_deliver (Rx data) H) by auto. do 3 eexists. split; [done|constructor].
    + destruct (rx_step (data := data) H Hb Hs) as [[-> _]|(n & s' & _ & -> & Hd)]; do 3 eexists; (split; [done|]);
        [constructor|by eapply Rx_effect].
    + rewrite (idle_deliver (Rx data) H) by auto. do 3 eexists. split; [done|constructor].
Qed.

Lemma effect_inv {hand st s tx rx s'} : inv hand st s -> effect hand st s tx rx s' -> inv hand st s' /\ env Out s s'.
Proof.
  intros H [|i u s2 _ _ Hd|i got s2 _ _ Hd]; [done|split; apply Hd|split; apply Hd].
Qed.

(** ** Any number of interrupts *)

Lemma frag_env {hand st s s' u i} :
  inv hand st s -> env Out s s' -> 0 <= i < fragstotal s -> frag s' u i = frag s u i.
Proof.
  intros H He Hi. pose proof (e_buf _ _ _ He) as Hb. pose proof (e_count _ _ _ He) as Hc. simpl in Hb, Hc.
  pose proof (i_stream _ _ _ H Out) as Hok. simpl in Hok.
  destruct (buffer_block (s := s) Hok Hi) as (p & Hp & Hbk). simpl in Hp, Hbk.
  destruct (rd_lt (dma_buf (outs s)) i) as [a Ha]; [rewrite (so_buf _ _ _ Hok); lia|].
  unfold frag. rewrite Hc. unfold buffer in *. rewrite Hb, Ha in *. simpl in *.
  rewrite (phys_of Hok Ha Hp).
  rewrite (e_ram _ _ _ He p); [done|]. by eapply rd_elem.
Qed.

Lemma frags_env {hand st s s' u} l :
  inv hand st s -> env Out s s' -> (forall i, i ∈ l -> 0 <= i < fragstotal s) ->
  map (frag s' u) l = map (frag s u) l.
Proof.
  intros H He Hl. induction l as [|i l IH]; [done|]. simpl. rewrite IH by (intros j Hj; apply Hl; by right).
  f_equal. apply (frag_env H He). apply Hl. left.
Qed.

(** From [s] to [s'] only interrupts happened; [u] is the unit of playing. *)
Record drift (hand : dir -> list Z) (st : dir -> bool) (u : Z) (s s' : state) : Prop := {
  dr_inv : inv hand st s';
  dr_env : env Out s s';
  dr_unit : unit_now s' u;
  dr_flow : flow s' u = flow s u;
  dr_empty : exists x, qE (outs s') = qE (outs s) ++ x;
  dr_idle : qB (outs s) = [] \/ st Out = false ->
    qE (outs s') = qE (outs s) /\ qF (outs s') = qF (outs s) /\ qB (outs s') = qB (outs s) /\ played s' = played s;
  dr_moving : (qF (outs s) <> [] -> qB (outs s) <> []) -> qF (outs s') <> [] -> qB (outs s') <> [] }.

Lemma drift_refl {hand st u s} : inv hand st s -> unit_now s u -> drift hand st u s s.
Proof. intros H Hu. split; try done. exists []. by rewrite app_nil_r. Qed.

Lemma drift_trans {hand st u s1 s2 s3} : drift hand st u s1 s2 -> drift hand st u s2 s3 -> drift hand st u s1 s3.
Proof.
  intros H1 H2. split; try apply H2.
  - etransitivity; [apply H1|apply H2].
  - rewrite (dr_flow _ _ _ _ _ H2). apply H1.
  - destruct (dr_empty _ _ _ _ _ H1) as [x Hx], (dr_empty _ _ _ _ _ H2) as [y Hy]. exists (x ++ y).
    by rewrite Hy, Hx, app_assoc.
  - intros Hi. destruct (dr_idle _ _ _ _ _ H1 Hi) as (E1 & E2 & E3 & E4).
    destruct (dr_idle _ _ _ _ _ H2) as (F1 & F2 & F3 & F4); [by rewrite E3|]. by rewrite F1, F2, F3, F4.
  - intros Hm. apply (dr_moving _ _ _ _ _ H2). by apply (dr_moving _ _ _ _ _ H1).
Qed.

Lemma effect_drift {hand st u s tx rx s'} :
  inv hand st s -> unit_now s u -> effect hand st s tx rx s' ->
  drift hand st u s s' /\ (tx = true -> qE (outs s') <> []).
Proof.
  intros H Hu [|i v s2 Hb Hs Hd|i got s2 Hb Hs Hd].
  - split; [by apply drift_refl|done].
  - assert (u = v) as <- by (by apply (td_same _ _ _ _ _ _ Hd)).
    pose proof (td_next _ _ _ _ _ _ Hd) as [Hn Hne]. pose proof (td_empty _ _ _ _ _ _ Hd) as HE.
    split; [|intros _; rewrite HE; by destruct (qE (outs s))]. split.
    + apply Hd.
    + apply Hd.
    + by apply (td_unit _ _ _ _ _ _ Hd).
    + unfold flow. rewrite Hn, Hb, (td_played _ _ _ _ _ _ Hd). rewrite (frags_env (hand := hand) (st := st) (s := s)).
      * simpl. by rewrite <- app_assoc.
      * done.
      * apply Hd.
      * intros j Hj. apply (number_range (i_stream _ _ _ H Out)). auto.
    + by exists [i].
    + rewrite Hb, Hs. by intros [|].
    + intros _ HF. apply Hne. intros H0. rewrite H0 in Hn. apply app_nil in Hn as [_ Hn]. done.
  - split; [|done]. pose proof (xd_outs _ _ _ _ _ _ Hd) as Ho. split.
    + apply Hd.
    + apply Hd.
    + destruct Hu as (c & r & Hat & Hx). exists c, r. split; [by apply Hd|].
      by rewrite (e_fmt _ _ _ (xd_env _ _ _ _ _ _ Hd)).
    + unfold flow. rewrite Ho, (xd_played _ _ _ _ _ _ Hd).
      rewrite (frags_env (hand := hand) (st := st) (s := s)); [done|done|apply Hd|].
      intros j Hj. apply (number_range (i_stream _ _ _ H Out)). apply elem_of_app in Hj as [|]; auto.
    + exists []. by rewrite Ho, app_nil_r.
    + by rewrite Ho, (xd_played _ _ _ _ _ _ Hd).
    + by rewrite Ho.
Qed.

(** One interrupt. *)
Lemma deliver_drift {hand st u s} i :
  inv hand st s -> unit_now s u -> exists tx rx s', deliver s i = Some (tx, rx, s') /\
    drift hand st u s s' /\ (tx = true -> qE (outs s') <> []).
Proof.
  intros H Hu. destruct (deliver_effect i H) as (tx & rx & s' & E & He). exists tx, rx, s'.
  split; [done|]. by apply (effect_drift H Hu He).
Qed.

(** ** Moving a buffer between a queue and the hand of a call *)

Definition hold (d : dir) (x : list Z) : dir -> list Z := fun e =>
  match d, e with Out, Out | In, In => x | _, _ => [] end.
Definition start_at (d : dir) (b : bool) : dir -> bool := fun e =>
  match d, e with Out, Out | In, In => b | _, _ => true end.

Lemma hold_same d x : hold d x d = x.
Proof. by destruct d. Qed.
Lemma hold_other d x : hold d x (other d) = [].
Proof. by destruct d. Qed.
Lemma start_same d b : start_at d b d = b.
Proof. by destruct d. Qed.
Lemma start_other d b : start_at d b (other d) = true.
Proof. by destruct d. Qed.

(** All numbers of a stream. *)
Definition numbers (t : stream) (h : list Z) : list Z := qE t ++ qF t ++ qB t ++ h.

Lemma stream_change n t h w q h' :
  stream_ok n t h -> queue_wf n q -> numbers (set_queue w q t) h' ≡ₚ numbers t h ->
  (w = Busy -> (length (contents q) <= 1)%nat) -> stream_ok n (set_queue w q t) h'.
Proof.
  intros H Hq Hp Hb. pose proof (so_perm _ _ _ H) as Hn. fold (numbers t h) in Hn. rewrite <- Hp in Hn.
  destruct w; (split; simpl; try apply H; try done). by apply Hb.
Qed.

(** A state with the queue [w] of direction [d] replaced. *)
Definition with_queue (d : dir) (w : which) (q : buffer_queue) (s : state) : state :=
  set_side d (set_queue w q (side d s)) s.

Lemma with_queue_keep d w q s : keep s (with_queue d w q s).
Proof. split; try by destruct d. - by intros [|]; destruct d, w. - intros p blk Hp. exists blk. by destruct d. Qed.

Lemma with_queue_side d w q s :
  side d (with_queue d w q s) = set_queue w q (side d s) /\ side (other d) (with_queue d w q s) = side (other d) s /\
  dmac (with_queue d w q s) = dmac s /\ chan_of d (with_queue d w q s) = chan_of d s /\ ram (with_queue d w q s) = ram s /\
  fragsize (with_queue d w q s) = fragsize s.
Proof. by destruct d. Qed.

(** The invariant after the exchange of a queue other than the busy one. *)
Lemma inv_exchange d w q hand h st s :
  inv hand st s -> hand (other d) = [] -> st (other d) = true -> w <> Busy -> queue_wf (fragstotal s) q ->
  numbers (set_queue w q (side d s)) h ≡ₚ numbers (side d s) (hand d) ->
  (d = Out -> w = Full -> Forall (sized s (outs s)) (contents q) /\ (fill (fmt s) = None -> contents q = [])) ->
  inv (hold d h) (start_at d (st d)) (with_queue d w q s).
Proof.
  intros H Hh Hs Hw Hq Hp Hf. destruct (with_queue_side d w q s) as (E1 & E2 & E3 & E4 & E5 & E6).
  pose proof (i_stream _ _ _ H d) as Hok.
  assert (Hb : qB (set_queue w q (side d s)) = qB (side d s)) by (by destruct w).
  assert (Harr : dma_pbuf (set_queue w q (side d s)) = dma_pbuf (side d s) /\
    dma_buf (set_queue w q (side d s)) = dma_buf (side d s) /\
    dma_buf_data_count (set_queue w q (side d s)) = dma_buf_data_count (side d s)) by (by destruct w).
  destruct Harr as (A1 & A2 & A3).
  apply (inv_side d hand (hold d h) st _ s); rewrite ?E1, ?hold_same, ?hold_other, ?start_same, ?start_other; try done.
  - apply with_queue_keep.
  - by eapply stream_change.
  - by rewrite E3.
  - destruct (i_chan _ _ _ H d) as (c & r & Hat & Hm & Hx). exists c, r. rewrite E3, E4, E1, Hb, A1, A3. done.
  - assert (Hz : forall i, sized s (side d s) i -> sized (with_queue d w q s) (set_queue w q (side d s)) i)
      by (intros i; by apply sized_same).
    eapply Forall_impl; [|exact Hz]. pose proof (inv_weighed d H) as Hwe.
    destruct d; simpl in *; [|by rewrite Hb]. destruct w; [exact Hwe| |done].
    unfold qF. simpl. apply Forall_app. split; [by apply Hf|]. by apply Forall_app in Hwe as [_ ?].
  - intros Hn. rewrite Hb. destruct (i_set _ _ _ H Hn d) as [Hx Hy]. split; [done|]. intros ->.
    destruct w; [by apply Hy| |done]. simpl. by apply Hf.
Qed.

Lemma inv_ext hand hand' st st' s :
  (forall e, hand' e = hand e) -> (forall e, st' e = st e) -> inv hand st s -> inv hand' st' s.
Proof.
  intros Hh Hs H. split; try apply H.
  - intros d. rewrite Hh. apply H.
  - intros d. rewrite Hs. apply H.
  - rewrite Hs. apply H.
Qed.

Lemma perm_snoc (E F B : list Z) i : E ++ F ++ B ++ [i] ≡ₚ i :: (E ++ F ++ B).
Proof. rewrite !app_assoc. symmetry. apply Permutation_cons_append. Qed.

Lemma numbers_take w (t : stream) i l q :
  contents (queue w t) = i :: l -> contents q = l -> numbers (set_queue w q t) [i] ≡ₚ numbers t [].
Proof.
  intros Hc Hq. destruct w; unfold numbers, qE, qF, qB; simpl in *; rewrite Hc, Hq, app_nil_r.
  - by rewrite perm_snoc.
  - rewrite perm_snoc. simpl. by rewrite Permutation_middle.
  - rewrite perm_snoc, !app_assoc. by rewrite Permutation_middle.
Qed.

Lemma numbers_put w (t : stream) i q :
  contents q = contents (queue w t) ++ [i] -> numbers (set_queue w q t) [] ≡ₚ numbers t [i].
Proof.
  intros Hq. symmetry. destruct w; unfold numbers, qE, qF, qB; simpl in *; rewrite Hq, app_nil_r.
  - rewrite perm_snoc, <- app_assoc. simpl. by rewrite Permutation_middle.
  - rewrite perm_snoc, <- app_assoc. simpl. rewrite !(app_assoc (contents (empty_queue t))). by rewrite Permutation_middle.
  - done.
Qed.

Lemma queue_of n t h w : stream_ok n t h -> queue_wf n (queue w t).
Proof. intros H. destruct w; apply H. Qed.

(** Taking from the empty or the full queue. *)
Lemma take_spec d w b s i l :
  inv (hold d []) (start_at d b) s -> w <> Busy -> contents (queue w (side d s)) = i :: l ->
  exists q, get_buffer_id (queue w (side d s)) = Some (i, q) /\ contents q = l /\
    inv (hold d [i]) (start_at d b) (with_queue d w q s).
Proof.
  intros H Hw Hc. pose proof (i_stream _ _ _ H d) as Hok.
  destruct (get_first _ _ i l (queue_of _ _ _ w Hok) Hc) as (q & E & Wq & Cq). exists q. split; [done|]. split; [done|].
  pose proof (inv_exchange d w q (hold d []) [i] (start_at d b) s) as X. rewrite start_same in X.
  apply X; rewrite ?hold_other, ?start_other, ?hold_same; try done; [by apply (numbers_take w _ i l)|].
  intros -> ->. simpl in Hc. pose proof (i_out _ _ _ H) as Ho. apply Forall_app in Ho as [Ho _].
  unfold qF in Ho. rewrite Hc in Ho. rewrite Cq. split; [by inversion Ho|].
  intros Hf. destruct (i_set _ _ _ H Hf Out) as [_ Hx]. specialize (Hx eq_refl). unfold qF in Hx. simpl in Hx. congruence.
Qed.

(** Putting into the empty or the full queue. *)
Lemma put_spec d w b s i :
  inv (hold d [i]) (start_at d b) s -> w <> Busy ->
  (d = Out -> w = Full -> sized s (outs s) i /\ fill (fmt s) <> None) ->
  exists q, put_buffer_id (queue w (side d s)) i = Some q /\ contents q = contents (queue w (side d s)) ++ [i] /\
    inv (hold d []) (start_at d b) (with_queue d w q s).
Proof.
  intros H Hw Hf. pose proof (i_stream _ _ _ H d) as Hok. rewrite hold_same in Hok.
  pose proof (hand_cases Hok) as Hn. pose proof (counts Hok) as (C1 & C2 & C3). pose proof (i_total _ _ _ H) as Ht.
  destruct (put_last (fragstotal s) (queue w (side d s)) i (queue_of _ _ _ w Hok)) as (q & E & Wq & Cq).
  { simpl in Hn. destruct w; simpl; lia. }
  exists q. split; [done|]. split; [done|].
  pose proof (inv_exchange d w q (hold d [i]) [] (start_at d b) s) as X. rewrite start_same in X.
  apply X; rewrite ?hold_other, ?start_other, ?hold_same; try done; [by apply (numbers_put w)|].
  intros -> ->. destruct (Hf eq_refl eq_refl) as [Hz Hk]. rewrite Cq. split; [|done].
  apply Forall_app. split; [|by apply Forall_singleton]. pose proof (i_out _ _ _ H) as Ho. by apply Forall_app in Ho as [? _].
Qed.

(** Making a buffer busy, before its transfer is started. *)
Lemma put_busy_spec d s i :
  inv (hold d [i]) (start_at d true) s -> qB (side d s) = [] -> fill (fmt s) <> None ->
  (d = Out -> sized s (outs s) i) ->
  exists q, put_buffer_id (queue Busy (side d s)) i = Some q /\ contents q = [i] /\
    inv (hold d []) (start_at d false) (with_queue d Busy q s).
Proof.
  intros H Hb Hk Hz. pose proof (i_stream _ _ _ H d) as Hok. rewrite hold_same in Hok.
  pose proof (counts Hok) as (_ & _ & C3). pose proof (i_total _ _ _ H) as Ht. rewrite Hb in C3.
  destruct (put_last (fragstotal s) (queue Busy (side d s)) i (queue_of _ _ _ Busy Hok)) as (q & E & Wq & Cq).
  { simpl in *. lia. }
  exists q. split; [done|]. pose proof Cq as Cq'. simpl in Cq. fold (qB (side d s)) in Cq. rewrite Hb in Cq. split; [done|].
  destruct (with_queue_side d Busy q s) as (E1 & E2 & E3 & E4 & E5 & E6).
  apply (inv_side d (hold d [i]) (hold d []) (start_at d true) (start_at d false) s);
    rewrite ?E1, ?hold_same, ?hold_other, ?start_same, ?start_other; try done.
  - apply with_queue_keep.
  - eapply stream_change; [exact Hok|done|by apply numbers_put|]. intros _. rewrite Cq. simpl. lia.
  - by rewrite E3.
  - destruct (i_chan _ _ _ H d) as (c & r & Hat & Hm & Hx). rewrite Hb in Hx. exists c, r. rewrite E3, E4, E1.
    split; [done|]. split; [done|]. unfold qB. simpl. rewrite Cq. done.
  - destruct d; simpl; [|done]. unfold qB. simpl. rewrite Cq.
    assert (Hs : forall j, sized s (outs s) j -> sized (with_queue Out Busy q s) (set_busy q (outs s)) j)
      by (intros j; by apply sized_same).
    apply Forall_app. split; [|apply Forall_singleton; auto]. pose proof (i_out _ _ _ H) as Ho.
    apply Forall_app in Ho as [Ho _]. eapply Forall_impl; [exact Ho|exact Hs].
Qed.

(** The start of the busy buffer's transfer. *)
Definition start_body (d : dir) (i : Z) (s : state) : option state :=
  p ← rd (dma_pbuf (side d s)) i;
  c ← rd (dma_buf_data_count (side d s)) i;
  match d with
  | Out => audio_start_dma s (dma1 (ctl s)) p c DMA_MODE_WRITE
  | In => audio_start_dma s (dma2 (ctl s)) p c DMA_MODE_READ
  end.

Lemma next_mode_again d f m : next_audio_mode d f (next_audio_mode d f m) = next_audio_mode d f m.
Proof. unfold next_audio_mode. by destruct (f =? _). Qed.

Lemma start_body_spec d s i :
  inv (hold d []) (start_at d false) s -> qB (side d s) = [i] -> sized s (side d s) i ->
  exists d' t, start_body d i s = Some (set_dmac d' (set_flag (set_tran_count t (flag s)) s)) /\
    inv (hold d []) (start_at d true) (set_dmac d' (set_flag (set_tran_count t (flag s)) s)) /\
    (forall u, unit_now s u -> unit_now (set_dmac d' (set_flag (set_tran_count t (flag s)) s)) u).
Proof.
  intros H Hb Hz. pose proof (i_stream _ _ _ H d) as Hok. rewrite hold_same in Hok.
  assert (Hi : 0 <= i < fragstotal s) by (apply (number_head (l := []) Hok); auto).
  destruct (buffer_block (s := s) Hok Hi) as (p & Hp & Hbk). destruct Hz as (c & blk & Hc & Hbf & Hcs & Hfz).
  assert (Hk : exists k, fill (fmt s) = Some k).
  { destruct (fill (fmt s)) as [k|] eqn:Hf; [by exists k|]. destruct (i_set _ _ _ H Hf d) as [Hx _]. congruence. }
  destruct Hk as [k Hk]. destruct (i_chan _ _ _ H d) as (ch & r & Hat & Hm & Hx).
  destruct (start_step s (chan_of d s) d ch r p c Hat Hm (width_set _ _ (i_fmt _ _ _ H) Hk) ltac:(lia))
    as (d' & r' & E & Hstep & He & Ha & Ht).
  exists d', (Z.quot c (jz_audio_b (fmt s))). set (s' := set_dmac d' _) in *.
  assert (Es : start_body d i s = Some s').
  { unfold start_body. rewrite Hp, Hc. cbn [mbind option_bind]. destruct d; exact E. }
  split; [exact Es|]. split.
  - apply (inv_side d (hold d []) (hold d []) (start_at d false) (start_at d true) s);
      rewrite ?hold_same, ?hold_other, ?start_same, ?start_other; try done.
    + split; try done. intros q b Hq. by exists b.
    + intros c0 r0. apply (proj2 Hstep). pose proof (i_chans _ _ _ H). destruct d; simpl; congruence.
    + eexists _, r'. split; [exact (proj1 Hstep)|]. split; [by apply next_audio_mode_wf|].
      assert (side d s' = side d s) as -> by (by destruct d). rewrite Hb. split; [done|].
      split; [by rewrite Hp, <- Ha|]. by exists c.
    + assert (side d s' = side d s) as -> by (by destruct d). destruct d; simpl.
      * pose proof (i_out _ _ _ H) as Ho. eapply Forall_impl; [exact Ho|]. intros j. by apply sized_same.
      * simpl in Hb. rewrite Hb. apply Forall_singleton. by exists c, blk.
    + intros Hf. congruence.
  - intros u (c0 & r0 & Hat0 & Hn & Hr). destruct d; simpl in *.
    + destruct (chan_at_fun _ _ _ _ _ _ Hat Hat0) as [-> ->]. eexists _, r'. split; [exact (proj1 Hstep)|]. simpl.
      rewrite next_mode_again. done.
    + exists c0, r0. split; [|done]. apply (proj2 Hstep); [apply H|done].
Qed.

(** ** Filling the buffer in hand *)

(** The words [ws] in the block [q] of buffer [i]. *)
Definition filled (s : state) (i q : Z) (ws blk : list Z) (last : Z * Z) : state :=
  set_lasts (<[Z.to_nat i := last]> (save_last_samples s))
    (set_outs (set_data_count (<[Z.to_nat i := 4 * Z.of_nat (length ws)]> (dma_buf_data_count (outs s))) (outs s))
      (set_ram (<[q := ws ++ drop (length ws) blk]> (ram s)) s)).

Section Filled.
Context (s : state) (i q : Z) (ws blk : list Z) (last : Z * Z).
Context (H : inv (hold Out [i]) all s) (Hi : 0 <= i < fragstotal s).
Context (Hq : rd (dma_pbuf (outs s)) i = Some q) (Hblk : ram s !! q = Some blk).
Context (Hws : 0 < 4 * Z.of_nat (length ws) <= fragsize s) (Hlen : fragsize s <= 4 * Z.of_nat (length blk)).

Let s' := filled s i q ws blk last.

Lemma filled_keep : keep s s'.
Proof.
  split; try done; simpl.
  - apply length_insert.
  - by intros [|].
  - intros p b Hp. destruct (decide (p = q)) as [->|Hne].
    + rewrite lookup_insert_eq. rewrite Hblk in Hp. injection Hp as <-. eexists. split; [done|].
      rewrite length_app, length_drop. lia.
    + rewrite lookup_insert_ne by done. by exists b.
Qed.

Lemma filled_buffer j p :
  0 <= j < fragstotal s -> rd (dma_pbuf (outs s)) j = Some p -> buffer s' (outs s') j = ram s' !! p /\
  buffer s (outs s) j = ram s !! p.
Proof.
  intros Hj Hp. pose proof (i_stream _ _ _ H Out) as Hok. simpl in Hok.
  destruct (rd_lt (dma_buf (outs s)) j) as [a Ha]; [rewrite (so_buf _ _ _ Hok); lia|].
  pose proof (phys_of Hok Ha Hp).
  unfold buffer. simpl. rewrite Ha. simpl. by subst p.
Qed.

Lemma filled_data_count j :
  0 <= j < fragstotal s ->
  rd (dma_buf_data_count (outs s')) j = if j =? i then Some (4 * Z.of_nat (length ws)) else rd (dma_buf_data_count (outs s)) j.
Proof.
  intros Hj. pose proof (i_stream _ _ _ H Out) as Hok. simpl in Hok. simpl.
  rewrite rd_insert; [done| |lia]. rewrite (so_count _ _ _ Hok). lia.
Qed.

Lemma filled_other j :
  j <> i -> 0 <= j < fragstotal s ->
  buffer s' (outs s') j = buffer s (outs s) j /\ rd (dma_buf_data_count (outs s')) j = rd (dma_buf_data_count (outs s)) j.
Proof.
  intros Hne Hj. rewrite filled_data_count, (proj2 (Z.eqb_neq _ _)) by done. split; [|done].
  destruct (buffer_block (s := s) (i_stream _ _ _ H Out) Hj) as (p & Hp & _). simpl in Hp.
  destruct (filled_buffer j p Hj Hp) as [-> ->]. simpl. apply lookup_insert_ne.
  apply (blocks_differ (d := Out) (e := Out) H Hq Hp). intros [=]. done.
Qed.

Lemma filled_self :
  buffer s' (outs s') i = Some (ws ++ drop (length ws) blk) /\
  rd (dma_buf_data_count (outs s')) i = Some (4 * Z.of_nat (length ws)) /\ sized s' (outs s') i.
Proof.
  assert (Hb : buffer s' (outs s') i = Some (ws ++ drop (length ws) blk)).
  { rewrite (proj1 (filled_buffer i q Hi Hq)). simpl. apply lookup_insert_eq. }
  assert (Hc : rd (dma_buf_data_count (outs s')) i = Some (4 * Z.of_nat (length ws))).
  { rewrite filled_data_count by done. by rewrite Z.eqb_refl. }
  split; [done|]. split; [done|]. eexists _, _. split; [exact Hc|]. split; [exact Hb|].
  change (fragsize s') with (fragsize s). rewrite length_app, length_drop. lia.
Qed.

Lemma filled_inv : inv (hold Out [i]) all s'.
Proof.
  pose proof (i_stream _ _ _ H Out) as Hok. simpl in Hok.
  assert (Hnot : forall j, j ∈ qF (outs s) \/ j ∈ qB (outs s) -> j <> i).
  { intros j Hj ->. assert (Hnd : NoDup (qE (outs s) ++ qF (outs s) ++ qB (outs s) ++ [i])).
    { rewrite (so_perm _ _ _ Hok). apply NoDup_seqZ. }
    rewrite !app_assoc in Hnd. apply NoDup_app in Hnd as (_ & Hd & _). apply (Hd i); [|apply list_elem_of_here].
    rewrite !elem_of_app. tauto. }
  assert (Hmove : forall j, j ∈ qF (outs s) \/ j ∈ qB (outs s) -> sized s (outs s) j -> sized s' (outs s') j).
  { intros j Hj (c & b & Hc & Hb & Hs). assert (0 <= j < fragstotal s) by (apply (number_range Hok); tauto).
    destruct (filled_other j (Hnot j Hj)) as [Eb Ec]; [done|]. exists c, b. rewrite Eb, Ec. done. }
  apply (inv_side Out (hold Out [i]) (hold Out [i]) all all s); try done.
  - apply filled_keep.
  - split; simpl; try apply Hok. rewrite length_insert. apply Hok.
  - destruct (i_chan _ _ _ H Out) as (c & r & Hat & Hm & Hx). exists c, r. split; [done|]. split; [done|].
    simpl in Hx |- *. change (qB (set_data_count _ (outs s))) with (qB (outs s)).
    destruct (qB (outs s)) as [|j [|]] eqn:Hb; try done. destruct Hx as (He & Hp & cnt & Hc & Ht).
    split; [done|]. split; [done|]. exists cnt. split; [|done].
    assert (Hj : 0 <= j < fragstotal s) by (apply (number_head (l := []) Hok); auto).
    etransitivity; [|exact Hc]. apply (filled_other j); [|done]. apply Hnot. right. apply list_elem_of_here.
  - pose proof (i_out _ _ _ H) as Ho. simpl. change (qF (set_data_count _ (outs s))) with (qF (outs s)).
    change (qB (set_data_count _ (outs s))) with (qB (outs s)). rewrite Forall_forall in Ho |- *.
    intros j Hj. apply Hmove; [by apply elem_of_app in Hj|auto].
  - intros Hf. apply (i_set _ _ _ H Hf Out).
Qed.

Lemma filled_frag j u : j <> i -> 0 <= j < fragstotal s -> frag s' u j = frag s u j.
Proof. intros Hne Hj. unfold frag. by destruct (filled_other j Hne Hj) as [-> ->]. Qed.

End Filled.

Lemma fill_body_spec s i k p l c :
  inv (hold Out [i]) all s -> fill (fmt s) = Some k -> k <> F1x8 -> rate_set (fmt s) k ->
  tmp1 (ctl s) = p ++ l ++ c -> whole k (length l) -> 0 < Z.of_nat (length l) ->
  4 * words_for k (Z.of_nat (length l)) <= fragsize s ->
  exists ws last q blk, close k ws (words k (codec_volue_shift (code s)) l) /\
    0 <= i < fragstotal s /\ rd (dma_pbuf (outs s)) i = Some q /\ ram s !! q = Some blk /\
    0 < 4 * Z.of_nat (length ws) <= fragsize s /\ fragsize s <= 4 * Z.of_nat (length blk) /\
    forall sc, fill_buffer (Z.of_nat (length p)) (Z.of_nat (length l)) i s sc =
      Some (Done tt, filled s i q ws blk last, sc).
Proof.
  intros H Hk Hne Hr Htmp Hw Hpos Hroom. pose proof (i_stream _ _ _ H Out) as Hok. simpl in Hok.
  assert (Hi : 0 <= i < fragstotal s) by (apply (number_range Hok); do 3 right; apply list_elem_of_here).
  destruct (buffer_block (s := s) Hok Hi) as (q & Hq & Hbq).
  destruct (block_size _ H Out i q Hi Hq) as (blk & Hblk & Hsize).
  pose proof (i_lasts _ _ _ H) as Hll. pose proof (i_total _ _ _ H) as Ht.
  destruct (rd_lt (save_last_samples s) i) as [last Hl]; [lia|].
  destruct (replay_filler_spec (fmt s) k (codec_volue_shift (code s)) p l c blk last (i_fmt _ _ _ H) Hk Hr Hw ltac:(lia))
    as (ws & last' & Hc & Ef & _).
  pose proof (length_close _ _ _ Hc) as Hlw. pose proof (length_words k (codec_volue_shift (code s)) l Hw) as Hlw2.
  exists ws, last', q, blk. split; [done|]. split; [done|]. split; [done|]. split; [done|]. split.
  { rewrite Hlw, Hlw2. split; [|done]. destruct k; simpl; try lia. destruct Hw as [m Hm].
    assert (0 < Z.of_nat (length l) / 2) by (apply Z.div_str_pos; lia). lia. }
  split; [lia|]. intros sc. unfold fill_buffer, atomic. unfold buffer in Hbq.
  destruct (rd (dma_buf (outs s)) i) as [ad|] eqn:Had; [|simpl in Hbq; congruence]. cbn [mbind option_bind] in Hbq |- *.
  rewrite (phys_of Hok Had Hq).
  rewrite Hblk. cbn [mbind option_bind]. rewrite Hl. cbn [mbind option_bind]. rewrite Htmp, Ef. cbn [mbind option_bind].
  rewrite (wr_Some (dma_buf_data_count (outs s)) i) by (rewrite (so_count _ _ _ Hok); lia). cbn [mbind option_bind].
  rewrite (wr_Some (save_last_samples s) i) by lia. reflexivity.
Qed.
