(* ===== verification/I2sPlay.v ===== *)
(** * Playing

    What a program writes is played: in order, fragment by fragment, whatever
    the moments at which transfers end, and a writer that sleeps is woken. *)

From S2P Require Import Prelude.
From S2P Require Import Dma.
From S2P Require Import I2sFill.
From S2P Require Import I2sCodec.
From S2P Require Import I2sDriver.
From S2P Require Import I2sQueues.
From S2P Require Import I2sSystem.

#[local] Arguments Z.eqb : simpl never.
#[local] Arguments Z.ltb : simpl never.
#[local] Arguments Z.leb : simpl never.
#[local] Arguments Z.add : simpl never.
#[local] Arguments Z.sub : simpl never.
#[local] Arguments Z.mul : simpl never.
#[local] Arguments Z.of_nat : simpl never.
#[local] Arguments Z.to_nat : simpl never.
#[local] Open Scope sound_scope.

(** ** Runs of a call under every schedule *)

(** From [s], under every schedule, [m] is defined and ends with a result in
    [Q] or asleep in [W]. *)
Definition safe {A} (m : P A) (Q : A -> state -> Prop) (W : state -> Prop) (s : state) : Prop :=
  forall sc, match m s sc with
             | Some (Done a, s', _) => Q a s'
             | Some (Asleep, s', _) => W s'
             | _ => False
             end.

Lemma safe_ret {A} (a : A) Q W s : Q a s -> safe (ret a) Q W s.
Proof. by intros H sc. Qed.

Lemma safe_bind {A B} (m : P A) (k : A -> P B) Q W s :
  safe m (fun a s' => safe (k a) Q W s') W s -> safe (bind m k) Q W s.
Proof.
  intros H sc. specialize (H sc). unfold bind. destruct (m s sc) as [[[[a| |] s'] sc']|]; try done. apply H.
Qed.

Lemma safe_mono {A} (m : P A) (Q Q' : A -> state -> Prop) (W W' : state -> Prop) s :
  safe m Q W s -> (forall a s', Q a s' -> Q' a s') -> (forall s', W s' -> W' s') -> safe m Q' W' s.
Proof.
  intros H HQ HW sc. specialize (H sc). destruct (m s sc) as [[[[a| |] s'] sc']|]; try done; auto.
Qed.

Lemma safe_gets {A} (f : state -> A) Q W s : Q (f s) s -> safe (gets f) Q W s.
Proof. by intros H sc. Qed.

Lemma safe_modify f Q W s : Q tt (f s) -> safe (modify f) Q W s.
Proof. by intros H sc. Qed.

Lemma safe_atomic {A} (f : state -> option (A * state)) a s' Q W s :
  f s = Some (a, s') -> Q a s' -> safe (atomic f) Q W s.
Proof. intros E H sc. unfold atomic. by rewrite E. Qed.

Lemma safe_run {A} (m : P A) a s' Q W s :
  (forall sc, m s sc = Some (Done a, s', sc)) -> Q a s' -> safe m Q W s.
Proof. intros E H sc. by rewrite E. Qed.

Lemma safe_preempt hand st u Q W s :
  inv hand st s -> unit_now s u -> (forall s', drift hand st u s s' -> Q tt s') -> safe preempt Q W s.
Proof.
  intros H Hu HQ sc. unfold preempt.
  assert (exists s' sc', preempt_loop s sc = Some (s', sc') /\ drift hand st u s s') as (s' & sc' & -> & Hd).
  { clear HQ. revert s H Hu. induction sc as [|[i|] sc IH]; intros s H Hu.
    - exists s, []. split; [done|by apply drift_refl].
    - destruct (deliver_drift i H Hu) as (tx & rx & s1 & E & Hd & _).
      destruct (IH s1 (dr_inv _ _ _ _ _ Hd) (dr_unit _ _ _ _ _ Hd)) as (s2 & sc2 & E2 & Hd2).
      exists s2, sc2. simpl. rewrite E. simpl. split; [done|]. by eapply drift_trans.
    - exists s, sc. split; [done|by apply drift_refl]. }
  simpl. by apply HQ.
Qed.

Lemma safe_sleep_tx hand st u Q W s :
  inv hand st s -> unit_now s u -> (forall s', drift hand st u s s' -> qE (outs s') <> [] -> Q tt s') ->
  (forall s', drift hand st u s s' -> W s') -> safe (sleep_on Tx_wait) Q W s.
Proof.
  intros H Hu HQ HW sc. unfold sleep_on.
  assert (exists r s' sc', sleep_loop Tx_wait s sc = Some (r, s', sc') /\ drift hand st u s s' /\
    (r = Done tt /\ qE (outs s') <> [] \/ r = Asleep)) as (r & s' & sc' & -> & Hd & Hr).
  { clear HQ HW. revert s H Hu. induction sc as [|[i|] sc IH]; intros s H Hu.
    - exists Asleep, s, []. split; [done|]. split; [by apply drift_refl|by right].
    - destruct (deliver_drift i H Hu) as (tx & rx & s1 & E & Hd & Hwake). simpl. rewrite E. simpl. destruct tx.
      + exists (Done tt), s1, sc. split; [done|]. split; [done|]. left. auto.
      + destruct (IH s1 (dr_inv _ _ _ _ _ Hd) (dr_unit _ _ _ _ _ Hd)) as (r & s2 & sc2 & E2 & Hd2 & Hr).
        exists r, s2, sc2. split; [done|]. split; [by eapply drift_trans|done].
    - apply IH; done. }
  destruct Hr as [[-> He]| ->]; auto.
Qed.

(** ** Steps on the queues *)

Lemma with_queue_same d w s : with_queue d w (queue w (side d s)) s = s.
Proof. destruct s as [? ? ? ? ? [] [] ? ? ? ? ? ?], d, w; reflexivity. Qed.

Lemma safe_take d w i q Q W s :
  get_buffer_id (queue w (side d s)) = Some (i, q) -> Q i (with_queue d w q s) -> safe (take_id d w) Q W s.
Proof. intros E H. eapply safe_atomic; [|exact H]. by rewrite E. Qed.

Lemma safe_take_none d w Q W s :
  count (queue w (side d s)) = 0 -> Q (-1) s -> safe (take_id d w) Q W s.
Proof. intros E H. eapply safe_take; [by apply get_empty|]. by rewrite with_queue_same. Qed.

Lemma safe_put d w i q Q W s :
  put_buffer_id (queue w (side d s)) i = Some q -> Q tt (with_queue d w q s) -> safe (put_id d w i) Q W s.
Proof. intros E H. eapply safe_atomic; [|exact H]. by rewrite E. Qed.

Lemma safe_elements d w Q W s : Q (count (queue w (side d s))) s -> safe (elements d w) Q W s.
Proof. by intros H sc. Qed.

Lemma safe_data_count d i c Q W s :
  rd (dma_buf_data_count (side d s)) i = Some c -> Q c s -> safe (data_count_of d i) Q W s.
Proof. intros E H. eapply safe_atomic; [|exact H]. by rewrite E. Qed.

Lemma safe_start d i s' Q W s : start_body d i s = Some s' -> Q tt s' -> safe (start d i) Q W s.
Proof.
  intros E H. eapply safe_atomic; [|exact H]. unfold start_body in E.
  destruct (rd (dma_pbuf _) i); [|done]. cbn [mbind option_bind] in E |- *.
  destruct (rd (dma_buf_data_count _) i); [|done]. cbn [mbind option_bind] in E |- *. destruct d; by rewrite E.
Qed.

(** ** The writer *)

(** What the caller's bytes depend on does not change during a call. *)
Record like (a : audio) (sh fz : Z) (tmp : list Z) (s : state) : Prop := {
  l_fmt : fmt s = a; l_shift : codec_volue_shift (code s) = sh; l_size : fragsize s = fz; l_tmp : tmp1 (ctl s) = tmp }.

Lemma like_env a sh fz tmp s s' : env Out s s' -> like a sh fz tmp s -> like a sh fz tmp s'.
Proof.
  intros He [H1 H2 H3 H4]. split.
  - by rewrite (e_fmt _ _ _ He).
  - unfold code. by rewrite (e_mix _ _ _ He).
  - by rewrite (e_size _ _ _ He).
  - destruct (e_ctl _ _ _ He) as (x & y & ->). done.
Qed.

(** While a buffer is full, one is busy. *)
Definition moving (s : state) : Prop := qF (outs s) <> [] -> qB (outs s) <> [].

(** A fragment as it is played in units of [u] bytes. *)
Definition chop (u : Z) (ws : list Z) : list Z := take (Z.to_nat (4 * Z.of_nat (length ws) / u * u / 4)) ws.

Lemma inv_ctl hand st s c :
  inv hand st s -> dma1 c = dma1 (ctl s) -> dma2 c = dma2 (ctl s) -> inv hand st (set_ctl c s).
Proof.
  intros H H1 H2. apply (inv_same hand st s); try done. split; try done. intros p b Hp. by exists b.
Qed.

Lemma inv_flag hand st s f :
  inv hand st s -> pop_dma_flag f = pop_dma_flag (flag s) -> inv hand st (set_flag f s).
Proof.
  intros H H1. apply (inv_same hand st s); try done. split; try done. intros p b Hp. by exists b.
Qed.

(** Exchanging a queue of the playing side does not touch what is in the
    buffers. *)
Lemma with_queue_facts w q s u a sh fz tmp :
  (forall i, frag (with_queue Out w q s) u i = frag s u i) /\ played (with_queue Out w q s) = played s /\
  (unit_now s u -> unit_now (with_queue Out w q s) u) /\
  (like a sh fz tmp s -> like a sh fz tmp (with_queue Out w q s)) /\ fragstotal (with_queue Out w q s) = fragstotal s /\
  outs (with_queue Out w q s) = set_queue w q (outs s).
Proof.
  repeat split; try done; try by destruct w.
  all: destruct H; done.
Qed.

Lemma sized_env {hand st s s' i} :
  inv hand st s -> env Out s s' -> 0 <= i < fragstotal s -> sized s (outs s) i -> sized s' (outs s') i.
Proof.
  intros H He Hi (c & b & Hc & Hb & Hs). pose proof (e_buf _ _ _ He) as Eb. pose proof (e_count _ _ _ He) as Ec.
  simpl in Eb, Ec. pose proof (i_stream _ _ _ H Out) as Hok. simpl in Hok.
  destruct (buffer_block (s := s) Hok Hi) as (p & Hp & Hbk).
  destruct (rd_lt (dma_buf (outs s)) i) as [x Hx]; [rewrite (so_buf _ _ _ Hok); lia|].
  exists c, b. rewrite Ec, (e_size _ _ _ He). split; [done|]. split; [|done]. unfold buffer in *. rewrite Eb, Hx in *.
  simpl in *. rewrite (phys_of Hok Hx Hp) in *. rewrite (e_ram _ _ _ He p); [done|]. by eapply rd_elem.
Qed.

(** ** Starting a buffer

    The steps from a full buffer taken to its transfer started. *)

(** What is kept from the state [s] in which the buffer was taken. *)
Record onward (u j : Z) (l : list Z) (s s' : state) : Prop := {
  on_env : env Out s s'; on_unit : unit_now s' u; on_full : qF (outs s') = l; on_room : (length (qE (outs s)) <= length (qE (outs s')))%nat; on_played : played s' = played s;
  on_frags : map (frag s' u) (j :: l) = map (frag s u) (j :: l) }.

Lemma onward_drift hand st u j l s s1 s2 :
  onward u j l s s1 -> drift hand st u s1 s2 -> inv hand st s1 -> qB (outs s1) = [] \/ st Out = false ->
  (forall i, i ∈ j :: l -> 0 <= i < fragstotal s1) -> onward u j l s s2 /\ qB (outs s2) = qB (outs s1).
Proof.
  intros [H1 H2 H3 HR H4 H5] Hd Hinv Hi Hl. destruct (dr_idle _ _ _ _ _ Hd Hi) as (E & F & B & Pl).
  split; [|done]. split.
  - etransitivity; [exact H1|apply Hd].
  - apply Hd.
  - by rewrite F.
  - by rewrite E.
  - by rewrite Pl.
  - rewrite <- H5. by apply (frags_env _ Hinv (dr_env _ _ _ _ _ Hd)).
Qed.

Lemma env_queue w q s : env Out s (with_queue Out w q s).
Proof. destruct w; (split; try done; apply (e_ctl _ _ _ (env_refl Out s))). Qed.

Lemma onward_take u j l q s :
  unit_now s u -> contents q = l -> onward u j l s (with_queue Out Full q s).
Proof. intros Hu Hq. split; try done. apply env_queue. Qed.

Lemma onward_busy u j l s s1 q : onward u j l s s1 -> onward u j l s (with_queue Out Busy q s1).
Proof. intros [H1 H2 H3 HR H4 H5]. split; try done. etransitivity; [exact H1|apply env_queue]. Qed.

(** The buffer [j] in hand is made busy and its transfer started. *)
Lemma safe_launch u j l s s1 (Q : unit -> state -> Prop) W :
  onward u j l s s1 -> inv (hold Out [j]) (start_at Out true) s1 -> qB (outs s1) = [] -> fill (fmt s1) <> None ->
  sized s1 (outs s1) j -> (forall i, i ∈ j :: l -> 0 <= i < fragstotal s1) ->
  (forall s', onward u j l s s' -> inv (hold Out []) (start_at Out true) s' -> qB (outs s') = [j] -> Q tt s') ->
  safe (preempt;;; put_id Out Busy j;;;
        preempt;;; c <- data_count_of Out j;;
        if 0 <? c then
          start Out j;;;
          modify (fun s => set_flag (set_last_id j (flag s)) s)
        else ret tt) Q W s1.
Proof.
  intros Hon H Hb Hk Hz Hl HQ. assert (Hj : 0 <= j < fragstotal s1) by (apply Hl, list_elem_of_here).
  apply safe_bind. eapply safe_preempt; [exact H|apply Hon|]. intros s2 Hd2. pose proof (dr_inv _ _ _ _ _ Hd2) as H2.
  destruct (onward_drift _ _ _ _ _ _ _ _ Hon Hd2 H (or_introl Hb) Hl) as [On2 B2]. rewrite Hb in B2.
  pose proof (sized_env H (dr_env _ _ _ _ _ Hd2) Hj Hz) as Z2.
  destruct (put_busy_spec Out s2 j H2 B2) as (q & Eq & Cq & H3); [by rewrite (e_fmt _ _ _ (dr_env _ _ _ _ _ Hd2))|done|].
  apply safe_bind. eapply safe_put; [exact Eq|]. apply (onward_busy _ _ _ _ _ q) in On2.
  set (s3 := with_queue Out Busy q s2) in *. assert (B3 : qB (outs s3) = [j]) by exact Cq.
  assert (Z3 : sized s3 (outs s3) j) by (revert Z2; by apply sized_same).
  assert (T3 : fragstotal s3 = fragstotal s1) by apply (e_total _ _ _ (dr_env _ _ _ _ _ Hd2)).
  apply safe_bind. eapply safe_preempt; [exact H3|apply On2|]. intros s4 Hd4. pose proof (dr_inv _ _ _ _ _ Hd4) as H4.
  destruct (onward_drift _ _ _ _ _ _ _ _ On2 Hd4 H3 (or_intror eq_refl)) as [On4 B4]; [by rewrite T3|]. rewrite B3 in B4.
  rewrite <- T3 in Hj. pose proof (sized_env H3 (dr_env _ _ _ _ _ Hd4) Hj Z3) as Z4.
  destruct (start_body_spec Out s4 j H4 B4 Z4) as (d' & t & Es & H5 & U5). set (s5 := set_dmac d' _) in *.
  destruct Z4 as (c & b & Ec & _ & Hc & _). apply safe_bind. eapply safe_data_count; [exact Ec|].
  rewrite (proj2 (Z.ltb_lt 0 c)) by lia. apply safe_bind. eapply safe_start; [exact Es|]. apply safe_modify.
  apply HQ; [|by apply inv_flag|exact B4]. destruct On4 as [N1 N2 N3 NR N4 N5]. split; try done; [|by apply U5].
  etransitivity; [exact N1|]. split; try done. apply (e_ctl _ _ _ (env_refl Out s4)).
Qed.

(** What a write of bytes gives: the bytes in pieces of a fragment, the last one
    maybe shorter, each converted and played in whole units. *)
Inductive accepted (k : filler) (sh u c : Z) : list Z -> list Z -> Prop :=
  | accepted_none : accepted k sh u c [] []
  | accepted_piece l ws rest out :
      0 < Z.of_nat (length l) <= c -> (rest <> [] -> Z.of_nat (length l) = c) ->
      close k ws (words k sh l) -> accepted k sh u c rest out ->
      accepted k sh u c (l ++ rest) (chop u ws ++ out).

Section Writer.
Context (a : audio) (k : filler) (sh m u : Z) (tmp : list Z).
Context (Hk : fill a = Some k) (Hne : k <> F1x8) (Hm : 0 < m) (Hrate : rate_set a k).

Let lk := like a sh (16 * m) tmp.

(** Between the steps of a call, with the buffers [h] in hand: [W] is
    everything accepted for playing, and [n] buffers at least are empty. *)
Record ready (n : nat) (h : list Z) (W : list Z) (s : state) : Prop := {
  r_room : (n <= length (qE (outs s)))%nat;
  r_inv : inv (hold Out h) (start_at Out true) s; r_unit : unit_now s u; r_like : lk s; r_flow : flow s u = W }.

Lemma ready_drift n h W s s' : ready n h W s -> drift (hold Out h) (start_at Out true) u s s' -> ready n h W s'.
Proof.
  intros [H0 H1 H2 H3 H4] Hd. split; [|apply Hd|apply Hd| |].
  - destruct (dr_empty _ _ _ _ _ Hd) as [x ->]. rewrite length_app. lia.
  - apply (like_env _ _ _ _ _ _ (dr_env _ _ _ _ _ Hd) H3).
  - by rewrite (dr_flow _ _ _ _ _ Hd).
Qed.

Lemma safe_preempt_ready n h W Q Wt s :
  ready n h W s -> (forall s', ready n h W s' -> drift (hold Out h) (start_at Out true) u s s' -> Q tt s') ->
  safe preempt Q Wt s.
Proof.
  intros H HQ. eapply safe_preempt; [apply H|apply H|]. intros s' Hd. apply HQ; [|done]. by eapply ready_drift.
Qed.

(** The start of the next full buffer, when none is busy. *)
Lemma start_next_idle n W Wt s :
  ready n [] W s -> qB (outs s) = [] -> safe start_next (fun _ s' => ready n [] W s' /\ moving s') Wt s.
Proof.
  intros H Hb. pose proof (i_stream _ _ _ (r_inv _ _ _ _ H) Out) as Hok. pose proof (counts Hok) as (_ & _ & C).
  simpl in C. unfold start_next. apply safe_bind, safe_elements. simpl queue. simpl side. rewrite C, Hb.
  change (Z.of_nat (length [])) with 0. change (0 =? 0) with true. cbv iota.
  apply safe_bind, (safe_preempt_ready n [] W); [done|]. intros s1 H1 Hd1.
  destruct (dr_idle _ _ _ _ _ Hd1 (or_introl Hb)) as (_ & _ & Eb1 & _). rewrite Hb in Eb1.
  destruct (qF (outs s1)) as [|j l] eqn:HF.
  - apply safe_bind, safe_take_none.
    { pose proof (counts (i_stream _ _ _ (r_inv _ _ _ _ H1) Out)) as (_ & C1 & _). simpl in *. by rewrite C1, HF. }
    change (0 <=? -1) with false. apply safe_ret. split; [done|]. unfold moving. by rewrite HF.
  - destruct (take_spec Out Full true s1 j l (r_inv _ _ _ _ H1) ltac:(done) HF) as (q & Eq & Cq & Hinv2).
    apply safe_bind, (safe_take Out Full j q); [done|].
    pose proof (i_stream _ _ _ (r_inv _ _ _ _ H1) Out) as Hok1. simpl in Hok1.
    assert (Hr : forall i, i ∈ j :: l -> 0 <= i < fragstotal s1).
    { intros i Hi. apply (number_range Hok1). right; left. by rewrite HF. }
    assert (Hj : 0 <= j < fragstotal s1) by (apply Hr, list_elem_of_here).
    rewrite (proj2 (Z.leb_le 0 j)) by lia.
    eapply (safe_launch u j l s1); [by apply onward_take; [apply H1|]|done|done| | |done|].
    + rewrite <- (l_fmt _ _ _ _ _ (r_like _ _ _ _ H1)) in Hk. simpl. by rewrite Hk.
    + pose proof (i_out _ _ _ (r_inv _ _ _ _ H1)) as Ho. rewrite HF in Ho. apply Forall_cons in Ho as [Ho _].
      revert Ho. by apply sized_same.
    + intros s2 On H2 B2. split; [|by unfold moving; rewrite B2].
      split; [pose proof (on_room _ _ _ _ _ On); pose proof (r_room _ _ _ _ H1); lia|done|apply On| |].
      * eapply like_env; [apply On|apply H1].
      * unfold flow. rewrite B2, (on_full _ _ _ _ _ On), (on_played _ _ _ _ _ On).
        change ([j] ++ l) with (j :: l). rewrite (on_frags _ _ _ _ _ On).
        rewrite <- (r_flow _ _ _ _ H1). unfold flow. by rewrite Eb1, HF.
Qed.
Lemma start_next_ready n W Wt s :
  ready n [] W s -> safe start_next (fun _ s' => ready n [] W s' /\ moving s') Wt s.
Proof.
  intros H. destruct (busy_cases Out (r_inv _ _ _ _ H)) as [Hb|[i Hb]]; [by apply start_next_idle|].
  unfold start_next. apply safe_bind, safe_elements.
  pose proof (counts (i_stream _ _ _ (r_inv _ _ _ _ H) Out)) as (_ & _ & C). simpl in C, Hb. simpl. rewrite C, Hb.
  change (Z.of_nat (length [i]) =? 0) with false. apply safe_ret. split; [done|]. unfold moving. by rewrite Hb.
Qed.

Lemma in_hand h n t i j : stream_ok n t (i :: h) -> j ∈ qB t ++ qF t -> j <> i /\ 0 <= j < n.
Proof.
  intros Hok Hj. split; [|apply (number_range Hok); apply elem_of_app in Hj as [|]; auto]. intros ->.
  assert (Hnd : NoDup (qE t ++ qF t ++ qB t ++ i :: h)) by (rewrite (so_perm _ _ _ Hok); apply NoDup_seqZ).
  rewrite !app_assoc in Hnd. apply NoDup_app in Hnd as (_ & Hd & _). apply (Hd i); [|apply list_elem_of_here].
  apply elem_of_app in Hj. rewrite !elem_of_app. tauto.
Qed.

(** The conversion of the bytes [l] into the buffer in hand. *)
Lemma safe_fill n W s i p l c Q Wt :
  ready n [i] W s -> tmp = p ++ l ++ c -> whole k (length l) -> 0 < Z.of_nat (length l) ->
  4 * words_for k (Z.of_nat (length l)) <= 16 * m ->
  (forall ws s', close k ws (words k sh l) -> ready n [i] W s' -> frag s' u i = chop u ws -> sized s' (outs s') i ->
     qE (outs s') = qE (outs s) -> Q tt s') ->
  safe (fill_buffer (Z.of_nat (length p)) (Z.of_nat (length l)) i) Q Wt s.
Proof.
  intros [Hn H Hu [L1 L2 L3 L4] Hf] Ht Hw Hpos Hroom HQ.
  assert (Ha : inv (hold Out [i]) all s) by (apply (inv_ext (hold Out [i]) _ (start_at Out true)); [done|by intros [|]|done]).
  destruct (fill_body_spec s i k p l c Ha) as (ws & last & q & blk & Hc & Hi & Hq & Hblk & Hws & Hlen & E);
    [by rewrite L1|done|by rewrite L1|by rewrite L4|done|done|by rewrite L3|].
  eapply safe_run; [exact E|]. rewrite L2 in Hc.
  pose proof (filled_inv s i q ws blk last Ha Hi Hq Hblk Hws Hlen) as Hinv.
  destruct (filled_self s i q ws blk last Ha Hi Hq Hws Hlen) as (Eb & Ec & Hz).
  pose proof (i_stream _ _ _ H Out) as Hok. rewrite hold_same in Hok. simpl in Hok.
  apply (HQ ws); [done| |..|done|done].
  - split; [done| |done|by split|].
    + apply (inv_ext (hold Out [i]) _ all); [done|by intros [|]|done].
    + rewrite <- Hf. unfold flow. simpl. do 2 f_equal. apply map_ext_in. intros j Hj. apply list_elem_of_In in Hj.
      apply (in_hand [] (fragstotal s) (outs s) i) in Hj as [Hni Hj]; [|done].
      by apply (filled_frag s i q ws blk last Ha Hi Hq).
  - unfold frag. rewrite Ec, Eb. unfold chop. apply take_app_le.
    assert (Hu0 : 0 < u).
    { destruct Hu as (c0 & r0 & _ & <- & _). unfold unit_of. destruct (_ =? _); lia. }
    pose proof (Z.mul_div_le (4 * Z.of_nat (length ws)) u Hu0).
    assert (4 * Z.of_nat (length ws) / u * u / 4 <= Z.of_nat (length ws)) by (apply Z.div_le_upper_bound; lia). lia.
Qed.

Lemma safe_take_ready n W s Q Wt :
  ready n [] W s -> qE (outs s) <> [] -> (forall i s', 0 <= i -> ready (pred n) [i] W s' -> Q i s') -> safe (take_id Out Empty) Q Wt s.
Proof.
  intros [Hn H Hu HL Hf] He HQ. destruct (qE (outs s)) as [|i l] eqn:HE; [done|].
  destruct (take_spec Out Empty true s i l H ltac:(done) HE) as (q & Eq & Cq & Hinv).
  eapply safe_take; [exact Eq|]. pose proof (number_head (i_stream _ _ _ H Out) (or_introl HE)).
  apply HQ; [lia|destruct HL; split; [|exact Hinv|exact Hu|by split|exact Hf]].
  change (qE (outs (with_queue Out Empty q s))) with (contents q). rewrite Cq. simpl in Hn. lia.
Qed.

Lemma safe_put_ready n W X s i Wt :
  ready n [i] W s -> sized s (outs s) i -> frag s u i = X ->
  safe (put_id Out Full i) (fun _ s' => ready n [] (W ++ X) s') Wt s.
Proof.
  intros [Hn H Hu HL Hf] Hz HX. destruct (put_spec Out Full true s i H ltac:(done)) as (q & Eq & Cq & Hinv).
  { intros _ _. split; [done|]. rewrite (l_fmt _ _ _ _ _ HL). by rewrite Hk. }
  eapply safe_put; [exact Eq|]. destruct HL. split; [done|exact Hinv|exact Hu|by split|]. rewrite <- Hf, <- HX. unfold flow. simpl.
  change (qF (set_full q (outs s))) with (contents q). rewrite Cq.
  change (qB (set_full q (outs s))) with (qB (outs s)). simpl queue. fold (qF (outs s)).
  rewrite (app_assoc (qB _)), map_app, concat_app, app_assoc. simpl. by rewrite app_nil_r.
Qed.

(** A round of the loop, from the buffer taken on. *)
Lemma round_ready n W s i p l c left (K : P Z) Q Wt :
  ready n [i] W s -> tmp = p ++ l ++ c -> whole k (length l) -> 0 < Z.of_nat (length l) ->
  4 * words_for k (Z.of_nat (length l)) <= 16 * m ->
  (forall ws s', close k ws (words k sh l) -> ready n [] (W ++ chop u ws) s' -> moving s' -> safe K Q Wt s') ->
  safe (preempt;;;
        fill_buffer (Z.of_nat (length p)) (Z.of_nat (length l)) i;;;
        c <- data_count_of Out i;;
        preempt;;;
        (if 0 <? c then put_id Out Full i else put_id Out Empty i);;;
        preempt;;;
        modify (fun s => set_ctl (set_nextOut (nextOut (ctl s) + left) (ctl s)) s);;;
        preempt;;;
        start_next;;; K) Q Wt s.
Proof.
  intros H Ht Hw Hpos Hroom HK. apply safe_bind, (safe_preempt_ready n [i] W); [done|]. intros s1 H1 _.
  apply safe_bind. eapply safe_fill; [exact H1|exact Ht|done|done|done|]. intros ws s2 Hc H2 Hf Hz _.
  assert (Hi : 0 <= i < fragstotal s2).
  { apply (number_range (i_stream _ _ _ (r_inv _ _ _ _ H2) Out)). do 3 right. apply list_elem_of_here. }
  pose proof Hz as (cnt & b & Ec & _ & Hcnt & _). apply safe_bind. eapply safe_data_count; [exact Ec|].
  apply safe_bind, (safe_preempt_ready n [i] W); [done|]. intros s3 H3 Hd3. rewrite (proj2 (Z.ltb_lt 0 cnt)) by lia.
  apply safe_bind. eapply safe_mono; [apply (safe_put_ready n W (chop u ws)); [done|..]| |].
  - by apply (sized_env (r_inv _ _ _ _ H2) (dr_env _ _ _ _ _ Hd3)).
  - rewrite <- Hf. by apply (frag_env (r_inv _ _ _ _ H2) (dr_env _ _ _ _ _ Hd3)).
  - intros [] s4 H4. apply safe_bind, (safe_preempt_ready n [] (W ++ chop u ws)); [done|]. intros s5 H5 _.
    apply safe_bind, safe_modify, safe_bind, (safe_preempt_ready n [] (W ++ chop u ws)).
    { destruct H5 as [N5 H5 U5 [L1 L2 L3 L4] F5]. split; [done|by apply inv_ctl|done|by split|done]. }
    intros s6 H6 _. apply safe_bind. eapply safe_mono; [by apply (start_next_ready n (W ++ chop u ws))| |].
    + intros [] s7 [H7 M7]. by apply (HK ws).
    + exact (fun _ x => x).
  - exact (fun _ x => x).
Qed.

(** The wait for an empty buffer: asleep, or with one to take. *)
Lemma safe_wait n W s nonblock (K : P Z) r Q (Wt : state -> Prop) :
  ready n [] W s -> moving s ->
  (nonblock = true -> forall s', ready n [] W s' -> moving s' -> qE (outs s') = [] -> n = 0%nat -> Q r s') ->
  (nonblock = false -> forall s', ready n [] W s' -> moving s' -> n = 0%nat -> Wt s') ->
  (forall s', ready n [] W s' -> moving s' -> qE (outs s') <> [] -> safe K Q Wt s') ->
  safe (preempt;;;
        e <- elements Out Empty;;
        if (e =? 0) && nonblock then ret r
        else (if e =? 0 then preempt;;; sleep_on Tx_wait else ret tt);;; K) Q Wt s.
Proof.
  intros H Hm0 Hnb Hsl HK. apply safe_bind, (safe_preempt_ready n [] W); [done|]. intros s1 H1 Hd1.
  pose proof (dr_moving _ _ _ _ _ Hd1 Hm0) as M1. apply safe_bind, safe_elements.
  pose proof (counts (i_stream _ _ _ (r_inv _ _ _ _ H1) Out)) as (C & _ & _). simpl in C. simpl. rewrite C.
  destruct (Z.eqb_spec (Z.of_nat (length (qE (outs s1)))) 0) as [He|He].
  - assert (Hn0 : n = 0%nat) by (pose proof (r_room _ _ _ _ H1); lia).
    assert (qE (outs s1) = []) by (destruct (qE (outs s1)); [done|simpl in He; lia]).
    destruct nonblock; simpl; [apply safe_ret; by apply Hnb|].
    apply safe_bind, safe_bind, (safe_preempt_ready n [] W); [done|]. intros s2 H2 Hd2.
    pose proof (dr_moving _ _ _ _ _ Hd2 M1) as M2.
    eapply safe_sleep_tx; [apply H2|apply H2|intros s3 Hd3 He3; apply HK|intros s3 Hd3; apply Hsl]; try done.
    + by eapply ready_drift.
    + exact (dr_moving _ _ _ _ _ Hd3 M2).
    + by eapply ready_drift.
    + exact (dr_moving _ _ _ _ _ Hd3 M2).
  - simpl. apply safe_bind, safe_ret. apply HK; [done|done|]. intros HE. rewrite HE in He. done.
Qed.

Let c := copy_count a (16 * m).

(** Where a call stands that has taken the bytes [q]. *)
Definition taken (W q : list Z) (s : state) : Prop :=
  exists out, accepted k sh u c q out /\ ready 0 [] (W ++ out) s /\ moving s.

Lemma taken_none n W s : ready n [] W s -> moving s -> taken W [] s.
Proof.
  intros [? ? ? ? ?] Hmv. exists []. rewrite app_nil_r. split; [constructor|]. split; [|done]. split; try done. lia.
Qed.

Lemma taken_more W l ws q s :
  0 < Z.of_nat (length l) <= c -> (q <> [] -> Z.of_nat (length l) = c) -> close k ws (words k sh l) ->
  taken (W ++ chop u ws) q s -> taken W (l ++ q) s.
Proof.
  intros Hl Hq Hc (out & Ha & Hr & Hmv). exists (chop u ws ++ out). rewrite app_assoc.
  split; [|done]. by apply accepted_piece.
Qed.

(** The next piece of the bytes that are left. *)
Lemma next_piece (rest : list Z) :
  audio_wf a -> rest <> [] -> whole k (length rest) -> exists l rest', rest = l ++ rest' /\
    Z.of_nat (length l) = (if Z.of_nat (length rest) <? c then Z.of_nat (length rest) else c) /\
    0 < Z.of_nat (length l) <= c /\ (rest' <> [] -> Z.of_nat (length l) = c) /\
    whole k (length l) /\ whole k (length rest') /\ 4 * words_for k (Z.of_nat (length l)) <= 16 * m.
Proof.
  intros Hwf Hnr Hw. pose proof (copy_count_of a k m Hwf Hk ltac:(lia)) as Hcc. fold c in Hcc.
  pose proof (fragment_words a k m Hwf Hk ltac:(lia)) as Hfw. fold c in Hfw. rewrite decide_False in Hfw by done.
  assert (Hc0 : 0 < c) by (destruct k; lia). assert (Hp : 0 < Z.of_nat (length rest)) by (destruct rest; simpl; [done|lia]).
  destruct (Z.ltb_spec (Z.of_nat (length rest)) c) as [Hlt|Hge].
  - exists rest, []. rewrite app_nil_r. repeat (split; [done || lia|]). split; [destruct k; try done; by exists 0%nat|].
    rewrite Z.mul_1_l in Hfw. rewrite <- Hfw. apply Z.mul_le_mono_nonneg_l; [lia|].
    destruct k; cbn [words_for]; try lia. apply Z.div_le_mono; lia.
  - exists (take (Z.to_nat c) rest), (drop (Z.to_nat c) rest).
    assert (Hl : Z.of_nat (length (take (Z.to_nat c) rest)) = c) by (rewrite length_take; lia).
    rewrite take_drop, Hl. repeat (split; [done || lia|]).
    assert (Hw1 : whole k (length (take (Z.to_nat c) rest))) by (by apply (fragment_whole a k m _ Hwf Hk ltac:(lia))).
    split; [done|]. split; [|lia]. rewrite length_drop.
    assert (Hle : (Z.to_nat c <= length rest)%nat) by lia. rewrite length_take, Nat.min_l in Hw1 by lia.
    destruct k; try done; destruct Hw as [x Hx], Hw1 as [y Hy]; exists (x - y)%nat; lia.
Qed.

(** A call that returns [r], having taken [q] of the bytes [q ++ rest'], and one
    that sleeps; [n] is the number of empty buffers at its start. *)
Definition finished (nonblock : bool) (n : nat) (W p rest : list Z) (r : Z) (s : state) : Prop :=
  exists q rest', rest = q ++ rest' /\ r = Z.of_nat (length (p ++ q)) /\ taken W q s /\
    (rest' <> [] -> nonblock = true /\ qE (outs s) = [] /\ c * Z.of_nat n <= Z.of_nat (length q)).

Definition stuck (nonblock : bool) (n : nat) (W rest : list Z) (s : state) : Prop :=
  nonblock = false /\ exists q rest', rest = q ++ rest' /\ rest' <> [] /\ taken W q s /\
    c * Z.of_nat n <= Z.of_nat (length q).

Lemma write_loop_ready (nonblock : bool) (data tail : list Z) :
  tmp = data ++ tail -> audio_wf a -> forall fuel n p rest cp W s,
  data = p ++ rest -> (length rest <= fuel)%nat -> whole k (length rest) -> (rest <> [] -> cp = c) ->
  ready n [] W s -> moving s ->
  safe (write_loop fuel nonblock (Z.of_nat (length data)) (Z.of_nat (length p)) (Z.of_nat (length rest)) cp)
    (finished nonblock n W p rest) (stuck nonblock n W rest) s.
Proof.
  intros Ht Hwf fuel.
  assert (Hend : forall n p W s, ready n [] W s -> moving s -> finished nonblock n W p [] (Z.of_nat (length p)) s).
  { intros n p W s H Hmv. exists [], []. rewrite (app_nil_r p). repeat (split; [done|]). split; [by eapply taken_none|done]. }
  induction fuel as [|fuel IH]; intros n p rest cp W s Hd Hfl Hw Hcp H Hmv.
  { destruct rest; [|simpl in Hfl; lia]. apply safe_ret. by apply Hend. }
  destruct (decide (rest = [])) as [->|Hnr]; [apply safe_ret; by apply Hend|].
  assert (Hp : 0 < Z.of_nat (length rest)) by (destruct rest; simpl; [done|lia]).
  simpl write_loop. rewrite (proj2 (Z.ltb_lt _ _) Hp), (Hcp Hnr).
  apply (safe_wait n W); [done|done| | |].
  - intros -> s' H' M' E' ->. exists [], rest. rewrite (app_nil_r p). repeat (split; [done|]).
    split; [by eapply taken_none|]. rewrite Z.mul_0_r. done.
  - intros -> s' H' M' ->. split; [done|]. exists [], rest. repeat (split; [done|]).
    split; [by eapply taken_none|]. rewrite Z.mul_0_r. done.
  - intros s1 H1 M1 E1. cbv zeta.
    destruct (next_piece rest Hwf Hnr Hw) as (l & rest' & Hr & Hl & Hlp & Hlc & Hwl & Hwr & Hroom).
    assert (Hcopy : (if Z.of_nat (length data) <? Z.of_nat (length p) + c
                     then Z.of_nat (length data) - Z.of_nat (length p) else c) = Z.of_nat (length l)).
    { rewrite Hl, Hd, length_app. destruct (Z.ltb_spec (Z.of_nat (length rest)) c);
        [rewrite (proj2 (Z.ltb_lt _ _)) by lia; lia|rewrite (proj2 (Z.ltb_ge _ _)) by lia; lia]. }
    rewrite Hcopy. apply safe_bind, (safe_preempt_ready n [] W); [done|]. intros s2 H2 Hd2.
    apply safe_bind, (safe_take_ready n W); [done| |].
    { destruct (dr_empty _ _ _ _ _ Hd2) as [x ->]. by destruct (qE (outs s1)). }
    intros i s3 Hi H3. rewrite (proj2 (Z.leb_le 0 i) Hi).
    apply (round_ready (pred n) W s3 i p l (rest' ++ tail)); [done|by rewrite Ht, Hd, Hr, <- !app_assoc|done|lia|done|].
    intros ws s4 Hc4 H4 M4. assert (Hlr : length rest = (length l + length rest')%nat) by (by rewrite Hr, length_app).
    replace (Z.of_nat (length p) + Z.of_nat (length l)) with (Z.of_nat (length (p ++ l))) by (rewrite length_app; lia).
    replace (Z.of_nat (length rest) - Z.of_nat (length l)) with (Z.of_nat (length rest')) by lia.
    assert (Hmore : forall q r2 s', rest' = q ++ r2 -> taken (W ++ chop u ws) q s' -> taken W (l ++ q) s').
    { intros q r2 s' -> Hq. apply (taken_more W l ws); try done. intros Hq0. apply Hlc. by destruct q. }
    assert (Hcnt : forall q r2 : list Z, rest' = q ++ r2 -> r2 <> [] -> c * Z.of_nat (pred n) <= Z.of_nat (length q) ->
      c * Z.of_nat n <= Z.of_nat (length (l ++ q))).
    { intros q r2 -> Hr2 Hq. rewrite length_app, Nat2Z.inj_add, Hlc by (by destruct q).
      destruct n as [|n0]; [lia|]. rewrite Nat2Z.inj_succ, Z.mul_succ_r. simpl in Hq. lia. }
    eapply safe_mono; [apply (IH (pred n) (p ++ l) rest' _ (W ++ chop u ws))|..]; try done.
    + by rewrite Hd, Hr, app_assoc.
    + lia.
    + intros r s' (q & rest2 & Hq0 & -> & Hq & Hr2). exists (l ++ q), rest2. rewrite Hr, Hq0, !app_assoc.
      repeat (split; [done|]). split; [by eapply Hmore|]. intros Hx. destruct (Hr2 Hx) as (? & ? & ?). eauto.
    + intros s' (Hnb & q & rest2 & Hq0 & Hr2 & Hq & Hq2). split; [done|]. exists (l ++ q), rest2. rewrite Hr, Hq0, app_assoc.
      repeat (split; [done|]). split; [by eapply Hmore|]. eauto.
Qed.

End Writer.
