(* ===== verification/I2sSound.v ===== *)
(** * Calls of a program that plays

    Histories of [write] calls and interrupts: what was accepted is played, in
    order and in the end all of it, and [SNDCTL_DSP_GETOSPACE] tells how much can
    be written without sleeping. *)

From S2P Require Import Prelude.
From S2P Require Import Dma.
From S2P Require Import I2sFill.
From S2P Require Import I2sCodec.
From S2P Require Import I2sDriver.
From S2P Require Import I2sQueues.
From S2P Require Import I2sSystem.
From S2P Require Import I2sPlay.

#[local] Arguments Z.eqb : simpl never.
#[local] Arguments Z.ltb : simpl never.
#[local] Arguments Z.leb : simpl never.
#[local] Arguments Z.add : simpl never.
#[local] Arguments Z.sub : simpl never.
#[local] Arguments Z.mul : simpl never.
#[local] Arguments Z.of_nat : simpl never.
#[local] Arguments Z.to_nat : simpl never.
#[local] Open Scope sound_scope.

(** ** A write call *)

(** Between calls, with fragments of [16 * m] bytes, a temporary buffer of [t]
    bytes and units of [u] bytes. *)
Record playing (a : audio) (sh m u : Z) (t : nat) (s : state) : Prop := {
  pl_inv : inv none all s; pl_unit : unit_now s u; pl_fmt : fmt s = a; pl_shift : codec_volue_shift (code s) = sh;
  pl_size : fragsize s = 16 * m; pl_tmp : length (tmp1 (ctl s)) = t; pl_moving : moving s }.

Section Calls.
Context (a : audio) (k : filler) (sh m u : Z) (t : nat).
Context (Hwf : audio_wf a) (Hk : fill a = Some k) (Hne : k <> F1x8) (Hm : 0 < m) (Hrate : rate_set a k).

Let c := copy_count a (16 * m).
Let good := playing a sh m u t.

Lemma good_ready tmp s :
  good s -> tmp1 (ctl s) = tmp -> ready a sh m u tmp (length (qE (outs s))) [] (flow s u) s.
Proof.
  intros [H1 H2 H3 H4 H5 H6 H7] Ht. split; [lia| |done|by split|done].
  apply (inv_ext none _ all); [by intros [|]|by intros [|]|done].
Qed.

Lemma ready_good tmp n W s :
  ready a sh m u tmp n [] W s -> length tmp = t -> moving s -> good s /\ flow s u = W.
Proof.
  intros [H1 H2 H3 [L1 L2 L3 L4] H5] Ht Hmv. split; [|done]. split; try done; [|by rewrite L4].
  apply (inv_ext (hold Out []) _ (start_at Out true)); [by intros [|]|by intros [|]|done].
Qed.

(** A drift of interrupts between calls. *)
Lemma good_drift s s' : good s -> drift none all u s s' -> good s' /\ flow s' u = flow s u.
Proof.
  intros [H1 H2 H3 H4 H5 H6 H7] Hd. split; [|apply Hd]. pose proof (dr_env _ _ _ _ _ Hd) as He.
  split; [apply Hd|apply Hd| | | | |].
  - by rewrite (e_fmt _ _ _ He).
  - unfold code. by rewrite (e_mix _ _ _ He).
  - by rewrite (e_size _ _ _ He).
  - by destruct (e_ctl _ _ _ He) as (x & y & ->).
  - exact (dr_moving _ _ _ _ _ Hd H7).
Qed.

Lemma good_ctl s v : good s -> dma1 v = dma1 (ctl s) -> dma2 v = dma2 (ctl s) -> length (tmp1 v) = t -> good (set_ctl v s).
Proof.
  intros [H1 H2 H3 H4 H5 H6 H7] E1 E2 Et. split; try done; [by apply inv_ctl|].
  destruct H2 as (x & r & Hat & Hx). exists x, r. simpl. by rewrite E1.
Qed.

(** What a call has done when it returns or sleeps: [q] is what it took of
    [data], [E] the empty buffers before it. *)
Definition took (nonblock : bool) (W : list Z) (E : nat) (data q : list Z) (s : state) : Prop :=
  good s /\ (exists out, accepted k sh u c q out /\ flow s u = W ++ out) /\
  exists rest, data = q ++ rest /\
    (rest <> [] -> (nonblock = true -> qE (outs s) = []) /\ c * Z.of_nat E <= Z.of_nat (length q)).

Lemma write_safe (nonblock : bool) fuel data s :
  good s -> data <> [] -> whole k (length data) -> (length data <= t)%nat -> (length data <= fuel)%nat ->
  safe (jz_audio_write fuel nonblock (Z.of_nat (length data)) (Some data))
    (fun r s' => exists q, r = Z.of_nat (length q) /\ took nonblock (flow s u) (length (qE (outs s))) data q s' /\
                           (nonblock = false -> q = data))
    (fun s' => nonblock = false /\ exists q, q <> data /\ took nonblock (flow s u) (length (qE (outs s))) data q s') s.
Proof.
  intros H Hd Hw Ht Hf. assert (Hp : 0 < Z.of_nat (length data)) by (destruct data; simpl; [done|lia]).
  unfold jz_audio_write. rewrite (proj2 (Z.leb_gt _ _) Hp). apply safe_bind, safe_modify.
  set (s1 := set_code _ s). assert (H1 : good s1).
  { destruct H as [P1 P2 P3 P4 P5 P6 P7]. split; try done. apply (inv_same none all s); try done. split; try done.
    intros p b Hb. by exists b. }
  apply safe_bind. eapply safe_preempt; [apply H1|apply H1|]. intros s2 Hd2.
  destruct (good_drift _ _ H1 Hd2) as [H2 F2]. change (flow s1 u) with (flow s u) in F2.
  assert (R2 : (length (qE (outs s)) <= length (qE (outs s2)))%nat).
  { destruct (dr_empty _ _ _ _ _ Hd2) as [x ->]. rewrite length_app. simpl. lia. }
  apply safe_bind, safe_modify, safe_bind. eapply safe_atomic.
  { simpl. rewrite (pl_fmt _ _ _ _ _ _ H2), (proj2 (Z.eqb_neq (jz_audio_b a) 0)) by (by eapply width_set).
    by rewrite andb_false_r. }
  apply safe_bind. eapply safe_atomic.
  { simpl. rewrite (pl_tmp _ _ _ _ _ _ H2), (proj2 (Z.ltb_ge _ _)) by lia. done. }
  simpl. rewrite (pl_size _ _ _ _ _ _ H2). fold c. set (tmp := data ++ _). set (s3 := set_ctl _ _).
  assert (Htl : length tmp = t) by (unfold tmp; rewrite length_app, length_drop, (pl_tmp _ _ _ _ _ _ H2); lia).
  assert (H3 : good s3).
  { apply good_ctl; simpl; [|done|done|done]. apply good_ctl; [done|done|done|]. apply H2. }
  pose proof (good_ready tmp s3 H3 eq_refl) as R3.
  assert (F3 : flow s3 u = flow s u) by (by rewrite <- F2). rewrite F3 in R3.
  assert (R3' : ready a sh m u tmp (length (qE (outs s))) [] (flow s u) s3).
  { destruct R3. by split. }
  eapply safe_mono; [apply (write_loop_ready a k sh m u tmp Hk Hne Hm Hrate nonblock data (drop (length data) (tmp1 (ctl s2)))
    eq_refl Hwf fuel (length (qE (outs s))) [] data c (flow s u)); try done; apply H3|..].
  - intros r s' (q & rest & -> & -> & (out & Ha & Hr & Hmv) & Hrest). exists q. split; [done|].
    destruct (ready_good _ _ _ _ Hr Htl Hmv) as [G F]. split.
    + split; [done|]. split; [by exists out|]. exists rest. split; [done|]. intros Hx. destruct (Hrest Hx) as (_ & ? & ?). done.
    + intros Hnb. destruct (decide (rest = [])) as [->|Hx]; [by rewrite app_nil_r|]. destruct (Hrest Hx). congruence.
  - intros s' (Hnb & q & rest & -> & Hx & (out & Ha & Hr & Hmv) & Hcnt). split; [done|]. exists q.
    destruct (ready_good _ _ _ _ Hr Htl Hmv) as [G F]. split.
    + intros Hq. apply (f_equal length) in Hq. rewrite length_app in Hq. destruct rest; [done|simpl in Hq; lia].
    + split; [done|]. split; [by exists out|]. exists rest. split; [done|]. intros _. split; [congruence|done].
Qed.

End Calls.

(** ** Histories *)

(** A program's [write] with the interrupts during it, or an interrupt between
    calls. *)
Inductive event := Irq (i : interrupt) | Write (nonblock : bool) (data : list Z) (sc : sched).

(** The run of a history: the bytes that each completed call took, whether the
    last call sleeps, which ends the history, and the state. *)
Fixpoint history (evs : list event) (s : state) : option (list (list Z) * bool * state) :=
  match evs with
  | [] => Some ([], false, s)
  | Irq i :: evs => '(_, s) ← deliver s i; history evs s
  | Write nonblock data sc :: evs =>
      match jz_audio_write (length data) nonblock (Z.of_nat (length data)) (Some data) s sc with
      | Some (Done r, s, _) =>
          '(calls, asleep, s) ← history evs s; Some (take (Z.to_nat r) data :: calls, asleep, s)
      | Some (Asleep, s, _) => Some ([], true, s)
      | _ => None
      end
  end.

(** The calls that a program may make: whole samples, no more than the
    temporary buffer holds. *)
Definition proper_event (k : filler) (t : nat) (e : event) : Prop :=
  match e with
  | Irq _ => True
  | Write _ data _ => data <> [] /\ whole k (length data) /\ (length data <= t)%nat
  end.

Fixpoint requests (evs : list event) : list (bool * list Z) :=
  match evs with
  | [] => []
  | Irq _ :: evs => requests evs
  | Write nonblock data _ :: evs => (nonblock, data) :: requests evs
  end.

(** A call's bytes are served from the front; all of them if it may sleep. *)
Definition served (rq : bool * list Z) (q : list Z) : Prop := q `prefix_of` rq.2 /\ (rq.1 = false -> q = rq.2).

(** What is in the buffers on its way to the codec. *)
Definition waiting (u : Z) (s : state) : list Z := concat (map (frag s u) (qB (outs s) ++ qF (outs s))).

(** What a history from [s] leads to. *)
Record outcome (a : audio) (k : filler) (sh m u : Z) (t : nat) (evs : list event) (s : state)
    (calls : list (list Z)) (asleep : bool) (s' : state) : Prop := {
  oc_playing : playing a sh m u t s';
  oc_served : Forall2 served (take (length calls) (requests evs)) calls;
  oc_all : asleep = false -> length calls = length (requests evs);
  oc_words : exists outs rest,
    Forall2 (accepted k sh u (copy_count a (16 * m))) calls outs /\
    played s' ++ waiting u s' = played s ++ waiting u s ++ concat outs ++ rest /\
    (asleep = false -> rest = []) /\ (exists q, accepted k sh u (copy_count a (16 * m)) q rest) }.

Lemma outcome_none a k sh m u t s : playing a sh m u t s -> outcome a k sh m u t [] s [] false s.
Proof.
  intros H. split; [done|constructor|done|]. exists [], []. split; [constructor|]. rewrite !app_nil_r.
  split; [done|]. split; [done|]. exists []. constructor.
Qed.

Lemma history_outcome a k sh m u t :
  fill a = Some k -> k <> F1x8 -> rate_set a k -> 0 < m -> forall evs s,
  Forall (proper_event k t) evs -> playing a sh m u t s ->
  exists calls asleep s', history evs s = Some (calls, asleep, s') /\ outcome a k sh m u t evs s calls asleep s'.
Proof.
  intros Hk Hne Hr Hm. induction evs as [|e evs IH]; intros s Hev H.
  { exists [], false, s. split; [done|]. by apply outcome_none. }
  assert (Hwf : audio_wf a) by (rewrite <- (pl_fmt _ _ _ _ _ _ H); apply (i_fmt _ _ _ (pl_inv _ _ _ _ _ _ H))).
  apply Forall_cons in Hev as [He Hev]. destruct e as [i|nonblock data sc]; simpl.
  - destruct (deliver_drift i (pl_inv _ _ _ _ _ _ H) (pl_unit _ _ _ _ _ _ H)) as (tx & rx & s1 & -> & Hd & _).
    destruct (good_drift _ _ _ _ _ _ _ H Hd) as [H1 F1]. simpl.
    destruct (IH s1 Hev H1) as (calls & asleep & s' & -> & Ho). exists calls, asleep, s'. split; [done|].
    destruct Ho as [O1 O2 O3 (os & rest & Ha & Hp & Hx)]. split; try done. exists os, rest. split; [done|]. split; [|done].
    unfold flow in F1. fold (waiting u s1) (waiting u s) in F1. rewrite Hp, app_assoc, F1. by rewrite <- app_assoc.
  - destruct He as (Hd & Hw & Ht).
    pose proof (write_safe a k sh m u t Hwf Hk Hne Hm Hr nonblock (length data) data s H Hd Hw Ht ltac:(lia) sc) as X.
    destruct (jz_audio_write _ _ _ _ s sc) as [[[[r| |] s1] sc1]|]; try done.
    + destruct X as (q & -> & (H1 & (out & Ha & F1) & rest1 & -> & _) & Hall).
      destruct (IH s1 Hev H1) as (calls & asleep & s' & -> & Ho). simpl. rewrite Nat2Z.id, take_app_length.
      exists (q :: calls), asleep, s'. split; [done|]. destruct Ho as [O1 O2 O3 (os & rest & Has & Hp & Hx)].
      split; [done| | |].
      * simpl. constructor; [|done]. split; [by exists rest1|done].
      * intros Has'. simpl. by rewrite O3.
      * exists (out :: os), rest. split; [by constructor|]. split; [|done].
        unfold flow in F1. fold (waiting u s1) (waiting u s) in F1. simpl. rewrite Hp, app_assoc, F1.
        by rewrite <- !app_assoc.
    + destruct X as (-> & q & Hq & H1 & (out & Ha & F1) & rest1 & -> & _).
      exists [], true, s1. split; [done|]. split; [done|constructor|done|].
      exists [], out. split; [constructor|]. unfold flow in F1. fold (waiting u s1) (waiting u s) in F1.
      rewrite F1, <- app_assoc. split; [done|]. split; [done|]. by exists q.
Qed.

(** ** The end of playing *)

Lemma history_app e1 e2 s calls s' :
  history e1 s = Some (calls, false, s') ->
  history (e1 ++ e2) s = '(calls', asleep, s'') ← history e2 s'; Some (calls ++ calls', asleep, s'').
Proof.
  revert s calls. induction e1 as [|[i|nonblock data sc] e1 IH]; intros s calls; simpl.
  - intros [= <- <-]. destruct (history e2 s) as [[[? ?] ?]|]; done.
  - destruct (deliver s i) as [[[? ?] s1]|]; simpl; [|done]. apply IH.
  - destruct (jz_audio_write _ _ _ _ s sc) as [[[[r| |] s1] sc1]|]; try done.
    destruct (history e1 s1) as [[[cs b] s2]|] eqn:E; simpl; [|done]. intros [= <- -> <-].
    rewrite (IH s1 cs E). by destruct (history e2 s2) as [[[? ?] ?]|].
Qed.

Lemma nothing_busy {s} : moving s -> qB (outs s) = [] -> qF (outs s) = [].
Proof. unfold moving. intros Hm Hb. destruct (qF (outs s)); [done|]. exfalso. by apply Hm. Qed.

(** Without further calls, every waiting buffer takes one interrupt. *)
Lemma drain a sh m u t n s :
  playing a sh m u t s -> (length (qB (outs s) ++ qF (outs s)) <= n)%nat ->
  exists s', history (replicate n (Irq Tx)) s = Some ([], false, s') /\ playing a sh m u t s' /\
    qB (outs s') = [] /\ qF (outs s') = [] /\ played s' = flow s u.
Proof.
  revert s. induction n as [|n IH]; intros s H Hn.
  { exists s. assert (Hz : qB (outs s) ++ qF (outs s) = []) by (destruct (qB (outs s) ++ qF (outs s)); [done|simpl in Hn; lia]).
    unfold flow. rewrite Hz. simpl. rewrite app_nil_r. apply app_nil in Hz as [-> ->]. done. }
  destruct (deliver_effect Tx (pl_inv _ _ _ _ _ _ H)) as (tx & rx & s1 & E & He).
  cbn [replicate history]. rewrite E. cbn [mbind option_bind].
  destruct (effect_drift (pl_inv _ _ _ _ _ _ H) (pl_unit _ _ _ _ _ _ H) He) as [Hd _].
  destruct (good_drift _ _ _ _ _ _ _ H Hd) as [H1 F1]. rewrite <- F1. apply IH; [done|].
  destruct (busy_cases Out (pl_inv _ _ _ _ _ _ H)) as [Hb|[i Hb]]; simpl in Hb.
  - destruct (dr_idle _ _ _ _ _ Hd (or_introl Hb)) as (_ & -> & -> & _).
    rewrite Hb, (nothing_busy (pl_moving _ _ _ _ _ _ H) Hb). simpl. lia.
  - destruct (tx_step (pl_inv _ _ _ _ _ _ H) Hb eq_refl) as (v & s2 & E2 & Ht). rewrite E in E2. injection E2 as -> -> ->.
    destruct (td_next _ _ _ _ _ _ Ht) as [-> _]. rewrite Hb in Hn. simpl in Hn. lia.
Qed.

(** User bytes of [n] fragments. *)
Lemma user_fragments a k m n :
  audio_wf a -> fill a = Some k -> 0 <= m -> 0 <= n -> to_user a (n * (16 * m)) = Some (copy_count a (16 * m) * n).
Proof.
  intros Hwf Hk Hm Hn. rewrite (copy_count_of a k m Hwf Hk Hm). destruct Hwf as (Hf & Hc & _ & Hfl & Hb).
  rewrite Hk in *. unfold to_user. rewrite Hb.
  assert (Hq : Z.quot (n * (16 * m)) 4 = 4 * m * n /\ Z.quot (n * (16 * m)) 2 = 8 * m * n).
  { rewrite !Z.quot_div_nonneg by nia. split; symmetry; apply (Z.div_unique _ _ _ 0); lia. }
  destruct Hq as [Hq4 Hq2].
  destruct Hf as [Hf|[Hf|Hf]]; rewrite Hf in Hfl; destruct Hc as [Hc|[Hc|Hc]]; rewrite Hc in *;
    try discriminate Hfl; injection Hfl as ->; simpl; rewrite ?Hq4, ?Hq2; done.
Qed.

(** ** Theorems *)

(** C13: playing is a queue.  In a format other than 8-bit mono, and for 16-bit
    stereo once a rate has been set, any sequence of [write] calls of at least one
    byte and of whole samples, each at most the size of the temporary buffer, with
    interrupts between and during them, runs without an error.  A call takes a prefix of its bytes, and
    all of them unless it may not block; what was played and what is on its way
    is what was before followed by the conversion of the bytes that the calls
    took, in pieces of a fragment each, in order; nothing is lost, repeated or
    played out of order.  The invariant of the driver holds again at the end. *)
Theorem playing_fifo a k sh m u t evs s :
  playing a sh m u t s -> fill a = Some k -> k <> F1x8 -> rate_set a k -> 0 < m ->
  Forall (proper_event k t) evs ->
  exists calls asleep s', history evs s = Some (calls, asleep, s') /\ outcome a k sh m u t evs s calls asleep s'.
Proof. intros H Hk Hne Hr Hm Hev. by apply history_outcome. Qed.

(** C18: what was accepted is played.  Under the conditions of C13 (not 8-bit mono,
    for 16-bit stereo a rate set, writes of whole samples that fit the temporary
    buffer): after any history whose calls have returned, at most 64 more ends of transfers play everything that was accepted,
    and leave every buffer empty.  When a call of the history sleeps, the next end
    of a transfer wakes it if anything is still to be played. *)
Theorem playing_completes a k sh m u t evs s calls asleep s' :
  playing a sh m u t s -> fill a = Some k -> k <> F1x8 -> rate_set a k -> 0 < m ->
  Forall (proper_event k t) evs -> history evs s = Some (calls, asleep, s') ->
  if asleep then qB (outs s') ++ qF (outs s') <> [] -> exists s'', deliver s' Tx = Some (true, false, s'')
  else exists s'' outs, history (evs ++ replicate 64 (Irq Tx)) s = Some (calls, false, s'') /\
    Forall2 (accepted k sh u (copy_count a (16 * m))) calls outs /\
    played s'' = played s ++ waiting u s ++ concat outs /\ qE (I2sDriver.outs s'') ≡ₚ seqZ 0 (fragstotal s'').
Proof.
  intros H Hk Hne Hr Hm Hev E. destruct (history_outcome a k sh m u t Hk Hne Hr Hm evs s Hev H) as (cs & b & s1 & E1 & Ho).
  rewrite E in E1. injection E1 as <- <- <-. destruct Ho as [O1 _ _ (os & rest & Ha & Hp & Hx & _)].
  pose proof (pl_inv _ _ _ _ _ _ O1) as Hinv. destruct asleep.
  - intros Hw. destruct (busy_cases Out Hinv) as [Hb|[i Hb]]; simpl in Hb.
    { exfalso. apply Hw. by rewrite Hb, (nothing_busy (pl_moving _ _ _ _ _ _ O1) Hb). }
    destruct (tx_step Hinv Hb eq_refl) as (v & s2 & E2 & _). by exists s2.
  - rewrite (Hx eq_refl), app_nil_r in Hp. destruct (drain a sh m u t 64 s' O1) as (s2 & E2 & O2 & B2 & F2 & P2).
    { pose proof (hand_cases (i_stream _ _ _ Hinv Out)) as Hn. pose proof (i_total _ _ _ Hinv). simpl in Hn.
      rewrite length_app. lia. }
    exists s2, os. rewrite (history_app _ _ _ _ _ E), E2. cbn [mbind option_bind]. rewrite app_nil_r.
    split; [done|]. split; [done|]. split; [by rewrite P2; unfold flow; fold (waiting u s')|].
    pose proof (so_perm _ _ _ (i_stream _ _ _ (pl_inv _ _ _ _ _ _ O2) Out)) as Hpm. simpl in Hpm.
    rewrite B2, F2 in Hpm. simpl in Hpm. by rewrite app_nil_r in Hpm.
Qed.

(** C28: the room that is reported is there.  In a format other than 8-bit mono,
    and for 16-bit stereo once a rate has been set, a program that writes whole
    samples, no more than the temporary buffer holds and no more bytes than
    [SNDCTL_DSP_GETOSPACE] reports neither sleeps nor is cut short:
    under every schedule of interrupts the call takes all of its bytes, whether
    it may block or not. *)
Theorem reported_room kmalloc pages a k sh m u t nonblock data s s1 n total size bytes :
  playing a sh m u t s -> fill a = Some k -> k <> F1x8 -> rate_set a k -> 0 < m ->
  proper_event k t (Write nonblock data []) ->
  dsp_ioctl kmalloc pages true false DSP_GETOSPACE s = Some (0, Space n total size bytes, s1) ->
  Z.of_nat (length data) <= bytes ->
  forall sc, exists s2 sc2,
    jz_audio_write (length data) nonblock (Z.of_nat (length data)) (Some data) s1 sc =
      Some (Done (Z.of_nat (length data)), s2, sc2) /\ playing a sh m u t s2.
Proof.
  intros H Hk Hne Hr Hm (Hd & Hw & Ht) E Hb sc.
  pose proof (pl_inv _ _ _ _ _ _ H) as Hinv. pose proof (i_fmt _ _ _ Hinv) as Hwf. rewrite (pl_fmt _ _ _ _ _ _ H) in Hwf.
  destruct (counts (i_stream _ _ _ Hinv Out)) as (C & _ & _). simpl in C.
  assert (Hroom : s1 = s /\ bytes = copy_count a (16 * m) * Z.of_nat (length (qE (outs s)))).
  { unfold dsp_ioctl, space, elements_in_queue in E. rewrite (pl_fmt _ _ _ _ _ _ H), (pl_size _ _ _ _ _ _ H), C in E.
    rewrite Z.max_r in E by lia. rewrite (user_fragments a k) in E by (done || lia). cbn [mbind option_bind] in E.
    destruct (to_user a (16 * m)); [|done]. cbn [mbind option_bind] in E. by injection E as <- <- _ <- <-. }
  destruct Hroom as [-> ->].
  pose proof (write_safe a k sh m u t Hwf Hk Hne Hm Hr nonblock (length data) data s H Hd Hw Ht ltac:(lia) sc) as X.
  assert (Hfull : forall q s', took a k sh m u t nonblock (flow s u) (length (qE (outs s))) data q s' -> q = data).
  { intros q s' (_ & _ & rest & -> & Hx). destruct (decide (rest = [])) as [->|Hn0]; [by rewrite app_nil_r|].
    destruct (Hx Hn0) as [_ Hc]. rewrite length_app in Hb. destruct rest; [done|]. simpl in Hb. lia. }
  destruct (jz_audio_write _ _ _ _ s sc) as [[[[r| |] s2] sc2]|]; try done.
  - destruct X as (q & -> & Htk & _). exists s2, sc2. rewrite (Hfull _ _ Htk). split; [done|]. apply Htk.
  - destruct X as (_ & q & Hq & Htk). by destruct (Hq (Hfull _ _ Htk)).
Qed.
