(* ===== verification/I2sRecord.v ===== *)
(** * Recording

    What the codec delivers reaches the program: in order, fragment by fragment,
    whatever the moments at which transfers end. *)

From S2P Require Import Prelude.
From S2P Require Import Dma.
From S2P Require Import I2sFill.
From S2P Require Import I2sCodec.
From S2P Require Import I2sDriver.
From S2P Require Import I2sQueues.
From S2P Require Import I2sSystem.
From S2P Require Import I2sPlay.

#[local] Arguments Z.eqb : simpl never.
#[local] Arguments Z.ltb : simpl never.
#[local] Arguments Z.leb : simpl never.
#[local] Arguments Z.add : simpl never.
#[local] Arguments Z.sub : simpl never.
#[local] Arguments Z.mul : simpl never.
#[local] Arguments Z.of_nat : simpl never.
#[local] Arguments Z.to_nat : simpl never.
#[local] Open Scope sound_scope.

(** The bytes of a fragment of [16 * m] bytes of words. *)
Definition fragment_bytes (k : filler) (m : Z) : Z :=
  match k with F1x8 => 2 * m | F2x8 | F1x16 => 4 * m | F2x16 => 8 * m end.

Lemma evens_app l1 l2 : Nat.Even (length l1) -> evens (l1 ++ l2) = evens l1 ++ evens l2.
Proof. revert l1. refine (pair_ind _ _ _); [done|]. intros x y l H. simpl. by rewrite H. Qed.

Lemma bytes_app k l1 l2 : Nat.Even (length l1) -> bytes k (l1 ++ l2) = bytes k l1 ++ bytes k l2.
Proof.
  intros H. destruct k; simpl; rewrite ?(evens_app l1 l2 H), ?map_app, ?concat_app; done.
Qed.

Lemma length_evens l : Nat.Even (length l) -> (length l = 2 * length (evens l))%nat.
Proof. revert l. refine (pair_ind _ _ _); [done|]. intros x y l' H. simpl in *. lia. Qed.

Lemma length_fragment k m ws :
  Z.of_nat (length ws) = 4 * m -> 0 <= m -> Z.of_nat (length (bytes k ws)) = fragment_bytes k m.
Proof.
  intros Hl Hm. assert (He : Nat.Even (length ws)) by (exists (Z.to_nat (2 * m)); lia).
  assert (H16 : forall xs, length (concat (map (fun w => le16 (rec16 w)) xs)) = (2 * length xs)%nat).
  { induction xs as [|x xs IH]; [done|]. simpl. lia. }
  pose proof (length_evens ws He). destruct k; simpl; rewrite ?H16, ?length_map; lia.
Qed.

(** ** Between the steps of a call *)

(** The words of the full buffers, those of [g], which are in hand, first. *)
Definition stored (g : list Z) (s : state) : list Z := concat (map (heard s) (g ++ qF (ins s))).

(** Something is being recorded or waits to be read. *)
Definition alive (s : state) : Prop := qB (ins s) <> [] \/ qF (ins s) <> [].

Section Reader.
Context (a : audio) (k : filler) (m first0 : Z).
Context (Hk : fill a = Some k) (Hm : 0 < m).

(** [h] are the buffers in hand, of which [g] are full; [T] are the words that
    the program has taken, [tmp] is what the temporary buffer holds, and [first0]
    the flag of the first read. *)
Record listening (tmp : list Z) (b : bool) (h g T : list Z) (s : state) : Prop := {
  ln_inv : inv (hold In h) (start_at In b) s;
  ln_size : fragsize s = 16 * m; ln_fmt : fmt s = a; ln_tmp : tmp2 (ctl s) = tmp;
  ln_abn : abnormal_data_count (code s) <= 0;
  ln_whole : b = true -> whole_fragments s;
  ln_sub : forall j, j ∈ g -> j ∈ h;
  ln_words : captured s = T ++ stored g s;
  ln_first : first_record_call (flag s) = first0 }.

(** From [s] to [s'] only interrupts happened. *)
Record later (b : bool) (h : list Z) (s s' : state) : Prop := {
  la_listen : forall tmp g T, listening tmp b h g T s -> listening tmp b h g T s';
  la_full : exists x, qF (ins s') = qF (ins s) ++ x;
  la_idle : qB (ins s) = [] \/ b = false -> ins s' = ins s;
  la_alive : alive s -> alive s';
  la_heard : forall j, j ∈ h -> heard s' j = heard s j }.

Lemma later_refl b h s : later b h s s.
Proof. split; try done. exists []. by rewrite app_nil_r. Qed.

Lemma later_trans b h s1 s2 s3 : later b h s1 s2 -> later b h s2 s3 -> later b h s1 s3.
Proof.
  intros [A1 A2 A3 A4 A6] [B1 B2 B3 B4 B6]. split; auto.
  - destruct A2 as [x ->] in B2. destruct B2 as [y ->]. exists (x ++ y). by rewrite app_assoc.
  - intros Hi. rewrite <- (A3 Hi). apply B3. by rewrite (A3 Hi).
  - intros j Hj. by rewrite B6, A6.
Qed.

Lemma heard_tx hand st i u s s' : tx_done hand st i u s s' -> forall j, heard s' j = heard s j.
Proof.
  intros Hd j. unfold heard, buffer. rewrite (td_ins _ _ _ _ _ _ Hd), (td_ram _ _ _ _ _ _ Hd).
  by rewrite (e_size _ _ _ (td_env _ _ _ _ _ _ Hd In)).
Qed.

(** A full buffer, or one in hand, is not the busy one. *)
Lemma full_not_busy n t h i j :
  stream_ok n t h -> qB t = [i] -> j ∈ h \/ j ∈ qF t -> j <> i /\ 0 <= j < n.
Proof.
  intros Hok Hb Hj. split; [|apply (number_range Hok); tauto]. intros ->.
  assert (Hnd : NoDup (qE t ++ qF t ++ qB t ++ h)) by (rewrite (so_perm _ _ _ Hok); apply NoDup_seqZ).
  apply NoDup_app in Hnd as (_ & _ & Hnd). apply NoDup_app in Hnd as (_ & Hd & Hnd). rewrite Hb in Hd, Hnd.
  destruct Hj as [Hj|Hj].
  - apply NoDup_app in Hnd as (_ & Hd2 & _). apply (Hd2 i); [apply list_elem_of_here|done].
  - apply (Hd i Hj). apply elem_of_app. left. apply list_elem_of_here.
Qed.

Lemma listen_rx tmp h g T i got s s' :
  qB (ins s) = [i] -> rx_done (hold In h) (start_at In true) i got s s' ->
  listening tmp true h g T s -> listening tmp true h g T s'.
Proof.
  intros Hb Hd [L1 L2 L3 L4 L5 L6 L7 L8 L9]. pose proof (xd_env _ _ _ _ _ _ Hd) as He.
  destruct (xd_whole _ _ _ _ _ _ Hd (L6 eq_refl)) as (W & Hi & Hj). split; try done.
  - apply Hd.
  - by rewrite (e_size _ _ _ He).
  - by rewrite (e_fmt _ _ _ He).
  - by destruct (e_ctl _ _ _ He) as (x & y & ->).
  - unfold code. by rewrite (e_mix _ _ _ He).
  - rewrite (xd_captured _ _ _ _ _ _ Hd), L8, <- app_assoc. f_equal. unfold stored.
    rewrite (xd_full _ _ _ _ _ _ Hd), app_assoc, (map_app (heard s')), concat_app. cbn [map concat]. rewrite Hi, app_nil_r. f_equal. f_equal.
    apply map_ext_in. intros j Hin. apply list_elem_of_In, elem_of_app in Hin. symmetry.
    pose proof (i_stream _ _ _ L1 In) as Hok. rewrite hold_same in Hok.
    destruct (full_not_busy _ _ _ i j Hok Hb) as [Hne Hr]; [destruct Hin; auto|]. by apply Hj.
  - by rewrite (e_first _ _ _ He).
Qed.

Lemma listen_tx tmp b h g T i u s s' :
  tx_done (hold In h) (start_at In b) i u s s' -> listening tmp b h g T s -> listening tmp b h g T s'.
Proof.
  intros Hd [L1 L2 L3 L4 L5 L6 L7 L8 L9]. pose proof (td_env _ _ _ _ _ _ Hd Out) as He. split; try done.
  - apply Hd.
  - by rewrite (e_size _ _ _ He).
  - by rewrite (e_fmt _ _ _ He).
  - by destruct (e_ctl _ _ _ He) as (x & y & ->).
  - unfold code. by rewrite (e_mix _ _ _ He).
  - unfold whole_fragments. by rewrite (e_size _ _ _ He), (td_ins _ _ _ _ _ _ Hd).
  - rewrite (td_captured _ _ _ _ _ _ Hd), L8. unfold stored. rewrite (td_ins _ _ _ _ _ _ Hd). do 2 f_equal.
    apply map_ext_in. intros j _. symmetry. by eapply heard_tx.
  - by rewrite (e_first _ _ _ He).
Qed.

Lemma effect_later tmp b h g T s tx rx s' :
  listening tmp b h g T s -> effect (hold In h) (start_at In b) s tx rx s' ->
  later b h s s' /\ (rx = true -> qF (ins s') <> []).
Proof.
  intros L [|i u s2 Hb Hs Hd|i got s2 Hb Hs Hd].
  - split; [apply later_refl|done].
  - split; [|done]. pose proof (td_ins _ _ _ _ _ _ Hd) as Hi. split; rewrite ?Hi; try done.
    + intros tmp' g' T'. by eapply listen_tx.
    + exists []. by rewrite app_nil_r.
    + unfold alive. by rewrite Hi.
    + intros j _. by eapply heard_tx.
  - rewrite start_same in Hs. subst b. pose proof (xd_full _ _ _ _ _ _ Hd) as Hf. split.
    + split.
      * intros tmp' g' T'. by eapply listen_rx.
      * by exists [i].
      * rewrite Hb. by intros [|].
      * intros _. right. rewrite Hf. by destruct (qF (ins s)).
      * intros j Hj. destruct (xd_whole _ _ _ _ _ _ Hd (ln_whole _ _ _ _ _ _ L eq_refl)) as (_ & _ & Hh).
        pose proof (i_stream _ _ _ (ln_inv _ _ _ _ _ _ L) In) as Hok. rewrite hold_same in Hok.
        destruct (full_not_busy _ _ _ i j Hok Hb (or_introl Hj)). by apply Hh.
    + intros _. rewrite Hf. by destruct (qF (ins s)).
Qed.

Lemma deliver_later tmp b h g T s i :
  listening tmp b h g T s -> exists tx rx s', deliver s i = Some (tx, rx, s') /\ later b h s s' /\
    (rx = true -> qF (ins s') <> []).
Proof.
  intros L. destruct (deliver_effect i (ln_inv _ _ _ _ _ _ L)) as (tx & rx & s' & E & He). exists tx, rx, s'.
  split; [done|]. by apply (effect_later _ _ _ _ _ _ _ _ _ L He).
Qed.

Lemma safe_preempt_in tmp b h g T Q W s :
  listening tmp b h g T s -> (forall s', listening tmp b h g T s' -> later b h s s' -> Q tt s') -> safe preempt Q W s.
Proof.
  intros H HQ sc. unfold preempt.
  assert (exists s' sc', preempt_loop s sc = Some (s', sc') /\ later b h s s') as (s' & sc' & -> & Hd).
  { clear HQ. revert s H. induction sc as [|[i|] sc IH]; intros s H.
    - exists s, []. split; [done|apply later_refl].
    - destruct (deliver_later _ _ _ _ _ _ i H) as (tx & rx & s1 & E & Hd & _).
      destruct (IH s1 (la_listen _ _ _ _ Hd _ _ _ H)) as (s2 & sc2 & E2 & Hd2).
      exists s2, sc2. simpl. rewrite E. simpl. split; [done|]. by eapply later_trans.
    - exists s, sc. split; [done|apply later_refl]. }
  simpl. apply HQ; [|done]. by apply Hd.
Qed.

Lemma safe_sleep_rx tmp b h g T Q W s :
  listening tmp b h g T s ->
  (forall s', listening tmp b h g T s' -> later b h s s' -> qF (ins s') <> [] -> Q tt s') ->
  (forall s', listening tmp b h g T s' -> later b h s s' -> W s') -> safe (sleep_on Rx_wait) Q W s.
Proof.
  intros H HQ HW sc. unfold sleep_on.
  assert (exists r s' sc', sleep_loop Rx_wait s sc = Some (r, s', sc') /\ later b h s s' /\
    (r = Done tt /\ qF (ins s') <> [] \/ r = Asleep)) as (r & s' & sc' & -> & Hd & Hr).
  { clear HQ HW. revert s H. induction sc as [|[i|] sc IH]; intros s H.
    - exists Asleep, s, []. split; [done|]. split; [apply later_refl|by right].
    - destruct (deliver_later _ _ _ _ _ _ i H) as (tx & rx & s1 & E & Hd & Hwake). simpl. rewrite E. simpl. destruct rx.
      + exists (Done tt), s1, sc. split; [done|]. split; [done|]. left. auto.
      + destruct (IH s1 (la_listen _ _ _ _ Hd _ _ _ H)) as (r & s2 & sc2 & E2 & Hd2 & Hr).
        exists r, s2, sc2. split; [done|]. split; [by eapply later_trans|done].
    - by apply IH. }
  pose proof (la_listen _ _ _ _ Hd _ _ _ H). destruct Hr as [[-> He]| ->]; auto.
Qed.

(** ** Steps *)

Lemma listen_queue tmp b h g T s w q :
  listening tmp b h g T s -> forall h' g',
  inv (hold In h') (start_at In b) (with_queue In w q s) -> (forall j, j ∈ g' -> j ∈ h') -> w <> Busy ->
  forall T', T' ++ stored g' (with_queue In w q s) = T ++ stored g s -> listening tmp b h' g' T' (with_queue In w q s).
Proof.
  intros [L1 L2 L3 L4 L5 L6 L7 L8 L9] h' g' Hinv Hs Hw T' HT. split; try done.
  - intros Hb. destruct (L6 Hb) as [W1 W2]. split; [done|]. by destruct w.
  - by rewrite HT.
Qed.

Lemma safe_take_full tmp T s Q W :
  listening tmp true [] [] T s -> qF (ins s) <> [] ->
  (forall i s', 0 <= i -> listening tmp true [i] [i] T s' -> Q i s') -> safe (take_id In Full) Q W s.
Proof.
  intros L Hf HQ. pose proof (ln_inv _ _ _ _ _ _ L) as H. destruct (qF (ins s)) as [|i l] eqn:HF; [done|].
  destruct (take_spec In Full true s i l H ltac:(done) HF) as (q & Eq & Cq & Hinv).
  eapply safe_take; [exact Eq|].
  pose proof (number_head (i_stream _ _ _ H In) (or_intror (or_introl HF))).
  apply HQ; [lia|]. apply (listen_queue _ _ _ _ _ _ _ _ L); [exact Hinv|done|done|]. unfold stored. f_equal.
  change (qF (ins (with_queue In Full q s))) with (contents q). by rewrite Cq, HF.
Qed.

Lemma safe_take_empty tmp T s Q W :
  listening tmp true [] [] T s -> qE (ins s) <> [] ->
  (forall j s', 0 <= j -> listening tmp true [j] [] T s' -> qB (ins s') = qB (ins s) -> Q j s') ->
  safe (take_id In Empty) Q W s.
Proof.
  intros L Hf HQ. pose proof (ln_inv _ _ _ _ _ _ L) as H. destruct (qE (ins s)) as [|i l] eqn:HE; [done|].
  destruct (take_spec In Empty true s i l H ltac:(done) HE) as (q & Eq & Cq & Hinv).
  eapply safe_take; [exact Eq|].
  pose proof (number_head (i_stream _ _ _ H In) (or_introl HE)).
  apply HQ; [lia| |done]. apply (listen_queue _ _ _ _ _ _ _ _ L); [exact Hinv|intros j Hj; by apply elem_of_nil in Hj|done|done].
Qed.

Lemma safe_put_empty tmp T s i W :
  listening tmp true [i] [i] T s ->
  safe (put_id In Empty i) (fun _ s' => listening tmp true [] [] (T ++ heard s i) s') W s.
Proof.
  intros L. destruct (put_spec In Empty true s i (ln_inv _ _ _ _ _ _ L) ltac:(done)) as (q & Eq & Cq & Hinv); [done|].
  eapply safe_put; [exact Eq|].
  apply (listen_queue _ _ _ _ _ _ _ _ L); [exact Hinv|done|done|]. unfold stored. simpl. by rewrite <- app_assoc.
Qed.

(** The words of a full buffer. *)
Lemma heard_block tmp b h g T s i :
  listening tmp b h g T s -> 0 <= i < fragstotal s -> exists blk, buffer s (ins s) i = Some blk /\
    heard s i = take (Z.to_nat (4 * m)) blk /\ Z.of_nat (length (heard s i)) = 4 * m.
Proof.
  intros L Hi. pose proof (ln_inv _ _ _ _ _ _ L) as H.
  destruct (buffer_block (s := s) (i_stream _ _ _ H In) Hi) as (p & Hp & Hb). simpl in Hp, Hb.
  destruct (block_size s H In i p Hi Hp) as (blk & Hblk & Hsz). exists blk. rewrite Hb.
  assert (Hq : fragsize s / 4 = 4 * m).
  { rewrite (ln_size _ _ _ _ _ _ L). symmetry. apply (Z.div_unique _ _ _ 0); lia. }
  rewrite (ln_size _ _ _ _ _ _ L) in Hsz. unfold heard. rewrite Hb, Hblk, Hq.
  split; [done|]. split; [done|]. rewrite length_take. lia.
Qed.

Lemma safe_empty_buffer tmp T s i p mid post Q W :
  listening tmp true [i] [i] T s -> tmp = p ++ mid ++ post -> Z.of_nat (length mid) = fragment_bytes k m ->
  (forall s', listening (p ++ bytes k (heard s i) ++ post) true [i] [i] T s' -> heard s' i = heard s i ->
     Z.of_nat (length (heard s i)) = 4 * m -> Q (fragment_bytes k m) s') ->
  safe (empty_buffer (Z.of_nat (length p)) (4 * m) i) Q W s.
Proof.
  intros L Ht Hmid HQ. pose proof (ln_inv _ _ _ _ _ _ L) as H.
  assert (Hi : 0 <= i < fragstotal s).
  { apply (number_range (i_stream _ _ _ H In)). do 3 right. apply list_elem_of_here. }
  destruct (heard_block _ _ _ _ _ _ _ L Hi) as (blk & Hb & Hh & Hl).
  assert (Hev : Nat.Even (length (heard s i))) by (exists (Z.to_nat (2 * m)); lia).
  eapply safe_atomic.
  - rewrite Hb. cbn [mbind option_bind]. rewrite (ln_fmt _ _ _ _ _ _ L), (ln_tmp _ _ _ _ _ _ L), Ht.
    rewrite <- (take_drop (Z.to_nat (4 * m)) blk), <- Hh, <- Hl.
    rewrite (record_filler_spec a k _ p mid post (heard s i) _ Hk (ln_abn _ _ _ _ _ _ L) Hev); [reflexivity|].
    pose proof (length_fragment k m (heard s i) Hl). lia.
  - rewrite Hmid. apply HQ; [|done|done]. destruct L as [L1 L2 L3 L4 L5 L6 L7 L8 L9]. split; try done.
    apply (inv_same (hold In [i]) (start_at In true) s); try done. split; try done. intros q x Hx. by exists x.
Qed.

(** ** Starting to record *)

Lemma safe_put_busy tmp T s j W :
  listening tmp true [j] [] T s -> qB (ins s) = [] ->
  safe (put_id In Busy j) (fun _ s' => listening tmp false [] [] T s' /\ qB (ins s') = [j]) W s.
Proof.
  intros L Hb. destruct (put_busy_spec In s j (ln_inv _ _ _ _ _ _ L) Hb) as (q & Eq & Cq & Hinv);
    [by rewrite (ln_fmt _ _ _ _ _ _ L), Hk|done|].
  eapply safe_put; [exact Eq|]. split; [|exact Cq]. destruct L as [L1 L2 L3 L4 L5 L6 L7 L8 L9]. by split.
Qed.

Lemma inv_count s j l :
  inv (hold In []) (start_at In false) s -> qB (ins s) = [j] -> length l = length (dma_buf_data_count (ins s)) ->
  inv (hold In []) (start_at In false) (set_side In (set_data_count l (ins s)) s).
Proof.
  intros H Hb Hl. pose proof (i_stream _ _ _ H In) as Hok. simpl in Hok.
  apply (inv_side In (hold In []) (hold In []) (start_at In false) (start_at In false) s); try done.
  - split; try done; [by intros [|]|]. intros p b Hp. by exists b.
  - split; simpl; try apply Hok. rewrite Hl. apply Hok.
  - destruct (i_chan _ _ _ H In) as (c & r & Hat & Hm' & Hx). exists c, r. split; [done|]. split; [done|].
    simpl in Hx |- *. change (qB (set_data_count l (ins s))) with (qB (ins s)). rewrite Hb in *. done.
  - intros Hf. apply (i_set _ _ _ H Hf In).
Qed.

Lemma safe_set_count tmp T s j W :
  listening tmp false [] [] T s -> qB (ins s) = [j] ->
  safe (set_data_count_of In j (4 * m * 4))
    (fun _ s' => listening tmp false [] [] T s' /\ qB (ins s') = [j] /\ rd (dma_buf_data_count (ins s')) j = Some (16 * m)) W s.
Proof.
  intros L Hb. pose proof (ln_inv _ _ _ _ _ _ L) as H. pose proof (i_stream _ _ _ H In) as Hok. simpl in Hok.
  assert (Hj : 0 <= j < fragstotal s) by (apply (number_head (l := []) Hok); auto).
  assert (Hn : 0 <= j < Z.of_nat (length (dma_buf_data_count (ins s)))) by (rewrite (so_count _ _ _ Hok); lia).
  eapply safe_atomic; [by rewrite wr_Some by done|]. split; [|split; [done|]].
  - destruct L as [L1 L2 L3 L4 L5 L6 L7 L8 L9]. split; try done. eapply inv_count; [done|done|]. by rewrite length_insert.
  - simpl. rewrite rd_insert by lia. rewrite Z.eqb_refl. f_equal. lia.
Qed.

Lemma safe_start_in tmp T s j W :
  listening tmp false [] [] T s -> qB (ins s) = [j] -> rd (dma_buf_data_count (ins s)) j = Some (16 * m) ->
  safe (start In j) (fun _ s' => listening tmp true [] [] T s' /\ alive s') W s.
Proof.
  intros L Hb Hc. pose proof (ln_inv _ _ _ _ _ _ L) as H. pose proof (i_stream _ _ _ H In) as Hok. simpl in Hok.
  assert (Hj : 0 <= j < fragstotal s) by (apply (number_head (l := []) Hok); auto).
  destruct (buffer_block (s := s) Hok Hj) as (p & Hp & Hbk).
  destruct (block_size s H In j p Hj Hp) as (blk & Hblk & Hsz).
  assert (Hz : sized s (ins s) j).
  { exists (16 * m), blk. rewrite Hbk, Hblk, (ln_size _ _ _ _ _ _ L) in *. repeat (split; [done || lia|]). lia. }
  destruct (start_body_spec In s j H Hb Hz) as (d' & t & Es & Hinv & _).
  eapply safe_start; [exact Es|]. split.
  - destruct L as [L1 L2 L3 L4 L5 L6 L7 L8 L9]. split; try done. intros _. split.
    + exists m. simpl. lia.
    + simpl. rewrite Hb. apply Forall_singleton. by rewrite L2.
  - left. simpl. by rewrite Hb.
Qed.

(** A change of state that recording does not see. *)
Lemma listen_code tmp b h g T s c :
  listening tmp b h g T s -> abnormal_data_count c = abnormal_data_count (code s) ->
  listening tmp b h g T (set_code c s).
Proof.
  intros [L1 L2 L3 L4 L5 L6 L7 L8 L9] Hc. split; try done; [|by rewrite <- Hc in L5].
  apply (inv_same (hold In h) (start_at In b) s); try done. split; try done. intros q x Hx. by exists x.
Qed.

Lemma listen_next tmp b h g T s v : listening tmp b h g T s -> listening tmp b h g T (set_ctl (set_nextIn v (ctl s)) s).
Proof. intros [L1 L2 L3 L4 L5 L6 L7 L8 L9]. split; try done. by apply inv_ctl. Qed.

(** The empty buffer [j] in hand is made busy, up to the start of the transfer;
    [f] is a change of the codec's registers on the way. *)
Lemma safe_prepare tmp T s j (f : state -> state) (X : P unit) Q W :
  listening tmp true [j] [] T s -> qB (ins s) = [] ->
  (forall s, listening tmp false [] [] T s -> listening tmp false [] [] T (f s)) -> (forall s, ins (f s) = ins s) ->
  (forall s', listening tmp false [] [] T s' -> qB (ins s') = [j] ->
     rd (dma_buf_data_count (ins s')) j = Some (16 * m) -> safe X Q W s') ->
  safe (put_id In Busy j;;; preempt;;; set_data_count_of In j (4 * m * 4);;; modify f;;; preempt;;; X) Q W s.
Proof.
  intros L Hb Hf Hf2 HX. apply safe_bind. eapply safe_mono; [by apply (safe_put_busy tmp T)| |exact (fun _ x => x)].
  intros [] s1 [L1 B1]. apply safe_bind, (safe_preempt_in tmp false [] [] T); [done|]. intros s2 L2 D2.
  pose proof (la_idle _ _ _ _ D2 (or_intror eq_refl)) as I2. apply safe_bind.
  eapply safe_mono; [apply (safe_set_count tmp T s2 j); [done|by rewrite I2]| |exact (fun _ x => x)].
  intros [] s3 (L3 & B3 & C3). apply safe_bind, safe_modify, safe_bind, (safe_preempt_in tmp false [] [] T); [by apply Hf|].
  intros s4 L4 D4. pose proof (la_idle _ _ _ _ D4 (or_intror eq_refl)) as I4. rewrite (Hf2 s3) in I4.
  apply HX; [done|by rewrite I4|by rewrite I4].
Qed.

(** ** A round of the loop *)

(** The wait for a full buffer. *)
Lemma safe_wait_full tmp T s nonblock (K : P (Z * list Z)) r Q (Wt : state -> Prop) :
  listening tmp true [] [] T s -> alive s ->
  (nonblock = true -> forall s', listening tmp true [] [] T s' -> alive s' -> Q r s') ->
  (nonblock = false -> forall s', listening tmp true [] [] T s' -> alive s' -> Wt s') ->
  (forall s', listening tmp true [] [] T s' -> qF (ins s') <> [] -> safe K Q Wt s') ->
  safe (preempt;;;
        f <- elements In Full;;
        if (f <=? 0) && nonblock then ret r
        else (if f <=? 0 then preempt;;; sleep_on Rx_wait else ret tt);;; K) Q Wt s.
Proof.
  intros L A Hnb Hsl HK. apply safe_bind, (safe_preempt_in tmp true [] [] T); [done|]. intros s1 L1 D1.
  pose proof (la_alive _ _ _ _ D1 A) as A1. apply safe_bind, safe_elements.
  pose proof (counts (i_stream _ _ _ (ln_inv _ _ _ _ _ _ L1) In)) as (_ & C & _). simpl in C. simpl queue. simpl side. rewrite C.
  destruct (Z.leb_spec (Z.of_nat (length (qF (ins s1)))) 0) as [He|He].
  - destruct nonblock; simpl; [apply safe_ret; by apply Hnb|].
    apply safe_bind, safe_bind, (safe_preempt_in tmp true [] [] T); [done|]. intros s2 L2 D2.
    eapply safe_sleep_rx; [exact L2|intros s3 L3 D3 F3; by apply HK|intros s3 L3 D3; apply Hsl; [done|done|]].
    apply (la_alive _ _ _ _ D3), (la_alive _ _ _ _ D2), A1.
  - simpl. apply safe_bind, safe_ret. apply HK; [done|]. intros HF. rewrite HF in He. simpl in He. lia.
Qed.

(** Recording goes on if it has stopped. *)
Lemma safe_restart tmp T s (K : P (Z * list Z)) Q Wt :
  listening tmp true [] [] T s ->
  (forall s', listening tmp true [] [] T s' -> alive s' -> safe K Q Wt s') ->
  safe (b <- elements In Busy;;
        (if b =? 0 then
           preempt;;;
           j <- take_id In Empty;;
           if 0 <=? j then preempt;;; start_record j (4 * m) else ret tt
         else ret tt);;; K) Q Wt s.
Proof.
  intros L HK. apply safe_bind, safe_elements.
  pose proof (counts (i_stream _ _ _ (ln_inv _ _ _ _ _ _ L) In)) as (_ & _ & C). simpl in C. simpl queue. simpl side. rewrite C.
  destruct (Z.eqb_spec (Z.of_nat (length (qB (ins s)))) 0) as [H0|H0].
  2: { apply safe_bind, safe_ret. apply HK; [done|]. left. intros Hb. rewrite Hb in H0. done. }
  assert (Hb : qB (ins s) = []) by (destruct (qB (ins s)); [done|simpl in H0; lia]).
  apply safe_bind, safe_bind, (safe_preempt_in tmp true [] [] T); [done|]. intros s1 L1 D1.
  pose proof (la_idle _ _ _ _ D1 (or_introl Hb)) as I1. destruct (decide (qE (ins s1) = [])) as [HE|HE].
  - pose proof (i_stream _ _ _ (ln_inv _ _ _ _ _ _ L1) In) as Hok. pose proof (hand_cases Hok) as Hn. rewrite hold_same in Hn.
    pose proof (i_total _ _ _ (ln_inv _ _ _ _ _ _ L1)) as Ht. destruct (counts Hok) as (CE & _ & _). simpl in Hn, CE.
    apply safe_bind, safe_take_none; [simpl; by rewrite CE, HE|]. change (0 <=? -1) with false. apply safe_ret. apply HK; [done|].
    right. intros HF. rewrite HE, HF, I1, Hb in Hn. simpl in Hn. lia.
  - apply safe_bind, (safe_take_empty tmp T); [done|done|]. intros j s2 Hj L2 B2. rewrite (proj2 (Z.leb_le 0 j) Hj).
    apply safe_bind, (safe_preempt_in tmp true [j] [] T); [done|]. intros s3 L3 D3.
    assert (B3 : qB (ins s3) = []).
    { rewrite (la_idle _ _ _ _ D3); [by rewrite B2, I1|]. left. by rewrite B2, I1. }
    refine (safe_prepare tmp T s3 j (fun s => s) (start In j) _ _ L3 B3 (fun _ x => x) (fun _ => eq_refl) _).
    intros s4 L4 B4 C4. eapply safe_mono; [by apply (safe_start_in tmp T)| |exact (fun _ x => x)].
    intros [] s5 [L5 A5]. by apply HK.
Qed.

(** From a full buffer on: its bytes are at [length p] of the temporary buffer,
    and the loop goes on. *)
Lemma safe_round tmp T s p mid post fuel nonblock count done left data Q Wt :
  listening tmp true [] [] T s -> qF (ins s) <> [] -> tmp = p ++ mid ++ post ->
  Z.of_nat (length mid) = fragment_bytes k m -> done = Z.of_nat (length p) -> done + fragment_bytes k m <= count ->
  (forall ws s', Z.of_nat (length ws) = 4 * m -> listening (p ++ bytes k ws ++ post) true [] [] (T ++ ws) s' -> alive s' ->
     safe (read_loop fuel nonblock true count (done + fragment_bytes k m) (left - fragment_bytes k m) (4 * m)
             (data ++ bytes k ws)) Q Wt s') ->
  safe (preempt;;;
        i <- take_id In Full;;
        if 0 <=? i then
          preempt;;;
          cnt <- empty_buffer done (4 * m) i;;
          preempt;;;
          put_id In Empty i;;;
          preempt;;;
          b <- elements In Busy;;
          (if b =? 0 then
             preempt;;;
             j <- take_id In Empty;;
             if 0 <=? j then preempt;;; start_record j (4 * m) else ret tt
           else ret tt);;;
          let cnt := if count <? done + cnt then count - done else cnt in
          bytes <- gets (fun s => take (Z.to_nat cnt) (drop (Z.to_nat done) (tmp2 (ctl s))));;
          let done := done + cnt in
          preempt;;;
          modify (fun s => set_ctl (set_nextIn (nextIn (ctl s) + done) (ctl s)) s);;;
          read_loop fuel nonblock true count done (left - cnt) (4 * m) (data ++ bytes)
        else read_loop fuel nonblock true count done left (4 * m) data) Q Wt s.
Proof.
  intros L Hf Ht Hmid -> Hcount HK. apply safe_bind, (safe_preempt_in tmp true [] [] T); [done|]. intros s1 L1 D1.
  apply safe_bind, (safe_take_full tmp T); [done| |].
  { destruct (la_full _ _ _ _ D1) as [x ->]. by destruct (qF (ins s)). }
  intros i s2 Hi L2. rewrite (proj2 (Z.leb_le 0 i) Hi).
  apply safe_bind, (safe_preempt_in tmp true [i] [i] T); [done|]. intros s3 L3 D3.
  apply safe_bind. eapply (safe_empty_buffer tmp T s3 i p mid post); [done|done|done|]. intros s4 L4 H4 Hl4.
  set (ws := heard s3 i) in *. set (tmp' := p ++ bytes k ws ++ post) in *.
  apply safe_bind, (safe_preempt_in tmp' true [i] [i] T); [done|]. intros s5 L5 D5.
  assert (H5 : heard s5 i = ws) by (rewrite (la_heard _ _ _ _ D5 i (list_elem_of_here _ _)); exact H4).
  apply safe_bind. eapply safe_mono; [by apply (safe_put_empty tmp' T)| |exact (fun _ x => x)].
  intros [] s6 L6. rewrite H5 in L6. apply safe_bind, (safe_preempt_in tmp' true [] [] (T ++ ws)); [done|].
  intros s7 L7 _. apply (safe_restart tmp' (T ++ ws)); [done|]. intros s8 L8 A8. cbv zeta.
  rewrite (proj2 (Z.ltb_ge _ _) Hcount). apply safe_bind, safe_gets. rewrite (ln_tmp _ _ _ _ _ _ L8).
  assert (Hbytes : take (Z.to_nat (fragment_bytes k m)) (drop (Z.to_nat (Z.of_nat (length p))) tmp') = bytes k ws).
  { unfold tmp'. rewrite Nat2Z.id, drop_app_length, <- (length_fragment k m ws Hl4) by lia.
    by rewrite Nat2Z.id, take_app_length. }
  rewrite Hbytes. apply safe_bind, (safe_preempt_in tmp' true [] [] (T ++ ws)); [done|]. intros s9 L9 D9.
  apply safe_bind, safe_modify. apply HK; [done|by apply listen_next|]. by apply (la_alive _ _ _ _ D9).
Qed.

(** ** The loop *)

Let B := fragment_bytes k m.

(** The code that a call returns for [got] bytes, if it is short or not. *)
Definition read_code (short : bool) (got : Z) : Z := if short && (got =? 0) then - EAGAIN else got.

(** A call that has read the words [ws] and leaves [tmp']. *)
Definition has_read (t : nat) (T ws : list Z) (s : state) : Prop :=
  exists tmp, length tmp = t /\ listening tmp true [] [] (T ++ ws) s /\ alive s.

Lemma has_read_more t T ws ws' s : has_read t (T ++ ws) ws' s -> has_read t T (ws ++ ws') s.
Proof. intros (tmp & H). exists tmp. by rewrite app_assoc. Qed.

Lemma read_loop_ok nonblock : forall n fuel p rest tmp T data s,
  tmp = p ++ rest -> B * Z.of_nat n <= Z.of_nat (length rest) -> (n <= fuel)%nat ->
  listening tmp true [] [] T s -> alive s ->
  safe (read_loop fuel nonblock true (Z.of_nat (length p) + B * Z.of_nat n) (Z.of_nat (length p)) (B * Z.of_nat n) (4 * m) data)
    (fun x s' => exists ws j, (j <= n)%nat /\ Z.of_nat (length ws) = 4 * m * Z.of_nat j /\ has_read (length tmp) T ws s' /\
       x = (read_code (j <? n)%nat (Z.of_nat (length p) + B * Z.of_nat j), data ++ bytes k ws) /\ (nonblock = false -> j = n))
    (fun s' => nonblock = false /\ exists ws, has_read (length tmp) T ws s') s.
Proof.
  assert (HB : 0 < B) by (unfold B; destruct k; simpl; lia).
  induction n as [|n IH]; intros fuel p rest tmp T data s Ht Hlen Hf L A.
  { replace (B * Z.of_nat 0) with 0 by lia. assert (E : forall fl, read_loop fl nonblock true (Z.of_nat (length p) + 0)
      (Z.of_nat (length p)) 0 (4 * m) data = ret (Z.of_nat (length p), data)) by (by intros [|]).
    rewrite E. apply safe_ret. exists [], 0%nat. split; [done|]. split; [simpl; lia|].
    split; [exists tmp; by rewrite app_nil_r|]. split; [|done]. assert (bytes k [] = []) as -> by (by destruct k).
    rewrite app_nil_r. unfold read_code. simpl. by rewrite Z.mul_0_r, Z.add_0_r. }
  destruct fuel as [|fuel]; [lia|]. assert (Hs : B * Z.of_nat (S n) = B + B * Z.of_nat n) by lia.
  assert (Hn : 0 <= B * Z.of_nat n) by nia.
  cbn [read_loop]. rewrite (proj2 (Z.ltb_lt 0 (B * Z.of_nat (S n)))) by lia.
  apply (safe_wait_full tmp T); [done|done| | |].
  - intros -> s' L' A'. exists [], 0%nat. split; [lia|]. split; [simpl; lia|]. split; [exists tmp; by rewrite app_nil_r|].
    split; [|done]. assert (bytes k [] = []) as -> by (by destruct k). rewrite app_nil_r. unfold read_code. simpl.
    by rewrite Z.mul_0_r, Z.add_0_r.
  - intros -> s' L' A'. split; [done|]. exists []. exists tmp. by rewrite app_nil_r.
  - intros s1 L1 F1. set (mid := take (Z.to_nat B) rest). set (post := drop (Z.to_nat B) rest).
    assert (Hr : rest = mid ++ post) by (symmetry; apply take_drop).
    assert (Hmid : Z.of_nat (length mid) = B) by (unfold mid; rewrite length_take; lia).
    apply (safe_round tmp T s1 p mid post); [done|done|by rewrite Ht, Hr|done|done|fold B; lia|].
    intros ws s2 Hl L2 A2. fold B. pose proof (length_fragment k m ws Hl ltac:(lia)) as Hlb. fold B in Hlb.
    replace (Z.of_nat (length p) + B * Z.of_nat (S n)) with (Z.of_nat (length (p ++ bytes k ws)) + B * Z.of_nat n)
      by (rewrite length_app; lia).
    replace (Z.of_nat (length p) + B) with (Z.of_nat (length (p ++ bytes k ws))) by (rewrite length_app; lia).
    replace (B * Z.of_nat (S n) - B) with (B * Z.of_nat n) by lia.
    assert (Hlt : length (p ++ bytes k ws ++ post) = length tmp) by (rewrite Ht, Hr, !length_app; lia).
    assert (Hev : Nat.Even (length ws)) by (exists (Z.to_nat (2 * m)); lia).
    eapply safe_mono; [apply (IH fuel (p ++ bytes k ws) post (p ++ bytes k ws ++ post) (T ++ ws) (data ++ bytes k ws) s2)|..].
    + by rewrite app_assoc.
    + rewrite Hr, length_app in Hlen. lia.
    + lia.
    + done.
    + done.
    + intros x s' (ws' & j & Hj & Hl' & Hh & -> & Hnb). rewrite Hlt in Hh. exists (ws ++ ws'), (S j).
      split; [lia|]. split; [rewrite length_app; lia|]. split; [by apply has_read_more|]. split; [|intros Hx; by rewrite (Hnb Hx)].
      rewrite bytes_app, app_assoc by done. f_equal. change (S j <? S n)%nat with (j <? n)%nat. f_equal.
      rewrite length_app. lia.
    + intros s' (Hnb & ws' & Hh). rewrite Hlt in Hh. split; [done|]. exists (ws ++ ws'). by apply has_read_more.
Qed.

(** ** The first read *)

Lemma first_record_ok tmp T fuel s :
  (0 < fuel)%nat -> listening tmp true [] [] T s -> qB (ins s) = [] -> qE (ins s) <> [] ->
  safe (first_record fuel (4 * m)) (fun _ s' => listening tmp true [] [] T s' /\ alive s')
    (fun s' => listening tmp true [] [] T s' /\ alive s') s.
Proof.
  intros Hf L Hb He. destruct fuel as [|fuel]; [lia|]. cbn [first_record].
  apply safe_bind, (safe_take_empty tmp T); [done|done|]. intros j s1 Hj L1 B1. rewrite (proj2 (Z.leb_le 0 j) Hj).
  rewrite Hb in B1. apply safe_bind, (safe_preempt_in tmp true [j] [] T); [done|]. intros s2 L2 D2.
  apply (safe_prepare tmp T s2 j); [done|by rewrite (la_idle _ _ _ _ D2 (or_introl B1))| |done|].
  { intros s3 L3. by apply listen_code. }
  intros s3 L3 B3 C3. apply safe_bind. eapply safe_mono; [by apply (safe_start_in tmp T)| |exact (fun _ x => x)].
  intros [] s4 [L4 A4]. apply safe_bind, (safe_preempt_in tmp true [] [] T); [done|]. intros s5 L5 D5.
  pose proof (la_alive _ _ _ _ D5 A4) as A5.
  eapply safe_sleep_rx; [exact L5|intros s6 L6 D6 _|intros s6 L6 D6]; (split; [done|]); by apply (la_alive _ _ _ _ D6).
Qed.

End Reader.

Lemma listen_first a m v tmp b h g T s :
  listening a m v tmp b h g T s -> listening a m 0 tmp b h g T (set_flag (set_first 0 (flag s)) s).
Proof. intros [L1 L2 L3 L4 L5 L6 L7 L8 L9]. split; try done. by apply inv_flag. Qed.

(** ** Calls *)

(** Between calls: [T] are the words that the program has read. *)
Definition recording (a : audio) (m : Z) (t : nat) (T : list Z) (s : state) : Prop :=
  exists first tmp, length tmp = t /\ listening a m first tmp true [] [] T s /\
    (first = 0 /\ alive s \/ first <> 0 /\ qB (ins s) = [] /\ qE (ins s) <> []).

Lemma recording_read a m t (tmp T ws : list Z) s :
  has_read a m 0 (length tmp) T ws s -> length tmp = t -> recording a m t (T ++ ws) s.
Proof. intros (tmp' & Hl & L & A) Ht. exists 0, tmp'. split; [congruence|]. split; [done|]. by left. Qed.

Lemma read_safe a k m t T nonblock n fuel s :
  fill a = Some k -> 0 < m -> recording a m t T s -> (0 < n)%nat -> (n <= fuel)%nat ->
  fragment_bytes k m * Z.of_nat n <= Z.of_nat t ->
  safe (jz_audio_read fuel nonblock true (fragment_bytes k m * Z.of_nat n))
    (fun x s' => exists ws j, (j <= n)%nat /\ Z.of_nat (length ws) = 4 * m * Z.of_nat j /\ recording a m t (T ++ ws) s' /\
       x = (read_code (j <? n)%nat (fragment_bytes k m * Z.of_nat j), bytes k ws) /\ (nonblock = false -> j = n))
    (fun s' => exists ws, recording a m t (T ++ ws) s' /\ alive s') s.
Proof.
  intros Hk Hm (first & tmp & Ht & L & Hfirst) Hn Hf Hroom. unfold jz_audio_read. apply safe_bind, safe_modify.
  assert (L1 : listening a m first tmp true [] [] T (set_code (i2s_enable_record (i2s_enable_receive_dma (code s))) s))
    by (by apply listen_code).
  apply safe_bind. eapply safe_preempt_in; [exact L1|]. intros s2 L2 D2.
  apply safe_bind, safe_modify. set (s3 := set_ctl _ s2).
  assert (L3 : listening a m first tmp true [] [] T s3) by (by apply listen_next).
  apply safe_bind, safe_gets. assert (Hq : Z.quot (fragsize s3) 4 = 4 * m).
  { rewrite (ln_size _ _ _ _ _ _ _ _ _ L3), Z.quot_div_nonneg by lia. symmetry. apply (Z.div_unique _ _ _ 0); lia. }
  rewrite Hq. apply safe_bind, safe_gets. rewrite (ln_first _ _ _ _ _ _ _ _ _ L3).
  assert (Hloop : forall s4, listening a m 0 tmp true [] [] T s4 -> alive s4 ->
    safe (read_loop fuel nonblock true (fragment_bytes k m * Z.of_nat n) 0 (fragment_bytes k m * Z.of_nat n) (4 * m) [])
    (fun x s' => exists ws j, (j <= n)%nat /\ Z.of_nat (length ws) = 4 * m * Z.of_nat j /\ recording a m t (T ++ ws) s' /\
       x = (read_code (j <? n)%nat (fragment_bytes k m * Z.of_nat j), bytes k ws) /\ (nonblock = false -> j = n))
    (fun s' => exists ws, recording a m t (T ++ ws) s' /\ alive s') s4).
  { intros s4 L4 A4. eapply safe_mono;
      [exact (read_loop_ok a k m 0 Hk Hm nonblock n fuel [] tmp tmp T [] s4 eq_refl ltac:(lia) Hf L4 A4)|..].
    - intros x s' (ws & j & Hj & Hl & Hh & -> & Hnb). exists ws, j. split; [done|]. split; [done|].
      split; [by eapply recording_read|]. split; [|done]. done.
    - intros s' (_ & ws & Hh). exists ws. split; [by eapply recording_read|]. by destruct Hh as (? & _ & _ & ?). }
  apply safe_bind. destruct Hfirst as [[-> A]|(Hv & Hb & He)].
  - change (0 =? 0) with true. apply safe_ret. apply Hloop; [done|]. apply (la_alive _ _ _ _ _ _ _ D2). exact A.
  - rewrite (proj2 (Z.eqb_neq _ _) Hv). apply safe_bind, safe_modify.
    pose proof (la_idle _ _ _ _ _ _ _ D2 (or_introl Hb)) as I2. simpl in I2.
    eapply safe_mono; [apply (first_record_ok a k m 0 Hk Hm tmp T); [lia|by eapply listen_first| |]|..].
    + simpl. by rewrite I2.
    + simpl. by rewrite I2.
    + intros [] s4 [L4 A4]. by apply Hloop.
    + intros s4 [L4 A4]. exists []. rewrite app_nil_r. split; [|done]. exists 0, tmp. split; [done|]. split; [done|]. by left.
Qed.

(** ** Histories *)

(** A program's [read] of [n] fragments, or an interrupt between calls. *)
Inductive rec_event := Rec_irq (i : interrupt) | Read (nonblock : bool) (n : nat) (sc : sched).

(** The data that each completed call got, whether the last one sleeps, and the
    state; [size] is the number of bytes of a fragment. *)
Fixpoint rec_history (size : Z) (evs : list rec_event) (s : state) : option (list (list Z) * bool * state) :=
  match evs with
  | [] => Some ([], false, s)
  | Rec_irq i :: evs => '(_, s) ← deliver s i; rec_history size evs s
  | Read nonblock n sc :: evs =>
      match jz_audio_read n nonblock true (size * Z.of_nat n) s sc with
      | Some (Done (_, data), s, _) =>
          '(calls, asleep, s) ← rec_history size evs s; Some (data :: calls, asleep, s)
      | Some (Asleep, s, _) => Some ([], true, s)
      | _ => None
      end
  end.

Definition proper_read (size : Z) (t : nat) (e : rec_event) : Prop :=
  match e with Rec_irq _ => True | Read _ n _ => (0 < n)%nat /\ size * Z.of_nat n <= Z.of_nat t end.

Lemma recording_irq a m t T s i :
  recording a m t T s -> exists tx rx s', deliver s i = Some (tx, rx, s') /\ recording a m t T s'.
Proof.
  intros (first & tmp & Ht & L & Hf). destruct (deliver_later _ _ _ _ _ _ _ _ _ i L) as (tx & rx & s' & E & D & _).
  exists tx, rx, s'. split; [done|]. exists first, tmp. split; [done|]. split; [by apply D|].
  destruct Hf as [[-> A]|(Hv & Hb & He)].
  - left. split; [done|]. by apply (la_alive _ _ _ _ _ _ _ D).
  - right. by rewrite (la_idle _ _ _ _ _ _ _ D (or_introl Hb)).
Qed.

Fixpoint reads (evs : list rec_event) : list (bool * nat) :=
  match evs with
  | [] => []
  | Rec_irq _ :: evs => reads evs
  | Read nonblock n _ :: evs => (nonblock, n) :: reads evs
  end.

(** A call gets whole fragments, all that it asked for if it may sleep; [ws] are
    the words it was given. *)
Definition granted (m : Z) (rq : bool * nat) (ws : list Z) : Prop :=
  exists j, (j <= rq.2)%nat /\ Z.of_nat (length ws) = 4 * m * Z.of_nat j /\ (rq.1 = false -> j = rq.2).

(** What a history from [s] leads to: the calls got the words [wss] in bytes. *)
Record rec_result (a : audio) (k : filler) (m : Z) (t : nat) (evs : list rec_event) (T : list Z)
    (calls : list (list Z)) (asleep : bool) (s' : state) (wss : list (list Z)) (rest : list Z) : Prop := {
  rr_recording : recording a m t (T ++ concat wss ++ rest) s';
  rr_bytes : calls = map (bytes k) wss;
  rr_granted : Forall2 (granted m) (take (length calls) (reads evs)) wss;
  rr_all : asleep = false -> length calls = length (reads evs) /\ rest = [];
  rr_alive : asleep = true -> alive s' }.

Lemma rec_outcome a k m t :
  fill a = Some k -> 0 < m -> forall evs s T,
  Forall (proper_read (fragment_bytes k m) t) evs -> recording a m t T s ->
  exists calls asleep s' wss rest, rec_history (fragment_bytes k m) evs s = Some (calls, asleep, s') /\
    rec_result a k m t evs T calls asleep s' wss rest.
Proof.
  intros Hk Hm. induction evs as [|[i|nonblock n sc] evs IH]; intros s T Hev H; cbn [rec_history].
  - exists [], false, s, [], []. split; [done|]. split; try done. simpl. by rewrite app_nil_r.
  - apply Forall_cons in Hev as [_ Hev]. destruct (recording_irq _ _ _ _ _ i H) as (tx & rx & s1 & -> & H1). cbn [mbind option_bind].
    destruct (IH s1 T Hev H1) as (calls & b & s' & wss & rest & E & [R1 R2 R3 R4 R5]). exists calls, b, s', wss, rest.
    split; [done|]. by split.
  - apply Forall_cons in Hev as [[Hn Hroom] Hev].
    pose proof (read_safe a k m t T nonblock n n s Hk Hm H Hn ltac:(lia) Hroom sc) as X.
    destruct (jz_audio_read _ _ _ _ s sc) as [[[[[r data]| |] s1] sc1]|]; try done.
    + destruct X as (ws & j & Hj & Hl & H1 & [= -> ->] & Hnb).
      destruct (IH s1 (T ++ ws) Hev H1) as (calls & b & s' & wss & rest & -> & [R1 R2 R3 R4 R5]). cbn [mbind option_bind].
      exists (bytes k ws :: calls), b, s', (ws :: wss), rest. split; [done|]. split; try done.
      * simpl. rewrite <- !app_assoc in *. done.
      * by rewrite R2.
      * simpl. constructor; [|done]. by exists j.
      * intros Hb. destruct (R4 Hb) as [Hx ->]. simpl. by rewrite Hx.
    + destruct X as (ws & H1 & A1). exists [], true, s1, [], ws. split; [done|]. by split.
Qed.

(** C21: recording is a queue.  Any sequence of [read] calls of whole fragments,
    each at most the size of the temporary buffer, with interrupts between and
    during them, runs without an error.  Every call gets whole fragments, all it
    asked for unless it may not block; the bytes that the calls got, followed by
    what is in the full buffers, are the conversion of what the codec delivered,
    in order and without a gap.  When a call of the history sleeps while a
    transfer runs, the end of that transfer wakes it. *)
Theorem recording_fifo a k m t T evs s :
  recording a m t T s -> fill a = Some k -> 0 < m -> Forall (proper_read (fragment_bytes k m) t) evs ->
  exists calls asleep s' wss rest, rec_history (fragment_bytes k m) evs s = Some (calls, asleep, s') /\
    rec_result a k m t evs T calls asleep s' wss rest /\
    captured s' = T ++ concat wss ++ rest ++ stored [] s' /\
    (asleep = true -> qB (ins s') <> [] -> forall data, 4 * m <= Z.of_nat (length data) ->
     exists s'', deliver s' (Rx data) = Some (false, true, s'')).
Proof.
  intros H Hk Hm Hev. destruct (rec_outcome a k m t Hk Hm evs s T Hev H) as (calls & b & s' & wss & rest & E & R).
  exists calls, b, s', wss, rest. split; [done|]. split; [done|].
  destruct (rr_recording _ _ _ _ _ _ _ _ _ _ _ R) as (first & tmp & _ & L & _). split.
  - rewrite (ln_words _ _ _ _ _ _ _ _ _ L). by rewrite <- !app_assoc.
  - intros _ Hb data Hd. pose proof (ln_inv _ _ _ _ _ _ _ _ _ L) as Hinv. pose proof (ln_size _ _ _ _ _ _ _ _ _ L) as Hs.
    destruct (busy_cases In Hinv) as [Hx|[i Hx]]; [done|]. simpl in Hx.
    destruct (ln_whole _ _ _ _ _ _ _ _ _ L eq_refl) as [W1 W2]. rewrite Hx in W2. apply Forall_cons in W2 as [W2 _].
    destruct (rx_step (data := data) Hinv Hx eq_refl) as [[_ Hlt]|(n & s2 & _ & E2 & _)]; [|by exists s2].
    exfalso. specialize (Hlt W2 W1). rewrite Hs in Hlt. assert (16 * m / 4 = 4 * m) by (symmetry; apply (Z.div_unique _ _ _ 0); lia).
    lia.
Qed.
