(* ===== verification/I2sStart.v ===== *)
(** * Start-up of the sound driver

    Initialisation, opening and the commands that choose a format and the size
    of the fragments lead to the invariant under which playing is correct. *)

From S2P Require Import Prelude.
From S2P Require Import Dma.
From S2P Require Import I2sFill.
From S2P Require Import I2sCodec.
From S2P Require Import I2sDriver.
From S2P Require Import I2sQueues.
From S2P Require Import I2sSystem.
From S2P Require Import I2sPlay.
From S2P Require Import I2sSound.
From S2P Require Import I2sRecord.

#[local] Arguments Z.eqb : simpl never.
#[local] Arguments Z.ltb : simpl never.
#[local] Arguments Z.leb : simpl never.
#[local] Arguments Z.add : simpl never.
#[local] Arguments Z.sub : simpl never.
#[local] Arguments Z.mul : simpl never.
#[local] Arguments Z.of_nat : simpl never.
#[local] Arguments Z.to_nat : simpl never.

(** What [kmalloc] and [__get_free_pages] give when there is memory: arrays of
    the size asked for, and distinct blocks of [2 ^ order] pages in the directly
    mapped memory, for the two times 64 buffers that there can be. *)
Class allocator (kmalloc : nat -> nat -> option (list Z)) (pages : nat -> Z -> Z * list Z) : Prop := {
  al_arrays : forall k n, exists l, kmalloc k n = Some l /\ length l = n;
  al_range : forall n o, (n < 128)%nat -> PAGE_OFFSET <= (pages n o).1 < PAGE_OFFSET + 2 ^ 29;
  al_blocks : forall n o, (n < 128)%nat -> 0 <= o -> 4 * Z.of_nat (length (pages n o).2) = PAGE_SIZE * 2 ^ o;
  al_distinct : forall n n' o, (n < 128)%nat -> (n' < 128)%nat -> (pages n o).1 = (pages n' o).1 -> n = n' }.

(** ** The idle driver *)

(** No buffer is full or busy. *)
Definition idle_queues (t : stream) : Prop := qF t = [] /\ qB t = [].

(** The fragment sizes that the driver uses. *)
Definition fragment_sizes : list Z := [5 * PAGE_SIZE; 4 * PAGE_SIZE; 8 * PAGE_SIZE; 16 * PAGE_SIZE].

Record buffers_ok (s : state) : Prop := {
  bo_total : 2 <= fragstotal s <= 64;
  bo_size : fragsize s ∈ fragment_sizes;
  bo_stream : forall d, stream_ok (fragstotal s) (side d s) [];
  bo_idle : forall d, idle_queues (side d s);
  bo_mem : mem_ok s }.

Definition channels_ok (s : state) : Prop :=
  dma1 (ctl s) <> dma2 (ctl s) /\
  forall d, exists c r, chan_at (dmac s) (chan_of d s) c r /\ mode_wf d (mode c) /\ enabled r = false.

Record settings_ok (s : state) : Prop := {
  st_fmt : audio_wf (fmt s); st_pop : pop_dma_flag (flag s) <> 1; st_lasts : length (save_last_samples s) = 64%nat }.

Record fresh (s : state) : Prop := {
  fr_buffers : buffers_ok s; fr_channels : channels_ok s; fr_settings : settings_ok s }.

Lemma fresh_inv s : fresh s -> inv none all s.
Proof.
  intros [[B1 B2 B3 B4 B5] [C1 C2] [S1 S2 S3]]. destruct (B4 Out) as [FO BO], (B4 In) as [FI BI]. simpl in FO, BO, FI, BI.
  split; try done.
  - intros d. destruct (C2 d) as (c & r & Hat & Hm & He). exists c, r. split; [done|]. split; [done|].
    destruct (B4 d) as [_ ->]. done.
  - intros _ d. destruct (B4 d) as [HF HB]. done.
  - rewrite FO, BO. constructor.
  - intros _. rewrite BI. constructor.
Qed.

Lemma fragment_units n : n ∈ fragment_sizes -> n = 16 * (n / 16) /\ 0 < n / 16.
Proof.
  unfold fragment_sizes, PAGE_SIZE. rewrite !elem_of_cons, elem_of_nil.
  intros [-> |[-> |[-> |[-> |[]]]]]; vm_compute; split; reflexivity.
Qed.

(** With a format, it is ready to play. *)
Lemma fresh_playing s k :
  fresh s -> fill (fmt s) = Some k -> exists m u, 0 < m /\
    playing (fmt s) (codec_volue_shift (code s)) m u (length (tmp1 (ctl s))) s /\ waiting u s = [].
Proof.
  intros H Hk. pose proof (fresh_inv s H) as Hinv. destruct H as [[B1 B2 B3 B4 B5] [C1 C2] S].
  destruct (C2 Out) as (c & r & Hat & Hm & He). destruct (B4 Out) as [HF HB]. simpl in HF, HB, Hat.
  exists (fragsize s / 16), (unit_of Out (next_audio_mode Out (jz_audio_format (fmt s)) (mode c))).
  pose proof (fragment_units _ B2) as Hs.
  split; [apply Hs|]. split; [split; try done|].
  - exists c, r. split; [done|]. split; [done|]. by rewrite He.
  - apply Hs.
  - unfold moving. by rewrite HF.
  - unfold waiting. by rewrite HF, HB.
Qed.

(** Opened for reading, it is ready to record; what was recorded before counts as
    read. *)
Lemma fresh_recording s :
  fresh s -> first_record_call (flag s) <> 0 -> abnormal_data_count (code s) <= 0 -> exists m, 0 < m /\
    fragsize s = 16 * m /\ recording (fmt s) m (length (tmp2 (ctl s))) (captured s) s.
Proof.
  intros H Hf Ha. pose proof (fresh_inv s H) as Hinv. pose proof H as [[B1 B2 B3 B4 B5] _ _].
  destruct (B4 In) as [HF HB]. simpl in HF, HB. destruct (fragment_units _ B2) as [Hs Hm].
  exists (fragsize s / 16). split; [done|]. split; [done|]. exists (first_record_call (flag s)), (tmp2 (ctl s)). split; [done|].
  split.
  - split; try done.
    + apply (inv_ext none _ all); [by intros [|]|by intros [|]|done].
    + intros _. split; [exists (fragsize s / 16); lia|]. rewrite HB. constructor.
    + unfold stored. rewrite HF. simpl. by rewrite app_nil_r.
  - right. split; [done|]. split; [done|]. intros HE. pose proof (hand_cases (B3 In)) as Hn. simpl in Hn.
    rewrite HE, HF, HB in Hn. simpl in Hn. lia.
Qed.

(** ** Allocation *)

Section Alloc.
Context (kmalloc : nat -> nat -> option (list Z)) (pages : nat -> Z -> Z * list Z).
Context {Hal : allocator kmalloc pages}.

Lemma phys_small n o : (n < 128)%nat -> virt_to_phys (pages n o).1 = (pages n o).1 - PAGE_OFFSET.
Proof. intros Hn. pose proof (al_range n o Hn). unfold virt_to_phys, u32. apply Z.mod_small. lia. Qed.

Lemma phys_inj n n' o :
  (n < 128)%nat -> (n' < 128)%nat -> virt_to_phys (pages n o).1 = virt_to_phys (pages n' o).1 -> n = n'.
Proof. intros Hn Hn'. rewrite !phys_small by done. intros H. apply (al_distinct n n' o); [done|done|lia]. Qed.

(** Addresses of the buffers from number [base] on. *)
Definition addresses (o : Z) (base n : nat) : list Z := map (fun j => (pages j o).1) (seq base n).

Lemma length_addresses o base n : length (addresses o base n) = n.
Proof. unfold addresses. by rewrite length_map, length_seq. Qed.

(** Memory [m'] has the blocks of these buffers, and otherwise what [m] has. *)
Definition with_blocks (o : Z) (base n : nat) (m m' : gmap Z (list Z)) : Prop :=
  (forall j, (base <= j < base + n)%nat -> m' !! virt_to_phys (pages j o).1 = Some (pages j o).2) /\
  (forall p, p ∉ map virt_to_phys (addresses o base n) -> m' !! p = m !! p).

Lemma alloc_spec size : forall n base pre prep buf pbuf m,
  (base + n <= 128)%nat -> length prep = length pre -> length buf = n -> length pbuf = n ->
  exists m', alloc_buffers pages n size base (Z.of_nat (length pre)) (pre ++ buf) (prep ++ pbuf) m =
      Some (true, pre ++ addresses (get_order size) base n,
            prep ++ map virt_to_phys (addresses (get_order size) base n), m') /\
    with_blocks (get_order size) base n m m'.
Proof.
  set (o := get_order size). induction n as [|n IH]; intros base pre prep buf pbuf m H128 Hp Hb Hpb.
  - destruct buf, pbuf; try done. exists m. split; [done|]. split; [intros; lia|done].
  - destruct buf as [|b buf], pbuf as [|pb pbuf]; try done. injection Hb as Hb. injection Hpb as Hpb.
    cbn [alloc_buffers]. fold o. destruct (pages base o) as [ad blk] eqn:E.
    rewrite (wr_app pre) by done. cbn [mbind option_bind]. pose proof (al_range base o ltac:(lia)) as Hr. rewrite E in Hr. simpl in Hr.
    unfold PAGE_OFFSET in Hr. rewrite (proj2 (Z.eqb_neq _ _)) by lia. rewrite (wr_app prep) by (by rewrite Hp). cbn [mbind option_bind].
    destruct (IH (S base) (pre ++ [ad]) (prep ++ [virt_to_phys ad]) buf pbuf (<[virt_to_phys ad := blk]> m))
      as (m' & E' & Hin & Hout); [lia|by rewrite !length_app, Hp|done|done|].
    rewrite length_app, Nat2Z.inj_add, <- !app_assoc in E'. simpl app in E'. change (Z.of_nat (length [ad])) with 1 in E'.
    exists m'. rewrite E'. unfold addresses. cbn [seq map]. rewrite E. cbn [fst]. split; [done|]. split.
    + intros j Hj. destruct (decide (j = base)) as [->|Hjb]; [|apply Hin; lia]. rewrite E. simpl.
      rewrite Hout; [by rewrite lookup_insert_eq|]. unfold addresses. rewrite map_map. intros Hx.
      apply list_elem_of_In, in_map_iff in Hx as (j & Hj1 & Hj2). apply in_seq in Hj2.
      assert (j = base) by (apply (phys_inj j base o); [lia|lia|]; by rewrite E). lia.
    + intros p Hpn. apply not_elem_of_cons in Hpn as [Hp1 Hp2]. rewrite Hout by done. apply lookup_insert_ne. rewrite E in Hp1. by apply not_eq_sym.
Qed.


(** One direction, when there is memory. *)
Lemma init_stream_spec k base total size t m :
  0 <= total -> (base + Z.to_nat total <= 128)%nat ->
  exists t' m', init_stream kmalloc pages k base total size t m = Some (true, t', m') /\
    stream_ok total t' [] /\ idle_queues t' /\
    dma_pbuf t' = map virt_to_phys (addresses (get_order size) base (Z.to_nat total)) /\
    with_blocks (get_order size) base (Z.to_nat total) m m'.
Proof.
  intros Ht H128. unfold init_stream. set (n := Z.to_nat total).
  destruct (al_arrays k n) as (b1 & E1 & L1), (al_arrays (k + 1) n) as (b2 & E2 & L2), (al_arrays (k + 2) n) as (b3 & E3 & L3).
  destruct (al_arrays (k + 3) n) as (b4 & E4 & L4), (al_arrays (k + 4) n) as (b5 & E5 & L5), (al_arrays (k + 5) n) as (b6 & E6 & L6).
  rewrite E1, E2, E3, E4, E5, E6.
  destruct (alloc_spec size n base [] [] b1 b2 m H128 eq_refl L1 L2) as (m' & E & Hw). simpl app in E.
  change (Z.of_nat (length [])) with 0 in E. rewrite E. cbn [mbind option_bind].
  rewrite (drop_ge b4) by lia. rewrite app_nil_r. eexists _, m'. split; [done|].
  assert (Hq : qE (Stream (Queue total (seqZ 0 total)) (Queue 0 b5) (Queue 0 b6) (addresses (get_order size) base n)
     (map virt_to_phys (addresses (get_order size) base n)) b3) = seqZ 0 total).
  { unfold qE, contents. simpl. rewrite take_ge; [done|]. rewrite length_seqZ. lia. }
  split; [|done]. split; simpl; try done.
  - split; simpl; [rewrite length_seqZ|]; lia.
  - split; simpl; lia.
  - split; simpl; lia.
  - rewrite length_addresses. lia.
  - lia.
  - rewrite Hq. unfold qF, qB, contents. simpl. by rewrite app_nil_r.
  - unfold qB, contents. simpl. lia.
Qed.


Lemma order_fits size :
  size ∈ fragment_sizes -> 0 <= get_order size /\ 0 < size <= PAGE_SIZE * 2 ^ get_order size /\ PAGE_SIZE * 2 ^ get_order size < 2 ^ 32.
Proof.
  unfold fragment_sizes, PAGE_SIZE. rewrite !elem_of_cons, elem_of_nil.
  intros [-> |[-> |[-> |[-> |[]]]]]; vm_compute; intuition congruence.
Qed.

Lemma phys_addresses o base n :
  map virt_to_phys (addresses o base n) = map (fun j => virt_to_phys (pages j o).1) (seq base n).
Proof. unfold addresses. by rewrite map_map. Qed.

Lemma addresses_nodup o l :
  NoDup l -> (forall j, j ∈ l -> (j < 128)%nat) -> NoDup (map (fun j => virt_to_phys (pages j o).1) l).
Proof.
  intros H Hl. apply (NoDup_fmap_2_strong (fun j => virt_to_phys (pages j o).1)); [|done].
  intros x y Hx Hy. apply phys_inj; auto.
Qed.

Lemma Init_queues_spec s :
  2 <= fragstotal s <= 64 -> fragsize s ∈ fragment_sizes ->
  exists ti to m, Init_In_Out_queue kmalloc pages s = Some (1, set_ram m (set_outs to (set_ins ti s))) /\
    buffers_ok (set_ram m (set_outs to (set_ins ti s))).
Proof.
  intros Ht Hs. destruct (order_fits _ Hs) as [Ho Hfit]. set (o := get_order (fragsize s)) in *.
  set (n := Z.to_nat (fragstotal s)).
  destruct (init_stream_spec 0 0 (fragstotal s) (fragsize s) (ins s) (ram s)) as (ti & m1 & E1 & S1 & I1 & P1 & W1in & W1out); [lia|lia|].
  destruct (init_stream_spec 6 n (fragstotal s) (fragsize s) (outs s) m1) as (to & m2 & E2 & S2 & I2 & P2 & W2in & W2out); [lia|lia|].
  fold o n in P1, P2, W1in, W1out, W2in, W2out. exists ti, to, m2. split.
  { unfold Init_In_Out_queue. rewrite E1. cbn [mbind option_bind].
    change (outs (set_ram m1 (set_ins ti s))) with (outs s). change (ram (set_ram m1 (set_ins ti s))) with m1.
    change (fragsize (set_ram m1 (set_ins ti s))) with (fragsize s). fold n. rewrite E2. reflexivity. }
  rewrite phys_addresses in P1, P2.
  assert (Hnd : NoDup (dma_pbuf to ++ dma_pbuf ti)).
  { rewrite P1, P2, <- map_app. apply addresses_nodup.
    - apply NoDup_app. split; [apply NoDup_seq|]. split; [|apply NoDup_seq].
      intros j Hj Hj'. apply elem_of_seq in Hj. apply elem_of_seq in Hj'. lia.
    - intros j Hj. apply elem_of_app in Hj as [Hj|Hj]; apply elem_of_seq in Hj; lia. }
  split; try done.
  - by intros [|].
  - by intros [|].
  - split; [done|simpl; lia|]. apply Forall_forall. intros p Hp. simpl in Hp |- *.
    assert (Hb : exists j, (j < 128)%nat /\ m2 !! p = Some (pages j o).2).
    { pose proof Hnd as Hnd2. apply NoDup_app in Hnd2 as (_ & Hd & _). apply elem_of_app in Hp as [Hp|Hp].
      - rewrite P2 in Hp. apply list_elem_of_In, in_map_iff in Hp as (j & <- & Hj). apply in_seq in Hj.
        exists j. split; [lia|]. apply W2in. lia.
      - assert (Hno : p ∉ dma_pbuf to) by (intros Hx; by apply (Hd p)). rewrite P2, <- phys_addresses in Hno.
        rewrite (W2out p Hno). rewrite P1 in Hp. apply list_elem_of_In, in_map_iff in Hp as (j & <- & Hj). apply in_seq in Hj.
        exists j. split; [lia|]. apply W1in. lia. }
    destruct Hb as (j & Hj & Hb). exists (pages j o).2. split; [done|]. rewrite (al_blocks j o) by done. lia.
Qed.

(** Freeing the buffers of an idle driver. *)
Lemma free_all_spec l : forall m,
  NoDup (map virt_to_phys l) -> Forall (fun p => is_Some (m !! p)) (map virt_to_phys l) ->
  exists m', free_all l m = Some m' /\ forall p, p ∉ map virt_to_phys l -> m' !! p = m !! p.
Proof.
  induction l as [|x l IH]; intros m Hnd Hf; simpl; [by exists m|].
  simpl in Hnd, Hf. apply NoDup_cons in Hnd as [Hx Hnd]. apply Forall_cons in Hf as [[b Hb] Hf].
  destruct (x =? 0); cbn [mbind option_bind].
  - destruct (IH m Hnd Hf) as (m' & E & Ho). exists m'. split; [done|]. intros p Hp. apply not_elem_of_cons in Hp as [? ?]. auto.
  - unfold free_pages. rewrite Hb. cbn [mbind option_bind].
    destruct (IH (delete (virt_to_phys x) m) Hnd) as (m' & E & Ho).
    { eapply Forall_impl; [|intros p Hp; exact Hp]. rewrite Forall_forall in Hf |- *. intros p Hp.
      rewrite lookup_delete_ne; [by apply Hf|]. intros <-. done. }
    exists m'. split; [done|]. intros p Hp. apply not_elem_of_cons in Hp as [? ?]. rewrite Ho by done.
    by apply lookup_delete_ne, not_eq_sym.
Qed.

Lemma free_stream_spec s d m :
  buffers_ok s -> Forall (fun p => is_Some (m !! p)) (dma_pbuf (side d s)) ->
  exists t m', free_stream (fragstotal s) (side d s) m = Some (t, m') /\
    forall p, p ∉ dma_pbuf (side d s) -> m' !! p = m !! p.
Proof.
  intros [B1 B2 B3 B4 B5] Hf. pose proof (B3 d) as Hok. pose proof (so_buf _ _ _ Hok) as Hl.
  pose proof (so_pbuf _ _ _ Hok) as Hp. unfold free_stream. destruct (dma_buf (side d s)) as [|x l] eqn:E; [simpl in Hl; lia|].
  rewrite Hl, Z.ltb_irrefl. rewrite take_ge by lia.
  destruct (free_all_spec (x :: l) m) as (m' & -> & Ho).
  - rewrite <- Hp. pose proof (mo_nodup _ B5) as Hnd. apply NoDup_app in Hnd as (? & _ & ?). by destruct d.
  - by rewrite <- Hp.
  - cbn [mbind option_bind]. eexists _, m'. split; [done|]. intros p. rewrite Hp. apply Ho.
Qed.

Lemma Free_spec s :
  buffers_ok s -> exists ti to m, Free_In_Out_queue s = Some (1, set_ram m (set_ins ti (set_outs to s))).
Proof.
  intros H. pose proof (mo_blocks _ (bo_mem _ H)) as Hb.
  assert (Hs : Forall (fun p => is_Some (ram s !! p)) (dma_pbuf (outs s) ++ dma_pbuf (ins s))).
  { eapply Forall_impl; [exact Hb|]. intros p (blk & -> & _). done. }
  apply Forall_app in Hs as [Hso Hsi]. unfold Free_In_Out_queue.
  destruct (free_stream_spec s Out (ram s) H Hso) as (to & m1 & E1 & O1). simpl in E1. rewrite E1. cbn [mbind option_bind].
  change (ins (set_ram m1 (set_outs to s))) with (ins s). change (ram (set_ram m1 (set_outs to s))) with m1.
  change (fragstotal (set_ram m1 (set_outs to s))) with (fragstotal s).
  destruct (free_stream_spec s In m1 H) as (ti & m2 & E2 & _).
  { simpl in *. rewrite Forall_forall in Hsi |- *. intros p Hp. rewrite O1; [by apply Hsi|]. intros Hx.
    pose proof (mo_nodup _ (bo_mem _ H)) as Hnd. apply NoDup_app in Hnd as (_ & Hd & _). by apply (Hd p). }
  simpl in E2. rewrite E2. cbn [mbind option_bind]. by exists ti, to, m2.
Qed.


(** ** Commands *)

(** What the start-up hands on: nothing is played or captured, the temporary
    buffers stay, and no recorded data is to be thrown away. *)
Record carried (s s' : state) : Prop := {
  ca_played : played s' = played s; ca_captured : captured s' = captured s;
  ca_tmp1 : length (tmp1 (ctl s')) = length (tmp1 (ctl s)); ca_tmp2 : length (tmp2 (ctl s')) = length (tmp2 (ctl s));
  ca_abn : abnormal_data_count (code s) <= 0 -> abnormal_data_count (code s') <= 0 }.

Lemma carried_trans s1 s2 s3 : carried s1 s2 -> carried s2 s3 -> carried s1 s3.
Proof. intros [] []. split; try congruence. auto. Qed.

(** What leaves an idle driver idle. *)
Lemma fresh_fmt s a : fresh s -> audio_wf a -> fresh (set_fmt a s).
Proof. intros [[B1 B2 B3 B4 [M1 M2 M3]] C [S1 S2 S3]] Ha. split; [split; try done; by split|done|by split]. Qed.

Lemma fresh_code s c : fresh s -> fresh (set_code c s).
Proof. intros [[B1 B2 B3 B4 [M1 M2 M3]] C [S1 S2 S3]]. split; [split; try done; by split|done|by split]. Qed.

Lemma fresh_ctl s c : fresh s -> dma1 c = dma1 (ctl s) -> dma2 c = dma2 (ctl s) -> fresh (set_ctl c s).
Proof.
  intros [[B1 B2 B3 B4 [M1 M2 M3]] [C1 C2] [S1 S2 S3]] H1 H2. split; [split; try done; by split| |by split].
  split; simpl; [by rewrite H1, H2|]. intros d. destruct (C2 d) as (ch & r & Hat & Hx). exists ch, r. split; [|done].
  destruct d; simpl; by rewrite ?H1, ?H2.
Qed.

Lemma fresh_flag s f : fresh s -> pop_dma_flag f <> 1 -> fresh (set_flag f s).
Proof. intros [[B1 B2 B3 B4 [M1 M2 M3]] C [S1 S2 S3]] Ha. split; [split; try done; by split|done|by split]. Qed.

Lemma set_fragment_range val : let '(n, size) := set_fragment val in 2 <= n <= 32 /\ size ∈ fragment_sizes.
Proof.
  unfold set_fragment. pose proof (Z.mod_pos_bound val 32 ltac:(lia)) as Hv.
  change 31 with (Z.ones 5). rewrite Z.land_ones by lia. change (2 ^ 5) with 32. set (v := val mod 32) in *.
  split; [repeat (match goal with |- context [?x <? ?y] => destruct (Z.ltb_spec x y) end); lia|].
  assert (Hall : forallb (fun i =>
    let size := s32 (Z.shiftl 1 (Z.of_nat i)) in
    let size := if size <? 4 * PAGE_SIZE then 4 * PAGE_SIZE else size in
    let size := if 16 * PAGE_SIZE <? size then 16 * PAGE_SIZE else size in
    bool_decide (size ∈ fragment_sizes)) (seq 0 32) = true) by (vm_compute; reflexivity).
  rewrite forallb_forall in Hall. specialize (Hall (Z.to_nat v)). rewrite Z2Nat.id in Hall by lia.
  eapply bool_decide_eq_true, Hall, in_seq. lia.
Qed.

Lemma SETFRAGMENT_fresh s val :
  fresh s -> exists s', SETFRAGMENT kmalloc pages s val = Some (0, s') /\ fresh s' /\ carried s s' /\ flag s' = flag s.
Proof.
  intros [B C S]. unfold SETFRAGMENT. pose proof (set_fragment_range val) as Hr. destruct (set_fragment val) as [n size].
  destruct (_ && _); [by exists s|]. destruct (Free_spec s B) as (ti & to & m & ->). cbn [mbind option_bind].
  set (s1 := set_frag n size _). destruct (Init_queues_spec s1) as (ti' & to' & m' & -> & B'); [simpl; lia|apply Hr|].
  cbn [mbind option_bind]. eexists. split; [done|]. split; [|done]. split; [exact B'|exact C|destruct S; by split].
Qed.

(** The commands that ask for the state of the buffers divide by the size of a
    sample, which is not known before a format is set. *)
Definition setting_cmd (cmd : dsp_cmd) : Prop :=
  match cmd with DSP_GETOSPACE | DSP_GETISPACE | DSP_GETODELAY => False | _ => True end.

(** What a setting command returns: an error for an invalid address, a position
    asked for in a direction that is not open, a change of duplex and an unknown
    command, and success otherwise. *)
Definition setting_code (wr rd : bool) (cmd : dsp_cmd) : Z :=
  match cmd with
  | DSP_SPEED None | DSP_STEREO None | DSP_SETFMT None | DSP_CHANNELS None | DSP_SETTRIGGER None => - EFAULT
  | DSP_SETDUPLEX | DSP_OTHER => - EINVAL
  | DSP_GETIPTR => if rd then 0 else - EINVAL
  | DSP_GETOPTR => if wr then 0 else - EINVAL
  | _ => 0
  end.

Lemma command_fresh wr rd cmd s :
  fresh s -> setting_cmd cmd ->
  exists x s', dsp_ioctl kmalloc pages wr rd cmd s = Some (setting_code wr rd cmd, x, s') /\ fresh s' /\
    carried s s' /\ flag s' = flag s.
Proof.
  intros H Hc. pose proof (st_fmt _ (fr_settings _ H)) as Hwf.
  destruct cmd as [| | |[v|]|[v|]| | |[v|]|[v|]| | |v| | | | | | |[v|]| | | | | | |]; try done; cbn [dsp_ioctl setting_code];
    try (eexists _, _; split; [reflexivity|done]).
  - destruct (0 <=? v); [|by eexists _, _]. destruct (jz_audio_set_speed (fmt s) v) as [r a] eqn:E.
    eexists _, _. split; [reflexivity|]. split; [|done]. apply fresh_code, fresh_fmt; [done|].
    pose proof (set_audio_wf _ (Set_speed v) Hwf) as Hx. cbv beta iota delta [set_audio] in Hx. by rewrite E in Hx.
  - eexists _, _. split; [reflexivity|]. split; [|done]. apply fresh_fmt; [done|].
    apply (set_audio_wf _ (Set_channels (if v =? 0 then 1 else 2)) Hwf).
  - destruct (v =? AFMT_QUERY); [by eexists _, _|]. eexists _, _. split; [reflexivity|].
    pose proof (fresh_fmt s _ H (set_audio_wf _ (Set_format v) Hwf)) as Hx. cbv beta iota delta [set_audio] in Hx.
    destruct (_ || _); [split; [by apply fresh_code|done]|done].
  - eexists _, _. split; [reflexivity|]. split; [|done]. apply fresh_fmt; [done|].
    apply (set_audio_wf _ (Set_channels v) Hwf).
  - destruct (SETFRAGMENT_fresh s v H) as (s' & -> & Hf & Hp & Ec). cbn [mbind option_bind].
    by eexists _, _.
  - destruct rd; [|by eexists _, _]. eexists _, _. split; [reflexivity|]. split; [by apply fresh_ctl|done].
  - destruct wr; [|by eexists _, _]. eexists _, _. split; [reflexivity|]. split; [by apply fresh_ctl|done].
Qed.

End Alloc.

(** ** Opening *)

Lemma write_ids_spec n : forall i (pre l : list Z), length pre = Z.to_nat i -> 0 <= i -> (n <= length l)%nat ->
  exists post, write_ids n i (pre ++ l) = Some (pre ++ seqZ i (Z.of_nat n) ++ post) /\ length post = (length l - n)%nat.
Proof.
  induction n as [|n IH]; intros i pre l Hp Hi Hl; simpl.
  - exists l. split; [done|lia].
  - destruct l as [|x l]; [simpl in Hl; lia|]. rewrite wr_app by lia. cbn [mbind option_bind]. rewrite snoc_cons.
    destruct (IH (i + 1) (pre ++ [i]) l) as (post & -> & Hpost).
    { rewrite length_app. simpl. lia. }
    { lia. }
    { simpl in Hl. lia. }
    exists post. split; [|simpl; lia]. f_equal. rewrite <- app_assoc. f_equal. rewrite (seqZ_cons i) by lia.
    change (Z.succ i) with (i + 1). simpl. by replace (Z.pred (Z.of_nat (S n))) with (Z.of_nat n) by lia.
Qed.

Lemma reset_queues_spec n t :
  stream_ok n t [] -> 0 <= n -> exists t', reset_queues n t = Some t' /\ stream_ok n t' [] /\ idle_queues t' /\
    dma_pbuf t' = dma_pbuf t.
Proof.
  intros [E F B H1 H2 H3 H4 H5] Hn. unfold reset_queues. destruct E as [El Ec]. simpl in El.
  destruct (write_ids_spec (Z.to_nat n) 0 [] (id (empty_queue t))) as (post & Ew & Hpost); [done|lia|lia|].
  simpl app in Ew. rewrite Ew. cbn [mbind option_bind]. rewrite Z2Nat.id by lia. assert (post = []) as ->.
  { destruct post; [done|simpl in Hpost; lia]. }
  rewrite app_nil_r. eexists. split; [done|].
  assert (Hq : contents (Queue n (seqZ 0 n)) = seqZ 0 n).
  { unfold contents. simpl. rewrite take_ge; [done|]. rewrite length_seqZ. lia. }
  split; [|done]. split; simpl; try done.
  - split; simpl; [rewrite length_seqZ|]; lia.
  - destruct F as [Fl _]. split; simpl; lia.
  - destruct B as [Bl _]. split; simpl; lia.
  - unfold qE, qF, qB. simpl. rewrite Hq. unfold contents. simpl. by rewrite app_nil_r.
  - unfold qB, contents. simpl. lia.
Qed.

(** One direction of an idle driver opened. *)
Lemma fresh_side d t s :
  fresh s -> stream_ok (fragstotal s) t [] -> idle_queues t -> dma_pbuf t = dma_pbuf (side d s) -> fresh (set_side d t s).
Proof.
  intros [[B1 B2 B3 B4 [M1 M2 M3]] [C1 C2] [S1 S2 S3]] Ht Hi Hp. pose proof (B3 Out). pose proof (B3 In).
  pose proof (B4 Out). pose proof (B4 In).
  destruct d; (split; [split; try done|split; try done|by split]); try (intros [|]; done).
  all: split; try done; simpl in *; by rewrite Hp.
Qed.

Lemma fresh_lasts s : fresh s -> fresh (set_lasts (replicate 64 (0, 0)) s).
Proof. intros [[B1 B2 B3 B4 [M1 M2 M3]] C [S1 S2 S3]]. split; [split; try done; by split|done|by split]. Qed.

Lemma open_fresh wr rd s :
  fresh s -> opened1 (ctl s) <> 1 -> opened2 (ctl s) <> 1 ->
  exists s', jz_audio_open wr rd s = Some (0, s') /\ fresh s' /\ carried s s' /\
    (rd = true -> first_record_call (flag s') = 1).
Proof.
  intros H H1 H2. unfold jz_audio_open. set (s0 := set_flag (set_pop 0 (flag s)) s).
  assert (F0 : fresh s0) by (by apply fresh_flag). change (ctl s0) with (ctl s).
  rewrite (proj2 (Z.eqb_neq _ _) H1), (proj2 (Z.eqb_neq _ _) H2). cbn [orb].
  assert (Ho : exists s1, (if wr then open_out s0 else Some s0) = Some s1 /\ fresh s1 /\ carried s s1).
  { destruct wr; [|by exists s0]. unfold open_out.
    match goal with |- context [fragstotal ?x] => set (s2 := x) end.
    assert (F2 : fresh s2).
    { apply fresh_lasts, fresh_ctl; [|done|done]. apply fresh_flag; [|done]. apply fresh_ctl; [|done|done]. by apply fresh_ctl. }
    destruct (reset_queues_spec (fragstotal s2) (outs s2)) as (t & -> & Ht & Hi & Hp);
      [apply (bo_stream _ (fr_buffers _ F2) Out)|pose proof (bo_total _ (fr_buffers _ F2)); lia|].
    cbn [mbind option_bind]. eexists. split; [done|]. split; [|done]. apply fresh_flag; [|done].
    by apply (fresh_side Out t s2 F2). }
  destruct Ho as (s1 & -> & F1 & P1). cbn [mbind option_bind].
  assert (Hi : exists s3, (if rd then open_in s1 else Some s1) = Some s3 /\ fresh s3 /\ carried s s3 /\
    (rd = true -> first_record_call (flag s3) = 1)).
  { destruct rd; [|by exists s1]. unfold open_in.
    match goal with |- context [fragstotal ?x] => set (s2 := x) end.
    assert (F2 : fresh s2).
    { apply fresh_ctl; [|done|done]. apply fresh_flag; [|apply (st_pop _ (fr_settings _ F1))].
      apply fresh_ctl; [|done|done]. apply fresh_flag; [|apply (st_pop _ (fr_settings _ F1))]. by apply fresh_ctl. }
    destruct (reset_queues_spec (fragstotal s2) (ins s2)) as (t & -> & Ht & Hi & Hp);
      [apply (bo_stream _ (fr_buffers _ F2) In)|pose proof (bo_total _ (fr_buffers _ F2)); lia|].
    cbn [mbind option_bind]. eexists. split; [done|]. split; [by apply (fresh_side In t s2 F2)|].
    split; [by destruct P1|done]. }
  destruct Hi as (s3 & -> & F3 & [P3 C3 T3 V3 A3] & R3). cbn [mbind option_bind]. eexists. split; [done|].
  split; [by apply fresh_code|]. split; [|done]. split; [done|done|done|done|].
  intros Ha. specialize (A3 Ha). destruct wr, rd; simpl; unfold set_jzcodec_record, set_jzcodec_replay_record;
    repeat case_match; simpl; first [exact A3|lia].
Qed.

(** ** Initialisation *)

Lemma least_free_None m n : least_free m = Some n -> m !! n = None.
Proof.
  unfold least_free. destruct (list_find _ channels) as [[i x]|] eqn:E; [|done]. simpl. intros [= ->].
  by apply list_find_Some in E as (_ & ? & _).
Qed.

(** Every channel is disabled. *)
Definition quiet_channels (d : dma) : Prop := forall n r, rd (regs d) n = Some r -> enabled r = false.

Lemma request_step d m id dev n fifo md src :
  implements d m -> quiet_channels d -> least_free m = Some n -> 0 <= id < DMA_ID_MAX ->
  rd dma_dev_table id = Some (fifo, md, src) ->
  exists d' c r, jz_request_dma d id 0 (Some 0) dev = Some (n, d') /\ implements d' (<[n := id]> m) /\ quiet_channels d' /\
    chan_at d' n c r /\ mode c = md /\ enabled r = false /\
    forall n' c' r', n' <> n -> chan_at d n' c' r' -> chan_at d' n' c' r'.
Proof.
  intros Himp Hq Hf Hid Htab. destruct (request_refines d m id 0 (Some 0) dev Himp) as (r & d' & E & Hr & Himp').
  cbn [spec_call] in Hr, Himp'. rewrite decide_True in Hr, Himp' by done. rewrite Hf in Hr, Himp'. simpl in Hr, Himp'. subst r.
  pose proof (find_free_least d m Himp) as Hl. rewrite Hf in Hl. destruct Hl as (Hff & Hn & _).
  destruct (request_record d m id 0 (Some 0) dev n d' Himp (or_intror eq_refl) E ltac:(lia))
    as (_ & fifo' & md' & src' & line & idev & r & Htab' & _ & Hat). rewrite Htab in Htab'. injection Htab' as <- <- <-.
  assert (Hd : exists t, wr (jz_dma_table d) n (Chan id n 0 (IRQ_DMA_0 + n) dev fifo md src) = Some t /\
    d' = Dma t (regs d) ({[IRQ_DMA_0 + n]} ∪ irqs d) (DMACR d)).
  { destruct (chan_lt d n (proj1 Himp) Hn) as [c Hc]. unfold jz_request_dma in E.
    rewrite (proj2 (Z.ltb_ge _ _)), (proj2 (Z.leb_gt _ _)), Hff in E by lia.
    rewrite (proj2 (Z.eqb_neq _ _)), Hc, Htab in E by (unfold MAX_DMA_NUM; lia).
    pose proof (rd_Some_lt _ _ _ Hc). unfold set_chan in E. simpl in E. rewrite wr_Some in E by lia.
    injection E as <-. eexists. split; [by rewrite wr_Some by lia|done]. }
  destruct Hd as (t & Ht & ->). eexists _, _, r. split; [done|]. split; [done|]. split; [exact Hq|]. split; [exact Hat|].
  split; [done|]. destruct Hat as (_ & _ & _ & _ & Hrg). split; [by apply (Hq n)|].
  intros n' c' r' Hne (H1 & H2 & H3 & H4 & H5). repeat split; simpl; try done; try lia.
  rewrite (rd_wr _ _ _ _ _ Ht) by lia. by rewrite (proj2 (Z.eqb_neq _ _)) by lia.
Qed.

(** The module's data when it is loaded. *)
Record booted (s : state) : Prop := {
  bt_fmt : fmt s = audio_init; bt_pop : pop_dma_flag (flag s) = 0; bt_lasts : length (save_last_samples s) = 64%nat }.

Lemma attach_spec s m n2 n1 t1 t2 dev :
  implements (dmac s) m -> quiet_channels (dmac s) ->
  least_free m = Some n2 -> least_free (<[n2 := DMA_ID_I2S_RX]> m) = Some n1 ->
  exists c d', attach_jz_i2s s (Some t1) (Some t2) 0 0 dev =
      Some (true, set_dmac d' (set_ctl (Controller n1 n2 (opened1 (ctl s)) (opened2 (ctl s)) t1 t2 (nextIn (ctl s))
                    (nextOut (ctl s)) (total_bytes (ctl s)) (blocks (ctl s))) (set_code c s))) /\
    abnormal_data_count c = abnormal_data_count (code s) /\ n1 <> n2 /\ (exists ch r, chan_at d' n1 ch r /\ mode_wf Out (mode ch) /\ enabled r = false) /\
    (exists ch r, chan_at d' n2 ch r /\ mode_wf In (mode ch) /\ enabled r = false).
Proof.
  intros Himp Hq H2 H1.
  destruct (request_step (dmac s) m DMA_ID_I2S_RX dev n2 _ _ _ Himp Hq H2 ltac:(unfold DMA_ID_I2S_RX, DMA_ID_MAX; lia) eq_refl)
    as (d2 & c2 & r2 & E2 & Himp2 & Hq2 & Hat2 & Hm2 & He2 & _).
  destruct (request_step d2 _ DMA_ID_I2S_TX dev n1 _ _ _ Himp2 Hq2 H1 ltac:(unfold DMA_ID_I2S_TX, DMA_ID_MAX; lia) eq_refl)
    as (d1 & c1 & r1 & E1 & _ & _ & Hat1 & Hm1 & He1 & Hother).
  assert (Hne : n1 <> n2).
  { apply least_free_None in H1. intros ->. by rewrite lookup_insert_eq in H1. }
  eexists _, d1. split.
  { unfold attach_jz_i2s. change (dmac (set_code ?c s)) with (dmac s). rewrite E2. cbn [mbind option_bind].
    rewrite (proj2 (Z.ltb_ge _ _)) by (destruct Hat2; lia). change (dmac (set_dmac d2 ?x)) with d2. rewrite E1.
    cbn [mbind option_bind]. rewrite (proj2 (Z.ltb_ge n1 0)) by (destruct Hat1; lia). reflexivity. }
  split; [done|]. split; [done|]. split.
  - exists c1, r1. split; [done|]. split; [|done]. left. by rewrite Hm1.
  - exists c2, r2. split; [by apply Hother; [apply not_eq_sym|]|]. split; [|done]. left. by rewrite Hm2.
Qed.

Section Start.
Context (kmalloc : nat -> nat -> option (list Z)) (pages : nat -> Z -> Z * list Z).
Context {Hal : allocator kmalloc pages}.

Lemma init_fresh s m n2 n1 t1 t2 dev :
  booted s -> implements (dmac s) m -> quiet_channels (dmac s) ->
  least_free m = Some n2 -> least_free (<[n2 := DMA_ID_I2S_RX]> m) = Some n1 ->
  exists s', init_jz_i2s kmalloc pages s (Some t1) (Some t2) 0 0 dev = Some (true, s') /\ fresh s' /\
    (played s' = played s /\ captured s' = captured s /\ tmp1 (ctl s') = t1 /\ tmp2 (ctl s') = t2 /\
     abnormal_data_count (code s') = 0) /\ opened1 (ctl s') = 0 /\ opened2 (ctl s') = 0.
Proof.
  intros [B1 B2 B3] Himp Hq H2 H1. unfold init_jz_i2s.
  match goal with |- context [attach_jz_i2s ?x] => set (s0 := x) end.
  destruct (attach_spec s0 m n2 n1 t1 t2 dev Himp Hq H2 H1) as (c & d' & -> & Ha & Hne & Hout & Hin). cbn [mbind option_bind].
  match goal with |- context [Init_In_Out_queue _ _ ?x] => set (s1 := x) end.
  destruct (Init_queues_spec kmalloc pages s1) as (ti & to & mm & -> & Hb).
  { simpl. unfold JZCODEC_RW_BUFFER_TOTAL. lia. }
  { change (5 * PAGE_SIZE ∈ fragment_sizes). left. }
  cbn [mbind option_bind]. eexists. split; [done|]. split; [|split; [|done]].
  2: { split; [done|]. split; [done|]. split; [done|]. split; [done|]. exact Ha. }
  split; [exact Hb| |].
  - split; [exact Hne|]. intros [|]; [exact Hout|exact Hin].
  - split; [|simpl; lia|done]. change (audio_wf (fmt s)). rewrite B1. apply audio_wf_init.
Qed.

(** The commands of a program, one after the other, and what they return. *)
Fixpoint commands (wr rd : bool) (cmds : list dsp_cmd) (s : state) : option (list Z * state) :=
  match cmds with
  | [] => Some ([], s)
  | cmd :: cmds =>
      '(r, _, s) ← dsp_ioctl kmalloc pages wr rd cmd s;
      '(rs, s) ← commands wr rd cmds s;
      Some (r :: rs, s)
  end.

Lemma commands_fresh wr rd cmds : forall s,
  fresh s -> Forall setting_cmd cmds ->
  exists s', commands wr rd cmds s = Some (map (setting_code wr rd) cmds, s') /\ fresh s' /\ carried s s' /\ flag s' = flag s.
Proof.
  induction cmds as [|cmd cmds IH]; intros s H Hc; [by exists s|]. apply Forall_cons in Hc as [Hc Hcs]. simpl commands.
  destruct (command_fresh kmalloc pages wr rd cmd s H Hc) as (x & s1 & -> & H1 & C1 & L1). cbn [mbind option_bind].
  destruct (IH s1 H1 Hcs) as (s2 & -> & H2 & C2 & L2). cbn [mbind option_bind]. exists s2. split; [done|]. split; [done|].
  split; [by eapply carried_trans|congruence].
Qed.

(** Loading the module, opening the device and choosing settings: whether the
    sound controller was attached, what the opening returns, and what the commands
    return. *)
Definition session (s : state) (t1 t2 : list Z) (dev : Z) (wr rd : bool) (cmds : list dsp_cmd)
  : option (bool * Z * list Z * state) :=
  '(attached, s) ← init_jz_i2s kmalloc pages s (Some t1) (Some t2) 0 0 dev;
  '(r, s) ← jz_audio_open wr rd s;
  '(rs, s) ← commands wr rd cmds s;
  Some (attached, r, rs, s).

(** What holds after a session that started from [s]. *)
Record started (s : state) (t1 t2 : list Z) (rd : bool) (s' : state) : Prop := {
  sd_fresh : fresh s'; sd_inv : inv none all s'; sd_played : played s' = played s; sd_captured : captured s' = captured s;
  sd_play : forall k, fill (fmt s') = Some k -> exists f u, 0 < f /\ fragsize s' = 16 * f /\
    playing (fmt s') (codec_volue_shift (code s')) f u (length t1) s' /\ waiting u s' = [];
  sd_record : rd = true -> exists f, 0 < f /\ fragsize s' = 16 * f /\
    recording (fmt s') f (length t2) (captured s) s' }.

Lemma session_starts s m n2 n1 t1 t2 dev wr rd cmds :
  booted s -> implements (dmac s) m -> quiet_channels (dmac s) ->
  least_free m = Some n2 -> least_free (<[n2 := DMA_ID_I2S_RX]> m) = Some n1 -> Forall setting_cmd cmds ->
  exists s', session s t1 t2 dev wr rd cmds = Some (true, 0, map (setting_code wr rd) cmds, s') /\
    started s t1 t2 rd s'.
Proof.
  intros Hb Himp Hq H2 H1 Hc. unfold session.
  destruct (init_fresh s m n2 n1 t1 t2 dev Hb Himp Hq H2 H1) as (s1 & -> & F1 & (P1 & Q1 & T1 & U1 & A1) & O1 & O2).
  cbn [mbind option_bind].
  destruct (open_fresh wr rd s1 F1) as (s2 & -> & F2 & C2 & R2); [by rewrite O1|by rewrite O2|]. cbn [mbind option_bind].
  destruct (commands_fresh wr rd cmds s2 F2 Hc) as (s3 & -> & F3 & C3 & L3). cbn [mbind option_bind].
  destruct (carried_trans _ _ _ C2 C3) as [P3 Q3 T3 U3 A3]. exists s3. split; [done|].
  split; [done|by apply fresh_inv|congruence|congruence| |].
  - intros k Hk. destruct (fresh_playing s3 k F3 Hk) as (f & u & Hf & Hp & Hw). exists f, u.
    rewrite T3, T1 in Hp. split; [done|]. split; [apply Hp|]. by split.
  - intros Hrd. destruct (fresh_recording s3 F3) as (f & Hf & Hs & Hr).
    + by rewrite L3, (R2 Hrd).
    + apply A3. by rewrite A1.
    + rewrite U3, U1, Q3, Q1 in Hr. by exists f.
Qed.


End Start.
