(* ===== verification/I2sDemo.v ===== *)
(** * A run of the sound driver

    The theorems on playing applied to the driver as it is loaded, with an
    allocator of its own, opened for writing and set to 16-bit stereo. *)

From S2P Require Import Prelude.
From S2P Require Import Dma.
From S2P Require Import I2sFill.
From S2P Require Import I2sCodec.
From S2P Require Import I2sDriver.
From S2P Require Import I2sQueues.
From S2P Require Import I2sSystem.
From S2P Require Import I2sPlay.
From S2P Require Import I2sSound.
From S2P Require Import I2sRecord.
From S2P Require Import I2sStart.

Definition demo_kmalloc (k n : nat) : option (list Z) := Some (replicate n 99).
Definition demo_pages (n : nat) (o : Z) : Z * list Z :=
  (PAGE_OFFSET + 2 ^ 21 * Z.of_nat n, replicate (Z.to_nat (1024 * 2 ^ o)) 0).

#[export] Instance demo_allocator : allocator demo_kmalloc demo_pages.
Proof.
  split.
  - intros k n. eexists. split; [reflexivity|]. by rewrite length_replicate.
  - intros n o Hn. unfold demo_pages. simpl fst. lia.
  - intros n o _ Ho. unfold demo_pages. simpl snd. rewrite length_replicate, Z2Nat.id by lia. unfold PAGE_SIZE. lia.
  - intros n n' o _ _. unfold demo_pages. simpl fst. lia.
Qed.

Definition no_stream : stream := Stream (Queue 0 []) (Queue 0 []) (Queue 0 []) [] [] [].

Definition demo_boot : state :=
  St audio_init boot_mixer 0 0 (Flags 0 0 0 0 0) no_stream no_stream (replicate 64 (0, 0))
     (Controller 0 0 0 0 [] [] 0 0 0 0) dma_init ∅ [] [].

Lemma demo_booted : booted demo_boot.
Proof. by split. Qed.

Lemma demo_quiet : quiet_channels (dmac demo_boot).
Proof.
  intros n r H. unfold rd in H. destruct (0 <=? n); [|done]. apply list_elem_of_lookup_2, elem_of_replicate in H as [-> _].
  reflexivity.
Qed.

Definition demo_settings : list dsp_cmd := [DSP_SPEED (Some 44100); DSP_SETFMT (Some 16); DSP_STEREO (Some 1)].

(** The state after a session whose calls all succeed. *)
Definition demo_run (t2 : list Z) (wr rd : bool) (cmds : list dsp_cmd) : option state :=
  '(attached, r, rs, s) ← session demo_kmalloc demo_pages demo_boot (replicate 1000 0) t2 5 wr rd cmds;
  if attached && (r =? 0) && forallb (Z.eqb 0) rs then Some s else None.

Definition demo_session : option state := demo_run (replicate 1000 0) true false demo_settings.

Lemma demo_session_eq : demo_session = demo_run (replicate 1000 0) true false demo_settings.
Proof. reflexivity. Qed.

Lemma demo_format : (s ← demo_session; Some (fill (fmt s), 8000 <=? jz_audio_rate (fmt s))) = Some (Some F2x16, true).
Proof. vm_compute. reflexivity. Qed.

Lemma demo_settings_ok : Forall setting_cmd demo_settings.
Proof. by repeat constructor. Qed.

Lemma demo_free : least_free ∅ = Some 0 /\ least_free (<[0 := DMA_ID_I2S_RX]> ∅) = Some 1.
Proof. split; reflexivity. Qed.

(** A session of these settings. *)
Lemma demo_started t2 wr rd : exists s,
  session demo_kmalloc demo_pages demo_boot (replicate 1000 0) t2 5 wr rd demo_settings = Some (true, 0, [0; 0; 0], s) /\
  demo_run t2 wr rd demo_settings = Some s /\ started demo_boot (replicate 1000 0) t2 rd s.
Proof.
  destruct (session_starts demo_kmalloc demo_pages demo_boot ∅ 0 1 (replicate 1000 0) t2 5 wr rd demo_settings
    demo_booted implements_init demo_quiet (proj1 demo_free) (proj2 demo_free) demo_settings_ok) as (s & E & H).
  exists s. split; [exact E|]. split; [|exact H]. unfold demo_run. rewrite E. reflexivity.
Qed.

(** The state after the settings, by what matters of it. *)
Lemma demo_ready : exists s f u, demo_session = Some s /\ fill (fmt s) = Some F2x16 /\ rate_set (fmt s) F2x16 /\ 0 < f /\
  playing (fmt s) (codec_volue_shift (code s)) f u 1000 s /\ waiting u s = [].
Proof.
  destruct (demo_started (replicate 1000 0) true false) as (s & _ & E & H). rewrite <- demo_session_eq in E.
  pose proof demo_format as Ek. rewrite E in Ek. cbn [mbind option_bind] in Ek.
  injection Ek as Ef Er. apply Z.leb_le in Er.
  destruct (sd_play _ _ _ _ _ H _ Ef) as (f & u & Hf & _ & Hpl & Hw). rewrite length_replicate in Hpl. exists s, f, u.
  exact (conj E (conj Ef (conj (fun _ => Er) (conj Hf (conj Hpl Hw))))).
Qed.


Definition demo_data : list Z := map Z.of_nat (seq 0 40).
Definition demo_history : list event := [Write false demo_data [None; Some Tx]; Irq Tx; Write true demo_data []].

Lemma demo_proper : Forall (proper_event F2x16 1000) demo_history.
Proof. repeat constructor; try done; try (by exists 20%nat); vm_compute; lia. Qed.

Lemma demo_returns :
  (s ← demo_session; '(calls, asleep, s') ← history demo_history s; Some (calls, asleep)) =
  Some ([demo_data; demo_data], false).
Proof. vm_compute. reflexivity. Qed.

(** C13 at the history above. *)
Lemma playing_fifo_witness : exists s a f u calls asleep s', demo_session = Some s /\
  history demo_history s = Some (calls, asleep, s') /\
  outcome a F2x16 (codec_volue_shift (code s)) f u 1000 demo_history s calls asleep s'.
Proof.
  destruct demo_ready as (s & f & u & E & Hk & Hr & Hf & Hp & _).
  destruct (playing_fifo (fmt s) F2x16 _ f u 1000 demo_history s Hp Hk ltac:(discriminate) Hr Hf demo_proper)
    as (calls & b & s' & Eh & Ho).
  exists s, (fmt s), f, u, calls, b, s'. exact (conj E (conj Eh Ho)).
Defined.

(** C18 at the history above. *)
Lemma playing_completes_witness : exists s u s'' outs, demo_session = Some s /\
  history (demo_history ++ replicate 64 (Irq Tx)) s = Some ([demo_data; demo_data], false, s'') /\
  length outs = 2%nat /\ played s'' = played s ++ waiting u s ++ concat outs.
Proof.
  destruct demo_ready as (s & f & u & E & Hk & Hr & Hf & Hp & Hw). pose proof demo_returns as Hret. rewrite E in Hret.
  cbn [mbind option_bind] in Hret. destruct (history demo_history s) as [[[calls b] s']|] eqn:Eh; [|discriminate Hret].
  cbn [mbind option_bind] in Hret. injection Hret as -> ->.
  pose proof (playing_completes (fmt s) F2x16 _ f u 1000 demo_history s _ _ s' Hp Hk ltac:(discriminate) Hr Hf demo_proper Eh) as X.
  destruct X as (s'' & outs & E2 & Ha & Hpl & _). exists s, u, s'', outs. split; [exact E|]. split; [exact E2|].
  split; [symmetry; exact (Forall2_length _ _ _ Ha)|exact Hpl].
Defined.

Lemma demo_room :
  (s ← demo_session; '(r, x, _) ← dsp_ioctl demo_kmalloc demo_pages true false DSP_GETOSPACE s; Some (r, x)) =
  Some (0, Space 4 4 (Some 10240) 40960).
Proof. vm_compute. reflexivity. Qed.

(** C28 at the state above. *)
Lemma reported_room_witness : exists s1 s2 sc2,
  jz_audio_write 40 true 40 (Some demo_data) s1 [Some Tx] = Some (Done 40, s2, sc2).
Proof.
  destruct demo_ready as (s & f & u & E & Hk & Hr & Hf & Hp & Hw). pose proof demo_room as Hret. rewrite E in Hret.
  cbn [mbind option_bind] in Hret.
  destruct (dsp_ioctl demo_kmalloc demo_pages true false DSP_GETOSPACE s) as [[[r x] s1]|] eqn:Ei; [|discriminate Hret].
  cbn [mbind option_bind] in Hret. injection Hret as -> ->.
  destruct (reported_room demo_kmalloc demo_pages (fmt s) F2x16 _ f u 1000 true demo_data s s1 4 4 (Some 10240) 40960
    Hp Hk ltac:(discriminate) Hr Hf ltac:(split; [discriminate|split; [by exists 20%nat|vm_compute; lia]]) Ei
    ltac:(vm_compute; discriminate) [Some Tx]) as (s2 & sc2 & E2 & _).
  exists s1, s2, sc2. exact E2.
Defined.

(** ** Recording *)

Definition demo_reading : option state := demo_run (replicate (Z.to_nat 12000) 0) false true demo_settings.

Lemma demo_reading_eq : demo_reading = demo_run (replicate (Z.to_nat 12000) 0) false true demo_settings.
Proof. reflexivity. Qed.

Lemma demo_reading_facts : (s ← demo_reading; Some (fill (fmt s), fragsize s)) = Some (Some F2x16, 20480).
Proof. vm_compute. reflexivity. Qed.

Lemma demo_recording : exists s, demo_reading = Some s /\ fill (fmt s) = Some F2x16 /\
  recording (fmt s) 1280 (Z.to_nat 12000) [] s.
Proof.
  destruct (demo_started (replicate (Z.to_nat 12000) 0) false true) as (s & _ & E & H).
  rewrite <- demo_reading_eq in E. pose proof demo_reading_facts as Ek. rewrite E in Ek.
  cbn [mbind option_bind] in Ek. injection Ek as Ef Esize.
  destruct (sd_record _ _ _ _ _ H eq_refl) as (m & Hm & Hs & Hr). rewrite length_replicate in Hr.
  rewrite Esize in Hs. assert (m = 1280) as -> by lia. exists s. exact (conj E (conj Ef Hr)).
Qed.

Definition demo_samples : list Z := seqZ 0 6000.
Definition demo_reads : list rec_event := [Read false 1 [Some (Rx demo_samples)]; Rec_irq (Rx demo_samples); Read true 1 []].

Lemma demo_reads_proper : Forall (proper_read (fragment_bytes F2x16 1280) (Z.to_nat 12000)) demo_reads.
Proof. unfold demo_reads. repeat constructor; try lia; rewrite Z2Nat.id by lia; vm_compute; discriminate. Qed.

(** C21 at the history above. *)
Lemma recording_fifo_witness : exists s calls asleep s' wss rest, demo_reading = Some s /\
  rec_history (fragment_bytes F2x16 1280) demo_reads s = Some (calls, asleep, s') /\
  captured s' = concat wss ++ rest ++ stored [] s'.
Proof.
  destruct demo_recording as (s & E & Hk & Hr).
  destruct (recording_fifo (fmt s) F2x16 1280 (Z.to_nat 12000) [] demo_reads s Hr Hk ltac:(reflexivity) demo_reads_proper)
    as (calls & b & s' & wss & rest & Eh & _ & Hc & _).
  exists s, calls, b, s', wss, rest. exact (conj E (conj Eh Hc)).
Defined.

(** ** What a program must not do

    A stereo format without a sample size makes the queries of the buffers
    divide by zero, and a write before a format is set divides by zero or calls
    through a null pointer. *)

Definition after (cmds : list dsp_cmd) : option state := demo_run (replicate 1000 0) true false cmds.

Example query_before_format :
  (s ← after [DSP_STEREO (Some 1)]; dsp_ioctl demo_kmalloc demo_pages true false DSP_GETOSPACE s) = None.
Proof. vm_compute. reflexivity. Qed.

Example write_before_format :
  (s ← after []; jz_audio_write 40 false 40 (Some demo_data) s []) = None /\
  (s ← after [DSP_STEREO (Some 1)]; jz_audio_write 40 false 40 (Some demo_data) s []) = None.
Proof. vm_compute. split; reflexivity. Qed.

(** New fragments while a transfer runs: its end is then an interrupt without a
    busy buffer, and puts the number -1 past the end of the full queue of empty
    buffers. *)
Example fragments_while_playing :
  (s ← demo_session;
   '(_, s, _) ← jz_audio_write 40 false 40 (Some demo_data) s [];
   '(_, _, s) ← dsp_ioctl demo_kmalloc demo_pages true false (DSP_SETFRAGMENT (4 * 65536 + 15)) s;
   '(_, _, s) ← deliver s Tx; Some tt) = None.
Proof. vm_compute. reflexivity. Qed.

(** More bytes than the temporary buffer holds are copied past its end. *)
Example write_too_much :
  (s ← demo_session; jz_audio_write 1001 false 1001 (Some (replicate 1001 0)) s []) = None.
Proof. vm_compute. reflexivity. Qed.

(** The first read sleeps even if it may not block. *)
Example first_read_sleeps :
  (s ← demo_reading; '(r, _, _) ← jz_audio_read 1 true true 10240 s [];
   Some (match r with Asleep => true | _ => false end)) = Some true.
Proof. vm_compute. reflexivity. Qed.

(** Silence written in 16-bit stereo before a rate is set goes before the start of
    the buffer. *)
Example write_without_rate :
  (s ← after [DSP_SETFMT (Some 16); DSP_STEREO (Some 1)];
   jz_audio_write 40 false 40 (Some (replicate 40 0)) s []) = None.
Proof. vm_compute. reflexivity. Qed.
